(* ===== verification/_CoqProject ===== *)
-Q . S2P
Prelude.v
Clib.v
Keeps.v
ProfileList.v
Cmdline.v
Caps.v
Radix.v
Bpf.v
SyscallTables.v
SyscallGroups.v
FilterFile.v
Syscall.v
SyscallSpec.v
Fseccomp.v
DropSpec.v
Optimizer.v
Install.v
Concrete.v
SyscallTheorems.v
DropTheorems.v
OptimizerTheorems.v
ArgTheorems.v
InstallTheorems.v
Env.v
Text.v
Common.v
Fnetfilter.v
Mountinfo.v
Users.v
Util.v
UtilTheorems.v
Macros.v
Paths.v
Dbus.v
Checkcfg.v
ProfileState.v
ProfileCommands.v
ProfileLine.v
NetConfig.v
Startup.v
Sys.v
SysFiles.v
FsVar.v
FsEtc.v
RestrictUsers.v
FsBin.v
FsDev.v
Fs.v
FsHost.v
Trace.v
FsTheorems.v
FsHome.v
FsWhitelist.v
MainCommands.v
MainOptions.v
Session.v
Chroot.v
MainSetup.v
StartTheorems.v
ProfileReadTheorems.v
NetTheorems.v
OptionTheorems.v
Sandbox.v
Parent.v
Sbox.v
Join.v
MainTheorems.v
ProfileEntryTheorems.v
ProfileSpecTheorems.v
WhitelistTheorems.v
SandboxKeeps.v
SandboxTheorems.v
JoinTheorems.v
AgreementTheorems.v
ProfileTypeTheorems.v
ProfileDemo.v
FsDemo.v
MainDemo.v
SandboxDemo.v
JoinDemo.v
