(* ===== verification/Prelude.v ===== *)
(** * Firejail: a verification development

    Firejail is a set-uid sandbox for Linux.  The program firejail reads its options
    and the profiles of the program to run, clones a process into new namespaces,
    and this process builds the file system the program will see, installs seccomp
    filters, gives up its privileges and becomes the program.  Helpers do parts of
    it as unprivileged children: fseccomp writes filter files, fsec-optimize
    shortens them, fnet and fnetfilter set up the network.

    The development follows that path from the command line to execvp, and proves
    what it is for: a restriction that was asked for is in force when the program
    starts, and what root does on the way is confined to what it was asked to do.
    It is the x86_64 build, whose second architecture is i386.

    ** How a definition corresponds to the code

    A C function is a Gallina function of the same name, in the file listed below; a
    part of a long function has a name of its own and is called where the code has
    it.  A function that only computes returns its value, or an [outcome] when it
    may exit.  One that reads or changes shared state is a function in the monad
    [CM] of this file, from a state to an outcome and a state.  The states are
    [world] (files and descriptors, in fseccomp and fsec-optimize), [sandbox] (the
    filters of firejail), [Config] (the options and the profile list of firejail,
    the environment, and the list of effects so far) and [child] (all of this in the
    sandbox process, with what the kernel holds for it).  [Exit c] is [exit(c)],
    [AssertFail] a failed assert, [NoFuel] an iteration bound that was too small.  A
    write outside a buffer has no result ([None], turned into [AssertFail]).

    A system call of firejail is an effect: it is appended to the list of effects,
    and what it returns is asked of the host with the list so far.  The hosts are
    the classes [Host], [NetHost], [StartHost], [Kernel], [SessionHost],
    [ChildHost], [ParentHost], [JoinHost]; as their answers may depend on everything
    done before, a theorem holds whatever the other processes of the machine do in
    between, links that change behind a check included.  Kernel headers ([SysHeaders], [CapHeaders]),
    open(2) and write(2) of the helpers ([OS], [OSLaws]), prctl for capabilities
    ([CapKernel], [CapLaws]) and the filter machine ([BpfMachine], [BpfLaws]) are
    classes too; the laws are documented behaviour, and each has an instance.

    malloc and strdup do not fail; text printed for the user, the log of
    fs_logger.c and memory that is freed have no counterpart.

    ** Files

    Shared: [Prelude] (machine integers, the monad, list lemmas, hint databases),
    [Clib] and [Text] (functions of the C library on strings and numbers), [Keeps]
    (relations that computations keep, with the tactics that prove it), [Trace]
    (predicates on effects; what it means that a file was reached without links).

    Filters: [Bpf] (src/include/seccomp.h), [SyscallTables], [SyscallGroups],
    [Syscall] (src/lib), [FilterFile], [Fseccomp] (src/fseccomp),
    [Optimizer] (src/fsec-optimize), [Install] (main of fseccomp, seccomp.c of
    firejail, sbox_run).  [SyscallSpec] and [DropSpec] are the specifications,
    [Concrete] the headers of a current kernel.  Theorems:
    [SyscallTheorems], [DropTheorems], [ArgTheorems], [OptimizerTheorems],
    [InstallTheorems].

    Helpers of firejail (src/firejail unless named): [ProfileList] (the argument
    lists of profile.c), [Cmdline], [Caps] (caps.c, set_caps), [Env], [Common]
    (src/lib/common.c, src/include/common.h), [Util], [Macros], [Paths],
    [Mountinfo], [Users] and [RestrictUsers] (restrict_users.c), [Dbus], [Checkcfg],
    [NetConfig] (network_main.c, arp.c), [Fnetfilter] (src/fnetfilter), [Radix]
    (src/fnettrace/radix.c).  Their theorems are in the same file, or in
    [UtilTheorems], [ArgTheorems] (the lists), [NetTheorems].

    Profiles: [ProfileState] (the state), [ProfileCommands] (the commands of
    profile_check_line), [ProfileLine] (its dispatch, and the reading of files).  [ProfileReadTheorems]: a
    profile unsets no restriction; [ProfileEntryTheorems]: what gets into the
    list; [ProfileSpecTheorems]: what lines and files do, and that reading ends;
    [ProfileTypeTheorems]: every field keeps a value of its range.

    main.c: [Startup] (before the options: users, links to firejail, --output),
    [MainCommands] (commands that end the program), [MainOptions] (every option),
    [MainSetup] (the program, its profile, AppImages, the checks, clone).
    [OptionTheorems], [MainTheorems], [StartTheorems], [AgreementTheorems]: an option
    does what the profile line does, arguments of the program are no options, a
    restriction reaches the sandbox process.

    File system: [Sys] and [SysFiles] (the calls of util.c), [FsVar], [FsEtc],
    [FsBin], [FsDev], [FsHost] (fs_hostname.c, fs_trace.c), [FsHome] (fs_home.c,
    fs_mkdir.c), [Fs] (fs.c), [FsWhitelist].  [FsTheorems]: what fs_blacklist
    hides and remounts; [WhitelistTheorems]: what fs_whitelist
    mounts, with whose rights, and that it ends.

    The sandbox process: [Session] (pulseaudio.c, x11.c, dbus.c), [Chroot]
    (preproc.c, chroot.c), [Sandbox] (sandbox.c, rlimit.c, cpu.c, protocol.c,
    netns.c, netfilter.c).  [SandboxKeeps]: which variables the whole set-up leaves
    alone; [SandboxTheorems]: what is in force when the program starts, the
    monitor, the lock, --chroot, --private-bin, D-Bus.

    The other processes: [Parent] (main behind clone: the network, the id maps, the
    messages to the sandbox process), [Sbox] (sbox.c: what a helper gives up before
    it starts), [Join] (join.c, process.c: the program started in a sandbox that is
    running).  [JoinTheorems]: what helpers and joining processes are confined to,
    which sandbox is joined, that it gets what the sandbox has saved, and that
    [Parent] answers as [SandboxTheorems] assumes of it ([ParentLaws]).

    [ProfileDemo], [FsDemo], [MainDemo], [SandboxDemo], [JoinDemo]: hosts on which everything is
    evaluated.

    ** What the theorems show

    - From the command line to the program ([SandboxTheorems], [MainTheorems]): the
      options --nonewprivs, --caps.drop=all and --nogroups hold for the program
      whatever else was read; the filters, capabilities, groups and ids of the
      program are those of the configuration at clone; the filter of a list of
      --seccomp.drop is in force in the kernel (lists of up to 59 entries; a listed
      number of no known call passes).
    - Filters: for every builder the bytes in the file decode to a program that
      returns, for every system call, the action the list asks for; the optimizer
      keeps the decisions of up to 256 records; a walk over a list calls back once
      per entry of its meaning.
    - Profiles: no profile, with its includes, unsets a restriction or unblocks a bus
      (the values of options may be replaced); every entry has an argument that was
      checked, those of whitelist-ro lines aside; flags stay 0 or 1; reading ends.
    - File system: a blacklist hides exactly what some line stands for; remounts
      remove no flag; what root mounts for whitelists, tmpfs lines, --private-bin and
      --chroot lies where it has to, opened without links, the targets of whitelists
      directory by directory.
    - Processes: the monitor returns when no process is left, or, if asked to, with
      the application, and does return; the
      lock of /run/firejail is taken or given up; waiting for a sandbox ends.
    - Joining: only a complete sandbox of the own user is joined; the program a user
      other than root starts in it runs with its filters (not with --join-network),
      umask and CPUs, and within its capabilities; a helper program starts only confined as its flags say.
    - Helpers: round trips of the quoted command line, environment, mount
      information; bounds of buffers; addresses that are assigned.

    ** Interfaces

    Between the components: [Primitives] and [SandboxPrimitives] state what a
    relation between configurations must tolerate (an effect, a variable on a list,
    a line of the profile); the keeps-lemmas of all programs are proved against them
    once, and each theorem about something that stays gives an instance.

    ** Bounds and fuel

    - [SCL_DEPTH] = 4 bounds the nesting of groups; the groups nest three deep
      ([syscall_check_list_terminates]).
    - [write_loop] has one round per byte ([write_to_file_appends]); the loops of
      [ProfileList], [Mountinfo], [Common], [Util] and [Fnetfilter] have one round
      per character or line, and lemmas there state that they return.
    - Includes nest [MAX_INCLUDE_LEVEL] = 16 deep, which is also the fuel
      ([profile_read_terminates]).
    - The loop of fs_whitelist runs on a list it extends; the fuel is an argument,
      and [whitelist_loop_terminates] says when there is enough.
    - The lock is tried [LOCK_ROUNDS] = 20 times, which its timeout needs
      ([lock_loop_bounded]).
    - A joining process looks for its sandbox as often as join-timeout allows
      ([check_joinable_bounded]); the fuel of the walk to the process that made the
      pid namespace is an argument.
    - The monitor consumes the returns of waitpid one by one; without a further one it
      waits ([NoFuel]); [monitor_ends] says when it returns.
    - The choice of an address tries the range once ([arp_assign_complete]).
    - [numbers_ok] and [nr_ok] keep call numbers in the range of a non-negative
      [int]; a filter file of 8192 records or more is read modulo 8192
      ([load_filter_roundtrip]); the theorems on installed drop filters bound the
      list to 60 entries, for which the jump offsets of the optimizer fit.

    ** Not modelled

    Output (--debug options, fs_logger.c, fsec-print, the print commands), SELinux
    labels, the tables of other architectures; the netlink calls of fnet; stopping a
    sandbox and looking at its files (shutdown.c, ls.c); signal handlers; X11
    servers; the network monitors but for their address tree; the libraries that
    trace a program; the tools.  These print, wait for other programs, or call a
    kernel interface whose results nothing else in firejail depends on.

    ** What could follow

    The printed form of filters, fcopy, the packet parsers of the monitors. *)

From stdpp Require Export base gmap strings list list_numbers.
From Stdlib Require Export ZArith Lia.
Global Open Scope Z_scope.
Export Stdlib.Strings.Ascii.AsciiSyntax.
Delimit Scope char_scope with char.
Bind Scope char_scope with Ascii.ascii.
Notation ascii := Ascii.ascii.

(** ** Machine integers

    A C object of a w-bit unsigned type is a [Z] reduced modulo [2^w]; a store
    into a narrower object is one of the truncations below.  [s32] is the value
    of an [int] after a conversion that does not fit (two's complement, as gcc
    defines it). *)

Definition u8 (z : Z) : Z := z mod 2 ^ 8.
Definition u16 (z : Z) : Z := z mod 2 ^ 16.
Definition u32 (z : Z) : Z := z mod 2 ^ 32.
Definition u64 (z : Z) : Z := z mod 2 ^ 64.
Definition s32 (z : Z) : Z := (z + 2 ^ 31) mod 2 ^ 32 - 2 ^ 31.

Definition INT_MAX : Z := 2147483647.
Definition INT_MIN : Z := -2147483648.
Definition LONG_MAX : Z := 9223372036854775807.
Definition LONG_MIN : Z := -9223372036854775808.

Arguments u8 : simpl never.
Arguments u16 : simpl never.
Arguments u32 : simpl never.
Arguments u64 : simpl never.
Arguments s32 : simpl never.

Create HintDb width.

Lemma u8_range z : 0 <= u8 z < 256.
Proof. apply Z.mod_pos_bound. lia. Qed.

Lemma u16_range z : 0 <= u16 z < 65536.
Proof. apply Z.mod_pos_bound. lia. Qed.

Lemma u32_range z : 0 <= u32 z < 2 ^ 32.
Proof. apply Z.mod_pos_bound. lia. Qed.

Lemma u64_range z : 0 <= u64 z < 2 ^ 64.
Proof. apply Z.mod_pos_bound. lia. Qed.

Lemma u8_small z : 0 <= z < 256 -> u8 z = z.
Proof. intros H. apply Z.mod_small. lia. Qed.

Lemma u16_small z : 0 <= z < 65536 -> u16 z = z.
Proof. intros H. apply Z.mod_small. lia. Qed.

Lemma u32_small z : 0 <= z < 2 ^ 32 -> u32 z = z.
Proof. intros H. apply Z.mod_small. lia. Qed.

Lemma u64_small z : 0 <= z < 2 ^ 64 -> u64 z = z.
Proof. intros H. apply Z.mod_small. lia. Qed.

Lemma u32_idemp z : u32 (u32 z) = u32 z.
Proof. apply u32_small, u32_range. Qed.

(** [(1 << i) & x] tests bit [i]. *)
Lemma land_pow2_zero i x : 0 <= i -> (Z.land (2 ^ i) x =? 0) = negb (Z.testbit x i).
Proof.
  intros Hi. destruct (Z.testbit x i) eqn:E; cbn [negb].
  - apply Z.eqb_neq. intros Hz.
    assert (Z.testbit (Z.land (2 ^ i) x) i = true) as Ht
      by (rewrite Z.land_spec, E, Z.pow2_bits_true by lia; done).
    by rewrite Hz, Z.testbit_0_l in Ht.
  - apply Z.eqb_eq, Z.bits_inj'. intros n Hn. rewrite Z.land_spec, Z.testbit_0_l.
    destruct (Z.eq_dec n i) as [->|Hne]; [by rewrite E, andb_false_r|].
    by rewrite Z.pow2_bits_false by lia.
Qed.

#[export] Hint Resolve u8_range u16_range u32_range u64_range : width.
#[export] Hint Rewrite u32_idemp : width.

(** ** Outcomes and the C monad

    A C function that may call [exit], fail an [assert] or loop without
    progress is a function from the state it runs in to an [outcome] and the
    state it leaves behind.  [NoFuel] is the outcome of a loop model that ran
    out of its iteration budget: a theorem that a function returns excludes it. *)

Inductive outcome (A : Type) : Type :=
| Ok (a : A)
| Exit (code : Z)
| AssertFail
| NoFuel.
Arguments Ok {A} a.
Arguments Exit {A} code.
Arguments AssertFail {A}.
Arguments NoFuel {A}.

Definition obind {A B} (o : outcome A) (f : A -> outcome B) : outcome B :=
  match o with
  | Ok a => f a
  | Exit c => Exit c
  | AssertFail => AssertFail
  | NoFuel => NoFuel
  end.

(** Results in order, the first failure otherwise. *)
Fixpoint oconcat {A B} (f : A -> outcome (list B)) (l : list A) : outcome (list B) :=
  match l with
  | [] => Ok []
  | x :: l' => obind (f x) (fun r => obind (oconcat f l') (fun rs => Ok (r ++ rs)))
  end.

Lemma oconcat_app {A B} (f : A -> outcome (list B)) l1 l2 :
  oconcat f (l1 ++ l2) =
  obind (oconcat f l1) (fun r1 => obind (oconcat f l2) (fun r2 => Ok (r1 ++ r2))).
Proof.
  induction l1 as [|x l1 IH]; simpl.
  - by destruct (oconcat f l2).
  - rewrite IH. destruct (f x); simpl; try done.
    destruct (oconcat f l1); simpl; try done.
    destruct (oconcat f l2); simpl; try done. by rewrite app_assoc.
Qed.

Lemma oconcat_flat_map {A B C} (f : A -> outcome (list B)) (g : C -> list A) (h : C -> list B) l :
  Forall (fun c => oconcat f (g c) = Ok (h c)) l ->
  oconcat f (flat_map g l) = Ok (flat_map h l).
Proof.
  induction 1 as [|c l Hc Hl IH]; [done|]. simpl. by rewrite oconcat_app, Hc, IH.
Qed.

Definition CM (W A : Type) : Type := W -> outcome A * W.

Definition cret {W A} (a : A) : CM W A := fun w => (Ok a, w).
Definition cexit {W A} (code : Z) : CM W A := fun w => (Exit code, w).
Definition cfail {W A} : CM W A := fun w => (AssertFail, w).
Definition cnofuel {W A} : CM W A := fun w => (NoFuel, w).
Definition cget {W} : CM W W := fun w => (Ok w, w).
Definition cput {W} (w' : W) : CM W unit := fun _ => (Ok tt, w').
Definition cmodify {W} (f : W -> W) : CM W unit := fun w => (Ok tt, f w).

Definition cbind {W A B} (m : CM W A) (k : A -> CM W B) : CM W B :=
  fun w =>
    match m w with
    | (Ok a, w') => k a w'
    | (Exit c, w') => (Exit c, w')
    | (AssertFail, w') => (AssertFail, w')
    | (NoFuel, w') => (NoFuel, w')
    end.

(** A computation that does not touch the state. *)
Definition clift {W A} (o : outcome A) : CM W A := fun w => (o, w).

Declare Scope cm_scope.
Delimit Scope cm_scope with cm.
Notation "x <~ c ;; k" := (cbind c (fun x => k))
  (at level 100, c at next level, right associativity) : cm_scope.
Notation "' x <~ c ;; k" := (cbind c (fun x => k))
  (at level 100, x pattern, c at next level, right associativity) : cm_scope.
Notation "c ;;; k" := (cbind c (fun _ => k))
  (at level 100, right associativity) : cm_scope.
Global Open Scope cm_scope.

(** [assert(b)] with assertions enabled. *)
Definition cassert {W} (b : bool) : CM W unit := if b then cret tt else cfail.

(** A left-to-right loop over a list that threads an accumulator. *)
Fixpoint cfold {W A B} (f : A -> B -> CM W B) (l : list A) (b : B) : CM W B :=
  match l with
  | [] => cret b
  | x :: l' => b' <~ f x b ;; cfold f l' b'
  end.

Lemma cbind_ok {W A B} (m : CM W A) (k : A -> CM W B) w a w' :
  m w = (Ok a, w') -> cbind m k w = k a w'.
Proof. intros H. unfold cbind. by rewrite H. Qed.

Lemma cbind_exit {W A B} (m : CM W A) (k : A -> CM W B) w c w' :
  m w = (Exit c, w') -> cbind m k w = (Exit c, w').
Proof. intros H. unfold cbind. by rewrite H. Qed.

Lemma cbind_assoc {W A B C} (m : CM W A) (f : A -> CM W B) (g : B -> CM W C) w :
  cbind (cbind m f) g w = cbind m (fun x => cbind (f x) g) w.
Proof. unfold cbind. by destruct (m w) as [[] ?]. Qed.

Lemma cbind_ext {W A B} (m : CM W A) (f g : A -> CM W B) w :
  (forall a w', f a w' = g a w') -> cbind m f w = cbind m g w.
Proof. intros H. unfold cbind. destruct (m w) as [[] ?]; auto. Qed.

Lemma cbind_both {W A B} (m m' : CM W A) (f g : A -> CM W B) w :
  m w = m' w -> (forall a w', f a w' = g a w') -> cbind m f w = cbind m' g w.
Proof. intros H1 H2. unfold cbind. rewrite H1. destruct (m' w) as [[] ?]; auto. Qed.

Lemma cbind_same {W A B} (m m' : CM W A) (f : A -> CM W B) w :
  m w = m' w -> cbind m f w = cbind m' f w.
Proof. intros H. by apply cbind_both. Qed.

Lemma cret_bind {W A B} (a : A) (k : A -> CM W B) w : cbind (cret a) k w = k a w.
Proof. reflexivity. Qed.

Lemma clift_ok_bind {W A B} (a : A) (k : A -> CM W B) w : cbind (clift (Ok a)) k w = k a w.
Proof. reflexivity. Qed.

Lemma cget_bind {W B} (k : W -> CM W B) w : cbind cget k w = k w w.
Proof. reflexivity. Qed.

Lemma cmodify_bind {W B} (f : W -> W) (k : unit -> CM W B) w :
  cbind (cmodify f) k w = k tt (f w).
Proof. reflexivity. Qed.

Lemma cbind_cret {W A} (m : CM W A) w : cbind m cret w = m w.
Proof. unfold cbind, cret. by destruct (m w) as [[] ?]. Qed.

Lemma cfold_single {W A B} (f : A -> B -> CM W B) x b w : cfold f [x] b w = f x b w.
Proof. apply cbind_cret. Qed.

Lemma cfold_app {W A B} (f : A -> B -> CM W B) l1 l2 b w :
  cfold f (l1 ++ l2) b w = cbind (cfold f l1 b) (fun b' => cfold f l2 b') w.
Proof.
  revert b w. induction l1 as [|x l1 IH]; intros b w; [done|].
  simpl. rewrite cbind_assoc. apply cbind_ext. intros. apply IH.
Qed.

(** A loop whose body always ends ends. *)
Lemma cfold_total {W A B} (f : A -> B -> CM W B) l b w :
  (forall x b w, (f x b w).1 <> NoFuel) -> (cfold f l b w).1 <> NoFuel.
Proof.
  intros Hf. revert b w. induction l as [|x l IH]; intros b w; [done|].
  simpl. unfold cbind. specialize (Hf x b w).
  destruct (f x b w) as [[] ?]; simpl in *; auto.
Qed.

Lemma cfold_ext {W A B} (f g : A -> B -> CM W B) l b w :
  (forall x b w, In x l -> f x b w = g x b w) -> cfold f l b w = cfold g l b w.
Proof.
  revert b w. induction l as [|x l IH]; intros b w Hfg; [done|].
  simpl. apply cbind_both; [apply Hfg; by left|].
  intros. apply IH. intros. apply Hfg. by right.
Qed.

Create HintDb cm.
#[export] Hint Rewrite @cret_bind @clift_ok_bind @cget_bind @cmodify_bind @cbind_assoc @cfold_app : cm.

(** Run the monadic code of the goal one step: use a known result of the first
    computation, or reassociate. *)
Ltac cm_step :=
  first
    [ rewrite cret_bind
    | rewrite cget_bind
    | rewrite cmodify_bind
    | rewrite cbind_assoc
    | erewrite cbind_ok by eassumption
    | erewrite cbind_exit by eassumption ].

(** ** Lists *)

Section Lists.
Context {A : Type}.

Lemma find_app (p : A -> bool) l1 l2 :
  List.find p (l1 ++ l2) =
  match List.find p l1 with Some x => Some x | None => List.find p l2 end.
Proof. induction l1 as [|x l1 IH]; simpl; [done|]. by destruct (p x). Qed.

Lemma find_none_existsb (p : A -> bool) l :
  List.find p l = None <-> existsb p l = false.
Proof.
  induction l as [|x l IH]; simpl; [done|]. destruct (p x); simpl; [done|auto].
Qed.
End Lists.

(** The first result of a partial function over a list. *)
Fixpoint first_some {A B} (f : A -> option B) (l : list A) : option B :=
  match l with
  | [] => None
  | x :: l' => match f x with Some b => Some b | None => first_some f l' end
  end.

Lemma first_some_app {A B} (f : A -> option B) l1 l2 :
  first_some f (l1 ++ l2) =
  match first_some f l1 with Some b => Some b | None => first_some f l2 end.
Proof. induction l1 as [|x l1 IH]; [done|]. simpl. by destruct (f x). Qed.

Lemma first_some_ext {A B} (f g : A -> option B) l :
  Forall (fun x => f x = g x) l -> first_some f l = first_some g l.
Proof. induction 1 as [|x l Hx Hl IH]; [done|]. simpl. by rewrite Hx, IH. Qed.

Lemma first_some_none {A B} (f : A -> option B) l :
  first_some f l = None <-> Forall (fun x => f x = None) l.
Proof.
  induction l as [|x l IH]; simpl; [done|].
  destruct (f x) eqn:E.
  - split; [done|]. intros HF. inversion HF; subst. congruence.
  - rewrite IH. split; [by constructor|]. by intros ?%Forall_inv_tail.
Qed.

Lemma first_some_const {A B} (f : A -> option B) (p : A -> bool) v l :
  Forall (fun x => f x = if p x then Some v else None) l ->
  first_some f l = if existsb p l then Some v else None.
Proof.
  induction 1 as [|x l Hx Hl IH]; [done|]. simpl. rewrite Hx, IH. by destruct (p x).
Qed.

Lemma existsb_andb_const {A} (p : A -> bool) (c : bool) l :
  existsb (fun x => p x && c) l = existsb p l && c.
Proof.
  induction l as [|x l IH]; [done|]. simpl. rewrite IH. by destruct (p x), (existsb p l), c.
Qed.

Lemma existsb_flat_map {A B} (p : B -> bool) (f : A -> list B) l :
  existsb p (flat_map f l) = existsb (fun x => existsb p (f x)) l.
Proof. induction l as [|x l IH]; [done|]. simpl. by rewrite existsb_app, IH. Qed.

Lemma flat_map_flat_map {A B C} (f : B -> list C) (g : A -> list B) l :
  flat_map f (flat_map g l) = flat_map (fun x => flat_map f (g x)) l.
Proof. induction l as [|x l IH]; [done|]. simpl. by rewrite flat_map_app, IH. Qed.

(** Masking keeps a value in range. *)
Lemma land_range n a b : 0 <= n -> 0 <= a < 2 ^ n -> 0 <= Z.land a b < 2 ^ n.
Proof.
  intros Hn Ha. assert (Z.land a b = Z.land a b mod 2 ^ n) as ->.
  { rewrite <- Z.land_ones by done. rewrite <- Z.land_assoc, (Z.land_comm b), Z.land_assoc.
    by rewrite (Z.land_ones a), (Z.mod_small a) by done. }
  apply Z.mod_pos_bound. lia.
Qed.
