(* ===== verification/Clib.v ===== *)
(** * The C library functions the sources call on strings

    A C string is a [string]: the characters before the terminating NUL.  The
    classification functions follow the "C" locale.  [strtok] is given as the
    list of tokens the successive calls return; the callers never write into
    the buffer between calls. *)

From S2P Require Import Prelude.

(** ** <ctype.h> *)

Definition chr (n : nat) : ascii := Ascii.ascii_of_nat n.
Definition ord (c : ascii) : nat := Ascii.nat_of_ascii c.

Definition in_range (lo hi : nat) (c : ascii) : bool :=
  (lo <=? ord c)%nat && (ord c <=? hi)%nat.

Definition isdigit (c : ascii) : bool := in_range 48 57 c.
Definition isupper (c : ascii) : bool := in_range 65 90 c.
Definition islower (c : ascii) : bool := in_range 97 122 c.
Definition isalpha (c : ascii) : bool := isupper c || islower c.
Definition isalnum (c : ascii) : bool := isalpha c || isdigit c.
Definition iscntrl (c : ascii) : bool := in_range 0 31 c || (ord c =? 127)%nat.
Definition isspace (c : ascii) : bool := in_range 9 13 c || (ord c =? 32)%nat.

Definition tolower (c : ascii) : ascii := if isupper c then chr (ord c + 32) else c.
Definition toupper (c : ascii) : ascii := if islower c then chr (ord c - 32) else c.

(** ** Comparison and search *)

Definition strlen (s : string) : Z := Z.of_nat (String.length s).

Definition nonempty (s : string) : bool :=
  match s with EmptyString => false | _ => true end.

(** [strcmp(a, b) == 0] *)
Definition streq (a b : string) : bool := String.eqb a b.

Fixpoint lower_string (s : string) : string :=
  match s with
  | EmptyString => EmptyString
  | String c s' => String (tolower c) (lower_string s')
  end.

(** [strcasecmp(a, b) == 0] *)
Definition strcaseeq (a b : string) : bool :=
  String.eqb (lower_string a) (lower_string b).

(** [strchr(s, c)]: the characters before the first [c] and those after it. *)
Fixpoint strchr_split (c : ascii) (s : string) : option (string * string) :=
  match s with
  | EmptyString => None
  | String a s' =>
      if Ascii.eqb a c then Some (EmptyString, s')
      else match strchr_split c s' with
           | Some (l, r) => Some (String a l, r)
           | None => None
           end
  end.

Fixpoint string_mem (c : ascii) (s : string) : bool :=
  match s with
  | EmptyString => false
  | String a s' => Ascii.eqb a c || string_mem c s'
  end.

(** [strncmp(s, prefix, strlen(prefix)) == 0]; what follows the prefix. *)
Fixpoint strip_prefix (prefix s : string) : option string :=
  match prefix, s with
  | EmptyString, _ => Some s
  | String a p', String b s' => if Ascii.eqb a b then strip_prefix p' s' else None
  | String _ _, EmptyString => None
  end.

Definition has_prefix (prefix s : string) : bool :=
  match strip_prefix prefix s with Some _ => true | None => false end.

(** ** Tokens *)

(** The maximal runs of characters other than [d], empty ones included. *)
Fixpoint fields (d : ascii) (s : string) : list string :=
  match s with
  | EmptyString => [EmptyString]
  | String c s' =>
      if Ascii.eqb c d then EmptyString :: fields d s'
      else match fields d s' with
           | [] => [String c EmptyString]
           | f :: fs => String c f :: fs
           end
  end.

(** The tokens successive calls of [strtok(s, d)], [strtok(NULL, d)] return:
    leading and repeated delimiters are skipped. *)
Definition strtok (d : ascii) (s : string) : list string :=
  List.filter nonempty (fields d s).

(** ** strtol *)

Definition digit_val (c : ascii) : option Z :=
  if isdigit c then Some (Z.of_nat (ord c) - 48)
  else if islower c then Some (Z.of_nat (ord c) - 87)
  else if isupper c then Some (Z.of_nat (ord c) - 55)
  else None.

Definition is_digit_of (base : Z) (c : ascii) : bool :=
  match digit_val c with Some v => v <? base | None => false end.

(** The value of the longest run of digits of [base], and what follows it. *)
Fixpoint read_digits (base acc : Z) (s : string) : Z * string :=
  match s with
  | String c s' =>
      if is_digit_of base c
      then read_digits base (acc * base + default 0 (digit_val c)) s'
      else (acc, s)
  | EmptyString => (acc, s)
  end.

Fixpoint skip_spaces (s : string) : string :=
  match s with
  | String c s' => if isspace c then skip_spaces s' else s
  | EmptyString => EmptyString
  end.

Definition read_sign (s : string) : Z * string :=
  match s with
  | String c s' =>
      if Ascii.eqb c "-"%char then (-1, s')
      else if Ascii.eqb c "+"%char then (1, s') else (1, s)
  | EmptyString => (1, s)
  end.

(** The base announced by the prefix of the digits ([base] 0), and the digits. *)
Definition read_base (base : Z) (s : string) : Z * string :=
  match s with
  | String c0 s1 =>
      if Ascii.eqb c0 "0"%char && ((base =? 0) || (base =? 16)) then
        match s1 with
        | String cx (String ch s2) =>
            if (Ascii.eqb cx "x"%char || Ascii.eqb cx "X"%char) && is_digit_of 16 ch
            then (16, String ch s2)
            else (if base =? 0 then 8 else base, s)
        | _ => (if base =? 0 then 8 else base, s)
        end
      else (if base =? 0 then 10 else base, s)
  | EmptyString => (if base =? 0 then 10 else base, s)
  end.

Definition clamp (lo hi z : Z) : Z := Z.max lo (Z.min hi z).

(** [strtol(s, &end, base)] as its value and the string at [end]; [end] is [s]
    itself when no conversion was performed. *)
Definition strtol (base : Z) (s : string) : Z * string :=
  let '(sign, s1) := read_sign (skip_spaces s) in
  let '(b, s2) := read_base base s1 in
  match s2 with
  | String c _ =>
      if is_digit_of b c then
        let '(v, rest) := read_digits b 0 s2 in
        (clamp LONG_MIN LONG_MAX (sign * v), rest)
      else (0, s)
  | EmptyString => (0, s)
  end.

(** ** Lemmas *)

Create HintDb clib.

Lemma streq_eq a b : streq a b = true <-> a = b.
Proof. apply String.eqb_eq. Qed.

Lemma streq_refl a : streq a a = true.
Proof. apply String.eqb_refl. Qed.

Lemma streq_neq a b : streq a b = false <-> a <> b.
Proof. apply String.eqb_neq. Qed.

#[export] Hint Rewrite streq_refl : clib.

Lemma append_assoc a b c : (a +:+ b) +:+ c = a +:+ (b +:+ c).
Proof.
  induction a as [|x a IH]; [done|].
  change (String x ((a +:+ b) +:+ c) = String x (a +:+ (b +:+ c))). by rewrite IH.
Qed.

Lemma append_empty_r a : a +:+ "" = a.
Proof.
  induction a as [|x a IH]; [done|].
  change (String x (a +:+ "") = String x a). by rewrite IH.
Qed.

Lemma fields_cons d s : exists f fs, fields d s = f :: fs.
Proof.
  induction s as [|c s (f & fs & IH)]; simpl; [eauto|].
  destruct (Ascii.eqb c d); [eauto|]. rewrite IH. eauto.
Qed.

(** A string without the delimiter is its own single field. *)
Lemma fields_single d s : string_mem d s = false -> fields d s = [s].
Proof.
  induction s as [|c s IH]; simpl; [done|].
  intros [-> H]%orb_false_iff. by rewrite (IH H).
Qed.

Lemma fields_app d s1 s2 :
  fields d (s1 +:+ String d s2) = fields d s1 ++ fields d s2.
Proof.
  induction s1 as [|c s1 IH]; simpl.
  - by rewrite Ascii.eqb_refl.
  - rewrite IH. destruct (Ascii.eqb c d); [done|].
    by destruct (fields_cons d s1) as (f & fs & ->).
Qed.

Lemma strtok_app d s1 s2 :
  strtok d (s1 +:+ String d s2) = strtok d s1 ++ strtok d s2.
Proof. unfold strtok. by rewrite fields_app, List.filter_app. Qed.

(** A token: not empty and free of the delimiter. *)
Definition is_token (d : ascii) (s : string) : bool :=
  nonempty s && negb (string_mem d s).

Lemma strtok_token d s : is_token d s = true -> strtok d s = [s].
Proof.
  unfold is_token, strtok. intros [H1 H2%negb_true_iff]%andb_true_iff.
  rewrite fields_single by done. simpl. by rewrite H1.
Qed.

(** Joining tokens with the delimiter and cutting them again is the identity. *)
Lemma strtok_concat d names :
  forallb (is_token d) names = true ->
  strtok d (String.concat (String d EmptyString) names) = names.
Proof.
  induction names as [|n names IH]; [done|].
  intros [Hn Hr]%andb_true_iff. specialize (IH Hr).
  destruct names as [|m names]; [by apply strtok_token|].
  change (String.concat (String d "") (n :: m :: names))
    with (n +:+ String d (String.concat (String d "") (m :: names))).
  rewrite strtok_app, IH, strtok_token by done. done.
Qed.

Lemma string_mem_app c s1 s2 :
  string_mem c (s1 +:+ s2) = string_mem c s1 || string_mem c s2.
Proof. induction s1 as [|a s1 IH]; simpl; [done|]. by rewrite IH, orb_assoc. Qed.

Lemma fields_tokens d s :
  Forall (fun f => string_mem d f = false) (fields d s).
Proof.
  induction s as [|c s IH]; simpl; [by repeat constructor|].
  destruct (Ascii.eqb c d) eqn:E; [by constructor|].
  destruct (fields_cons d s) as (f & fs & Hf). rewrite Hf in *.
  inversion IH; subst. constructor; [|done]. simpl. by rewrite E.
Qed.

(** Every token is a token: not empty, and without the delimiter. *)
Lemma strtok_tokens d s : forallb (is_token d) (strtok d s) = true.
Proof.
  apply forallb_forall. intros x [Hx Hn]%filter_In.
  pose proof (fields_tokens d s) as HF. rewrite List.Forall_forall in HF.
  unfold is_token. by rewrite Hn, (HF x Hx).
Qed.

Lemma strchr_split_none c s : string_mem c s = false -> strchr_split c s = None.
Proof.
  induction s as [|a s IH]; simpl; [done|].
  intros [-> H]%orb_false_iff. by rewrite IH.
Qed.

Lemma strchr_split_app c s1 s2 :
  string_mem c s1 = false -> strchr_split c (s1 +:+ String c s2) = Some (s1, s2).
Proof.
  induction s1 as [|a s1 IH]; simpl.
  - by rewrite Ascii.eqb_refl.
  - intros [-> H]%orb_false_iff. by rewrite IH.
Qed.

Lemma strip_prefix_some p s r : strip_prefix p s = Some r <-> s = p +:+ r.
Proof.
  revert s. induction p as [|a p IH]; intros s; simpl.
  - split; [by intros [= ->]|by intros ->].
  - destruct s as [|b s]; [done|]. destruct (Ascii.eqb_spec a b) as [->|Hn].
    + rewrite IH. split; [by intros ->|by intros [= ->]].
    + split; [done|]. intros [= Hab _]. congruence.
Qed.

Lemma has_prefix_char_app c s x :
  nonempty s = true -> has_prefix (String c "") (s +:+ x) = has_prefix (String c "") s.
Proof.
  destruct s as [|a s]; [done|]. intros _. unfold has_prefix. simpl.
  by destruct (Ascii.eqb c a).
Qed.

Lemma strip_prefix_clash p q a : has_prefix p q = false -> has_prefix q p = false -> strip_prefix p (q +:+ a) = None.
Proof.
  revert q. induction p as [|x p IH]; intros [|y q] H1 H2; try done.
  change (String y q +:+ a) with (String y (q +:+ a)).
  unfold has_prefix in *. cbn [strip_prefix] in *. destruct (Ascii.eqb_spec x y) as [->|Hx]; [|done].
  rewrite (proj2 (Ascii.eqb_eq y y) eq_refl) in H2. auto.
Qed.

Lemma has_prefix_none p s : has_prefix p s = false -> strip_prefix p s = None.
Proof. unfold has_prefix. by destruct (strip_prefix p s). Qed.

Lemma strlen_nonempty s : nonempty s = true -> strlen s =? 0 = false.
Proof. destruct s; [done|]. intros _. unfold strlen. simpl. lia. Qed.

Lemma nonempty_app s x : nonempty s = true -> nonempty (s +:+ x) = true.
Proof. by destruct s. Qed.

(** A joined, not empty list of tokens is not an empty string. *)
Lemma concat_tokens_nonempty d names :
  names <> [] -> forallb (is_token d) names = true ->
  strlen (String.concat (String d "") names) =? 0 = false.
Proof.
  intros Hne Ht. apply strlen_nonempty.
  pose proof (strtok_concat d names Ht) as E.
  destruct (String.concat (String d "") names); [|done]. by rewrite <- E in Hne.
Qed.

(** ** Strings in memory *)

Definition NUL : ascii := Ascii.zero.

(** The characters in front of the terminator. *)
Fixpoint cut (l : list ascii) : list ascii :=
  match l with
  | [] => []
  | c :: l' => if Ascii.eqb c NUL then [] else c :: cut l'
  end.

Definition no_nul (l : list ascii) : Prop := Forall (fun c => c <> NUL) l.

#[export] Instance no_nul_dec l : Decision (no_nul l).
Proof. unfold no_nul. apply _. Defined.

Lemma cut_app r tail : no_nul r -> cut (r ++ NUL :: tail) = r.
Proof.
  induction 1 as [|c r Hc Hr IH]; [done|]. cbn [app cut].
  destruct (Ascii.eqb_spec c NUL); [done|]. by rewrite IH.
Qed.

Lemma no_nul_app l1 l2 : no_nul (l1 ++ l2) <-> no_nul l1 /\ no_nul l2.
Proof. apply Forall_app. Qed.
