(* ===== verification/Keeps.v ===== *)
(** * Relations that computations keep

    [keeps R m]: whatever state [m] starts in, the state it leaves behind is
    related to it, however [m] ends.  [results Q m]: a result of [m] satisfies
    [Q].  Both come with the rules of the monad [CM] and a tactic that follows
    the structure of a program. *)

From S2P Require Import Prelude.

Section Keeps.
Context {W : Type} (R : relation W) `{!PreOrder R}.

Definition keeps {A} (m : CM W A) : Prop := forall w, R w (m w).2.

Lemma keeps_ret {A} (a : A) : keeps (cret a).
Proof. by intros w. Qed.
Lemma keeps_exit {A} c : keeps (A := A) (cexit c).
Proof. by intros w. Qed.
Lemma keeps_fail {A} : keeps (A := A) cfail.
Proof. by intros w. Qed.
Lemma keeps_nofuel {A} : keeps (A := A) cnofuel.
Proof. by intros w. Qed.
Lemma keeps_get : keeps cget.
Proof. by intros w. Qed.
Lemma keeps_lift {A} (o : outcome A) : keeps (clift o).
Proof. by intros w. Qed.
Lemma keeps_modify f : (forall w, R w (f w)) -> keeps (cmodify f).
Proof. intros H w. apply H. Qed.

Lemma keeps_bind {A B} (m : CM W A) (k : A -> CM W B) :
  keeps m -> (forall a, keeps (k a)) -> keeps (cbind m k).
Proof.
  intros Hm Hk w. unfold cbind. specialize (Hm w). destruct (m w) as [[a|c| |] w']; [|done..].
  etrans; [exact Hm|apply Hk].
Qed.

(** A program that reads the state it starts from. *)
Lemma keeps_get_bind {B} (k : W -> CM W B) :
  (forall w, R w (k w w).2) -> keeps (cbind cget k).
Proof. intros H w. apply H. Qed.

Lemma keeps_fold {A B} (f : A -> B -> CM W B) l b :
  (forall a b, keeps (f a b)) -> keeps (cfold f l b).
Proof.
  intros H. revert b. induction l as [|a l IH]; intros b; simpl; [apply keeps_ret|].
  apply keeps_bind; auto.
Qed.
End Keeps.

#[export] Hint Resolve keeps_ret keeps_exit keeps_fail keeps_nofuel keeps_get keeps_lift : keeps.

(** Splits a goal [keeps R m] along the program [m]; what remains are the
    primitive operations [auto] does not know. *)
Ltac keeps_step :=
  match goal with
  | |- keeps _ (cbind _ _) => apply keeps_bind; [exact _| |intros]
  | |- keeps _ (cfold _ _ _) => apply keeps_fold; [exact _|intros]
  | |- keeps _ (match ?x with _ => _ end) => destruct x
  | |- keeps _ _ => solve [eauto with keeps typeclass_instances]
  end.
Ltac keeps_tac := repeat keeps_step.

(** The same, and a program that is not known is unfolded. *)
Ltac prog_head m := match m with ?f _ => prog_head f | _ => m end.
Ltac keeps_unfold := match goal with |- keeps _ ?m => let h := prog_head m in progress (unfold h; cbv beta zeta) end.
Ltac keeps_deep := cbv zeta; repeat first [keeps_step | keeps_unfold].

(** ** Results *)

Section Results.
Context {W : Type}.

Definition results {A} (Q : A -> Prop) (m : CM W A) : Prop :=
  forall w a w', m w = (Ok a, w') -> Q a.

Lemma results_ret {A} (Q : A -> Prop) a : Q a -> results Q (cret a).
Proof. by intros H w ? ? [= <- <-]. Qed.
Lemma results_exit {A} (Q : A -> Prop) c : results Q (cexit c).
Proof. by intros w ? ? [=]. Qed.
Lemma results_fail {A} (Q : A -> Prop) : results Q cfail.
Proof. by intros w ? ? [=]. Qed.
Lemma results_nofuel {A} (Q : A -> Prop) : results Q cnofuel.
Proof. by intros w ? ? [=]. Qed.

Lemma results_bind {A B} (Q : B -> Prop) (P : A -> Prop) (m : CM W A) (k : A -> CM W B) :
  results P m -> (forall a, P a -> results Q (k a)) -> results Q (cbind m k).
Proof.
  intros Hm Hk w b w2. unfold cbind. specialize (Hm w). destruct (m w) as [[a|c| |] w1]; [|done..].
  intros E. eapply Hk; [by eapply Hm|exact E].
Qed.

Lemma results_true {A} (m : CM W A) : results (fun _ => True) m.
Proof. done. Qed.

Lemma results_lift {A} (Q : A -> Prop) (o : outcome A) :
  (forall a, o = Ok a -> Q a) -> results Q (clift o).
Proof. intros H w a w' [= E _]. by apply H. Qed.
End Results.

#[export] Hint Resolve results_exit results_fail results_nofuel results_true : results.

(** The same for [results]: nothing is kept about what a bound program returns. *)
Ltac results_step :=
  match goal with
  | |- results _ (cbind _ _) => apply (results_bind _ (fun _ => True)); [apply results_true|intros ? _]
  | |- results _ (match ?x with _ => _ end) => destruct x eqn:?
  | |- results _ (cret _) => apply results_ret
  | |- results _ _ => solve [eauto with results]
  end.
Ltac results_tac := repeat results_step.

(** ** Successful runs

    [keeps_ok R m]: the same for the runs of [m] that return; a run that ends the
    program may leave anything behind. *)

Section KeepsOk.
Context {W : Type} (R : relation W) `{!PreOrder R}.

Definition keeps_ok {A} (m : CM W A) : Prop := forall w a w', m w = (Ok a, w') -> R w w'.

Lemma keeps_ok_keeps {A} (m : CM W A) : keeps R m -> keeps_ok m.
Proof. intros H w a w' E. specialize (H w). by rewrite E in H. Qed.

Lemma keeps_ok_ret {A} (a : A) : keeps_ok (cret a).
Proof. by intros w ? ? [= <- <-]. Qed.
Lemma keeps_ok_exit {A} c : keeps_ok (A := A) (cexit c).
Proof. by intros w ? ? [=]. Qed.
Lemma keeps_ok_fail {A} : keeps_ok (A := A) cfail.
Proof. by intros w ? ? [=]. Qed.
Lemma keeps_ok_nofuel {A} : keeps_ok (A := A) cnofuel.
Proof. by intros w ? ? [=]. Qed.
Lemma keeps_ok_get : keeps_ok cget.
Proof. by intros w ? ? [= <- <-]. Qed.
Lemma keeps_ok_lift {A} (o : outcome A) : keeps_ok (clift o).
Proof. by intros w ? ? [= _ <-]. Qed.
Lemma keeps_ok_modify f : (forall w, R w (f w)) -> keeps_ok (cmodify f).
Proof. intros H w ? ? [= <- <-]. apply H. Qed.

Lemma keeps_ok_bind {A B} (m : CM W A) (k : A -> CM W B) :
  keeps_ok m -> (forall a, keeps_ok (k a)) -> keeps_ok (cbind m k).
Proof.
  intros Hm Hk w b w2. unfold cbind. specialize (Hm w). destruct (m w) as [[a|c| |] w1]; [|done..].
  intros E. etrans; [by eapply Hm|by eapply Hk].
Qed.

(** What is known of the bound result helps. *)
Lemma keeps_ok_bind_results {A B} (Q : A -> Prop) (m : CM W A) (k : A -> CM W B) :
  keeps_ok m -> results Q m -> (forall a, Q a -> keeps_ok (k a)) -> keeps_ok (cbind m k).
Proof.
  intros Hm HQ Hk w b w2. unfold cbind. specialize (Hm w). specialize (HQ w).
  destruct (m w) as [[a|c| |] w1]; [|done..].
  intros E. etrans; [by eapply Hm|]. eapply Hk; [by eapply HQ|exact E].
Qed.

Lemma keeps_ok_get_bind {B} (k : W -> CM W B) :
  (forall w b w', k w w = (Ok b, w') -> R w w') -> keeps_ok (cbind cget k).
Proof. intros H w b w' E. by eapply H. Qed.

Lemma keeps_ok_fold {A B} (f : A -> B -> CM W B) l b :
  (forall a b, keeps_ok (f a b)) -> keeps_ok (cfold f l b).
Proof.
  intros H. revert b. induction l as [|a l IH]; intros b; simpl; [apply keeps_ok_ret|].
  apply keeps_ok_bind; auto.
Qed.
End KeepsOk.

#[export] Hint Resolve keeps_ok_ret keeps_ok_exit keeps_ok_fail keeps_ok_nofuel keeps_ok_get keeps_ok_lift : keeps_ok.

Ltac keeps_ok_step :=
  match goal with
  | |- keeps_ok _ (cbind _ _) => apply keeps_ok_bind; [exact _| |intros]
  | |- keeps_ok _ (cfold _ _ _) => apply keeps_ok_fold; [exact _|intros]
  | |- keeps_ok _ (match ?x with _ => _ end) => destruct x eqn:?
  | |- keeps_ok _ _ => solve [eauto with keeps_ok typeclass_instances]
  end.
Ltac keeps_ok_tac := repeat keeps_ok_step.

(** ** Invariants *)

(** The relation of an invariant. *)
Definition preserves {W} (I : W -> Prop) : relation W := fun w w' => I w -> I w'.

#[export] Instance preserves_preorder {W} (I : W -> Prop) : PreOrder (preserves I).
Proof. split; unfold preserves; repeat intro; auto. Qed.

(** ** Totality *)

(** No run of [m] exhausts its fuel. *)
Definition total {W A} (m : CM W A) : Prop := forall w, (m w).1 <> NoFuel.

Section Total.
Context {W : Type}.

Lemma total_ret {A} (a : A) : total (W := W) (cret a).
Proof. done. Qed.
Lemma total_exit {A} c : total (W := W) (A := A) (cexit c).
Proof. done. Qed.
Lemma total_fail {A} : total (W := W) (A := A) cfail.
Proof. done. Qed.
Lemma total_get : total (W := W) cget.
Proof. done. Qed.
Lemma total_modify f : total (W := W) (cmodify f).
Proof. done. Qed.
Lemma total_lift {A} (o : outcome A) : o <> NoFuel -> total (W := W) (clift o).
Proof. intros H w. exact H. Qed.
Lemma total_bind {A B} (m : CM W A) (k : A -> CM W B) :
  total m -> (forall a, total (k a)) -> total (cbind m k).
Proof.
  intros Hm Hk w. unfold cbind. specialize (Hm w). destruct (m w) as [[a|c| |] w']; [|done..].
  apply Hk.
Qed.
Lemma total_fold {A B} (f : A -> B -> CM W B) l b :
  (forall a b, total (f a b)) -> total (cfold f l b).
Proof. intros H w. by apply cfold_total. Qed.
End Total.

#[export] Hint Resolve total_ret total_exit total_fail total_get total_modify : total.

Ltac total_step :=
  match goal with
  | |- total (cbind _ _) => apply total_bind; [|intros]
  | |- total (cfold _ _ _) => apply total_fold; intros
  | |- total (match ?x with _ => _ end) => destruct x eqn:?
  | |- total _ => solve [eauto with total]
  end.
Ltac total_tac := repeat total_step.
