(* ===== verification/ProfileList.v ===== *)
(** * Argument lists of profiles: profile_list_augment in src/firejail/profile.c

    Options such as [protocol] and [restrict-namespaces] accumulate a
    comma-separated list; "-item" removes an item, "=item" restarts the list.
    The C functions work in place, reading and writing the same buffer: the
    model keeps the buffer, its offsets and its NUL bytes, and the theorems
    show that the in-place copies read nothing they have overwritten. *)

From S2P Require Import Prelude.
From S2P Require Import Clib.
Local Open Scope string_scope.
Local Open Scope list_scope.
Local Open Scope nat_scope.

Definition comma : ascii := ","%char.

Notation cbuf := (list ascii).

(** [b[i]] and [b[i] = c] *)
Definition get (b : cbuf) (i : nat) : ascii := default NUL (b !! i).
Definition put (b : cbuf) (i : nat) (c : ascii) : cbuf := <[i := c]> b.

(** The C string at an offset. *)
Definition cstr (b : cbuf) (i : nat) : list ascii := cut (drop i b).

(** ** profile_list_normalize *)

Fixpoint skip_commas (fuel : nat) (b : cbuf) (i : nat) : nat :=
  match fuel with
  | O => i
  | S fuel' => if Ascii.eqb (get b i) comma then skip_commas fuel' b (S i) else i
  end.

Fixpoint normalize_loop (fuel : nat) (b : cbuf) (i j : nat) : outcome cbuf :=
  match fuel with
  | O => NoFuel
  | S fuel' =>
      let c := get b i in
      if Ascii.eqb c NUL then Ok (put b j NUL)
      else if Ascii.eqb c comma then
        let i' := skip_commas (length b) b (S i) in
        if Ascii.eqb (get b i') NUL then Ok (put b j NUL)
        else normalize_loop fuel' (put b j c) i' (S j)
      else normalize_loop fuel' (put b j c) (S i) (S j)
  end.

Definition profile_list_normalize (b : cbuf) : outcome cbuf :=
  normalize_loop (length b) b (skip_commas (length b) b 0) 0.

(** ** profile_list_compress *)

(** Collect items: commas become NULs; [ins] holds the offsets. *)
Fixpoint split_loop (fuel : nat) (b : cbuf) (i : nat) (ins : list nat) : outcome (cbuf * list nat) :=
  if Ascii.eqb (get b i) NUL then Ok (b, ins)
  else
    match fuel with
    | O => NoFuel
    | S fuel' =>
        if Ascii.eqb (get b i) comma
        then split_loop fuel' (put b i NUL) (S i) (ins ++ [S i])
        else split_loop fuel' b (S i) ins
    end.

(** [in[k] && !strcmp(in[k], item)] *)
Definition same_item (b : cbuf) (item : nat) (k : option nat) : bool :=
  match k with
  | Some o => bool_decide (cstr b o = cstr b item)
  | None => false
  end.

Fixpoint erase_first (p : option nat -> bool) (l : list (option nat)) : list (option nat) :=
  match l with
  | [] => []
  | x :: l' => if p x then None :: l' else x :: erase_first p l'
  end.

(** One round of the filter loop: [seen] is [in[0..i)], [o] is [in[i]]; the
    result is [in[0..i]]. *)
Definition filter_item (b : cbuf) (seen : list (option nat)) (o : nat) : list (option nat) :=
  if Ascii.eqb (get b o) "-" then
    erase_first (same_item b (S o)) seen ++ [None]
  else if Ascii.eqb (get b o) "=" then
    map (fun _ => None) seen ++ [if Ascii.eqb (get b (S o)) NUL then None else Some (S o)]
  else
    let item := if Ascii.eqb (get b o) "+" then S o else o in
    if Ascii.eqb (get b item) NUL then seen ++ [None]
    else if existsb (same_item b item) seen then seen ++ [None]
    else seen ++ [Some item].

Definition filter_items (b : cbuf) (ins : list nat) : list (option nat) :=
  fold_left (filter_item b) ins [].

Fixpoint copy_item (fuel : nat) (b : cbuf) (pos item : nat) : outcome (cbuf * nat) :=
  if Ascii.eqb (get b item) NUL then Ok (b, pos)
  else
    match fuel with
    | O => NoFuel
    | S fuel' => copy_item fuel' (put b pos (get b item)) (S pos) (S item)
    end.

Fixpoint copy_back (b : cbuf) (pos : nat) (ins : list (option nat)) : outcome cbuf :=
  match ins with
  | [] => Ok (put b pos NUL)
  | None :: rest => copy_back b pos rest
  | Some item :: rest =>
      let '(b1, pos1) := if 0 <? pos then (put b pos comma, S pos) else (b, pos) in
      obind (copy_item (length b1) b1 pos1 item) (fun r => copy_back r.1 r.2 rest)
  end.

Definition profile_list_compress (b : cbuf) : outcome cbuf :=
  obind (profile_list_normalize b) (fun b1 =>
  obind (split_loop (length b1) b1 0 [0]) (fun r =>
  copy_back r.1 0 (filter_items r.1 r.2))).

(** ** profile_list_augment *)

Definition MAX_LIST : Z := 16384.

(** A string as a buffer with its terminator, and back. *)
Definition buf_of (s : string) : cbuf := String.list_ascii_of_string s ++ [NUL].
Definition string_at (b : cbuf) : string := String.string_of_list_ascii (cstr b 0).

(** The new value of [*list]. *)
Definition profile_list_augment (list items : option string) : outcome string :=
  obind (profile_list_compress (buf_of (default "" list +:+ "," +:+ default "" items)))
    (fun b => let s := string_at b in
              if (MAX_LIST <? strlen s)%Z then Exit 1%Z else Ok s).

(** ** Specification *)

(** The items of a list, in order: the text between commas, empty ones left out. *)
Fixpoint pieces (l : list ascii) : list (list ascii) :=
  match l with
  | [] => [[]]
  | c :: l' =>
      if Ascii.eqb c comma then [] :: pieces l'
      else match pieces l' with
           | p :: ps => (c :: p) :: ps
           | [] => [[c]]
           end
  end.

Definition is_nonempty (p : list ascii) : bool := match p with [] => false | _ => true end.

Definition items (l : list ascii) : list (list ascii) := List.filter is_nonempty (pieces l).

Fixpoint join (ps : list (list ascii)) : list ascii :=
  match ps with
  | [] => []
  | [p] => p
  | p :: ps' => p ++ comma :: join ps'
  end.

Definition add_item (x : list ascii) (acc : list (list ascii)) : list (list ascii) :=
  if bool_decide (x = [] \/ x ∈ acc) then acc else acc ++ [x].

(** One item of the list applied to the items collected so far. *)
Definition apply_item (acc : list (list ascii)) (item : list ascii) : list (list ascii) :=
  match item with
  | c :: x =>
      if Ascii.eqb c "-" then List.filter (fun y => negb (bool_decide (y = x))) acc
      else if Ascii.eqb c "=" then add_item x []
      else if Ascii.eqb c "+" then add_item x acc
      else add_item (c :: x) acc
  | [] => acc
  end.

Definition compress_spec (l : list ascii) : list (list ascii) :=
  fold_left apply_item (items l) [].

(** ** Buffers *)

(** The string [r] is at offset [i]. *)
Definition text_at (b : cbuf) (i : nat) (r : list ascii) : Prop :=
  no_nul r /\ exists tail, drop i b = r ++ NUL :: tail.

Lemma get_drop (b : cbuf) i : get b i = default NUL (drop i b !! 0).
Proof. unfold get. by rewrite lookup_drop, Nat.add_0_r. Qed.

Lemma drop_S (b : cbuf) i c l : drop i b = c :: l -> drop (S i) b = l.
Proof.
  intros E. rewrite <- Nat.add_1_r, <- drop_drop, E. reflexivity.
Qed.

Lemma text_nil b i : text_at b i [] -> get b i = NUL.
Proof. intros (_ & tail & E). by rewrite get_drop, E. Qed.

Lemma text_cons b i c r :
  text_at b i (c :: r) -> get b i = c /\ c <> NUL /\ text_at b (S i) r.
Proof.
  intros (Hn & tail & E). apply Forall_cons in Hn as [Hc Hr]. split; [|split; [done|]].
  - by rewrite get_drop, E.
  - split; [done|]. exists tail. by apply (drop_S b i c).
Qed.

Lemma text_bound b i r : text_at b i r -> i + length r < length b.
Proof.
  intros (_ & tail & E). apply (f_equal length) in E. rewrite length_drop, length_app in E.
  simpl in E. lia.
Qed.

Lemma text_cstr b i r : text_at b i r -> cstr b i = r.
Proof. intros (Hn & tail & E). unfold cstr. rewrite E. by apply cut_app. Qed.

Lemma text_same (b b' : cbuf) i r : drop i b' = drop i b -> text_at b i r -> text_at b' i r.
Proof. intros E (Hn & tail & Ht). split; [done|]. exists tail. by rewrite E. Qed.

Lemma text_shift b i r k : text_at b i r -> k <= length r -> text_at b (i + k) (drop k r).
Proof.
  intros (Hn & tail & E) Hk. split; [by apply Forall_drop|]. exists tail.
  rewrite <- drop_drop, E. by rewrite drop_app_le.
Qed.

Lemma length_put b i c : length (put b i c) = length b.
Proof. apply length_insert. Qed.

Lemma drop_put (b : cbuf) i c n : i < n -> drop n (put b i c) = drop n b.
Proof. apply drop_insert_lt. Qed.

Lemma take_put (b : cbuf) i c : i < length b -> take (S i) (put b i c) = take i b ++ [c].
Proof.
  intros Hi. unfold put. rewrite (insert_take_drop b i c) by done.
  rewrite take_app_ge by (rewrite length_take; lia).
  rewrite length_take, Nat.min_l by lia. by replace (S i - i) with 1 by lia.
Qed.

(** Writing the terminator after a finished prefix. *)
Lemma cut_put (b : cbuf) j out :
  j < length b -> take j b = out -> no_nul out -> cstr (put b j NUL) 0 = out.
Proof.
  intros Hj Ht Hn. unfold cstr, put. rewrite drop_0, (insert_take_drop b j NUL), Ht by done.
  by apply cut_app.
Qed.

(** ** Normalizing *)

Fixpoint dropc (l : list ascii) : list ascii :=
  match l with
  | c :: l' => if Ascii.eqb c comma then dropc l' else l
  | [] => []
  end.

Lemma length_dropc l : length (dropc l) <= length l.
Proof. induction l as [|c l IH]; [done|]. simpl. destruct (Ascii.eqb c comma); simpl; lia. Qed.

Lemma dropc_head l c r : dropc l = c :: r -> c <> comma.
Proof.
  induction l as [|x l IH]; [done|]. cbn [dropc].
  destruct (Ascii.eqb_spec x comma); [done|congruence].
Qed.

Lemma skip_commas_text fuel b i r :
  text_at b i r -> length r <= fuel ->
  exists i', skip_commas fuel b i = i' /\ i <= i' /\ text_at b i' (dropc r).
Proof.
  revert i r. induction fuel as [|fuel IH]; intros i r Ht Hl.
  - destruct r; [|simpl in Hl; lia]. by exists i.
  - cbn [skip_commas]. destruct r as [|c r].
    + rewrite (text_nil _ _ Ht). by exists i.
    + destruct (text_cons _ _ _ _ Ht) as (-> & _ & Ht'). cbn [dropc].
      destruct (Ascii.eqb c comma); [|by exists i].
      destruct (IH (S i) r Ht') as (i' & E & Hi & Hd); [simpl in Hl; lia|].
      exists i'. split; [done|]. split; [lia|done].
Qed.

Lemma items_dropc l : items (dropc l) = items l.
Proof.
  unfold items. induction l as [|c l IH]; [done|]. cbn [dropc pieces].
  destruct (Ascii.eqb_spec c comma) as [->|Hc]; [by rewrite IH|].
  cbn [pieces]. by destruct (Ascii.eqb_spec c comma).
Qed.

Lemma pieces_cons l : exists p ps, pieces l = p :: ps.
Proof.
  induction l as [|c l (p & ps & IH)]; cbn [pieces]; [eauto|].
  destruct (Ascii.eqb c comma); [eauto|]. rewrite IH. eauto.
Qed.

(** What the loop writes from inside an item on. *)
Definition rest_of (ps : list (list ascii)) : list ascii :=
  match List.filter is_nonempty ps with [] => [] | qs => comma :: join qs end.

Definition from_here (r : list ascii) : list ascii :=
  match pieces r with p :: ps => p ++ rest_of ps | [] => [] end.

Lemma join_cons p ps : join (p :: ps) = p ++ match ps with [] => [] | _ => comma :: join ps end.
Proof. destruct ps; cbn [join]; [by rewrite app_nil_r|done]. Qed.

Lemma from_here_items c r : c <> comma -> from_here (c :: r) = join (items (c :: r)).
Proof.
  intros Hc. unfold from_here, items. cbn [pieces]. destruct (Ascii.eqb_spec c comma); [done|].
  destruct (pieces_cons r) as (p & ps & ->). cbn [List.filter is_nonempty].
  rewrite join_cons. unfold rest_of. by destruct (List.filter is_nonempty ps).
Qed.

Lemma from_here_comma r : from_here (comma :: r) = match items r with [] => [] | qs => comma :: join qs end.
Proof. unfold from_here. cbn. unfold rest_of, items. by destruct (List.filter _ _). Qed.

Lemma from_here_cons c r : c <> comma -> from_here (c :: r) = c :: from_here r.
Proof.
  intros Hc. unfold from_here. cbn [pieces]. destruct (Ascii.eqb_spec c comma); [done|].
  by destruct (pieces_cons r) as (p & ps & ->).
Qed.

Lemma comma_not_nul : comma <> NUL.
Proof. discriminate. Qed.

(** The loop copies onto cells it has already read: the string still to be read
    is untouched, the prefix [out] is final. *)
(** The loop ends by writing the terminator behind what was copied. *)
Lemma put_nul_text b j out :
  j < length b -> take j b = out -> no_nul out ->
  text_at (put b j NUL) 0 out /\ length (put b j NUL) = length b.
Proof.
  intros Hj Hout Hn. split; [|apply length_put]. split; [done|].
  exists (drop (S j) b). rewrite drop_0. unfold put.
  by rewrite (insert_take_drop b j NUL), Hout by lia.
Qed.

(** A comma that is kept stands before another item. *)
Lemma items_not_comma c r : c <> comma -> items (c :: r) <> [].
Proof.
  intros Hc. unfold items. cbn [pieces]. destruct (Ascii.eqb_spec c comma); [done|].
  by destruct (pieces_cons r) as (p & ps & ->).
Qed.

Lemma normalize_loop_ok fuel b i j r out :
  text_at b i r -> length r < fuel -> j <= i -> take j b = out -> no_nul out ->
  exists b', normalize_loop fuel b i j = Ok b' /\ length b' = length b
    /\ text_at b' 0 (out ++ from_here r).
Proof.
  revert b i j r out. induction fuel as [|fuel IH]; intros b i j r out Ht Hl Hj Hout Hn; [lia|].
  pose proof (text_bound _ _ _ Ht) as Hb.
  assert (Hstop : exists b', Ok (put b j NUL) = Ok b' /\ length b' = length b /\ text_at b' 0 (out ++ [])).
  { destruct (put_nul_text b j out) as [Hp Hlp]; [lia|done|done|].
    exists (put b j NUL). by rewrite app_nil_r. }
  cbn [normalize_loop]. destruct r as [|c r].
  { rewrite (text_nil _ _ Ht). exact Hstop. }
  destruct (text_cons _ _ _ _ Ht) as (-> & Hc & Ht'). cbv zeta.
  destruct (Ascii.eqb_spec c NUL); [done|]. cbn [length] in Hl, Hb.
  (* the next step: [c] is appended and reading goes on at [i'] with [r'] *)
  assert (Hstep : forall i' r', i < i' -> text_at b i' r' -> length r' <= length r ->
    exists b', normalize_loop fuel (put b j c) i' (S j) = Ok b' /\ length b' = length b
      /\ text_at b' 0 (out ++ c :: from_here r')).
  { intros i' r' Hi' Hr' Hlr.
    destruct (IH (put b j c) i' (S j) r' (out ++ [c])) as (b' & E & El & Et).
    - eapply text_same; [|exact Hr']. apply drop_put. lia.
    - lia.
    - lia.
    - rewrite take_put by lia. by rewrite Hout.
    - apply no_nul_app. split; [done|]. by constructor.
    - exists b'. split; [done|]. rewrite length_put in El. split; [done|].
      by rewrite <- app_assoc in Et. }
  destruct (Ascii.eqb_spec c comma) as [->|Hcc].
  - destruct (skip_commas_text (length b) b (S i) r Ht') as (i' & -> & Hi & Hd); [lia|].
    rewrite from_here_comma, <- items_dropc. destruct (dropc r) as [|c' r'] eqn:Ed.
    + rewrite (text_nil _ _ Hd). exact Hstop.
    + destruct (text_cons _ _ _ _ Hd) as (-> & Hc' & _).
      destruct (Ascii.eqb_spec c' NUL); [done|].
      destruct (Hstep i' (c' :: r')) as (b' & E & El & Et); [lia|done| |].
      { rewrite <- Ed. apply length_dropc. }
      exists b'. split; [done|]. split; [done|].
      assert (c' <> comma) as Hcc' by (by eapply dropc_head).
      rewrite from_here_items in Et by done. pose proof (items_not_comma c' r' Hcc').
      by destruct (items (c' :: r')).
  - rewrite from_here_cons by done. apply Hstep; [lia|done|done].
Qed.

Lemma normalize_ok b r :
  text_at b 0 r ->
  exists b', profile_list_normalize b = Ok b' /\ length b' = length b
    /\ text_at b' 0 (join (items r)).
Proof.
  intros Ht. pose proof (text_bound _ _ _ Ht) as Hb. unfold profile_list_normalize.
  destruct (skip_commas_text (length b) b 0 r Ht) as (i & -> & _ & Hd); [lia|].
  pose proof (length_dropc r).
  destruct (normalize_loop_ok (length b) b i 0 (dropc r) []) as (b' & E & El & Et);
    [done|lia|lia|done|by constructor|].
  exists b'. split; [done|]. split; [done|]. rewrite <- items_dropc. cbn [app] in Et.
  destruct (dropc r) as [|c r'] eqn:Ed; [done|]. rewrite <- from_here_items; [done|].
  by eapply dropc_head.
Qed.

(** ** Collecting the items *)

Definition nulify (c : ascii) : ascii := if Ascii.eqb c comma then NUL else c.

Fixpoint offsets (i : nat) (r : list ascii) : list nat :=
  match r with
  | [] => []
  | c :: r' => if Ascii.eqb c comma then S i :: offsets (S i) r' else offsets (S i) r'
  end.

Lemma split_loop_ok fuel b i r tail ins :
  drop i b = r ++ NUL :: tail -> no_nul r -> i <= length b -> length r <= fuel ->
  split_loop fuel b i ins = Ok (take i b ++ map nulify r ++ NUL :: tail, ins ++ offsets i r).
Proof.
  revert b i r ins. induction fuel as [|fuel IH]; intros b i r ins E Hn Hi Hl.
  - destruct r; [|simpl in Hl; lia]. cbn [split_loop].
    assert (get b i = NUL) as -> by (by rewrite get_drop, E). cbn.
    cbn in E. by rewrite app_nil_r, <- E, take_drop.
  - cbn [split_loop]. destruct r as [|c r].
    + assert (get b i = NUL) as -> by (by rewrite get_drop, E). cbn.
      cbn in E. by rewrite app_nil_r, <- E, take_drop.
    + assert (get b i = c) as -> by (by rewrite get_drop, E).
      apply Forall_cons in Hn as [Hc Hn]. destruct (Ascii.eqb_spec c NUL); [done|].
      assert (Hb : S i <= length b).
      { apply (f_equal length) in E. rewrite length_drop in E. cbn in E. lia. }
      cbn [map offsets]. unfold nulify at 1. simpl in Hl.
      assert (Es : take (S i) b = take i b ++ [c]).
      { rewrite <- (take_drop i b) at 1. rewrite take_app_ge by (rewrite length_take; lia).
        rewrite length_take, Nat.min_l by lia. replace (S i - i) with 1 by lia. by rewrite E. }
      destruct (Ascii.eqb_spec c comma) as [->|Hcc].
      * rewrite (IH (put b i NUL) (S i) r);
          [|by rewrite drop_put by lia; apply (drop_S b i comma)|done|rewrite length_put; lia|lia].
        rewrite take_put by lia. by rewrite <- !app_assoc.
      * rewrite (IH b (S i) r); [|by apply (drop_S b i c)|done|done|lia].
        rewrite Es. by rewrite <- app_assoc.
Qed.

(** Offsets of consecutive pieces: one NUL between them. *)
Fixpoint laid_out (i : nat) (ps : list (list ascii)) : list nat :=
  match ps with
  | [] => []
  | p :: ps' => i :: laid_out (i + length p + 1) ps'
  end.

Lemma offsets_laid_out i r : i :: offsets i r = laid_out i (pieces r).
Proof.
  revert i. induction r as [|c r IH]; intros i; [done|]. cbn [offsets pieces].
  destruct (Ascii.eqb c comma).
  - rewrite IH. cbn [laid_out length]. f_equal. f_equal. lia.
  - specialize (IH (S i)). destruct (pieces_cons r) as (p & ps & Ep). rewrite Ep in *.
    cbn [laid_out length] in *. injection IH as IH. rewrite IH. f_equal. f_equal. lia.
Qed.

(** The strings at the offsets are the pieces. *)
Lemma pieces_text pre r tail :
  no_nul r ->
  Forall2 (text_at (pre ++ map nulify r ++ NUL :: tail))
    (length pre :: offsets (length pre) r) (pieces r).
Proof.
  revert pre. induction r as [|c r IH]; intros pre Hn.
  { constructor; [|constructor]. split; [constructor|]. exists tail. by rewrite drop_app_length. }
  apply Forall_cons in Hn as [Hc Hn]. cbn [offsets pieces map]. unfold nulify at 1.
  destruct (Ascii.eqb_spec c comma) as [->|Hcc].
  - specialize (IH (pre ++ [NUL]) Hn). rewrite length_app, <- app_assoc in IH. cbn in IH.
    rewrite Nat.add_1_r in IH. constructor; [|exact IH].
    split; [constructor|]. eexists. by rewrite drop_app_length.
  - specialize (IH (pre ++ [c]) Hn). rewrite length_app, <- app_assoc in IH. cbn in IH.
    rewrite Nat.add_1_r in IH. destruct (pieces_cons r) as (p & ps & Ep). rewrite Ep in *.
    apply Forall2_cons_1 in IH as [(Hp & t & Et) IH]. constructor; [|exact IH].
    split; [by constructor|]. exists t. rewrite drop_app_length. cbn [app].
    replace (pre ++ c :: map nulify r ++ NUL :: tail)
      with ((pre ++ [c]) ++ map nulify r ++ NUL :: tail) in Et by (by rewrite <- app_assoc).
    replace (S (length pre)) with (length (pre ++ [c])) in Et by (rewrite length_app; simpl; lia).
    rewrite drop_app_length in Et. by rewrite Et.
Qed.

(** ** Filtering the items *)

Definition live (seen : list (option nat)) : list nat := omap id seen.

Lemma live_app s1 s2 : live (s1 ++ s2) = live s1 ++ live s2.
Proof. apply omap_app. Qed.

(** Strings one after the other, each with its terminator. *)
Fixpoint spaced (b : cbuf) (p : nat) (l : list nat) : Prop :=
  match l with
  | [] => True
  | o :: l' => p <= o /\ text_at b o (cstr b o) /\ spaced b (o + length (cstr b o) + 1) l'
  end.

Lemma spaced_weaken b p q l : q <= p -> spaced b p l -> spaced b q l.
Proof. destruct l as [|o l]; [done|]. intros Hq (Hp & Ht & Hs). split; [lia|done]. Qed.

Lemma spaced_remove b p l1 o l2 : spaced b p (l1 ++ o :: l2) -> spaced b p (l1 ++ l2).
Proof.
  revert p. induction l1 as [|x l1 IH]; intros p; cbn [app spaced].
  - intros (Hp & _ & Hs). eapply spaced_weaken; [|exact Hs]. lia.
  - intros (Hp & Ht & Hs). auto.
Qed.

Lemma spaced_suffix b p l1 l2 : spaced b p (l1 ++ l2) -> spaced b p l2.
Proof.
  induction l1 as [|x l1 IH]; [done|]. intros Hs. apply IH. by apply (spaced_remove b p [] x).
Qed.

Lemma spaced_shift b p l1 o l2 :
  get b o <> NUL -> spaced b p (l1 ++ o :: l2) -> spaced b p (l1 ++ S o :: l2).
Proof.
  intros Ho. revert p. induction l1 as [|x l1 IH]; intros p; cbn [app spaced].
  - intros (Hp & Ht & Hs). destruct (cstr b o) as [|c r] eqn:E; [by rewrite (text_nil _ _ Ht) in Ho|].
    destruct (text_cons _ _ _ _ Ht) as (_ & _ & Ht'). rewrite (text_cstr _ _ _ Ht').
    split; [lia|]. split; [done|]. eapply spaced_weaken; [|exact Hs]. simpl. lia.
  - intros (Hp & Ht & Hs). auto.
Qed.

Lemma spaced_laid_out b i ps : Forall2 (text_at b) (laid_out i ps) ps -> spaced b i (laid_out i ps).
Proof.
  revert i. induction ps as [|p ps IH]; intros i; [done|]. cbn [laid_out spaced].
  intros [Ht Hf]%Forall2_cons_1. rewrite (text_cstr _ _ _ Ht). split; [done|]. split; [done|]. auto.
Qed.

Definition texts (b : cbuf) (seen : list (option nat)) : list (list ascii) := map (cstr b) (live seen).

Lemma texts_app b s1 s2 : texts b (s1 ++ s2) = texts b s1 ++ texts b s2.
Proof. unfold texts. by rewrite live_app, map_app. Qed.

Lemma existsb_same b item seen :
  existsb (same_item b item) seen = bool_decide (cstr b item ∈ texts b seen).
Proof.
  induction seen as [|[o|] seen IH]; cbn [existsb same_item].
  - symmetry. apply bool_decide_eq_false. by apply not_elem_of_nil.
  - change (texts b (Some o :: seen)) with (cstr b o :: texts b seen). rewrite IH.
    apply eq_iff_eq_true. rewrite orb_true_iff, !bool_decide_eq_true, elem_of_cons.
    split; intros [?|?]; auto.
  - exact IH.
Qed.

Lemma filter_absent (x : list ascii) l :
  ~ x ∈ l -> List.filter (fun y => negb (bool_decide (y = x))) l = l.
Proof.
  induction l as [|y l IH]; [done|]. rewrite not_elem_of_cons. intros [Hy Hl]. cbn [List.filter].
  rewrite bool_decide_eq_false_2 by congruence. cbn. by rewrite IH.
Qed.

(** Erasing the first match: at most one live offset goes, and with distinct
    strings no other one has the same text. *)
Lemma erase_first_spec b item seen :
  NoDup (texts b seen) ->
  texts b (erase_first (same_item b item) seen) =
    List.filter (fun y => negb (bool_decide (y = cstr b item))) (texts b seen)
  /\ (live (erase_first (same_item b item) seen) = live seen
      \/ exists l1 o l2, live seen = l1 ++ o :: l2
           /\ live (erase_first (same_item b item) seen) = l1 ++ l2).
Proof.
  induction seen as [|[o|] seen IH]; cbn [erase_first same_item]; [by auto| |exact IH].
  change (texts b (Some o :: seen)) with (cstr b o :: texts b seen).
  intros [Ho Hn]%NoDup_cons. cbn [List.filter].
  destruct (bool_decide_reflect (cstr b o = cstr b item)) as [E|E]; cbn [negb].
  - split; [|right; by exists [], o, (live seen)]. rewrite <- E.
    change (texts b (None :: seen)) with (texts b seen). by rewrite filter_absent.
  - destruct (IH Hn) as [IH1 IH2]. split.
    + change (texts b (Some o :: ?s)) with (cstr b o :: texts b s). by rewrite IH1.
    + change (live (Some o :: ?s)) with (o :: live s). destruct IH2 as [->|(l1 & o' & l2 & E1 & E2)].
      * by left.
      * right. exists (o :: l1), o', l2. by rewrite E1, E2.
Qed.

Lemma texts_none {A} b (l : list A) : texts b (map (fun _ => None) l) = [].
Proof. induction l; done. Qed.

Lemma live_none {A} (l : list A) : live (map (fun _ => None) l) = [].
Proof. induction l; done. Qed.

Lemma NoDup_filter_texts (f : list ascii -> bool) l : NoDup l -> NoDup (List.filter f l).
Proof. intros Hn. apply NoDup_ListNoDup, List.NoDup_filter, NoDup_ListNoDup, Hn. Qed.

Lemma add_item_NoDup x acc : NoDup acc -> NoDup (add_item x acc).
Proof.
  intros Hn. unfold add_item. case_bool_decide as E; [done|].
  apply NoDup_app. split; [done|]. split.
  - intros y Hy ->%list_elem_of_singleton. apply E. by right.
  - apply NoDup_singleton.
Qed.

Lemma apply_item_NoDup acc item : NoDup acc -> NoDup (apply_item acc item).
Proof.
  intros Hn. unfold apply_item. destruct item as [|c x]; [done|].
  repeat case_match; auto using add_item_NoDup, NoDup_filter_texts, NoDup_nil_2.
Qed.

Definition all_nonempty (l : list (list ascii)) : Prop := Forall (fun p => p <> []) l.

Lemma add_item_nonempty x acc : all_nonempty acc -> all_nonempty (add_item x acc).
Proof.
  intros Ha. unfold add_item. case_bool_decide as E; [done|].
  apply Forall_app. split; [done|]. constructor; [naive_solver|constructor].
Qed.

Lemma filter_nonempty (f : list ascii -> bool) l : all_nonempty l -> all_nonempty (List.filter f l).
Proof.
  unfold all_nonempty. rewrite !Forall_forall. intros Hl x [Hx _]%list_elem_of_In%filter_In.
  by apply Hl, list_elem_of_In.
Qed.

Lemma apply_item_nonempty acc item : all_nonempty acc -> all_nonempty (apply_item acc item).
Proof.
  intros Ha. unfold apply_item. destruct item as [|c x]; [done|].
  repeat case_match; auto using add_item_nonempty, filter_nonempty, Forall_nil_2.
  apply add_item_nonempty. constructor.
Qed.

(** A round of the loop does what the specification says of the item [p], and
    leaves the strings apart. *)
Definition round_ok (b : cbuf) (seen seen' : list (option nat)) (p : list ascii) (todo : list nat)
    : Prop :=
  texts b seen' = apply_item (texts b seen) p /\ spaced b 0 (live seen' ++ todo).

Lemma round_none b seen seen' p todo :
  texts b seen' = apply_item (texts b seen) p -> spaced b 0 (live seen' ++ todo) ->
  round_ok b seen (seen' ++ [None]) p todo.
Proof.
  intros Et Hs. split; [rewrite texts_app; cbn; by rewrite app_nil_r|].
  rewrite live_app. cbn. by rewrite app_nil_r.
Qed.

Lemma round_some b seen seen' q p todo :
  texts b seen' ++ [cstr b q] = apply_item (texts b seen) p -> spaced b 0 (live seen' ++ q :: todo) ->
  round_ok b seen (seen' ++ [Some q]) p todo.
Proof.
  intros Et Hs. split; [by rewrite texts_app|]. rewrite live_app, <- app_assoc. exact Hs.
Qed.

(** Adding the text [y] at offset [q]. *)
Lemma round_add b seen q y p todo :
  text_at b q y -> apply_item (texts b seen) p = add_item y (texts b seen) ->
  spaced b 0 (live seen ++ q :: todo) ->
  round_ok b seen
    (if Ascii.eqb (get b q) NUL then seen ++ [None]
     else if existsb (same_item b q) seen then seen ++ [None]
     else seen ++ [Some q]) p todo.
Proof.
  intros Hq Ea Hs. rewrite existsb_same, (text_cstr _ _ _ Hq). unfold add_item in Ea.
  assert (Hskip : spaced b 0 (live seen ++ todo)) by (by eapply spaced_remove).
  destruct y as [|c' y].
  - rewrite (text_nil _ _ Hq). cbn -[apply_item]. apply round_none; [|done].
    rewrite Ea, bool_decide_eq_true_2; [done|by left].
  - destruct (text_cons _ _ _ _ Hq) as (-> & Hc' & _). destruct (Ascii.eqb_spec c' NUL); [done|].
    destruct (bool_decide_reflect (c' :: y ∈ texts b seen)) as [Em|Em].
    + apply round_none; [|done]. rewrite Ea, bool_decide_eq_true_2; [done|by right].
    + apply round_some; [|done]. rewrite Ea, (text_cstr _ _ _ Hq).
      rewrite bool_decide_eq_false_2; [done|]. by intros [?|?].
Qed.

(** Removing the items with the text [x]. *)
Lemma round_remove b seen o x p todo :
  text_at b o x -> NoDup (texts b seen) ->
  apply_item (texts b seen) p = List.filter (fun y => negb (bool_decide (y = x))) (texts b seen) ->
  spaced b 0 (live seen ++ todo) ->
  round_ok b seen (erase_first (same_item b o) seen ++ [None]) p todo.
Proof.
  intros Hx Hn Ea Hs. destruct (erase_first_spec b o seen Hn) as [Et El]. apply round_none.
  - by rewrite Et, (text_cstr _ _ _ Hx).
  - destruct El as [->|(l1 & o' & l2 & Es & ->)]; [done|].
    rewrite Es, <- app_assoc in Hs. cbn [app] in Hs. rewrite <- app_assoc.
    by eapply spaced_remove.
Qed.

(** Starting again with the text [x] at offset [q]. *)
Lemma round_reset b seen q x p todo :
  text_at b q x -> apply_item (texts b seen) p = add_item x [] ->
  spaced b 0 (live seen ++ q :: todo) ->
  round_ok b seen
    (map (fun _ => None) seen ++ [if Ascii.eqb (get b q) NUL then None else Some q]) p todo.
Proof.
  intros Hx Ea Hs. unfold add_item in Ea. apply spaced_suffix in Hs. destruct x as [|c' x].
  - rewrite (text_nil _ _ Hx). cbn -[apply_item]. apply round_none.
    + rewrite Ea, texts_none, bool_decide_eq_true_2; [done|by left].
    + rewrite live_none. by apply (spaced_remove b 0 [] q).
  - destruct (text_cons _ _ _ _ Hx) as (-> & Hc' & _). destruct (Ascii.eqb_spec c' NUL); [done|].
    apply round_some.
    + rewrite Ea, texts_none, (text_cstr _ _ _ Hx), bool_decide_eq_false_2; [done|].
      intros [?|Hi]; [done|]. by apply not_elem_of_nil in Hi.
    + by rewrite live_none.
Qed.

Lemma filter_item_ok b seen o p todo :
  text_at b o p -> NoDup (texts b seen) -> spaced b 0 (live seen ++ o :: todo) ->
  round_ok b seen (filter_item b seen o) p todo.
Proof.
  intros Ht Hn Hs. unfold filter_item. destruct p as [|c x].
  { rewrite (text_nil _ _ Ht). cbn -[apply_item]. rewrite (text_nil _ _ Ht). cbn -[apply_item].
    apply round_none; [done|]. by eapply spaced_remove. }
  destruct (text_cons _ _ _ _ Ht) as (Hg & Hc & Hx).
  assert (Ho : get b o <> NUL) by congruence. rewrite Hg.
  destruct (Ascii.eqb c "-") eqn:E1; [|destruct (Ascii.eqb c "=") eqn:E2].
  - eapply round_remove; [exact Hx|done| |by eapply spaced_remove].
    unfold apply_item. by rewrite E1.
  - eapply round_reset; [exact Hx| |by apply spaced_shift]. unfold apply_item. by rewrite E1, E2.
  - cbv zeta. destruct (Ascii.eqb c "+") eqn:E3.
    + apply (round_add _ _ _ x); [done| |by apply spaced_shift].
      unfold apply_item. by rewrite E1, E2, E3.
    + apply (round_add _ _ _ (c :: x)); [done| |done]. unfold apply_item. by rewrite E1, E2, E3.
Qed.

Lemma filter_items_ok b seen todo ps :
  Forall2 (text_at b) todo ps -> NoDup (texts b seen) -> spaced b 0 (live seen ++ todo) ->
  texts b (fold_left (filter_item b) todo seen) = fold_left apply_item ps (texts b seen)
  /\ spaced b 0 (live (fold_left (filter_item b) todo seen)).
Proof.
  intros Hf. revert seen. induction Hf as [|o p todo ps Ht Hf IH]; intros seen Hn Hs.
  { cbn. by rewrite app_nil_r in Hs. }
  destruct (filter_item_ok b seen o p todo Ht Hn Hs) as [Et Hs'].
  cbn [fold_left]. rewrite <- Et. apply IH; [|done]. rewrite Et. by apply apply_item_NoDup.
Qed.

(** ** Copying the items back *)

Lemma copy_item_ok b0 fuel b pos o f out :
  text_at b0 o f -> drop o b = drop o b0 -> pos <= o -> take pos b = out -> length f <= fuel ->
  exists b', copy_item fuel b pos o = Ok (b', pos + length f)
    /\ take (pos + length f) b' = out ++ f
    /\ drop (o + length f) b' = drop (o + length f) b0
    /\ length b' = length b.
Proof.
  revert b pos o f out. induction fuel as [|fuel IH]; intros b pos o f out Ht Hd Hp Hout Hl.
  - destruct f; [|simpl in Hl; lia]. cbn [copy_item length].
    rewrite (text_nil b o) by (eapply text_same; [exact Hd|exact Ht]). cbn.
    exists b. rewrite !Nat.add_0_r, app_nil_r. auto.
  - cbn [copy_item]. destruct f as [|c f].
    + rewrite (text_nil b o) by (eapply text_same; [exact Hd|exact Ht]). cbn.
      exists b. rewrite !Nat.add_0_r, app_nil_r. auto.
    + assert (Ht' : text_at b o (c :: f)) by (eapply text_same; [exact Hd|exact Ht]).
      pose proof (text_bound _ _ _ Ht') as Hb. cbn [length] in Hb, Hl.
      destruct (text_cons _ _ _ _ Ht') as (-> & Hc & _).
      destruct (text_cons _ _ _ _ Ht) as (_ & _ & Ht0). destruct (Ascii.eqb_spec c NUL); [done|].
      destruct (IH (put b pos c) (S pos) (S o) f (out ++ [c])) as (b' & E & E1 & E2 & E3).
      * done.
      * rewrite drop_put by lia. rewrite <- !(Nat.add_1_r o), <- !drop_drop. by rewrite Hd.
      * lia.
      * rewrite take_put by lia. by rewrite Hout.
      * lia.
      * exists b'. cbn [length]. replace (pos + S (length f)) with (S pos + length f) by lia.
        replace (o + S (length f)) with (S o + length f) by lia.
        rewrite <- app_assoc in E1. rewrite length_put in E3. auto.
Qed.

(** The text in front of [pos] with the item appended. *)
Definition append_item (out f : list ascii) : list ascii :=
  match out with [] => f | _ => out ++ comma :: f end.

Lemma fold_append out fs :
  out <> [] -> all_nonempty fs ->
  fold_left append_item fs out = out ++ match fs with [] => [] | _ => comma :: join fs end.
Proof.
  intros Ho Hf. revert out Ho. induction Hf as [|f fs Hne Hf IH]; intros out Ho.
  { by rewrite app_nil_r. }
  cbn [fold_left]. rewrite IH by (by destruct out). rewrite join_cons.
  destruct out as [|c out]; [done|]. cbn [append_item]. by rewrite <- app_assoc.
Qed.

Lemma fold_append_join fs : all_nonempty fs -> fold_left append_item fs [] = join fs.
Proof.
  intros Hf. destruct Hf as [|f fs Hne Hf]; [done|]. cbn [fold_left append_item].
  rewrite fold_append by done. by rewrite join_cons.
Qed.

Lemma append_item_no_nul out f : no_nul out -> no_nul f -> no_nul (append_item out f).
Proof.
  intros Ho Hf. destruct out; [done|]. apply no_nul_app. split; [done|].
  constructor; [apply comma_not_nul|done].
Qed.

(** Room for the comma: the offsets still to be copied are beyond it. *)
Lemma copy_back_ok b0 b pos ins out q :
  spaced b0 q (live ins) -> drop q b = drop q b0 -> length b = length b0 ->
  pos = length out -> take pos b = out -> pos = 0 \/ pos < q -> pos < length b -> no_nul out ->
  exists b', copy_back b pos ins = Ok b' /\ length b' = length b
    /\ cstr b' 0 = fold_left append_item (texts b0 ins) out.
Proof.
  revert b pos out q. induction ins as [|[o|] ins IH];
    intros b pos out q Hs Hd Hlen Hpos Hout Hq Hb Hn.
  - exists (put b pos NUL). split; [done|]. split; [apply length_put|]. by apply cut_put.
  - change (live (Some o :: ins)) with (o :: live ins) in Hs.
    change (texts b0 (Some o :: ins)) with (cstr b0 o :: texts b0 ins).
    cbn [spaced] in Hs. destruct Hs as (Hqo & Ht & Hs). cbn [copy_back fold_left].
    pose proof (text_bound _ _ _ Ht) as Hbo.
    assert (Hdo : forall q', q <= q' -> drop q' b = drop q' b0).
    { intros q' Hq'. replace q' with (q + (q' - q)) by lia. by rewrite <- !drop_drop, Hd. }
    (* the buffer in front of the copy *)
    assert (exists b1 out1, (if 0 <? pos then (put b pos comma, S pos) else (b, pos)) = (b1, length out1)
      /\ out1 ++ cstr b0 o = append_item out (cstr b0 o) /\ take (length out1) b1 = out1
      /\ drop o b1 = drop o b0 /\ length b1 = length b /\ length out1 <= o)
      as (b1 & out1 & -> & Ho1 & Ht1 & Hd1 & Hl1 & Hle).
    { destruct (Nat.ltb_spec 0 pos) as [Hgt|Hle].
      - exists (put b pos comma), (out ++ [comma]). rewrite length_app. cbn [length].
        rewrite drop_put, length_put by lia.
        repeat split; [f_equal; lia| | |by apply Hdo|lia].
        + destruct out; [cbn in Hpos; lia|]. cbn [append_item]. by rewrite <- app_assoc.
        + rewrite <- Hpos. rewrite Nat.add_1_r, take_put by done. by rewrite Hout.
      - exists b, out. assert (out = []) as -> by (destruct out; cbn in Hpos; [done|lia]).
        subst pos. repeat split; [by apply Hdo|cbn; lia]. }
    destruct (copy_item_ok b0 (length b1) b1 (length out1) o (cstr b0 o) out1)
      as (b2 & E & E1 & E2 & E3); [done|done|done|done|lia|].
    rewrite E. cbn [obind fst snd].
    destruct (IH b2 (length out1 + length (cstr b0 o)) (append_item out (cstr b0 o))
                (o + length (cstr b0 o) + 1)) as (b' & F & Fl & Fc).
    + done.
    + by rewrite <- !(drop_drop _ 1 (o + length (cstr b0 o))), E2.
    + lia.
    + by rewrite <- Ho1, length_app.
    + by rewrite E1.
    + lia.
    + lia.
    + apply append_item_no_nul; [done|]. apply Ht.
    + exists b'. split; [done|]. split; [lia|done].
  - by apply IH with (q := q).
Qed.

(** ** The whole function *)

Definition comma_free (p : list ascii) : Prop := Forall (fun c => c <> comma) p.

Lemma pieces_single p : comma_free p -> pieces p = [p].
Proof.
  induction 1 as [|c p Hc Hp IH]; [done|]. cbn [pieces]. rewrite IH.
  by destruct (Ascii.eqb_spec c comma).
Qed.

Lemma pieces_app p l : comma_free p -> pieces (p ++ comma :: l) = p :: pieces l.
Proof.
  induction 1 as [|c p Hc Hp IH]; [done|]. cbn [app pieces]. rewrite IH.
  by destruct (Ascii.eqb_spec c comma).
Qed.

Lemma pieces_join ps : ps <> [] -> Forall comma_free ps -> pieces (join ps) = ps.
Proof.
  intros Hne Hf. destruct Hf as [|p ps Hp Hf]; [done|]. clear Hne. revert p Hp.
  induction Hf as [|q ps Hq Hf IH]; intros p Hp; [by apply pieces_single|].
  change (join (p :: q :: ps)) with (p ++ comma :: join (q :: ps)).
  by rewrite pieces_app, IH.
Qed.

Lemma pieces_comma_free l : Forall comma_free (pieces l).
Proof.
  induction l as [|c l IH]; cbn [pieces]; [repeat constructor|].
  destruct (Ascii.eqb_spec c comma); [constructor; [constructor|done]|].
  destruct (pieces l) as [|p ps]; [repeat constructor; done|].
  apply Forall_cons in IH as [Hp Hps]. constructor; [by constructor|done].
Qed.

Lemma items_comma_free l : Forall comma_free (items l).
Proof.
  unfold items. rewrite Forall_forall. intros x [Hx _]%list_elem_of_In%filter_In.
  pose proof (pieces_comma_free l) as Hp. rewrite Forall_forall in Hp.
  by apply Hp, list_elem_of_In.
Qed.

Lemma items_nonempty l : all_nonempty (items l).
Proof.
  unfold items, all_nonempty. rewrite Forall_forall.
  intros x [_ Hx]%list_elem_of_In%filter_In. by destruct x.
Qed.

Lemma filter_is_nonempty ps : all_nonempty ps -> List.filter is_nonempty ps = ps.
Proof.
  induction 1 as [|p ps Hp Hps IH]; [done|]. cbn [List.filter]. destruct p; [done|]. by rewrite IH.
Qed.

Lemma items_join ps : Forall comma_free ps -> all_nonempty ps -> items (join ps) = ps.
Proof.
  intros Hc Hn. unfold items. destruct ps as [|p ps]; [done|].
  rewrite pieces_join by done. by apply filter_is_nonempty.
Qed.

(** Empty pieces change nothing. *)
Lemma fold_pieces l acc : fold_left apply_item (pieces l) acc = fold_left apply_item (items l) acc.
Proof.
  unfold items. generalize (pieces l). intros ps. revert acc.
  induction ps as [|p ps IH]; intros acc; [done|]. destruct p as [|c p]; cbn; apply IH.
Qed.

Lemma compress_ok b r :
  text_at b 0 r ->
  exists b', profile_list_compress b = Ok b' /\ length b' = length b
    /\ cstr b' 0 = join (compress_spec r).
Proof.
  intros Ht. unfold profile_list_compress.
  destruct (normalize_ok b r Ht) as (b1 & -> & El & Hn & tail & Et). cbn [obind].
  set (r1 := join (items r)) in *.
  assert (Hl1 : length r1 <= length b1).
  { apply (f_equal length) in Et. rewrite length_drop, length_app in Et. lia. }
  rewrite (split_loop_ok _ b1 0 r1 tail [0]) by (done || lia). cbn [obind fst snd take app].
  set (b2 := map nulify r1 ++ NUL :: tail).
  pose proof (pieces_text [] r1 tail Hn) as Hp. cbn [length app] in Hp.
  pose proof (offsets_laid_out 0 r1) as Ho.
  assert (Hs : spaced b2 0 (0 :: offsets 0 r1)).
  { rewrite Ho. apply spaced_laid_out. by rewrite <- Ho. }
  destruct (filter_items_ok b2 [] (0 :: offsets 0 r1) (pieces r1)) as [Hf Hsf];
    [done|constructor|done|]. fold (filter_items b2 (0 :: offsets 0 r1)) in Hf, Hsf.
  assert (Hspec : texts b2 (filter_items b2 (0 :: offsets 0 r1)) = compress_spec r).
  { rewrite Hf. cbn [texts live map omap]. rewrite fold_pieces. unfold r1.
    rewrite items_join by (apply items_comma_free || apply items_nonempty). reflexivity. }
  assert (Hlen : length b2 = length b1).
  { unfold b2. rewrite length_app, length_map. apply (f_equal length) in Et.
    rewrite drop_0, length_app in Et. simpl in *. lia. }
  destruct (copy_back_ok b2 b2 0 (filter_items b2 (0 :: offsets 0 r1)) [] 0)
    as (b' & E & E1 & E2); [done|done|done|done|done|by left| |constructor|].
  { unfold b2. rewrite length_app. simpl. lia. }
  exists b'. split; [exact E|]. split; [lia|]. rewrite E2, Hspec. apply fold_append_join.
  unfold compress_spec. clear. assert (Ha : all_nonempty []) by constructor. revert Ha.
  generalize (@nil (list ascii)). induction (items r) as [|p ps IH]; intros acc Ha; [done|].
  cbn. apply IH. by apply apply_item_nonempty.
Qed.
