(* ===== verification/Cmdline.v ===== *)
(** * The quoted command line: src/firejail/cmdline.c

    Firejail hands the program and its arguments to a shell as one string.
    [cmdline_length] computes the size of the string, [quote_cmdline] writes it
    with a moving pointer into a buffer of exactly that size.  The model keeps
    the buffer and the pointer; a write outside the buffer has no result. *)

From S2P Require Import Prelude.
From S2P Require Import Clib.

Local Open Scope string_scope.
Local Open Scope list_scope.
Local Open Scope nat_scope.

(** A C string without its terminator. *)
Notation cstring := (list ascii).

Definition quote1 : ascii := "'"%char.
Definition quote2 : ascii := Ascii.ascii_of_nat 34.
Definition space : ascii := " "%char.

(** [sizeof] limits of limits.h *)
Definition ARG_MAX : Z := 131072.

(** [RUN_FIREJAIL_APPIMAGE_DIR "/AppRun"] *)
Definition apprun_path : cstring := String.list_ascii_of_string "/run/firejail/appimage/AppRun".

(** ** cmdline_length *)

(** The inner loop; [prev] is the character before [s]. *)
Fixpoint length_chars (extra : bool) (prev : option ascii) (s : cstring) (in_quotes : bool)
    (len : Z) : bool * Z :=
  match s with
  | [] => (in_quotes, len)
  | c :: s' =>
      if Ascii.eqb c quote1 then
        let len := if in_quotes then (len + 1)%Z else len in
        let len := match prev with
                   | Some p => if Ascii.eqb p quote1 then (len + 1)%Z else (len + 3)%Z
                   | None => (len + 3)%Z
                   end in
        length_chars extra (Some c) s' false len
      else
        let len := if negb in_quotes && extra then (len + 1)%Z else len in
        length_chars extra (Some c) s' (if extra then true else in_quotes) (len + 1)%Z
  end.

Definition length_arg (extra : bool) (arg : cstring) (len : Z) : Z :=
  let '(in_quotes, len) := length_chars extra None arg false len in
  let len := if in_quotes then (len + 1)%Z else len in
  let len := match arg with [] => (len + 2)%Z | _ => len end in
  (len + 1)%Z.

(** The arguments from [index] on; the counter is an [int]. *)
Definition cmdline_length (args : list cstring) (extra : bool) : Z :=
  s32 (fold_left (fun len arg => length_arg extra arg len) args 0%Z).

(** ** quote_cmdline *)

(** The buffer and the offset of [ptr1]. *)
Notation cursor := (list ascii * nat)%type.

(** [ptr1[0] = c; ptr1++;] *)
Definition put_char (c : ascii) (st : cursor) : option cursor :=
  let '(b, p) := st in
  if p <? length b then Some (<[p := c]> b, S p) else None.

(** [sprintf(ptr1, text); ptr1 += strlen(ptr1);], the terminator included. *)
Definition sprint (text : cstring) (st : cursor) : option cursor :=
  let '(b, p) := st in
  if p + length text <? length b
  then Some (take p b ++ text ++ NUL :: drop (p + length text + 1) b, p + length text)
  else None.

Fixpoint quote_chars (extra : bool) (prev : option ascii) (s : cstring) (in_quotes : bool)
    (st : cursor) : option (bool * cursor) :=
  match s with
  | [] => Some (in_quotes, st)
  | c :: s' =>
      if Ascii.eqb c quote1 then
        (* close quotes *)
        st ← (if in_quotes then put_char quote1 st else Some st);
        let after_quote := match prev with Some p => Ascii.eqb p quote1 | None => false end in
        (* step back over the closing double quote of the previous one *)
        st ← (if after_quote then sprint [quote1; quote2] (st.1, st.2 - 1)
              else sprint [quote2; quote1; quote2] st);
        quote_chars extra (Some c) s' false st
      else
        st ← (if negb in_quotes && extra then put_char quote1 st else Some st);
        st ← put_char c st;
        quote_chars extra (Some c) s' (if extra then true else in_quotes) st
  end.

Definition quote_arg (extra : bool) (arg : cstring) (st : cursor) : option cursor :=
  r ← quote_chars extra None arg false st;
  let '(in_quotes, st) := r : bool * cursor in
  st ← (if in_quotes then put_char quote1 st else Some st);
  st ← match arg with [] => sprint [quote1; quote1] st | _ => Some st end;
  sprint [space] st.

Fixpoint quote_args (extra : bool) (args : list cstring) (st : cursor) : option cursor :=
  match args with
  | [] => Some st
  | arg :: args' => st ← quote_arg extra arg st; quote_args extra args' st
  end.

(** The buffer afterwards. *)
Definition quote_cmdline (b : list ascii) (args : list cstring) (extra : bool) : option (list ascii) :=
  fst <$> quote_args extra args (b, 0).

(** ** build_cmdline *)

Section Build.
(** What [malloc] returns: a buffer of the size asked for, of any contents. *)
Context (malloc : nat -> list ascii).

Definition of_write {A} (o : option A) : outcome A :=
  match o with Some a => Ok a | None => AssertFail end.

(** The string left in [*command_line]. *)
Definition build_cmdline (argv : list cstring) (index : Z) (extra : bool) : outcome cstring :=
  if (index =? -1)%Z then AssertFail
  else
    let args := drop (Z.to_nat index) argv in
    let len := cmdline_length args extra in
    if (ARG_MAX <? len)%Z then Exit 1
    else obind (of_write (quote_cmdline (malloc (Z.to_nat (len + 1))) args extra))
           (fun b => Ok (cut b)).

(** [argv[index]] must exist: its quoted length is taken. *)
Definition build_appimage_cmdline (argv : list cstring) (index : Z) (extra : bool)
    : outcome cstring :=
  if (index =? -1)%Z then AssertFail
  else
    let args := drop (Z.to_nat index) argv in
    match args with
    | [] => AssertFail
    | image :: _ =>
        let len1 := cmdline_length args extra in
        let len2 := cmdline_length [image] extra in
        let len3 := cmdline_length [apprun_path] extra in
        let len4 := (len1 - len2 + len3 + 1)%Z in
        if (ARG_MAX <? len4)%Z then Exit 1
        else obind (of_write (quote_cmdline (malloc (Z.to_nat (len1 + len3 + 1))) args extra))
               (fun b => Ok (quote1 :: apprun_path ++ [quote1; space] ++ cut (drop (Z.to_nat len2) b)))
    end.
End Build.

(** ** Specification *)

(** Where the text written so far ends: outside quotes, inside single quotes,
    inside double quotes. *)
Inductive qmode := QPlain | QSingle | QDouble.

Definition close_mode (m : qmode) : cstring :=
  match m with QPlain => [] | QSingle => [quote1] | QDouble => [quote2] end.

(** The quoted text of the characters [s] from mode [m], closed at the end. *)
Fixpoint quoted_chars (extra : bool) (m : qmode) (s : cstring) : cstring :=
  match s with
  | [] => close_mode m
  | c :: s' =>
      if Ascii.eqb c quote1 then
        match m with
        | QDouble => c :: quoted_chars extra QDouble s'
        | _ => close_mode m ++ quote2 :: c :: quoted_chars extra QDouble s'
        end
      else
        match m with
        | QSingle => c :: quoted_chars extra QSingle s'
        | _ => close_mode m ++
               (if extra then quote1 :: c :: quoted_chars extra QSingle s'
                else c :: quoted_chars extra QPlain s')
        end
  end.

Definition quoted_arg (extra : bool) (arg : cstring) : cstring :=
  match arg with [] => [quote1; quote1] | _ => quoted_chars extra QPlain arg end ++ [space].

Definition quoted (extra : bool) (args : list cstring) : cstring :=
  concat (map (quoted_arg extra) args).

(** *** Word splitting of the POSIX shell

    The part of the shell's grammar that quoting is about: blanks separate
    words, single quotes keep everything, double quotes keep everything but
    [$], [`], [\ ] and [!]; other special characters outside quotes are not
    part of a simple word and make the split fail. *)

Definition plain_char (c : ascii) : bool := isalnum c || string_mem c "-_./,:+@%".

Definition dquote_special (c : ascii) : bool := string_mem c "$`\!".

Inductive shmode := ShWord | ShSingle | ShDouble.

Definition grow (w : option cstring) (l : cstring) : option cstring := Some (default [] w ++ l).

(** [w] is the word in progress. *)
Fixpoint shell_words (m : shmode) (w : option cstring) (s : cstring) : option (list cstring) :=
  match s with
  | [] => match m with
          | ShWord => Some (match w with Some x => [x] | None => [] end)
          | _ => None
          end
  | c :: s' =>
      match m with
      | ShWord =>
          if Ascii.eqb c space then
            match w with
            | Some x => cons x <$> shell_words ShWord None s'
            | None => shell_words ShWord None s'
            end
          else if Ascii.eqb c quote1 then shell_words ShSingle (grow w []) s'
          else if Ascii.eqb c quote2 then shell_words ShDouble (grow w []) s'
          else if plain_char c then shell_words ShWord (grow w [c]) s'
          else None
      | ShSingle =>
          if Ascii.eqb c quote1 then shell_words ShWord w s' else shell_words ShSingle (grow w [c]) s'
      | ShDouble =>
          if Ascii.eqb c quote2 then shell_words ShWord w s'
          else if dquote_special c then None
          else shell_words ShDouble (grow w [c]) s'
      end
  end.

Example quoted_example :
  shell_words ShWord None
    (quoted true (map String.list_ascii_of_string ["vlc"; "it's"; ""; "a b''$HOME"; "'"])) =
  Some (map String.list_ascii_of_string ["vlc"; "it's"; ""; "a b''$HOME"; "'"]).
Proof. by vm_compute. Qed.

(** * What the quoted command line promises

    The string fits the buffer whose size is computed beforehand, and a POSIX
    shell splits it into the arguments again. *)

Local Open Scope string_scope.
Local Open Scope list_scope.
Local Open Scope nat_scope.

(** ** Writing *)

(** [out] has been written up to the pointer. *)
Definition wrote (st : cursor) (out : cstring) : Prop :=
  take st.2 st.1 = out /\ st.2 <= length st.1.

Lemma wrote_length st out : wrote st out -> length out = st.2.
Proof. intros [<- Hp]. rewrite length_take. lia. Qed.

Lemma put_char_ok c st out :
  wrote st out -> length out < length st.1 ->
  exists st', put_char c st = Some st' /\ wrote st' (out ++ [c]) /\ length st'.1 = length st.1.
Proof.
  intros Hw Hl. pose proof (wrote_length _ _ Hw) as Hp. destruct st as [b p], Hw as [Ho _].
  cbn [fst snd] in *. unfold put_char. destruct (Nat.ltb_spec p (length b)); [|lia].
  eexists. split; [done|]. split; [|apply length_insert]. split; cbn [fst snd].
  - rewrite (take_S_r _ _ c) by (by apply list_lookup_insert_eq).
    by rewrite take_insert_ge, Ho by lia.
  - rewrite length_insert. lia.
Qed.

Lemma sprint_ok text st out :
  wrote st out -> length out + length text < length st.1 ->
  exists st', sprint text st = Some st' /\ wrote st' (out ++ text) /\ length st'.1 = length st.1
    /\ exists tail, st'.1 = (out ++ text) ++ NUL :: tail.
Proof.
  intros Hw Hl. pose proof (wrote_length _ _ Hw) as Hp. destruct st as [b p], Hw as [Ho _].
  cbn [fst snd] in *. unfold sprint. destruct (Nat.ltb_spec (p + length text) (length b)); [|lia].
  eexists. split; [done|]. rewrite Ho. cbn [fst snd].
  assert (length (out ++ text ++ NUL :: drop (p + length text + 1) b) = length b) as Hb.
  { rewrite !length_app. cbn [length]. rewrite length_drop. lia. }
  split; [|split; [exact Hb|by eexists; rewrite <- app_assoc]].
  split; cbn [fst snd]; [|lia].
  rewrite app_assoc, take_app_length'; [done|]. rewrite length_app. lia.
Qed.

Lemma step_back st out c : wrote st (out ++ [c]) -> wrote (st.1, st.2 - 1) out.
Proof.
  intros Hw. pose proof (wrote_length _ _ Hw) as Hp. destruct st as [b p], Hw as [Ho Hb].
  cbn [fst snd] in *. rewrite length_app in Hp. cbn [length] in Hp. split; cbn [fst snd]; [|lia].
  rewrite <- (take_app_length' out [c] (p - 1)), <- Ho by lia. rewrite take_take.
  f_equal. lia.
Qed.

(** ** One argument *)

(** The variables of the C loops in each mode; the closing double quote is
    written early. *)
Definition mode_vars (m : qmode) (prev : option ascii) (in_quotes : bool) : Prop :=
  match m with
  | QPlain => in_quotes = false /\ prev <> Some quote1
  | QSingle => in_quotes = true /\ prev <> Some quote1
  | QDouble => in_quotes = false /\ prev = Some quote1
  end.

Definition early (m : qmode) : cstring := match m with QDouble => [quote2] | _ => [] end.

Definition late (in_quotes : bool) : cstring := if in_quotes then [quote1] else [].

Lemma quoted_chars_pos extra m s : m <> QPlain -> 1 <= length (quoted_chars extra m s).
Proof.
  intros Hm. destruct s as [|c s]; cbn [quoted_chars]; [by destruct m|].
  destruct (Ascii.eqb c quote1), m, extra; cbn; rewrite ?length_app; cbn; (done || lia).
Qed.

Lemma after_quote_false prev :
  prev <> Some quote1 -> match prev with Some p => Ascii.eqb p quote1 | None => false end = false.
Proof. destruct prev as [p|]; [|done]. by destruct (Ascii.eqb_spec p quote1) as [->|]. Qed.

(** The rest of the argument after [o] has been appended, from mode [m]. *)
Ltac resume IH m prev q st o :=
  let H := fresh in
  let b := fresh in let st' := fresh "st'" in let out' := fresh "out'" in
  let E := fresh in let Hw := fresh in let Ho := fresh in let Hl := fresh in
  destruct (IH m prev q st o) as (b & st' & out' & E & Hw & Ho & Hl);
    [done
    |rewrite <- ?app_assoc in *; cbn [early app] in *; rewrite ?app_nil_r; assumption
    |rewrite !length_app; cbn [length] in *; lia
    |exists b, st', out'; rewrite <- ?app_assoc in Ho;
     split; [exact E|]; split; [exact Hw|]; split; [exact Ho|lia]].

(** What is proved of the loop on the characters that follow. *)
Definition loop_ok (extra : bool) (s : cstring) : Prop :=
  forall m prev in_quotes st out,
  mode_vars m prev in_quotes -> wrote st (out ++ early m) ->
  length out + length (quoted_chars extra m s) < length st.1 ->
  exists q st' out', quote_chars extra prev s in_quotes st = Some (q, st')
    /\ wrote st' out' /\ out' ++ late q = out ++ quoted_chars extra m s
    /\ length st'.1 = length st.1.

(** A character that is not a quote, no single quotes open. *)
Lemma open_single extra s c st out :
  loop_ok extra s -> Some c <> Some quote1 -> wrote st out ->
  length out + length (if extra then quote1 :: c :: quoted_chars extra QSingle s
                       else c :: quoted_chars extra QPlain s) < length st.1 ->
  exists q st' out',
    (st ← (if extra then put_char quote1 st else Some st); st ← put_char c st;
     quote_chars extra (Some c) s (if extra then true else false) st) = Some (q, st')
    /\ wrote st' out'
    /\ out' ++ late q = out ++ (if extra then quote1 :: c :: quoted_chars extra QSingle s
                               else c :: quoted_chars extra QPlain s)
    /\ length st'.1 = length st.1.
Proof.
  intros IH Hc Hw Hl. destruct extra; cbn [mbind option_bind length] in *.
  - destruct (put_char_ok quote1 st out Hw) as (st0 & -> & Hw0 & Hl0); [lia|].
    cbn [mbind option_bind].
    destruct (put_char_ok c st0 _ Hw0) as (st1 & -> & Hw1 & Hl1);
      [rewrite length_app; cbn [length]; lia|]. cbn [mbind option_bind].
    resume IH QSingle (Some c) true st1 (out ++ [quote1; c]).
  - destruct (put_char_ok c st out Hw) as (st1 & -> & Hw1 & Hl1); [lia|].
    cbn [mbind option_bind]. resume IH QPlain (Some c) false st1 (out ++ [c]).
Qed.

(** The C loop, from each mode. *)
Lemma quote_chars_ok extra s : loop_ok extra s.
Proof.
  induction s as [|c s IH]; intros m prev in_quotes st out Hm Hw Hl.
  { exists in_quotes, st, (out ++ early m). split; [done|]. split; [done|]. split; [|done].
    rewrite <- app_assoc. by destruct m; cbn in Hm; destruct Hm as [-> _]. }
  cbn [quote_chars quoted_chars] in *. cbv zeta.
  pose proof (quoted_chars_pos extra QDouble s ltac:(done)) as H2.
  destruct (Ascii.eqb_spec c quote1) as [->|Hc].
  - destruct m; destruct Hm as [-> Hp]; cbn [early close_mode app length mbind option_bind] in *;
      rewrite ?app_nil_r in Hw; rewrite ?after_quote_false by done.
    + destruct (sprint_ok [quote2; quote1; quote2] st out Hw) as (st1 & -> & Hw1 & Hl1 & _);
        [cbn [length]; lia|]. cbn [mbind option_bind].
      resume IH QDouble (Some quote1) false st1 (out ++ [quote2; quote1]).
    + destruct (put_char_ok quote1 st out Hw) as (st0 & -> & Hw0 & Hl0); [lia|].
      cbn [mbind option_bind].
      destruct (sprint_ok [quote2; quote1; quote2] st0 _ Hw0) as (st1 & -> & Hw1 & Hl1 & _);
        [rewrite length_app; cbn [length]; lia|]. cbn [mbind option_bind].
      resume IH QDouble (Some quote1) false st1 (out ++ [quote1; quote2; quote1]).
    + rewrite Hp. change (Ascii.eqb quote1 quote1) with true. apply step_back in Hw.
      destruct (sprint_ok [quote1; quote2] _ out Hw) as (st1 & -> & Hw1 & Hl1 & _);
        [cbn [length fst]; lia|]. cbn [mbind option_bind fst] in *.
      resume IH QDouble (Some quote1) false st1 (out ++ [quote1]).
  - assert (Some c <> Some quote1) as Hc' by congruence.
    destruct m; destruct Hm as [-> Hp]; cbn [negb andb mbind option_bind].
    + cbn [early close_mode app] in *. rewrite app_nil_r in Hw.
      by apply (open_single extra s c st out IH).
    + cbn [early app] in *. rewrite app_nil_r in Hw.
      destruct (put_char_ok c st out Hw) as (st1 & -> & Hw1 & Hl1); [cbn [length] in *; lia|].
      cbn [mbind option_bind]. replace (if extra then true else true) with true by (by destruct extra).
      resume IH QSingle (Some c) true st1 (out ++ [c]).
    + cbn [early close_mode] in *. rewrite length_app in Hl.
      destruct (open_single extra s c st (out ++ [quote2]) IH Hc' Hw) as (q & st' & out' & E & Hw' & Ho & Hl').
      { rewrite length_app. lia. }
      exists q, st', out'. rewrite <- app_assoc in Ho. split; [exact E|]. split; [exact Hw'|].
      split; [exact Ho|exact Hl'].
Qed.

(** The terminator stands behind the text. *)
Definition terminated (st : cursor) (out : cstring) : Prop :=
  wrote st out /\ exists tail, st.1 = out ++ NUL :: tail.

Lemma quoted_chars_nonempty extra m c s : quoted_chars extra m (c :: s) <> [].
Proof. cbn [quoted_chars]. by destruct (Ascii.eqb c quote1), m, extra. Qed.

Lemma quote_arg_ok extra arg st out :
  wrote st out -> length out + length (quoted_arg extra arg) < length st.1 ->
  exists st', quote_arg extra arg st = Some st' /\ terminated st' (out ++ quoted_arg extra arg)
    /\ length st'.1 = length st.1.
Proof.
  intros Hw Hl. unfold quote_arg, quoted_arg in *. destruct arg as [|c arg].
  - cbn [quote_chars mbind option_bind length app] in *.
    destruct (sprint_ok [quote1; quote1] st out Hw) as (st1 & -> & Hw1 & Hl1 & _);
      [cbn [length]; lia|]. cbn [mbind option_bind].
    destruct (sprint_ok [space] st1 _ Hw1) as (st2 & -> & Hw2 & Hl2 & Ht);
      [rewrite length_app; cbn [length]; lia|].
    rewrite <- app_assoc in *. exists st2. split; [done|]. split; [by split|lia].
  - rewrite length_app in Hl. cbn [length] in Hl. set (arg' := c :: arg) in *.
    destruct (quote_chars_ok extra arg' QPlain None false st out)
      as (q & st1 & out1 & -> & Hw1 & Ho & Hl1); [done|by rewrite app_nil_r|lia|].
    cbn [mbind option_bind].
    pose proof (f_equal length Ho) as Hlen. rewrite !length_app in Hlen.
    assert (exists st2, (if q then put_char quote1 st1 else Some st1) = Some st2
              /\ wrote st2 (out ++ quoted_chars extra QPlain arg') /\ length st2.1 = length st.1)
      as (st2 & -> & Hw2 & Hl2).
    { rewrite <- Ho. destruct q; cbn [late length] in *.
      - destruct (put_char_ok quote1 st1 out1 Hw1) as (st2 & -> & Hw2 & Hl2); [lia|].
        exists st2. split; [done|]. split; [done|lia].
      - rewrite app_nil_r. by exists st1. }
    cbn [mbind option_bind].
    destruct (sprint_ok [space] st2 _ Hw2) as (st3 & -> & Hw3 & Hl3 & Ht);
      [rewrite length_app; cbn [length]; lia|].
    rewrite <- app_assoc in *. exists st3. split; [done|]. split; [by split|lia].
Qed.

Lemma quote_args_ok extra args : forall st out,
  wrote st out -> length out + length (quoted extra args) < length st.1 ->
  exists st', quote_args extra args st = Some st' /\ wrote st' (out ++ quoted extra args)
    /\ (args <> [] \/ terminated st out -> terminated st' (out ++ quoted extra args)).
Proof.
  unfold quoted. induction args as [|arg args IH]; intros st out Hw Hl; cbn [quote_args map concat] in *.
  { exists st. rewrite app_nil_r. split; [done|]. split; [done|]. by intros [?|?]. }
  rewrite length_app in Hl.
  destruct (quote_arg_ok extra arg st out Hw) as (st1 & -> & Ht1 & Hl1); [lia|].
  cbn [mbind option_bind]. pose proof Ht1 as [Hw1 _].
  destruct (IH st1 _ Hw1) as (st2 & -> & Hw2 & Ht2); [rewrite length_app; lia|].
  rewrite <- app_assoc in *. exists st2. split; [done|]. split; [done|]. intros _. apply Ht2. by right.
Qed.

(** ** The length *)

Lemma length_chars_ok extra s : forall m prev in_quotes len,
  mode_vars m prev in_quotes ->
  let '(q, len') := length_chars extra prev s in_quotes len in
  (len' + Z.of_nat (length (late q)) + Z.of_nat (length (early m)) =
   len + Z.of_nat (length (quoted_chars extra m s)))%Z.
Proof.
  induction s as [|c s IH]; intros m prev in_quotes len Hm; cbn [length_chars quoted_chars].
  { destruct m; destruct Hm as [-> _]; cbn [late early close_mode length]; lia. }
  cbv zeta. destruct (Ascii.eqb_spec c quote1) as [->|Hc].
  - pose proof (fun l => IH QDouble (Some quote1) false l (conj eq_refl eq_refl)) as IHd.
    destruct m; destruct Hm as [-> Hp].
    + replace (match prev with Some p => _ | None => _ end) with (len + 3)%Z.
      2: { destruct prev as [p|]; [|done]. by destruct (Ascii.eqb_spec p quote1) as [->|]. }
      specialize (IHd (len + 3)%Z). destruct (length_chars _ _ _ _ _) as [q len'].
      cbn [early close_mode app length] in *. lia.
    + replace (match prev with Some p => _ | None => _ end) with (len + 1 + 3)%Z.
      2: { destruct prev as [p|]; [|done]. by destruct (Ascii.eqb_spec p quote1) as [->|]. }
      specialize (IHd (len + 1 + 3)%Z). destruct (length_chars _ _ _ _ _) as [q len'].
      cbn [early close_mode app length] in *. lia.
    + rewrite Hp. change (Ascii.eqb quote1 quote1) with true.
      specialize (IHd (len + 1)%Z). destruct (length_chars _ _ _ _ _) as [q len'].
      cbn [early close_mode app length] in *. lia.
  - assert (Some c <> Some quote1) as Hc' by congruence.
    pose proof (fun l => IH QSingle (Some c) true l (conj eq_refl Hc')) as IHs.
    pose proof (fun l => IH QPlain (Some c) false l (conj eq_refl Hc')) as IHp.
    destruct m; destruct Hm as [-> _]; destruct extra; cbn [negb andb];
      match goal with |- context [length_chars _ _ _ true ?l] => specialize (IHs l)
                    | |- context [length_chars _ _ _ false ?l] => specialize (IHp l) end;
      destruct (length_chars _ _ _ _ _) as [q len'];
      cbn [early close_mode app length] in *; lia.
Qed.

Lemma length_arg_ok extra arg len :
  length_arg extra arg len = (len + Z.of_nat (length (quoted_arg extra arg)))%Z.
Proof.
  unfold length_arg, quoted_arg. rewrite length_app. cbn [length].
  assert (mode_vars QPlain None false) as Hm by done.
  pose proof (length_chars_ok extra arg QPlain None false len Hm) as H.
  destruct (length_chars _ _ _ _ _) as [q len'] eqn:E. destruct arg as [|c arg].
  - injection E as <- <-. cbn [length]. lia.
  - destruct q; cbn [late early length] in *; lia.
Qed.

Lemma fold_length extra args len :
  fold_left (fun len arg => length_arg extra arg len) args len =
  (len + Z.of_nat (length (quoted extra args)))%Z.
Proof.
  unfold quoted. revert len. induction args as [|arg args IH]; intros len; cbn [fold_left map concat].
  - cbn [length]. lia.
  - rewrite IH, length_arg_ok, length_app. lia.
Qed.

Lemma s32_small z : (0 <= z <= INT_MAX)%Z -> s32 z = z.
Proof. unfold s32, INT_MAX. intros. rewrite Z.mod_small by lia. lia. Qed.

Lemma cmdline_length_ok args extra :
  (Z.of_nat (length (quoted extra args)) <= INT_MAX)%Z ->
  cmdline_length args extra = Z.of_nat (length (quoted extra args)).
Proof. intros H. unfold cmdline_length. rewrite fold_length, s32_small; lia. Qed.

(** ** The buffer and its string *)

Lemma no_nul_quoted_chars extra s : forall m, no_nul s -> no_nul (quoted_chars extra m s).
Proof.
  assert (Hq : quote1 <> NUL /\ quote2 <> NUL) by (split; discriminate). destruct Hq as [Hq1 Hq2].
  induction s as [|c s IH]; intros m Hs; cbn [quoted_chars].
  { destruct m; repeat constructor; done. }
  apply Forall_cons in Hs as [Hc Hs]. pose proof (IH QPlain Hs). pose proof (IH QSingle Hs).
  pose proof (IH QDouble Hs). unfold no_nul in *.
  destruct (Ascii.eqb c quote1), m, extra; cbn [close_mode app]; repeat constructor; done.
Qed.

Lemma no_nul_quoted extra args : Forall no_nul args -> no_nul (quoted extra args).
Proof.
  unfold quoted. induction 1 as [|arg args Ha Hs IH]; cbn [map concat]; [constructor|].
  apply no_nul_app. split; [|exact IH]. unfold quoted_arg. apply no_nul_app. split.
  - destruct arg; [repeat constructor; discriminate|by apply no_nul_quoted_chars].
  - repeat constructor. discriminate.
Qed.

(** A buffer with room for the text and its terminator holds the text. *)
Lemma quote_cmdline_ok extra args b :
  args <> [] -> length (quoted extra args) < length b ->
  exists b' tail, quote_cmdline b args extra = Some b' /\ b' = quoted extra args ++ NUL :: tail.
Proof.
  intros Ha Hl. unfold quote_cmdline.
  destruct (quote_args_ok extra args (b, 0) []) as (st & -> & _ & Ht); [split; [done|cbn; lia]|done|].
  destruct Ht as [_ [tail Ht]]; [by left|]. exists st.1, tail. split; [done|exact Ht].
Qed.

Lemma quoted_cons extra arg args : quoted extra (arg :: args) = quoted_arg extra arg ++ quoted extra args.
Proof. done. Qed.

Lemma quoted_one extra arg : quoted extra [arg] = quoted_arg extra arg.
Proof. unfold quoted. cbn [map concat]. apply app_nil_r. Qed.

(** ** The shell *)

(** How the shell reads text quoted from a mode: [w] is the word in progress. *)
Definition shell_mode (m : qmode) : shmode :=
  match m with QPlain => ShWord | QSingle => ShSingle | QDouble => ShDouble end.

Lemma default_grow w l : default [] (grow w l) = default [] w ++ l.
Proof. done. Qed.

Lemma grow_app w l1 l2 : grow (grow w l1) l2 = grow w (l1 ++ l2).
Proof. unfold grow. cbn [default]. by rewrite app_assoc. Qed.

Lemma shell_open_double w s :
  shell_words ShWord w (quote2 :: s) = shell_words ShDouble (grow w []) s.
Proof. done. Qed.

Lemma shell_open_single w s :
  shell_words ShWord w (quote1 :: s) = shell_words ShSingle (grow w []) s.
Proof. done. Qed.

Lemma shell_quote_in_double w s :
  shell_words ShDouble w (quote1 :: s) = shell_words ShDouble (grow w [quote1]) s.
Proof. done. Qed.

Lemma shell_close_single w s : shell_words ShSingle w (quote1 :: s) = shell_words ShWord w s.
Proof. done. Qed.

Lemma shell_close_double w s : shell_words ShDouble w (quote2 :: s) = shell_words ShWord w s.
Proof. done. Qed.

Lemma shell_in_single w c s :
  c <> quote1 -> shell_words ShSingle w (c :: s) = shell_words ShSingle (grow w [c]) s.
Proof. intros Hc. cbn [shell_words]. by destruct (Ascii.eqb_spec c quote1). Qed.

(** Outside quotes nothing is left open; a non-empty text always makes a word. *)
Lemma shell_reads s : forall m w rest,
  (m = QPlain -> s = [] -> w <> None) -> (m <> QPlain -> w <> None) ->
  shell_words (shell_mode m) w (quoted_chars true m s ++ space :: rest) =
  cons (default [] w ++ s) <$> shell_words ShWord None rest.
Proof.
  induction s as [|c s IH]; intros m w rest Hp Hm.
  { rewrite app_nil_r. destruct w as [w|]; [|by destruct m; (specialize (Hp eq_refl eq_refl) || specialize (Hm ltac:(done)))].
    by destruct m. }
  assert (Hgo : forall m', m' <> QPlain ->
    shell_words (shell_mode m') (grow w [c]) (quoted_chars true m' s ++ space :: rest) =
    cons (default [] w ++ c :: s) <$> shell_words ShWord None rest).
  { intros m' Hm'. rewrite IH by done. by rewrite default_grow, <- app_assoc. }
  assert (Hnil : forall l, grow (grow w []) l = grow w l) by (intros; by rewrite grow_app).
  assert (Hsome : m <> QPlain -> grow w [] = w).
  { intros Hm'. destruct w; [by unfold grow; cbn; rewrite app_nil_r|by destruct (Hm Hm')]. }
  cbn [quoted_chars]. destruct (Ascii.eqb_spec c quote1) as [->|Hc].
  - rewrite <- (Hgo QDouble) by done.
    destruct m; cbn [close_mode app shell_mode].
    + by rewrite shell_open_double, shell_quote_in_double, Hnil.
    + by rewrite shell_close_single, shell_open_double, shell_quote_in_double, Hnil.
    + by rewrite shell_quote_in_double.
  - rewrite <- (Hgo QSingle) by done.
    destruct m; cbn [close_mode app shell_mode].
    + by rewrite shell_open_single, shell_in_single, Hnil by done.
    + by rewrite shell_in_single by done.
    + by rewrite shell_close_double, shell_open_single, shell_in_single, Hnil by done.
Qed.

Lemma shell_reads_arg arg rest :
  shell_words ShWord None (quoted_arg true arg ++ rest) =
  cons arg <$> shell_words ShWord None rest.
Proof.
  unfold quoted_arg. rewrite <- app_assoc. cbn [app].
  destruct arg as [|c arg]; [done|]. by apply (shell_reads (c :: arg) QPlain None).
Qed.

Lemma shell_reads_args args : shell_words ShWord None (quoted true args) = Some args.
Proof.
  induction args as [|arg args IH]; [done|]. by rewrite quoted_cons, shell_reads_arg, IH.
Qed.

Section Claims.
Context (malloc : nat -> list ascii).
Hypothesis malloc_size : forall n, length (malloc n) = n.

Lemma quote_into_malloc extra args n :
  args <> [] -> length (quoted extra args) < n ->
  exists b tail, quote_cmdline (malloc n) args extra = Some b /\ b = quoted extra args ++ NUL :: tail.
Proof. intros Ha Hn. apply quote_cmdline_ok; [done|]. by rewrite malloc_size. Qed.

Lemma build_cmdline_aux argv index extra :
  (0 <= index < Z.of_nat (length argv))%Z -> Forall no_nul argv ->
  (Z.of_nat (length (quoted extra (drop (Z.to_nat index) argv))) <= INT_MAX)%Z ->
  build_cmdline malloc argv index extra =
  if (ARG_MAX <? Z.of_nat (length (quoted extra (drop (Z.to_nat index) argv))))%Z
  then Exit 1%Z else Ok (quoted extra (drop (Z.to_nat index) argv)).
Proof.
  intros Hi Hn Hl. unfold build_cmdline. destruct (Z.eqb_spec index (-1)); [lia|].
  assert (drop (Z.to_nat index) argv <> []) as Ha
    by (intros E%(f_equal length); rewrite length_drop in E; cbn [length] in E; lia).
  pose proof (no_nul_quoted extra _ (Forall_drop _ (Z.to_nat index) _ Hn)) as Hq.
  set (args := drop (Z.to_nat index) argv) in *. cbv zeta.
  rewrite cmdline_length_ok by done. destruct (_ <? _)%Z; [done|].
  destruct (quote_into_malloc extra args (Z.to_nat (Z.of_nat (length (quoted extra args)) + 1)))
    as (b & tail & -> & ->); [done|lia|].
  cbn [of_write obind]. by rewrite cut_app.
Qed.

(** The command line is built inside its buffer: for every program and
    arguments whose quoted form fits an [int], [build_cmdline] writes only to the
    [cmdline_length] + 1 bytes it allocated and leaves the quoted arguments there,
    or exits with 1 when they are longer than ARG_MAX. *)
Theorem build_cmdline_fits argv index extra :
  (0 <= index < Z.of_nat (length argv))%Z -> Forall no_nul argv ->
  (Z.of_nat (length (quoted extra (drop (Z.to_nat index) argv))) <= INT_MAX)%Z ->
  build_cmdline malloc argv index extra =
  if (ARG_MAX <? Z.of_nat (length (quoted extra (drop (Z.to_nat index) argv))))%Z
  then Exit 1%Z else Ok (quoted extra (drop (Z.to_nat index) argv)).
Proof. apply build_cmdline_aux. Qed.

(** C38: The shell gets the arguments back: whatever characters the program name
    and the arguments contain (blanks, quotes, dollar signs, none at all), a
    POSIX shell splits the command line of [build_cmdline] into exactly them. *)
Theorem build_cmdline_roundtrip argv index s :
  (0 <= index < Z.of_nat (length argv))%Z -> Forall no_nul argv ->
  (Z.of_nat (length (quoted true (drop (Z.to_nat index) argv))) <= INT_MAX)%Z ->
  build_cmdline malloc argv index true = Ok s ->
  shell_words ShWord None s = Some (drop (Z.to_nat index) argv).
Proof.
  intros Hi Hn Hl. rewrite build_cmdline_aux by done. destruct (_ <? _)%Z; [done|].
  intros [= <-]. apply shell_reads_args.
Qed.

(** An AppImage is started through its AppRun: the command line of
    [build_appimage_cmdline] is split by the shell into the path of AppRun and
    the arguments behind the image, and it is rejected exactly when it has
    ARG_MAX characters or more. *)
Theorem build_appimage_roundtrip argv index image rest :
  (0 <= index)%Z -> drop (Z.to_nat index) argv = image :: rest -> Forall no_nul argv ->
  (Z.of_nat (length (quoted true (image :: rest)) + length (quoted_arg true apprun_path)) < INT_MAX)%Z ->
  if (ARG_MAX <=? Z.of_nat (length (quoted true (apprun_path :: rest))))%Z
  then build_appimage_cmdline malloc argv index true = Exit 1%Z
  else exists s, build_appimage_cmdline malloc argv index true = Ok s
         /\ shell_words ShWord None s = Some (apprun_path :: rest).
Proof.
  intros Hi Ha Hn Hl. unfold build_appimage_cmdline. rewrite Ha.
  destruct (Z.eqb_spec index (-1)); [lia|].
  assert (no_nul (quoted true rest)) as Hq.
  { apply no_nul_quoted. apply (Forall_drop _ (Z.to_nat index)) in Hn. rewrite Ha in Hn.
    by apply Forall_cons in Hn as [_ Hn]. }
  rewrite !quoted_cons, !length_app in *. cbv zeta.
  set (q := length (quoted true rest)) in *. set (qi := length (quoted_arg true image)) in *.
  set (qa := length (quoted_arg true apprun_path)) in *.
  assert (forall x, (Z.of_nat (length (quoted_arg true x)) <= INT_MAX)%Z ->
            cmdline_length [x] true = Z.of_nat (length (quoted_arg true x))) as Hone.
  { intros x Hx. rewrite cmdline_length_ok, quoted_one; rewrite ?quoted_one; done. }
  assert (cmdline_length (image :: rest) true = Z.of_nat (qi + q)) as ->.
  { rewrite cmdline_length_ok; rewrite quoted_cons, length_app; [done|fold qi q; lia]. }
  rewrite !Hone by (fold qi qa; lia). fold qi qa.
  assert ((ARG_MAX <? Z.of_nat (qi + q) - Z.of_nat qi + Z.of_nat qa + 1)%Z =
          (ARG_MAX <=? Z.of_nat (qa + q))%Z) as ->.
  { apply eq_true_iff_eq. rewrite Z.ltb_lt, Z.leb_le. lia. }
  destruct (_ <=? _)%Z; [done|].
  destruct (quote_into_malloc true (image :: rest)
    (Z.to_nat (Z.of_nat (qi + q) + Z.of_nat qa + 1))) as (b & tail & -> & ->);
    [done|rewrite quoted_cons, length_app; fold qi q; lia|].
  cbn [of_write obind]. eexists. split; [done|].
  unfold qi. rewrite quoted_cons, <- app_assoc, Nat2Z.id, drop_app_length, cut_app by done.
  apply (shell_reads_args (apprun_path :: rest)).
Qed.
End Claims.

(** ** Evaluation *)

Section Examples.
(** Memory full of the letter x. *)
Definition dirty (n : nat) : list ascii := repeat "x"%char n.
Lemma dirty_size n : length (dirty n) = n.
Proof. apply repeat_length. Qed.

Definition sample_argv : list cstring :=
  map String.list_ascii_of_string ["firejail"; "echo"; "it's"; ""; "a ''b $HOME"].

Lemma build_cmdline_fits_witness :
  option_map String.string_of_list_ascii
    (match build_cmdline dirty sample_argv 1 true with Ok s => Some s | _ => None end) =
  Some (String.string_of_list_ascii (quoted true (drop 1 sample_argv))).
Proof.
  rewrite (build_cmdline_fits dirty dirty_size sample_argv 1 true).
  - reflexivity.
  - apply (bool_decide_unpack _). vm_compute. exact I.
  - apply (bool_decide_unpack _). vm_compute. exact I.
  - vm_compute. discriminate.
Defined.

Lemma build_cmdline_roundtrip_witness :
  exists s, build_cmdline dirty sample_argv 1 true = Ok s
    /\ shell_words ShWord None s = Some (drop 1 sample_argv).
Proof.
  eexists. assert (build_cmdline dirty sample_argv 1 true = Ok (quoted true (drop 1 sample_argv))) as E
    by (vm_compute; reflexivity).
  split; [exact E|]. apply (build_cmdline_roundtrip dirty dirty_size sample_argv 1).
  - apply (bool_decide_unpack _). vm_compute. exact I.
  - apply (bool_decide_unpack _). vm_compute. exact I.
  - vm_compute. discriminate.
  - exact E.
Defined.

Lemma build_appimage_roundtrip_witness :
  exists s, build_appimage_cmdline dirty sample_argv 1 true = Ok s
    /\ shell_words ShWord None s = Some (apprun_path :: drop 2 sample_argv).
Proof.
  apply (build_appimage_roundtrip dirty dirty_size sample_argv 1
           (String.list_ascii_of_string "echo") (drop 2 sample_argv)).
  - apply (bool_decide_unpack _). vm_compute. exact I.
  - reflexivity.
  - apply (bool_decide_unpack _). vm_compute. exact I.
  - vm_compute. reflexivity.
Defined.
End Examples.
