(* ===== verification/Caps.v ===== *)
(** * Capabilities: src/firejail/caps.c

    Lists of capability names become a 64-bit filter, and every capability that
    is not in the filter is dropped from the bounding set with prctl.  The set is
    the kernel's: the class [CapKernel] is the prctl call, its laws are the
    documented behaviour of PR_CAPBSET_DROP for a privileged process. *)

From S2P Require Import Prelude.
From S2P Require Import Clib.

Local Open Scope string_scope.
Local Open Scope list_scope.
Local Open Scope Z_scope.

(** ** The table *)

Record CapsEntry := CapEntry { cap_name : string; cap_nr : Z }.

(** Which CAP_ macros the headers define, and their values. *)
Class CapHeaders := CAP : string -> option Z.

(** An entry of the source: [#ifdef macro], and the value after [#else]. *)
Record cap_item := CapItem { ci_name : string; ci_macro : string; ci_else : option Z }.

Definition cap_items : list cap_item :=
  [CapItem "chown" "CAP_CHOWN" None;
   CapItem "dac_override" "CAP_DAC_OVERRIDE" None;
   CapItem "dac_read_search" "CAP_DAC_READ_SEARCH" None;
   CapItem "fowner" "CAP_FOWNER" None;
   CapItem "fsetid" "CAP_FSETID" None;
   CapItem "kill" "CAP_KILL" None;
   CapItem "setgid" "CAP_SETGID" None;
   CapItem "setuid" "CAP_SETUID" None;
   CapItem "setpcap" "CAP_SETPCAP" None;
   CapItem "linux_immutable" "CAP_LINUX_IMMUTABLE" None;
   CapItem "net_bind_service" "CAP_NET_BIND_SERVICE" None;
   CapItem "net_broadcast" "CAP_NET_BROADCAST" None;
   CapItem "net_admin" "CAP_NET_ADMIN" None;
   CapItem "net_raw" "CAP_NET_RAW" None;
   CapItem "ipc_lock" "CAP_IPC_LOCK" None;
   CapItem "ipc_owner" "CAP_IPC_OWNER" None;
   CapItem "sys_module" "CAP_SYS_MODULE" None;
   CapItem "sys_rawio" "CAP_SYS_RAWIO" None;
   CapItem "sys_chroot" "CAP_SYS_CHROOT" None;
   CapItem "sys_ptrace" "CAP_SYS_PTRACE" None;
   CapItem "sys_pacct" "CAP_SYS_PACCT" None;
   CapItem "sys_admin" "CAP_SYS_ADMIN" None;
   CapItem "sys_boot" "CAP_SYS_BOOT" None;
   CapItem "sys_nice" "CAP_SYS_NICE" None;
   CapItem "sys_resource" "CAP_SYS_RESOURCE" None;
   CapItem "sys_time" "CAP_SYS_TIME" None;
   CapItem "sys_tty_config" "CAP_SYS_TTY_CONFIG" None;
   CapItem "mknod" "CAP_MKNOD" None;
   CapItem "lease" "CAP_LEASE" None;
   CapItem "audit_write" "CAP_AUDIT_WRITE" None;
   CapItem "audit_control" "CAP_AUDIT_CONTROL" None;
   CapItem "setfcap" "CAP_SETFCAP" None;
   CapItem "mac_override" "CAP_MAC_OVERRIDE" None;
   CapItem "mac_admin" "CAP_MAC_ADMIN" None;
   CapItem "syslog" "CAP_SYSLOG" None;
   CapItem "wake_alarm" "CAP_WAKE_ALARM" None;
   CapItem "block_suspend" "CAP_BLOCK_SUSPEND" (Some 36);
   CapItem "audit_read" "CAP_AUDIT_READ" (Some 37);
   CapItem "perfmon" "CAP_PERFMON" (Some 38);
   CapItem "bpf" "CAP_BPF" (Some 39);
   CapItem "checkpoint_restore" "CAP_CHECKPOINT_RESTORE" (Some 40)].

Definition cap_entry `{CapHeaders} (i : cap_item) : list CapsEntry :=
  match CAP (ci_macro i), ci_else i with
  | Some nr, _ => [CapEntry (ci_name i) nr]
  | None, Some nr => [CapEntry (ci_name i) nr]
  | None, None => []
  end.

Definition capslist `{CapHeaders} : list CapsEntry := flat_map cap_entry cap_items.

(** The values of linux/capability.h, which are part of the kernel's interface. *)
Definition cap_values : list (string * Z) :=
  [("CAP_CHOWN", 0);
   ("CAP_DAC_OVERRIDE", 1);
   ("CAP_DAC_READ_SEARCH", 2);
   ("CAP_FOWNER", 3);
   ("CAP_FSETID", 4);
   ("CAP_KILL", 5);
   ("CAP_SETGID", 6);
   ("CAP_SETUID", 7);
   ("CAP_SETPCAP", 8);
   ("CAP_LINUX_IMMUTABLE", 9);
   ("CAP_NET_BIND_SERVICE", 10);
   ("CAP_NET_BROADCAST", 11);
   ("CAP_NET_ADMIN", 12);
   ("CAP_NET_RAW", 13);
   ("CAP_IPC_LOCK", 14);
   ("CAP_IPC_OWNER", 15);
   ("CAP_SYS_MODULE", 16);
   ("CAP_SYS_RAWIO", 17);
   ("CAP_SYS_CHROOT", 18);
   ("CAP_SYS_PTRACE", 19);
   ("CAP_SYS_PACCT", 20);
   ("CAP_SYS_ADMIN", 21);
   ("CAP_SYS_BOOT", 22);
   ("CAP_SYS_NICE", 23);
   ("CAP_SYS_RESOURCE", 24);
   ("CAP_SYS_TIME", 25);
   ("CAP_SYS_TTY_CONFIG", 26);
   ("CAP_MKNOD", 27);
   ("CAP_LEASE", 28);
   ("CAP_AUDIT_WRITE", 29);
   ("CAP_AUDIT_CONTROL", 30);
   ("CAP_SETFCAP", 31);
   ("CAP_MAC_OVERRIDE", 32);
   ("CAP_MAC_ADMIN", 33);
   ("CAP_SYSLOG", 34);
   ("CAP_WAKE_ALARM", 35);
   ("CAP_BLOCK_SUSPEND", 36);
   ("CAP_AUDIT_READ", 37);
   ("CAP_PERFMON", 38);
   ("CAP_BPF", 39);
   ("CAP_CHECKPOINT_RESTORE", 40)].

Definition linux_cap (macro : string) : option Z :=
  option_map snd (List.find (fun p => streq macro p.1) cap_values).

(** The macros without an [#ifdef]. *)
Definition cap_required : list string :=
  ["CAP_SYS_MODULE"; "CAP_SYS_RAWIO"; "CAP_SYS_BOOT"; "CAP_SYS_NICE"; "CAP_SYS_TTY_CONFIG";
   "CAP_MKNOD"; "CAP_SYS_ADMIN"; "CAP_DAC_OVERRIDE"; "CAP_DAC_READ_SEARCH"].

(** ** The kernel *)

Inductive drop_result := DropOk | DropEINVAL | DropEPERM.

(** [bset_drop n set]: PR_CAPBSET_DROP of [n] in a process with bounding set
    [set]; [cap_last] is the last capability the kernel knows. *)
Class CapKernel := {
  cap_last : Z;
  bset_drop : Z -> Z -> drop_result * Z;
}.

Class CapLaws `{CapHeaders} `{CapKernel} := {
  cap_last_range : 0 <= cap_last <= 63;
  bset_drop_valid n set :
    0 <= n <= cap_last -> bset_drop n set = (DropOk, Z.ldiff set (2 ^ n));
  bset_drop_invalid n set : cap_last < n -> bset_drop n set = (DropEINVAL, set);
  cap_abi macro n : CAP macro = Some n -> linux_cap macro = Some n;
  cap_required_defined macro : In macro cap_required -> is_Some (CAP macro);
}.

(** The bounding set of the process and the static variable [filter]. *)
Record caps_state := CapsState { bset : Z; filter : Z }.

Section Caps.
Context `{CH : CapHeaders} `{CK : CapKernel}.

(** [prctl(PR_CAPBSET_DROP, n, 0, 0, 0)] *)
Definition prctl_drop (n : Z) : CM caps_state drop_result := fun s =>
  let '(r, set) := bset_drop n (bset s) in (Ok r, CapsState set (filter s)).

Definition caps_find_name (name : string) : Z :=
  match List.find (fun e => streq name (cap_name e)) capslist with
  | Some e => cap_nr e
  | None => -1
  end.

(** [callback(nr)], if there is one; an unknown name ends the program. *)
Definition caps_found (callback : option (Z -> CM caps_state unit)) (name : string)
    : CM caps_state unit :=
  let nr := caps_find_name name in
  if nr =? -1 then cexit 1
  else match callback with Some cb => cb nr | None => cret tt end.

(** [start] is the text between the pointers [start] and [ptr]. *)
Fixpoint caps_check_loop (callback : option (Z -> CM caps_state unit)) (start rest : string)
    : CM caps_state unit :=
  match rest with
  | EmptyString => if nonempty start then caps_found callback start else cret tt
  | String c rest' =>
      if islower c || isdigit c || Ascii.eqb c "_" then
        caps_check_loop callback (start +:+ String c "") rest'
      else if Ascii.eqb c "," then
        caps_found callback start ;;;
        caps_check_loop callback "" rest'
      else caps_check_loop callback (start +:+ String c "") rest'
  end.

Definition caps_check_list (clist : option string) (callback : option (Z -> CM caps_state unit))
    : CM caps_state unit :=
  match clist with
  | None | Some EmptyString => cexit 1
  | Some str => caps_check_loop callback "" str
  end.

(** prctl fails with -1; errors other than EINVAL end the program. *)
Definition drop_unless_error (n : Z) : CM caps_state unit :=
  r <~ prctl_drop n ;;
  match r with DropEPERM => cexit 1 | _ => cret tt end.

Definition drop_or_exit (n : Z) : CM caps_state unit :=
  r <~ prctl_drop n ;;
  match r with DropOk => cret tt | _ => cexit 1 end.

Definition caps_drop_all : CM caps_state unit :=
  cfold (fun cap _ => drop_unless_error cap) (seqZ 0 64) tt.

Fixpoint caps_set_loop (k : nat) (i mask caps : Z) : CM caps_state unit :=
  match k with
  | O => cret tt
  | S k' =>
      (if Z.land mask caps =? 0 then drop_unless_error i else cret tt) ;;;
      caps_set_loop k' (i + 1) (u64 (Z.shiftl mask 1)) caps
  end.

Definition caps_set (caps : Z) : CM caps_state unit := caps_set_loop 64 0 1 caps.

Definition caps_set_bit (nr : Z) : CM caps_state unit :=
  cmodify (fun s => CapsState (bset s) (Z.lor (filter s) (u64 (Z.shiftl 1 nr)))).

(** [filter &= ~mask] in 64 bits *)
Definition caps_reset_bit (nr : Z) : CM caps_state unit :=
  cmodify (fun s => CapsState (bset s) (Z.land (filter s) (u64 (Z.lnot (u64 (Z.shiftl 1 nr)))))).

Definition set_filter (v : Z) : CM caps_state unit := cmodify (fun s => CapsState (bset s) v).

Definition caps_drop_list (clist : option string) : CM caps_state unit :=
  set_filter (u64 (0 - 1)) ;;;
  caps_check_list clist (Some caps_reset_bit) ;;;
  s <~ cget ;; caps_set (filter s).

Definition caps_keep_list (clist : option string) : CM caps_state unit :=
  set_filter 0 ;;;
  caps_check_list clist (Some caps_set_bit) ;;;
  s <~ cget ;; caps_set (filter s).

(** A macro the source uses unconditionally. *)
Definition cap_macro (macro : string) : Z := default 0 (CAP macro).

Definition caps_default_filter : CM caps_state unit :=
  drop_or_exit (cap_macro "CAP_SYS_MODULE") ;;;
  drop_or_exit (cap_macro "CAP_SYS_RAWIO") ;;;
  drop_or_exit (cap_macro "CAP_SYS_BOOT") ;;;
  drop_or_exit (cap_macro "CAP_SYS_NICE") ;;;
  drop_or_exit (cap_macro "CAP_SYS_TTY_CONFIG") ;;;
  (match CAP "CAP_SYSLOG" with Some n => drop_or_exit n | None => cret tt end) ;;;
  drop_or_exit (cap_macro "CAP_MKNOD") ;;;
  drop_or_exit (cap_macro "CAP_SYS_ADMIN").

(** The results are ignored. *)
Definition caps_drop_dac_override (root noprofile : bool) : CM caps_state unit :=
  if root && negb noprofile then
    prctl_drop (cap_macro "CAP_DAC_OVERRIDE") ;;;
    prctl_drop (cap_macro "CAP_DAC_READ_SEARCH") ;;;
    cret tt
  else cret tt.

(** The options that choose; [root] is [getuid() == 0]. *)
Record caps_config := CapsConfig {
  arg_caps_drop_all : bool;
  arg_caps_drop : bool;
  arg_caps_keep : bool;
  arg_caps_default_filter : bool;
  arg_caps_list : option string;
  arg_noprofile : bool;
  uid_root : bool;
}.

Definition set_caps (c : caps_config) : CM caps_state unit :=
  (if arg_caps_drop_all c then caps_drop_all
   else if arg_caps_drop c then caps_drop_list (arg_caps_list c)
   else if arg_caps_keep c then caps_keep_list (arg_caps_list c)
   else if arg_caps_default_filter c then caps_default_filter
   else cret tt) ;;;
  (if negb (arg_caps_keep c) then caps_drop_dac_override (uid_root c) (arg_noprofile c)
   else cret tt).

(** The lines of [caps_print_filter]: the mask is shifted once per entry. *)
Fixpoint caps_filter_lines (entries : list CapsEntry) (mask caps : Z) : list (string * bool) :=
  match entries with
  | [] => []
  | e :: rest =>
      (cap_name e, negb (Z.land mask caps =? 0)) ::
      caps_filter_lines rest (u64 (Z.shiftl mask 1)) caps
  end.

Definition caps_print_filter (caps : Z) : list (string * bool) := caps_filter_lines capslist 1 caps.

(** ** Specification *)

(** The pieces of a list: an empty one behind the last comma does not count. *)
Definition caps_pieces (str : string) : list string :=
  let ps := fields "," str in
  match last ps with Some EmptyString => removelast ps | _ => ps end.

(** The capabilities a list names; [None] when the list is rejected. *)
Definition caps_meaning (clist : option string) : option (list Z) :=
  match clist with
  | None | Some EmptyString => None
  | Some str => mapM (fun n => let nr := caps_find_name n in if nr =? -1 then None else Some nr)
                  (caps_pieces str)
  end.

(** The capabilities [caps_default_filter] takes away. *)
Definition default_dropped : list Z :=
  map cap_macro ["CAP_SYS_MODULE"; "CAP_SYS_RAWIO"; "CAP_SYS_BOOT"; "CAP_SYS_NICE";
                 "CAP_SYS_TTY_CONFIG"; "CAP_MKNOD"; "CAP_SYS_ADMIN"]
  ++ match CAP "CAP_SYSLOG" with Some n => [n] | None => [] end.

(** A capability the options leave in the bounding set. *)
Definition cap_kept (c : caps_config) (n : Z) : bool :=
  let listed := existsb (Z.eqb n) (default [] (caps_meaning (arg_caps_list c))) in
  let dac := (n =? cap_macro "CAP_DAC_OVERRIDE") || (n =? cap_macro "CAP_DAC_READ_SEARCH") in
  (if arg_caps_drop_all c then false
   else if arg_caps_drop c then negb listed
   else if arg_caps_keep c then listed
   else if arg_caps_default_filter c then negb (existsb (Z.eqb n) default_dropped)
   else true)
  && (arg_caps_keep c || negb (uid_root c && negb (arg_noprofile c) && dac)).

(** The list is one that main accepted, and the kernel knows what the default
    filter drops. *)
Definition caps_config_ok (c : caps_config) : Prop :=
  (arg_caps_drop c || arg_caps_keep c = true -> is_Some (caps_meaning (arg_caps_list c)))
  /\ Forall (fun n => n <= cap_last) default_dropped.
End Caps.

(** * Capability lists: the properties *)

Local Open Scope string_scope.
Local Open Scope list_scope.
Local Open Scope Z_scope.

(** ** The list loop *)

Lemma append_char s c t : (s +:+ String c "") +:+ t = s +:+ String c t.
Proof. induction s as [|d s IH]; [done|]. change (String d ((s +:+ String c "") +:+ t) = String d (s +:+ String c t)). by rewrite IH. Qed.

Lemma mem_snoc d s c : string_mem d s = false -> Ascii.eqb c d = false -> string_mem d (s +:+ String c "") = false.
Proof. intros Hs Hc. rewrite string_mem_app, Hs. simpl. by rewrite Hc. Qed.

Lemma caps_pieces_cons s t :
  string_mem "," s = false -> caps_pieces (s +:+ String "," t) = s :: caps_pieces t.
Proof.
  intros Hs. unfold caps_pieces. rewrite fields_app, fields_single by done.
  destruct (fields_cons "," t) as (f & fs & ->). cbn [app].
  change (last (s :: f :: fs)) with (last (f :: fs)).
  change (removelast (s :: f :: fs)) with (s :: removelast (f :: fs)).
  by destruct (last (f :: fs)) as [[]|].
Qed.

Lemma caps_pieces_single s :
  string_mem "," s = false -> caps_pieces s = if nonempty s then [s] else [].
Proof. intros Hs. unfold caps_pieces. rewrite fields_single by done. by destruct s. Qed.

Section Lists.
Context `{CH : CapHeaders} `{CK : CapKernel} {CL : CapLaws}.

Lemma caps_check_loop_pieces cb rest : forall start s,
  string_mem "," start = false ->
  caps_check_loop cb start rest s =
  cfold (fun n _ => caps_found cb n) (caps_pieces (start +:+ rest)) tt s.
Proof.
  induction rest as [|c rest IH]; intros start s Hs; cbn [caps_check_loop].
  - rewrite append_empty_r, caps_pieces_single by done. destruct (nonempty start); [|done].
    by rewrite cfold_single.
  - assert (Ascii.eqb c "," = false ->
      caps_check_loop cb (start +:+ String c "") rest s =
      cfold (fun n _ => caps_found cb n) (caps_pieces (start +:+ String c rest)) tt s) as Hgo.
    { intros Hc. rewrite IH by (by apply mem_snoc). by rewrite append_char. }
    destruct (islower c || isdigit c || Ascii.eqb c "_") eqn:Ec.
    + apply Hgo. destruct (Ascii.eqb_spec c ","); [by subst|done].
    + destruct (Ascii.eqb_spec c ",") as [->|Hc]; [|by apply Hgo].
      rewrite caps_pieces_cons by done. cbn [cfold]. apply cbind_ext. intros [] s'.
      by rewrite IH.
Qed.

(** Capabilities found in the table. *)
Lemma linux_cap_range macro n : linux_cap macro = Some n -> 0 <= n <= 40.
Proof.
  unfold linux_cap. intros H.
  assert (forallb (fun p => (0 <=? p.2) && (p.2 <=? 40)) cap_values = true) as W by (vm_compute; reflexivity).
  destruct (List.find _ cap_values) as [p|] eqn:E; [|done]. injection H as <-.
  apply find_some in E as [Hi _]. rewrite forallb_forall in W. specialize (W p Hi). lia.
Qed.

Lemma caps_find_name_range name : caps_find_name name <> -1 -> 0 <= caps_find_name name <= 40.
Proof.
  unfold caps_find_name. destruct (List.find _ capslist) as [e|] eqn:E; [|done]. intros _.
  apply find_some in E as [Hi _]. unfold capslist in Hi. apply in_flat_map in Hi as (i & Hi & He).
  unfold cap_entry in He. destruct (CAP (ci_macro i)) as [n|] eqn:Em.
  - apply cap_abi in Em. apply linux_cap_range in Em.
    by destruct He as [<-|[]].
  - assert (forallb (fun i => match ci_else i with Some n => (0 <=? n) && (n <=? 40) | None => true end)
              cap_items = true) as W by (vm_compute; reflexivity).
    rewrite forallb_forall in W. specialize (W i Hi). destruct (ci_else i); [|done].
    destruct He as [<-|[]]. cbn [cap_nr]. lia.
Qed.

Definition name_nr (n : string) : option Z :=
  let nr := caps_find_name n in if nr =? -1 then None else Some nr.

Lemma names_range names nrs : mapM name_nr names = Some nrs -> Forall (fun n => 0 <= n <= 40) nrs.
Proof.
  intros H. apply mapM_Some in H. induction H as [|n nr names nrs Hn _ IH]; constructor; [|done].
  unfold name_nr in Hn. cbv zeta in Hn. destruct (Z.eqb_spec (caps_find_name n) (-1)); [done|].
  injection Hn as <-. by apply caps_find_name_range.
Qed.

Lemma caps_meaning_range clist nrs : caps_meaning clist = Some nrs -> Forall (fun n => 0 <= n <= 40) nrs.
Proof. unfold caps_meaning. destruct clist as [[|c s]|]; [done| |done]. apply names_range. Qed.

(** A callback that only changes the filter. *)
Section Callback.
Context (cb : Z -> CM caps_state unit) (f : Z -> Z -> Z).
Hypothesis cb_filter : forall nr s, cb nr s = (Ok tt, CapsState (bset s) (f (filter s) nr)).

Lemma caps_found_nr n : caps_found (Some cb) n =
  match name_nr n with Some nr => cb nr | None => cexit 1 end.
Proof. unfold caps_found, name_nr. cbv zeta. by destruct (caps_find_name n =? -1). Qed.

Lemma found_fold names : forall nrs s, mapM name_nr names = Some nrs ->
  cfold (fun n _ => caps_found (Some cb) n) names tt s =
  (Ok tt, CapsState (bset s) (fold_left f nrs (filter s))).
Proof.
  induction names as [|n names IH]; intros nrs s Hm.
  { injection Hm as <-. by destruct s. }
  cbn [mapM] in Hm. cbn [cfold]. rewrite caps_found_nr.
  destruct (name_nr n) as [nr|]; [|discriminate]. cbn [mbind option_bind] in Hm.
  destruct (mapM name_nr names) as [nrs'|] eqn:E; [|discriminate]. injection Hm as <-.
  rewrite (cbind_ok _ _ _ _ _ (cb_filter _ s)). by rewrite (IH nrs').
Qed.

Lemma found_exit names : forall s, mapM name_nr names = None ->
  exists fl, cfold (fun n _ => caps_found (Some cb) n) names tt s = (Exit 1, CapsState (bset s) fl).
Proof.
  induction names as [|n names IH]; intros s Hm; [done|].
  cbn [mapM] in Hm. cbn [cfold]. rewrite caps_found_nr.
  destruct (name_nr n) as [nr|]; [|by destruct s; eexists]. cbn [mbind option_bind] in Hm.
  destruct (mapM name_nr names) as [nrs'|] eqn:E; [discriminate|].
  rewrite (cbind_ok _ _ _ _ _ (cb_filter _ s)).
  destruct (IH (CapsState (bset s) (f (filter s) nr)) eq_refl) as [fl ->]. eauto.
Qed.

Lemma caps_list_ok clist nrs s : caps_meaning clist = Some nrs ->
  caps_check_list clist (Some cb) s = (Ok tt, CapsState (bset s) (fold_left f nrs (filter s))).
Proof.
  unfold caps_meaning, caps_check_list. destruct clist as [[|c str]|]; [done| |done].
  intros Hm. rewrite caps_check_loop_pieces by done. by apply found_fold.
Qed.

Lemma caps_list_exit clist s : caps_meaning clist = None ->
  exists fl, caps_check_list clist (Some cb) s = (Exit 1, CapsState (bset s) fl).
Proof.
  unfold caps_meaning, caps_check_list. destruct clist as [[|c str]|]; try (by destruct s; eexists).
  intros Hm. rewrite caps_check_loop_pieces by done. by apply found_exit.
Qed.
End Callback.
End Lists.

(** ** The filter *)

Lemma bit_mask n : 0 <= n < 64 -> u64 (Z.shiftl 1 n) = 2 ^ n.
Proof.
  intros Hn. rewrite Z.shiftl_1_l. apply u64_small. split; [lia|]. apply Z.pow_lt_mono_r; lia.
Qed.

Lemma set_bits nrs : forall fl j, Forall (fun n => 0 <= n <= 40) nrs -> 0 <= j ->
  Z.testbit (fold_left (fun fl nr => Z.lor fl (u64 (Z.shiftl 1 nr))) nrs fl) j =
  Z.testbit fl j || existsb (Z.eqb j) nrs.
Proof.
  induction nrs as [|n nrs IH]; intros fl j Hn Hj; cbn [fold_left existsb]; [by rewrite orb_false_r|].
  apply Forall_cons in Hn as [Hn Hs]. rewrite IH by done.
  rewrite bit_mask, Z.lor_spec, Z.pow2_bits_eqb, (Z.eqb_sym n j), orb_assoc by lia. done.
Qed.

Lemma reset_mask n j : 0 <= n < 64 -> 0 <= j < 64 ->
  Z.testbit (u64 (Z.lnot (u64 (Z.shiftl 1 n)))) j = negb (j =? n).
Proof.
  intros Hn Hj. rewrite bit_mask by done. unfold u64.
  rewrite Z.mod_pow2_bits_low, Z.lnot_spec, Z.pow2_bits_eqb, Z.eqb_sym by lia. done.
Qed.

Lemma reset_bits nrs : forall fl j, Forall (fun n => 0 <= n <= 40) nrs -> 0 <= j < 64 ->
  Z.testbit (fold_left (fun fl nr => Z.land fl (u64 (Z.lnot (u64 (Z.shiftl 1 nr))))) nrs fl) j =
  Z.testbit fl j && negb (existsb (Z.eqb j) nrs).
Proof.
  induction nrs as [|n nrs IH]; intros fl j Hn Hj; cbn [fold_left existsb]; [by rewrite andb_true_r|].
  apply Forall_cons in Hn as [Hn Hs]. rewrite IH by done.
  rewrite Z.land_spec, reset_mask, negb_orb, andb_assoc by lia. done.
Qed.

(** ** Dropping *)

Section Drops.
Context `{CH : CapHeaders} `{CK : CapKernel} {CL : CapLaws}.

(** The computation succeeds and leaves exactly the capabilities [p] of those
    the kernel knows. *)
Definition leaves (m : CM caps_state unit) (p : Z -> bool) : Prop :=
  forall s, exists s', m s = (Ok tt, s')
    /\ forall j, 0 <= j <= cap_last -> Z.testbit (bset s') j = Z.testbit (bset s) j && p j.

Lemma leaves_ret : leaves (cret tt) (fun _ => true).
Proof. intros s. exists s. split; [done|]. intros. by rewrite andb_true_r. Qed.

Lemma leaves_bind m m' p q : leaves m p -> leaves m' q -> leaves (m ;;; m') (fun j => p j && q j).
Proof.
  intros Hm Hm' s. destruct (Hm s) as (s1 & E1 & H1). destruct (Hm' s1) as (s2 & E2 & H2).
  exists s2. rewrite (cbind_ok _ _ _ _ _ E1). split; [done|]. intros j Hj.
  by rewrite H2, H1, andb_assoc.
Qed.

Lemma leaves_ext m p q : (forall j, 0 <= j <= cap_last -> p j = q j) -> leaves m p -> leaves m q.
Proof.
  intros H Hm s. destruct (Hm s) as (s' & E & Hs). exists s'. split; [done|].
  intros j Hj. by rewrite Hs, H.
Qed.

Lemma ldiff_pow2 set n j : 0 <= n -> Z.testbit (Z.ldiff set (2 ^ n)) j = Z.testbit set j && negb (j =? n).
Proof. intros Hn. by rewrite Z.ldiff_spec, Z.pow2_bits_eqb, Z.eqb_sym by done. Qed.

Lemma leaves_drop_or_exit n : 0 <= n <= cap_last -> leaves (drop_or_exit n) (fun j => negb (j =? n)).
Proof.
  intros Hn s. unfold drop_or_exit, cbind, prctl_drop. rewrite bset_drop_valid by done.
  eexists. split; [done|]. intros j Hj. apply ldiff_pow2. lia.
Qed.

Lemma leaves_drop_unless_error n : 0 <= n -> leaves (drop_unless_error n) (fun j => negb (j =? n)).
Proof.
  intros Hn s. unfold drop_unless_error, cbind, prctl_drop.
  destruct (Z.le_gt_cases n cap_last) as [Hl|Hl].
  - rewrite bset_drop_valid by done. eexists. split; [done|]. intros j Hj. apply ldiff_pow2. lia.
  - rewrite bset_drop_invalid by lia. eexists. split; [done|]. intros j Hj.
    assert (j =? n = false) as -> by lia. by rewrite andb_true_r.
Qed.

Lemma leaves_drops l :
  Forall (fun n => 0 <= n) l ->
  leaves (cfold (fun n _ => drop_unless_error n) l tt) (fun j => negb (existsb (Z.eqb j) l)).
Proof.
  induction 1 as [|n l Hn Hl IH]; [apply leaves_ret|]. cbn [cfold existsb].
  intros s. destruct (leaves_bind _ _ _ _ (leaves_drop_unless_error n Hn) IH s) as (s' & E & Hs).
  exists s'. split; [rewrite <- E; apply cbind_ext; by intros []|].
  intros j Hj. by rewrite Hs, negb_orb.
Qed.

Lemma seqZ_mem j : 0 <= j < 64 -> existsb (Z.eqb j) (seqZ 0 64) = true.
Proof.
  intros Hj. apply existsb_exists. exists j. split; [|apply Z.eqb_refl].
  apply list_elem_of_In, elem_of_seqZ. lia.
Qed.

Lemma leaves_drop_all : leaves caps_drop_all (fun _ => false).
Proof.
  pose proof cap_last_range as Hr. eapply leaves_ext; [|apply leaves_drops].
  - intros j Hj. cbn beta. by rewrite seqZ_mem by lia.
  - apply Forall_forall. intros n Hn%elem_of_seqZ. lia.
Qed.

Lemma leaves_caps_set_loop caps k : forall i, i + Z.of_nat k = 64 -> 0 <= i ->
  leaves (caps_set_loop k i (u64 (2 ^ i)) caps) (fun j => (j <? i) || Z.testbit caps j).
Proof.
  pose proof cap_last_range as Hr. induction k as [|k IH]; intros i Hik Hi; cbn [caps_set_loop].
  { eapply leaves_ext; [|apply leaves_ret]. intros j Hj. cbn beta. assert (j <? i = true) as -> by lia. done. }
  assert (u64 (2 ^ i) = 2 ^ i) as Hm by (rewrite <- (Z.shiftl_1_l i) at 1; apply bit_mask; lia).
  rewrite Hm, land_pow2_zero by lia.
  replace (Z.shiftl (2 ^ i) 1) with (2 ^ (i + 1)) by (rewrite Z.shiftl_mul_pow2, Z.pow_add_r by lia; done).
  specialize (IH (i + 1) ltac:(lia) ltac:(lia)).
  destruct (Z.testbit caps i) eqn:Ei; cbn [negb];
    (eapply leaves_ext; [|eapply leaves_bind; [|exact IH]];
     [|(apply leaves_drop_unless_error; lia) || apply leaves_ret]);
    intros j Hj; cbn beta;
    destruct (Z.eqb_spec j i) as [->|Hne]; rewrite ?Ei;
    repeat match goal with |- context [?a <? ?b] => destruct (Z.ltb_spec a b) end;
    cbn; try done; lia.
Qed.

Lemma leaves_caps_set caps : leaves (caps_set caps) (Z.testbit caps).
Proof.
  eapply leaves_ext; [|apply (leaves_caps_set_loop caps 64 0); lia].
  intros j Hj. cbn beta. by assert (j <? 0 = false) as -> by lia.
Qed.
End Drops.

Section Claims.
Context `{CH : CapHeaders} `{CK : CapKernel} {CL : CapLaws}.

Lemma leaves_drop_list clist nrs :
  caps_meaning clist = Some nrs -> leaves (caps_drop_list clist) (fun j => negb (existsb (Z.eqb j) nrs)).
Proof.
  intros Hm s. pose proof cap_last_range as Hr. pose proof (caps_meaning_range _ _ Hm) as Hn.
  unfold caps_drop_list, set_filter. rewrite cmodify_bind.
  rewrite (cbind_ok _ _ _ _ _ (caps_list_ok caps_reset_bit
             (fun fl nr => Z.land fl (u64 (Z.lnot (u64 (Z.shiftl 1 nr))))) (fun _ _ => eq_refl) _ _ _ Hm)).
  rewrite cget_bind. cbn [bset filter].
  match goal with |- context [caps_set ?fl ?s1] => destruct (leaves_caps_set fl s1) as (s' & E & Hs) end.
  exists s'. split; [exact E|]. intros j Hj. rewrite Hs, reset_bits by (done || lia).
  assert (Z.testbit (u64 (0 - 1)) j = true) as ->; [|done].
  change (u64 (0 - 1)) with (Z.ones 64). apply Z.ones_spec_low. lia.
Qed.

Lemma leaves_keep_list clist nrs :
  caps_meaning clist = Some nrs -> leaves (caps_keep_list clist) (fun j => existsb (Z.eqb j) nrs).
Proof.
  intros Hm s. pose proof (caps_meaning_range _ _ Hm) as Hn.
  unfold caps_keep_list, set_filter. rewrite cmodify_bind.
  rewrite (cbind_ok _ _ _ _ _ (caps_list_ok caps_set_bit
             (fun fl nr => Z.lor fl (u64 (Z.shiftl 1 nr))) (fun _ _ => eq_refl) _ _ _ Hm)).
  rewrite cget_bind. cbn [bset filter].
  match goal with |- context [caps_set ?fl ?s1] => destruct (leaves_caps_set fl s1) as (s' & E & Hs) end.
  exists s'. split; [exact E|]. intros j Hj. by rewrite Hs, set_bits, Z.testbit_0_l by (done || lia).
Qed.

Lemma cap_macro_range m : In m cap_required -> 0 <= cap_macro m <= 40.
Proof.
  intros [n Hn]%cap_required_defined. unfold cap_macro. rewrite Hn. apply cap_abi in Hn.
  by apply linux_cap_range in Hn.
Qed.

Lemma leaves_default :
  Forall (fun n => n <= cap_last) default_dropped ->
  leaves caps_default_filter (fun j => negb (existsb (Z.eqb j) default_dropped)).
Proof.
  intros Hd. unfold default_dropped in Hd. apply Forall_app in Hd as [Hd Hs]. unfold caps_default_filter.
  assert (Hreq : forall m, In m cap_required -> In (cap_macro m) (map cap_macro (take 7 cap_required)) ->
            leaves (drop_or_exit (cap_macro m)) (fun j => negb (j =? cap_macro m))).
  { intros m Hm Hi. apply leaves_drop_or_exit. split; [by apply cap_macro_range|].
    rewrite Forall_forall in Hd. apply Hd. by apply list_elem_of_In. }
  assert (Hsys : leaves (match CAP "CAP_SYSLOG" with Some n => drop_or_exit n | None => cret tt end)
            (fun j => negb (existsb (Z.eqb j) (match CAP "CAP_SYSLOG" with Some n => [n] | None => [] end)))).
  { destruct (CAP "CAP_SYSLOG") as [n|] eqn:E; [|apply leaves_ret].
    apply cap_abi, linux_cap_range in E. apply Forall_cons in Hs as [Hn _].
    eapply leaves_ext; [|apply leaves_drop_or_exit; lia]. intros j _. cbn. by rewrite orb_false_r. }
  eapply leaves_ext;
    [|do 5 (eapply leaves_bind; [apply Hreq; cbn; tauto|]);
      eapply leaves_bind; [exact Hsys|];
      eapply leaves_bind; apply Hreq; cbn; tauto].
  intros j _. cbn beta. unfold default_dropped. rewrite existsb_app, negb_orb. cbn [map existsb].
  generalize (existsb (Z.eqb j) (match CAP "CAP_SYSLOG" with Some n => [n] | None => [] end)).
  intros b. repeat match goal with |- context [j =? ?x] => destruct (j =? x) end; by destruct b.
Qed.

Lemma leaves_ignored n : 0 <= n -> leaves (prctl_drop n ;;; cret tt) (fun j => negb (j =? n)).
Proof.
  intros Hn s. unfold cbind, prctl_drop. destruct (Z.le_gt_cases n cap_last) as [Hl|Hl].
  - rewrite bset_drop_valid by done. eexists. split; [done|]. intros j Hj. apply ldiff_pow2. lia.
  - rewrite bset_drop_invalid by lia. eexists. split; [done|]. intros j Hj.
    assert (j =? n = false) as -> by lia. by rewrite andb_true_r.
Qed.

Lemma leaves_dac root noprofile :
  leaves (caps_drop_dac_override root noprofile)
    (fun j => negb (root && negb noprofile &&
                    ((j =? cap_macro "CAP_DAC_OVERRIDE") || (j =? cap_macro "CAP_DAC_READ_SEARCH")))).
Proof.
  unfold caps_drop_dac_override. destruct (root && negb noprofile); [|apply leaves_ret].
  destruct (cap_macro_range "CAP_DAC_OVERRIDE") as [H1 _]; [cbn; tauto|].
  destruct (cap_macro_range "CAP_DAC_READ_SEARCH") as [H2 _]; [cbn; tauto|].
  intros s. destruct (leaves_bind _ _ _ _ (leaves_ignored _ H1) (leaves_ignored _ H2) s) as (s' & E & Hs).
  exists s'. rewrite cbind_assoc in E. split; [exact E|].
  intros j Hj. by rewrite Hs, andb_true_l, negb_orb.
Qed.

(** Nothing has to be known of the lists when everything is dropped. *)
Lemma leaves_set_caps c : arg_caps_drop_all c = true \/ caps_config_ok c -> leaves (set_caps c) (cap_kept c).
Proof.
  intros Hok. unfold set_caps. apply leaves_bind.
  - destruct (arg_caps_drop_all c); [apply leaves_drop_all|]. destruct Hok as [|[Hm Hd]]; [done|].
    assert (Hlist : arg_caps_drop c || arg_caps_keep c = true ->
      caps_meaning (arg_caps_list c) = Some (default [] (caps_meaning (arg_caps_list c))))
      by (intros [l ->]%Hm; done).
    destruct (arg_caps_drop c); [by apply leaves_drop_list, Hlist|].
    destruct (arg_caps_keep c); [by apply leaves_keep_list, Hlist|].
    destruct (arg_caps_default_filter c); [by apply leaves_default|apply leaves_ret].
  - destruct (arg_caps_keep c); [apply leaves_ret|apply leaves_dac].
Qed.

(** C37: The capabilities of the sandbox: whatever --caps option is in force,
    [set_caps] succeeds and leaves in the bounding set exactly those of the
    capabilities known to the kernel that the option keeps: none, all but the
    listed ones, the listed ones, or all but the default eight; a root sandbox
    loses the DAC overrides unless the user chose with --caps.keep. *)
Theorem set_caps_refines c s :
  caps_config_ok c ->
  exists s', set_caps c s = (Ok tt, s')
    /\ forall n, 0 <= n <= cap_last ->
         Z.testbit (bset s') n = Z.testbit (bset s) n && cap_kept c n.
Proof. intros Hc. apply leaves_set_caps. by right. Qed.

(** A capability list that names an unknown capability, or nothing at all,
    ends the program with code 1 before any capability is dropped. *)
Theorem caps_list_errors clist s :
  caps_meaning clist = None ->
  (exists fl, caps_drop_list clist s = (Exit 1, CapsState (bset s) fl))
  /\ (exists fl, caps_keep_list clist s = (Exit 1, CapsState (bset s) fl)).
Proof.
  intros Hm. unfold caps_drop_list, caps_keep_list, set_filter. rewrite !cmodify_bind. split.
  - destruct (caps_list_exit caps_reset_bit
      (fun fl nr => Z.land fl (u64 (Z.lnot (u64 (Z.shiftl 1 nr))))) (fun _ _ => eq_refl) _
      (CapsState (bset s) (u64 (0 - 1))) Hm) as [fl E].
    exists fl. by apply cbind_exit.
  - destruct (caps_list_exit caps_set_bit
      (fun fl nr => Z.lor fl (u64 (Z.shiftl 1 nr))) (fun _ _ => eq_refl) _
      (CapsState (bset s) 0) Hm) as [fl E].
    exists fl. by apply cbind_exit.
Qed.

(** Every entry of the table is compiled in. *)
Definition caps_complete : Prop :=
  Forall (fun i => is_Some (CAP (ci_macro i)) \/ is_Some (ci_else i)) cap_items.

(** Entry [i] of a complete table is capability [i]. *)
Definition numbered (p : Z) (entries : list CapsEntry) : Prop :=
  map cap_nr entries = seqZ p (Z.of_nat (length entries)).

Lemma numbered_cons p e entries : numbered p (e :: entries) -> cap_nr e = p /\ numbered (p + 1) entries.
Proof.
  unfold numbered. cbn [map length]. rewrite seqZ_cons by lia. intros [= He Hs].
  split; [done|]. rewrite Hs. f_equal; lia.
Qed.

Lemma filter_lines_ok caps entries : forall p,
  0 <= p -> p + Z.of_nat (length entries) <= 64 -> numbered p entries ->
  caps_filter_lines entries (u64 (2 ^ p)) caps =
  map (fun e => (cap_name e, Z.testbit caps (cap_nr e))) entries.
Proof.
  induction entries as [|e entries IH]; intros p Hp Hl Hn; [done|].
  apply numbered_cons in Hn as [He Hn]. cbn [length] in Hl. cbn [caps_filter_lines map].
  assert (u64 (2 ^ p) = 2 ^ p) as Hm by (rewrite <- (Z.shiftl_1_l p) at 1; apply bit_mask; lia).
  rewrite Hm, land_pow2_zero, negb_involutive, He by lia. f_equal.
  replace (Z.shiftl (2 ^ p) 1) with (2 ^ (p + 1)) by (rewrite Z.shiftl_mul_pow2, Z.pow_add_r by lia; done).
  apply IH; [lia|lia|done].
Qed.

Lemma items_numbered :
  forallb (fun '(p, i) => bool_decide (linux_cap (ci_macro i) = Some p)
                          && bool_decide (ci_else i = None \/ ci_else i = Some p))
    (combine (seqZ 0 41) cap_items) = true.
Proof. vm_compute. reflexivity. Qed.

Lemma cap_entry_number p i :
  is_Some (CAP (ci_macro i)) \/ is_Some (ci_else i) ->
  linux_cap (ci_macro i) = Some p -> ci_else i = None \/ ci_else i = Some p ->
  cap_entry i = [CapEntry (ci_name i) p].
Proof.
  unfold cap_entry. intros Hd Hl He. destruct (CAP (ci_macro i)) as [n|] eqn:E.
  - apply cap_abi in E. congruence.
  - destruct Hd as [[? [=]]|[n Hn]]. destruct He as [He|He]; [congruence|]. by rewrite He.
Qed.

Lemma flat_map_numbered : forall ps items,
  Forall (fun i => is_Some (CAP (ci_macro i)) \/ is_Some (ci_else i)) items ->
  length ps = length items ->
  forallb (fun '(p, i) => bool_decide (linux_cap (ci_macro i) = Some p)
                          && bool_decide (ci_else i = None \/ ci_else i = Some p))
    (combine ps items) = true ->
  map cap_nr (flat_map cap_entry items) = ps /\ length (flat_map cap_entry items) = length ps.
Proof.
  induction ps as [|p ps IH]; intros [|i items] Hd Hl; try done.
  cbn [combine forallb flat_map]. intros [[H1%bool_decide_eq_true H2%bool_decide_eq_true]%andb_prop Hs]%andb_prop.
  apply Forall_cons in Hd as [Hi Hd]. injection Hl as Hl.
  rewrite (cap_entry_number p i) by done. destruct (IH items Hd Hl Hs) as [Hm Hlen].
  cbn [app map length cap_nr]. by rewrite Hm, Hlen.
Qed.

(** --caps.print tells the truth when every CAP_ macro of the table is
    defined: the line of each capability shows the bit of that capability,
    although the code shifts its mask once per line and never looks at the
    capability's number. *)
Theorem caps_print_filter_correct caps :
  caps_complete ->
  caps_print_filter caps = map (fun e => (cap_name e, Z.testbit caps (cap_nr e))) capslist.
Proof.
  intros Hc. destruct (flat_map_numbered (seqZ 0 41) cap_items Hc) as [Hn Hl];
    [reflexivity|apply items_numbered|]. fold capslist in Hn, Hl.
  unfold caps_print_filter. apply (filter_lines_ok caps capslist 0); [done| |].
  - by rewrite Hl.
  - unfold numbered. by rewrite Hn, Hl.
Qed.
End Claims.

(** ** Evaluation *)

Section Examples.
(** A current kernel and its headers. *)
#[local] Instance linux_headers : CapHeaders := linux_cap.
#[local] Instance linux_kernel : CapKernel :=
  Build_CapKernel 40 (fun n set => if n <=? 40 then (DropOk, Z.ldiff set (2 ^ n)) else (DropEINVAL, set)).
#[local] Instance linux_laws : CapLaws.
Proof.
  split.
  - cbn. lia.
  - intros n set Hn. cbn in *. assert (n <=? 40 = true) as -> by lia. done.
  - intros n set Hn. cbn in *. assert (n <=? 40 = false) as -> by lia. done.
  - done.
  - intros macro Hm.
    assert (forallb (fun m => bool_decide (is_Some (linux_cap m))) cap_required = true) as W
      by (vm_compute; reflexivity).
    rewrite forallb_forall in W. by apply (bool_decide_eq_true _), W.
Qed.

Definition all_caps : caps_state := CapsState (Z.ones 41) 0.
Definition keep_config : caps_config :=
  CapsConfig false false true false (Some "chown,net_raw,") false true.
Definition default_config : caps_config := CapsConfig false false false true None false true.

Lemma set_caps_refines_witness :
  exists s1 s2,
    set_caps keep_config all_caps = (Ok tt, s1)
    /\ Z.testbit (bset s1) 13 = true /\ Z.testbit (bset s1) 1 = false
    /\ set_caps default_config all_caps = (Ok tt, s2)
    /\ Z.testbit (bset s2) 13 = true /\ Z.testbit (bset s2) 1 = false
    /\ Z.testbit (bset s2) 21 = false.
Proof.
  destruct (set_caps_refines keep_config all_caps) as (s1 & E1 & H1).
  { split; [intros _; vm_compute; eexists; reflexivity|].
    apply (bool_decide_unpack _). vm_compute. exact I. }
  destruct (set_caps_refines default_config all_caps) as (s2 & E2 & H2).
  { split; [discriminate|]. apply (bool_decide_unpack _). vm_compute. exact I. }
  exists s1, s2. split; [exact E1|]. do 2 (split; [rewrite H1; [reflexivity|split; discriminate]|]).
  split; [exact E2|]. repeat split; (rewrite H2; [reflexivity|split; discriminate]).
Defined.

Lemma caps_list_errors_witness :
  (exists fl, caps_drop_list (Some "chown,nosuchcap") all_caps = (Exit 1, CapsState (Z.ones 41) fl))
  /\ (exists fl, caps_keep_list (Some "chown,nosuchcap") all_caps = (Exit 1, CapsState (Z.ones 41) fl)).
Proof. apply (caps_list_errors (Some "chown,nosuchcap") all_caps). vm_compute. reflexivity. Defined.

Lemma caps_print_filter_correct_witness :
  nth_error (caps_print_filter (2 ^ 34)) 34 = Some ("syslog", true).
Proof.
  rewrite caps_print_filter_correct; [vm_compute; reflexivity|].
  apply (bool_decide_unpack _). vm_compute. exact I.
Defined.
End Examples.

(** Headers without CAP_SYSLOG: the line of wake_alarm shows the bit of syslog. *)
Example caps_print_filter_shifted :
  let CH : CapHeaders := fun m => if streq m "CAP_SYSLOG" then None else linux_cap m in
  nth_error (caps_print_filter (2 ^ 34)) 34 = Some ("wake_alarm", true)
  /\ caps_find_name "wake_alarm" = 35.
Proof. vm_compute. split; reflexivity. Qed.
