(* ===== verification/Radix.v ===== *)
(** * The address tree of fnettrace: src/fnettrace/radix.c

    A binary tree over the bits of an IPv4 address, most significant first,
    with a name at the end of every added prefix.  A node is reached by one
    pointer only, so the tree is a value; [Nil] is the null pointer.  The pool
    allocator, which only hands out zeroed nodes, is not modelled. *)

From S2P Require Import Prelude.

Local Open Scope string_scope.
Local Open Scope list_scope.
Local Open Scope Z_scope.

Inductive rnode :=
| Nil
| Node (zero one : rnode) (name : option string) (pkts : Z).

Definition new_node (name : option string) : rnode := Node Nil Nil name 0.

(** The root and the counter [radix_nodes]. *)
Record radix := Radix { head : rnode; radix_nodes : Z }.

(** [addOne], [addZero]: the child that is there, or a new one. *)
Definition add_child (child : rnode) (name : option string) : rnode :=
  match child with Nil => new_node name | _ => child end.

(** The assignment after the loop of [radix_add]. *)
Definition set_name (ptr : rnode) (name : option string) : rnode :=
  match ptr with
  | Nil => Nil
  | Node z o None p => Node z o name p
  | Node z o (Some n) p => Node z o (Some n) p
  end.

(** [k] is the number of rounds left, [m] the bit of the round. *)
Fixpoint add_loop (k : nat) (m lastm ip mask : Z) (name : option string) (ptr : rnode) : rnode :=
  match k with
  | O => set_name ptr name
  | S k' =>
      if Z.land m mask =? 0 then set_name ptr name
      else
        let lastm := Z.lor lastm m in
        let given := if lastm =? mask then name else None in
        match ptr with
        | Nil => Nil
        | Node z o n p =>
            if negb (Z.land m ip =? 0)
            then Node z (add_loop k' (Z.shiftr m 1) lastm ip mask name (add_child o given)) n p
            else Node (add_loop k' (Z.shiftr m 1) lastm ip mask name (add_child z given)) o n p
        end
  end.

Definition radix_add (ip mask : Z) (name : option string) (t : radix) : radix :=
  let h := match head t with Nil => new_node None | h => h end in
  Radix (add_loop 32 0x80000000 0 ip mask name h) (s32 (radix_nodes t + 1)).

(** The node found: its depth and its name. *)
Fixpoint match_loop (k : nat) (i : nat) (m ip : Z) (ptr : rnode) (rv : option (nat * string))
    : option (nat * string) :=
  match k with
  | O => rv
  | S k' =>
      match ptr with
      | Nil => rv
      | Node z o _ _ =>
          let ptr' := if negb (Z.land m ip =? 0) then o else z in
          match ptr' with
          | Nil => rv
          | Node _ _ name _ =>
              match_loop k' (S i) (Z.shiftr m 1) ip ptr'
                (match name with Some n => Some (S i, n) | None => rv end)
          end
      end
  end.

Definition radix_longest_prefix_match (ip : Z) (t : radix) : option (nat * string) :=
  match head t with
  | Nil => None
  | h => match_loop 32 0 0x80000000 ip h None
  end.

Definition is_leaf (ptr : rnode) : bool :=
  match ptr with Node Nil Nil _ _ => true | _ => false end.

Definition node_name (ptr : rnode) : option string :=
  match ptr with Node _ _ n _ => n | Nil => None end.

(** The tree after [squash] and the number of nodes it counted out. *)
Fixpoint squash (ptr : rnode) : rnode * Z :=
  match ptr with
  | Nil => (Nil, 0)
  | Node z o n p =>
      if match n with None => true | Some _ => false end
         && is_leaf z && is_leaf o
         && match node_name z, node_name o with
            | Some a, Some b => String.eqb a b
            | _, _ => false
            end
      then (Node Nil Nil (node_name o) p, 1)
      else
        let '(z', cz) := squash z in
        let '(o', co) := squash o in
        (Node z' o' n p, cz + co)
  end.

Definition radix_squash (t : radix) : radix :=
  match head t with
  | Nil => t
  | Node z o n p =>
      let '(z', cz) := squash z in
      let '(o', co) := squash o in
      Radix (Node z' o' n p) (s32 (radix_nodes t - cz - co))
  end.

Fixpoint clear_data (ptr : rnode) : rnode :=
  match ptr with
  | Nil => Nil
  | Node z o n _ => Node (clear_data z) (clear_data o) n 0
  end.

Definition radix_clear_data (t : radix) : radix :=
  match head t with
  | Nil => t
  | Node z o n p => Radix (Node (clear_data z) (clear_data o) n p) (radix_nodes t)
  end.

(** ** Specification *)

(** Bit [i] of an address, from the most significant one. *)
Definition ip_bit (ip : Z) (i : nat) : bool := Z.testbit ip (31 - Z.of_nat i).

(** The first [n] bits. *)
Definition prefix_bits (ip : Z) (n : nat) : list bool := map (ip_bit ip) (seq 0 n).

(** The ones in front of a mask. *)
Fixpoint leading_ones (k : nat) (i : nat) (mask : Z) : nat :=
  match k with
  | O => O
  | S k' => if ip_bit mask i then S (leading_ones k' (S i) mask) else O
  end.

(** What is handed to [radix_add]; a host that was only seen has no name. *)
Record rentry := REntry { re_ip : Z; re_mask : Z; re_name : option string }.

Definition entry_len (e : rentry) : nat := leading_ones 32 0 (re_mask e).
Definition entry_bits (e : rentry) : list bool := prefix_bits (re_ip e) (entry_len e).

(** The first name given to a prefix. *)
Definition prefix_name (es : list rentry) (path : list bool) : option string :=
  first_some (fun e => if bool_decide (entry_bits e = path) then re_name e else None) es.

(** The longest named prefix of at least one and at most [n] bits. *)
Fixpoint best_match (n : nat) (es : list rentry) (ip : Z) : option (nat * string) :=
  match n with
  | O => None
  | S n' =>
      match prefix_name es (prefix_bits ip n) with
      | Some s => Some (n, s)
      | None => best_match n' es ip
      end
  end.

Definition radix_of (es : list rentry) : radix :=
  fold_left (fun t e => radix_add (re_ip e) (re_mask e) (re_name e) t) es (Radix Nil 0).

(** ** Lemmas *)

Fixpoint name_at (t : rnode) (path : list bool) : option string :=
  match t, path with
  | Nil, _ => None
  | Node _ _ n _, [] => n
  | Node z o _ _, b :: path' => name_at (if b then o else z) path'
  end.

(** The bit of round [i]. *)
Definition round_bit (i : nat) : Z := Z.shiftr 0x80000000 (Z.of_nat i).

Lemma round_bit_pow i : (i < 32)%nat -> round_bit i = 2 ^ (31 - Z.of_nat i).
Proof.
  intros Hi. unfold round_bit. rewrite Z.shiftr_div_pow2 by lia.
  change 0x80000000 with (2 ^ 31). rewrite <- Z.pow_sub_r by lia. reflexivity.
Qed.

Lemma round_bit_S i : Z.shiftr (round_bit i) 1 = round_bit (S i).
Proof. unfold round_bit. rewrite Z.shiftr_shiftr by lia. f_equal. lia. Qed.

Lemma land_round_bit i x :
  (i < 32)%nat -> (Z.land (round_bit i) x =? 0) = negb (ip_bit x i).
Proof.
  intros Hi. rewrite round_bit_pow by done. apply land_pow2_zero. lia.
Qed.

(** The name of a node that is given another one. *)
Definition keep_name (old new : option string) : option string :=
  match old with Some _ => old | None => new end.

Lemma name_at_set_name t name path :
  t <> Nil ->
  name_at (set_name t name) path =
  match path with [] => keep_name (name_at t []) name | _ => name_at t path end.
Proof. destruct t as [|z o [n|] p]; [done| |]; by destruct path. Qed.

(** A new child has no names but the given one, which the assignment after the
    loop would give it as well. *)
Lemma name_at_new path given : name_at (new_node given) path = match path with [] => given | _ => None end.
Proof. by destruct path as [|[] path]. Qed.

Definition bits_from (ip : Z) (i n : nat) : list bool := map (ip_bit ip) (seq i n).

(** * What the address tree of fnettrace promises

    The names added with [radix_add] are found again by
    [radix_longest_prefix_match], the longest prefix first, and [radix_squash]
    changes no answer. *)

Local Open Scope string_scope.
Local Open Scope list_scope.
Local Open Scope Z_scope.

(** ** Names after an addition *)

Lemma bits_from_cons ip i n : bits_from ip i (S n) = ip_bit ip i :: bits_from ip (S i) n.
Proof. done. Qed.

Lemma prefix_bits_from ip n : prefix_bits ip n = bits_from ip 0 n.
Proof. done. Qed.

(** The bits collected in [lastm] so far are above the bit of the round. *)
Definition above (i : nat) (x : Z) : Prop := forall j, (i <= j < 32)%nat -> ip_bit x j = false.

Lemma above_round_bit i x : (i < 32)%nat -> above i x -> above (S i) (Z.lor x (round_bit i)).
Proof.
  intros Hi H j Hj. unfold ip_bit. rewrite Z.lor_spec, round_bit_pow by done.
  rewrite Z.pow2_bits_false by lia. rewrite orb_false_r. apply (H j). lia.
Qed.

Lemma above_no_ones k i x : (i + k = 32)%nat -> above i x -> leading_ones k i x = 0%nat.
Proof. intros Hk H. destruct k as [|k]; [done|]. simpl. rewrite H by lia. done. Qed.

(** Going down to a child made on the way: what [name_at] sees below a node. *)
Lemma name_at_add_child c given path :
  name_at (add_child c given) path =
  match c, path with Nil, [] => given | Nil, _ => None | _, _ => name_at c path end.
Proof. destruct c; simpl; [by destruct path as [|[] path]|done]. Qed.

Lemma add_child_not_nil c given : add_child c given <> Nil.
Proof. by destruct c. Qed.

#[local] Hint Resolve add_child_not_nil : core.

(** The name a child gets early is the one the end of the loop would give. *)
Lemma name_at_given c name (last : bool) path bits :
  (last = true -> bits = []) ->
  (if decide (path = bits)
   then keep_name (name_at (add_child c (if last then name else None)) path) name
   else name_at (add_child c (if last then name else None)) path) =
  (if decide (path = bits) then keep_name (name_at c path) name else name_at c path).
Proof.
  intros Hlast. rewrite !name_at_add_child.
  destruct c; [|done]. destruct last; [rewrite Hlast by done|];
    destruct (decide _) as [He|He]; destruct path; try done. by destruct name.
Qed.

Lemma name_at_set ptr name path bits :
  ptr <> Nil -> bits = [] ->
  name_at (set_name ptr name) path =
  if decide (path = bits) then keep_name (name_at ptr path) name else name_at ptr path.
Proof.
  intros Hp ->. rewrite name_at_set_name by done. destruct path; destruct (decide _) as [?|?]; done.
Qed.

Lemma name_at_add_loop k : forall i lastm ip mask name ptr path,
  (i + k = 32)%nat -> above i lastm -> ptr <> Nil ->
  name_at (add_loop k (round_bit i) lastm ip mask name ptr) path =
  if decide (path = bits_from ip i (leading_ones k i mask))
  then keep_name (name_at ptr path) name else name_at ptr path.
Proof.
  induction k as [|k IH]; intros i lastm ip mask name ptr path Hik Hab Hptr.
  - by apply name_at_set.
  - cbn [add_loop leading_ones]. rewrite !land_round_bit, negb_involutive, round_bit_S by lia.
    destruct (ip_bit mask i) eqn:Em; cbn [negb]; [|by apply name_at_set].
    destruct ptr as [|z o n p]; [done|].
    set (last := Z.lor lastm (round_bit i) =? mask).
    assert (Hab' : above (S i) (Z.lor lastm (round_bit i))) by (apply above_round_bit; [lia|done]).
    assert (Hlast : last = true -> bits_from ip (S i) (leading_ones k (S i) mask) = []).
    { unfold last. intros He%Z.eqb_eq. rewrite <- He. rewrite above_no_ones by (done || lia). done. }
    rewrite bits_from_cons.
    destruct (ip_bit ip i) eqn:Eb; destruct path as [|b path]; cbn [name_at];
      try (by rewrite decide_False by done);
      (destruct b; [|]); try (by rewrite decide_False by congruence);
      rewrite IH by (auto; lia); rewrite name_at_given by done;
      (destruct (decide (path = _)) as [->|Hn]; [by rewrite decide_True|by rewrite decide_False by congruence]).
Qed.

Lemma name_at_radix_add ip mask name t path :
  name_at (head (radix_add ip mask name t)) path =
  if decide (path = prefix_bits ip (leading_ones 32 0 mask))
  then keep_name (name_at (head t) path) name else name_at (head t) path.
Proof.
  unfold radix_add. cbn [head]. change 0x80000000 with (round_bit 0).
  rewrite name_at_add_loop.
  - rewrite prefix_bits_from. destruct (head t); [|done]. by rewrite name_at_new; destruct path.
  - lia.
  - intros j Hj. unfold ip_bit. apply Z.testbit_0_l.
  - by destruct (head t).
Qed.

Lemma name_at_radix_of es path : name_at (head (radix_of es)) path = prefix_name es path.
Proof.
  unfold radix_of, prefix_name. induction es as [|e es IH] using rev_ind; [done|].
  rewrite fold_left_app. cbn [fold_left]. rewrite name_at_radix_add, IH, first_some_app.
  fold (entry_len e). fold (entry_bits e). cbn [first_some].
  destruct (first_some _ es); cbn [keep_name]; [by destruct (decide _)|].
  destruct (decide _) as [->|Hn].
  - rewrite bool_decide_eq_true_2 by done. by destruct (re_name e).
  - by rewrite bool_decide_eq_false_2 by congruence.
Qed.

(** ** The lookup *)

(** The largest depth from [n] down to 1 at which [f] has a name. *)
Fixpoint deepest (f : nat -> option string) (n : nat) : option (nat * string) :=
  match n with
  | O => None
  | S n' => match f n with Some s => Some (n, s) | None => deepest f n' end
  end.

Lemma deepest_ext f g n : (forall j, f j = g j) -> deepest f n = deepest g n.
Proof. intros H. induction n as [|n IH]; [done|]. cbn [deepest]. by rewrite H, IH. Qed.

Lemma deepest_none f n : (forall j, f j = None) -> deepest f n = None.
Proof. intros H. induction n as [|n IH]; [done|]. cbn [deepest]. by rewrite H. Qed.

Lemma deepest_shift f n :
  deepest f (S n) =
  match deepest (fun j => f (S j)) n with
  | Some (j, s) => Some (S j, s)
  | None => match f 1%nat with Some s => Some (1%nat, s) | None => None end
  end.
Proof.
  induction n as [|n IH]; [done|]. cbn [deepest] in *.
  destruct (f (S (S n))); [done|]. exact IH.
Qed.

Lemma best_match_deepest es ip n :
  best_match n es ip = deepest (fun j => prefix_name es (prefix_bits ip j)) n.
Proof. induction n as [|n IH]; [done|]. cbn [best_match deepest]. by rewrite IH. Qed.

(** [name_at] below a node is [name_at] in the child the bit chooses. *)
Lemma name_at_bits ip i j z o n p :
  name_at (Node z o n p) (bits_from ip i (S j)) =
  name_at (if ip_bit ip i then o else z) (bits_from ip (S i) j).
Proof. done. Qed.

Lemma match_loop_deepest k : forall i ip ptr rv, (i + k = 32)%nat ->
  match_loop k i (round_bit i) ip ptr rv =
  match deepest (fun j => name_at ptr (bits_from ip i j)) k with
  | Some (j, n) => Some ((i + j)%nat, n)
  | None => rv
  end.
Proof.
  induction k as [|k IH]; intros i ip ptr rv Hik; [done|].
  cbn [match_loop]. destruct ptr as [|z o n p]; [by rewrite deepest_none|].
  rewrite land_round_bit, negb_involutive, round_bit_S, deepest_shift by lia.
  rewrite (deepest_ext _ (fun j => name_at (if ip_bit ip i then o else z) (bits_from ip (S i) j)))
    by (intros; apply name_at_bits).
  rewrite name_at_bits. destruct (if ip_bit ip i then o else z) as [|z' o' n' p'] eqn:Ec.
  - by rewrite deepest_none.
  - rewrite IH by lia. destruct (deepest _ k) as [[j s]|]; [do 2 f_equal; lia|].
    change (name_at _ (bits_from ip (S i) 0)) with n'.
    destruct n'; [do 2 f_equal; lia|done].
Qed.

(** C39: For every list of (address, mask, name) entries, with or without a
    name, a lookup in the tree built by adding them in order finds exactly what
    the specification says: the longest prefix of the address, of at least one
    bit, that some entry names, and the first name it was given (the tree is a
    longest-prefix-match table; an entry of length 0 is never found, because the
    loop steps below the root before it looks at a name). *)
Theorem radix_lookup_refines (es : list rentry) (ip : Z) :
  radix_longest_prefix_match ip (radix_of es) = best_match 32 es ip.
Proof.
  unfold radix_longest_prefix_match. rewrite best_match_deepest.
  transitivity (match_loop 32 0 (round_bit 0) ip (head (radix_of es)) None);
    [by destruct (head _)|].
  rewrite match_loop_deepest by lia.
  rewrite (deepest_ext _ _ 32 (fun j => name_at_radix_of es (bits_from ip 0 j))).
  by destruct (deepest _ 32) as [[j s]|].
Qed.

(** ** Squashing *)

Fixpoint depth (t : rnode) : nat :=
  match t with Nil => O | Node z o _ _ => S (depth z `max` depth o) end.

(** The name in force after entering a child with [path] left to follow. *)
Fixpoint entered (c : rnode) (path : list bool) (rv : option string) : option string :=
  match c with
  | Nil => rv
  | Node z o n _ =>
      let rv := match n with Some _ => n | None => rv end in
      match path with [] => rv | b :: path' => entered (if b then o else z) path' rv end
  end.

Lemma match_loop_entered k : forall i ip z o n p rv, (i + k = 32)%nat ->
  option_map snd (match_loop k i (round_bit i) ip (Node z o n p) rv) =
  match bits_from ip i k with
  | [] => option_map snd rv
  | b :: path => entered (if b then o else z) path (option_map snd rv)
  end.
Proof.
  induction k as [|k IH]; intros i ip z o n p rv Hik; [done|].
  cbn [match_loop]. rewrite bits_from_cons, land_round_bit, negb_involutive, round_bit_S by lia.
  destruct (if ip_bit ip i then o else z) as [|z' o' n' p']; [done|].
  rewrite IH by lia. cbn [entered].
  destruct (bits_from ip (S i) k); by destruct n'.
Qed.

Lemma squash_depth c : (depth (squash c).1 <= depth c)%nat.
Proof.
  induction c as [|z IHz o IHo n p]; [done|]. cbn [squash].
  destruct (_ && _ && _ && _); cbn [depth fst]; [lia|].
  destruct (squash z), (squash o). cbn [depth fst] in *. lia.
Qed.

Lemma entered_leaf c path rv :
  is_leaf c = true -> entered c path rv = match node_name c with Some s => Some s | None => rv end.
Proof.
  destruct c as [|[] [] [n|] p]; try done; intros _; by destruct path as [|[] path].
Qed.

Lemma entered_squash c : forall path rv, (depth c <= S (length path))%nat ->
  entered (squash c).1 path rv = entered c path rv.
Proof.
  induction c as [|z IHz o IHo n p]; intros path rv Hd; [done|]. cbn [squash depth] in *.
  destruct (_ && _ && _ && _) eqn:E.
  - apply andb_prop in E as [E En]. apply andb_prop in E as [E Eo]. apply andb_prop in E as [E Ez].
    destruct n; [done|].
    destruct (node_name z) as [a|] eqn:Na; [|done]. destruct (node_name o) as [b|] eqn:Nb; [|done].
    apply String.eqb_eq in En as ->. cbn [fst].
    destruct path as [|x path].
    { destruct z; [done|]. cbn [depth length] in Hd. lia. }
    cbn [entered]. by destruct x, path; cbn [entered]; rewrite entered_leaf, ?Na, ?Nb.
  - destruct (squash z) as [z' cz] eqn:Sz, (squash o) as [o' co] eqn:So. cbn [fst entered] in *.
    destruct path as [|x path]; [done|]. cbn [length] in Hd.
    destruct x; [apply IHo|apply IHz]; lia.
Qed.

Lemma add_loop_depth k : forall m lastm ip mask name ptr,
  (depth ptr <= S k)%nat -> (depth (add_loop k m lastm ip mask name ptr) <= S k)%nat.
Proof.
  assert (Hset : forall t name, depth (set_name t name) = depth t) by (by intros [|z o [n|] p] name).
  assert (Hadd : forall c given k, (depth c <= S k)%nat -> (depth (add_child c given) <= S k)%nat)
    by (intros [] given j; cbn [add_child depth new_node]; lia).
  induction k as [|k IH]; intros m lastm ip mask name ptr Hd; cbn [add_loop];
    [by rewrite Hset|].
  destruct (Z.land m mask =? 0); [by rewrite Hset|].
  destruct ptr as [|z o n p]; [done|]. cbn [depth] in Hd.
  destruct (negb _); cbn [depth];
    match goal with |- context [add_loop k ?m ?l ip mask name (add_child ?c ?g)] =>
      pose proof (IH m l ip mask name (add_child c g) (Hadd c g k ltac:(lia))) end; lia.
Qed.

Lemma radix_of_depth es : (depth (head (radix_of es)) <= 33)%nat.
Proof.
  unfold radix_of. induction es as [|e es IH] using rev_ind; [cbn; lia|].
  rewrite fold_left_app. cbn [fold_left]. unfold radix_add at 1. cbn [head].
  apply add_loop_depth. by destruct (head _); [cbn; lia|].
Qed.

(** The name a lookup answers. *)
Definition lookup_name (ip : Z) (t : radix) : option string :=
  option_map snd (radix_longest_prefix_match ip t).

Lemma radix_squash_depth t : (depth (head (radix_squash t)) <= depth (head t))%nat.
Proof.
  unfold radix_squash. destruct (head t) as [|z o n p] eqn:E; [by rewrite E|].
  pose proof (squash_depth z). pose proof (squash_depth o).
  destruct (squash z), (squash o). cbn [head depth fst] in *. lia.
Qed.

Lemma lookup_name_squash ip t :
  (depth (head t) <= 33)%nat -> lookup_name ip (radix_squash t) = lookup_name ip t.
Proof.
  unfold lookup_name, radix_longest_prefix_match, radix_squash.
  destruct (head t) as [|z o n p] eqn:E; [by rewrite E|]. intros Hd. cbn [depth] in Hd.
  pose proof (entered_squash z). pose proof (entered_squash o).
  destruct (squash z) as [z' cz], (squash o) as [o' co]. cbn [head fst] in *.
  change 0x80000000 with (round_bit 0). rewrite !match_loop_entered by lia.
  rewrite bits_from_cons. cbn [option_map].
  assert (Hl : length (bits_from ip 1 31) = 31%nat) by done.
  destruct (ip_bit ip 0); auto with lia.
Qed.

Lemma clear_data_entered c : forall path rv, entered (clear_data c) path rv = entered c path rv.
Proof.
  induction c as [|z IHz o IHo n p]; intros path rv; [done|]. cbn [clear_data entered].
  destruct path as [|[] path]; auto.
Qed.

Lemma clear_data_depth c : depth (clear_data c) = depth c.
Proof. induction c as [|z IHz o IHo n p]; [done|]. cbn [clear_data depth]. by rewrite IHz, IHo. Qed.

Lemma lookup_name_clear_data ip t : lookup_name ip (radix_clear_data t) = lookup_name ip t.
Proof.
  unfold lookup_name, radix_longest_prefix_match, radix_clear_data.
  destruct (head t) as [|z o n p] eqn:E; [by rewrite E|]. cbn [head].
  change 0x80000000 with (round_bit 0). rewrite !match_loop_entered by lia.
  rewrite bits_from_cons. cbn [option_map]. destruct (ip_bit ip 0); apply clear_data_entered.
Qed.

Lemma radix_clear_data_depth t : depth (head (radix_clear_data t)) = depth (head t).
Proof.
  unfold radix_clear_data. destruct (head t) as [|z o n p] eqn:E; [by rewrite E|].
  cbn [head depth]. by rewrite !clear_data_depth.
Qed.

(** What the monitor does to the table between lookups. *)
Inductive table_op := OpSquash | OpClear.

Definition run_op (t : radix) (op : table_op) : radix :=
  match op with OpSquash => radix_squash t | OpClear => radix_clear_data t end.

(** However often the table is squashed (two leaves of the same name folded
    into their parent) and its packet counters cleared, and in whatever order,
    every lookup still answers the name of the longest matching prefix of the
    entries that were added. *)
Theorem radix_squash_preserves_lookup (es : list rentry) (ops : list table_op) (ip : Z) :
  lookup_name ip (fold_left run_op ops (radix_of es)) = option_map snd (best_match 32 es ip).
Proof.
  assert (H : forall t, (depth (head t) <= 33)%nat ->
    lookup_name ip (fold_left run_op ops t) = lookup_name ip t).
  { induction ops as [|op ops IH]; intros t Ht; [done|]. cbn [fold_left]. rewrite IH.
    - destruct op; [by apply lookup_name_squash|apply lookup_name_clear_data].
    - destruct op; cbn [run_op]; [pose proof (radix_squash_depth t); lia|].
      by rewrite radix_clear_data_depth. }
  rewrite H by apply radix_of_depth.
  unfold lookup_name. by rewrite radix_lookup_refines.
Qed.

Example radix_example :
  let es := [REntry 0xC0A80000 0xFFFF0000 (Some "lan"); REntry 0xC0A80100 0xFFFFFF00 (Some "desk");
             REntry 0xC0A80000 0xFFFFFF00 (Some "desk"); REntry 0xC0A80105 0xFFFFFFFF None;
             REntry 0 0 (Some "any")] in
  map (fun ip => radix_longest_prefix_match ip (radix_of es)) [0xC0A80105; 0xC0A87777; 0x08080808]
    = [Some (24%nat, "desk"); Some (16%nat, "lan"); None] /\
  lookup_name 0xC0A80107 (radix_squash (radix_of es)) = Some "desk".
Proof. by vm_compute. Qed.
