(* ===== verification/Bpf.v ===== *)
(** * Classic BPF: instructions, the machine's contract, and the macros of seccomp.h

    A seccomp filter is an array of [struct sock_filter].  The filters are run
    by the kernel, which is not part of this repository: what the development
    relies on is stated as the laws of the class [BpfLaws], one per opcode the
    builders emit, and every theorem about the meaning of a filter is proved
    against that interface.  [bpf_interp] is a machine that satisfies it.

    Jumps of classic BPF are forward and relative to the next instruction, so
    the rest of an execution depends only on the instructions from the current
    one on: a machine maps that suffix, the system call data and the
    accumulator to the value the filter returns ([None]: no value, for example
    when execution leaves the array). *)

From S2P Require Import Prelude.

(** ** <linux/filter.h>, <linux/bpf_common.h> *)

Record sock_filter := Sock { code : Z; jt : Z; jf : Z; k : Z }.

#[export] Instance sock_filter_eq_dec : EqDecision sock_filter.
Proof. solve_decision. Defined.

Definition BPF_LD : Z := 0x00.
Definition BPF_LDX : Z := 0x01.
Definition BPF_ST : Z := 0x02.
Definition BPF_STX : Z := 0x03.
Definition BPF_ALU : Z := 0x04.
Definition BPF_JMP : Z := 0x05.
Definition BPF_RET : Z := 0x06.
Definition BPF_MISC : Z := 0x07.

Definition BPF_W : Z := 0x00.
Definition BPF_H : Z := 0x08.
Definition BPF_B : Z := 0x10.

Definition BPF_IMM : Z := 0x00.
Definition BPF_ABS : Z := 0x20.
Definition BPF_IND : Z := 0x40.
Definition BPF_MEM : Z := 0x60.
Definition BPF_LEN : Z := 0x80.
Definition BPF_MSH : Z := 0xa0.

Definition BPF_ADD : Z := 0x00.
Definition BPF_SUB : Z := 0x10.
Definition BPF_MUL : Z := 0x20.
Definition BPF_DIV : Z := 0x30.
Definition BPF_OR : Z := 0x40.
Definition BPF_AND : Z := 0x50.
Definition BPF_LSH : Z := 0x60.
Definition BPF_RSH : Z := 0x70.
Definition BPF_NEG : Z := 0x80.
Definition BPF_MOD : Z := 0x90.
Definition BPF_XOR : Z := 0xa0.

Definition BPF_JA : Z := 0x00.
Definition BPF_JEQ : Z := 0x10.
Definition BPF_JGT : Z := 0x20.
Definition BPF_JGE : Z := 0x30.
Definition BPF_JSET : Z := 0x40.

Definition BPF_K : Z := 0x00.
Definition BPF_X : Z := 0x08.
Definition BPF_A : Z := 0x10.
Definition BPF_TAX : Z := 0x00.
Definition BPF_TXA : Z := 0x80.

(** The initialisers store into a [__u16], two [__u8] and a [__u32]. *)
Definition BPF_JUMP (c k jt jf : Z) : sock_filter := Sock (u16 c) (u8 jt) (u8 jf) (u32 k).
Definition BPF_STMT (c k : Z) : sock_filter := BPF_JUMP c k 0 0.

(** ** <linux/seccomp.h>, <linux/audit.h> *)

Record seccomp_data := SD {
  sd_nr : Z;
  sd_arch : Z;
  sd_ip : Z;
  sd_args : list Z
}.

Definition SECCOMP_RET_KILL : Z := 0x00000000.
Definition SECCOMP_RET_TRAP : Z := 0x00030000.
Definition SECCOMP_RET_ERRNO : Z := 0x00050000.
Definition SECCOMP_RET_TRACE : Z := 0x7ff00000.
Definition SECCOMP_RET_LOG : Z := 0x7ffc0000.
Definition SECCOMP_RET_ALLOW : Z := 0x7fff0000.
Definition SECCOMP_RET_ACTION : Z := 0x7fff0000.
Definition SECCOMP_RET_DATA : Z := 0x0000ffff.

Definition AUDIT_ARCH_I386 : Z := 0x40000003.
Definition AUDIT_ARCH_X86_64 : Z := 0xc000003e.

(** Offsets of the members of [struct seccomp_data]. *)
Definition off_nr : Z := 0.
Definition off_arch : Z := 4.
Definition off_ip : Z := 8.
Definition off_args (i : Z) : Z := 16 + 8 * i.

(** The 32-bit word at a byte offset of the data, on a little-endian machine:
    the low half of a 64-bit member comes first. *)
Definition sd_word (d : seccomp_data) (off : Z) : option Z :=
  if off =? 0 then Some (u32 (sd_nr d))
  else if off =? 4 then Some (u32 (sd_arch d))
  else if off =? 8 then Some (u32 (sd_ip d))
  else if off =? 12 then Some (u32 (sd_ip d / 2 ^ 32))
  else if (16 <=? off) && (off <? 64) && (off mod 4 =? 0) then
    match sd_args d !! Z.to_nat ((off - 16) / 8) with
    | Some a => Some (if (off mod 8) =? 0 then u32 a else u32 (a / 2 ^ 32))
    | None => None
    end
  else None.

(** ** The machine's contract *)

Class BpfMachine := bpf_exec : list sock_filter -> seccomp_data -> Z -> option Z.

Class BpfLaws `{M : BpfMachine} : Prop := {
  exec_ld_abs p d a jt jf k v :
    sd_word d k = Some v ->
    bpf_exec (Sock (BPF_LD + BPF_W + BPF_ABS) jt jf k :: p) d a = bpf_exec p d v;
  exec_and_k p d a jt jf k :
    bpf_exec (Sock (BPF_ALU + BPF_AND + BPF_K) jt jf k :: p) d a =
    bpf_exec p d (Z.land a k);
  exec_ja p d a jt jf k :
    bpf_exec (Sock (BPF_JMP + BPF_JA + BPF_K) jt jf k :: p) d a =
    bpf_exec (drop (Z.to_nat k) p) d a;
  exec_jeq_k p d a jt jf k :
    bpf_exec (Sock (BPF_JMP + BPF_JEQ + BPF_K) jt jf k :: p) d a =
    bpf_exec (drop (Z.to_nat (if a =? k then jt else jf)) p) d a;
  exec_jge_k p d a jt jf k :
    bpf_exec (Sock (BPF_JMP + BPF_JGE + BPF_K) jt jf k :: p) d a =
    bpf_exec (drop (Z.to_nat (if k <=? a then jt else jf)) p) d a;
  exec_jset_k p d a jt jf k :
    bpf_exec (Sock (BPF_JMP + BPF_JSET + BPF_K) jt jf k :: p) d a =
    bpf_exec (drop (Z.to_nat (if Z.land a k =? 0 then jf else jt)) p) d a;
  exec_ret_k p d a jt jf k :
    bpf_exec (Sock (BPF_RET + BPF_K) jt jf k :: p) d a = Some k
}.

(** The value a filter returns for a system call: the accumulator starts at 0. *)
Definition run_filter `{BpfMachine} (p : list sock_filter) (d : seccomp_data) : option Z :=
  bpf_exec p d 0.

(** A machine: the opcodes above, anything else stops with no value.  Each
    instruction executed shortens the suffix, so its length is enough fuel. *)
Fixpoint interp (fuel : nat) (p : list sock_filter) (d : seccomp_data) (a : Z) : option Z :=
  match fuel, p with
  | S fuel', Sock c jt jf k :: p' =>
      if c =? BPF_LD + BPF_W + BPF_ABS then
        match sd_word d k with Some v => interp fuel' p' d v | None => None end
      else if c =? BPF_ALU + BPF_AND + BPF_K then interp fuel' p' d (Z.land a k)
      else if c =? BPF_JMP + BPF_JA + BPF_K then interp fuel' (drop (Z.to_nat k) p') d a
      else if c =? BPF_JMP + BPF_JEQ + BPF_K then
        interp fuel' (drop (Z.to_nat (if a =? k then jt else jf)) p') d a
      else if c =? BPF_JMP + BPF_JGE + BPF_K then
        interp fuel' (drop (Z.to_nat (if k <=? a then jt else jf)) p') d a
      else if c =? BPF_JMP + BPF_JSET + BPF_K then
        interp fuel' (drop (Z.to_nat (if Z.land a k =? 0 then jf else jt)) p') d a
      else if c =? BPF_RET + BPF_K then Some k
      else None
  | _, _ => None
  end.

#[export] Instance bpf_interp : BpfMachine := fun p d a => interp (length p) p d a.

Lemma interp_fuel n m p d a :
  (length p <= n)%nat -> (length p <= m)%nat -> interp n p d a = interp m p d a.
Proof.
  revert m p a. induction n as [|n IH]; intros m p a Hn Hm.
  { destruct p; simpl in Hn; [|lia]. by destruct m. }
  destruct p as [|[c t f q] p]; [by destruct m|].
  destruct m as [|m]; simpl in Hn, Hm; [lia|]. simpl.
  repeat case_match; try reflexivity; apply IH; rewrite ?length_drop; lia.
Qed.

Lemma bpf_exec_cons i p d a : bpf_exec (i :: p) d a = interp (S (length p)) (i :: p) d a.
Proof. reflexivity. Qed.

#[export] Instance bpf_interp_laws : BpfLaws (M := bpf_interp).
Proof.
  split; intros; rewrite bpf_exec_cons; unfold bpf_exec, bpf_interp; simpl; try done.
  - by rewrite H.
  - apply interp_fuel; rewrite ?length_drop; lia.
  - apply interp_fuel; rewrite ?length_drop; lia.
  - apply interp_fuel; rewrite ?length_drop; lia.
  - apply interp_fuel; rewrite ?length_drop; lia.
Qed.

(** ** src/include/seccomp.h

    The x86_64 branch of the architecture selection. *)

Definition ARCH_NR : Z := AUDIT_ARCH_X86_64.
Definition ARCH_32 : Z := AUDIT_ARCH_I386.
Definition ARCH_64 : Z := AUDIT_ARCH_X86_64.
Definition X32_SYSCALL_BIT : Z := 0x40000000.

Definition RETURN_ALLOW : list sock_filter := [BPF_STMT (BPF_RET + BPF_K) SECCOMP_RET_ALLOW].
Definition RETURN_ERRNO (nr : Z) : list sock_filter :=
  [BPF_STMT (BPF_RET + BPF_K) (Z.lor SECCOMP_RET_ERRNO nr)].

Section Macros.
(** [act] is the current value of [arg_seccomp_error_action]. *)
Context (act : Z).

Definition KILL_OR_RETURN_ERRNO : list sock_filter := [BPF_STMT (BPF_RET + BPF_K) act].

Definition validate_arch (arch : Z) (otherwise : list sock_filter) : list sock_filter :=
  [BPF_STMT (BPF_LD + BPF_W + BPF_ABS) off_arch;
   BPF_JUMP (BPF_JMP + BPF_JEQ + BPF_K) arch 1 0] ++ otherwise.

Definition VALIDATE_ARCHITECTURE := validate_arch ARCH_NR RETURN_ALLOW.
Definition VALIDATE_ARCHITECTURE_KILL := validate_arch ARCH_NR KILL_OR_RETURN_ERRNO.
Definition VALIDATE_ARCHITECTURE_64 := validate_arch ARCH_64 RETURN_ALLOW.
Definition VALIDATE_ARCHITECTURE_32 := validate_arch ARCH_32 RETURN_ALLOW.

Definition HANDLE_X32 : list sock_filter :=
  [BPF_JUMP (BPF_JMP + BPF_JGE + BPF_K) X32_SYSCALL_BIT 1 0;
   BPF_JUMP (BPF_JMP + BPF_JGE + BPF_K) 0 1 0] ++ KILL_OR_RETURN_ERRNO.

Definition EXAMINE_SYSCALL : list sock_filter :=
  [BPF_STMT (BPF_LD + BPF_W + BPF_ABS) off_nr].

Definition EXAMINE_ARGUMENT (nr : Z) : list sock_filter :=
  [BPF_STMT (BPF_LD + BPF_W + BPF_ABS) (off_args nr)].

Definition ONLY (syscall_nr : Z) : list sock_filter :=
  BPF_JUMP (BPF_JMP + BPF_JEQ + BPF_K) syscall_nr 1 0 :: RETURN_ALLOW.

(** One comparison of the accumulator followed by the value to return. *)
Definition match_return (nr ret : Z) : list sock_filter :=
  [BPF_JUMP (BPF_JMP + BPF_JEQ + BPF_K) nr 0 1; BPF_STMT (BPF_RET + BPF_K) ret].

Definition BLACKLIST (syscall_nr : Z) := match_return syscall_nr act.
Definition WHITELIST (syscall_nr : Z) := match_return syscall_nr SECCOMP_RET_ALLOW.
Definition BLACKLIST_ERRNO (syscall_nr nr : Z) :=
  match_return syscall_nr (Z.lor SECCOMP_RET_ERRNO nr).
End Macros.

(** ** What the macros do *)

Section MacroLaws.
Context `{M : BpfMachine} {L : BpfLaws}.

Lemma exec_JEQ p d a n t f :
  bpf_exec (BPF_JUMP (BPF_JMP + BPF_JEQ + BPF_K) n t f :: p) d a =
  bpf_exec (drop (Z.to_nat (if a =? u32 n then u8 t else u8 f)) p) d a.
Proof. apply exec_jeq_k. Qed.

Lemma exec_JGE p d a n t f :
  bpf_exec (BPF_JUMP (BPF_JMP + BPF_JGE + BPF_K) n t f :: p) d a =
  bpf_exec (drop (Z.to_nat (if u32 n <=? a then u8 t else u8 f)) p) d a.
Proof. apply exec_jge_k. Qed.

Lemma exec_JSET p d a n t f :
  bpf_exec (BPF_JUMP (BPF_JMP + BPF_JSET + BPF_K) n t f :: p) d a =
  bpf_exec (drop (Z.to_nat (if Z.land a (u32 n) =? 0 then u8 f else u8 t)) p) d a.
Proof. apply exec_jset_k. Qed.

Lemma exec_JA p d a n :
  bpf_exec (BPF_JUMP (BPF_JMP + BPF_JA + BPF_K) n 0 0 :: p) d a =
  bpf_exec (drop (Z.to_nat (u32 n)) p) d a.
Proof. apply exec_ja. Qed.

Lemma exec_AND p d a n :
  bpf_exec (BPF_STMT (BPF_ALU + BPF_AND + BPF_K) n :: p) d a =
  bpf_exec p d (Z.land a (u32 n)).
Proof. apply exec_and_k. Qed.

Lemma exec_RET p d a n :
  bpf_exec (BPF_STMT (BPF_RET + BPF_K) n :: p) d a = Some (u32 n).
Proof. apply exec_ret_k. Qed.

Lemma exec_LD_nr p d a :
  bpf_exec (BPF_STMT (BPF_LD + BPF_W + BPF_ABS) off_nr :: p) d a =
  bpf_exec p d (u32 (sd_nr d)).
Proof. by apply exec_ld_abs. Qed.

Lemma exec_LD_arch p d a :
  bpf_exec (BPF_STMT (BPF_LD + BPF_W + BPF_ABS) off_arch :: p) d a =
  bpf_exec p d (u32 (sd_arch d)).
Proof. by apply exec_ld_abs. Qed.

Lemma exec_LD_off p d a off v :
  0 <= off < 2 ^ 32 -> sd_word d off = Some v ->
  bpf_exec (BPF_STMT (BPF_LD + BPF_W + BPF_ABS) off :: p) d a = bpf_exec p d v.
Proof.
  intros Ho Hv. apply exec_ld_abs. by rewrite u32_small.
Qed.

Lemma exec_match_return p d a n r :
  bpf_exec (match_return n r ++ p) d a =
  if a =? u32 n then Some (u32 r) else bpf_exec p d a.
Proof.
  unfold match_return. simpl. rewrite exec_JEQ.
  destruct (a =? u32 n); simpl; [by rewrite exec_RET|done].
Qed.

Lemma exec_ONLY p d a n :
  bpf_exec (ONLY n ++ p) d a =
  if a =? u32 n then bpf_exec p d a else Some SECCOMP_RET_ALLOW.
Proof.
  unfold ONLY, RETURN_ALLOW. simpl. rewrite exec_JEQ.
  destruct (a =? u32 n); simpl; [done|by rewrite exec_RET].
Qed.

Lemma exec_validate_arch p d a arch r :
  bpf_exec (validate_arch arch [BPF_STMT (BPF_RET + BPF_K) r] ++ p) d a =
  if u32 (sd_arch d) =? u32 arch then bpf_exec p d (u32 (sd_arch d)) else Some (u32 r).
Proof.
  unfold validate_arch. simpl. rewrite exec_LD_arch, exec_JEQ.
  destruct (_ =? _); simpl; [done|by rewrite exec_RET].
Qed.

Lemma exec_HANDLE_X32 act p d a :
  0 <= a ->
  bpf_exec (HANDLE_X32 act ++ p) d a =
  if X32_SYSCALL_BIT <=? a then Some (u32 act) else bpf_exec p d a.
Proof.
  intros Ha. unfold HANDLE_X32, KILL_OR_RETURN_ERRNO. simpl. rewrite exec_JGE.
  change (u32 X32_SYSCALL_BIT) with X32_SYSCALL_BIT.
  destruct (X32_SYSCALL_BIT <=? a); simpl; [by rewrite exec_RET|].
  rewrite exec_JGE. change (u32 0) with 0.
  destruct (Z.leb_spec 0 a); [done|lia].
Qed.

(** A run of comparisons is a first-match lookup of the accumulator. *)
Definition rules_code (rs : list (Z * Z)) : list sock_filter :=
  flat_map (fun r => match_return r.1 r.2) rs.

Definition first_match (rs : list (Z * Z)) (a : Z) : option Z :=
  match List.find (fun r => a =? u32 r.1) rs with
  | Some r => Some (u32 r.2)
  | None => None
  end.

Lemma exec_rules rs p d a :
  bpf_exec (rules_code rs ++ p) d a =
  match first_match rs a with Some v => Some v | None => bpf_exec p d a end.
Proof.
  unfold first_match. induction rs as [|[n r] rs IH]; [done|].
  change (rules_code ((n, r) :: rs)) with (match_return n r ++ rules_code rs).
  rewrite <- app_assoc, exec_match_return, IH. simpl.
  by destruct (a =? u32 n).
Qed.
End MacroLaws.

Lemma rules_code_app rs1 rs2 : rules_code (rs1 ++ rs2) = rules_code rs1 ++ rules_code rs2.
Proof. apply flat_map_app. Qed.

Lemma first_match_app rs1 rs2 a :
  first_match (rs1 ++ rs2) a =
  match first_match rs1 a with Some v => Some v | None => first_match rs2 a end.
Proof.
  unfold first_match. rewrite find_app. by destruct (List.find _ rs1).
Qed.

Create HintDb bpf.
#[export] Hint Rewrite @exec_JEQ @exec_JGE @exec_JSET @exec_JA @exec_AND @exec_RET
  @exec_LD_nr @exec_LD_arch using typeclasses eauto : bpf.

Lemma first_match_flat_map {A} (f : A -> list (Z * Z)) l a :
  first_match (flat_map f l) a = first_some (fun x => first_match (f x) a) l.
Proof.
  induction l as [|x l IH]; [done|]. simpl. by rewrite first_match_app, IH.
Qed.

Lemma first_match_one n r a : first_match [(n, r)] a = if a =? u32 n then Some (u32 r) else None.
Proof. unfold first_match. simpl. by destruct (a =? u32 n). Qed.
