(* ===== verification/SyscallTables.v ===== *)
(** * The system call tables of x86_64 and i386

    The entries of src/include/syscall_x86_64.h and src/include/syscall_i386.h,
    in the order of the files.  On an x86_64 build the first is included into
    [syslist] and the second into [syslist32] (src/lib/syscall.c). *)

From S2P Require Import Prelude.
From S2P Require Import Clib.

Local Open Scope string_scope.
Local Open Scope list_scope.
Local Open Scope Z_scope.

(** [SyscallEntry] of src/lib/syscall.c *)
Record SyscallEntry := Ent { sc_name : string; sc_nr : Z }.

Definition syscall_x86_64_1 : list SyscallEntry :=
  [Ent "read" 0;
   Ent "write" 1;
   Ent "open" 2;
   Ent "close" 3;
   Ent "stat" 4;
   Ent "fstat" 5;
   Ent "lstat" 6;
   Ent "poll" 7;
   Ent "lseek" 8;
   Ent "mmap" 9;
   Ent "mprotect" 10;
   Ent "munmap" 11;
   Ent "brk" 12;
   Ent "rt_sigaction" 13;
   Ent "rt_sigprocmask" 14;
   Ent "rt_sigreturn" 15;
   Ent "ioctl" 16;
   Ent "pread64" 17;
   Ent "pwrite64" 18;
   Ent "readv" 19;
   Ent "writev" 20;
   Ent "access" 21;
   Ent "pipe" 22;
   Ent "select" 23;
   Ent "sched_yield" 24;
   Ent "mremap" 25;
   Ent "msync" 26;
   Ent "mincore" 27;
   Ent "madvise" 28;
   Ent "shmget" 29;
   Ent "shmat" 30;
   Ent "shmctl" 31;
   Ent "dup" 32;
   Ent "dup2" 33;
   Ent "pause" 34;
   Ent "nanosleep" 35;
   Ent "getitimer" 36;
   Ent "alarm" 37;
   Ent "setitimer" 38;
   Ent "getpid" 39;
   Ent "sendfile" 40;
   Ent "socket" 41;
   Ent "connect" 42;
   Ent "accept" 43;
   Ent "sendto" 44;
   Ent "recvfrom" 45;
   Ent "sendmsg" 46;
   Ent "recvmsg" 47;
   Ent "shutdown" 48;
   Ent "bind" 49;
   Ent "listen" 50;
   Ent "getsockname" 51;
   Ent "getpeername" 52;
   Ent "socketpair" 53;
   Ent "setsockopt" 54;
   Ent "getsockopt" 55;
   Ent "clone" 56;
   Ent "fork" 57;
   Ent "vfork" 58;
   Ent "execve" 59;
   Ent "exit" 60;
   Ent "wait4" 61;
   Ent "kill" 62;
   Ent "uname" 63;
   Ent "semget" 64;
   Ent "semop" 65;
   Ent "semctl" 66;
   Ent "shmdt" 67;
   Ent "msgget" 68;
   Ent "msgsnd" 69;
   Ent "msgrcv" 70;
   Ent "msgctl" 71;
   Ent "fcntl" 72;
   Ent "flock" 73;
   Ent "fsync" 74;
   Ent "fdatasync" 75;
   Ent "truncate" 76;
   Ent "ftruncate" 77;
   Ent "getdents" 78;
   Ent "getcwd" 79;
   Ent "chdir" 80;
   Ent "fchdir" 81;
   Ent "rename" 82;
   Ent "mkdir" 83;
   Ent "rmdir" 84;
   Ent "creat" 85;
   Ent "link" 86;
   Ent "unlink" 87;
   Ent "symlink" 88;
   Ent "readlink" 89;
   Ent "chmod" 90;
   Ent "fchmod" 91;
   Ent "chown" 92;
   Ent "fchown" 93;
   Ent "lchown" 94;
   Ent "umask" 95;
   Ent "gettimeofday" 96;
   Ent "getrlimit" 97;
   Ent "getrusage" 98;
   Ent "sysinfo" 99;
   Ent "times" 100;
   Ent "ptrace" 101;
   Ent "getuid" 102;
   Ent "syslog" 103;
   Ent "getgid" 104;
   Ent "setuid" 105;
   Ent "setgid" 106;
   Ent "geteuid" 107;
   Ent "getegid" 108;
   Ent "setpgid" 109;
   Ent "getppid" 110;
   Ent "getpgrp" 111;
   Ent "setsid" 112;
   Ent "setreuid" 113;
   Ent "setregid" 114;
   Ent "getgroups" 115;
   Ent "setgroups" 116;
   Ent "setresuid" 117;
   Ent "getresuid" 118;
   Ent "setresgid" 119;
   Ent "getresgid" 120;
   Ent "getpgid" 121;
   Ent "setfsuid" 122;
   Ent "setfsgid" 123;
   Ent "getsid" 124;
   Ent "capget" 125;
   Ent "capset" 126;
   Ent "rt_sigpending" 127;
   Ent "rt_sigtimedwait" 128;
   Ent "rt_sigqueueinfo" 129;
   Ent "rt_sigsuspend" 130;
   Ent "sigaltstack" 131;
   Ent "utime" 132;
   Ent "mknod" 133;
   Ent "uselib" 134;
   Ent "personality" 135;
   Ent "ustat" 136;
   Ent "statfs" 137;
   Ent "fstatfs" 138;
   Ent "sysfs" 139;
   Ent "getpriority" 140;
   Ent "setpriority" 141;
   Ent "sched_setparam" 142;
   Ent "sched_getparam" 143;
   Ent "sched_setscheduler" 144;
   Ent "sched_getscheduler" 145;
   Ent "sched_get_priority_max" 146;
   Ent "sched_get_priority_min" 147;
   Ent "sched_rr_get_interval" 148;
   Ent "mlock" 149].

Definition syscall_x86_64_2 : list SyscallEntry :=
  [Ent "munlock" 150;
   Ent "mlockall" 151;
   Ent "munlockall" 152;
   Ent "vhangup" 153;
   Ent "modify_ldt" 154;
   Ent "pivot_root" 155;
   Ent "_sysctl" 156;
   Ent "prctl" 157;
   Ent "arch_prctl" 158;
   Ent "adjtimex" 159;
   Ent "setrlimit" 160;
   Ent "chroot" 161;
   Ent "sync" 162;
   Ent "acct" 163;
   Ent "settimeofday" 164;
   Ent "mount" 165;
   Ent "umount2" 166;
   Ent "swapon" 167;
   Ent "swapoff" 168;
   Ent "reboot" 169;
   Ent "sethostname" 170;
   Ent "setdomainname" 171;
   Ent "iopl" 172;
   Ent "ioperm" 173;
   Ent "create_module" 174;
   Ent "init_module" 175;
   Ent "delete_module" 176;
   Ent "get_kernel_syms" 177;
   Ent "query_module" 178;
   Ent "quotactl" 179;
   Ent "nfsservctl" 180;
   Ent "getpmsg" 181;
   Ent "putpmsg" 182;
   Ent "afs_syscall" 183;
   Ent "tuxcall" 184;
   Ent "security" 185;
   Ent "gettid" 186;
   Ent "readahead" 187;
   Ent "setxattr" 188;
   Ent "lsetxattr" 189;
   Ent "fsetxattr" 190;
   Ent "getxattr" 191;
   Ent "lgetxattr" 192;
   Ent "fgetxattr" 193;
   Ent "listxattr" 194;
   Ent "llistxattr" 195;
   Ent "flistxattr" 196;
   Ent "removexattr" 197;
   Ent "lremovexattr" 198;
   Ent "fremovexattr" 199;
   Ent "tkill" 200;
   Ent "time" 201;
   Ent "futex" 202;
   Ent "sched_setaffinity" 203;
   Ent "sched_getaffinity" 204;
   Ent "set_thread_area" 205;
   Ent "io_setup" 206;
   Ent "io_destroy" 207;
   Ent "io_getevents" 208;
   Ent "io_submit" 209;
   Ent "io_cancel" 210;
   Ent "get_thread_area" 211;
   Ent "lookup_dcookie" 212;
   Ent "epoll_create" 213;
   Ent "epoll_ctl_old" 214;
   Ent "epoll_wait_old" 215;
   Ent "remap_file_pages" 216;
   Ent "getdents64" 217;
   Ent "set_tid_address" 218;
   Ent "restart_syscall" 219;
   Ent "semtimedop" 220;
   Ent "fadvise64" 221;
   Ent "timer_create" 222;
   Ent "timer_settime" 223;
   Ent "timer_gettime" 224;
   Ent "timer_getoverrun" 225;
   Ent "timer_delete" 226;
   Ent "clock_settime" 227;
   Ent "clock_gettime" 228;
   Ent "clock_getres" 229;
   Ent "clock_nanosleep" 230;
   Ent "exit_group" 231;
   Ent "epoll_wait" 232;
   Ent "epoll_ctl" 233;
   Ent "tgkill" 234;
   Ent "utimes" 235;
   Ent "vserver" 236;
   Ent "mbind" 237;
   Ent "set_mempolicy" 238;
   Ent "get_mempolicy" 239;
   Ent "mq_open" 240;
   Ent "mq_unlink" 241;
   Ent "mq_timedsend" 242;
   Ent "mq_timedreceive" 243;
   Ent "mq_notify" 244;
   Ent "mq_getsetattr" 245;
   Ent "kexec_load" 246;
   Ent "waitid" 247;
   Ent "add_key" 248;
   Ent "request_key" 249;
   Ent "keyctl" 250;
   Ent "ioprio_set" 251;
   Ent "ioprio_get" 252;
   Ent "inotify_init" 253;
   Ent "inotify_add_watch" 254;
   Ent "inotify_rm_watch" 255;
   Ent "migrate_pages" 256;
   Ent "openat" 257;
   Ent "mkdirat" 258;
   Ent "mknodat" 259;
   Ent "fchownat" 260;
   Ent "futimesat" 261;
   Ent "newfstatat" 262;
   Ent "unlinkat" 263;
   Ent "renameat" 264;
   Ent "linkat" 265;
   Ent "symlinkat" 266;
   Ent "readlinkat" 267;
   Ent "fchmodat" 268;
   Ent "faccessat" 269;
   Ent "pselect6" 270;
   Ent "ppoll" 271;
   Ent "unshare" 272;
   Ent "set_robust_list" 273;
   Ent "get_robust_list" 274;
   Ent "splice" 275;
   Ent "tee" 276;
   Ent "sync_file_range" 277;
   Ent "vmsplice" 278;
   Ent "move_pages" 279;
   Ent "utimensat" 280;
   Ent "epoll_pwait" 281;
   Ent "signalfd" 282;
   Ent "timerfd_create" 283;
   Ent "eventfd" 284;
   Ent "fallocate" 285;
   Ent "timerfd_settime" 286;
   Ent "timerfd_gettime" 287;
   Ent "accept4" 288;
   Ent "signalfd4" 289;
   Ent "eventfd2" 290;
   Ent "epoll_create1" 291;
   Ent "dup3" 292;
   Ent "pipe2" 293;
   Ent "inotify_init1" 294;
   Ent "preadv" 295;
   Ent "pwritev" 296;
   Ent "rt_tgsigqueueinfo" 297;
   Ent "perf_event_open" 298;
   Ent "recvmmsg" 299].

Definition syscall_x86_64_3 : list SyscallEntry :=
  [Ent "fanotify_init" 300;
   Ent "fanotify_mark" 301;
   Ent "prlimit64" 302;
   Ent "name_to_handle_at" 303;
   Ent "open_by_handle_at" 304;
   Ent "clock_adjtime" 305;
   Ent "syncfs" 306;
   Ent "sendmmsg" 307;
   Ent "setns" 308;
   Ent "getcpu" 309;
   Ent "process_vm_readv" 310;
   Ent "process_vm_writev" 311;
   Ent "kcmp" 312;
   Ent "finit_module" 313;
   Ent "sched_setattr" 314;
   Ent "sched_getattr" 315;
   Ent "renameat2" 316;
   Ent "seccomp" 317;
   Ent "getrandom" 318;
   Ent "memfd_create" 319;
   Ent "kexec_file_load" 320;
   Ent "bpf" 321;
   Ent "execveat" 322;
   Ent "userfaultfd" 323;
   Ent "membarrier" 324;
   Ent "mlock2" 325;
   Ent "copy_file_range" 326;
   Ent "preadv2" 327;
   Ent "pwritev2" 328;
   Ent "pkey_mprotect" 329;
   Ent "pkey_alloc" 330;
   Ent "pkey_free" 331;
   Ent "statx" 332;
   Ent "io_pgetevents" 333;
   Ent "rseq" 334;
   Ent "uretprobe" 335;
   Ent "uprobe" 336;
   Ent "pidfd_send_signal" 424;
   Ent "io_uring_setup" 425;
   Ent "io_uring_enter" 426;
   Ent "io_uring_register" 427;
   Ent "open_tree" 428;
   Ent "move_mount" 429;
   Ent "fsopen" 430;
   Ent "fsconfig" 431;
   Ent "fsmount" 432;
   Ent "fspick" 433;
   Ent "pidfd_open" 434;
   Ent "clone3" 435;
   Ent "close_range" 436;
   Ent "openat2" 437;
   Ent "pidfd_getfd" 438;
   Ent "faccessat2" 439;
   Ent "process_madvise" 440;
   Ent "epoll_pwait2" 441;
   Ent "mount_setattr" 442;
   Ent "quotactl_fd" 443;
   Ent "landlock_create_ruleset" 444;
   Ent "landlock_add_rule" 445;
   Ent "landlock_restrict_self" 446;
   Ent "memfd_secret" 447;
   Ent "process_mrelease" 448;
   Ent "futex_waitv" 449;
   Ent "set_mempolicy_home_node" 450;
   Ent "cachestat" 451;
   Ent "fchmodat2" 452;
   Ent "map_shadow_stack" 453;
   Ent "futex_wake" 454;
   Ent "futex_wait" 455;
   Ent "futex_requeue" 456;
   Ent "statmount" 457;
   Ent "listmount" 458;
   Ent "lsm_get_self_attr" 459;
   Ent "lsm_set_self_attr" 460;
   Ent "lsm_list_modules" 461;
   Ent "mseal" 462;
   Ent "setxattrat" 463;
   Ent "getxattrat" 464;
   Ent "listxattrat" 465;
   Ent "removexattrat" 466;
   Ent "open_tree_attr" 467;
   Ent "file_getattr" 468;
   Ent "file_setattr" 469;
   Ent "listns" 470;
   Ent "rseq_slice_yield" 471;
   Ent "fchroot" 472].

(** src/include/syscall_x86_64.h *)
Definition syscall_x86_64 : list SyscallEntry :=
  syscall_x86_64_1 ++ syscall_x86_64_2 ++ syscall_x86_64_3.

Definition syscall_i386_1 : list SyscallEntry :=
  [Ent "restart_syscall" 0;
   Ent "exit" 1;
   Ent "fork" 2;
   Ent "read" 3;
   Ent "write" 4;
   Ent "open" 5;
   Ent "close" 6;
   Ent "waitpid" 7;
   Ent "creat" 8;
   Ent "link" 9;
   Ent "unlink" 10;
   Ent "execve" 11;
   Ent "chdir" 12;
   Ent "time" 13;
   Ent "mknod" 14;
   Ent "chmod" 15;
   Ent "lchown" 16;
   Ent "break" 17;
   Ent "oldstat" 18;
   Ent "lseek" 19;
   Ent "getpid" 20;
   Ent "mount" 21;
   Ent "umount" 22;
   Ent "setuid" 23;
   Ent "getuid" 24;
   Ent "stime" 25;
   Ent "ptrace" 26;
   Ent "alarm" 27;
   Ent "oldfstat" 28;
   Ent "pause" 29;
   Ent "utime" 30;
   Ent "stty" 31;
   Ent "gtty" 32;
   Ent "access" 33;
   Ent "nice" 34;
   Ent "ftime" 35;
   Ent "sync" 36;
   Ent "kill" 37;
   Ent "rename" 38;
   Ent "mkdir" 39;
   Ent "rmdir" 40;
   Ent "dup" 41;
   Ent "pipe" 42;
   Ent "times" 43;
   Ent "prof" 44;
   Ent "brk" 45;
   Ent "setgid" 46;
   Ent "getgid" 47;
   Ent "signal" 48;
   Ent "geteuid" 49;
   Ent "getegid" 50;
   Ent "acct" 51;
   Ent "umount2" 52;
   Ent "lock" 53;
   Ent "ioctl" 54;
   Ent "fcntl" 55;
   Ent "mpx" 56;
   Ent "setpgid" 57;
   Ent "ulimit" 58;
   Ent "oldolduname" 59;
   Ent "umask" 60;
   Ent "chroot" 61;
   Ent "ustat" 62;
   Ent "dup2" 63;
   Ent "getppid" 64;
   Ent "getpgrp" 65;
   Ent "setsid" 66;
   Ent "sigaction" 67;
   Ent "sgetmask" 68;
   Ent "ssetmask" 69;
   Ent "setreuid" 70;
   Ent "setregid" 71;
   Ent "sigsuspend" 72;
   Ent "sigpending" 73;
   Ent "sethostname" 74;
   Ent "setrlimit" 75;
   Ent "getrlimit" 76;
   Ent "getrusage" 77;
   Ent "gettimeofday" 78;
   Ent "settimeofday" 79;
   Ent "getgroups" 80;
   Ent "setgroups" 81;
   Ent "select" 82;
   Ent "symlink" 83;
   Ent "oldlstat" 84;
   Ent "readlink" 85;
   Ent "uselib" 86;
   Ent "swapon" 87;
   Ent "reboot" 88;
   Ent "readdir" 89;
   Ent "mmap" 90;
   Ent "munmap" 91;
   Ent "truncate" 92;
   Ent "ftruncate" 93;
   Ent "fchmod" 94;
   Ent "fchown" 95;
   Ent "getpriority" 96;
   Ent "setpriority" 97;
   Ent "profil" 98;
   Ent "statfs" 99;
   Ent "fstatfs" 100;
   Ent "ioperm" 101;
   Ent "socketcall" 102;
   Ent "syslog" 103;
   Ent "setitimer" 104;
   Ent "getitimer" 105;
   Ent "stat" 106;
   Ent "lstat" 107;
   Ent "fstat" 108;
   Ent "olduname" 109;
   Ent "iopl" 110;
   Ent "vhangup" 111;
   Ent "idle" 112;
   Ent "vm86old" 113;
   Ent "wait4" 114;
   Ent "swapoff" 115;
   Ent "sysinfo" 116;
   Ent "ipc" 117;
   Ent "fsync" 118;
   Ent "sigreturn" 119;
   Ent "clone" 120;
   Ent "setdomainname" 121;
   Ent "uname" 122;
   Ent "modify_ldt" 123;
   Ent "adjtimex" 124;
   Ent "mprotect" 125;
   Ent "sigprocmask" 126;
   Ent "create_module" 127;
   Ent "init_module" 128;
   Ent "delete_module" 129;
   Ent "get_kernel_syms" 130;
   Ent "quotactl" 131;
   Ent "getpgid" 132;
   Ent "fchdir" 133;
   Ent "bdflush" 134;
   Ent "sysfs" 135;
   Ent "personality" 136;
   Ent "afs_syscall" 137;
   Ent "setfsuid" 138;
   Ent "setfsgid" 139;
   Ent "_llseek" 140;
   Ent "getdents" 141;
   Ent "_newselect" 142;
   Ent "flock" 143;
   Ent "msync" 144;
   Ent "readv" 145;
   Ent "writev" 146;
   Ent "getsid" 147;
   Ent "fdatasync" 148;
   Ent "_sysctl" 149].

Definition syscall_i386_2 : list SyscallEntry :=
  [Ent "mlock" 150;
   Ent "munlock" 151;
   Ent "mlockall" 152;
   Ent "munlockall" 153;
   Ent "sched_setparam" 154;
   Ent "sched_getparam" 155;
   Ent "sched_setscheduler" 156;
   Ent "sched_getscheduler" 157;
   Ent "sched_yield" 158;
   Ent "sched_get_priority_max" 159;
   Ent "sched_get_priority_min" 160;
   Ent "sched_rr_get_interval" 161;
   Ent "nanosleep" 162;
   Ent "mremap" 163;
   Ent "setresuid" 164;
   Ent "getresuid" 165;
   Ent "vm86" 166;
   Ent "query_module" 167;
   Ent "poll" 168;
   Ent "nfsservctl" 169;
   Ent "setresgid" 170;
   Ent "getresgid" 171;
   Ent "prctl" 172;
   Ent "rt_sigreturn" 173;
   Ent "rt_sigaction" 174;
   Ent "rt_sigprocmask" 175;
   Ent "rt_sigpending" 176;
   Ent "rt_sigtimedwait" 177;
   Ent "rt_sigqueueinfo" 178;
   Ent "rt_sigsuspend" 179;
   Ent "pread64" 180;
   Ent "pwrite64" 181;
   Ent "chown" 182;
   Ent "getcwd" 183;
   Ent "capget" 184;
   Ent "capset" 185;
   Ent "sigaltstack" 186;
   Ent "sendfile" 187;
   Ent "getpmsg" 188;
   Ent "putpmsg" 189;
   Ent "vfork" 190;
   Ent "ugetrlimit" 191;
   Ent "mmap2" 192;
   Ent "truncate64" 193;
   Ent "ftruncate64" 194;
   Ent "stat64" 195;
   Ent "lstat64" 196;
   Ent "fstat64" 197;
   Ent "lchown32" 198;
   Ent "getuid32" 199;
   Ent "getgid32" 200;
   Ent "geteuid32" 201;
   Ent "getegid32" 202;
   Ent "setreuid32" 203;
   Ent "setregid32" 204;
   Ent "getgroups32" 205;
   Ent "setgroups32" 206;
   Ent "fchown32" 207;
   Ent "setresuid32" 208;
   Ent "getresuid32" 209;
   Ent "setresgid32" 210;
   Ent "getresgid32" 211;
   Ent "chown32" 212;
   Ent "setuid32" 213;
   Ent "setgid32" 214;
   Ent "setfsuid32" 215;
   Ent "setfsgid32" 216;
   Ent "pivot_root" 217;
   Ent "mincore" 218;
   Ent "madvise" 219;
   Ent "getdents64" 220;
   Ent "fcntl64" 221;
   Ent "gettid" 224;
   Ent "readahead" 225;
   Ent "setxattr" 226;
   Ent "lsetxattr" 227;
   Ent "fsetxattr" 228;
   Ent "getxattr" 229;
   Ent "lgetxattr" 230;
   Ent "fgetxattr" 231;
   Ent "listxattr" 232;
   Ent "llistxattr" 233;
   Ent "flistxattr" 234;
   Ent "removexattr" 235;
   Ent "lremovexattr" 236;
   Ent "fremovexattr" 237;
   Ent "tkill" 238;
   Ent "sendfile64" 239;
   Ent "futex" 240;
   Ent "sched_setaffinity" 241;
   Ent "sched_getaffinity" 242;
   Ent "set_thread_area" 243;
   Ent "get_thread_area" 244;
   Ent "io_setup" 245;
   Ent "io_destroy" 246;
   Ent "io_getevents" 247;
   Ent "io_submit" 248;
   Ent "io_cancel" 249;
   Ent "fadvise64" 250;
   Ent "exit_group" 252;
   Ent "lookup_dcookie" 253;
   Ent "epoll_create" 254;
   Ent "epoll_ctl" 255;
   Ent "epoll_wait" 256;
   Ent "remap_file_pages" 257;
   Ent "set_tid_address" 258;
   Ent "timer_create" 259;
   Ent "timer_settime" 260;
   Ent "timer_gettime" 261;
   Ent "timer_getoverrun" 262;
   Ent "timer_delete" 263;
   Ent "clock_settime" 264;
   Ent "clock_gettime" 265;
   Ent "clock_getres" 266;
   Ent "clock_nanosleep" 267;
   Ent "statfs64" 268;
   Ent "fstatfs64" 269;
   Ent "tgkill" 270;
   Ent "utimes" 271;
   Ent "fadvise64_64" 272;
   Ent "vserver" 273;
   Ent "mbind" 274;
   Ent "get_mempolicy" 275;
   Ent "set_mempolicy" 276;
   Ent "mq_open" 277;
   Ent "mq_unlink" 278;
   Ent "mq_timedsend" 279;
   Ent "mq_timedreceive" 280;
   Ent "mq_notify" 281;
   Ent "mq_getsetattr" 282;
   Ent "kexec_load" 283;
   Ent "waitid" 284;
   Ent "add_key" 286;
   Ent "request_key" 287;
   Ent "keyctl" 288;
   Ent "ioprio_set" 289;
   Ent "ioprio_get" 290;
   Ent "inotify_init" 291;
   Ent "inotify_add_watch" 292;
   Ent "inotify_rm_watch" 293;
   Ent "migrate_pages" 294;
   Ent "openat" 295;
   Ent "mkdirat" 296;
   Ent "mknodat" 297;
   Ent "fchownat" 298;
   Ent "futimesat" 299;
   Ent "fstatat64" 300;
   Ent "unlinkat" 301;
   Ent "renameat" 302;
   Ent "linkat" 303].

Definition syscall_i386_3 : list SyscallEntry :=
  [Ent "symlinkat" 304;
   Ent "readlinkat" 305;
   Ent "fchmodat" 306;
   Ent "faccessat" 307;
   Ent "pselect6" 308;
   Ent "ppoll" 309;
   Ent "unshare" 310;
   Ent "set_robust_list" 311;
   Ent "get_robust_list" 312;
   Ent "splice" 313;
   Ent "sync_file_range" 314;
   Ent "tee" 315;
   Ent "vmsplice" 316;
   Ent "move_pages" 317;
   Ent "getcpu" 318;
   Ent "epoll_pwait" 319;
   Ent "utimensat" 320;
   Ent "signalfd" 321;
   Ent "timerfd_create" 322;
   Ent "eventfd" 323;
   Ent "fallocate" 324;
   Ent "timerfd_settime" 325;
   Ent "timerfd_gettime" 326;
   Ent "signalfd4" 327;
   Ent "eventfd2" 328;
   Ent "epoll_create1" 329;
   Ent "dup3" 330;
   Ent "pipe2" 331;
   Ent "inotify_init1" 332;
   Ent "preadv" 333;
   Ent "pwritev" 334;
   Ent "rt_tgsigqueueinfo" 335;
   Ent "perf_event_open" 336;
   Ent "recvmmsg" 337;
   Ent "fanotify_init" 338;
   Ent "fanotify_mark" 339;
   Ent "prlimit64" 340;
   Ent "name_to_handle_at" 341;
   Ent "open_by_handle_at" 342;
   Ent "clock_adjtime" 343;
   Ent "syncfs" 344;
   Ent "sendmmsg" 345;
   Ent "setns" 346;
   Ent "process_vm_readv" 347;
   Ent "process_vm_writev" 348;
   Ent "kcmp" 349;
   Ent "finit_module" 350;
   Ent "sched_setattr" 351;
   Ent "sched_getattr" 352;
   Ent "renameat2" 353;
   Ent "seccomp" 354;
   Ent "getrandom" 355;
   Ent "memfd_create" 356;
   Ent "bpf" 357;
   Ent "execveat" 358;
   Ent "socket" 359;
   Ent "socketpair" 360;
   Ent "bind" 361;
   Ent "connect" 362;
   Ent "listen" 363;
   Ent "accept4" 364;
   Ent "getsockopt" 365;
   Ent "setsockopt" 366;
   Ent "getsockname" 367;
   Ent "getpeername" 368;
   Ent "sendto" 369;
   Ent "sendmsg" 370;
   Ent "recvfrom" 371;
   Ent "recvmsg" 372;
   Ent "shutdown" 373;
   Ent "userfaultfd" 374;
   Ent "membarrier" 375;
   Ent "mlock2" 376;
   Ent "copy_file_range" 377;
   Ent "preadv2" 378;
   Ent "pwritev2" 379;
   Ent "pkey_mprotect" 380;
   Ent "pkey_alloc" 381;
   Ent "pkey_free" 382;
   Ent "statx" 383;
   Ent "arch_prctl" 384;
   Ent "io_pgetevents" 385;
   Ent "rseq" 386;
   Ent "semget" 393;
   Ent "semctl" 394;
   Ent "shmget" 395;
   Ent "shmctl" 396;
   Ent "shmat" 397;
   Ent "shmdt" 398;
   Ent "msgget" 399;
   Ent "msgsnd" 400;
   Ent "msgrcv" 401;
   Ent "msgctl" 402;
   Ent "clock_gettime64" 403;
   Ent "clock_settime64" 404;
   Ent "clock_adjtime64" 405;
   Ent "clock_getres_time64" 406;
   Ent "clock_nanosleep_time64" 407;
   Ent "timer_gettime64" 408;
   Ent "timer_settime64" 409;
   Ent "timerfd_gettime64" 410;
   Ent "timerfd_settime64" 411;
   Ent "utimensat_time64" 412;
   Ent "pselect6_time64" 413;
   Ent "ppoll_time64" 414;
   Ent "io_pgetevents_time64" 416;
   Ent "recvmmsg_time64" 417;
   Ent "mq_timedsend_time64" 418;
   Ent "mq_timedreceive_time64" 419;
   Ent "semtimedop_time64" 420;
   Ent "rt_sigtimedwait_time64" 421;
   Ent "futex_time64" 422;
   Ent "sched_rr_get_interval_time64" 423;
   Ent "pidfd_send_signal" 424;
   Ent "io_uring_setup" 425;
   Ent "io_uring_enter" 426;
   Ent "io_uring_register" 427;
   Ent "open_tree" 428;
   Ent "move_mount" 429;
   Ent "fsopen" 430;
   Ent "fsconfig" 431;
   Ent "fsmount" 432;
   Ent "fspick" 433;
   Ent "pidfd_open" 434;
   Ent "clone3" 435;
   Ent "close_range" 436;
   Ent "openat2" 437;
   Ent "pidfd_getfd" 438;
   Ent "faccessat2" 439;
   Ent "process_madvise" 440;
   Ent "epoll_pwait2" 441;
   Ent "mount_setattr" 442;
   Ent "quotactl_fd" 443;
   Ent "landlock_create_ruleset" 444;
   Ent "landlock_add_rule" 445;
   Ent "landlock_restrict_self" 446;
   Ent "memfd_secret" 447;
   Ent "process_mrelease" 448;
   Ent "futex_waitv" 449;
   Ent "set_mempolicy_home_node" 450;
   Ent "cachestat" 451;
   Ent "fchmodat2" 452;
   Ent "map_shadow_stack" 453;
   Ent "futex_wake" 454;
   Ent "futex_wait" 455;
   Ent "futex_requeue" 456;
   Ent "statmount" 457;
   Ent "listmount" 458;
   Ent "lsm_get_self_attr" 459;
   Ent "lsm_set_self_attr" 460].

Definition syscall_i386_4 : list SyscallEntry :=
  [Ent "lsm_list_modules" 461;
   Ent "mseal" 462;
   Ent "setxattrat" 463;
   Ent "getxattrat" 464;
   Ent "listxattrat" 465;
   Ent "removexattrat" 466;
   Ent "open_tree_attr" 467;
   Ent "file_getattr" 468;
   Ent "file_setattr" 469;
   Ent "listns" 470;
   Ent "rseq_slice_yield" 471;
   Ent "fchroot" 472].

(** src/include/syscall_i386.h *)
Definition syscall_i386 : list SyscallEntry :=
  syscall_i386_1 ++ syscall_i386_2 ++ syscall_i386_3 ++ syscall_i386_4.

(** * Errno names and numbers: src/lib/errno.c

    The table with the values of <errno.h> on x86_64 Linux; [ENOATTR] is not a
    macro of that header, so its [#ifdef] branch is not taken. *)

Local Open Scope string_scope.
Local Open Scope list_scope.
Local Open Scope Z_scope.

Record ErrnoEntry := Err { en_name : string; en_nr : Z }.

Definition errnolist : list ErrnoEntry :=
  [Err "EPERM" 1;
   Err "ENOENT" 2;
   Err "ESRCH" 3;
   Err "EINTR" 4;
   Err "EIO" 5;
   Err "ENXIO" 6;
   Err "E2BIG" 7;
   Err "ENOEXEC" 8;
   Err "EBADF" 9;
   Err "ECHILD" 10;
   Err "EAGAIN" 11;
   Err "ENOMEM" 12;
   Err "EACCES" 13;
   Err "EFAULT" 14;
   Err "ENOTBLK" 15;
   Err "EBUSY" 16;
   Err "EEXIST" 17;
   Err "EXDEV" 18;
   Err "ENODEV" 19;
   Err "ENOTDIR" 20;
   Err "EISDIR" 21;
   Err "EINVAL" 22;
   Err "ENFILE" 23;
   Err "EMFILE" 24;
   Err "ENOTTY" 25;
   Err "ETXTBSY" 26;
   Err "EFBIG" 27;
   Err "ENOSPC" 28;
   Err "ESPIPE" 29;
   Err "EROFS" 30;
   Err "EMLINK" 31;
   Err "EPIPE" 32;
   Err "EDOM" 33;
   Err "ERANGE" 34;
   Err "EDEADLK" 35;
   Err "ENAMETOOLONG" 36;
   Err "ENOLCK" 37;
   Err "ENOSYS" 38;
   Err "ENOTEMPTY" 39;
   Err "ELOOP" 40;
   Err "EWOULDBLOCK" 11;
   Err "ENOMSG" 42;
   Err "EIDRM" 43;
   Err "ECHRNG" 44;
   Err "EL2NSYNC" 45;
   Err "EL3HLT" 46;
   Err "EL3RST" 47;
   Err "ELNRNG" 48;
   Err "EUNATCH" 49;
   Err "ENOCSI" 50;
   Err "EL2HLT" 51;
   Err "EBADE" 52;
   Err "EBADR" 53;
   Err "EXFULL" 54;
   Err "ENOANO" 55;
   Err "EBADRQC" 56;
   Err "EBADSLT" 57;
   Err "EDEADLOCK" 35;
   Err "EBFONT" 59;
   Err "ENOSTR" 60;
   Err "ENODATA" 61;
   Err "ETIME" 62;
   Err "ENOSR" 63;
   Err "ENONET" 64;
   Err "ENOPKG" 65;
   Err "EREMOTE" 66;
   Err "ENOLINK" 67;
   Err "EADV" 68;
   Err "ESRMNT" 69;
   Err "ECOMM" 70;
   Err "EPROTO" 71;
   Err "EMULTIHOP" 72;
   Err "EDOTDOT" 73;
   Err "EBADMSG" 74;
   Err "EOVERFLOW" 75;
   Err "ENOTUNIQ" 76;
   Err "EBADFD" 77;
   Err "EREMCHG" 78;
   Err "ELIBACC" 79;
   Err "ELIBBAD" 80;
   Err "ELIBSCN" 81;
   Err "ELIBMAX" 82;
   Err "ELIBEXEC" 83;
   Err "EILSEQ" 84;
   Err "ERESTART" 85;
   Err "ESTRPIPE" 86;
   Err "EUSERS" 87;
   Err "ENOTSOCK" 88;
   Err "EDESTADDRREQ" 89;
   Err "EMSGSIZE" 90;
   Err "EPROTOTYPE" 91;
   Err "ENOPROTOOPT" 92;
   Err "EPROTONOSUPPORT" 93;
   Err "ESOCKTNOSUPPORT" 94;
   Err "EOPNOTSUPP" 95;
   Err "EPFNOSUPPORT" 96;
   Err "EAFNOSUPPORT" 97;
   Err "EADDRINUSE" 98;
   Err "EADDRNOTAVAIL" 99;
   Err "ENETDOWN" 100;
   Err "ENETUNREACH" 101;
   Err "ENETRESET" 102;
   Err "ECONNABORTED" 103;
   Err "ECONNRESET" 104;
   Err "ENOBUFS" 105;
   Err "EISCONN" 106;
   Err "ENOTCONN" 107;
   Err "ESHUTDOWN" 108;
   Err "ETOOMANYREFS" 109;
   Err "ETIMEDOUT" 110;
   Err "ECONNREFUSED" 111;
   Err "EHOSTDOWN" 112;
   Err "EHOSTUNREACH" 113;
   Err "EALREADY" 114;
   Err "EINPROGRESS" 115;
   Err "ESTALE" 116;
   Err "EUCLEAN" 117;
   Err "ENOTNAM" 118;
   Err "ENAVAIL" 119;
   Err "EISNAM" 120;
   Err "EREMOTEIO" 121;
   Err "EDQUOT" 122;
   Err "ENOMEDIUM" 123;
   Err "EMEDIUMTYPE" 124;
   Err "ECANCELED" 125;
   Err "ENOKEY" 126;
   Err "EKEYEXPIRED" 127;
   Err "EKEYREVOKED" 128;
   Err "EKEYREJECTED" 129;
   Err "EOWNERDEAD" 130;
   Err "ENOTRECOVERABLE" 131;
   Err "ERFKILL" 132;
   Err "EHWPOISON" 133;
   Err "ENOTSUP" 95].

Definition EPERM : Z := 1.
Definition ENOSYS : Z := 38.
Definition ENOTSUP : Z := 95.

Definition errno_find_name (name : string) : Z :=
  match List.find (fun e => strcaseeq name (en_name e)) errnolist with
  | Some e => en_nr e
  | None => -1
  end.

Definition errno_find_nr (nr : Z) : string :=
  match List.find (fun e => nr =? en_nr e) errnolist with
  | Some e => en_name e
  | None => "unknown"
  end.

(** ** The table *)

Lemma errnolist_roundtrip :
  forallb (fun e => errno_find_name (errno_find_nr (en_nr e)) =? en_nr e) errnolist = true.
Proof. vm_compute. reflexivity. Qed.

Lemma errnolist_names :
  forallb (fun e => is_token "," (en_name e)
                    && negb (string_mem ":" (en_name e))
                    && negb (streq (en_name e) "kill")
                    && negb (streq (en_name e) "log")) errnolist = true.
Proof. vm_compute. reflexivity. Qed.

Lemma errnolist_bounds : forallb (fun e => (0 <? en_nr e) && (en_nr e <? 4096)) errnolist = true.
Proof. vm_compute. reflexivity. Qed.

Lemma errno_find_name_in name :
  errno_find_name name <> -1 -> exists e, In e errnolist /\ en_nr e = errno_find_name name.
Proof.
  unfold errno_find_name. destruct (List.find _ errnolist) as [e|] eqn:E; [|done].
  intros _. apply find_some in E as [E _]. eauto.
Qed.

(** The error number an accepted name stands for fits the 16 data bits of a
    seccomp return value, and is not zero. *)
Lemma errno_find_name_bounds name :
  errno_find_name name <> -1 -> 0 < errno_find_name name < 4096.
Proof.
  intros (e & He & <-)%errno_find_name_in.
  pose proof errnolist_bounds as H. rewrite forallb_forall in H.
  specialize (H e He). lia.
Qed.

Lemma errno_find_nr_known nr e :
  In e errnolist -> en_nr e = nr ->
  errno_find_name (errno_find_nr nr) = nr
  /\ is_token "," (errno_find_nr nr) = true
  /\ string_mem ":" (errno_find_nr nr) = false
  /\ errno_find_nr nr <> "kill" /\ errno_find_nr nr <> "log".
Proof.
  intros He <-. split.
  { pose proof errnolist_roundtrip as H. rewrite forallb_forall in H.
    specialize (H e He). lia. }
  assert (exists e', In e' errnolist /\ errno_find_nr (en_nr e) = en_name e') as (e' & He' & ->).
  { unfold errno_find_nr. destruct (List.find _ errnolist) as [e'|] eqn:E.
    - apply find_some in E as [E _]. eauto.
    - apply List.find_none with (x := e) in E; [|done]. simpl in E. lia. }
  pose proof errnolist_names as H. rewrite forallb_forall in H.
  specialize (H e' He').
  apply andb_true_iff in H as [[[H1 H2%negb_true_iff]%andb_true_iff H3%negb_true_iff]%andb_true_iff
                               H4%negb_true_iff].
  rewrite streq_neq in H3, H4. done.
Qed.
