(* ===== verification/SyscallGroups.v ===== *)
(** * The system call groups

    [sysgroups] of src/lib/syscall.c: every group with its description and the
    string literals of its [.list], in the order of the file, each with the
    macro of the [#ifdef] around it.  Which [SYS_] macros are defined, and their
    values, comes from the kernel headers of the build and is the parameter
    [SYS] of the development. *)

From S2P Require Import Prelude.
Local Open Scope string_scope.
Local Open Scope list_scope.
Local Open Scope Z_scope.

(** The macros [SYS_<name>] of <sys/syscall.h>, by their full name. *)
Class SysHeaders := SYS : string -> option Z.

(** One string literal of a [.list] initialiser: unconditional, or between
    [#ifdef macro] and [#endif]. *)
Inductive litem :=
| Lit (s : string)
| Ifdef (macro : string) (s : string).

Record SyscallGroupList := Group {
  sg_name : string;
  sg_description : string;
  sg_items : list litem
}.

Definition group_aio : SyscallGroupList :=
  Group "@aio"
    "Asynchronous I/O and io_uring operations."
    [Ifdef "SYS_io_cancel" "io_cancel,";
     Ifdef "SYS_io_destroy" "io_destroy,";
     Ifdef "SYS_io_getevents" "io_getevents,";
     Ifdef "SYS_io_pgetevents" "io_pgetevents,";
     Ifdef "SYS_io_pgetevents_time64" "io_pgetevents_time64,";
     Ifdef "SYS_io_setup" "io_setup,";
     Ifdef "SYS_io_submit" "io_submit,";
     Ifdef "SYS_io_uring_enter" "io_uring_enter,";
     Ifdef "SYS_io_uring_register" "io_uring_register,";
     Ifdef "SYS_io_uring_setup" "io_uring_setup,";
     Lit "__dummy_syscall__"].

Definition group_basic_io : SyscallGroupList :=
  Group "@basic-io"
    "Basic file-descriptor read, write, seek and dup operations."
    [Ifdef "SYS__llseek" "_llseek,";
     Ifdef "SYS_close" "close,";
     Ifdef "SYS_close_range" "close_range,";
     Ifdef "SYS_dup" "dup,";
     Ifdef "SYS_dup2" "dup2,";
     Ifdef "SYS_dup3" "dup3,";
     Ifdef "SYS_lseek" "lseek,";
     Ifdef "SYS_pread64" "pread64,";
     Ifdef "SYS_preadv" "preadv,";
     Ifdef "SYS_preadv2" "preadv2,";
     Ifdef "SYS_pwrite64" "pwrite64,";
     Ifdef "SYS_pwritev" "pwritev,";
     Ifdef "SYS_pwritev2" "pwritev2,";
     Ifdef "SYS_read" "read,";
     Ifdef "SYS_readv" "readv,";
     Ifdef "SYS_write" "write,";
     Ifdef "SYS_writev" "writev,";
     Lit "__dummy_syscall__"].

Definition group_chown : SyscallGroupList :=
  Group "@chown"
    "Change file owner and group metadata."
    [Ifdef "SYS_chown" "chown,";
     Ifdef "SYS_chown32" "chown32,";
     Ifdef "SYS_fchown" "fchown,";
     Ifdef "SYS_fchown32" "fchown32,";
     Ifdef "SYS_fchownat" "fchownat,";
     Ifdef "SYS_lchown" "lchown,";
     Ifdef "SYS_lchown32" "lchown32,";
     Lit "__dummy_syscall__"].

Definition group_clock : SyscallGroupList :=
  Group "@clock"
    "System clock adjustment."
    [Ifdef "SYS_adjtimex" "adjtimex,";
     Ifdef "SYS_clock_adjtime" "clock_adjtime,";
     Ifdef "SYS_clock_adjtime64" "clock_adjtime64,";
     Ifdef "SYS_clock_settime" "clock_settime,";
     Ifdef "SYS_clock_settime64" "clock_settime64,";
     Ifdef "SYS_old_adjtimex" "old_adjtimex,";
     Lit "__dummy_syscall__"].

Definition group_cpu_emulation : SyscallGroupList :=
  Group "@cpu-emulation"
    "Legacy CPU, segment and VM86 emulation helpers."
    [Ifdef "SYS_modify_ldt" "modify_ldt,";
     Ifdef "SYS_subpage_prot" "subpage_prot,";
     Ifdef "SYS_switch_endian" "switch_endian,";
     Ifdef "SYS_vm86" "vm86,";
     Ifdef "SYS_vm86old" "vm86old,";
     Lit "__dummy_syscall__"].

Definition group_debug : SyscallGroupList :=
  Group "@debug"
    "Low-level debugging, tracing, and perf monitoring interfaces."
    [Ifdef "SYS_lookup_dcookie" "lookup_dcookie,";
     Ifdef "SYS_perf_event_open" "perf_event_open,";
     Ifdef "SYS_pidfd_getfd" "pidfd_getfd,";
     Ifdef "SYS_process_vm_writev" "process_vm_writev,";
     Ifdef "SYS_rtas" "rtas,";
     Ifdef "SYS_s390_runtime_instr" "s390_runtime_instr,";
     Ifdef "SYS_sys_debug_setcontext" "sys_debug_setcontext,";
     Ifdef "SYS_uprobe" "uprobe,";
     Ifdef "SYS_uretprobe" "uretprobe,";
     Lit "__dummy_syscall__"].

Definition group_default : SyscallGroupList :=
  Group "@default"
    "Broad set of syscalls usually considered unsafe or rarely used."
    [Lit "@clock,";
     Lit "@cpu-emulation,";
     Lit "@debug,";
     Lit "@module,";
     Lit "@mount,";
     Lit "@obsolete,";
     Lit "@raw-io,";
     Lit "@reboot,";
     Lit "@swap,";
     Ifdef "SYS_acct" "acct,";
     Ifdef "SYS_add_key" "add_key,";
     Ifdef "SYS_bpf" "bpf,";
     Ifdef "SYS_fanotify_init" "fanotify_init,";
     Ifdef "SYS_io_cancel" "io_cancel,";
     Ifdef "SYS_io_destroy" "io_destroy,";
     Ifdef "SYS_io_getevents" "io_getevents,";
     Ifdef "SYS_io_setup" "io_setup,";
     Ifdef "SYS_io_submit" "io_submit,";
     Ifdef "SYS_ioprio_set" "ioprio_set,";
     Ifdef "SYS_keyctl" "keyctl,";
     Ifdef "SYS_mbind" "mbind,";
     Ifdef "SYS_migrate_pages" "migrate_pages,";
     Ifdef "SYS_move_pages" "move_pages,";
     Ifdef "SYS_name_to_handle_at" "name_to_handle_at,";
     Ifdef "SYS_nfsservctl" "nfsservctl,";
     Ifdef "SYS_open_by_handle_at" "open_by_handle_at,";
     Ifdef "SYS_request_key" "request_key,";
     Ifdef "SYS_set_mempolicy" "set_mempolicy,";
     Ifdef "SYS_setdomainname" "setdomainname,";
     Ifdef "SYS_sethostname" "sethostname,";
     Ifdef "SYS_syslog" "syslog,";
     Ifdef "SYS_userfaultfd" "userfaultfd,";
     Ifdef "SYS_vhangup" "vhangup,";
     Ifdef "SYS_vmsplice" "vmsplice,";
     Lit "__dummy_syscall__"].

Definition group_default_keep : SyscallGroupList :=
  Group "@default-keep"
    "System calls needed by Firejail itself, kept even under strict filters."
    [Lit "execve,";
     Lit "execveat,";
     Lit "prctl,";
     Lit "__dummy_syscall__"].

Definition group_default_nodebuggers : SyscallGroupList :=
  Group "@default-nodebuggers"
    "Debugger and introspection syscalls, also includes the @default group."
    [Lit "@default,";
     Ifdef "SYS_personality" "personality,";
     Ifdef "SYS_process_vm_readv" "process_vm_readv,";
     Ifdef "SYS_ptrace" "ptrace,";
     Lit "__dummy_syscall__"].

Definition group_file_system_items_1 : list litem :=
    [Ifdef "SYS_access" "access,";
     Ifdef "SYS_cachestat" "cachestat,";
     Ifdef "SYS_chdir" "chdir,";
     Ifdef "SYS_chmod" "chmod,";
     Ifdef "SYS_close" "close,";
     Ifdef "SYS_close_range" "close_range,";
     Ifdef "SYS_creat" "creat,";
     Ifdef "SYS_faccessat" "faccessat,";
     Ifdef "SYS_faccessat2" "faccessat2,";
     Ifdef "SYS_fallocate" "fallocate,";
     Ifdef "SYS_fanotify_mark" "fanotify_mark,";
     Ifdef "SYS_fchdir" "fchdir,";
     Ifdef "SYS_fchmod" "fchmod,";
     Ifdef "SYS_fchmodat" "fchmodat,";
     Ifdef "SYS_fchmodat2" "fchmodat2,";
     Ifdef "SYS_fcntl" "fcntl,";
     Ifdef "SYS_fcntl64" "fcntl64,";
     Ifdef "SYS_fgetxattr" "fgetxattr,";
     Ifdef "SYS_file_getattr" "file_getattr,";
     Ifdef "SYS_file_setattr" "file_setattr,";
     Ifdef "SYS_flistxattr" "flistxattr,";
     Ifdef "SYS_fremovexattr" "fremovexattr,";
     Ifdef "SYS_fsetxattr" "fsetxattr,";
     Ifdef "SYS_fstat" "fstat,";
     Ifdef "SYS_fstat64" "fstat64,";
     Ifdef "SYS_fstatat64" "fstatat64,";
     Ifdef "SYS_fstatfs" "fstatfs,";
     Ifdef "SYS_fstatfs64" "fstatfs64,";
     Ifdef "SYS_ftruncate" "ftruncate,";
     Ifdef "SYS_ftruncate64" "ftruncate64,";
     Ifdef "SYS_getcwd" "getcwd,";
     Ifdef "SYS_getdents" "getdents,";
     Ifdef "SYS_getdents64" "getdents64,";
     Ifdef "SYS_getxattr" "getxattr,";
     Ifdef "SYS_getxattrat" "getxattrat,";
     Ifdef "SYS_inotify_add_watch" "inotify_add_watch,";
     Ifdef "SYS_inotify_init" "inotify_init,";
     Ifdef "SYS_inotify_init1" "inotify_init1,";
     Ifdef "SYS_inotify_rm_watch" "inotify_rm_watch,";
     Ifdef "SYS_lgetxattr" "lgetxattr,";
     Ifdef "SYS_link" "link,";
     Ifdef "SYS_linkat" "linkat,";
     Ifdef "SYS_listxattr" "listxattr,";
     Ifdef "SYS_listxattrat" "listxattrat,";
     Ifdef "SYS_llistxattr" "llistxattr,";
     Ifdef "SYS_lremovexattr" "lremovexattr,";
     Ifdef "SYS_lsetxattr" "lsetxattr,";
     Ifdef "SYS_lstat" "lstat,";
     Ifdef "SYS_lstat64" "lstat64,"].

Definition group_file_system_items_2 : list litem :=
    [Ifdef "SYS_mkdir" "mkdir,";
     Ifdef "SYS_mkdirat" "mkdirat,";
     Ifdef "SYS_mknod" "mknod,";
     Ifdef "SYS_mknodat" "mknodat,";
     Ifdef "SYS_munmap" "munmap,";
     Ifdef "SYS_newfstatat" "newfstatat,";
     Ifdef "SYS_oldfstat" "oldfstat,";
     Ifdef "SYS_oldlstat" "oldlstat,";
     Ifdef "SYS_oldstat" "oldstat,";
     Ifdef "SYS_open" "open,";
     Ifdef "SYS_openat" "openat,";
     Ifdef "SYS_openat2" "openat2,";
     Ifdef "SYS_osf_fstat" "osf_fstat,";
     Ifdef "SYS_osf_fstatfs" "osf_fstatfs,";
     Ifdef "SYS_osf_fstatfs64" "osf_fstatfs64,";
     Ifdef "SYS_osf_getdirentries" "osf_getdirentries,";
     Ifdef "SYS_osf_lstat" "osf_lstat,";
     Ifdef "SYS_osf_proplist_syscall" "osf_proplist_syscall,";
     Ifdef "SYS_osf_utimes" "osf_utimes,";
     Ifdef "SYS_quotactl_fd" "quotactl_fd,";
     Ifdef "SYS_readlink" "readlink,";
     Ifdef "SYS_readlinkat" "readlinkat,";
     Ifdef "SYS_removexattr" "removexattr,";
     Ifdef "SYS_removexattrat" "removexattrat,";
     Ifdef "SYS_rename" "rename,";
     Ifdef "SYS_renameat" "renameat,";
     Ifdef "SYS_renameat2" "renameat2,";
     Ifdef "SYS_rmdir" "rmdir,";
     Ifdef "SYS_setxattr" "setxattr,";
     Ifdef "SYS_setxattrat" "setxattrat,";
     Ifdef "SYS_stat" "stat,";
     Ifdef "SYS_stat64" "stat64,";
     Ifdef "SYS_statfs" "statfs,";
     Ifdef "SYS_statfs64" "statfs64,";
     Ifdef "SYS_statx" "statx,";
     Ifdef "SYS_symlink" "symlink,";
     Ifdef "SYS_symlinkat" "symlinkat,";
     Ifdef "SYS_truncate" "truncate,";
     Ifdef "SYS_truncate64" "truncate64,";
     Ifdef "SYS_unlink" "unlink,";
     Ifdef "SYS_unlinkat" "unlinkat,";
     Ifdef "SYS_utimensat" "utimensat,";
     Ifdef "SYS_utimes" "utimes,";
     Lit "__dummy_syscall__"].

Definition group_file_system : SyscallGroupList :=
  Group "@file-system"
    "Filesystem access: path navigation, metadata, open, create, remove, and inotify."
    (group_file_system_items_1 ++ group_file_system_items_2).

Definition group_io_event : SyscallGroupList :=
  Group "@io-event"
    "Evented I/O multiplexing."
    [Ifdef "SYS__newselect" "_newselect,";
     Ifdef "SYS_epoll_create" "epoll_create,";
     Ifdef "SYS_epoll_create1" "epoll_create1,";
     Ifdef "SYS_epoll_ctl" "epoll_ctl,";
     Ifdef "SYS_epoll_pwait" "epoll_pwait,";
     Ifdef "SYS_epoll_pwait2" "epoll_pwait2,";
     Ifdef "SYS_epoll_wait" "epoll_wait,";
     Ifdef "SYS_eventfd" "eventfd,";
     Ifdef "SYS_eventfd2" "eventfd2,";
     Ifdef "SYS_osf_select" "osf_select,";
     Ifdef "SYS_poll" "poll,";
     Ifdef "SYS_ppoll" "ppoll,";
     Ifdef "SYS_ppoll_time64" "ppoll_time64,";
     Ifdef "SYS_pselect6" "pselect6,";
     Ifdef "SYS_pselect6_time64" "pselect6_time64,";
     Ifdef "SYS_select" "select,";
     Lit "__dummy_syscall__"].

Definition group_ipc : SyscallGroupList :=
  Group "@ipc"
    "Inter-process communication: pipes, SysV IPC and POSIX message queues."
    [Ifdef "SYS_ipc" "ipc,";
     Ifdef "SYS_mq_getsetattr" "mq_getsetattr,";
     Ifdef "SYS_mq_notify" "mq_notify,";
     Ifdef "SYS_mq_open" "mq_open,";
     Ifdef "SYS_mq_timedreceive" "mq_timedreceive,";
     Ifdef "SYS_mq_timedreceive_time64" "mq_timedreceive_time64,";
     Ifdef "SYS_mq_timedsend" "mq_timedsend,";
     Ifdef "SYS_mq_timedsend_time64" "mq_timedsend_time64,";
     Ifdef "SYS_mq_unlink" "mq_unlink,";
     Ifdef "SYS_msgctl" "msgctl,";
     Ifdef "SYS_msgget" "msgget,";
     Ifdef "SYS_msgrcv" "msgrcv,";
     Ifdef "SYS_msgsnd" "msgsnd,";
     Ifdef "SYS_pipe" "pipe,";
     Ifdef "SYS_pipe2" "pipe2,";
     Ifdef "SYS_process_madvise" "process_madvise,";
     Ifdef "SYS_process_mrelease" "process_mrelease,";
     Ifdef "SYS_process_vm_readv" "process_vm_readv,";
     Ifdef "SYS_process_vm_writev" "process_vm_writev,";
     Ifdef "SYS_semctl" "semctl,";
     Ifdef "SYS_semget" "semget,";
     Ifdef "SYS_semop" "semop,";
     Ifdef "SYS_semtimedop" "semtimedop,";
     Ifdef "SYS_semtimedop_time64" "semtimedop_time64,";
     Ifdef "SYS_shmat" "shmat,";
     Ifdef "SYS_shmctl" "shmctl,";
     Ifdef "SYS_shmdt" "shmdt,";
     Ifdef "SYS_shmget" "shmget,";
     Lit "__dummy_syscall__"].

Definition group_keyring : SyscallGroupList :=
  Group "@keyring"
    "Kernel keyring and key management operations."
    [Ifdef "SYS_add_key" "add_key,";
     Ifdef "SYS_keyctl" "keyctl,";
     Ifdef "SYS_request_key" "request_key,";
     Lit "__dummy_syscall__"].

Definition group_memfd : SyscallGroupList :=
  Group "@memfd"
    "Anonymous in-kernel file-like memory objects."
    [Ifdef "SYS_memfd_create" "memfd_create,";
     Ifdef "SYS_memfd_secret" "memfd_secret,";
     Lit "__dummy_syscall__"].

Definition group_memlock : SyscallGroupList :=
  Group "@memlock"
    "Lock and unlock memory to and from RAM (no swapping)."
    [Ifdef "SYS_mlock" "mlock,";
     Ifdef "SYS_mlock2" "mlock2,";
     Ifdef "SYS_mlockall" "mlockall,";
     Ifdef "SYS_munlock" "munlock,";
     Ifdef "SYS_munlockall" "munlockall,";
     Lit "__dummy_syscall__"].

Definition group_module : SyscallGroupList :=
  Group "@module"
    "Load, initialize, and unload kernel modules."
    [Ifdef "SYS_delete_module" "delete_module,";
     Ifdef "SYS_finit_module" "finit_module,";
     Ifdef "SYS_init_module" "init_module,";
     Lit "__dummy_syscall__"].

Definition group_mount : SyscallGroupList :=
  Group "@mount"
    "Mount, unmount, manage filesystems and mount namespaces."
    [Ifdef "SYS_chroot" "chroot,";
     Ifdef "SYS_fchroot" "fchroot,";
     Ifdef "SYS_fsconfig" "fsconfig,";
     Ifdef "SYS_fsmount" "fsmount,";
     Ifdef "SYS_fsopen" "fsopen,";
     Ifdef "SYS_fspick" "fspick,";
     Ifdef "SYS_listmount" "listmount,";
     Ifdef "SYS_mount" "mount,";
     Ifdef "SYS_mount_setattr" "mount_setattr,";
     Ifdef "SYS_move_mount" "move_mount,";
     Ifdef "SYS_oldumount" "oldumount,";
     Ifdef "SYS_open_tree" "open_tree,";
     Ifdef "SYS_open_tree_attr" "open_tree_attr,";
     Ifdef "SYS_osf_mount" "osf_mount,";
     Ifdef "SYS_pivot_root" "pivot_root,";
     Ifdef "SYS_statmount" "statmount,";
     Ifdef "SYS_umount" "umount,";
     Ifdef "SYS_umount2" "umount2,";
     Lit "__dummy_syscall__"].

Definition group_network_io : SyscallGroupList :=
  Group "@network-io"
    "Create and use sockets, send and receive network data."
    [Ifdef "SYS_accept" "accept,";
     Ifdef "SYS_accept4" "accept4,";
     Ifdef "SYS_bind" "bind,";
     Ifdef "SYS_connect" "connect,";
     Ifdef "SYS_getpeername" "getpeername,";
     Ifdef "SYS_getsockname" "getsockname,";
     Ifdef "SYS_getsockopt" "getsockopt,";
     Ifdef "SYS_listen" "listen,";
     Ifdef "SYS_recv" "recv,";
     Ifdef "SYS_recvfrom" "recvfrom,";
     Ifdef "SYS_recvmmsg" "recvmmsg,";
     Ifdef "SYS_recvmmsg_time64" "recvmmsg_time64,";
     Ifdef "SYS_recvmsg" "recvmsg,";
     Ifdef "SYS_send" "send,";
     Ifdef "SYS_sendmmsg" "sendmmsg,";
     Ifdef "SYS_sendmsg" "sendmsg,";
     Ifdef "SYS_sendto" "sendto,";
     Ifdef "SYS_setsockopt" "setsockopt,";
     Ifdef "SYS_shutdown" "shutdown,";
     Ifdef "SYS_socket" "socket,";
     Ifdef "SYS_socketcall" "socketcall,";
     Ifdef "SYS_socketpair" "socketpair,";
     Lit "__dummy_syscall__"].

Definition group_obsolete_items_1 : list litem :=
    [Ifdef "SYS__sysctl" "_sysctl,";
     Ifdef "SYS_afs_syscall" "afs_syscall,";
     Ifdef "SYS_bdflush" "bdflush,";
     Ifdef "SYS_break" "break,";
     Ifdef "SYS_create_module" "create_module,";
     Ifdef "SYS_dipc" "dipc,";
     Ifdef "SYS_epoll_ctl_old" "epoll_ctl_old,";
     Ifdef "SYS_epoll_wait_old" "epoll_wait_old,";
     Ifdef "SYS_exec_with_loader" "exec_with_loader,";
     Ifdef "SYS_execv" "execv,";
     Ifdef "SYS_ftime" "ftime,";
     Ifdef "SYS_futimesat" "futimesat,";
     Ifdef "SYS_get_kernel_syms" "get_kernel_syms,";
     Ifdef "SYS_getpmsg" "getpmsg,";
     Ifdef "SYS_gtty" "gtty,";
     Ifdef "SYS_idle" "idle,";
     Ifdef "SYS_llseek" "llseek,";
     Ifdef "SYS_lock" "lock,";
     Ifdef "SYS_mpx" "mpx,";
     Ifdef "SYS_multiplexer" "multiplexer,";
     Ifdef "SYS_osf_adjtime" "osf_adjtime,";
     Ifdef "SYS_osf_afs_syscall" "osf_afs_syscall,";
     Ifdef "SYS_osf_alt_plock" "osf_alt_plock,";
     Ifdef "SYS_osf_alt_setsid" "osf_alt_setsid,";
     Ifdef "SYS_osf_alt_sigpending" "osf_alt_sigpending,";
     Ifdef "SYS_osf_asynch_daemon" "osf_asynch_daemon,";
     Ifdef "SYS_osf_audcntl" "osf_audcntl,";
     Ifdef "SYS_osf_audgen" "osf_audgen,";
     Ifdef "SYS_osf_chflags" "osf_chflags,";
     Ifdef "SYS_osf_execve" "osf_execve,";
     Ifdef "SYS_osf_exportfs" "osf_exportfs,";
     Ifdef "SYS_osf_fchflags" "osf_fchflags,";
     Ifdef "SYS_osf_fdatasync" "osf_fdatasync,";
     Ifdef "SYS_osf_fpathconf" "osf_fpathconf,";
     Ifdef "SYS_osf_fuser" "osf_fuser,";
     Ifdef "SYS_osf_getaddressconf" "osf_getaddressconf,";
     Ifdef "SYS_osf_getfh" "osf_getfh,";
     Ifdef "SYS_osf_getfsstat" "osf_getfsstat,";
     Ifdef "SYS_osf_gethostid" "osf_gethostid,";
     Ifdef "SYS_osf_getlogin" "osf_getlogin,";
     Ifdef "SYS_osf_getmnt" "osf_getmnt,";
     Ifdef "SYS_osf_gettimeofday" "osf_gettimeofday,";
     Ifdef "SYS_osf_kloadcall" "osf_kloadcall,";
     Ifdef "SYS_osf_kmodcall" "osf_kmodcall,";
     Ifdef "SYS_osf_memcntl" "osf_memcntl,";
     Ifdef "SYS_osf_mincore" "osf_mincore,";
     Ifdef "SYS_osf_mremap" "osf_mremap,";
     Ifdef "SYS_osf_msfs_syscall" "osf_msfs_syscall,";
     Ifdef "SYS_osf_msleep" "osf_msleep,"].

Definition group_obsolete_items_2 : list litem :=
    [Ifdef "SYS_osf_mvalid" "osf_mvalid,";
     Ifdef "SYS_osf_mwakeup" "osf_mwakeup,";
     Ifdef "SYS_osf_naccept" "osf_naccept,";
     Ifdef "SYS_osf_nfssvc" "osf_nfssvc,";
     Ifdef "SYS_osf_ngetpeername" "osf_ngetpeername,";
     Ifdef "SYS_osf_ngetsockname" "osf_ngetsockname,";
     Ifdef "SYS_osf_nrecvfrom" "osf_nrecvfrom,";
     Ifdef "SYS_osf_nrecvmsg" "osf_nrecvmsg,";
     Ifdef "SYS_osf_nsendmsg" "osf_nsendmsg,";
     Ifdef "SYS_osf_ntp_adjtime" "osf_ntp_adjtime,";
     Ifdef "SYS_osf_ntp_gettime" "osf_ntp_gettime,";
     Ifdef "SYS_osf_old_creat" "osf_old_creat,";
     Ifdef "SYS_osf_old_fstat" "osf_old_fstat,";
     Ifdef "SYS_osf_old_getpgrp" "osf_old_getpgrp,";
     Ifdef "SYS_osf_old_killpg" "osf_old_killpg,";
     Ifdef "SYS_osf_old_lstat" "osf_old_lstat,";
     Ifdef "SYS_osf_old_open" "osf_old_open,";
     Ifdef "SYS_osf_old_sigaction" "osf_old_sigaction,";
     Ifdef "SYS_osf_old_sigblock" "osf_old_sigblock,";
     Ifdef "SYS_osf_old_sigreturn" "osf_old_sigreturn,";
     Ifdef "SYS_osf_old_sigsetmask" "osf_old_sigsetmask,";
     Ifdef "SYS_osf_old_sigvec" "osf_old_sigvec,";
     Ifdef "SYS_osf_old_stat" "osf_old_stat,";
     Ifdef "SYS_osf_old_vadvise" "osf_old_vadvise,";
     Ifdef "SYS_osf_old_vtrace" "osf_old_vtrace,";
     Ifdef "SYS_osf_old_wait" "osf_old_wait,";
     Ifdef "SYS_osf_oldquota" "osf_oldquota,";
     Ifdef "SYS_osf_pathconf" "osf_pathconf,";
     Ifdef "SYS_osf_pid_block" "osf_pid_block,";
     Ifdef "SYS_osf_pid_unblock" "osf_pid_unblock,";
     Ifdef "SYS_osf_plock" "osf_plock,";
     Ifdef "SYS_osf_priocntlset" "osf_priocntlset,";
     Ifdef "SYS_osf_profil" "osf_profil,";
     Ifdef "SYS_osf_reboot" "osf_reboot,";
     Ifdef "SYS_osf_revoke" "osf_revoke,";
     Ifdef "SYS_osf_sbrk" "osf_sbrk,";
     Ifdef "SYS_osf_security" "osf_security,";
     Ifdef "SYS_osf_set_speculative" "osf_set_speculative,";
     Ifdef "SYS_osf_sethostid" "osf_sethostid,";
     Ifdef "SYS_osf_setlogin" "osf_setlogin,";
     Ifdef "SYS_osf_settimeofday" "osf_settimeofday,";
     Ifdef "SYS_osf_signal" "osf_signal,";
     Ifdef "SYS_osf_sigsendset" "osf_sigsendset,";
     Ifdef "SYS_osf_sigwaitprim" "osf_sigwaitprim,";
     Ifdef "SYS_osf_sstk" "osf_sstk,";
     Ifdef "SYS_osf_stat" "osf_stat,";
     Ifdef "SYS_osf_statfs" "osf_statfs,";
     Ifdef "SYS_osf_statfs64" "osf_statfs64,";
     Ifdef "SYS_osf_subsys_info" "osf_subsys_info,"].

Definition group_obsolete_items_3 : list litem :=
    [Ifdef "SYS_osf_swapctl" "osf_swapctl,";
     Ifdef "SYS_osf_table" "osf_table,";
     Ifdef "SYS_osf_uadmin" "osf_uadmin,";
     Ifdef "SYS_osf_uswitch" "osf_uswitch,";
     Ifdef "SYS_osf_utc_adjtime" "osf_utc_adjtime,";
     Ifdef "SYS_osf_utc_gettime" "osf_utc_gettime,";
     Ifdef "SYS_osf_waitid" "osf_waitid,";
     Ifdef "SYS_perfctr" "perfctr,";
     Ifdef "SYS_prof" "prof,";
     Ifdef "SYS_profil" "profil,";
     Ifdef "SYS_putpmsg" "putpmsg,";
     Ifdef "SYS_query_module" "query_module,";
     Ifdef "SYS_remap_file_pages" "remap_file_pages,";
     Ifdef "SYS_security" "security,";
     Ifdef "SYS_settimeofday" "settimeofday,";
     Ifdef "SYS_sgetmask" "sgetmask,";
     Ifdef "SYS_spill" "spill,";
     Ifdef "SYS_ssetmask" "ssetmask,";
     Ifdef "SYS_stime" "stime,";
     Ifdef "SYS_stty" "stty,";
     Ifdef "SYS_sysfs" "sysfs,";
     Ifdef "SYS_timerfd" "timerfd,";
     Ifdef "SYS_tkill" "tkill,";
     Ifdef "SYS_tuxcall" "tuxcall,";
     Ifdef "SYS_ulimit" "ulimit,";
     Ifdef "SYS_uselib" "uselib,";
     Ifdef "SYS_ustat" "ustat,";
     Ifdef "SYS_utime" "utime,";
     Ifdef "SYS_vserver" "vserver,";
     Ifdef "SYS_xtensa" "xtensa,";
     Lit "__dummy_syscall__"].

Definition group_obsolete : SyscallGroupList :=
  Group "@obsolete"
    "Deprecated or very old arch-specific legacy syscalls."
    (group_obsolete_items_1 ++ group_obsolete_items_2 ++ group_obsolete_items_3).

Definition group_privileged : SyscallGroupList :=
  Group "@privileged"
    "Highly privileged operations: IDs, mounts, modules, raw I/O, reboot, etc."
    [Lit "@chown,";
     Lit "@clock,";
     Lit "@module,";
     Lit "@raw-io,";
     Lit "@reboot,";
     Lit "@swap,";
     Ifdef "SYS__sysctl" "_sysctl,";
     Ifdef "SYS_acct" "acct,";
     Ifdef "SYS_bpf" "bpf,";
     Ifdef "SYS_capset" "capset,";
     Ifdef "SYS_chroot" "chroot,";
     Ifdef "SYS_fanotify_init" "fanotify_init,";
     Ifdef "SYS_fchroot" "fchroot,";
     Ifdef "SYS_mount" "mount,";
     Ifdef "SYS_nfsservctl" "nfsservctl,";
     Ifdef "SYS_open_by_handle_at" "open_by_handle_at,";
     Ifdef "SYS_pivot_root" "pivot_root,";
     Ifdef "SYS_quotactl" "quotactl,";
     Ifdef "SYS_setdomainname" "setdomainname,";
     Ifdef "SYS_setfsuid" "setfsuid,";
     Ifdef "SYS_setfsuid32" "setfsuid32,";
     Ifdef "SYS_setgroups" "setgroups,";
     Ifdef "SYS_setgroups32" "setgroups32,";
     Ifdef "SYS_sethostname" "sethostname,";
     Ifdef "SYS_setresuid" "setresuid,";
     Ifdef "SYS_setresuid32" "setresuid32,";
     Ifdef "SYS_setreuid" "setreuid,";
     Ifdef "SYS_setreuid32" "setreuid32,";
     Ifdef "SYS_setuid" "setuid,";
     Ifdef "SYS_setuid32" "setuid32,";
     Ifdef "SYS_umount2" "umount2,";
     Ifdef "SYS_vhangup" "vhangup,";
     Lit "__dummy_syscall__"].

Definition group_process_items_1 : list litem :=
    [Ifdef "SYS_arc_gettls" "arc_gettls,";
     Ifdef "SYS_arc_settls" "arc_settls,";
     Ifdef "SYS_arc_usr_cmpxchg" "arc_usr_cmpxchg,";
     Ifdef "SYS_atomic_barrier" "atomic_barrier,";
     Ifdef "SYS_atomic_cmpxchg_32" "atomic_cmpxchg_32,";
     Ifdef "SYS_cachectl" "cachectl,";
     Ifdef "SYS_cacheflush" "cacheflush,";
     Ifdef "SYS_capget" "capget,";
     Ifdef "SYS_clone" "clone,";
     Ifdef "SYS_clone3" "clone3,";
     Ifdef "SYS_exit_group" "exit_group,";
     Ifdef "SYS_fork" "fork,";
     Ifdef "SYS_futex_requeue" "futex_requeue,";
     Ifdef "SYS_futex_time64" "futex_time64,";
     Ifdef "SYS_futex_wait" "futex_wait,";
     Ifdef "SYS_futex_waitv" "futex_waitv,";
     Ifdef "SYS_futex_wake" "futex_wake,";
     Ifdef "SYS_get_robust_list" "get_robust_list,";
     Ifdef "SYS_get_thread_area" "get_thread_area,";
     Ifdef "SYS_getegid" "getegid,";
     Ifdef "SYS_getegid32" "getegid32,";
     Ifdef "SYS_geteuid" "geteuid,";
     Ifdef "SYS_geteuid32" "geteuid32,";
     Ifdef "SYS_getgid" "getgid,";
     Ifdef "SYS_getgid32" "getgid32,";
     Ifdef "SYS_getgroups" "getgroups,";
     Ifdef "SYS_getgroups32" "getgroups32,";
     Ifdef "SYS_getpgid" "getpgid,";
     Ifdef "SYS_getpgrp" "getpgrp,";
     Ifdef "SYS_getpid" "getpid,";
     Ifdef "SYS_getppid" "getppid,";
     Ifdef "SYS_getresgid" "getresgid,";
     Ifdef "SYS_getresgid32" "getresgid32,";
     Ifdef "SYS_getresuid" "getresuid,";
     Ifdef "SYS_getresuid32" "getresuid32,";
     Ifdef "SYS_getsid" "getsid,";
     Ifdef "SYS_gettid" "gettid,";
     Ifdef "SYS_getuid" "getuid,";
     Ifdef "SYS_getuid32" "getuid32,";
     Ifdef "SYS_getxgid" "getxgid,";
     Ifdef "SYS_getxpid" "getxpid,";
     Ifdef "SYS_getxuid" "getxuid,";
     Ifdef "SYS_kill" "kill,";
     Ifdef "SYS_membarrier" "membarrier,";
     Ifdef "SYS_or1k_atomic" "or1k_atomic,";
     Ifdef "SYS_osf_set_program_attributes" "osf_set_program_attributes,";
     Ifdef "SYS_osf_wait4" "osf_wait4,";
     Ifdef "SYS_pidfd_open" "pidfd_open,";
     Ifdef "SYS_pidfd_send_signal" "pidfd_send_signal,"].

Definition group_process_items_2 : list litem :=
    [Ifdef "SYS_riscv_flush_icache" "riscv_flush_icache,";
     Ifdef "SYS_rseq" "rseq,";
     Ifdef "SYS_rseq_slice_yield" "rseq_slice_yield,";
     Ifdef "SYS_rt_sigqueueinfo" "rt_sigqueueinfo,";
     Ifdef "SYS_rt_tgsigqueueinfo" "rt_tgsigqueueinfo,";
     Ifdef "SYS_s390_guarded_storage" "s390_guarded_storage,";
     Ifdef "SYS_sched_get_affinity" "sched_get_affinity,";
     Ifdef "SYS_set_robust_list" "set_robust_list,";
     Ifdef "SYS_set_thread_area" "set_thread_area,";
     Ifdef "SYS_set_tid_address" "set_tid_address,";
     Ifdef "SYS_sethae" "sethae,";
     Ifdef "SYS_setns" "setns,";
     Ifdef "SYS_setpgrp" "setpgrp,";
     Ifdef "SYS_setpriority" "setpriority,";
     Ifdef "SYS_spu_create" "spu_create,";
     Ifdef "SYS_spu_run" "spu_run,";
     Ifdef "SYS_swapcontext" "swapcontext,";
     Ifdef "SYS_tgkill" "tgkill,";
     Ifdef "SYS_times" "times,";
     Ifdef "SYS_unshare" "unshare,";
     Ifdef "SYS_utimensat_time64" "utimensat_time64,";
     Ifdef "SYS_vfork" "vfork,";
     Ifdef "SYS_wait4" "wait4,";
     Ifdef "SYS_waitid" "waitid,";
     Ifdef "SYS_waitpid" "waitpid,";
     Lit "__dummy_syscall__"].

Definition group_process : SyscallGroupList :=
  Group "@process"
    "Process and thread lifecycle, IDs, signals sending, namespaces and futex-related helpers."
    (group_process_items_1 ++ group_process_items_2).

Definition group_program_keep : SyscallGroupList :=
  Group "@program-keep"
    "Some system calls commonly invoked by programs, blocking them can cause widespread breakage."
    [Ifdef "SYS_arch_prctl" "arch_prctl,";
     Ifdef "SYS_clock_getres" "clock_getres,";
     Ifdef "SYS_clock_getres_time64" "clock_getres_time64,";
     Ifdef "SYS_clock_gettime" "clock_gettime,";
     Ifdef "SYS_clock_gettime64" "clock_gettime64,";
     Ifdef "SYS_clock_nanosleep" "clock_nanosleep,";
     Ifdef "SYS_clock_nanosleep_time64" "clock_nanosleep_time64,";
     Ifdef "SYS_exit" "exit,";
     Ifdef "SYS_futex" "futex,";
     Ifdef "SYS_gettimeofday" "gettimeofday,";
     Ifdef "SYS_mmap" "mmap,";
     Ifdef "SYS_mmap2" "mmap2,";
     Ifdef "SYS_mprotect" "mprotect,";
     Ifdef "SYS_time" "time,";
     Lit "__dummy_syscall__"].

Definition group_raw_io : SyscallGroupList :=
  Group "@raw-io"
    "Direct port/PCI and low-level device I/O."
    [Ifdef "SYS_ioperm" "ioperm,";
     Ifdef "SYS_iopl" "iopl,";
     Ifdef "SYS_pciconfig_iobase" "pciconfig_iobase,";
     Ifdef "SYS_pciconfig_read" "pciconfig_read,";
     Ifdef "SYS_pciconfig_write" "pciconfig_write,";
     Ifdef "SYS_s390_pci_mmio_read" "s390_pci_mmio_read,";
     Ifdef "SYS_s390_pci_mmio_write" "s390_pci_mmio_write,";
     Lit "__dummy_syscall__"].

Definition group_reboot : SyscallGroupList :=
  Group "@reboot"
    "Reboot and kexec-related operations."
    [Ifdef "SYS_kexec_file_load" "kexec_file_load,";
     Ifdef "SYS_kexec_load" "kexec_load,";
     Ifdef "SYS_reboot" "reboot,";
     Lit "__dummy_syscall__"].

Definition group_resources : SyscallGroupList :=
  Group "@resources"
    "Resource limits, priorities, CPU affinity and NUMA memory policies."
    [Ifdef "SYS_getdtablesize" "getdtablesize,";
     Ifdef "SYS_getrlimit" "getrlimit,";
     Ifdef "SYS_getrusage" "getrusage,";
     Ifdef "SYS_ioprio_set" "ioprio_set,";
     Ifdef "SYS_mbind" "mbind,";
     Ifdef "SYS_migrate_pages" "migrate_pages,";
     Ifdef "SYS_mincore" "mincore,";
     Ifdef "SYS_move_pages" "move_pages,";
     Ifdef "SYS_nice" "nice,";
     Ifdef "SYS_osf_getrusage" "osf_getrusage,";
     Ifdef "SYS_prlimit64" "prlimit64,";
     Ifdef "SYS_sched_set_affinity" "sched_set_affinity,";
     Ifdef "SYS_sched_setaffinity" "sched_setaffinity,";
     Ifdef "SYS_sched_setattr" "sched_setattr,";
     Ifdef "SYS_sched_setparam" "sched_setparam,";
     Ifdef "SYS_sched_setscheduler" "sched_setscheduler,";
     Ifdef "SYS_set_mempolicy" "set_mempolicy,";
     Ifdef "SYS_set_mempolicy_home_node" "set_mempolicy_home_node,";
     Ifdef "SYS_setrlimit" "setrlimit,";
     Ifdef "SYS_set_ugetrlimit" "ugetrlimit,";
     Lit "__dummy_syscall__"].

Definition group_sandbox : SyscallGroupList :=
  Group "@sandbox"
    "Seccomp and Landlock sandbox configuration syscalls."
    [Ifdef "SYS_landlock_add_rule" "landlock_add_rule,";
     Ifdef "SYS_landlock_create_ruleset" "landlock_create_ruleset,";
     Ifdef "SYS_landlock_restrict_self" "landlock_restrict_self,";
     Ifdef "SYS_seccomp" "seccomp,";
     Lit "__dummy_syscall__"].

Definition group_setuid : SyscallGroupList :=
  Group "@setuid"
    "Change user and group IDs."
    [Ifdef "SYS_setgid" "setgid,";
     Ifdef "SYS_setgid32" "setgid32,";
     Ifdef "SYS_setgroups" "setgroups,";
     Ifdef "SYS_setgroups32" "setgroups32,";
     Ifdef "SYS_setregid" "setregid,";
     Ifdef "SYS_setregid32" "setregid32,";
     Ifdef "SYS_setresgid" "setresgid,";
     Ifdef "SYS_setresgid32" "setresgid32,";
     Ifdef "SYS_setresuid" "setresuid,";
     Ifdef "SYS_setresuid32" "setresuid32,";
     Ifdef "SYS_setreuid" "setreuid,";
     Ifdef "SYS_setreuid32" "setreuid32,";
     Ifdef "SYS_setuid" "setuid,";
     Ifdef "SYS_setuid32" "setuid32,";
     Lit "__dummy_syscall__"].

Definition group_signal : SyscallGroupList :=
  Group "@signal"
    "Signal handling, masks, signal delivery and signalfd-based interfaces."
    [Ifdef "SYS_osf_sigprocmask" "osf_sigprocmask,";
     Ifdef "SYS_osf_sigstack" "osf_sigstack,";
     Ifdef "SYS_pause" "pause,";
     Ifdef "SYS_restart_syscall" "restart_syscall,";
     Ifdef "SYS_rt_sigaction" "rt_sigaction,";
     Ifdef "SYS_rt_sigpending" "rt_sigpending,";
     Ifdef "SYS_rt_sigprocmask" "rt_sigprocmask,";
     Ifdef "SYS_rt_sigreturn" "rt_sigreturn,";
     Ifdef "SYS_rt_sigsuspend" "rt_sigsuspend,";
     Ifdef "SYS_rt_sigtimedwait" "rt_sigtimedwait,";
     Ifdef "SYS_rt_sigtimedwait_time64" "rt_sigtimedwait_time64,";
     Ifdef "SYS_sigaction" "sigaction,";
     Ifdef "SYS_sigaltstack" "sigaltstack,";
     Ifdef "SYS_signal" "signal,";
     Ifdef "SYS_signalfd" "signalfd,";
     Ifdef "SYS_signalfd4" "signalfd4,";
     Ifdef "SYS_sigpending" "sigpending,";
     Ifdef "SYS_sigprocmask" "sigprocmask,";
     Ifdef "SYS_sigreturn" "sigreturn,";
     Ifdef "SYS_sigsuspend" "sigsuspend,";
     Ifdef "SYS_utrap_install" "utrap_install,";
     Lit "__dummy_syscall__"].

Definition group_swap : SyscallGroupList :=
  Group "@swap"
    "Enable and disable swap devices and partitions."
    [Ifdef "SYS_osf_swapon" "osf_swapon,";
     Ifdef "SYS_swapoff" "swapoff,";
     Ifdef "SYS_swapon" "swapon,";
     Lit "__dummy_syscall__"].

Definition group_sync : SyscallGroupList :=
  Group "@sync"
    "Synchronize file data and memory mappings to storage."
    [Ifdef "SYS_arm_sync_file_range" "arm_sync_file_range,";
     Ifdef "SYS_fdatasync" "fdatasync,";
     Ifdef "SYS_fsync" "fsync,";
     Ifdef "SYS_msync" "msync,";
     Ifdef "SYS_sync" "sync,";
     Ifdef "SYS_sync_file_range" "sync_file_range,";
     Ifdef "SYS_sync_file_range2" "sync_file_range2,";
     Ifdef "SYS_syncfs" "syncfs,";
     Lit "__dummy_syscall__"].

Definition group_system_service_items_1 : list litem :=
    [Lit "@aio,";
     Lit "@basic-io,";
     Lit "@chown,";
     Lit "@default,";
     Lit "@file-system,";
     Lit "@io-event,";
     Lit "@ipc,";
     Lit "@keyring,";
     Lit "@memfd,";
     Lit "@memlock,";
     Lit "@network-io,";
     Lit "@process,";
     Lit "@resources,";
     Lit "@sandbox,";
     Lit "@setuid,";
     Lit "@signal,";
     Lit "@sync,";
     Lit "@timer,";
     Ifdef "SYS_arm_fadvise64_64" "arm_fadvise64_64,";
     Ifdef "SYS_brk" "brk,";
     Ifdef "SYS_capget" "capget,";
     Ifdef "SYS_capset" "capset,";
     Ifdef "SYS_copy_file_range" "copy_file_range,";
     Ifdef "SYS_fadvise64" "fadvise64,";
     Ifdef "SYS_fadvise64_64" "fadvise64_64,";
     Ifdef "SYS_flock" "flock,";
     Ifdef "SYS_get_mempolicy" "get_mempolicy,";
     Ifdef "SYS_getcpu" "getcpu,";
     Ifdef "SYS_getdomainname" "getdomainname,";
     Ifdef "SYS_gethostname" "gethostname,";
     Ifdef "SYS_getpagesize" "getpagesize,";
     Ifdef "SYS_getpriority" "getpriority,";
     Ifdef "SYS_getrandom" "getrandom,";
     Ifdef "SYS_ioctl" "ioctl,";
     Ifdef "SYS_ioprio_get" "ioprio_get,";
     Ifdef "SYS_kcmp" "kcmp,";
     Ifdef "SYS_kern_features" "kern_features,";
     Ifdef "SYS_listns" "listns,";
     Ifdef "SYS_lsm_get_self_attr" "lsm_get_self_attr,";
     Ifdef "SYS_lsm_list_modules" "lsm_list_modules,";
     Ifdef "SYS_lsm_set_self_attr" "lsm_set_self_attr,";
     Ifdef "SYS_madvise" "madvise,";
     Ifdef "SYS_map_shadow_stack" "map_shadow_stack,";
     Ifdef "SYS_memory_ordering" "memory_ordering,";
     Ifdef "SYS_mremap" "mremap,";
     Ifdef "SYS_mseal" "mseal,";
     Ifdef "SYS_name_to_handle_at" "name_to_handle_at,";
     Ifdef "SYS_oldolduname" "oldolduname,";
     Ifdef "SYS_olduname" "olduname,";
     Ifdef "SYS_osf_getdomainname" "osf_getdomainname,";
     Ifdef "SYS_osf_getsysinfo" "osf_getsysinfo,";
     Ifdef "SYS_osf_setsysinfo" "osf_setsysinfo,";
     Ifdef "SYS_osf_syscall" "osf_syscall,";
     Ifdef "SYS_osf_sysinfo" "osf_sysinfo,";
     Ifdef "SYS_osf_utsname" "osf_utsname,";
     Ifdef "SYS_personality" "personality,";
     Ifdef "SYS_pkey_alloc" "pkey_alloc,";
     Ifdef "SYS_pkey_free" "pkey_free,";
     Ifdef "SYS_pkey_mprotect" "pkey_mprotect,";
     Ifdef "SYS_readahead" "readahead,";
     Ifdef "SYS_readdir" "readdir,"].

Definition group_system_service_items_2 : list litem :=
    [Ifdef "SYS_riscv_hwprobe" "riscv_hwprobe,";
     Ifdef "SYS_s390_sthyi" "s390_sthyi,";
     Ifdef "SYS_sched_get_priority_max" "sched_get_priority_max,";
     Ifdef "SYS_sched_get_priority_min" "sched_get_priority_min,";
     Ifdef "SYS_sched_getaffinity" "sched_getaffinity,";
     Ifdef "SYS_sched_getattr" "sched_getattr,";
     Ifdef "SYS_sched_getparam" "sched_getparam,";
     Ifdef "SYS_sched_getscheduler" "sched_getscheduler,";
     Ifdef "SYS_sched_rr_get_interval" "sched_rr_get_interval,";
     Ifdef "SYS_sched_rr_get_interval_time64" "sched_rr_get_interval_time64,";
     Ifdef "SYS_sched_yield" "sched_yield,";
     Ifdef "SYS_sendfile" "sendfile,";
     Ifdef "SYS_sendfile64" "sendfile64,";
     Ifdef "SYS_setfsgid" "setfsgid,";
     Ifdef "SYS_setfsgid32" "setfsgid32,";
     Ifdef "SYS_setfsuid" "setfsuid,";
     Ifdef "SYS_setfsuid32" "setfsuid32,";
     Ifdef "SYS_setpgid" "setpgid,";
     Ifdef "SYS_setsid" "setsid,";
     Ifdef "SYS_splice" "splice,";
     Ifdef "SYS_syscall" "syscall,";
     Ifdef "SYS_sysinfo" "sysinfo,";
     Ifdef "SYS_sysmips" "sysmips,";
     Ifdef "SYS_tee" "tee,";
     Ifdef "SYS_umask" "umask,";
     Ifdef "SYS_uname" "uname,";
     Ifdef "SYS_userfaultfd" "userfaultfd,";
     Ifdef "SYS_vmsplice" "vmsplice,";
     Lit "__dummy_syscall__"].

Definition group_system_service : SyscallGroupList :=
  Group "@system-service"
    "Extended system call set focusing on the user (program)."
    (group_system_service_items_1 ++ group_system_service_items_2).

Definition group_timer : SyscallGroupList :=
  Group "@timer"
    "Timers, sleeps and interval operations."
    [Ifdef "SYS_alarm" "alarm,";
     Ifdef "SYS_getitimer" "getitimer,";
     Ifdef "SYS_nanosleep" "nanosleep,";
     Ifdef "SYS_osf_getitimer" "osf_getitimer,";
     Ifdef "SYS_osf_setitimer" "osf_setitimer,";
     Ifdef "SYS_osf_usleep_thread" "osf_usleep_thread,";
     Ifdef "SYS_setitimer" "setitimer,";
     Ifdef "SYS_timer_create" "timer_create,";
     Ifdef "SYS_timer_delete" "timer_delete,";
     Ifdef "SYS_timer_getoverrun" "timer_getoverrun,";
     Ifdef "SYS_timer_gettime" "timer_gettime,";
     Ifdef "SYS_timer_gettime64" "timer_gettime64,";
     Ifdef "SYS_timer_settime" "timer_settime,";
     Ifdef "SYS_timer_settime64" "timer_settime64,";
     Ifdef "SYS_timerfd_create" "timerfd_create,";
     Ifdef "SYS_timerfd_gettime" "timerfd_gettime,";
     Ifdef "SYS_timerfd_gettime64" "timerfd_gettime64,";
     Ifdef "SYS_timerfd_settime" "timerfd_settime,";
     Ifdef "SYS_timerfd_settime64" "timerfd_settime64,";
     Ifdef "SYS_times" "times,";
     Lit "__dummy_syscall__"].

Definition sysgroups : list SyscallGroupList :=
  [group_aio;
   group_basic_io;
   group_chown;
   group_clock;
   group_cpu_emulation;
   group_debug;
   group_default;
   group_default_keep;
   group_default_nodebuggers;
   group_file_system;
   group_io_event;
   group_ipc;
   group_keyring;
   group_memfd;
   group_memlock;
   group_module;
   group_mount;
   group_network_io;
   group_obsolete;
   group_privileged;
   group_process;
   group_program_keep;
   group_raw_io;
   group_reboot;
   group_resources;
   group_sandbox;
   group_setuid;
   group_signal;
   group_swap;
   group_sync;
   group_system_service;
   group_timer].
