(* ===== verification/FilterFile.v ===== *)
(** * Filter files: the process state of fseccomp, its system calls, and seccomp_file.c

    fseccomp builds a filter by writing [struct sock_filter] records to a file
    descriptor.  The state is the global error action, the open descriptors and
    the contents of the files, in bytes.  The results of open(2) and write(2)
    are the parameters of the class [OS]; [OSLaws] states what their manual
    pages promise for a process whose descriptors 0, 1 and 2 are open and which
    writes to a regular file. *)

From S2P Require Import Prelude.
From S2P Require Import Bpf.

(** ** Bytes of a filter on a little-endian machine *)

Fixpoint le_bytes (n : nat) (z : Z) : list Z :=
  match n with
  | O => []
  | S n' => z mod 256 :: le_bytes n' (z / 256)
  end.

Fixpoint le_value (l : list Z) : Z :=
  match l with
  | [] => 0
  | b :: l' => b + 256 * le_value l'
  end.

(** The 8 bytes of a [struct sock_filter]: [__u16], [__u8], [__u8], [__u32]. *)
Definition enc_sock (s : sock_filter) : list Z :=
  le_bytes 2 (code s) ++ le_bytes 1 (jt s) ++ le_bytes 1 (jf s) ++ le_bytes 4 (k s).

Definition enc (p : list sock_filter) : list Z := flat_map enc_sock p.

(** An array of [struct sock_filter] over a byte array; a trailing fragment is
    not a record. *)
Fixpoint dec (bytes : list Z) : list sock_filter :=
  match bytes with
  | c0 :: c1 :: t :: f :: k0 :: k1 :: k2 :: k3 :: rest =>
      Sock (le_value [c0; c1]) (le_value [t]) (le_value [f]) (le_value [k0; k1; k2; k3])
      :: dec rest
  | _ => []
  end.

(** The members are in the range of their C types. *)
Definition wf_sock (s : sock_filter) : Prop :=
  0 <= code s < 2 ^ 16 /\ 0 <= jt s < 2 ^ 8 /\ 0 <= jf s < 2 ^ 8 /\ 0 <= k s < 2 ^ 32.

(** ** System calls *)

Class OS := {
  os_open : string -> Z;
  os_write : Z -> list Z -> Z
}.

Class OSLaws `{KOS : OS} : Prop := {
  os_open_fresh f : 2 < os_open f;
  os_write_progress fd b : b <> [] -> 0 < os_write fd b <= Z.of_nat (length b)
}.

Record world := World {
  w_action : Z;                  (* arg_seccomp_error_action *)
  w_fds : gmap Z string;         (* open descriptors *)
  w_files : gmap string (list Z) (* file contents *)
}.

Definition M (A : Type) : Type := CM world A.

Definition set_action (a : Z) (w : world) : world := World a (w_fds w) (w_files w).

Section Model.
Context `{KOS : OS}.

(** open(fname, O_CREAT|O_WRONLY|O_TRUNC, ...) *)
Definition sys_open (fname : string) : M Z :=
  fun w =>
    let fd := os_open fname in
    if fd <? 0 then (Ok fd, w)
    else (Ok fd, World (w_action w) (<[fd := fname]> (w_fds w)) (<[fname := []]> (w_files w))).

Definition sys_close (fd : Z) : M unit :=
  cmodify (fun w => World (w_action w) (delete fd (w_fds w)) (w_files w)).

(** write(fd, buf, count): -1 on a descriptor that is not open. *)
Definition sys_write (fd : Z) (buf : list Z) : M Z :=
  fun w =>
    match w_fds w !! fd with
    | None => (Ok (-1), w)
    | Some f =>
        let rv := os_write fd buf in
        if rv =? -1 then (Ok (-1), w)
        else (Ok rv,
              World (w_action w) (w_fds w)
                (<[f := default [] (w_files w !! f) ++ take (Z.to_nat rv) buf]> (w_files w)))
    end.

(** The loop of [write_to_file]; one unit of fuel per call of write(2). *)
Fixpoint write_loop (fuel : nat) (fd : Z) (data : list Z) (written size : Z) : M unit :=
  if written <? size then
    match fuel with
    | O => cnofuel
    | S fuel' =>
        rv <~ sys_write fd (drop (Z.to_nat written) data) ;;
        if rv =? -1 then cexit 1
        else write_loop fuel' fd data (written + rv) size
    end
  else cret tt.

Definition write_to_file (fd : Z) (data : list Z) : M unit :=
  let size := Z.of_nat (length data) in
  cassert (negb (size =? 0)) ;;;
  write_loop (length data) fd data 0 size.

(** ** src/fseccomp/seccomp_file.c *)

Definition filter_native (act : Z) : list sock_filter :=
  VALIDATE_ARCHITECTURE ++ EXAMINE_SYSCALL ++ HANDLE_X32 act.
Definition filter_32 : list sock_filter :=
  VALIDATE_ARCHITECTURE_32 ++ EXAMINE_SYSCALL.

Definition filter_init (fd : Z) (native : bool) : M unit :=
  w <~ cget ;;
  if native then write_to_file fd (enc (filter_native (w_action w)))
  else write_to_file fd (enc filter_32).

Definition write_whitelist (fd syscall : Z) : M unit :=
  write_to_file fd (enc (WHITELIST syscall)).

Definition write_blacklist (fd syscall : Z) : M unit :=
  w <~ cget ;; write_to_file fd (enc (BLACKLIST (w_action w) syscall)).

(** Callbacks: descriptor, syscall, argument, the object [ptrarg] points to,
    native; they return the object as they leave it. *)
Definition filter_fn (P : Type) : Type := Z -> Z -> Z -> P -> bool -> M P.

Definition filter_add_whitelist {P} : filter_fn P := fun fd syscall arg ptrarg native =>
  (if 0 <=? syscall then write_whitelist fd syscall else cret tt) ;;; cret ptrarg.

Definition filter_add_whitelist_for_excluded {P} : filter_fn P :=
  fun fd syscall arg ptrarg native =>
    (if syscall <? 0 then write_whitelist fd (Z.lnot syscall) else cret tt) ;;; cret ptrarg.

Definition filter_add_blacklist {P} : filter_fn P := fun fd syscall arg ptrarg native =>
  (if 0 <=? syscall then write_blacklist fd syscall else cret tt) ;;; cret ptrarg.

Definition filter_add_blacklist_override {P} : filter_fn P :=
  fun fd syscall arg ptrarg native =>
    (if 0 <=? syscall then
       w <~ cget ;;
       let saved_error_action := w_action w in
       cmodify (set_action arg) ;;;
       write_blacklist fd syscall ;;;
       cmodify (set_action saved_error_action)
     else cret tt) ;;; cret ptrarg.

Definition filter_add_blacklist_for_excluded {P} : filter_fn P :=
  fun fd syscall arg ptrarg native =>
    (if syscall <? 0 then write_blacklist fd (Z.lnot syscall) else cret tt) ;;; cret ptrarg.

Definition filter_add_errno {P} : filter_fn P := fun fd syscall arg ptrarg native =>
  write_to_file fd (enc (BLACKLIST_ERRNO syscall arg)) ;;; cret ptrarg.

Definition filter_end_blacklist (fd : Z) : M unit := write_to_file fd (enc RETURN_ALLOW).

Definition filter_end_whitelist (fd : Z) : M unit :=
  w <~ cget ;; write_to_file fd (enc (KILL_OR_RETURN_ERRNO (w_action w))).
End Model.

(** ** Loading a filter file (seccomp_load, main of fsec-optimize)

    The size in bytes is cut to 16 bits before it is divided by the size of a
    record, so a file of 64 KiB or more is not loaded whole. *)

Definition load_entries (bytes : list Z) : Z := u16 (u16 (Z.of_nat (length bytes)) / 8).

Definition load_filter (bytes : list Z) : list sock_filter :=
  take (Z.to_nat (load_entries bytes)) (dec bytes).

(** ** Bytes: lemmas *)

Lemma le_value_bytes n z : 0 <= z < 256 ^ Z.of_nat n -> le_value (le_bytes n z) = z.
Proof.
  revert z. induction n as [|n IH]; intros z Hz; simpl; [simpl in Hz; lia|].
  rewrite IH.
  - pose proof (Z.div_mod z 256). lia.
  - rewrite Nat2Z.inj_succ, Z.pow_succ_r in Hz by lia.
    split; [apply Z.div_pos; lia|]. apply Z.div_lt_upper_bound; lia.
Qed.

Lemma length_enc_sock s : length (enc_sock s) = 8%nat.
Proof. reflexivity. Qed.

Lemma length_enc p : length (enc p) = (8 * length p)%nat.
Proof.
  induction p as [|s p IH]; [done|].
  change (enc (s :: p)) with (enc_sock s ++ enc p).
  rewrite length_app, length_enc_sock, IH. simpl. lia.
Qed.

Lemma enc_app p q : enc (p ++ q) = enc p ++ enc q.
Proof. apply flat_map_app. Qed.

Lemma enc_nil p : enc p = [] -> p = [].
Proof. intros H. apply (f_equal length) in H. rewrite length_enc in H. destruct p; [done|simpl in H; lia]. Qed.

Lemma dec_enc_cons s p : wf_sock s -> dec (enc (s :: p)) = s :: dec (enc p).
Proof.
  intros (Hc & Ht & Hf & Hk). destruct s as [c t f q]; simpl in *.
  change (enc (Sock c t f q :: p)) with (enc_sock (Sock c t f q) ++ enc p).
  pose proof (le_value_bytes 2 c Hc) as E1. pose proof (le_value_bytes 1 t Ht) as E2.
  pose proof (le_value_bytes 1 f Hf) as E3. pose proof (le_value_bytes 4 q Hk) as E4.
  transitivity (Sock (le_value (le_bytes 2 c)) (le_value (le_bytes 1 t))
                     (le_value (le_bytes 1 f)) (le_value (le_bytes 4 q)) :: dec (enc p));
    [reflexivity|by rewrite E1, E2, E3, E4].
Qed.

Lemma dec_enc p : Forall wf_sock p -> dec (enc p) = p.
Proof.
  induction 1 as [|s p Hs Hp IH]; [done|]. by rewrite dec_enc_cons, IH.
Qed.

Lemma wf_BPF_JUMP c q t f : wf_sock (BPF_JUMP c q t f).
Proof.
  repeat split; simpl; try apply u16_range; try apply u8_range; try apply u32_range.
Qed.

#[export] Hint Resolve wf_BPF_JUMP : bpf.

(** ** Writing: the effect of the operations on the state *)

(** The state after the records of [p] were appended to the file open on [fd]. *)
Definition emit (fd : Z) (p : list sock_filter) (w : world) : world :=
  match w_fds w !! fd with
  | Some f =>
      World (w_action w) (w_fds w) (<[f := default [] (w_files w !! f) ++ enc p]> (w_files w))
  | None => w
  end.

Definition is_open (fd : Z) (w : world) : Prop :=
  exists f, w_fds w !! fd = Some f /\ is_Some (w_files w !! f).

Lemma is_open_emit fd fd' p w : is_open fd w -> is_open fd (emit fd' p w).
Proof.
  intros (f & Hf & Hs). exists f. unfold emit.
  destruct (w_fds w !! fd') as [f'|]; simpl; [|done]. split; [done|].
  destruct (decide (f = f')) as [->|Hn].
  - rewrite lookup_insert_eq. eauto.
  - by rewrite lookup_insert_ne.
Qed.

Lemma action_emit fd p w : w_action (emit fd p w) = w_action w.
Proof. unfold emit. by destruct (w_fds w !! fd). Qed.

Lemma fds_emit fd p w : w_fds (emit fd p w) = w_fds w.
Proof. unfold emit. by destruct (w_fds w !! fd). Qed.

Lemma emit_emit fd p q w : emit fd q (emit fd p w) = emit fd (p ++ q) w.
Proof.
  unfold emit. destruct (w_fds w !! fd) as [f|] eqn:E; simpl; rewrite E; [|done].
  f_equal. rewrite insert_insert_eq, lookup_insert_eq, enc_app. simpl.
  by rewrite app_assoc.
Qed.

Lemma emit_nil fd w : is_open fd w -> emit fd [] w = w.
Proof.
  intros (f & Hf & [c Hc]). unfold emit. rewrite Hf, Hc. simpl.
  rewrite app_nil_r, insert_id by done. by destruct w.
Qed.

Lemma emit_file fd f p w c :
  w_fds w !! fd = Some f -> w_files w !! f = Some c ->
  w_files (emit fd p w) !! f = Some (c ++ enc p).
Proof. intros Hf Hc. unfold emit. rewrite Hf, Hc. simpl. apply lookup_insert_eq. Qed.

Lemma is_open_set_action fd a w : is_open fd (set_action a w) <-> is_open fd w.
Proof. done. Qed.

#[export] Hint Resolve is_open_emit : bpf.
#[export] Hint Rewrite action_emit fds_emit emit_emit : bpf.

Section WriteLemmas.
Context `{KOS : OS} {OL : OSLaws}.

Lemma sys_write_ok fd f c buf w :
  w_fds w !! fd = Some f -> w_files w !! f = Some c -> buf <> [] ->
  sys_write fd buf w =
  (Ok (os_write fd buf),
   World (w_action w) (w_fds w)
     (<[f := c ++ take (Z.to_nat (os_write fd buf)) buf]> (w_files w))).
Proof.
  intros Hf Hc Hb. unfold sys_write. rewrite Hf, Hc.
  pose proof (os_write_progress fd buf Hb).
  destruct (Z.eqb_spec (os_write fd buf) (-1)); [lia|done].
Qed.

(** The loop writes what is left of the data, however the kernel cuts it. *)
Lemma write_loop_ok fuel fd f data written c w :
  w_fds w !! fd = Some f -> w_files w !! f = Some c ->
  0 <= written <= Z.of_nat (length data) ->
  Z.of_nat (length data) - written <= Z.of_nat fuel ->
  write_loop fuel fd data written (Z.of_nat (length data)) w =
  (Ok tt,
   World (w_action w) (w_fds w) (<[f := c ++ drop (Z.to_nat written) data]> (w_files w))).
Proof.
  revert written c w. induction fuel as [|fuel IH]; intros written c w Hf Hc Hw Hfuel; simpl.
  - destruct (Z.ltb_spec written (Z.of_nat (length data))); [lia|].
    rewrite drop_ge, app_nil_r, insert_id by (done || lia). by destruct w.
  - destruct (Z.ltb_spec written (Z.of_nat (length data))) as [Hlt|Hge].
    + set (buf := drop (Z.to_nat written) data).
      assert (Hb : buf <> []).
      { intros E. apply (f_equal length) in E. unfold buf in E.
        rewrite length_drop in E. simpl in E. lia. }
      erewrite cbind_ok by (by apply sys_write_ok).
      pose proof (os_write_progress fd buf Hb) as Hp.
      assert (Hl : Z.of_nat (length buf) = Z.of_nat (length data) - written).
      { unfold buf. rewrite length_drop. lia. }
      set (n := os_write fd buf) in *. clearbody n.
      destruct (Z.eqb_spec n (-1)); [lia|].
      erewrite IH with (c := c ++ take (Z.to_nat n) buf);
        [ |done|apply lookup_insert_eq|lia|lia].
      simpl. rewrite insert_insert_eq, <- app_assoc. do 4 f_equal.
      rewrite <- (take_drop (Z.to_nat n) buf) at 2.
      f_equal. unfold buf. rewrite drop_drop. f_equal. lia.
    + rewrite drop_ge, app_nil_r, insert_id by (done || lia). by destruct w.
Qed.

Lemma write_to_file_ok fd p w :
  is_open fd w -> p <> [] -> write_to_file fd (enc p) w = (Ok tt, emit fd p w).
Proof.
  intros (f & Hf & [c Hc]) Hp. unfold write_to_file.
  destruct (Z.eqb_spec (Z.of_nat (length (enc p))) 0) as [E|E].
  { exfalso. apply Hp, enc_nil. destruct (enc p); [done|simpl in E; lia]. }
  simpl. rewrite cret_bind, (write_loop_ok _ fd f (enc p) 0 c) by (done || lia).
  unfold emit. by rewrite Hf, Hc.
Qed.

Lemma filter_init_ok fd native w :
  is_open fd w ->
  filter_init fd native w =
  (Ok tt, emit fd (if native then filter_native (w_action w) else filter_32) w).
Proof.
  intros Ho. unfold filter_init. cm_step.
  by destruct native; apply write_to_file_ok.
Qed.

Lemma write_whitelist_ok fd n w :
  is_open fd w -> write_whitelist fd n w = (Ok tt, emit fd (WHITELIST n) w).
Proof. intros Ho. by apply write_to_file_ok. Qed.

Lemma write_blacklist_ok fd n w :
  is_open fd w -> write_blacklist fd n w = (Ok tt, emit fd (BLACKLIST (w_action w) n) w).
Proof. intros Ho. by apply write_to_file_ok. Qed.

Lemma filter_end_blacklist_ok fd w :
  is_open fd w -> filter_end_blacklist fd w = (Ok tt, emit fd RETURN_ALLOW w).
Proof. intros Ho. by apply write_to_file_ok. Qed.

Lemma filter_end_whitelist_ok fd w :
  is_open fd w ->
  filter_end_whitelist fd w = (Ok tt, emit fd (KILL_OR_RETURN_ERRNO (w_action w)) w).
Proof. intros Ho. by apply write_to_file_ok. Qed.
End WriteLemmas.
