(* ===== verification/Syscall.v ===== *)
(** * Syscall lists: src/lib/syscall.c

    A syscall list is a comma-separated string of names, [$number]s, groups
    ([@name]), exceptions ([!name]) and actions ([name:errno], [name:kill],
    [name:log]).  [syscall_check_list] walks it, descending into groups, and
    calls back for every system call. *)

From S2P Require Import Prelude.
From S2P Require Import Clib.
From S2P Require Import Bpf.
From S2P Require Import SyscallTables.
From S2P Require Import SyscallGroups.
From S2P Require Import FilterFile.
Local Open Scope string_scope.
Local Open Scope list_scope.
Local Open Scope Z_scope.

Definition SYSCALL_ERROR : Z := INT_MAX.
Definition ERRNO_KILL : Z := -2.
Definition ERRNO_LOG : Z := -3.

(** x86_64: the native table and the table of the 32-bit architecture. *)
Definition syslist : list SyscallEntry := syscall_x86_64.
Definition syslist32 : list SyscallEntry := syscall_i386.

Record SyscallCheckList := SCL {
  sl_slist : option string;
  sl_prelist : option string;
  sl_postlist : option string;
  sl_found : bool;
  sl_syscall : Z
}.

(** ** Lookups *)

Definition syscall_find_name (name : string) : Z :=
  match List.find (fun e => streq name (sc_name e)) syslist with
  | Some e => sc_nr e
  | None => SYSCALL_ERROR
  end.

Definition syscall_find_name_32 (name : string) : Z :=
  match List.find (fun e => streq name (sc_name e)) syslist32 with
  | Some e => sc_nr e
  | None => SYSCALL_ERROR
  end.

Definition syscall_find_nr (nr : Z) : string :=
  match List.find (fun e => nr =? sc_nr e) syslist with
  | Some e => sc_name e
  | None => "unknown"
  end.

Definition syscall_find_nr_32 (nr : Z) : string :=
  match List.find (fun e => nr =? sc_nr e) syslist32 with
  | Some e => sc_name e
  | None => "unknown"
  end.

Section Lists.
Context `{H : SysHeaders} `{KOS : OS}.

(** The string a [.list] initialiser denotes: the literals whose [#ifdef]
    holds, concatenated. *)
Definition item_text (i : litem) : string :=
  match i with
  | Lit s => s
  | Ifdef macro s => match SYS macro with Some _ => s | None => EmptyString end
  end.

Definition group_text (items : list litem) : string :=
  foldr (fun i text => item_text i +:+ text) EmptyString items.

Definition syscall_find_group (name : string) : option string :=
  match List.find (fun g => streq name (sg_name g)) sysgroups with
  | Some g => Some (group_text (sg_items g))
  | None => None
  end.

(** The syscall number and the error number of a list entry. *)
Definition syscall_process_name (name : string) (native : bool) : outcome (Z * Z) :=
  if strlen name =? 0 then Exit 1
  else
    let '(syscall_name, error_name) :=
      match strchr_split ":" name with
      | Some (l, r) => (l, Some r)
      | None => (name, None)
      end in
    if strlen syscall_name =? 0 then Exit 1
    else
      let syscall_nr :=
        match strip_prefix "$" syscall_name with
        | Some digits => s32 (strtol 0 digits).1
        | None =>
            if native then syscall_find_name syscall_name
            else syscall_find_name_32 syscall_name
        end in
      match error_name with
      | None => Ok (syscall_nr, -1)
      | Some e =>
          if streq e "kill" then Ok (syscall_nr, ERRNO_KILL)
          else if streq e "log" then Ok (syscall_nr, ERRNO_LOG)
          else
            let error_nr := errno_find_name e in
            Ok (if error_nr =? -1 then SYSCALL_ERROR else syscall_nr, error_nr)
      end.

(** What [syscall_check_list] does with one system call. *)
Definition check_syscall {P} (callback : option (filter_fn P)) (fd arg : Z) (native : bool)
    (negate : bool) (nr error_nr : Z) (ptrarg : P) : M P :=
  match callback with
  | Some cb =>
      if nr =? SYSCALL_ERROR then cret ptrarg
      else
        let syscall_nr := if negate then Z.lnot nr else nr in
        if (0 <=? error_nr) && (0 <? fd) then
          filter_add_errno fd syscall_nr error_nr ptrarg native
        else if (error_nr =? ERRNO_KILL) && (0 <? fd) then
          filter_add_blacklist_override fd syscall_nr SECCOMP_RET_KILL ptrarg native
        else if (error_nr =? ERRNO_LOG) && (0 <? fd) then
          filter_add_blacklist_override fd syscall_nr SECCOMP_RET_LOG ptrarg native
        else if (0 <=? error_nr) && (fd =? 0) then
          cb fd syscall_nr error_nr ptrarg native
        else cb fd syscall_nr arg ptrarg native
  | None => cret ptrarg
  end.

(** An entry that is not a group: [!] negates it. *)
Definition token_name (tok : string) : bool * string :=
  match strip_prefix "!" tok with
  | Some name => (true, name)
  | None => (false, tok)
  end.

(** [depth] bounds the nesting of groups; [syscall_check_list_total] shows
    that 4 is enough for every list. *)
Fixpoint syscall_check_list {P} (depth : nat) (slist : option string)
    (callback : option (filter_fn P)) (fd arg : Z) (ptrarg : P) (native : bool)
    {struct depth} : M (Z * P) :=
  match slist with
  | None => cexit 1
  | Some str =>
      if strlen str =? 0 then cexit 1
      else
        match strtok "," str, depth with
        | [], _ => cexit 1
        | _ :: _, O => cnofuel
        | toks, S depth' =>
            p <~ cfold
              (fun tok p =>
                 if has_prefix "@" tok then
                   match syscall_find_group tok with
                   | None => cexit 1
                   | Some new_list =>
                       r <~ syscall_check_list depth' (Some new_list) callback fd arg p native ;;
                       cret r.2
                   end
                 else
                   let '(negate, name) := token_name tok in
                   nr <~ clift (syscall_process_name name native) ;;
                   check_syscall callback fd arg native negate nr.1 nr.2 p)
              toks ptrarg ;;
            cret (0, p)
        end
  end.

Definition SCL_DEPTH : nat := 4.

Definition find_syscall : filter_fn SyscallCheckList := fun fd syscall arg ptr native =>
  if (if syscall <? 0 then Z.lnot syscall else syscall) =? sl_syscall ptr
  then cret (SCL (sl_slist ptr) (sl_prelist ptr) (sl_postlist ptr) true (sl_syscall ptr))
  else cret ptr.

(** [asprintf(&list, "%s,%s", old, name)], or a copy of the name. *)
Definition append_name (old : option string) (name : string) : option string :=
  match old with
  | Some l => Some (l +:+ "," +:+ name)
  | None => Some name
  end.

Definition syscall_in_list : filter_fn SyscallCheckList := fun fd syscall arg ptr native =>
  if syscall <? 0 then cret ptr
  else
    let sl := SCL None None None false syscall in
    r <~ syscall_check_list SCL_DEPTH (sl_slist ptr) (Some find_syscall) fd 0 sl native ;;
    let name := if native then syscall_find_nr syscall else syscall_find_nr_32 syscall in
    if sl_found r.2 then
      cret (SCL (sl_slist ptr) (sl_prelist ptr) (append_name (sl_postlist ptr) name)
                (sl_found ptr) (sl_syscall ptr))
    else
      let newcall := if arg =? 0 then name else name +:+ ":" +:+ errno_find_nr arg in
      cret (SCL (sl_slist ptr) (append_name (sl_prelist ptr) newcall) (sl_postlist ptr)
                (sl_found ptr) (sl_syscall ptr)).

(** [prelist] and [postlist] *)
Definition syscalls_in_list (list slist : string) (native : bool)
    : M (option string * option string) :=
  r <~ syscall_check_list SCL_DEPTH (Some list) (Some syscall_in_list) 0 0
         (SCL (Some slist) None None false 0) native ;;
  cret (sl_prelist r.2, sl_postlist r.2).
End Lists.

(** ** Unrecognised groups: is_syscall_groups_exist *)

(** The inner loop over [sysgroups] for one token; [no_match] keeps its value
    when the loop finds nothing to compare. *)
Definition group_no_match (token : string) : bool :=
  negb (existsb (fun g => streq token (sg_name g)) sysgroups).

Definition unrecognized_groups (groups_list : string) : list string :=
  List.filter (fun t => negb (streq t "@all") && group_no_match t) (strtok "," groups_list).

Definition is_syscall_groups_exist (groups_list : string) : outcome unit :=
  match unrecognized_groups groups_list with
  | [] => Ok tt
  | _ :: _ => Exit 1
  end.
