(* ===== verification/SyscallSpec.v ===== *)
(** * Syscall lists: specification and proofs

    [expand] is the abstract meaning of a syscall list: the sequence of entries
    it stands for.  [check_list_refines] shows that [syscall_check_list] is the
    loop of its callback over that sequence.  The groups are shown well formed
    for every set of kernel headers: their nesting is at most three deep, every
    group a group mentions exists, and walking a group never fails. *)

From S2P Require Import Prelude.
From S2P Require Import Clib.
From S2P Require Import Bpf.
From S2P Require Import SyscallTables.
From S2P Require Import SyscallGroups.
From S2P Require Import FilterFile.
From S2P Require Import Syscall.
Local Open Scope string_scope.
Local Open Scope list_scope.
Local Open Scope Z_scope.

Record entry := Entry { e_neg : bool; e_nr : Z; e_err : Z }.

Section Expand.
Context `{H : SysHeaders}.

Definition name_entry (native negate : bool) (name : string) : outcome (list entry) :=
  obind (syscall_process_name name native)
    (fun r => Ok (if r.1 =? SYSCALL_ERROR then [] else [Entry negate r.1 r.2])).

Fixpoint expand (depth : nat) (native : bool) (str : string) {struct depth}
    : outcome (list entry) :=
  if strlen str =? 0 then Exit 1
  else
    match strtok "," str, depth with
    | [], _ => Exit 1
    | _ :: _, O => NoFuel
    | toks, S depth' =>
        oconcat
          (fun tok =>
             if has_prefix "@" tok then
               match syscall_find_group tok with
               | None => Exit 1
               | Some new_list => expand depth' native new_list
               end
             else let '(negate, name) := token_name tok in name_entry native negate name)
          toks
    end.

Definition expand_token (depth : nat) (native : bool) (tok : string) : outcome (list entry) :=
  if has_prefix "@" tok then
    match syscall_find_group tok with
    | None => Exit 1
    | Some new_list => expand depth native new_list
    end
  else let '(negate, name) := token_name tok in name_entry native negate name.

Lemma expand_S depth native str :
  expand (S depth) native str =
  if strlen str =? 0 then Exit 1
  else match strtok "," str with
       | [] => Exit 1
       | toks => oconcat (expand_token depth native) toks
       end.
Proof. simpl. by destruct (strlen str =? 0), (strtok "," str). Qed.
End Expand.

(** ** Refinement *)

Section Refinement.
Context `{H : SysHeaders} `{KOS : OS} {P : Type}.
Context (cb : filter_fn P) (fd arg : Z) (native : bool).

Definition run_entry (e : entry) (p : P) : M P :=
  check_syscall (Some cb) fd arg native (e_neg e) (e_nr e) (e_err e) p.

Definition walk_token (depth : nat) (tok : string) (p : P) : M P :=
  if has_prefix "@" tok then
    match syscall_find_group tok with
    | None => cexit 1
    | Some new_list =>
        r <~ syscall_check_list depth (Some new_list) (Some cb) fd arg p native ;; cret r.2
    end
  else
    let '(negate, name) := token_name tok in
    nr <~ clift (syscall_process_name name native) ;;
    check_syscall (Some cb) fd arg native negate nr.1 nr.2 p.

Lemma check_list_S depth str p w :
  syscall_check_list (S depth) (Some str) (Some cb) fd arg p native w =
  if strlen str =? 0 then cexit 1 w
  else match strtok "," str with
       | [] => cexit 1 w
       | toks => (p' <~ cfold (walk_token depth) toks p ;; cret (0, p')) w
       end.
Proof. simpl. by destruct (strlen str =? 0), (strtok "," str). Qed.

(** The callback loop over the entries of [es], or the failure of [o]. *)
Definition loop_of (o : outcome (list entry)) (p : P) : M P :=
  es <~ clift o ;; cfold run_entry es p.

Lemma walk_token_ok depth tok p w es :
  (forall str p w es, expand depth native str = Ok es ->
     syscall_check_list depth (Some str) (Some cb) fd arg p native w =
     (p' <~ cfold run_entry es p ;; cret (0, p')) w) ->
  expand_token depth native tok = Ok es ->
  walk_token depth tok p w = cfold run_entry es p w.
Proof.
  intros IH. unfold expand_token, walk_token.
  destruct (has_prefix "@" tok).
  - destruct (syscall_find_group tok) as [l|]; [|done]. intros He.
    unfold cbind at 1. rewrite (IH _ _ _ _ He). unfold cbind, cret.
    by destruct (cfold run_entry es p w) as [[] ?].
  - destruct (token_name tok) as [neg name]. unfold name_entry.
    destruct (syscall_process_name name native) as [[nr er]| | |]; simpl; try done.
    rewrite clift_ok_bind. destruct (nr =? SYSCALL_ERROR) eqn:E; intros [= <-].
    + unfold check_syscall. simpl. by rewrite E.
    + by rewrite cfold_single.
Qed.

Lemma check_list_refines depth str p w es :
  expand depth native str = Ok es ->
  syscall_check_list depth (Some str) (Some cb) fd arg p native w =
  (p' <~ cfold run_entry es p ;; cret (0, p')) w.
Proof.
  revert str p w es. induction depth as [|depth IH]; intros str p w es.
  { simpl. destruct (strlen str =? 0); [done|]. by destruct (strtok "," str). }
  rewrite expand_S, check_list_S.
  destruct (strlen str =? 0); [done|].
  destruct (strtok "," str) as [|t toks]; [done|].
  intros He. apply cbind_same. revert p w es He.
  induction (t :: toks) as [|tok l IHl]; intros p w es; simpl; [by intros [= <-]|].
  destruct (expand_token depth native tok) as [es1| | |] eqn:E1; try done. simpl.
  destruct (oconcat (expand_token depth native) l) as [es2| | |] eqn:E2; try done.
  simpl. intros [= <-]. rewrite cfold_app.
  apply cbind_both.
  - by apply walk_token_ok.
  - intros p' w'. by apply IHl.
Qed.
End Refinement.

(** ** The groups, for every set of kernel headers *)

Definition lit_of (i : litem) : string :=
  match i with Lit s => s | Ifdef _ s => s end.

(** The token of a literal that ends in its comma. *)
Definition lit_token (s : string) : option string :=
  match strchr_split "," s with
  | Some (t, EmptyString) => Some t
  | _ => None
  end.

(** Every literal but the last is a token and a comma; the last is the dummy. *)
Fixpoint group_shape (items : list litem) : bool :=
  match items with
  | [] => false
  | i :: rest =>
      match rest with
      | [] => match i with Lit s => streq s "__dummy_syscall__" | Ifdef _ _ => false end
      | _ :: _ =>
          match lit_token (lit_of i) with
          | Some t => is_token "," t && group_shape rest
          | None => false
          end
      end
  end.

Definition item_token (i : litem) : string :=
  match lit_token (lit_of i) with Some t => t | None => lit_of i end.

(** A name with none of the characters the list syntax gives a meaning to. *)
Definition plain_name (t : string) : bool :=
  nonempty t && negb (string_mem ":" t)
  && negb (has_prefix "@" t) && negb (has_prefix "!" t) && negb (has_prefix "$" t).

(** The nesting of groups: how deep a walk of the group descends. *)
Definition group_rank (name : string) : nat :=
  if streq name "@default" || streq name "@privileged" then 2
  else if streq name "@default-nodebuggers" || streq name "@system-service" then 3
  else 1.

Definition find_group (name : string) : option SyscallGroupList :=
  List.find (fun g => streq name (sg_name g)) sysgroups.

Definition group_wf (g : SyscallGroupList) : bool :=
  group_shape (sg_items g)
  && forallb
       (fun i => let t := item_token i in
          plain_name t
          || match find_group t with
             | Some _ => has_prefix "@" t && (group_rank t <? group_rank (sg_name g))%nat
             | None => false
             end)
       (sg_items g).

Lemma sysgroups_wf : forallb group_wf sysgroups = true.
Proof. vm_compute. reflexivity. Qed.

Lemma sysgroups_in g : In g sysgroups -> group_wf g = true.
Proof. pose proof sysgroups_wf as W. rewrite forallb_forall in W. auto. Qed.

Lemma group_rank_range name : (1 <= group_rank name <= 3)%nat.
Proof. unfold group_rank. repeat case_match; lia. Qed.

Lemma find_group_some name g : find_group name = Some g -> In g sysgroups /\ sg_name g = name.
Proof. intros [Hi Hn]%find_some. apply streq_eq in Hn. auto. Qed.

Lemma lit_token_some s t : lit_token s = Some t -> s = t +:+ ",".
Proof.
  unfold lit_token. destruct (strchr_split "," s) as [[l r]|] eqn:E; [|done].
  destruct r; [|done]. intros [= <-]. revert l E.
  induction s as [|c s IH]; intros l; simpl; [done|].
  destruct (Ascii.eqb_spec c ","%char) as [->|Hn].
  - by intros [= <- ->].
  - destruct (strchr_split "," s) as [[l' r']|]; [|done]. intros [= <- ->].
    change (String c s = String c (l' +:+ ",")). f_equal. by apply IH.
Qed.

Section Groups.
Context `{H : SysHeaders}.

Definition included (i : litem) : bool :=
  match i with
  | Lit _ => true
  | Ifdef macro _ => match SYS macro with Some _ => true | None => false end
  end.

(** The tokens of a group's list: those of the literals the headers select. *)
Definition group_tokens (items : list litem) : list string :=
  map item_token (List.filter included items).

Lemma item_text_included i : item_text i = if included i then lit_of i else "".
Proof. destruct i as [|m s]; simpl; [done|]. by destruct (SYS m). Qed.

Lemma group_tokens_cons i rest :
  group_tokens (i :: rest) = (if included i then [item_token i] else []) ++ group_tokens rest.
Proof. unfold group_tokens. simpl. by destruct (included i). Qed.

Lemma group_text_tokens items :
  group_shape items = true -> strtok "," (group_text items) = group_tokens items.
Proof.
  induction items as [|i rest IH]; [done|]. intros Hs.
  change (group_text (i :: rest)) with (item_text i +:+ group_text rest).
  rewrite group_tokens_cons, item_text_included.
  destruct rest as [|j rest].
  { destruct i as [s|m s]; [|done]. simpl in Hs. apply streq_eq in Hs as ->. reflexivity. }
  cbn [group_shape] in Hs.
  destruct (lit_token (lit_of i)) as [t|] eqn:Et; [|done].
  apply andb_true_iff in Hs as [Ht Hs]. specialize (IH Hs).
  destruct (included i); [|exact IH].
  unfold item_token. rewrite Et, (lit_token_some _ _ Et).
  rewrite append_assoc.
  change ("," +:+ group_text (j :: rest)) with (String "," (group_text (j :: rest))).
  rewrite strtok_app, strtok_token, IH by done. reflexivity.
Qed.

Lemma group_tokens_nonempty items : group_shape items = true -> group_tokens items <> [].
Proof.
  unfold group_tokens. induction items as [|i rest IH]; [done|].
  intros Hs. simpl. destruct rest as [|j rest].
  - by destruct i.
  - cbn [group_shape] in Hs. destruct (lit_token (lit_of i)); [|done].
    apply andb_true_iff in Hs as [_ Hs]. destruct (included i); [done|auto].
Qed.

Lemma group_text_nonempty items :
  group_shape items = true -> strlen (group_text items) =? 0 = false.
Proof.
  intros Hs. pose proof (group_text_tokens items Hs) as E.
  pose proof (group_tokens_nonempty items Hs).
  destruct (group_text items); [done|]. unfold strlen. simpl. lia.
Qed.

Definition sys_number (native : bool) (name : string) : Z :=
  if native then syscall_find_name name else syscall_find_name_32 name.

(** The entry of a plain name: none when the table does not have it. *)
Definition plain_entry (native : bool) (name : string) : list entry :=
  if sys_number native name =? SYSCALL_ERROR then []
  else [Entry false (sys_number native name) (-1)].

Lemma plain_name_entry native depth t :
  plain_name t = true -> expand_token depth native t = Ok (plain_entry native t).
Proof.
  unfold plain_name, expand_token, token_name, name_entry, syscall_process_name, plain_entry.
  unfold has_prefix.
  intros [[[[Hn Hc%negb_true_iff]%andb_true_iff Ha%negb_true_iff]%andb_true_iff
            Hx%negb_true_iff]%andb_true_iff Hd%negb_true_iff]%andb_true_iff.
  destruct (strip_prefix "@" t); [done|].
  destruct (strip_prefix "!" t); [done|].
  assert (strlen t =? 0 = false) as ->
    by (destruct t; [done|unfold strlen; simpl; lia]).
  rewrite strchr_split_none by done.
  assert (strlen t =? 0 = false) as ->
    by (destruct t; [done|unfold strlen; simpl; lia]).
  destruct (strip_prefix "$" t); [done|]. reflexivity.
Qed.

(** The names a group stands for, sub-groups included. *)
Fixpoint group_names (depth : nat) (items : list litem) : list string :=
  match depth with
  | O => []
  | S depth' =>
      flat_map
        (fun t =>
           if has_prefix "@" t then
             match find_group t with
             | Some g => group_names depth' (sg_items g)
             | None => []
             end
           else [t])
        (group_tokens items)
  end.

Lemma find_group_list t :
  syscall_find_group t =
  match find_group t with Some g => Some (group_text (sg_items g)) | None => None end.
Proof. reflexivity. Qed.

(** Walking a group succeeds and yields the entries of its names. *)
Lemma expand_group depth native g :
  In g sysgroups -> (group_rank (sg_name g) <= depth)%nat ->
  expand depth native (group_text (sg_items g)) =
  Ok (flat_map (plain_entry native) (group_names depth (sg_items g))).
Proof.
  revert g. induction depth as [|depth IH]; intros g Hg Hr.
  { pose proof (group_rank_range (sg_name g)). lia. }
  pose proof (sysgroups_in g Hg) as [Hs Ht]%andb_true_iff.
  rewrite expand_S, group_text_nonempty, group_text_tokens by done.
  assert (Hall : forall l, (forall t, In t l -> In t (group_tokens (sg_items g))) ->
    oconcat (expand_token depth native) l =
    Ok (flat_map (plain_entry native)
          (flat_map (fun t => if has_prefix "@" t then
             match find_group t with Some g => group_names depth (sg_items g) | None => [] end
             else [t]) l))).
  { induction l as [|t l IHl]; [done|]. intros Hin. simpl.
    rewrite IHl by (intros; apply Hin; by right).
    assert (In t (group_tokens (sg_items g))) as Hi by (apply Hin; by left).
    unfold group_tokens in Hi. apply in_map_iff in Hi as (i & <- & [Hi _]%filter_In).
    rewrite forallb_forall in Ht. specialize (Ht i Hi). cbv zeta in Ht.
    apply orb_true_iff in Ht as [Hp|Hf].
    - rewrite plain_name_entry by done. simpl.
      assert (has_prefix "@" (item_token i) = false) as ->.
      { unfold plain_name in Hp. by destruct (has_prefix "@" (item_token i)); rewrite ?andb_false_r in Hp. }
      rewrite flat_map_app. simpl. by rewrite app_nil_r.
    - destruct (find_group (item_token i)) as [g'|] eqn:Eg; [|done].
      apply andb_true_iff in Hf as [Hp Hlt%Nat.ltb_lt].
      pose proof (find_group_some _ _ Eg) as [Hg' Hn].
      unfold expand_token. rewrite Hp, find_group_list, Eg.
      rewrite IH by (rewrite ?Hn; done || lia). simpl. by rewrite flat_map_app. }
  specialize (Hall (group_tokens (sg_items g)) (fun _ x => x)).
  pose proof (group_tokens_nonempty _ Hs).
  cbn [group_names]. destruct (group_tokens (sg_items g)); [done|exact Hall].
Qed.

(** The names do not depend on the depth once it reaches the rank. *)
Lemma group_names_stable depth g :
  In g sysgroups -> (group_rank (sg_name g) <= depth)%nat ->
  group_names (S depth) (sg_items g) = group_names depth (sg_items g).
Proof.
  revert g. induction depth as [|depth IH]; intros g Hg Hr.
  { pose proof (group_rank_range (sg_name g)). lia. }
  pose proof (sysgroups_in g Hg) as [_ Ht]%andb_true_iff.
  rewrite forallb_forall in Ht.
  change (group_names (S (S depth)) (sg_items g)) with
    (flat_map (fun t => if has_prefix "@" t then
                 match find_group t with
                 | Some g => group_names (S depth) (sg_items g) | None => [] end else [t])
       (group_tokens (sg_items g))).
  cbn [group_names]. rewrite !flat_map_concat_map. f_equal. apply map_ext_in.
  intros t (i & <- & [Hi _]%filter_In)%in_map_iff.
  destruct (has_prefix "@" (item_token i)) eqn:Ea; [|done].
  destruct (find_group (item_token i)) as [g'|] eqn:Eg; [|done].
  pose proof (find_group_some _ _ Eg) as [Hg' Hn].
  apply IH; [done|]. specialize (Ht i Hi). cbv zeta in Ht. rewrite Eg in Ht.
  unfold plain_name in Ht. rewrite Ea in Ht. rewrite !andb_false_r in Ht. simpl in Ht.
  apply Nat.ltb_lt in Ht. rewrite Hn. lia.
Qed.

Lemma expand_group_3 n native g :
  In g sysgroups ->
  expand (3 + n) native (group_text (sg_items g)) =
  Ok (flat_map (plain_entry native) (group_names 3 (sg_items g))).
Proof.
  intros Hg. pose proof (group_rank_range (sg_name g)).
  rewrite expand_group by (done || lia). do 2 f_equal.
  induction n as [|n IH]; [done|].
  rewrite Nat.add_succ_r, group_names_stable by (done || lia). apply IH.
Qed.
End Groups.

(** ** Every walk ends *)

Section Total.
Context `{H : SysHeaders} `{KOS : OS} {P : Type}.
Context (cb : filter_fn P) (fd arg : Z) (native : bool).
Hypothesis cb_total : forall e p w, (run_entry cb fd arg native e p w).1 <> NoFuel.

Lemma walk_group n g p w :
  In g sysgroups ->
  syscall_check_list (3 + n) (Some (group_text (sg_items g))) (Some cb) fd arg p native w =
  (p' <~ cfold (run_entry cb fd arg native)
           (flat_map (plain_entry native) (group_names 3 (sg_items g))) p ;; cret (0, p')) w.
Proof. intros Hg. by apply check_list_refines, expand_group_3. Qed.

Lemma walk_token_stable n tok p w :
  walk_token cb fd arg native (3 + n) tok p w = walk_token cb fd arg native 3 tok p w.
Proof.
  unfold walk_token. destruct (has_prefix "@" tok); [|done].
  rewrite find_group_list. destruct (find_group tok) as [g|] eqn:Eg; [|done].
  apply find_group_some in Eg as [Hg _]. apply cbind_same.
  by rewrite walk_group, (walk_group 0).
Qed.

Lemma walk_token_total tok p w : (walk_token cb fd arg native 3 tok p w).1 <> NoFuel.
Proof.
  unfold walk_token. destruct (has_prefix "@" tok).
  - rewrite find_group_list. destruct (find_group tok) as [g|] eqn:Eg; [|done].
    apply find_group_some in Eg as [Hg _].
    unfold cbind at 1. rewrite (walk_group 0) by done. unfold cbind.
    pose proof (cfold_total (run_entry cb fd arg native)
      (flat_map (plain_entry native) (group_names 3 (sg_items g))) p w cb_total) as Ht.
    by destruct (cfold _ _ p w) as [[] ?].
  - destruct (token_name tok) as [neg name].
    assert (syscall_process_name name native <> NoFuel) as Hp.
    { unfold syscall_process_name. repeat case_match; done. }
    unfold cbind, clift. destruct (syscall_process_name name native) as [[nr er]| | |]; try done.
    apply (cb_total (Entry neg nr er)).
Qed.

Lemma check_list_total_aux n slist p w :
  (syscall_check_list (4 + n) slist (Some cb) fd arg p native w).1 <> NoFuel
  /\ syscall_check_list (4 + n) slist (Some cb) fd arg p native w =
     syscall_check_list 4 slist (Some cb) fd arg p native w.
Proof.
  destruct slist as [str|]; [|done].
  change (4 + n)%nat with (S (3 + n)).
  rewrite (check_list_S cb fd arg native (3 + n) str p w).
  rewrite (check_list_S cb fd arg native 3 str p w).
  destruct (strlen str =? 0); [split; [discriminate|reflexivity]|].
  destruct (strtok "," str) as [|t toks]; [split; [discriminate|reflexivity]|].
  assert (E : cfold (walk_token cb fd arg native (3 + n)) (t :: toks) p w =
              cfold (walk_token cb fd arg native 3) (t :: toks) p w).
  { apply cfold_ext. intros. apply walk_token_stable. }
  split; [|apply cbind_same; exact E].
  pose proof (cfold_total _ (t :: toks) p w walk_token_total) as Ht.
  rewrite <- E in Ht. clear E. revert Ht. unfold cbind.
  generalize (cfold (walk_token cb fd arg native (3 + n)) (t :: toks) p w).
  intros [o w'] Ht. destruct o; [discriminate|discriminate|discriminate|by destruct Ht].
Qed.
End Total.
