(* ===== verification/Fseccomp.v ===== *)
(** * Building the filters: seccomp.c, namespaces.c, protocol.c and seccomp_secondary.c of fseccomp

    The x86_64 build.  A function that writes a filter file opens it, appends
    the records and closes it; [exit(1)] is the outcome [Exit 1]. *)

From S2P Require Import Prelude.
From S2P Require Import Clib.
From S2P Require Import Bpf.
From S2P Require Import SyscallTables.
From S2P Require Import SyscallGroups.
From S2P Require Import FilterFile.
From S2P Require Import Syscall.
Local Open Scope string_scope.
Local Open Scope list_scope.
Local Open Scope Z_scope.

(** ** <sys/mman.h>, <sys/shm.h>, <sched.h>, <sys/socket.h>, <sys/personality.h> *)

Definition PROT_WRITE : Z := 0x2.
Definition PROT_EXEC : Z := 0x4.
Definition SHM_EXEC : Z := 0x8000.

Definition CLONE_NEWTIME : Z := 0x00000080.
Definition CLONE_NEWNS : Z := 0x00020000.
Definition CLONE_NEWCGROUP : Z := 0x02000000.
Definition CLONE_NEWUTS : Z := 0x04000000.
Definition CLONE_NEWIPC : Z := 0x08000000.
Definition CLONE_NEWUSER : Z := 0x10000000.
Definition CLONE_NEWPID : Z := 0x20000000.
Definition CLONE_NEWNET : Z := 0x40000000.

Definition AF_UNIX : Z := 1.
Definition AF_INET : Z := 2.
Definition AF_INET6 : Z := 10.
Definition AF_NETLINK : Z := 16.
Definition AF_PACKET : Z := 17.
Definition AF_BLUETOOTH : Z := 31.

Definition PER_LINUX : Z := 0.

(** ** Pieces the filters are made of *)

Section Blocks.
Context (act : Z).

(** Argument 2 of system call [nr] is masked and compared with the mask. *)
Definition deny_arg_mask (nr mask : Z) : list sock_filter :=
  [BPF_JUMP (BPF_JMP + BPF_JEQ + BPF_K) nr 0 5]
  ++ EXAMINE_ARGUMENT 2
  ++ [BPF_STMT (BPF_ALU + BPF_AND + BPF_K) mask;
      BPF_JUMP (BPF_JMP + BPF_JEQ + BPF_K) mask 0 1]
  ++ KILL_OR_RETURN_ERRNO act
  ++ RETURN_ALLOW.

(** Any bit of the mask in argument [arg] of system call [nr]. *)
Definition deny_arg_bits (nr arg mask : Z) : list sock_filter :=
  [BPF_JUMP (BPF_JMP + BPF_JEQ + BPF_K) nr 0 4]
  ++ EXAMINE_ARGUMENT arg
  ++ [BPF_JUMP (BPF_JMP + BPF_JSET + BPF_K) mask 0 1]
  ++ KILL_OR_RETURN_ERRNO act
  ++ RETURN_ALLOW.

(** The setns block: no namespace type at all, or one of the mask. *)
Definition deny_setns (nr mask : Z) : list sock_filter :=
  [BPF_JUMP (BPF_JMP + BPF_JEQ + BPF_K) nr 0 4]
  ++ EXAMINE_ARGUMENT 1
  ++ [BPF_JUMP (BPF_JMP + BPF_JEQ + BPF_K) 0 1 0;
      BPF_JUMP (BPF_JMP + BPF_JSET + BPF_K) mask 0 1]
  ++ KILL_OR_RETURN_ERRNO act
  ++ RETURN_ALLOW.
End Blocks.

Section Model.
Context `{H : SysHeaders} `{KOS : OS}.

(** A macro the x86_64 build uses unconditionally. *)
Definition sys_nr (macro : string) : Z := default 0 (SYS macro).

(** Code between [#ifdef macro] and [#endif]. *)
Definition ifdef (macro : string) (f : Z -> list sock_filter) : list sock_filter :=
  match SYS macro with Some n => f n | None => [] end.

Definition open_filter (fname : string) : M Z :=
  fd <~ sys_open fname ;;
  if fd <? 0 then cexit 1 else cret fd.

(** ** seccomp.c *)

Definition add_default_list (fd : Z) (allow_debuggers : bool) (native : bool) : M unit :=
  r <~ (if negb allow_debuggers
        then syscall_check_list SCL_DEPTH (Some "@default-nodebuggers")
               (Some filter_add_blacklist) fd 0 tt native
        else syscall_check_list SCL_DEPTH (Some "@default")
               (Some filter_add_blacklist) fd 0 tt native) ;;
  cassert (r.1 =? 0).

Definition seccomp_default (fname : string) (allow_debuggers native : bool) : M unit :=
  fd <~ open_filter fname ;;
  filter_init fd native ;;;
  add_default_list fd allow_debuggers native ;;;
  filter_end_blacklist fd ;;;
  sys_close fd.

(** A list handed to [syscall_check_list] with a callback; an error code of
    the walk ends the program. *)
Definition check_list_or_exit (list : string) (cb : filter_fn unit) (fd : Z) (native : bool)
    : M unit :=
  r <~ syscall_check_list SCL_DEPTH (Some list) (Some cb) fd 0 tt native ;;
  if negb (r.1 =? 0) then cexit 1 else cret tt.

(** The post-exec filter: the remaining system calls. *)
Definition write_postexec (fname2 : string) (postlist : option string) (native : bool) : M unit :=
  match postlist with
  | None => cret tt
  | Some post =>
      fd <~ open_filter fname2 ;;
      filter_init fd native ;;;
      check_list_or_exit post filter_add_blacklist fd native ;;;
      filter_end_blacklist fd ;;;
      sys_close fd
  end.

Definition seccomp_drop (fname1 fname2 list : string) (allow_debuggers native : bool) : M unit :=
  fd <~ open_filter fname1 ;;
  filter_init fd native ;;;
  syscall_check_list SCL_DEPTH (Some list) (Some filter_add_whitelist_for_excluded)
    fd 0 tt native ;;;
  lists <~ syscalls_in_list list "@default-keep" native ;;
  (match lists.1 with
   | Some pre => check_list_or_exit pre filter_add_blacklist fd native
   | None => cret tt
   end) ;;;
  filter_end_blacklist fd ;;;
  sys_close fd ;;;
  write_postexec fname2 lists.2 native.

Definition seccomp_default_drop (fname1 fname2 list : string) (allow_debuggers native : bool)
    : M unit :=
  fd <~ open_filter fname1 ;;
  filter_init fd native ;;;
  syscall_check_list SCL_DEPTH (Some list) (Some filter_add_whitelist_for_excluded)
    fd 0 tt native ;;;
  add_default_list fd allow_debuggers native ;;;
  lists <~ syscalls_in_list list "@default-keep" native ;;
  (match lists.1 with
   | Some pre => check_list_or_exit pre filter_add_blacklist fd native
   | None => cret tt
   end) ;;;
  filter_end_blacklist fd ;;;
  sys_close fd ;;;
  write_postexec fname2 lists.2 native.

Definition seccomp_keep (fname1 fname2 list : string) (native : bool) : M unit :=
  fd <~ open_filter fname1 ;;
  filter_init fd native ;;;
  syscall_check_list SCL_DEPTH (Some list) (Some filter_add_blacklist_for_excluded)
    fd 0 tt native ;;;
  r <~ syscall_check_list SCL_DEPTH (Some "@default-keep") (Some filter_add_whitelist)
         fd 0 tt native ;;
  cassert (r.1 =? 0) ;;;
  check_list_or_exit list filter_add_whitelist fd native ;;;
  filter_end_whitelist fd ;;;
  sys_close fd.

(** The array of [memory_deny_write_execute]. *)
Definition mdwx_filter (act : Z) : list sock_filter :=
  deny_arg_mask act (sys_nr "SYS_mmap") (Z.lor PROT_WRITE PROT_EXEC)
  ++ deny_arg_mask act (sys_nr "SYS_mprotect") PROT_EXEC
  ++ ifdef "SYS_pkey_mprotect" (fun nr => deny_arg_mask act nr PROT_EXEC)
  ++ ifdef "SYS_shmat" (fun nr => deny_arg_mask act nr SHM_EXEC)
  ++ ifdef "SYS_memfd_create" (fun nr => BLACKLIST act nr ++ RETURN_ALLOW).

Definition memory_deny_write_execute (fname : string) : M unit :=
  fd <~ open_filter fname ;;
  filter_init fd true ;;;
  w <~ cget ;;
  write_to_file fd (enc (mdwx_filter (w_action w))) ;;;
  filter_end_blacklist fd ;;;
  sys_close fd.

(** The i386 system call numbers of the x86_64 build. *)
Definition filter_syscall_32 : Z := 192.
Definition block_syscall_32 : Z := 90.
Definition mprotect_32 : Z := 125.
Definition pkey_mprotect_32 : Z := 380.
Definition shmat_32 : Z := 397.
Definition memfd_create_32 : Z := 356.

Definition mdwx_filter_32 (act : Z) : list sock_filter :=
  BLACKLIST act block_syscall_32
  ++ deny_arg_mask act filter_syscall_32 (Z.lor PROT_WRITE PROT_EXEC)
  ++ deny_arg_mask act mprotect_32 PROT_EXEC
  ++ deny_arg_mask act pkey_mprotect_32 PROT_EXEC
  ++ deny_arg_mask act shmat_32 SHM_EXEC
  ++ BLACKLIST act memfd_create_32
  ++ RETURN_ALLOW.

Definition memory_deny_write_execute_32 (fname : string) : M unit :=
  fd <~ open_filter fname ;;
  filter_init fd false ;;;
  w <~ cget ;;
  write_to_file fd (enc (mdwx_filter_32 (w_action w))) ;;;
  filter_end_blacklist fd ;;;
  sys_close fd.

(** ** namespaces.c *)

Definition ns_flag (token : string) : option Z :=
  if streq token "cgroup" then Some CLONE_NEWCGROUP
  else if streq token "ipc" then Some CLONE_NEWIPC
  else if streq token "net" then Some CLONE_NEWNET
  else if streq token "mnt" then Some CLONE_NEWNS
  else if streq token "pid" then Some CLONE_NEWPID
  else if streq token "time" then Some CLONE_NEWTIME
  else if streq token "user" then Some CLONE_NEWUSER
  else if streq token "uts" then Some CLONE_NEWUTS
  else None.

Fixpoint ns_mask_loop (tokens : list string) (mask : Z) : outcome Z :=
  match tokens with
  | [] => Ok mask
  | token :: rest =>
      match ns_flag token with
      | Some flag => ns_mask_loop rest (Z.lor mask flag)
      | None => Exit 1
      end
  end.

Definition build_ns_mask (list : string) : outcome Z := ns_mask_loop (strtok "," list) 0.

Definition ns_filter (act mask : Z) : list sock_filter :=
  let clone_mask := Z.land mask (Z.lnot CLONE_NEWTIME) in
  ifdef "SYS_clone" (fun nr => deny_arg_bits act nr 0 clone_mask)
  ++ ifdef "SYS_clone3" (fun nr => match_return nr (Z.lor SECCOMP_RET_ERRNO ENOSYS))
  ++ ifdef "SYS_unshare" (fun nr => deny_arg_bits act nr 0 mask)
  ++ ifdef "SYS_setns" (fun nr => deny_setns act nr mask).

Definition deny_ns (fname list : string) : M unit :=
  mask <~ clift (build_ns_mask list) ;;
  fd <~ open_filter fname ;;
  filter_init fd true ;;;
  w <~ cget ;;
  (match ns_filter (w_action w) mask with
   | [] => cret tt
   | filter => write_to_file fd (enc filter)
   end) ;;;
  filter_end_blacklist fd ;;;
  sys_close fd.

Definition clone_32 : Z := 120.
Definition clone3_32 : Z := 435.
Definition unshare_32 : Z := 310.
Definition setns_32 : Z := 346.

Definition ns_filter_32 (act mask : Z) : list sock_filter :=
  let clone_mask := Z.land mask (Z.lnot CLONE_NEWTIME) in
  deny_arg_bits act clone_32 0 clone_mask
  ++ match_return clone3_32 (Z.lor SECCOMP_RET_ERRNO ENOSYS)
  ++ deny_arg_bits act unshare_32 0 mask
  ++ deny_setns act setns_32 mask.

Definition deny_ns_32 (fname list : string) : M unit :=
  mask <~ clift (build_ns_mask list) ;;
  fd <~ open_filter fname ;;
  filter_init fd false ;;;
  w <~ cget ;;
  write_to_file fd (enc (ns_filter_32 (w_action w) mask)) ;;;
  filter_end_blacklist fd ;;;
  sys_close fd.

(** ** protocol.c *)

Definition protocol : list string :=
  ["unix"; "inet"; "inet6"; "netlink"; "packet"; "bluetooth"].

Definition protocol_filter_command : list sock_filter :=
  WHITELIST AF_UNIX ++ WHITELIST AF_INET ++ WHITELIST AF_INET6
  ++ WHITELIST AF_NETLINK ++ WHITELIST AF_PACKET ++ WHITELIST AF_BLUETOOTH.

Definition whitelist_len : nat := length (WHITELIST AF_UNIX).

(** The two records at [&protocol_filter_command[i * whitelist_len]]. *)
Fixpoint find_protocol_from (names : list string) (i : nat) (p : string)
    : option (list sock_filter) :=
  match names with
  | [] => None
  | n :: rest =>
      if streq n p
      then Some (take whitelist_len (drop (i * whitelist_len) protocol_filter_command))
      else find_protocol_from rest (S i) p
  end.

Definition find_protocol_domain (p : string) : option (list sock_filter) :=
  find_protocol_from protocol 0 p.

Definition protocol_start (act : Z) : list sock_filter :=
  [BPF_STMT (BPF_LD + BPF_W + BPF_ABS) off_arch;
   BPF_JUMP (BPF_JMP + BPF_JEQ + BPF_K) ARCH_NR (1 + 2 + 1) 0]
  ++ EXAMINE_SYSCALL
  ++ ONLY 359
  ++ [BPF_JUMP (BPF_JMP + BPF_JA + BPF_K) (3 + 1 + 3 + 2) 0 0]
  ++ VALIDATE_ARCHITECTURE
  ++ EXAMINE_SYSCALL
  ++ HANDLE_X32 act
  ++ ONLY (sys_nr "SYS_socket")
  ++ EXAMINE_ARGUMENT 0.

Fixpoint protocol_commands (tokens : list string) : outcome (list sock_filter) :=
  match tokens with
  | [] => Ok []
  | token :: rest =>
      match find_protocol_domain token with
      | None => Exit 1
      | Some domain => obind (protocol_commands rest) (fun c => Ok (domain ++ c))
      end
  end.

(** The records of the local array [filter[32]]; the copies are not bounds
    checked in the source. *)
Definition protocol_records (act : Z) (prlist : string) : outcome (list sock_filter) :=
  match strtok "," prlist with
  | [] => Exit 1
  | tokens =>
      obind (protocol_commands tokens)
        (fun c => Ok (protocol_start act ++ c ++ RETURN_ERRNO ENOTSUP))
  end.

(** Capacity of the array. *)
Definition PROTOCOL_FILTER_MAX : nat := 32.

Definition protocol_build_filter (prlist fname : string) : M unit :=
  w <~ cget ;;
  records <~ clift (protocol_records (w_action w) prlist) ;;
  dst <~ open_filter fname ;;
  let bytes := enc records in
  write_loop (length bytes) dst bytes 0 (Z.of_nat (length bytes)) ;;;
  sys_close dst.

(** ** seccomp_secondary.c *)

Definition write_filter (fname : string) (filter : list sock_filter) : M unit :=
  dst <~ open_filter fname ;;
  let bytes := enc filter in
  write_loop (length bytes) dst bytes 0 (Z.of_nat (length bytes)) ;;;
  sys_close dst.

Definition secondary_32_list : list Z :=
  [21; 52; 26; 283; 341; 342; 127; 128; 350; 129; 110; 101; 289; 87; 115; 103; 347; 348;
   135; 149; 124; 343; 253; 336; 338; 349; 286; 287; 288; 86; 51; 123; 217; 245; 246; 247;
   248; 249; 257; 274; 276; 294; 317; 316; 61; 88; 169; 130].

Definition secondary_32_filter (act : Z) : list sock_filter :=
  VALIDATE_ARCHITECTURE_32 ++ EXAMINE_SYSCALL
  ++ flat_map (BLACKLIST act) secondary_32_list
  ++ RETURN_ALLOW.

Definition seccomp_secondary_32 (fname : string) : M unit :=
  w <~ cget ;; write_filter fname (secondary_32_filter (w_action w)).

Definition jmp_from_to (from_addr to_addr : Z) : Z := to_addr - from_addr - 1.
Definition MSW : Z := 4.
Definition LSW : Z := 0.

Definition secondary_block_filter (act : Z) : list sock_filter :=
  VALIDATE_ARCHITECTURE_KILL act ++ EXAMINE_SYSCALL ++ HANDLE_X32 act
  ++ [BPF_JUMP (BPF_JMP + BPF_JEQ + BPF_K) (sys_nr "SYS_personality") 0 (jmp_from_to 0 7);
      BPF_STMT (BPF_LD + BPF_W + BPF_ABS) (off_args 0 + LSW);
      BPF_JUMP (BPF_JMP + BPF_JEQ + BPF_K) PER_LINUX (jmp_from_to 2 4) 0;
      BPF_JUMP (BPF_JMP + BPF_JEQ + BPF_K) 0xffffffff 0 (jmp_from_to 3 6);
      BPF_STMT (BPF_LD + BPF_W + BPF_ABS) (off_args 0 + MSW);
      BPF_JUMP (BPF_JMP + BPF_JEQ + BPF_K) 0 (jmp_from_to 5 7) 0]
  ++ KILL_OR_RETURN_ERRNO act
  ++ RETURN_ALLOW.

Definition seccomp_secondary_block (fname : string) : M unit :=
  w <~ cget ;; write_filter fname (secondary_block_filter (w_action w)).
End Model.
