(* ===== verification/DropSpec.v ===== *)
(** * The drop, default and keep filters, end to end

    [syscalls_in_list] cuts a list in a pre-exec and a post-exec string, which
    are parsed again: names and errnos are shown to survive the round trip
    through the tables.  The theorems about the files [seccomp_default],
    [seccomp_drop], [seccomp_default_drop] and [seccomp_keep] write follow. *)

From S2P Require Import Prelude.
From S2P Require Import Clib.
From S2P Require Import Bpf.
From S2P Require Import SyscallTables.
From S2P Require Import SyscallGroups.
From S2P Require Import FilterFile.
From S2P Require Import Syscall.
From S2P Require Import SyscallSpec.
From S2P Require Import Fseccomp.

(** * What the drop, keep and default filters do

    Each builder is shown to write one closed file whose records are a header,
    a run of first-match rules and a final return, and the meaning of that
    program is computed with the laws of the BPF machine.  [drop_rules],
    [keep_rules] and [default_names] are the abstract descriptions. *)

Local Open Scope string_scope.
Local Open Scope list_scope.
Local Open Scope Z_scope.

(** ** Rules written by the callbacks *)

Definition blacklist_rules (act n : Z) : list (Z * Z) := if 0 <=? n then [(n, act)] else [].
Definition whitelist_rules (act n : Z) : list (Z * Z) :=
  if 0 <=? n then [(n, SECCOMP_RET_ALLOW)] else [].
Definition whitelist_excluded_rules (act n : Z) : list (Z * Z) :=
  if n <? 0 then [(Z.lnot n, SECCOMP_RET_ALLOW)] else [].
Definition blacklist_excluded_rules (act n : Z) : list (Z * Z) :=
  if n <? 0 then [(Z.lnot n, act)] else [].

(** The number passed to the callbacks: complemented for an exception. *)
Definition entry_nr (e : entry) : Z := if e_neg e then Z.lnot (e_nr e) else e_nr e.

(** The rules one entry contributes to a filter file: its own action when it
    names one, otherwise what the callback writes. *)
Definition entry_rules (R : Z -> Z -> list (Z * Z)) (act : Z) (e : entry) : list (Z * Z) :=
  if e_nr e =? SYSCALL_ERROR then []
  else if 0 <=? e_err e then [(entry_nr e, Z.lor SECCOMP_RET_ERRNO (e_err e))]
  else if e_err e =? ERRNO_KILL then blacklist_rules SECCOMP_RET_KILL (entry_nr e)
  else if e_err e =? ERRNO_LOG then blacklist_rules SECCOMP_RET_LOG (entry_nr e)
  else R act (entry_nr e).

Definition list_rules (R : Z -> Z -> list (Z * Z)) (act : Z) (es : list entry) : list (Z * Z) :=
  flat_map (entry_rules R act) es.

Lemma emit_set_action fd p a w : emit fd p (set_action a w) = set_action a (emit fd p w).
Proof. unfold emit. simpl. by destruct (w_fds w !! fd). Qed.

Lemma set_action_restore fd p a w :
  set_action (w_action w) (set_action a (emit fd p w)) = emit fd p w.
Proof. unfold emit. destruct (w_fds w !! fd); destruct w; done. Qed.

Section Emission.
Context `{H : SysHeaders} `{KOS : OS} {OL : OSLaws}.

(** A callback that appends the rules [R] to the file. *)
Definition emits {P} (cb : filter_fn P) (R : Z -> Z -> list (Z * Z)) : Prop :=
  forall fd n arg p native w, is_open fd w ->
    cb fd n arg p native w = (Ok p, emit fd (rules_code (R (w_action w) n)) w).

Lemma emits_blacklist {P} : emits (P := P) filter_add_blacklist blacklist_rules.
Proof.
  intros fd n arg p native w Ho. unfold filter_add_blacklist, blacklist_rules.
  destruct (0 <=? n); [|by rewrite emit_nil].
  by erewrite cbind_ok by (by apply write_blacklist_ok).
Qed.

Lemma emits_whitelist {P} : emits (P := P) filter_add_whitelist whitelist_rules.
Proof.
  intros fd n arg p native w Ho. unfold filter_add_whitelist, whitelist_rules.
  destruct (0 <=? n); [|by rewrite emit_nil].
  by erewrite cbind_ok by (by apply write_whitelist_ok).
Qed.

Lemma emits_whitelist_excluded {P} :
  emits (P := P) filter_add_whitelist_for_excluded whitelist_excluded_rules.
Proof.
  intros fd n arg p native w Ho.
  unfold filter_add_whitelist_for_excluded, whitelist_excluded_rules.
  destruct (n <? 0); [|by rewrite emit_nil].
  by erewrite cbind_ok by (by apply write_whitelist_ok).
Qed.

Lemma emits_blacklist_excluded {P} :
  emits (P := P) filter_add_blacklist_for_excluded blacklist_excluded_rules.
Proof.
  intros fd n arg p native w Ho.
  unfold filter_add_blacklist_for_excluded, blacklist_excluded_rules.
  destruct (n <? 0); [|by rewrite emit_nil].
  by erewrite cbind_ok by (by apply write_blacklist_ok).
Qed.

Lemma filter_add_errno_ok {P} fd n arg (p : P) native w :
  is_open fd w ->
  filter_add_errno fd n arg p native w =
  (Ok p, emit fd (rules_code [(n, Z.lor SECCOMP_RET_ERRNO arg)]) w).
Proof.
  intros Ho. unfold filter_add_errno.
  by erewrite cbind_ok by (by apply write_to_file_ok).
Qed.

(** The override leaves the global error action as it was. *)
Lemma filter_add_blacklist_override_ok {P} fd n arg (p : P) native w :
  is_open fd w ->
  filter_add_blacklist_override fd n arg p native w =
  (Ok p, emit fd (rules_code (blacklist_rules arg n)) w).
Proof.
  intros Ho. unfold filter_add_blacklist_override, blacklist_rules.
  destruct (0 <=? n); [|by rewrite emit_nil].
  rewrite cbind_assoc, cget_bind, !cbind_assoc, cmodify_bind, cbind_assoc.
  erewrite cbind_ok by (by apply write_blacklist_ok).
  rewrite cmodify_bind. unfold cret. simpl. f_equal.
  rewrite emit_set_action. apply set_action_restore.
Qed.

Context {P : Type} (cb : filter_fn P) (R : Z -> Z -> list (Z * Z)) (Hcb : emits cb R).

Lemma run_entry_ok fd arg native e p w :
  0 < fd -> is_open fd w ->
  run_entry cb fd arg native e p w =
  (Ok p, emit fd (rules_code (entry_rules R (w_action w) e)) w).
Proof.
  intros Hfd Ho. unfold run_entry, check_syscall, entry_rules.
  destruct (e_nr e =? SYSCALL_ERROR); [by rewrite emit_nil|].
  cbv zeta. fold (entry_nr e).
  assert (0 <? fd = true) as -> by lia. rewrite !andb_true_r.
  destruct (0 <=? e_err e); [by apply filter_add_errno_ok|].
  destruct (e_err e =? ERRNO_KILL); [by apply filter_add_blacklist_override_ok|].
  destruct (e_err e =? ERRNO_LOG); [by apply filter_add_blacklist_override_ok|].
  by apply Hcb.
Qed.

Lemma run_entries_ok fd arg native es p w :
  0 < fd -> is_open fd w ->
  cfold (run_entry cb fd arg native) es p w =
  (Ok p, emit fd (rules_code (list_rules R (w_action w) es)) w).
Proof.
  intros Hfd. revert w. induction es as [|e es IH]; intros w Ho; simpl.
  { by rewrite emit_nil. }
  erewrite cbind_ok by (by apply run_entry_ok).
  rewrite IH by auto with bpf.
  rewrite emit_emit, action_emit, <- rules_code_app. reflexivity.
Qed.

Lemma check_list_emits fd arg native str es p w :
  0 < fd -> is_open fd w -> expand SCL_DEPTH native str = Ok es ->
  syscall_check_list SCL_DEPTH (Some str) (Some cb) fd arg p native w =
  (Ok (0, p), emit fd (rules_code (list_rules R (w_action w) es)) w).
Proof.
  intros Hfd Ho He. rewrite (check_list_refines cb fd arg native _ _ _ _ es He).
  by erewrite cbind_ok by (by apply run_entries_ok).
Qed.
End Emission.

(** ** Files: opening and closing *)

Section Files.
Context `{KOS : OS} {OL : OSLaws}.

Definition opened (f : string) (w : world) : world :=
  World (w_action w) (<[os_open f := f]> (w_fds w)) (<[f := []]> (w_files w)).

(** The state after the program [p] was written to [f] and the file closed. *)
Definition saved (f : string) (p : list sock_filter) (w : world) : world :=
  World (w_action w) (delete (os_open f) (w_fds w)) (<[f := enc p]> (w_files w)).

Lemma open_filter_ok f w :
  open_filter f w = (Ok (os_open f), opened f w).
Proof.
  unfold open_filter, sys_open, cbind. pose proof (os_open_fresh f).
  assert (os_open f <? 0 = false) as E by lia. cbv zeta. by rewrite E, E.
Qed.

Lemma opened_is_open f w : is_open (os_open f) (opened f w).
Proof.
  exists f. unfold opened. simpl. rewrite !lookup_insert_eq. eauto.
Qed.

Lemma close_saved f p w :
  sys_close (os_open f) (emit (os_open f) p (opened f w)) = (Ok tt, saved f p w).
Proof.
  unfold sys_close, cmodify, emit, opened, saved. simpl.
  rewrite lookup_insert_eq. simpl. rewrite lookup_insert_eq. simpl.
  by rewrite insert_insert_eq, delete_insert_eq.
Qed.

Lemma os_open_pos f : 0 < os_open f.
Proof. pose proof (os_open_fresh f). lia. Qed.
End Files.

#[export] Hint Resolve opened_is_open os_open_pos : bpf.

(** Run the next write of the goal's program. *)
Ltac emit_step lem :=
  rewrite ?cbind_assoc; erewrite cbind_ok by (apply lem; eauto with bpf);
  rewrite ?emit_emit, ?action_emit.

(** The header [filter_init] writes, and what it makes of a program. *)
Definition header (native : bool) (act : Z) : list sock_filter :=
  if native then filter_native act else filter_32.

(** The decision of a rule list behind the header: other architectures are
    allowed, x32 calls get the error action, then the first matching rule. *)
Definition rule_decision (native : bool) (act : Z) (rs : list (Z * Z)) (otherwise : Z)
    (d : seccomp_data) : Z :=
  let nr := u32 (sd_nr d) in
  if negb (u32 (sd_arch d) =? (if native then ARCH_NR else ARCH_32)) then SECCOMP_RET_ALLOW
  else if native && (X32_SYSCALL_BIT <=? nr) then u32 act
  else default otherwise (first_match rs nr).

Section HeaderSemantics.
Context `{BM : BpfMachine} {BL : BpfLaws}.

Lemma exec_header native act p d a :
  bpf_exec (header native act ++ p) d a =
  if negb (u32 (sd_arch d) =? (if native then ARCH_NR else ARCH_32))
  then Some SECCOMP_RET_ALLOW
  else if native && (X32_SYSCALL_BIT <=? u32 (sd_nr d)) then Some (u32 act)
  else bpf_exec p d (u32 (sd_nr d)).
Proof.
  destruct native; unfold header, filter_native, filter_32, VALIDATE_ARCHITECTURE,
    VALIDATE_ARCHITECTURE_32, RETURN_ALLOW; rewrite <- !app_assoc, exec_validate_arch.
  - change (u32 ARCH_NR) with ARCH_NR.
    destruct (u32 (sd_arch d) =? ARCH_NR); [|done].
    unfold EXAMINE_SYSCALL. cbn [app negb andb].
    rewrite exec_LD_nr, exec_HANDLE_X32 by apply u32_range.
    by destruct (X32_SYSCALL_BIT <=? u32 (sd_nr d)).
  - change (u32 ARCH_32) with ARCH_32.
    destruct (u32 (sd_arch d) =? ARCH_32); [|done]. simpl. by rewrite exec_LD_nr.
Qed.

Lemma run_rules native act rs ret d :
  run_filter (header native act ++ rules_code rs ++ [BPF_STMT (BPF_RET + BPF_K) ret]) d =
  Some (rule_decision native act rs (u32 ret) d).
Proof.
  unfold run_filter, rule_decision. rewrite exec_header.
  destruct (negb _); [done|]. destruct (native && _); [done|].
  rewrite exec_rules. destruct (first_match rs _); [done|]. by rewrite exec_RET.
Qed.
End HeaderSemantics.

Local Open Scope string_scope.
Local Open Scope list_scope.
Local Open Scope Z_scope.

(** ** The tables *)

Definition table (native : bool) : list SyscallEntry := if native then syslist else syslist32.

Definition nr_name (native : bool) (n : Z) : string :=
  if native then syscall_find_nr n else syscall_find_nr_32 n.

(** The table of the architecture has a system call with this number. *)
Definition known (native : bool) (n : Z) : bool :=
  existsb (fun e => n =? sc_nr e) (table native).

Definition entry_wf (native : bool) (e : SyscallEntry) : bool :=
  (sys_number native (nr_name native (sc_nr e)) =? sc_nr e)
  && (0 <=? sc_nr e) && (sc_nr e <? 1000)
  && is_token "," (sc_name e) && plain_name (sc_name e).

Lemma tables_wf native : forallb (entry_wf native) (table native) = true.
Proof. destruct native; vm_compute; reflexivity. Qed.

Lemma nr_name_find native n :
  nr_name native n =
  match List.find (fun e => n =? sc_nr e) (table native) with
  | Some e => sc_name e
  | None => "unknown"
  end.
Proof. by destruct native. Qed.

Lemma nr_name_known native n :
  known native n = true ->
  sys_number native (nr_name native n) = n /\ 0 <= n < 1000
  /\ is_token "," (nr_name native n) = true /\ plain_name (nr_name native n) = true.
Proof.
  unfold known. intros (e & He & En)%existsb_exists.
  pose proof (tables_wf native) as W. rewrite forallb_forall in W.
  assert (exists e', In e' (table native) /\ nr_name native n = sc_name e') as (e' & He' & En').
  { rewrite nr_name_find. destruct (List.find _ (table native)) as [e'|] eqn:E.
    - apply find_some in E as [E _]. eauto.
    - apply (List.find_none _ _ E) in He. congruence. }
  pose proof (W e He) as We. pose proof (W e' He') as We'. unfold entry_wf in We, We'.
  assert (n = sc_nr e) as -> by lia.
  repeat apply andb_true_iff in We as [We ?]. repeat apply andb_true_iff in We' as [We' ?].
  split; [lia|]. split; [lia|]. by rewrite En'.
Qed.

Lemma nr_name_unknown native n : known native n = false -> nr_name native n = "unknown".
Proof.
  intros Hk. rewrite nr_name_find. apply find_none_existsb in Hk. by rewrite Hk.
Qed.

Lemma unknown_not_a_name native : sys_number native "unknown" = SYSCALL_ERROR.
Proof. destruct native; vm_compute; reflexivity. Qed.

Lemma known_not_error native n : known native n = true -> n <> SYSCALL_ERROR.
Proof.
  intros Hk ->. destruct native; vm_compute in Hk; discriminate.
Qed.

(** ** Entries that come from a list *)

Definition entry_ok (e : entry) : Prop :=
  e_nr e <> SYSCALL_ERROR
  /\ (e_err e = -1 \/ e_err e = ERRNO_KILL \/ e_err e = ERRNO_LOG
      \/ exists x, In x errnolist /\ en_nr x = e_err e).

Section EntryOk.
Context `{H : SysHeaders}.

Lemma name_entry_ok native neg name es :
  name_entry native neg name = Ok es -> Forall entry_ok es.
Proof.
  unfold name_entry. destruct (syscall_process_name name native) as [[nr er]| | |] eqn:E;
    simpl; try done.
  destruct (Z.eqb_spec nr SYSCALL_ERROR) as [|Hn]; intros [= <-]; [done|].
  constructor; [|done]. split; [done|]. simpl.
  unfold syscall_process_name in E.
  destruct (strlen name =? 0); [done|].
  destruct (strchr_split ":" name) as [[l r]|]; cbn beta iota zeta in E.
  - destruct (strlen l =? 0); [done|].
    destruct (streq r "kill"); [injection E; auto|].
    destruct (streq r "log"); [injection E; auto|].
    destruct (Z.eqb_spec (errno_find_name r) (-1)) as [E1|E1]; injection E; intros <- Hnr.
    + congruence.
    + right. right. right. by apply errno_find_name_in.
  - destruct (strlen name =? 0); [done|]. injection E. auto.
Qed.

Lemma expand_ok depth native str es : expand depth native str = Ok es -> Forall entry_ok es.
Proof.
  revert str es. induction depth as [|depth IH]; intros str es.
  { simpl. destruct (strlen str =? 0); [done|]. by destruct (strtok "," str). }
  rewrite expand_S. destruct (strlen str =? 0); [done|].
  destruct (strtok "," str) as [|t toks]; [done|].
  revert es. induction (t :: toks) as [|tok l IHl]; simpl; intros es; [by intros [= <-]|].
  destruct (expand_token depth native tok) as [es1| | |] eqn:E1; try done. simpl.
  destruct (oconcat (expand_token depth native) l) as [es2| | |]; try done. simpl.
  intros [= <-]. apply Forall_app. split; [|by apply IHl].
  unfold expand_token in E1. destruct (has_prefix "@" tok).
  - destruct (syscall_find_group tok); [|done]. by eapply IH.
  - destruct (token_name tok) as [neg name]. by eapply name_entry_ok.
Qed.
End EntryOk.

(** ** Cutting a list in two: syscalls_in_list *)

(** The system calls of @default-keep: execve, execveat and prctl. *)
Definition keep_nrs (native : bool) : list Z :=
  if native then [59; 322; 157] else [11; 358; 172].

Definition kept (native : bool) (n : Z) : bool := existsb (Z.eqb n) (keep_nrs native).

(** The strings an entry adds to the pre-exec and to the post-exec list. *)
Definition pre_call (native : bool) (e : entry) : list string :=
  let n := entry_nr e in
  if (n <? 0) || kept native n then []
  else if e_err e <=? 0 then [nr_name native n]
  else [nr_name native n +:+ ":" +:+ errno_find_nr (e_err e)].

Definition post_call (native : bool) (e : entry) : list string :=
  let n := entry_nr e in
  if n <? 0 then [] else if kept native n then [nr_name native n] else [].

(** The entries the two strings denote when they are parsed. *)
Definition pre_entry (native : bool) (e : entry) : list entry :=
  let n := entry_nr e in
  if (n <? 0) || kept native n || negb (known native n) then []
  else [Entry false n (if e_err e <=? 0 then -1 else e_err e)].

Definition post_entry (native : bool) (e : entry) : list entry :=
  let n := entry_nr e in
  if (n <? 0) || negb (kept native n) then [] else [Entry false n (-1)].

(** [NULL] for no name, otherwise the names joined by commas. *)
Definition joined (names : list string) : option string :=
  match names with
  | [] => None
  | _ => Some (String.concat "," names)
  end.

Lemma concat_snoc l x :
  String.concat "," (l ++ [x]) =
  match l with [] => x | _ => String.concat "," l +:+ "," +:+ x end.
Proof.
  induction l as [|y l IH]; [done|]. destruct l as [|z l].
  - reflexivity.
  - change (String.concat "," ((y :: z :: l) ++ [x]))
      with (y +:+ "," +:+ String.concat "," ((z :: l) ++ [x])).
    rewrite IH. change (String.concat "," (y :: z :: l))
      with (y +:+ "," +:+ String.concat "," (z :: l)).
    by rewrite !append_assoc.
Qed.

Lemma append_name_joined l x : append_name (joined l) x = joined (l ++ [x]).
Proof.
  unfold append_name, joined. destruct l as [|y l]; [done|].
  change ((y :: l) ++ [x]) with (y :: (l ++ [x])).
  f_equal. by rewrite app_comm_cons, concat_snoc.
Qed.

Section InList.
Context `{H : SysHeaders} `{KOS : OS}.

Lemma expand_keep native :
  expand SCL_DEPTH native "@default-keep" =
  Ok (map (fun n => Entry false n (-1)) (keep_nrs native)).
Proof. destruct native; vm_compute; reflexivity. Qed.

(** With descriptor 0 the callback gets every entry, with the errno of the
    entry as its argument if there is one. *)
Lemma run_entry_fd0 {P} (cb : filter_fn P) arg native e p w :
  e_nr e <> SYSCALL_ERROR ->
  run_entry cb 0 arg native e p w =
  cb 0 (entry_nr e) (if 0 <=? e_err e then e_err e else arg) p native w.
Proof.
  intros Hn. unfold run_entry, check_syscall.
  destruct (Z.eqb_spec (e_nr e) SYSCALL_ERROR); [done|].
  change (0 <? 0) with false. change (0 =? 0) with true.
  rewrite !andb_false_r, !andb_true_r. fold (entry_nr e).
  by destruct (0 <=? e_err e).
Qed.

Lemma find_syscall_ok n a b c f m native w :
  0 <= n ->
  find_syscall 0 n 0 (SCL a b c f m) native w = (Ok (SCL a b c (f || (m =? n)) m), w).
Proof.
  intros Hn. unfold find_syscall. assert (n <? 0 = false) as -> by lia.
  cbn [sl_syscall sl_slist sl_prelist sl_postlist]. rewrite (Z.eqb_sym n m).
  destruct (m =? n); [by rewrite orb_true_r|by rewrite orb_false_r].
Qed.

(** The search loop over plain entries. *)
Lemma find_loop native ns a b c f m w :
  Forall (fun n => 0 <= n < SYSCALL_ERROR) ns ->
  cfold (run_entry find_syscall 0 0 native) (map (fun n => Entry false n (-1)) ns)
    (SCL a b c f m) w =
  (Ok (SCL a b c (f || existsb (Z.eqb m) ns) m), w).
Proof.
  intros Hns. revert f. induction Hns as [|n ns Hn Hns IH]; intros f.
  { simpl. by rewrite orb_false_r. }
  cbn [map cfold existsb].
  erewrite cbind_ok; [|rewrite run_entry_fd0 by (simpl; lia); apply find_syscall_ok; apply Hn].
  by rewrite IH, orb_assoc.
Qed.

Lemma find_keep native n w :
  syscall_check_list SCL_DEPTH (Some "@default-keep") (Some find_syscall) 0 0
    (SCL None None None false n) native w =
  (Ok (0, SCL None None None (kept native n) n), w).
Proof.
  rewrite (check_list_refines _ _ _ _ _ _ _ _ _ (expand_keep native)).
  erewrite cbind_ok; [|apply find_loop; destruct native;
    repeat (constructor; [unfold SYSCALL_ERROR, INT_MAX; lia|]); constructor].
  reflexivity.
Qed.

Lemma in_list_entry native e pre post w :
  entry_ok e ->
  run_entry syscall_in_list 0 0 native e
    (SCL (Some "@default-keep") (joined pre) (joined post) false 0) w =
  (Ok (SCL (Some "@default-keep") (joined (pre ++ pre_call native e))
           (joined (post ++ post_call native e)) false 0), w).
Proof.
  intros [Hn He]. rewrite run_entry_fd0 by done.
  set (arg := if 0 <=? e_err e then e_err e else 0).
  unfold syscall_in_list, pre_call, post_call. cbv zeta.
  destruct (entry_nr e <? 0); [by rewrite !app_nil_r|].
  cbn [sl_slist]. erewrite cbind_ok by apply find_keep.
  cbn [snd sl_found sl_slist sl_prelist sl_postlist sl_syscall]. fold (nr_name native (entry_nr e)).
  destruct (kept native (entry_nr e)); cbn [orb].
  { by rewrite append_name_joined, app_nil_r. }
  rewrite append_name_joined, app_nil_r. unfold cret. do 5 f_equal. unfold arg.
  assert (e_err e <> 0) as Hz.
  { destruct He as [->|[->|[->|(x & Hx & <-)]]]; try done.
    pose proof errnolist_bounds as B. rewrite forallb_forall in B. specialize (B x Hx). lia. }
  destruct (Z.leb_spec 0 (e_err e)), (Z.leb_spec (e_err e) 0); try lia; simpl;
    [|done]. destruct (Z.eqb_spec (e_err e) 0); [lia|done].
Qed.

Lemma in_list_loop native es pre post w :
  Forall entry_ok es ->
  cfold (run_entry syscall_in_list 0 0 native) es
    (SCL (Some "@default-keep") (joined pre) (joined post) false 0) w =
  (Ok (SCL (Some "@default-keep") (joined (pre ++ flat_map (pre_call native) es))
           (joined (post ++ flat_map (post_call native) es)) false 0), w).
Proof.
  intros Hes. revert pre post. induction Hes as [|e es He Hes IH]; intros pre post.
  { simpl. by rewrite !app_nil_r. }
  cbn [cfold flat_map]. erewrite cbind_ok by (by apply in_list_entry).
  by rewrite IH, !app_assoc.
Qed.

Lemma syscalls_in_list_ok native str es w :
  expand SCL_DEPTH native str = Ok es ->
  syscalls_in_list str "@default-keep" native w =
  (Ok (joined (flat_map (pre_call native) es), joined (flat_map (post_call native) es)), w).
Proof.
  intros He. unfold syscalls_in_list.
  pose proof (in_list_loop native es [] [] w (expand_ok _ _ _ _ He)) as E.
  assert (syscall_check_list SCL_DEPTH (Some str) (Some syscall_in_list) 0 0
            (SCL (Some "@default-keep") None None false 0) native w =
          (Ok (0, SCL (Some "@default-keep") (joined (flat_map (pre_call native) es))
                    (joined (flat_map (post_call native) es)) false 0), w)) as E'.
  { rewrite (check_list_refines _ _ _ _ _ _ _ _ _ He). by rewrite (cbind_ok _ _ _ _ _ E). }
  by rewrite (cbind_ok _ _ _ _ _ E').
Qed.
End InList.

(** ** Round trip: the two strings denote the entries they were built from *)

Section RoundTrip.
Context `{H : SysHeaders}.

Lemma expand_tokens depth native toks :
  toks <> [] -> forallb (is_token ",") toks = true ->
  expand (S depth) native (String.concat "," toks) = oconcat (expand_token depth native) toks.
Proof.
  intros Hne Ht. rewrite expand_S, concat_tokens_nonempty, strtok_concat by done.
  by destruct toks.
Qed.

Lemma plain_name_inv t :
  plain_name t = true ->
  nonempty t = true /\ string_mem ":" t = false /\ has_prefix "@" t = false
  /\ has_prefix "!" t = false /\ has_prefix "$" t = false.
Proof.
  unfold plain_name. intros Hp. repeat apply andb_true_iff in Hp as [Hp ?].
  rewrite !negb_true_iff in *. auto.
Qed.

(** A name of the tables, or "unknown", with an errno of the table. *)
Lemma errno_token_entry depth native name err x :
  plain_name name = true -> In x errnolist -> en_nr x = err ->
  expand_token depth native (name +:+ ":" +:+ errno_find_nr err) =
  Ok (if sys_number native name =? SYSCALL_ERROR then []
      else [Entry false (sys_number native name) err]).
Proof.
  intros (Hn & Hc & Ha & Hx & Hd)%plain_name_inv Hin Hnr.
  destruct (errno_find_nr_known err x Hin Hnr) as (Hr & _ & _ & Hk & Hl).
  change (":" +:+ errno_find_nr err) with (String ":" (errno_find_nr err)).
  unfold expand_token, token_name, name_entry, syscall_process_name.
  rewrite has_prefix_char_app, Ha by done.
  rewrite (has_prefix_none "!") by (by rewrite has_prefix_char_app).
  rewrite strlen_nonempty by (by apply nonempty_app).
  rewrite strchr_split_app by done.
  rewrite strlen_nonempty, (has_prefix_none "$") by done.
  apply streq_neq in Hk as ->. apply streq_neq in Hl as ->. rewrite Hr. cbv zeta.
  pose proof errnolist_bounds as B. rewrite forallb_forall in B. specialize (B x Hin).
  destruct (Z.eqb_spec err (-1)); [lia|]. reflexivity.
Qed.

Lemma nr_name_plain native n :
  is_token "," (nr_name native n) = true /\ plain_name (nr_name native n) = true
  /\ sys_number native (nr_name native n) = if known native n then n else SYSCALL_ERROR.
Proof.
  destruct (known native n) eqn:E.
  - destruct (nr_name_known native n E) as (-> & _ & ? & ?). auto.
  - rewrite nr_name_unknown, unknown_not_a_name by done. auto.
Qed.

Lemma errno_call_token name err x :
  is_token "," name = true -> In x errnolist -> en_nr x = err ->
  is_token "," (name +:+ ":" +:+ errno_find_nr err) = true.
Proof.
  intros [Hn Hc%negb_true_iff]%andb_true_iff Hin Hnr.
  destruct (errno_find_nr_known err x Hin Hnr) as (_ & Ht & _).
  unfold is_token in *. apply andb_true_iff in Ht as [_ Ht%negb_true_iff].
  by rewrite nonempty_app, !string_mem_app, Hc, Ht.
Qed.

Lemma pre_call_entry native e :
  entry_ok e ->
  oconcat (expand_token 3 native) (pre_call native e) = Ok (pre_entry native e)
  /\ forallb (is_token ",") (pre_call native e) = true.
Proof.
  intros [Hne He]. unfold pre_call, pre_entry. cbv zeta.
  destruct (entry_nr e <? 0); [done|]. destruct (kept native (entry_nr e)); [done|].
  cbn [orb]. destruct (nr_name_plain native (entry_nr e)) as (Ht & Hp & Hs).
  pose proof (known_not_error native (entry_nr e)) as Hk.
  assert (Hsel : forall err,
    (if (if known native (entry_nr e) then entry_nr e else SYSCALL_ERROR) =? SYSCALL_ERROR
     then [] else [Entry false (if known native (entry_nr e) then entry_nr e
                                else SYSCALL_ERROR) err]) =
    (if negb (known native (entry_nr e)) then [] else [Entry false (entry_nr e) err])).
  { intros err. destruct (known native (entry_nr e)) eqn:E; [|done].
    destruct (Z.eqb_spec (entry_nr e) SYSCALL_ERROR); [by destruct Hk|done]. }
  destruct (Z.leb_spec (e_err e) 0).
  - simpl. rewrite Ht, plain_name_entry by done. split; [|done]. simpl.
    rewrite app_nil_r. unfold plain_entry. by rewrite Hs, Hsel.
  - destruct He as [E|[E|[E|(x & Hx & E)]]]; try (rewrite E in *; done).
    simpl oconcat. simpl forallb. rewrite (errno_token_entry 3 native _ _ x) by done.
    rewrite (errno_call_token _ _ x) by done. split; [|done].
    simpl. by rewrite app_nil_r, Hs, Hsel.
Qed.

Lemma post_call_entry native e :
  oconcat (expand_token 3 native) (post_call native e) = Ok (post_entry native e)
  /\ forallb (is_token ",") (post_call native e) = true.
Proof.
  unfold post_call, post_entry. cbv zeta.
  destruct (entry_nr e <? 0); [done|]. destruct (kept native (entry_nr e)) eqn:E; [|done].
  destruct (nr_name_plain native (entry_nr e)) as (Ht & Hp & Hs).
  assert (known native (entry_nr e) = true) as Hk.
  { unfold kept in E. apply existsb_exists in E as (n & Hn & ->%Z.eqb_eq).
    destruct native; simpl in Hn; repeat destruct Hn as [<-|Hn]; done || by vm_compute. }
  simpl. rewrite Ht, plain_name_entry by done. split; [|done]. simpl.
  rewrite app_nil_r. unfold plain_entry. rewrite Hs, Hk.
  destruct (Z.eqb_spec (entry_nr e) SYSCALL_ERROR); [|done].
  by destruct (known_not_error native (entry_nr e)).
Qed.

Lemma forallb_flat_map {A B} (f : B -> bool) (g : A -> list B) l :
  Forall (fun a => forallb f (g a) = true) l -> forallb f (flat_map g l) = true.
Proof.
  induction 1 as [|a l Ha Hl IH]; [done|]. simpl. by rewrite forallb_app, Ha, IH.
Qed.

(** The pre-exec string, parsed. *)
Lemma expand_pre native es pre :
  Forall entry_ok es -> joined (flat_map (pre_call native) es) = Some pre ->
  expand SCL_DEPTH native pre = Ok (flat_map (pre_entry native) es).
Proof.
  intros Hes. unfold joined.
  destruct (flat_map (pre_call native) es) as [|c cs] eqn:E; [done|]. intros Hj.
  assert (pre = String.concat "," (c :: cs)) as -> by congruence. unfold SCL_DEPTH.
  rewrite expand_tokens; [rewrite <- E|done|rewrite <- E].
  - apply oconcat_flat_map. eapply List.Forall_impl; [|exact Hes].
    intros e He. by apply pre_call_entry.
  - apply forallb_flat_map. eapply List.Forall_impl; [|exact Hes].
    intros e He. by apply pre_call_entry.
Qed.

Lemma pre_none native es :
  Forall entry_ok es -> joined (flat_map (pre_call native) es) = None ->
  flat_map (pre_entry native) es = [].
Proof.
  unfold joined. intros Hes. destruct (flat_map (pre_call native) es) eqn:E; [|done]. intros _.
  enough (Ok (flat_map (pre_entry native) es) = Ok []) as [= ->] by done.
  rewrite <- (oconcat_flat_map (expand_token 3 native) (pre_call native)); [by rewrite E|].
  eapply List.Forall_impl; [|exact Hes]. intros e He. by apply pre_call_entry.
Qed.

Lemma expand_post native es post :
  joined (flat_map (post_call native) es) = Some post ->
  expand SCL_DEPTH native post = Ok (flat_map (post_entry native) es).
Proof.
  unfold joined.
  destruct (flat_map (post_call native) es) as [|c cs] eqn:E; [done|]. intros Hj.
  assert (post = String.concat "," (c :: cs)) as -> by congruence. unfold SCL_DEPTH.
  rewrite expand_tokens; [rewrite <- E|done|rewrite <- E].
  - apply oconcat_flat_map, List.Forall_forall. intros. apply post_call_entry.
  - apply forallb_flat_map, List.Forall_forall. intros. apply post_call_entry.
Qed.

Lemma post_none native es :
  joined (flat_map (post_call native) es) = None -> flat_map (post_entry native) es = [].
Proof.
  unfold joined. destruct (flat_map (post_call native) es) eqn:E; [|done]. intros _.
  enough (Ok (flat_map (post_entry native) es) = Ok []) as [= ->] by done.
  rewrite <- (oconcat_flat_map (expand_token 3 native) (post_call native)); [by rewrite E|].
  apply List.Forall_forall. intros. apply post_call_entry.
Qed.
End RoundTrip.

(** ** The files the builders write *)

Definition excepted (native : bool) (act : Z) (rs : list (Z * Z)) (ret : list sock_filter)
    : list sock_filter := header native act ++ rules_code rs ++ ret.

Section Builders.
Context `{H : SysHeaders} `{KOS : OS} {OL : OSLaws}.

Lemma expand_group_name native name g :
  find_group name = Some g -> is_token "," name = true -> has_prefix "@" name = true ->
  expand SCL_DEPTH native name =
  Ok (flat_map (plain_entry native) (group_names 3 (sg_items g))).
Proof.
  intros Hg Ht Hp. unfold SCL_DEPTH.
  change name with (String.concat "," [name]) at 1.
  rewrite expand_tokens; [|done|simpl; by rewrite Ht]. simpl.
  unfold expand_token. rewrite Hp, find_group_list, Hg.
  pose proof (find_group_some _ _ Hg) as [Hin _].
  rewrite (expand_group_3 0) by done. simpl. by rewrite app_nil_r.
Qed.

(** The names the default filter blocks. *)
Definition default_names (allow_debuggers : bool) : list string :=
  group_names 3 (sg_items (if allow_debuggers then group_default else group_default_nodebuggers)).

Definition default_entries (allow_debuggers native : bool) : list entry :=
  flat_map (plain_entry native) (default_names allow_debuggers).

Lemma add_default_list_ok fd dbg native w :
  0 < fd -> is_open fd w ->
  add_default_list fd dbg native w =
  (Ok tt, emit fd (rules_code (list_rules blacklist_rules (w_action w)
                                 (default_entries dbg native))) w).
Proof.
  intros Hfd Ho. unfold add_default_list, default_entries, default_names.
  destruct dbg; cbn [negb];
    (erewrite cbind_ok;
       [|apply check_list_emits; [apply emits_blacklist|done|done|];
         by apply expand_group_name]); reflexivity.
Qed.

Lemma check_list_or_exit_ok cb R fd native str es w :
  emits cb R -> 0 < fd -> is_open fd w -> expand SCL_DEPTH native str = Ok es ->
  check_list_or_exit str cb fd native w =
  (Ok tt, emit fd (rules_code (list_rules R (w_action w) es)) w).
Proof.
  intros Hcb Hfd Ho He. unfold check_list_or_exit.
  by erewrite cbind_ok by (by apply check_list_emits).
Qed.

Lemma seccomp_default_ok f dbg native w :
  seccomp_default f dbg native w =
  (Ok tt, saved f (excepted native (w_action w)
            (list_rules blacklist_rules (w_action w) (default_entries dbg native))
            RETURN_ALLOW) w).
Proof.
  unfold seccomp_default. erewrite cbind_ok by apply open_filter_ok.
  emit_step (filter_init_ok (os_open f)).
  emit_step (add_default_list_ok (os_open f)).
  emit_step (filter_end_blacklist_ok (os_open f)).
  rewrite close_saved. do 2 f_equal. unfold excepted. by rewrite app_assoc.
Qed.

Definition drop_rules (native : bool) (act : Z) (es : list entry) : list (Z * Z) :=
  list_rules whitelist_excluded_rules act es
  ++ list_rules blacklist_rules act (flat_map (pre_entry native) es).

Definition default_drop_rules (dbg native : bool) (act : Z) (es : list entry) : list (Z * Z) :=
  list_rules whitelist_excluded_rules act es
  ++ list_rules blacklist_rules act (default_entries dbg native)
  ++ list_rules blacklist_rules act (flat_map (pre_entry native) es).

Definition post_rules (native : bool) (act : Z) (es : list entry) : list (Z * Z) :=
  list_rules blacklist_rules act (flat_map (post_entry native) es).

Definition keep_rules (native : bool) (act : Z) (es : list entry) : list (Z * Z) :=
  list_rules blacklist_excluded_rules act es
  ++ list_rules whitelist_rules act (map (fun n => Entry false n (-1)) (keep_nrs native))
  ++ list_rules whitelist_rules act es.

(** The state after a drop filter: the pre-exec file, and the post-exec file
    when the list names a system call firejail itself needs. *)
Definition after_drop (f1 f2 : string) (native : bool) (rs : list (Z * Z)) (es : list entry)
    (w : world) : world :=
  let w1 := saved f1 (excepted native (w_action w) rs RETURN_ALLOW) w in
  match flat_map (post_call native) es with
  | [] => w1
  | _ => saved f2 (excepted native (w_action w) (post_rules native (w_action w) es)
                     RETURN_ALLOW) w1
  end.

Lemma write_postexec_ok f2 native es w :
  write_postexec f2 (joined (flat_map (post_call native) es)) native w =
  (Ok tt,
   match flat_map (post_call native) es with
   | [] => w
   | _ => saved f2 (excepted native (w_action w) (post_rules native (w_action w) es)
                      RETURN_ALLOW) w
   end).
Proof.
  destruct (joined (flat_map (post_call native) es)) as [post|] eqn:E.
  - pose proof (expand_post _ _ _ E) as He. unfold write_postexec.
    erewrite cbind_ok by apply open_filter_ok.
    emit_step (filter_init_ok (os_open f2)).
    rewrite ?cbind_assoc; erewrite cbind_ok
      by (apply check_list_or_exit_ok; eauto using emits_blacklist with bpf).
    rewrite emit_emit, action_emit.
    emit_step (filter_end_blacklist_ok (os_open f2)).
    rewrite close_saved. unfold joined in E.
    destruct (flat_map (post_call native) es); [done|].
    unfold excepted. by rewrite <- app_assoc.
  - unfold joined in E. by destruct (flat_map (post_call native) es).
Qed.

(** The pre-exec list, when there is one, written to the open file. *)
Lemma pre_list_ok fd native es w :
  0 < fd -> is_open fd w -> Forall entry_ok es ->
  (match joined (flat_map (pre_call native) es) with
   | Some pre => check_list_or_exit pre filter_add_blacklist fd native
   | None => cret tt
   end) w =
  (Ok tt, emit fd (rules_code (list_rules blacklist_rules (w_action w)
                                 (flat_map (pre_entry native) es))) w).
Proof.
  intros Hfd Ho Hes. destruct (joined (flat_map (pre_call native) es)) as [pre|] eqn:E.
  - pose proof (expand_pre _ _ _ Hes E).
    apply check_list_or_exit_ok; auto using emits_blacklist.
  - rewrite (pre_none _ _ Hes E). by rewrite emit_nil.
Qed.

Lemma seccomp_drop_ok f1 f2 str dbg native es w :
  expand SCL_DEPTH native str = Ok es ->
  seccomp_drop f1 f2 str dbg native w =
  (Ok tt, after_drop f1 f2 native (drop_rules native (w_action w) es) es w).
Proof.
  intros He. pose proof (expand_ok _ _ _ _ He) as Hes. unfold seccomp_drop.
  erewrite cbind_ok by apply open_filter_ok.
  emit_step (filter_init_ok (os_open f1)).
  rewrite ?cbind_assoc; erewrite cbind_ok
    by (apply check_list_emits; eauto using emits_whitelist_excluded with bpf).
  rewrite emit_emit, action_emit.
  erewrite cbind_ok by (by apply syscalls_in_list_ok). cbn [fst snd].
  erewrite cbind_ok by (apply pre_list_ok; eauto with bpf). rewrite emit_emit, action_emit.
  emit_step (filter_end_blacklist_ok (os_open f1)).
  erewrite cbind_ok by apply close_saved. rewrite write_postexec_ok.
  unfold after_drop, drop_rules, excepted. cbn [w_action saved opened].
  rewrite rules_code_app, <- !app_assoc. reflexivity.
Qed.

Lemma seccomp_default_drop_ok f1 f2 str dbg native es w :
  expand SCL_DEPTH native str = Ok es ->
  seccomp_default_drop f1 f2 str dbg native w =
  (Ok tt, after_drop f1 f2 native (default_drop_rules dbg native (w_action w) es) es w).
Proof.
  intros He. pose proof (expand_ok _ _ _ _ He) as Hes. unfold seccomp_default_drop.
  erewrite cbind_ok by apply open_filter_ok.
  emit_step (filter_init_ok (os_open f1)).
  rewrite ?cbind_assoc; erewrite cbind_ok
    by (apply check_list_emits; eauto using emits_whitelist_excluded with bpf).
  rewrite emit_emit, action_emit.
  emit_step (add_default_list_ok (os_open f1)).
  erewrite cbind_ok by (by apply syscalls_in_list_ok). cbn [fst snd].
  erewrite cbind_ok by (apply pre_list_ok; eauto with bpf). rewrite emit_emit, action_emit.
  emit_step (filter_end_blacklist_ok (os_open f1)).
  erewrite cbind_ok by apply close_saved. rewrite write_postexec_ok.
  unfold after_drop, default_drop_rules, excepted. cbn [w_action saved opened].
  rewrite !rules_code_app, <- !app_assoc. reflexivity.
Qed.

Lemma seccomp_keep_ok f1 f2 str native es w :
  expand SCL_DEPTH native str = Ok es ->
  seccomp_keep f1 f2 str native w =
  (Ok tt, saved f1 (excepted native (w_action w) (keep_rules native (w_action w) es)
                      (KILL_OR_RETURN_ERRNO (w_action w))) w).
Proof.
  intros He. unfold seccomp_keep.
  erewrite cbind_ok by apply open_filter_ok.
  emit_step (filter_init_ok (os_open f1)).
  rewrite ?cbind_assoc; erewrite cbind_ok
    by (apply check_list_emits; eauto using emits_blacklist_excluded with bpf).
  rewrite emit_emit, action_emit.
  rewrite ?cbind_assoc; erewrite cbind_ok
    by (apply check_list_emits; eauto using emits_whitelist, expand_keep with bpf).
  rewrite emit_emit, action_emit. cbn [fst]. change (0 =? 0) with true.
  unfold cassert. rewrite cret_bind.
  erewrite cbind_ok by (apply check_list_or_exit_ok; eauto using emits_whitelist with bpf).
  rewrite emit_emit, action_emit.
  emit_step (filter_end_whitelist_ok (os_open f1)).
  rewrite close_saved. unfold keep_rules, excepted. cbn [w_action opened].
  rewrite !rules_code_app, <- !app_assoc. reflexivity.
Qed.
End Builders.
