(* ===== verification/Optimizer.v ===== *)
(** * The filter optimizer: src/fsec-optimize

    A blacklist filter tests the system call number again and again, each test
    followed by its own return of the error action.  The optimizer removes
    those returns, appends a single one and redirects the jumps to it.

    [optimize_blacklists] works on arrays in place; here the array is a list,
    [None] stands for the write past its end that [filter_step2[j]] would be,
    and the narrowing of a jump offset to its [__u8] member is explicit. *)

From S2P Require Import Prelude.
From S2P Require Import Clib.
From S2P Require Import Bpf.
From S2P Require Import SyscallTables.
From S2P Require Import FilterFile.
Local Open Scope string_scope.
Local Open Scope list_scope.
Local Open Scope Z_scope.

Definition LIMIT_BLACKLISTS : Z := 4.

Record Action := Act { to_remove : bool; to_fix_jumps : bool }.

(** [act] is the optimizer's own [arg_seccomp_error_action]. *)
Definition is_blacklist (act : Z) (bpf next : sock_filter) : bool :=
  (code bpf =? BPF_JMP + BPF_JEQ + BPF_K)
  && (code next =? BPF_RET + BPF_K)
  && (k next =? u32 act).

Fixpoint count_blacklists (act : Z) (filter : list sock_filter) : Z :=
  match filter with
  | bpf :: ((next :: _) as filter') =>
      (if is_blacklist act bpf next then 1 else 0) + count_blacklists act filter'
  | _ => 0
  end.

(** Step 1: after a match the loop skips the removed line. *)
Fixpoint mark_blacklists (act : Z) (filter : list sock_filter) : list Action :=
  match filter with
  | bpf :: ((next :: filter'') as filter') =>
      if is_blacklist act bpf next
      then Act false true :: Act true false :: mark_blacklists act filter''
      else Act false false :: mark_blacklists act filter'
  | [_] => [Act false false]
  | [] => []
  end.

(** Step 2: the lines that are kept, with their actions. *)
Definition keep_lines (filter : list sock_filter) (action : list Action)
    : list (sock_filter * Action) :=
  List.filter (fun l => negb (to_remove l.2)) (combine filter action).

(** Step 4: line [i] of [entries]. *)
Definition fix_jumps (entries : Z) (i : nat) (l : sock_filter * Action) : sock_filter :=
  if to_fix_jumps l.2
  then Sock (code l.1) (u8 (entries - Z.of_nat i - 2)) (u8 0) (k l.1)
  else l.1.

Definition optimize_blacklists (act : Z) (filter : list sock_filter)
    : option (list sock_filter) :=
  let action := mark_blacklists act filter in
  let kept := keep_lines filter action in
  (* the rest of [filter_step2] and [action_step2] is the copy and zeros *)
  match drop (length kept) filter with
  | [] => None
  | old :: _ =>
      (* step 3: two members are assigned, the others keep their value *)
      let last := Sock (u16 (BPF_RET + BPF_K)) (jt old) (jf old) (u32 act) in
      let entries := Z.of_nat (length kept) + 1 in
      Some (imap (fix_jumps entries) kept ++ [last])
  end.

Definition optimize (act : Z) (filter : list sock_filter) : outcome (option (list sock_filter)) :=
  match filter with
  | [] => AssertFail
  | _ =>
      if LIMIT_BLACKLISTS <? count_blacklists act filter
      then Ok (optimize_blacklists act filter)
      else Ok (Some filter)
  end.

(** ** main *)

(** The error action of the environment variable FIREJAIL_SECCOMP_ERROR_ACTION. *)
Definition error_action (env : option string) : outcome Z :=
  match env with
  | None => Ok (Z.lor SECCOMP_RET_ERRNO EPERM)
  | Some s =>
      if streq s "kill" then Ok SECCOMP_RET_KILL
      else if streq s "log" then Ok SECCOMP_RET_LOG
      else
        let nr := errno_find_name s in
        if nr =? -1 then Exit 1 else Ok (Z.lor nr SECCOMP_RET_ERRNO)
  end.

Section Main.
Context `{KOS : OS}.

(** The exit status; an empty file cannot be mapped. *)
Definition optimize_main (env : option string) (fname : string) : M Z :=
  act <~ clift (error_action env) ;;
  w <~ cget ;;
  match w_files w !! fname with
  | None => cexit 1
  | Some [] => cexit 1
  | Some bytes =>
      r <~ clift (optimize act (load_filter bytes)) ;;
      match r with
      | None => cfail
      | Some out =>
          fd <~ sys_open fname ;;
          if fd =? -1 then cret 1
          else
            size <~ sys_write fd (enc out) ;;
            if negb (size =? Z.of_nat (length (enc out))) then cret 1
            else sys_close fd ;;; cret 0
      end
  end.
End Main.

(** ** The optimizer never writes past its array *)

Lemma mark_cons act a b l :
  mark_blacklists act (a :: b :: l) =
  if is_blacklist act a b
  then Act false true :: Act true false :: mark_blacklists act l
  else Act false false :: mark_blacklists act (b :: l).
Proof. reflexivity. Qed.

Lemma count_cons act a b l :
  count_blacklists act (a :: b :: l) =
  (if is_blacklist act a b then 1 else 0) + count_blacklists act (b :: l).
Proof. reflexivity. Qed.

(** Induction on a list one or two elements at a time. *)
Lemma list_ind2 {A} (P : list A -> Prop) :
  P [] -> (forall a, P [a]) -> (forall a b l, P l -> P (b :: l) -> P (a :: b :: l)) ->
  forall l, P l.
Proof.
  intros H0 H1 H2 l. enough (P l /\ forall a, P (a :: l)) by tauto.
  induction l as [|b l [IH1 IH2]]; auto.
Qed.

Lemma length_keep_lines filter action :
  (length (keep_lines filter action) <= length filter)%nat.
Proof.
  unfold keep_lines. etrans; [apply filter_length_le|]. rewrite length_combine. lia.
Qed.

Lemma keep_lines_mark act a b l :
  keep_lines (a :: b :: l) (mark_blacklists act (a :: b :: l)) =
  if is_blacklist act a b
  then (a, Act false true) :: keep_lines l (mark_blacklists act l)
  else (a, Act false false) :: keep_lines (b :: l) (mark_blacklists act (b :: l)).
Proof. rewrite mark_cons. by destruct (is_blacklist act a b). Qed.

(** A marked pair removes a line. *)
Lemma keep_lines_lt act filter :
  0 < count_blacklists act filter ->
  (length (keep_lines filter (mark_blacklists act filter)) < length filter)%nat.
Proof.
  induction filter as [| |a b l IHl IHb] using list_ind2; [done|done|].
  rewrite count_cons, keep_lines_mark. destruct (is_blacklist act a b); cbn [length]; intros Hc.
  - pose proof (length_keep_lines l (mark_blacklists act l)). lia.
  - rewrite <- Nat.succ_lt_mono. apply IHb. lia.
Qed.

Lemma optimize_in_bounds_aux act filter :
  filter <> [] ->
  exists out, optimize act filter = Ok (Some out)
    /\ (0 < length out <= length filter)%nat.
Proof.
  intros Hf. unfold optimize, optimize_blacklists. destruct filter as [|a l]; [done|].
  destruct (Z.ltb_spec LIMIT_BLACKLISTS (count_blacklists act (a :: l))) as [Hc|].
  - pose proof (keep_lines_lt act (a :: l)) as Hl. unfold LIMIT_BLACKLISTS in Hc. cbv zeta.
    destruct (drop _ (a :: l)) as [|old rest] eqn:E; apply (f_equal length) in E;
      rewrite length_drop in E; cbn [length] in E, Hl; [lia|].
    eexists. split; [reflexivity|]. rewrite length_app, length_imap. cbn [length]. lia.
  - eexists. split; [reflexivity|]. cbn [length]. lia.
Qed.

(** ** What the optimizer makes of a rule list *)

Section Rules.
Context (act : Z).

Definition is_action (r : Z * Z) : bool := u32 r.2 =? u32 act.

Definition plain_line (s : sock_filter) : sock_filter * Action := (s, Act false false).

Definition kept_rule (r : Z * Z) : list (sock_filter * Action) :=
  match match_return r.1 r.2 with
  | [test; ret] =>
      if is_action r then [(test, Act false true)] else [plain_line test; plain_line ret]
  | _ => []
  end.

Lemma keep_rule r tl :
  tl <> [] ->
  keep_lines (match_return r.1 r.2 ++ tl) (mark_blacklists act (match_return r.1 r.2 ++ tl)) =
  kept_rule r ++ keep_lines tl (mark_blacklists act tl).
Proof.
  intros Htl. destruct tl as [|t tl]; [done|]. unfold match_return, kept_rule. cbn [app].
  rewrite keep_lines_mark. cbn [match_return].
  change (is_blacklist act (BPF_JUMP (BPF_JMP + BPF_JEQ + BPF_K) r.1 0 1)
            (BPF_STMT (BPF_RET + BPF_K) r.2)) with (is_action r).
  by destruct (is_action r).
Qed.

Lemma keep_rules_code rs :
  keep_lines (rules_code rs ++ RETURN_ALLOW) (mark_blacklists act (rules_code rs ++ RETURN_ALLOW)) =
  flat_map kept_rule rs ++ map plain_line RETURN_ALLOW.
Proof.
  induction rs as [|r rs IH]; [done|].
  change (rules_code (r :: rs)) with (match_return r.1 r.2 ++ rules_code rs).
  rewrite <- app_assoc, keep_rule by (by destruct (rules_code rs)).
  rewrite IH. cbn [flat_map]. by rewrite app_assoc.
Qed.

(** The optimized rules: a test of the error action jumps behind the rules and
    the final allow. *)
Fixpoint opt_code (rs : list (Z * Z)) : list sock_filter :=
  match rs with
  | [] => []
  | r :: rs' =>
      if is_action r
      then Sock (BPF_JMP + BPF_JEQ + BPF_K) (u8 (Z.of_nat (length (opt_code rs')) + 1)) 0 (u32 r.1)
           :: opt_code rs'
      else match_return r.1 r.2 ++ opt_code rs'
  end.

Lemma length_opt_code rs : length (opt_code rs) = length (flat_map kept_rule rs).
Proof.
  induction rs as [|r rs IH]; [done|]. cbn [opt_code flat_map]. rewrite length_app.
  unfold kept_rule at 1, match_return. destruct (is_action r); cbn [length app Nat.add]; by rewrite IH.
Qed.

Lemma fix_rules entries off rs :
  entries = Z.of_nat off + Z.of_nat (length (flat_map kept_rule rs)) + 2 ->
  imap (fun i => fix_jumps entries (off + i)) (flat_map kept_rule rs ++ map plain_line RETURN_ALLOW)
  = opt_code rs ++ RETURN_ALLOW.
Proof.
  revert off. induction rs as [|r rs IH]; intros off He; [done|].
  cbn [flat_map opt_code]. unfold kept_rule at 1. unfold match_return.
  cbn [flat_map] in He. rewrite length_app in He. unfold kept_rule at 1, match_return in He.
  destruct (is_action r); cbn [app length] in *.
  - rewrite imap_cons. f_equal.
    + unfold fix_jumps. cbn [to_fix_jumps fst snd]. cbn [code k BPF_JUMP].
      change (u16 (BPF_JMP + BPF_JEQ + BPF_K)) with (BPF_JMP + BPF_JEQ + BPF_K).
      rewrite length_opt_code. f_equal. f_equal. lia.
    + rewrite <- (IH (S off)) by lia. apply imap_ext. intros. cbn. f_equal. lia.
  - rewrite !imap_cons. f_equal. f_equal.
    rewrite <- (IH (S (S off))) by lia. apply imap_ext. intros. cbn. f_equal. lia.
Qed.

Context `{BM : BpfMachine} {BL : BpfLaws}.

Lemma exec_opt_code rs last d a t f :
  last = Sock (BPF_RET + BPF_K) t f (u32 act) ->
  (Z.of_nat (length (opt_code rs)) <= 255) ->
  bpf_exec (opt_code rs ++ RETURN_ALLOW ++ [last]) d a =
  Some (match first_match rs a with Some v => v | None => SECCOMP_RET_ALLOW end).
Proof.
  intros ->. unfold first_match. induction rs as [|r rs IH]; intros Hl.
  { cbn [opt_code app]. unfold RETURN_ALLOW. cbn [app]. by rewrite exec_RET. }
  cbn [opt_code List.find]. cbn [opt_code] in Hl.
  destruct (is_action r) eqn:Er; cbn [length] in Hl.
  - cbn [app]. rewrite exec_jeq_k. destruct (a =? u32 r.1).
    + rewrite u8_small by lia. unfold RETURN_ALLOW.
      rewrite app_assoc, drop_app_length' by (rewrite length_app; cbn [length]; lia).
      rewrite exec_ret_k. f_equal. unfold is_action in Er. lia.
    + cbn [drop Z.to_nat]. rewrite drop_0. apply IH. lia.
  - rewrite <- app_assoc, exec_match_return. rewrite length_app in Hl.
    destruct (a =? u32 r.1); [done|]. apply IH. lia.
Qed.
End Rules.
