(* ===== verification/Install.v ===== *)
(** * Installing the filters: main of fseccomp, and seccomp.c of firejail

    Firejail runs fseccomp and fsec-optimize as child processes that share
    nothing with it but the files, then reads the filter files and installs
    them.  Printing is not modelled. *)

From S2P Require Import Prelude.
From S2P Require Import Clib.
From S2P Require Import Bpf.
From S2P Require Import SyscallTables.
From S2P Require Import SyscallGroups.
From S2P Require Import FilterFile.
From S2P Require Import Syscall.
From S2P Require Import Fseccomp.
From S2P Require Import Optimizer.
Local Open Scope string_scope.
Local Open Scope list_scope.
Local Open Scope Z_scope.

(** ** src/fseccomp/main.c *)

Section FseccompMain.
Context `{H : SysHeaders} `{KOS : OS}.

(** The command of [argv[1]], [argv[2]], ...; [None]: invalid arguments. *)
Definition fseccomp_command (argv : list string) : option (M unit) :=
  match argv with
  | [a1] =>
      if existsb (streq a1)
           ["debug-syscalls"; "debug-syscalls32"; "debug-syscall-groups"; "debug-errnos";
            "debug-protocols"]
      then Some (cret tt) else None
  | [a1; a2] =>
      if streq a1 "default" then Some (seccomp_default a2 false true)
      else if streq a1 "default32" then Some (seccomp_default a2 false false)
      else if streq a1 "memory-deny-write-execute" then Some (memory_deny_write_execute a2)
      else if streq a1 "memory-deny-write-execute.32" then Some (memory_deny_write_execute_32 a2)
      else None
  | [a1; a2; a3] =>
      if streq a1 "secondary" && streq a2 "32" then Some (seccomp_secondary_32 a3)
      else if streq a1 "secondary" && streq a2 "block" then Some (seccomp_secondary_block a3)
      else if streq a1 "default" && streq a3 "allow-debuggers"
      then Some (seccomp_default a2 true true)
      else if streq a1 "default32" && streq a3 "allow-debuggers"
      then Some (seccomp_default a2 true false)
      else if streq a1 "restrict-namespaces" then Some (deny_ns a2 a3)
      else if streq a1 "restrict-namespaces.32" then Some (deny_ns_32 a2 a3)
      else None
  | [a1; a2; a3; a4] =>
      if streq a1 "protocol" && streq a2 "build" then Some (protocol_build_filter a3 a4)
      else if streq a1 "drop" then Some (seccomp_drop a2 a3 a4 false true)
      else if streq a1 "drop32" then Some (seccomp_drop a2 a3 a4 false false)
      else if streq a1 "keep" then Some (seccomp_keep a2 a3 a4 true)
      else if streq a1 "keep32" then Some (seccomp_keep a2 a3 a4 false)
      else None
  | [a1; a2; a3; a4; a5] =>
      if streq a1 "drop" && streq a5 "allow-debuggers"
      then Some (seccomp_drop a2 a3 a4 true true)
      else if streq a1 "drop32" && streq a5 "allow-debuggers"
      then Some (seccomp_drop a2 a3 a4 true false)
      else if streq a1 "default" && streq a2 "drop"
      then Some (seccomp_default_drop a3 a4 a5 false true)
      else if streq a1 "default32" && streq a2 "drop"
      then Some (seccomp_default_drop a3 a4 a5 false false)
      else None
  | [a1; a2; a3; a4; a5; a6] =>
      if streq a1 "default" && streq a2 "drop" && streq a6 "allow-debuggers"
      then Some (seccomp_default_drop a3 a4 a5 true true)
      else if streq a1 "default32" && streq a2 "drop" && streq a6 "allow-debuggers"
      then Some (seccomp_default_drop a3 a4 a5 true false)
      else None
  | _ => None
  end.

(** The exit status. *)
Definition fseccomp_main (env : option string) (argv : list string) : M Z :=
  match argv with
  | [] => cret 1
  | a1 :: _ =>
      if streq a1 "-h" || streq a1 "--help" || streq a1 "-?" then cret 0
      else
        act <~ clift (error_action env) ;;
        cmodify (set_action act) ;;;
        match fseccomp_command argv with
        | Some command => command ;;; cret 0
        | None => cret 1
        end
  end.
End FseccompMain.

(** ** src/include/rundefs.h *)

Definition RUN_SECCOMP_DIR : string := "/run/firejail/mnt/seccomp".
Definition RUN_SECCOMP_PROTOCOL : string := RUN_SECCOMP_DIR +:+ "/seccomp.protocol".
Definition RUN_SECCOMP_CFG : string := RUN_SECCOMP_DIR +:+ "/seccomp".
Definition RUN_SECCOMP_32 : string := RUN_SECCOMP_DIR +:+ "/seccomp.32".
Definition RUN_SECCOMP_MDWX : string := RUN_SECCOMP_DIR +:+ "/seccomp.mdwx".
Definition RUN_SECCOMP_MDWX_32 : string := RUN_SECCOMP_DIR +:+ "/seccomp.mdwx.32".
Definition RUN_SECCOMP_NS : string := RUN_SECCOMP_DIR +:+ "/seccomp.namespaces".
Definition RUN_SECCOMP_NS_32 : string := RUN_SECCOMP_DIR +:+ "/seccomp.namespaces.32".
Definition RUN_SECCOMP_BLOCK_SECONDARY : string := RUN_SECCOMP_DIR +:+ "/seccomp.block_secondary".
Definition RUN_SECCOMP_POSTEXEC : string := RUN_SECCOMP_DIR +:+ "/seccomp.postexec".
Definition RUN_SECCOMP_POSTEXEC_32 : string := RUN_SECCOMP_DIR +:+ "/seccomp.postexec32".

(** ** src/firejail/seccomp.c *)

Definition DEFAULT_SECCOMP_ERROR_ACTION : Z := EPERM.

(** The members of [cfg] and the [arg_] globals the functions read. *)
Record config := Config {
  seccomp_list : option string;
  seccomp_list32 : option string;
  seccomp_list_drop : option string;
  seccomp_list_drop32 : option string;
  seccomp_list_keep : option string;
  seccomp_list_keep32 : option string;
  restrict_namespaces : option string;
  protocol_list : option string;
  seccomp_error_action : option string;
  arg_seccomp_error_action : Z;
  arg_seccomp : bool;
  arg_seccomp32 : bool;
  arg_seccomp_block_secondary : bool;
  arg_allow_debuggers : bool;
  arg_memory_deny_write_execute : bool;
  arg_restrict_namespaces : bool
}.

(** A node of [filter_list]: the file and the number of records mapped. *)
Record FilterList := FL { fl_fname : string; fl_len : Z }.

(** The files, the list of loaded filters (head first) and the file names
    saved in RUN_SECCOMP_LIST. *)
Record sandbox := Sandbox {
  sb_files : gmap string (list Z);
  sb_filters : list FilterList;
  sb_list : list string
}.

Definition SB (A : Type) : Type := CM sandbox A.

Definition seccomp_char (c : ascii) : bool :=
  isalnum c || Ascii.eqb c "_" || Ascii.eqb c "," || Ascii.eqb c ":"
  || Ascii.eqb c "@" || Ascii.eqb c "-" || Ascii.eqb c "$" || Ascii.eqb c "!".

(** The copy loop of [seccomp_check_list]. *)
Fixpoint copy_list (str : string) : outcome string :=
  match str with
  | EmptyString => Ok EmptyString
  | String c rest =>
      if seccomp_char c then obind (copy_list rest) (fun r => Ok (String c r)) else Exit 1
  end.

Definition seccomp_check_list (str : string) : outcome string :=
  if strlen str =? 0 then Exit 1 else copy_list str.

Section Sandbox.
Context `{H : SysHeaders} `{KOS : OS} (cfg : config).

(** fork, exec and waitpid of sbox.c: the child starts with no descriptor of
    ours and with the error action its [main] sets; any exit status but 0, and
    death by a signal, end firejail. *)
Definition sbox_run (child : M Z) : SB Z :=
  fun s =>
    let '(r, w) := child (World (Z.lor SECCOMP_RET_ERRNO EPERM) ∅ (sb_files s)) in
    let s' := Sandbox (w_files w) (sb_filters s) (sb_list s) in
    match r with
    | Ok rv => if rv =? 0 then (Ok 0, s') else (Exit 1, s')
    | Exit c => if c =? 0 then (Ok 0, s') else (Exit 1, s')
    | AssertFail => (Exit 1, s')
    | NoFuel => (NoFuel, s')
    end.

Definition fseccomp (argv : list string) : SB Z :=
  sbox_run (fseccomp_main (seccomp_error_action cfg) argv).

Definition fsec_optimize (fname : string) : SB Z :=
  sbox_run (optimize_main (seccomp_error_action cfg) fname).

(** [if (rv) exit(rv)] *)
Definition check_status (rv : Z) : SB unit := if rv =? 0 then cret tt else cexit rv.

(** The file is mapped, not copied; [save] is [!load_file_list_flag]. *)
Definition seccomp_load (save : bool) (fname : string) : SB Z :=
  fun s =>
    match sb_files s !! fname with
    | None | Some [] => (Exit 1, s)
    | Some bytes =>
        (Ok 0,
         Sandbox (sb_files s) (FL fname (load_entries bytes) :: sb_filters s)
           (if save then sb_list s ++ [fname] else sb_list s))
    end.

Definition seccomp_filter_32 : SB unit := seccomp_load true RUN_SECCOMP_32 ;;; cret tt.
Definition seccomp_filter_block_secondary : SB unit :=
  seccomp_load true RUN_SECCOMP_BLOCK_SECONDARY ;;; cret tt.

Definition nonempty_list (l : option string) : bool :=
  match l with Some s => nonempty s | None => false end.

Definition list_arg (l : option string) : string := default EmptyString l.

Definition seccomp_filter_drop (native : bool) : SB Z :=
  let filter := if native then RUN_SECCOMP_CFG else RUN_SECCOMP_32 in
  let postexec_filter := if native then RUN_SECCOMP_POSTEXEC else RUN_SECCOMP_POSTEXEC_32 in
  let default_action := arg_seccomp_error_action cfg =? DEFAULT_SECCOMP_ERROR_ACTION in
  (match seccomp_list_drop cfg with
   | None =>
       if negb (nonempty_list (seccomp_list cfg)) && default_action then
         if arg_seccomp_block_secondary cfg then seccomp_filter_block_secondary
         else seccomp_filter_32
       else
         (if arg_seccomp_block_secondary cfg then
            (if negb default_action then
               rv <~ fseccomp ["secondary"; "block"; RUN_SECCOMP_BLOCK_SECONDARY] ;;
               check_status rv
             else cret tt) ;;;
            seccomp_filter_block_secondary
          else
            (if negb default_action then
               rv <~ fseccomp ["secondary"; "32"; RUN_SECCOMP_32] ;; check_status rv
             else cret tt) ;;;
            seccomp_filter_32) ;;;
         let command := if native then "default" else "default32" in
         let list := if native then seccomp_list cfg else seccomp_list32 cfg in
         rv <~ (if nonempty_list list then
                  if arg_allow_debuggers cfg
                  then fseccomp [command; "drop"; filter; postexec_filter; list_arg list;
                                 "allow-debuggers"]
                  else fseccomp [command; "drop"; filter; postexec_filter; list_arg list]
                else
                  if arg_allow_debuggers cfg
                  then fseccomp [command; filter; "allow-debuggers"]
                  else fseccomp [command; filter]) ;;
         check_status rv ;;;
         rv <~ fsec_optimize filter ;; check_status rv
   | Some _ =>
       (if arg_seccomp_block_secondary cfg then seccomp_filter_block_secondary else cret tt) ;;;
       let command := if native then "drop" else "drop32" in
       let list := if native then seccomp_list_drop cfg else seccomp_list_drop32 cfg in
       (* a NULL list ends the argument vector *)
       let argv := [command; filter; postexec_filter]
                   ++ match list with
                      | Some l => l :: (if arg_allow_debuggers cfg then ["allow-debuggers"] else [])
                      | None => []
                      end in
       rv <~ fseccomp argv ;; check_status rv ;;;
       rv <~ fsec_optimize filter ;; check_status rv
   end) ;;;
  seccomp_load true filter.

(** The command is [keep] for both architectures. *)
Definition seccomp_filter_keep (native : bool) : SB Z :=
  (if arg_seccomp_block_secondary cfg then seccomp_filter_block_secondary else cret tt) ;;;
  let filter := if native then RUN_SECCOMP_CFG else RUN_SECCOMP_32 in
  let postexec_filter := if native then RUN_SECCOMP_POSTEXEC else RUN_SECCOMP_POSTEXEC_32 in
  let list := if native then seccomp_list_keep cfg else seccomp_list_keep32 cfg in
  let argv := ["keep"; filter; postexec_filter]
              ++ match list with Some l => [l] | None => [] end in
  rv <~ fseccomp argv ;; check_status rv ;;;
  seccomp_load true filter.

Definition seccomp_filter_mdwx (native : bool) : SB Z :=
  let command := if native then "memory-deny-write-execute"
                 else "memory-deny-write-execute.32" in
  let filter := if native then RUN_SECCOMP_MDWX else RUN_SECCOMP_MDWX_32 in
  rv <~ fseccomp [command; filter] ;; check_status rv ;;; cret 0.

(** A NULL list ends the argument vector. *)
Definition seccomp_filter_namespaces (native : bool) (list : option string) : SB Z :=
  let command := if native then "restrict-namespaces" else "restrict-namespaces.32" in
  let filter := if native then RUN_SECCOMP_NS else RUN_SECCOMP_NS_32 in
  rv <~ fseccomp ([command; filter] ++ match list with Some l => [l] | None => [] end) ;;
  check_status rv ;;; cret 0.

(** The lines of RUN_SECCOMP_LIST, loaded again by a joining process. *)
Definition seccomp_load_file_list (lines : list string) : SB unit :=
  cfold (fun line _ => seccomp_load false line ;;; cret tt) lines tt.

(** ** The filters of a sandbox (sandbox.c, "set seccomp") *)

Definition load_pair (f1 f2 : string) : SB unit :=
  seccomp_load true f1 ;;; seccomp_load true f2 ;;; cret tt.

(** The protocol filter, built before the file system was set up. *)
Definition set_protocol : SB unit :=
  match protocol_list cfg with
  | Some _ => seccomp_load true RUN_SECCOMP_PROTOCOL ;;; cret tt
  | None =>
      cmodify (fun s => Sandbox (delete RUN_SECCOMP_PROTOCOL (sb_files s))
                          (sb_filters s) (sb_list s))
  end.

Definition set_filters : SB unit :=
  (if arg_seccomp cfg then
     (match seccomp_list_keep cfg with
      | Some _ => seccomp_filter_keep true
      | None => seccomp_filter_drop true
      end) ;;; cret tt
   else cret tt) ;;;
  (if arg_seccomp32 cfg then
     (match seccomp_list_keep32 cfg with
      | Some _ => seccomp_filter_keep false
      | None => seccomp_filter_drop false
      end) ;;; cret tt
   else cret tt) ;;;
  (if arg_memory_deny_write_execute cfg then
     (if negb (arg_seccomp_error_action cfg =? EPERM) then
        seccomp_filter_mdwx true ;;; seccomp_filter_mdwx false ;;; cret tt
      else cret tt) ;;;
     load_pair RUN_SECCOMP_MDWX RUN_SECCOMP_MDWX_32
   else cret tt) ;;;
  (if arg_restrict_namespaces cfg then
     (if negb (arg_seccomp_error_action cfg =? EPERM) then
        seccomp_filter_namespaces true (restrict_namespaces cfg) ;;;
        seccomp_filter_namespaces false (restrict_namespaces cfg) ;;; cret tt
      else cret tt) ;;;
     load_pair RUN_SECCOMP_NS RUN_SECCOMP_NS_32
   else
     match restrict_namespaces cfg with
     | Some list =>
         seccomp_filter_namespaces true (Some list) ;;;
         seccomp_filter_namespaces false (Some list) ;;;
         load_pair RUN_SECCOMP_NS RUN_SECCOMP_NS_32
     | None => cret tt
     end).

Definition set_seccomp : SB unit := set_protocol ;;; set_filters.
End Sandbox.

(** [fl->prog]: the mapped records as the file is now. *)
Definition prog (s : sandbox) (fl : FilterList) : list sock_filter :=
  take (Z.to_nat (fl_len fl)) (dec (default [] (sb_files s !! fl_fname fl))).

(** The programs [seccomp_install_filters] hands to the kernel, in order. *)
Definition installed (s : sandbox) : list (list sock_filter) := map (prog s) (sb_filters s).

(** [seccomp_install_filters]: [accept] is what the kernel says of a program;
    a rejected one is skipped with a warning.  The return value and the
    programs in force. *)
Definition seccomp_install_filters (accept : list sock_filter -> bool) (s : sandbox)
    : Z * list (list sock_filter) :=
  (if forallb accept (installed s) then 0 else 1, List.filter accept (installed s)).
