(* ===== verification/Concrete.v ===== *)
(** * Concrete parameters

    Instances of the classes the theorems are stated over, used to evaluate
    them: the headers of an x86_64 system that knows every call of the table,
    a kernel whose write(2) stores at most five bytes at a time, and an empty
    initial state with the default error action EPERM. *)

From S2P Require Import Prelude.
From S2P Require Import Clib.
From S2P Require Import Bpf.
From S2P Require Import SyscallTables.
From S2P Require Import SyscallGroups.
From S2P Require Import FilterFile.
From S2P Require Import Syscall.
Local Open Scope string_scope.
Local Open Scope list_scope.
Local Open Scope Z_scope.

(** [SYS_name] for every name of the x86_64 table. *)
Definition x86_64_headers : SysHeaders := fun macro =>
  match strip_prefix "S" macro with
  | Some a =>
      match strip_prefix "Y" a with
      | Some b =>
          match strip_prefix "S" b with
          | Some c =>
              match strip_prefix "_" c with
              | Some name =>
                  if syscall_find_name name =? SYSCALL_ERROR then None
                  else Some (syscall_find_name name)
              | None => None
              end
          | None => None
          end
      | None => None
      end
  | None => None
  end.

(** Short writes: the loop of [write_to_file] runs more than once per record. *)
Definition short_writes : OS :=
  Build_OS (fun _ => 3) (fun _ b => Z.min 5 (Z.of_nat (length b))).

Lemma short_writes_laws : OSLaws (KOS := short_writes).
Proof.
  split; intros; simpl; [lia|]. destruct b; [done|]. simpl length. lia.
Qed.

Definition empty_world : world := World (Z.lor SECCOMP_RET_ERRNO 1) ∅ ∅.

(** System call [n] of an x86_64 process. *)
Definition call (n : Z) (args : list Z) : seccomp_data := SD n AUDIT_ARCH_X86_64 0 args.

(** System call [n] of an i386 process. *)
Definition call32 (n : Z) (args : list Z) : seccomp_data := SD n AUDIT_ARCH_I386 0 args.
