(* ===== verification/SyscallTheorems.v ===== *)
(** * Syscall lists: the properties

    Refinement of the list walk to the sequence of entries, its error paths,
    its termination, the groups, and the split in pre-exec and post-exec lists. *)

From S2P Require Import Prelude.
From S2P Require Import Clib.
From S2P Require Import Bpf.
From S2P Require Import SyscallTables.
From S2P Require Import SyscallGroups.
From S2P Require Import FilterFile.
From S2P Require Import Syscall.
From S2P Require Import SyscallSpec.
From S2P Require Import Fseccomp.
From S2P Require Import DropSpec.
From S2P Require Import Concrete.
Local Open Scope string_scope.
Local Open Scope list_scope.
Local Open Scope Z_scope.

(** ** Lists that are rejected *)

Section Errors.
Context `{H : SysHeaders} `{KOS : OS} {P : Type}.
Context (cb : filter_fn P) (fd arg : Z) (native : bool).
Hypothesis cb_ok : forall e p w, exists p' w', run_entry cb fd arg native e p w = (Ok p', w').

Lemma entries_run es p w : exists p' w', cfold (run_entry cb fd arg native) es p w = (Ok p', w').
Proof.
  revert p w. induction es as [|e es IH]; intros p w; [by exists p, w|].
  destruct (cb_ok e p w) as (p1 & w1 & E). cbn [cfold].
  rewrite (cbind_ok _ _ _ _ _ E). apply IH.
Qed.

Lemma walk_ok depth toks es p w :
  oconcat (expand_token depth native) toks = Ok es ->
  exists p' w', cfold (walk_token cb fd arg native depth) toks p w = (Ok p', w').
Proof.
  revert es p w. induction toks as [|t toks IH]; intros es p w; [by exists p, w|]. simpl.
  destruct (expand_token depth native t) as [es1| | |] eqn:E1; try done. simpl.
  destruct (oconcat _ toks) as [es2| | |] eqn:E2; try done. intros _.
  destruct (entries_run es1 p w) as (p1 & w1 & Er).
  rewrite <- (walk_token_ok cb fd arg native depth t p w es1) in Er
    by (done || intros; by apply check_list_refines).
  rewrite (cbind_ok _ _ _ _ _ Er). by apply (IH es2).
Qed.


End Errors.

(** ** The table of groups *)

#[export] Instance litem_eq_dec : EqDecision litem.
Proof. solve_decision. Defined.
#[export] Instance SyscallGroupList_eq_dec : EqDecision SyscallGroupList.
Proof. solve_decision. Defined.

(** No group hides another one of the same name. *)
Lemma groups_found :
  forallb (fun g => bool_decide (find_group (sg_name g) = Some g)
                    && is_token "," (sg_name g) && has_prefix "@" (sg_name g)) sysgroups = true.
Proof. vm_compute. reflexivity. Qed.

Lemma group_found g :
  In g sysgroups ->
  find_group (sg_name g) = Some g /\ is_token "," (sg_name g) = true
  /\ has_prefix "@" (sg_name g) = true.
Proof.
  intros Hg. pose proof groups_found as W. rewrite forallb_forall in W. specialize (W g Hg).
  repeat apply andb_true_iff in W as [W ?]. by apply bool_decide_eq_true in W.
Qed.

Section Claims.
Context `{H : SysHeaders} `{KOS : OS}.



(** The recursion into groups ends: for every list and every callback that
    returns, four levels are enough, and more levels change nothing. *)
Theorem syscall_check_list_terminates {P} (cb : filter_fn P) fd arg native n slist p w :
  (forall e p w, (run_entry cb fd arg native e p w).1 <> NoFuel) ->
  (syscall_check_list SCL_DEPTH slist (Some cb) fd arg p native w).1 <> NoFuel
  /\ syscall_check_list (SCL_DEPTH + n) slist (Some cb) fd arg p native w =
     syscall_check_list SCL_DEPTH slist (Some cb) fd arg p native w.
Proof.
  intros Hcb. split.
  - apply (check_list_total_aux cb fd arg native Hcb 0).
  - apply (check_list_total_aux cb fd arg native Hcb n).
Qed.

(** Every group of the table can be used in a list, whatever the headers
    define: its walk succeeds, and it stands for the calls of its names that
    the architecture's table has, nested groups included, none of them with
    an exception or an action. *)
Theorem every_group_expands native g :
  In g sysgroups ->
  expand SCL_DEPTH native (sg_name g) =
  Ok (flat_map (plain_entry native) (group_names 3 (sg_items g))).
Proof.
  intros Hg.
  destruct (group_found g Hg) as (Hf & Ht & Hp).
  by apply expand_group_name.
Qed.

(** Splitting a drop list loses nothing that has a name: parsing the
    pre-exec and the post-exec string [syscalls_in_list] builds gives back the
    entries of the list, each with its errno, the calls of @default-keep in
    the second string and all others in the first. *)
Theorem syscalls_in_list_roundtrip native str es w :
  expand SCL_DEPTH native str = Ok es ->
  exists pre post,
    syscalls_in_list str "@default-keep" native w = (Ok (pre, post), w)
    /\ match pre with
       | Some s => expand SCL_DEPTH native s = Ok (flat_map (pre_entry native) es)
       | None => flat_map (pre_entry native) es = []
       end
    /\ match post with
       | Some s => expand SCL_DEPTH native s = Ok (flat_map (post_entry native) es)
       | None => flat_map (post_entry native) es = []
       end.
Proof.
  intros He. pose proof (expand_ok _ _ _ _ He) as Hok. eexists _, _.
  split; [by apply syscalls_in_list_ok|]. split.
  - destruct (joined (flat_map (pre_call native) es)) eqn:E; [by apply expand_pre|].
    by apply pre_none.
  - destruct (joined (flat_map (post_call native) es)) eqn:E; [by apply expand_post|].
    by apply post_none.
Qed.
End Claims.

(** ** Evaluation on concrete lists *)

Section Examples.
#[local] Existing Instance x86_64_headers.
#[local] Existing Instance short_writes.

(** A callback that collects the numbers it is called with. *)
Definition collect : filter_fn (list Z) := fun fd n arg p native => cret (p ++ [n]).



Lemma syscall_check_list_terminates_witness :
  (syscall_check_list SCL_DEPTH (Some "@system-service") (Some collect) 0 0 [] true
     empty_world).1 <> NoFuel.
Proof.
  apply (syscall_check_list_terminates collect 0 0 true 7 (Some "@system-service") [] empty_world).
  intros e p w. unfold run_entry, check_syscall.
  destruct (e_nr e =? SYSCALL_ERROR); [discriminate|]. cbv zeta.
  change (0 <? 0) with false. rewrite !andb_false_r.
  destruct ((0 <=? e_err e) && (0 =? 0)); discriminate.
Defined.

Lemma every_group_expands_witness :
  expand SCL_DEPTH true "@module" =
  Ok [Entry false 176 (-1); Entry false 313 (-1); Entry false 175 (-1)].
Proof.
  change "@module" with (sg_name group_module).
  rewrite (every_group_expands true group_module) by (unfold sysgroups; simpl; tauto).
  vm_compute. reflexivity.
Defined.

Lemma syscalls_in_list_roundtrip_witness :
  exists pre post,
    syscalls_in_list "execve,mount:EACCES,prctl" "@default-keep" true empty_world =
    (Ok (pre, post), empty_world)
    /\ pre = Some "mount:EACCES" /\ post = Some "execve,prctl".
Proof.
  destruct (syscalls_in_list_roundtrip true "execve,mount:EACCES,prctl"
              [Entry false 59 (-1); Entry false 165 13; Entry false 157 (-1)] empty_world)
    as (pre & post & E & _); [vm_compute; reflexivity|].
  exists pre, post. split; [exact E|].
  assert (syscalls_in_list "execve,mount:EACCES,prctl" "@default-keep" true empty_world =
          (Ok (Some "mount:EACCES", Some "execve,prctl"), empty_world)) as E'
    by (vm_compute; reflexivity).
  rewrite E' in E. injection E. auto.
Defined.
End Examples.
