(* ===== verification/DropTheorems.v ===== *)
(** * What the drop, default and keep filters decide

    The decision of each filter file as a function of the list's entries and
    the system call, and the theorems that the files the builders write decide
    that way, for every set of kernel headers, every kernel that follows the
    laws of [OSLaws], and every machine that follows [BpfLaws]. *)

From S2P Require Import Prelude.
From S2P Require Import Clib.
From S2P Require Import Bpf.
From S2P Require Import SyscallTables.
From S2P Require Import SyscallGroups.
From S2P Require Import FilterFile.
From S2P Require Import Syscall.
From S2P Require Import SyscallSpec.
From S2P Require Import Fseccomp.
From S2P Require Import DropSpec.
From S2P Require Import Concrete.
Local Open Scope string_scope.
Local Open Scope list_scope.
Local Open Scope Z_scope.

(** ** Decisions *)

(** Behind the header: other architectures pass, x32 calls get the action. *)
Definition gate (native : bool) (act decision : Z) (d : seccomp_data) : Z :=
  if negb (u32 (sd_arch d) =? (if native then ARCH_NR else ARCH_32)) then SECCOMP_RET_ALLOW
  else if native && (X32_SYSCALL_BIT <=? sd_nr d) then act
  else decision.

(** The action an entry carries itself: [name:errno], [name:kill], [name:log]. *)
Definition own_action (e : entry) : option Z :=
  if 0 <=? e_err e then Some (Z.lor SECCOMP_RET_ERRNO (e_err e))
  else if e_err e =? ERRNO_KILL then Some SECCOMP_RET_KILL
  else if e_err e =? ERRNO_LOG then Some SECCOMP_RET_LOG
  else None.

(** What an entry says of call [n] before the list proper is applied: its own
    action, or [exception] for a plain [!name]. *)
Definition explicit (exception n : Z) (e : entry) : option Z :=
  if e_nr e =? n then
    match own_action e with
    | Some v => if e_neg e then None else Some v
    | None => if e_neg e then Some exception else None
    end
  else None.

(** A plain name in the list, without [!]. *)
Definition names_call (n : Z) (e : entry) : bool := negb (e_neg e) && (e_nr e =? n).

Definition drop_action (native : bool) (act : Z) (es : list entry) (n : Z) : Z :=
  match first_some (explicit SECCOMP_RET_ALLOW n) es with
  | Some v => v
  | None =>
      if existsb (names_call n) es && known native n && negb (kept native n)
      then act else SECCOMP_RET_ALLOW
  end.

Definition post_action (native : bool) (act : Z) (es : list entry) (n : Z) : Z :=
  if existsb (names_call n) es && kept native n then act else SECCOMP_RET_ALLOW.

Definition keep_action (native : bool) (act : Z) (es : list entry) (n : Z) : Z :=
  match first_some (explicit act n) es with
  | Some v => v
  | None => if kept native n || existsb (names_call n) es then SECCOMP_RET_ALLOW else act
  end.

Section Defaults.
Context `{H : SysHeaders}.

(** Call [n] is one of the default list. *)
Definition default_blocked (dbg native : bool) (n : Z) : bool :=
  existsb (fun name => sys_number native name =? n) (default_names dbg).

Definition default_action (dbg native : bool) (act n : Z) : Z :=
  if default_blocked dbg native n then act else SECCOMP_RET_ALLOW.

Definition default_drop_action (dbg native : bool) (act : Z) (es : list entry) (n : Z) : Z :=
  match first_some (explicit SECCOMP_RET_ALLOW n) es with
  | Some v => v
  | None =>
      if default_blocked dbg native n
         || (existsb (names_call n) es && known native n && negb (kept native n))
      then act else SECCOMP_RET_ALLOW
  end.
End Defaults.

(** The numbers of a list are system call numbers. *)
Definition numbers_ok (es : list entry) : Prop := Forall (fun e => 0 <= e_nr e < INT_MAX) es.

#[export] Instance numbers_ok_dec es : Decision (numbers_ok es).
Proof. unfold numbers_ok. apply _. Defined.

(** ** First match of the written rules *)

Lemma u32_nr n : 0 <= n < INT_MAX -> u32 n = n.
Proof. unfold INT_MAX. intros. apply u32_small. lia. Qed.

Lemma u32_lnot n : 0 <= n < INT_MAX -> u32 (Z.lnot n) = 2 ^ 32 - 1 - n.
Proof.
  unfold INT_MAX, u32. intros. replace (Z.lnot n) with (2 ^ 32 - 1 - n + -1 * 2 ^ 32)
    by (rewrite Z.lnot_eq_pred_opp by done; lia).
  rewrite Z.mod_add by done. apply Z.mod_small. lia.
Qed.

Lemma lnot_lnot n : Z.lnot (Z.lnot n) = n.
Proof. apply Z.lnot_involutive. Qed.

Lemma errno_action_u32 :
  forallb (fun x => u32 (Z.lor SECCOMP_RET_ERRNO (en_nr x)) =? Z.lor SECCOMP_RET_ERRNO (en_nr x))
    errnolist = true.
Proof. vm_compute. reflexivity. Qed.

Lemma own_action_u32 e v : entry_ok e -> own_action e = Some v -> u32 v = v.
Proof.
  intros [_ He]. unfold own_action.
  destruct He as [->|[->|[->|(x & Hx & <-)]]]; simpl; try done; try (by intros [= <-]).
  pose proof errnolist_bounds as B. pose proof errno_action_u32 as U.
  rewrite forallb_forall in B, U. specialize (B x Hx). specialize (U x Hx).
  assert (0 <=? en_nr x = true) as -> by lia. intros [= <-]. lia.
Qed.

Definition nr_ok (n : Z) : Prop := 0 <= n < INT_MAX.

Lemma entry_nr_match e n :
  nr_ok (e_nr e) -> nr_ok n -> (n =? u32 (entry_nr e)) = negb (e_neg e) && (e_nr e =? n).
Proof.
  unfold nr_ok, entry_nr. intros He Hn. destruct (e_neg e); simpl.
  - rewrite u32_lnot by done. unfold INT_MAX in *. lia.
  - rewrite u32_nr by done. lia.
Qed.

Lemma entry_rules_plain R act e :
  entry_ok e -> own_action e = None -> entry_rules R act e = R act (entry_nr e).
Proof.
  intros [Hn _]. unfold entry_rules, own_action.
  destruct (Z.eqb_spec (e_nr e) SYSCALL_ERROR); [done|]. by repeat case_match.
Qed.

(** An entry with an action of its own, whatever the callback is. *)
Lemma entry_rules_own R act e n v :
  entry_ok e -> nr_ok (e_nr e) -> nr_ok n -> own_action e = Some v ->
  first_match (entry_rules R act e) n = if names_call n e then Some v else None.
Proof.
  intros Ho He Hn Hv. pose proof (own_action_u32 e v Ho Hv) as Hu. destruct Ho as [Hs _].
  unfold entry_rules, names_call. rewrite <- (entry_nr_match e n) by done.
  destruct (Z.eqb_spec (e_nr e) SYSCALL_ERROR); [done|]. revert Hv. unfold own_action.
  assert (Hb : first_match (blacklist_rules v (entry_nr e)) n =
               if n =? u32 (entry_nr e) then Some v else None).
  { unfold blacklist_rules. destruct (Z.leb_spec 0 (entry_nr e)).
    - by rewrite first_match_one, Hu.
    - rewrite entry_nr_match by done. unfold entry_nr in *. destruct (e_neg e); [done|].
      unfold nr_ok in *. lia. }
  destruct (0 <=? e_err e); [intros [= <-]; by rewrite first_match_one, Hu|].
  destruct (e_err e =? ERRNO_KILL); [by intros [= <-]|].
  destruct (e_err e =? ERRNO_LOG); [by intros [= <-]|done].
Qed.

Section EntryMatch.
Context (act n : Z) (Hn : nr_ok n).

Lemma whitelist_excluded_match e :
  entry_ok e -> nr_ok (e_nr e) ->
  first_match (entry_rules whitelist_excluded_rules act e) n = explicit SECCOMP_RET_ALLOW n e.
Proof.
  intros Ho He. unfold explicit. destruct (own_action e) as [v|] eqn:Ev.
  - rewrite (entry_rules_own _ _ _ _ v) by done. unfold names_call.
    by destruct (e_neg e), (e_nr e =? n).
  - rewrite entry_rules_plain by done. unfold whitelist_excluded_rules, entry_nr.
    destruct (e_neg e).
    + pose proof (Z.lnot_eq_pred_opp (e_nr e)). unfold nr_ok in *.
      assert (Z.lnot (e_nr e) <? 0 = true) as -> by lia.
      rewrite lnot_lnot, first_match_one, u32_nr by done. rewrite Z.eqb_sym.
      by destruct (e_nr e =? n).
    + unfold nr_ok in *. assert (e_nr e <? 0 = false) as -> by lia.
      by destruct (e_nr e =? n).
Qed.

Lemma blacklist_excluded_match e :
  entry_ok e -> nr_ok (e_nr e) ->
  first_match (entry_rules blacklist_excluded_rules act e) n = explicit (u32 act) n e.
Proof.
  intros Ho He. unfold explicit. destruct (own_action e) as [v|] eqn:Ev.
  - rewrite (entry_rules_own _ _ _ _ v) by done. unfold names_call.
    by destruct (e_neg e), (e_nr e =? n).
  - rewrite entry_rules_plain by done. unfold blacklist_excluded_rules, entry_nr.
    destruct (e_neg e).
    + pose proof (Z.lnot_eq_pred_opp (e_nr e)). unfold nr_ok in *.
      assert (Z.lnot (e_nr e) <? 0 = true) as -> by lia.
      rewrite lnot_lnot, first_match_one, u32_nr by done. rewrite Z.eqb_sym.
      by destruct (e_nr e =? n).
    + unfold nr_ok in *. assert (e_nr e <? 0 = false) as -> by lia.
      by destruct (e_nr e =? n).
Qed.

(** Plain entries with the positive callbacks. *)
Lemma plain_match R v e :
  (forall m, R act m = if 0 <=? m then [(m, v)] else []) ->
  entry_ok e -> nr_ok (e_nr e) -> own_action e = None ->
  first_match (entry_rules R act e) n = if names_call n e then Some (u32 v) else None.
Proof.
  intros HR Ho He Hp. rewrite entry_rules_plain, HR by done.
  unfold names_call. rewrite <- entry_nr_match by done.
  destruct (Z.leb_spec 0 (entry_nr e)).
  - by rewrite first_match_one.
  - rewrite entry_nr_match by done. unfold entry_nr in *. destruct (e_neg e); [done|].
    unfold nr_ok in *. lia.
Qed.
End EntryMatch.

(** ** First match of whole lists *)

Section ListMatch.
Context (act n : Z) (Hn : nr_ok n) (es : list entry).
Context (Hok : Forall entry_ok es) (Hnr : numbers_ok es).

Lemma entries_forall (Q : entry -> Prop) :
  (forall e, In e es -> entry_ok e -> nr_ok (e_nr e) -> Q e) -> Forall Q es.
Proof.
  intros HQ. rewrite Forall_forall in Hok. unfold numbers_ok in Hnr.
  rewrite Forall_forall in Hnr. apply Forall_forall. intros e He.
  apply list_elem_of_In in He as Hi. apply HQ; [done|by apply Hok|by apply Hnr].
Qed.

Lemma whitelist_excluded_list :
  first_match (list_rules whitelist_excluded_rules act es) n =
  first_some (explicit SECCOMP_RET_ALLOW n) es.
Proof.
  unfold list_rules. rewrite first_match_flat_map. apply first_some_ext, entries_forall.
  intros. by apply whitelist_excluded_match.
Qed.

Lemma blacklist_excluded_list :
  first_match (list_rules blacklist_excluded_rules act es) n =
  first_some (explicit (u32 act) n) es.
Proof.
  unfold list_rules. rewrite first_match_flat_map. apply first_some_ext, entries_forall.
  intros. by apply blacklist_excluded_match.
Qed.

Lemma post_list_match native :
  first_match (list_rules blacklist_rules act (flat_map (post_entry native) es)) n =
  if existsb (names_call n) es && kept native n then Some (u32 act) else None.
Proof.
  unfold list_rules.
  rewrite flat_map_flat_map, first_match_flat_map, <- existsb_andb_const.
  apply first_some_const, entries_forall. intros e Hi Ho He.
  unfold names_call, post_entry, entry_nr. destruct (e_neg e); cbn [negb andb].
  { pose proof (Z.lnot_eq_pred_opp (e_nr e)). unfold nr_ok in *.
    assert (Z.lnot (e_nr e) <? 0 = true) as -> by lia. done. }
  cbv zeta. assert (e_nr e <? 0 = false) as -> by (unfold nr_ok in He; lia). cbn [orb].
  assert (Hr : first_match (entry_rules blacklist_rules act (Entry false (e_nr e) (-1))) n =
               if e_nr e =? n then Some (u32 act) else None).
  { assert (Hok' : entry_ok (Entry false (e_nr e) (-1))) by (destruct Ho; split; auto).
    rewrite (plain_match act n Hn _ act) by done. reflexivity. }
  destruct (kept native (e_nr e)) eqn:Ek; cbn [negb orb flat_map]; rewrite ?app_nil_r, ?Hr;
    destruct (Z.eqb_spec (e_nr e) n) as [<-|]; rewrite ?Ek; done.
Qed.
Context (x : Z) (Hx : first_some (explicit x n) es = None).

Lemma explicit_none e : In e es -> explicit x n e = None.
Proof.
  intros He. apply first_some_none in Hx. rewrite Forall_forall in Hx.
  by apply Hx, list_elem_of_In.
Qed.

(** An entry that names the call has no action of its own. *)
Lemma names_call_plain e : In e es -> names_call n e = true -> own_action e = None.
Proof.
  intros He. pose proof (explicit_none e He) as E. unfold explicit, names_call in *.
  destruct (e_neg e), (e_nr e =? n); try done. by destruct (own_action e).
Qed.

Lemma plain_list R v :
  (forall m, R act m = if 0 <=? m then [(m, v)] else []) ->
  first_match (list_rules R act es) n =
  if existsb (names_call n) es then Some (u32 v) else None.
Proof.
  intros HR. unfold list_rules. rewrite first_match_flat_map.
  apply first_some_const, entries_forall. intros e Hi Ho He.
  destruct (own_action e) as [y|] eqn:Ey; [|by apply plain_match].
  rewrite (entry_rules_own _ _ _ _ y) by done.
  destruct (names_call n e) eqn:En; [|done].
  apply names_call_plain in En; [congruence|done].
Qed.

Lemma pre_list_match native :
  first_match (list_rules blacklist_rules act (flat_map (pre_entry native) es)) n =
  if existsb (names_call n) es && known native n && negb (kept native n)
  then Some (u32 act) else None.
Proof.
  unfold list_rules.
  rewrite flat_map_flat_map, first_match_flat_map, <- andb_assoc, <- existsb_andb_const.
  apply first_some_const, entries_forall. intros e Hi Ho He.
  assert (Hp : names_call n e = true -> own_action e = None) by auto using names_call_plain.
  unfold names_call in *. unfold pre_entry, entry_nr. destruct (e_neg e); cbn [negb andb] in *.
  { pose proof (Z.lnot_eq_pred_opp (e_nr e)). unfold nr_ok in *.
    assert (Z.lnot (e_nr e) <? 0 = true) as -> by lia. done. }
  cbv zeta. assert (e_nr e <? 0 = false) as -> by (unfold nr_ok in He; lia). cbn [orb].
  destruct (Z.eqb_spec (e_nr e) n) as [->|Hne]; cbn [andb].
  - destruct (kept native n); [by rewrite andb_false_r|].
    destruct (known native n); [|done]. specialize (Hp eq_refl).
    assert (e_err e <= 0) as Hle.
    { unfold own_action in Hp. destruct (Z.leb_spec 0 (e_err e)); [done|lia]. }
    assert (e_err e <=? 0 = true) as -> by lia. cbn [orb negb flat_map andb].
    rewrite app_nil_r. unfold entry_rules. cbn.
    destruct (Z.eqb_spec n SYSCALL_ERROR); [unfold nr_ok, SYSCALL_ERROR in *; lia|].
    unfold blacklist_rules. assert (0 <=? n = true) as -> by (unfold nr_ok in Hn; lia).
    by rewrite first_match_one, u32_nr, Z.eqb_refl.
  - destruct (kept native (e_nr e)); [done|]. destruct (known native (e_nr e)); [|done].
    cbn [orb negb flat_map]. rewrite app_nil_r.
    set (er := if e_err e <=? 0 then -1 else e_err e).
    assert (Hno : forall v, first_match [(e_nr e, v)] n = None).
    { intros v. rewrite first_match_one, u32_nr by done.
      destruct (Z.eqb_spec n (e_nr e)); congruence. }
    unfold entry_rules, entry_nr, blacklist_rules. cbn [e_nr e_neg e_err].
    repeat case_match; auto.
Qed.
End ListMatch.

(** ** Decisions of the written programs *)

Lemma default_of_first {A} (o : option A) x : default x o = match o with Some v => v | None => x end.
Proof. by destruct o. Qed.

Lemma first_match_plain_names native names v n `{SysHeaders} :
  nr_ok n ->
  first_match (list_rules blacklist_rules v (flat_map (plain_entry native) names)) n =
  if existsb (fun name => sys_number native name =? n) names then Some (u32 v) else None.
Proof.
  intros Hn. unfold list_rules. rewrite flat_map_flat_map, first_match_flat_map.
  apply first_some_const, List.Forall_forall. intros name _. unfold plain_entry.
  destruct (Z.eqb_spec (sys_number native name) SYSCALL_ERROR) as [E|E].
  { rewrite E. destruct (Z.eqb_spec SYSCALL_ERROR n); [|done].
    subst n. unfold nr_ok, SYSCALL_ERROR in Hn. lia. }
  assert (nr_ok (sys_number native name)) as Hs.
  { assert (forallb (fun e => (0 <=? sc_nr e) && (sc_nr e <? 1000)) (table native) = true) as W
      by (destruct native; vm_compute; reflexivity).
    rewrite forallb_forall in W. revert E. unfold sys_number, syscall_find_name, syscall_find_name_32.
    destruct native; destruct (List.find _ _) as [e|] eqn:F; try done; intros _;
      apply find_some in F as [F _]; specialize (W e F); unfold nr_ok, INT_MAX; lia. }
  cbn [flat_map]. rewrite app_nil_r. rewrite (plain_match v n Hn _ v); [done|done| |done|done].
  split; [done|by left].
Qed.

Section Decisions.
Context `{H : SysHeaders} `{BM : BpfMachine} {BL : BpfLaws}.
Context (native : bool) (act : Z) (es : list entry).
Context (Hok : Forall entry_ok es) (Hnr : numbers_ok es).
Context (d : seccomp_data) (Hd : nr_ok (sd_nr d)).

Lemma rule_decision_gate rs otherwise :
  rule_decision native act rs otherwise d =
  gate native (u32 act)
    (match first_match rs (sd_nr d) with Some v => v | None => otherwise end) d.
Proof.
  unfold rule_decision, gate. rewrite (u32_nr (sd_nr d)) by done.
  by rewrite default_of_first.
Qed.

Lemma drop_decision :
  run_filter (excepted native act (drop_rules native act es) RETURN_ALLOW) d =
  Some (gate native (u32 act) (drop_action native (u32 act) es (sd_nr d)) d).
Proof.
  unfold excepted, RETURN_ALLOW. rewrite run_rules, rule_decision_gate. do 2 f_equal.
  unfold drop_rules, drop_action. rewrite first_match_app, whitelist_excluded_list by done.
  destruct (first_some _ es) eqn:E; [done|].
  rewrite (pre_list_match act _ Hd es Hok Hnr _ E). by destruct (_ && _).
Qed.

Lemma default_drop_decision dbg :
  run_filter (excepted native act (default_drop_rules dbg native act es) RETURN_ALLOW) d =
  Some (gate native (u32 act) (default_drop_action dbg native (u32 act) es (sd_nr d)) d).
Proof.
  unfold excepted, RETURN_ALLOW. rewrite run_rules, rule_decision_gate. do 2 f_equal.
  unfold default_drop_rules, default_drop_action.
  rewrite !first_match_app, whitelist_excluded_list by done.
  destruct (first_some _ es) eqn:E; [done|].
  unfold default_entries. rewrite first_match_plain_names by done.
  fold (default_blocked dbg native (sd_nr d)).
  rewrite (pre_list_match act _ Hd es Hok Hnr _ E).
  destruct (default_blocked _ _ _); [done|]. by destruct (_ && _).
Qed.

Lemma post_decision :
  run_filter (excepted native act (post_rules native act es) RETURN_ALLOW) d =
  Some (gate native (u32 act) (post_action native (u32 act) es (sd_nr d)) d).
Proof.
  unfold excepted, RETURN_ALLOW. rewrite run_rules, rule_decision_gate. do 2 f_equal.
  unfold post_rules, post_action. rewrite post_list_match by done.
  by destruct (_ && _).
Qed.

Lemma keep_entries_ok : Forall entry_ok (map (fun n => Entry false n (-1)) (keep_nrs native))
  /\ numbers_ok (map (fun n => Entry false n (-1)) (keep_nrs native)).
Proof.
  split; destruct native; simpl; repeat (constructor; [|]); simpl; unfold SYSCALL_ERROR, INT_MAX;
    try split; try lia; auto.
Qed.

Lemma keep_decision :
  run_filter (excepted native act (keep_rules native act es) (KILL_OR_RETURN_ERRNO act)) d =
  Some (gate native (u32 act) (keep_action native (u32 act) es (sd_nr d)) d).
Proof.
  unfold excepted, KILL_OR_RETURN_ERRNO. rewrite run_rules, rule_decision_gate. do 2 f_equal.
  unfold keep_rules, keep_action. rewrite !first_match_app, blacklist_excluded_list by done.
  destruct (first_some _ es) eqn:E; [done|].
  assert (Hwl : forall m, whitelist_rules act m = if 0 <=? m then [(m, SECCOMP_RET_ALLOW)] else [])
    by done.
  rewrite (plain_list act _ Hd es Hok Hnr _ E _ _ Hwl).
  destruct keep_entries_ok as [K1 K2].
  rewrite (plain_list act _ Hd _ K1 K2 0) with (v := SECCOMP_RET_ALLOW);
    [|unfold explicit; destruct native; simpl; by repeat case_match|done].
  assert (existsb (names_call (sd_nr d)) (map (fun n => Entry false n (-1)) (keep_nrs native))
          = kept native (sd_nr d)) as ->.
  { clear K1 K2. unfold kept. induction (keep_nrs native) as [|m l IH]; [done|]. simpl.
    f_equal; [|exact IH]. unfold names_call. simpl. apply Z.eqb_sym. }
  destruct (kept native (sd_nr d)); [done|]. by destruct (existsb _ es).
Qed.

Lemma default_decision dbg :
  run_filter (excepted native act (list_rules blacklist_rules act (default_entries dbg native))
                RETURN_ALLOW) d =
  Some (gate native (u32 act) (default_action dbg native (u32 act) (sd_nr d)) d).
Proof.
  unfold excepted, RETURN_ALLOW. rewrite run_rules, rule_decision_gate. do 2 f_equal.
  unfold default_action, default_entries. rewrite first_match_plain_names by done.
  fold (default_blocked dbg native (sd_nr d)). by destruct (default_blocked _ _ _).
Qed.
End Decisions.

(** ** The default list and the calls firejail needs *)

(** The names of a group whatever the headers define. *)
Fixpoint all_names (depth : nat) (items : list litem) : list string :=
  match depth with
  | O => []
  | S depth' =>
      flat_map
        (fun i => let t := item_token i in
           if has_prefix "@" t then
             match find_group t with
             | Some g => all_names depth' (sg_items g)
             | None => []
             end
           else [t])
        items
  end.

Lemma group_names_all `{SysHeaders} depth items name :
  In name (group_names depth items) -> In name (all_names depth items).
Proof.
  revert items. induction depth as [|depth IH]; intros items; [done|]. simpl.
  rewrite !in_flat_map. unfold group_tokens.
  intros (t & (i & <- & [Hi _]%filter_In)%in_map_iff & Hn). exists i. split; [done|].
  cbv zeta. destruct (has_prefix "@" (item_token i)); [|done].
  destruct (find_group (item_token i)); [by apply IH|done].
Qed.

Definition default_group (dbg : bool) : SyscallGroupList :=
  if dbg then group_default else group_default_nodebuggers.

Lemma default_names_not_kept dbg native :
  forallb (fun name => negb (kept native (sys_number native name)))
    (all_names 3 (sg_items (default_group dbg))) = true.
Proof. destruct dbg, native; vm_compute; reflexivity. Qed.

Lemma default_keeps `{SysHeaders} dbg native n :
  kept native n = true -> default_blocked dbg native n = false.
Proof.
  intros Hk. apply not_true_iff_false. intros (name & Hi & <-%Z.eqb_eq)%existsb_exists.
  apply group_names_all in Hi. pose proof (default_names_not_kept dbg native) as W.
  rewrite forallb_forall in W. specialize (W name Hi). by rewrite Hk in W.
Qed.

(** A list of names, groups and exceptions, without actions of its own. *)
Definition plain_list_entries (es : list entry) : Prop :=
  Forall (fun e => own_action e = None) es.

Lemma plain_explicit x n es :
  plain_list_entries es ->
  first_some (explicit x n) es = None \/ first_some (explicit x n) es = Some x.
Proof.
  induction 1 as [|e es He Hes IH]; [by left|]. simpl. unfold explicit at 1 3. rewrite He.
  destruct (e_nr e =? n); [|done]. destruct (e_neg e); [by right|done].
Qed.

Lemma drop_action_keeps native act es n :
  plain_list_entries es -> kept native n = true ->
  drop_action native act es n = SECCOMP_RET_ALLOW.
Proof.
  intros Hp Hk. unfold drop_action.
  destruct (plain_explicit SECCOMP_RET_ALLOW n es Hp) as [->| ->]; [|done].
  by rewrite Hk, andb_false_r.
Qed.

Lemma default_drop_action_keeps `{SysHeaders} dbg native act es n :
  plain_list_entries es -> kept native n = true ->
  default_drop_action dbg native act es n = SECCOMP_RET_ALLOW.
Proof.
  intros Hp Hk. unfold default_drop_action.
  destruct (plain_explicit SECCOMP_RET_ALLOW n es Hp) as [->| ->]; [|done].
  by rewrite default_keeps, Hk, andb_false_r.
Qed.

Lemma kept_nr native n : kept native n = true -> 0 <= n < 1000.
Proof.
  unfold kept. intros (m & Hm & ->%Z.eqb_eq)%existsb_exists.
  destruct native; simpl in Hm; repeat destruct Hm as [<-|Hm]; done || lia.
Qed.

Lemma gate_allow native act d : sd_nr d < 1000 -> gate native act SECCOMP_RET_ALLOW d = SECCOMP_RET_ALLOW.
Proof.
  intros Hd. unfold gate, X32_SYSCALL_BIT.
  assert (0x40000000 <=? sd_nr d = false) as -> by lia. rewrite andb_false_r.
  by destruct (negb _).
Qed.

(** ** The files *)

(** [f] holds the program [p] in [w]. *)
Definition holds (w : world) (f : string) (p : list sock_filter) : Prop :=
  w_files w !! f = Some (enc p).

(** A call that succeeds leaves the error action as it was and no descriptor
    of its own open. *)
Definition clean (c : M unit) (w w' : world) : Prop :=
  c w = (Ok tt, w') /\ w_action w' = w_action w /\ w_fds w' ⊆ w_fds w.

Section Claims.
Context `{H : SysHeaders} `{KOS : OS} {OL : OSLaws} `{BM : BpfMachine} {BL : BpfLaws}.

Lemma saved_holds f p w : holds (saved f p w) f p.
Proof. apply lookup_insert_eq. Qed.

Lemma saved_other f g p w : f <> g -> w_files (saved f p w) !! g = w_files w !! g.
Proof. intros. by apply lookup_insert_ne. Qed.

Lemma after_drop_clean f1 f2 native rs es w :
  w_action (after_drop f1 f2 native rs es w) = w_action w
  /\ w_fds (after_drop f1 f2 native rs es w) ⊆ w_fds w.
Proof.
  unfold after_drop. destruct (flat_map _ es); simpl; (split; [done|]).
  - apply delete_subseteq.
  - etrans; apply delete_subseteq.
Qed.

Lemma after_drop_pre f1 f2 native rs es w :
  f1 <> f2 ->
  holds (after_drop f1 f2 native rs es w) f1 (excepted native (w_action w) rs RETURN_ALLOW).
Proof.
  intros Hf. unfold after_drop. destruct (flat_map _ es); [apply saved_holds|].
  unfold holds. rewrite saved_other by done. apply saved_holds.
Qed.

Lemma post_call_existsb native es :
  numbers_ok es ->
  flat_map (post_call native) es = [] <->
  existsb (fun e => negb (e_neg e) && kept native (e_nr e)) es = false.
Proof.
  unfold numbers_ok. induction 1 as [|e es He Hes IH]; [done|]. cbn [flat_map existsb].
  assert (post_call native e =
    if negb (e_neg e) && kept native (e_nr e) then [nr_name native (e_nr e)] else []) as ->.
  { unfold post_call, entry_nr. pose proof (Z.lnot_eq_pred_opp (e_nr e)).
    destruct (e_neg e); cbv zeta; [by assert (Z.lnot (e_nr e) <? 0 = true) as -> by lia|].
    by assert (e_nr e <? 0 = false) as -> by lia. }
  by destruct (negb (e_neg e) && kept native (e_nr e)).
Qed.

Lemma after_drop_post f1 f2 native rs es w :
  f1 <> f2 -> numbers_ok es ->
  if existsb (fun e => negb (e_neg e) && kept native (e_nr e)) es
  then holds (after_drop f1 f2 native rs es w) f2
         (excepted native (w_action w) (post_rules native (w_action w) es) RETURN_ALLOW)
  else w_files (after_drop f1 f2 native rs es w) !! f2 = w_files w !! f2.
Proof.
  intros Hf Hn. pose proof (post_call_existsb native es Hn) as E. unfold after_drop.
  destruct (flat_map (post_call native) es).
  - rewrite (proj1 E eq_refl). by apply saved_other.
  - destruct (existsb _ es); [apply saved_holds|]. by destruct E as [_ E]; specialize (E eq_refl).
Qed.

(** C6: The drop filter (--seccomp.drop). For every list whose entries are
    [es], [seccomp_drop] succeeds, closes its descriptors, restores the error
    action, and the pre-exec file holds a program that returns: ALLOW on
    another architecture, the error action for an x32 call, otherwise the
    first explicit action of the list for the call (errno, kill, log, or ALLOW
    for an exception), otherwise the error action for a listed call of the
    table that firejail does not need itself, otherwise ALLOW. *)
Theorem seccomp_drop_filters f1 f2 str dbg native es w :
  expand SCL_DEPTH native str = Ok es -> numbers_ok es -> f1 <> f2 ->
  exists w' p,
    clean (seccomp_drop f1 f2 str dbg native) w w' /\ holds w' f1 p
    /\ forall d, nr_ok (sd_nr d) ->
         run_filter p d =
         Some (gate native (u32 (w_action w))
                 (drop_action native (u32 (w_action w)) es (sd_nr d)) d).
Proof.
  intros He Hn Hf. eexists _, _. split; [|split].
  - split; [by apply seccomp_drop_ok|apply after_drop_clean].
  - by apply after_drop_pre.
  - intros d Hd. apply drop_decision; eauto using expand_ok.
Qed.

(** The post-exec filter of --seccomp.drop. When the list names a call
    firejail needs after the first filter is in place (@default-keep), the
    second file holds a program that returns the error action for exactly the
    listed calls of @default-keep; otherwise the second file is not touched. *)
Theorem seccomp_drop_postexec f1 f2 str dbg native es w :
  expand SCL_DEPTH native str = Ok es -> numbers_ok es -> f1 <> f2 ->
  exists w',
    clean (seccomp_drop f1 f2 str dbg native) w w'
    /\ if existsb (fun e => negb (e_neg e) && kept native (e_nr e)) es
       then exists p, holds w' f2 p /\ forall d, nr_ok (sd_nr d) ->
              run_filter p d =
              Some (gate native (u32 (w_action w))
                      (post_action native (u32 (w_action w)) es (sd_nr d)) d)
       else w_files w' !! f2 = w_files w !! f2.
Proof.
  intros He Hn Hf. eexists. split; [split; [by apply seccomp_drop_ok|apply after_drop_clean]|].
  pose proof (after_drop_post f1 f2 native (drop_rules native (w_action w) es) es w Hf Hn) as Hp.
  destruct (existsb _ es); [|done]. eexists. split; [exact Hp|].
  intros d Hd. apply post_decision; eauto using expand_ok.
Qed.

(** C21: The default+drop filter (--seccomp=list): explicit entries of the list
    first, then the error action for the calls of the default list (with or
    without the debugger calls) and for the listed calls of the table that
    are not in @default-keep, ALLOW otherwise. *)
Theorem seccomp_default_drop_filters f1 f2 str dbg native es w :
  expand SCL_DEPTH native str = Ok es -> numbers_ok es -> f1 <> f2 ->
  exists w' p,
    clean (seccomp_default_drop f1 f2 str dbg native) w w' /\ holds w' f1 p
    /\ forall d, nr_ok (sd_nr d) ->
         run_filter p d =
         Some (gate native (u32 (w_action w))
                 (default_drop_action dbg native (u32 (w_action w)) es (sd_nr d)) d).
Proof.
  intros He Hn Hf. eexists _, _. split; [|split].
  - split; [by apply seccomp_default_drop_ok|apply after_drop_clean].
  - by apply after_drop_pre.
  - intros d Hd. apply default_drop_decision; eauto using expand_ok.
Qed.

(** C22: The keep filter (--seccomp.keep): explicit entries first ([!name] gets
    the error action), then ALLOW for @default-keep and the listed calls, and
    the error action for every other call. *)
Theorem seccomp_keep_filters f1 f2 str native es w :
  expand SCL_DEPTH native str = Ok es -> numbers_ok es ->
  exists w' p,
    clean (seccomp_keep f1 f2 str native) w w' /\ holds w' f1 p
    /\ forall d, nr_ok (sd_nr d) ->
         run_filter p d =
         Some (gate native (u32 (w_action w))
                 (keep_action native (u32 (w_action w)) es (sd_nr d)) d).
Proof.
  intros He Hn. eexists _, _. split; [|split].
  - split; [by apply seccomp_keep_ok|]. split; [done|]. apply delete_subseteq.
  - apply saved_holds.
  - intros d Hd. apply keep_decision; eauto using expand_ok.
Qed.

(** The default filter (--seccomp): the error action for exactly the calls
    of @default, or of @default-nodebuggers when debuggers are not allowed,
    ALLOW for every other call, for every set of kernel headers. *)
Theorem seccomp_default_filters f dbg native w :
  exists w' p,
    clean (seccomp_default f dbg native) w w' /\ holds w' f p
    /\ forall d, nr_ok (sd_nr d) ->
         run_filter p d =
         Some (gate native (u32 (w_action w))
                 (default_action dbg native (u32 (w_action w)) (sd_nr d)) d).
Proof.
  eexists _, _. split; [|split].
  - split; [apply seccomp_default_ok|]. split; [done|]. apply delete_subseteq.
  - apply saved_holds.
  - intros d Hd. by apply default_decision.
Qed.

(** C35: Firejail can still start the program: execve, execveat and prctl, the
    calls of @default-keep, pass the default filter, and the pre-exec filters
    of --seccomp.drop and --seccomp for every list of names, groups and
    exceptions. *)
Theorem prefilters_allow_exec f1 f2 str dbg native es w n arch ip args :
  expand SCL_DEPTH native str = Ok es -> numbers_ok es -> plain_list_entries es ->
  f1 <> f2 -> kept native n = true ->
  exists w1 p1 w2 p2 w3 p3,
    (seccomp_drop f1 f2 str dbg native w = (Ok tt, w1) /\ holds w1 f1 p1
     /\ run_filter p1 (SD n arch ip args) = Some SECCOMP_RET_ALLOW)
    /\ (seccomp_default_drop f1 f2 str dbg native w = (Ok tt, w2) /\ holds w2 f1 p2
        /\ run_filter p2 (SD n arch ip args) = Some SECCOMP_RET_ALLOW)
    /\ (seccomp_default f1 dbg native w = (Ok tt, w3) /\ holds w3 f1 p3
        /\ run_filter p3 (SD n arch ip args) = Some SECCOMP_RET_ALLOW).
Proof.
  intros He Hn Hp Hf Hk. pose proof (kept_nr _ _ Hk) as Hr.
  assert (nr_ok (sd_nr (SD n arch ip args))) as Hd by (unfold nr_ok, INT_MAX; simpl; lia).
  eexists _, _, _, _, _, _. split; [|split].
  - split; [by apply seccomp_drop_ok|]. split; [by apply after_drop_pre|].
    rewrite drop_decision by eauto using expand_ok. cbn [sd_nr].
    rewrite drop_action_keeps by done. f_equal. apply gate_allow. simpl. lia.
  - split; [by apply seccomp_default_drop_ok|]. split; [by apply after_drop_pre|].
    rewrite default_drop_decision by eauto using expand_ok. cbn [sd_nr].
    rewrite default_drop_action_keeps by done. f_equal. apply gate_allow. simpl. lia.
  - split; [apply seccomp_default_ok|]. split; [apply saved_holds|].
    rewrite default_decision by done. unfold default_action. cbn [sd_nr].
    rewrite default_keeps by done. f_equal. apply gate_allow. simpl. lia.
Qed.

(** An entry of @default-keep with an errno of its own is not deferred to
    the post-exec filter: --seccomp.drop=execve:EPERM writes a pre-exec filter
    that denies execve, which firejail still has to call. *)
Theorem drop_errno_blocks_exec f1 f2 dbg w ip args :
  f1 <> f2 ->
  exists w' p,
    seccomp_drop f1 f2 "execve:EPERM" dbg true w = (Ok tt, w') /\ holds w' f1 p
    /\ run_filter p (SD 59 ARCH_NR ip args) = Some (Z.lor SECCOMP_RET_ERRNO EPERM).
Proof.
  intros Hf.
  assert (expand SCL_DEPTH true "execve:EPERM" = Ok [Entry false 59 1]) as He by reflexivity.
  eexists _, _. split; [by apply seccomp_drop_ok|]. split; [by apply after_drop_pre|].
  rewrite drop_decision; [reflexivity|eauto using expand_ok|by repeat constructor|done].
Qed.

(** A number without a name in the table is lost on its way through the
    pre-exec list: --seccomp.drop=$500 writes a filter that allows call 500. *)
Theorem drop_number_lost f1 f2 dbg w ip args :
  f1 <> f2 ->
  exists w' p,
    seccomp_drop f1 f2 "$500" dbg true w = (Ok tt, w') /\ holds w' f1 p
    /\ run_filter p (SD 500 ARCH_NR ip args) = Some SECCOMP_RET_ALLOW.
Proof.
  intros Hf.
  assert (expand SCL_DEPTH true "$500" = Ok [Entry false 500 (-1)]) as He by reflexivity.
  eexists _, _. split; [by apply seccomp_drop_ok|]. split; [by apply after_drop_pre|].
  rewrite drop_decision; [vm_compute; reflexivity|eauto using expand_ok|by repeat constructor|done].
Qed.
End Claims.

(** ** Evaluation on concrete lists *)

Section Examples.
#[local] Existing Instance x86_64_headers.
#[local] Existing Instance short_writes.
#[local] Existing Instance short_writes_laws.

Definition sample_list : string := "execve,unlinkat:ENOENT,!mount,@clock,ptrace:kill".
Definition sample_entries : list entry :=
  match expand SCL_DEPTH true sample_list with Ok es => es | _ => [] end.
Definition plain_sample : string := "execve,!mount,@clock".
Definition plain_sample_entries : list entry :=
  match expand SCL_DEPTH true plain_sample with Ok es => es | _ => [] end.

Lemma sample_expands : expand SCL_DEPTH true sample_list = Ok sample_entries.
Proof. vm_compute. reflexivity. Qed.
Lemma sample_numbers : numbers_ok sample_entries.
Proof. apply (bool_decide_unpack _). vm_compute. exact I. Qed.
Lemma plain_sample_expands : expand SCL_DEPTH true plain_sample = Ok plain_sample_entries.
Proof. vm_compute. reflexivity. Qed.
Lemma plain_sample_numbers : numbers_ok plain_sample_entries.
Proof. apply (bool_decide_unpack _). vm_compute. exact I. Qed.

(** clock_settime gets EPERM, unlinkat ENOENT, ptrace is killed, mount and
    execve pass. *)
Lemma seccomp_drop_filters_witness :
  exists w' p,
    seccomp_drop "pre" "post" sample_list false true empty_world = (Ok tt, w')
    /\ holds w' "pre" p
    /\ run_filter p (call 227 []) = Some (Z.lor SECCOMP_RET_ERRNO 1)
    /\ run_filter p (call 263 []) = Some (Z.lor SECCOMP_RET_ERRNO 2)
    /\ run_filter p (call 101 []) = Some SECCOMP_RET_KILL
    /\ run_filter p (call 165 []) = Some SECCOMP_RET_ALLOW
    /\ run_filter p (call 59 []) = Some SECCOMP_RET_ALLOW.
Proof.
  destruct (seccomp_drop_filters "pre" "post" sample_list false true sample_entries empty_world
              sample_expands sample_numbers ltac:(discriminate)) as (w' & p & [Hc _] & Hh & Hr).
  exists w', p. split; [exact Hc|]. split; [exact Hh|].
  repeat split; rewrite Hr; try (split; [discriminate|reflexivity]); vm_compute; reflexivity.
Defined.

Lemma seccomp_drop_postexec_witness :
  exists w' p,
    seccomp_drop "pre" "post" sample_list false true empty_world = (Ok tt, w')
    /\ holds w' "post" p
    /\ run_filter p (call 59 []) = Some (Z.lor SECCOMP_RET_ERRNO 1)
    /\ run_filter p (call 157 []) = Some SECCOMP_RET_ALLOW
    /\ run_filter p (call 227 []) = Some SECCOMP_RET_ALLOW.
Proof.
  destruct (seccomp_drop_postexec "pre" "post" sample_list false true sample_entries empty_world
              sample_expands sample_numbers ltac:(discriminate)) as (w' & [Hc _] & Hp).
  assert (existsb (fun e => negb (e_neg e) && kept true (e_nr e)) sample_entries = true) as E
    by (vm_compute; reflexivity).
  rewrite E in Hp. destruct Hp as (p & Hh & Hr).
  exists w', p. split; [exact Hc|]. split; [exact Hh|].
  repeat split; rewrite Hr; try (split; [discriminate|reflexivity]); vm_compute; reflexivity.
Defined.

(** mount is in the default list and excepted; umount2 is blocked. *)
Lemma seccomp_default_drop_filters_witness :
  exists w' p,
    seccomp_default_drop "pre" "post" sample_list false true empty_world = (Ok tt, w')
    /\ holds w' "pre" p
    /\ run_filter p (call 165 []) = Some SECCOMP_RET_ALLOW
    /\ run_filter p (call 166 []) = Some (Z.lor SECCOMP_RET_ERRNO 1)
    /\ run_filter p (call 263 []) = Some (Z.lor SECCOMP_RET_ERRNO 2)
    /\ run_filter p (call 0 []) = Some SECCOMP_RET_ALLOW.
Proof.
  destruct (seccomp_default_drop_filters "pre" "post" sample_list false true sample_entries
              empty_world sample_expands sample_numbers ltac:(discriminate))
    as (w' & p & [Hc _] & Hh & Hr).
  exists w', p. split; [exact Hc|]. split; [exact Hh|].
  repeat split; rewrite Hr; try (split; [discriminate|reflexivity]); vm_compute; reflexivity.
Defined.

Lemma seccomp_keep_filters_witness :
  exists w' p,
    seccomp_keep "pre" "post" sample_list true empty_world = (Ok tt, w')
    /\ holds w' "pre" p
    /\ run_filter p (call 227 []) = Some SECCOMP_RET_ALLOW
    /\ run_filter p (call 157 []) = Some SECCOMP_RET_ALLOW
    /\ run_filter p (call 165 []) = Some (Z.lor SECCOMP_RET_ERRNO 1)
    /\ run_filter p (call 0 []) = Some (Z.lor SECCOMP_RET_ERRNO 1).
Proof.
  destruct (seccomp_keep_filters "pre" "post" sample_list true sample_entries
              empty_world sample_expands sample_numbers) as (w' & p & [Hc _] & Hh & Hr).
  exists w', p. split; [exact Hc|]. split; [exact Hh|].
  repeat split; rewrite Hr; try (split; [discriminate|reflexivity]); vm_compute; reflexivity.
Defined.

(** ptrace is blocked unless debuggers are allowed. *)
Lemma seccomp_default_filters_witness :
  exists w' p,
    seccomp_default "pre" false true empty_world = (Ok tt, w') /\ holds w' "pre" p
    /\ run_filter p (call 165 []) = Some (Z.lor SECCOMP_RET_ERRNO 1)
    /\ run_filter p (call 101 []) = Some (Z.lor SECCOMP_RET_ERRNO 1)
    /\ run_filter p (call 0 []) = Some SECCOMP_RET_ALLOW
    /\ run_filter p (call32 21 []) = Some SECCOMP_RET_ALLOW.
Proof.
  destruct (seccomp_default_filters "pre" false true empty_world) as (w' & p & [Hc _] & Hh & Hr).
  exists w', p. split; [exact Hc|]. split; [exact Hh|].
  repeat split; rewrite Hr; try (split; [discriminate|reflexivity]); vm_compute; reflexivity.
Defined.

Lemma prefilters_allow_exec_witness :
  exists w1 p1,
    seccomp_drop "pre" "post" plain_sample false true empty_world = (Ok tt, w1)
    /\ holds w1 "pre" p1 /\ run_filter p1 (call 59 []) = Some SECCOMP_RET_ALLOW.
Proof.
  destruct (prefilters_allow_exec "pre" "post" plain_sample false true plain_sample_entries
              empty_world 59 AUDIT_ARCH_X86_64 0 [] plain_sample_expands plain_sample_numbers)
    as (w1 & p1 & _ & _ & _ & _ & Hd & _).
  - apply List.Forall_forall. intros e He.
    assert (forallb (fun e => match own_action e with None => true | Some _ => false end)
              plain_sample_entries = true) as W by (vm_compute; reflexivity).
    rewrite forallb_forall in W. specialize (W e He). by destruct (own_action e).
  - discriminate.
  - reflexivity.
  - exists w1, p1. exact Hd.
Defined.

Lemma drop_errno_blocks_exec_witness :
  exists w' p,
    seccomp_drop "pre" "post" "execve:EPERM" false true empty_world = (Ok tt, w')
    /\ holds w' "pre" p /\ run_filter p (call 59 []) = Some (Z.lor SECCOMP_RET_ERRNO 1).
Proof.
  apply (drop_errno_blocks_exec "pre" "post" false empty_world 0 []). discriminate.
Defined.

Lemma drop_number_lost_witness :
  exists w' p,
    seccomp_drop "pre" "post" "$500" false true empty_world = (Ok tt, w')
    /\ holds w' "pre" p /\ run_filter p (call 500 []) = Some SECCOMP_RET_ALLOW.
Proof. apply (drop_number_lost "pre" "post" false empty_world 0 []). discriminate. Defined.
End Examples.
