(* ===== verification/OptimizerTheorems.v ===== *)
(** * The filter optimizer: the properties *)

From S2P Require Import Prelude.
From S2P Require Import Clib.
From S2P Require Import Bpf.
From S2P Require Import SyscallTables.
From S2P Require Import SyscallGroups.
From S2P Require Import FilterFile.
From S2P Require Import Syscall.
From S2P Require Import SyscallSpec.
From S2P Require Import Fseccomp.
From S2P Require Import DropSpec.
From S2P Require Import Concrete.
From S2P Require Import DropTheorems.
From S2P Require Import Optimizer.

(** * Filter files: the properties

    Writing under short writes, the failure of a write, and the round trip
    from the records a builder writes to the records firejail loads. *)

Local Open Scope string_scope.
Local Open Scope list_scope.
Local Open Scope Z_scope.

(** ** Loading *)

Lemma dec_length p : Forall wf_sock p -> length (dec (enc p)) = length p.
Proof. intros Hp. by rewrite dec_enc. Qed.

Lemma load_entries_enc p : load_entries (enc p) = Z.of_nat (length p) mod 8192.
Proof.
  unfold load_entries, u16. rewrite length_enc.
  replace (Z.of_nat (8 * length p)) with (Z.of_nat (length p) * 8) by lia.
  change (2 ^ 16) with (8192 * 8). rewrite Z.mul_mod_distr_r by lia.
  rewrite Z.div_mul by lia. apply Z.mod_small.
  pose proof (Z.mod_pos_bound (Z.of_nat (length p)) 8192). lia.
Qed.

Lemma load_enc p :
  Forall wf_sock p ->
  load_filter (enc p) = take (Z.to_nat (Z.of_nat (length p) mod 8192)) p.
Proof. intros Hp. unfold load_filter. by rewrite load_entries_enc, dec_enc. Qed.

Lemma load_small p :
  Forall wf_sock p -> Z.of_nat (length p) < 8192 -> load_filter (enc p) = p.
Proof.
  intros Hp Hl. rewrite load_enc, Z.mod_small by (done || lia). apply take_ge. lia.
Qed.

(** ** Records of the drop family are records *)

Lemma wf_rules rs : Forall wf_sock (rules_code rs).
Proof.
  induction rs as [|[n r] rs IH]; [constructor|].
  change (rules_code ((n, r) :: rs)) with (match_return n r ++ rules_code rs).
  apply Forall_app. split; [|done]. repeat constructor; auto using u8_range, u16_range, u32_range;
    apply wf_BPF_JUMP.
Qed.

Lemma wf_header native act : Forall wf_sock (header native act).
Proof. destruct native; repeat (constructor; [apply wf_BPF_JUMP|]); constructor. Qed.

Lemma length_rules rs : length (rules_code rs) = (2 * length rs)%nat.
Proof.
  induction rs as [|[n r] rs IH]; [done|].
  change (rules_code ((n, r) :: rs)) with (match_return n r ++ rules_code rs).
  rewrite length_app, IH. simpl. lia.
Qed.

Lemma wf_excepted native act rs ret :
  Forall wf_sock ret -> Forall wf_sock (excepted native act rs ret).
Proof.
  intros Hr. unfold excepted. rewrite !Forall_app. auto using wf_header, wf_rules.
Qed.

Lemma length_excepted native act rs ret :
  (length (excepted native act rs ret) <= 7 + 2 * length rs + length ret)%nat.
Proof.
  unfold excepted. rewrite !length_app, length_rules. destruct native; simpl; lia.
Qed.

(** The table of the architecture has the name. *)
Definition has_number (native : bool) (name : string) : bool :=
  negb (sys_number native name =? SYSCALL_ERROR).

(** The number of rules of a list of plain names. *)
Lemma length_plain_rules native act names :
  (length (list_rules blacklist_rules act (flat_map (plain_entry native) names))
   <= length (List.filter (has_number native) names))%nat.
Proof.
  unfold list_rules. induction names as [|name names IH]; [done|]. simpl.
  rewrite flat_map_app, length_app. unfold plain_entry at 1, has_number at 1.
  destruct (sys_number native name =? SYSCALL_ERROR); cbn [flat_map negb length]; [simpl; lia|].
  rewrite app_nil_r.
  enough (length (entry_rules blacklist_rules act
                    (Entry false (sys_number native name) (-1))) <= 1)%nat by lia.
  clear IH. unfold entry_rules, blacklist_rules. cbn [e_nr e_err].
  repeat case_match; simpl; lia.
Qed.

Lemma length_group_names `{SysHeaders} (q : string -> bool) depth items :
  (length (List.filter q (group_names depth items))
   <= length (List.filter q (all_names depth items)))%nat.
Proof.
  revert items. induction depth as [|depth IH]; intros items; [done|]. simpl.
  unfold group_tokens. induction items as [|i items IHi]; [done|]. simpl.
  rewrite List.filter_app, length_app. destruct (included i); simpl.
  - rewrite List.filter_app, length_app.
    destruct (has_prefix "@" (item_token i)); [|lia].
    destruct (find_group (item_token i)) as [g|]; [|simpl; lia].
    specialize (IH (sg_items g)). lia.
  - lia.
Qed.

Lemma all_default_names dbg native :
  (length (List.filter (has_number native) (all_names 3 (sg_items (default_group dbg)))) < 120)%nat.
Proof. apply Nat.ltb_lt. destruct dbg, native; vm_compute; reflexivity. Qed.

(** The default list has fewer than 120 rules, whatever the headers define. *)
Lemma length_default_rules `{SysHeaders} dbg native act :
  (length (list_rules blacklist_rules act (default_entries dbg native)) < 120)%nat.
Proof.
  eapply Nat.le_lt_trans; [apply length_plain_rules|].
  eapply Nat.le_lt_trans; [apply length_group_names|]. apply all_default_names.
Qed.

Section Claims.
Context `{H : SysHeaders} `{KOS : OS} {OL : OSLaws} `{BM : BpfMachine} {BL : BpfLaws}.

(** Writing to a filter file is all or nothing for the caller: however the
    kernel cuts the writes, [write_to_file] appends exactly the data to the
    file and leaves everything else alone; its loop needs no more rounds than
    there are bytes. *)
Theorem write_to_file_appends fd f c data w :
  w_fds w !! fd = Some f -> w_files w !! f = Some c -> data <> [] ->
  write_to_file fd data w =
  (Ok tt, World (w_action w) (w_fds w) (<[f := c ++ data]> (w_files w))).
Proof.
  intros Hf Hc Hd. unfold write_to_file.
  destruct (Z.eqb_spec (Z.of_nat (length data)) 0) as [E|E].
  { destruct data; [done|simpl in E; lia]. }
  simpl. rewrite cret_bind. by rewrite (write_loop_ok _ fd f data 0 c) by (done || lia).
Qed.

(** From fseccomp to the kernel: the records of a filter survive the file.
    [load_filter], the way firejail and fsec-optimize read a filter file,
    returns the records that were written, up to the 16-bit size of the file:
    a filter of 8192 records or more is read modulo 8192. *)
Theorem load_filter_roundtrip p :
  Forall wf_sock p ->
  load_filter (enc p) = take (Z.to_nat (Z.of_nat (length p) mod 8192)) p.
Proof. apply load_enc. Qed.

End Claims.

Section Failure.
Context `{KOS : OS}.

(** A failed write ends the program: when write(2) reports an error at
    once, [write_to_file] exits with code 1 and the file is as it was. *)
Theorem write_to_file_fails fd f data w :
  w_fds w !! fd = Some f -> data <> [] -> os_write fd data = -1 ->
  write_to_file fd data w = (Exit 1, w).
Proof.
  intros Hf Hd He. unfold write_to_file.
  destruct (Z.eqb_spec (Z.of_nat (length data)) 0) as [E|E].
  { destruct data; [done|simpl in E; lia]. }
  simpl. rewrite cret_bind. destruct data as [|b data]; [done|]. cbn [length write_loop].
  destruct (Z.ltb_spec 0 (Z.of_nat (S (length data)))) as [_|]; [|lia].
  change (drop (Z.to_nat 0) (b :: data)) with (b :: data).
  unfold cbind, sys_write. by rewrite Hf, He.
Qed.
End Failure.

(** ** Evaluation *)

Section Examples.
#[local] Existing Instance x86_64_headers.
#[local] Existing Instance short_writes.
#[local] Existing Instance short_writes_laws.

Definition open_world : world := World 0 {[3 := "f"]} {["f" := [7]]}.

(** Twelve bytes in three calls of write(2). *)
Lemma write_to_file_appends_witness :
  write_to_file 3 [1; 2; 3; 4; 5; 6; 7; 8; 9; 10; 11; 12] open_world =
  (Ok tt, World 0 {[3 := "f"]}
            (<["f" := [7; 1; 2; 3; 4; 5; 6; 7; 8; 9; 10; 11; 12]]> {["f" := [7]]})).
Proof.
  apply (write_to_file_appends 3 "f" [7] [1; 2; 3; 4; 5; 6; 7; 8; 9; 10; 11; 12] open_world);
    [reflexivity|reflexivity|discriminate].
Defined.

Lemma load_filter_roundtrip_witness :
  load_filter (enc (header true 0 ++ RETURN_ALLOW)) = header true 0 ++ RETURN_ALLOW.
Proof.
  rewrite (load_filter_roundtrip (header true 0 ++ RETURN_ALLOW)); [reflexivity|].
  repeat (constructor; [apply wf_BPF_JUMP|]). constructor.
Defined.

Definition broken_disk : OS := Build_OS (fun _ => 3) (fun _ _ => -1).

Lemma write_to_file_fails_witness :
  write_to_file (KOS := broken_disk) 3 [1; 2] open_world = (Exit 1, open_world).
Proof.
  apply (write_to_file_fails (KOS := broken_disk) 3 "f" [1; 2] open_world);
    [reflexivity|discriminate|reflexivity].
Defined.
End Examples.

Local Open Scope string_scope.
Local Open Scope list_scope.
Local Open Scope Z_scope.

(** ** The header is left alone *)

Lemma keep_skip act a b l :
  is_blacklist act a b = false ->
  keep_lines (a :: b :: l) (mark_blacklists act (a :: b :: l)) =
  plain_line a :: keep_lines (b :: l) (mark_blacklists act (b :: l)).
Proof. intros E. by rewrite keep_lines_mark, E. Qed.

Lemma keep_header native act q :
  q <> [] -> u32 act <> SECCOMP_RET_ALLOW ->
  keep_lines (header native act ++ q) (mark_blacklists act (header native act ++ q)) =
  map plain_line (header native act) ++ keep_lines q (mark_blacklists act q).
Proof.
  intros Hq Ha. destruct q as [|s q]; [done|].
  assert (Hv : forall arch, is_blacklist act (BPF_JUMP (BPF_JMP + BPF_JEQ + BPF_K) arch 1 0)
                 (BPF_STMT (BPF_RET + BPF_K) SECCOMP_RET_ALLOW) = false).
  { intros arch. unfold is_blacklist. cbn [code k BPF_STMT BPF_JUMP].
    change (u32 SECCOMP_RET_ALLOW) with SECCOMP_RET_ALLOW.
    destruct (Z.eqb_spec SECCOMP_RET_ALLOW (u32 act)); [congruence|]. by rewrite andb_false_r. }
  destruct native; unfold header, filter_native, filter_32, VALIDATE_ARCHITECTURE,
    VALIDATE_ARCHITECTURE_32, validate_arch, EXAMINE_SYSCALL, HANDLE_X32, RETURN_ALLOW,
    KILL_OR_RETURN_ERRNO; cbn [app map];
    by rewrite !keep_skip by (apply Hv || reflexivity).
Qed.

Lemma length_header native act : length (header native act) = if native then 7%nat else 4%nat.
Proof. by destruct native. Qed.

(** The optimized program. *)
Definition optimized (native : bool) (act : Z) (rs : list (Z * Z)) (last : sock_filter)
    : list sock_filter :=
  header native act ++ opt_code act rs ++ RETURN_ALLOW ++ [last].

Lemma imap_plain entries off (l : list sock_filter) (q : list (sock_filter * Action)) :
  imap (fun i => fix_jumps entries (off + i)) (map plain_line l ++ q) =
  l ++ imap (fun i => fix_jumps entries ((off + length l) + i)) q.
Proof.
  revert off. induction l as [|s l IH]; intros off; cbn [map app].
  - apply imap_ext. intros. cbn. f_equal. lia.
  - rewrite imap_cons. f_equal. etrans; [|etrans; [apply (IH (S off))|]].
    + apply imap_ext. intros. cbn. f_equal. lia.
    + f_equal. apply imap_ext. intros. cbn. f_equal. lia.
Qed.

Lemma optimize_blacklists_excepted native act rs out :
  u32 act <> SECCOMP_RET_ALLOW ->
  optimize_blacklists act (excepted native act rs RETURN_ALLOW) = Some out ->
  exists t f, out = optimized native act rs (Sock (BPF_RET + BPF_K) t f (u32 act))
    /\ 0 <= t < 256 /\ 0 <= f < 256.
Proof.
  intros Ha. unfold optimize_blacklists. cbv zeta.
  destruct (drop _ (excepted native act rs RETURN_ALLOW)) as [|old rest] eqn:Eo; [done|].
  assert (wf_sock old) as (_ & Ht & Hf & _).
  { assert (Forall wf_sock (excepted native act rs RETURN_ALLOW)) as W
      by (apply wf_excepted; constructor; [apply wf_BPF_JUMP|constructor]).
    eapply (Forall_drop _ (length _)) in W. rewrite Eo in W. by apply Forall_inv in W. }
  unfold excepted. rewrite keep_header, keep_rules_code by (done || by destruct (rules_code rs)).
  intros Ho. exists (jt old), (jf old). split; [|done]. clear Eo Ht Hf.
  assert (out = imap (fix_jumps (Z.of_nat (length (map plain_line (header native act)
                  ++ flat_map (kept_rule act) rs ++ map plain_line RETURN_ALLOW)) + 1))
                  (map plain_line (header native act)
                  ++ flat_map (kept_rule act) rs ++ map plain_line RETURN_ALLOW)
                ++ [Sock (u16 (BPF_RET + BPF_K)) (jt old) (jf old) (u32 act)]) as -> by congruence.
  unfold optimized. rewrite (imap_ext _ (fun i => fix_jumps (Z.of_nat (length (map plain_line
    (header native act) ++ flat_map (kept_rule act) rs ++ map plain_line RETURN_ALLOW)) + 1) (0 + i)))
    by done.
  rewrite imap_plain, <- app_assoc. f_equal. rewrite (app_assoc (opt_code act rs)).
  change (u16 (BPF_RET + BPF_K)) with (BPF_RET + BPF_K). f_equal.
  apply fix_rules. rewrite !length_app, !length_map. cbn [length RETURN_ALLOW]. lia.
Qed.

Section Semantics.
Context `{BM : BpfMachine} {BL : BpfLaws}.

Lemma run_optimized native act rs t f d :
  Z.of_nat (length (opt_code act rs)) <= 255 ->
  run_filter (optimized native act rs (Sock (BPF_RET + BPF_K) t f (u32 act))) d =
  run_filter (excepted native act rs RETURN_ALLOW) d.
Proof.
  intros Hl. unfold excepted, RETURN_ALLOW. rewrite run_rules.
  unfold run_filter, optimized, rule_decision. rewrite exec_header.
  destruct (negb _); [done|]. destruct (native && _); [done|].
  rewrite (exec_opt_code act rs _ d _ t f eq_refl Hl). by rewrite default_of_first.
Qed.

Lemma optimize_preserves_aux native act rs out d :
  u32 act <> SECCOMP_RET_ALLOW ->
  optimize act (excepted native act rs RETURN_ALLOW) = Ok (Some out) ->
  Z.of_nat (length out) <= 256 ->
  run_filter out d = run_filter (excepted native act rs RETURN_ALLOW) d.
Proof.
  intros Ha. unfold optimize.
  destruct (excepted native act rs RETURN_ALLOW) as [|s p] eqn:Ep; [done|]. rewrite <- Ep.
  destruct (_ <? _); [|by intros [= <-]]. intros Ho Hl.
  assert (optimize_blacklists act (excepted native act rs RETURN_ALLOW) = Some out) as E
    by congruence.
  apply optimize_blacklists_excepted in E as (t & f & -> & _); [|done].
  apply run_optimized. unfold optimized in Hl. rewrite !length_app in Hl.
  cbn [length RETURN_ALLOW] in Hl. lia.
Qed.
End Semantics.

(** ** From the builder to the loaded program *)

Lemma wf_opt_code act rs : Forall wf_sock (opt_code act rs).
Proof.
  induction rs as [|r rs IH]; [constructor|]. cbn [opt_code]. destruct (is_action act r).
  - constructor; [|done]. repeat split; cbn; try apply u8_range; try apply u32_range; by vm_compute.
  - apply Forall_app. split; [|done]. repeat (constructor; [apply wf_BPF_JUMP|]). constructor.
Qed.

Lemma length_opt_code_le act rs : (length (opt_code act rs) <= 2 * length rs)%nat.
Proof.
  induction rs as [|r rs IH]; [done|]. cbn [opt_code].
  destruct (is_action act r); [|rewrite length_app]; simpl; lia.
Qed.

Lemma length_entry_rules R act e :
  (forall m, length (R act m) <= 1)%nat -> (length (entry_rules R act e) <= 1)%nat.
Proof.
  intros HR. unfold entry_rules, blacklist_rules. repeat case_match; simpl; auto; lia.
Qed.

Lemma length_flat_map_le {A B} (f : A -> list B) l :
  (forall x, length (f x) <= 1)%nat -> (length (flat_map f l) <= length l)%nat.
Proof.
  intros Hf. induction l as [|x l IH]; [done|]. simpl. rewrite length_app. specialize (Hf x). lia.
Qed.

Lemma length_drop_rules native act es : (length (drop_rules native act es) <= 2 * length es)%nat.
Proof.
  unfold drop_rules, list_rules. rewrite length_app.
  pose proof (length_flat_map_le (entry_rules whitelist_excluded_rules act) es) as H1.
  pose proof (length_flat_map_le (entry_rules blacklist_rules act) (flat_map (pre_entry native) es)) as H2.
  pose proof (length_flat_map_le (pre_entry native) es) as H3.
  assert (forall e, length (pre_entry native e) <= 1)%nat as P
    by (intros e; unfold pre_entry; cbv zeta; case_match; simpl; lia).
  assert (forall e, length (entry_rules whitelist_excluded_rules act e) <= 1)%nat as P1
    by (intros e; apply length_entry_rules; intros m; unfold whitelist_excluded_rules; case_match; simpl; lia).
  assert (forall e, length (entry_rules blacklist_rules act e) <= 1)%nat as P2
    by (intros e; apply length_entry_rules; intros m; unfold blacklist_rules; case_match; simpl; lia).
  specialize (H1 P1). specialize (H2 P2). specialize (H3 P). lia.
Qed.

(** What is known of the optimizer's output on a filter of the drop family. *)
Lemma optimize_excepted native act rs :
  u32 act <> SECCOMP_RET_ALLOW -> (length rs < 120)%nat ->
  exists out,
    optimize act (excepted native act rs RETURN_ALLOW) = Ok (Some out)
    /\ out <> [] /\ Forall wf_sock out /\ Z.of_nat (length out) <= 256.
Proof.
  intros Ha Hl. destruct (optimize_in_bounds_aux act (excepted native act rs RETURN_ALLOW))
    as (out & Ho & Hn & _); [by destruct native|].
  exists out. split; [done|]. split; [by intros ->; simpl in Hn; lia|]. revert Ho. unfold optimize.
  destruct (excepted native act rs RETURN_ALLOW) as [|s p] eqn:Ep; [done|]. rewrite <- Ep.
  destruct (_ <? _); intros Ho.
  - assert (optimize_blacklists act (excepted native act rs RETURN_ALLOW) = Some out) as E
      by congruence.
    apply optimize_blacklists_excepted in E as (t & f & -> & Ht & Hf); [|done]. unfold optimized.
    split.
    + rewrite !Forall_app. repeat split; auto using wf_header, wf_opt_code.
      * constructor; [apply wf_BPF_JUMP|constructor].
      * constructor; [|constructor]. repeat split; cbn; try lia; try apply u32_range; by vm_compute.
    + rewrite !length_app. pose proof (length_opt_code_le act rs).
      rewrite length_header. destruct native; simpl; lia.
  - assert (out = excepted native act rs RETURN_ALLOW) as -> by congruence. split.
    + apply wf_excepted. constructor; [apply wf_BPF_JUMP|constructor].
    + pose proof (length_excepted native act rs RETURN_ALLOW) as L.
      change (length RETURN_ALLOW) with 1%nat in L. lia.
Qed.

Lemma error_action_not_allow env act :
  error_action env = Ok act -> u32 act <> SECCOMP_RET_ALLOW.
Proof.
  unfold error_action. destruct env as [s|]; [|by intros [= <-]].
  destruct (streq s "kill"); [by intros [= <-]|]. destruct (streq s "log"); [by intros [= <-]|].
  cbv zeta. destruct (Z.eqb_spec (errno_find_name s) (-1)) as [|Hn]; [done|].
  apply errno_find_name_in in Hn as (x & Hx & <-). intros [= <-].
  assert (forallb (fun x => negb (u32 (Z.lor (en_nr x) SECCOMP_RET_ERRNO) =? SECCOMP_RET_ALLOW))
            errnolist = true) as W by (vm_compute; reflexivity).
  rewrite forallb_forall in W. specialize (W x Hx). lia.
Qed.

Section Pipeline.
Context `{KOS : OS} {OL : OSLaws}.

(** The kernel stores a whole filter at once. *)
Definition full_writes : Prop := forall fd b, os_write fd b = Z.of_nat (length b).

Lemma optimize_main_ok env f w p act out :
  full_writes -> error_action env = Ok act -> holds w f p ->
  Forall wf_sock p -> Z.of_nat (length p) < 8192 -> p <> [] -> out <> [] ->
  optimize act p = Ok (Some out) ->
  optimize_main env f w = (Ok 0, saved f out w).
Proof.
  intros Hw He Hh Hp Hl Hne Hno Ho. unfold optimize_main. rewrite He, clift_ok_bind, cget_bind.
  unfold holds in Hh. rewrite Hh. destruct (enc p) as [|b bs] eqn:Ee; [by apply enc_nil in Ee|].
  rewrite <- Ee, load_small, Ho, clift_ok_bind by done.
  unfold sys_open, cbind. pose proof (os_open_fresh f). cbv zeta.
  assert (os_open f <? 0 = false) as -> by lia. assert (os_open f =? -1 = false) as -> by lia.
  unfold sys_write. cbn [w_fds w_files w_action]. rewrite lookup_insert_eq, Hw, lookup_insert_eq.
  destruct (Z.eqb_spec (Z.of_nat (length (enc out))) (-1)); [lia|].
  rewrite Z.eqb_refl. cbn [negb default app]. unfold sys_close, cmodify, cret, saved.
  cbn [w_fds w_files w_action].
  rewrite delete_insert_eq, insert_insert_eq, Nat2Z.id, take_ge by done. done.
Qed.
End Pipeline.

Section Claims.
Context `{H : SysHeaders} `{KOS : OS} {OL : OSLaws} `{BM : BpfMachine} {BL : BpfLaws}.

(** C23: The optimizer preserves the meaning of a blacklist filter: for every
    filter made of the header, a run of rules and the final allow, if the
    result has at most 256 records the optimized program returns the same
    value as the original for every system call. *)
Theorem optimize_preserves native act rs out d :
  u32 act <> SECCOMP_RET_ALLOW ->
  optimize act (header native act ++ rules_code rs ++ RETURN_ALLOW) = Ok (Some out) ->
  Z.of_nat (length out) <= 256 ->
  run_filter out d = run_filter (header native act ++ rules_code rs ++ RETURN_ALLOW) d.
Proof. apply optimize_preserves_aux. Qed.

(** The optimizer stays inside its arrays: on every non-empty filter
    whatsoever it returns a filter, the line it appends always lands on an
    element the removal of a line has freed. *)
Theorem optimize_in_bounds act filter :
  filter <> [] ->
  exists out, optimize act filter = Ok (Some out) /\ (length out <= length filter)%nat.
Proof.
  intros Hf. destruct (optimize_in_bounds_aux act filter Hf) as (out & Ho & _ & Hl). eauto.
Qed.

End Claims.

(** ** Evaluation *)

Section Examples.
#[local] Existing Instance x86_64_headers.

Definition eperm : Z := Z.lor SECCOMP_RET_ERRNO EPERM.

Definition atomic_writes : OS := Build_OS (fun _ => 3) (fun _ b => Z.of_nat (length b)).
Lemma atomic_writes_laws : OSLaws (KOS := atomic_writes).
Proof. split; intros; simpl; [lia|]. destruct b; [done|]. simpl length. lia. Qed.
#[local] Existing Instance atomic_writes.
#[local] Existing Instance atomic_writes_laws.

Definition six_rules : list (Z * Z) := map (fun n => (n, eperm)) [1; 2; 3; 4; 5; 6].
Definition six_optimized : list sock_filter :=
  match optimize eperm (header true eperm ++ rules_code six_rules ++ RETURN_ALLOW) with
  | Ok (Some out) => out
  | _ => []
  end.

(** 20 records become 15. *)
Lemma optimize_preserves_witness :
  length six_optimized = 15%nat
  /\ run_filter six_optimized (call 4 []) = Some eperm
  /\ run_filter six_optimized (call 7 []) = Some SECCOMP_RET_ALLOW.
Proof.
  split; [vm_compute; reflexivity|].
  split; rewrite (optimize_preserves true eperm six_rules six_optimized);
    try (vm_compute; (reflexivity || discriminate)).
Defined.

Lemma optimize_in_bounds_witness :
  exists out, optimize eperm (rules_code six_rules) = Ok (Some out) /\ (length out <= 12)%nat.
Proof. apply (optimize_in_bounds eperm (rules_code six_rules)). discriminate. Defined.

(** A jump offset has 8 bits and is not checked: the filter of
    --seccomp.drop=@system-service, with 792 records, denies read(2), and the
    filter fsec-optimize makes of it allows it. *)
Theorem optimize_offset_overflow :
  exists es p out,
    expand SCL_DEPTH true "@system-service" = Ok es
    /\ p = excepted true eperm (drop_rules true eperm es) RETURN_ALLOW
    /\ optimize eperm p = Ok (Some out)
    /\ run_filter p (call 0 []) = Some eperm
    /\ run_filter out (call 0 []) = Some SECCOMP_RET_ALLOW.
Proof.
  eexists _, _, _. split; [vm_compute; reflexivity|]. split; [reflexivity|].
  split; [vm_compute; reflexivity|]. split; vm_compute; reflexivity.
Qed.
End Examples.
