(* ===== verification/ArgTheorems.v ===== *)
(** * Filters that look at arguments: the properties *)

From S2P Require Import Prelude.
From S2P Require Import Clib.
From S2P Require Import Bpf.
From S2P Require Import SyscallTables.
From S2P Require Import SyscallGroups.
From S2P Require Import FilterFile.
From S2P Require Import Syscall.
From S2P Require Import SyscallSpec.
From S2P Require Import Fseccomp.
From S2P Require Import DropSpec.
From S2P Require Import Concrete.
From S2P Require Import DropTheorems.
From S2P Require Import ProfileList.

(** * Filters that look at arguments

    What the filters of memory_deny_write_execute, deny_ns,
    protocol_build_filter and seccomp_secondary decide, as functions of the
    system call and its arguments, and the theorems that the files hold
    programs that decide that way. *)

Local Open Scope string_scope.
Local Open Scope list_scope.
Local Open Scope Z_scope.

(** ** Arguments *)

Definition arg (i : nat) (d : seccomp_data) : Z := default 0 (sd_args d !! i).

(** A system call has six 64-bit arguments. *)
Definition data_ok (d : seccomp_data) : Prop :=
  nr_ok (sd_nr d) /\ length (sd_args d) = 6%nat /\ Forall (fun a => 0 <= a < 2 ^ 64) (sd_args d).

#[export] Instance data_ok_dec d : Decision (data_ok d).
Proof. unfold data_ok, nr_ok. apply _. Defined.

Lemma data_nr d : data_ok d -> nr_ok (sd_nr d).
Proof. by intros []. Qed.

Lemma arg_range i d : data_ok d -> 0 <= arg i d < 2 ^ 64.
Proof.
  intros (_ & _ & Ha). unfold arg. destruct (sd_args d !! i) eqn:E; [|simpl; lia].
  by apply (Forall_lookup_1 _ _ _ _ Ha E).
Qed.

Lemma sd_word_arg i d :
  data_ok d -> (i < 6)%nat ->
  sd_word d (off_args (Z.of_nat i)) = Some (u32 (arg i d))
  /\ sd_word d (off_args (Z.of_nat i) + 4) = Some (u32 (arg i d / 2 ^ 32)).
Proof.
  destruct d as [nr ar ip args]. intros (_ & Hl & _) Hi. simpl in Hl.
  destruct args as [|? [|? [|? [|? [|? [|? []]]]]]]; try discriminate Hl.
  do 6 (destruct i as [|i]; [split; reflexivity|]). lia.
Qed.

Section Blocks.
Context `{BM : BpfMachine} {BL : BpfLaws}.

Lemma exec_EXAMINE_ARGUMENT (i : nat) p d a :
  data_ok d -> (i < 6)%nat ->
  bpf_exec (EXAMINE_ARGUMENT (Z.of_nat i) ++ p) d a = bpf_exec p d (u32 (arg i d)).
Proof.
  intros Hd Hi. apply exec_LD_off; [unfold off_args; lia|]. by apply sd_word_arg.
Qed.

Lemma exec_deny_arg_mask act nr mask p d a :
  data_ok d -> 0 <= mask < 2 ^ 32 ->
  bpf_exec (deny_arg_mask act nr mask ++ p) d a =
  if a =? u32 nr then
    Some (if Z.land (u32 (arg 2 d)) mask =? mask then u32 act else SECCOMP_RET_ALLOW)
  else bpf_exec p d a.
Proof.
  intros Hd Hm. unfold deny_arg_mask. cbn [app]. rewrite exec_JEQ.
  destruct (a =? u32 nr); cbn [drop]; [|reflexivity].
  change (drop (Z.to_nat (u8 0)) ?l) with l.
  rewrite <- !app_assoc. rewrite (exec_EXAMINE_ARGUMENT 2) by (done || lia). cbn [app].
  rewrite exec_AND, exec_JEQ, !(u32_small mask) by done.
  destruct (_ =? mask); simpl; [by rewrite exec_RET|]. unfold RETURN_ALLOW. cbn [app].
  by rewrite exec_RET.
Qed.

Lemma exec_deny_arg_bits act nr (i : nat) mask p d a :
  data_ok d -> (i < 6)%nat -> 0 <= mask < 2 ^ 32 ->
  bpf_exec (deny_arg_bits act nr (Z.of_nat i) mask ++ p) d a =
  if a =? u32 nr then
    Some (if Z.land (u32 (arg i d)) mask =? 0 then SECCOMP_RET_ALLOW else u32 act)
  else bpf_exec p d a.
Proof.
  intros Hd Hi Hm. unfold deny_arg_bits. cbn [app]. rewrite exec_JEQ.
  destruct (a =? u32 nr); cbn [drop]; [|reflexivity].
  change (drop (Z.to_nat (u8 0)) ?l) with l.
  rewrite <- !app_assoc. rewrite exec_EXAMINE_ARGUMENT by done. cbn [app].
  rewrite exec_JSET, !(u32_small mask) by done.
  destruct (_ =? 0); simpl; [|by rewrite exec_RET]. unfold RETURN_ALLOW. cbn [app].
  by rewrite exec_RET.
Qed.

(** The jump over the setns block ends on its last record, which allows. *)
Lemma exec_deny_setns act nr mask p d a :
  data_ok d -> 0 <= mask < 2 ^ 32 ->
  bpf_exec (deny_setns act nr mask ++ p) d a =
  Some (if a =? u32 nr then
          if (u32 (arg 1 d) =? 0) || negb (Z.land (u32 (arg 1 d)) mask =? 0)
          then u32 act else SECCOMP_RET_ALLOW
        else SECCOMP_RET_ALLOW).
Proof.
  intros Hd Hm. unfold deny_setns. cbn [app]. rewrite exec_JEQ.
  destruct (a =? u32 nr).
  - change (drop (Z.to_nat (u8 0)) ?l) with l.
    rewrite <- !app_assoc. rewrite (exec_EXAMINE_ARGUMENT 1) by (done || lia). cbn [app].
    rewrite exec_JEQ. change (u32 0) with 0.
    destruct (u32 (arg 1 d) =? 0); simpl; [by rewrite exec_RET|].
    rewrite exec_JSET, !(u32_small mask) by done.
    destruct (_ =? 0); simpl; [|by rewrite exec_RET]. by rewrite exec_RET.
  - simpl. by rewrite exec_RET.
Qed.
End Blocks.

(** ** Files made of a header, a body and the final allow *)

Section Body.
Context `{KOS : OS} {OL : OSLaws} `{BM : BpfMachine} {BL : BpfLaws}.

Definition with_body (native : bool) (act : Z) (body : list sock_filter) : list sock_filter :=
  header native act ++ body ++ RETURN_ALLOW.

Lemma body_saved f native (body : Z -> list sock_filter) w :
  body (w_action w) <> [] ->
  (fd <~ open_filter f ;;
   filter_init fd native ;;;
   w <~ cget ;;
   write_to_file fd (enc (body (w_action w))) ;;;
   filter_end_blacklist fd ;;;
   sys_close fd) w =
  (Ok tt, saved f (with_body native (w_action w) (body (w_action w))) w).
Proof.
  intros Hb. erewrite cbind_ok by apply open_filter_ok.
  emit_step (filter_init_ok (os_open f)). rewrite cget_bind, action_emit. cbn [w_action opened].
  emit_step (write_to_file_ok (os_open f)).
  emit_step (filter_end_blacklist_ok (os_open f)).
  rewrite close_saved. unfold with_body. by rewrite app_assoc.
Qed.

Lemma run_body native act body d v :
  nr_ok (sd_nr d) ->
  bpf_exec (body ++ RETURN_ALLOW) d (sd_nr d) = Some v ->
  run_filter (with_body native act body) d = Some (gate native (u32 act) v d).
Proof.
  intros Hd Hv. unfold run_filter, with_body, gate. rewrite exec_header, (u32_nr (sd_nr d)) by done.
  rewrite Hv. by repeat case_match.
Qed.

Lemma exec_ALLOW d a : bpf_exec RETURN_ALLOW d a = Some SECCOMP_RET_ALLOW.
Proof. apply exec_RET. Qed.
End Body.

(** ** Memory that is writable and executable *)

Section Mdwx.
Context `{H : SysHeaders}.

(** [n] is the number of a macro the headers define. *)
Definition is_sys (macro : string) (n : Z) : bool :=
  match SYS macro with Some m => n =? u32 m | None => false end.

Definition deny_mask (act mask a : Z) : Z :=
  if Z.land (u32 a) mask =? mask then act else SECCOMP_RET_ALLOW.

(** mmap with PROT_WRITE|PROT_EXEC, mprotect and pkey_mprotect with PROT_EXEC,
    shmat with SHM_EXEC and memfd_create get the error action. *)
Definition mdwx_action (act : Z) (d : seccomp_data) : Z :=
  let n := sd_nr d in
  if n =? u32 (sys_nr "SYS_mmap") then deny_mask act (Z.lor PROT_WRITE PROT_EXEC) (arg 2 d)
  else if n =? u32 (sys_nr "SYS_mprotect") then deny_mask act PROT_EXEC (arg 2 d)
  else if is_sys "SYS_pkey_mprotect" n then deny_mask act PROT_EXEC (arg 2 d)
  else if is_sys "SYS_shmat" n then deny_mask act SHM_EXEC (arg 2 d)
  else if is_sys "SYS_memfd_create" n then act
  else SECCOMP_RET_ALLOW.

(** The i386 calls: the old mmap is denied as a whole. *)
Definition mdwx_action_32 (act : Z) (d : seccomp_data) : Z :=
  let n := sd_nr d in
  if n =? block_syscall_32 then act
  else if n =? filter_syscall_32 then deny_mask act (Z.lor PROT_WRITE PROT_EXEC) (arg 2 d)
  else if n =? mprotect_32 then deny_mask act PROT_EXEC (arg 2 d)
  else if n =? pkey_mprotect_32 then deny_mask act PROT_EXEC (arg 2 d)
  else if n =? shmat_32 then deny_mask act SHM_EXEC (arg 2 d)
  else if n =? memfd_create_32 then act
  else SECCOMP_RET_ALLOW.

Context `{BM : BpfMachine} {BL : BpfLaws}.

Lemma exec_ifdef macro (f : Z -> list sock_filter) q d a (v : Z) p :
  (forall n, bpf_exec (f n ++ p) d a = if a =? u32 n then Some v else q) ->
  q = bpf_exec p d a ->
  bpf_exec (ifdef macro f ++ p) d a = if is_sys macro a then Some v else q.
Proof.
  intros Hf Hq. unfold ifdef, is_sys. destruct (SYS macro); [apply Hf|]. by subst q.
Qed.

Lemma exec_mdwx act d :
  data_ok d ->
  bpf_exec (mdwx_filter act ++ RETURN_ALLOW) d (sd_nr d) = Some (mdwx_action (u32 act) d).
Proof.
  intros Hd. unfold mdwx_filter, mdwx_action. cbv zeta. rewrite <- !app_assoc.
  rewrite !exec_deny_arg_mask by (done || by vm_compute).
  destruct (_ =? u32 (sys_nr "SYS_mmap")); [done|].
  destruct (_ =? u32 (sys_nr "SYS_mprotect")); [done|].
  erewrite exec_ifdef; [|intros; by apply exec_deny_arg_mask|reflexivity].
  destruct (is_sys "SYS_pkey_mprotect" _); [done|].
  erewrite exec_ifdef; [|intros; by apply exec_deny_arg_mask|reflexivity].
  destruct (is_sys "SYS_shmat" _); [done|].
  unfold ifdef, is_sys. destruct (SYS "SYS_memfd_create"); [|apply exec_ALLOW].
  unfold BLACKLIST. rewrite <- app_assoc, exec_match_return. destruct (_ =? u32 z); [done|].
  apply exec_RET.
Qed.

Lemma exec_mdwx_32 act d :
  data_ok d ->
  bpf_exec (mdwx_filter_32 act ++ RETURN_ALLOW) d (sd_nr d) = Some (mdwx_action_32 (u32 act) d).
Proof.
  intros Hd. unfold mdwx_filter_32, mdwx_action_32, BLACKLIST. cbv zeta. rewrite <- !app_assoc.
  rewrite exec_match_return. change (u32 block_syscall_32) with block_syscall_32.
  destruct (_ =? block_syscall_32); [done|].
  rewrite !exec_deny_arg_mask by (done || by vm_compute).
  change (u32 filter_syscall_32) with filter_syscall_32.
  destruct (_ =? filter_syscall_32); [done|]. change (u32 mprotect_32) with mprotect_32.
  destruct (_ =? mprotect_32); [done|]. change (u32 pkey_mprotect_32) with pkey_mprotect_32.
  destruct (_ =? pkey_mprotect_32); [done|]. change (u32 shmat_32) with shmat_32.
  destruct (_ =? shmat_32); [done|]. rewrite exec_match_return.
  change (u32 memfd_create_32) with memfd_create_32.
  destruct (_ =? memfd_create_32); [done|]. apply exec_RET.
Qed.
End Mdwx.

(** ** Namespaces *)

Lemma ns_flag_range tok fl : ns_flag tok = Some fl -> 0 <= fl < 2 ^ 31.
Proof. unfold ns_flag. repeat case_match; intros; simplify_eq; by vm_compute. Qed.

(** The mask is the union of the flags; an unknown name is an error. *)
Lemma ns_mask_loop_fold tokens mask :
  ns_mask_loop tokens mask =
  match mapM ns_flag tokens with
  | Some flags => Ok (fold_left Z.lor flags mask)
  | None => Exit 1
  end.
Proof.
  revert mask. induction tokens as [|t tokens IH]; intros mask; [done|]. cbn [ns_mask_loop].
  simpl. destruct (ns_flag t) as [fl|]; [|done]. rewrite IH. simpl.
  by destruct (mapM ns_flag tokens).
Qed.

Lemma fold_lor_testbit flags mask i :
  Z.testbit (fold_left Z.lor flags mask) i =
  Z.testbit mask i || existsb (fun fl => Z.testbit fl i) flags.
Proof.
  revert mask. induction flags as [|fl flags IH]; intros mask; simpl; [by rewrite orb_false_r|].
  by rewrite IH, Z.lor_spec, orb_assoc.
Qed.

Lemma fold_lor_range flags mask :
  Forall (fun fl => 0 <= fl < 2 ^ 31) flags -> 0 <= mask < 2 ^ 31 ->
  0 <= fold_left Z.lor flags mask < 2 ^ 31.
Proof.
  intros Hf. revert mask. induction Hf as [|fl flags Hfl Hf IH]; intros mask Hm; [done|].
  simpl. apply IH. split; [apply Z.lor_nonneg; lia|].
  destruct (Z.eq_dec (Z.lor mask fl) 0) as [->|]; [lia|].
  apply Z.log2_lt_pow2; [pose proof (Z.lor_nonneg mask fl); lia|].
  rewrite Z.log2_lor by lia.
  destruct (Z.max_spec (Z.log2 mask) (Z.log2 fl)) as [[_ ->]|[_ ->]].
  - destruct (Z.eq_dec fl 0) as [->|]; [done|]. apply Z.log2_lt_pow2; lia.
  - destruct (Z.eq_dec mask 0) as [->|]; [done|]. apply Z.log2_lt_pow2; lia.
Qed.

Lemma mapM_ns_flags tokens flags :
  mapM ns_flag tokens = Some flags -> Forall (fun fl => 0 <= fl < 2 ^ 31) flags.
Proof.
  intros Hm%mapM_Some. induction Hm as [|t fl tokens flags Ht Hm IH]; constructor;
    eauto using ns_flag_range.
Qed.

Lemma build_ns_mask_range list mask : build_ns_mask list = Ok mask -> 0 <= mask < 2 ^ 31.
Proof.
  unfold build_ns_mask. rewrite ns_mask_loop_fold.
  destruct (mapM ns_flag (strtok "," list)) as [flags|] eqn:E; [|done]. intros [= <-].
  apply fold_lor_range; [by eapply mapM_ns_flags|lia].
Qed.

Section Namespaces.
Context `{H : SysHeaders}.

Definition deny_bits (act mask a : Z) : Z :=
  if Z.land (u32 a) mask =? 0 then SECCOMP_RET_ALLOW else act.

(** The decision on the numbers of clone, clone3, unshare and setns. *)
Definition ns_decide (is_clone is_clone3 is_unshare is_setns : bool) (act mask : Z)
    (d : seccomp_data) : Z :=
  if is_clone then deny_bits act (Z.land mask (Z.lnot CLONE_NEWTIME)) (arg 0 d)
  else if is_clone3 then Z.lor SECCOMP_RET_ERRNO ENOSYS
  else if is_unshare then deny_bits act mask (arg 0 d)
  else if is_setns then
    if u32 (arg 1 d) =? 0 then act else deny_bits act mask (arg 1 d)
  else SECCOMP_RET_ALLOW.

Definition ns_action (act mask : Z) (d : seccomp_data) : Z :=
  ns_decide (is_sys "SYS_clone" (sd_nr d)) (is_sys "SYS_clone3" (sd_nr d))
    (is_sys "SYS_unshare" (sd_nr d)) (is_sys "SYS_setns" (sd_nr d)) act mask d.

Definition ns_action_32 (act mask : Z) (d : seccomp_data) : Z :=
  ns_decide (sd_nr d =? clone_32) (sd_nr d =? clone3_32)
    (sd_nr d =? unshare_32) (sd_nr d =? setns_32) act mask d.

Context `{BM : BpfMachine} {BL : BpfLaws}.

Lemma clone_mask_range mask : 0 <= mask < 2 ^ 31 -> 0 <= Z.land mask (Z.lnot CLONE_NEWTIME) < 2 ^ 32.
Proof.
  intros Hm. apply land_range; lia.
Qed.

Lemma setns_decision act mask d :
  Some (if (u32 (arg 1 d) =? 0) || negb (Z.land (u32 (arg 1 d)) mask =? 0)
        then act else SECCOMP_RET_ALLOW) =
  Some (if u32 (arg 1 d) =? 0 then act else deny_bits act mask (arg 1 d)).
Proof. unfold deny_bits. by destruct (u32 (arg 1 d) =? 0), (_ =? 0). Qed.

Lemma exec_ns act mask d :
  data_ok d -> 0 <= mask < 2 ^ 31 ->
  bpf_exec (ns_filter act mask ++ RETURN_ALLOW) d (sd_nr d) = Some (ns_action (u32 act) mask d).
Proof.
  intros Hd Hm. pose proof (clone_mask_range mask Hm).
  unfold ns_filter, ns_action, ns_decide. cbv zeta. rewrite <- !app_assoc.
  erewrite exec_ifdef; [|intros; apply (exec_deny_arg_bits _ _ 0); done || lia|reflexivity].
  destruct (is_sys "SYS_clone" _); [done|].
  erewrite exec_ifdef; [|intros; apply exec_match_return|reflexivity].
  destruct (is_sys "SYS_clone3" _); [done|].
  erewrite exec_ifdef; [|intros; apply (exec_deny_arg_bits _ _ 0); done || lia|reflexivity].
  destruct (is_sys "SYS_unshare" _); [done|].
  unfold ifdef, is_sys. destruct (SYS "SYS_setns"); [|apply exec_ALLOW].
  rewrite exec_deny_setns by (done || lia). destruct (_ =? u32 z); [|done].
  apply setns_decision.
Qed.

Lemma exec_ns_32 act mask d :
  data_ok d -> 0 <= mask < 2 ^ 31 ->
  bpf_exec (ns_filter_32 act mask ++ RETURN_ALLOW) d (sd_nr d) =
  Some (ns_action_32 (u32 act) mask d).
Proof.
  intros Hd Hm. pose proof (clone_mask_range mask Hm).
  unfold ns_filter_32, ns_action_32, ns_decide. cbv zeta. rewrite <- !app_assoc.
  rewrite (exec_deny_arg_bits _ _ 0) by (done || lia). change (u32 clone_32) with clone_32.
  destruct (_ =? clone_32); [done|].
  rewrite exec_match_return. change (u32 clone3_32) with clone3_32.
  destruct (_ =? clone3_32); [done|].
  rewrite (exec_deny_arg_bits _ _ 0) by (done || lia). change (u32 unshare_32) with unshare_32.
  destruct (_ =? unshare_32); [done|].
  rewrite exec_deny_setns by (done || lia). change (u32 setns_32) with setns_32.
  destruct (_ =? setns_32); [apply setns_decision|done].
Qed.
End Namespaces.

(** ** Socket protocols *)

(** The address family of a protocol name. *)
Definition domain_of (p : string) : option Z :=
  if streq p "unix" then Some AF_UNIX
  else if streq p "inet" then Some AF_INET
  else if streq p "inet6" then Some AF_INET6
  else if streq p "netlink" then Some AF_NETLINK
  else if streq p "packet" then Some AF_PACKET
  else if streq p "bluetooth" then Some AF_BLUETOOTH
  else None.

Lemma streq_sym a b : streq a b = streq b a.
Proof.
  destruct (streq b a) eqn:E.
  - apply streq_eq in E as ->. by apply streq_eq.
  - apply not_true_iff_false. intros Hs%streq_eq. subst. by rewrite (proj2 (streq_eq _ _) eq_refl) in E.
Qed.

(** The table of commands agrees with the table of names. *)
Lemma find_protocol_domain_of p :
  find_protocol_domain p = option_map WHITELIST (domain_of p).
Proof.
  unfold find_protocol_domain, domain_of, protocol. cbn [find_protocol_from].
  rewrite !(streq_sym p). by repeat (case_match; [done|]).
Qed.

Lemma protocol_commands_mapM tokens :
  protocol_commands tokens =
  match mapM domain_of tokens with
  | Some doms => Ok (flat_map WHITELIST doms)
  | None => Exit 1
  end.
Proof.
  induction tokens as [|t tokens IH]; [done|]. cbn [protocol_commands].
  rewrite find_protocol_domain_of, IH. simpl.
  destruct (domain_of t); [|done]. simpl. by destruct (mapM domain_of tokens).
Qed.

Section Protocols.
Context `{H : SysHeaders}.

(** socket(2) of x86_64, and call 359 of every other architecture. *)
Definition protocol_action (act : Z) (doms : list Z) (d : seccomp_data) : Z :=
  let decide := if existsb (Z.eqb (u32 (arg 0 d))) doms then SECCOMP_RET_ALLOW
                else Z.lor SECCOMP_RET_ERRNO ENOTSUP in
  if u32 (sd_arch d) =? ARCH_NR then
    if X32_SYSCALL_BIT <=? sd_nr d then act
    else if sd_nr d =? u32 (sys_nr "SYS_socket") then decide else SECCOMP_RET_ALLOW
  else if sd_nr d =? 359 then decide else SECCOMP_RET_ALLOW.

Context `{BM : BpfMachine} {BL : BpfLaws}.

Lemma exec_protocol_start act p d a :
  data_ok d ->
  bpf_exec (protocol_start act ++ p) d a =
  if u32 (sd_arch d) =? ARCH_NR then
    if X32_SYSCALL_BIT <=? sd_nr d then Some (u32 act)
    else if sd_nr d =? u32 (sys_nr "SYS_socket") then bpf_exec p d (u32 (arg 0 d))
         else Some SECCOMP_RET_ALLOW
  else if sd_nr d =? 359 then bpf_exec p d (u32 (arg 0 d)) else Some SECCOMP_RET_ALLOW.
Proof.
  intros Hd. pose proof (data_nr d Hd) as Hn. unfold protocol_start.
  rewrite <- !app_assoc. cbn [app]. rewrite exec_LD_arch, exec_JEQ.
  change (u32 ARCH_NR) with ARCH_NR. destruct (u32 (sd_arch d) =? ARCH_NR) eqn:Ea.
  - change (drop (Z.to_nat (u8 (1 + 2 + 1))) ?l) with (drop 4 l).
    unfold EXAMINE_SYSCALL at 1, ONLY at 1, RETURN_ALLOW at 1. cbn [app drop]. rewrite ?drop_0.
    unfold VALIDATE_ARCHITECTURE, RETURN_ALLOW. rewrite exec_validate_arch.
    change (u32 ARCH_NR) with ARCH_NR. rewrite Ea.
    unfold EXAMINE_SYSCALL. cbn [app]. rewrite exec_LD_nr.
    rewrite exec_HANDLE_X32 by apply u32_range. rewrite (u32_nr (sd_nr d)) by done.
    destruct (X32_SYSCALL_BIT <=? sd_nr d); [done|]. rewrite exec_ONLY.
    destruct (_ =? u32 (sys_nr "SYS_socket")); [|done].
    by apply (exec_EXAMINE_ARGUMENT 0); [|lia].
  - change (drop (Z.to_nat (u8 0)) ?l) with l.
    unfold EXAMINE_SYSCALL at 1. cbn [app]. rewrite exec_LD_nr, exec_ONLY.
    change (u32 359) with 359. rewrite (u32_nr (sd_nr d)) by done.
    destruct (sd_nr d =? 359); [|done]. cbn [app]. rewrite exec_JA.
    change (Z.to_nat (u32 (3 + 1 + 3 + 2))) with 9%nat.
    unfold VALIDATE_ARCHITECTURE, validate_arch, EXAMINE_SYSCALL, HANDLE_X32, RETURN_ALLOW,
      KILL_OR_RETURN_ERRNO, ONLY. cbn [app drop]. rewrite ?drop_0.
    by apply (exec_EXAMINE_ARGUMENT 0); [|lia].
Qed.

Lemma whitelist_rules_code doms :
  flat_map WHITELIST doms = rules_code (map (fun x => (x, SECCOMP_RET_ALLOW)) doms).
Proof. induction doms as [|x doms IH]; [done|]. cbn [flat_map map]. by rewrite IH. Qed.

Lemma domain_of_range p x : domain_of p = Some x -> 0 <= x < 2 ^ 32.
Proof. unfold domain_of. repeat case_match; intros; simplify_eq; by vm_compute. Qed.

Lemma first_match_domains doms a :
  Forall (fun x => 0 <= x < 2 ^ 32) doms ->
  first_match (map (fun x => (x, SECCOMP_RET_ALLOW)) doms) a =
  if existsb (Z.eqb a) doms then Some SECCOMP_RET_ALLOW else None.
Proof.
  unfold first_match. induction 1 as [|x doms Hx Hdoms IH]; [done|]. simpl.
  rewrite (u32_small x) by done. destruct (a =? x); [done|]. apply IH.
Qed.

Lemma exec_protocol act tokens doms d :
  data_ok d -> mapM domain_of tokens = Some doms ->
  run_filter (protocol_start act ++ flat_map WHITELIST doms ++ RETURN_ERRNO ENOTSUP) d =
  Some (protocol_action (u32 act) doms d).
Proof.
  intros Hd Hm. unfold run_filter, protocol_action. rewrite exec_protocol_start by done.
  assert (Hdoms : Forall (fun x => 0 <= x < 2 ^ 32) doms).
  { apply mapM_Some in Hm. induction Hm; constructor; eauto using domain_of_range. }
  assert (He : forall a,
    bpf_exec (flat_map WHITELIST doms ++ RETURN_ERRNO ENOTSUP) d a =
    Some (if existsb (Z.eqb a) doms then SECCOMP_RET_ALLOW else Z.lor SECCOMP_RET_ERRNO ENOTSUP)).
  { intros a. rewrite whitelist_rules_code, exec_rules, first_match_domains by done.
    destruct (existsb _ doms); [done|]. apply exec_RET. }
  rewrite He. cbv zeta. by repeat case_match.
Qed.

Lemma protocol_records_ok act prlist doms :
  strtok "," prlist <> [] -> mapM domain_of (strtok "," prlist) = Some doms ->
  protocol_records act prlist =
  Ok (protocol_start act ++ flat_map WHITELIST doms ++ RETURN_ERRNO ENOTSUP).
Proof.
  intros Hne Hm. unfold protocol_records.
  destruct (strtok "," prlist) as [|t tokens]; [done|].
  by rewrite protocol_commands_mapM, Hm.
Qed.

(** The records fit the array as long as no protocol is listed twice. *)
Lemma domain_of_names p x : domain_of p = Some x -> In p protocol.
Proof.
  unfold domain_of, protocol. intros Hd.
  repeat (case_match; [match goal with E : streq _ _ = true |- _ =>
    apply streq_eq in E; subst p end; simpl; tauto|]). done.
Qed.

Lemma known_domains tokens doms :
  mapM domain_of tokens = Some doms ->
  incl tokens protocol /\ length doms = length tokens.
Proof.
  intros Hm%mapM_Some. split; [|by symmetry; eapply Forall2_length].
  induction Hm as [|t x tokens doms Ht Hm IH]; [by intros ? []|].
  intros t' [<-|Hi]; [by eapply domain_of_names|by apply IH].
Qed.

Lemma length_protocol_records act doms :
  length (protocol_start act ++ flat_map WHITELIST doms ++ RETURN_ERRNO ENOTSUP) =
  (17 + 2 * length doms)%nat.
Proof.
  rewrite !length_app. change (length (protocol_start act)) with 16%nat.
  change (length (RETURN_ERRNO ENOTSUP)) with 1%nat.
  enough (length (flat_map WHITELIST doms) = 2 * length doms)%nat by lia.
  induction doms as [|x doms IH]; [done|]. cbn [flat_map length].
  rewrite length_app, IH. simpl. lia.
Qed.
End Protocols.

(** ** The secondary architectures *)

Section Secondary.
Context `{H : SysHeaders}.

(** Only x86_64; personality(2) only with PER_LINUX or as a query. *)
Definition secondary_block_action (act : Z) (d : seccomp_data) : Z :=
  if negb (u32 (sd_arch d) =? ARCH_NR) then act
  else if X32_SYSCALL_BIT <=? sd_nr d then act
  else if sd_nr d =? u32 (sys_nr "SYS_personality") then
    if (arg 0 d =? PER_LINUX) || (arg 0 d =? 0xffffffff) then SECCOMP_RET_ALLOW else act
  else SECCOMP_RET_ALLOW.

Definition secondary_32_action (act : Z) (d : seccomp_data) : Z :=
  if negb (u32 (sd_arch d) =? ARCH_32) then SECCOMP_RET_ALLOW
  else if existsb (Z.eqb (sd_nr d)) secondary_32_list then act else SECCOMP_RET_ALLOW.

Context `{BM : BpfMachine} {BL : BpfLaws}.

(** The two words of a 64-bit argument. *)
Lemma arg_words d i :
  0 <= arg i d < 2 ^ 64 ->
  arg i d = u32 (arg i d) + 2 ^ 32 * u32 (arg i d / 2 ^ 32) /\ 0 <= u32 (arg i d / 2 ^ 32).
Proof.
  intros Ha. assert (u32 (arg i d / 2 ^ 32) = arg i d / 2 ^ 32) as ->.
  { apply u32_small. split; [apply Z.div_pos; lia|]. apply Z.div_lt_upper_bound; lia. }
  unfold u32. pose proof (Z.div_mod (arg i d) (2 ^ 32)).
  pose proof (Z.div_pos (arg i d) (2 ^ 32)). lia.
Qed.

(** The test of the high word, at the end of the program. *)
Lemma exec_high_word act d a :
  data_ok d ->
  bpf_exec
    [BPF_STMT (BPF_LD + BPF_W + BPF_ABS) (off_args 0 + MSW);
     BPF_JUMP (BPF_JMP + BPF_JEQ + BPF_K) 0 (jmp_from_to 5 7) 0;
     BPF_STMT (BPF_RET + BPF_K) act; BPF_STMT (BPF_RET + BPF_K) SECCOMP_RET_ALLOW] d a =
  Some (if u32 (arg 0 d / 2 ^ 32) =? 0 then SECCOMP_RET_ALLOW else u32 act).
Proof.
  intros Hd. destruct (sd_word_arg 0 d Hd) as [_ Wh]; [lia|].
  change (off_args 0 + MSW) with (off_args (Z.of_nat 0) + 4).
  rewrite (exec_LD_off _ _ _ (off_args (Z.of_nat 0) + 4) _ ltac:(unfold off_args; lia) Wh).
  rewrite exec_JEQ. change (u32 0) with 0.
  destruct (_ =? 0); simpl; apply exec_RET.
Qed.

(** The tests of personality's argument, the system call number passed. *)
Lemma exec_personality_arg act d a :
  data_ok d ->
  bpf_exec
    ([BPF_STMT (BPF_LD + BPF_W + BPF_ABS) (off_args 0 + LSW);
      BPF_JUMP (BPF_JMP + BPF_JEQ + BPF_K) PER_LINUX (jmp_from_to 2 4) 0;
      BPF_JUMP (BPF_JMP + BPF_JEQ + BPF_K) 0xffffffff 0 (jmp_from_to 3 6);
      BPF_STMT (BPF_LD + BPF_W + BPF_ABS) (off_args 0 + MSW);
      BPF_JUMP (BPF_JMP + BPF_JEQ + BPF_K) 0 (jmp_from_to 5 7) 0;
      BPF_STMT (BPF_RET + BPF_K) act; BPF_STMT (BPF_RET + BPF_K) SECCOMP_RET_ALLOW]) d a =
  Some (if (arg 0 d =? PER_LINUX) || (arg 0 d =? 0xffffffff)
        then SECCOMP_RET_ALLOW else u32 act).
Proof.
  intros Hd. destruct (sd_word_arg 0 d Hd) as [Wl _]; [lia|].
  destruct (arg_words d 0 (arg_range 0 d Hd)) as [Hw Hh].
  change (off_args 0 + LSW) with (off_args (Z.of_nat 0)).
  rewrite (exec_LD_off _ _ _ (off_args (Z.of_nat 0)) _ ltac:(unfold off_args; lia) Wl), exec_JEQ.
  change (u32 PER_LINUX) with 0. unfold PER_LINUX. pose proof (u32_range (arg 0 d)).
  set (lo := u32 (arg 0 d)) in *. set (hi := u32 (arg 0 d / 2 ^ 32)) in *.
  assert (Hcase : lo = 0 \/ lo = 0xffffffff ->
            (arg 0 d =? 0) || (arg 0 d =? 0xffffffff) = (hi =? 0)).
  { intros Hlo. destruct (Z.eqb_spec hi 0), (Z.eqb_spec (arg 0 d) 0),
      (Z.eqb_spec (arg 0 d) 0xffffffff); try done; lia. }
  destruct (Z.eqb_spec lo 0) as [E0|E0]; cbn [app].
  { change (Z.to_nat (u8 (jmp_from_to 2 4))) with 1%nat. cbn [drop]. rewrite ?drop_0.
    rewrite exec_high_word by done. by rewrite Hcase by lia. }
  change (Z.to_nat (u8 0)) with 0%nat. rewrite drop_0, exec_JEQ. change (u32 0xffffffff) with 0xffffffff.
  destruct (Z.eqb_spec lo 0xffffffff) as [E1|E1].
  { change (Z.to_nat (u8 0)) with 0%nat. rewrite drop_0.
    rewrite exec_high_word by done. by rewrite Hcase by lia. }
  change (Z.to_nat (u8 (jmp_from_to 3 6))) with 2%nat. cbn [drop]. rewrite exec_RET.
  assert ((arg 0 d =? 0) || (arg 0 d =? 0xffffffff) = false) as -> by lia. done.
Qed.

Lemma exec_secondary_block act d :
  data_ok d ->
  run_filter (secondary_block_filter act) d = Some (secondary_block_action (u32 act) d).
Proof.
  intros Hd. pose proof (data_nr d Hd) as Hn.
  unfold run_filter, secondary_block_filter, secondary_block_action,
    VALIDATE_ARCHITECTURE_KILL, KILL_OR_RETURN_ERRNO.
  rewrite exec_validate_arch. change (u32 ARCH_NR) with ARCH_NR.
  destruct (u32 (sd_arch d) =? ARCH_NR); [|done]. cbn [negb].
  unfold EXAMINE_SYSCALL. cbn [app]. rewrite exec_LD_nr.
  rewrite exec_HANDLE_X32 by apply u32_range. rewrite (u32_nr (sd_nr d)) by done.
  destruct (X32_SYSCALL_BIT <=? sd_nr d); [done|].
  rewrite exec_JEQ. destruct (sd_nr d =? u32 (sys_nr "SYS_personality")).
  2: { change (Z.to_nat (u8 (jmp_from_to 0 7))) with 6%nat. cbn [drop]. apply exec_RET. }
  change (Z.to_nat (u8 0)) with 0%nat. rewrite drop_0. unfold RETURN_ALLOW. cbn [app].
  rewrite exec_personality_arg by done. by destruct (_ || _).
Qed.

Lemma secondary_32_rules act :
  flat_map (BLACKLIST act) secondary_32_list =
  rules_code (map (fun n => (n, act)) secondary_32_list).
Proof. reflexivity. Qed.

Lemma exec_secondary_32 act d :
  data_ok d ->
  run_filter (secondary_32_filter act) d = Some (secondary_32_action (u32 act) d).
Proof.
  intros Hd. pose proof (data_nr d Hd) as Hn.
  unfold run_filter, secondary_32_filter, secondary_32_action, VALIDATE_ARCHITECTURE_32.
  unfold RETURN_ALLOW at 1. rewrite exec_validate_arch. change (u32 ARCH_32) with ARCH_32.
  destruct (u32 (sd_arch d) =? ARCH_32); [|done]. cbn [negb].
  unfold EXAMINE_SYSCALL. cbn [app]. rewrite exec_LD_nr, secondary_32_rules, exec_rules.
  rewrite (u32_nr (sd_nr d)) by done.
  assert (first_match (map (fun n => (n, act)) secondary_32_list) (sd_nr d) =
          if existsb (Z.eqb (sd_nr d)) secondary_32_list then Some (u32 act) else None) as ->.
  { assert (forallb (fun n => u32 n =? n) secondary_32_list = true) as W by reflexivity.
    revert W. generalize secondary_32_list. intros l. unfold first_match.
    induction l as [|n l IH]; [done|]. simpl. intros [En%Z.eqb_eq Hl]%andb_true_iff.
    rewrite En. destruct (sd_nr d =? n); [done|]. by apply IH. }
  destruct (existsb _ _); [done|]. apply exec_RET.
Qed.
End Secondary.

Local Open Scope string_scope.
Local Open Scope list_scope.
Local Open Scope Z_scope.

Section Files.
Context `{KOS : OS} {OL : OSLaws}.

(** [saved] leaves the action and the other descriptors alone. *)
Lemma saved_clean (c : M unit) f p w : c w = (Ok tt, saved f p w) -> clean c w (saved f p w).
Proof. intros Hc. split; [done|]. split; [done|]. apply delete_subseteq. Qed.

Lemma write_loop_emit fd p w :
  is_open fd w ->
  write_loop (length (enc p)) fd (enc p) 0 (Z.of_nat (length (enc p))) w = (Ok tt, emit fd p w).
Proof.
  intros (f & Hf & [c Hc]). rewrite (write_loop_ok _ fd f (enc p) 0 c) by (done || lia).
  unfold emit. by rewrite Hf, Hc.
Qed.

Lemma write_filter_ok f p w : write_filter f p w = (Ok tt, saved f p w).
Proof.
  unfold write_filter. erewrite cbind_ok by apply open_filter_ok. cbv zeta.
  erewrite cbind_ok by (apply write_loop_emit; eauto with bpf). apply close_saved.
Qed.
End Files.

Section Builders.
Context `{H : SysHeaders} `{KOS : OS} {OL : OSLaws}.

Lemma deny_ns_ok f list mask w :
  build_ns_mask list = Ok mask ->
  deny_ns f list w =
  (Ok tt, saved f (with_body true (w_action w) (ns_filter (w_action w) mask)) w).
Proof.
  intros Hm. unfold deny_ns. rewrite Hm, clift_ok_bind.
  erewrite cbind_ok by apply open_filter_ok.
  emit_step (filter_init_ok (os_open f)). rewrite cget_bind, action_emit. cbn [w_action opened].
  unfold with_body. destruct (ns_filter (w_action w) mask) as [|s p].
  - rewrite cret_bind. emit_step (filter_end_blacklist_ok (os_open f)). apply close_saved.
  - emit_step (write_to_file_ok (os_open f)).
    emit_step (filter_end_blacklist_ok (os_open f)).
    rewrite close_saved. by rewrite <- app_assoc.
Qed.

Lemma deny_ns_32_ok f list mask w :
  build_ns_mask list = Ok mask ->
  deny_ns_32 f list w =
  (Ok tt, saved f (with_body false (w_action w) (ns_filter_32 (w_action w) mask)) w).
Proof.
  intros Hm. unfold deny_ns_32. rewrite Hm, clift_ok_bind.
  by apply (body_saved f false (fun act => ns_filter_32 act mask)).
Qed.

Lemma protocol_build_filter_ok prlist f records w :
  protocol_records (w_action w) prlist = Ok records ->
  protocol_build_filter prlist f w = (Ok tt, saved f records w).
Proof.
  intros Hr. unfold protocol_build_filter. rewrite cget_bind, Hr, clift_ok_bind.
  apply write_filter_ok.
Qed.
End Builders.

Section Bounds.
Context `{H : SysHeaders}.

Lemma protocol_fits act prlist records :
  NoDup (strtok "," prlist) -> protocol_records act prlist = Ok records ->
  (length records <= PROTOCOL_FILTER_MAX)%nat.
Proof.
  intros Hnd. unfold protocol_records.
  destruct (strtok "," prlist) as [|t toks]; [done|]. rewrite protocol_commands_mapM.
  destruct (mapM domain_of (t :: toks)) as [doms|] eqn:Em; [|done]. cbn [obind]. intros Hr.
  assert (records = protocol_start act ++ flat_map WHITELIST doms ++ RETURN_ERRNO ENOTSUP)
    as -> by congruence.
  apply known_domains in Em as [Hi Hl]. rewrite length_protocol_records, Hl.
  apply NoDup_ListNoDup in Hnd. pose proof (NoDup_incl_length Hnd Hi) as Hn.
  unfold PROTOCOL_FILTER_MAX. simpl in Hn |- *. lia.
Qed.
End Bounds.

Section Claims.
Context `{H : SysHeaders} `{KOS : OS} {OL : OSLaws} `{BM : BpfMachine} {BL : BpfLaws}.

(** --memory-deny-write-execute on x86_64: the file's program gives the
    error action to an mmap that asks for PROT_WRITE and PROT_EXEC together, to
    mprotect and pkey_mprotect with PROT_EXEC, to shmat with SHM_EXEC and to
    memfd_create, and allows everything else. *)
Theorem memory_deny_write_execute_filters f w :
  exists w' p,
    clean (memory_deny_write_execute f) w w' /\ holds w' f p
    /\ forall d, data_ok d ->
         run_filter p d =
         Some (gate true (u32 (w_action w)) (mdwx_action (u32 (w_action w)) d) d).
Proof.
  eexists _, _. split; [|split].
  - apply saved_clean. by apply (body_saved f true mdwx_filter).
  - apply saved_holds.
  - intros d Hd. apply run_body; [by apply data_nr|by apply exec_mdwx].
Qed.

(** The 32-bit filter of --memory-deny-write-execute decides on the i386
    numbers: mmap2, mprotect, pkey_mprotect and shmat by their protection
    argument, the old mmap and memfd_create always. *)
Theorem memory_deny_write_execute_32_filters f w :
  exists w' p,
    clean (memory_deny_write_execute_32 f) w w' /\ holds w' f p
    /\ forall d, data_ok d ->
         run_filter p d =
         Some (gate false (u32 (w_action w)) (mdwx_action_32 (u32 (w_action w)) d) d).
Proof.
  eexists _, _. split; [|split].
  - apply saved_clean. by apply (body_saved f false mdwx_filter_32).
  - apply saved_holds.
  - intros d Hd. apply run_body; [by apply data_nr|by apply exec_mdwx_32].
Qed.

(** --restrict-namespaces: for every list of namespace names the program
    denies clone and unshare with a flag of the mask (CLONE_NEWTIME is not a
    flag of clone), makes clone3 fail with ENOSYS, and denies setns when it
    names a namespace of the mask or none; the other calls pass. *)
Theorem deny_ns_filters f list mask w :
  build_ns_mask list = Ok mask ->
  exists w' p,
    clean (deny_ns f list) w w' /\ holds w' f p
    /\ forall d, data_ok d ->
         run_filter p d =
         Some (gate true (u32 (w_action w)) (ns_action (u32 (w_action w)) mask d) d).
Proof.
  intros Hm. eexists _, _. split; [|split].
  - apply saved_clean. by apply deny_ns_ok.
  - apply saved_holds.
  - intros d Hd. apply run_body; [by apply data_nr|].
    apply exec_ns; [done|]. by eapply build_ns_mask_range.
Qed.

(** The 32-bit filter of --restrict-namespaces decides the same way on the
    i386 numbers of clone, clone3, unshare and setns. *)
Theorem deny_ns_32_filters f list mask w :
  build_ns_mask list = Ok mask ->
  exists w' p,
    clean (deny_ns_32 f list) w w' /\ holds w' f p
    /\ forall d, data_ok d ->
         run_filter p d =
         Some (gate false (u32 (w_action w)) (ns_action_32 (u32 (w_action w)) mask d) d).
Proof.
  intros Hm. eexists _, _. split; [|split].
  - apply saved_clean. by apply deny_ns_32_ok.
  - apply saved_holds.
  - intros d Hd. apply run_body; [by apply data_nr|].
    apply exec_ns_32; [done|]. by eapply build_ns_mask_range.
Qed.

(** The namespace mask: a list with an unknown name ends the program with
    code 1 before any file is opened; otherwise a bit is in the mask exactly
    when it is in the flag of one of the listed names. *)
Theorem build_ns_mask_spec f list w :
  match build_ns_mask list with
  | Ok mask =>
      forall i, Z.testbit mask i =
        existsb (fun tok => match ns_flag tok with Some fl => Z.testbit fl i | None => false end)
          (strtok "," list)
  | Exit c =>
      c = 1 /\ existsb (fun tok => bool_decide (ns_flag tok = None)) (strtok "," list) = true
      /\ deny_ns f list w = (Exit 1, w)
  | _ => False
  end.
Proof.
  assert (Hd : forall c, build_ns_mask list = Exit c -> deny_ns f list w = (Exit c, w)).
  { intros c E. unfold deny_ns. by rewrite E. }
  revert Hd. unfold build_ns_mask. rewrite ns_mask_loop_fold. generalize (strtok "," list).
  intros toks Hd. destruct (mapM ns_flag toks) as [flags|] eqn:E.
  - clear Hd. intros i. rewrite fold_lor_testbit, Z.testbit_0_l. simpl.
    apply mapM_Some in E. induction E as [|t fl toks flags Ht E IH]; [done|]. simpl.
    by rewrite Ht, IH.
  - split; [done|]. split; [|by apply Hd]. clear Hd.
    apply mapM_None, Exists_exists in E as (t & Hi & Ht).
    apply existsb_exists. exists t. split; [by apply list_elem_of_In|].
    by apply bool_decide_eq_true.
Qed.

(** --protocol: for a list of known protocols the program allows socket(2)
    (call 359 outside x86_64) exactly for the listed address families and
    makes it fail with ENOTSUP otherwise; x32 calls get the error action and
    every other call passes. *)
Theorem protocol_filters prlist f doms w :
  strtok "," prlist <> [] -> mapM domain_of (strtok "," prlist) = Some doms ->
  exists w' p,
    clean (protocol_build_filter prlist f) w w' /\ holds w' f p
    /\ forall d, data_ok d ->
         run_filter p d = Some (protocol_action (u32 (w_action w)) doms d).
Proof.
  intros Hne Hm. eexists _, _. split; [|split].
  - apply saved_clean, protocol_build_filter_ok. by apply protocol_records_ok.
  - apply saved_holds.
  - intros d Hd. by eapply exec_protocol.
Qed.

(** --protocol rejects a list without protocols and a list with an unknown
    protocol: the program exits with code 1 and no file is written. *)
Theorem protocol_rejects prlist f w :
  strtok "," prlist = [] \/ mapM domain_of (strtok "," prlist) = None ->
  protocol_build_filter prlist f w = (Exit 1, w).
Proof.
  intros Hr. unfold protocol_build_filter. rewrite cget_bind.
  assert (protocol_records (w_action w) prlist = Exit 1) as ->; [|done].
  unfold protocol_records. destruct (strtok "," prlist) as [|t toks]; [done|].
  destruct Hr as [|Hr]; [done|]. by rewrite protocol_commands_mapM, Hr.
Qed.

(** The array bound of protocol_build_filter: the records fit the
    [filter[32]] of the C function whenever no protocol is listed twice. *)
Theorem protocol_records_fit act prlist records :
  NoDup (strtok "," prlist) -> protocol_records act prlist = Ok records ->
  (length records <= PROTOCOL_FILTER_MAX)%nat.
Proof. apply protocol_fits. Qed.

(** Eight entries are enough to write past the end of the array: nothing in
    protocol_build_filter itself bounds the number of protocols. *)
Theorem protocol_records_overflow act :
  exists records,
    protocol_records act "unix,unix,unix,unix,unix,unix,unix,unix" = Ok records
    /\ (PROTOCOL_FILTER_MAX < length records)%nat.
Proof. eexists. split; [reflexivity|]. cbn. unfold PROTOCOL_FILTER_MAX. lia. Qed.

(** --seccomp.block-secondary: only x86_64 calls pass; i386 and x32 calls
    get the error action, and so does personality(2) unless its 64-bit argument
    is PER_LINUX or 0xffffffff. *)
Theorem seccomp_secondary_block_filters f w :
  exists w' p,
    clean (seccomp_secondary_block f) w w' /\ holds w' f p
    /\ forall d, data_ok d ->
         run_filter p d = Some (secondary_block_action (u32 (w_action w)) d).
Proof.
  eexists _, _. split; [|split].
  - apply saved_clean. apply write_filter_ok.
  - apply saved_holds.
  - intros d Hd. by apply exec_secondary_block.
Qed.

(** The built-in 32-bit filter: the error action for exactly the i386 calls
    of its list, every other call and every other architecture pass. *)
Theorem seccomp_secondary_32_filters f w :
  exists w' p,
    clean (seccomp_secondary_32 f) w w' /\ holds w' f p
    /\ forall d, data_ok d ->
         run_filter p d = Some (secondary_32_action (u32 (w_action w)) d).
Proof.
  eexists _, _. split; [|split].
  - apply saved_clean. apply write_filter_ok.
  - apply saved_holds.
  - intros d Hd. by apply exec_secondary_32.
Qed.
End Claims.

(** ** Evaluation *)

Section Examples.
#[local] Existing Instance x86_64_headers.
#[local] Existing Instance short_writes.
#[local] Existing Instance short_writes_laws.

(** Discharge [data_ok] of a concrete call. *)
Ltac data := apply (bool_decide_unpack _); vm_compute; exact I.

(** mmap(…, PROT_READ|PROT_WRITE|PROT_EXEC, …) and mmap(…, PROT_READ|PROT_WRITE, …). *)
Lemma memory_deny_write_execute_filters_witness :
  exists w' p,
    memory_deny_write_execute "f" empty_world = (Ok tt, w') /\ holds w' "f" p
    /\ run_filter p (call 9 [0; 4096; 7; 34; 0; 0]) = Some (Z.lor SECCOMP_RET_ERRNO 1)
    /\ run_filter p (call 9 [0; 4096; 3; 34; 0; 0]) = Some SECCOMP_RET_ALLOW
    /\ run_filter p (call 319 [0; 0; 0; 0; 0; 0]) = Some (Z.lor SECCOMP_RET_ERRNO 1).
Proof.
  destruct (memory_deny_write_execute_filters "f" empty_world) as (w' & p & [Hc _] & Hh & Hr).
  exists w', p. split; [exact Hc|]. split; [exact Hh|].
  repeat split; rewrite Hr by data; vm_compute; reflexivity.
Defined.

Lemma memory_deny_write_execute_32_filters_witness :
  exists w' p,
    memory_deny_write_execute_32 "f" empty_world = (Ok tt, w') /\ holds w' "f" p
    /\ run_filter p (call32 90 [0; 0; 0; 0; 0; 0]) = Some (Z.lor SECCOMP_RET_ERRNO 1)
    /\ run_filter p (call32 125 [0; 4096; 5; 0; 0; 0]) = Some (Z.lor SECCOMP_RET_ERRNO 1)
    /\ run_filter p (call32 125 [0; 4096; 3; 0; 0; 0]) = Some SECCOMP_RET_ALLOW.
Proof.
  destruct (memory_deny_write_execute_32_filters "f" empty_world) as (w' & p & [Hc _] & Hh & Hr).
  exists w', p. split; [exact Hc|]. split; [exact Hh|].
  repeat split; rewrite Hr by data; vm_compute; reflexivity.
Defined.

(** unshare(CLONE_NEWNET) is denied, unshare(CLONE_NEWPID) is not; setns(fd, 0). *)
Lemma deny_ns_filters_witness :
  exists w' p,
    deny_ns "f" "net,user" empty_world = (Ok tt, w') /\ holds w' "f" p
    /\ run_filter p (call 272 [0x40000000; 0; 0; 0; 0; 0]) = Some (Z.lor SECCOMP_RET_ERRNO 1)
    /\ run_filter p (call 272 [0x20000000; 0; 0; 0; 0; 0]) = Some SECCOMP_RET_ALLOW
    /\ run_filter p (call 308 [3; 0; 0; 0; 0; 0]) = Some (Z.lor SECCOMP_RET_ERRNO 1)
    /\ run_filter p (call 435 [0; 0; 0; 0; 0; 0]) = Some (Z.lor SECCOMP_RET_ERRNO 38).
Proof.
  destruct (deny_ns_filters "f" "net,user" 0x50000000 empty_world) as (w' & p & [Hc _] & Hh & Hr);
    [reflexivity|].
  exists w', p. split; [exact Hc|]. split; [exact Hh|].
  repeat split; rewrite Hr by data; vm_compute; reflexivity.
Defined.

Lemma deny_ns_32_filters_witness :
  exists w' p,
    deny_ns_32 "f" "net,user" empty_world = (Ok tt, w') /\ holds w' "f" p
    /\ run_filter p (call32 310 [0x40000000; 0; 0; 0; 0; 0]) = Some (Z.lor SECCOMP_RET_ERRNO 1)
    /\ run_filter p (call32 310 [0x20000000; 0; 0; 0; 0; 0]) = Some SECCOMP_RET_ALLOW.
Proof.
  destruct (deny_ns_32_filters "f" "net,user" 0x50000000 empty_world)
    as (w' & p & [Hc _] & Hh & Hr); [reflexivity|].
  exists w', p. split; [exact Hc|]. split; [exact Hh|].
  repeat split; rewrite Hr by data; vm_compute; reflexivity.
Defined.

(** AF_INET passes, AF_NETLINK fails with ENOTSUP. *)
Lemma protocol_filters_witness :
  exists w' p,
    protocol_build_filter "unix,inet" "f" empty_world = (Ok tt, w') /\ holds w' "f" p
    /\ run_filter p (call 41 [2; 1; 0; 0; 0; 0]) = Some SECCOMP_RET_ALLOW
    /\ run_filter p (call 41 [16; 1; 0; 0; 0; 0]) = Some (Z.lor SECCOMP_RET_ERRNO ENOTSUP)
    /\ run_filter p (call32 359 [16; 1; 0; 0; 0; 0]) = Some (Z.lor SECCOMP_RET_ERRNO ENOTSUP).
Proof.
  destruct (protocol_filters "unix,inet" "f" [1; 2] empty_world) as (w' & p & [Hc _] & Hh & Hr);
    [discriminate|reflexivity|].
  exists w', p. split; [exact Hc|]. split; [exact Hh|].
  repeat split; rewrite Hr by data; vm_compute; reflexivity.
Defined.

Lemma protocol_rejects_witness :
  protocol_build_filter "unix,ax25" "f" empty_world = (Exit 1, empty_world).
Proof. apply (protocol_rejects "unix,ax25" "f" empty_world). right. reflexivity. Defined.

Lemma protocol_records_fit_witness :
  (length (protocol_start 0 ++ flat_map WHITELIST [AF_UNIX; AF_INET] ++ RETURN_ERRNO ENOTSUP)
   <= PROTOCOL_FILTER_MAX)%nat.
Proof.
  apply (protocol_records_fit 0 "unix,inet"); [|reflexivity].
  apply (bool_decide_unpack _). vm_compute. exact I.
Defined.

Lemma seccomp_secondary_block_filters_witness :
  exists w' p,
    seccomp_secondary_block "f" empty_world = (Ok tt, w') /\ holds w' "f" p
    /\ run_filter p (call32 1 [0; 0; 0; 0; 0; 0]) = Some (Z.lor SECCOMP_RET_ERRNO 1)
    /\ run_filter p (call 135 [8; 0; 0; 0; 0; 0]) = Some (Z.lor SECCOMP_RET_ERRNO 1)
    /\ run_filter p (call 135 [0xffffffff; 0; 0; 0; 0; 0]) = Some SECCOMP_RET_ALLOW
    /\ run_filter p (call 135 [0x1ffffffff; 0; 0; 0; 0; 0]) = Some (Z.lor SECCOMP_RET_ERRNO 1).
Proof.
  destruct (seccomp_secondary_block_filters "f" empty_world) as (w' & p & [Hc _] & Hh & Hr).
  exists w', p. split; [exact Hc|]. split; [exact Hh|].
  repeat split; rewrite Hr by data; vm_compute; reflexivity.
Defined.

Lemma seccomp_secondary_32_filters_witness :
  exists w' p,
    seccomp_secondary_32 "f" empty_world = (Ok tt, w') /\ holds w' "f" p
    /\ run_filter p (call32 21 [0; 0; 0; 0; 0; 0]) = Some (Z.lor SECCOMP_RET_ERRNO 1)
    /\ run_filter p (call32 1 [0; 0; 0; 0; 0; 0]) = Some SECCOMP_RET_ALLOW
    /\ run_filter p (call 21 [0; 0; 0; 0; 0; 0]) = Some SECCOMP_RET_ALLOW.
Proof.
  destruct (seccomp_secondary_32_filters "f" empty_world) as (w' & p & [Hc _] & Hh & Hr).
  exists w', p. split; [exact Hc|]. split; [exact Hh|].
  repeat split; rewrite Hr by data; vm_compute; reflexivity.
Defined.
End Examples.

(** * Argument lists of profiles: the properties *)

Local Open Scope string_scope.
Local Open Scope list_scope.
Local Open Scope nat_scope.

(** ** Strings and buffers *)

Notation chars_of := String.list_ascii_of_string.
Notation string_of := String.string_of_list_ascii.

(** A C string: no NUL inside. *)
Definition c_string (s : string) : Prop := no_nul (chars_of s).

Lemma chars_app s1 s2 : chars_of (s1 +:+ s2) = chars_of s1 ++ chars_of s2.
Proof.
  induction s1 as [|c s1 IH]; [done|].
  change (c :: chars_of (s1 +:+ s2) = c :: (chars_of s1 ++ chars_of s2)). by rewrite IH.
Qed.

Lemma buf_of_text s : c_string s -> text_at (buf_of s) 0 (chars_of s).
Proof. intros Hs. split; [done|]. by exists []. Qed.

Lemma fields_pieces s : map chars_of (fields "," s) = pieces (chars_of s).
Proof.
  induction s as [|c s IH]; [done|]. cbn [fields chars_of pieces].
  change (Ascii.eqb c comma) with (Ascii.eqb c ","). rewrite <- IH.
  destruct (Ascii.eqb c ","); [done|]. by destruct (fields "," s).
Qed.

(** The items of a list are the tokens [strtok] finds. *)
Lemma strtok_items s : map chars_of (strtok "," s) = items (chars_of s).
Proof.
  unfold strtok, items. rewrite <- fields_pieces. induction (fields "," s) as [|f fs IH]; [done|].
  cbn [List.filter map]. destruct f; cbn; by rewrite IH.
Qed.

(** ** The collected items *)

Lemma add_item_comma_free x acc :
  comma_free x -> Forall comma_free acc -> Forall comma_free (add_item x acc).
Proof.
  intros Hx Ha. unfold add_item. case_bool_decide; [done|]. apply Forall_app. by repeat constructor.
Qed.

Lemma apply_item_comma_free acc p :
  comma_free p -> Forall comma_free acc -> Forall comma_free (apply_item acc p).
Proof.
  intros Hp Ha. unfold apply_item. destruct p as [|c x]; [done|].
  pose proof Hp as [_ Hx]%Forall_cons.
  repeat case_match; auto using add_item_comma_free.
  rewrite Forall_forall in *. intros y [Hy _]%list_elem_of_In%filter_In.
  by apply Ha, list_elem_of_In.
Qed.

(** Distinct, not empty, and without commas. *)
Definition good_items (ps : list (list ascii)) : Prop :=
  NoDup ps /\ all_nonempty ps /\ Forall comma_free ps.

Lemma compress_spec_good l : good_items (compress_spec l).
Proof.
  unfold compress_spec. pose proof (items_comma_free l) as Hc. revert Hc.
  assert (Ha : good_items []) by (repeat constructor). revert Ha.
  generalize (@nil (list ascii)). induction (items l) as [|p ps IH]; intros acc Ha Hc; [done|].
  apply Forall_cons in Hc as [Hp Hps]. cbn. apply IH; [|done]. destruct Ha as (H1 & H2 & H3).
  split; [by apply apply_item_NoDup|]. split; [by apply apply_item_nonempty|].
  by apply apply_item_comma_free.
Qed.

Lemma strtok_string_of ps :
  good_items ps -> map chars_of (strtok "," (string_of (join ps))) = ps.
Proof.
  intros (_ & Hn & Hc). rewrite strtok_items, String.list_ascii_of_string_of_list_ascii.
  by apply items_join.
Qed.

Lemma strlen_string_of l : strlen (string_of l) = Z.of_nat (length l).
Proof.
  unfold strlen. f_equal. induction l as [|c l IH]; [done|]. cbn. by rewrite IH.
Qed.

(** The value of [*list] after an augmentation, before its length is checked. *)
Definition augmented (old items : option string) : list (list ascii) :=
  compress_spec (chars_of (default "" old +:+ "," +:+ default "" items)).

Lemma augment_ok old items :
  c_string (default "" old) -> c_string (default "" items) ->
  profile_list_augment old items =
  if (MAX_LIST <? Z.of_nat (length (join (augmented old items))))%Z then Exit 1%Z
  else Ok (string_of (join (augmented old items))).
Proof.
  intros Hl Hi. unfold profile_list_augment, augmented.
  set (s := default "" old +:+ "," +:+ default "" items).
  assert (Hs : c_string s).
  { unfold c_string, s. rewrite chars_app. apply no_nul_app. split; [done|].
    rewrite chars_app. apply no_nul_app. split; [repeat constructor; discriminate|done]. }
  destruct (compress_ok (buf_of s) (chars_of s) (buf_of_text s Hs)) as (b & -> & _ & Hb).
  cbn [obind]. cbv zeta. unfold string_at. by rewrite Hb, strlen_string_of.
Qed.

Section Claims.
(** In-place list compression is correct: for every buffer that holds a
    string, [profile_list_compress] returns, in a buffer of the same size, the
    items the specification collects ("item" and "+item" add, "-item" removes,
    "=item" restarts, duplicates and empty items are left out), in order; no
    cell is read after it was overwritten. *)
Theorem profile_list_compress_correct b r :
  text_at b 0 r ->
  exists b', profile_list_compress b = Ok b' /\ length b' = length b
    /\ cstr b' 0 = join (compress_spec r).
Proof. apply compress_ok. Qed.

(** Augmenting a list: the program ends with code 1 exactly when the
    result is longer than MAX_LIST; otherwise the new value of the list has
    the collected items as its tokens, all of them distinct. *)
Theorem profile_list_augment_spec old items :
  c_string (default "" old) -> c_string (default "" items) ->
  (if (MAX_LIST <? Z.of_nat (length (join (augmented old items))))%Z
   then profile_list_augment old items = Exit 1%Z
   else exists s, profile_list_augment old items = Ok s
          /\ map chars_of (strtok "," s) = augmented old items /\ NoDup (strtok "," s)).
Proof.
  intros Hl Hi. pose proof (augment_ok old items Hl Hi) as E.
  destruct (_ <? _)%Z; [done|]. eexists. split; [exact E|].
  pose proof (compress_spec_good (chars_of (default "" old +:+ "," +:+ default "" items))) as Hg.
  pose proof (strtok_string_of _ Hg) as Et. split; [exact Et|].
  apply (NoDup_fmap_1 chars_of). change (chars_of <$> ?l) with (map chars_of l).
  unfold augmented. rewrite Et. apply Hg.
Qed.

Context `{H : SysHeaders}.

(** A protocol list that went through [profile_list_augment], as the one of
    --protocol does, never overflows the array of [protocol_build_filter]. *)
Theorem augmented_protocol_fits old items s act records :
  c_string (default "" old) -> c_string (default "" items) ->
  profile_list_augment old items = Ok s -> protocol_records act s = Ok records ->
  length records <= PROTOCOL_FILTER_MAX.
Proof.
  intros Hl Hi Ha. apply protocol_fits.
  rewrite (augment_ok old items Hl Hi) in Ha. destruct (_ <? _)%Z; [done|].
  assert (s = string_of (join (augmented old items))) as -> by congruence.
  pose proof (compress_spec_good (chars_of (default "" old +:+ "," +:+ default "" items))) as Hg.
  apply (NoDup_fmap_1 chars_of). change (chars_of <$> ?l) with (map chars_of l).
  unfold augmented. rewrite (strtok_string_of _ Hg). apply Hg.
Qed.
End Claims.

Section Examples.
Lemma profile_list_compress_correct_witness :
  exists b', profile_list_compress (buf_of ",a,,b,c,-a,+d,c") = Ok b'
    /\ string_of (cstr b' 0) = "b,c,d".
Proof.
  destruct (profile_list_compress_correct (buf_of ",a,,b,c,-a,+d,c") (chars_of ",a,,b,c,-a,+d,c"))
    as (b' & E & _ & Hb).
  - apply buf_of_text. repeat (constructor; [discriminate|]). constructor.
  - exists b'. split; [exact E|]. rewrite Hb. vm_compute. reflexivity.
Defined.

Lemma profile_list_augment_spec_witness :
  exists s, profile_list_augment (Some "unix,inet") (Some "-unix,netlink,inet") = Ok s
    /\ strtok "," s = ["inet"; "netlink"].
Proof.
  destruct (profile_list_augment_spec (Some "unix,inet") (Some "-unix,netlink,inet"))
    as (s & E & _).
  - repeat (constructor; [discriminate|]). constructor.
  - repeat (constructor; [discriminate|]). constructor.
  - exists s. split; [exact E|].
    assert (profile_list_augment (Some "unix,inet") (Some "-unix,netlink,inet") = Ok "inet,netlink")
      as E' by (vm_compute; reflexivity).
    assert (s = "inet,netlink") as -> by congruence. reflexivity.
Defined.

Lemma augmented_protocol_fits_witness :
  length (protocol_start (H := fun _ => None) 0 ++ flat_map WHITELIST [AF_INET]
          ++ RETURN_ERRNO ENOTSUP) <= PROTOCOL_FILTER_MAX.
Proof.
  apply (augmented_protocol_fits (H := fun _ => None) (Some "inet,inet") (Some "inet") "inet" 0).
  - repeat (constructor; [discriminate|]). constructor.
  - repeat (constructor; [discriminate|]). constructor.
  - vm_compute. reflexivity.
  - reflexivity.
Defined.
End Examples.
