(* ===== verification/InstallTheorems.v ===== *)
(** * Installing the filters: the properties *)

From S2P Require Import Prelude.
From S2P Require Import Clib.
From S2P Require Import Keeps.
From S2P Require Import Bpf.
From S2P Require Import SyscallTables.
From S2P Require Import SyscallGroups.
From S2P Require Import FilterFile.
From S2P Require Import Syscall.
From S2P Require Import SyscallSpec.
From S2P Require Import Fseccomp.
From S2P Require Import DropSpec.
From S2P Require Import Optimizer.
From S2P Require Import Install.
From S2P Require Import Concrete.
From S2P Require Import DropTheorems.
From S2P Require Import OptimizerTheorems.
From S2P Require Import ArgTheorems.
Local Open Scope string_scope.
Local Open Scope list_scope.
Local Open Scope Z_scope.

(** ** seccomp_check_list *)

Fixpoint chars (s : string) : list ascii :=
  match s with EmptyString => [] | String c s' => c :: chars s' end.

Lemma copy_list_spec str :
  copy_list str = if forallb seccomp_char (chars str) then Ok str else Exit 1.
Proof.
  induction str as [|c str IH]; [done|]. cbn [copy_list chars forallb].
  destruct (seccomp_char c); [|done]. rewrite IH. by destruct (forallb _ _).
Qed.

(** ** Children *)

Section Children.
Context `{H : SysHeaders} `{KOS : OS} {OL : OSLaws} `{BM : BpfMachine} {BL : BpfLaws}.

Definition child_world (s : sandbox) : world :=
  World (Z.lor SECCOMP_RET_ERRNO EPERM) ∅ (sb_files s).

Definition with_files (s : sandbox) (files : gmap string (list Z)) : sandbox :=
  Sandbox files (sb_filters s) (sb_list s).

Lemma sbox_run_ok child s w' :
  child (child_world s) = (Ok 0, w') -> sbox_run child s = (Ok 0, with_files s (w_files w')).
Proof. intros E. unfold sbox_run. fold (child_world s). by rewrite E. Qed.

Lemma fseccomp_main_ok env argv command act w w' :
  (match argv with
   | [] => false
   | a1 :: _ => negb (streq a1 "-h" || streq a1 "--help" || streq a1 "-?")
   end) = true ->
  error_action env = Ok act -> fseccomp_command argv = Some command ->
  command (set_action act w) = (Ok tt, w') ->
  fseccomp_main env argv w = (Ok 0, w').
Proof.
  intros Ha He Hc Hr. unfold fseccomp_main. destruct argv as [|a1 argv]; [done|].
  apply negb_true_iff in Ha. rewrite Ha, He, clift_ok_bind, cmodify_bind, Hc.
  by rewrite (cbind_ok _ _ _ _ _ Hr).
Qed.

Lemma seccomp_load_ok f p s :
  sb_files s !! f = Some (enc p) -> p <> [] ->
  seccomp_load true f s =
  (Ok 0, Sandbox (sb_files s) (FL f (load_entries (enc p)) :: sb_filters s) (sb_list s ++ [f])).
Proof.
  intros Hf Hp. unfold seccomp_load. rewrite Hf.
  destruct (enc p) eqn:E; [by apply enc_nil in E|done].
Qed.

Lemma prog_small s f p :
  sb_files s !! f = Some (enc p) -> Forall wf_sock p -> Z.of_nat (length p) < 8192 ->
  prog s (FL f (load_entries (enc p))) = p.
Proof.
  intros Hf Hp Hl. unfold prog. cbn [fl_fname fl_len]. rewrite Hf. by apply load_small.
Qed.

(** fseccomp wrote a rule filter to [f]; fsec-optimize and the loading of [f]
    install a program that decides the same way. *)
Lemma optimize_and_load cfg act native rs f s :
  full_writes -> error_action (seccomp_error_action cfg) = Ok act -> (length rs < 120)%nat ->
  sb_files s !! f = Some (enc (excepted native act rs RETURN_ALLOW)) ->
  exists s' p n,
    (rv <~ fsec_optimize cfg f ;; check_status rv ;;; seccomp_load true f) s = (Ok 0, s')
    /\ sb_filters s' = FL f n :: sb_filters s /\ prog s' (FL f n) = p
    /\ (forall g, g <> f -> sb_files s' !! g = sb_files s !! g)
    /\ forall d, run_filter p d = run_filter (excepted native act rs RETURN_ALLOW) d.
Proof.
  intros Hw He Hrs Hf. pose proof (error_action_not_allow _ _ He) as Ha.
  destruct (optimize_excepted native act rs Ha Hrs) as (out & Ho & Hne & Hwf & Hl).
  assert (Hm : optimize_main (seccomp_error_action cfg) f (child_world s) =
               (Ok 0, saved f out (child_world s))).
  { eapply optimize_main_ok; [done|exact He|exact Hf| | | |exact Hne|exact Ho].
    - apply wf_excepted. constructor; [apply wf_BPF_JUMP|constructor].
    - pose proof (length_excepted native act rs RETURN_ALLOW) as L.
      change (length RETURN_ALLOW) with 1%nat in L. lia.
    - by destruct native. }
  apply sbox_run_ok in Hm. fold (fsec_optimize cfg f) in Hm.
  rewrite (cbind_ok _ _ _ _ _ Hm). unfold check_status. cbn [Z.eqb]. rewrite cret_bind.
  set (s1 := with_files s (w_files (saved f out (child_world s)))).
  assert (Hf1 : sb_files s1 !! f = Some (enc out)) by apply lookup_insert_eq.
  rewrite (seccomp_load_ok f out s1 Hf1 Hne).
  eexists _, out, _. split; [reflexivity|]. split; [reflexivity|]. split; [|split].
  - apply prog_small; [done|done|lia].
  - intros g Hg. cbn [sb_files s1 with_files w_files saved]. by rewrite lookup_insert_ne.
  - intros d. by apply optimize_preserves_aux.
Qed.
End Children.

(** ** The list of loaded files *)

(** RUN_SECCOMP_LIST names the loaded filters, oldest first. *)
Definition list_inv (s : sandbox) : Prop := sb_list s = rev (map fl_fname (sb_filters s)).

(** Installing a filter keeps it, however it ends. *)
Definition list_kept : relation sandbox := preserves list_inv.

Lemma load_listed f : keeps list_kept (seccomp_load true f).
Proof.
  intros s Hs. unfold seccomp_load. destruct (sb_files s !! f) as [[|b bs]|]; [done| |done].
  unfold list_inv in *. simpl. by rewrite Hs.
Qed.

Lemma sbox_run_listed child : keeps list_kept (sbox_run child).
Proof.
  intros s Hs. unfold sbox_run.
  destruct (child _) as [[rv|c| |] w]; cbn [fst snd]; repeat case_match; done.
Qed.

Lemma unlink_listed f :
  keeps list_kept (cmodify (fun s => Sandbox (delete f (sb_files s)) (sb_filters s) (sb_list s))).
Proof. by intros s Hs. Qed.

#[export] Hint Resolve load_listed sbox_run_listed unlink_listed : keeps.
#[export] Instance list_kept_preorder : PreOrder list_kept := preserves_preorder list_inv.

Ltac listed :=
  unfold fseccomp, fsec_optimize, seccomp_filter_32, seccomp_filter_block_secondary,
    check_status, load_pair, seccomp_filter_mdwx, seccomp_filter_namespaces, fseccomp, fsec_optimize, check_status;
  cbv zeta; keeps_tac.

Section Lists.
Context `{H : SysHeaders} `{KOS : OS} (cfg : config).

Lemma filter_drop_listed native : keeps list_kept (seccomp_filter_drop cfg native).
Proof. unfold seccomp_filter_drop. listed. Qed.

Lemma filter_keep_listed native : keeps list_kept (seccomp_filter_keep cfg native).
Proof. unfold seccomp_filter_keep. listed. Qed.

Lemma set_seccomp_listed : keeps list_kept (set_seccomp cfg).
Proof.
  pose proof filter_drop_listed. pose proof filter_keep_listed. unfold set_seccomp, set_protocol, set_filters. listed.
Qed.

(** The files of the loaded filters are still there, with their sizes. *)
Definition unchanged (files : gmap string (list Z)) (fl : FilterList) : bool :=
  match files !! fl_fname fl with
  | None | Some [] => false
  | Some bytes => load_entries bytes =? fl_len fl
  end.

Lemma reload files fls loaded l :
  forallb (unchanged files) fls = true ->
  seccomp_load_file_list (rev (map fl_fname fls)) (Sandbox files loaded l) =
  (Ok tt, Sandbox files (fls ++ loaded) l).
Proof.
  unfold seccomp_load_file_list.
  induction fls as [|fl fls IH]; [done|]. cbn [map rev forallb]. intros [Hu Hf]%andb_true_iff.
  rewrite cfold_app. rewrite (cbind_ok _ _ _ _ _ (IH Hf)). cbn [cfold].
  unfold unchanged in Hu. unfold cbind, seccomp_load. cbn [sb_files].
  destruct (files !! fl_fname fl) as [[|b bytes]|]; [done| |done]. apply Z.eqb_eq in Hu.
  cbn. rewrite Hu. by destruct fl.
Qed.
End Lists.

Lemma length_keep_rules native act es : (length (keep_rules native act es) <= 2 * length es + 3)%nat.
Proof.
  unfold keep_rules, list_rules. rewrite !length_app.
  assert (forall e, length (entry_rules blacklist_excluded_rules act e) <= 1)%nat as P1
    by (intros e; apply length_entry_rules; intros m; unfold blacklist_excluded_rules;
        case_match; simpl; lia).
  assert (forall e, length (entry_rules whitelist_rules act e) <= 1)%nat as P2
    by (intros e; apply length_entry_rules; intros m; unfold whitelist_rules;
        case_match; simpl; lia).
  pose proof (length_flat_map_le (entry_rules blacklist_excluded_rules act) es P1).
  pose proof (length_flat_map_le (entry_rules whitelist_rules act) es P2).
  pose proof (length_flat_map_le (entry_rules whitelist_rules act)
                (map (fun n => Entry false n (-1)) (keep_nrs native)) P2) as L.
  rewrite length_map in L. assert (length (keep_nrs native) = 3%nat) by (by destruct native). lia.
Qed.

Section Claims.
Context `{H : SysHeaders} `{KOS : OS} {OL : OSLaws} `{BM : BpfMachine} {BL : BpfLaws}.

Lemma filter_drop_loads cfg str act es s :
  full_writes -> error_action (seccomp_error_action cfg) = Ok act ->
  seccomp_list_drop cfg = Some str -> arg_seccomp_block_secondary cfg = false ->
  expand SCL_DEPTH true str = Ok es -> numbers_ok es -> (length es < 60)%nat ->
  exists s' p n,
    seccomp_filter_drop cfg true s = (Ok 0, s')
    /\ sb_filters s' = FL RUN_SECCOMP_CFG n :: sb_filters s /\ prog s' (FL RUN_SECCOMP_CFG n) = p
    /\ forall d, nr_ok (sd_nr d) ->
         run_filter p d =
         Some (gate true (u32 act) (drop_action true (u32 act) es (sd_nr d)) d).
Proof.
  intros Hw He Hd Hb Hx Hn Hs.
  set (rs := drop_rules true act es).
  set (w1 := after_drop RUN_SECCOMP_CFG RUN_SECCOMP_POSTEXEC true rs es
               (set_action act (child_world s))).
  assert (Hc : fseccomp cfg (["drop"; RUN_SECCOMP_CFG; RUN_SECCOMP_POSTEXEC] ++
                 str :: (if arg_allow_debuggers cfg then ["allow-debuggers"] else [])) s =
               (Ok 0, with_files s (w_files w1))).
  { apply sbox_run_ok. destruct (arg_allow_debuggers cfg);
      (eapply fseccomp_main_ok; [reflexivity|exact He|reflexivity|by apply seccomp_drop_ok]). }
  destruct (optimize_and_load cfg act true rs RUN_SECCOMP_CFG (with_files s (w_files w1)))
    as (s' & p & n & Hr & Hl & Hi & _ & Hp); [done|done| | |].
  - pose proof (length_drop_rules true act es). unfold rs. lia.
  - by apply after_drop_pre.
  - exists s', p, n. split; [|split; [done|split; [done|]]].
    + unfold seccomp_filter_drop. rewrite Hd, Hb. cbv zeta. rewrite !cbind_assoc, cret_bind.
      rewrite !cbind_assoc, (cbind_ok _ _ _ _ _ Hc). unfold check_status at 1. cbn [Z.eqb].
      rewrite !cbind_assoc, cret_bind, cbind_assoc. rewrite <- Hr. by apply cbind_ext.
    + intros d Hdn. rewrite Hp. apply drop_decision; eauto using expand_ok.
Qed.

(** Firejail --seccomp.drop=list, through every process involved:
    [seccomp_filter_drop] runs fseccomp and fsec-optimize, loads the result in
    front of the filters already loaded, and the program it installs decides
    as the list says. *)
Theorem seccomp_filter_drop_installs cfg str act es s :
  full_writes -> error_action (seccomp_error_action cfg) = Ok act ->
  seccomp_list_drop cfg = Some str -> arg_seccomp_block_secondary cfg = false ->
  expand SCL_DEPTH true str = Ok es -> numbers_ok es -> (length es < 60)%nat ->
  exists s' p others,
    seccomp_filter_drop cfg true s = (Ok 0, s')
    /\ installed s' = p :: others
    /\ map fl_fname (sb_filters s') = RUN_SECCOMP_CFG :: map fl_fname (sb_filters s)
    /\ forall d, nr_ok (sd_nr d) ->
         run_filter p d =
         Some (gate true (u32 act) (drop_action true (u32 act) es (sd_nr d)) d).
Proof.
  intros Hw He Hd Hb Hx Hn Hs.
  destruct (filter_drop_loads cfg str act es s Hw He Hd Hb Hx Hn Hs) as (s' & p & n & Hr & Hl & Hi & Hp).
  exists s', p, (map (prog s') (sb_filters s)).
  split; [done|split; [by unfold installed; rewrite Hl, <- Hi|split; [by rewrite Hl|done]]].
Qed.

(** The 32-bit filter rebuilt with another error action, and loaded. *)
Lemma fseccomp_secondary_32 cfg act s :
  error_action (seccomp_error_action cfg) = Ok act ->
  fseccomp cfg ["secondary"; "32"; RUN_SECCOMP_32] s =
  (Ok 0, with_files s (w_files (saved RUN_SECCOMP_32 (secondary_32_filter act)
                                  (set_action act (child_world s))))).
Proof.
  intros He. apply sbox_run_ok. eapply fseccomp_main_ok; [reflexivity|exact He|reflexivity|].
  apply write_filter_ok.
Qed.

(** The default filter written by a child. *)
Definition default_argv (cfg : config) : list string :=
  if arg_allow_debuggers cfg then ["default"; RUN_SECCOMP_CFG; "allow-debuggers"]
  else ["default"; RUN_SECCOMP_CFG].

Definition default_list (cfg : config) (act : Z) : list (Z * Z) :=
  list_rules blacklist_rules act (default_entries (arg_allow_debuggers cfg) true).

Lemma fseccomp_default cfg act s :
  error_action (seccomp_error_action cfg) = Ok act ->
  fseccomp cfg (default_argv cfg) s =
  (Ok 0, with_files s
           (w_files (saved RUN_SECCOMP_CFG (excepted true act (default_list cfg act) RETURN_ALLOW)
                       (set_action act (child_world s))))).
Proof.
  intros He. apply sbox_run_ok. unfold default_argv, default_list. destruct (arg_allow_debuggers cfg);
    (eapply fseccomp_main_ok; [reflexivity|exact He|reflexivity|apply seccomp_default_ok]).
Qed.

(** [seccomp_filter_drop] without lists, the error action changed. *)
Lemma filter_default_steps cfg s :
  seccomp_list_drop cfg = None -> seccomp_list cfg = None ->
  arg_seccomp_block_secondary cfg = false ->
  arg_seccomp_error_action cfg <> DEFAULT_SECCOMP_ERROR_ACTION ->
  seccomp_filter_drop cfg true s =
  (rv <~ fseccomp cfg ["secondary"; "32"; RUN_SECCOMP_32] ;; check_status rv ;;;
   seccomp_load true RUN_SECCOMP_32 ;;;
   rv <~ fseccomp cfg (default_argv cfg) ;; check_status rv ;;;
   rv <~ fsec_optimize cfg RUN_SECCOMP_CFG ;; check_status rv ;;;
   seccomp_load true RUN_SECCOMP_CFG) s.
Proof.
  intros Hd Hl Hb Ha. unfold seccomp_filter_drop, seccomp_filter_32, default_argv.
  rewrite Hd, Hl, Hb. cbn [nonempty_list negb andb]. cbv zeta.
  destruct (Z.eqb_spec (arg_seccomp_error_action cfg) DEFAULT_SECCOMP_ERROR_ACTION); [done|].
  cbn [negb]. rewrite !cbind_assoc. apply cbind_ext. intros rv1 s1.
  apply cbind_ext. intros [] s2. rewrite cbind_assoc.
  apply cbind_ext. intros rv2 s3. rewrite cret_bind, cbind_assoc.
  destruct (arg_allow_debuggers cfg); apply cbind_ext; intros rv3 s4; rewrite cbind_assoc;
    apply cbind_ext; intros [] s5; apply cbind_assoc.
Qed.

(** Firejail --seccomp with another error action, through every process
    involved: the 32-bit filter and the default filter are built with that
    action, optimized and loaded, the default filter in front, and decide as
    their lists say. *)
Theorem seccomp_filter_default_installs cfg act s :
  full_writes -> error_action (seccomp_error_action cfg) = Ok act ->
  seccomp_list_drop cfg = None -> seccomp_list cfg = None ->
  arg_seccomp_block_secondary cfg = false ->
  arg_seccomp_error_action cfg <> DEFAULT_SECCOMP_ERROR_ACTION ->
  exists s' p q others,
    seccomp_filter_drop cfg true s = (Ok 0, s')
    /\ installed s' = p :: q :: others
    /\ (forall d, nr_ok (sd_nr d) ->
          run_filter p d =
          Some (gate true (u32 act)
                  (default_action (arg_allow_debuggers cfg) true (u32 act) (sd_nr d)) d))
    /\ (forall d, data_ok d -> run_filter q d = Some (secondary_32_action (u32 act) d)).
Proof.
  intros Hw He Hd Hl Hb Ha. rewrite filter_default_steps by done.
  rewrite (cbind_ok _ _ _ _ _ (fseccomp_secondary_32 cfg act s He)).
  unfold check_status at 1. cbn [Z.eqb]. rewrite cret_bind.
  set (s1 := with_files s _).
  assert (Hf1 : sb_files s1 !! RUN_SECCOMP_32 = Some (enc (secondary_32_filter act)))
    by apply lookup_insert_eq.
  assert (Hwf : Forall wf_sock (secondary_32_filter act))
    by (repeat (constructor; [apply wf_BPF_JUMP|]); constructor).
  rewrite (cbind_ok _ _ _ _ _ (seccomp_load_ok _ _ s1 Hf1 ltac:(discriminate))).
  set (s2 := Sandbox _ _ _).
  rewrite (cbind_ok _ _ _ _ _ (fseccomp_default cfg act s2 He)).
  unfold check_status at 1. cbn [Z.eqb]. rewrite cret_bind.
  set (s3 := with_files s2 _).
  destruct (optimize_and_load cfg act true (default_list cfg act) RUN_SECCOMP_CFG s3)
    as (s' & p & n & Hr & Hs' & Hi & Hg & Hp);
    [done|done|apply length_default_rules|apply lookup_insert_eq|].
  exists s', p, (secondary_32_filter act), (map (prog s') (sb_filters s)).
  split; [exact Hr|]. split; [|split].
  - unfold installed. rewrite Hs'. cbn [map s3 s2 with_files sb_filters]. rewrite Hi.
    f_equal. f_equal. apply prog_small; [|done|by vm_compute].
    rewrite Hg by discriminate. cbn [s3 s2 with_files sb_files w_files saved].
    rewrite lookup_insert_ne by discriminate. exact Hf1.
  - intros d Hdn. rewrite Hp. by apply default_decision.
  - intros d Hdn. by apply exec_secondary_32.
Qed.

(** Firejail --seccomp.32.keep=list builds a filter for the wrong
    architecture: [seccomp_filter_keep] runs the command [keep] whatever its
    argument is, so the 32-bit filter it installs allows every i386 call. *)
Theorem seccomp_filter_keep_32_allows_all cfg str act es s :
  full_writes -> error_action (seccomp_error_action cfg) = Ok act ->
  seccomp_list_keep32 cfg = Some str -> arg_seccomp_block_secondary cfg = false ->
  expand SCL_DEPTH true str = Ok es -> numbers_ok es -> (length es < 1000)%nat ->
  exists s' p others,
    seccomp_filter_keep cfg false s = (Ok 0, s')
    /\ installed s' = p :: others
    /\ forall d, nr_ok (sd_nr d) -> u32 (sd_arch d) = ARCH_32 ->
         run_filter p d = Some SECCOMP_RET_ALLOW.
Proof.
  intros Hw He Hk Hb Hx Hn Hs.
  set (p := excepted true act (keep_rules true act es) (KILL_OR_RETURN_ERRNO act)).
  assert (Hc : fseccomp cfg ["keep"; RUN_SECCOMP_32; RUN_SECCOMP_POSTEXEC_32; str] s =
    (Ok 0, with_files s (w_files (saved RUN_SECCOMP_32 p (set_action act (child_world s)))))).
  { apply sbox_run_ok. eapply fseccomp_main_ok; [reflexivity|exact He|reflexivity|].
    by apply seccomp_keep_ok. }
  set (s1 := with_files s _) in Hc.
  assert (Hf1 : sb_files s1 !! RUN_SECCOMP_32 = Some (enc p)) by apply lookup_insert_eq.
  pose proof (seccomp_load_ok _ _ s1 Hf1 ltac:(discriminate)) as Hload.
  set (s2 := Sandbox _ _ _) in Hload.
  exists s2, p, (map (prog s2) (sb_filters s)). split; [|split].
  - unfold seccomp_filter_keep. rewrite Hk, Hb, cret_bind. cbv zeta. cbn [app].
    rewrite (cbind_ok _ _ _ _ _ Hc). unfold check_status. cbn [Z.eqb]. by rewrite cret_bind.
  - unfold installed. cbn [s2 sb_filters map]. f_equal. apply prog_small; [exact Hf1| |].
    + apply wf_excepted. constructor; [apply wf_BPF_JUMP|constructor].
    + pose proof (length_excepted true act (keep_rules true act es) (KILL_OR_RETURN_ERRNO act)) as L.
      pose proof (length_keep_rules true act es). unfold p.
      change (length (KILL_OR_RETURN_ERRNO act)) with 1%nat in L. lia.
  - intros d Hdn Har. unfold p. rewrite keep_decision by eauto using expand_ok.
    unfold gate. by rewrite Har.
Qed.

(** Seccomp_check_list accepts a list exactly when it is not empty and made
    of letters, digits and the characters _ , : @ - $ !, and then returns it
    unchanged; any other list ends firejail with code 1. *)
Theorem seccomp_check_list_spec str :
  seccomp_check_list str =
  if nonempty str && forallb seccomp_char (chars str) then Ok str else Exit 1.
Proof.
  unfold seccomp_check_list. destruct str as [|c str]; [done|].
  rewrite strlen_nonempty, copy_list_spec by done. done.
Qed.

(** A process that joins the sandbox installs the same filters: after
    [set_seccomp], loading the files RUN_SECCOMP_LIST names, in a process that
    has loaded nothing yet, gives the same programs in the same order, as long
    as the filter files keep their sizes. *)
Theorem join_installs_same cfg files s' :
  set_seccomp cfg (Sandbox files [] []) = (Ok tt, s') ->
  forallb (unchanged (sb_files s')) (sb_filters s') = true ->
  exists s'',
    seccomp_load_file_list (sb_list s') (Sandbox (sb_files s') [] []) = (Ok tt, s'')
    /\ installed s'' = installed s'.
Proof.
  intros Hs Hu. pose proof (set_seccomp_listed cfg (Sandbox files [] []) eq_refl) as Hi.
  rewrite Hs in Hi. cbn [snd] in Hi. rewrite Hi.
  eexists. split; [by apply reload|]. unfold installed. cbn [sb_filters]. by rewrite app_nil_r.
Qed.
End Claims.

(** ** The files a child writes *)

(** The descriptors are those of [fs], and no other file changes. *)
Definition writes_only (fs : list string) (w w' : world) : Prop :=
  (forall fd f, w_fds w !! fd = Some f -> In f fs) ->
  (forall fd f, w_fds w' !! fd = Some f -> In f fs) /\ forall g, ~ In g fs -> w_files w' !! g = w_files w !! g.

#[export] Instance writes_only_preorder fs : PreOrder (writes_only fs).
Proof.
  split; [by intros w Hw|]. intros w1 w2 w3 H1 H2 Hw. destruct (H1 Hw) as [Hw2 E1]. destruct (H2 Hw2) as [Hw3 E2].
  split; [done|]. intros g Hg. by rewrite E2, E1.
Qed.

Section Writes.
Context `{H : SysHeaders} `{KOS : OS} (fs : list string).

Lemma open_writes f : In f fs -> keeps (writes_only fs) (sys_open f).
Proof.
  intros Hf w Hw. unfold sys_open. cbv zeta. destruct (_ <? 0); cbn [snd w_fds w_files]; [done|]. split.
  - intros fd g. destruct (decide (os_open f = fd)) as [->|Hn].
    + rewrite lookup_insert_eq. by intros [= <-].
    + rewrite lookup_insert_ne by done. apply Hw.
  - intros g Hg. apply lookup_insert_ne. by intros ->.
Qed.

Lemma close_writes fd : keeps (writes_only fs) (sys_close fd).
Proof.
  intros w Hw. cbn. split; [|done]. intros fd' f E. apply lookup_delete_Some in E as [_ E]. by eapply Hw.
Qed.

Lemma write_writes fd buf : keeps (writes_only fs) (sys_write fd buf).
Proof.
  intros w Hw. unfold sys_write. destruct (w_fds w !! fd) as [f|] eqn:E; [|done]. cbv zeta.
  destruct (_ =? -1); [done|]. split; [done|]. intros g Hg. cbn. apply lookup_insert_ne. intros ->. by eapply Hg, Hw.
Qed.

Lemma action_writes a : keeps (writes_only fs) (cmodify (set_action a)).
Proof. by intros w Hw. Qed.
#[local] Hint Resolve open_writes close_writes write_writes action_writes : keeps.

Lemma loop_writes n fd d a z : keeps (writes_only fs) (write_loop n fd d a z).
Proof. revert a. induction n; intros; cbn [write_loop]; keeps_tac. Qed.
#[local] Hint Resolve loop_writes : keeps.

Lemma callback_writes {P} (cb : option (filter_fn P)) fd arg native negate nr e (p : P) :
  (forall f, cb = Some f -> forall fd n a p nat, keeps (writes_only fs) (f fd n a p nat)) ->
  keeps (writes_only fs) (check_syscall cb fd arg native negate nr e p).
Proof. intros Hcb. unfold check_syscall. destruct cb as [f|]; [|keeps_tac]. specialize (Hcb f eq_refl). keeps_deep. Qed.

Lemma check_list_writes {P} d l (cb : option (filter_fn P)) fd arg (p : P) native :
  (forall f, cb = Some f -> forall fd n a p nat, keeps (writes_only fs) (f fd n a p nat)) ->
  keeps (writes_only fs) (syscall_check_list d l cb fd arg p native).
Proof.
  intros Hcb. revert l p. induction d as [|d IH]; intros l p; cbn [syscall_check_list];
    pose proof (fun a b c d e p => callback_writes cb a b c d e p); keeps_tac; eauto.
Qed.

Lemma find_writes fd n a p nat : keeps (writes_only fs) (find_syscall fd n a p nat).
Proof. keeps_deep. Qed.

Lemma in_list_writes l1 l2 native : keeps (writes_only fs) (syscalls_in_list l1 l2 native).
Proof.
  unfold syscalls_in_list. apply keeps_bind; [exact _| |intros; apply keeps_ret, _].
  apply check_list_writes. intros f [= <-] fd n a p nat. unfold syscall_in_list. destruct (n <? 0); [keeps_tac|].
  apply keeps_bind; [exact _| |intros; keeps_tac]. apply check_list_writes. intros f [= <-]. apply find_writes.
Qed.
#[local] Hint Resolve in_list_writes : keeps.

Ltac list_writes := apply check_list_writes; intros ? [= <-] ? ? ? ? ?; keeps_deep.
Ltac writes := cbv zeta; repeat first [keeps_step
  | match goal with |- keeps _ (syscall_check_list _ _ _ _ _ _ _) => list_writes end
  | match goal with |- keeps _ (sys_open _) => apply open_writes; cbn; tauto end
  | keeps_unfold].

Lemma drop_writes f1 f2 l dbg native : In f1 fs -> In f2 fs -> keeps (writes_only fs) (seccomp_drop f1 f2 l dbg native).
Proof. intros. writes. Qed.
Lemma default_drop_writes f1 f2 l dbg native :
  In f1 fs -> In f2 fs -> keeps (writes_only fs) (seccomp_default_drop f1 f2 l dbg native).
Proof. intros. writes. Qed.
Lemma keep_writes f1 f2 l native : In f1 fs -> keeps (writes_only fs) (seccomp_keep f1 f2 l native).
Proof. intros. writes. Qed.
Lemma default_writes f1 dbg native : In f1 fs -> keeps (writes_only fs) (seccomp_default f1 dbg native).
Proof. intros. writes. Qed.
Lemma filter_writes f1 p : In f1 fs -> keeps (writes_only fs) (write_filter f1 p).
Proof. intros. writes. Qed.
Lemma mdwx_writes f1 : In f1 fs -> keeps (writes_only fs) (memory_deny_write_execute f1).
Proof. intros. writes. Qed.
Lemma mdwx_32_writes f1 : In f1 fs -> keeps (writes_only fs) (memory_deny_write_execute_32 f1).
Proof. intros. writes. Qed.
Lemma ns_writes f1 l : In f1 fs -> keeps (writes_only fs) (deny_ns f1 l).
Proof. intros. writes. Qed.
Lemma ns_32_writes f1 l : In f1 fs -> keeps (writes_only fs) (deny_ns_32 f1 l).
Proof. intros. writes. Qed.
Lemma secondary_writes f1 : In f1 fs -> keeps (writes_only fs) (seccomp_secondary_32 f1).
Proof. intros. unfold seccomp_secondary_32. pose proof filter_writes. keeps_tac; auto. Qed.
Lemma block_writes f1 : In f1 fs -> keeps (writes_only fs) (seccomp_secondary_block f1).
Proof. intros. unfold seccomp_secondary_block. pose proof filter_writes. keeps_tac; auto. Qed.
End Writes.

(** ** What is loaded stays *)

(** The file [g] does not change, and filters are only added. *)
Definition stays (g : string) (s s' : sandbox) : Prop :=
  sb_files s' !! g = sb_files s !! g /\ exists l, sb_filters s' = l ++ sb_filters s.

#[export] Instance stays_preorder g : PreOrder (stays g).
Proof.
  split; [intros s; split; [done|by exists []]|]. intros s1 s2 s3 [E1 [l1 F1]] [E2 [l2 F2]].
  split; [by rewrite E2, E1|]. exists (l2 ++ l1). by rewrite F2, F1, app_assoc.
Qed.

Section Stays.
Context `{H : SysHeaders} `{KOS : OS} (cfg : config).

Lemma sbox_stays fs g child : ~ In g fs -> keeps (writes_only fs) child -> keeps (stays g) (sbox_run child).
Proof.
  intros Hg Hc s. unfold sbox_run. specialize (Hc (World (Z.lor SECCOMP_RET_ERRNO EPERM) ∅ (sb_files s))).
  destruct (child _) as [r w] eqn:E. destruct Hc as [_ Hw]; [intros fd f Hf; cbn in Hf; by rewrite lookup_empty in Hf|].
  assert (stays g s (Sandbox (w_files w) (sb_filters s) (sb_list s))) as Hs.
  { split; [by apply Hw|by exists []]. }
  by destruct r as [rv|c| |]; cbn [fst snd]; repeat case_match.
Qed.

Lemma fseccomp_stays fs g argv : ~ In g fs ->
  (forall cmd, fseccomp_command argv = Some cmd -> keeps (writes_only fs) cmd) -> keeps (stays g) (fseccomp cfg argv).
Proof.
  intros Hg Hc. apply (sbox_stays fs); [done|]. pose proof (action_writes fs). unfold fseccomp_main.
  destruct argv as [|a1 argv]; [keeps_tac|]. destruct (_ || _); [keeps_tac|].
  destruct (fseccomp_command (a1 :: argv)); [pose proof (Hc _ eq_refl)|]; keeps_tac.
Qed.

Lemma optimize_stays f g : f <> g -> keeps (stays g) (fsec_optimize cfg f).
Proof.
  intros Hg. apply (sbox_stays [f]); [by intros [->|[]]|]. unfold optimize_main.
  pose proof (open_writes [f] f (or_introl eq_refl)). pose proof (close_writes [f]). pose proof (write_writes [f]).
  keeps_tac.
Qed.

Lemma load_stays g save f : keeps (stays g) (seccomp_load save f).
Proof.
  intros s. unfold seccomp_load. destruct (sb_files s !! f) as [[|b bs]|]; [done| |done].
  split; [done|]. by eexists [_].
Qed.
End Stays.

#[export] Hint Resolve load_stays : keeps.

Section Later.
Context `{H : SysHeaders} `{KOS : OS} (cfg : config).

Ltac other_file := let E := fresh in intros E; cbn in E; repeat destruct E as [E|E]; discriminate E || destruct E.
Ltac child fs :=
  apply (fseccomp_stays cfg fs); [other_file|intros ? [= <-]];
  match goal with
  | |- keeps _ (seccomp_drop _ _ _ _ _) => apply drop_writes
  | |- keeps _ (seccomp_default_drop _ _ _ _ _) => apply default_drop_writes
  | |- keeps _ (seccomp_keep _ _ _ _) => apply keep_writes
  | |- keeps _ (seccomp_default _ _ _) => apply default_writes
  | |- keeps _ (memory_deny_write_execute _) => apply mdwx_writes
  | |- keeps _ (memory_deny_write_execute_32 _) => apply mdwx_32_writes
  | |- keeps _ (deny_ns _ _) => apply ns_writes
  | |- keeps _ (deny_ns_32 _ _) => apply ns_32_writes
  | |- keeps _ (seccomp_secondary_32 _) => apply secondary_writes
  | |- keeps _ (seccomp_secondary_block _) => apply block_writes
  end; cbn; tauto.
Ltac stays fs := unfold check_status, load_pair; cbv zeta; repeat first
  [ keeps_step
  | match goal with |- keeps _ (fseccomp _ (_ ++ match ?x with _ => _ end)) => destruct x; cbn [app] end
  | match goal with |- keeps _ (fseccomp _ (_ :: _ :: _ :: _ :: match ?x with _ => _ end)) => destruct x end
  | match goal with |- keeps _ (fseccomp _ _) => child fs end
  | match goal with |- keeps _ (fsec_optimize _ _) => apply optimize_stays; discriminate end ].

Lemma filter_32_stays : keeps (stays RUN_SECCOMP_CFG) (seccomp_filter_drop cfg false).
Proof.
  unfold seccomp_filter_drop, seccomp_filter_32, seccomp_filter_block_secondary, list_arg.
  stays [RUN_SECCOMP_32; RUN_SECCOMP_POSTEXEC_32; RUN_SECCOMP_BLOCK_SECONDARY].
Qed.

Lemma keep_32_stays : keeps (stays RUN_SECCOMP_CFG) (seccomp_filter_keep cfg false).
Proof.
  unfold seccomp_filter_keep, seccomp_filter_block_secondary. stays [RUN_SECCOMP_32; RUN_SECCOMP_POSTEXEC_32].
Qed.

Lemma mdwx_stays n : keeps (stays RUN_SECCOMP_CFG) (seccomp_filter_mdwx cfg n).
Proof. unfold seccomp_filter_mdwx. destruct n; stays [RUN_SECCOMP_MDWX; RUN_SECCOMP_MDWX_32]. Qed.

Lemma namespaces_stays n l : keeps (stays RUN_SECCOMP_CFG) (seccomp_filter_namespaces cfg n l).
Proof. unfold seccomp_filter_namespaces. destruct n, l; stays [RUN_SECCOMP_NS; RUN_SECCOMP_NS_32]. Qed.
End Later.

Section InForce.
Context `{H : SysHeaders} `{KOS : OS} {OL : OSLaws} `{BM : BpfMachine} {BL : BpfLaws}.

(** What follows the filter of the native system calls. *)
Lemma set_filters_drop cfg s s' : arg_seccomp cfg = true -> seccomp_list_keep cfg = None ->
  set_filters cfg s = (Ok tt, s') ->
  exists rv s1, seccomp_filter_drop cfg true s = (Ok rv, s1) /\ stays RUN_SECCOMP_CFG s1 s'.
Proof.
  intros Ha Hk. unfold set_filters. rewrite Ha, Hk. rewrite cbind_assoc. unfold cbind at 1.
  destruct (seccomp_filter_drop cfg true s) as [[rv| | |] s1] eqn:E; [|done..]. intros E2. exists rv, s1. split; [done|].
  pose proof (filter_32_stays cfg). pose proof (keep_32_stays cfg). pose proof (mdwx_stays cfg).
  pose proof (namespaces_stays cfg). revert E2. rewrite cret_bind. apply keeps_ok_keeps. unfold load_pair. keeps_tac.
Qed.

(** The filter of --seccomp.drop is among those that are installed in the end. *)
Lemma drop_installed cfg str act es s s' :
  full_writes -> error_action (seccomp_error_action cfg) = Ok act -> arg_seccomp cfg = true ->
  seccomp_list_keep cfg = None -> seccomp_list_drop cfg = Some str -> arg_seccomp_block_secondary cfg = false ->
  expand SCL_DEPTH true str = Ok es -> numbers_ok es -> (length es < 60)%nat ->
  set_filters cfg s = (Ok tt, s') ->
  exists p, In p (installed s') /\ forall d, nr_ok (sd_nr d) ->
    run_filter p d = Some (gate true (u32 act) (drop_action true (u32 act) es (sd_nr d)) d).
Proof.
  intros Hw He Ha Hk Hd Hb Hx Hn Hl E.
  destruct (set_filters_drop _ _ _ Ha Hk E) as (rv & s1 & E1 & Hf & l & Hs).
  destruct (filter_drop_loads cfg str act es s Hw He Hd Hb Hx Hn Hl) as (s2 & p & n & E2 & Hs2 & Hp & Hr).
  rewrite E1 in E2. injection E2 as -> ->. exists p. split; [|done].
  unfold installed. rewrite Hs, Hs2. apply in_map_iff. exists (FL RUN_SECCOMP_CFG n).
  split; [|apply in_or_app; right; by left]. rewrite <- Hp. unfold prog. cbn [fl_fname fl_len]. by rewrite Hf.
Qed.
End InForce.

(** ** Evaluation *)

Section Examples.
#[local] Existing Instance x86_64_headers.
#[local] Existing Instance atomic_writes.
#[local] Existing Instance atomic_writes_laws.

Lemma atomic_writes_full : full_writes.
Proof. intros fd b. reflexivity. Qed.

(** --seccomp.drop=..., --seccomp.32.keep=... with the error action kill. *)
Definition sample_cfg : config :=
  Config None None (Some sample_list) None None (Some "exit,read") None None (Some "kill")
    SECCOMP_RET_KILL true true false false false false.
Definition default_cfg : config :=
  Config None None None None None None None None (Some "kill")
    SECCOMP_RET_KILL true false false false false false.
Definition empty_sandbox : sandbox := Sandbox ∅ [] [].

Lemma seccomp_filter_drop_installs_witness :
  exists s' p others,
    seccomp_filter_drop sample_cfg true empty_sandbox = (Ok 0, s')
    /\ installed s' = p :: others
    /\ run_filter p (call 227 []) = Some SECCOMP_RET_KILL
    /\ run_filter p (call 165 []) = Some SECCOMP_RET_ALLOW.
Proof.
  destruct (seccomp_filter_drop_installs sample_cfg sample_list SECCOMP_RET_KILL sample_entries
              empty_sandbox atomic_writes_full) as (s' & p & others & Hr & Hi & _ & Hp);
    [reflexivity|reflexivity|reflexivity|apply sample_expands|apply sample_numbers| |].
  - apply Nat.ltb_lt. vm_compute. reflexivity.
  - exists s', p, others. split; [exact Hr|]. split; [exact Hi|].
    split; rewrite Hp; try (split; [discriminate|reflexivity]); vm_compute; reflexivity.
Defined.

Lemma seccomp_filter_default_installs_witness :
  exists s' p q others,
    seccomp_filter_drop default_cfg true empty_sandbox = (Ok 0, s')
    /\ installed s' = p :: q :: others
    /\ run_filter p (call 165 []) = Some SECCOMP_RET_KILL
    /\ run_filter p (call 0 []) = Some SECCOMP_RET_ALLOW.
Proof.
  destruct (seccomp_filter_default_installs default_cfg SECCOMP_RET_KILL empty_sandbox
              atomic_writes_full) as (s' & p & q & others & Hr & Hi & Hp & _);
    [reflexivity|reflexivity|reflexivity|reflexivity|discriminate|].
  exists s', p, q, others. split; [exact Hr|]. split; [exact Hi|].
  split; rewrite Hp; try (split; [discriminate|reflexivity]); vm_compute; reflexivity.
Defined.

(** write(2) of i386 is not in the list. *)
Lemma seccomp_filter_keep_32_allows_all_witness :
  exists s' p others,
    seccomp_filter_keep sample_cfg false empty_sandbox = (Ok 0, s')
    /\ installed s' = p :: others
    /\ run_filter p (call32 4 []) = Some SECCOMP_RET_ALLOW.
Proof.
  destruct (seccomp_filter_keep_32_allows_all sample_cfg "exit,read" SECCOMP_RET_KILL
              [Entry false 60 (-1); Entry false 0 (-1)] empty_sandbox atomic_writes_full)
    as (s' & p & others & Hr & Hi & Hp);
    [reflexivity|reflexivity|reflexivity|vm_compute; reflexivity|by repeat constructor|simpl; lia|].
  exists s', p, others. split; [exact Hr|]. split; [exact Hi|].
  apply Hp; [split; [discriminate|reflexivity]|reflexivity].
Defined.

Definition drop_cfg : config :=
  Config None None (Some "mount,umount2") None None None None None None
    EPERM true false false false false false.
Definition drop_state : sandbox := (set_seccomp drop_cfg empty_sandbox).2.

Lemma join_installs_same_witness :
  exists s'',
    seccomp_load_file_list (sb_list drop_state) (Sandbox (sb_files drop_state) [] []) = (Ok tt, s'')
    /\ installed s'' = installed drop_state.
Proof.
  apply (join_installs_same drop_cfg ∅ drop_state).
  - vm_compute. reflexivity.
  - vm_compute. reflexivity.
Defined.
End Examples.
