(* ===== verification/Env.v ===== *)
(** * The environment (src/firejail/env.c)

    Firejail runs set-uid root with the environment of the user that calls it.
    It saves the variables in a list of its own, [envlist], clears the
    environment of the process, and sets only whitelisted names again; the
    sandboxed program gets the whole list ([env_apply_all]).

    The state [proc] is the list, the environment of the process (environ(7), a
    map from names to values), and the limits main and env.c compare against. *)

From S2P Require Import Prelude.
From S2P Require Import Clib.

Inductive ENV_OP := SETENV | RMENV.

#[export] Instance ENV_OP_eq_dec : EqDecision ENV_OP.
Proof. solve_decision. Defined.

(** [value] is NULL in an entry of [env_store] with [RMENV]. *)
Record Env := mk_env { name : string; value : option string; op : ENV_OP }.

#[export] Instance Env_eq_dec : EqDecision Env.
Proof. solve_decision. Defined.

Record proc := mk_proc {
  envlist : list Env;
  environ : gmap string string;
  env_max_len : Z;
  env_max_count : Z;
  arg_max_len : Z;
  arg_max_count : Z
}.

Definition set_envlist (l : list Env) (p : proc) : proc :=
  mk_proc l (environ p) (env_max_len p) (env_max_count p) (arg_max_len p) (arg_max_count p).
Definition set_environ (e : gmap string string) (p : proc) : proc :=
  mk_proc (envlist p) e (env_max_len p) (env_max_count p) (arg_max_len p) (arg_max_count p).

Definition E (A : Type) : Type := CM proc A.

(** ** The C library on the environment of the process *)

(** A name that setenv(3) and unsetenv(3) accept. *)
Definition valid_name (n : string) : bool := nonempty n && negb (string_mem "="%char n).

(** [setenv(n, v, 1) < 0] ends the program in all uses. *)
Definition setenv_or_exit (n v : string) : E unit :=
  if valid_name n then cmodify (fun p => set_environ (<[n := v]> (environ p)) p)
  else cexit 1.

(** [unsetenv(n)] without a look at the result. *)
Definition unsetenv (n : string) : E unit :=
  if valid_name n then cmodify (fun p => set_environ (delete n (environ p)) p)
  else cret tt.

Definition clearenv : E unit := cmodify (set_environ ∅).

(** ** The list *)

(** The walk to the last entry and the store into its [next]. *)
Definition env_add (env : Env) : E unit :=
  cmodify (fun p => set_envlist (envlist p ++ [env]) p).

Definition env_store (str : string) (o : ENV_OP) : E unit :=
  if negb (nonempty str) then cexit 1
  else match o, strchr_split "="%char str with
       | SETENV, None => cexit 1
       | SETENV, Some (n, v) => env_add (mk_env n (Some v) SETENV)
       | RMENV, _ => env_add (mk_env str None RMENV)
       end.

Definition env_store_name_val (n val : string) (o : ENV_OP) : E unit :=
  if negb (nonempty n) then cexit 1
  else env_add (mk_env n (match o with SETENV => Some val | RMENV => None end) o).

(** The value of an entry that sets one; NULL is never read. *)
Definition env_value (env : Env) : string := default "" (value env).

(** One iteration of the loop of [env_apply_all]. *)
Definition env_apply (env : Env) : E unit :=
  match op env with
  | SETENV => setenv_or_exit (name env) (env_value env)
  | RMENV => unsetenv (name env)
  end.

Definition env_apply_all : E unit :=
  p <~ cget ;;
  cfold (fun env _ => env_apply env) (envlist p) tt.

(** One iteration of the loop of [env_get]. *)
Definition env_get_step (n : string) (r : option string) (env : Env) : option string :=
  if streq (name env) n
  then match op env with SETENV => Some (env_value env) | RMENV => None end
  else r.

Definition env_get (n : string) (p : proc) : option string :=
  foldl (env_get_step n) None (envlist p).

(** ** The whitelists *)

Definition env_whitelist : list string :=
  ["LANG"; "LANGUAGE"; "LC_MESSAGES"; "DISPLAY"].

Definition env_whitelist_sbox : list string :=
  ["FIREJAIL_DEBUG"; "FIREJAIL_FILE_COPY_LIMIT"; "FIREJAIL_PLUGIN"; "FIREJAIL_QUIET";
   "FIREJAIL_SECCOMP_ERROR_ACTION"; "FIREJAIL_TEST_ARGUMENTS"; "FIREJAIL_TRACEFILE"].

(** One iteration of the loop of [env_apply_list]. *)
Definition env_apply_listed (names : list string) (env : Env) : E unit :=
  match op env with
  | SETENV =>
      if existsb (streq (name env)) names then
        p <~ cget ;;
        if env_max_len p <=? strlen (name env) + strlen (env_value env) then cexit 1
        else setenv_or_exit (name env) (env_value env)
      else cret tt
  | RMENV => unsetenv (name env)
  end.

Definition env_apply_list (names : list string) : E unit :=
  p <~ cget ;;
  cfold (fun env _ => env_apply_listed names env) (envlist p) tt.

Definition default_path : string :=
  "/usr/local/bin:/usr/bin:/bin:/usr/local/sbin:/usr/sbin:/sbin".

Definition env_apply_whitelist : E unit :=
  clearenv ;;;
  env_apply_list env_whitelist ;;;
  setenv_or_exit "PATH" default_path.

Definition env_apply_whitelist_sbox : E unit :=
  env_apply_whitelist ;;;
  env_apply_list env_whitelist_sbox.

(** ** Default variables of the sandbox *)

(** The backslashes, quotes and brackets of the source's string. *)
Definition prompt_command : string :=
  let q := String (chr 34) "" in
  "export PS1=" +:+ q +:+ "\[\e[1;32m\][\u@\h \W]\$\[\e[0m\] " +:+ q.

(** [cfg_prompt] is checkcfg(CFG_FIREJAIL_PROMPT). *)
Definition env_defaults (usershell : string) (cfg_prompt arg_quiet : bool) : E unit :=
  env_store_name_val "QT_X11_NO_MITSHM" "1" SETENV ;;;
  env_store_name_val "QML_DISABLE_DISK_CACHE" "1" SETENV ;;;
  env_store_name_val "container" "firejail" SETENV ;;;
  env_store_name_val "SHELL" usershell SETENV ;;;
  env_store_name_val "KDE_FORK_SLAVES" "1" SETENV ;;;
  p <~ cget ;;
  let set_prompt :=
    cfg_prompt ||
    match env_get "FIREJAIL_PROMPT" p with Some v => streq v "yes" | None => false end in
  env_store_name_val "PROMPT_COMMAND" (if set_prompt then prompt_command else ":") SETENV ;;;
  if arg_quiet then env_store_name_val "FIREJAIL_QUIET" "yes" SETENV else cret tt.

(** ** IBUS *)

(** The file names of ~/.config/ibus/bus that are read: the first "unix-0" of
    the name is at its end. *)
Fixpoint strstr_from (needle s : string) : option string :=
  if has_prefix needle s then Some s
  else match s with
       | EmptyString => None
       | String _ s' => strstr_from needle s'
       end.

Definition ibus_file (d_name : string) : bool :=
  match strstr_from "unix-0" d_name with
  | Some r => strlen r =? 6
  | None => false
  end.

(** A line in the buffer of fgets(3). *)
Definition ibus_line (buf : string) : E unit :=
  if negb (has_prefix "IBUS_" buf) then cret tt
  else match strchr_split "="%char buf with
       | None => cret tt
       | Some _ =>
           env_store (match strchr_split (chr 10) buf with
                      | Some (l, _) => l
                      | None => buf
                      end) SETENV
       end.

(** The directory as readdir(3) lists it: the name of each entry, and what the
    calls of fgets return when the file can be opened; [None] when the directory
    or the file cannot be opened. *)
Definition env_ibus_load (dir : option (list (string * option (list string)))) : E unit :=
  match dir with
  | None => cret tt
  | Some entries =>
      cfold (fun entry _ =>
        if ibus_file entry.1 then
          match entry.2 with
          | None => cret tt
          | Some bufs => cfold (fun buf _ => ibus_line buf) bufs tt
          end
        else cret tt) entries tt
  end.

(** ** The start of main *)

(** The checks on the arguments, the list from the environment the process was
    started with, and the minimal environment (src/firejail/main.c). *)
Fixpoint stash_loop (i : Z) (envp : list string) : E Z :=
  match envp with
  | [] => cret i
  | e :: envp' =>
      p <~ cget ;;
      if i <? env_max_count p then env_store e SETENV ;;; stash_loop (i + 1) envp'
      else cret i
  end.

Definition stash_environment (argv envp : list string) : E unit :=
  p <~ cget ;;
  if arg_max_count p <=? Z.of_nat (length argv) then cexit 1
  else if existsb (fun a => arg_max_len p <=? strlen a) argv then cexit 1
  else
    i <~ stash_loop 0 envp ;;
    (if env_max_count p <=? i then cexit 1 else env_apply_whitelist).

(** * Theorems about the environment (env.c)

    The list of env.c is a journal of settings and removals; [journal] is the map
    it stands for over the environment it is applied to. *)

(** ** What a list of entries does to an environment *)

Definition journal_step (m : gmap string string) (env : Env) : gmap string string :=
  if valid_name (name env)
  then match op env with
       | SETENV => <[name env := env_value env]> m
       | RMENV => delete (name env) m
       end
  else m.

Definition journal (l : list Env) (m : gmap string string) : gmap string string :=
  foldl journal_step m l.

Definition settable (env : Env) : bool :=
  match op env with SETENV => valid_name (name env) | RMENV => true end.

Definition mentions (n : string) (l : list Env) : bool :=
  existsb (fun env => streq (name env) n) l.

Lemma env_apply_step env p :
  env_apply env p =
  if settable env then (Ok tt, set_environ (journal_step (environ p) env) p) else (Exit 1, p).
Proof.
  unfold env_apply, settable, journal_step, setenv_or_exit, unsetenv.
  destruct p, (op env), (valid_name (name env)); reflexivity.
Qed.

Lemma env_apply_fold l p :
  forallb settable l = true ->
  cfold (fun env _ => env_apply env) l tt p =
  (Ok tt, set_environ (journal l (environ p)) p).
Proof.
  revert p. induction l as [|env l IH]; intros p; [by destruct p|].
  intros [Hs Hl]%andb_true_iff. simpl. unfold cbind. rewrite env_apply_step, Hs.
  by rewrite IH.
Qed.

Lemma env_apply_fold_exit l p :
  forallb settable l = false ->
  (cfold (fun env _ => env_apply env) l tt p).1 = Exit 1.
Proof.
  revert p. induction l as [|env l IH]; intros p; [done|].
  intros Hl. simpl in *. unfold cbind. rewrite env_apply_step.
  destruct (settable env); [by apply IH|done].
Qed.

(** The last entry with the name decides. *)
Lemma journal_lookup l m n :
  valid_name n = true ->
  journal l m !! n =
  if mentions n l then foldl (env_get_step n) None l else m !! n.
Proof.
  intros Hn. induction l as [|env l IH] using rev_ind; [done|].
  unfold journal, mentions in *. rewrite !foldl_app, existsb_app. simpl.
  unfold journal_step at 1, env_get_step at 1.
  destruct (streq (name env) n) eqn:E.
  - apply streq_eq in E as ->. rewrite Hn, orb_true_r.
    destruct (op env); [apply lookup_insert_eq|apply lookup_delete_eq].
  - apply streq_neq in E. rewrite !orb_false_r.
    destruct (valid_name (name env)), (op env); rewrite <- IH; try done;
      [by apply lookup_insert_ne|by apply lookup_delete_ne].
Qed.

Lemma journal_invalid l m n : valid_name n = false -> journal l m !! n = m !! n.
Proof.
  intros Hn. revert m. induction l as [|env l IH]; intros m; [done|].
  simpl. rewrite IH. unfold journal_step. destruct (valid_name (name env)) eqn:E; [|done].
  assert (name env <> n) by congruence.
  destruct (op env); [by apply lookup_insert_ne|by apply lookup_delete_ne].
Qed.

(** What env_get returns is what the sandboxed program will find: when the
    names of the list can be set, env_apply_all succeeds, and afterwards every
    variable the list mentions has the value env_get returns for it, absent when
    it returns NULL, and every other variable is as before. *)
Theorem env_apply_all_agrees_env_get p n :
  forallb settable (envlist p) = true -> valid_name n = true ->
  exists p', env_apply_all p = (Ok tt, p') /\ envlist p' = envlist p /\
    environ p' !! n = if mentions n (envlist p) then env_get n p else environ p !! n.
Proof.
  intros Hs Hn. eexists. split; [|split].
  - unfold env_apply_all. rewrite cget_bind. by apply env_apply_fold.
  - done.
  - simpl. by apply journal_lookup.
Qed.

(** ** The whitelists *)

Definition listed (names : list string) (env : Env) : bool := existsb (streq (name env)) names.

(** The entries [env_apply_list] applies. *)
Definition relevant (names : list string) (env : Env) : bool :=
  match op env with SETENV => listed names env | RMENV => true end.

Definition env_fits (limit : Z) (env : Env) : bool :=
  strlen (name env) + strlen (env_value env) <? limit.

Definition listed_fits (limit : Z) (names : list string) (env : Env) : bool :=
  match op env with
  | SETENV => negb (listed names env) || env_fits limit env
  | RMENV => true
  end.

Lemma env_apply_listed_step names env p :
  env_apply_listed names env p =
  if listed_fits (env_max_len p) names env
  then (if relevant names env then env_apply env p else (Ok tt, p))
  else (Exit 1, p).
Proof.
  unfold env_apply_listed, listed_fits, relevant, env_fits, env_apply, listed.
  destruct (op env); [|done].
  destruct (existsb (streq (name env)) names); simpl; [|done].
  rewrite cget_bind, Z.leb_antisym. by destruct (_ <? _).
Qed.

Lemma settable_relevant names env :
  forallb valid_name names = true -> relevant names env = true -> settable env = true.
Proof.
  unfold relevant, settable, listed. intros Hv. destruct (op env); [|done].
  rewrite forallb_forall in Hv. intros (x & Hin & ->%streq_eq)%existsb_exists. auto.
Qed.

Lemma env_apply_list_fold names l p :
  forallb valid_name names = true ->
  if forallb (listed_fits (env_max_len p) names) l
  then cfold (fun env _ => env_apply_listed names env) l tt p =
       (Ok tt, set_environ (journal (List.filter (relevant names) l) (environ p)) p)
  else (cfold (fun env _ => env_apply_listed names env) l tt p).1 = Exit 1.
Proof.
  intros Hv. revert p. induction l as [|env l IH]; intros p; [by destruct p|].
  simpl. unfold cbind. rewrite env_apply_listed_step.
  destruct (listed_fits _ _ env); [|done]. simpl.
  destruct (relevant names env) eqn:E; [|apply IH].
  rewrite env_apply_step, (settable_relevant _ _ Hv E).
  specialize (IH (set_environ (journal_step (environ p) env) p)).
  simpl in IH. destruct (forallb _ l); [|done]. by rewrite IH.
Qed.

Lemma env_apply_list_spec names p :
  forallb valid_name names = true ->
  if forallb (listed_fits (env_max_len p) names) (envlist p)
  then env_apply_list names p =
       (Ok tt, set_environ (journal (List.filter (relevant names) (envlist p)) (environ p)) p)
  else (env_apply_list names p).1 = Exit 1.
Proof. intros Hv. unfold env_apply_list. rewrite cget_bind. by apply env_apply_list_fold. Qed.

Lemma mentions_relevant names n l :
  mentions n (List.filter (relevant names) l) =
  existsb (fun env => streq (name env) n && relevant names env) l.
Proof.
  induction l as [|env l IH]; [done|]. simpl.
  destruct (relevant names env) eqn:E; simpl.
  - unfold mentions in *. simpl. by rewrite IH, andb_true_r.
  - by rewrite andb_false_r, IH.
Qed.

Lemma listed_name names n env : name env = n -> listed names env = bool_decide (n ∈ names).
Proof.
  intros <-. unfold listed. apply eq_bool_prop_intro.
  rewrite bool_decide_spec, Is_true_true, existsb_exists. split.
  - intros (x & Hin & ->%streq_eq). by apply list_elem_of_In.
  - intros Hin%list_elem_of_In. exists (name env). by rewrite streq_refl.
Qed.

(** The entries of a whitelisted name are all applied. *)
Lemma env_get_relevant names n l r :
  n ∈ names ->
  foldl (env_get_step n) r (List.filter (relevant names) l) = foldl (env_get_step n) r l.
Proof.
  intros Hn. revert r. induction l as [|env l IH]; intros r; [done|]. simpl.
  destruct (relevant names env) eqn:E; simpl; [apply IH|].
  rewrite IH. f_equal. unfold env_get_step.
  destruct (streq (name env) n) eqn:En; [|done]. apply streq_eq in En.
  unfold relevant in E. rewrite (listed_name _ _ _ En), bool_decide_eq_true_2 in E by done.
  by destruct (op env).
Qed.

(** Entries of another name that are applied only remove it. *)
Lemma env_get_unlisted names n l :
  n ∉ names -> foldl (env_get_step n) None (List.filter (relevant names) l) = None.
Proof.
  intros Hn. induction l as [|env l IH] using rev_ind; [done|].
  rewrite List.filter_app, foldl_app, IH. simpl.
  destruct (relevant names env) eqn:E; simpl; [|done]. unfold env_get_step.
  destruct (streq (name env) n) eqn:En; [|done]. apply streq_eq in En.
  unfold relevant in E. rewrite (listed_name _ _ _ En), bool_decide_eq_false_2 in E by done.
  by destruct (op env).
Qed.

Lemma env_get_not_mentioned n l : mentions n l = false -> foldl (env_get_step n) None l = None.
Proof.
  induction l as [|env l IH] using rev_ind; [done|].
  unfold mentions in *. rewrite existsb_app, foldl_app. simpl.
  intros [H1 H2]%orb_false_iff. rewrite IH by done. unfold env_get_step.
  apply orb_false_iff in H2 as [-> _]. done.
Qed.

(** From an environment that knows nothing of [n]. *)
Lemma journal_whitelist names l m n :
  forallb valid_name names = true -> m !! n = None ->
  journal (List.filter (relevant names) l) m !! n =
  if bool_decide (n ∈ names) then foldl (env_get_step n) None l else None.
Proof.
  intros Hv Hm. destruct (valid_name n) eqn:En.
  - rewrite journal_lookup, Hm by done. case_bool_decide as Hin.
    + rewrite <- (env_get_relevant names n l None) by done.
      destruct (mentions n _) eqn:E; [done|]. by rewrite env_get_not_mentioned.
    + rewrite env_get_unlisted by done. by destruct (mentions _ _).
  - rewrite journal_invalid, Hm by done. case_bool_decide as Hin; [|done].
    rewrite forallb_forall in Hv. apply list_elem_of_In, Hv in Hin. congruence.
Qed.

(** C33: The environment of the privileged process after env_apply_whitelist: PATH
    has the hard-coded value, the whitelisted names have the value the user
    gave, and there is nothing else, whatever the user's environment holds.
    The program exits exactly when a whitelisted variable is as long as
    env-max-len. *)
Theorem env_apply_whitelist_safe p :
  if forallb (listed_fits (env_max_len p) env_whitelist) (envlist p)
  then exists e, env_apply_whitelist p = (Ok tt, set_environ e p) /\
    forall n, e !! n = if bool_decide (n = "PATH") then Some default_path
                       else if bool_decide (n ∈ env_whitelist) then env_get n p else None
  else (env_apply_whitelist p).1 = Exit 1.
Proof.
  unfold env_apply_whitelist, clearenv. rewrite cmodify_bind.
  pose proof (env_apply_list_spec env_whitelist (set_environ ∅ p) eq_refl) as H.
  simpl envlist in H. simpl env_max_len in H. simpl environ in H.
  destruct (forallb _ (envlist p)).
  - eexists. rewrite (cbind_ok _ _ _ _ _ H). split; [reflexivity|].
    intros n. simpl environ. case_bool_decide as En; [subst; apply lookup_insert_eq|].
    rewrite lookup_insert_ne by done. by apply journal_whitelist.
  - by erewrite cbind_exit by (apply (injective_projections _ (_, _)); [exact H|reflexivity]).
Qed.

(** The environment a helper inherits from env_apply_whitelist_sbox holds no
    variable outside the two whitelists and PATH. *)
Theorem env_apply_whitelist_sbox_safe p p' n v :
  env_apply_whitelist_sbox p = (Ok tt, p') -> environ p' !! n = Some v ->
  n = "PATH" \/ n ∈ env_whitelist ++ env_whitelist_sbox.
Proof.
  unfold env_apply_whitelist_sbox. pose proof (env_apply_whitelist_safe p) as H.
  destruct (forallb _ (envlist p)).
  2: { unfold cbind. destruct (env_apply_whitelist p) as [[] ?]; by simplify_eq/=. }
  destruct H as (e & E & He). rewrite (cbind_ok _ _ _ _ _ E).
  pose proof (env_apply_list_spec env_whitelist_sbox (set_environ e p) eq_refl) as Hl.
  destruct (forallb _ _).
  2: { intros E'. by rewrite E' in Hl. }
  rewrite Hl. intros [= <-] Hv. simpl in Hv.
  destruct (decide (n ∈ env_whitelist ++ env_whitelist_sbox)) as [|Hn]; [by right|].
  rewrite elem_of_app in Hn. left.
  destruct (valid_name n) eqn:En.
  - rewrite journal_lookup, env_get_unlisted in Hv by tauto.
    destruct (mentions n _); [done|]. rewrite He in Hv.
    case_bool_decide; [done|]. rewrite bool_decide_eq_false_2 in Hv by tauto. done.
  - rewrite journal_invalid, He in Hv by done. case_bool_decide; [done|].
    rewrite bool_decide_eq_false_2 in Hv by tauto. done.
Qed.

(** ** The start of main *)

Definition storable (e : string) : bool := string_mem "="%char e.

(** The entry [env_store] makes of an environment string. *)
Definition entry_of (e : string) : Env :=
  match strchr_split "="%char e with
  | Some (n, v) => mk_env n (Some v) SETENV
  | None => mk_env e None RMENV
  end.

Lemma strchr_split_mem c s : string_mem c s = true -> exists l r, strchr_split c s = Some (l, r).
Proof.
  induction s as [|a s IH]; [done|]. simpl. destruct (Ascii.eqb a c); [eauto|].
  intros (l & r & ->)%IH. eauto.
Qed.

Lemma env_store_setenv e p :
  env_store e SETENV p =
  if storable e then (Ok tt, set_envlist (envlist p ++ [entry_of e]) p) else (Exit 1, p).
Proof.
  unfold env_store, storable, entry_of. destruct e as [|c e]; [done|]. simpl nonempty.
  destruct (string_mem _ _) eqn:E; cbn [negb].
  - by destruct (strchr_split_mem _ _ E) as (l & r & ->).
  - by rewrite strchr_split_none.
Qed.

Lemma stash_loop_stop i envp p : env_max_count p <= i -> (stash_loop i envp p) = (Ok i, p).
Proof.
  intros Hi. destruct envp; [done|]. simpl. rewrite cget_bind.
  by rewrite (proj2 (Z.ltb_ge _ _)).
Qed.

Lemma stash_loop_ok i envp p :
  i + Z.of_nat (length envp) <= env_max_count p -> forallb storable envp = true ->
  stash_loop i envp p =
  (Ok (i + Z.of_nat (length envp)), set_envlist (envlist p ++ map entry_of envp) p).
Proof.
  revert i p. induction envp as [|e envp IH]; intros i p Hi Hs.
  - simpl. rewrite Z.add_0_r, app_nil_r. by destruct p.
  - simpl in Hs, Hi. apply andb_true_iff in Hs as [He Hs]. simpl stash_loop.
    rewrite cget_bind. destruct (Z.ltb_spec i (env_max_count p)); [|lia].
    unfold cbind. rewrite env_store_setenv, He, IH by (simpl; first [lia|done]).
    simpl. rewrite <- app_assoc. do 2 f_equal. lia.
Qed.

Lemma stash_loop_bad i envp p :
  forallb storable envp = false ->
  (stash_loop i envp p).1 = Exit 1 \/
  exists i' p', stash_loop i envp p = (Ok i', p') /\ env_max_count p' <= i'.
Proof.
  revert i p. induction envp as [|e envp IH]; intros i p Hs; [done|].
  simpl in *. rewrite cget_bind. destruct (Z.ltb_spec i (env_max_count p)); [|right; eauto].
  unfold cbind. rewrite env_store_setenv. destruct (storable e); [|by left]. by apply IH.
Qed.

Lemma stash_loop_many i envp p :
  env_max_count p <= i + Z.of_nat (length envp) -> forallb storable envp = true ->
  exists i' p', stash_loop i envp p = (Ok i', p') /\ env_max_count p' <= i'.
Proof.
  revert i p. induction envp as [|e envp IH]; intros i p Hi Hs.
  - simpl in *. exists i, p. split; [done|lia].
  - simpl in *. apply andb_true_iff in Hs as [He Hs]. rewrite cget_bind.
    destruct (Z.ltb_spec i (env_max_count p)); [|eauto].
    unfold cbind. rewrite env_store_setenv, He. apply IH; [simpl; lia|done].
Qed.

Definition args_ok (argv : list string) (p : proc) : bool :=
  (Z.of_nat (length argv) <? arg_max_count p) &&
  forallb (fun a => strlen a <? arg_max_len p) argv.

Definition envp_ok (envp : list string) (p : proc) : bool :=
  (Z.of_nat (length envp) <? env_max_count p) && forallb storable envp &&
  forallb (listed_fits (env_max_len p) env_whitelist) (map entry_of envp).

Lemma existsb_leb_ltb (f : string -> Z) k l :
  existsb (fun a => k <=? f a) l = negb (forallb (fun a => f a <? k) l).
Proof.
  induction l as [|a l IH]; [done|]. simpl. rewrite IH, Z.leb_antisym.
  by destruct (f a <? k), (forallb _ l).
Qed.

Lemma stash_environment_args argv envp p :
  stash_environment argv envp p =
  if args_ok argv p
  then cbind (stash_loop 0 envp)
         (fun i => if env_max_count p <=? i then cexit 1 else env_apply_whitelist) p
  else (Exit 1, p).
Proof.
  unfold stash_environment, args_ok. rewrite cget_bind, Z.leb_antisym, existsb_leb_ltb.
  destruct (_ <? _); [|done]. simpl.
  by destruct (forallb (fun a => strlen a <? arg_max_len p) argv).
Qed.

Lemma stash_loop_limits i envp p :
  env_max_count (stash_loop i envp p).2 = env_max_count p.
Proof.
  revert i p. induction envp as [|e envp IH]; intros i p; [done|]. simpl.
  rewrite cget_bind. destruct (_ <? _); [|done].
  unfold cbind. rewrite env_store_setenv. destruct (storable e); [|done]. by rewrite IH.
Qed.

(** The list main saves, and the environment it keeps. *)
Lemma stash_environment_ok argv envp p :
  args_ok argv p = true -> envp_ok envp p = true -> envlist p = [] ->
  exists e, stash_environment argv envp p =
    (Ok tt, set_environ e (set_envlist (map entry_of envp) p)) /\
    forall n, e !! n =
      if bool_decide (n = "PATH") then Some default_path
      else if bool_decide (n ∈ env_whitelist)
           then foldl (env_get_step n) None (map entry_of envp) else None.
Proof.
  intros Ha He Hl. rewrite stash_environment_args, Ha.
  unfold envp_ok in He. apply andb_true_iff in He as [He Hf]. apply andb_true_iff in He as [Hc Hs].
  apply Z.ltb_lt in Hc.
  rewrite (cbind_ok _ _ _ _ _ (stash_loop_ok 0 envp p ltac:(lia) Hs)), Hl. simpl "++".
  rewrite (proj2 (Z.leb_gt _ _)) by lia.
  pose proof (env_apply_whitelist_safe (set_envlist (map entry_of envp) p)) as H.
  change (env_max_len (set_envlist _ p)) with (env_max_len p) in H.
  change (envlist (set_envlist ?l p)) with l in H. rewrite Hf in H. exact H.
Qed.

(** Main goes on exactly when there are fewer arguments and fewer environment
    strings than the limits allow, no argument is too long, every environment
    string holds an equals sign and no whitelisted variable is too long; in all
    other cases it ends with exit code 1 before any profile or option is read. *)
Theorem stash_environment_checks argv envp p :
  envlist p = [] ->
  (stash_environment argv envp p).1 =
  if args_ok argv p && envp_ok envp p then Ok tt else Exit 1.
Proof.
  intros Hl. destruct (args_ok argv p) eqn:Ha.
  2: { rewrite stash_environment_args, Ha. done. }
  destruct (envp_ok envp p) eqn:He.
  { destruct (stash_environment_ok argv envp p Ha He Hl) as (e & -> & _). done. }
  rewrite stash_environment_args, Ha. simpl. unfold envp_ok in He.
  destruct (forallb storable envp) eqn:Hs.
  - destruct (Z.ltb_spec (Z.of_nat (length envp)) (env_max_count p)) as [Hc|Hc].
    + rewrite (cbind_ok _ _ _ _ _ (stash_loop_ok 0 envp p ltac:(lia) Hs)), Hl. simpl "++".
      rewrite (proj2 (Z.leb_gt _ _)) by lia.
      pose proof (env_apply_whitelist_safe (set_envlist (map entry_of envp) p)) as H.
      simpl in He, H. by rewrite He in H.
    + destruct (stash_loop_many 0 envp p) as (i & p' & E & Hi); [lia|done|].
      pose proof (stash_loop_limits 0 envp p) as Hm. rewrite E in Hm. simpl in Hm.
      rewrite (cbind_ok _ _ _ _ _ E), (proj2 (Z.leb_le _ _)) by lia. done.
  - destruct (stash_loop_bad 0 envp p Hs) as [E|(i & p' & E & Hi)].
    + unfold cbind. by destruct (stash_loop 0 envp p) as [[] ?]; simplify_eq/=.
    + pose proof (stash_loop_limits 0 envp p) as Hm. rewrite E in Hm. simpl in Hm.
      rewrite (cbind_ok _ _ _ _ _ E), (proj2 (Z.leb_le _ _)) by lia. done.
Qed.

(** ** From the user's environment to that of the program *)

(** An environment string. *)
Definition env_string (nv : string * string) : string := nv.1 +:+ String "=" nv.2.

Lemma entry_of_string nv :
  valid_name nv.1 = true -> entry_of (env_string nv) = mk_env nv.1 (Some nv.2) SETENV.
Proof.
  intros [_ H%negb_true_iff]%andb_true_iff. unfold entry_of, env_string.
  by rewrite strchr_split_app.
Qed.

Lemma entries_of_strings l :
  forallb (fun nv => valid_name nv.1) l = true ->
  map entry_of (map env_string l) = map (fun nv => mk_env nv.1 (Some nv.2) SETENV) l.
Proof.
  induction l as [|nv l IH]; [done|]. intros [Hv Hl]%andb_true_iff. simpl.
  by rewrite entry_of_string, IH.
Qed.

Lemma env_get_pairs n l :
  NoDup l.*1 ->
  foldl (env_get_step n) None (map (fun nv => mk_env nv.1 (Some nv.2) SETENV) l) =
  (list_to_map l : gmap string string) !! n /\
  mentions n (map (fun nv => mk_env nv.1 (Some nv.2) SETENV) l) =
  bool_decide (is_Some ((list_to_map l : gmap string string) !! n)).
Proof.
  induction l as [|[a v] l IH] using rev_ind.
  { intros _. simpl. rewrite lookup_empty. split; [done|].
    by rewrite bool_decide_eq_false_2 by (intros [? ?]; done). }
  rewrite fmap_app, NoDup_app. intros (Hd & Hx & _). destruct (IH Hd) as [IH1 IH2].
  unfold mentions in *. rewrite map_app, foldl_app, existsb_app, list_to_map_app, IH1, IH2.
  simpl. unfold env_get_step. simpl. rewrite orb_false_r.
  destruct (streq a n) eqn:E.
  - apply streq_eq in E as ->.
    assert ((list_to_map l : gmap string string) !! n = None) as Hn.
    { apply not_elem_of_list_to_map_1. intros Hin. apply (Hx n Hin). set_solver. }
    rewrite lookup_union, Hn. simpl. rewrite lookup_insert_eq. split; [done|].
    symmetry. apply bool_decide_eq_true_2. by exists v.
  - apply streq_neq in E. rewrite lookup_union, lookup_insert_ne, lookup_empty by done.
    rewrite orb_false_r, (right_id_L None (∪)). done.
Qed.

(** The detour through the list changes nothing for the program: when main
    accepts the environment it was started with, the environment env_apply_all
    sets later is the same, but for the hard-coded PATH when the user has none. *)
Theorem environment_roundtrip argv l p :
  NoDup l.*1 -> forallb (fun nv => valid_name nv.1) l = true ->
  args_ok argv p = true -> envp_ok (map env_string l) p = true -> envlist p = [] ->
  exists p1 p2, stash_environment argv (map env_string l) p = (Ok tt, p1) /\
    env_apply_all p1 = (Ok tt, p2) /\
    environ p2 = list_to_map l ∪ {[ "PATH" := default_path ]}.
Proof.
  intros Hd Hv Ha He Hl.
  destruct (stash_environment_ok argv _ p Ha He Hl) as (e & E & Hlook).
  rewrite (entries_of_strings l Hv) in *.
  eexists _, _. split; [exact E|]. split.
  { unfold env_apply_all. rewrite cget_bind. apply env_apply_fold. simpl.
    clear -Hv. induction l as [|nv l IH]; [done|]. apply andb_true_iff in Hv as [Hn Hl].
    simpl. unfold settable at 1. simpl. by rewrite Hn, IH. }
  apply map_eq. intros n. rewrite lookup_union. simpl environ. simpl envlist.
  destruct (env_get_pairs n l Hd) as [Hg Hm].
  assert ((list_to_map l : gmap string string) !! n = None \/ valid_name n = true) as Hn.
  { destruct (_ !! n) eqn:Ei; [|by left]. right.
    apply elem_of_list_to_map_2 in Ei. rewrite forallb_forall in Hv.
    by apply list_elem_of_In, Hv in Ei. }
  assert (forall o, (o : option string) ∪ None = o) as Hu by by intros [].
  assert (e !! n = if bool_decide (n = "PATH") then Some default_path
                   else if bool_decide (n ∈ env_whitelist)
                        then (list_to_map l : gmap string string) !! n else None) as He'.
  { rewrite Hlook. by rewrite Hg. }
  destruct (valid_name n) eqn:Ev.
  - rewrite journal_lookup, Hm, Hg, He' by done.
    destruct (_ !! n) eqn:Ei.
    + rewrite bool_decide_eq_true_2 by eauto. by destruct ({[_ := _]} !! n).
    + rewrite bool_decide_eq_false_2 by (intros [? ?]; done).
      case_bool_decide as Ep; [subst; by rewrite lookup_singleton_eq|].
      rewrite lookup_singleton_ne by done. by case_bool_decide.
  - destruct Hn as [Hn|?]; [|done]. rewrite journal_invalid, He', Hn by done.
    case_bool_decide as Ep; [subst; by rewrite lookup_singleton_eq|].
    rewrite lookup_singleton_ne by done. by case_bool_decide.
Qed.

(** ** Evaluations *)

Definition demo_proc : proc := mk_proc [] {[ "LD_PRELOAD" := "evil.so" ]} 4128 256 4128 128.

Definition demo_envp : list (string * string) :=
  [("LANG", "C"); ("LD_PRELOAD", "evil.so"); ("HOME", "/home/u")].

Lemma env_apply_all_agrees_env_get_witness :
  exists p', env_apply_all (mk_proc [mk_env "A" (Some "1") SETENV; mk_env "A" None RMENV] ∅ 9 9 9 9)
    = (Ok tt, p') /\ environ p' !! "A" = None.
Proof.
  destruct (env_apply_all_agrees_env_get
    (mk_proc [mk_env "A" (Some "1") SETENV; mk_env "A" None RMENV] ∅ 9 9 9 9) "A" eq_refl eq_refl)
    as (p' & E & _ & H).
  exists p'. split; [exact E|]. rewrite H. reflexivity.
Defined.

Definition demo_sbox : proc :=
  mk_proc [mk_env "LD_PRELOAD" (Some "x") SETENV; mk_env "FIREJAIL_QUIET" (Some "yes") SETENV]
    {[ "LD_PRELOAD" := "x" ]} 99 9 9 9.

Lemma env_apply_whitelist_sbox_safe_witness :
  exists p', env_apply_whitelist_sbox demo_sbox = (Ok tt, p') /\
    environ p' !! "LD_PRELOAD" = None /\
    environ p' !! "FIREJAIL_QUIET" = Some "yes" /\
    forall n v, environ p' !! n = Some v -> n = "PATH" \/ n ∈ env_whitelist ++ env_whitelist_sbox.
Proof.
  eexists. split; [reflexivity|]. split; [reflexivity|]. split; [reflexivity|].
  intros n v H. exact (env_apply_whitelist_sbox_safe demo_sbox _ n v eq_refl H).
Defined.

Lemma stash_environment_checks_witness :
  (stash_environment ["firejail"] ["LANG=C"; "oops"] demo_proc).1 = Exit 1.
Proof. rewrite stash_environment_checks; reflexivity. Defined.

Lemma environment_roundtrip_witness :
  exists p1 p2, stash_environment ["firejail"] (map env_string demo_envp) demo_proc = (Ok tt, p1) /\
    environ p1 !! "LD_PRELOAD" = None /\
    env_apply_all p1 = (Ok tt, p2) /\ environ p2 !! "LD_PRELOAD" = Some "evil.so" /\
    environ p2 !! "PATH" = Some default_path.
Proof.
  destruct (environment_roundtrip ["firejail"] demo_envp demo_proc) as (p1 & p2 & E1 & E2 & H).
  - apply (bool_decide_unpack _). vm_compute. exact I.
  - reflexivity.
  - reflexivity.
  - reflexivity.
  - reflexivity.
  - exists p1, p2. split; [exact E1|]. split; [|split; [exact E2|]].
    + injection E1 as <-. reflexivity.
    + rewrite H. split; reflexivity.
Defined.
