(* ===== verification/Text.v ===== *)
(** * Numbers, lines and searches: more of the C library

    printf and scanf of unsigned numbers, the lines fgets(3) returns, and the
    search functions of <string.h> the later components use. *)

From S2P Require Import Prelude.
From S2P Require Import Clib.

(** Optional results in sequence. *)
Notation "x <-? c ;; k" := (mbind (M := option) (fun x => k) c)
  (at level 100, c at next level, right associativity) : cm_scope.
Notation "' x <-? c ;; k" := (mbind (M := option) (fun x => k) c)
  (at level 100, x pattern, c at next level, right associativity) : cm_scope.

(** ** Search *)

(** [strrchr(s, c)]: what follows the last [c]. *)
Fixpoint strrchr_after (c : ascii) (s : string) : option string :=
  match s with
  | EmptyString => None
  | String a s' =>
      match strrchr_after c s' with
      | Some r => Some r
      | None => if Ascii.eqb a c then Some s' else None
      end
  end.

(** [strstr(s, needle)]: the text before the first occurrence, and the text from
    it on. *)
Fixpoint strstr_split (needle s : string) : option (string * string) :=
  if has_prefix needle s then Some (EmptyString, s)
  else match s with
       | EmptyString => None
       | String a s' =>
           match strstr_split needle s' with
           | Some (l, r) => Some (String a l, r)
           | None => None
           end
       end.

Definition contains (needle s : string) : bool :=
  match strstr_split needle s with Some _ => true | None => false end.

(** [strpbrk(s, set)]: the first character of [s] that is in [set]. *)
Fixpoint strpbrk (s set : string) : option ascii :=
  match s with
  | EmptyString => None
  | String a s' => if string_mem a set then Some a else strpbrk s' set
  end.

(** [strsep(&s, d)] until it returns NULL: the fields, empty ones included. *)
Definition strsep (d : ascii) (s : string) : list string := fields d s.

(** [s + n] *)
Fixpoint drop_chars (n : nat) (s : string) : string :=
  match n, s with
  | S n', String _ s' => drop_chars n' s'
  | _, _ => s
  end.

(** The C string at the start of a buffer. *)
Fixpoint c_string (s : string) : string :=
  match s with
  | EmptyString => EmptyString
  | String c s' => if Ascii.eqb c NUL then EmptyString else String c (c_string s')
  end.

Definition newline : ascii := chr 10.

Fixpoint string_forallb (p : ascii -> bool) (s : string) : bool :=
  match s with
  | EmptyString => true
  | String c s' => p c && string_forallb p s'
  end.

Fixpoint string_map (f : ascii -> ascii) (s : string) : string :=
  match s with
  | EmptyString => EmptyString
  | String c s' => String (f c) (string_map f s')
  end.

(** ** fgets *)

(** The chunk under way, with [room] characters left in the buffer, and the
    chunks after it; [size] is the room of a fresh buffer. *)
Fixpoint fgets_go (size room : nat) (s : string) : string * list string :=
  match s with
  | EmptyString => (EmptyString, [])
  | String c s' =>
      if Ascii.eqb c newline || (room <=? 1)%nat then
        let '(x, l) := fgets_go size size s' in
        (String c EmptyString, if nonempty x then x :: l else l)
      else
        let '(x, l) := fgets_go size (room - 1) s' in (String c x, l)
  end.

(** What the calls of [fgets(buf, size, fp)] leave in the buffer until the end of
    a file with the contents [s], NUL characters of the file included. *)
Definition fgets (size : nat) (s : string) : list string :=
  let '(x, l) := fgets_go (size - 1) (size - 1) s in
  if nonempty x then x :: l else l.

(** ** Numbers *)

Definition digit_char (d : Z) : ascii := chr (Z.to_nat (d + 48)).

(** The decimal digits of a number below [10 ^ fuel]. *)
Fixpoint print_digits (fuel : nat) (z : Z) (acc : string) : string :=
  match fuel with
  | O => acc
  | S f =>
      let acc' := String (digit_char (z mod 10)) acc in
      if z / 10 =? 0 then acc' else print_digits f (z / 10) acc'
  end.

(** [printf("%u", z)] and [printf("%d", z)]; twenty digits hold a 64-bit value. *)
Definition print_u (z : Z) : string := print_digits 20 z EmptyString.
Definition print_d (z : Z) : string :=
  if z <? 0 then String "-" (print_u (- z)) else print_u z.

Definition ULONG_MAX : Z := 18446744073709551615.

(** [strtoul] on a sign and digits. *)
Definition to_ulong (sign v : Z) : Z :=
  if ULONG_MAX <? v then ULONG_MAX else u64 (sign * v).

(** The conversion [%u] of scanf: the value stored in an [unsigned int], and the
    input behind it. *)
Definition scan_u (s : string) : option (Z * string) :=
  let '(sign, s1) := read_sign (skip_spaces s) in
  match s1 with
  | String c _ =>
      if isdigit c then
        let '(v, rest) := read_digits 10 0 s1 in Some (u32 (to_ulong sign v), rest)
      else None
  | EmptyString => None
  end.

(** The conversion [%d]: [strtol] on a sign and digits, stored in an [int]. *)
Definition scan_d (s : string) : option (Z * string) :=
  let '(sign, s1) := read_sign (skip_spaces s) in
  match s1 with
  | String c _ =>
      if isdigit c then
        let '(v, rest) := read_digits 10 0 s1 in Some (s32 (clamp LONG_MIN LONG_MAX (sign * v)), rest)
      else None
  | EmptyString => None
  end.

(** An ordinary character of a scanf format. *)
Definition scan_char (c : ascii) (s : string) : option string :=
  match s with
  | String a s' => if Ascii.eqb a c then Some s' else None
  | EmptyString => None
  end.

(** ** Lemmas *)

Lemma contains_spec needle s l r : strstr_split needle s = Some (l, r) -> s = l +:+ r /\ has_prefix needle r = true.
Proof.
  revert l r. induction s as [|a s IH]; intros l r; simpl.
  - destruct (has_prefix needle "") eqn:E; [|done]. by intros [= <- <-].
  - destruct (has_prefix needle (String a s)) eqn:E; [by intros [= <- <-]|].
    destruct (strstr_split needle s) as [[l' r']|]; [|done]. intros [= <- <-].
    destruct (IH l' r') as [-> ?]; done.
Qed.

(** A chunk holds no newline except at its end, and fits the buffer. *)
Definition fgets_chunk (size : nat) (x : string) : Prop :=
  (0 < String.length x <= size)%nat /\
  exists l, (string_mem newline l = false) /\ (x = l \/ x = l +:+ String newline EmptyString).

Lemma concat_cons x l : String.concat "" (x :: l) = x +:+ String.concat "" l.
Proof. destruct l as [|y l]; simpl; [by rewrite append_empty_r|done]. Qed.

Lemma fgets_go_concat size room s :
  let '(x, l) := fgets_go size room s in String.concat "" (x :: l) = s.
Proof.
  pose proof concat_cons as Hc. revert room. induction s as [|c s IH]; intros room; [done|]. cbn [fgets_go].
  destruct (Ascii.eqb c newline || (room <=? 1)%nat).
  - specialize (IH size). destruct (fgets_go size size s) as [x l].
    rewrite Hc in IH. rewrite <- IH.
    destruct x; cbn [nonempty]; rewrite !Hc; done.
  - specialize (IH (room - 1)%nat). destruct (fgets_go size (room - 1) s) as [x l].
    rewrite Hc in *. by rewrite <- IH.
Qed.

(** Nothing of the file is lost between the calls. *)
Lemma fgets_concat size s : String.concat "" (fgets size s) = s.
Proof.
  unfold fgets. pose proof (fgets_go_concat (size - 1) (size - 1) s) as H.
  destruct (fgets_go _ _ s) as [x l]. destruct x; [|done]. simpl in *.
  by destruct l.
Qed.

(** A line and its newline. *)
Definition line (l : string) : string := l +:+ String newline EmptyString.

Definition fgets_line (size : nat) (l : string) : bool :=
  negb (string_mem newline l) && (String.length l + 2 <=? size)%nat.

Lemma fgets_go_line size room l rest :
  string_mem newline l = false -> (String.length l < room)%nat ->
  fgets_go size room (l +:+ String newline rest) =
  (line l, let '(x, ls) := fgets_go size size rest in if nonempty x then x :: ls else ls).
Proof.
  revert room. induction l as [|c l IH]; intros room Hm Hr.
  - change ("" +:+ ?s) with s. cbn [fgets_go]. rewrite Ascii.eqb_refl. cbn [orb].
    by destruct (fgets_go size size rest).
  - cbn [string_mem] in Hm. apply orb_false_iff in Hm as [Hc Hm]. cbn [String.length] in Hr.
    change (String c l +:+ ?s) with (String c (l +:+ s)). cbn [fgets_go].
    rewrite Hc, (proj2 (Nat.leb_gt _ _)) by lia. cbn [orb]. by rewrite IH by (done || lia).
Qed.

(** A file of lines that fit the buffer is read line by line. *)
Lemma fgets_lines size ls :
  forallb (fgets_line size) ls = true ->
  fgets size (String.concat "" (map line ls)) = map line ls.
Proof.
  intros H. unfold fgets. induction ls as [|l ls IH]; [done|].
  cbn [forallb] in H. apply andb_true_iff in H as [Hl Hls]. specialize (IH Hls).
  unfold fgets_line in Hl. apply andb_true_iff in Hl as [Hm%negb_true_iff Hn%Nat.leb_le].
  assert (String.concat "" (map line (l :: ls)) = l +:+ String newline (String.concat "" (map line ls))) as ->.
  { destruct ls as [|l' ls]; [done|].
    change (String.concat "" (map line (l :: l' :: ls)))
      with (line l +:+ "" +:+ String.concat "" (map line (l' :: ls))).
    unfold line at 1. by rewrite append_assoc. }
  rewrite fgets_go_line by (done || lia). rewrite IH. by destruct l.
Qed.

(** ** Printing and reading numbers *)

Lemma digit_char_val d : 0 <= d < 10 ->
  isdigit (digit_char d) = true /\ digit_val (digit_char d) = Some d.
Proof.
  intros Hd. assert (d = 0 \/ d = 1 \/ d = 2 \/ d = 3 \/ d = 4 \/ d = 5 \/ d = 6 \/ d = 7 \/ d = 8 \/ d = 9)
    as H by lia.
  by repeat destruct H as [-> | H]; [..|subst].
Qed.

Lemma is_digit_of_10 c : is_digit_of 10 c = isdigit c.
Proof. destruct c as [[] [] [] [] [] [] [] []]; reflexivity. Qed.

(** What does not continue a number. *)
Definition no_digit (s : string) : bool :=
  match s with String c _ => negb (isdigit c) | EmptyString => true end.

Lemma read_digits_stop acc s : no_digit s = true -> read_digits 10 acc s = (acc, s).
Proof.
  destruct s as [|c s]; [done|]. simpl. rewrite is_digit_of_10. by destruct (isdigit c).
Qed.

Lemma read_digits_digit d acc s : 0 <= d < 10 ->
  read_digits 10 acc (String (digit_char d) s) = read_digits 10 (acc * 10 + d) s.
Proof.
  intros Hd. destruct (digit_char_val d Hd) as [H1 H2].
  simpl. by rewrite is_digit_of_10, H1, H2.
Qed.

(** The weight of [n] digits behind a number. *)
Lemma read_print_digits f z tail acc : 0 <= z < 10 ^ Z.of_nat f -> (0 < f)%nat ->
  exists k, 0 <= k /\ read_digits 10 acc (print_digits f z tail) = read_digits 10 (acc * 10 ^ k + z) tail.
Proof.
  revert z tail acc. induction f as [|f IH]; intros z tail acc Hz Hf; [lia|].
  simpl. pose proof (Z.mod_pos_bound z 10 ltac:(lia)) as Hm.
  pose proof (Z.div_mod z 10 ltac:(lia)) as Hd.
  destruct (Z.eqb_spec (z / 10) 0) as [Hq|Hq].
  - exists 1. split; [lia|]. rewrite read_digits_digit by done. f_equal. lia.
  - assert (0 <= z / 10 < 10 ^ Z.of_nat f) as Hz'.
    { rewrite Nat2Z.inj_succ, Z.pow_succ_r in Hz by lia. split; [apply Z.div_pos; lia|].
      apply Z.div_lt_upper_bound; lia. }
    destruct f as [|f]; [simpl in Hz'; lia|].
    destruct (IH (z / 10) (String (digit_char (z mod 10)) tail) acc Hz' ltac:(lia)) as (k & Hk & ->).
    exists (k + 1). split; [lia|]. rewrite read_digits_digit by done. f_equal.
    rewrite Z.pow_add_r by lia. lia.
Qed.

Lemma print_digits_first f z tail : (0 < f)%nat -> 0 <= z ->
  exists c r, print_digits f z tail = String c r /\ isdigit c = true.
Proof.
  revert z tail. induction f as [|f IH]; intros z tail Hf Hz; [lia|]. simpl.
  pose proof (Z.mod_pos_bound z 10 ltac:(lia)) as Hm.
  destruct (z / 10 =? 0); [eexists _, _; split; [reflexivity|by apply digit_char_val]|].
  destruct f as [|f].
  - eexists _, _. split; [reflexivity|]. by apply digit_char_val.
  - apply IH; [lia|]. apply Z.div_pos; lia.
Qed.

Lemma print_digits_app f z tail s : print_digits f z tail +:+ s = print_digits f z (tail +:+ s).
Proof.
  revert z tail. induction f as [|f IH]; intros z tail; [done|]. simpl.
  destruct (z / 10 =? 0); [done|]. apply IH.
Qed.

Lemma print_u_first z s : 0 <= z -> exists c r, print_u z +:+ s = String c r /\ isdigit c = true.
Proof.
  intros Hz. destruct (print_digits_first 20 z "" ltac:(lia) Hz) as (c & r & E & Hc).
  unfold print_u. rewrite E. eexists c, _. split; [reflexivity|done].
Qed.

Lemma read_print_u z s : 0 <= z <= ULONG_MAX -> no_digit s = true ->
  read_digits 10 0 (print_u z +:+ s) = (z, s).
Proof.
  intros Hz Hs. unfold print_u. rewrite print_digits_app. change ("" +:+ s) with s.
  destruct (read_print_digits 20 z s 0) as (k & _ & ->).
  - unfold ULONG_MAX in Hz. split; [lia|]. apply (Z.le_lt_trans _ 18446744073709551615); [lia|done].
  - lia.
  - rewrite Z.mul_0_l, Z.add_0_l. by apply read_digits_stop.
Qed.

Lemma digit_not_space c : isdigit c = true -> isspace c = false.
Proof.
  unfold isdigit, isspace, in_range. intros [H1 H2]%andb_true_iff.
  apply Nat.leb_le in H1, H2. destruct (Nat.leb_spec 9 (ord c)), (Nat.leb_spec (ord c) 13); simpl; try lia;
    apply Nat.eqb_neq; lia.
Qed.

Lemma digit_neq c a : isdigit c = true -> isdigit a = false -> Ascii.eqb c a = false.
Proof. intros Hc Ha. apply Ascii.eqb_neq. intros ->. congruence. Qed.

Lemma scan_u_digit c s : isdigit c = true ->
  scan_u (String c s) = let '(v, rest) := read_digits 10 0 (String c s) in
                        Some (u32 (to_ulong 1 v), rest).
Proof.
  intros Hc. unfold scan_u. simpl skip_spaces. rewrite digit_not_space by done.
  unfold read_sign. rewrite !(digit_neq c) by done. by rewrite Hc.
Qed.

(** [%u] reads back what [%u] printed. *)
Lemma scan_print_u z s : 0 <= z < 2 ^ 32 -> no_digit s = true ->
  scan_u (print_u z +:+ s) = Some (z, s).
Proof.
  intros Hz Hs. pose proof (read_print_u z s) as H.
  destruct (print_u_first z s) as (c & r & E & Hc); [lia|]. rewrite E in *.
  rewrite scan_u_digit, H by first [done|unfold ULONG_MAX; lia].
  unfold to_ulong. rewrite (proj2 (Z.ltb_ge _ _)) by (unfold ULONG_MAX; lia).
  rewrite Z.mul_1_l, u64_small, u32_small by lia. done.
Qed.

Lemma scan_print_d z s : 0 <= z <= INT_MAX -> no_digit s = true ->
  scan_d (print_u z +:+ s) = Some (z, s).
Proof.
  unfold INT_MAX. intros Hz Hs. pose proof (read_print_u z s) as H.
  destruct (print_u_first z s) as (c & r & E & Hc); [lia|]. rewrite E in *.
  unfold scan_d. cbn [skip_spaces]. rewrite digit_not_space by done.
  unfold read_sign. rewrite !(digit_neq c), Hc, H by first [done|unfold ULONG_MAX; lia].
  unfold clamp, LONG_MIN, LONG_MAX. do 2 f_equal.
  rewrite Z.mul_1_l, Z.min_r, Z.max_r by lia. unfold s32. rewrite Z.mod_small by lia. lia.
Qed.

(** The digits of a number and what follows them. *)
Fixpoint skip_digits (s : string) : string :=
  match s with
  | String c s' => if isdigit c then skip_digits s' else s
  | EmptyString => EmptyString
  end.

Lemma skip_digits_app p s :
  string_forallb isdigit p = true -> no_digit s = true -> skip_digits (p +:+ s) = s.
Proof.
  induction p as [|c p IH]; intros Hp Hs; [by destruct s as [|c s]; [|simpl in *; destruct (isdigit c)]|].
  cbn [string_forallb] in Hp. apply andb_true_iff in Hp as [Hc Hp].
  change (String c p +:+ s) with (String c (p +:+ s)). cbn [skip_digits]. rewrite Hc. by apply IH.
Qed.

Lemma print_digits_forallb p f z acc :
  (forall d, 0 <= d < 10 -> p (digit_char d) = true) -> string_forallb p acc = true ->
  string_forallb p (print_digits f z acc) = true.
Proof.
  intros Hp. revert z acc. induction f as [|f IH]; intros z acc Ha; [done|]. cbn [print_digits].
  cbv zeta. assert (string_forallb p (String (digit_char (z mod 10)) acc) = true) as H.
  { cbn [string_forallb]. by rewrite Hp by (apply Z.mod_pos_bound; lia). }
  destruct (z / 10 =? 0); [done|]. by apply IH.
Qed.

Lemma print_u_digits z : string_forallb isdigit (print_u z) = true.
Proof. apply print_digits_forallb; [|done]. intros d Hd. by apply digit_char_val. Qed.

Lemma string_forallb_no_mem c s : string_forallb (fun a => negb (Ascii.eqb a c)) s = negb (string_mem c s).
Proof. induction s as [|a s IH]; [done|]. simpl. by rewrite IH, negb_orb. Qed.

Lemma print_u_no_mem c z : isdigit c = false -> string_mem c (print_u z) = false.
Proof.
  intros Hc. apply negb_true_iff. rewrite <- string_forallb_no_mem.
  apply print_digits_forallb; [|done]. intros d Hd. apply negb_true_iff, digit_neq; [|done].
  by apply digit_char_val.
Qed.

Lemma c_string_id s : string_mem NUL s = false -> c_string s = s.
Proof.
  induction s as [|c s IH]; [done|]. cbn [string_mem c_string]. intros [-> H]%orb_false_iff.
  by rewrite IH.
Qed.

Lemma strlen_app a b : strlen (a +:+ b) = strlen a + strlen b.
Proof.
  unfold strlen. induction a as [|c a IH]; [done|].
  change (Z.of_nat (S (String.length (a +:+ b))) = Z.of_nat (S (String.length a)) + Z.of_nat (String.length b)).
  lia.
Qed.

Lemma strlen_cons c s : strlen (String c s) = 1 + strlen s.
Proof. unfold strlen. simpl String.length. lia. Qed.

Lemma length_string_app a b : String.length (a +:+ b) = (String.length a + String.length b)%nat.
Proof. induction a as [|c a IH]; [done|]. simpl. by rewrite <- IH. Qed.

#[export] Hint Rewrite strlen_app strlen_cons length_string_app append_assoc : clib.
