(* ===== verification/Common.v ===== *)
(** * Shared helpers (src/include/common.h, src/lib/common.c)

    Addresses, masks, control characters in text that is printed, characters
    rejected in file names, integer lists, and the text of /proc/<pid>/comm and
    /proc/<pid>/cmdline.  An [int] result with an out parameter is an [option]:
    [None] when the function returns an error. *)

From S2P Require Import Prelude.
From S2P Require Import Clib.
From S2P Require Import Text.

(** ** Addresses (common.h) *)

(** The loop of [mask2bits]: [tmp] walks from the top bit down. *)
Fixpoint mask2bits_loop (fuel : nat) (tmp mask rv : Z) : Z :=
  match fuel with
  | O => rv
  | S f => if Z.land tmp mask =? 0 then rv
           else mask2bits_loop f (Z.shiftr tmp 1) mask (u8 (rv + 1))
  end.

Definition mask2bits (mask : Z) : Z := mask2bits_loop 32 0x80000000 mask 0.

(** [sscanf(str, "%u.%u.%u.%u", ...)] and what follows the fourth number. *)
Definition scan_dotted (str : string) : option (Z * Z * Z * Z * string) :=
  '(a, s) <-? scan_u str ;; s <-? scan_char "."%char s ;;
  '(b, s) <-? scan_u s ;; s <-? scan_char "."%char s ;;
  '(c, s) <-? scan_u s ;; s <-? scan_char "."%char s ;;
  '(d, s) <-? scan_u s ;; Some (a, b, c, d, s).

Definition ip_of_bytes (a b c d : Z) : Z :=
  u32 (a * 0x1000000 + b * 0x10000 + c * 0x100 + d).

Definition atoip (str : string) : option Z :=
  '(a, b, c, d, _) <-? scan_dotted str ;;
  if (255 <? a) || (255 <? b) || (255 <? c) || (255 <? d) then None
  else Some (ip_of_bytes a b c d).

(** The loop of [atocidr] that sets the [e] top bits. *)
Fixpoint prefix_mask (e : nat) (tmp mask : Z) : Z :=
  match e with
  | O => mask
  | S e' => prefix_mask e' (Z.shiftr tmp 1) (Z.lor mask tmp)
  end.

Definition atocidr (str : string) : option (Z * Z) :=
  '(a, b, c, d, s) <-? scan_dotted str ;;
  s <-? scan_char "/"%char s ;;
  '(e, _) <-? scan_u s ;;
  if (255 <? a) || (255 <? b) || (255 <? c) || (255 <? d) || (32 <? e) then None
  else Some (ip_of_bytes a b c d, prefix_mask (Z.to_nat e) 0x80000000 0).

(** [~mask] of a 32-bit value. *)
Definition not32 (z : Z) : Z := Z.lxor z 0xFFFFFFFF.

(** The message of an error, [None] when the address can be used. *)
Definition in_netrange (ip ifip ifmask : Z) : option string :=
  if negb (Z.land ip ifmask =? Z.land ifip ifmask)
  then Some "Error: the IP address is not in the interface range"
  else if Z.land ip ifmask =? ip
  then Some "Error: the IP address is a network address"
  else if Z.lor ip (not32 ifmask) =? ip
  then Some "Error: the IP address is a network address"
  else None.

(** [printf("%d.%d.%d.%d", PRINT_IP(ip))] *)
Definition PRINT_IP (ip : Z) : string :=
  print_d (Z.land (Z.shiftr ip 24) 0xFF) +:+ "." +:+ print_d (Z.land (Z.shiftr ip 16) 0xFF)
  +:+ "." +:+ print_d (Z.land (Z.shiftr ip 8) 0xFF) +:+ "." +:+ print_d (Z.land ip 0xFF).

(** The conversion [%2x]: white space, then at most two characters that form a
    hexadecimal number; a sign and the prefix 0x count as characters. *)
Definition scan_x2 (s : string) : option (Z * string) :=
  match skip_spaces s with
  | String c1 s1 =>
      if is_digit_of 16 c1 then
        let v1 := default 0 (digit_val c1) in
        match s1 with
        | String c2 s2 =>
            if is_digit_of 16 c2 then Some (v1 * 16 + default 0 (digit_val c2), s2)
            else if Ascii.eqb c1 "0"%char && (Ascii.eqb c2 "x"%char || Ascii.eqb c2 "X"%char) then None
            else Some (v1, s1)
        | EmptyString => Some (v1, s1)
        end
      else
        let '(sign, s2) := read_sign (String c1 s1) in
        match s2 with
        | String c2 s3 =>
            if (Ascii.eqb c1 "-"%char || Ascii.eqb c1 "+"%char) && is_digit_of 16 c2
            then Some (u32 (sign * default 0 (digit_val c2)), s3) else None
        | EmptyString => None
        end
  | EmptyString => None
  end.

(** [sscanf(str, "%2x:%2x:%2x:%2x:%2x:%2x", ...)]: [n] more numbers. *)
Fixpoint scan_mac (n : nat) (s : string) : option (list Z) :=
  match n with
  | O => Some []
  | S n' =>
      '(v, s1) <-? scan_x2 s ;;
      match n' with
      | O => Some [v]
      | S _ => s2 <-? scan_char ":"%char s1 ;; vs <-? scan_mac n' s2 ;; Some (v :: vs)
      end
  end.

Definition atomac (str : string) : option (list Z) :=
  mac <-? scan_mac 6 str ;;
  if existsb (fun v => 0xff <? v) mac then None else Some (map u8 mac).

Definition mac_not_zero (mac : list Z) : bool := existsb (fun b => negb (b =? 0)) mac.

(** [printf("%02x:%02x:...", PRINT_MAC(mac))] *)
Definition hex_char (d : Z) : ascii := if d <? 10 then chr (Z.to_nat (d + 48)) else chr (Z.to_nat (d + 87)).
Definition print_x2 (b : Z) : string := String (hex_char (b / 16)) (String (hex_char (b mod 16)) EmptyString).
Definition PRINT_MAC (mac : list Z) : string := String.concat ":" (map (fun b => print_x2 (Z.land b 0xff)) mac).

(** ** File names and control characters (common.c) *)

Definition gnu_basename (path : string) : string := default path (strrchr_after "/"%char path).

Definition do_replace_cntrl_chars (str : string) (c : ascii) : string :=
  string_map (fun a => if iscntrl a then c else a) str.

Definition replace_cntrl_chars (str : string) (c : ascii) : string := do_replace_cntrl_chars str c.

(** The characters the first loop of [escape_cntrl_chars] counts. *)
Definition escape_counted (c : ascii) : bool :=
  existsb (Ascii.eqb c) (map chr [8; 7; 27; 12; 10; 13; 9; 11; 34; 39; 63; 92]%nat).

Fixpoint count_escapes (s : string) : Z :=
  match s with
  | EmptyString => 0
  | String c s' => (if escape_counted c then 1 else 0) + count_escapes s'
  end.

(** The letter of the inner switch, if there is one. *)
Definition escape_letter (c : ascii) : string :=
  let n := ord c in
  let one a := String a EmptyString in
  if (n =? 8)%nat then one "b"%char
  else if (n =? 7)%nat then one "a"%char
  else if (n =? 27)%nat then one "e"%char
  else if (n =? 12)%nat then one "f"%char
  else if (n =? 10)%nat then one "n"%char
  else if (n =? 13)%nat then one "r"%char
  else if (n =? 9)%nat then one "t"%char
  else if (n =? 11)%nat then one "v"%char
  else if (n =? 34)%nat then one (chr 34)
  else if (n =? 39)%nat then one "'"%char
  else if (n =? 63)%nat then one "?"%char
  else if (n =? 92)%nat then one "\"%char
  else EmptyString.

Definition escape_char (c : ascii) : string :=
  if iscntrl c then String "\"%char (escape_letter c) else String c EmptyString.

(** The second loop, with [room] bytes left in the buffer; [None] when a store
    falls outside. *)
Fixpoint escape_loop (room : Z) (s : string) : option string :=
  match s with
  | EmptyString => if 1 <=? room then Some EmptyString else None
  | String c s' =>
      let out := escape_char c in
      if strlen out <=? room then
        match escape_loop (room - strlen out) s' with
        | Some r => Some (out +:+ r)
        | None => None
        end
      else None
  end.

Definition escape_cntrl_chars (str : string) : option string :=
  escape_loop (strlen str + count_escapes str + 1) str.

Fixpoint has_cntrl_chars (str : string) : bool :=
  match str with
  | EmptyString => false
  | String c s => iscntrl c || has_cntrl_chars s
  end.

Definition reject_cntrl_chars (fname : string) : outcome unit :=
  if has_cntrl_chars fname then Exit 1 else Ok tt.

Definition METACHARS : string := "!" +:+ String (chr 34) "#$%&',;<>\^`{|}".
Definition GLOBCHARS : string := "*?[]".

Definition reject_meta_chars (fname : string) (globbing : bool) : outcome unit :=
  obind (reject_cntrl_chars fname) (fun _ =>
    let reject := if globbing then METACHARS else METACHARS +:+ GLOBCHARS in
    match strpbrk fname reject with
    | Some _ => Exit 1
    | None => Ok tt
    end).

(** ** Integer lists *)

(** The loop of [str_to_int_array]: the array has [arr_sz] elements, of which
    the first are [rv].  [Some None] is the error return, [None] a store outside
    the array. *)
Fixpoint int_array_loop (toks : list string) (arr_sz : Z) (rv : list Z) : option (option (list Z)) :=
  match toks with
  | [] => Some (Some rv)
  | tok :: toks' =>
      let '(val, rest) := strtol 10 tok in
      if streq rest tok || nonempty rest || (val <? INT_MIN) || (INT_MAX <? val) then Some None
      else
        let curr_sz := Z.of_nat (length rv) in
        let arr_sz := if curr_sz =? arr_sz then arr_sz * 2 else arr_sz in
        if curr_sz <? arr_sz then int_array_loop toks' arr_sz (rv ++ [val]) else None
  end.

Definition str_to_int_array (str : string) : option (option (list Z)) :=
  match strtok ","%char str with
  | [] => Some None
  | toks => int_array_loop toks 16 []
  end.

(** ** /proc

    The argument is what read(2) returned, [None] when the file cannot be opened
    or nothing is read; at most [BUFLEN - 1] bytes are read. *)

Definition BUFLEN : Z := 4096.

Definition pid_proc_comm (buffer : option string) : option string :=
  b <-? buffer ;;
  let rv := c_string b in
  let rv := match strchr_split newline rv with Some (l, _) => l | None => rv end in
  if nonempty rv then Some rv else None.

Definition pid_proc_cmdline (buffer : option string) : option string :=
  b <-? buffer ;;
  let rv := string_map (fun c => if Ascii.eqb c NUL then " "%char else c) b in
  if nonempty rv then Some rv else None.

(** The text behind the first NUL, where the next argument starts; [None] at
    the end of the data ([i >= len]). *)
Fixpoint next_arg (s : string) : option string :=
  match s with
  | EmptyString => None
  | String c s' => if Ascii.eqb c NUL then (if nonempty s' then Some s' else None) else next_arg s'
  end.

(** The loop over the options; an iteration consumes at least one character. *)
Fixpoint x11_loop (fuel : nat) (rest : option string) : outcome bool :=
  match fuel with
  | O => NoFuel
  | S f =>
      match rest with
      | None => Ok false
      | Some s =>
          let arg := c_string s in
          if streq arg "--" then Ok false
          else if negb (has_prefix "--" arg) then Ok false
          else if streq arg "--x11=xorg" || streq arg "--x11=none" then Ok false
          else if has_prefix "--x11" arg then Ok true
          else x11_loop f (next_arg s)
      end
  end.

Definition pid_proc_cmdline_x11_xpra_xephyr (comm cmdline : option string) : outcome bool :=
  match pid_proc_comm comm with
  | None => Ok false
  | Some name =>
      if negb (streq name "firejail") then Ok false
      else match cmdline with
           | None => Ok false
           | Some buffer => x11_loop (S (String.length buffer)) (next_arg buffer)
           end
  end.

(** /proc/mounts as the buffers fgets fills; [None] when it cannot be opened. *)
Definition pid_hidepid (mounts : option (list string)) : bool :=
  match mounts with
  | None => true
  | Some bufs =>
      match List.find (contains "proc /proc proc") bufs with
      | Some buf => contains "hidepid=" buf
      | None => false
      end
  end.

(** The entries of /proc: name, what reading comm returned, and what fgets
    returned for the name file of the sandbox. *)
Record proc_entry := mk_entry { d_name : string; comm : option string; name_buf : option string }.

(** [pid_t newpid = strtol(...)] *)
Fixpoint name2pid (parent : Z) (name : string) (entries : list proc_entry) : option Z :=
  match entries with
  | [] => None
  | e :: entries' =>
      let '(v, rest) := strtol 10 (d_name e) in
      let newpid := s32 v in
      if streq rest (d_name e) || nonempty rest then name2pid parent name entries'
      else if newpid =? parent then name2pid parent name entries'
      else if match pid_proc_comm (comm e) with Some c => negb (streq c "firejail") | None => false end
      then name2pid parent name entries'
      else match name_buf e with
           | None => name2pid parent name entries'
           | Some buf =>
               match strchr_split newline buf with
               | Some (l, _) => if streq l name then Some newpid else name2pid parent name entries'
               | None => name2pid parent name entries'
               end
           end
  end.

(** * Theorems about the shared helpers (common.h, common.c) *)

(** ** Dotted addresses *)

Lemma land_ff z : Z.land z 0xFF = z mod 256.
Proof. change 0xFF with (Z.ones 8). by rewrite Z.land_ones. Qed.

Lemma print_d_nonneg z : 0 <= z -> print_d z = print_u z.
Proof. intros Hz. unfold print_d. by rewrite (proj2 (Z.ltb_ge _ _)). Qed.

(** The four bytes of an address. *)
Lemma PRINT_IP_bytes ip : 0 <= ip < 2 ^ 32 ->
  exists a b c d, ip = a * 0x1000000 + b * 0x10000 + c * 0x100 + d /\
    0 <= a < 256 /\ 0 <= b < 256 /\ 0 <= c < 256 /\ 0 <= d < 256 /\
    PRINT_IP ip = print_u a +:+ "." +:+ print_u b +:+ "." +:+ print_u c +:+ "." +:+ print_u d.
Proof.
  intros Hip. exists (ip / 2 ^ 24 mod 256), (ip / 2 ^ 16 mod 256), (ip / 2 ^ 8 mod 256), (ip mod 256).
  repeat split; try (apply Z.mod_pos_bound; lia).
  - assert (ip / 2 ^ 24 < 256) by (apply Z.div_lt_upper_bound; lia).
    assert (0 <= ip / 2 ^ 24) by (apply Z.div_pos; lia).
    rewrite (Z.mod_small (ip / 2 ^ 24)) by lia.
    pose proof (Z.div_mod ip (2 ^ 8) ltac:(lia)) as H1.
    pose proof (Z.div_mod (ip / 2 ^ 8) (2 ^ 8) ltac:(lia)) as H2.
    pose proof (Z.div_mod (ip / 2 ^ 16) (2 ^ 8) ltac:(lia)) as H3.
    rewrite Z.div_div in H2, H3 by lia.
    change (2 ^ 8 * 2 ^ 8) with (2 ^ 16) in *. change (2 ^ 16 * 2 ^ 8) with (2 ^ 24) in *.
    change (2 ^ 8) with 256 in *. lia.
  - unfold PRINT_IP. rewrite !land_ff, !Z.shiftr_div_pow2 by lia.
    rewrite !print_d_nonneg by (apply Z.mod_pos_bound; lia). done.
Qed.

Lemma scan_char_app c s : scan_char c (String c "" +:+ s) = Some s.
Proof. simpl. by rewrite Ascii.eqb_refl. Qed.

(** One number and the separator behind it. *)
Lemma scan_print_sep z c s (k : Z * string -> option (Z * Z * Z * Z * string)) :
  0 <= z < 256 -> isdigit c = false ->
  ('(v, r) <-? scan_u (print_u z +:+ (String c "" +:+ s)) ;;
   r <-? scan_char c r ;; k (v, r)) = k (z, s).
Proof.
  intros Hz Hc. rewrite scan_print_u by (lia || (simpl; by rewrite Hc)).
  cbn [mbind option_bind]. by rewrite scan_char_app.
Qed.

Lemma scan_print_dotted a b c d tail :
  0 <= a < 256 -> 0 <= b < 256 -> 0 <= c < 256 -> 0 <= d < 256 -> no_digit tail = true ->
  scan_dotted ((print_u a +:+ "." +:+ print_u b +:+ "." +:+ print_u c +:+ "." +:+ print_u d) +:+ tail) =
  Some (a, b, c, d, tail).
Proof.
  intros Ha Hb Hc Hd Ht. unfold scan_dotted. rewrite !append_assoc.
  rewrite (scan_print_sep a "."%char _ (fun '(a, s) =>
    '(b, s) <-? scan_u s ;; s <-? scan_char "."%char s ;;
    '(c, s) <-? scan_u s ;; s <-? scan_char "."%char s ;;
    '(d, s) <-? scan_u s ;; Some (a, b, c, d, s))) by done.
  rewrite (scan_print_sep b "."%char _ (fun '(b, s) =>
    '(c, s) <-? scan_u s ;; s <-? scan_char "."%char s ;;
    '(d, s) <-? scan_u s ;; Some (a, b, c, d, s))) by done.
  rewrite (scan_print_sep c "."%char _ (fun '(c, s) =>
    '(d, s) <-? scan_u s ;; Some (a, b, c, d, s))) by done.
  rewrite (scan_print_u d) by (done || lia). done.
Qed.

(** Reading back a printed address gives the address, for every address and
    whatever text follows it. *)
Theorem atoip_roundtrip ip tail :
  0 <= ip < 2 ^ 32 -> no_digit tail = true -> atoip (PRINT_IP ip +:+ tail) = Some ip.
Proof.
  intros Hip Ht. destruct (PRINT_IP_bytes ip Hip) as (a & b & c & d & E & Ha & Hb & Hc & Hd & ->).
  unfold atoip. rewrite scan_print_dotted by done. cbn [mbind option_bind].
  rewrite !(proj2 (Z.ltb_ge 255 _)) by lia. cbn [orb]. unfold ip_of_bytes.
  rewrite <- E. by rewrite u32_small.
Qed.

(** ** Masks *)

(** The mask of a prefix length. *)
Definition prefix (e : Z) : Z := 2 ^ 32 - 2 ^ (32 - e).

Lemma prefix_cases (P : Z -> Prop) :
  (forall n, (n <= 32)%nat -> P (Z.of_nat n)) -> forall e, 0 <= e <= 32 -> P e.
Proof. intros H e He. rewrite <- (Z2Nat.id e) by lia. apply H. lia. Qed.

Lemma below_33 (p : nat -> bool) n : forallb p (seq 0 33) = true -> (n <= 32)%nat -> p n = true.
Proof. intros H Hn. rewrite forallb_forall in H. apply H, in_seq. lia. Qed.

Lemma prefix_mask_prefix e : 0 <= e <= 32 -> prefix_mask (Z.to_nat e) 0x80000000 0 = prefix e.
Proof.
  revert e. apply prefix_cases. intros n Hn. apply Z.eqb_eq.
  apply (below_33 (fun n => prefix_mask (Z.to_nat (Z.of_nat n)) 0x80000000 0 =? prefix (Z.of_nat n)));
    [by vm_compute|done].
Qed.

Lemma mask2bits_prefix e : 0 <= e <= 32 -> mask2bits (prefix e) = e.
Proof.
  revert e. apply prefix_cases. intros n Hn. apply Z.eqb_eq.
  apply (below_33 (fun n => mask2bits (prefix (Z.of_nat n)) =? Z.of_nat n)); [by vm_compute|done].
Qed.

(** A printed network in CIDR notation is read back as its address and the
    mask with the given number of leading ones, and mask2bits recovers that
    number. *)
Theorem atocidr_roundtrip ip e tail :
  0 <= ip < 2 ^ 32 -> 0 <= e <= 32 -> no_digit tail = true ->
  atocidr (PRINT_IP ip +:+ String "/" (print_u e +:+ tail)) = Some (ip, prefix e) /\
  mask2bits (prefix e) = e.
Proof.
  intros Hip He Ht. split; [|by apply mask2bits_prefix].
  destruct (PRINT_IP_bytes ip Hip) as (a & b & c & d & E & Ha & Hb & Hc & Hd & ->).
  unfold atocidr. rewrite scan_print_dotted by done. cbn [mbind option_bind scan_char].
  rewrite Ascii.eqb_refl. cbn [mbind option_bind].
  rewrite (scan_print_u e) by (done || lia). cbn [mbind option_bind].
  rewrite !(proj2 (Z.ltb_ge 255 _)) by lia. rewrite (proj2 (Z.ltb_ge 32 e)) by lia. cbn [orb].
  unfold ip_of_bytes. rewrite <- E, u32_small by done. by rewrite prefix_mask_prefix.
Qed.

(** The loop counts the leading ones: bit [i] is the one tested next. *)
Lemma mask2bits_loop_spec fuel mask rv :
  (fuel <= 32)%nat -> rv = 32 - Z.of_nat fuel ->
  (forall j, 32 - rv <= j < 32 -> Z.testbit mask j = true) ->
  let k := mask2bits_loop fuel (2 ^ (Z.of_nat fuel - 1)) mask rv in
  rv <= k <= 32 /\ (forall j, 32 - k <= j < 32 -> Z.testbit mask j = true) /\
  (k < 32 -> Z.testbit mask (31 - k) = false).
Proof.
  revert rv. induction fuel as [|fuel IH]; intros rv Hf Hrv Hj; cbn zeta; cbn [mask2bits_loop].
  { split; [lia|]. split; [done|lia]. }
  replace (Z.of_nat (S fuel) - 1) with (Z.of_nat fuel) by lia.
  rewrite land_pow2_zero by lia. destruct (Z.testbit mask (Z.of_nat fuel)) eqn:E; cbn [negb].
  - rewrite u8_small by lia.
    assert (2 ^ Z.of_nat fuel = 2 ^ Z.of_nat fuel) as _ by done.
    destruct (IH (rv + 1)) as (H1 & H2 & H3); [lia|lia| |].
    { intros j Hj'. destruct (decide (j = Z.of_nat fuel)) as [->|]; [done|]. apply Hj. lia. }
    destruct fuel as [|fuel].
    + cbn [mask2bits_loop] in *. split; [lia|]. done.
    + replace (Z.shiftr (2 ^ Z.of_nat (S fuel)) 1) with (2 ^ (Z.of_nat (S fuel) - 1)).
      * split; [lia|]. done.
      * rewrite Z.shiftr_div_pow2 by lia. rewrite Z.pow_sub_r by lia. done.
  - split; [lia|]. split; [exact Hj|]. intros _. by replace (31 - rv) with (Z.of_nat fuel) by lia.
Qed.

(** Mask2bits is the number of leading ones of any 32-bit value. *)
Theorem mask2bits_leading_ones mask :
  0 <= mask2bits mask <= 32 /\
  (forall j, 32 - mask2bits mask <= j < 32 -> Z.testbit mask j = true) /\
  (mask2bits mask < 32 -> Z.testbit mask (31 - mask2bits mask) = false).
Proof.
  apply (mask2bits_loop_spec 32 mask 0); [lia|done|]. intros j Hj. lia.
Qed.

(** ** Interface ranges *)

Lemma land_prefix z e : 0 <= z < 2 ^ 32 -> 0 <= e <= 32 ->
  Z.land z (prefix e) = z / 2 ^ (32 - e) * 2 ^ (32 - e).
Proof.
  intros Hz He. apply Z.bits_inj'. intros n Hn.
  rewrite Z.land_spec, Z.mul_pow2_bits by lia.
  assert (prefix e = Z.shiftl (Z.ones e) (32 - e)) as ->.
  { unfold prefix. rewrite Z.shiftl_mul_pow2, Z.ones_equiv by lia.
    rewrite <- Z.sub_1_r, Z.mul_sub_distr_r, <- Z.pow_add_r by lia.
    replace (e + (32 - e)) with 32 by lia. lia. }
  rewrite Z.shiftl_spec by lia.
  destruct (decide (n < 32 - e)) as [Hl|Hl].
  - rewrite !(Z.testbit_neg_r _ (n - (32 - e))) by lia. by rewrite andb_false_r.
  - rewrite Z.div_pow2_bits by lia. replace (n - (32 - e) + (32 - e)) with n by lia.
    destruct (decide (n < 32)) as [H32|H32].
    + by rewrite Z.ones_spec_low, andb_true_r by lia.
    + rewrite Z.ones_spec_high by lia. rewrite andb_false_r.
      destruct (decide (z = 0)) as [->|Hnz]; [by rewrite Z.testbit_0_l|].
      symmetry. apply Z.bits_above_log2; [lia|]. apply Z.log2_lt_pow2; [lia|].
      apply (Z.lt_le_trans _ (2 ^ 32)); [lia|]. apply Z.pow_le_mono_r; lia.
Qed.

Lemma lor_not_prefix z e : 0 <= z < 2 ^ 32 -> 0 <= e <= 32 ->
  Z.lor z (not32 (prefix e)) = z / 2 ^ (32 - e) * 2 ^ (32 - e) + (2 ^ (32 - e) - 1).
Proof.
  intros Hz He. rewrite <- land_prefix by done.
  assert (not32 (prefix e) = Z.ones (32 - e)) as ->.
  { revert e He. apply prefix_cases. intros n Hn. apply Z.eqb_eq.
    apply (below_33 (fun n => not32 (prefix (Z.of_nat n)) =? Z.ones (32 - Z.of_nat n)));
      [by vm_compute|done]. }
  assert (Z.land (Z.land z (prefix e)) (Z.ones (32 - e)) = 0) as Hd.
  { apply Z.bits_inj'. intros n Hn. rewrite Z.land_spec, land_prefix, Z.testbit_0_l by done.
    destruct (decide (n < 32 - e)) as [Hl|Hl].
    - rewrite Z.mul_pow2_bits_low by lia. done.
    - rewrite Z.ones_spec_high by lia. by rewrite andb_false_r. }
  rewrite Z.sub_1_r, <- Z.ones_equiv, Z.add_nocarry_lor by done.
  rewrite land_prefix by done. apply Z.bits_inj'. intros n Hn. rewrite !Z.lor_spec.
  destruct (decide (n < 32 - e)) as [Hl|Hl].
  - rewrite Z.ones_spec_low by lia. by rewrite !orb_true_r.
  - rewrite Z.mul_pow2_bits, Z.div_pow2_bits by lia. by replace (n - (32 - e) + (32 - e)) with n by lia.
Qed.

(** In_netrange accepts an address exactly when it lies in the network of the
    interface and its host part is neither all zeros nor all ones. *)
Theorem in_netrange_spec ip ifip e :
  0 <= ip < 2 ^ 32 -> 0 <= ifip < 2 ^ 32 -> 0 <= e <= 32 ->
  in_netrange ip ifip (prefix e) = None <->
  ip / 2 ^ (32 - e) = ifip / 2 ^ (32 - e) /\
  0 < ip mod 2 ^ (32 - e) < 2 ^ (32 - e) - 1.
Proof.
  intros Hip Hif He. unfold in_netrange.
  rewrite lor_not_prefix, !land_prefix by done.
  pose proof (Z.pow_pos_nonneg 2 (32 - e) ltac:(lia) ltac:(lia)) as Hp.
  pose proof (Z.div_mod ip (2 ^ (32 - e)) ltac:(lia)) as Hd.
  pose proof (Z.mod_pos_bound ip (2 ^ (32 - e)) Hp) as Hm.
  destruct (Z.eqb_spec (ip / 2 ^ (32 - e) * 2 ^ (32 - e)) (ifip / 2 ^ (32 - e) * 2 ^ (32 - e))) as [E1|E1];
    cbn [negb].
  2: { split; [done|]. intros [E _]. by rewrite E in E1. }
  apply Z.mul_cancel_r in E1; [|lia].
  destruct (Z.eqb_spec (ip / 2 ^ (32 - e) * 2 ^ (32 - e)) ip); [split; [done|lia]|].
  destruct (Z.eqb_spec (ip / 2 ^ (32 - e) * 2 ^ (32 - e) + (2 ^ (32 - e) - 1)) ip); [split; [done|lia]|].
  split; [|done]. intros _. split; [done|lia].
Qed.

(** ** Hardware addresses *)

Lemma below_16 (p : Z -> bool) d :
  forallb (fun n => p (Z.of_nat n)) (seq 0 16) = true -> 0 <= d < 16 -> p d = true.
Proof.
  intros H Hd. rewrite forallb_forall in H. rewrite <- (Z2Nat.id d) by lia.
  apply H, in_seq. lia.
Qed.

Lemma hex_char_props d : 0 <= d < 16 ->
  isspace (hex_char d) = false /\ is_digit_of 16 (hex_char d) = true /\
  digit_val (hex_char d) = Some d.
Proof.
  intros Hd.
  pose proof (below_16 (fun d => negb (isspace (hex_char d)) && is_digit_of 16 (hex_char d) &&
    match digit_val (hex_char d) with Some v => v =? d | None => false end) d
    ltac:(by vm_compute) Hd) as H. cbn beta in H.
  apply andb_true_iff in H as [[H1%negb_true_iff H2]%andb_true_iff H3].
  destruct (digit_val (hex_char d)) as [v|]; [|done]. by apply Z.eqb_eq in H3 as ->.
Qed.

Lemma scan_print_x2 b s : 0 <= b < 256 -> scan_x2 (print_x2 b +:+ s) = Some (b, s).
Proof.
  intros Hb.
  assert (0 <= b / 16 < 16) as H1 by (split; [apply Z.div_pos|apply Z.div_lt_upper_bound]; lia).
  pose proof (Z.mod_pos_bound b 16 ltac:(lia)) as H2.
  pose proof (Z.div_mod b 16 ltac:(lia)) as H3.
  destruct (hex_char_props _ H1) as (A1 & A2 & A3), (hex_char_props _ H2) as (B1 & B2 & B3).
  change (print_x2 b +:+ s) with (String (hex_char (b / 16)) (String (hex_char (b mod 16)) s)).
  unfold scan_x2. cbn [skip_spaces]. rewrite A1, A2, A3, B2, B3. cbn [default].
  unfold id. replace (b / 16 * 16 + b mod 16) with b by lia. done.
Qed.

Lemma scan_print_mac n mac tail :
  length mac = S n -> Forall (fun b => 0 <= b < 256) mac ->
  scan_mac (S n) (PRINT_MAC mac +:+ tail) = Some mac.
Proof.
  revert mac. induction n as [|n IH]; intros mac Hl HF.
  - destruct mac as [|b [|]]; try done. inversion HF; subst.
    cbn [scan_mac]. unfold PRINT_MAC. change (String.concat ":" [?x]) with x.
    cbn [map]. change (String.concat ":" [print_x2 (Z.land b 255)]) with (print_x2 (Z.land b 255)).
    rewrite land_ff, Z.mod_small by done. rewrite scan_print_x2 by done. done.
  - destruct mac as [|b mac]; [done|]. inversion HF as [|? ? Hb HF']; subst.
    injection Hl as Hl. destruct mac as [|b' mac]; [done|].
    change (PRINT_MAC (b :: b' :: mac)) with
      (print_x2 (Z.land b 255) +:+ ":" +:+ PRINT_MAC (b' :: mac)).
    rewrite land_ff, Z.mod_small, !append_assoc by done.
    change (scan_mac (S (S n)) ?s) with
      ('(v, s1) <-? scan_x2 s ;; s2 <-? scan_char ":"%char s1 ;;
       vs <-? scan_mac (S n) s2 ;; Some (v :: vs)).
    rewrite scan_print_x2 by done. cbn [mbind option_bind]. rewrite scan_char_app.
    cbn [mbind option_bind]. by rewrite IH.
Qed.

(** A printed hardware address is read back byte for byte. *)
Theorem atomac_roundtrip mac tail :
  length mac = 6%nat -> Forall (fun b => 0 <= b < 256) mac ->
  atomac (PRINT_MAC mac +:+ tail) = Some mac.
Proof.
  intros Hl HF. unfold atomac. rewrite (scan_print_mac 5) by done. cbn [mbind option_bind].
  assert (existsb (fun v => 0xff <? v) mac = false) as ->.
  { apply not_true_is_false. intros (x & Hin & Hx%Z.ltb_lt)%existsb_exists.
    rewrite List.Forall_forall in HF. specialize (HF x Hin). lia. }
  f_equal. clear Hl. induction HF as [|b mac Hb HF IH]; [done|]. simpl.
  by rewrite IH, u8_small.
Qed.

(** ** Control characters *)

Lemma has_cntrl_app s1 s2 : has_cntrl_chars (s1 +:+ s2) = has_cntrl_chars s1 || has_cntrl_chars s2.
Proof. induction s1 as [|c s1 IH]; simpl; [done|]. by rewrite IH, orb_assoc. Qed.

Lemma escape_char_props c :
  strlen (escape_char c) <= 1 + (if escape_counted c then 1 else 0) /\
  has_cntrl_chars (escape_char c) = false.
Proof. destruct c as [[] [] [] [] [] [] [] []]; split; first [reflexivity | by vm_compute]. Qed.

(** The text with every control character replaced by its escape sequence. *)
Fixpoint escaped (s : string) : string :=
  match s with
  | EmptyString => EmptyString
  | String c s' => escape_char c +:+ escaped s'
  end.

Lemma escape_loop_fits s room :
  strlen s + count_escapes s + 1 <= room -> escape_loop room s = Some (escaped s).
Proof.
  revert room. induction s as [|c s IH]; intros room Hr.
  - change (0 + 0 + 1 <= room) in Hr. cbn [escape_loop escaped].
    by rewrite (proj2 (Z.leb_le _ _)) by lia.
  - rewrite strlen_cons in Hr. cbn [count_escapes escape_loop escaped] in *. cbv zeta.
    destruct (escape_char_props c) as [Hc _].
    assert (0 <= count_escapes s).
    { clear. induction s as [|a s IH]; [done|]. cbn [count_escapes]. destruct (escape_counted a); lia. }
    assert (0 <= strlen s) by (unfold strlen; lia).
    rewrite (proj2 (Z.leb_le _ _)) by (destruct (escape_counted c); lia).
    by rewrite IH by (destruct (escape_counted c); lia).
Qed.

(** Escape_cntrl_chars writes every control character as its escape sequence
    and copies the rest; what it writes fits the buffer it counted out, although
    the two passes look at different sets of characters, and what it returns
    holds no control character, so it cannot drive the terminal it is printed
    on. *)
Theorem escape_cntrl_chars_safe s :
  escape_cntrl_chars s = Some (escaped s) /\ has_cntrl_chars (escaped s) = false.
Proof.
  split; [by apply escape_loop_fits|].
  induction s as [|c s IH]; [done|]. cbn [escaped].
  rewrite has_cntrl_app, IH. destruct (escape_char_props c) as [_ ->]. done.
Qed.

(** The escape sequences are not unambiguous: a newline and the two characters
    backslash and n are printed alike. *)
Lemma escape_cntrl_chars_ambiguous :
  escape_cntrl_chars (String (chr 10) EmptyString) = escape_cntrl_chars "\n".
Proof. reflexivity. Qed.

(** Replacing control characters by an ordinary one removes them all and
    keeps every other character in its place. *)
Theorem replace_cntrl_chars_safe s c :
  iscntrl c = false ->
  has_cntrl_chars (replace_cntrl_chars s c) = false /\
  strlen (replace_cntrl_chars s c) = strlen s /\
  (has_cntrl_chars s = false -> replace_cntrl_chars s c = s).
Proof.
  intros Hc. unfold replace_cntrl_chars, do_replace_cntrl_chars.
  induction s as [|a s (IH1 & IH2 & IH3)]; [done|].
  cbn [string_map has_cntrl_chars]. rewrite !strlen_cons, IH1, IH2.
  destruct (iscntrl a) eqn:E; [by rewrite Hc|]. rewrite E. split; [done|]. split; [done|].
  intros H. by rewrite IH3.
Qed.

(** The characters a file name may hold. *)
Definition name_char (globbing : bool) (c : ascii) : bool :=
  negb (iscntrl c) && negb (string_mem c METACHARS) && (globbing || negb (string_mem c GLOBCHARS)).

Lemma strpbrk_none s set : strpbrk s set = None <-> string_forallb (fun c => negb (string_mem c set)) s = true.
Proof.
  induction s as [|c s IH]; [done|]. simpl. destruct (string_mem c set); simpl; [done|apply IH].
Qed.

Lemma string_forallb_and p q s :
  string_forallb (fun c => p c && q c) s = string_forallb p s && string_forallb q s.
Proof. induction s as [|c s IH]; [done|]. simpl. rewrite IH. by destruct (p c), (q c), (string_forallb p s). Qed.

Lemma string_forallb_ext p q s : (forall c, p c = q c) -> string_forallb p s = string_forallb q s.
Proof. intros H. induction s as [|c s IH]; [done|]. simpl. by rewrite IH, H. Qed.

Lemma has_cntrl_forallb s : has_cntrl_chars s = negb (string_forallb (fun c => negb (iscntrl c)) s).
Proof. induction s as [|c s IH]; [done|]. simpl. rewrite IH. by destruct (iscntrl c). Qed.

Lemma name_char_split globbing s :
  string_forallb (name_char globbing) s =
  string_forallb (fun c => negb (iscntrl c)) s &&
  string_forallb (fun c => negb (string_mem c (if globbing then METACHARS else METACHARS +:+ GLOBCHARS))) s.
Proof.
  rewrite <- string_forallb_and. apply string_forallb_ext. intros c. unfold name_char.
  rewrite <- andb_assoc. f_equal. destruct globbing; [by rewrite andb_true_r|].
  by rewrite string_mem_app, negb_orb.
Qed.

(** [reject_meta_chars] goes on exactly with names of permitted characters and
    ends the program with exit code 1 otherwise. *)
Lemma reject_meta_chars_spec s globbing :
  reject_meta_chars s globbing =
  if string_forallb (name_char globbing) s then Ok tt else Exit 1.
Proof.
  unfold reject_meta_chars, reject_cntrl_chars. rewrite name_char_split, has_cntrl_forallb.
  destruct (string_forallb (fun c => negb (iscntrl c)) s); [|done]. cbn [negb obind andb].
  destruct (strpbrk s _) eqn:E.
  - destruct (string_forallb _ s) eqn:E'; [|done]. apply strpbrk_none in E'. congruence.
  - apply strpbrk_none in E. by rewrite E.
Qed.

(** ** Integer lists *)

Lemma int_array_loop_total toks arr_sz rv :
  Z.of_nat (length rv) <= arr_sz -> 0 < arr_sz -> int_array_loop toks arr_sz rv <> None.
Proof.
  revert arr_sz rv. induction toks as [|tok toks IH]; intros arr_sz rv H1 H2; [done|].
  cbn [int_array_loop]. destruct (strtol 10 tok) as [val rest]. destruct (_ || _ || _ || _); [done|].
  cbv zeta. destruct (Z.eqb_spec (Z.of_nat (length rv)) arr_sz);
    rewrite (proj2 (Z.ltb_lt _ _)) by lia; apply IH; rewrite ?length_app; simpl; lia.
Qed.

(** The array of str_to_int_array grows before it is full: no list, however
    long, makes it write outside. *)
Theorem str_to_int_array_in_bounds str : str_to_int_array str <> None.
Proof.
  unfold str_to_int_array. destruct (strtok _ str); [done|].
  apply int_array_loop_total; simpl; lia.
Qed.

Lemma strtol_print_d v : INT_MIN <= v <= INT_MAX -> strtol 10 (print_d v) = (v, "").
Proof.
  unfold INT_MIN, INT_MAX. intros Hv. unfold strtol, print_d.
  assert (forall z, 0 <= z <= ULONG_MAX -> read_digits 10 0 (print_u z) = (z, "")) as Hr.
  { intros z Hz. rewrite <- (append_empty_r (print_u z)). by apply read_print_u. }
  assert (forall z, 0 <= z -> exists c r, print_u z = String c r /\ isdigit c = true) as Hf.
  { intros z Hz. destruct (print_u_first z "" Hz) as (c & r & E & Hc). rewrite append_empty_r in E. eauto. }
  destruct (Z.ltb_spec v 0).
  - cbn [skip_spaces read_sign]. change (isspace "-"%char) with false. cbn iota.
    destruct (Hf (- v)) as (c & r & E & Hc); [lia|]. specialize (Hr (- v)).
    rewrite E in *. cbn [read_sign]. rewrite Ascii.eqb_refl.
    unfold read_base. change ((10 =? 0) || (10 =? 16)) with false. rewrite andb_false_r.
    change (10 =? 0) with false. cbn iota. rewrite is_digit_of_10, Hc, Hr by (unfold ULONG_MAX; lia).
    unfold clamp, LONG_MIN, LONG_MAX. f_equal. lia.
  - destruct (Hf v) as (c & r & E & Hc); [lia|]. specialize (Hr v). rewrite E in *.
    cbn [skip_spaces]. rewrite digit_not_space by done. unfold read_sign.
    rewrite !(digit_neq c) by done.
    unfold read_base. change ((10 =? 0) || (10 =? 16)) with false. rewrite andb_false_r.
    change (10 =? 0) with false. cbn iota. rewrite is_digit_of_10, Hc, Hr by (unfold ULONG_MAX; lia).
    unfold clamp, LONG_MIN, LONG_MAX. f_equal. lia.
Qed.

Lemma print_d_token v : is_token ","%char (print_d v) = true.
Proof.
  assert (forall z, string_mem ","%char (print_u z) = false) as Hm.
  { intros z. by apply print_u_no_mem. }
  unfold is_token, print_d. destruct (Z.ltb_spec v 0).
  - cbn [string_mem nonempty]. by rewrite Hm.
  - rewrite Hm. destruct (print_u_first v "") as (c & r & E & _); [lia|].
    rewrite append_empty_r in E. by rewrite E.
Qed.

Lemma int_array_loop_print l arr_sz rv :
  Z.of_nat (length rv) <= arr_sz -> 0 < arr_sz ->
  Forall (fun v => INT_MIN <= v <= INT_MAX) l ->
  int_array_loop (map print_d l) arr_sz rv = Some (Some (rv ++ l)).
Proof.
  intros H1 H2 HF. revert arr_sz rv H1 H2. induction HF as [|v l Hv HF IH]; intros arr_sz rv H1 H2.
  { cbn [map int_array_loop]. by rewrite app_nil_r. }
  cbn [map int_array_loop]. rewrite strtol_print_d by done.
  pose proof (print_d_token v) as Ht. unfold is_token in Ht. apply andb_true_iff in Ht as [Ht _].
  assert (streq "" (print_d v) = false) as -> by (destruct (print_d v); done).
  rewrite !(proj2 (Z.ltb_ge _ _)) by lia. cbn [nonempty orb]. cbv zeta.
  destruct (Z.eqb_spec (Z.of_nat (length rv)) arr_sz);
    rewrite (proj2 (Z.ltb_lt _ _)) by lia; rewrite IH;
    rewrite ?length_app; simpl; try lia; by rewrite <- app_assoc.
Qed.

(** A printed list of ints is read back as that list. *)
Theorem str_to_int_array_roundtrip l :
  l <> [] -> Forall (fun v => INT_MIN <= v <= INT_MAX) l ->
  str_to_int_array (String.concat "," (map print_d l)) = Some (Some l).
Proof.
  intros Hne HF. unfold str_to_int_array. rewrite strtok_concat.
  - destruct l as [|v l]; [done|]. apply (int_array_loop_print (v :: l) 16 []); simpl; first [lia|done].
  - clear. induction l as [|v l IH]; [done|]. cbn [map forallb]. by rewrite print_d_token, IH.
Qed.

(** ** /proc *)

Lemma next_arg_shrinks s s' : next_arg s = Some s' -> (String.length s' < String.length s)%nat.
Proof.
  induction s as [|c s IH]; [done|]. cbn [next_arg String.length].
  destruct (Ascii.eqb c NUL); [|intros H%IH; lia].
  destruct (nonempty s); [intros [= ->]; lia|done].
Qed.

Lemma x11_loop_fuel fuel s : (String.length s < fuel)%nat -> x11_loop fuel (Some s) <> NoFuel.
Proof.
  revert s. induction fuel as [|f IH]; intros s Hf; [lia|]. destruct s as [|a s]; [done|].
  remember (String a s) as t. cbn [x11_loop]. cbv zeta.
  destruct (streq _ _); [done|]. destruct (negb _); [done|].
  destruct (_ || _); [done|]. destruct (has_prefix _ _); [done|].
  destruct (next_arg t) as [s'|] eqn:E.
  - apply IH. apply next_arg_shrinks in E. lia.
  - destruct f; [subst; simpl in Hf; lia|done].
Qed.

(** The options behind the program name, up to the first argument that is not
    one. *)
Fixpoint x11_option (args : list string) : bool :=
  match args with
  | [] => false
  | a :: args' =>
      if streq a "--" || negb (has_prefix "--" a) then false
      else if streq a "--x11=xorg" || streq a "--x11=none" then false
      else has_prefix "--x11" a || x11_option args'
  end.

(** A command line in /proc: every argument ends in a NUL. *)
Fixpoint proc_args (args : list string) : string :=
  match args with
  | [] => EmptyString
  | a :: args' => a +:+ String NUL (proc_args args')
  end.

Lemma c_string_app a s : string_mem NUL a = false -> c_string (a +:+ String NUL s) = a.
Proof.
  induction a as [|c a IH]; [done|]. simpl. intros [-> H]%orb_false_iff. by rewrite IH.
Qed.

Lemma next_arg_app a s : string_mem NUL a = false ->
  next_arg (a +:+ String NUL s) = if nonempty s then Some s else None.
Proof. induction a as [|c a IH]; [done|]. simpl. intros [-> H]%orb_false_iff. by apply IH. Qed.

Lemma x11_loop_spec args fuel :
  forallb (fun a => negb (string_mem NUL a)) args = true ->
  (String.length (proc_args args) < fuel)%nat ->
  x11_loop fuel (if nonempty (proc_args args) then Some (proc_args args) else None) =
  Ok (x11_option args).
Proof.
  revert fuel. induction args as [|a args IH]; intros fuel Hn Hf; destruct fuel as [|fuel]; try (simpl in Hf; lia); [done|].
  cbn [forallb] in Hn. apply andb_true_iff in Hn as [Ha%negb_true_iff Hn].
  cbn [proc_args] in *. assert (nonempty (a +:+ String NUL (proc_args args)) = true) as -> by by destruct a.
  cbn [x11_loop x11_option]. cbv zeta. rewrite c_string_app, next_arg_app by done.
  destruct (streq a "--"); [done|]. cbn [orb].
  destruct (has_prefix "--" a); [|done]. cbn [negb].
  destruct (streq a "--x11=xorg" || streq a "--x11=none"); [done|].
  destruct (has_prefix "--x11" a); [done|]. cbn [orb]. apply IH; [done|].
  rewrite length_string_app in Hf. cbn [String.length] in Hf. lia.
Qed.

(** The test for an X11 server of its own reads the options of a firejail
    command line up to the first argument that is not an option; it ends for
    every command line. *)
Theorem x11_xpra_xephyr_spec comm args prog :
  forallb (fun a => negb (string_mem NUL a)) (prog :: args) = true ->
  pid_proc_cmdline_x11_xpra_xephyr comm (Some (proc_args (prog :: args))) =
  Ok (match pid_proc_comm comm with
      | Some name => streq name "firejail" && x11_option args
      | None => false
      end).
Proof.
  intros Hn. unfold pid_proc_cmdline_x11_xpra_xephyr.
  destruct (pid_proc_comm comm) as [name|]; [|done].
  destruct (streq name "firejail"); [|done]. cbn [negb andb].
  cbn [forallb] in Hn. apply andb_true_iff in Hn as [Hp%negb_true_iff Hn].
  cbn [proc_args]. rewrite next_arg_app by done. apply x11_loop_spec; [done|].
  rewrite length_string_app. cbn [String.length]. lia.
Qed.

Lemma x11_xpra_xephyr_terminates comm cmdline :
  pid_proc_cmdline_x11_xpra_xephyr comm cmdline <> NoFuel.
Proof.
  unfold pid_proc_cmdline_x11_xpra_xephyr.
  destruct (pid_proc_comm comm); [|done]. destruct (negb _); [done|].
  destruct cmdline as [b|]; [|done]. destruct (next_arg b) eqn:E; [|done].
  apply x11_loop_fuel. apply next_arg_shrinks in E. lia.
Qed.

(** A name resolves to another process that calls itself firejail or whose comm
    cannot be read, and whose name file holds the name as a line. *)
Lemma name2pid_sound parent name entries pid :
  name2pid parent name entries = Some pid ->
  pid <> parent /\
  exists e buf r, In e entries /\ pid = s32 (strtol 10 (d_name e)).1 /\
    (pid_proc_comm (comm e) = Some "firejail" \/ pid_proc_comm (comm e) = None) /\
    name_buf e = Some buf /\ strchr_split newline buf = Some (name, r).
Proof.
  induction entries as [|e l IH]; [done|]. cbn [name2pid].
  assert (name2pid parent name l = Some pid ->
    pid <> parent /\
    exists e' buf r, In e' (e :: l) /\ pid = s32 (strtol 10 (d_name e')).1 /\
      (pid_proc_comm (comm e') = Some "firejail" \/ pid_proc_comm (comm e') = None) /\
      name_buf e' = Some buf /\ strchr_split newline buf = Some (name, r)) as Hnext.
  { intros (Hp & e' & buf & r & Hin & H)%IH. split; [done|]. exists e', buf, r. split; [by right|done]. }
  destruct (strtol 10 (d_name e)) as [v rest] eqn:Ev.
  destruct (_ || _); [exact Hnext|]. destruct (Z.eqb_spec (s32 v) parent); [exact Hnext|].
  destruct (match pid_proc_comm (comm e) with Some c => _ | None => false end) eqn:Ec; [exact Hnext|].
  destruct (name_buf e) as [buf|] eqn:Eb; [|exact Hnext].
  destruct (strchr_split newline buf) as [[ln r]|] eqn:Es; [|exact Hnext].
  destruct (streq ln name) eqn:En; [|exact Hnext]. apply streq_eq in En as ->.
  intros [= <-]. split; [done|]. exists e, buf, r. rewrite Ev. split; [by left|]. split; [done|].
  split; [|done]. destruct (pid_proc_comm (comm e)); [left|by right].
  apply negb_false_iff, streq_eq in Ec. by rewrite Ec.
Qed.

(** ** Base names *)

Lemma strrchr_after_none c s : strrchr_after c s = None <-> string_mem c s = false.
Proof.
  induction s as [|a s IH]; [done|]. cbn [strrchr_after string_mem].
  destruct (strrchr_after c s); destruct (Ascii.eqb a c); cbn [orb]; split; try done; by intros H%IH || (intros; by apply IH).
Qed.

Lemma strrchr_after_app c l r : string_mem c r = false -> strrchr_after c (l +:+ String c r) = Some r.
Proof.
  intros Hr. induction l as [|a l IH]; simpl.
  - apply strrchr_after_none in Hr as ->. by rewrite Ascii.eqb_refl.
  - by rewrite IH.
Qed.

(** The base name is what follows the last slash. *)
Lemma gnu_basename_spec dir base :
  string_mem "/"%char base = false -> gnu_basename (dir +:+ String "/" base) = base /\ gnu_basename base = base.
Proof.
  intros Hb. unfold gnu_basename. rewrite strrchr_after_app by done.
  apply strrchr_after_none in Hb as ->. done.
Qed.

(** ** Evaluations *)

Lemma atoip_roundtrip_witness : atoip (PRINT_IP 3232235777 +:+ "/24") = Some 3232235777 /\ PRINT_IP 3232235777 = "192.168.1.1".
Proof. split; [apply (atoip_roundtrip 3232235777 "/24"); [lia|reflexivity]|reflexivity]. Defined.

Lemma atocidr_roundtrip_witness : atocidr "192.168.1.1/24" = Some (3232235777, 0xFFFFFF00).
Proof. exact (proj1 (atocidr_roundtrip 3232235777 24 "" ltac:(lia) ltac:(lia) eq_refl)). Defined.

Lemma in_netrange_spec_witness : in_netrange 3232235786 3232235777 0xFFFFFF00 = None.
Proof.
  apply (in_netrange_spec 3232235786 3232235777 24); [lia|lia|lia|]. vm_compute. repeat split.
Defined.

Lemma atomac_roundtrip_witness : atomac "00:1b:63:84:45:e6" = Some [0; 27; 99; 132; 69; 230].
Proof.
  apply (atomac_roundtrip [0; 27; 99; 132; 69; 230] ""); [reflexivity|].
  repeat (constructor; [lia|]). constructor.
Defined.

Lemma replace_cntrl_chars_safe_witness : has_cntrl_chars (replace_cntrl_chars (String (chr 27) "[2J") "?"%char) = false.
Proof. apply (replace_cntrl_chars_safe (String (chr 27) "[2J") "?"%char). reflexivity. Defined.

Lemma str_to_int_array_roundtrip_witness : str_to_int_array "3,-4,5" = Some (Some [3; -4; 5]).
Proof.
  apply (str_to_int_array_roundtrip [3; -4; 5]); [discriminate|].
  unfold INT_MIN, INT_MAX. repeat (constructor; [lia|]). constructor.
Defined.

Lemma x11_xpra_xephyr_spec_witness :
  pid_proc_cmdline_x11_xpra_xephyr (Some ("firejail" +:+ String (chr 10) ""))
    (Some (proc_args ["firejail"; "--net=none"; "--x11"; "xterm"])) = Ok true.
Proof. rewrite x11_xpra_xephyr_spec; reflexivity. Defined.
