(* ===== verification/Fnetfilter.v ===== *)
(** * The firewall file (src/fnetfilter/main.c)

    fnetfilter writes the rules that iptables-restore reads: the default filter, a
    copy of a file, or a file in which $ARG1, $ARG2, ... are replaced by the
    arguments behind the first comma of the command.

    The state is the file system the program sees: the contents of the files it
    can read, and the names it can open for writing.  [exit] flushes the open
    stream, so the text written before an error is in the file. *)

From S2P Require Import Prelude.
From S2P Require Import Clib.
From S2P Require Import Text.
From S2P Require Import Common.

Record fnet_fs := mk_fnet { files : gmap string string; writable : string -> bool }.

Definition N_ (A : Type) : Type := CM fnet_fs A.

Definition MAXBUF : nat := 4098.
Definition MAXARGS : Z := 16.

(** [fopen(fname, "r")] and [fopen(fname, "w")], or [err_exit_cannot_open_file]. *)
Definition fopen_r (fname : string) : N_ unit :=
  w <~ cget ;; match files w !! fname with Some _ => cret tt | None => cexit 1 end.

Definition fopen_w (fname : string) : N_ unit :=
  w <~ cget ;;
  if writable w fname then cput (mk_fnet (<[fname := ""]> (files w)) (writable w)) else cexit 1.

(** [fprintf(fp, "%s", s)] on the stream of [fname]. *)
Definition fput (fname s : string) : N_ unit :=
  cmodify (fun w => mk_fnet (<[fname := default "" (files w !! fname) +:+ s]> (files w)) (writable w)).

(** The buffers fgets fills from the file, as C strings. *)
Definition read_lines (fname : string) : N_ (list string) :=
  w <~ cget ;; cret (map c_string (fgets MAXBUF (default "" (files w !! fname)))).

Definition default_filter : string :=
  String.concat "" (map line
    ["*filter";
     ":INPUT DROP [0:0]";
     ":FORWARD DROP [0:0]";
     ":OUTPUT ACCEPT [0:0]";
     "-A INPUT -i lo -j ACCEPT";
     "-A INPUT -m state --state RELATED,ESTABLISHED -j ACCEPT";
     "# echo replay is handled by -m state RELATED/ESTABLISHED above";
     "#-A INPUT -p icmp --icmp-type echo-reply -j ACCEPT";
     "-A INPUT -p icmp --icmp-type destination-unreachable -j ACCEPT";
     "-A INPUT -p icmp --icmp-type time-exceeded -j ACCEPT";
     "-A INPUT -p icmp --icmp-type echo-request -j ACCEPT ";
     "# disable STUN";
     "-A OUTPUT -p udp --dport 3478 -j DROP";
     "-A OUTPUT -p udp --dport 3479 -j DROP";
     "-A OUTPUT -p tcp --dport 3478 -j DROP";
     "-A OUTPUT -p tcp --dport 3479 -j DROP";
     "COMMIT"]).

Definition copy (src dest : string) : N_ unit :=
  fopen_r src ;;;
  fopen_w dest ;;;
  bufs <~ read_lines src ;;
  cfold (fun buf _ => fput dest buf) bufs tt.

(** ** Arguments *)

(** The second argument of strcspn. *)
Definition rejected_chars : string :=
  "\&!?" +:+ String (chr 34) "'<>%^(){};,*[]".

(** The loop over the tokens: [args] are the [argcnt] entries stored so far. *)
Fixpoint template_args (tokens : list string) (args : list string) : outcome (list string) :=
  match tokens with
  | [] => Ok args
  | token :: tokens' =>
      if Z.of_nat (length args) =? MAXARGS then Exit 1
      else match strpbrk token rejected_chars with
           | Some _ => Exit 1
           | None => template_args tokens' (args ++ [token])
           end
  end.

(** ** One line *)

(** [sscanf(ptr, "$ARG%d", &index)] *)
Definition scan_template_arg (ptr : string) : option Z :=
  match strip_prefix "$ARG" ptr with
  | Some s => match scan_d s with Some (v, _) => Some v | None => None end
  | None => None
  end.

(** The inner loop, at [ptr]; an iteration consumes at least one character. *)
Fixpoint template_line (fuel : nat) (args : list string) (dest ptr : string) : N_ unit :=
  match fuel with
  | O => cnofuel
  | S f =>
      match ptr with
      | EmptyString => cret tt
      | String c rest =>
          if negb (Ascii.eqb c "$"%char) then
            fput dest (String c EmptyString) ;;; template_line f args dest rest
          else
            match scan_template_arg ptr with
            | None => cexit 1
            | Some index =>
                if (index <? 1) || (Z.of_nat (length args) <? index) then cexit 1
                else
                  fput dest (nth (Z.to_nat (index - 1)) args "") ;;;
                  template_line f args dest (skip_digits (drop_chars 4 ptr))
            end
      end
  end.

Definition process_template (src dest : string) : N_ unit :=
  match strchr_split ","%char src with
  | None => cfail
  | Some (src, arg_start) =>
      if negb (nonempty arg_start) then cexit 1
      else
        args <~ clift (template_args (strtok ","%char arg_start) []) ;;
        fopen_r src ;;;
        fopen_w dest ;;;
        bufs <~ read_lines src ;;
        cfold (fun buf _ => template_line (S (String.length buf)) args dest buf) bufs tt
  end.

(** ** main *)

(** [argv] without the program name; the result is the exit code. *)
Definition fnetfilter_main (argv : list string) : N_ Z :=
  let is_help := match argv with
                 | a :: _ => streq a "-h" || streq a "--help" || streq a "-?"
                 | [] => false
                 end in
  if is_help then cret 0
  else match argv with
       | [destfile] =>
           clift (reject_meta_chars destfile false) ;;;
           fopen_w destfile ;;;
           fput destfile (line default_filter) ;;;
           cret 0
       | [command; destfile] =>
           clift (reject_meta_chars destfile false) ;;;
           (if string_mem ","%char command then process_template command destfile
            else copy command destfile) ;;;
           cret 0
       | _ => cret 1
       end.

(** * Theorems about fnetfilter

    A template line is a list of [piece]s; [render] is its text in the file,
    [subst] the text with the arguments filled in. *)

(** ** Writing *)

Definition put_state (dest s : string) (w : fnet_fs) : fnet_fs :=
  mk_fnet (<[dest := default "" (files w !! dest) +:+ s]> (files w)) (writable w).

Lemma fput_state dest s w : fput dest s w = (Ok tt, put_state dest s w).
Proof. reflexivity. Qed.

Lemma put_put dest a b w : put_state dest b (put_state dest a w) = put_state dest (a +:+ b) w.
Proof.
  unfold put_state. cbn [files writable]. rewrite lookup_insert_eq, insert_insert_eq.
  cbn [default]. unfold id. by rewrite append_assoc.
Qed.

Lemma put_empty dest s w : files w !! dest = Some s -> put_state dest "" w = w.
Proof.
  intros H. unfold put_state. rewrite H. cbn [default]. unfold id. rewrite append_empty_r.
  rewrite insert_id by done. by destruct w.
Qed.

(** ** Template lines *)

Inductive piece := Lit (c : ascii) | Arg (n : Z).

Definition render_piece (p : piece) : string :=
  match p with Lit c => String c "" | Arg n => "$ARG" +:+ print_u n end.

Definition subst_piece (args : list string) (p : piece) : string :=
  match p with Lit c => String c "" | Arg n => nth (Z.to_nat (n - 1)) args "" end.

Fixpoint render (ps : list piece) : string :=
  match ps with [] => "" | p :: ps' => render_piece p +:+ render ps' end.

Fixpoint subst (args : list string) (ps : list piece) : string :=
  match ps with [] => "" | p :: ps' => subst_piece args p +:+ subst args ps' end.

(** Literal characters that are not special, arguments that exist, and no digit
    directly behind an argument. *)
Fixpoint pieces_ok (args : list string) (ps : list piece) : bool :=
  match ps with
  | [] => true
  | Lit c :: ps' =>
      negb (Ascii.eqb c "$"%char) && negb (Ascii.eqb c newline) && negb (Ascii.eqb c NUL) &&
      pieces_ok args ps'
  | Arg n :: ps' =>
      (1 <=? n) && (n <=? Z.of_nat (length args)) && (n <=? INT_MAX) &&
      match ps' with Lit c :: _ => negb (isdigit c) | _ => true end &&
      pieces_ok args ps'
  end.

(** A text that stops the digits of an argument. *)
Lemma render_no_digit ps tail :
  match ps with Lit c :: _ => negb (isdigit c) | _ => true end = true ->
  no_digit tail = true -> no_digit (render ps +:+ tail) = true.
Proof. destruct ps as [|[c|n] ps]; done. Qed.

Lemma scan_template_print n s : 0 <= n <= INT_MAX -> no_digit s = true ->
  scan_template_arg ("$ARG" +:+ print_u n +:+ s) = Some n.
Proof. intros Hn Hs. unfold scan_template_arg.
  change (strip_prefix "$ARG" ("$ARG" +:+ ?x)) with (Some x). cbn iota.
  by rewrite scan_print_d. Qed.

(** One iteration per piece. *)
Lemma template_line_pieces args dest ps tail fuel w :
  pieces_ok args ps = true -> no_digit tail = true -> is_Some (files w !! dest) ->
  template_line (length ps + fuel) args dest (render ps +:+ tail) w =
  template_line fuel args dest tail (put_state dest (subst args ps) w).
Proof.
  intros Hok Ht. revert w. induction ps as [|p ps IH]; intros w [s Hs].
  { cbn [length Nat.add render subst]. by rewrite (put_empty _ _ _ Hs). }
  assert (forall x, is_Some (files (put_state dest x w) !! dest)) as Hsome.
  { intros x. cbn [put_state files]. rewrite lookup_insert_eq. eauto. }
  cbn [length Nat.add render subst]. rewrite <- put_put. destruct p as [c|n]; cbn [pieces_ok] in Hok.
  - apply andb_true_iff in Hok as [[[Hc _]%andb_true_iff _]%andb_true_iff Hok].
    change ((render_piece (Lit c) +:+ render ps) +:+ tail) with (String c (render ps +:+ tail)).
    cbn [template_line]. rewrite Hc. rewrite (cbind_ok _ _ _ _ _ (fput_state _ _ _)).
    by apply IH.
  - apply andb_true_iff in Hok as [[[[H1 H2]%andb_true_iff H3]%andb_true_iff Hd]%andb_true_iff Hok].
    apply Z.leb_le in H1, H2, H3.
    pose proof (render_no_digit ps tail Hd Ht) as Hnd.
    assert ((render_piece (Arg n) +:+ render ps) +:+ tail = "$ARG" +:+ print_u n +:+ (render ps +:+ tail)) as ->.
    { cbn [render_piece]. by rewrite !append_assoc. }
    pose proof (scan_template_print n _ ltac:(lia) Hnd) as Hscan.
    change ("$ARG" +:+ ?x) with (String "$" ("ARG" +:+ x)) in *.
    cbn [template_line]. rewrite Ascii.eqb_refl. cbn [negb]. rewrite Hscan.
    rewrite (proj2 (Z.ltb_ge n 1)), (proj2 (Z.ltb_ge _ n)) by lia. cbn [orb].
    rewrite (cbind_ok _ _ _ _ _ (fput_state _ _ _)).
    change (drop_chars 4 (String "$" ("ARG" +:+ ?x))) with x.
    rewrite skip_digits_app by first [apply print_u_digits|done].
    by apply IH.
Qed.

Lemma render_length ps : (length ps <= String.length (render ps))%nat.
Proof.
  induction ps as [|p ps IH]; [done|]. cbn [render length]. rewrite length_string_app.
  enough (1 <= String.length (render_piece p))%nat by lia.
  destruct p as [c|n]; cbn [render_piece]; [simpl; lia|]. rewrite length_string_app. simpl. lia.
Qed.

Definition expand_line (args : list string) (ps : list piece) : string := line (subst args ps).

(** A whole line of the template. *)
Lemma template_line_line args dest ps w :
  pieces_ok args ps = true -> is_Some (files w !! dest) ->
  template_line (S (String.length (line (render ps)))) args dest (line (render ps)) w =
  (Ok tt, put_state dest (expand_line args ps) w).
Proof.
  intros Hok Hs. unfold line at 2. pose proof (render_length ps) as Hl.
  assert (S (String.length (line (render ps))) = length ps + S (S (String.length (render ps) - length ps)))%nat as ->.
  { unfold line. rewrite length_string_app. simpl. lia. }
  rewrite template_line_pieces by done. cbn [template_line].
  change (negb (Ascii.eqb newline "$"%char)) with true. cbn iota.
  rewrite (cbind_ok _ _ _ _ _ (fput_state _ _ _)), put_put. done.
Qed.

Lemma render_no_nul args ps : pieces_ok args ps = true -> string_mem NUL (render ps) = false.
Proof.
  assert (forall n, string_mem NUL (print_u n) = false) as Hn.
  { intros n. by apply print_u_no_mem. }
  induction ps as [|p ps IH]; [done|]. cbn [render]. rewrite string_mem_app.
  destruct p as [c|n]; cbn [pieces_ok render_piece].
  - intros [[[_ _]%andb_true_iff Hc%negb_true_iff]%andb_true_iff Hok]%andb_true_iff.
    cbn [string_mem]. by rewrite Hc, IH.
  - intros [_ Hok]%andb_true_iff. rewrite string_mem_app, Hn, IH by done. done.
Qed.

(** The loop over the lines. *)
Lemma template_lines_fold args dest tpl w :
  forallb (pieces_ok args) tpl = true -> is_Some (files w !! dest) ->
  cfold (fun buf _ => template_line (S (String.length buf)) args dest buf)
    (map c_string (map line (map render tpl))) tt w =
  (Ok tt, put_state dest (String.concat "" (map (expand_line args) tpl)) w).
Proof.
  revert w. induction tpl as [|ps tpl IH]; intros w Hok [s Hs].
  { cbn [map cfold String.concat]. by rewrite (put_empty _ _ _ Hs). }
  cbn [forallb map] in *. apply andb_true_iff in Hok as [Hp Hok]. cbn [cfold].
  assert (c_string (line (render ps)) = line (render ps)) as ->.
  { apply c_string_id. unfold line. by rewrite string_mem_app, (render_no_nul args) by done. }
  rewrite (cbind_ok _ _ _ _ _ (template_line_line args dest ps w Hp ltac:(eauto))).
  rewrite IH, put_put by first [done | cbn [put_state files]; rewrite lookup_insert_eq; eauto].
  do 2 f_equal. destruct tpl as [|ps' tpl]; [by rewrite append_empty_r|done].
Qed.

(** ** Arguments *)

Definition arg_ok (a : string) : bool :=
  match strpbrk a rejected_chars with Some _ => false | None => true end.

(** The arguments are accepted when there are at most [MAXARGS] and none holds a
    rejected character. *)
Lemma template_args_spec tokens args :
  Z.of_nat (length args) <= MAXARGS ->
  template_args tokens args =
  if (Z.of_nat (length args + length tokens) <=? MAXARGS) && forallb arg_ok tokens
  then Ok (args ++ tokens) else Exit 1.
Proof.
  unfold MAXARGS. revert args. induction tokens as [|t ts IH]; intros args Hl.
  - cbn [template_args length forallb]. rewrite Nat.add_0_r, (proj2 (Z.leb_le _ _)), app_nil_r by lia. done.
  - cbn [template_args length forallb]. unfold MAXARGS, arg_ok at 1.
    destruct (Z.eqb_spec (Z.of_nat (length args)) 16).
    + rewrite (proj2 (Z.leb_gt _ _)) by lia. done.
    + destruct (strpbrk t rejected_chars); cbn [andb]; [by rewrite andb_false_r|].
      rewrite IH by (rewrite length_app; simpl; lia). rewrite length_app, <- app_assoc. simpl.
      by replace (length args + 1 + length ts)%nat with (length args + S (length ts))%nat by lia.
Qed.

(** The firewall file is the template with every $ARGn replaced by the n-th
    argument of the command, line by line, and no other file changes. *)
Theorem process_template_substitutes src dest args tpl w :
  string_mem ","%char src = false -> src <> dest -> args <> [] ->
  forallb (is_token ",") args = true -> forallb arg_ok args = true ->
  Z.of_nat (length args) <= MAXARGS ->
  files w !! src = Some (String.concat "" (map line (map render tpl))) ->
  forallb (fgets_line MAXBUF) (map render tpl) = true ->
  forallb (pieces_ok args) tpl = true ->
  writable w dest = true ->
  process_template (src +:+ String "," (String.concat "," args)) dest w =
  (Ok tt, mk_fnet (<[dest := String.concat "" (map (expand_line args) tpl)]> (files w)) (writable w)).
Proof.
  intros Hsrc Hne Hargs Htok Hok Hlen Hfile Hfit Htpl Hw. unfold process_template.
  rewrite strchr_split_app by done.
  assert (nonempty (String.concat "," args) = true) as ->.
  { pose proof (concat_tokens_nonempty ","%char args Hargs Htok) as H.
    by destruct (String.concat "," args). }
  cbn [negb]. rewrite strtok_concat, (template_args_spec args []) by (done || (unfold MAXARGS; simpl; lia)).
  cbn [length Nat.add]. rewrite (proj2 (Z.leb_le _ _)), Hok by done. cbn [andb app].
  rewrite clift_ok_bind. unfold fopen_r at 1. rewrite cbind_assoc, cget_bind, Hfile, cret_bind.
  unfold fopen_w. rewrite cbind_assoc, cget_bind, Hw.
  unfold cput. unfold cbind at 1. unfold read_lines. rewrite cbind_assoc, cget_bind, cret_bind.
  cbn [files writable]. rewrite lookup_insert_ne, Hfile by done. cbn [default]. unfold id.
  rewrite fgets_lines by done.
  rewrite template_lines_fold by first [done | cbn [files]; rewrite lookup_insert_eq; eauto].
  unfold put_state. cbn [files writable]. rewrite lookup_insert_eq, insert_insert_eq. done.
Qed.

(** Arguments that are missing, too many or hold a rejected character end
    fnetfilter with exit code 1 before it opens a file. *)
Theorem process_template_rejects src rest dest w :
  string_mem ","%char src = false ->
  (nonempty rest = false \/
   MAXARGS < Z.of_nat (length (strtok ","%char rest)) \/
   forallb arg_ok (strtok ","%char rest) = false) ->
  process_template (src +:+ String "," rest) dest w = (Exit 1, w).
Proof.
  intros Hsrc H. unfold process_template. rewrite strchr_split_app by done.
  destruct (nonempty rest); cbn [negb]; [|done].
  rewrite (template_args_spec _ []) by (unfold MAXARGS; simpl; lia). cbn [length Nat.add].
  destruct H as [?|[H| ->]]; [done| |by rewrite andb_false_r].
  by rewrite (proj2 (Z.leb_gt _ _)) by done.
Qed.

(** A dollar sign that does not start a defined argument ends the program
    with exit code 1; the file then holds the text up to that place. *)
Theorem template_line_errors args dest ps bad fuel w :
  pieces_ok args ps = true -> is_Some (files w !! dest) ->
  match scan_template_arg (String "$" bad) with
  | None => True
  | Some n => n < 1 \/ Z.of_nat (length args) < n
  end ->
  (length ps < fuel)%nat ->
  template_line fuel args dest (render ps +:+ String "$" bad) w =
  (Exit 1, put_state dest (subst args ps) w).
Proof.
  intros Hok Hs Hbad Hf. replace fuel with (length ps + S (fuel - length ps - 1))%nat by lia.
  rewrite template_line_pieces by done. cbn [template_line]. rewrite Ascii.eqb_refl. cbn [negb].
  destruct (scan_template_arg _) as [n|]; [|done].
  destruct Hbad as [Hn|Hn].
  - by rewrite (proj2 (Z.ltb_lt n 1)).
  - rewrite (proj2 (Z.ltb_lt _ n)) by done. by rewrite orb_true_r.
Qed.

(** The number behind $ARG may be separated by blanks, which are printed again
    behind the argument: "$ARG 1" becomes the argument followed by " 1". *)
Lemma template_blank_kept :
  (template_line 9 ["x"] "d" "$ARG 1" (mk_fnet {["d" := ""]} (fun _ => true))).2.(files) !! "d" = Some "x 1".
Proof. reflexivity. Qed.

(** A newline is not among the rejected characters: one argument can add a rule. *)
Lemma newline_accepted : arg_ok ("10.0.0.1" +:+ line "" +:+ "-A INPUT -j ACCEPT") = true.
Proof. reflexivity. Qed.

(** ** Copies *)

Lemma fput_fold dest l w :
  is_Some (files w !! dest) ->
  cfold (fun buf _ => fput dest buf) l tt w = (Ok tt, put_state dest (String.concat "" l) w).
Proof.
  revert w. induction l as [|b l IH]; intros w [s Hs].
  { cbn [cfold String.concat]. by rewrite (put_empty _ _ _ Hs). }
  cbn [cfold]. rewrite (cbind_ok _ _ _ _ _ (fput_state _ _ _)).
  rewrite IH, put_put by (cbn [put_state files]; rewrite lookup_insert_eq; eauto).
  do 2 f_equal. destruct l; [by rewrite append_empty_r|done].
Qed.

Lemma string_mem_concat c l :
  string_mem c (String.concat "" l) = existsb (string_mem c) l.
Proof.
  induction l as [|s l IH]; [done|]. destruct l as [|s' l];
    [cbn [existsb String.concat]; by rewrite orb_false_r|].
  change (String.concat "" (s :: s' :: l)) with (s +:+ "" +:+ String.concat "" (s' :: l)).
  rewrite !string_mem_app, IH. done.
Qed.

(** A command without arguments copies the file, whatever the length of its
    lines. *)
Theorem fnetfilter_copies src dest s w :
  src <> dest -> string_mem ","%char src = false -> string_mem NUL s = false ->
  files w !! src = Some s -> writable w dest = true ->
  string_forallb (name_char false) dest = true ->
  streq src "-h" || streq src "--help" || streq src "-?" = false ->
  fnetfilter_main [src; dest] w = (Ok 0, mk_fnet (<[dest := s]> (files w)) (writable w)).
Proof.
  intros Hne Hsrc Hnul Hfile Hw Hdest Hhelp. unfold fnetfilter_main. rewrite Hhelp.
  rewrite reject_meta_chars_spec, Hdest, clift_ok_bind, Hsrc.
  unfold copy, fopen_r. rewrite !cbind_assoc, cget_bind, Hfile, cret_bind.
  unfold fopen_w. rewrite !cbind_assoc, cget_bind, Hw. unfold cput. unfold cbind at 1.
  unfold read_lines. rewrite !cbind_assoc, cget_bind, cret_bind. cbn [files writable].
  rewrite lookup_insert_ne, Hfile by done. cbn [default]. unfold id.
  assert (map c_string (fgets MAXBUF s) = fgets MAXBUF s) as ->.
  { rewrite <- (fgets_concat MAXBUF s), string_mem_concat in Hnul. clear -Hnul.
    induction (fgets MAXBUF s) as [|b l IH]; [done|]. cbn [existsb map] in *.
    apply orb_false_iff in Hnul as [Hb Hl]. by rewrite c_string_id, IH. }
  erewrite cbind_ok by (apply fput_fold; cbn [files]; rewrite lookup_insert_eq; eauto).
  rewrite fgets_concat. unfold put_state, cret. cbn [files writable].
  rewrite lookup_insert_eq, insert_insert_eq. done.
Qed.

(** ** Evaluations *)

Definition demo_tpl : list (list piece) :=
  [map Lit (String.list_ascii_of_string "*filter");
   map Lit (String.list_ascii_of_string "-A INPUT -s ") ++ [Arg 1; Lit ":"%char; Arg 2]
     ++ map Lit (String.list_ascii_of_string " -j ACCEPT")].

Definition demo_fnet : fnet_fs :=
  mk_fnet {[ "t.net" := String.concat "" (map line (map render demo_tpl)) ]} (fun _ => true).

Lemma process_template_substitutes_witness :
  files (process_template "t.net,10.0.0.1,80" "out" demo_fnet).2 !! "out" =
  Some (line "*filter" +:+ line "-A INPUT -s 10.0.0.1:80 -j ACCEPT").
Proof.
  change "t.net,10.0.0.1,80" with ("t.net" +:+ String "," (String.concat "," ["10.0.0.1"; "80"])).
  rewrite (process_template_substitutes "t.net" "out" ["10.0.0.1"; "80"] demo_tpl demo_fnet);
    try reflexivity; try discriminate.
Defined.

Lemma process_template_rejects_witness :
  process_template "t.net,10.0.0.1;reboot" "out" demo_fnet = (Exit 1, demo_fnet).
Proof.
  apply (process_template_rejects "t.net" "10.0.0.1;reboot" "out" demo_fnet); [reflexivity|].
  right. right. reflexivity.
Defined.

Lemma template_line_errors_witness :
  template_line 20 ["x"] "d" "a $ARG2" (mk_fnet {["d" := ""]} (fun _ => true)) =
  (Exit 1, mk_fnet {["d" := "a "]} (fun _ => true)).
Proof.
  apply (template_line_errors ["x"] "d" [Lit "a"%char; Lit " "%char] "ARG2" 20).
  - reflexivity.
  - exists "". reflexivity.
  - right. reflexivity.
  - simpl. lia.
Defined.

Lemma fnetfilter_copies_witness :
  files (fnetfilter_main ["t.net"; "out"] demo_fnet).2 !! "out" = files demo_fnet !! "t.net".
Proof.
  rewrite (fnetfilter_copies "t.net" "out" (String.concat "" (map line (map render demo_tpl))) demo_fnet);
    try reflexivity; try discriminate.
Defined.
