(* ===== verification/Mountinfo.v ===== *)
(** * /proc/self/mountinfo (src/firejail/mountinfo.c)

    Firejail finds out what it has just mounted from the last line of mountinfo,
    and which mounts a remount has to visit from the lines behind the one of a
    mount id.  Paths are unmangled in place, in the buffer of the line; the
    theorems show that the writes never catch up with the reads. *)

From S2P Require Import Prelude.
From S2P Require Import Clib.
From S2P Require Import Text.
From S2P Require Import Common.

(** ** Octal escapes, in place *)

Definition is_oct (c : ascii) : bool := in_range 48 55 c.
Definition oct_val (c : ascii) : Z := Z.of_nat (ord c) - 48.

(** [read_oct] at offset [r], where the backslash is. *)
Definition read_oct (buf : list ascii) (r : nat) : option Z :=
  match buf !! r, buf !! S r, buf !! S (S r), buf !! S (S (S r)) with
  | Some c, Some d2, Some d1, Some d0 =>
      if Ascii.eqb c "\"%char && is_oct d2 && is_oct d1 && is_oct d0
      then Some (Z.lor (Z.shiftl (oct_val d2) 6) (Z.lor (Z.shiftl (oct_val d1) 3) (Z.shiftl (oct_val d0) 0)))
      else None
  | _, _, _, _ => None
  end.

(** The two nested loops: decode while there is a backslash at [r], else copy one
    character and stop behind the NUL. *)
Fixpoint unmangle_loop (fuel : nat) (buf : list ascii) (r w : nat) : outcome (list ascii) :=
  match fuel with
  | O => NoFuel
  | S f =>
      match buf !! r with
      | None => AssertFail
      | Some c =>
          if Ascii.eqb c "\"%char then
            match read_oct buf r with
            | Some v => unmangle_loop f (<[w := chr (Z.to_nat (u8 v))]> buf) (r + 4) (w + 1)
            | None => AssertFail
            end
          else
            let buf' := <[w := c]> buf in
            if Ascii.eqb c NUL then Ok buf' else unmangle_loop f buf' (r + 1) (w + 1)
      end
  end.

(** [strchr(path, '\\')] as an offset. *)
Fixpoint backslash_at (buf : list ascii) : option nat :=
  match buf with
  | [] => None
  | c :: buf' =>
      if Ascii.eqb c NUL then None
      else if Ascii.eqb c "\"%char then Some O
      else match backslash_at buf' with Some n => Some (S n) | None => None end
  end.

Definition unmangle_path (buf : list ascii) : outcome (list ascii) :=
  match backslash_at buf with
  | None => Ok buf
  | Some r => unmangle_loop (length buf) buf r r
  end.

(** The call on a token: a string, its terminator, and the string left behind. *)
Definition unmangle (path : string) : outcome string :=
  obind (unmangle_path (String.list_ascii_of_string path ++ [NUL])) (fun buf =>
    Ok (String.string_of_list_ascii (cut buf))).

(** ** strtok with changing delimiters *)

Fixpoint skip_char (d : ascii) (s : string) : string :=
  match s with
  | String c s' => if Ascii.eqb c d then skip_char d s' else s
  | EmptyString => EmptyString
  end.

(** [strtok(NULL, d)] from the saved position: the token and the new position. *)
Definition strtok1 (d : ascii) (s : string) : option (string * string) :=
  let s' := skip_char d s in
  if nonempty s' then
    Some (match strchr_split d s' with Some (tok, rest) => (tok, rest) | None => (s', EmptyString) end)
  else None.

(** ** Lines *)

Record MountData := mk_mount { mountid : Z; fsname : string; dir : string; fstype : string }.

#[export] Instance MountData_eq_dec : EqDecision MountData.
Proof. solve_decision. Defined.

(** [atoi] *)
Definition atoi (s : string) : Z := s32 (strtol 10 s).1.

(** The loop that counts tokens: [fsname] is the fourth and [dir] the fifth. *)
Fixpoint parse_tokens (fuel : nat) (cnt : Z) (fsname dir : option string) (s : string)
    : option string * option string * string :=
  match fuel with
  | O => (fsname, dir, s)
  | S f =>
      match strtok1 " "%char s with
      | None => (fsname, dir, EmptyString)
      | Some (tok, rest) =>
          let cnt := cnt + 1 in
          if cnt =? 4 then parse_tokens f cnt (Some tok) dir rest
          else if cnt =? 5 then (fsname, Some tok, rest)
          else parse_tokens f cnt fsname dir rest
      end
  end.

Definition parse_line (ln : string) : outcome MountData :=
  match strtok1 " "%char ln with
  | None => Exit 1
  | Some (tok, rest) =>
      let id := atoi tok in
      let '(fsname, dir, rest) := parse_tokens 4 1 None None rest in
      match strtok1 "-"%char rest with
      | None => Exit 1
      | Some (_, rest) =>
          match strtok1 " "%char rest with
          | None => Exit 1
          | Some (fstype, _) =>
              match fsname, dir with
              | Some fsname, Some dir =>
                  if id <? 0 then Exit 1
                  else obind (unmangle fsname) (fun fsname =>
                       obind (unmangle dir) (fun dir =>
                       Ok (mk_mount id fsname dir fstype)))
              | _, _ => Exit 1
              end
          end
      end
  end.

(** The last line the file has; [mbuf] is NULL for an empty file. *)
Definition get_last_mount (lines : list string) : outcome MountData :=
  match last lines with
  | None => AssertFail
  | Some mbuf => parse_line mbuf
  end.

(** ** Mount ids *)

(** [sscanf(buf, "mnt_id: %d", &rv)] *)
Definition scan_mnt_id (buf : string) : option Z :=
  match strip_prefix "mnt_id:" buf with
  | Some s => match scan_d s with Some (v, _) => Some v | None => None end
  | None => None
  end.

Definition get_mount_id_from_fdinfo (bufs : list string) : Z :=
  default (-1) (first_some scan_mnt_id bufs).

(** [handle] is what name_to_handle_at reports, -1 when it reports nothing. *)
Definition get_mount_id (handle : Z) (bufs : list string) : Z :=
  if handle <? 0 then get_mount_id_from_fdinfo bufs else handle.

(** ** build_mount_array *)

(** The lines behind the first line with the mount id. *)
Fixpoint find_mount (id : Z) (lines : list string) : outcome (option (list string)) :=
  match lines with
  | [] => Ok None
  | l :: lines' =>
      obind (parse_line l) (fun m =>
        if mountid m =? id then Ok (Some lines') else find_mount id lines')
  end.

(** [strncmp(mntp.dir, path, pathlen) == 0 && mntp.dir[pathlen] == '/'] *)
Definition contained (path dir : string) : bool :=
  match strip_prefix path dir with
  | Some (String c _) => Ascii.eqb c "/"%char
  | _ => false
  end.

(** The array [rv] of [size] elements, [cnt + 1] of them in use: the store at
    index [cnt]. *)
Definition store (rv : list string) (size : Z) (x : string) : option (list string * Z) :=
  let cnt := Z.of_nat (length rv) in
  let size := if cnt =? size then size * 2 else size in
  if cnt <? size then Some (rv ++ [x], size) else None.

Fixpoint add_mounts (path : string) (lines : list string) (rv : list string) (size : Z)
    : outcome (list string * Z) :=
  match lines with
  | [] => Ok (rv, size)
  | l :: lines' =>
      obind (parse_line l) (fun m =>
        if contained path (dir m) then
          match store rv size (dir m) with
          | Some (rv, size) => add_mounts path lines' rv size
          | None => AssertFail
          end
        else add_mounts path lines' rv size)
  end.

(** The array up to its NULL element; [None] when the mount id is not found. *)
Definition build_mount_array (id : Z) (path : string) (lines : list string)
    : outcome (option (list string)) :=
  obind (find_mount id lines) (fun found =>
    match found with
    | None => Ok None
    | Some rest =>
        obind (add_mounts path rest [path] 32) (fun '(rv, size) =>
          let cnt := Z.of_nat (length rv) in
          let size := if cnt =? size then size + 1 else size in
          if cnt <? size then Ok (Some rv) else AssertFail)
    end).

(** * Theorems about mountinfo.c *)

(** ** Unmangling in place *)

(** The path an escaped text stands for. *)
Fixpoint decode (s : list ascii) : option (list ascii) :=
  match s with
  | [] => Some []
  | c :: s1 =>
      if Ascii.eqb c "\"%char then
        match s1 with
        | d2 :: d1 :: d0 :: s2 =>
            if is_oct d2 && is_oct d1 && is_oct d0 then
              match decode s2 with
              | Some r => Some (chr (Z.to_nat (u8 (Z.lor (Z.shiftl (oct_val d2) 6)
                                  (Z.lor (Z.shiftl (oct_val d1) 3) (Z.shiftl (oct_val d0) 0))))) :: r)
              | None => None
              end
            else None
        | _ => None
        end
      else match decode s1 with Some r => Some (c :: r) | None => None end
  end.

(** A write behind the text already written, inside the part already read. *)
Lemma insert_behind {A} (out mid rest : list A) (x : A) :
  mid <> [] ->
  exists gap, length mid = S (length gap) /\
    <[length out := x]> (out ++ mid ++ rest) = (out ++ [x]) ++ gap ++ rest.
Proof.
  intros Hm. destruct mid as [|m mid]; [done|]. exists mid. split; [done|].
  rewrite <- (Nat.add_0_r (length out)), insert_app_r. by rewrite <- app_assoc.
Qed.

Lemma lookup_app_add {A} (l1 l2 : list A) i : (l1 ++ l2) !! (length l1 + i)%nat = l2 !! i.
Proof. rewrite lookup_app_r by lia. f_equal. lia. Qed.

Lemma lookup_behind {A} (out gap rest : list A) i :
  (out ++ gap ++ rest) !! (length out + length gap + i)%nat = rest !! i.
Proof.
  rewrite app_assoc, <- length_app. apply lookup_app_add.
Qed.

Lemma decode_short s1 :
  match s1 with _ :: _ :: _ :: _ => True | _ => decode ("\"%char :: s1) = None end.
Proof. destruct s1 as [|? [|? [|? ?]]]; done. Qed.

Lemma read_oct_at (pre l : list ascii) : read_oct (pre ++ l) (length pre) = read_oct l 0.
Proof.
  unfold read_oct.
  assert (forall i, (pre ++ l) !! (i + length pre)%nat = l !! i) as Hlook.
  { intros i. rewrite Nat.add_comm. apply lookup_app_add. }
  pose proof (Hlook 0%nat) as H0. pose proof (Hlook 1%nat) as H1.
  pose proof (Hlook 2%nat) as H2. pose proof (Hlook 3%nat) as H3.
  cbn [Nat.add] in *. by rewrite H0, H1, H2, H3.
Qed.

Lemma read_oct_short (s1 tail : list ascii) :
  no_nul s1 -> (length s1 < 3)%nat -> read_oct ("\"%char :: s1 ++ NUL :: tail) 0 = None.
Proof.
  intros Hn Hl. unfold read_oct.
  destruct s1 as [|a [|b [|]]]; try (simpl in Hl; lia); cbn [app lookup list_lookup].
  - destruct tail as [|x [|y tail]]; done.
  - destruct tail as [|x tail]; [done|]. by rewrite !andb_false_r.
  - by rewrite !andb_false_r.
Qed.

(** The loop, with [out] written and [gap] read but not yet overwritten. *)
Lemma unmangle_loop_spec fuel s out gap tail :
  no_nul s -> (length s < fuel)%nat ->
  match decode s with
  | Some d => exists junk,
      unmangle_loop fuel (out ++ gap ++ s ++ NUL :: tail) (length out + length gap) (length out) =
      Ok (out ++ d ++ NUL :: junk)
  | None => unmangle_loop fuel (out ++ gap ++ s ++ NUL :: tail) (length out + length gap) (length out) = AssertFail
  end.
Proof.
  revert s out gap. induction fuel as [|f IH]; intros s out gap Hn Hf; [lia|].
  cbn [unmangle_loop].
  assert ((out ++ gap ++ s ++ NUL :: tail) !! (length out + length gap)%nat = (s ++ NUL :: tail) !! 0%nat) as ->
    by (pose proof (lookup_behind out gap (s ++ NUL :: tail) 0) as E; by rewrite Nat.add_0_r in E).
  destruct s as [|c s].
  { cbn [app lookup list_lookup decode]. change (Ascii.eqb NUL "\"%char) with false.
    change (Ascii.eqb NUL NUL) with true. cbn iota.
    destruct (insert_behind out (gap ++ [NUL]) tail NUL) as (g & _ & E); [by destruct gap|].
    rewrite <- app_assoc in E. cbn [app] in E. rewrite E.
    exists (g ++ tail). by rewrite <- app_assoc. }
  cbn [app lookup list_lookup]. inversion Hn as [|? ? Hc Hn']; subst. cbn [length] in Hf.
  destruct (Ascii.eqb_spec c "\"%char) as [->|Hne].
  - cbn [decode]. rewrite Ascii.eqb_refl.
    assert (read_oct (out ++ gap ++ "\"%char :: s ++ NUL :: tail) (length out + length gap) =
      read_oct ("\"%char :: s ++ NUL :: tail) 0) as ->
      by by rewrite app_assoc, <- length_app, read_oct_at.
    destruct s as [|d2 [|d1 [|d0 s]]];
      try by (rewrite read_oct_short by (done || (simpl; lia))).
    change (read_oct ("\"%char :: (d2 :: d1 :: d0 :: s) ++ NUL :: tail) 0) with
      (if is_oct d2 && is_oct d1 && is_oct d0
      then Some (Z.lor (Z.shiftl (oct_val d2) 6) (Z.lor (Z.shiftl (oct_val d1) 3) (Z.shiftl (oct_val d0) 0)))
      else None).
    destruct (is_oct d2 && is_oct d1 && is_oct d0); [|done]. cbn [app].
    set (x := chr _).
    destruct (insert_behind out (gap ++ ["\"%char; d2; d1; d0]) (s ++ NUL :: tail) x) as (g & Hg & E);
      [by destruct gap|].
    rewrite <- app_assoc in E. cbn [app] in E. rewrite E.
    assert (no_nul s) as Hs by (inversion Hn' as [|? ? _ H1]; inversion H1 as [|? ? _ H2]; by inversion H2).
    specialize (IH s (out ++ [x]) g Hs ltac:(simpl in Hf; lia)).
    rewrite length_app in Hg. cbn [length] in Hg.
    rewrite length_app in IH. cbn [length] in IH.
    replace (length out + 1 + length g)%nat with (length out + length gap + 4)%nat in IH by lia.
    destruct (decode s) as [d|]; [|exact IH].
    destruct IH as [junk ->]. exists junk. by rewrite <- app_assoc.
  - cbn [decode]. rewrite (proj2 (Ascii.eqb_neq c "\"%char)) by done.
    rewrite (proj2 (Ascii.eqb_neq c NUL)) by done.
    destruct (insert_behind out (gap ++ [c]) (s ++ NUL :: tail) c) as (g & Hg & E); [by destruct gap|].
    rewrite <- app_assoc in E. cbn [app] in E. rewrite E.
    specialize (IH s (out ++ [c]) g Hn' ltac:(lia)).
    rewrite length_app in Hg. cbn [length] in Hg. rewrite length_app in IH. cbn [length] in IH.
    replace (length out + 1 + length g)%nat with (length out + length gap + 1)%nat in IH by lia.
    destruct (decode s) as [d|]; [|exact IH].
    destruct IH as [junk ->]. exists junk. by rewrite <- app_assoc.
Qed.

Lemma backslash_at_spec s tail :
  no_nul s ->
  match backslash_at (s ++ NUL :: tail) with
  | None => decode s = Some s
  | Some r => exists p q, s = p ++ "\"%char :: q /\ r = length p /\
      decode s = match decode ("\"%char :: q) with Some d => Some (p ++ d) | None => None end
  end.
Proof.
  induction 1 as [|c s Hc Hn IH]; [done|]. cbn [app backslash_at].
  rewrite (proj2 (Ascii.eqb_neq c NUL)) by done.
  destruct (Ascii.eqb_spec c "\"%char) as [->|Hne].
  - exists [], s. split; [done|]. split; [done|]. destruct (decode ("\"%char :: s)); reflexivity.
  - assert (decode (c :: s) = match decode s with Some r => Some (c :: r) | None => None end) as Hd
      by (cbn [decode]; by rewrite (proj2 (Ascii.eqb_neq c "\"%char))).
    destruct (backslash_at (s ++ NUL :: tail)).
    + destruct IH as (p & q & -> & -> & E). exists (c :: p), q. split; [done|]. split; [done|].
      cbn [app]. rewrite Hd, E. by destruct (decode ("\"%char :: q)).
    + by rewrite Hd, IH.
Qed.

Lemma cut_app_nul d junk : cut (d ++ NUL :: junk) = cut d.
Proof.
  induction d as [|c d IH]; [done|]. cbn [app cut]. destruct (Ascii.eqb c NUL); [done|]. by rewrite IH.
Qed.

Lemma cut_id l : no_nul l -> cut l = l.
Proof.
  induction 1 as [|c l Hc Hl IH]; [done|]. cbn [cut].
  by rewrite (proj2 (Ascii.eqb_neq c NUL)), IH.
Qed.

Lemma of_list_of_string s : String.string_of_list_ascii (String.list_ascii_of_string s) = s.
Proof. induction s as [|c s IH]; [done|]. simpl. by rewrite IH. Qed.

Lemma list_of_string_of l : String.list_ascii_of_string (String.string_of_list_ascii l) = l.
Proof. induction l as [|c l IH]; [done|]. simpl. by rewrite IH. Qed.

(** Unmangle_path decodes the octal escapes of the path in place: the string
    left in the buffer is the decoded path whatever follows it in memory, the
    loop ends, and an incomplete escape fails the assertion of read_oct. *)
Theorem unmangle_path_in_place s tail :
  no_nul s ->
  match decode s with
  | Some d => exists junk, unmangle_path (s ++ NUL :: tail) = Ok (d ++ NUL :: junk)
  | None => unmangle_path (s ++ NUL :: tail) = AssertFail
  end.
Proof.
  intros Hn. unfold unmangle_path. pose proof (backslash_at_spec s tail Hn) as H.
  destruct (backslash_at _) as [r|].
  - destruct H as (p & q & -> & -> & E). rewrite E.
    assert (no_nul ("\"%char :: q)) as Hq by (unfold no_nul in *; by apply Forall_app in Hn as [_ ?]).
    pose proof (unmangle_loop_spec (length ((p ++ "\"%char :: q) ++ NUL :: tail)) _ p [] tail Hq) as HL.
    rewrite Nat.add_0_r in HL. change ([] ++ ?x) with x in HL.
    rewrite <- (app_assoc p) in HL |- *.
    specialize (HL ltac:(rewrite !length_app; cbn [length]; lia)).
    destruct (decode ("\"%char :: q)) as [d|]; [|exact HL].
    destruct HL as [junk ->]. exists junk. by rewrite <- app_assoc.
  - rewrite H. by exists tail.
Qed.

Lemma unmangle_spec path :
  string_mem NUL path = false ->
  unmangle path =
  match decode (String.list_ascii_of_string path) with
  | Some d => Ok (String.string_of_list_ascii (cut d))
  | None => AssertFail
  end.
Proof.
  intros Hn. unfold unmangle.
  assert (no_nul (String.list_ascii_of_string path)) as Hl.
  { induction path as [|c path IH]; [constructor|]. cbn [string_mem] in Hn.
    apply orb_false_iff in Hn as [Hc Hn]. constructor; [by apply Ascii.eqb_neq|by apply IH]. }
  pose proof (unmangle_path_in_place _ [] Hl) as H.
  destruct (decode _) as [d|]; [|by rewrite H]. destruct H as [junk ->]. cbn [obind].
  by rewrite cut_app_nul.
Qed.

(** ** What the kernel writes *)

Definition oct_char (n : nat) : ascii := chr (48 + n).

(** seq_path(9): the characters of [esc] as three octal digits. *)
Definition mangle_char (esc : ascii -> bool) (c : ascii) : string :=
  if esc c then
    String "\"%char (String (oct_char (ord c / 64)) (String (oct_char (ord c / 8 mod 8))
      (String (oct_char (ord c mod 8)) EmptyString)))
  else String c EmptyString.

Fixpoint mangle (esc : ascii -> bool) (s : string) : string :=
  match s with
  | EmptyString => EmptyString
  | String c s' => mangle_char esc c +:+ mangle esc s'
  end.

Lemma decode_oct c rest :
  decode ("\"%char :: oct_char (ord c / 64) :: oct_char (ord c / 8 mod 8) :: oct_char (ord c mod 8) :: rest) =
  match decode rest with Some r => Some (c :: r) | None => None end.
Proof. destruct c as [[] [] [] [] [] [] [] []]; reflexivity. Qed.

Lemma list_of_string_app a b :
  String.list_ascii_of_string (a +:+ b) = String.list_ascii_of_string a ++ String.list_ascii_of_string b.
Proof. induction a as [|c a IH]; [done|]. simpl. by rewrite <- IH. Qed.

Lemma decode_mangle esc s :
  esc "\"%char = true ->
  decode (String.list_ascii_of_string (mangle esc s)) = Some (String.list_ascii_of_string s).
Proof.
  intros He. induction s as [|c s IH]; [done|]. cbn [mangle]. rewrite list_of_string_app.
  unfold mangle_char. destruct (esc c) eqn:E.
  - cbn [String.list_ascii_of_string app]. by rewrite decode_oct, IH.
  - cbn [String.list_ascii_of_string app decode].
    destruct (Ascii.eqb_spec c "\"%char); [subst; congruence|]. by rewrite IH.
Qed.

Lemma mangle_char_mem esc c a :
  (esc a = true -> string_mem a (mangle_char esc c) = false \/ a = "\"%char \/ is_oct a = true).
Proof.
  intros Ha. unfold mangle_char. destruct (esc c) eqn:Ec.
  - destruct (is_oct a) eqn:Eo; [by right; right|]. destruct (Ascii.eqb_spec a "\"%char); [by right; left|].
    left. assert (forall n, (n < 8)%nat -> Ascii.eqb (oct_char n) a = false) as Ho.
    { intros k Hk. apply Ascii.eqb_neq. intros <-. revert Eo. unfold oct_char.
      do 8 (destruct k as [|k]; [done|]). lia. }
    assert (ord c < 256)%nat by (destruct c as [[] [] [] [] [] [] [] []]; vm_compute; lia).
    cbn [string_mem]. rewrite !Ho by first [apply Nat.Div0.div_lt_upper_bound; lia | apply Nat.mod_upper_bound; lia].
    rewrite orb_false_r. apply Ascii.eqb_neq. congruence.
  - left. cbn [string_mem]. rewrite orb_false_r. apply Ascii.eqb_neq. intros ->. congruence.
Qed.

(** Mangled text holds none of the characters that are escaped. *)
Lemma mangle_free esc s a :
  esc a = true -> a <> "\"%char -> is_oct a = false -> string_mem a (mangle esc s) = false.
Proof.
  intros He Hb Ho. induction s as [|c s IH]; [done|]. cbn [mangle]. rewrite string_mem_app, IH.
  destruct (mangle_char_mem esc c a He) as [->|[?|?]]; [done|done|congruence].
Qed.

Lemma mangle_no_nul esc s : string_mem NUL s = false -> string_mem NUL (mangle esc s) = false.
Proof.
  induction s as [|c s IH]; [done|]. cbn [string_mem mangle]. intros [Hc Hs]%orb_false_iff.
  rewrite string_mem_app, IH by done. rewrite orb_false_r. unfold mangle_char.
  destruct (esc c); [|cbn [string_mem]; by rewrite Hc].
  destruct c as [[] [] [] [] [] [] [] []]; done.
Qed.

Lemma mangle_nonempty esc s : nonempty s = true -> nonempty (mangle esc s) = true.
Proof. destruct s as [|c s]; [done|]. intros _. cbn [mangle]. unfold mangle_char. by destruct (esc c). Qed.

Lemma unmangle_mangle esc s :
  esc "\"%char = true -> string_mem NUL s = false -> unmangle (mangle esc s) = Ok s.
Proof.
  intros He Hn. rewrite unmangle_spec by by apply mangle_no_nul.
  rewrite decode_mangle by done.
  assert (no_nul (String.list_ascii_of_string s)) as Hl.
  { clear He. induction s as [|c s IH]; [constructor|]. cbn [string_mem] in Hn.
    apply orb_false_iff in Hn as [Hc Hn]. constructor; [by apply Ascii.eqb_neq|by apply IH]. }
  by rewrite cut_id, of_list_of_string.
Qed.

(** ** Lines *)

Lemma skip_char_token d s : match s with String c _ => negb (Ascii.eqb c d) | EmptyString => true end = true ->
  skip_char d s = s.
Proof. destruct s as [|c s]; [done|]. cbn [skip_char]. by destruct (Ascii.eqb c d). Qed.

Lemma strtok1_token d tok rest :
  is_token d tok = true -> strtok1 d (tok +:+ String d rest) = Some (tok, rest).
Proof.
  unfold is_token. intros [Hn Hm%negb_true_iff]%andb_true_iff. unfold strtok1.
  rewrite skip_char_token.
  - rewrite nonempty_app by done. by rewrite strchr_split_app.
  - destruct tok as [|c tok]; [done|]. cbn [string_mem] in Hm. apply orb_false_iff in Hm as [Hm _].
    change (String c tok +:+ String d rest) with (String c (tok +:+ String d rest)).
    cbn iota. by rewrite Hm.
Qed.

Lemma strtok1_skip d s : strtok1 d (String d s) = strtok1 d s.
Proof. unfold strtok1. cbn [skip_char]. by rewrite Ascii.eqb_refl. Qed.

(** A line of mountinfo: the fields that are read, and the texts in between. *)
Record mount_line := mk_line {
  ml_id : Z; ml_parent : string; ml_dev : string; ml_root : string; ml_dir : string;
  ml_opts : string; ml_type : string; ml_rest : string
}.

Definition sp : ascii := " "%char.

Definition render_line (esc : ascii -> bool) (m : mount_line) : string :=
  print_u (ml_id m) +:+ String sp (ml_parent m +:+ String sp (ml_dev m +:+ String sp
    (mangle esc (ml_root m) +:+ String sp (mangle esc (ml_dir m) +:+ String sp
    (ml_opts m +:+ String "-" (String sp (ml_type m +:+ String sp (ml_rest m)))))))).

Definition line_ok (m : mount_line) : bool :=
  (0 <=? ml_id m) && (ml_id m <=? INT_MAX) &&
  is_token sp (ml_parent m) && is_token sp (ml_dev m) &&
  nonempty (ml_root m) && negb (string_mem NUL (ml_root m)) &&
  nonempty (ml_dir m) && negb (string_mem NUL (ml_dir m)) &&
  is_token "-"%char (ml_opts m) && is_token sp (ml_type m).

Definition mount_of (m : mount_line) : MountData := mk_mount (ml_id m) (ml_root m) (ml_dir m) (ml_type m).

Lemma atoi_print z : 0 <= z <= INT_MAX -> atoi (print_u z) = z.
Proof.
  intros Hz. unfold INT_MAX in *.
  assert (strtol 10 (print_u z) = (z, "")) as E.
  { rewrite <- (strtol_print_d z) by (unfold INT_MIN, INT_MAX; lia). by rewrite print_d_nonneg by lia. }
  unfold atoi. rewrite E. cbn [fst]. unfold s32. rewrite Z.mod_small by lia. lia.
Qed.

Lemma print_u_token z : 0 <= z -> is_token sp (print_u z) = true.
Proof.
  intros Hz. unfold is_token. destruct (print_u_first z "" Hz) as (c & r & E & _).
  rewrite append_empty_r in E. rewrite E. cbn [nonempty andb]. rewrite <- E. by rewrite print_u_no_mem.
Qed.

Lemma mangle_token esc s :
  esc sp = true -> nonempty s = true -> is_token sp (mangle esc s) = true.
Proof.
  intros He Hs. unfold is_token. rewrite mangle_nonempty by done.
  by rewrite (mangle_free esc s sp He) by done.
Qed.

(** Parse_line recovers the mount id, the root, the mount point and the file
    system type of a line as the kernel writes it, with the characters the
    kernel escapes (blanks and backslashes among them) restored. *)
Theorem parse_line_roundtrip esc m :
  esc sp = true -> esc "\"%char = true -> line_ok m = true ->
  parse_line (render_line esc m) = Ok (mount_of m).
Proof.
  intros Hsp Hbs Hok. unfold line_ok in Hok. rewrite !andb_true_iff, !negb_true_iff, !Z.leb_le in Hok.
  destruct Hok as [[[[[[[[[H1 H2] H3] H4] H5] H6] H7] H8] H9] H10].
  unfold parse_line, render_line. rewrite strtok1_token by (apply print_u_token; lia).
  cbn [parse_tokens]. rewrite (strtok1_token sp (ml_parent m)) by done.
  change (1 + 1 =? 4) with false. change (1 + 1 =? 5) with false. cbn iota.
  rewrite (strtok1_token sp (ml_dev m)) by done.
  change (1 + 1 + 1 =? 4) with false. change (1 + 1 + 1 =? 5) with false. cbn iota.
  rewrite (strtok1_token sp (mangle esc (ml_root m))) by by apply mangle_token.
  change (1 + 1 + 1 + 1 =? 4) with true. cbn iota.
  rewrite (strtok1_token sp (mangle esc (ml_dir m))) by by apply mangle_token.
  change (1 + 1 + 1 + 1 + 1 =? 4) with false. change (1 + 1 + 1 + 1 + 1 =? 5) with true. cbn iota.
  rewrite (strtok1_token "-"%char) by done. fold sp. rewrite strtok1_skip, strtok1_token by done.
  rewrite atoi_print by done. rewrite (proj2 (Z.ltb_ge _ _)) by done.
  rewrite !unmangle_mangle by done. done.
Qed.

(** ** Arrays of mount points *)

(** The mount points that lie below [path] among the mounts behind [id]. *)
Fixpoint behind (id : Z) (ms : list MountData) : option (list MountData) :=
  match ms with
  | [] => None
  | m :: ms' => if mountid m =? id then Some ms' else behind id ms'
  end.

Definition below (path : string) (ms : list MountData) : list string :=
  List.filter (contained path) (map dir ms).

Lemma find_mount_spec id lines ms :
  Forall2 (fun l m => parse_line l = Ok m) lines ms ->
  exists o, find_mount id lines = Ok o /\
    match o, behind id ms with
    | None, None => True
    | Some ls, Some ms' => Forall2 (fun l m => parse_line l = Ok m) ls ms'
    | _, _ => False
    end.
Proof.
  induction 1 as [|l m lines ms Hl HF IH]; [by exists None|].
  cbn [find_mount behind]. rewrite Hl. cbn [obind].
  destruct (mountid m =? id); [by exists (Some lines)|exact IH].
Qed.

Lemma store_fits rv size x :
  0 < size -> Z.of_nat (length rv) <= size ->
  exists size', store rv size x = Some (rv ++ [x], size') /\ 0 < size' /\
    Z.of_nat (length (rv ++ [x])) <= size'.
Proof.
  intros H1 H2. unfold store. rewrite length_app. cbn [length].
  destruct (Z.eqb_spec (Z.of_nat (length rv)) size);
    rewrite (proj2 (Z.ltb_lt _ _)) by lia; eexists; (split; [reflexivity|lia]).
Qed.

Lemma add_mounts_spec path lines ms rv size :
  Forall2 (fun l m => parse_line l = Ok m) lines ms ->
  0 < size -> Z.of_nat (length rv) <= size ->
  exists size', add_mounts path lines rv size = Ok (rv ++ below path ms, size') /\ 0 < size' /\
    Z.of_nat (length (rv ++ below path ms)) <= size'.
Proof.
  intros HF. revert rv size. induction HF as [|l m lines ms Hl HF IH]; intros rv size H1 H2.
  { exists size. cbn [add_mounts]. unfold below. cbn [map List.filter]. by rewrite app_nil_r. }
  cbn [add_mounts]. rewrite Hl. cbn [obind]. unfold below. cbn [map List.filter]. fold (below path ms).
  destruct (contained path (dir m)).
  - destruct (store_fits rv size (dir m) H1 H2) as (size' & -> & H3 & H4).
    destruct (IH _ _ H3 H4) as (size'' & -> & H5 & H6). exists size''.
    rewrite <- !app_assoc in *. cbn [app] in *. done.
  - by apply IH.
Qed.

(** Build_mount_array returns the path followed by the mount points below it
    that were mounted after the mount with the given id, in order, and NULL when
    there is no such mount; the array always has room for them and for its NULL
    element, however many mounts there are. *)
Theorem build_mount_array_spec id path lines ms :
  Forall2 (fun l m => parse_line l = Ok m) lines ms ->
  build_mount_array id path lines =
  Ok (match behind id ms with
      | None => None
      | Some rest => Some (path :: below path rest)
      end).
Proof.
  intros HF. unfold build_mount_array.
  destruct (find_mount_spec id lines ms HF) as (o & -> & Ho). cbn [obind].
  destruct o as [ls|], (behind id ms) as [rest|]; try done.
  destruct (add_mounts_spec path ls rest [path] 32 Ho) as (size & -> & H1 & H2); [lia|simpl; lia|].
  cbn [obind app] in *.
  destruct (Z.eqb_spec (Z.of_nat (length (path :: below path rest))) size);
    rewrite (proj2 (Z.ltb_lt _ _)) by lia; done.
Qed.

Lemma contained_root d : has_prefix "//" d = false -> contained "/" d = false.
Proof.
  unfold contained, has_prefix. intros H.
  destruct d as [|c [|c' s]]; [done| |]; cbn [strip_prefix] in *; destruct (Ascii.eqb "/" c); try done.
  rewrite Ascii.eqb_sym. by destruct (Ascii.eqb "/" c').
Qed.

(** Below the root directory nothing is found: the character behind the path
    is compared with a slash, and that of "/" is the first of a name. *)
Lemma build_mount_array_root id lines ms rest :
  Forall2 (fun l m => parse_line l = Ok m) lines ms -> behind id ms = Some rest ->
  Forall (fun m => has_prefix "//" (dir m) = false) rest ->
  build_mount_array id "/" lines = Ok (Some ["/"]).
Proof.
  intros HF Hb Hr. rewrite (build_mount_array_spec id "/" lines ms HF), Hb.
  assert (below "/" rest = []) as ->; [|done].
  unfold below. clear HF Hb. induction Hr as [|m rest Hm Hr IH]; [done|]. cbn [map List.filter].
  by rewrite contained_root.
Qed.

(** ** Evaluations *)

Definition kernel_esc (c : ascii) : bool :=
  existsb (Ascii.eqb c) [" "%char; chr 9; chr 10; "\"%char; "#"%char].

Definition demo_mounts : list mount_line :=
  [mk_line 587 "543" "8:1" "/tmp" "/etc" "rw,relatime master:1 " "ext4" "/dev/sda1 rw";
   mk_line 588 "587" "0:76" "/" "/etc/my dir" "rw,nosuid,nodev " "tmpfs" "tmpfs rw";
   mk_line 589 "543" "0:77" "/" "/etcetera" "rw " "tmpfs" "tmpfs rw"].

Lemma unmangle_path_in_place_witness :
  exists junk, unmangle_path (String.list_ascii_of_string "/my\040dir" ++ NUL :: [newline])
    = Ok (String.list_ascii_of_string "/my dir" ++ NUL :: junk).
Proof.
  apply (unmangle_path_in_place (String.list_ascii_of_string "/my\040dir") [newline]).
  apply (bool_decide_unpack _). vm_compute. exact I.
Defined.

Lemma parse_line_roundtrip_witness :
  parse_line "588 587 0:76 / /etc/my\040dir rw,nosuid,nodev - tmpfs tmpfs rw" =
  Ok (mk_mount 588 "/" "/etc/my dir" "tmpfs").
Proof.
  apply (parse_line_roundtrip kernel_esc
    (mk_line 588 "587" "0:76" "/" "/etc/my dir" "rw,nosuid,nodev " "tmpfs" "tmpfs rw")); reflexivity.
Defined.

Lemma build_mount_array_spec_witness :
  build_mount_array 587 "/etc" (map (render_line kernel_esc) demo_mounts) = Ok (Some ["/etc"; "/etc/my dir"]).
Proof.
  rewrite (build_mount_array_spec 587 "/etc" _ (map mount_of demo_mounts)); [reflexivity|].
  repeat (constructor; [reflexivity|]). constructor.
Defined.
