(* ===== verification/Users.v ===== *)
(** * Hiding other users (src/firejail/restrict_users.c)

    /etc/passwd and /etc/group are replaced by copies without the users and
    groups a sandboxed program has no business with.  [sanitize_passwd] collects
    the names of the users it drops in [ulist]; [sanitize_group] removes these
    names from the groups it keeps.  Files are read with fgets into a buffer of
    [USERS_MAXBUF] bytes; what does not look like an entry ends the copy, and
    the original file stays in place. *)

From S2P Require Import Prelude.
From S2P Require Import Clib.
From S2P Require Import Text.
From S2P Require Import Common.

Definition USERS_MAXBUF : nat := 1024.

(** ** The list of hidden users *)

Definition ulist_add (user : string) (ulist : list string) : list string := user :: ulist.

Fixpoint ulist_find (user : string) (ulist : list string) : bool :=
  match ulist with
  | [] => false
  | u :: ulist' => streq u user || ulist_find user ulist'
  end.

(** A file under /etc as the code meets it: whether stat(2) finds it, whether it
    is a link, what can be read, and whether the copy can be created. *)
Record etc_file := mk_etc {
  etc_exists : bool;
  etc_link : bool;
  etc_contents : option string;
  etc_out : bool
}.

(** ** /etc/passwd *)

(** Skip two fields: the name, the text behind the second colon, and the number
    there; [None] is [goto errout]. *)
Definition entry_id (buf : string) : option (string * string * Z) :=
  '(name, s1) <-? strchr_split ":"%char buf ;;
  '(_, s2) <-? strchr_split ":"%char s1 ;;
  if nonempty s2 then
    '(id, _) <-? scan_d s2 ;;
    if id <? 0 then None else Some (name, s2, id)
  else None.

Definition comment (buf : string) : bool :=
  match buf with EmptyString => true | String c _ => Ascii.eqb c "#"%char end.

Record copy_state := mk_copy { ulist : list string; copied : string }.

Definition print_to (s : string) (st : copy_state) : copy_state := mk_copy (ulist st) (copied st +:+ s).

(** One iteration of the loop of [sanitize_passwd]. *)
Definition passwd_line (uid_min myuid : Z) (buf : string) (st : copy_state) : option copy_state :=
  if comment buf then Some st
  else
    '(user, _, uid) <-? entry_id buf ;;
    if (uid <? uid_min) || (uid =? 65534) then Some (print_to buf st)
    else if negb (uid =? myuid) then Some (mk_copy (ulist_add user (ulist st)) (copied st))
    else Some (print_to buf st).

(** A loop over the buffers; the state at the error is kept. *)
Fixpoint copy_lines (f : string -> copy_state -> option copy_state) (bufs : list string) (st : copy_state)
    : copy_state * bool :=
  match bufs with
  | [] => (st, true)
  | b :: bufs' =>
      match f b st with
      | Some st' => copy_lines f bufs' st'
      | None => (st, false)
      end
  end.

(** The common frame of the two functions: the new contents, [None] when the
    original stays, and the list of users. *)
Definition sanitize (file : etc_file) (id_min : Z) (f : string -> copy_state -> option copy_state)
    (users : list string) : outcome (list string * option string) :=
  if negb (etc_exists file) then Ok (users, None)
  else if id_min =? 0 then AssertFail
  else if etc_link file then Exit 1
  else match etc_contents file with
       | None => Ok (users, None)
       | Some s =>
           if negb (etc_out file) then Ok (users, None)
           else
             let '(st, ok) := copy_lines f (map c_string (fgets USERS_MAXBUF s)) (mk_copy users "") in
             Ok (ulist st, if ok then Some (copied st) else None)
       end.

Definition sanitize_passwd (file : etc_file) (uid_min myuid : Z) (users : list string) :=
  sanitize file uid_min (passwd_line uid_min myuid) users.

(** ** /etc/group *)

(** Tokens of [strtok(ptr, ",\n")]. *)
Definition member_tokens (s : string) : list string :=
  strtok ","%char (string_map (fun c => if Ascii.eqb c newline then ","%char else c) s).

(** The loop that prints the members: [first] is the flag of the source. *)
Fixpoint print_members (users : list string) (first : bool) (toks : list string) : string :=
  match toks with
  | [] => EmptyString
  | t :: toks' =>
      if ulist_find t users then print_members users first toks'
      else (if first then EmptyString else ",") +:+ t +:+ print_members users false toks'
  end.

(** [copy_line(fpout, buf, ptr)] with [ptr] at [head] characters from the start
    of the buffer; [None] when it returns 1. *)
Definition copy_line (buf ptr : string) (st : copy_state) : option copy_state :=
  '(_, s) <-? strchr_split ":"%char ptr ;;
  match s with
  | EmptyString => Some (print_to buf st)
  | String c _ =>
      if Ascii.eqb c newline then Some (print_to buf st)
      else
        let head := String.substring 0 (String.length buf - String.length s) buf in
        Some (print_to (head +:+ print_members (ulist st) true (member_tokens s)
                             +:+ String newline EmptyString) st)
  end.

(** One iteration of the loop of [sanitize_group]. *)
Definition group_line (gid_min mygid : Z) (buf : string) (st : copy_state) : option copy_state :=
  if comment buf then Some st
  else
    '(_, ptr, gid) <-? entry_id buf ;;
    if (gid <? gid_min) || (gid =? 65534) then copy_line buf ptr st
    else if negb (gid =? mygid) then Some st
    else copy_line buf ptr st.

Definition sanitize_group (file : etc_file) (gid_min mygid : Z) (users : list string) :=
  sanitize file gid_min (group_line gid_min mygid) users.

(** The two files of restrict_users for a regular user: what is mounted over
    /etc/passwd and /etc/group. *)
Definition new_users (passwd group : etc_file) (uid_min gid_min uid gid : Z)
    : outcome (option string * option string) :=
  obind (sanitize_passwd passwd uid_min uid []) (fun '(users, new_passwd) =>
  obind (sanitize_group group gid_min gid users) (fun '(_, new_group) =>
  Ok (new_passwd, new_group))).

(** * Theorems about restrict_users.c

    [pw_entry] and [gr_entry] are the entries of the two files, [render_pw] and
    [render_gr] their lines. *)

(** ** Entries *)

Definition colon : ascii := ":"%char.

Record pw_entry := mk_pw { pw_name : string; pw_pass : string; pw_uid : Z; pw_rest : string }.
Record gr_entry := mk_gr { gr_name : string; gr_pass : string; gr_gid : Z; gr_members : list string }.

Definition render_pw (e : pw_entry) : string :=
  pw_name e +:+ String colon (pw_pass e +:+ String colon (print_u (pw_uid e) +:+ String colon (pw_rest e))).

Definition render_gr (e : gr_entry) : string :=
  gr_name e +:+ String colon (gr_pass e +:+ String colon
    (print_u (gr_gid e) +:+ String colon (String.concat "," (gr_members e)))).

(** A line that fits the buffer, is no comment, and whose first fields are
    fields. *)
Definition fields_ok (name pass : string) (id : Z) (text : string) : bool :=
  fgets_line USERS_MAXBUF text && negb (string_mem NUL text) && negb (comment text) &&
  negb (string_mem colon name) && negb (string_mem colon pass) && (0 <=? id) && (id <=? INT_MAX).

Definition pw_ok (e : pw_entry) : bool := fields_ok (pw_name e) (pw_pass e) (pw_uid e) (render_pw e).

Definition member_ok (m : string) : bool := is_token ","%char m && negb (string_mem newline m).

Definition gr_ok (e : gr_entry) : bool :=
  fields_ok (gr_name e) (gr_pass e) (gr_gid e) (render_gr e) && forallb member_ok (gr_members e).

Lemma entry_id_fields name pass id rest tail :
  string_mem colon name = false -> string_mem colon pass = false -> 0 <= id <= INT_MAX ->
  entry_id (name +:+ String colon (pass +:+ String colon (print_u id +:+ String colon rest)) +:+ tail) =
  Some (name, print_u id +:+ String colon rest +:+ tail, id).
Proof.
  intros Hn Hp Hid. unfold entry_id. change (String colon ?x +:+ tail) with (String colon (x +:+ tail)).
  rewrite strchr_split_app by done. cbn [mbind option_bind].
  rewrite !append_assoc. change (String colon ?x +:+ tail) with (String colon (x +:+ tail)).
  rewrite strchr_split_app by done. cbn [mbind option_bind].
  rewrite !append_assoc. change (String colon ?x +:+ tail) with (String colon (x +:+ tail)).
  assert (nonempty (print_u id +:+ String colon (rest +:+ tail)) = true) as ->.
  { destruct (print_u_first id (String colon (rest +:+ tail))) as (c & r & -> & _); [lia|done]. }
  rewrite scan_print_d by done. cbn [mbind option_bind].
  by rewrite (proj2 (Z.ltb_ge _ _)) by lia.
Qed.

(** ** /etc/passwd *)

Definition pw_kept (uid_min myuid : Z) (e : pw_entry) : bool :=
  (pw_uid e <? uid_min) || (pw_uid e =? 65534) || (pw_uid e =? myuid).

Lemma comment_line s : nonempty s = true -> comment (line s) = comment s.
Proof. by destruct s. Qed.

Lemma fields_ok_text name pass id text :
  fields_ok name pass id text = true ->
  c_string (line text) = line text /\ comment (line text) = false /\
  string_mem colon name = false /\ string_mem colon pass = false /\ 0 <= id <= INT_MAX /\
  fgets_line USERS_MAXBUF text = true.
Proof.
  unfold fields_ok. rewrite !andb_true_iff, !negb_true_iff, !Z.leb_le.
  intros [[[[[[H1 H2] H3] H4] H5] H6] H7]. split; [|split; [|done]].
  - apply c_string_id. unfold line. by rewrite string_mem_app, H2.
  - destruct text as [|c text]; [done|]. by rewrite comment_line.
Qed.

Lemma passwd_line_spec uid_min myuid e st :
  pw_ok e = true ->
  passwd_line uid_min myuid (line (render_pw e)) st =
  Some (if pw_kept uid_min myuid e then print_to (line (render_pw e)) st
        else mk_copy (ulist_add (pw_name e) (ulist st)) (copied st)).
Proof.
  intros Hok. destruct (fields_ok_text _ _ _ _ Hok) as (_ & Hc & Hn & Hp & Hid & _).
  unfold passwd_line. rewrite Hc.
  assert (entry_id (line (render_pw e)) =
    Some (pw_name e, print_u (pw_uid e) +:+ String colon (pw_rest e) +:+ String newline "", pw_uid e)) as ->.
  { unfold line, render_pw. rewrite append_assoc. by apply entry_id_fields. }
  cbn [mbind option_bind].
  unfold pw_kept. destruct ((_ <? _) || _); [done|]. cbn [orb].
  by destruct (pw_uid e =? myuid).
Qed.

Definition hidden_users (uid_min myuid : Z) (es : list pw_entry) : list string :=
  map pw_name (List.filter (fun e => negb (pw_kept uid_min myuid e)) es).

Lemma passwd_lines_spec uid_min myuid es st :
  forallb pw_ok es = true ->
  copy_lines (passwd_line uid_min myuid) (map line (map render_pw es)) st =
  (mk_copy (rev (hidden_users uid_min myuid es) ++ ulist st)
     (copied st +:+ String.concat "" (map line (map render_pw (List.filter (pw_kept uid_min myuid) es)))), true).
Proof.
  revert st. induction es as [|e es IH]; intros st Hok.
  { cbn. rewrite append_empty_r. by destruct st. }
  cbn [forallb] in Hok. apply andb_true_iff in Hok as [He Hok].
  cbn [map copy_lines]. rewrite passwd_line_spec, IH by done.
  unfold hidden_users. cbn [List.filter]. destruct (pw_kept uid_min myuid e); cbn [negb map].
  - rewrite concat_cons. cbn [print_to copied ulist]. by rewrite append_assoc.
  - cbn [copied ulist rev]. unfold ulist_add. by rewrite <- app_assoc.
Qed.

(** ** /etc/group *)

Definition gr_kept (gid_min mygid : Z) (e : gr_entry) : bool :=
  (gr_gid e <? gid_min) || (gr_gid e =? 65534) || (gr_gid e =? mygid).

(** The entry without the hidden users. *)
Definition visible (users : list string) (e : gr_entry) : gr_entry :=
  mk_gr (gr_name e) (gr_pass e) (gr_gid e)
    (List.filter (fun m => negb (ulist_find m users)) (gr_members e)).

Lemma print_members_spec users toks :
  let vis := List.filter (fun m => negb (ulist_find m users)) toks in
  print_members users true toks = String.concat "," vis /\
  print_members users false toks = match vis with [] => "" | _ => "," +:+ String.concat "," vis end.
Proof.
  induction toks as [|t toks [IH1 IH2]]; [done|]. cbn [print_members List.filter].
  destruct (ulist_find t users); cbn [negb]; [done|].
  rewrite IH2. set (vis := List.filter _ toks) in *. cbv zeta.
  assert (t +:+ match vis with [] => "" | _ => "," +:+ String.concat "," vis end = String.concat "," (t :: vis)) as E.
  { destruct vis; [apply append_empty_r|done]. }
  split; [exact E|]. by rewrite <- E.
Qed.

Lemma string_map_app f a b : string_map f (a +:+ b) = string_map f a +:+ string_map f b.
Proof.
  induction a as [|c a IH]; [done|].
  change (String (f c) (string_map f (a +:+ b)) = String (f c) (string_map f a +:+ string_map f b)).
  by rewrite IH.
Qed.

Lemma string_map_id f s : string_forallb (fun c => Ascii.eqb (f c) c) s = true -> string_map f s = s.
Proof.
  induction s as [|c s IH]; [done|]. cbn [string_forallb string_map].
  intros [H1%Ascii.eqb_eq H2]%andb_true_iff. by rewrite H1, IH.
Qed.

Lemma concat_no_newline ms :
  forallb member_ok ms = true -> string_mem newline (String.concat "," ms) = false.
Proof.
  induction ms as [|m ms IH]; [done|]. cbn [forallb]. unfold member_ok at 1.
  intros [[_ Hm%negb_true_iff]%andb_true_iff Hms]%andb_true_iff.
  destruct ms as [|m' ms]; [done|].
  change (String.concat "," (m :: m' :: ms)) with (m +:+ "," +:+ String.concat "," (m' :: ms)).
  by rewrite !string_mem_app, Hm, IH.
Qed.

Lemma member_tokens_concat ms :
  forallb member_ok ms = true -> member_tokens (line (String.concat "," ms)) = ms.
Proof.
  intros Hok. unfold member_tokens, line. rewrite string_map_app.
  assert (string_map (fun c => if Ascii.eqb c newline then ","%char else c) (String.concat "," ms)
    = String.concat "," ms) as ->.
  { apply string_map_id. pose proof (concat_no_newline ms Hok) as Hn.
    induction (String.concat "," ms) as [|c s IH]; [done|].
    cbn [string_mem string_forallb] in *. apply orb_false_iff in Hn as [Hc Hs].
    rewrite Hc, Ascii.eqb_refl. by apply IH. }
  change (string_map _ (String newline "")) with (String ","%char "").
  rewrite strtok_app, strtok_concat; [by rewrite app_nil_r|].
  clear -Hok. induction ms as [|m ms IH]; [done|]. cbn [forallb] in *.
  apply andb_true_iff in Hok as [Hm Hms]. unfold member_ok in Hm.
  apply andb_true_iff in Hm as [-> _]. by apply IH.
Qed.

Lemma substring_prefix a b : String.substring 0 (String.length a) (a +:+ b) = a.
Proof. induction a as [|c a IH]; [by destruct b|]. simpl. by rewrite IH. Qed.

Lemma copy_line_spec e st :
  gr_ok e = true ->
  copy_line (line (render_gr e))
    (print_u (gr_gid e) +:+ String colon (String.concat "," (gr_members e)) +:+ String newline "") st =
  Some (print_to (line (render_gr (visible (ulist st) e))) st).
Proof.
  unfold gr_ok. intros [Hok Hms]%andb_true_iff.
  unfold copy_line. change (String colon ?x +:+ ?y) with (String colon (x +:+ y)).
  rewrite strchr_split_app by by apply print_u_no_mem.
  cbn [mbind option_bind]. fold (line (String.concat "," (gr_members e))).
  destruct (gr_members e) as [|m ms] eqn:Em.
  { cbn [String.concat]. change (line "") with (String newline ""). cbn iota. rewrite Ascii.eqb_refl.
    do 2 f_equal. unfold render_gr, visible. cbn [gr_name gr_pass gr_gid gr_members]. by rewrite Em. }
  assert (exists c s, line (String.concat "," (m :: ms)) = String c s /\ Ascii.eqb c newline = false) as (c & s & Es & Hc).
  { pose proof (concat_no_newline _ Hms) as Hn.
    assert (nonempty (String.concat "," (m :: ms)) = true) as Hne.
    { cbn [forallb] in Hms. unfold member_ok, is_token in Hms.
      apply andb_true_iff in Hms as [[[Hm _]%andb_true_iff _]%andb_true_iff _].
      destruct m; [done|]. by destruct ms. }
    destruct (String.concat "," (m :: ms)) as [|c s]; [done|].
    exists c, (line s). split; [done|]. cbn [string_mem] in Hn. by apply orb_false_iff in Hn as [-> _]. }
  rewrite Es, Hc, <- Es. do 2 f_equal.
  set (head := gr_name e +:+ String colon (gr_pass e +:+ String colon (print_u (gr_gid e) +:+ String colon ""))).
  assert (line (render_gr e) = head +:+ line (String.concat "," (m :: ms))) as ->.
  { unfold head, line, render_gr. rewrite Em.
    change (String colon ?x +:+ ?y) with (String colon (x +:+ y)).
    repeat (rewrite append_assoc; change (String colon ?x +:+ ?y) with (String colon (x +:+ y))). done. }
  rewrite length_string_app, Nat.add_sub, substring_prefix.
  rewrite member_tokens_concat by done.
  destruct (print_members_spec (ulist st) (m :: ms)) as [-> _].
  unfold head, line, render_gr, visible. cbn [gr_name gr_pass gr_gid gr_members]. rewrite Em.
  repeat (rewrite append_assoc; change (String colon ?x +:+ ?y) with (String colon (x +:+ y))). done.
Qed.

Lemma group_line_spec gid_min mygid e st :
  gr_ok e = true ->
  group_line gid_min mygid (line (render_gr e)) st =
  Some (if gr_kept gid_min mygid e then print_to (line (render_gr (visible (ulist st) e))) st else st).
Proof.
  intros Hok. pose proof Hok as Hok'. unfold gr_ok in Hok'. apply andb_true_iff in Hok' as [Hf _].
  destruct (fields_ok_text _ _ _ _ Hf) as (_ & Hc & Hn & Hp & Hid & _).
  unfold group_line. rewrite Hc.
  assert (entry_id (line (render_gr e)) =
    Some (gr_name e, print_u (gr_gid e) +:+ String colon (String.concat "," (gr_members e)) +:+ String newline "",
          gr_gid e)) as ->.
  { unfold line, render_gr. rewrite append_assoc. by apply entry_id_fields. }
  cbn [mbind option_bind]. rewrite copy_line_spec by done. unfold gr_kept.
  destruct ((_ <? _) || _); [done|]. cbn [orb]. by destruct (gr_gid e =? mygid).
Qed.

Lemma group_lines_spec gid_min mygid es st :
  forallb gr_ok es = true ->
  copy_lines (group_line gid_min mygid) (map line (map render_gr es)) st =
  (mk_copy (ulist st)
     (copied st +:+ String.concat "" (map line (map render_gr
        (map (visible (ulist st)) (List.filter (gr_kept gid_min mygid) es))))), true).
Proof.
  revert st. induction es as [|e es IH]; intros st Hok.
  { cbn. rewrite append_empty_r. by destruct st. }
  cbn [forallb] in Hok. apply andb_true_iff in Hok as [He Hok].
  cbn [map copy_lines]. rewrite group_line_spec, IH by done.
  cbn [List.filter]. destruct (gr_kept gid_min mygid e); cbn [map]; [|done].
  rewrite concat_cons. cbn [print_to copied ulist]. by rewrite append_assoc.
Qed.

(** ** The two files *)

Lemma sanitize_lines file texts id_min f users st' :
  etc_exists file = true -> id_min <> 0 -> etc_link file = false -> etc_out file = true ->
  etc_contents file = Some (String.concat "" (map line texts)) ->
  forallb (fgets_line USERS_MAXBUF) texts = true ->
  Forall (fun t => c_string (line t) = line t) texts ->
  copy_lines f (map line texts) (mk_copy users "") = (st', true) ->
  sanitize file id_min f users = Ok (ulist st', Some (copied st')).
Proof.
  intros He Hid Hl Ho Hc Hf Hn Hcopy. unfold sanitize.
  rewrite He, (proj2 (Z.eqb_neq _ _)), Hl, Hc, Ho by done. cbn [negb].
  rewrite fgets_lines by done.
  assert (map c_string (map line texts) = map line texts) as ->.
  { clear -Hn. induction Hn as [|t ts Ht Hn IH]; [done|]. cbn [map]. by rewrite Ht, IH. }
  by rewrite Hcopy.
Qed.

Definition readable (file : etc_file) (s : string) : Prop :=
  etc_exists file = true /\ etc_link file = false /\ etc_out file = true /\ etc_contents file = Some s.

(** C32: The program sees a password file with the system users and its own user,
    and a group file with the system groups and its own group, from whose
    member lists exactly the users dropped from the password file are gone. *)
Theorem restrict_users_spec passwd group pw gr uid_min gid_min uid gid :
  readable passwd (String.concat "" (map line (map render_pw pw))) ->
  readable group (String.concat "" (map line (map render_gr gr))) ->
  uid_min <> 0 -> gid_min <> 0 ->
  forallb pw_ok pw = true -> forallb gr_ok gr = true ->
  new_users passwd group uid_min gid_min uid gid =
  Ok (Some (String.concat "" (map line (map render_pw (List.filter (pw_kept uid_min uid) pw)))),
      Some (String.concat "" (map line (map render_gr
        (map (visible (rev (hidden_users uid_min uid pw))) (List.filter (gr_kept gid_min gid) gr)))))).
Proof.
  intros (P1 & P2 & P3 & P4) (G1 & G2 & G3 & G4) Hu Hg Hpw Hgr. unfold new_users, sanitize_passwd.
  assert (forall es, forallb pw_ok es = true ->
    forallb (fgets_line USERS_MAXBUF) (map render_pw es) = true /\
    Forall (fun t => c_string (line t) = line t) (map render_pw es)) as Hfp.
  { induction es as [|e es IH]; [split; [done|constructor]|]. cbn [forallb map].
    intros [He [IH1 IH2]%IH]%andb_true_iff.
    destruct (fields_ok_text _ _ _ _ He) as (H1 & _ & _ & _ & _ & H2).
    rewrite H2, IH1. split; [done|by constructor]. }
  assert (forall es, forallb gr_ok es = true ->
    forallb (fgets_line USERS_MAXBUF) (map render_gr es) = true /\
    Forall (fun t => c_string (line t) = line t) (map render_gr es)) as Hfg.
  { induction es as [|e es IH]; [split; [done|constructor]|]. cbn [forallb map].
    intros [He [IH1 IH2]%IH]%andb_true_iff. unfold gr_ok in He. apply andb_true_iff in He as [He _].
    destruct (fields_ok_text _ _ _ _ He) as (H1 & _ & _ & _ & _ & H2).
    rewrite H2, IH1. split; [done|by constructor]. }
  destruct (Hfp pw Hpw) as [A1 A2], (Hfg gr Hgr) as [B1 B2].
  rewrite (sanitize_lines passwd (map render_pw pw) uid_min _ [] _ P1 Hu P2 P3 P4 A1 A2 (passwd_lines_spec uid_min uid pw _ Hpw)).
  cbn [obind ulist copied]. rewrite app_nil_r. change ("" +:+ ?x) with x. unfold sanitize_group.
  rewrite (sanitize_lines group (map render_gr gr) gid_min _ _ _ G1 Hg G2 G3 G4 B1 B2 (group_lines_spec gid_min gid gr _ Hgr)).
  done.
Qed.

(** A dropped user is in no member list that is written. *)
Lemma hidden_not_member users e m :
  In m users -> ~ In m (gr_members (visible users e)).
Proof.
  intros Hu [_ Hm]%filter_In. apply negb_true_iff in Hm.
  induction users as [|u users IH]; [done|]. cbn [ulist_find] in Hm.
  apply orb_false_iff in Hm as [Hm1 Hm2]. destruct Hu as [->|Hu]; [by rewrite streq_refl in Hm1|by apply IH].
Qed.

(** ** Lines that stop the copy *)

Lemma copy_lines_stop f pre bad post st st' :
  copy_lines f pre st = (st', true) -> f bad st' = None ->
  copy_lines f (pre ++ bad :: post) st = (st', false).
Proof.
  revert st. induction pre as [|b pre IH]; intros st; cbn [app copy_lines].
  - intros [= ->] ->. done.
  - destruct (f b st); [apply IH|done].
Qed.

(** One empty line in /etc/passwd is enough to leave the file as it is: the
    test for empty lines compares with an empty string, and fgets returns the
    newline. *)
Theorem passwd_blank_line_keeps_file file pre post uid_min uid :
  readable file (String.concat "" (map line (map render_pw pre ++ "" :: map render_pw post))) ->
  uid_min <> 0 -> forallb pw_ok pre = true -> forallb pw_ok post = true ->
  exists users, sanitize_passwd file uid_min uid [] = Ok (users, None).
Proof.
  intros (P1 & P2 & P3 & P4) Hu Hpre Hpost. unfold sanitize_passwd, sanitize.
  rewrite P1, (proj2 (Z.eqb_neq _ _)), P2, P3, P4 by done. cbn [negb].
  assert (forall es, forallb pw_ok es = true ->
    forallb (fgets_line USERS_MAXBUF) (map render_pw es) = true /\
    map c_string (map line (map render_pw es)) = map line (map render_pw es)) as Hfp.
  { induction es as [|e es IH]; [done|]. cbn [forallb map].
    intros [He [IH1 IH2]%IH]%andb_true_iff.
    destruct (fields_ok_text _ _ _ _ He) as (H1 & _ & _ & _ & _ & H2). by rewrite H2, IH1, H1, IH2. }
  destruct (Hfp pre Hpre) as [A1 A2], (Hfp post Hpost) as [B1 B2].
  rewrite fgets_lines by (rewrite forallb_app, A1; cbn [forallb]; by rewrite B1).
  rewrite !map_app, A2. cbn [map].
  erewrite copy_lines_stop; [eexists; reflexivity|by apply passwd_lines_spec|done].
Qed.

(** ** Evaluations *)

Definition demo_pw : list pw_entry :=
  [mk_pw "root" "x" 0 "0:root:/root:/bin/bash"; mk_pw "alice" "x" 1000 "1000::/home/alice:/bin/sh";
   mk_pw "bob" "x" 1001 "1001::/home/bob:/bin/sh"].
Definition demo_gr : list gr_entry :=
  [mk_gr "root" "x" 0 []; mk_gr "audio" "x" 29 ["alice"; "bob"; "pulse"]; mk_gr "bob" "x" 1001 []].

Definition demo_etc (s : string) : etc_file := mk_etc true false (Some s) true.

Lemma restrict_users_spec_witness :
  new_users (demo_etc (String.concat "" (map line (map render_pw demo_pw))))
    (demo_etc (String.concat "" (map line (map render_gr demo_gr)))) 1000 1000 1000 1000 =
  Ok (Some (line "root:x:0:0:root:/root:/bin/bash" +:+ line "alice:x:1000:1000::/home/alice:/bin/sh"),
      Some (line "root:x:0:" +:+ line "audio:x:29:alice,pulse")).
Proof.
  rewrite (restrict_users_spec _ _ demo_pw demo_gr); first [reflexivity | lia | by repeat split].
Defined.

Lemma passwd_blank_line_keeps_file_witness :
  exists users, sanitize_passwd
    (demo_etc (line "root:x:0:0:root:/root:/bin/bash" +:+ line "" +:+ line "bob:x:1001:1001::/home/bob:/bin/sh"))
    1000 1000 [] = Ok (users, None).
Proof.
  apply (passwd_blank_line_keeps_file _ [mk_pw "root" "x" 0 "0:root:/root:/bin/bash"]
    [mk_pw "bob" "x" 1001 "1001::/home/bob:/bin/sh"]); first [reflexivity | lia | by repeat split].
Defined.
