(* ===== verification/Util.v ===== *)
(** * String and process helpers (src/firejail/util.c)

    The functions that decide: sizes, names, paths, profile lines, time-outs,
    process ids, the supplementary groups a sandboxed program keeps, the
    descriptors it inherits and the message a parent sends its child.  Walks with
    a pointer are recursions on the text at the pointer. *)

From S2P Require Import Prelude.
From S2P Require Import Clib.
From S2P Require Import Text.

(** ** Sizes *)

Definition ULLONG_MAX : Z := 18446744073709551615.

(** [sscanf(str, "%llu", &result)] with [result] 0 when nothing matches. *)
Definition scan_llu (s : string) : Z :=
  let '(sign, s1) := read_sign (skip_spaces s) in
  match s1 with
  | String c _ =>
      if isdigit c then
        let v := (read_digits 10 0 s1).1 in if ULLONG_MAX <? v then ULLONG_MAX else u64 (sign * v)
      else 0
  | EmptyString => 0
  end.

Fixpoint last_char (s : string) : option ascii :=
  match s with
  | EmptyString => None
  | String c EmptyString => Some c
  | String _ s' => last_char s'
  end.

Fixpoint without_last (s : string) : string :=
  match s with
  | EmptyString => EmptyString
  | String c EmptyString => EmptyString
  | String c s' => String c (without_last s')
  end.

(** [None] is the read in front of an empty string. *)
Definition parse_arg_size (str : string) : option Z :=
  match last_char str with
  | None => None
  | Some c =>
      let result := scan_llu str in
      let suffix := toupper c in
      let is_unit := Ascii.eqb suffix "K"%char || Ascii.eqb suffix "M"%char || Ascii.eqb suffix "G"%char in
      let digits := if is_unit then without_last str else str in
      Some (if negb (string_forallb isdigit digits) then 0
            else if isdigit suffix then result
            else if Ascii.eqb suffix "K"%char then u64 (result * 1024)
            else if Ascii.eqb suffix "M"%char then u64 (result * (1024 * 1024))
            else if Ascii.eqb suffix "G"%char then u64 (result * (1024 * 1024 * 1024))
            else 0)
  end.

(** ** Paths *)

(** The loop of [trim_trailing_slash_or_dot] on the reversed text: the first
    character is [*end]. *)
Fixpoint trim_loop (r : list ascii) : list ascii :=
  match r with
  | c :: r' =>
      match r' with
      | [] => r
      | d :: _ =>
          if Ascii.eqb c "/"%char || (Ascii.eqb c "."%char && Ascii.eqb d "/"%char)
          then match r' with [_] => r' | _ => trim_loop r' end
          else r
      end
  | [] => []
  end.

Definition trim_trailing_slash_or_dot (path : string) : string :=
  String.string_of_list_ascii (rev (trim_loop (rev (String.list_ascii_of_string path)))).

(** [path[i+1] == '/' || (path[i+1] == '.' && path[i+2] == '/')], the argument
    being the text at [i + 1]. *)
Definition skippable (s : string) : bool :=
  match s with
  | String c s' =>
      Ascii.eqb c "/"%char ||
      (Ascii.eqb c "."%char && match s' with String d _ => Ascii.eqb d "/"%char | EmptyString => false end)
  | EmptyString => false
  end.

(** The inner loop, at a slash or inside what is skipped. *)
Fixpoint clean_skip (s : string) : string :=
  match s with
  | String _ s' => if skippable s' then clean_skip s' else s
  | EmptyString => EmptyString
  end.

Fixpoint clean_loop (fuel : nat) (s : string) : outcome string :=
  match fuel with
  | O => NoFuel
  | S f =>
      match s with
      | EmptyString => Ok EmptyString
      | String c _ =>
          match (if Ascii.eqb c "/"%char then clean_skip s else s) with
          | EmptyString => Ok EmptyString
          | String c' r => obind (clean_loop f r) (fun rv => Ok (String c' rv))
          end
      end
  end.

(** [rv[j - 1]] and [rv[j - 2]] on the reversed text, and the removals. *)
Definition clean_end (r : list ascii) : list ascii :=
  let r := match r with
           | c :: ((d :: _) as r') => if Ascii.eqb c "."%char && Ascii.eqb d "/"%char then r' else r
           | _ => r
           end in
  match r with
  | c :: ((_ :: _) as r') => if Ascii.eqb c "/"%char then r' else r
  | _ => r
  end.

Definition clean_pathname (path : string) : outcome string :=
  if has_prefix "/" path then
    obind (clean_loop (S (String.length path)) path) (fun rv =>
      Ok (String.string_of_list_ascii (rev (clean_end (rev (String.list_ascii_of_string rv))))))
  else AssertFail.

(** [strchr(str, ',')] with the comma overwritten: the first part, and the second
    when it is not empty. *)
Definition split_comma (str : string) : string * option string :=
  match strchr_split ","%char str with
  | Some (l, r) => (l, if nonempty r then Some r else None)
  | None => (str, None)
  end.

(** ** Profile lines *)

Definition is_blank (c : ascii) : bool := Ascii.eqb c " "%char || Ascii.eqb c (chr 9).

Fixpoint skip_blanks (s : string) : string :=
  match s with
  | String c s' => if is_blank c then skip_blanks s' else s
  | EmptyString => EmptyString
  end.

(** The copy loop; [blank] is [state == 1]. *)
Fixpoint spaces_loop (blank : bool) (s : string) : string :=
  match s with
  | EmptyString => EmptyString
  | String c s' =>
      if Ascii.eqb c newline || Ascii.eqb c (chr 13) then EmptyString
      else if is_blank c then (if blank then spaces_loop true s' else String " " (spaces_loop true s'))
      else String c (spaces_loop false s')
  end.

Definition line_remove_spaces (buf : string) : option string :=
  if nonempty buf then
    let rv := spaces_loop false (skip_blanks buf) in
    Some (match last_char rv with
          | Some c => if Ascii.eqb c " "%char then without_last rv else rv
          | None => rv
          end)
  else None.

(** ** Checks of arguments *)

Fixpoint check_unsigned (str : string) : outcome unit :=
  match str with
  | EmptyString => Ok tt
  | String c s' => if is_blank c then Ok tt else if isdigit c then check_unsigned s' else Exit 1
  end.

(** The first word of a text. *)
Fixpoint first_word (s : string) : string :=
  match s with
  | EmptyString => EmptyString
  | String c s' => if is_blank c then EmptyString else String c (first_word s')
  end.

(** What [cfg.command_name] is set to. *)
Definition extract_command_name (arg : string) : outcome string :=
  match strrchr_after "/"%char arg with
  | Some base => if nonempty base then Ok (first_word base) else Exit 1
  | None => Ok (first_word arg)
  end.

Definition ascii_isdigit (c : ascii) : bool := in_range 48 57 c.
Definition ascii_islower (c : ascii) : bool := in_range 97 122 c.
Definition ascii_isupper (c : ascii) : bool := in_range 65 90 c.
Definition ascii_isalpha (c : ascii) : bool := ascii_islower c || ascii_isupper c.
Definition ascii_isalnum (c : ascii) : bool := ascii_isalpha c || ascii_isdigit c.

(** The loop over the characters behind the first: [None] when one is rejected,
    else [only_numbers] and the last character. *)
Fixpoint name_loop (only_numbers : bool) (last : ascii) (s : string) : option (bool * ascii) :=
  match s with
  | EmptyString => Some (only_numbers, last)
  | String c s' =>
      if Ascii.eqb c "-"%char || Ascii.eqb c "."%char || Ascii.eqb c "_"%char
      then name_loop false c s'
      else if negb (ascii_isalnum c) then None
      else name_loop (only_numbers && ascii_isdigit c) c s'
  end.

(** [true] is the result 1. *)
Definition invalid_name (nm : string) : bool :=
  if 253 <? strlen nm then true
  else match nm with
       | EmptyString => true
       | String c s =>
           if negb (ascii_isalnum c) then true
           else match name_loop (ascii_isdigit c) c s with
                | None => true
                | Some (only_numbers, last) => negb (ascii_isalnum last) || only_numbers
                end
       end.

(** The conversion [%02u]: at most two characters. *)
Definition scan_u2 (s : string) : option (Z * string) :=
  match skip_spaces s with
  | String c1 s1 =>
      if isdigit c1 then
        let v1 := default 0 (digit_val c1) in
        match s1 with
        | String c2 s2 => if isdigit c2 then Some (v1 * 10 + default 0 (digit_val c2), s2) else Some (v1, s1)
        | EmptyString => Some (v1, s1)
        end
      else if Ascii.eqb c1 "-"%char || Ascii.eqb c1 "+"%char then
        match s1 with
        | String c2 s2 =>
            if isdigit c2 then
              let v := default 0 (digit_val c2) in
              Some (u32 (if Ascii.eqb c1 "-"%char then - v else v), s2)
            else None
        | EmptyString => None
        end
      else None
  | EmptyString => None
  end.

Definition extract_timeout (str : string) : outcome Z :=
  match ('(h, s) <-? scan_u2 str ;; s <-? scan_char ":"%char s ;;
         '(m, s) <-? scan_u2 s ;; s <-? scan_char ":"%char s ;;
         '(sec, _) <-? scan_u2 s ;; Some (u32 (h * 3600 + m * 60 + sec))) with
  | None => Exit 1
  | Some timeout => if timeout =? 0 then Exit 1 else Ok timeout
  end.

(** ** Process ids *)

(** Whether [strtol(s, &end, 10)] sets errno to ERANGE. *)
Definition strtol_erange (s : string) : bool :=
  let '(sign, s1) := read_sign (skip_spaces s) in
  let v := sign * (read_digits 10 0 s1).1 in
  (v <? LONG_MIN) || (LONG_MAX <? v).

(** [lookup] is name2pid; [None] is the return value 1. *)
Definition extract_pid (lookup : string -> option Z) (nm : string) : outcome (option Z) :=
  if nonempty nm then Ok (lookup nm) else Exit 1.

Definition read_pid (lookup : string -> option Z) (nm : string) : outcome (option Z) :=
  let '(pidtmp, rest) := strtol 10 nm in
  if strtol_erange nm && ((pidtmp =? LONG_MAX) || (pidtmp =? LONG_MIN)) then extract_pid lookup nm
  else if nonempty rest then extract_pid lookup nm
  else Ok (Some (s32 pidtmp)).

Definition require_pid (lookup : string -> option Z) (nm : string) : outcome Z :=
  obind (read_pid lookup nm) (fun r => match r with Some pid => Ok pid | None => Exit 1 end).

(** [sscanf(s, "%llx", &val)] *)
Definition scan_llx (s : string) : option Z :=
  let '(sign, s1) := read_sign (skip_spaces s) in
  let '(_, s2) := read_base 16 s1 in
  match s2 with
  | String c _ =>
      if is_digit_of 16 c then
        let v := (read_digits 16 0 s2).1 in Some (if ULLONG_MAX <? v then ULLONG_MAX else u64 (sign * v))
      else None
  | EmptyString => None
  end.

Definition SIGRTMAX : Z := 64.

(** /proc/<pid>/status as the buffers of fgets. *)
Fixpoint handler_lines (bufs : list string) (signal : Z) : outcome bool :=
  match bufs with
  | [] => Ok false
  | buf :: bufs' =>
      match strip_prefix "SigCgt:" buf with
      | Some s => match scan_llx s with
                  | None => Exit 1
                  | Some val => Ok (negb (Z.land (Z.shiftr val (signal - 1)) 1 =? 0))
                  end
      | None => handler_lines bufs' signal
      end
  end.

Definition has_handler (status : option (list string)) (signal : Z) : outcome bool :=
  if (0 <? signal) && (signal <=? SIGRTMAX) then
    match status with Some bufs => handler_lines bufs signal | None => Ok false end
  else Ok false.

(** ** Supplementary groups *)

Record group_flags := mk_gflags {
  arg_nogroups : bool; arg_nosound : bool; arg_novideo : bool; arg_no3d : bool;
  arg_noprinters : bool; arg_nodvd : bool; arg_noinput : bool; arg_keep_dev_tpm : bool;
  arg_nou2f : bool
}.

Section Groups.
(** getgrnam: the gid of a group, 0 when there is no such group. *)
Context (get_group_id : string -> Z).

Fixpoint find_group (group : Z) (groups : list Z) : bool :=
  match groups with
  | [] => false
  | g :: groups' => (group =? g) || find_group group groups'
  end.

Definition MAX_GROUPS : Z := 1024.

Definition copy_group_ifcont (groups : list Z) (new_groups : list Z) (groupname : string) : list Z :=
  if MAX_GROUPS <=? Z.of_nat (length new_groups) then new_groups
  else
    let g := get_group_id groupname in
    if negb (g =? 0) && find_group g groups then new_groups ++ [g] else new_groups.

(** The names copied in order, under the conditions of the source. *)
Definition wanted_groups (f : group_flags) : list string :=
  ["firejail"; "tty"; "games"]
  ++ (if arg_nosound f then [] else ["audio"; "pipewire"])
  ++ (if arg_novideo f then [] else ["video"])
  ++ (if arg_no3d f then [] else ["render"; "vglusers"])
  ++ (if arg_noprinters f then [] else ["lp"])
  ++ (if arg_nodvd f then [] else ["cdrom"; "optical"])
  ++ (if arg_noinput f then [] else ["input"])
  ++ (if arg_keep_dev_tpm f then ["tss"] else [])
  ++ (if arg_nou2f f then [] else ["plugdev"]).

(** The list given to setgroups.  [can_drop_all] is check_can_drop_all_groups,
    [user_groups] what getgrouplist returned ([None] for more than MAX_GROUPS
    groups), [accepts] whether setgroups succeeds. *)
Definition clean_supplementary_groups (f : group_flags) (can_drop_all : bool)
    (user_groups : option (list Z)) (accepts : list Z -> bool) : outcome (list Z) :=
  let clean_all := if accepts [] then Ok [] else Exit 1 in
  if arg_nogroups f && can_drop_all then clean_all
  else match user_groups with
       | None => clean_all
       | Some groups =>
           let new_groups := foldl (copy_group_ifcont groups) [] (wanted_groups f) in
           match new_groups with
           | [] => clean_all
           | _ => if accepts new_groups then Ok new_groups else clean_all
           end
       end.

(** [drop_privs]: the supplementary groups afterwards. *)
Definition drop_privs (f : group_flags) (arg_noroot force_nogroups can_drop_all : bool) (gid : Z)
    (current : list Z) (user_groups : option (list Z)) (accepts : list Z -> bool) : outcome (list Z) :=
  if (gid =? 0) || force_nogroups then (if accepts [] then Ok [] else Exit 1)
  else if arg_noroot || arg_nogroups f then clean_supplementary_groups f can_drop_all user_groups accepts
  else Ok current.
End Groups.

(** ** Descriptors *)

(** The names of /proc/self/fd in the order of readdir; the result is the list
    of descriptors closed.  [dirfd] is the descriptor of the directory. *)
Definition closes (keep_list : list Z) (dirfd ll_fd fd : Z) : bool :=
  negb ((fd =? 0) || (fd =? 1) || (fd =? 2)) && negb (fd =? dirfd) &&
  negb (existsb (fun k => k =? fd) keep_list) && negb (fd =? ll_fd).

Fixpoint close_all (keep_list : list Z) (dirfd ll_fd : Z) (names : list string) : list Z :=
  match names with
  | [] => []
  | n :: names' =>
      if streq n "." || streq n ".." then close_all keep_list dirfd ll_fd names'
      else
        let fd := s32 (strtol 10 n).1 in
        if closes keep_list dirfd ll_fd fd then fd :: close_all keep_list dirfd ll_fd names'
        else close_all keep_list dirfd ll_fd names'
  end.

(** ** Parent and child *)

Definition notify_other (arg_noroot : Z) : string :=
  "arg_noroot=" +:+ print_d arg_noroot +:+ String newline EmptyString.

(** [buf] is what fgets returned, [None] at the end of the pipe. *)
Definition wait_for_other (buf : option string) : outcome Z :=
  match buf with
  | None => Exit 1
  | Some childstr =>
      match strchr_split newline childstr with
      | None => Exit 1
      | Some (msg, _) =>
          if streq msg "arg_noroot=0" then Ok 0
          else if streq msg "arg_noroot=1" then Ok 1 else Exit 1
      end
  end.

(** The text written to a uid or gid map. *)
Definition update_map (mapping : string) : string :=
  string_map (fun c => if Ascii.eqb c ","%char then newline else c) mapping.
