(* ===== verification/UtilTheorems.v ===== *)
(** * Theorems about util.c *)

From S2P Require Import Prelude.
From S2P Require Import Clib.
From S2P Require Import Text.
From S2P Require Import Common.
From S2P Require Import Mountinfo.
From S2P Require Import Util.

(** ** clean_pathname

    A path is its segments, each behind a slash. *)

Definition slash : ascii := "/"%char.

Fixpoint slashed (segs : list string) : string :=
  match segs with
  | [] => EmptyString
  | s :: r => String slash (s +:+ slashed r)
  end.

(** The segments that mean something. *)
Definition seg_ok (s : string) : bool := nonempty s && negb (streq s ".").

(** The segments of a path, and the path made of those that count. *)
Definition segments (path : string) : list string := List.filter seg_ok (fields slash path).

Definition of_segments (segs : list string) : string :=
  match segs with [] => "/" | _ => slashed segs end.

Definition no_slash (s : string) : bool := negb (string_mem slash s).

Lemma slashed_fields body : slashed (fields slash body) = String slash body.
Proof.
  assert (slashed (fields slash body) = String slash body /\ fields slash body <> []) as [? _]; [|done].
  induction body as [|c s [IH Hne]]; [done|]. cbn [fields].
  destruct (Ascii.eqb_spec c slash) as [->|Hn].
  - split; [|done]. cbn [slashed]. by rewrite IH.
  - destruct (fields slash s) as [|f fs]; [done|]. split; [|done].
    cbn [slashed] in *. injection IH as IH.
    change (String slash (String c (f +:+ slashed fs)) = String slash (String c s)). by rewrite IH.
Qed.

Lemma fields_no_slash body : forallb no_slash (fields slash body) = true.
Proof.
  pose proof (fields_tokens slash body) as H.
  induction H as [|f fs Hf HF IH]; [done|]. cbn [forallb]. unfold no_slash at 1. by rewrite Hf.
Qed.

(** What the inner loop skips: all but the last of the segments in front. *)
Fixpoint drop_skip (segs : list string) : list string :=
  match segs with
  | s :: ((_ :: _) as r) => if seg_ok s then segs else drop_skip r
  | _ => segs
  end.

Lemma skippable_segment s r :
  no_slash s = true ->
  skippable (s +:+ slashed r) = negb (seg_ok s) && match r with [] => false | _ => true end.
Proof.
  unfold no_slash. intros Hs%negb_true_iff. destruct s as [|c s].
  - destruct r as [|s' r]; [done|]. change ("" +:+ ?x) with x. cbn [slashed skippable].
    by rewrite Ascii.eqb_refl.
  - cbn [string_mem] in Hs. apply orb_false_iff in Hs as [Hc Hs].
    change (String c s +:+ ?x) with (String c (s +:+ x)). cbn [skippable]. fold slash. rewrite Hc. cbn [orb].
    unfold seg_ok. cbn [nonempty andb]. rewrite negb_involutive. unfold streq. cbn [String.eqb].
    destruct (Ascii.eqb c "."%char); [|done]. cbn [andb].
    destruct s as [|d s].
    + change ("" +:+ ?x) with x. by destruct r.
    + cbn [string_mem] in Hs. apply orb_false_iff in Hs as [Hd _].
      change (String d s +:+ ?x) with (String d (s +:+ x)). cbn [String.eqb andb].
      fold slash. by rewrite Hd.
Qed.

Lemma clean_skip_segments segs :
  forallb no_slash segs = true -> segs <> [] ->
  clean_skip (slashed segs) = slashed (drop_skip segs).
Proof.
  induction segs as [|s r IH]; [done|]. intros [Hs Hr]%andb_true_iff _.
  cbn [slashed clean_skip]. rewrite skippable_segment by done.
  destruct r as [|s' r]; [by rewrite andb_false_r|]. rewrite andb_true_r. cbn [drop_skip].
  destruct (seg_ok s) eqn:E; [done|]. cbn [negb].
  specialize (IH Hr ltac:(done)). unfold seg_ok in E. destruct s as [|c s]; [exact IH|].
  cbn [nonempty andb] in E. apply negb_false_iff, streq_eq in E. rewrite E.
  change ("." +:+ ?x) with (String "." x). cbn [clean_skip slashed skippable].
  fold slash. rewrite Ascii.eqb_refl. exact IH.
Qed.

(** The segments the outer loop copies. *)
Fixpoint kept (segs : list string) : list string :=
  match segs with
  | [] => []
  | s :: r => if seg_ok s || match r with [] => true | _ => false end then s :: kept r else kept r
  end.

Lemma kept_drop_skip segs :
  kept (drop_skip segs) = kept segs.
Proof.
  induction segs as [|s r IH]; [done|]. cbn [drop_skip]. destruct r as [|s' r]; [done|].
  destruct (seg_ok s) eqn:E; [done|]. rewrite IH. cbn [kept]. by rewrite E.
Qed.

Lemma drop_skip_cons segs : segs <> [] ->
  exists s r, drop_skip segs = s :: r /\ (seg_ok s = true \/ r = []) /\
    (length r < length segs)%nat.
Proof.
  induction segs as [|s r IH]; [done|]. intros _. cbn [drop_skip]. destruct r as [|s' r].
  - exists s, []. split; [done|]. split; [by right|]. simpl. lia.
  - destruct (seg_ok s) eqn:E.
    + exists s, (s' :: r). split; [done|]. split; [by left|]. simpl. lia.
    + destruct IH as (t & r' & H1 & H2 & H3); [done|]. exists t, r'. split; [done|]. split; [done|].
      simpl in *. lia.
Qed.

Lemma drop_skip_ok segs : forallb no_slash segs = true -> forallb no_slash (drop_skip segs) = true.
Proof.
  induction segs as [|s r IH]; [done|]. intros [Hs Hr]%andb_true_iff. cbn [drop_skip].
  destruct r as [|s' r]; [cbn [forallb]; by rewrite Hs|].
  destruct (seg_ok s); [|by apply IH].
  change (no_slash s && forallb no_slash (s' :: r) = true). by rewrite Hs.
Qed.

Lemma clean_loop_chars s rest fuel :
  no_slash s = true ->
  clean_loop (String.length s + fuel) (s +:+ rest) = obind (clean_loop fuel rest) (fun rv => Ok (s +:+ rv)).
Proof.
  unfold no_slash. intros Hs%negb_true_iff. induction s as [|c s IH].
  { change ("" +:+ ?x) with x. cbn [String.length Nat.add]. by destruct (clean_loop fuel rest). }
  cbn [string_mem] in Hs. apply orb_false_iff in Hs as [Hc Hs].
  change (String c s +:+ rest) with (String c (s +:+ rest)). cbn [String.length Nat.add clean_loop].
  fold slash. rewrite Hc, IH by done. by destruct (clean_loop fuel rest).
Qed.

Lemma clean_loop_mono fuel fuel' s r :
  clean_loop fuel s = Ok r -> (fuel <= fuel')%nat -> clean_loop fuel' s = Ok r.
Proof.
  revert fuel' s r. induction fuel as [|f IH]; intros fuel' s r H Hf; [done|].
  destruct fuel' as [|f']; [lia|]. cbn [clean_loop] in *. destruct s as [|c s]; [done|].
  destruct (if Ascii.eqb c "/"%char then _ else _) as [|c' t]; [done|].
  destruct (clean_loop f t) as [v| | |] eqn:E; try done. cbn [obind] in *.
  by rewrite (IH f' t v E) by lia.
Qed.

(** The outer loop copies the kept segments. *)
Lemma clean_loop_segments n segs :
  (length segs <= n)%nat -> forallb no_slash segs = true ->
  exists fuel, (fuel <= String.length (slashed segs) + 1)%nat /\
    clean_loop fuel (slashed segs) = Ok (slashed (kept segs)).
Proof.
  revert segs. induction n as [|n IH]; intros segs Hl Hok.
  { destruct segs; [|simpl in Hl; lia]. by exists 1%nat. }
  destruct segs as [|s r]; [by exists 1%nat|].
  set (segs := s :: r) in *. assert (segs <> []) as Hne by done.
  destruct (drop_skip_cons segs Hne) as (t & r' & Hd & Ht & Hlen).
  pose proof (drop_skip_ok segs Hok) as Hok'. rewrite Hd in Hok'.
  cbn [forallb] in Hok'. apply andb_true_iff in Hok' as [Hto Hro].
  destruct (IH r') as (fuel & Hf & E); [lia|done|].
  exists (S (String.length t + fuel)). split.
  - assert (forall l, (String.length (slashed (drop_skip l)) <= String.length (slashed l))%nat) as Hshort.
    { induction l as [|a l IHl]; [done|]. cbn [drop_skip]. destruct l as [|b l]; [done|].
      destruct (seg_ok a); [done|]. etrans; [exact IHl|].
      change (slashed (a :: b :: l)) with (String slash (a +:+ slashed (b :: l))).
      cbn [String.length]. rewrite length_string_app. lia. }
    specialize (Hshort segs). rewrite Hd in Hshort. cbn [slashed String.length] in Hshort.
    rewrite length_string_app in Hshort. lia.
  - cbn [clean_loop]. unfold segs at 1. cbn [slashed]. fold slash. rewrite Ascii.eqb_refl.
    change (String slash (s +:+ slashed r)) with (slashed segs).
    rewrite clean_skip_segments, Hd by done. cbn [slashed].
    rewrite clean_loop_chars, E by done. cbn [obind]. do 2 f_equal.
    rewrite <- (kept_drop_skip segs), Hd. cbn [kept].
    destruct Ht as [->| ->]; [done|]. by rewrite orb_true_r.
Qed.

(** *** The removals at the end *)

Definition clean_tail (s : string) : string :=
  String.string_of_list_ascii (rev (clean_end (rev (String.list_ascii_of_string s)))).

Lemma string_of_rev_rev l : String.string_of_list_ascii (rev (rev (String.list_ascii_of_string l))) = l.
Proof. rewrite rev_involutive. apply of_list_of_string. Qed.

Lemma rev_string_snoc a c :
  rev (String.list_ascii_of_string (a +:+ String c "")) = c :: rev (String.list_ascii_of_string a).
Proof. by rewrite list_of_string_app, rev_app_distr. Qed.

Lemma clean_tail_slash a :
  clean_tail (a +:+ "/") = if nonempty a then a else "/".
Proof.
  destruct a as [|c a]; [done|].
  unfold clean_tail. change "/" with (String slash "") at 1. rewrite rev_string_snoc.
  cbn [nonempty]. destruct (rev (String.list_ascii_of_string (String c a))) as [|d l] eqn:E.
  { cbn in E. by destruct (rev (String.list_ascii_of_string a)). }
  unfold clean_end. change (Ascii.eqb slash "."%char) with false. cbn [andb].
  fold slash. rewrite Ascii.eqb_refl, <- E. apply string_of_rev_rev.
Qed.

Lemma clean_tail_dot a :
  clean_tail (a +:+ "/.") = if nonempty a then a else "/".
Proof.
  rewrite <- clean_tail_slash. unfold clean_tail.
  change "/." with ("/" +:+ String "." ""). rewrite <- append_assoc, rev_string_snoc.
  change "/" with (String slash ""). rewrite rev_string_snoc. cbn [clean_end].
  change (Ascii.eqb "."%char "."%char) with true. change (Ascii.eqb slash "/"%char) with true.
  change (Ascii.eqb slash "."%char) with false. cbn [andb].
  by destruct (rev (String.list_ascii_of_string a)).
Qed.

Lemma clean_tail_segment a s :
  no_slash s = true -> seg_ok s = true -> clean_tail (a +:+ String slash s) = a +:+ String slash s.
Proof.
  unfold no_slash, seg_ok. intros Hs%negb_true_iff [Hn Hd]%andb_true_iff.
  apply negb_true_iff, streq_neq in Hd. unfold clean_tail.
  assert (exists p c, s = p +:+ String c "") as (p & c & ->).
  { clear -Hn. induction s as [|a s IH]; [done|]. destruct s as [|b s].
    - by exists "", a.
    - destruct IH as (p & c & E); [done|]. exists (String a p), c.
      change (String a p +:+ ?x) with (String a (p +:+ x)). by rewrite <- E. }
  rewrite string_mem_app in Hs. apply orb_false_iff in Hs as [Hp Hc]. cbn [string_mem] in Hc.
  rewrite orb_false_r in Hc.
  assert (a +:+ String slash (p +:+ String c "") = (a +:+ String slash p) +:+ String c "") as E.
  { rewrite append_assoc. done. }
  rewrite E, rev_string_snoc.
  assert (clean_end (c :: rev (String.list_ascii_of_string (a +:+ String slash p))) =
          c :: rev (String.list_ascii_of_string (a +:+ String slash p))) as ->.
  { unfold clean_end. destruct (rev (String.list_ascii_of_string (a +:+ String slash p))) as [|d l] eqn:Er; [done|].
    fold slash. destruct (Ascii.eqb c "."%char && Ascii.eqb d slash) eqn:Ed.
    - exfalso. apply andb_true_iff in Ed as [Ec%Ascii.eqb_eq Ed%Ascii.eqb_eq]. subst.
      destruct p as [|x p]; [done|].
      assert (exists p' y, String x p = p' +:+ String y "") as (p' & y & Ep).
      { clear. revert x. induction p as [|b p IH]; intros x; [by exists "", x|].
        destruct (IH b) as (p' & y & E). exists (String x p'), y.
        change (String x p' +:+ ?z) with (String x (p' +:+ z)). by rewrite <- E. }
      rewrite Ep in *. change (String slash (p' +:+ String y "")) with (String slash p' +:+ String y "") in Er.
      rewrite <- append_assoc, rev_string_snoc in Er. injection Er as -> _.
      rewrite string_mem_app in Hp. cbn [string_mem] in Hp. rewrite Ascii.eqb_refl in Hp.
      by rewrite orb_true_r in Hp.
    - by rewrite Hc. }
  rewrite <- rev_string_snoc. apply string_of_rev_rev.
Qed.

Lemma slashed_app a b : slashed (a ++ b) = slashed a +:+ slashed b.
Proof.
  induction a as [|s a IH]; [done|]. cbn [app slashed]. rewrite IH.
  change (String slash ?x +:+ ?y) with (String slash (x +:+ y)). by rewrite append_assoc.
Qed.

Lemma kept_last segs s :
  kept (segs ++ [s]) = List.filter seg_ok segs ++ [s].
Proof.
  induction segs as [|t segs IH]; [cbn; by rewrite orb_true_r|]. cbn [app kept List.filter]. rewrite IH.
  assert (match segs ++ [s] with [] => true | _ => false end = false) as -> by by destruct segs.
  rewrite orb_false_r. by destruct (seg_ok t).
Qed.

Lemma slashed_empty segs : nonempty (slashed segs) = match segs with [] => false | _ => true end.
Proof. by destruct segs. Qed.

Lemma clean_pathname_segments body :
  clean_pathname (String slash body) = Ok (of_segments (segments body)) /\
  (String.length (of_segments (segments body)) <= String.length (String slash body))%nat.
Proof.
  pose proof (fields_no_slash body) as Hns.
  destruct (clean_loop_segments (length (fields slash body)) (fields slash body) ltac:(done) Hns) as (fuel & Hf & E).
  rewrite slashed_fields in *.
  assert (clean_pathname (String slash body) = Ok (clean_tail (slashed (kept (fields slash body))))) as ->.
  { unfold clean_pathname. change (has_prefix "/" (String slash body)) with true. cbn iota.
    rewrite (clean_loop_mono _ _ _ _ E) by lia. done. }
  assert (clean_tail (slashed (kept (fields slash body))) = of_segments (segments body)) as ->.
  { unfold segments. destruct (fields_cons slash body) as (f & fs & Ef).
    destruct (@exists_last _ (fields slash body) ltac:(by rewrite Ef)) as (init & s & Es).
    rewrite Es in *. rewrite forallb_app in Hns. apply andb_true_iff in Hns as [_ Hs].
    cbn [forallb] in Hs. rewrite andb_true_r in Hs.
    rewrite kept_last, List.filter_app, slashed_app. cbn [List.filter slashed].
    rewrite append_empty_r. destruct (seg_ok s) eqn:E2.
    - rewrite clean_tail_segment by done. unfold of_segments.
      destruct (List.filter seg_ok init ++ [s]) eqn:Ee; [by destruct (List.filter seg_ok init)|].
      rewrite <- Ee, slashed_app. cbn [slashed]. by rewrite append_empty_r.
    - rewrite app_nil_r. unfold seg_ok in E2. destruct s as [|c s].
      + change (String slash "") with "/". rewrite clean_tail_slash, slashed_empty.
        by destruct (List.filter seg_ok init).
      + cbn [nonempty andb] in E2. apply negb_false_iff, streq_eq in E2 as ->.
        change (String slash ".") with "/.". rewrite clean_tail_dot, slashed_empty.
        by destruct (List.filter seg_ok init). }
  split; [done|]. rewrite <- (slashed_fields body). unfold segments.
  assert (forall l, (String.length (slashed (List.filter seg_ok l)) <= String.length (slashed l))%nat) as Hl.
  { induction l as [|s l IH]; [done|]. cbn [List.filter]. destruct (seg_ok s); cbn [slashed String.length];
      rewrite !length_string_app; lia. }
  specialize (Hl (fields slash body)). unfold of_segments.
  destruct (List.filter seg_ok (fields slash body)); [|done]. rewrite slashed_fields. simpl. lia.
Qed.

Lemma fields_slashed s r :
  forallb no_slash (s :: r) = true -> fields slash (s +:+ slashed r) = s :: r.
Proof.
  revert s. induction r as [|t r IH]; intros s [Hs Hr]%andb_true_iff;
    unfold no_slash in Hs; apply negb_true_iff in Hs.
  - cbn [slashed]. rewrite append_empty_r. by apply fields_single.
  - cbn [slashed]. by rewrite fields_app, fields_single, IH.
Qed.

Lemma segments_of_segments l :
  forallb no_slash l = true -> forallb seg_ok l = true ->
  exists body, of_segments l = String slash body /\ segments body = l.
Proof.
  intros Hn Hok. destruct l as [|s r].
  - by exists "".
  - exists (s +:+ slashed r). split; [done|]. unfold segments. rewrite fields_slashed by done.
    clear Hn. induction (s :: r) as [|t l IH]; [done|]. cbn [forallb List.filter] in *.
    apply andb_true_iff in Hok as [-> Hl]. by rewrite IH.
Qed.

Lemma forallb_filter {A} (p q : A -> bool) l : forallb p l = true -> forallb p (List.filter q l) = true.
Proof.
  induction l as [|x l IH]; [done|]. cbn [forallb List.filter]. intros [Hx Hl]%andb_true_iff.
  destruct (q x); [|by apply IH]. cbn [forallb]. by rewrite Hx, IH.
Qed.

Lemma filter_forallb {A} (q : A -> bool) l : forallb q (List.filter q l) = true.
Proof.
  induction l as [|x l IH]; [done|]. cbn [List.filter]. destruct (q x) eqn:E; [|done].
  cbn [forallb]. by rewrite E.
Qed.

(** Cleaning a clean path changes nothing. *)
Lemma clean_pathname_idempotent path path' :
  clean_pathname path = Ok path' -> clean_pathname path' = Ok path'.
Proof.
  intros H. destruct path as [|c body]; [done|]. unfold clean_pathname in H.
  destruct (has_prefix "/" (String c body)) eqn:Hp; [|done].
  assert (c = slash) as ->.
  { unfold has_prefix in Hp. cbn [strip_prefix] in Hp. destruct (Ascii.eqb_spec "/"%char c); [done|done]. }
  pose proof (clean_pathname_segments body) as [E _]. unfold clean_pathname in E.
  rewrite Hp in E. rewrite E in H. injection H as <-.
  destruct (segments_of_segments (segments body)) as (b & Eb & Es).
  - unfold segments. apply forallb_filter, fields_no_slash.
  - apply filter_forallb.
  - rewrite Eb. by rewrite (proj1 (clean_pathname_segments b)), Es, Eb.
Qed.

(** Clean_pathname returns the canonical form of an absolute path: its
    segments other than empty ones and single dots, each behind one slash, or
    "/" when there are none; the loops end, the buffer of strlen(path) + 1 bytes
    is large enough, and cleaning the result again changes nothing. *)
Theorem clean_pathname_canonical body :
  clean_pathname (String slash body) = Ok (of_segments (segments body)) /\
  (String.length (of_segments (segments body)) <= String.length (String slash body))%nat /\
  clean_pathname (of_segments (segments body)) = Ok (of_segments (segments body)).
Proof.
  destruct (clean_pathname_segments body) as [H1 H2]. split; [exact H1|]. split; [exact H2|].
  by apply (clean_pathname_idempotent (String slash body)).
Qed.

(** *** trim_trailing_slash_or_dot *)

Definition path_segments (path : string) : list string :=
  match path with EmptyString => [] | String _ body => segments body end.

Definition of_rev (r : list ascii) : string := String.string_of_list_ascii (rev r).

Lemma of_rev_cons c r : of_rev (c :: r) = of_rev r +:+ String c "".
Proof.
  unfold of_rev. cbn [rev]. generalize (rev r). intros l. induction l as [|a l IH]; [done|].
  cbn [app String.string_of_list_ascii]. by rewrite IH.
Qed.

Lemma segments_slash b : segments (b +:+ "/") = segments b.
Proof.
  unfold segments. change "/" with (String slash ""). rewrite fields_app, List.filter_app.
  cbn [fields List.filter]. change (seg_ok "") with false. cbn iota. by rewrite app_nil_r.
Qed.

Lemma segments_dot b : segments ((b +:+ "/") +:+ ".") = segments b.
Proof.
  unfold segments. rewrite append_assoc. change ("/" +:+ ".") with (String slash ".").
  rewrite fields_app, List.filter_app.
  change (List.filter seg_ok (fields slash ".")) with (@nil string). by rewrite app_nil_r.
Qed.

Lemma path_segments_drop c d l :
  has_prefix "/" (of_rev (c :: d :: l)) = true ->
  Ascii.eqb c "/"%char || (Ascii.eqb c "."%char && Ascii.eqb d "/"%char) = true ->
  path_segments (of_rev (c :: d :: l)) = path_segments (of_rev (d :: l)) /\
  has_prefix "/" (of_rev (d :: l)) = true.
Proof.
  intros Hp Hc. rewrite of_rev_cons in *.
  assert (exists b, of_rev (d :: l) = String slash b) as (b & Eb).
  { destruct (of_rev (d :: l)) as [|a b] eqn:E; [rewrite of_rev_cons in E; by destruct (of_rev l)|].
    exists b. f_equal. unfold has_prefix in Hp. change (String a b +:+ ?x) with (String a (b +:+ x)) in Hp.
    cbn [strip_prefix] in Hp. by destruct (Ascii.eqb_spec "/"%char a). }
  rewrite Eb. split; [|done].
  change (path_segments (String slash b +:+ String c "")) with (segments (b +:+ String c "")).
  change (path_segments (String slash b)) with (segments b).
  apply orb_true_iff in Hc as [->%Ascii.eqb_eq|[->%Ascii.eqb_eq ->%Ascii.eqb_eq]%andb_true_iff];
    [apply segments_slash|].
  rewrite of_rev_cons in Eb. destruct (of_rev l) as [|a b'].
  - injection Eb as <-. done.
  - change (String a b' +:+ ?x) with (String a (b' +:+ x)) in Eb. injection Eb as _ <-.
    change (String "." "") with ".". change (String "/" "") with "/".
    by rewrite segments_dot, segments_slash.
Qed.

Lemma trim_loop_segments r :
  has_prefix "/" (of_rev r) = true ->
  path_segments (of_rev (trim_loop r)) = path_segments (of_rev r) /\
  has_prefix "/" (of_rev (trim_loop r)) = true.
Proof.
  induction r as [|c r IH]; [done|]. intros Hp. cbn [trim_loop]. destruct r as [|d l]; [done|].
  destruct (_ || _) eqn:E; [|done].
  destruct (path_segments_drop c d l Hp E) as [H1 H2]. rewrite H1.
  destruct l; [done|]. by apply IH.
Qed.

Lemma trim_loop_end r :
  match trim_loop r with
  | c :: d :: _ => Ascii.eqb c "/"%char || (Ascii.eqb c "."%char && Ascii.eqb d "/"%char) = false
  | _ => True
  end.
Proof.
  induction r as [|c r IH]; [done|]. cbn [trim_loop]. destruct r as [|d l]; [done|].
  destruct (_ || _) eqn:E; [|exact E]. destruct l; [done|]. exact IH.
Qed.

(** Trimming the end of an absolute path does not change what it denotes:
    cleaning the trimmed path gives what cleaning the path gives. *)
Theorem trim_trailing_preserves_path path :
  has_prefix "/" path = true ->
  clean_pathname (trim_trailing_slash_or_dot path) = clean_pathname path.
Proof.
  intros Hp. unfold trim_trailing_slash_or_dot.
  assert (of_rev (rev (String.list_ascii_of_string path)) = path) as Epath by apply string_of_rev_rev.
  destruct (trim_loop_segments (rev (String.list_ascii_of_string path))) as [H1 H2]; [by rewrite Epath|].
  rewrite Epath in H1. clear Epath. fold (of_rev (trim_loop (rev (String.list_ascii_of_string path)))).
  set (q := of_rev (trim_loop _)) in *. clearbody q.
  assert (forall p, has_prefix "/" p = true -> exists b, p = String slash b) as Habs.
  { intros [|a b]; [done|]. unfold has_prefix. cbn [strip_prefix].
    destruct (Ascii.eqb_spec "/"%char a) as [<-|]; [by exists b|done]. }
  destruct (Habs path Hp) as [b ->], (Habs q H2) as [b' ->].
  rewrite !(proj1 (clean_pathname_segments _)). by cbn [path_segments] in H1; rewrite H1.
Qed.

(** ** line_remove_spaces *)

(** The part of the buffer in front of a line end, with blanks for tabs. *)
Fixpoint plain_line (s : string) : string :=
  match s with
  | EmptyString => EmptyString
  | String c s' =>
      if Ascii.eqb c newline || Ascii.eqb c (chr 13) then EmptyString
      else String (if is_blank c then " "%char else c) (plain_line s')
  end.

Definition words (s : string) : list string := strtok " "%char (plain_line s).

(** What the loop emits in state 1, and behind a word. *)
Fixpoint joined (fs : list string) : string :=
  match fs with
  | [] => EmptyString
  | f :: rest =>
      if nonempty f then f +:+ match rest with [] => EmptyString | _ => " " +:+ joined rest end
      else joined rest
  end.

Lemma spaces_loop_fields s :
  spaces_loop true s = joined (fields " "%char (plain_line s)) /\
  spaces_loop false s =
    match fields " "%char (plain_line s) with
    | [] => EmptyString
    | f :: rest => f +:+ match rest with [] => EmptyString | _ => " " +:+ joined rest end
    end.
Proof.
  induction s as [|c s [IH1 IH2]]; [done|]. cbn [spaces_loop plain_line].
  destruct (_ || _); [done|]. destruct (fields_cons " "%char (plain_line s)) as (f & fs & E).
  rewrite E in *. cbn [fields]. destruct (is_blank c) eqn:Eb.
  - rewrite Ascii.eqb_refl, E. split; [exact IH1|]. by rewrite IH1.
  - assert (Ascii.eqb c " " = false) as -> by (unfold is_blank in Eb; by apply orb_false_iff in Eb as [-> _]).
    rewrite E, IH2. cbn [joined nonempty]. done.
Qed.

Lemma spaces_loop_skip s : spaces_loop false (skip_blanks s) = spaces_loop true s.
Proof.
  induction s as [|c s IH]; [done|]. cbn [skip_blanks].
  destruct (is_blank c) eqn:Eb.
  - rewrite IH. cbn [spaces_loop]. rewrite Eb.
    destruct (_ || _) eqn:E; [|done]. exfalso.
    apply orb_true_iff in E as [->%Ascii.eqb_eq| ->%Ascii.eqb_eq]; vm_compute in Eb; discriminate Eb.
  - cbn [spaces_loop]. destruct (_ || _); [done|]. by rewrite Eb.
Qed.

Definition strip_last (s : string) : string :=
  match last_char s with
  | Some c => if Ascii.eqb c " "%char then without_last s else s
  | None => s
  end.

Lemma last_char_app a b : nonempty b = true -> last_char (a +:+ b) = last_char b.
Proof.
  intros Hb. induction a as [|c a IH]; [done|]. change (String c a +:+ b) with (String c (a +:+ b)).
  cbn [last_char]. rewrite IH. destruct (a +:+ b) eqn:E; [|done]. destruct b; [done|by destruct a].
Qed.

Lemma without_last_app a b : nonempty b = true -> without_last (a +:+ b) = a +:+ without_last b.
Proof.
  intros Hb. induction a as [|c a IH]; [done|].
  change (String c a +:+ ?x) with (String c (a +:+ x)). cbn [without_last]. rewrite IH.
  destruct (a +:+ b) eqn:E; [|done]. destruct b; [done|by destruct a].
Qed.

Lemma strip_last_app a b : nonempty b = true -> strip_last (a +:+ b) = a +:+ strip_last b.
Proof.
  intros Hb. unfold strip_last. rewrite last_char_app by done.
  destruct (last_char b) as [c|]; [|done]. destruct (Ascii.eqb c " "); [|done]. by apply without_last_app.
Qed.

Lemma last_char_mem s c : last_char s = Some c -> string_mem c s = true.
Proof.
  induction s as [|a s IH]; [done|]. cbn [last_char string_mem]. destruct s as [|b s].
  - intros [= ->]. by rewrite Ascii.eqb_refl.
  - intros H. rewrite (IH H). by rewrite orb_true_r.
Qed.

Lemma joined_words fs :
  Forall (fun f => string_mem " "%char f = false) fs ->
  strip_last (joined fs) = String.concat " " (List.filter nonempty fs) /\
  nonempty (joined fs) = match List.filter nonempty fs with [] => false | _ => true end.
Proof.
  induction 1 as [|f fs Hf HF [IH1 IH2]]; [done|]. cbn [joined List.filter].
  destruct (nonempty f) eqn:En; [|done].
  assert (strip_last f = f) as Hs.
  { unfold strip_last. destruct (last_char f) as [c|] eqn:E; [|done]. apply last_char_mem in E.
    destruct (Ascii.eqb_spec c " "%char); [subst; congruence|done]. }
  split; [|by apply nonempty_app].
  destruct fs as [|g fs]; [cbn; by rewrite append_empty_r|].
  destruct (List.filter nonempty (g :: fs)) as [|w ws] eqn:Ew.
  - assert (joined (g :: fs) = "") as -> by by destruct (joined (g :: fs)).
    rewrite append_empty_r. rewrite strip_last_app by done. cbn. by rewrite append_empty_r.
  - rewrite <- append_assoc, strip_last_app, IH1 by (by rewrite IH2). by rewrite append_assoc.
Qed.

(** Line_remove_spaces returns the words of the line separated by single
    blanks, without blanks at either end, whatever mix of blanks and tabs
    separates them. *)
Theorem line_remove_spaces_words buf :
  line_remove_spaces buf = if nonempty buf then Some (String.concat " " (words buf)) else None.
Proof.
  unfold line_remove_spaces. destruct (nonempty buf); [|done]. cbv zeta.
  fold (strip_last (spaces_loop false (skip_blanks buf))). f_equal.
  rewrite spaces_loop_skip. destruct (spaces_loop_fields buf) as [-> _].
  apply joined_words. apply fields_tokens.
Qed.

(** ** invalid_name *)

Definition valid_name_char (c : ascii) : bool :=
  ascii_isalnum c || Ascii.eqb c "-"%char || Ascii.eqb c "."%char || Ascii.eqb c "_"%char.

Definition valid_sandbox_name (nm : string) : bool :=
  (strlen nm <=? 253) && string_forallb valid_name_char nm &&
  match nm with String c _ => ascii_isalnum c | EmptyString => false end &&
  match last_char nm with Some c => ascii_isalnum c | None => false end &&
  negb (string_forallb ascii_isdigit nm).

Lemma name_loop_spec o l s :
  name_loop o l s =
  if string_forallb valid_name_char s
  then Some (o && string_forallb ascii_isdigit s, default l (last_char s)) else None.
Proof.
  revert o l. induction s as [|c s IH]; intros o l; [cbn; by rewrite andb_true_r|].
  cbn [name_loop string_forallb]. unfold valid_name_char at 1.
  assert (default l (last_char (String c s)) = default c (last_char s)) as Hl.
  { cbn [last_char]. destruct s; [done|]. destruct (last_char (String a s)) eqn:E; [done|].
    exfalso. clear -E. revert a E. induction s as [|b s IH]; intros a E; [done|]. by apply (IH b). }
  destruct (Ascii.eqb c "-" || Ascii.eqb c "." || Ascii.eqb c "_") eqn:Ep.
  - rewrite IH. assert (ascii_isalnum c || Ascii.eqb c "-" || Ascii.eqb c "." || Ascii.eqb c "_" = true) as ->
      by (rewrite <- !orb_assoc in *; by rewrite Ep, orb_true_r).
    assert (ascii_isdigit c = false) as ->.
    { rewrite !orb_true_iff in Ep. destruct Ep as [[->%Ascii.eqb_eq| ->%Ascii.eqb_eq]| ->%Ascii.eqb_eq]; done. }
    cbn [andb]. rewrite Hl, andb_false_r. done.
  - assert (ascii_isalnum c || Ascii.eqb c "-" || Ascii.eqb c "." || Ascii.eqb c "_" = ascii_isalnum c) as ->.
    { rewrite <- !orb_assoc in *. by rewrite Ep, orb_false_r. }
    destruct (ascii_isalnum c); cbn [negb andb]; [|done]. rewrite IH, Hl. by rewrite andb_assoc.
Qed.

(** Invalid_name accepts exactly the names of at most 253 letters, digits,
    dashes, dots and underscores that begin and end with a letter or a digit and
    are not a number, so that no name can be taken for a process id. *)
Theorem invalid_name_spec nm : invalid_name nm = negb (valid_sandbox_name nm).
Proof.
  unfold invalid_name, valid_sandbox_name. rewrite Z.ltb_antisym.
  destruct (strlen nm <=? 253); [|done]. cbn [negb andb].
  destruct nm as [|c s]; [done|]. rewrite name_loop_spec.
  assert (last_char (String c s) = Some (default c (last_char s))) as ->.
  { clear. revert c. induction s as [|b s IH]; intros c; [done|]. cbn [last_char] in *.
    destruct s; [done|]. rewrite (IH c). done. }
  cbn [string_forallb]. destruct (ascii_isalnum c) eqn:Ec; cbn [negb].
  - unfold valid_name_char at 2. rewrite Ec. cbn [orb andb].
    destruct (string_forallb valid_name_char s); [|done]. cbn [andb].
    by rewrite negb_andb, negb_involutive.
  - by rewrite andb_false_r.
Qed.

(** ** Sizes *)

Lemma print_u_nonempty z : 0 <= z -> nonempty (print_u z) = true.
Proof.
  intros Hz. destruct (print_u_first z "" Hz) as (c & r & E & _).
  rewrite append_empty_r in E. by rewrite E.
Qed.

Lemma scan_llu_print z s : 0 <= z <= ULLONG_MAX -> no_digit s = true -> scan_llu (print_u z +:+ s) = z.
Proof.
  intros Hz Hs. pose proof (read_print_u z s Hz Hs) as H.
  destruct (print_u_first z s) as (c & r & E & Hc); [lia|]. rewrite E in *.
  unfold scan_llu. cbn [skip_spaces]. rewrite digit_not_space by done.
  unfold read_sign. rewrite !(digit_neq c), Hc, H by done. cbn [fst].
  rewrite (proj2 (Z.ltb_ge _ _)) by lia. rewrite Z.mul_1_l. apply u64_small.
  unfold ULLONG_MAX in Hz. lia.
Qed.

Definition unit_factor (c : ascii) : Z :=
  let c := toupper c in
  if Ascii.eqb c "K"%char then 1024
  else if Ascii.eqb c "M"%char then 1024 * 1024
  else if Ascii.eqb c "G"%char then 1024 * 1024 * 1024
  else 0.

Lemma without_last_snoc s c : without_last (s +:+ String c "") = s.
Proof. rewrite without_last_app by done. apply append_empty_r. Qed.

Lemma last_digit z : 0 <= z -> exists c, last_char (print_u z) = Some c /\ isdigit c = true.
Proof.
  intros Hz. pose proof (print_u_nonempty z Hz) as Hn.
  destruct (last_char (print_u z)) as [c|] eqn:E.
  - exists c. split; [done|]. pose proof (last_char_mem _ _ E) as Hm.
    pose proof (print_u_digits z) as Hd. clear -Hm Hd.
    induction (print_u z) as [|a s IH]; [done|]. cbn [string_mem string_forallb] in *.
    apply andb_true_iff in Hd as [Ha Hd]. destruct (Ascii.eqb_spec a c) as [->|]; [done|by apply IH].
  - exfalso. clear -E Hn. destruct (print_u z) as [|a s]; [done|]. clear Hn. revert a E.
    induction s as [|b s IH]; intros a E; [done|]. by apply (IH b).
Qed.

(** A number with the unit k, m or g is that many bytes as long as the
    product fits 64 bits, and wraps around silently when it does not; a number
    without a unit is itself. *)
Theorem parse_arg_size_value z c :
  0 <= z <= ULLONG_MAX -> unit_factor c <> 0 ->
  parse_arg_size (print_u z) = Some z /\
  parse_arg_size (print_u z +:+ String c "") = Some (u64 (z * unit_factor c)) /\
  (z * unit_factor c <= ULLONG_MAX -> u64 (z * unit_factor c) = z * unit_factor c).
Proof.
  intros Hz Hc. split; [|split].
  - destruct (last_digit z) as (d & Hl & Hd); [lia|]. unfold parse_arg_size. rewrite Hl. cbv zeta.
    assert (toupper d = d) as ->.
    { revert Hd. clear. destruct d as [[] [] [] [] [] [] [] []]; done. }
    rewrite !(digit_neq d) by done. cbn [orb]. rewrite print_u_digits, Hd. cbn [negb].
    rewrite <- (append_empty_r (print_u z)). by rewrite scan_llu_print.
  - unfold parse_arg_size. rewrite last_char_app by done. cbn [last_char]. cbv zeta.
    rewrite without_last_snoc.
    unfold unit_factor in *.
    assert (isdigit (toupper c) = false /\ isdigit c = false) as [Hu Hd].
    { revert Hc. clear. destruct c as [[] [] [] [] [] [] [] []]; done. }
    rewrite (scan_llu_print z) by first [done | simpl; by rewrite Hd].
    rewrite Hu. destruct (Ascii.eqb (toupper c) "K"); cbn [orb]; [by rewrite print_u_digits|].
    destruct (Ascii.eqb (toupper c) "M"); cbn [orb]; [by rewrite print_u_digits|].
    destruct (Ascii.eqb (toupper c) "G"); cbn [orb]; [by rewrite print_u_digits|done].
  - intros H. apply u64_small. unfold ULLONG_MAX in *. split; [|lia].
    apply Z.mul_nonneg_nonneg; [lia|]. unfold unit_factor.
    by repeat destruct (Ascii.eqb _ _).
Qed.

(** A size that wraps around to a small one is accepted. *)
Lemma parse_arg_size_wraps : parse_arg_size "17179869185G" = Some (1024 * 1024 * 1024).
Proof. reflexivity. Qed.

(** ** Supplementary groups *)

Section GroupTheorems.
Context (get_group_id : string -> Z).

Lemma find_group_in g gs : find_group g gs = true <-> In g gs.
Proof.
  induction gs as [|x gs IH]; [done|]. cbn [find_group In]. rewrite orb_true_iff, Z.eqb_eq, IH. intuition.
Qed.

Lemma copied_groups groups names acc g :
  In g (foldl (copy_group_ifcont get_group_id groups) acc names) ->
  In g acc \/ (g <> 0 /\ In g groups /\ exists n, In n names /\ get_group_id n = g).
Proof.
  revert acc. induction names as [|n names IH]; intros acc; [by left|]. cbn [foldl].
  intros [Hg|(H1 & H2 & m & H3 & H4)]%IH.
  2: { right. split; [done|]. split; [done|]. exists m. split; [by right|done]. }
  revert Hg. unfold copy_group_ifcont. destruct (_ <=? _); [by left|]. cbv zeta.
  destruct (Z.eqb_spec (get_group_id n) 0); cbn [negb andb]; [by left|].
  destruct (find_group _ groups) eqn:E; [|by left]. apply find_group_in in E.
  intros [Hg|[<-|[]]]%in_app_iff; [by left|]. right. split; [done|]. split; [done|].
  exists n. split; [by left|done].
Qed.

Lemma copied_groups_fit groups names acc :
  Z.of_nat (length acc) <= MAX_GROUPS ->
  Z.of_nat (length (foldl (copy_group_ifcont get_group_id groups) acc names)) <= MAX_GROUPS.
Proof.
  revert acc. induction names as [|n names IH]; intros acc H; [done|]. cbn [foldl]. apply IH.
  unfold copy_group_ifcont. destruct (Z.leb_spec MAX_GROUPS (Z.of_nat (length acc))); [done|]. cbv zeta.
  destruct (_ && _); [|done]. rewrite length_app. simpl. lia.
Qed.

(** The supplementary groups a program keeps are groups its user is in, each
    one is named by the list of groups the flags leave, none is the root group,
    and the array of MAX_GROUPS entries is never exceeded. *)
Theorem clean_supplementary_groups_safe f can_drop user_groups accepts gs :
  clean_supplementary_groups get_group_id f can_drop user_groups accepts = Ok gs ->
  Z.of_nat (length gs) <= MAX_GROUPS /\
  forall g, In g gs -> g <> 0 /\ (exists groups, user_groups = Some groups /\ In g groups) /\
    exists n, In n (wanted_groups f) /\ get_group_id n = g.
Proof.
  unfold clean_supplementary_groups. intros H.
  assert (gs = [] -> Z.of_nat (length gs) <= MAX_GROUPS /\
    forall g, In g gs -> g <> 0 /\ (exists groups, user_groups = Some groups /\ In g groups) /\
      exists n, In n (wanted_groups f) /\ get_group_id n = g) as Hnil by by intros ->.
  assert ((if accepts [] then Ok [] else Exit 1) = Ok gs -> gs = []) as Hall
    by (destruct (accepts []); [by intros [= <-]|done]).
  destruct (_ && _); [by apply Hnil, Hall|].
  destruct user_groups as [groups|]; [|by apply Hnil, Hall].
  pose proof (copied_groups groups (wanted_groups f) []) as Hin.
  pose proof (copied_groups_fit groups (wanted_groups f) [] ltac:(done)) as Hfit.
  destruct (foldl _ [] _) as [|x l]; [by apply Hnil, Hall|].
  destruct (accepts _); [|by apply Hnil, Hall]. injection H as <-. split; [exact Hfit|].
  intros g Hg. destruct (Hin g Hg) as [[]|(H1 & H2 & H3)]. eauto 10.
Qed.
End GroupTheorems.

(** ** Messages, time-outs, process ids *)

(** The child reads the flag its parent sent. *)
Lemma wait_notify_roundtrip v : v = 0 \/ v = 1 -> wait_for_other (Some (notify_other v)) = Ok v.
Proof. by intros [-> | ->]. Qed.

(** The two digits of hh:mm:ss. *)
Definition print_u2 (z : Z) : string := String (digit_char (z / 10)) (String (digit_char (z mod 10)) EmptyString).

Lemma scan_print_u2 z s : 0 <= z < 100 -> scan_u2 (print_u2 z +:+ s) = Some (z, s).
Proof.
  intros Hz. assert (0 <= z / 10 < 10) as H1 by (split; [apply Z.div_pos|apply Z.div_lt_upper_bound]; lia).
  pose proof (Z.mod_pos_bound z 10 ltac:(lia)) as H2. pose proof (Z.div_mod z 10 ltac:(lia)) as H3.
  destruct (digit_char_val _ H1) as [A1 A2], (digit_char_val _ H2) as [B1 B2].
  change (print_u2 z +:+ s) with (String (digit_char (z / 10)) (String (digit_char (z mod 10)) s)).
  unfold scan_u2. cbn [skip_spaces]. rewrite digit_not_space by done.
  rewrite A1, A2, B1, B2. cbn [default]. unfold id. replace (z / 10 * 10 + z mod 10) with z by lia. done.
Qed.

(** A time-out written as hh:mm:ss is its number of seconds; a time-out of
    zero seconds is rejected. *)
Theorem extract_timeout_roundtrip h m s tail :
  0 <= h < 100 -> 0 <= m < 100 -> 0 <= s < 100 ->
  extract_timeout (print_u2 h +:+ ":" +:+ print_u2 m +:+ ":" +:+ print_u2 s +:+ tail) =
  if h * 3600 + m * 60 + s =? 0 then Exit 1 else Ok (h * 3600 + m * 60 + s).
Proof.
  intros Hh Hm Hs. unfold extract_timeout.
  rewrite (scan_print_u2 h) by done. cbn [mbind option_bind]. rewrite scan_char_app. cbn [mbind option_bind].
  rewrite (scan_print_u2 m) by done. cbn [mbind option_bind]. rewrite scan_char_app. cbn [mbind option_bind].
  rewrite (scan_print_u2 s) by done. cbn [mbind option_bind]. rewrite u32_small by lia. done.
Qed.

(** A process id given as a number is that number, a valid sandbox name is
    looked up, and so is a number beyond the range of long. *)
Theorem read_pid_spec lookup z nm :
  0 <= z <= INT_MAX -> invalid_name nm = false ->
  read_pid lookup (print_u z) = Ok (Some z) /\ read_pid lookup nm = Ok (lookup nm).
Proof.
  intros Hz Hn. unfold INT_MAX in Hz. split.
  - unfold read_pid. rewrite <- (print_d_nonneg z) by lia.
    rewrite strtol_print_d by (unfold INT_MIN, INT_MAX; lia).
    assert (strtol_erange (print_d z) = false) as ->.
    { unfold strtol_erange. rewrite print_d_nonneg by lia.
      destruct (print_u_first z "") as (c & r & E & Hc); [lia|]. rewrite append_empty_r in E.
      pose proof (read_print_u z "") as Hr. rewrite append_empty_r, E in Hr.
      rewrite E. cbn [skip_spaces]. rewrite digit_not_space by done.
      unfold read_sign. rewrite !(digit_neq c) by done. rewrite Hr by first [done|unfold ULONG_MAX; lia].
      cbn [fst]. unfold LONG_MIN, LONG_MAX. rewrite !(proj2 (Z.ltb_ge _ _)) by lia. done. }
    cbn [andb nonempty]. do 2 f_equal. unfold s32. rewrite Z.mod_small by lia. lia.
  - rewrite invalid_name_spec in Hn. apply negb_false_iff in Hn. unfold valid_sandbox_name in Hn.
    rewrite !andb_true_iff, negb_true_iff in Hn. destruct Hn as [[[[Hlen Hchars] Hfirst] Hlast] Hnum].
    assert (nonempty nm = true) as Hne by by destruct nm.
    unfold read_pid, extract_pid. rewrite Hne. destruct (strtol 10 nm) as [v rest] eqn:E.
    destruct (strtol_erange nm && _); [done|].
    assert (nonempty rest = true) as ->; [|done].
    destruct nm as [|c nm]; [done|]. unfold strtol in E. cbn [skip_spaces] in E.
    assert (isspace c = false /\ Ascii.eqb c "-" = false /\ Ascii.eqb c "+" = false) as (Hs & Hm & Hp).
    { clear -Hfirst. destruct c as [[] [] [] [] [] [] [] []]; done. }
    rewrite Hs in E. unfold read_sign in E. rewrite Hm, Hp in E. unfold read_base in E.
    change ((10 =? 0) || (10 =? 16)) with false in E. rewrite andb_false_r in E.
    change (10 =? 0) with false in E. cbn iota in E.
    assert (forall a s, string_forallb ascii_isdigit s = false -> nonempty (read_digits 10 a s).2 = true) as Hr.
    { intros a s. revert a. clear. induction s as [|d s IH]; intros a; [done|].
      cbn [string_forallb read_digits]. rewrite is_digit_of_10. change (isdigit d) with (ascii_isdigit d).
      destruct (ascii_isdigit d); [apply IH|done]. }
    specialize (Hr 0 (String c nm) Hnum). destruct (is_digit_of 10 c).
    + destruct (read_digits 10 0 (String c nm)) as [w r]. injection E as _ <-. exact Hr.
    + by injection E as _ <-.
Qed.

(** The empty text is a process id, 0. *)
Lemma read_pid_empty lookup : read_pid lookup "" = Ok (Some 0).
Proof. reflexivity. Qed.

(** ** Descriptors *)

(** The standard streams and the descriptors of the list stay open. *)
Lemma close_all_keeps keep dirfd ll_fd names fd :
  In fd (close_all keep dirfd ll_fd names) -> ~ In fd keep /\ fd <> 0 /\ fd <> 1 /\ fd <> 2.
Proof.
  induction names as [|n names IH]; [done|]. cbn [close_all].
  destruct (_ || _); [exact IH|]. cbv zeta. destruct (closes _ _ _ _) eqn:E; [|exact IH].
  intros [<-|H]; [|by apply IH]. unfold closes in E.
  rewrite !andb_true_iff, !negb_true_iff, !orb_false_iff, !Z.eqb_neq in E.
  destruct E as [[[[[? ?] ?] ?] Hk] ?]. split; [|done]. intros Hin.
  apply not_true_iff_false in Hk. apply Hk. apply existsb_exists. eexists. split; [exact Hin|].
  apply Z.eqb_refl.
Qed.

(** ** Evaluations *)

Lemma trim_trailing_preserves_path_witness :
  clean_pathname (trim_trailing_slash_or_dot "/foo/bar///././.") = Ok "/foo/bar".
Proof. rewrite trim_trailing_preserves_path; reflexivity. Defined.

Lemma parse_arg_size_value_witness : parse_arg_size "16k" = Some 16384.
Proof.
  exact (proj1 (proj2 (parse_arg_size_value 16 "k"%char ltac:(unfold ULLONG_MAX; lia) ltac:(discriminate)))).
Defined.

Definition demo_flags : group_flags := mk_gflags true true false false true true true false true.

Lemma clean_supplementary_groups_safe_witness :
  let db n := if streq n "video" then 44 else if streq n "audio" then 29 else 0 in
  clean_supplementary_groups db demo_flags false (Some [1000; 29; 44]) (fun _ => true) = Ok [44] /\
  (forall g, In g [44] -> g <> 0).
Proof.
  intros db. split; [reflexivity|]. intros g Hg.
  exact (proj1 (proj2 (clean_supplementary_groups_safe db demo_flags false (Some [1000; 29; 44])
    (fun _ => true) [44] eq_refl) g Hg)).
Defined.

Lemma extract_timeout_roundtrip_witness : extract_timeout "01:30:05" = Ok 5405.
Proof. exact (extract_timeout_roundtrip 1 30 5 "" ltac:(lia) ltac:(lia) ltac:(lia)). Defined.

Lemma read_pid_spec_witness :
  read_pid (fun n => if streq n "browser" then Some 77 else None) "browser" = Ok (Some 77).
Proof.
  exact (proj2 (read_pid_spec (fun n => if streq n "browser" then Some 77 else None) 5 "browser"
    ltac:(unfold INT_MAX; lia) eq_refl)).
Defined.
