(* ===== verification/Macros.v ===== *)
(** * Macros in paths (src/firejail/macros.c)

    A path in a profile may start with a macro: the home directory, the
    configuration directory, the run-time directory of the user, or one of the
    directories a desktop names in ~/.config/user-dirs.dirs.  The file system is
    an interface: which paths stat(2) finds. *)

From S2P Require Import Prelude.
From S2P Require Import Clib.
From S2P Require Import Text.
From S2P Require Import Common.

Record Macro := mk_macro { name : string; xdg : string; translation : list string }.

(** The XDG line up to the directory, its quote included. *)
Definition xdg_var (v : string) : string := v +:+ "=" +:+ String (chr 34) "$HOME/".

Definition macro : list Macro :=
  [mk_macro "${DESKTOP}" (xdg_var "XDG_DESKTOP_DIR")
     ["Desktop"; "Рабочий стол"; "Bureau"; "Scrivania"; "Escritorio"; "Área de trabalho"; "Schreibtisch"];
   mk_macro "${DOCUMENTS}" (xdg_var "XDG_DOCUMENTS_DIR")
     ["Documents"; "Документы"; "Documenti"; "Documentos"; "Dokumente"];
   mk_macro "${DOWNLOADS}" (xdg_var "XDG_DOWNLOAD_DIR")
     ["Downloads"; "Загрузки"; "Téléchargement"; "Scaricati"; "Descargas"];
   mk_macro "${MUSIC}" (xdg_var "XDG_MUSIC_DIR")
     ["Music"; "Музыка"; "Musique"; "Musica"; "Música"; "Musik"];
   mk_macro "${PICTURES}" (xdg_var "XDG_PICTURES_DIR")
     ["Pictures"; "Изображения"; "Images"; "Immagini"; "Imágenes"; "Imagens"; "Bilder"];
   mk_macro "${PROJECTS}" (xdg_var "XDG_PROJECTS_DIR")
     ["Projects"; "Проекты"; "Projets"; "Progetti"; "Proyectos"; "Projectos"; "Projekte"];
   mk_macro "${PUBLICSHARE}" (xdg_var "XDG_PUBLICSHARE_DIR")
     ["Public"; "Общедоступные"; "Public"; "Pubblici"; "Público"; "Público"; "Öffentlich"];
   mk_macro "${TEMPLATES}" (xdg_var "XDG_TEMPLATES_DIR")
     ["Templates"; "Шаблоны"; "Modèles"; "Modelli"; "Plantillas"; "Modelos"; "Vorlagen"];
   mk_macro "${VIDEOS}" (xdg_var "XDG_VIDEOS_DIR")
     ["Videos"; "Видео"; "Vidéos"; "Video"; "Vídeos"]].

Fixpoint find_macro (ms : list Macro) (path : string) : option Macro :=
  match ms with
  | [] => None
  | m :: ms' => if has_prefix (name m) path then Some m else find_macro ms' path
  end.

(** The entry at the index [macro_id] returns, [None] for -1. *)
Definition macro_id (path : string) : option Macro := find_macro macro path.

Definition is_macro (path : string) : bool :=
  (4 <? strlen path) &&
  match path with
  | String c (String d rest) => Ascii.eqb c "$"%char && Ascii.eqb d "{"%char && string_mem "}"%char rest
  | _ => false
  end.

Definition MACRO_MAXBUF : nat := 4098.

Section Macros.
(** The user, and the files there are. *)
Context (homedir sysconfdir : string) (uid : Z).
Context (file_exists : string -> bool).
(** ~/.config/user-dirs.dirs, [None] when it cannot be opened. *)
Context (user_dirs : option string).

Fixpoint skip_white (s : string) : string :=
  match s with
  | String c s' => if Ascii.eqb c " "%char || Ascii.eqb c (chr 9) then skip_white s' else s
  | EmptyString => EmptyString
  end.

(** The loop over the lines: the directory of the first line for [var] that has a
    closing quote, if there is such a directory. *)
Fixpoint xdg_lines (var : string) (bufs : list string) : option string :=
  match bufs with
  | [] => None
  | buf :: bufs' =>
      let ptr := skip_white buf in
      match ptr with
      | EmptyString => xdg_lines var bufs'
      | String c _ =>
          if Ascii.eqb c newline || Ascii.eqb c "#"%char then xdg_lines var bufs'
          else match strip_prefix var ptr with
               | None => xdg_lines var bufs'
               | Some ptr1 =>
                   match strchr_split (chr 34) ptr1 with
                   | None => xdg_lines var bufs'
                   | Some (d, _) =>
                       if nonempty d && file_exists (homedir +:+ "/" +:+ d) then Some d else None
                   end
               end
      end
  end.

Definition resolve_xdg (var : string) : option string :=
  match user_dirs with
  | None => None
  | Some s => xdg_lines var (map c_string (fgets MACRO_MAXBUF s))
  end.

Definition resolve_hardcoded (entries : list string) : option string :=
  List.find (fun e => file_exists (homedir +:+ "/" +:+ e)) entries.

Definition resolve_macro (path : string) : option string :=
  match macro_id path with
  | None => None
  | Some m =>
      match (match resolve_xdg (xdg m) with
             | Some d => Some d
             | None => resolve_hardcoded (translation m)
             end) with
      | None => None
      | Some d => Some (homedir +:+ "/" +:+ d +:+ default "" (strip_prefix (name m) path))
      end
  end.

Definition expand_macros (path : string) : outcome string :=
  if has_prefix "$HOME" path then Exit 1
  else match strip_prefix "${HOME}" path with
  | Some r => Ok (homedir +:+ r)
  | None =>
  match strip_prefix "~" path with
  | Some r => Ok (homedir +:+ r)
  | None =>
  match strip_prefix "${CFG}" path with
  | Some r => Ok (sysconfdir +:+ r)
  | None =>
  match strip_prefix "${RUNUSER}" path with
  | Some r => Ok ("/run/user/" +:+ print_u uid +:+ r)
  | None => Ok (default path (resolve_macro path))
  end end end end.
End Macros.

(** The part of a name the characters of which are checked. *)
Definition checked_part (fname : string) : string :=
  match strip_prefix "${HOME}" fname with
  | Some r => r
  | None =>
  match strip_prefix "${PATH}" fname with
  | Some r => r
  | None =>
  match strip_prefix "${RUNUSER}" fname with
  | Some r => r
  | None =>
  match macro_id fname with
  | Some m => default fname (strip_prefix (name m) fname)
  | None => fname
  end end end end.

Definition invalid_filename (fname : string) (globbing : bool) : outcome unit :=
  reject_meta_chars (checked_part fname) globbing.
