(* ===== verification/Paths.v ===== *)
(** * The search path (src/firejail/paths.c)

    [init_paths] turns $PATH into an array of absolute directories without
    duplicates.  When /bin is a link to /usr/bin one of the two is dropped. *)

From S2P Require Import Prelude.
From S2P Require Import Clib.
From S2P Require Import Text.
From S2P Require Import Common.
From S2P Require Import Mountinfo.
From S2P Require Import Macros.

(** Trailing slashes, from the end of the reversed text. *)
Fixpoint strip_slashes (r : list ascii) : list ascii :=
  match r with
  | c :: r' => if Ascii.eqb c "/"%char then strip_slashes r' else r
  | [] => []
  end.

Definition trim_slashes (s : string) : string :=
  String.string_of_list_ascii (rev (strip_slashes (rev (String.list_ascii_of_string s)))).

(** One iteration of the loop: the state is [bin_symlink] and the entries so
    far. *)
Definition path_entry (elt : string) (st : Z * list string) : Z * list string :=
  let '(bin_symlink, paths) := st in
  if negb (has_prefix "/" elt) then st
  else
    let elt := trim_slashes elt in
    if negb (nonempty elt) then st
    else
      let bin_symlink :=
        if (0 <? bin_symlink) && (streq elt "/bin" || streq elt "/usr/bin")
        then bin_symlink + 1 else bin_symlink in
      if bin_symlink =? 3 then (0, paths)
      else if existsb (streq elt) paths then (bin_symlink, paths)
      else (bin_symlink, paths ++ [elt]).

Definition default_search_path : string :=
  "/usr/local/bin:/usr/bin:/bin:/usr/local/sbin:/usr/sbin:/sbin".

(** [env_path] is env_get("PATH"), [bin_link] whether realpath("/bin") is
    /usr/bin. *)
Definition init_paths (env_path : option string) (bin_link : bool) : list string :=
  let path := default default_search_path env_path in
  (foldl (fun st elt => path_entry elt st) (if bin_link then 1 else 0, []) (strsep ":"%char path)).2.

Fixpoint count_char (c : ascii) (s : string) : Z :=
  match s with
  | EmptyString => 0
  | String a s' => (if Ascii.eqb a c then 1 else 0) + count_char c s'
  end.

(** The elements calloc makes room for. *)
Definition path_slots (env_path : option string) : Z :=
  count_char ":"%char (default default_search_path env_path) + 2.

Definition longest_path_elt (paths : list string) : Z :=
  foldl (fun m e => Z.max m (strlen e)) 0 paths.

(** The NULL element is counted. *)
Definition count_paths (env_path : option string) (bin_link : bool) : Z :=
  Z.of_nat (length (init_paths env_path bin_link)) + 1.

Section Search.
(** access(2) with X_OK, and stat(2): whether it succeeds and finds a regular
    file. *)
Context (access_x : string -> bool) (stat : string -> option bool).

(** The loop over the directories; [longest] is the size the buffer was made
    for. *)
Fixpoint search_paths (longest : Z) (program : string) (dirs : list string) : outcome bool :=
  match dirs with
  | [] => Ok false
  | dir :: dirs' =>
      if longest <? strlen dir then AssertFail
      else
        let scratch := dir +:+ "/" +:+ program in
        if access_x scratch then
          match stat scratch with
          | None => Exit 1
          | Some true => Ok true
          | Some false => search_paths longest program dirs'
          end
        else search_paths longest program dirs'
  end.

Definition program_in_path (paths : list string) (program : string) : outcome bool :=
  if nonempty program && negb (string_mem "/"%char program) &&
     negb (streq program ".") && negb (streq program "..")
  then search_paths (longest_path_elt paths) program paths
  else AssertFail.
End Search.

Section Run.
Context (access_x : string -> bool) (exists_file : string -> bool) (firejail_link : string -> bool).

(** The loop of [ok_to_run] (src/firejail/sandbox.c): the first file found
    decides. *)
Fixpoint run_in (program : string) (dirs : list string) : bool :=
  match dirs with
  | [] => false
  | d :: dirs' =>
      let fname := d +:+ "/" +:+ program in
      if exists_file fname then access_x fname else run_in program dirs'
  end.

Definition ok_to_run (env_path : option string) (program : string) : bool :=
  if string_mem "/"%char program then access_x program
  else match env_path with
       | Some path => run_in program (strtok ":"%char path)
       | None => false
       end.

(** [find_in_path] (src/firejail/util.c) *)
Fixpoint find_in_dirs (program : string) (dirs : list string) : option string :=
  match dirs with
  | [] => None
  | d :: dirs' =>
      let fname := d +:+ "/" +:+ program in
      if exists_file fname && negb (firejail_link fname) then Some fname else find_in_dirs program dirs'
  end.

Definition find_in_path (env_path : option string) (program : string) : option string :=
  match env_path with
  | Some path => find_in_dirs program (strtok ":"%char path)
  | None => None
  end.
End Run.

(** * Theorems about macros and the search path *)

(** ** Macros *)

Lemma xdg_lines_exists homedir file_exists var bufs d :
  xdg_lines homedir file_exists var bufs = Some d -> file_exists (homedir +:+ "/" +:+ d) = true.
Proof.
  induction bufs as [|b bufs IH]; [done|]. cbn [xdg_lines]. cbv zeta.
  destruct (skip_white b) as [|c s]; [exact IH|]. destruct (_ || _); [exact IH|].
  destruct (strip_prefix var _) as [r|]; [|exact IH].
  destruct (strchr_split _ r) as [[d' r']|]; [|exact IH].
  destruct (nonempty d' && file_exists (homedir +:+ "/" +:+ d')) eqn:E; [|done].
  intros [= <-]. by apply andb_true_iff in E as [_ E].
Qed.

Lemma find_macro_some ms path m :
  find_macro ms path = Some m -> In m ms /\ exists r, path = name m +:+ r.
Proof.
  induction ms as [|m' ms IH]; [done|]. cbn [find_macro].
  destruct (has_prefix (name m') path) eqn:E.
  - intros [= <-]. split; [by left|]. unfold has_prefix in E.
    destruct (strip_prefix (name m') path) as [r|] eqn:Er; [|done].
    exists r. by apply strip_prefix_some.
  - intros H. destruct (IH H) as [H1 H2]. split; [by right|done].
Qed.

(** A macro is replaced by a directory under the home directory that exists,
    and what follows the macro is kept; a path that starts with a macro is left
    alone when no such directory exists. *)
Theorem resolve_macro_sound homedir file_exists user_dirs path r :
  resolve_macro homedir file_exists user_dirs path = Some r ->
  exists m d rest, In m macro /\ path = name m +:+ rest /\
    r = homedir +:+ "/" +:+ d +:+ rest /\ file_exists (homedir +:+ "/" +:+ d) = true.
Proof.
  unfold resolve_macro. destruct (macro_id path) as [m|] eqn:Em; [|done].
  apply find_macro_some in Em as [Hin [rest Hp]].
  assert (strip_prefix (name m) path = Some rest) as -> by by apply strip_prefix_some.
  destruct (resolve_xdg _ _ _ _) as [d|] eqn:Ex.
  - intros [= <-]. exists m, d, rest. split; [done|]. split; [done|]. split; [done|].
    unfold resolve_xdg in Ex. destruct user_dirs as [s|]; [|done]. by eapply xdg_lines_exists.
  - destruct (resolve_hardcoded _ _ _) as [d|] eqn:Eh; [|done]. intros [= <-].
    exists m, d, rest. split; [done|]. split; [done|]. split; [done|].
    by apply find_some in Eh as [_ Eh].
Qed.

Lemma strip_prefix_app p r : strip_prefix p (p +:+ r) = Some r.
Proof. by apply strip_prefix_some. Qed.

(** Each macro expands to its directory; $HOME without braces ends the program. *)
Lemma expand_macros_branches homedir sysconfdir uid file_exists user_dirs r :
  let expand := expand_macros homedir sysconfdir uid file_exists user_dirs in
  expand ("${HOME}" +:+ r) = Ok (homedir +:+ r) /\
  expand ("~" +:+ r) = Ok (homedir +:+ r) /\
  expand ("${CFG}" +:+ r) = Ok (sysconfdir +:+ r) /\
  expand ("${RUNUSER}" +:+ r) = Ok ("/run/user/" +:+ print_u uid +:+ r) /\
  expand ("$HOME" +:+ r) = Exit 1 /\
  expand ("/" +:+ r) = Ok ("/" +:+ r).
Proof. by repeat split. Qed.

(** Invalid_filename lets a name pass exactly when every character behind its
    macro is permitted: no control characters, no shell metacharacters, and
    wildcards only where they are allowed. *)
Theorem invalid_filename_spec fname globbing :
  invalid_filename fname globbing =
  if string_forallb (name_char globbing) (checked_part fname) then Ok tt else Exit 1.
Proof. apply reject_meta_chars_spec. Qed.

(** ** The search path *)

Lemma of_rev_list r s : r = rev (String.list_ascii_of_string s) -> String.string_of_list_ascii (rev r) = s.
Proof. intros ->. rewrite rev_involutive. apply of_list_of_string. Qed.

Lemma strip_slashes_spec r :
  exists k, r = repeat "/"%char k ++ strip_slashes r /\
    match strip_slashes r with c :: _ => c <> "/"%char | [] => True end.
Proof.
  induction r as [|c r (k & IH1 & IH2)]; [by exists O|]. cbn [strip_slashes].
  destruct (Ascii.eqb_spec c "/"%char) as [->|Hn]; [|by exists O].
  exists (S k). cbn [repeat app]. by rewrite <- IH1.
Qed.

Lemma rev_repeat {A} (x : A) k : rev (repeat x k) = repeat x k.
Proof.
  induction k as [|k IH]; [done|]. cbn [repeat rev]. rewrite IH.
  clear IH. induction k as [|k IH]; [done|]. cbn [repeat app]. by rewrite IH.
Qed.

(** The text without its trailing slashes. *)
Lemma trim_slashes_spec s :
  exists k, s = trim_slashes s +:+ String.string_of_list_ascii (repeat "/"%char k) /\
    (nonempty (trim_slashes s) = true -> forall a, trim_slashes s <> a +:+ "/").
Proof.
  destruct (strip_slashes_spec (rev (String.list_ascii_of_string s))) as (k & E & Hh).
  exists k. unfold trim_slashes. set (t := strip_slashes _) in *. split.
  - assert (s = String.string_of_list_ascii (rev (repeat "/"%char k ++ t))) as Es
      by (rewrite <- E; symmetry; by apply of_rev_list).
    rewrite rev_app_distr, rev_repeat in Es. rewrite Es at 1.
    generalize (rev t), (repeat "/"%char k). intros l1 l2. induction l1 as [|c l1 IH]; [done|].
    cbn [app String.string_of_list_ascii]. by rewrite IH.
  - intros _ a Ha. apply (f_equal String.list_ascii_of_string) in Ha.
    rewrite list_of_string_of, list_of_string_app in Ha.
    apply (f_equal (@rev ascii)) in Ha. rewrite rev_involutive, rev_app_distr in Ha.
    cbn [rev String.list_ascii_of_string app] in Ha. rewrite Ha in Hh. done.
Qed.

(** An entry of the array: absolute and without a slash at its end. *)
Definition path_ok (e : string) : Prop :=
  has_prefix "/" e = true /\ forall a, e <> a +:+ "/".

Lemma trimmed_ok elt :
  has_prefix "/" elt = true -> nonempty (trim_slashes elt) = true -> path_ok (trim_slashes elt).
Proof.
  intros Hp Hn. destruct (trim_slashes_spec elt) as (k & E & Hl). split; [|by apply Hl].
  destruct (trim_slashes elt) as [|c t]; [done|]. rewrite E in Hp. unfold has_prefix in *.
  change (String c t +:+ ?x) with (String c (t +:+ x)) in Hp. cbn [strip_prefix] in *.
  by destruct (Ascii.eqb "/"%char c).
Qed.

Lemma path_entry_ok elt b ps :
  Forall path_ok ps -> NoDup ps ->
  Forall path_ok (path_entry elt (b, ps)).2 /\ NoDup (path_entry elt (b, ps)).2.
Proof.
  intros HF HN. unfold path_entry. destruct (has_prefix "/" elt) eqn:Ep; [|done]. cbn [negb]. cbv zeta.
  destruct (nonempty (trim_slashes elt)) eqn:En; [|done]. cbn [negb].
  destruct (_ =? 3); [done|]. destruct (existsb _ ps) eqn:Ee; [done|]. cbn [snd]. split.
  - apply Forall_app. split; [done|]. constructor; [by apply trimmed_ok|constructor].
  - apply NoDup_app. split; [done|]. split; [|apply NoDup_singleton].
    intros x Hx ->%list_elem_of_singleton. apply not_true_iff_false in Ee. apply Ee.
    apply existsb_exists. eexists. split; [by apply list_elem_of_In|apply streq_refl].
Qed.

Lemma init_paths_fold elts b ps :
  Forall path_ok ps -> NoDup ps ->
  let r := (foldl (fun st elt => path_entry elt st) (b, ps) elts).2 in
  Forall path_ok r /\ NoDup r /\ (length r <= length ps + length elts)%nat.
Proof.
  revert b ps. induction elts as [|e elts IH]; intros b ps HF HN; cbn zeta; cbn [foldl].
  { split; [done|]. split; [done|]. simpl. lia. }
  destruct (path_entry_ok e b ps HF HN) as [HF' HN'].
  assert (length (path_entry e (b, ps)).2 <= length ps + 1)%nat as Hl.
  { unfold path_entry. destruct (negb _); [simpl; lia|]. cbv zeta. destruct (negb _); [simpl; lia|].
    destruct (_ =? 3); [simpl; lia|]. destruct (existsb _ _); simpl; rewrite ?length_app; simpl; lia. }
  destruct (path_entry e (b, ps)) as [b' ps']. destruct (IH b' ps' HF' HN') as (H1 & H2 & H3).
  split; [done|]. split; [done|]. simpl in *. lia.
Qed.

Lemma count_char_fields c s : Z.of_nat (length (fields c s)) = count_char c s + 1.
Proof.
  induction s as [|a s IH]; [done|]. cbn [fields count_char].
  destruct (Ascii.eqb a c); [cbn [length]; lia|].
  destruct (fields_cons c s) as (f & fs & E). rewrite E in *. cbn [length] in *. lia.
Qed.

(** The search path is an array of absolute directories without trailing
    slashes and without duplicates, and there is room for all of them and the
    NULL element behind them, whatever $PATH holds. *)
Theorem init_paths_ok env_path bin_link :
  Forall path_ok (init_paths env_path bin_link) /\ NoDup (init_paths env_path bin_link) /\
  count_paths env_path bin_link <= path_slots env_path.
Proof.
  unfold count_paths, path_slots, init_paths. set (path := default _ env_path).
  destruct (init_paths_fold (strsep ":"%char path) (if bin_link then 1 else 0) []) as (H1 & H2 & H3);
    [constructor|constructor|].
  split; [done|]. split; [done|]. pose proof (count_char_fields ":"%char path) as Hc.
  unfold strsep in *. cbn [length Nat.add] in H3.
  change (foldl _ (_, []) _) with
    (foldl (fun st elt => path_entry elt st) (if bin_link then 1 else 0, []) (fields ":"%char path)).
  lia.
Qed.

(** Without a link from /bin every absolute directory of $PATH is searched. *)
Lemma path_entry_keeps elt ps : exists ps', path_entry elt (0, ps) = (0, ps') /\ (forall e, In e ps -> In e ps') /\
  (has_prefix "/" elt = true -> nonempty (trim_slashes elt) = true -> In (trim_slashes elt) ps').
Proof.
  unfold path_entry. destruct (has_prefix "/" elt); cbn [negb]; [|by exists ps]. cbv zeta.
  destruct (nonempty (trim_slashes elt)); cbn [negb]; [|by exists ps].
  change (0 <? 0) with false. cbn [andb]. change (0 =? 3) with false. cbn iota.
  destruct (existsb (streq (trim_slashes elt)) ps) eqn:E.
  - exists ps. split; [done|]. split; [done|]. intros _ _.
    apply existsb_exists in E as (x & Hx & ->%streq_eq). done.
  - exists (ps ++ [trim_slashes elt]). split; [done|]. split.
    + intros e He. apply in_or_app. by left.
    + intros _ _. apply in_or_app. right. by left.
Qed.

Lemma init_paths_complete path elt :
  In elt (strsep ":"%char path) -> has_prefix "/" elt = true -> nonempty (trim_slashes elt) = true ->
  In (trim_slashes elt) (init_paths (Some path) false).
Proof.
  intros Hin Hp Hn. unfold init_paths. cbn [default]. unfold id.
  generalize (@nil string) as ps. revert Hin. generalize (strsep ":"%char path) as elts.
  assert (forall elts ps, In (trim_slashes elt) ps ->
    In (trim_slashes elt) (foldl (fun st e => path_entry e st) (0, ps) elts).2) as Hkeep.
  { induction elts as [|e elts IH]; intros ps H; [done|]. cbn [foldl].
    destruct (path_entry_keeps e ps) as (ps' & -> & H1 & _). apply IH. by apply H1. }
  induction elts as [|e elts IH]; intros Hin ps; [done|]. cbn [foldl].
  destruct (path_entry_keeps e ps) as (ps' & -> & _ & H2).
  destruct Hin as [->|Hin]; [apply Hkeep, H2; done|by apply IH].
Qed.

(** With a duplicate of /bin in front of it, /usr/bin is not taken for a
    duplicate: both directories stay in the search path. *)
Lemma init_paths_bin_twice : init_paths (Some "/bin:/bin:/usr/bin") true = ["/bin"; "/usr/bin"].
Proof. reflexivity. Qed.

Lemma longest_path_elt_max ps m e :
  In e ps -> strlen e <= foldl (fun m e => Z.max m (strlen e)) m ps.
Proof.
  assert (forall ps m, m <= foldl (fun m e => Z.max m (strlen e)) m ps) as Hm.
  { induction ps0 as [|x l IH]; intros k; [done|]. cbn [foldl]. etrans; [|apply IH]. lia. }
  revert m. induction ps as [|x ps IH]; intros m; [done|]. cbn [foldl].
  intros [->|Hin]; [|by apply IH]. etrans; [|apply Hm]. lia.
Qed.

(** Program_in_path never writes past the buffer it makes for the longest
    directory, and it finds a program exactly when some directory holds an
    executable regular file of that name in front of which no executable file
    fails to be examined. *)
Theorem program_in_path_spec access_x stat env_path bin_link program :
  nonempty program && negb (string_mem "/"%char program) &&
    negb (streq program ".") && negb (streq program "..") = true ->
  (forall f, access_x f = true -> stat f <> None) ->
  program_in_path access_x stat (init_paths env_path bin_link) program =
  Ok (existsb (fun dir => let f := dir +:+ "/" +:+ program in
        access_x f && match stat f with Some true => true | _ => false end)
      (init_paths env_path bin_link)).
Proof.
  intros Hp Hs. unfold program_in_path. rewrite Hp.
  set (ps := init_paths env_path bin_link).
  assert (forall dirs, (forall d, In d dirs -> strlen d <= longest_path_elt ps) ->
    search_paths access_x stat (longest_path_elt ps) program dirs =
    Ok (existsb (fun dir => let f := dir +:+ "/" +:+ program in
          access_x f && match stat f with Some true => true | _ => false end) dirs)) as H.
  { induction dirs as [|d dirs IH]; intros Hd; [done|]. cbn [search_paths existsb]. cbv zeta.
    rewrite (proj2 (Z.ltb_ge _ _)) by (apply Hd; by left).
    rewrite IH by (intros; apply Hd; by right).
    destruct (access_x _) eqn:Ea; [|done]. cbn [andb].
    destruct (stat _) as [[]|] eqn:Es; [done|done|]. by apply Hs in Ea. }
  apply H. intros d Hd. by apply longest_path_elt_max.
Qed.

(** ** Evaluations *)

Lemma resolve_macro_sound_witness :
  let fs p := streq p "/home/u/Downloads" in
  exists r, resolve_macro "/home/u" fs None "${DOWNLOADS}/x" = Some r /\
    r = "/home/u/Downloads/x" /\ exists d, fs ("/home/u" +:+ "/" +:+ d) = true.
Proof.
  intros fs. eexists. split; [reflexivity|]. split; [reflexivity|].
  destruct (resolve_macro_sound "/home/u" fs None "${DOWNLOADS}/x" _ eq_refl) as (m & d & rest & _ & _ & _ & H).
  exists d. exact H.
Defined.

Lemma program_in_path_spec_witness :
  program_in_path (fun f => streq f "/bin/ls") (fun _ => Some true) (init_paths (Some "/usr/bin/:/bin") false) "ls"
  = Ok true.
Proof.
  rewrite (program_in_path_spec (fun f => streq f "/bin/ls") (fun _ => Some true) (Some "/usr/bin/:/bin") false "ls");
    [reflexivity|reflexivity|intros; discriminate].
Defined.
