(* ===== verification/Dbus.v ===== *)
(** * D-Bus rules (src/firejail/dbus.c)

    The checks of the names and rules a profile gives for the D-Bus proxy, the
    policy of a bus and the arguments written for the proxy. *)

From S2P Require Import Prelude.
From S2P Require Import Clib.
From S2P Require Import Text.

Definition DBUS_MAX_NAME_LENGTH : Z := 255.

(** The characters of a segment behind its first, and its first. *)
Definition segment_char (hyphens_allowed : bool) (c : ascii) : bool :=
  isalpha c || isdigit c || Ascii.eqb c "_"%char || (hyphens_allowed && Ascii.eqb c "-"%char).
Definition segment_start (hyphens_allowed : bool) (c : ascii) : bool :=
  isalpha c || Ascii.eqb c "_"%char || (hyphens_allowed && Ascii.eqb c "-"%char).

(** The loop both checks share: the text at [p], the number of [segments] and
    whether the last one has begun; [sep] separates segments and [least] is how
    many there must be. *)
Fixpoint segments_loop (sep : ascii) (hyphens_allowed : bool) (least segments : Z) (in_segment : bool)
    (p : string) : bool :=
  match p with
  | EmptyString => in_segment && (least <=? segments)
  | String c p' =>
      if in_segment then
        if Ascii.eqb c sep then segments_loop sep hyphens_allowed least (segments + 1) false p'
        else if segment_char hyphens_allowed c
        then segments_loop sep hyphens_allowed least segments true p' else false
      else if Ascii.eqb c "*"%char then negb (nonempty p')
      else if segment_start hyphens_allowed c
      then segments_loop sep hyphens_allowed least segments true p' else false
  end.

Definition check_bus_or_interface_name (name : string) (hyphens_allowed : bool) : bool :=
  let length := strlen name in
  if (length =? 0) || (DBUS_MAX_NAME_LENGTH <? length) then false
  else segments_loop "."%char hyphens_allowed 2 1 false name.

Definition check_object_path (path : string) : bool :=
  match path with
  | String c p =>
      if Ascii.eqb c "/"%char then
        if strlen path =? 1 then true else segments_loop "/"%char false 1 1 false p
      else false
  | EmptyString => false
  end.

Definition dbus_check_name (name : string) : bool := check_bus_or_interface_name name true.

Definition dbus_check_call_rule (rule : string) : bool :=
  match strchr_split "="%char rule with
  | None => false
  | Some (buf, name_end) =>
      if DBUS_MAX_NAME_LENGTH <? strlen buf then false
      else if negb (dbus_check_name buf) then false
      else match strchr_split "@"%char name_end with
           | None => check_bus_or_interface_name name_end false
           | Some (interface, path) =>
               if DBUS_MAX_NAME_LENGTH <? strlen interface then false
               else if nonempty interface && negb (check_bus_or_interface_name interface false) then false
               else check_object_path path
           end
  end.

(** ** Policies *)

Inductive DbusPolicy := DBUS_POLICY_ALLOW | DBUS_POLICY_FILTER | DBUS_POLICY_BLOCK.

#[export] Instance DbusPolicy_eq_dec : EqDecision DbusPolicy.
Proof. solve_decision. Defined.

(** What stat(2) finds of the proxy: [Some true] when it is there, [Some false]
    for ENOENT, [None] for another error. *)
Definition dbus_check_bus_profile (proxy : option bool) (policy : DbusPolicy) : outcome DbusPolicy :=
  match policy with
  | DBUS_POLICY_FILTER =>
      match proxy with
      | Some true => Ok DBUS_POLICY_FILTER
      | Some false => Ok DBUS_POLICY_ALLOW
      | None => Exit 1
      end
  | _ => Ok policy
  end.

(** ** Arguments of the proxy *)

(** The argument an entry of the profile becomes, if it has the prefix and a
    space behind the kind of rule. *)
Definition proxy_arg (prefix data : string) : option string :=
  data <-? strip_prefix prefix data ;;
  '(kind, rule) <-? strchr_split " "%char data ;;
  Some ("--" +:+ kind +:+ "=" +:+ rule).

Definition write_profile (profile : list string) (prefix : string) : list string :=
  omap (proxy_arg prefix) profile.

(** * Theorems about D-Bus rules

    The character loops of dbus.c against a grammar: names and paths as lists of
    segments, the last of which may be a star. *)

(** ** Segments *)

Definition segment_ok (hyphens : bool) (s : string) : bool :=
  match s with
  | EmptyString => false
  | String c s' => segment_start hyphens c && string_forallb (segment_char hyphens) s'
  end.

(** Valid segments and a star. *)
Fixpoint star_end (hyphens : bool) (fs : list string) : bool :=
  match fs with
  | [] => false
  | [f] => streq f "*"
  | f :: fs' => segment_ok hyphens f && star_end hyphens fs'
  end.

(** [extra] segments came before. *)
Definition segments_ok (hyphens : bool) (least extra : Z) (fs : list string) : bool :=
  (forallb (segment_ok hyphens) fs && (least <=? extra + Z.of_nat (length fs))) || star_end hyphens fs.

(** A separator of segments. *)
Definition separator (sep : ascii) : Prop := sep = "."%char \/ sep = "/"%char.

Lemma star_not_start h : segment_start h "*"%char = false.
Proof. by destruct h. Qed.

Lemma separator_not_start h sep : separator sep -> segment_start h sep = false.
Proof. by intros [-> | ->]; destruct h. Qed.

Lemma segments_ok_cons h least extra f fs :
  segment_ok h f = true -> fs <> [] ->
  segments_ok h least extra (f :: fs) = segments_ok h least (extra + 1) fs.
Proof.
  intros Hf Hn. unfold segments_ok. cbn [forallb]. rewrite Hf. cbn [andb].
  destruct fs as [|g fs]; [done|]. cbn [star_end]. rewrite Hf. cbn [andb]. f_equal. f_equal. f_equal.
  cbn [length]. lia.
Qed.

Lemma segments_ok_bad h least extra f fs :
  segment_ok h f = false -> (fs <> [] \/ streq f "*" = false) -> segments_ok h least extra (f :: fs) = false.
Proof.
  intros Hf Hn. unfold segments_ok. cbn [forallb star_end]. rewrite Hf. cbn [andb orb].
  destruct fs; [by destruct Hn|done].
Qed.

(** The loop from inside a segment, of which [f] is what remains, and from the start
    of one. *)
Lemma segments_loop_spec sep h least n p : separator sep ->
  segments_loop sep h least n false p = segments_ok h least (n - 1) (fields sep p) /\
  segments_loop sep h least n true p =
    match fields sep p with
    | [] => false
    | f :: fs => string_forallb (segment_char h) f &&
                 match fs with [] => least <=? n | _ => segments_ok h least n fs end
    end.
Proof.
  intros Hsep. revert n. induction p as [|c p IH]; intros n.
  - cbn. split; [|done]. unfold segments_ok. cbn. done.
  - cbn [segments_loop fields]. destruct (fields_cons sep p) as (f & fs & Ef).
    destruct (IH n) as [IHf IHt]. destruct (IH (n + 1)) as [IHf' _]. rewrite Ef in *.
    replace (n + 1 - 1) with n in IHf' by lia.
    destruct (Ascii.eqb_spec c sep) as [->|Hc].
    + split; [|rewrite IHf'; destruct fs; reflexivity].
      rewrite separator_not_start, segments_ok_bad by (done || by right).
      destruct Hsep as [-> | ->]; done.
    + split.
      * destruct (Ascii.eqb_spec c "*"%char) as [->|Hstar].
        -- destruct p as [|d p]; [cbn in Ef; injection Ef as <- <-; symmetry; apply orb_true_r|].
           cbn [nonempty negb].
           rewrite segments_ok_bad; [done|cbn; by rewrite star_not_start|].
           cbn [fields] in Ef. destruct (Ascii.eqb d sep).
           ++ injection Ef as <- <-. left. destruct (fields_cons sep p) as (? & ? & ->). done.
           ++ destruct (fields sep p); injection Ef as <- <-; by right.
        -- destruct (segment_start h c) eqn:Es.
           ++ rewrite IHt. destruct fs as [|g fs].
              ** unfold segments_ok. cbn [forallb segment_ok star_end length]. rewrite Es.
                 assert (streq (String c f) "*" = false) as ->.
                 { unfold streq. destruct (String.eqb_spec (String c f) "*"); [congruence|done]. }
                 cbn [andb]. rewrite orb_false_r, andb_true_r.
                 change (Z.of_nat 1) with 1%Z. by rewrite Z.sub_add.
              ** destruct (string_forallb (segment_char h) f) eqn:Ec; cbn [andb].
                 --- rewrite (segments_ok_cons h least (n - 1) (String c f)); [by rewrite Z.sub_add|cbn; by rewrite Es, Ec|done].
                 --- rewrite (segments_ok_bad h least (n - 1) (String c f)); [done|cbn; by rewrite Es, Ec|by left].
           ++ rewrite segments_ok_bad; [done|cbn; by rewrite Es|right].
              unfold streq. destruct (String.eqb_spec (String c f) "*"); [congruence|done].
      * cbn [string_forallb]. destruct (segment_char h c); [exact IHt|done].
Qed.

(** ** Names, paths and rules *)

(** A bus name (hyphens allowed) or interface name: at least two segments between
    dots, or segments and a star; 1 to 255 characters. *)
Definition name_grammar (hyphens : bool) (name : string) : bool :=
  (1 <=? strlen name) && (strlen name <=? DBUS_MAX_NAME_LENGTH) &&
  segments_ok hyphens 2 0 (fields "."%char name).

(** An object path: the root, or segments behind a slash. *)
Definition path_grammar (path : string) : bool :=
  match strip_prefix "/" path with
  | Some p => negb (nonempty p) || segments_ok false 1 0 (fields "/"%char p)
  | None => false
  end.

(** [NAME=INTERFACE], [NAME=INTERFACE@PATH] or [NAME=@PATH]. *)
Definition rule_grammar (rule : string) : bool :=
  match strchr_split "="%char rule with
  | None => false
  | Some (name, rest) =>
      name_grammar true name &&
      match strchr_split "@"%char rest with
      | None => name_grammar false rest
      | Some (interface, path) => (negb (nonempty interface) || name_grammar false interface) && path_grammar path
      end
  end.

Lemma check_name_grammar name h : check_bus_or_interface_name name h = name_grammar h name.
Proof.
  unfold check_bus_or_interface_name, name_grammar. cbv zeta.
  pose proof (Zle_0_nat (String.length name)) as Hp. change (Z.of_nat (String.length name)) with (strlen name) in Hp.
  destruct (Z.eqb_spec (strlen name) 0) as [->|Hn]; [done|].
  rewrite (proj2 (Z.leb_le 1 _)) by lia.
  destruct (Z.ltb_spec DBUS_MAX_NAME_LENGTH (strlen name)) as [Hl|Hl]; cbn [orb].
  { by rewrite (proj2 (Z.leb_gt (strlen name) _)). }
  rewrite (proj2 (Z.leb_le (strlen name) _)) by done. cbn [andb].
  apply (segments_loop_spec "."%char h 2 1 name). by left.
Qed.

Lemma check_path_grammar path : check_object_path path = path_grammar path.
Proof.
  unfold check_object_path, path_grammar. destruct path as [|c p]; [done|]. cbn [strip_prefix].
  destruct (Ascii.eqb_spec c "/"%char) as [->|Hc].
  - rewrite (proj2 (Ascii.eqb_eq _ _) eq_refl).
    destruct p as [|d p]; [done|]. cbn [nonempty negb orb].
    assert (strlen (String "/" (String d p)) =? 1 = false) as ->.
    { apply Z.eqb_neq. unfold strlen. cbn [String.length]. lia. }
    apply (segments_loop_spec "/"%char false 1 1). by right.
  - destruct (Ascii.eqb_spec "/"%char c); [congruence|done].
Qed.

Lemma name_grammar_short h name : DBUS_MAX_NAME_LENGTH <? strlen name = true -> name_grammar h name = false.
Proof.
  intros Hl%Z.ltb_lt. unfold name_grammar. rewrite (proj2 (Z.leb_gt (strlen name) _)) by done. by rewrite andb_false_r.
Qed.

(** The rules accepted for the D-Bus proxy are those of the grammar: the two loops
    over characters, the splits and the length checks decide it exactly. *)
Theorem dbus_check_call_rule_spec rule : dbus_check_call_rule rule = rule_grammar rule.
Proof.
  unfold dbus_check_call_rule, rule_grammar, dbus_check_name.
  destruct (strchr_split "="%char rule) as [[name rest]|]; [|done]. rewrite check_name_grammar.
  destruct (DBUS_MAX_NAME_LENGTH <? strlen name) eqn:En; [by rewrite name_grammar_short|].
  destruct (name_grammar true name); [cbn [negb andb]|done].
  destruct (strchr_split "@"%char rest) as [[interface path]|]; [|apply check_name_grammar].
  rewrite check_name_grammar, check_path_grammar.
  destruct (DBUS_MAX_NAME_LENGTH <? strlen interface) eqn:Ei.
  - rewrite name_grammar_short by done. destruct interface; [done|]. done.
  - destruct (nonempty interface); [|done]. by destruct (name_grammar false interface).
Qed.

(** The same for names. *)
Theorem dbus_check_name_spec name : dbus_check_name name = name_grammar true name.
Proof. apply check_name_grammar. Qed.

(** A segment that starts with a digit is refused, although D-Bus object paths may
    have one. *)
Lemma digit_segment_refused : check_object_path "/org/a/0" = false.
Proof. reflexivity. Qed.

(** ** Policies *)

(** The check of the proxy never unblocks a bus; without the proxy a filtered bus
    becomes an open one. *)
Lemma bus_profile_blocks proxy p : dbus_check_bus_profile proxy DBUS_POLICY_BLOCK = Ok p -> p = DBUS_POLICY_BLOCK.
Proof. by intros [= <-]. Qed.

Lemma bus_profile_downgrades : dbus_check_bus_profile (Some false) DBUS_POLICY_FILTER = Ok DBUS_POLICY_ALLOW.
Proof. reflexivity. Qed.
