(* ===== verification/Checkcfg.v ===== *)
(** * The configuration file (src/firejail/checkcfg.c)

    /etc/firejail/firejail.config, read once: features that are on or off, and
    the settings with values.  The state is what the file can change. *)

From S2P Require Import Prelude.
From S2P Require Import Clib.
From S2P Require Import Bpf.
From S2P Require Import SyscallTables.
From S2P Require Import Install.
From S2P Require Import Env.
From S2P Require Import Text.
From S2P Require Import Mountinfo.
From S2P Require Import Util.
From S2P Require Import Keeps.

Inductive CFG :=
| CFG_NONE | CFG_ALLOW_TRAY | CFG_APPARMOR | CFG_ARP_PROBES | CFG_BIND | CFG_BROWSER_ALLOW_DRM
| CFG_BROWSER_DISABLE_U2F | CFG_CHROOT | CFG_DBUS | CFG_DISABLE_MNT | CFG_FILE_TRANSFER
| CFG_FIREJAIL_PROMPT | CFG_FORCE_NONEWPRIVS | CFG_JOIN | CFG_NAME_CHANGE | CFG_NETWORK
| CFG_PRIVATE_BIN | CFG_PRIVATE_BIN_NO_LOCAL | CFG_PRIVATE_CACHE | CFG_PRIVATE_ETC | CFG_PRIVATE_OPT
| CFG_PRIVATE_SRV | CFG_RESTRICTED_NETWORK | CFG_SECCOMP | CFG_SECCOMP_ERROR_ACTION | CFG_SECCOMP_LOG
| CFG_USERNS | CFG_X11 | CFG_XEPHYR_WINDOW_TITLE.

#[export] Instance CFG_eq_dec : EqDecision CFG.
Proof. solve_decision. Defined.

(** The first member is the array [cfg_val]; the others are the variables the
    file can set.  [env_of] holds the environment and the limits of env.c. *)
Record settings := mk_settings {
  cfg_val : CFG -> Z;
  screens : gmap string string;          (* the text variables, by name *)
  netfilter_default : option string;
  env_of : proc;
  join_timeout : Z;
  error_action_str : string;             (* config_seccomp_error_action_str *)
  filter_add : option string;            (* config_seccomp_filter_add *)
  reject_topdirs : option (list string); (* whitelist_reject_topdirs *)
  quiet : Z                              (* arg_quiet *)
}.

Definition K (A : Type) : Type := CM settings A.

Definition set_cfg (k : CFG) (v : Z) : K unit :=
  cmodify (fun s => mk_settings (fun k' => if decide (k' = k) then v else cfg_val s k') (screens s)
    (netfilter_default s) (env_of s) (join_timeout s) (error_action_str s) (filter_add s)
    (reject_topdirs s) (quiet s)).
Definition set_screen (n v : string) : K unit :=
  cmodify (fun s => mk_settings (cfg_val s) (<[n := v]> (screens s)) (netfilter_default s) (env_of s)
    (join_timeout s) (error_action_str s) (filter_add s) (reject_topdirs s) (quiet s)).
Definition set_netfilter (f : string) : K unit :=
  cmodify (fun s => mk_settings (cfg_val s) (screens s) (Some f) (env_of s) (join_timeout s)
    (error_action_str s) (filter_add s) (reject_topdirs s) (quiet s)).
Definition set_env (p : proc) : K unit :=
  cmodify (fun s => mk_settings (cfg_val s) (screens s) (netfilter_default s) p (join_timeout s)
    (error_action_str s) (filter_add s) (reject_topdirs s) (quiet s)).
Definition set_join (t : Z) : K unit :=
  cmodify (fun s => mk_settings (cfg_val s) (screens s) (netfilter_default s) (env_of s) t
    (error_action_str s) (filter_add s) (reject_topdirs s) (quiet s)).
Definition set_action (a : string) : K unit :=
  cmodify (fun s => mk_settings (cfg_val s) (screens s) (netfilter_default s) (env_of s) (join_timeout s)
    a (filter_add s) (reject_topdirs s) (quiet s)).
Definition set_filter_add (a : string) : K unit :=
  cmodify (fun s => mk_settings (cfg_val s) (screens s) (netfilter_default s) (env_of s) (join_timeout s)
    (error_action_str s) (Some a) (reject_topdirs s) (quiet s)).
Definition set_topdirs (l : list string) : K unit :=
  cmodify (fun s => mk_settings (cfg_val s) (screens s) (netfilter_default s) (env_of s) (join_timeout s)
    (error_action_str s) (filter_add s) (Some l) (quiet s)).
Definition set_quiet (v : Z) : K unit :=
  cmodify (fun s => mk_settings (cfg_val s) (screens s) (netfilter_default s) (env_of s) (join_timeout s)
    (error_action_str s) (filter_add s) (reject_topdirs s) v).

(** The limits of env.c as four numbers. *)
Definition set_limits (f : Z * Z * Z * Z -> Z * Z * Z * Z) : K unit :=
  s <~ cget ;;
  let p := env_of s in
  let '(el, ec, al, ac) := f (env_max_len p, env_max_count p, arg_max_len p, arg_max_count p) in
  set_env (mk_proc (envlist p) (environ p) el ec al ac).

(** ** Defaults *)

Definition DEFAULT_ARP_PROBES : Z := 2.
Definition MAX_ARGS : Z := 128.
Definition PATH_MAX : Z := 4096.
Definition ARG_MAX : Z := 131072.

Definition default_cfg (k : CFG) : Z :=
  match k with
  | CFG_RESTRICTED_NETWORK | CFG_FORCE_NONEWPRIVS | CFG_PRIVATE_BIN_NO_LOCAL | CFG_FIREJAIL_PROMPT
  | CFG_DISABLE_MNT | CFG_BROWSER_ALLOW_DRM | CFG_ALLOW_TRAY | CFG_CHROOT | CFG_SECCOMP_LOG => 0
  | CFG_ARP_PROBES => DEFAULT_ARP_PROBES
  | CFG_SECCOMP_ERROR_ACTION => -1
  | _ => 1
  end.

(** The variables before the file is read, with [arg_quiet] and the environment
    as they are then. *)
Definition default_settings (q : Z) (l : list Env) (e : gmap string string) : settings :=
  mk_settings default_cfg
    {["xephyr_screen" := "800x600"; "xephyr_extra_params" := "";
      "xvfb_screen" := "800x600x24"; "xvfb_extra_params" := ""]}
    None (mk_proc l e (PATH_MAX + 32) 256 (PATH_MAX + 32) MAX_ARGS)
    5000000 "EPERM" None None q.

(** ** Lines *)

Definition strtoul10 (s : string) : Z :=
  let '(sign, s1) := read_sign (skip_spaces s) in
  let v := (read_digits 10 0 s1).1 in
  if ULONG_MAX <? v then ULONG_MAX else u64 (sign * v).

(** PARSE_YESNO, in order. *)
Definition yesno_keys : list (CFG * string) :=
  [(CFG_ALLOW_TRAY, "allow-tray"); (CFG_APPARMOR, "apparmor"); (CFG_BIND, "bind");
   (CFG_BROWSER_ALLOW_DRM, "browser-allow-drm"); (CFG_BROWSER_DISABLE_U2F, "browser-disable-u2f");
   (CFG_CHROOT, "chroot"); (CFG_DBUS, "dbus"); (CFG_DISABLE_MNT, "disable-mnt");
   (CFG_FILE_TRANSFER, "file-transfer"); (CFG_FIREJAIL_PROMPT, "firejail-prompt");
   (CFG_FORCE_NONEWPRIVS, "force-nonewprivs"); (CFG_JOIN, "join"); (CFG_NAME_CHANGE, "name-change");
   (CFG_NETWORK, "network"); (CFG_PRIVATE_BIN, "private-bin");
   (CFG_PRIVATE_BIN_NO_LOCAL, "private-bin-no-local"); (CFG_PRIVATE_CACHE, "private-cache");
   (CFG_PRIVATE_ETC, "private-etc"); (CFG_PRIVATE_OPT, "private-opt"); (CFG_PRIVATE_SRV, "private-srv");
   (CFG_RESTRICTED_NETWORK, "restricted-network"); (CFG_SECCOMP, "seccomp");
   (CFG_SECCOMP_LOG, "seccomp-log"); (CFG_USERNS, "userns"); (CFG_X11, "x11");
   (CFG_XEPHYR_WINDOW_TITLE, "xephyr-window-title")].

Fixpoint yesno_line (keys : list (CFG * string)) (ptr : string) : option (K unit) :=
  match keys with
  | [] => None
  | (k, s) :: keys' =>
      match strip_prefix (s +:+ " ") ptr with
      | Some v => Some (if streq v "yes" then set_cfg k 1 else if streq v "no" then set_cfg k 0 else cexit 1)
      | None => yesno_line keys' ptr
      end
  end.

(** The array of the forbidden top directories: [None] is a store outside it. *)
Fixpoint topdirs_loop (toks : list string) (sz : Z) (dirs : list string) : option (list string) :=
  let cnt := Z.of_nat (length dirs) in
  if sz <=? cnt then None
  else match toks with
       | [] => Some dirs
       | tok :: toks' => topdirs_loop toks' (if sz <=? cnt + 1 then sz * 2 else sz) (dirs ++ [tok])
       end.

Section File.
(** access(fname, F_OK) *)
Context (file_there : string -> bool).

(** The lines behind the features: a prefix and what follows it. *)
Definition value_lines : list (string * (string -> K unit)) :=
  [("tracelog", fun _ => cret tt);
   ("private-home", fun _ => cret tt);
   ("xpra-attach", fun _ => cret tt);
   ("netfilter-default ", fun v =>
      let fname := skip_blanks v in
      let fname := match strchr_split " "%char fname with Some (l, _) => l | None => fname end in
      if negb (file_there fname) then cexit 1
      else s <~ cget ;;
           match netfilter_default s with Some _ => cexit 1 | None => set_netfilter fname end);
   ("xephyr-screen ", fun v =>
      match ('(n1, r) <-? scan_d v ;; r <-? scan_char "x"%char r ;; '(n2, _) <-? scan_d r ;; Some (n1, n2)) with
      | Some (n1, n2) => set_screen "xephyr_screen" (print_d n1 +:+ "x" +:+ print_d n2)
      | None => cexit 1
      end);
   ("xephyr-extra-params ", fun v =>
      s <~ cget ;;
      if nonempty (default "" (screens s !! "xephyr_extra_params")) then cexit 1
      else set_screen "xephyr_extra_params" v);
   ("xpra-extra-params ", fun _ => cret tt);
   ("xvfb-screen ", fun v =>
      match ('(n1, r) <-? scan_u v ;; r <-? scan_char "x"%char r ;; '(n2, r) <-? scan_u r ;;
             r <-? scan_char "x"%char r ;; '(n3, _) <-? scan_u r ;; Some (n1, n2, n3)) with
      | Some (n1, n2, n3) => set_screen "xvfb_screen" (print_u n1 +:+ "x" +:+ print_u n2 +:+ "x" +:+ print_u n3)
      | None => cexit 1
      end);
   ("xvfb-extra-params ", fun v =>
      s <~ cget ;;
      if nonempty (default "" (screens s !! "xvfb_extra_params")) then cexit 1
      else set_screen "xvfb_extra_params" v);
   ("quiet-by-default ", fun v =>
      if streq v "yes" then set_quiet 1 else if streq v "no" then set_quiet 0 else cexit 1);
   ("arg-max-count ", fun v =>
      let tmp := (strtol 10 v).1 in
      set_limits (fun '(el, ec, al, _) => (el, ec, al, if (tmp <? 0) || (ARG_MAX <? tmp) then ARG_MAX else tmp)));
   ("arg-max-len ", fun v => set_limits (fun '(el, ec, _, ac) => (el, ec, strtoul10 v, ac)));
   ("env-max-count ", fun v =>
      let tmp := (strtol 10 v).1 in
      set_limits (fun '(el, _, al, ac) => (el, if (tmp <? 0) || (INT_MAX <? tmp) then INT_MAX else tmp, al, ac)));
   ("env-max-len ", fun v => set_limits (fun '(_, ec, al, ac) => (strtoul10 v, ec, al, ac)));
   ("arp-probes ", fun v =>
      let arp_probes := atoi v in
      if (arp_probes <=? 1) || (30 <? arp_probes) then cexit 1 else set_cfg CFG_ARP_PROBES arp_probes);
   ("file-copy-limit ", fun v =>
      s <~ cget ;;
      let '(r, p) := env_store_name_val "FIREJAIL_FILE_COPY_LIMIT" v SETENV (env_of s) in
      set_env p ;;; clift r);
   ("join-timeout ", fun v => set_join (u64 (strtoul10 v * 1000000)));
   ("seccomp-filter-add ", fun v => l <~ clift (seccomp_check_list v) ;; set_filter_add l);
   ("seccomp-error-action ", fun v =>
      (if streq v "kill" then set_cfg CFG_SECCOMP_ERROR_ACTION SECCOMP_RET_KILL
       else if streq v "log" then set_cfg CFG_SECCOMP_ERROR_ACTION SECCOMP_RET_LOG
       else set_cfg CFG_SECCOMP_ERROR_ACTION (errno_find_name v) ;;;
            (if errno_find_name v =? -1 then cexit 1 else cret tt)) ;;;
      set_action v);
   ("whitelist-disable-topdir ", fun v =>
      match topdirs_loop (strtok ","%char v) 4 [] with
      | Some l => set_topdirs l
      | None => cfail
      end)].

Fixpoint value_line (rules : list (string * (string -> K unit))) (ptr : string) : K unit :=
  match rules with
  | [] => cexit 1
  | (s, f) :: rules' =>
      match strip_prefix s ptr with
      | Some v => f v
      | None => value_line rules' ptr
      end
  end.

(** One iteration of the loop of [checkcfg] on the buffer fgets filled. *)
Definition config_line (buf : string) : K unit :=
  match buf with
  | String c _ =>
      if Ascii.eqb c "#"%char || Ascii.eqb c newline then cret tt
      else match line_remove_spaces buf with
           | None => cret tt
           | Some ptr =>
               match yesno_line yesno_keys ptr with
               | Some m => m
               | None => value_line value_lines ptr
               end
           end
  | EmptyString => cret tt
  end.

Definition CONFIG_MAX_READ : nat := 8192.

(** The first call: the whole file, [None] when it cannot be opened. *)
Definition read_config (file : option string) : K unit :=
  match file with
  | None => cret tt
  | Some s => cfold (fun buf _ => config_line buf) (map c_string (fgets CONFIG_MAX_READ s)) tt
  end.
End File.

(** The value returned once the file is read. *)
Definition checkcfg (uid : Z) (s : settings) (val : CFG) : Z :=
  if decide (val = CFG_NETWORK)
  then if negb (cfg_val s CFG_RESTRICTED_NETWORK =? 0) && negb (uid =? 0) then 0 else cfg_val s val
  else cfg_val s val.

(** * Theorems about checkcfg.c *)

(** ** Values in range *)

Definition yesno_key (k : CFG) : bool := bool_decide (k ∈ map fst yesno_keys).

Definition limits_ok (p : proc) : Prop :=
  0 <= env_max_len p <= ULONG_MAX /\ 0 <= env_max_count p <= INT_MAX /\
  0 <= arg_max_len p <= ULONG_MAX /\ 0 <= arg_max_count p <= ARG_MAX.

Definition cfg_ok (v : CFG -> Z) : Prop :=
  (forall k, yesno_key k = true -> v k = 0 \/ v k = 1) /\
  2 <= v CFG_ARP_PROBES <= 30 /\
  (v CFG_SECCOMP_ERROR_ACTION = -1 \/ v CFG_SECCOMP_ERROR_ACTION = SECCOMP_RET_KILL \/
   v CFG_SECCOMP_ERROR_ACTION = SECCOMP_RET_LOG \/ 0 < v CFG_SECCOMP_ERROR_ACTION < 4096).

Definition settings_ok (s : settings) : Prop := cfg_ok (cfg_val s) /\ limits_ok (env_of s).

Lemma strtoul10_bounds s : 0 <= strtoul10 s <= ULONG_MAX.
Proof.
  unfold strtoul10. destruct (read_sign _) as [sg s1]. destruct (Z.ltb_spec ULONG_MAX (read_digits 10 0 s1).1).
  - unfold ULONG_MAX. lia.
  - unfold u64. change (2 ^ 64) with 18446744073709551616. unfold ULONG_MAX.
    pose proof (Z.mod_pos_bound (sg * (read_digits 10 0 s1).1) 18446744073709551616 ltac:(lia)). lia.
Qed.

Lemma set_yesno_ok k v : yesno_key k = true -> v = 0 \/ v = 1 -> keeps (preserves settings_ok) (set_cfg k v).
Proof.
  intros Hk Hv. apply keeps_modify. intros s [(H1 & H2 & H3) Hl]. split; [|done].
  split; [|split]; cbn [cfg_val].
  - intros k' Hk'. case_decide; [done|auto].
  - case_decide; [subst k; vm_compute in Hk; done|done].
  - case_decide; [subst k; vm_compute in Hk; done|done].
Qed.

Lemma set_arp_ok v : 2 <= v <= 30 -> keeps (preserves settings_ok) (set_cfg CFG_ARP_PROBES v).
Proof.
  intros Hv. apply keeps_modify. intros s [(H1 & H2 & H3) Hl]. split; [|done].
  split; [|split]; cbn [cfg_val]; [|done..].
  intros k' Hk'. case_decide; [subst k'; vm_compute in Hk'; done|auto].
Qed.

Lemma set_error_action_ok v :
  v = -1 \/ v = SECCOMP_RET_KILL \/ v = SECCOMP_RET_LOG \/ 0 < v < 4096 ->
  keeps (preserves settings_ok) (set_cfg CFG_SECCOMP_ERROR_ACTION v).
Proof.
  intros Hv. apply keeps_modify. intros s [(H1 & H2 & H3) Hl]. split; [|done].
  split; [|split]; cbn [cfg_val]; [|done..].
  intros k' Hk'. case_decide; [subst k'; vm_compute in Hk'; done|auto].
Qed.

Lemma set_limits_ok f :
  (forall el ec al ac, 0 <= el <= ULONG_MAX -> 0 <= ec <= INT_MAX -> 0 <= al <= ULONG_MAX -> 0 <= ac <= ARG_MAX ->
   let '(el', ec', al', ac') := f (el, ec, al, ac) in
   0 <= el' <= ULONG_MAX /\ 0 <= ec' <= INT_MAX /\ 0 <= al' <= ULONG_MAX /\ 0 <= ac' <= ARG_MAX) ->
  keeps (preserves settings_ok) (set_limits f).
Proof.
  intros H. apply keeps_get_bind. intros s [Hc (H1 & H2 & H3 & H4)].
  specialize (H _ _ _ _ H1 H2 H3 H4). cbv zeta.
  destruct (f _) as [[[el ec] al] ac]. split; [exact Hc|exact H].
Qed.

(** The setters that touch neither array nor limits. *)
Lemma other_setters_ok :
  (forall n v, keeps (preserves settings_ok) (set_screen n v)) /\
  (forall n, keeps (preserves settings_ok) (set_netfilter n)) /\
  (forall t, keeps (preserves settings_ok) (set_join t)) /\
  (forall t, keeps (preserves settings_ok) (set_action t)) /\
  (forall t, keeps (preserves settings_ok) (set_filter_add t)) /\
  (forall t, keeps (preserves settings_ok) (set_topdirs t)) /\
  (forall t, keeps (preserves settings_ok) (set_quiet t)).
Proof.
  repeat match goal with |- _ /\ _ => split end; intros; apply keeps_modify; intros s [Hc Hl];
    (split; [exact Hc|exact Hl]).
Qed.

Lemma env_store_name_val_limits n v o p :
  let p' := (env_store_name_val n v o p).2 in
  (env_max_len p', env_max_count p', arg_max_len p', arg_max_count p') =
  (env_max_len p, env_max_count p, arg_max_len p, arg_max_count p).
Proof. unfold env_store_name_val. by destruct (nonempty n). Qed.

Lemma set_copy_limit_ok v :
  keeps (preserves settings_ok)
    (s <~ cget ;;
     let '(r, p) := env_store_name_val "FIREJAIL_FILE_COPY_LIMIT" v SETENV (env_of s) in
     set_env p ;;; clift r).
Proof.
  apply keeps_get_bind. intros s [Hc Hl].
  pose proof (env_store_name_val_limits "FIREJAIL_FILE_COPY_LIMIT" v SETENV (env_of s)) as E.
  destruct (env_store_name_val _ _ _ _) as [r p]. cbn in E. injection E as E1 E2 E3 E4.
  unfold set_env. rewrite cmodify_bind. split; [exact Hc|]. unfold limits_ok in *. cbn. by rewrite E1, E2, E3, E4.
Qed.

Lemma yesno_line_ok keys ptr m :
  Forall (fun '(k, _) => yesno_key k = true) keys ->
  yesno_line keys ptr = Some m -> keeps (preserves settings_ok) m.
Proof.
  intros Hk. induction Hk as [|[k s] keys Hk _ IH]; simpl; [done|].
  destruct (strip_prefix _ ptr) as [v|]; [|exact IH]. intros [= <-].
  destruct (streq v "yes"); [by apply set_yesno_ok; auto|].
  destruct (streq v "no"); [by apply set_yesno_ok; auto|]. apply keeps_exit, _.
Qed.

Lemma all_yesno_keys : Forall (fun '(k, _) => yesno_key k = true) yesno_keys.
Proof. repeat constructor. Qed.

(** The numbers the value lines compute. *)
Lemma count_in_range v top : 0 <= top ->
  0 <= (if (v <? 0) || (top <? v) then top else v) <= top.
Proof. intros Ht. destruct (Z.ltb_spec v 0), (Z.ltb_spec top v); cbn [orb]; lia. Qed.

Lemma errno_action_ok v :
  errno_find_name v = -1 \/ errno_find_name v = SECCOMP_RET_KILL \/ errno_find_name v = SECCOMP_RET_LOG \/
  0 < errno_find_name v < 4096.
Proof.
  destruct (Z.eq_dec (errno_find_name v) (-1)) as [->|H]; [auto|]. do 3 right. by apply errno_find_name_bounds.
Qed.

Section File.
Context (file_there : string -> bool).

Lemma value_lines_ok : Forall (fun '(_, f) => forall v, keeps (preserves settings_ok) (f v)) (value_lines file_there).
Proof.
  pose proof other_setters_ok as (H1 & H2 & H3 & H4 & H5 & H6 & H7).
  unfold value_lines. repeat (apply Forall_cons; split; [intros v; cbv beta zeta|]); [..|constructor].
  19: { apply keeps_bind; [exact _| |intros; apply H4].
        destruct (streq v "kill"); [apply set_error_action_ok; tauto|].
        destruct (streq v "log"); [apply set_error_action_ok; tauto|].
        apply keeps_bind; [exact _|apply set_error_action_ok, errno_action_ok|intros; keeps_tac]. }
  16: { apply set_copy_limit_ok. }
  15: { destruct (Z.leb_spec (atoi v) 1), (Z.ltb_spec 30 (atoi v)); cbn [orb];
          try apply keeps_exit, _. apply set_arp_ok. lia. }
  11: { apply set_limits_ok. intros. pose proof (count_in_range (strtol 10 v).1 ARG_MAX ltac:(done)). tauto. }
  11: { apply set_limits_ok. intros. pose proof (strtoul10_bounds v). tauto. }
  11: { apply set_limits_ok. intros. pose proof (count_in_range (strtol 10 v).1 INT_MAX ltac:(done)). tauto. }
  11: { apply set_limits_ok. intros. pose proof (strtoul10_bounds v). tauto. }
  all: keeps_tac; auto.
Qed.

Lemma value_line_ok rules ptr :
  Forall (fun '(_, f) => forall v, keeps (preserves settings_ok) (f v)) rules ->
  keeps (preserves settings_ok) (value_line rules ptr).
Proof.
  induction 1 as [|[s f] rules Hf _ IH]; simpl; [apply keeps_exit, _|].
  destruct (strip_prefix s ptr); [apply Hf|exact IH].
Qed.

Lemma config_line_ok buf : keeps (preserves settings_ok) (config_line file_there buf).
Proof.
  destruct buf as [|c buf]; cbn [config_line]; [apply keeps_ret, _|].
  destruct (_ || _); [apply keeps_ret, _|].
  destruct (line_remove_spaces _) as [ptr|]; [|apply keeps_ret, _].
  destruct (yesno_line yesno_keys ptr) as [m|] eqn:E.
  - exact (yesno_line_ok _ _ _ all_yesno_keys E).
  - apply value_line_ok, value_lines_ok.
Qed.

Lemma read_config_ok file : keeps (preserves settings_ok) (read_config file_there file).
Proof.
  destruct file as [s|]; simpl; [|apply keeps_ret, _].
  apply keeps_fold; [exact _|]. intros buf _. apply config_line_ok.
Qed.

Lemma default_settings_ok q l e : settings_ok (default_settings q l e).
Proof.
  split; [split; [|split]|].
  - intros k Hk. destruct k; cbn; auto; vm_compute in Hk; done.
  - cbn. unfold DEFAULT_ARP_PROBES. lia.
  - cbn. auto.
  - repeat split; vm_compute; done.
Qed.

(** Whatever the configuration file holds, once it is read every feature is on or
    off, between 2 and 30 ARP probes are sent, the error action is unset or one
    the seccomp code accepts, and the limits fit the variables they are kept in. *)
Theorem read_config_in_range q l e file :
  settings_ok (read_config file_there file (default_settings q l e)).2.
Proof. apply read_config_ok, default_settings_ok. Qed.
End File.

(** ** Features *)

Definition feature : Type := (CFG * string) * bool.

Definition feature_line (f : feature) : string := f.1.2 +:+ (if f.2 then " yes" else " no").

(** The value of a feature once the lines have been read, over the value before. *)
Definition feature_value (k : CFG) (v : Z) (fs : list feature) : Z :=
  foldl (fun v f => if decide (k = f.1.1) then Z.b2z f.2 else v) v fs.

Definition features_text (fs : list feature) : string := String.concat "" (map line (map feature_line fs)).

(** The key of a line and what follows it. *)
Fixpoint find_key (keys : list (CFG * string)) (ptr : string) : option (CFG * string) :=
  match keys with
  | [] => None
  | (k, s) :: keys' =>
      match strip_prefix (s +:+ " ") ptr with
      | Some v => Some (k, v)
      | None => find_key keys' ptr
      end
  end.

Lemma yesno_line_key keys ptr :
  yesno_line keys ptr =
  match find_key keys ptr with
  | Some (k, v) => Some (if streq v "yes" then set_cfg k 1 else if streq v "no" then set_cfg k 0 else cexit 1)
  | None => None
  end.
Proof.
  induction keys as [|[k s] keys IH]; [done|]. cbn [yesno_line find_key].
  by destruct (strip_prefix _ ptr).
Qed.

Definition hash_or_newline (s : string) : bool :=
  match s with String c _ => Ascii.eqb c "#"%char || Ascii.eqb c newline | EmptyString => true end.

Lemma config_line_feature there buf ptr k v :
  hash_or_newline buf = false -> line_remove_spaces buf = Some ptr -> find_key yesno_keys ptr = Some (k, v) ->
  config_line there buf = if streq v "yes" then set_cfg k 1 else if streq v "no" then set_cfg k 0 else cexit 1.
Proof.
  destruct buf as [|c buf]; [done|]. cbn [hash_or_newline config_line]. intros -> -> E.
  by rewrite yesno_line_key, E.
Qed.

Definition feature_ok (f : feature) : bool :=
  let buf := c_string (line (feature_line f)) in
  negb (hash_or_newline buf) &&
  bool_decide (line_remove_spaces buf = Some (feature_line f)) &&
  bool_decide (find_key yesno_keys (feature_line f) = Some (f.1.1, if f.2 then "yes" else "no")) &&
  fgets_line CONFIG_MAX_READ (feature_line f).

(** Every feature line is one the parser reads as that feature. *)
Lemma all_features_ok :
  forallb (fun kn => feature_ok (kn, true) && feature_ok (kn, false)) yesno_keys = true.
Proof. vm_compute. reflexivity. Qed.

Lemma feature_ok_in f : In f.1 yesno_keys -> feature_ok f = true.
Proof.
  intros H. pose proof all_features_ok as Ha. rewrite List.forallb_forall in Ha.
  specialize (Ha _ H). apply andb_true_iff in Ha. destruct f as [kn []]; tauto.
Qed.

Lemma feature_line_read there f : In f.1 yesno_keys ->
  config_line there (c_string (line (feature_line f))) = set_cfg f.1.1 (Z.b2z f.2).
Proof.
  intros [[[H1%negb_true_iff H2%bool_decide_eq_true]%andb_true_iff
            H3%bool_decide_eq_true]%andb_true_iff _]%feature_ok_in%andb_true_iff.
  rewrite (config_line_feature there _ _ _ _ H1 H2 H3). by destruct f as [? []].
Qed.

Lemma feature_line_fits f : In f.1 yesno_keys -> fgets_line CONFIG_MAX_READ (feature_line f) = true.
Proof. by intros [_ H]%feature_ok_in%andb_true_iff. Qed.

Lemma features_read there fs s : Forall (fun f => In f.1 yesno_keys) fs ->
  exists s', cfold (fun buf _ => config_line there buf) (map c_string (map line (map feature_line fs))) tt s
             = (Ok tt, s') /\ forall k, cfg_val s' k = feature_value k (cfg_val s k) fs.
Proof.
  intros H. revert s. induction H as [|f fs Hf _ IH]; intros s; [by exists s|].
  destruct (IH (set_cfg f.1.1 (Z.b2z f.2) s).2) as (s' & E & Hv).
  exists s'. split.
  - cbn [map cfold]. rewrite feature_line_read by done. exact E.
  - intros k'. rewrite Hv. reflexivity.
Qed.

(** A configuration file of feature lines is read to its end, and for every
    feature the last line that names it decides; a feature no line names keeps its
    default. *)
Theorem read_config_features there fs q l e :
  Forall (fun f => In f.1 yesno_keys) fs ->
  exists s', read_config there (Some (features_text fs)) (default_settings q l e) = (Ok tt, s') /\
  forall k, cfg_val s' k = feature_value k (default_cfg k) fs.
Proof.
  intros H. unfold read_config, features_text. rewrite fgets_lines.
  - by apply features_read.
  - apply List.forallb_forall. intros x (f & <- & Hf)%in_map_iff.
    rewrite List.Forall_forall in H. by apply feature_line_fits, H.
Qed.

Lemma read_config_features_witness :
  let fs := [((CFG_SECCOMP, "seccomp"), false); ((CFG_JOIN, "join"), true); ((CFG_SECCOMP, "seccomp"), true);
             ((CFG_NETWORK, "network"), false)] in
  exists s', read_config (fun _ => true) (Some (features_text fs)) (default_settings 0 [] ∅) = (Ok tt, s') /\
  (forall k, cfg_val s' k = feature_value k (default_cfg k) fs) /\
  feature_value CFG_SECCOMP (default_cfg CFG_SECCOMP) fs = 1 /\
  feature_value CFG_NETWORK (default_cfg CFG_NETWORK) fs = 0.
Proof.
  intros fs. destruct (read_config_features (fun _ => true) fs 0 [] ∅) as (s' & E & Hv).
  - repeat (apply Forall_cons; split; [vm_compute; repeat first [left; reflexivity | right]|]). constructor.
  - exists s'. by repeat split.
Defined.

(** ** The array of top directories *)

Lemma topdirs_loop_all toks sz dirs :
  Z.of_nat (length dirs) < sz -> topdirs_loop toks sz dirs = Some (dirs ++ toks).
Proof.
  revert sz dirs. induction toks as [|t toks IH]; intros sz dirs H; cbn [topdirs_loop];
    rewrite (proj2 (Z.leb_gt _ _)) by done; [by rewrite app_nil_r|].
  rewrite IH; [by rewrite <- app_assoc|]. rewrite length_app. simpl.
  destruct (Z.leb_spec sz (Z.of_nat (length dirs) + 1)); lia.
Qed.

(** Every directory of a whitelist-disable-topdir line is stored, in order, and no
    store, the terminator's included, falls outside the array. *)
Lemma topdirs_in_bounds v : topdirs_loop (strtok ","%char v) 4 [] = Some (strtok ","%char v).
Proof. by rewrite topdirs_loop_all. Qed.

(** ** Lines that end the program *)

(** One probe is refused although the file's own comment permits it. *)
Lemma one_arp_probe_rejected there s : (config_line there "arp-probes 1" s).1 = Exit 1.
Proof. reflexivity. Qed.

(** A line of blanks is an error, an empty line is not. *)
Lemma blank_line_rejected there s : (config_line there (line "  ") s).1 = Exit 1.
Proof. reflexivity. Qed.

Lemma empty_line_accepted there s : config_line there (line "") s = (Ok tt, s).
Proof. reflexivity. Qed.
