(* ===== verification/ProfileState.v ===== *)
(** * The state profile lines change (src/firejail/firejail.h, profile.c)

    The record [cfg] and the [arg_] variables of firejail.  Numbers and texts are
    kept by the name they have in the source; a missing entry is 0 or NULL.  What
    the lines do outside the process is a list of effects, and what the file system
    answers may depend on it. *)

From S2P Require Import Prelude.
From S2P Require Import Clib.
From S2P Require Import ProfileList.
From S2P Require Import Env.
From S2P Require Import Text.
From S2P Require Import Common.
From S2P Require Import Util.
From S2P Require Import Checkcfg.
From S2P Require Import Dbus.
From S2P Require Import Macros.

Record Bridge := mk_bridge {
  dev : string;
  ip : Z;
  mask : Z;
  mac : list Z;
  mtu : Z;
  veth_name : option string;
  devsandbox : string;
  ipsandbox : Z;
  masksandbox : Z;
  ip6sandbox : option string;
  macsandbox : list Z;
  iprange_start : Z;
  iprange_end : Z;
  arg_ip_none : Z;
  arg_ip6_dhcp : Z;
  macvlan : Z;
  configured : Z
}.

Definition no_bridge : Bridge :=
  mk_bridge "" 0 0 [0; 0; 0; 0; 0; 0] 0 None "" 0 0 None [0; 0; 0; 0; 0; 0] 0 0 0 0 0 0.

(** Stores to one field. *)
Definition with_dev (v : string) (b : Bridge) : Bridge :=
  mk_bridge v (ip b) (mask b) (mac b) (mtu b) (veth_name b) (devsandbox b) (ipsandbox b) (masksandbox b)
    (ip6sandbox b) (macsandbox b) (iprange_start b) (iprange_end b) (arg_ip_none b) (arg_ip6_dhcp b)
    (macvlan b) (configured b).
Definition with_ip (v : Z) (b : Bridge) : Bridge :=
  mk_bridge (dev b) v (mask b) (mac b) (mtu b) (veth_name b) (devsandbox b) (ipsandbox b) (masksandbox b)
    (ip6sandbox b) (macsandbox b) (iprange_start b) (iprange_end b) (arg_ip_none b) (arg_ip6_dhcp b)
    (macvlan b) (configured b).
Definition with_mask (v : Z) (b : Bridge) : Bridge :=
  mk_bridge (dev b) (ip b) v (mac b) (mtu b) (veth_name b) (devsandbox b) (ipsandbox b) (masksandbox b)
    (ip6sandbox b) (macsandbox b) (iprange_start b) (iprange_end b) (arg_ip_none b) (arg_ip6_dhcp b)
    (macvlan b) (configured b).
Definition with_mac (v : list Z) (b : Bridge) : Bridge :=
  mk_bridge (dev b) (ip b) (mask b) v (mtu b) (veth_name b) (devsandbox b) (ipsandbox b) (masksandbox b)
    (ip6sandbox b) (macsandbox b) (iprange_start b) (iprange_end b) (arg_ip_none b) (arg_ip6_dhcp b)
    (macvlan b) (configured b).
Definition with_mtu (v : Z) (b : Bridge) : Bridge :=
  mk_bridge (dev b) (ip b) (mask b) (mac b) v (veth_name b) (devsandbox b) (ipsandbox b) (masksandbox b)
    (ip6sandbox b) (macsandbox b) (iprange_start b) (iprange_end b) (arg_ip_none b) (arg_ip6_dhcp b)
    (macvlan b) (configured b).
Definition with_veth_name (v : option string) (b : Bridge) : Bridge :=
  mk_bridge (dev b) (ip b) (mask b) (mac b) (mtu b) v (devsandbox b) (ipsandbox b) (masksandbox b)
    (ip6sandbox b) (macsandbox b) (iprange_start b) (iprange_end b) (arg_ip_none b) (arg_ip6_dhcp b)
    (macvlan b) (configured b).
Definition with_devsandbox (v : string) (b : Bridge) : Bridge :=
  mk_bridge (dev b) (ip b) (mask b) (mac b) (mtu b) (veth_name b) v (ipsandbox b) (masksandbox b)
    (ip6sandbox b) (macsandbox b) (iprange_start b) (iprange_end b) (arg_ip_none b) (arg_ip6_dhcp b)
    (macvlan b) (configured b).
Definition with_ipsandbox (v : Z) (b : Bridge) : Bridge :=
  mk_bridge (dev b) (ip b) (mask b) (mac b) (mtu b) (veth_name b) (devsandbox b) v (masksandbox b)
    (ip6sandbox b) (macsandbox b) (iprange_start b) (iprange_end b) (arg_ip_none b) (arg_ip6_dhcp b)
    (macvlan b) (configured b).
Definition with_masksandbox (v : Z) (b : Bridge) : Bridge :=
  mk_bridge (dev b) (ip b) (mask b) (mac b) (mtu b) (veth_name b) (devsandbox b) (ipsandbox b) v
    (ip6sandbox b) (macsandbox b) (iprange_start b) (iprange_end b) (arg_ip_none b) (arg_ip6_dhcp b)
    (macvlan b) (configured b).
Definition with_ip6sandbox (v : option string) (b : Bridge) : Bridge :=
  mk_bridge (dev b) (ip b) (mask b) (mac b) (mtu b) (veth_name b) (devsandbox b) (ipsandbox b)
    (masksandbox b) v (macsandbox b) (iprange_start b) (iprange_end b) (arg_ip_none b) (arg_ip6_dhcp b)
    (macvlan b) (configured b).
Definition with_macsandbox (v : list Z) (b : Bridge) : Bridge :=
  mk_bridge (dev b) (ip b) (mask b) (mac b) (mtu b) (veth_name b) (devsandbox b) (ipsandbox b)
    (masksandbox b) (ip6sandbox b) v (iprange_start b) (iprange_end b) (arg_ip_none b) (arg_ip6_dhcp b)
    (macvlan b) (configured b).
Definition with_iprange_start (v : Z) (b : Bridge) : Bridge :=
  mk_bridge (dev b) (ip b) (mask b) (mac b) (mtu b) (veth_name b) (devsandbox b) (ipsandbox b)
    (masksandbox b) (ip6sandbox b) (macsandbox b) v (iprange_end b) (arg_ip_none b) (arg_ip6_dhcp b)
    (macvlan b) (configured b).
Definition with_iprange_end (v : Z) (b : Bridge) : Bridge :=
  mk_bridge (dev b) (ip b) (mask b) (mac b) (mtu b) (veth_name b) (devsandbox b) (ipsandbox b)
    (masksandbox b) (ip6sandbox b) (macsandbox b) (iprange_start b) v (arg_ip_none b) (arg_ip6_dhcp b)
    (macvlan b) (configured b).
Definition with_arg_ip_none (v : Z) (b : Bridge) : Bridge :=
  mk_bridge (dev b) (ip b) (mask b) (mac b) (mtu b) (veth_name b) (devsandbox b) (ipsandbox b)
    (masksandbox b) (ip6sandbox b) (macsandbox b) (iprange_start b) (iprange_end b) v (arg_ip6_dhcp b)
    (macvlan b) (configured b).
Definition with_arg_ip6_dhcp (v : Z) (b : Bridge) : Bridge :=
  mk_bridge (dev b) (ip b) (mask b) (mac b) (mtu b) (veth_name b) (devsandbox b) (ipsandbox b)
    (masksandbox b) (ip6sandbox b) (macsandbox b) (iprange_start b) (iprange_end b) (arg_ip_none b) v
    (macvlan b) (configured b).
Definition with_macvlan (v : Z) (b : Bridge) : Bridge :=
  mk_bridge (dev b) (ip b) (mask b) (mac b) (mtu b) (veth_name b) (devsandbox b) (ipsandbox b)
    (masksandbox b) (ip6sandbox b) (macsandbox b) (iprange_start b) (iprange_end b) (arg_ip_none b)
    (arg_ip6_dhcp b) v (configured b).
Definition with_configured (v : Z) (b : Bridge) : Bridge :=
  mk_bridge (dev b) (ip b) (mask b) (mac b) (mtu b) (veth_name b) (devsandbox b) (ipsandbox b)
    (masksandbox b) (ip6sandbox b) (macsandbox b) (iprange_start b) (iprange_end b) (arg_ip_none b)
    (arg_ip6_dhcp b) (macvlan b) v.

(** The argument of mount(2): a path, an open file (/proc/self/fd/N), or NULL. *)
Inductive place :=
| At (path : string)
| Of (fd : Z)
| Nowhere.

(** What a line or an option does outside: a directory or file made by the user's
    child, the X11 server started, a sandbox joined, the name of the profile saved,
    a program run, a function called that prints or changes another sandbox. *)
Inductive effect :=
| Mkdir (path : string)
| Mkfile (path : string)
| X11_start
| Join (pid index : Z)
| Run_file (fname : string)
| Sbox_run (filter : Z) (args : list string)                (* a confined child, sbox.c *)
| Exec (path : string) (args : list string)                  (* execv: the process is replaced *)
| Seteuid (u : Z)                                            (* EUID_ROOT, EUID_USER *)
| Mount (source target : place) (fstype : string) (flags : Z) (data : string)
| Call (function : string) (pid : Z) (args : list string).  (* a function of the kernel or terminal side *)

Record Config := mk_config {
  ints : gmap string Z;
  strs : gmap string string;
  bridges : list Bridge;            (* bridge0 .. bridge3 *)
  arg_dbus_user : DbusPolicy;
  arg_dbus_system : DbusPolicy;
  profile : list string;
  profile_ignore : list string;     (* up to the first NULL *)
  lprofile : list (Z * string);
  environment : proc;
  include_level : Z;
  rebuild_etc : list string;        (* profile_rebuild_etc *)
  effects : list effect
}.

Definition P (A : Type) : Type := CM Config A.

Definition with_ints m (c : Config) : Config :=
  mk_config m (strs c) (bridges c) (arg_dbus_user c) (arg_dbus_system c) (profile c) (profile_ignore c)
    (lprofile c) (environment c) (include_level c) (rebuild_etc c) (effects c).
Definition with_strs m (c : Config) : Config :=
  mk_config (ints c) m (bridges c) (arg_dbus_user c) (arg_dbus_system c) (profile c) (profile_ignore c)
    (lprofile c) (environment c) (include_level c) (rebuild_etc c) (effects c).
Definition with_bridges l (c : Config) : Config :=
  mk_config (ints c) (strs c) l (arg_dbus_user c) (arg_dbus_system c) (profile c) (profile_ignore c)
    (lprofile c) (environment c) (include_level c) (rebuild_etc c) (effects c).
Definition with_dbus_user p (c : Config) : Config :=
  mk_config (ints c) (strs c) (bridges c) p (arg_dbus_system c) (profile c) (profile_ignore c)
    (lprofile c) (environment c) (include_level c) (rebuild_etc c) (effects c).
Definition with_dbus_system p (c : Config) : Config :=
  mk_config (ints c) (strs c) (bridges c) (arg_dbus_user c) p (profile c) (profile_ignore c)
    (lprofile c) (environment c) (include_level c) (rebuild_etc c) (effects c).
Definition with_profile l (c : Config) : Config :=
  mk_config (ints c) (strs c) (bridges c) (arg_dbus_user c) (arg_dbus_system c) l (profile_ignore c)
    (lprofile c) (environment c) (include_level c) (rebuild_etc c) (effects c).
Definition with_ignore l (c : Config) : Config :=
  mk_config (ints c) (strs c) (bridges c) (arg_dbus_user c) (arg_dbus_system c) (profile c) l
    (lprofile c) (environment c) (include_level c) (rebuild_etc c) (effects c).
Definition with_lprofile l (c : Config) : Config :=
  mk_config (ints c) (strs c) (bridges c) (arg_dbus_user c) (arg_dbus_system c) (profile c)
    (profile_ignore c) l (environment c) (include_level c) (rebuild_etc c) (effects c).
Definition with_environment p (c : Config) : Config :=
  mk_config (ints c) (strs c) (bridges c) (arg_dbus_user c) (arg_dbus_system c) (profile c)
    (profile_ignore c) (lprofile c) p (include_level c) (rebuild_etc c) (effects c).
Definition with_include_level n (c : Config) : Config :=
  mk_config (ints c) (strs c) (bridges c) (arg_dbus_user c) (arg_dbus_system c) (profile c)
    (profile_ignore c) (lprofile c) (environment c) n (rebuild_etc c) (effects c).
Definition with_effects l (c : Config) : Config :=
  mk_config (ints c) (strs c) (bridges c) (arg_dbus_user c) (arg_dbus_system c) (profile c)
    (profile_ignore c) (lprofile c) (environment c) (include_level c) (rebuild_etc c) l.
Definition with_rebuild_etc l (c : Config) : Config :=
  mk_config (ints c) (strs c) (bridges c) (arg_dbus_user c) (arg_dbus_system c) (profile c)
    (profile_ignore c) (lprofile c) (environment c) (include_level c) l (effects c).

(** ** Variables *)

Definition int_of (n : string) (c : Config) : Z := default 0 (ints c !! n).
Definition str_of (n : string) (c : Config) : option string := strs c !! n.

Definition get_int (n : string) : P Z := c <~ cget ;; cret (int_of n c).
Definition get_str (n : string) : P (option string) := c <~ cget ;; cret (str_of n c).
Definition set_int (n : string) (v : Z) : P unit := cmodify (fun c => with_ints (<[n := v]> (ints c)) c).
Definition set_str (n v : string) : P unit := cmodify (fun c => with_strs (<[n := v]> (strs c)) c).
Definition set_null (n : string) : P unit := cmodify (fun c => with_strs (delete n (strs c)) c).

Definition emit (e : effect) : P unit := cmodify (fun c => with_effects (effects c ++ [e]) c).

(** [profile_add(str)]: the walk to the last entry and the store behind it. *)
Definition profile_add (str : string) : P unit :=
  cmodify (fun c => with_profile (profile c ++ [str]) c).

(** A function of env.c. *)
Definition in_env (m : E unit) : P unit :=
  c <~ cget ;;
  let '(r, p) := m (environment c) in
  cmodify (with_environment p) ;;; clift r.

(** [profile_list_augment(&list, items)] *)
Definition augment (n items : string) : P unit :=
  s <~ get_str n ;;
  l <~ clift (profile_list_augment s (Some items)) ;;
  set_str n l.

(** ** The ignore list *)

Definition MAX_PROFILE_IGNORE : Z := 32.

(** One entry is a prefix of the line that ends at the end of a word. *)
Definition ignored_by (ptr entry : string) : bool :=
  match strip_prefix entry ptr with
  | Some EmptyString => true
  | Some (String c _) => Ascii.eqb c " "%char
  | None => false
  end.

Definition is_in_ignore_list (ptr : string) (c : Config) : bool :=
  existsb (ignored_by ptr) (profile_ignore c).

Definition profile_add_ignore (str : string) : P unit :=
  if negb (nonempty str) then cexit 1
  else c <~ cget ;;
       if MAX_PROFILE_IGNORE <=? Z.of_nat (length (profile_ignore c)) then cexit 1
       else cmodify (fun c => with_ignore (profile_ignore c ++ [str]) c).

(** ** Bridges *)

Definition bridge (i : nat) (c : Config) : Bridge := nth i (bridges c) no_bridge.
Definition is_configured (i : nat) (c : Config) : bool := negb (configured (bridge i c) =? 0).

Definition last_bridge_configured (c : Config) : option nat :=
  if is_configured 3 c then Some 3%nat
  else if is_configured 2 c then Some 2%nat
  else if is_configured 1 c then Some 1%nat
  else if is_configured 0 c then Some 0%nat
  else None.

Definition any_bridge_configured (c : Config) : bool :=
  is_configured 0 c || is_configured 1 c || is_configured 2 c || is_configured 3 c.

Definition upd_bridge (i : nat) (f : Bridge -> Bridge) : P unit :=
  cmodify (fun c => with_bridges (<[i := f (bridge i c)]> (bridges c)) c).

(** ** The host *)

Record fsview := mk_view {
  f_stat : string -> bool;              (* stat(2) succeeds *)
  f_dir : string -> bool;               (* and finds a directory *)
  f_link : string -> bool;              (* readlink(2) succeeds *)
  f_lstat_reg : string -> bool;         (* lstat(2) finds a regular file or a link *)
  f_access_r : string -> option Z;      (* the errno of access(fname, R_OK), if it fails *)
  f_realpath : string -> option string;
  f_text : string -> option string;     (* what fopen for reading gives access to *)
  f_entries : string -> list string     (* the names opendir and readdir list *)
}.

Class Host := {
  built : string -> bool;               (* HAVE_... *)
  conf : settings;
  uid : Z;
  homedir : string;
  sysconfdir : string;
  libdir : string;
  install_prefix : string;
  original_argv : list string;
  view : list effect -> fsview;
  inet_pton6 : string -> bool;          (* inet_pton(AF_INET6, ...) == 1 *)
  sandbox_pid : string -> option Z;     (* name2pid *)
  child_status : list effect -> Z       (* of the child that was run last *)
}.

Section Host.
Context `{H : Host}.

Definition cfgval (k : CFG) : Z := checkcfg uid conf k.
Definition enabled (k : CFG) : bool := negb (cfgval k =? 0).

Definition fs_now (c : Config) : fsview := view (effects c).

Definition ends_with_slash (fname : string) : bool :=
  match last_char fname with Some c => Ascii.eqb c "/"%char | None => false end.

Definition is_dir (fname : string) (v : fsview) : bool :=
  nonempty fname && f_dir v (if ends_with_slash fname then fname else fname +:+ "/").

Definition is_link (fname : string) (v : fsview) : bool :=
  nonempty fname && f_link v (trim_trailing_slash_or_dot fname).

(** [expand_macros(path)] *)
Definition expand (path : string) : P string :=
  c <~ cget ;;
  let v := fs_now c in
  clift (expand_macros homedir sysconfdir uid (f_stat v) (f_text v (homedir +:+ "/.config/user-dirs.dirs")) path).

End Host.
