(* ===== verification/ProfileCommands.v ===== *)
(** * Profile commands (profile_check_line of src/firejail/profile.c)

    One definition per command that does more than set a variable; the argument is
    the text behind the command.  The result is what [profile_check_line] returns:
    whether the line is to be added to the list of profile commands. *)

From S2P Require Import Prelude.
From S2P Require Import Clib.
From S2P Require Import ProfileList.
From S2P Require Import Caps.
From S2P Require Import Bpf.
From S2P Require Import SyscallTables.
From S2P Require Import Install.
From S2P Require Import Env.
From S2P Require Import Text.
From S2P Require Import Common.
From S2P Require Import Mountinfo.
From S2P Require Import Util.
From S2P Require Import Macros.
From S2P Require Import Dbus.
From S2P Require Import Checkcfg.
From S2P Require Import ProfileState.

(** * Checks of the arguments of profile lines

    The functions of cpu.c, network.c, netns.c, netfilter.c, fs_mkdir.c, fs_home.c,
    fs_hostname.c, landlock.c and main.c (src/firejail/) that the lines call. *)

(** ** cpu.c *)

(** [for (i = 0; i < val; i++, mask <<= 1)] *)
Fixpoint cpu_mask (val : nat) : Z :=
  match val with
  | O => 1
  | S v => u32 (Z.shiftl (cpu_mask v) 1)
  end.

Definition set_cpu (str : string) : P unit :=
  if strlen str =? 0 then cret tt
  else
    let val := atoi str in
    if (val <? 0) || (32 <=? val) then cexit 1
    else cpus <~ get_int "cpus" ;; set_int "cpus" (Z.lor cpus (cpu_mask (Z.to_nat val))).

Definition cpu_list_char (c : ascii) : bool := Ascii.eqb c ","%char || isdigit c.

Definition read_cpu_list (str : string) : P unit :=
  if negb (string_forallb cpu_list_char str) then cexit 1
  else cfold (fun s _ => set_cpu s) (fields ","%char str) tt.

(** ** landlock.c *)

Definition LL_FS_READ : Z := 0.
Definition LL_FS_WRITE : Z := 1.
Definition LL_FS_MAKEIPC : Z := 2.
Definition LL_FS_MAKEDEV : Z := 3.
Definition LL_FS_EXEC : Z := 4.
Definition LL_MAX : Z := 5.

Section Args.
Context `{H : Host}.

Definition ll_add_profile (type : Z) (data : string) : P unit :=
  if built "HAVE_LANDLOCK" then
    cassert ((0 <=? type) && (type <? LL_MAX)) ;;;
    cmodify (fun c => with_lprofile (lprofile c ++ [(type, skip_blanks data)]) c)
  else cret tt.

(** ** network.c *)

Definition check_ip46_address (addr : string) : bool :=
  match atoip addr with
  | Some _ => true
  | None =>
      match strchr_split "/"%char addr with
      | Some (tmpstr, ptr) =>
          let mask := atoi ptr in
          if (mask <? 0) || (128 <? mask) then false else inet_pton6 tmpstr
      | None => inet_pton6 addr
      end
  end.

(** ** netns.c *)

Definition netns_control_file (nsname : string) : string := "/var/run/netns/" +:+ nsname.

Definition check_netns (nsname : string) : P unit :=
  if string_mem "/"%char nsname || contains ".." nsname then cexit 1
  else
    clift (invalid_filename nsname false) ;;;
    c <~ cget ;;
    if negb (f_lstat_reg (fs_now c) (netns_control_file nsname)) then cexit 1 else cret tt.

(** ** netfilter.c *)

Definition check_netfilter_file (fname : string) : P unit :=
  let tmp := match strchr_split ","%char fname with Some (l, _) => l | None => fname end in
  clift (invalid_filename tmp false) ;;;
  c <~ cget ;;
  let v := fs_now c in
  if is_dir tmp v || is_link tmp v || contains ".." tmp || bool_decide (is_Some (f_access_r v tmp))
  then cexit 1 else cret tt.

(** ** fs_mkdir.c *)

Definition runuser : string := "/run/user/" +:+ print_d uid +:+ "/".

Definition supported_path (fname : string) : bool :=
  has_prefix homedir fname || has_prefix "/tmp" fname || has_prefix runuser fname.

Definition check_path (fname : string) : P unit := if supported_path fname then cret tt else cexit 1.

Definition fs_mkdir (name : string) : P unit :=
  clift (invalid_filename name false) ;;;
  expanded <~ expand name ;;
  check_path expanded ;;;
  c <~ cget ;;
  if f_stat (fs_now c) expanded then cret tt else emit (Mkdir expanded).

Definition fs_mkfile (name : string) : P unit :=
  clift (invalid_filename name false) ;;;
  expanded <~ expand name ;;
  check_path expanded ;;;
  c <~ cget ;;
  if f_stat (fs_now c) expanded then cret tt else emit (Mkfile expanded).

(** ** fs_home.c and fs_hostname.c *)

Definition fs_check_private_dir : P unit :=
  c <~ cget ;;
  let dir := default "" (str_of "home_private" c) in
  clift (invalid_filename dir false) ;;;
  tmp <~ expand dir ;;
  match f_realpath (fs_now c) tmp with
  | None => set_null "home_private" ;;; cexit 1
  | Some rp => set_str "home_private" rp ;;; if is_dir rp (fs_now c) then cret tt else cexit 1
  end.

Definition fs_check_private_cwd (dir : string) : P unit :=
  clift (invalid_filename dir false) ;;;
  if streq dir "." then cexit 1
  else
    cwd <~ expand dir ;;
    set_str "cwd" cwd ;;;
    if contains ".." cwd || negb (has_prefix "/" cwd) then cexit 1 else cret tt.

Definition fs_check_hosts_file (fname : string) : P string :=
  clift (invalid_filename fname false) ;;;
  rv <~ expand fname ;;
  c <~ cget ;;
  match f_access_r (fs_now c) rv with
  | Some _ => cexit 1
  | None => cret rv
  end.

(** ** main.c *)

Definition check_user_namespace : P unit :=
  if uid =? 0 then set_int "arg_noroot" 0
  else c <~ cget ;;
       let v := fs_now c in
       if f_stat v "/proc/self/ns/user" && f_stat v "/proc/self/uid_map" && f_stat v "/proc/self/gid_map"
       then set_int "arg_noroot" 1 else set_int "arg_noroot" 0.
End Args.

(** A command that was executed; a variable set to 1. *)
Definition executed (m : P unit) : P bool := m ;;; cret false.
Definition flag (n : string) : P bool := executed (set_int n 1).

Section Commands.
Context `{H : Host} `{CH : CapHeaders}.

(** [if (checkcfg(k)) ... else warning_feature_disabled(...)] and its form under
    [#ifdef HAVE_NETWORK]. *)
Definition if_enabled (k : CFG) (m : P unit) : P bool := executed (if enabled k then m else cret tt).
Definition if_network (m : P unit) : P bool :=
  executed (if built "HAVE_NETWORK" && enabled CFG_NETWORK then m else cret tt).

Definition exit_unless (b : bool) : P unit := if b then cret tt else cexit 1.

(** ** Names *)

Definition set_sandbox_name (nm : string) : P unit :=
  set_str "name" nm ;;;
  if (strlen nm =? 0) || invalid_name nm then cexit 1 else cret tt.

Definition set_hostname (nm : string) : P unit :=
  r <~ get_int "arg_hostname_randomize" ;;
  if negb (r =? 0) then cexit 1
  else set_str "hostname" nm ;;;
       if (strlen nm =? 0) || invalid_name nm then cexit 1 else cret tt.

Definition randomize_hostname : P unit :=
  h <~ get_str "hostname" ;;
  match h with Some _ => cexit 1 | None => set_int "arg_hostname_randomize" 1 end.

Definition cmd_hostname (nm : string) : P bool := executed (set_hostname nm).
Definition cmd_hostname_randomize (_ : string) : P bool := executed randomize_hostname.

(** [for (i = 1; i < argc && strncmp(argv[i], "--", 2) != 0; i++)] *)
Fixpoint option_index (i : Z) (args : list string) : Z :=
  match args with
  | [] => i
  | a :: args' => if has_prefix "--" a then i else option_index (i + 1) args'
  end.

Definition cmd_join_or_start (nm : string) : P bool :=
  executed (if enabled CFG_JOIN || (uid =? 0) then
              match sandbox_pid nm with
              | Some pid => emit (Join pid (option_index 1 (tail original_argv) + 1)) ;;; cexit 0
              | None => set_sandbox_name nm
              end
            else cret tt).

(** ** D-Bus *)

Definition set_dbus_policy (get : Config -> DbusPolicy) (put : DbusPolicy -> Config -> Config) (log : string)
    (arg : string) : P unit :=
  c <~ cget ;;
  if streq "filter" arg then
    if decide (get c = DBUS_POLICY_BLOCK) then cret tt else cmodify (put DBUS_POLICY_FILTER)
  else if streq "none" arg then
    if negb (int_of log c =? 0) then cexit 1 else cmodify (put DBUS_POLICY_BLOCK)
  else cexit 1.

Definition cmd_dbus_policy (get : Config -> DbusPolicy) (put : DbusPolicy -> Config -> Config) (log : string)
    (arg : string) : P bool :=
  executed (if built "HAVE_DBUSPROXY" then set_dbus_policy get put log arg else cret tt).

(** A rule for the proxy: it stays in the list of commands. *)
Definition cmd_dbus_rule (check : string -> bool) (arg : string) : P bool :=
  (if built "HAVE_DBUSPROXY" then exit_unless (check arg) else cret tt) ;;; cret true.

(** ** Networks *)

Definition disable_network : P unit :=
  set_int "arg_nonetwork" 1 ;;;
  cfold (fun i _ => upd_bridge i (with_configured 0)) [0; 1; 2; 3]%nat tt ;;;
  cfold (fun n _ => set_int n 0) ["interface0.configured"; "interface1.configured";
           "interface2.configured"; "interface3.configured"] tt.

Definition cmd_net_none (_ : string) : P bool :=
  executed (disable_network ;;; profile_add "blacklist /run/systemd/resolve").

Definition add_network (arg : string) : P unit :=
  if streq arg "lo" then cexit 1
  else
    c <~ cget ;;
    match List.find (fun i => negb (is_configured i c)) [0; 1; 2; 3]%nat with
    | None => cexit 1
    | Some i => upd_bridge i (fun b => with_configured 1 (with_dev arg b))
    end.

(** The commands for the last bridge configured. *)
Definition on_last_bridge (f : nat -> Bridge -> P unit) : P unit :=
  c <~ cget ;;
  match last_bridge_configured c with
  | None => cexit 1
  | Some i => f i (bridge i c)
  end.

Definition set_veth_name (arg : string) : P unit :=
  on_last_bridge (fun i _ =>
    upd_bridge i (with_veth_name (Some arg)) ;;;
    exit_unless (nonempty arg)).

Definition set_iprange (arg : string) : P unit :=
  on_last_bridge (fun i br =>
    if negb (iprange_start br =? 0) || negb (iprange_end br =? 0) then cexit 1
    else match strchr_split ","%char arg with
         | None => cexit 1
         | Some (firstip, secondip) =>
             match atoip firstip, atoip secondip with
             | Some first, Some second =>
                 upd_bridge i (fun b => with_iprange_end second (with_iprange_start first b)) ;;;
                 exit_unless (first <? second)
             | _, _ => cexit 1
             end
         end).

Definition set_mac (arg : string) : P unit :=
  on_last_bridge (fun i br =>
    if mac_not_zero (macsandbox br) then cexit 1
    else match atomac arg with
         | None => cexit 1
         | Some mac =>
             upd_bridge i (with_macsandbox mac) ;;;
             exit_unless (Z.land (nth 0 mac 0) 1 =? 0)
         end).

Definition set_mtu (arg : string) : P unit :=
  on_last_bridge (fun i _ =>
    match scan_d arg with
    | None => cexit 1
    | Some (v, _) =>
        upd_bridge i (with_mtu v) ;;;
        exit_unless (negb ((v <? 576) || (9198 <? v)))
    end).

Definition cmd_netmask (arg : string) : P bool :=
  if_network (on_last_bridge (fun i br =>
    if negb (arg_ip_none br =? 0) || negb (masksandbox br =? 0) then cexit 1
    else match atoip arg with
         | None => cexit 1
         | Some m =>
             if mask br =? 0 then
               upd_bridge i (fun b => with_masksandbox m (with_mask m b))
             else cexit 1
         end)).

Definition set_ip (arg : string) : P unit :=
  on_last_bridge (fun i br =>
    if negb (arg_ip_none br =? 0) || negb (ipsandbox br =? 0) then cexit 1
    else if streq arg "none" then
      upd_bridge i (with_arg_ip_none 1)
    else match atoip arg with
         | None => cexit 1
         | Some a =>
             upd_bridge i (with_ipsandbox a)
         end).

Definition set_ip6 (arg : string) : P unit :=
  on_last_bridge (fun i br =>
    if negb (arg_ip6_dhcp br =? 0) || bool_decide (is_Some (ip6sandbox br)) then cexit 1
    else if negb (check_ip46_address arg) then cexit 1
    else upd_bridge i (with_ip6sandbox (Some arg))).

Definition set_defaultgw (arg : string) : P unit :=
  match atoip arg with Some a => set_int "defaultgw" a | None => cexit 1 end.

Definition cmd_net (arg : string) : P bool := if_network (add_network arg).
Definition cmd_veth_name (arg : string) : P bool := if_network (set_veth_name arg).
Definition cmd_iprange (arg : string) : P bool := if_network (set_iprange arg).
Definition cmd_mac (arg : string) : P bool := if_network (set_mac arg).
Definition cmd_mtu (arg : string) : P bool := if_network (set_mtu arg).
Definition cmd_ip (arg : string) : P bool := if_network (set_ip arg).
Definition cmd_ip6 (arg : string) : P bool := if_network (set_ip6 arg).
Definition cmd_defaultgw (arg : string) : P bool := if_network (set_defaultgw arg).

(** [netfilter FILE] and [netfilter6 FILE] *)
Definition set_netfilter (var : string) (arg : string) : P unit :=
  set_int var 1 ;;;
  f <~ expand arg ;;
  set_str (var +:+ "_file") f ;;;
  check_netfilter_file f.

Definition cmd_netfilter (var : string) (arg : string) : P bool := if_network (set_netfilter var arg).

Definition set_netns (arg : string) : P unit := set_str "arg_netns" arg ;;; check_netns arg.

Definition cmd_netns (arg : string) : P bool := if_network (set_netns arg).

Definition add_dns (arg : string) : P unit :=
  if negb (check_ip46_address arg) then cexit 1
  else
    c <~ cget ;;
    match List.find (fun n => negb (bool_decide (is_Some (str_of n c)))) ["dns1"; "dns2"; "dns3"; "dns4"] with
    | Some n => set_str n arg
    | None => cret tt
    end.

Definition cmd_dns (arg : string) : P bool := executed (add_dns arg).

(** ** Seccomp and capabilities *)

Definition set_seccomp_list (flag_var list_var : string) (arg : string) : P unit :=
  set_int flag_var 1 ;;;
  l <~ clift (seccomp_check_list arg) ;;
  set_str list_var l.

Definition cmd_seccomp_list (flag_var list_var : string) (arg : string) : P bool :=
  if_enabled CFG_SECCOMP (set_seccomp_list flag_var list_var arg).

Definition set_error_action (arg : string) : P unit :=
  (if streq arg "kill" then set_int "arg_seccomp_error_action" SECCOMP_RET_KILL
   else if streq arg "log" then set_int "arg_seccomp_error_action" SECCOMP_RET_LOG
   else set_int "arg_seccomp_error_action" (errno_find_name arg) ;;;
        exit_unless (negb (errno_find_name arg =? -1))) ;;;
  set_str "seccomp_error_action" arg.

Definition cmd_seccomp_error_action (arg : string) : P bool :=
  if_enabled CFG_SECCOMP (
    let configured_action := cfgval CFG_SECCOMP_ERROR_ACTION in
    if configured_action =? -1 then set_error_action arg
    else
      set_int "arg_seccomp_error_action" configured_action ;;;
      set_str "seccomp_error_action" (error_action_str conf)).

Definition restrict_all_namespaces : P unit :=
  set_int "arg_restrict_namespaces" 1 ;;;
  augment "restrict_namespaces" "cgroup,ipc,net,mnt,pid,time,user,uts".

Definition cmd_restrict_namespaces (_ : string) : P bool := if_enabled CFG_SECCOMP restrict_all_namespaces.

(** [caps.drop LIST] and [caps.keep LIST]; the list is only checked here. *)
Definition set_caps_option (flag_var : string) (arg : string) : P unit :=
  set_int flag_var 1 ;;;
  set_str "arg_caps_list" arg ;;;
  clift (caps_check_list (Some arg) None (CapsState 0 0)).1.

Definition cmd_caps (flag_var : string) (arg : string) : P bool := executed (set_caps_option flag_var arg).

(** ** Limits *)

(** [sscanf(arg, "%llu", &var)]: the variable stays when nothing matches. *)
Definition scan_llu_into (var arg : string) : P unit :=
  match (read_sign (skip_spaces arg)).2 with
  | String c _ => if isdigit c then set_int var (scan_llu arg) else cret tt
  | EmptyString => cret tt
  end.

Definition set_rlimit_size (var : string) (arg : string) : P unit :=
  match parse_arg_size arg with
  | None => cfail
  | Some v => set_int var v ;;; (if v =? 0 then cexit 1 else set_int ("arg_" +:+ var) 1)
  end.

Definition set_rlimit_number (var : string) (arg : string) : P unit :=
  clift (check_unsigned arg) ;;; scan_llu_into var arg ;;; set_int ("arg_" +:+ var) 1.

Definition set_nice (arg : string) : P unit :=
  set_int "nice" (if negb (uid =? 0) && (atoi arg <? 0) then 0 else atoi arg) ;;;
  set_int "arg_nice" 1.

Definition rlimit_size (var : string) (arg : string) : P bool := executed (set_rlimit_size var arg).
Definition rlimit_number (var : string) (arg : string) : P bool := executed (set_rlimit_number var arg).
Definition cmd_nice (arg : string) : P bool := executed (set_nice arg).

(** ** Private directories *)

Definition append_keep (var arg : string) : P unit :=
  s <~ get_str var ;;
  set_str var (match s with Some l => l +:+ "," +:+ arg | None => arg end).

(** private-opt, private-srv and private-bin *)
Definition add_private_list (var flag_var : string) (arg : string) : P unit :=
  append_keep var arg ;;; set_int flag_var 1.

Definition cmd_private_list (k : CFG) (var flag_var : string) (arg : string) : P bool :=
  if_enabled k (add_private_list var flag_var arg).

Definition not_writable_etc : P unit :=
  w <~ get_int "arg_writable_etc" ;; exit_unless (w =? 0).

Definition cmd_private_etc_list (arg : string) : P bool :=
  if_enabled CFG_PRIVATE_ETC (
    not_writable_etc ;;; append_keep "etc_private_keep" arg ;;; set_int "arg_private_etc" 1).

Definition cmd_private_etc (_ : string) : P bool :=
  if_enabled CFG_PRIVATE_ETC (not_writable_etc ;;; set_int "arg_private_etc" 1).

Definition set_writable_etc : P unit :=
  k <~ get_str "etc_private_keep" ;;
  match k with Some _ => cexit 1 | None => set_int "arg_writable_etc" 1 end.

Definition cmd_writable_etc (_ : string) : P bool := executed set_writable_etc.

Definition cmd_private_dir (arg : string) : P bool :=
  executed (set_str "home_private" arg ;;; fs_check_private_dir ;;; set_int "arg_private" 1).

(** ** Files *)

Definition cmd_bind (arg : string) : P bool :=
  if enabled CFG_BIND then
    if negb (uid =? 0) then cexit 1
    else match split_comma arg with
         | (_, None) => cexit 1
         | (dname1, Some dname2) =>
             clift (invalid_filename dname1 false) ;;;
             clift (invalid_filename dname2 false) ;;;
             c <~ cget ;;
             if contains ".." dname1 || contains ".." dname2 then cexit 1
             else if is_link dname1 (fs_now c) || is_link dname2 (fs_now c) then cexit 1
             else cret true
         end
  else cret false.

(** The commands of the file system: what follows them is a file name. *)
Definition cmd_path (arg : string) : P bool :=
  clift (invalid_filename arg true) ;;;
  if contains ".." arg then cexit 1 else cret true.

Definition disable_printers : P unit :=
  set_int "arg_noprinters" 1 ;;;
  profile_add "blacklist /dev/lp*" ;;;
  profile_add "blacklist /run/cups/cups.sock".

Definition cmd_noprinters (_ : string) : P bool := executed disable_printers.

Definition cmd_x11 (_ : string) : P bool :=
  executed (if built "HAVE_X11" && enabled CFG_X11 then
              c <~ cget ;;
              match env_get "FIREJAIL_X11" (environment c) with
              | Some v => if streq v "yes" then cret tt else emit X11_start ;;; cexit 0
              | None => emit X11_start ;;; cexit 0
              end
            else cret tt).

Definition cmd_apparmor (profile_name : string) : P bool :=
  executed (if built "HAVE_APPARMOR" then
              set_int "arg_apparmor" 1 ;;; set_str "apparmor_profile" profile_name
            else cret tt).

Definition cmd_apparmor_replace (v : Z) (_ : string) : P bool :=
  executed (if built "HAVE_APPARMOR" then set_int "arg_apparmor" 1 ;;; set_int "apparmor_replace" v
            else cret tt).
End Commands.
