(* ===== verification/ProfileLine.v ===== *)
(** * One profile line (src/firejail/profile.c)

    [profile_check_line] is a chain of tests: the line is a word, or it starts with
    one; the first test that holds decides.  The chain is the list [commands], in
    the order of the source. *)

From S2P Require Import Prelude.
From S2P Require Import Clib.
From S2P Require Import Bpf.
From S2P Require Import Caps.
From S2P Require Import Env.
From S2P Require Import Text.
From S2P Require Import Common.
From S2P Require Import Util.
From S2P Require Import Checkcfg.
From S2P Require Import Dbus.
From S2P Require Import ProfileState.
From S2P Require Import ProfileCommands.
From S2P Require Import Macros.

(** [strcmp(ptr, s) == 0] and [strncmp(ptr, s, strlen(s)) == 0]. *)
Inductive test := Is (s : string) | Starts (s : string).

(** What follows the word. *)
Definition matches (t : test) (ptr : string) : option string :=
  match t with
  | Is s => if streq ptr s then Some EmptyString else None
  | Starts s => strip_prefix s ptr
  end.

Section Line.
Context `{H : Host} `{CH : CapHeaders}.

Definition command : Type := test * (string -> P bool).

(** The command that is run: the first whose test holds. *)
Fixpoint run_command (cmds : list command) (ptr : string) : P bool :=
  match cmds with
  | [] => cexit 1
  | (t, f) :: cmds' =>
      match matches t ptr with
      | Some arg => f arg
      | None => run_command cmds' ptr
      end
  end.

Definition sets (s n : string) : command := (Is s, fun _ => flag n).
Definition nothing : string -> P bool := fun _ => cret false.

Definition rlimit_commands : list command :=
  [(Starts "rlimit-as ", rlimit_size "rlimit_as");
   (Starts "rlimit-cpu ", rlimit_number "rlimit_cpu");
   (Starts "rlimit-fsize ", rlimit_size "rlimit_fsize");
   (Starts "rlimit-nofile ", rlimit_number "rlimit_nofile");
   (Starts "rlimit-nproc ", rlimit_number "rlimit_nproc");
   (Starts "rlimit-sigpending ", rlimit_number "rlimit_sigpending")].

Definition commands_1 : list command :=
  [(Starts "ignore ", fun a => executed (profile_add_ignore a));
   (Starts "warn ", nothing);
   (Starts "keep-fd ", fun a => executed (if streq a "all" then set_int "arg_keep_fd_all" 1 else augment "keep_fd" a));
   (Starts "xephyr-screen ", fun a =>
      executed (if built "HAVE_X11" && enabled CFG_X11 then set_str "xephyr_screen" a else cret tt));
   (Starts "mkdir ", fun a => fs_mkdir a ;;; cret true);
   (Starts "mkfile ", fun a => fs_mkfile a ;;; cret true);
   (Starts "name ", fun a => executed (set_sandbox_name a));
   sets "ipc-namespace" "arg_ipc";
   (Is "noroot", fun _ => executed (if built "HAVE_USERNS" && enabled CFG_USERNS then check_user_namespace else cret tt));
   sets "nonewprivs" "arg_nonewprivs";
   (Is "seccomp", fun _ => if_enabled CFG_SECCOMP (set_int "arg_seccomp" 1));
   sets "caps" "arg_caps_default_filter";
   sets "caps.drop all" "arg_caps_drop_all";
   (Is "shell ", nothing);
   (Is "tracelog", nothing);
   sets "private" "arg_private";
   (Starts "private-home ", fun _ => cexit 1);
   sets "tab" "arg_tab";
   (Is "private-cwd", fun _ => executed (set_null "cwd" ;;; set_int "arg_private_cwd" 1));
   (Starts "private-cwd ", fun a => executed (fs_check_private_cwd a ;;; set_int "arg_private_cwd" 1));
   sets "allusers" "arg_allusers";
   (Is "private-cache", fun _ => if_enabled CFG_PRIVATE_CACHE (set_int "arg_private_cache" 1));
   sets "private-dev" "arg_private_dev";
   sets "keep-dev-ntsync" "arg_keep_dev_ntsync";
   sets "keep-dev-shm" "arg_keep_dev_shm";
   sets "keep-dev-tpm" "arg_keep_dev_tpm";
   sets "private-tmp" "arg_private_tmp";
   sets "nogroups" "arg_nogroups";
   sets "nosound" "arg_nosound";
   sets "noautopulse" "arg_keep_config_pulse";
   sets "notv" "arg_notv";
   sets "nodvd" "arg_nodvd";
   sets "novideo" "arg_novideo";
   sets "no3d" "arg_no3d";
   (Is "noprinters", cmd_noprinters);
   sets "noinput" "arg_noinput"].

Definition commands_2 : list command :=
  [(Is "nodbus", fun _ => executed (if built "HAVE_DBUSPROXY" then
      cmodify (with_dbus_user DBUS_POLICY_BLOCK) ;;; cmodify (with_dbus_system DBUS_POLICY_BLOCK) else cret tt));
   (Starts "dbus-user ", cmd_dbus_policy arg_dbus_user with_dbus_user "arg_dbus_log_user");
   (Starts "dbus-user.see ", cmd_dbus_rule dbus_check_name);
   (Starts "dbus-user.talk ", cmd_dbus_rule dbus_check_name);
   (Starts "dbus-user.own ", cmd_dbus_rule dbus_check_name);
   (Starts "dbus-user.call ", cmd_dbus_rule dbus_check_call_rule);
   (Starts "dbus-user.broadcast ", cmd_dbus_rule dbus_check_call_rule);
   (Starts "dbus-system ", cmd_dbus_policy arg_dbus_system with_dbus_system "arg_dbus_log_system");
   (Starts "dbus-system.see ", cmd_dbus_rule dbus_check_name);
   (Starts "dbus-system.talk ", cmd_dbus_rule dbus_check_name);
   (Starts "dbus-system.own ", cmd_dbus_rule dbus_check_name);
   (Starts "dbus-system.call ", cmd_dbus_rule dbus_check_call_rule);
   (Starts "dbus-system.broadcast ", cmd_dbus_rule dbus_check_call_rule);
   (Is "notpm", nothing);
   sets "nou2f" "arg_nou2f";
   (Is "netfilter", fun _ => if_network (set_int "arg_netfilter" 1));
   (Starts "netfilter ", cmd_netfilter "arg_netfilter");
   (Starts "netfilter6 ", cmd_netfilter "arg_netfilter6");
   (Is "netlock", fun _ => if_network (set_int "arg_netlock" 1));
   (Starts "netns ", cmd_netns);
   (Is "net none", cmd_net_none);
   (Starts "net ", cmd_net);
   (Starts "veth-name ", cmd_veth_name);
   (Starts "iprange ", cmd_iprange);
   (Starts "mac ", cmd_mac);
   (Starts "mtu ", cmd_mtu);
   (Starts "netmask ", cmd_netmask);
   (Starts "ip ", cmd_ip);
   (Starts "ip6 ", cmd_ip6);
   (Starts "defaultgw ", cmd_defaultgw);
   (Is "apparmor", fun _ => cmd_apparmor "firejail-default");
   (Starts "apparmor ", cmd_apparmor);
   (Is "apparmor-replace", cmd_apparmor_replace 1);
   (Is "apparmor-stack", cmd_apparmor_replace 0);
   sets "allow-bwrap" "arg_allow_bwrap";
   (Starts "protocol ", fun a => if_enabled CFG_SECCOMP (augment "protocol" a));
   (Starts "env ", fun a => executed (in_env (env_store a SETENV)));
   (Starts "rmenv ", fun a => executed (in_env (env_store a RMENV)))].

Definition commands_3 : list command :=
  [(Starts "seccomp ", cmd_seccomp_list "arg_seccomp" "seccomp_list");
   (Starts "seccomp.32 ", cmd_seccomp_list "arg_seccomp32" "seccomp_list32");
   (Is "seccomp.block-secondary", fun _ => if_enabled CFG_SECCOMP (set_int "arg_seccomp_block_secondary" 1));
   (Starts "seccomp.drop ", cmd_seccomp_list "arg_seccomp" "seccomp_list_drop");
   (Starts "seccomp.32.drop ", cmd_seccomp_list "arg_seccomp32" "seccomp_list_drop32");
   (Starts "seccomp.keep ", cmd_seccomp_list "arg_seccomp" "seccomp_list_keep");
   (Starts "seccomp.32.keep ", cmd_seccomp_list "arg_seccomp32" "seccomp_list_keep32");
   (Starts "landlock.enforce", fun _ => flag "arg_landlock_enforce");
   (Starts "landlock.fs.read ", fun a => executed (ll_add_profile LL_FS_READ a));
   (Starts "landlock.fs.write ", fun a => executed (ll_add_profile LL_FS_WRITE a));
   (Starts "landlock.fs.makeipc ", fun a => executed (ll_add_profile LL_FS_MAKEIPC a));
   (Starts "landlock.fs.makedev ", fun a => executed (ll_add_profile LL_FS_MAKEDEV a));
   (Starts "landlock.fs.execute ", fun a => executed (ll_add_profile LL_FS_EXEC a));
   (Is "memory-deny-write-execute", fun _ => if_enabled CFG_SECCOMP (set_int "arg_memory_deny_write_execute" 1));
   (Is "restrict-namespaces", cmd_restrict_namespaces);
   (Starts "restrict-namespaces ", fun a => if_enabled CFG_SECCOMP (augment "restrict_namespaces" a));
   (Starts "seccomp-error-action ", cmd_seccomp_error_action);
   (Starts "caps.drop ", cmd_caps "arg_caps_drop");
   (Starts "caps.keep ", cmd_caps "arg_caps_keep");
   (Starts "hostname ", cmd_hostname);
   (Starts "hostname-randomize", cmd_hostname_randomize);
   (Starts "keep-hostname", nothing);
   (Starts "hosts-file ", fun a => executed (f <~ fs_check_hosts_file a ;; set_str "hosts_file" f));
   (Starts "dns ", cmd_dns);
   (Starts "cpu ", fun a => executed (read_cpu_list a));
   (Starts "nice ", cmd_nice);
   (Is "writable-etc", cmd_writable_etc);
   sets "machine-id" "arg_machineid";
   sets "keep-config-pulse" "arg_keep_config_pulse";
   sets "keep-shell-rc" "arg_keep_shell_rc";
   sets "writable-var" "arg_writable_var";
   sets "keep-var-tmp" "arg_keep_var_tmp";
   sets "writable-run-user" "arg_writable_run_user";
   sets "writable-var-log" "arg_writable_var_log";
   (Starts "private ", cmd_private_dir);
   sets "allow-debuggers" "arg_allow_debuggers";
   sets "x11 none" "arg_x11_block";
   (Is "x11", cmd_x11);
   (Starts "private-etc ", cmd_private_etc_list);
   (Is "private-etc", cmd_private_etc);
   (Starts "private-opt ", cmd_private_list CFG_PRIVATE_OPT "opt_private_keep" "arg_private_opt");
   (Starts "private-srv ", cmd_private_list CFG_PRIVATE_SRV "srv_private_keep" "arg_private_srv");
   (Starts "private-bin ", cmd_private_list CFG_PRIVATE_BIN "bin_private_keep" "arg_private_bin");
   (Starts "bind ", cmd_bind);
   (Starts "rlimit", fun a => run_command rlimit_commands ("rlimit" +:+ a));
   (Starts "timeout ", fun a => executed (t <~ clift (extract_timeout a) ;; set_int "timeout" t));
   (Starts "join-or-start ", cmd_join_or_start);
   sets "disable-mnt" "arg_disable_mnt";
   sets "deterministic-exit-code" "arg_deterministic_exit_code";
   sets "deterministic-shutdown" "arg_deterministic_shutdown"].

(** The rest of the file system. *)
Definition path_commands : list command :=
  [(Starts "blacklist ", cmd_path);
   (Starts "blacklist-nolog ", cmd_path);
   (Starts "noblacklist ", cmd_path);
   (Starts "whitelist ", fun a => set_int "arg_whitelist" 1 ;;; cmd_path a);
   (Starts "nowhitelist ", cmd_path);
   (Starts "read-only ", cmd_path);
   (Starts "read-write ", cmd_path);
   (Starts "noexec ", cmd_path);
   (Starts "tmpfs ", cmd_path)].

Definition commands : list command := commands_1 ++ commands_2 ++ commands_3 ++ path_commands.

(** ** Conditional lines *)

Definition check_netoptions (c : Config) : bool :=
  negb (int_of "arg_nonetwork" c =? 0) || any_bridge_configured c.
Definition check_nodbus (c : Config) : bool :=
  negb (bool_decide (arg_dbus_user c = DBUS_POLICY_ALLOW)) || negb (bool_decide (arg_dbus_system c = DBUS_POLICY_ALLOW)).
Definition check_x11 (c : Config) : bool :=
  negb (int_of "arg_x11_block" c =? 0) || negb (int_of "arg_x11_xorg" c =? 0) ||
  bool_decide (is_Some (env_get "FIREJAIL_X11" (environment c))).

Definition conditionals : list (string * (Config -> bool)) :=
  [("HAS_APPIMAGE", fun c => negb (int_of "arg_appimage" c =? 0));
   ("HAS_NET", check_netoptions);
   ("HAS_NODBUS", check_nodbus);
   ("HAS_NOSOUND", fun c => negb (int_of "arg_nosound" c =? 0));
   ("HAS_PRIVATE", fun c => negb (int_of "arg_private" c =? 0));
   ("HAS_X11", check_x11);
   ("BROWSER_DISABLE_U2F", fun _ => enabled CFG_BROWSER_DISABLE_U2F);
   ("BROWSER_ALLOW_DRM", fun _ => enabled CFG_BROWSER_ALLOW_DRM);
   ("ALLOW_TRAY", fun _ => enabled CFG_ALLOW_TRAY)].

Fixpoint find_conditional (conds : list (string * (Config -> bool))) (ptr : string)
    : option ((Config -> bool) * string) :=
  match conds with
  | [] => None
  | (n, check) :: conds' =>
      match strip_prefix n ptr with
      | Some r => Some (check, r)
      | None => find_conditional conds' ptr
      end
  end.

Definition skip_space (s : string) : string :=
  match strip_prefix " " s with Some r => r | None => s end.

(** The test and the profile line of a conditional, from the text behind the
    question mark; [None] is the error exit. *)
Definition parse_conditional (ptr : string) : option ((Config -> bool) * string) :=
  '(check, ptr) <-? find_conditional conditionals ptr ;;
  ptr <-? strip_prefix ":" (skip_space ptr) ;;
  if nonempty ptr then Some (check, skip_space ptr) else None.

(** ** The line *)

(** [profile_check_line] with [profile_check_conditional] inside; a conditional
    that holds is checked again without its first part. *)
Fixpoint check_line (fuel : nat) (ptr : string) : P bool :=
  match fuel with
  | O => cnofuel
  | S f =>
      match strip_prefix "?" ptr with
      | Some rest =>
          match parse_conditional rest with
          | None => cexit 1
          | Some (check, ptr) =>
              c <~ cget ;;
              if check c then
                if has_prefix "quiet" ptr || has_prefix "include" ptr then cexit 1
                else
                  add <~ check_line f ptr ;;
                  (if (add : bool) then profile_add ptr else cret tt) ;;;
                  cret false
              else cret false
          end
      | None =>
          c <~ cget ;;
          if is_in_ignore_list ptr c then cret false else run_command commands ptr
      end
  end.

Definition profile_check_line (ptr : string) : P bool := check_line (S (String.length ptr)) ptr.
End Line.

(** * Reading profile files (src/firejail/profile.c)

    [profile_read] reads a file line by line, follows its includes and hands the
    other lines to [profile_check_line]. *)

Definition MAX_READ : nat := 8192.
Definition MAX_INCLUDE_LEVEL : Z := 16.
Definition EACCES : Z := 13.

(** The base name ends in ".local", which does not occur in it before. *)
Definition is_local (fname : string) : bool :=
  match strstr_split ".local" (gnu_basename fname) with
  | Some (_, ptr) => strlen ptr =? 6
  | None => false
  end.

Section Read.
Context `{H : Host} `{CH : CapHeaders}.

(** [profile_read] of the nested call. *)
Section Nested.
Context (read : string -> P unit).

Definition profile_find (name dir : string) (add_ext : bool) : P bool :=
  let name := if add_ext then name +:+ ".profile" else name in
  c <~ cget ;;
  if existsb (fun d_name => streq d_name name) (f_entries (fs_now c) dir)
  then read (dir +:+ "/" +:+ name) ;;; cret true
  else cret false.

Definition profile_find_firejail (name : string) (add_ext : bool) : P bool :=
  if built "HAVE_ONLY_SYSCFG_PROFILES" then profile_find name sysconfdir add_ext
  else
    rv <~ profile_find name (homedir +:+ "/.config/firejail") add_ext ;;
    if rv : bool then cret true else profile_find name sysconfdir add_ext.

Definition change_level (d : Z) : P unit := cmodify (fun c => with_include_level (include_level c + d) c).

Definition include_file (name : string) : P unit :=
  change_level 1 ;;;
  newprofile <~ expand name ;;
  (if string_mem "/"%char newprofile then read newprofile
   else rv <~ profile_find_firejail newprofile false ;;
        if rv : bool then cret tt else read newprofile) ;;;
  change_level (-1).

Definition add_line (ptr : string) : P unit :=
  add <~ profile_check_line ptr ;; if add : bool then profile_add ptr else cret tt.

(** [whitelist-ro] stands for two commands. *)
Definition whitelist_ro (a : string) : P unit :=
  profile_add ("whitelist " +:+ a) ;;; profile_add ("read-only " +:+ a).

(** The body of the loop, on the line without comment and superfluous blanks. *)
Definition profile_command (ptr : string) : P unit :=
  match strip_prefix "whitelist-ro " ptr with
  | Some a => whitelist_ro a
  | None =>
      c <~ cget ;;
      if streq ptr "quiet" then
        if is_in_ignore_list ptr c then set_int "arg_quiet" 0
        else if int_of "arg_debug" c =? 0 then set_int "arg_quiet" 1 else cret tt
      else
        match strip_prefix "include " ptr with
        | Some name => if is_in_ignore_list ptr c then add_line ptr else include_file name
        | None => add_line ptr
        end
  end.

Definition profile_buffer (buf : string) : P unit :=
  let buf := match strchr_split "#"%char buf with Some (l, _) => l | None => buf end in
  match line_remove_spaces buf with
  | None | Some EmptyString => cret tt
  | Some ptr => profile_command ptr
  end.
End Nested.

Definition skipped (fname : string) (c : Config) : bool :=
  match strrchr_after "/"%char fname with
  | Some tmp =>
      (negb (int_of "arg_allow_debuggers" c =? 0) && streq tmp "disable-devel.inc") ||
      (negb (int_of "arg_appimage" c =? 0) && streq tmp "disable-shell.inc")
  | None => false
  end.

Fixpoint profile_read_level (fuel : nat) (fname : string) : P unit :=
  match fuel with
  | O => cnofuel
  | S f =>
      c <~ cget ;;
      if MAX_INCLUDE_LEVEL <? include_level c then cexit 1
      else
        clift (invalid_filename fname false) ;;;
        let v := fs_now c in
        if negb (nonempty fname) || is_dir fname v then cexit 1
        else match f_access_r v fname with
             | Some errno => if is_local fname && negb (errno =? EACCES) then cret tt else cexit 1
             | None =>
                 if skipped fname c then cret tt
                 else match f_text v fname with
                      | None => cexit 1
                      | Some s =>
                          (if include_level c =? 0 then emit (Run_file fname) else cret tt) ;;;
                          cfold (fun buf _ => profile_buffer (profile_read_level f) buf)
                            (map c_string (fgets MAX_READ s)) tt
                      end
             end
  end.

(** A call at include level 0 nests at most 17 deep. *)
Definition profile_read (fname : string) : P unit := profile_read_level 18 fname.
End Read.
