(* ===== verification/NetConfig.v ===== *)
(** * Addresses of the sandbox (src/firejail/arp.c, network_main.c)

    The addresses of the bridges given with --net are checked against the networks of
    the host, or assigned by probing with ARP. *)

From S2P Require Import Prelude.
From S2P Require Import Clib.
From S2P Require Import Text.
From S2P Require Import Common.
From S2P Require Import ProfileState.
From S2P Require Import Checkcfg.
From S2P Require Import ProfileCommands.

(** * Interfaces and routes (src/firejail/network.c)

    What firejail asks about the interfaces of the host, and the commands it gives
    fnet to configure those of the sandbox. *)

(** A node of the list of getifaddrs(3); [ifa_inet] is the address and mask of a node
    of family AF_INET, in host order. *)
Record ifaddrs := mk_ifaddrs { ifa_name : string; ifa_inet : option (Z * Z) }.

(** What select(2) and recvfrom(2) of arp_check bring, in order. *)
Inductive arp_event := Timeout | Frame (bytes : list Z) | Recv_error.

(** The interfaces of the host; [arp_events] is what follows the probes for an
    address, [rand_next] is rand(3) on its hidden state. *)
Class NetHost := {
  if_nametoindex : string -> Z;
  getifaddrs : list ifaddrs;
  if_hwaddr : string -> option (list Z);    (* SIOCGIFHWADDR *)
  if_mtu : string -> option Z;              (* SIOCGIFMTU *)
  is_bridge : string -> bool;               (* /sys/class/net/<name>/bridge exists *)
  route_text : option string;               (* /proc/self/net/route *)
  arp_events : string -> Z -> list arp_event;
  rand_next : Z -> Z * Z;
  getpid : Z
}.

Definition IFNAMSIZ : Z := 16.
Definition BUFSIZE : nat := 1024.

(** Flags of sbox_run (firejail.h). *)
Definition SBOX_ROOT : Z := 1.
Definition SBOX_USER : Z := 2.
Definition SBOX_SECCOMP : Z := 4.
Definition SBOX_CAPS_NONE : Z := 8.
Definition SBOX_CAPS_NETWORK : Z := 16.
Definition SBOX_ALLOW_STDIN : Z := 32.
Definition SBOX_CAPS_HIDEPID : Z := 128.

Definition sbox_network : Z := Z.lor (Z.lor SBOX_ROOT SBOX_CAPS_NETWORK) SBOX_SECCOMP.

Definition PATH_FNET : string := "/run/firejail/lib/fnet".

Section Network.
Context `{N : NetHost}.

Definition net_get_mtu (ifname : string) : outcome Z :=
  if IFNAMSIZ <? strlen ifname then Exit 1 else Ok (default 0 (if_mtu ifname)).

Definition net_get_mac (ifname : string) : outcome (list Z) :=
  match if_hwaddr ifname with Some mac => Ok mac | None => Exit 1 end.

(** What the function stores: address and mask, and MAC and MTU unless it is the
    loopback interface. *)
Record if_addr := mk_if_addr { a_ip : Z; a_mask : Z; a_mac : option (list Z); a_mtu : option Z }.

Definition net_get_if_addr (bridge : string) : outcome (option if_addr) :=
  match List.find (fun a => streq (ifa_name a) bridge && bool_decide (is_Some (ifa_inet a))) getifaddrs with
  | Some (mk_ifaddrs n (Some (ip, mask))) =>
      if streq n "lo" then Ok (Some (mk_if_addr ip mask None None))
      else obind (net_get_mac n) (fun mac =>
             obind (net_get_mtu bridge) (fun mtu =>
               Ok (Some (mk_if_addr ip mask (Some mac) (Some mtu)))))
  | _ => Ok None
  end.

(** [sscanf(s, "%x", ...)] *)
Definition scan_x (s : string) : option (Z * string) :=
  let '(sign, s1) := read_sign (skip_spaces s) in
  let '(_, s2) := read_base 16 s1 in
  match s2 with
  | String c _ =>
      if is_digit_of 16 c then
        let '(v, rest) := read_digits 16 0 s2 in Some (u32 (to_ulong sign v), rest)
      else None
  | EmptyString => None
  end.

(** The first column of a line is skipped, with the blanks behind it. *)
Definition blank_char (c : ascii) : bool := Ascii.eqb c " "%char || Ascii.eqb c (chr 9).

Fixpoint skip_blank_chars (s : string) : string :=
  match s with
  | String c s' => if blank_char c then skip_blank_chars s' else s
  | EmptyString => s
  end.

Fixpoint skip_field (s : string) : string :=
  match s with
  | String c s' => if blank_char c then skip_blank_chars s else skip_field s'
  | EmptyString => s
  end.

(** [ntohl] on a little-endian machine *)
Definition ntohl (z : Z) : Z :=
  Z.lor (Z.lor (Z.shiftl (Z.land z 0xff) 24) (Z.shiftl (Z.land (Z.shiftr z 8) 0xff) 16))
        (Z.lor (Z.shiftl (Z.land (Z.shiftr z 16) 0xff) 8) (Z.land (Z.shiftr z 24) 0xff)).

(** The gateway of a default route, if the line is one. *)
Definition route_gateway (buf : string) : option Z :=
  if has_prefix "Iface" buf then None
  else match scan_x (skip_field buf) with
       | Some (dest, rest) =>
           match scan_x rest with
           | Some (gw, _) => if dest =? 0 then Some (ntohl gw) else None
           | None => None
           end
       | None => None
       end.

Definition network_get_defaultgw : outcome Z :=
  match route_text with
  | None => Exit 1
  | Some s => Ok (default 0 (first_some route_gateway (map c_string (fgets BUFSIZE s))))
  end.
End Network.

(** ** The commands for fnet *)

Definition net_if_up (ifname : string) : P unit :=
  if IFNAMSIZ <? strlen ifname then cexit 1
  else emit (Sbox_run sbox_network [PATH_FNET; "ifup"; ifname]).

Definition net_if_ip6 (ifname addr6 : string) : P unit :=
  if negb (string_mem ":"%char addr6) then cexit 1
  else emit (Sbox_run sbox_network [PATH_FNET; "config"; "ipv6"; ifname; addr6]).

Definition net_config_mac (ifname : string) (mac : list Z) : P unit :=
  emit (Sbox_run sbox_network [PATH_FNET; "config"; "mac"; ifname; String.concat ":" (map print_x2 mac)]).

Definition net_config_interface (dev : string) (ip mask mtu : Z) : P unit :=
  emit (Sbox_run sbox_network [PATH_FNET; "config"; "interface"; dev; print_u ip; print_u mask; print_d mtu]).

(** ** ARP probes *)

Definition be16 (z : Z) : list Z := [z / 256 mod 256; z mod 256].
Definition be32 (z : Z) : list Z := [z / 2 ^ 24 mod 256; z / 2 ^ 16 mod 256; z / 2 ^ 8 mod 256; z mod 256].

Definition ETH_P_ARP : Z := 0x806.
Definition ETH_P_IP : Z := 0x800.

(** [ArpHdr] *)
Definition arp_hdr (opcode : Z) (sender_mac : list Z) (sender_ip : Z) (target_mac : list Z) (target_ip : Z) : list Z :=
  be16 1 ++ be16 ETH_P_IP ++ [6; 4] ++ be16 opcode ++ sender_mac ++ be32 sender_ip ++ target_mac ++ be32 target_ip.

(** The frame that is sent: to everybody, with an ARP request inside. *)
Definition arp_request (mac : list Z) (srcaddr destaddr : Z) : list Z :=
  repeat 0xff 6 ++ mac ++ be16 ETH_P_ARP ++ arp_hdr 1 mac srcaddr (repeat 0 6) destaddr.

Definition bytes_of (frame : list Z) (off n : nat) : list Z := take n (drop off frame).

(** A frame that answers the probe: long enough, an ARP reply, to our MAC address and
    to the source address of the probe, which is 0. *)
Definition answers (mac frame : list Z) : bool :=
  (42 <=? length frame)%nat &&
  bool_decide (bytes_of frame 12 2 = be16 ETH_P_ARP) &&
  bool_decide (bytes_of frame 20 2 = be16 2) &&
  bool_decide (bytes_of frame 32 6 = mac) &&
  bool_decide (bytes_of frame 38 4 = be32 0).

(** The loop of arp_check: [true] when the address is in use.  select(2) clears the
    set of descriptors when it times out, and the set is filled only before the
    loop: afterwards no frame is seen. *)
Fixpoint arp_wait (mac : list Z) (cnt : Z) (watching : bool) (events : list arp_event) : bool :=
  match events with
  | [] => false
  | Timeout :: events' => if cnt - 1 <=? 0 then false else arp_wait mac (cnt - 1) false events'
  | Recv_error :: events' => if watching then true else arp_wait mac cnt watching events'
  | Frame f :: events' => if watching && answers mac f then true else arp_wait mac cnt watching events'
  end.

Section Net.
Context `{H : Host} `{N : NetHost}.

(** The MAC address of the interface the probes are sent from. *)
Definition arp_source (dev : string) : outcome (list Z) :=
  if IFNAMSIZ <? strlen dev then Exit 1
  else match if_hwaddr dev with
       | None => Exit 1
       | Some mac => if if_nametoindex dev =? 0 then Exit 1 else Ok mac
       end.

Definition arp_check (dev : string) (destaddr : Z) : outcome bool :=
  obind (arp_source dev) (fun mac => Ok (arp_wait mac (cfgval CFG_ARP_PROBES) true (arp_events dev destaddr))).

(** The announcement of the address once it is set. *)
Definition arp_announce (dev : string) (br : Bridge) : outcome (list Z) :=
  obind (arp_source dev) (fun mac => Ok (arp_request mac (ipsandbox br) (ipsandbox br))).

(** ** Assignment *)

Definition get_rand : P Z :=
  s <~ get_int "rand_state" ;;
  let '(r, s') := rand_next s in
  set_int "rand_state" s' ;;; cret (u32 r).

(** Ten random addresses; [None] when all were those of the interface or the
    gateway. *)
Fixpoint random_tries (n : nat) (start range ifip gw : Z) : P (option Z) :=
  match n with
  | O => cret None
  | S n' =>
      r <~ get_rand ;;
      let dest := u32 (start + r mod range) in
      if (dest =? ifip) || (dest =? gw) then random_tries n' start range ifip gw else cret (Some dest)
  end.

Definition arp_random (dev : string) (br : Bridge) : P Z :=
  let ifip := ip br in
  let ifmask := mask br in
  cassert (negb (ifip =? 0)) ;;;
  cassert (negb (ifmask =? 0)) ;;;
  let range := u32 (not32 ifmask + 1) in
  if range <? 4 then cret 0
  else
    let given := negb (iprange_start br =? 0) && negb (iprange_end br =? 0) in
    let start := if given then iprange_start br else u32 (Z.land ifip ifmask + 1) in
    let range := if given then u32 (iprange_end br - iprange_start br) else range - 2 in
    if range =? 0 then cfail
    else
      gw <~ get_int "defaultgw" ;;
      r <~ random_tries 10 start range ifip gw ;;
      match r with
      | None => cret 0
      | Some dest => used <~ clift (arp_check dev dest) ;; cret (if used : bool then 0 else dest)
      end.

(** [while (dest <= last)] *)
Fixpoint sequential_loop (fuel : nat) (dev : string) (ifip gw dest last : Z) : outcome Z :=
  match fuel with
  | O => NoFuel
  | S f =>
      if last <? dest then Ok 0
      else if (dest =? ifip) || (dest =? gw) then sequential_loop f dev ifip gw (u32 (dest + 1)) last
      else obind (arp_check dev dest) (fun used =>
             if used : bool then sequential_loop f dev ifip gw (u32 (dest + 1)) last else Ok dest)
  end.

Definition first_address (br : Bridge) : Z :=
  if iprange_start br =? 0 then u32 (Z.land (ip br) (mask br) + 1) else iprange_start br.

Definition last_address (br : Bridge) : Z :=
  if iprange_end br =? 0 then u32 (first_address br + (u32 (not32 (mask br) + 1) - 2) - 1) else iprange_end br.

Definition arp_sequential (dev : string) (br : Bridge) : P Z :=
  cassert (negb (ip br =? 0)) ;;;
  cassert (negb (mask br =? 0)) ;;;
  if u32 (not32 (mask br) + 1) <? 4 then cret 0
  else
    gw <~ get_int "defaultgw" ;;
    let dest := first_address br in
    let last := last_address br in
    clift (sequential_loop (Z.to_nat (last - dest + 2)) dev (ip br) gw dest last).

Definition arp_assign (dev : string) (br : Bridge) : P Z :=
  a <~ arp_random dev br ;;
  a <~ (if a =? 0 then arp_random dev br else cret a) ;;
  a <~ (if a =? 0 then arp_sequential dev br else cret a) ;;
  if a =? 0 then cexit 1 else cret a.

(** ** Bridges *)

Definition store_if_addr (a : if_addr) (b : Bridge) : Bridge :=
  let b := with_mask (a_mask a) (with_ip (a_ip a) b) in
  let b := match a_mac a with Some m => with_mac m b | None => b end in
  match a_mtu a with Some m => with_mtu m b | None => b end.

Definition out_of_range (addr : Z) (b : Bridge) : bool := bool_decide (is_Some (in_netrange addr (ip b) (mask b))).

(** The checks once the address and mask of the network are known. *)
Definition check_iprange (i : nat) : P unit :=
  c <~ cget ;;
  let b := bridge i c in
  exit_unless (negb ((negb (iprange_start b =? 0) && out_of_range (iprange_start b) b) ||
                     (negb (iprange_end b =? 0) && out_of_range (iprange_end b) b))).

Definition configure_range (i : nat) : P unit :=
  c <~ cget ;;
  let b := bridge i c in
  let gw := int_of "defaultgw" c in
  if mask b =? 0 then upd_bridge i (with_arg_ip_none 1)
  else if u32 (not32 (mask b) + 1) <? 4 then cexit 1
  else if (ip b =? 0) && negb (ipsandbox b =? 0) then
    upd_bridge i (fun b => with_ip (Z.land (ipsandbox b) (mask b)) b) ;;; check_iprange i
  else if (ip b =? 0) && negb (gw =? 0) then
    upd_bridge i (fun b => with_ip (Z.land gw (mask b)) b) ;;; check_iprange i
  else if ip b =? 0 then upd_bridge i (with_arg_ip_none 1)
  else check_iprange i.

Definition net_configure_bridge (i : nat) : P unit :=
  c <~ cget ;;
  let b := bridge i c in
  (if is_bridge (dev b) then upd_bridge i (with_macvlan 0)
   else if 0 <? if_nametoindex (dev b) then
     upd_bridge i (fun b => with_devsandbox (devsandbox b +:+ "-" +:+ print_u getpid) (with_macvlan 1 b))
   else cexit 1) ;;;
  r <~ clift (net_get_if_addr (dev b)) ;;
  match r with Some a => upd_bridge i (store_if_addr a) | None => cret tt end ;;;
  (if mtu b =? 0 then cret tt else upd_bridge i (with_mtu (mtu b))) ;;;
  configure_range i.

Definition net_configure_sandbox_ip (i : nat) : P unit :=
  c <~ cget ;;
  let b := bridge i c in
  if configured b =? 0 then cret tt
  else if negb (arg_ip_none b =? 0) then upd_bridge i (with_ipsandbox 0)
  else if negb (ipsandbox b =? 0) then
    exit_unless (negb (out_of_range (ipsandbox b) b)) ;;;
    used <~ clift (arp_check (dev b) (ipsandbox b)) ;;
    exit_unless (negb used)
  else
    a <~ arp_assign (dev b) b ;;
    upd_bridge i (with_ipsandbox a).

(** ** The gateway *)

Definition check_default_gw (gw : Z) : P unit :=
  cassert (negb (gw =? 0)) ;;;
  c <~ cget ;;
  exit_unless (existsb (fun i => is_configured i c && negb (out_of_range gw (bridge i c))) [0; 1; 2; 3]%nat).

Definition assign_default_gw : P unit :=
  c <~ cget ;;
  let b := bridge 0 c in
  if negb (arg_ip_none b =? 0) then cret tt
  else if macvlan b =? 0 then set_int "defaultgw" (ip b)
  else
    gw <~ clift network_get_defaultgw ;;
    set_int "defaultgw" (if out_of_range gw b then 0 else gw).

Definition any_interface_configured (c : Config) : bool :=
  existsb (fun n => negb (int_of (n +:+ ".configured") c =? 0)) ["interface0"; "interface1"; "interface2"; "interface3"].

Definition net_check_cfg : P unit :=
  cfold (fun i _ => c <~ cget ;; if is_configured i c then net_configure_bridge i else cret tt) [0; 1; 2; 3]%nat tt ;;;
  c <~ cget ;;
  let gw := int_of "defaultgw" c in
  if negb (gw =? 0) && negb (any_bridge_configured c) && negb (any_interface_configured c) then cexit 1
  else if negb (any_bridge_configured c) then cret tt
  else
    exit_unless (int_of "arg_nonetwork" c =? 0) ;;;
    cassert (is_configured 0 c) ;;;
    if gw =? 0 then assign_default_gw else check_default_gw gw.

(** main.c *)
Definition check_network (i : nat) : P unit :=
  c <~ cget ;;
  let b := bridge i c in
  if macvlan b =? 0 then net_configure_sandbox_ip i
  else if negb (ipsandbox b =? 0) then exit_unless (negb (out_of_range (ipsandbox b) b))
  else cret tt.

(** ** Devices *)

Definition netmap_line (i : nat) (c : Config) : string :=
  if is_configured i c then dev (bridge i c) +:+ ":" +:+ devsandbox (bridge i c) +:+ String newline EmptyString else "".

(** The file /run/firejail/network/<pid>-netmap. *)
Definition network_set_run_file (pid : Z) : P unit :=
  c <~ cget ;;
  emit (Call "netmap" pid [String.concat "" (map (fun i => netmap_line i c) [0; 1; 2; 3]%nat)]).

Definition PATH_FNET_MAIN : string := libdir +:+ "/firejail/fnet".

Definition net_configure_veth_pair (b : Bridge) (ifname : string) (child : Z) : P unit :=
  if configured b =? 0 then cret tt
  else
    let dev_name := match veth_name b with Some n => n | None => "veth" +:+ print_u getpid +:+ ifname end in
    emit (Sbox_run sbox_network [PATH_FNET_MAIN; "create"; "veth"; dev_name; ifname; dev b; print_d child]).

Definition connect_bridge (child : Z) (i : nat) (ifname : string) : P unit :=
  c <~ cget ;;
  let b := bridge i c in
  if negb (is_configured i c) then cret tt
  else if macvlan b =? 0 then net_configure_veth_pair b ifname child
  else emit (Sbox_run sbox_network [PATH_FNET_MAIN; "create"; "macvlan"; devsandbox b; dev b; print_d child]).

Definition move_interface (child : Z) (n : string) : P unit :=
  c <~ cget ;;
  if int_of (n +:+ ".configured") c =? 0 then cret tt
  else emit (Sbox_run sbox_network [PATH_FNET_MAIN; "moveif"; default "" (str_of (n +:+ ".dev") c); print_d child]).

Definition network_main (child : Z) : P unit :=
  cfold (fun '(i, ifname) _ => connect_bridge child i ifname) [(0, "eth0"); (1, "eth1"); (2, "eth2"); (3, "eth3")]%nat tt ;;;
  cfold (fun n _ => move_interface child n) ["interface0"; "interface1"; "interface2"; "interface3"] tt.
End Net.
