(* ===== verification/Startup.v ===== *)
(** * Before the options are read

    src/lib/firejail_user.c, src/firejail/run_symlink.c, no_sandbox.c, output.c,
    oom.c, and the beginning of [main]: who may run firejail, whether it runs under
    another name, inside a sandbox, or with its output redirected. *)

From S2P Require Import Prelude.
From S2P Require Import Clib.
From S2P Require Import Bpf.
From S2P Require Import Caps.
From S2P Require Import Cmdline.
From S2P Require Import Env.
From S2P Require Import Text.
From S2P Require Import Common.
From S2P Require Import Mountinfo.
From S2P Require Import Util.
From S2P Require Import Checkcfg.
From S2P Require Import Macros.
From S2P Require Import Paths.
From S2P Require Import ProfileState.
From S2P Require Import ProfileCommands.

(** /etc/firejail/firejail.users *)
Inductive users_db := No_file | No_access | Users (text : string).

(** What the beginning of [main] asks the host: the login.defs that can be opened,
    the names in /proc/1/comm .. /proc/10/comm, uname(2), the entry of the user in
    the password database, owner, group and links of a file, and what fresh memory
    holds. *)
Class StartHost := {
  login_defs : option string;
  users_file : users_db;
  proc_comm : list (option string);
  release : string;
  username : string;
  usershell : string;
  cwd : option string;
  gid : Z;
  f_owner : list effect -> string -> option (Z * Z * Z);
  malloc : nat -> list ascii
}.

(** ** firejail_user.c *)

Definition USERS_MAXBUF : nat := 4098.

(** The minimum ids while the file is read; [None] is the jump to errexit. *)
Definition defs_line (buf : string) (st : Z * Z) : option (Z * Z) :=
  if has_prefix "#" buf then Some st
  else
    let ptr := skip_white buf in
    let '(uid_min, gid_min) := st in
    match strip_prefix "UID_MIN" ptr with
    | Some rest => '(v, _) <-? scan_d rest ;; if v <? 0 then None else Some (v, gid_min)
    | None =>
        match strip_prefix "GID_MIN" ptr with
        | Some rest => '(v, _) <-? scan_d rest ;; if v <? 0 then None else Some (uid_min, v)
        | None => Some st
        end
    end.

Fixpoint defs_lines (bufs : list string) (st : Z * Z) : option (Z * Z) :=
  if negb (st.1 =? 0) && negb (st.2 =? 0) then Some st
  else
    match bufs with
    | [] => None
    | buf :: bufs' => st <-? defs_line buf st ;; defs_lines bufs' st
    end.

(** [init_uid_gid_min]: uid_min and gid_min. *)
Definition init_uid_gid_min (login_defs : option string) : Z * Z :=
  default (1000, 1000) (s <-? login_defs ;; defs_lines (map c_string (fgets USERS_MAXBUF s)) (0, 0)).

Definition user_line (name buf : string) : bool :=
  negb (has_prefix "#" buf) &&
  streq (match strchr_split newline buf with Some (l, _) => l | None => buf end) name.

Definition firejail_user_check (db : users_db) (name : string) : outcome bool :=
  if streq name "root" then Ok true
  else if streq name "nobody" then Ok false
  else match db with
       | No_file => Ok true
       | No_access => Exit 1
       | Users s => Ok (existsb (user_line name) (map c_string (fgets USERS_MAXBUF s)))
       end.

(** What the file holds once the user is added; a user that is already there is not
    added again. *)
Definition firejail_user_add (real : bool) (db : users_db) (name : string) : outcome users_db :=
  if negb real then Exit 1
  else
    obind (match db with No_file => Ok false | _ => firejail_user_check db name end) (fun found =>
      if found then Ok db
      else match db with
           | No_file => Ok (Users (line name))
           | No_access => Ok No_access
           | Users s => Ok (Users (s +:+ line name))
           end).

(** ** no_sandbox.c *)

Definition kern_proc : list string := ["kthreadd"; "ksoftirqd"; "kworker"; "rcu_sched"; "rcu_bh"].

(** A name read with fgets(buf, 100, fp), up to the newline. *)
Definition kernel_process (comm : option string) : bool :=
  match comm with
  | None => false
  | Some s =>
      match map c_string (fgets 100 s) with
      | [] => false
      | buf :: _ =>
          let name := match strchr_split newline buf with Some (l, _) => l | None => buf end in
          existsb (fun k => has_prefix k name) kern_proc
      end
  end.

Definition check_kernel_procs (comms : list (option string)) : bool := existsb kernel_process (take 10 comms).

(** The first argument that is no option, from index [i]; 0 is none. *)
Fixpoint no_sandbox_program (i : Z) (args : list string) : outcome Z :=
  match args with
  | [] => Ok 0
  | a :: args' =>
      if streq a "--debug" || has_prefix "--shell=" a then no_sandbox_program (i + 1) args'
      else if streq a "-c" then match args' with [] => Exit 1 | _ => Ok (i + 1) end
      else if negb (has_prefix "--" a) then Ok i
      else no_sandbox_program (i + 1) args'
  end.

(** ** check_arg of main.c *)

(** The index of the argument, 0 when there is none; the search ends behind the
    first argument that is no option. *)
Fixpoint check_arg_from (i : Z) (args : list string) (argument : string) (strict : bool) : Z :=
  match args with
  | [] => 0
  | a :: args' =>
      if (if strict then streq a argument else has_prefix argument a) then i
      else if streq a "--" || negb (has_prefix "--" a) then 0
      else check_arg_from (i + 1) args' argument strict
  end.

Definition check_arg (argv : list string) (argument : string) (strict : bool) : Z :=
  check_arg_from 1 (tail argv) argument strict.

(** [sscanf(u.release, "%d.%d", &major, &minor)], and the test for a kernel where
    ptrace does not bypass seccomp. *)
Definition debuggers_allowed (release : string) : bool :=
  match scan_d release with
  | Some (major, rest) =>
      match scan_char "."%char rest with
      | Some rest =>
          match scan_d rest with
          | Some (minor, _) => negb ((major <? 4) || ((major =? 4) && (minor <? 8)))
          | None => false
          end
      | None => false
      end
  | None => false
  end.

(** ** output.c *)

(** The index of the option and whether it is --output-stderr. *)
Fixpoint find_output (i : Z) (args : list string) : option (string * bool) :=
  match args with
  | [] => None
  | a :: args' =>
      if negb (has_prefix "--" a) || streq a "--" then None
      else match strip_prefix "--output=" a with
           | Some f => Some (f, false)
           | None =>
               match strip_prefix "--output-stderr=" a with
               | Some f => Some (f, true)
               | None => find_output (i + 1) args'
               end
           end
  end.

Definition output_arg (a : string) : bool := has_prefix "--output=" a || has_prefix "--output-stderr=" a.

(** The arguments behind argv[0] without the output options before the program. *)
Fixpoint drop_output (found_separator : bool) (args : list string) : list string :=
  match args with
  | [] => []
  | a :: args' =>
      if found_separator then a :: drop_output true args'
      else if output_arg a then drop_output false args'
      else a :: drop_output (negb (has_prefix "--" a) || streq a "--") args'
  end.

Section Start.
Context `{H : Host} `{SS : StartHost}.

Definition is_firejail_link (v : fsview) (fname : string) : bool :=
  is_link fname v &&
  match f_realpath v fname with Some rp => streq (gnu_basename rp) "firejail" | None => false end.

(** execv and exit; nothing of this process runs afterwards. *)
Definition exec (path : string) (args : list string) : P unit :=
  in_env env_apply_all ;;; emit (Exec path args) ;;; cexit 1.

(** [assert(env_get("LD_PRELOAD") == NULL)] *)
Definition no_preload : P unit :=
  c <~ cget ;; cassert (bool_decide (env_get "LD_PRELOAD" (environment c) = None)).

Definition PATH_FIREJAIL : string := install_prefix +:+ "/bin/firejail".

Definition run_symlink (argv : list string) (run_as_is : bool) : P unit :=
  let argv0 := hd "" argv in
  let program := default argv0 (strrchr_after "/"%char argv0) in
  if streq program "firejail" then cret tt
  else
    c <~ cget ;;
    let path := env_get "PATH" (environment c) in
    let v := fs_now c in
    match find_in_path (f_stat v) (is_firejail_link v) path program with
    | None => cexit 1
    | Some program =>
        if (uid =? 0) || run_as_is then exec program (program :: tail argv)
        else no_preload ;;; exec PATH_FIREJAIL (PATH_FIREJAIL :: program :: tail argv)
    end.

Definition run_builder (argv : list string) : P unit :=
  no_preload ;;;
  exec (libdir +:+ "/firejail/fbuilder") ((libdir +:+ "/firejail/fbuilder") :: tail argv).

Definition run_no_sandbox (argv : list string) : P unit :=
  i <~ clift (no_sandbox_program 1 (tail argv)) ;;
  (if i =? 0 then cret tt
   else cmd <~ clift (build_cmdline malloc (map String.list_ascii_of_string argv) i true) ;;
        set_str "command_line" (String.string_of_list_ascii cmd)) ;;;
  set_int "original_program_index" i ;;;
  set_int "arg_quiet" 1 ;;;
  emit (Call "start_application" 0 argv) ;;; cexit 0.

Definition output_file (f : string) : string :=
  match strip_prefix "~" f with Some rest => homedir +:+ rest | None => f end.

(** Both processes of the pipe: ftee with the file, and firejail again. *)
Definition check_output (argv : list string) : P unit :=
  if built "HAVE_OUTPUT" then
    match find_output 1 (tail argv) with
    | None => cret tt
    | Some (outfile, _) =>
        clift (invalid_filename outfile false) ;;;
        let outfile := output_file outfile in
        c <~ cget ;;
        let v := fs_now c in
        exit_unless (negb (contains ".." outfile || is_link outfile v || is_dir outfile v || has_cntrl_chars outfile)) ;;;
        exit_unless (match f_owner (effects c) outfile with
                     | None => true
                     | Some (u, g, nlink) => (u =? uid) && (g =? gid) && (nlink =? 1)
                     end) ;;;
        emit (Exec (libdir +:+ "/firejail/ftee") [libdir +:+ "/firejail/ftee"; outfile]) ;;;
        let args := hd "" argv :: drop_output false (tail argv) in
        exec (hd "" args) args
    end
  else cret tt.

Definition oom_set (oom_string : string) : P unit :=
  let oom := atoi oom_string in
  exit_unless (negb ((oom <? (if uid =? 0 then -1000 else 0)) || (1000 <? oom))) ;;;
  emit (Call "oom_score_adj" 0 [print_d oom]).

Definition allow_debuggers (argv : list string) : P unit :=
  if check_arg argv "--allow-debuggers" true =? 0 then cret tt
  else
    exit_unless (debuggers_allowed release) ;;;
    set_int "arg_allow_debuggers" 1 ;;;
    profile_add "noblacklist ${PATH}/strace" ;;;
    profile_add_ignore "apparmor".

Definition set_uid_gid_min : P unit :=
  c <~ cget ;;
  let '(u, g) := init_uid_gid_min (f_text (fs_now c) "/etc/login.defs") in
  set_int "uid_min" u ;;; set_int "gid_min" g.

Definition init_cfg (argv : list string) : P unit :=
  set_str "username" username ;;;
  set_str "usershell" usershell ;;;
  set_uid_gid_min ;;;
  allowed <~ clift (firejail_user_check users_file username) ;;
  (if allowed : bool then cret tt else run_symlink argv true ;;; cexit 1) ;;;
  match cwd with Some d => set_str "cwd" d | None => cret tt end ;;;
  exit_unless (has_prefix "/" homedir) ;;;
  set_int "arg_seccomp_error_action" 1 ;;;
  set_str "seccomp_error_action" "EPERM".

(** --quiet and --debug, before the configuration is read. *)
Definition early_output (argv : list string) : P unit :=
  c <~ cget ;;
  (if negb (check_arg argv "--quiet" true =? 0) ||
      bool_decide (env_get "FIREJAIL_QUIET" (environment c) = Some "yes")
   then set_int "arg_quiet" 1 else cret tt) ;;;
  if check_arg argv "--debug" true =? 0 then cret tt
  else set_int "arg_debug" 1 ;;; set_int "arg_quiet" 0.

Definition set_devices : P unit :=
  cfold (fun '(i, n) _ => upd_bridge i (with_devsandbox n)) [(0, "eth0"); (1, "eth1"); (2, "eth2"); (3, "eth3")]%nat tt.

(** The part of [main] before the loop over the options. *)
Definition startup (argv envp : list string) : P unit :=
  exit_unless (nonempty (hd "" argv)) ;;;
  early_output argv ;;;
  in_env (stash_environment argv envp) ;;;
  set_devices ;;;
  init_cfg argv ;;;
  (if has_prefix "-" (hd "" argv) then cret tt else run_symlink argv false) ;;;
  (if check_kernel_procs proc_comm then cret tt else run_no_sandbox argv) ;;;
  (if check_arg argv "--build" false =? 0 then cret tt else run_builder argv) ;;;
  check_output argv ;;;
  allow_debuggers argv ;;;
  (if check_arg argv "--appimage" true =? 0 then cret tt else set_int "arg_appimage" 1) ;;;
  (if enabled CFG_FORCE_NONEWPRIVS then set_int "arg_nonewprivs" 1 else cret tt) ;;;
  let i := check_arg argv "--oom=" false in
  if i =? 0 then cret tt else oom_set (drop_chars 6 (nth (Z.to_nat i) argv "")).
End Start.
