(* ===== verification/Sys.v ===== *)
(** * System calls of the file system set-up (src/firejail/util.c, firejail.h)

    Mounts, descriptors and the effective user id.  What a call finds may depend on
    everything done before, so every answer of the kernel is a function of the
    effects so far; calls that change something are effects themselves, recorded
    whether they succeed or not.  A descriptor is the number the kernel answers
    with.  Messages and the log of fs_logger have no counterpart. *)

From S2P Require Import Prelude.
From S2P Require Import Clib.
From S2P Require Import Env.
From S2P Require Import Text.
From S2P Require Import Common.
From S2P Require Import Mountinfo.
From S2P Require Import Util.
From S2P Require Import Checkcfg.
From S2P Require Import Paths.
From S2P Require Import Macros.
From S2P Require Import ProfileState.
From S2P Require Import ProfileCommands.

(** fcntl.h and sys/mount.h. *)
Definition O_RDONLY : Z := 0.
Definition O_CREAT : Z := 0x40.
Definition O_EXCL : Z := 0x80.
Definition O_DIRECTORY : Z := 0x10000.
Definition O_NOFOLLOW : Z := 0x20000.
Definition O_CLOEXEC : Z := 0x80000.
Definition O_PATH : Z := 0x200000.

Definition MS_RDONLY : Z := 1.
Definition MS_NOSUID : Z := 2.
Definition MS_NODEV : Z := 4.
Definition MS_NOEXEC : Z := 8.
Definition MS_REMOUNT : Z := 32.
Definition MS_BIND : Z := 4096.
Definition MS_REC : Z := 16384.
Definition MS_STRICTATIME : Z := Z.shiftl 1 24.

(** The disjunction of flags. *)
Definition flags (l : list Z) : Z := foldr Z.lor 0 l.

Definition EIO : Z := 5.
Definition EACCES : Z := 13.
Definition EEXIST : Z := 17.

Record fstat := mk_stat {
  st_isdir : bool;
  st_islnk : bool;
  st_perm : Z;       (* st_mode & 07777 *)
  st_uid : Z;
  st_gid : Z;
  st_dev : Z;
  st_ino : Z
}.

(** What the kernel answers after the given effects; [None] is -1 or NULL.
    [sys_errno] is the result of the call that is the last effect: 0 when it
    succeeded. *)
Class Kernel := {
  sys_errno : list effect -> Z;
  sys_open : list effect -> Z -> string -> option Z;                  (* flags, path *)
  sys_openat : list effect -> Z -> Z -> string -> option Z;           (* directory, flags, path *)
  sys_openat2 : list effect -> Z -> Z -> string -> option (option Z); (* [None]: ENOSYS *)
  sys_created : list effect -> Z;                                     (* the descriptor openat with O_CREAT returned *)
  sys_fstat : list effect -> Z -> fstat + Z;                          (* or errno *)
  sys_stat : list effect -> string -> option fstat;
  sys_lstat : list effect -> string -> option fstat;
  sys_statvfs : list effect -> Z -> option Z;                         (* f_flag *)
  realpath_errno : list effect -> string -> Z;                        (* when realpath fails *)
  mount_handle : list effect -> Z -> Z;                               (* name_to_handle_at *)
  fdinfo : list effect -> Z -> list string;                           (* /proc/self/fdinfo/N *)
  mountinfo : list effect -> list string;                             (* /proc/self/mountinfo *)
  opendir : list effect -> string -> option (list string);             (* the names readdir lists *)
  glob : list effect -> string -> option (list string);               (* GLOB_NOCHECK | GLOB_NOSORT | GLOB_PERIOD *)
  glob_matches : list effect -> string -> option (list string);       (* 0 or GLOB_NOSORT; [None]: no match, or an error *)
  sys_fstatat : list effect -> Z -> string -> bool -> option fstat;   (* AT_SYMLINK_NOFOLLOW *)
  sys_faccess_x : list effect -> Z -> bool;                           (* faccessat(fd, ".", X_OK) *)
  d_type_dir : list effect -> string -> bool;                         (* DT_DIR, of the entry with this path *)
  sys_access_x : list effect -> string -> bool;                       (* access(path, X_OK) succeeds *)
  sys_size : list effect -> string -> Z;                              (* st_size *)
  gethostname : list effect -> option string;
  sys_isreg : list effect -> string -> bool;                          (* stat finds a regular file *)
  boot_record : list effect -> string;                                (* the last BOOT_TIME entry of utmp, as bytes *)
  getpwnam : string -> option (Z * Z);                                (* uid, gid *)
  get_group_id : string -> Z;                                         (* 0 when there is no such group *)
  fnmatch : string -> string -> Z;                                    (* pattern, path; FNM_PATHNAME *)
  bindir : string;
  user_shell : string;                                                (* cfg.usershell *)
  own_gid : Z                                                         (* getgid *)
}.

(** ** Variables as conditions *)

Definition set (n : string) (c : Config) : bool := negb (int_of n c =? 0).
Definition given (n : string) (c : Config) : bool := bool_decide (is_Some (str_of n c)).

(** ** The effective user id *)

Fixpoint euid_from (u : Z) (l : list effect) : Z :=
  match l with
  | [] => u
  | Seteuid v :: l' => euid_from v l'
  | _ :: l' => euid_from u l'
  end.

(** firejail is a set-uid program: it starts as root. *)
Definition euid (c : Config) : Z := euid_from 0 (effects c).

Section Sys.
Context `{H : Host} `{K : Kernel}.

Definition EUID_ROOT : P unit := emit (Seteuid 0).
Definition EUID_USER : P unit := emit (Seteuid uid).
(** Not root, unless root has started the program. *)
Definition unprivileged (u : Z) : bool := (uid =? 0) || negb (u =? 0).
Definition EUID_ASSERT : P unit := c <~ cget ;; cassert (unprivileged (euid c)).

(** ** Calls *)

Definition ask {A} (f : list effect -> A) : P A := c <~ cget ;; cret (f (effects c)).

(** A call that changes something: the errno, 0 for success. *)
Definition do_call (e : effect) : P Z := emit e ;;; ask sys_errno.

Definition mount (source target : place) (fstype : string) (flags : Z) (data : string) : P Z :=
  do_call (Mount source target fstype flags data).

Definition or_exit (r : Z) : P unit := exit_unless (r =? 0).

Definition open (flags : Z) (path : string) : P (option Z) := ask (fun l => sys_open l flags path).
Definition openat (dirfd flags : Z) (path : string) : P (option Z) := ask (fun l => sys_openat l dirfd flags path).

(** ** util.c *)

Definition safer_flags (flags : Z) : Z := Z.lor flags O_NOFOLLOW.

(** The walk along the components behind a directory. *)
Fixpoint safer_walk (parentfd flags : Z) (toks : list string) : P (option Z) :=
  match toks with
  | [] => cret None
  | tok :: toks' =>
      fd <~ openat parentfd (Sys.flags [O_PATH; O_DIRECTORY; O_NOFOLLOW; O_CLOEXEC]) tok ;;
      match fd, toks' with
      | None, [] => openat parentfd flags tok
      | None, _ => cret None
      | Some _, [] => openat parentfd flags tok
      | Some fd, _ => safer_walk fd flags toks'
      end
  end.

(** [dirfd] is not looked at when the path is absolute; duplicating it gives a
    descriptor of the same directory. *)
Definition safer_openat (dirfd : Z) (path : string) (fl : Z) : P (option Z) :=
  cassert (nonempty path) ;;;
  let fl := safer_flags fl in
  r <~ ask (fun l => sys_openat2 l dirfd fl path) ;;
  match r with
  | Some fd => cret fd
  | None =>
      match strtok "/"%char path with
      | [] => openat dirfd fl path
      | toks =>
          parentfd <~ (if has_prefix "/" path then open (flags [O_PATH; O_CLOEXEC]) "/" else cret (Some dirfd)) ;;
          match parentfd with
          | None => cexit 1
          | Some parentfd => safer_walk parentfd fl toks
          end
      end
  end.

Definition remount_by_fd (dst mountflags : Z) : P Z :=
  mount Nowhere (Of dst) "" (flags [mountflags; MS_BIND; MS_REMOUNT]) "".
Definition bind_mount_by_fd (src dst : Z) : P Z := mount (Of src) (Of dst) "" (flags [MS_BIND; MS_REC]) "".
Definition bind_mount_fd_to_path (src : Z) (destname : string) : P Z :=
  mount (Of src) (At destname) "" (flags [MS_BIND; MS_REC]) "".
Definition bind_mount_path_to_fd (srcname : string) (dst : Z) : P Z :=
  mount (At srcname) (Of dst) "" (flags [MS_BIND; MS_REC]) "".

Definition set_perms (fname : string) (u g mode : Z) : P Z :=
  r <~ do_call (Call "chmod" mode [fname]) ;;
  if negb (r =? 0) then cret 1
  else r <~ do_call (Call "chown" u [fname; print_d g]) ;; cret (if r =? 0 then 0 else 1).

(** The owner and mode are checked behind the calls; the second check is
    ASSERT_PERMS. *)
Definition mkdir_attr (fname : string) (mode u g : Z) : P unit :=
  r <~ do_call (Call "mkdir" mode [fname]) ;; or_exit r ;;;
  r <~ do_call (Call "chmod" mode [fname]) ;; or_exit r ;;;
  r <~ do_call (Call "chown" u [fname; print_d g]) ;; or_exit r ;;;
  s <~ ask (fun l => sys_stat l fname) ;;
  match s with
  | None => cexit 1
  | Some s => cassert ((st_uid s =? u) && (st_gid s =? g) && (st_perm s =? mode))
  end.

(** The child drops its privileges and makes the directory. *)
Definition create_empty_dir_as_user (dir : string) (mode : Z) : P bool :=
  c <~ cget ;;
  if f_stat (fs_now c) dir then cret false
  else emit (Mkdir dir) ;;; c <~ cget ;; cret (f_stat (fs_now c) dir).

Definition selinux_relabel_path (path inside_path : string) : P unit :=
  emit (Call "selinux_relabel_path" 0 [path; inside_path]).

(** ** mountinfo.c with the files it reads *)

Definition get_mount_id (fd : Z) : P Z :=
  ask (fun l => Mountinfo.get_mount_id (mount_handle l fd) (fdinfo l fd)).
Definition get_last_mount : P MountData := l <~ ask mountinfo ;; clift (Mountinfo.get_last_mount l).
Definition build_mount_array (mountid : Z) (path : string) : P (option (list string)) :=
  l <~ ask mountinfo ;; clift (Mountinfo.build_mount_array mountid path l).

(** ** paths.c: the array is built once and kept; its elements hold no colon *)

Definition build_paths : P (list string) :=
  kept <~ get_str "paths" ;;
  match kept with
  | Some s => cret (strtok ":"%char s)
  | None =>
      c <~ cget ;;
      let path := env_get "PATH" (environment c) in
      (match path with
       | None => in_env (env_store_name_val "PATH" default_search_path SETENV)
       | Some _ => cret tt
       end) ;;;
      let link := match f_realpath (fs_now c) "/bin" with Some rp => streq rp "/usr/bin" | None => false end in
      let paths := init_paths path link in
      set_str "paths" (String.concat ":" paths) ;;;
      cret paths
  end.
End Sys.
