(* ===== verification/SysFiles.v ===== *)
(** * Files and directories made by firejail (src/firejail/util.c, include/rundefs.h)

    The helpers that create, copy and hide files, and the names under
    /run/firejail.  What a child with the rights of the user does is one effect. *)

From S2P Require Import Prelude.
From S2P Require Import Clib.
From S2P Require Import Env.
From S2P Require Import Text.
From S2P Require Import Common.
From S2P Require Import Mountinfo.
From S2P Require Import Util.
From S2P Require Import Checkcfg.
From S2P Require Import Macros.
From S2P Require Import ProfileState.
From S2P Require Import ProfileCommands.
From S2P Require Import NetConfig.
From S2P Require Import Sys.

Definition RUN_FIREJAIL_DIR : string := "/run/firejail".
Definition RUN_RO_DIR : string := RUN_FIREJAIL_DIR +:+ "/firejail.ro.dir".
Definition RUN_RO_FILE : string := RUN_FIREJAIL_DIR +:+ "/firejail.ro.file".
Definition RUN_FIREJAIL_SANDBOX_DIR : string := RUN_FIREJAIL_DIR +:+ "/sandbox".
Definition RUN_FIREJAIL_NETWORK_DIR : string := RUN_FIREJAIL_DIR +:+ "/network".
Definition RUN_FIREJAIL_NAME_DIR : string := RUN_FIREJAIL_DIR +:+ "/name".
Definition RUN_FIREJAIL_PROFILE_DIR : string := RUN_FIREJAIL_DIR +:+ "/profile".
Definition RUN_FIREJAIL_X11_DIR : string := RUN_FIREJAIL_DIR +:+ "/x11".
Definition RUN_FIREJAIL_LIB_DIR : string := RUN_FIREJAIL_DIR +:+ "/lib".
Definition RUN_FIREJAIL_APPIMAGE_DIR : string := RUN_FIREJAIL_DIR +:+ "/appimage".
Definition RUN_MNT_DIR : string := RUN_FIREJAIL_DIR +:+ "/mnt".
Definition PATH_FCOPY : string := RUN_FIREJAIL_LIB_DIR +:+ "/fcopy".
Definition RUN_XAUTHORITY_FILE : string := RUN_MNT_DIR +:+ "/.Xauthority".
Definition RUN_ASOUNDRC_FILE : string := RUN_MNT_DIR +:+ "/.asoundrc".

(** [%o], for what fits in 32 bits. *)
Fixpoint octal_digits (fuel : nat) (z : Z) (acc : string) : string :=
  match fuel with
  | O => acc
  | S f => let d := String (chr (48 + Z.to_nat (z mod 8))) acc in
           if z / 8 =? 0 then d else octal_digits f (z / 8) d
  end.
Definition print_o (z : Z) : string := octal_digits 11 z EmptyString.

(** The text in front of the last [c], [None] when there is none. *)
Fixpoint strrchr_before (c : ascii) (s : string) : option string :=
  match s with
  | EmptyString => None
  | String a s' =>
      match strrchr_before c s' with
      | Some l => Some (String a l)
      | None => if Ascii.eqb a c then Some EmptyString else None
      end
  end.

Section SysFiles.
Context `{H : Host} `{K : Kernel}.

(** ** Children of the user *)

Definition copy_file_as_user (src dest : string) (mode : Z) : P unit :=
  emit (Call "copy_file_as_user" mode [src; dest]).
Definition touch_file_as_user (fname : string) (mode : Z) : P unit :=
  emit (Call "touch_file_as_user" mode [fname]).

(** ** Files written by firejail *)

(** fopen with the text written and the file closed: the errno of fopen. *)
Definition fopen (fname mode text : string) : P Z := do_call (Call "fopen" 0 [fname; mode; text]).

Definition write_file (fname text : string) : P unit := r <~ fopen fname "w" text ;; or_exit r.

(** SET_PERMS_STREAM *)
Definition set_perms_stream (fname : string) (u g mode : Z) : P unit :=
  r <~ do_call (Call "fchmod" mode [fname]) ;; or_exit r ;;;
  r <~ do_call (Call "fchown" u [fname; print_d g]) ;; or_exit r.

(** ASSERT_PERMS *)
Definition assert_perms (fname : string) (u g mode : Z) : P unit :=
  s <~ ask (fun l => sys_stat l fname) ;;
  match s with
  | None => cexit 1
  | Some s => cassert ((st_uid s =? u) && (st_gid s =? g) && (st_perm s =? mode))
  end.

(** The parent opens the destination as root, the child reads the source as the
    user. *)
Definition copy_file_from_user_to_root (src dest : string) (u g mode : Z) : P unit :=
  r <~ do_call (Call "open" 0 [dest; "O_CREAT|O_WRONLY|O_TRUNC|O_CLOEXEC"]) ;;
  if negb (r =? 0) then cret tt
  else
    emit (Call "copy_to_fd_as_user" 0 [src; dest]) ;;;
    r <~ do_call (Call "fchown" u [dest; print_d g]) ;; or_exit r ;;;
    r <~ do_call (Call "fchmod" mode [dest]) ;; or_exit r.

(** 0 or -1; the loop of copy_file_by_fd is one call. *)
Definition copy_file (src dest : string) (u g mode : Z) : P Z :=
  s <~ open (flags [O_RDONLY; O_CLOEXEC]) src ;;
  match s with
  | None => cret (-1)
  | Some _ =>
      r <~ do_call (Call "open" 0 [dest; "O_CREAT|O_WRONLY|O_TRUNC|O_CLOEXEC"]) ;;
      if negb (r =? 0) then cret (-1)
      else
        errors <~ do_call (Call "copy_file_by_fd" 0 [src; dest]) ;;
        if negb (errors =? 0) then cret (-1)
        else
          r <~ do_call (Call "fchown" u [dest; print_d g]) ;; or_exit r ;;;
          r <~ do_call (Call "fchmod" mode [dest]) ;; or_exit r ;;;
          cret 0
  end.

(** A directory that is there already, made by another sandbox meanwhile, will do. *)
Definition create_empty_dir_as_root (dir : string) (mode : Z) : P unit :=
  c <~ cget ;;
  (if f_stat (fs_now c) dir then cret tt
   else r <~ do_call (Call "mkdir" mode [dir]) ;; exit_unless ((r =? 0) || (r =? EEXIST))) ;;;
  assert_perms dir 0 0 mode.

Definition create_empty_file_as_root (fname : string) (mode : Z) : P unit :=
  c <~ cget ;;
  (if f_stat (fs_now c) fname then cret tt
   else r <~ do_call (Call "open" mode [fname; "O_RDONLY|O_CREAT|O_CLOEXEC"]) ;; or_exit r) ;;;
  assert_perms fname 0 0 mode.

(** The rounds at the slashes behind the first character: [pre] is the text up to
    the slash, an element of [rest] what follows it. *)
Fixpoint mkpath_loop (pre : string) (rest : list string) : P Z :=
  match rest with
  | [] | [_] => cret 0
  | x :: rest' =>
      let dir := pre +:+ x in
      r <~ do_call (Call "mkdir" 493 [dir]) ;;
      if r =? 0 then
        p <~ set_perms dir 0 0 493 ;; or_exit p ;;; mkpath_loop (dir +:+ "/") rest'
      else if r =? EEXIST then mkpath_loop (dir +:+ "/") rest'
      else cret (-1)
  end.

Definition mkpath_as_root (path : string) : P Z :=
  match path with
  | EmptyString => cfail
  | String c rest => match strsep "/"%char rest with
                     | x :: xs => mkpath_loop (String c EmptyString) (x :: xs)
                     | [] => cret 0
                     end
  end.

(** ** Hiding a file, as root *)

Definition disable_file_or_dir (fname : string) : P unit :=
  c <~ cget ;; cassert (euid c =? 0) ;;;
  EUID_USER ;;;
  fd <~ open (flags [O_PATH; O_CLOEXEC]) fname ;;
  EUID_ROOT ;;;
  match fd with
  | None => cret tt
  | Some fd =>
      st <~ ask (fun l => sys_fstat l fd) ;;
      match st with
      | inr e => exit_unless (e =? EACCES)
      | inl s => r <~ bind_mount_path_to_fd (if st_isdir s then RUN_RO_DIR else RUN_RO_FILE) fd ;; or_exit r
      end
  end.

Definition disable_file_path (path file : string) : P unit := disable_file_or_dir (path +:+ "/" +:+ file).

(** ** sbox.c: a child that fails ends the program *)

Definition SBOX_STDIN_FROM_FILE : Z := 64.

Definition sbox_run (filter : Z) (args : list string) : P unit :=
  emit (Sbox_run filter args) ;;;
  c <~ cget ;; exit_unless (child_status (effects c) =? 0).

(** A tmpfs at a path; the options and flags differ. *)
Definition mount_tmpfs (dir : string) (fl : Z) (data : string) : P unit :=
  r <~ mount (At "tmpfs") (At dir) "tmpfs" fl data ;; or_exit r.

Definition bind_mount (src dst fstype : string) (fl : Z) (data : string) : P unit :=
  r <~ mount (At src) (At dst) fstype fl data ;; or_exit r.
End SysFiles.
