(* ===== verification/FsVar.v ===== *)
(** * /var (src/firejail/fs_var.c)

    Directories of /var that a sandbox does not share get a tmpfs. *)

From S2P Require Import Prelude.
From S2P Require Import Clib.
From S2P Require Import Env.
From S2P Require Import Text.
From S2P Require Import Common.
From S2P Require Import Util.
From S2P Require Import Checkcfg.
From S2P Require Import ProfileState.
From S2P Require Import Sys.
From S2P Require Import SysFiles.

Record DirData := mk_dirdata { dd_name : string; dd_mode : Z; dd_uid : Z; dd_gid : Z }.

Definition RUN_UTMP_FILE : string := RUN_MNT_DIR +:+ "/utmp".
Definition UTMP_FILE : string := "/var/run/utmp".

Definition var_flags : Z := flags [MS_NOSUID; MS_NOEXEC; MS_NODEV; MS_STRICTATIME].

(** [S_IRUSR | S_IWUSR | S_IRGRP | S_IWGRP], and with [S_IROTH]. *)
Definition rw_rw : Z := 432.
Definition rw_rw_r : Z := 436.

Section Var.
Context `{H : Host} `{K : Kernel}.

(** ** /var/log *)

(** The element for one name, put in front of the list. *)
Definition dirdata (srcdir : string) (l : list effect) (d_name : string) (dirlist : list DirData) : list DirData :=
  let name := srcdir +:+ "/" +:+ d_name in
  if streq d_name "." || streq d_name ".." || negb (d_type_dir l name) then dirlist
  else match sys_stat l name with
       | None => dirlist
       | Some s => if st_islnk s then dirlist
                   else mk_dirdata name (st_perm s) (st_uid s) (st_gid s) :: dirlist
       end.

Definition build_list (srcdir : string) : P (list DirData) :=
  ask (fun l => foldl (fun dirlist d => dirdata srcdir l d dirlist) [] (default [] (opendir l srcdir))).

Definition build_dirs (dirlist : list DirData) : P unit :=
  cfold (fun d _ => mkdir_attr (dd_name d) (dd_mode d) (dd_uid d) (dd_gid d)) dirlist tt.

(** A log file that is not there yet: fopen with "wx". *)
Definition touch_log (fname : string) (gid mode : Z) : P unit :=
  r <~ fopen fname "wx" "" ;;
  if r =? 0 then set_perms_stream fname 0 gid mode else cret tt.

Definition fs_var_log : P unit :=
  dirlist <~ build_list "/var/log" ;;
  c <~ cget ;;
  if is_dir "/var/log" (fs_now c) then
    s <~ ask (fun l => sys_stat l "/var/log/wtmp") ;;
    let wtmp_group := match s with Some s => st_gid s | None => 0 end in
    mount_tmpfs "/var/log" var_flags "mode=755,gid=0" ;;;
    build_dirs dirlist ;;;
    touch_log "/var/log/wtmp" wtmp_group rw_rw_r ;;;
    touch_log "/var/log/btmp" wtmp_group rw_rw
  else cret tt.

(** ** The other directories *)

Definition tmpfs_if_there (dir data : string) : P unit :=
  c <~ cget ;;
  if f_stat (fs_now c) dir then mount_tmpfs dir var_flags data else cret tt.

Definition fs_var_lib : P unit :=
  tmpfs_if_there "/var/lib/nginx" "mode=755,gid=0" ;;;
  tmpfs_if_there "/var/lib/snmp" "mode=755,gid=0" ;;;
  tmpfs_if_there "/var/lib/sudo" "mode=755,gid=0".

Definition mkdir_relabelled (dir : string) (mode u g : Z) : P unit :=
  mkdir_attr dir mode u g ;;; selinux_relabel_path dir dir.

Definition fs_var_cache : P unit :=
  tmpfs_if_there "/var/cache/apache2" "mode=755,gid=0" ;;;
  c <~ cget ;;
  if f_stat (fs_now c) "/var/cache/lighttpd" then
    mount_tmpfs "/var/cache/lighttpd" var_flags "mode=755,gid=0" ;;;
    let '(u, g) := default (0, 0) (getpwnam "www-data") in
    mkdir_relabelled "/var/cache/lighttpd/compress" 493 u g ;;;
    mkdir_relabelled "/var/cache/lighttpd/uploads" 493 u g
  else cret tt.

Definition fs_var_lock : P unit :=
  c <~ cget ;;
  if is_dir "/var/lock" (fs_now c) then mount_tmpfs "/var/lock" var_flags "mode=1777,gid=0" else cret tt.

Definition fs_var_tmp : P unit :=
  c <~ cget ;;
  if f_stat (fs_now c) "/var/tmp" && negb (is_link "/var/tmp" (fs_now c))
  then mount_tmpfs "/var/tmp" var_flags "mode=1777,gid=0" else cret tt.

(** The new file holds the boot record of the old one alone. *)
Definition fs_var_utmp : P unit :=
  s <~ ask (fun l => sys_stat l UTMP_FILE) ;;
  match s with
  | None => cret tt
  | Some s =>
      u_boot <~ ask boot_record ;;
      write_file RUN_UTMP_FILE u_boot ;;;
      set_perms_stream RUN_UTMP_FILE 0 (st_gid s) rw_rw_r ;;;
      bind_mount RUN_UTMP_FILE UTMP_FILE "" (flags [MS_BIND; MS_NOSUID; MS_NOEXEC; MS_NODEV; MS_REC]) "" ;;;
      bind_mount RUN_RO_FILE RUN_UTMP_FILE "" MS_BIND "mode=400,gid=0"
  end.
End Var.
