(* ===== verification/FsEtc.v ===== *)
(** * /etc (src/firejail/fs_etc.c, include/etc_groups.h)

    The files of a private /etc, /opt or /srv, a new resolv.conf and a new
    machine-id. *)

From S2P Require Import Prelude.
From S2P Require Import Clib.
From S2P Require Import Env.
From S2P Require Import Text.
From S2P Require Import Common.
From S2P Require Import Util.
From S2P Require Import Checkcfg.
From S2P Require Import Macros.
From S2P Require Import ProfileState.
From S2P Require Import ProfileCommands.
From S2P Require Import NetConfig.
From S2P Require Import Sys.
From S2P Require Import SysFiles.

(** ** The list of files *)

Definition ETC_MAX : nat := 256.

Definition etc_list : list string :=
  ["alternatives"; "fonts"; "gcrypt"; "group"; "ld.so.cache"; "ld.so.conf"; "ld.so.conf.d"; "ld.so.preload";
   "locale"; "locale.alias"; "locale.conf"; "localtime"; "login.defs"; "nsswitch.conf"; "passwd"; "selinux"].
Definition etc_group_games : list string := ["openal"; "timidity"; "timidity.cfg"].
Definition etc_group_network : list string := ["hostname"; "hosts"; "protocols"; "resolv.conf"].
Definition etc_group_sound : list string := ["alsa"; "asound.conf"; "machine-id"; "pipewire"; "pulse"].
Definition etc_group_tls_ca : list string :=
  ["ca-certificates"; "crypto-policies"; "gnutls"; "gcrypt"; "pki"; "ssl"; "openssl"].
Definition etc_group_x11 : list string :=
  ["ati"; "dconf"; "drirc"; "gconf"; "glib-2.0"; "gtk"; "gtk-2.0"; "gtk-3.0"; "gtk-4.0"; "qt3"; "kderc"; "kde3";
   "kde4rc"; "kde5rc"; "machine-id"; "nvidia"; "pango"; "Trolltech.conf"; "vulkan"; "X11"; "xdg"; "fonts"].

(** The stores behind the last element, of the name and of the NULL behind it: the
    array has [ETC_MAX + 1] elements and etc_copy_group does not look at the bound.
    [None]: a store behind the array. *)
Definition etc_store (l : list string) (file : string) : option (list string) :=
  if (S (length l) <=? ETC_MAX)%nat then Some (l ++ [file]) else None.

Fixpoint etc_copy_group (group l : list string) : option (list string) :=
  match group with
  | [] => Some l
  | file :: group' => l' <-? etc_store l file ;; etc_copy_group group' l'
  end.

(** An array that is full ends the program. *)
Definition etc_add (file : string) (l : list string) : outcome (list string) :=
  if (ETC_MAX <=? length l)%nat then Exit 1
  else if existsb (streq file) l then Ok l
  else Ok (l ++ [file]).

(** A group has no else branch but the last: the name of another group is added as a
    file too. *)
Definition etc_item (ptr : string) (l : list string) : outcome (option (list string)) :=
  let copy g name (r : option (list string)) := l <-? r ;; if streq ptr name then etc_copy_group g l else Some l in
  let r := copy etc_group_network "@network" (copy etc_group_sound "@sound" (copy etc_group_x11 "@x11"
             (copy etc_group_tls_ca "@tls-ca" (Some l)))) in
  match r with
  | None => Ok None
  | Some l => if streq ptr "@games" then Ok (etc_copy_group etc_group_games l)
              else obind (etc_add ptr l) (fun l => Ok (Some l))
  end.

Fixpoint etc_items (toks l : list string) : outcome (option (list string)) :=
  match toks with
  | [] => Ok (Some l)
  | ptr :: toks' => obind (etc_item ptr l) (fun r => match r with Some l => etc_items toks' l | None => Ok None end)
  end.

(** The new string, each name with a comma behind it. *)
Definition fs_etc_build (nonetwork nosound : bool) (str : option string) : outcome (option string) :=
  match (l <-? (if nonetwork then Some etc_list else etc_copy_group etc_group_network etc_list) ;;
         if nosound then Some l else etc_copy_group etc_group_sound l) with
  | None => Ok None
  | Some l =>
      obind (etc_items (match str with Some s => strtok ","%char s | None => [] end) l)
        (fun r => Ok (l <-? r ;; Some (String.concat "" (map (fun f => f +:+ ",") l))))
  end.

(** ** machine-id *)

(** [%08x] *)
Definition print_x8 (z : Z) : string :=
  String.concat "" (map (fun i => print_x2 (Z.land (Z.shiftr z (8 * i)) 255)) [3; 2; 1; 0]).

(** The union: byte [i] of a little-endian word replaced. *)
Definition set_byte (i : Z) (f : Z -> Z) (w : Z) : Z :=
  Z.lor (Z.ldiff w (Z.shiftl 255 (8 * i))) (Z.shiftl (f (Z.land (Z.shiftr w (8 * i)) 255)) (8 * i)).

Definition machine_id (r0 r1 r2 r3 : Z) : string :=
  let r1 := set_byte 2 (fun b => Z.lor (Z.land b 0x0f) 0x40) r1 in
  let r2 := set_byte 0 (fun b => Z.lor (Z.land b 0x3f) 0x80) r2 in
  print_x8 r0 +:+ print_x8 r1 +:+ print_x8 r2 +:+ print_x8 r3.

Definition RUN_MACHINEID : string := RUN_MNT_DIR +:+ "/machine-id".
Definition RUN_RESOLVCONF_FILE : string := RUN_MNT_DIR +:+ "/resolv.conf".

(** The parent directories of a path: the text up to each component's end, [prev]
    being the character in front of [rest]. *)
Fixpoint dir_prefixes (done : string) (prev : ascii) (rest : string) : list string :=
  match rest with
  | EmptyString => [done]
  | String c rest' =>
      let next := dir_prefixes (done +:+ String c EmptyString) c rest' in
      if Ascii.eqb c "/"%char && negb (Ascii.eqb prev "/"%char) then done :: next else next
  end.

Section Etc.
Context `{H : Host} `{N : NetHost} `{K : Kernel}.

Definition bind_over (src dst mode : string) : P unit := bind_mount src dst "none" MS_BIND ("mode=" +:+ mode +:+ ",gid=0").

Definition fs_machineid : P unit :=
  m <~ get_int "arg_machineid" ;;
  if m =? 0 then cret tt
  else
    r0 <~ get_rand ;; r1 <~ get_rand ;; r2 <~ get_rand ;; r3 <~ get_rand ;;
    write_file RUN_MACHINEID (line (machine_id r0 r1 r2 r3)) ;;;
    p <~ set_perms RUN_MACHINEID 0 0 292 ;; or_exit p ;;;
    selinux_relabel_path RUN_MACHINEID "/etc/machine-id" ;;;
    c <~ cget ;;
    (if f_stat (fs_now c) "/etc/machine-id" then bind_over RUN_MACHINEID "/etc/machine-id" "444" else cret tt) ;;;
    c <~ cget ;;
    if f_stat (fs_now c) "/var/lib/dbus/machine-id"
    then bind_over RUN_MACHINEID "/var/lib/dbus/machine-id" "444" else cret tt.

(** ** resolv.conf *)

Definition nameserver (c : Config) (n : string) : string :=
  match str_of n c with Some d => line ("nameserver " +:+ d) | None => EmptyString end.

Definition fs_resolvconf : P unit :=
  nonet <~ get_int "arg_nonetwork" ;;
  if negb (nonet =? 0) then cret tt
  else
    c <~ cget ;;
    r <~ fopen RUN_RESOLVCONF_FILE "wx" (String.concat "" (map (nameserver c) ["dns1"; "dns2"; "dns3"; "dns4"])) ;;
    or_exit r ;;;
    set_perms_stream RUN_RESOLVCONF_FILE 0 0 420 ;;;
    selinux_relabel_path RUN_RESOLVCONF_FILE "/etc/resolv.conf" ;;;
    bind_over RUN_RESOLVCONF_FILE "/etc/resolv.conf" "644".

(** ** Private directories *)

(** The empty copies of the directories on the way to a file; the result is the
    target directory. *)
Definition build_dir (private_dir private_run_dir pre dst : string) : P string :=
  s <~ ask (fun l => sys_stat l (private_dir +:+ "/" +:+ pre)) ;;
  match s with
  | Some s =>
      if st_isdir s then
        let dst := private_run_dir +:+ "/" +:+ pre in
        r <~ do_call (Call "mkdir" 448 [dst]) ;; exit_unless ((r =? 0) || (r =? EEXIST)) ;;;
        r <~ do_call (Call "chmod" (st_perm s) [dst]) ;; or_exit r ;;;
        cret dst
      else cret dst
  | None => cret dst
  end.

Definition build_dirs (fname private_dir private_run_dir : string) : P string :=
  cfold (build_dir private_dir private_run_dir) (dir_prefixes EmptyString "/"%char fname) private_run_dir.

Definition check_dir_or_file (fname : string) : P bool :=
  s <~ ask (fun l => sys_stat l fname) ;;
  match s with
  | None => cret false
  | Some s =>
      c <~ cget ;;
      exit_unless (bool_decide (f_access_r (fs_now c) fname = None)) ;;;
      exit_unless (st_isdir s || sys_isreg (effects c) fname || negb (is_link fname (fs_now c))) ;;;
      cret true
  end.

Definition duplicate (fname private_dir private_run_dir : string) : P unit :=
  let src := private_dir +:+ "/" +:+ fname in
  found <~ check_dir_or_file src ;;
  if negb found then cret tt
  else
    dst <~ build_dirs fname private_dir private_run_dir ;;
    sbox_run (Z.lor SBOX_ROOT SBOX_SECCOMP)
      (if streq src "/etc/mtab" then [PATH_FCOPY; src; dst] else [PATH_FCOPY; "--follow-link"; src; dst]).

Definition duplicate_globbing (fname private_dir private_run_dir : string) : P unit :=
  exit_unless (negb (has_prefix "~" fname || has_prefix "/" fname || Text.contains ".." fname)) ;;;
  clift (invalid_filename fname true) ;;;
  r <~ ask (fun l => glob l (private_dir +:+ "/" +:+ fname)) ;;
  match r with
  | None => cexit 1
  | Some paths =>
      cfold (fun path _ => duplicate (drop_chars (S (String.length private_dir)) path) private_dir private_run_dir) paths tt
  end.

Definition fs_private_dir_copy (private_dir private_run_dir private_list : string) : P unit :=
  c <~ cget ;;
  if negb (f_stat (fs_now c) private_dir) then cret tt
  else
    mkdir_attr private_run_dir 493 0 0 ;;;
    selinux_relabel_path private_run_dir private_dir ;;;
    if negb (nonempty private_list) then cret tt
    else
      let toks := strtok ","%char private_list in
      exit_unless (negb (bool_decide (toks = []))) ;;;
      cfold (fun ptr _ => duplicate_globbing ptr private_dir private_run_dir) toks tt.

(** The copy is mounted, and its own place is masked. *)
Definition fs_private_dir_mount (private_dir private_run_dir : string) : P unit :=
  c <~ cget ;;
  if negb (f_stat (fs_now c) private_dir) then cret tt
  else
    bind_mount private_run_dir private_dir "" (flags [MS_BIND; MS_REC]) "" ;;;
    mount_tmpfs private_run_dir (flags [MS_NOSUID; MS_NODEV; MS_STRICTATIME]) "mode=755,gid=0".

Definition fs_private_dir_list (private_dir private_run_dir private_list : string) : P unit :=
  fs_private_dir_copy private_dir private_run_dir private_list ;;;
  fs_private_dir_mount private_dir private_run_dir.
End Etc.
