(* ===== verification/RestrictUsers.v ===== *)
(** * The other users are hidden (src/firejail/restrict_users.c)

    The home and run-time directories of the other users disappear behind a tmpfs
    each, and /etc/passwd and /etc/group behind the copies of [Users]. *)

From S2P Require Import Prelude.
From S2P Require Import Clib.
From S2P Require Import Text.
From S2P Require Import Common.
From S2P Require Import Util.
From S2P Require Import Users.
From S2P Require Import Checkcfg.
From S2P Require Import ProfileState.
From S2P Require Import ProfileCommands.
From S2P Require Import Sys.
From S2P Require Import SysFiles.
From S2P Require Import FsEtc.

Definition RUN_PASSWD_FILE : string := RUN_MNT_DIR +:+ "/passwd".
Definition RUN_GROUP_FILE : string := RUN_MNT_DIR +:+ "/group".

Definition home_flags : Z := flags [MS_NOSUID; MS_NODEV; MS_STRICTATIME].

Section Restrict.
Context `{H : Host} `{K : Kernel}.

(** The directory is kept open while the tmpfs is mounted. *)
Definition sanitize_home : P unit :=
  cassert (negb (uid =? 0)) ;;;
  fd <~ safer_openat (-1) homedir (flags [O_PATH; O_DIRECTORY; O_NOFOLLOW; O_CLOEXEC]) ;;
  match fd with
  | None => cret tt
  | Some fd =>
      st <~ ask (fun l => sys_fstat l fd) ;;
      match st with
      | inr e => exit_unless (e =? EACCES)
      | inl s =>
          mount_tmpfs "/home" home_flags "mode=755,gid=0" ;;;
          selinux_relabel_path "/home" "/home" ;;;
          r <~ do_call (Call "mkdir" 493 [homedir]) ;;
          (if r =? 0 then cret tt
           else p <~ mkpath_as_root homedir ;; exit_unless (negb (p =? -1)) ;;;
                r <~ do_call (Call "mkdir" 493 [homedir]) ;; or_exit r) ;;;
          p <~ set_perms homedir (st_uid s) (st_gid s) (st_perm s) ;; or_exit p ;;;
          selinux_relabel_path homedir homedir ;;;
          r <~ bind_mount_fd_to_path fd homedir ;; or_exit r
      end
  end.

Definition sanitize_run : P unit :=
  let runuser := "/run/user/" +:+ print_u uid in
  fd <~ open (flags [O_PATH; O_DIRECTORY; O_NOFOLLOW; O_CLOEXEC]) runuser ;;
  match fd with
  | None => cret tt
  | Some fd =>
      mount_tmpfs "/run/user" home_flags "mode=755,gid=0" ;;;
      selinux_relabel_path "/run/user" "/run/user" ;;;
      r <~ do_call (Call "mkdir" 448 [runuser]) ;; or_exit r ;;;
      p <~ set_perms runuser uid own_gid 448 ;; or_exit p ;;;
      selinux_relabel_path runuser runuser ;;;
      r <~ bind_mount_fd_to_path fd runuser ;; or_exit r
  end.

(** The system side of [Users.sanitize]: the new file is opened once the old one
    can be read, and mounted over it when the copy is complete. *)
Definition install (fname run_file : string) (id_min : Z)
    (sanitizer : etc_file -> outcome (list string * option string)) : P (list string) :=
  c <~ cget ;;
  let v := fs_now c in
  out <~ (if f_stat v fname && negb (id_min =? 0) && negb (is_link fname v) && bool_decide (is_Some (f_text v fname))
          then r <~ fopen run_file "w" "" ;; cret (r =? 0) else cret false) ;;
  r <~ clift (sanitizer (mk_etc (f_stat v fname) (is_link fname v) (f_text v fname) out)) ;;
  (match r.2 with
   | None => cret tt
   | Some text =>
       emit (Call "fprintf" 0 [run_file; text]) ;;;
       set_perms_stream run_file 0 0 420 ;;;
       bind_over run_file fname "400" ;;;
       bind_over RUN_RO_FILE run_file "400"
   end) ;;;
  cret r.1.

Definition restrict_users : P unit :=
  allusers <~ get_int "arg_allusers" ;;
  if negb (allusers =? 0) || (uid =? 0) then cret tt
  else
    (if has_prefix "/home/" homedir then sanitize_home
     else mount_tmpfs "/home" home_flags "mode=755,gid=0") ;;;
    sanitize_run ;;;
    uid_min <~ get_int "uid_min" ;;
    gid_min <~ get_int "gid_min" ;;
    users <~ install "/etc/passwd" RUN_PASSWD_FILE uid_min (fun f => sanitize_passwd f uid_min uid []) ;;
    install "/etc/group" RUN_GROUP_FILE gid_min (fun f => sanitize_group f gid_min own_gid users) ;;;
    cret tt.
End Restrict.
