(* ===== verification/FsBin.v ===== *)
(** * --private-bin (src/firejail/fs_bin.c)

    The listed programs are copied into a new directory, which is mounted over the
    directories programs are found in. *)

From S2P Require Import Prelude.
From S2P Require Import Clib.
From S2P Require Import Text.
From S2P Require Import Common.
From S2P Require Import Util.
From S2P Require Import Checkcfg.
From S2P Require Import Macros.
From S2P Require Import ProfileState.
From S2P Require Import ProfileCommands.
From S2P Require Import NetConfig.
From S2P Require Import Startup.
From S2P Require Import Sys.
From S2P Require Import SysFiles.

Definition bin_paths : list string :=
  ["/usr/local/bin"; "/usr/bin"; "/bin"; "/usr/games"; "/usr/local/games"; "/usr/local/sbin"; "/usr/sbin"; "/sbin"].

Definition RUN_BIN_DIR : string := RUN_MNT_DIR +:+ "/bin".

Section Bin.
Context `{H : Host} `{K : Kernel}.

(** private-bin-no-local: some directories are left out. *)
Definition skipped_path (path : string) : bool := enabled CFG_PRIVATE_BIN_NO_LOCAL && Text.contains "local/" path.

Definition is_program (c : Config) (fname : string) : bool :=
  match sys_stat (effects c) fname with
  | Some s => negb (st_isdir s) && negb (is_firejail_link (fs_now c) fname)
  | None => false
  end.

(** The directory that has the program, if any. *)
Definition check_dir_or_file (name : string) : P (option string) :=
  EUID_ASSERT ;;;
  c <~ cget ;;
  cret (List.find (fun path => negb (skipped_path path) && is_program c (path +:+ "/" +:+ name)) bin_paths).

Definition in_bin_path (name path : string) : bool :=
  negb (skipped_path path) &&
  match strip_prefix path name with
  | Some (String c rest) => Ascii.eqb c "/"%char && nonempty rest
  | _ => false
  end.

Definition valid_full_path_file (name : string) : P bool :=
  EUID_ASSERT ;;;
  c <~ cget ;;
  cret (has_prefix "/" name && negb (Text.contains ".." name) &&
        match sys_stat (effects c) name with Some s => negb (st_isdir s) | None => false end &&
        sys_access_x (effects c) name &&
        existsb (in_bin_path name) bin_paths).

Definition fcopy_bin (path : string) : P unit :=
  sbox_run (Z.lor SBOX_ROOT SBOX_SECCOMP) [PATH_FCOPY; path; RUN_BIN_DIR].

(** The file a link leads to is copied too, when it is a program itself. *)
Definition copy_program (full_path : string) : P unit :=
  c <~ cget ;;
  (if is_link full_path (fs_now c) then
     match f_realpath (fs_now c) full_path with
     | Some actual_path => valid <~ valid_full_path_file actual_path ;; if valid : bool then fcopy_bin actual_path else cret tt
     | None => cret tt
     end
   else cret tt) ;;;
  fcopy_bin full_path.

Definition duplicate (fname : string) : P unit :=
  EUID_ASSERT ;;;
  exit_unless (negb (has_prefix "~" fname || Text.contains ".." fname)) ;;;
  clift (invalid_filename fname false) ;;;
  if has_prefix "/" fname then
    valid <~ valid_full_path_file fname ;;
    if valid : bool then copy_program fname else cret tt
  else
    path <~ check_dir_or_file fname ;;
    match path with
    | None => cret tt
    | Some path => copy_program (path +:+ "/" +:+ fname)
    end.

Definition is_pattern (fname : string) : bool :=
  string_mem "*"%char fname || string_mem "["%char fname || string_mem "?"%char fname.

Definition bin_match (pattern path : string) : P unit :=
  c <~ cget ;;
  if streq path pattern || is_firejail_link (fs_now c) path then cret tt else duplicate path.

Definition globbing (fname : string) : P unit :=
  EUID_ASSERT ;;;
  if negb (is_pattern fname) then duplicate fname
  else
    cfold (fun path _ =>
      if skipped_path path then cret tt
      else
        let pattern := path +:+ "/" +:+ fname in
        r <~ ask (fun l => glob l pattern) ;;
        match r with
        | None => cexit 1
        | Some matches => cfold (fun m _ => bin_match pattern m) matches tt
        end) bin_paths tt.

Definition mount_bin (path : string) : P unit :=
  c <~ cget ;;
  if f_stat (fs_now c) path then bind_mount RUN_BIN_DIR path "" (flags [MS_BIND; MS_REC]) "" else cret tt.

Definition fs_private_bin_list : P unit :=
  EUID_ASSERT ;;;
  private_list <~ get_str "bin_private_keep" ;;
  match private_list with
  | None => cfail
  | Some private_list =>
      EUID_ROOT ;;;
      mkdir_attr RUN_BIN_DIR 493 0 0 ;;;
      EUID_USER ;;;
      let toks := strtok ","%char private_list in
      exit_unless (negb (bool_decide (toks = []))) ;;;
      cfold (fun ptr _ => globbing ptr) toks tt ;;;
      bwrap <~ get_int "arg_allow_bwrap" ;;
      (if bwrap =? 0 then globbing "/usr/bin/bwrap" else cret tt) ;;;
      EUID_ROOT ;;;
      cfold (fun path _ => mount_bin path) bin_paths tt ;;;
      EUID_USER ;;;
      selinux_relabel_path RUN_BIN_DIR "/bin"
  end.
End Bin.
