(* ===== verification/FsDev.v ===== *)
(** * /dev (src/firejail/fs_dev.c)

    --private-dev mounts a new /dev that holds the devices the options leave; the
    other functions hide the devices of one kind. *)

From S2P Require Import Prelude.
From S2P Require Import Clib.
From S2P Require Import Text.
From S2P Require Import Common.
From S2P Require Import Util.
From S2P Require Import Checkcfg.
From S2P Require Import ProfileState.
From S2P Require Import ProfileCommands.
From S2P Require Import Sys.
From S2P Require Import SysFiles.

Inductive DEV_TYPE :=
| DEV_SOUND | DEV_3D | DEV_VIDEO | DEV_TV | DEV_DVD | DEV_TPM | DEV_U2F | DEV_INPUT | DEV_NTSYNC.

#[export] Instance DEV_TYPE_eq_dec : EqDecision DEV_TYPE.
Proof. solve_decision. Defined.

(** run_pattern is dev_pattern with RUN_DEV_DIR for /dev. *)
Record DevEntry := mk_dev { dev_name : string; dev_type : DEV_TYPE }.

Definition RUN_DEV_DIR : string := RUN_MNT_DIR +:+ "/dev".
Definition RUN_DEVLOG_FILE : string := RUN_MNT_DIR +:+ "/devlog".

Definition dev_pattern (d : DevEntry) : string := "/dev/" +:+ dev_name d.
Definition run_pattern (d : DevEntry) : string := RUN_DEV_DIR +:+ "/" +:+ dev_name d.

Definition dev : list DevEntry :=
  [mk_dev "snd" DEV_SOUND; mk_dev "dri" DEV_3D; mk_dev "kfd" DEV_3D; mk_dev "nvidia[0-9]*" DEV_3D;
   mk_dev "nvidiactl" DEV_3D; mk_dev "nvidia-modeset" DEV_3D; mk_dev "nvidia-uvm" DEV_3D;
   mk_dev "video[0-9]*" DEV_VIDEO; mk_dev "dvb" DEV_TV; mk_dev "sr[0-9]*" DEV_DVD; mk_dev "tcm[0-9]*" DEV_TPM;
   mk_dev "tcmrm[0-9]*" DEV_TPM; mk_dev "tpm[0-9]*" DEV_TPM; mk_dev "tpmrm[0-9]*" DEV_TPM;
   mk_dev "hidraw[0-9]*" DEV_U2F; mk_dev "usb" DEV_U2F; mk_dev "input" DEV_INPUT; mk_dev "ntsync" DEV_NTSYNC].

Definition should_mount (c : Config) (type : DEV_TYPE) : bool :=
  match type with
  | DEV_SOUND => int_of "arg_nosound" c =? 0
  | DEV_3D => int_of "arg_no3d" c =? 0
  | DEV_VIDEO => int_of "arg_novideo" c =? 0
  | DEV_TV => int_of "arg_notv" c =? 0
  | DEV_DVD => int_of "arg_nodvd" c =? 0
  | DEV_TPM => int_of "arg_keep_dev_tpm" c =? 1
  | DEV_U2F => int_of "arg_nou2f" c =? 0
  | DEV_INPUT => int_of "arg_noinput" c =? 0
  | DEV_NTSYNC => int_of "arg_keep_dev_ntsync" c =? 1
  end.

(** dirname(3) of a path without slashes at its end. *)
Definition dirname (path : string) : string :=
  match strrchr_before "/"%char path with
  | None => "."
  | Some EmptyString => "/"
  | Some d => d
  end.

Section Dev.
Context `{H : Host} `{K : Kernel}.

Definition deventry_mount (source target : string) (type : DEV_TYPE) : P unit :=
  s <~ ask (fun l => sys_stat l source) ;;
  match s with
  | None => cret tt
  | Some _ =>
      c <~ cget ;;
      if negb (should_mount c type) then cret tt
      else
        go <~ (if is_dir source (fs_now c) then mkdir_attr target 493 0 0 ;;; cret true
         else
           s <~ ask (fun l => sys_stat l source) ;;
           match s with
           | None => cret false
           | Some s =>
               r <~ fopen target "w" (String newline EmptyString) ;;
               (if r =? 0 then set_perms_stream target (st_uid s) (st_gid s) (st_perm s) else cret tt) ;;;
               cret true
           end) ;;
        if go : bool then bind_mount source target "" (flags [MS_BIND; MS_REC]) "" else cret tt
  end.

(** The matches of a pattern, looked for with the rights of the user. *)
Definition glob_as_user (pattern : string) : P (list string) :=
  EUID_USER ;;;
  r <~ ask (fun l => glob_matches l pattern) ;;
  EUID_ROOT ;;;
  cret (default [] r).

Definition deventry_mount_glob (source_pattern target_pattern : string) (type : DEV_TYPE) : P unit :=
  exit_unless (streq (gnu_basename source_pattern) (gnu_basename target_pattern)) ;;;
  sources <~ glob_as_user source_pattern ;;
  if bool_decide (sources = []) then cret tt
  else
    let target_dir := dirname target_pattern in
    exit_unless (negb (streq target_dir "." || streq target_dir "..")) ;;;
    cfold (fun source _ =>
      let source_base := gnu_basename source in
      exit_unless (negb (streq source_base "." || streq source_base "..")) ;;;
      deventry_mount source (target_dir +:+ "/" +:+ source_base) type) sources tt.

Definition deventry_mount_all : P unit :=
  cfold (fun d _ => deventry_mount_glob (run_pattern d) (dev_pattern d) (dev_type d)) dev tt.

Definition create_char_dev (path : string) (mode major minor : Z) : P unit :=
  r <~ do_call (Call "mknod" mode [path; print_d major; print_d minor]) ;; or_exit r ;;;
  r <~ do_call (Call "chmod" mode [path]) ;; or_exit r ;;;
  assert_perms path 0 0 mode.

Definition create_link (oldpath newpath : string) : P unit :=
  r <~ do_call (Call "symlink" 0 [oldpath; newpath]) ;; or_exit r.

(** ** /dev/shm *)

Definition empty_dev_shm : P unit :=
  mkdir_attr "/dev/shm" 1023 0 0 ;;; selinux_relabel_path "/dev/shm" "/dev/shm".

(** When the mount fails an empty directory is made, although there is one. *)
Definition mount_dev_shm : P unit :=
  mkdir_attr "/dev/shm" 1023 0 0 ;;;
  r <~ mount (At (RUN_DEV_DIR +:+ "/shm")) (At "/dev/shm") "none" MS_BIND "mode=01777,gid=0" ;;
  if r =? 0 then cret tt else empty_dev_shm.

Definition process_dev_shm : P unit :=
  EUID_USER ;;;
  r <~ ask (fun l => glob_matches l (RUN_DEV_DIR +:+ "/shm/jack*")) ;;
  EUID_ROOT ;;;
  keep <~ get_int "arg_keep_dev_shm" ;;
  if bool_decide (r = None) && (keep =? 0) then empty_dev_shm else mount_dev_shm.

(** ** --private-dev *)

(** The log socket is kept at RUN_DEVLOG_FILE: whether it is. *)
Definition keep_devlog : P bool :=
  c <~ cget ;;
  if negb (f_stat (fs_now c) "/dev/log") then cret false
  else
    r <~ fopen RUN_DEVLOG_FILE "w" (String newline EmptyString) ;;
    if r =? 0 then bind_mount "/dev/log" RUN_DEVLOG_FILE "" (flags [MS_BIND; MS_REC]) "" ;;; cret true
    else cret false.

Definition restore_devlog : P unit :=
  r <~ fopen "/dev/log" "w" (String newline EmptyString) ;;
  (if r =? 0 then bind_mount RUN_DEVLOG_FILE "/dev/log" "" (flags [MS_BIND; MS_REC]) "" else cret tt) ;;;
  bind_mount RUN_RO_FILE RUN_DEVLOG_FILE "none" MS_BIND "mode=400,gid=0".

Definition relabelled_dev (path : string) (major minor : Z) : P unit :=
  create_char_dev path 438 major minor ;;; selinux_relabel_path path path.
Definition relabelled_link (oldpath newpath : string) : P unit :=
  create_link oldpath newpath ;;; selinux_relabel_path newpath newpath.

Definition MS_MGC_VAL : Z := 0xC0ED0000.

Definition fs_private_dev : P unit :=
  mkdir_attr RUN_DEV_DIR 493 0 0 ;;;
  bind_mount "/dev" RUN_DEV_DIR "" (flags [MS_BIND; MS_REC]) "" ;;;
  have_devlog <~ keep_devlog ;;
  mount_tmpfs "/dev" (flags [MS_NOSUID; MS_STRICTATIME]) "mode=755,gid=0" ;;;
  selinux_relabel_path "/dev" "/dev" ;;;
  deventry_mount_all ;;;
  (if have_devlog : bool then restore_devlog else cret tt) ;;;
  process_dev_shm ;;;
  bind_mount RUN_RO_DIR RUN_DEV_DIR "none" MS_BIND "mode=400,gid=0" ;;;
  relabelled_dev "/dev/zero" 1 5 ;;;
  relabelled_dev "/dev/null" 1 3 ;;;
  relabelled_dev "/dev/full" 1 7 ;;;
  relabelled_dev "/dev/random" 1 8 ;;;
  relabelled_dev "/dev/urandom" 1 9 ;;;
  relabelled_dev "/dev/tty" 5 0 ;;;
  mkdir_attr "/dev/pts" 493 0 0 ;;;
  selinux_relabel_path "/dev/pts" "/dev/pts" ;;;
  relabelled_dev "/dev/pts/ptmx" 5 2 ;;;
  relabelled_link "/dev/pts/ptmx" "/dev/ptmx" ;;;
  r <~ mount (At "devpts") (At "/dev/pts") "devpts" MS_MGC_VAL
         ("newinstance,gid=" +:+ print_d (get_group_id "tty") +:+ ",mode=620,ptmxmode=0666") ;; or_exit r ;;;
  relabelled_link "/proc/self/fd" "/dev/fd" ;;;
  relabelled_link "/proc/self/fd/0" "/dev/stdin" ;;;
  relabelled_link "/proc/self/fd/1" "/dev/stdout" ;;;
  relabelled_link "/proc/self/fd/2" "/dev/stderr" ;;;
  c <~ cget ;;
  if f_stat (fs_now c) "/dev/sr0"
  then cfold (fun n _ => relabelled_link "/dev/sr0" n) ["/dev/cdrom"; "/dev/cdrw"; "/dev/dvd"; "/dev/dvdrw"] tt
  else cret tt.

(** ** Hiding devices *)

Definition fs_dev_disable_glob (pattern : string) (skip_symlinks : bool) : P unit :=
  paths <~ glob_as_user pattern ;;
  cfold (fun path _ =>
    c <~ cget ;;
    if skip_symlinks && is_link path (fs_now c) then cret tt else disable_file_or_dir path) paths tt.

(** The functions fs_dev_disable_sound, _video, _3d, _tv, _dvd, _tpm, _u2f, _input
    and _ntsync. *)
Definition disable_devices (type : DEV_TYPE) : P unit :=
  cfold (fun d _ => if bool_decide (dev_type d = type) then fs_dev_disable_glob (dev_pattern d) false else cret tt) dev tt.

Definition fs_dev_disable_sound : P unit :=
  disable_devices DEV_SOUND ;;; fs_dev_disable_glob "/dev/shm/jack*" true.
Definition fs_dev_disable_video : P unit := disable_devices DEV_VIDEO.
Definition fs_dev_disable_3d : P unit := disable_devices DEV_3D.
Definition fs_dev_disable_tv : P unit := disable_devices DEV_TV.
Definition fs_dev_disable_dvd : P unit := disable_devices DEV_DVD.
Definition fs_dev_disable_tpm : P unit := disable_devices DEV_TPM.
Definition fs_dev_disable_u2f : P unit := disable_devices DEV_U2F.
Definition fs_dev_disable_input : P unit := disable_devices DEV_INPUT.
Definition fs_dev_disable_ntsync : P unit := disable_devices DEV_NTSYNC.
End Dev.
