(* ===== verification/Fs.v ===== *)
(** * Blacklists and remounts (src/firejail/fs.c)

    [fs_blacklist] goes through the profile and hides files by mounting an empty
    file or directory on them, remounts them or mounts a tmpfs; the other functions
    build the basic file system. *)

From S2P Require Import Prelude.
From S2P Require Import Clib.
From S2P Require Import Env.
From S2P Require Import Text.
From S2P Require Import Common.
From S2P Require Import Mountinfo.
From S2P Require Import Util.
From S2P Require Import Checkcfg.
From S2P Require Import Caps.
From S2P Require Import ProfileState.
From S2P Require Import ProfileCommands.
From S2P Require Import ProfileLine.
From S2P Require Import NetConfig.
From S2P Require Import Sys.
From S2P Require Import SysFiles.
From S2P Require Import FsVar.
From S2P Require Import FsEtc.
From S2P Require Import RestrictUsers.

Inductive OPERATION :=
| BLACKLIST_FILE
| MOUNT_READONLY
| MOUNT_TMPFS
| MOUNT_NOEXEC
| MOUNT_RDWR
| MOUNT_RDWR_NOCHECK.

#[export] Instance OPERATION_eq_dec : EqDecision OPERATION.
Proof. solve_decision. Defined.

(** rundefs.h *)
Definition MNT_DETACH : Z := 2.

Section Fs.
Context `{H : Host} `{N : NetHost} `{CH : CapHeaders} `{K : Kernel}.

(** ** Mounts *)

(** The mount options keep owner and mode, the flags all but read-only. *)
Definition tmpfs_options (s : fstat) : string :=
  "mode=" +:+ print_o (st_perm s) +:+ ",uid=" +:+ print_u (st_uid s) +:+ ",gid=" +:+ print_u (st_gid s).

Definition fs_tmpfs (dir : string) (check_owner : bool) : P unit :=
  EUID_ASSERT ;;;
  fd <~ safer_openat (-1) dir (flags [O_PATH; O_DIRECTORY; O_NOFOLLOW; O_CLOEXEC]) ;;
  match fd with
  | None => cexit 1
  | Some fd =>
      st <~ ask (fun l => sys_fstat l fd) ;;
      match st with
      | inr _ => cexit 1
      | inl s =>
          (if check_owner && negb (st_uid s =? uid) then cexit 1 else cret tt) ;;;
          buf <~ ask (fun l => sys_statvfs l fd) ;;
          match buf with
          | None => cexit 1
          | Some f_flag =>
              let fl := Z.ldiff f_flag (flags [MS_RDONLY; MS_BIND; MS_REMOUNT]) in
              EUID_ROOT ;;;
              r <~ mount (At "tmpfs") (Of fd) "tmpfs" (flags [fl; MS_NOSUID; MS_NODEV]) (tmpfs_options s) ;;
              or_exit r ;;;
              EUID_USER ;;;
              mdata <~ get_last_mount ;;
              exit_unless (streq (fstype mdata) "tmpfs" && streq (Mountinfo.dir mdata) dir)
          end
      end
  end.

(** The flags of the remount: [None] when there is nothing to do or the user may
    not do it. *)
Definition remount_flags (op : OPERATION) (s : fstat) (fl : Z) : outcome (option Z) :=
  match op with
  | MOUNT_RDWR | MOUNT_RDWR_NOCHECK =>
      if Z.land fl MS_RDONLY =? 0 then Ok None
      else if bool_decide (op <> MOUNT_RDWR_NOCHECK) && negb (uid =? 0) && negb (st_uid s =? uid) then Ok None
      else Ok (Some (Z.ldiff fl MS_RDONLY))
  | MOUNT_NOEXEC =>
      let all := flags [MS_NOEXEC; MS_NODEV; MS_NOSUID] in
      if Z.land fl all =? all then Ok None else Ok (Some (Z.lor fl all))
  | MOUNT_READONLY => if Z.land fl MS_RDONLY =? MS_RDONLY then Ok None else Ok (Some (Z.lor fl MS_RDONLY))
  | BLACKLIST_FILE | MOUNT_TMPFS => AssertFail
  end.

(** The last mount is the path or lies below it. *)
Definition mounted_at (path mdir : string) : bool :=
  match strip_prefix path mdir with
  | Some EmptyString => true
  | Some (String c _) => Ascii.eqb c "/"%char
  | None => false
  end.

(** What follows once the descriptor is a mount point. *)
Definition remount_opened (path : string) (s : fstat) (fl : Z) : P unit :=
  fd2 <~ safer_openat (-1) path (flags [O_PATH; O_NOFOLLOW; O_CLOEXEC]) ;;
  match fd2 with
  | None => cret tt
  | Some fd2 =>
      st2 <~ ask (fun l => sys_fstat l fd2) ;;
      match st2 with
      | inr _ => cexit 1
      | inl s2 =>
          exit_unless ((st_dev s =? st_dev s2) && (st_ino s =? st_ino s2)) ;;;
          EUID_ROOT ;;;
          err <~ remount_by_fd fd2 fl ;;
          EUID_USER ;;;
          if negb (err =? 0) then cret tt
          else mptr <~ get_last_mount ;; exit_unless (mounted_at path (Mountinfo.dir mptr) || streq path "/")
      end
  end.

Definition fs_remount_simple (path : string) (op : OPERATION) : P unit :=
  EUID_ASSERT ;;;
  fd <~ safer_openat (-1) path (flags [O_PATH; O_NOFOLLOW; O_CLOEXEC]) ;;
  match fd with
  | None => cret tt
  | Some fd =>
      st <~ ask (fun l => sys_fstat l fd) ;;
      match st with
      | inr e => if negb (e =? EACCES) && negb (e =? EIO) then cexit 1 else cret tt
      | inl s =>
          buf <~ ask (fun l => sys_statvfs l fd) ;;
          match buf with
          | None => cret tt
          | Some f_flag =>
              fl <~ clift (remount_flags op s f_flag) ;;
              match fl with
              | None => cret tt
              | Some fl =>
                  EUID_ROOT ;;;
                  err <~ bind_mount_by_fd fd fd ;;
                  EUID_USER ;;;
                  if negb (err =? 0) then cret tt else remount_opened path s fl
              end
          end
      end
  end.

Definition fs_remount_rec (path : string) (op : OPERATION) : P unit :=
  EUID_ASSERT ;;;
  fd <~ open (flags [O_PATH; O_DIRECTORY; O_NOFOLLOW; O_CLOEXEC]) path ;;
  match fd with
  | None => fs_remount_simple path op
  | Some fd =>
      mountid <~ get_mount_id fd ;;
      if mountid <? 0 then fs_remount_simple path op
      else
        arr <~ build_mount_array mountid path ;;
        match arr with
        | None => cret tt
        | Some arr => cfold (fun p _ => fs_remount_simple p op) arr tt
        end
  end.

Definition fs_remount (path : string) (op : OPERATION) (rec : bool) : P unit :=
  c <~ cget ;;
  let called_as_root := euid c =? 0 in
  (if called_as_root then EUID_USER else cret tt) ;;;
  c <~ cget ;;
  (match f_realpath (fs_now c) path with
   | None => cret tt
   | Some rpath => if rec then fs_remount_rec rpath op else fs_remount_simple rpath op
   end) ;;;
  if called_as_root then EUID_ROOT else cret tt.

(** ** One file *)

(** What is done with an open file that exists: the result of disable_file. *)
Definition hide_file (filename fname : string) (fd : Z) (s : fstat) : P Z :=
  c <~ cget ;;
  if (streq fname "/bin" || streq fname "/usr/bin") && is_link filename (fs_now c) && st_isdir s then cret 0
  else
    EUID_ROOT ;;;
    err <~ bind_mount_path_to_fd (if st_isdir s then RUN_RO_DIR else RUN_RO_FILE) fd ;;
    EUID_USER ;;;
    (if has_prefix "/etc/" fname then cmodify (fun c => with_rebuild_etc (fname :: rebuild_etc c) c) else cret tt) ;;;
    cret (if err =? 0 then 0 else 1).

Definition tmpfs_file (fname : string) (s : fstat) : P Z :=
  if negb (st_isdir s) then cret 1
  else if negb (uid =? 0) && (negb (st_uid s =? uid) || negb (Mountinfo.contained homedir fname)) then cret 1
  else fs_tmpfs fname (negb (uid =? 0)) ;;; selinux_relabel_path fname fname ;;; cret 0.

(** realpath fails with EACCES on FUSE file systems; the mount is forced. *)
Definition disable_unresolved (filename : string) : P Z :=
  fd <~ open (flags [O_PATH; O_CLOEXEC]) filename ;;
  match fd with
  | None => cret 1
  | Some fd =>
      EUID_ROOT ;;;
      err <~ bind_mount_path_to_fd RUN_RO_DIR fd ;;
      err <~ (if negb (err =? 0) then bind_mount_path_to_fd RUN_RO_FILE fd else cret err) ;;
      EUID_USER ;;;
      cret (if err =? 0 then 0 else 1)
  end.

Definition disable_resolved (op : OPERATION) (filename rpath : string) : P Z :=
  if streq (bindir +:+ "/firejail") rpath then cret 1
  else
    c <~ cget ;;
    let follow := negb (streq rpath "/dev/null" && is_link filename (fs_now c)) in
    let fname := if follow then rpath else filename in
    fd <~ open (flags ([O_PATH; O_CLOEXEC] ++ if follow then [] else [O_NOFOLLOW])) fname ;;
    match fd with
    | None => cret 1
    | Some fd =>
        st <~ ask (fun l => sys_fstat l fd) ;;
        match st with
        | inr _ => cret 1
        | inl s =>
            match op with
            | BLACKLIST_FILE => hide_file filename fname fd s
            | MOUNT_READONLY | MOUNT_RDWR | MOUNT_NOEXEC => fs_remount_rec fname op ;;; cret 0
            | MOUNT_TMPFS => tmpfs_file fname s
            | MOUNT_RDWR_NOCHECK => cfail
            end
        end
    end.

Definition disable_file (op : OPERATION) (filename : string) : P Z :=
  EUID_ASSERT ;;;
  c <~ cget ;;
  match f_realpath (fs_now c) filename with
  | None => if realpath_errno (effects c) filename =? EACCES then disable_unresolved filename else cret 1
  | Some rpath => disable_resolved op filename rpath
  end.

(** ** Patterns *)

Definition FNM_NOMATCH : Z := 1.

(** The loop over the noblacklist patterns: whether the path may be disabled. *)
Fixpoint okay_to_blacklist (noblacklist : list string) (path : string) : outcome bool :=
  match noblacklist with
  | [] => Ok true
  | n :: rest =>
      let result := fnmatch n path in
      if result =? FNM_NOMATCH then okay_to_blacklist rest path
      else if result =? 0 then Ok false
      else Exit 1
  end.

Definition is_dot (path : string) : bool :=
  let base := gnu_basename path in streq base "." || streq base "..".

Definition globbed_path (op : OPERATION) (noblacklist : list string) (path : string) : P unit :=
  if is_dot path then cret tt
  else
    okay <~ (if bool_decide (op = BLACKLIST_FILE) then clift (okay_to_blacklist noblacklist path) else cret true) ;;
    if okay : bool then disable_file op path ;;; cret tt else cret tt.

Definition globbing (op : OPERATION) (pattern : string) (noblacklist : list string) : P unit :=
  EUID_ASSERT ;;;
  r <~ ask (fun l => glob l pattern) ;;
  match r with
  | None => cexit 1
  | Some paths => cfold (fun path _ => globbed_path op noblacklist path) paths tt
  end.

(** ** The profile *)

(** The commands of other functions. *)
Definition not_blacklist (data : string) : bool :=
  has_prefix "whitelist " data || has_prefix "nowhitelist " data || has_prefix "dbus-" data || negb (nonempty data).

Definition path_operations : list (string * OPERATION) :=
  [("blacklist ", BLACKLIST_FILE); ("blacklist-nolog ", BLACKLIST_FILE); ("read-only ", MOUNT_READONLY);
   ("read-write ", MOUNT_RDWR); ("noexec ", MOUNT_NOEXEC); ("tmpfs ", MOUNT_TMPFS)].

Definition path_operation (data : string) : option (OPERATION * string) :=
  first_some (fun '(w, op) => ptr <-? strip_prefix w data ;; Some (op, ptr)) path_operations.

(** split_comma cuts the entry of the list itself. *)
Definition bind_entry (i : nat) (dname : string) : P unit :=
  let '(dname1, dname2) := split_comma dname in
  cmodify (fun c => with_profile (<[i := "bind " +:+ dname1]> (profile c)) c) ;;;
  c <~ cget ;;
  match dname2 with
  | None => cret tt
  | Some dname2 =>
      match sys_stat (effects c) dname1, sys_stat (effects c) dname2 with
      | Some _, Some s =>
          r <~ mount (At dname1) (At dname2) "" (flags [MS_BIND; MS_REC]) "" ;;
          or_exit r ;;;
          r <~ set_perms dname2 (st_uid s) (st_gid s) (st_perm s) ;;
          or_exit r
      | _, _ => cret tt
      end
  end.

Definition noblacklist_names (name : string) : P (list string) :=
  match strip_prefix "${PATH}" name with
  | Some rest => paths <~ build_paths ;; cret (map (fun p => p +:+ rest) paths)
  | None => e <~ expand name ;; cret [e]
  end.

Definition path_entry (op : OPERATION) (ptr : string) (noblacklist : list string) : P unit :=
  ptr <~ expand ptr ;;
  match strip_prefix "${PATH}" ptr with
  | Some fname =>
      paths <~ build_paths ;;
      cfold (fun path _ => globbing op (path +:+ fname) noblacklist) paths tt
  | None => globbing op ptr noblacklist
  end.

(** One round of the loop; the result is the noblacklist array behind it. *)
Definition blacklist_entry (i : nat) (data : string) (noblacklist : list string) : P (list string) :=
  if not_blacklist data then cret noblacklist
  else match strip_prefix "bind " data with
  | Some dname => bind_entry i dname ;;; cret noblacklist
  | None =>
  match strip_prefix "noblacklist " data with
  | Some name => enames <~ noblacklist_names name ;; cret (noblacklist ++ enames)
  | None =>
  match path_operation data with
  | Some (op, ptr) => path_entry op ptr noblacklist ;;; cret noblacklist
  | None =>
  match strip_prefix "mkdir " data with
  | Some name => fs_mkdir name ;;; cret noblacklist
  | None =>
  match strip_prefix "mkfile " data with
  | Some name => fs_mkfile name ;;; cret noblacklist
  | None => cret noblacklist
  end end end end end.

Definition fs_blacklist : P unit :=
  EUID_ASSERT ;;;
  c <~ cget ;;
  cfold (fun e noblacklist => blacklist_entry e.1 e.2 noblacklist) (imap pair (profile c)) [] ;;;
  cret tt.

(** ** The basic file system *)

Definition disable_files (files : list string) : P unit :=
  cfold (fun f _ => disable_file BLACKLIST_FILE f ;;; cret tt) files tt.

Definition mnt_dirs : list string := ["/mnt"; "/media"; "/run/mount"; "/run/media"].

Definition fs_mnt (enforce : bool) : P unit :=
  EUID_USER ;;;
  (if enforce then disable_files mnt_dirs
   else cfold (fun d _ => profile_add ("blacklist " +:+ d)) mnt_dirs tt) ;;;
  EUID_ROOT.

Definition fs_bwrap : P unit :=
  c <~ cget ;;
  if is_link "/usr/bin/bwrap" (fs_now c) then cret tt
  else
    fd <~ open (flags [O_NOFOLLOW; O_CLOEXEC]) "/usr/bin/bwrap" ;;
    match fd with
    | None => cret tt
    | Some fd => bind_mount_path_to_fd (libdir +:+ "/firejail/fbwrap") fd ;;; cret tt
    end.

(** The lists of fs_proc_sys_dev_boot, in its order. *)
Definition sys_files : list string :=
  ["/sys/power"; "/sys/kernel/debug"; "/sys/kernel/vmcoreinfo"; "/sys/kernel/uevent_helper";
   "/proc/sys/security"; "/proc/sys/efi/vars"; "/proc/sys/fs/binfmt_misc"; "/proc/sys/kernel/core_pattern";
   "/proc/sys/kernel/modprobe"; "/proc/sysrq-trigger"; "/proc/sys/kernel/hotplug"; "/proc/sys/vm/panic_on_oom";
   "/proc/irq"; "/proc/bus"; "/proc/sched_debug"; "/proc/timer_list"; "/proc/timer_stats"; "/proc/kcore";
   "/proc/kallsyms"; "/proc/mem"; "/proc/kmem"].
Definition pid1_files : list string :=
  ["/proc/1/comm"; "/proc/1/cmdline"; "/proc/1/stat"; "/proc/1/statm"; "/proc/1/status"; "/proc/1/task/1/comm";
   "/proc/1/task/1/cmdline"; "/proc/1/task/1/stat"; "/proc/1/task/1/statm"; "/proc/1/task/1/status"].
Definition kernel_files : list string := ["/usr/src/linux"; "/lib/modules"; "/usr/lib/debug"; "/boot"].

Definition runuser_dir (name : string) (mode : Z) : P unit :=
  let fname := "/run/user/" +:+ print_d uid +:+ "/" +:+ name in
  create_empty_dir_as_user fname mode ;;;
  disable_files [fname].

Definition fs_proc_sys_dev_boot : P unit :=
  r <~ mount (At "/proc/sys") (At "/proc/sys") "" (flags [MS_BIND; MS_REC]) "" ;; or_exit r ;;;
  r <~ mount Nowhere (At "/proc/sys") ""
         (flags [MS_BIND; MS_REMOUNT; MS_RDONLY; MS_NOSUID; MS_NOEXEC; MS_NODEV; MS_REC]) "" ;; or_exit r ;;;
  do_call (Call "umount2" MNT_DETACH ["/sys"]) ;;;
  mount (At "sysfs") (At "/sys") "sysfs" (flags [MS_RDONLY; MS_NOSUID; MS_NOEXEC; MS_NODEV; MS_REC]) "" ;;;
  EUID_USER ;;;
  disable_files ["/sys/firmware"; "/sys/hypervisor"] ;;;
  profile_add "blacklist /sys/fs" ;;;
  c <~ cget ;;
  (if bool_decide (f_access_r (fs_now c) "/dev/nvidiactl" = None) && (int_of "arg_no3d" c =? 0)
   then profile_add "whitelist /sys/module/nvidia*" ;;; profile_add "read-only /sys/module/nvidia*"
   else profile_add "blacklist /sys/module") ;;;
  disable_files sys_files ;;;
  unhide <~ get_int "arg_unhide_pid1" ;;
  (if unhide =? 0
   then r <~ disable_file BLACKLIST_FILE "/proc/1/comm" ;; if r =? 0 then disable_files pid1_files else cret tt
   else cret tt) ;;;
  debuggers <~ get_int "arg_allow_debuggers" ;;
  (if debuggers =? 0 then disable_files kernel_files else cret tt) ;;;
  disable_files ["/selinux"; "/dev/port"] ;;;
  w <~ get_int "arg_writable_run_user" ;;
  (if w =? 0
   then c <~ cget ;;
        if is_dir ("/run/user/" +:+ print_d uid) (fs_now c)
        then runuser_dir "gnupg" 448 ;;; runuser_dir "systemd" 493
        else cret tt
   else cret tt) ;;;
  (if uid =? 0 then cret tt else disable_files ["/dev/kmsg"; "/proc/kmsg"]) ;;;
  EUID_ROOT.

Definition disable_config : P unit :=
  EUID_USER ;;;
  (if built "HAVE_ONLY_SYSCFG_PROFILES" then cret tt else fs_mkdir (homedir +:+ "/.config/firejail")) ;;;
  disable_files [RUN_FIREJAIL_SANDBOX_DIR; RUN_FIREJAIL_NETWORK_DIR; RUN_FIREJAIL_NAME_DIR;
                 RUN_FIREJAIL_PROFILE_DIR; RUN_FIREJAIL_X11_DIR] ;;;
  EUID_ROOT.

Definition readonly_dirs : list string := ["/usr"; "/bin"; "/sbin"; "/lib"; "/lib64"; "/lib32"; "/libx32"].

Definition etc_or_var (writable dir : string) : P unit :=
  w <~ get_int writable ;;
  if w =? 0 then
    fs_remount dir MOUNT_READONLY true ;;;
    if uid =? 0 then cret tt else fs_remount dir MOUNT_NOEXEC true
  else cret tt.

Definition fs_basic_fs : P unit :=
  r <~ mount (At "proc") (At "/proc") "proc" (flags [MS_NOSUID; MS_NOEXEC; MS_NODEV; MS_REC]) "" ;; or_exit r ;;;
  EUID_USER ;;;
  etc_or_var "arg_writable_etc" "/etc" ;;;
  etc_or_var "arg_writable_var" "/var" ;;;
  cfold (fun d _ => fs_remount d MOUNT_READONLY true) readonly_dirs tt ;;;
  EUID_ROOT ;;;
  fs_var_lock ;;;
  keep <~ get_int "arg_keep_var_tmp" ;;
  (if keep =? 0 then fs_var_tmp else cret tt) ;;;
  w <~ get_int "arg_writable_var_log" ;;
  (if w =? 0 then fs_var_log else fs_remount "/var/log" MOUNT_RDWR_NOCHECK false) ;;;
  fs_var_lib ;;; fs_var_cache ;;; fs_var_utmp ;;; fs_machineid ;;;
  restrict_users ;;;
  if uid =? 0 then cret tt else disable_config.

(** Checked and added; a line that is rejected ends the program. *)
Definition add_whitelist (path : string) : P unit :=
  profile_check_line ("whitelist " +:+ path) ;;; profile_add ("whitelist " +:+ path).

Definition fs_private_tmp : P unit :=
  EUID_ASSERT ;;;
  c <~ cget ;;
  (match env_get "XAUTHORITY" (environment c) with
   | None => cret tt
   | Some xauth =>
       match f_realpath (fs_now c) xauth with
       | Some rp => if has_prefix "/tmp/" rp then add_whitelist rp else cret tt
       | None => cret tt
       end
   end) ;;;
  profile_add "whitelist /tmp/.X11-unix" ;;;
  profile_add "read-only /tmp/.X11-unix" ;;;
  profile_add "whitelist /tmp/sndio" ;;;
  d <~ ask (fun l => opendir l "/tmp") ;;
  d <~ (match d with
        | None => emit (Call "sleep" 2 []) ;;; ask (fun l => opendir l "/tmp")
        | Some _ => cret d
        end) ;;
  cfold (fun name _ => if has_prefix "pulse-" name then add_whitelist ("/tmp/" +:+ name) else cret tt) (default [] d) tt.
End Fs.
