(* ===== verification/FsHost.v ===== *)
(** * Host name, hosts file and preloaded libraries (src/firejail/fs_hostname.c,
    fs_trace.c)

    New files for /etc/hostname, /etc/hosts and /etc/ld.so.preload, mounted over the
    old ones. *)

From S2P Require Import Prelude.
From S2P Require Import Clib.
From S2P Require Import Env.
From S2P Require Import Text.
From S2P Require Import Common.
From S2P Require Import Util.
From S2P Require Import Checkcfg.
From S2P Require Import ProfileState.
From S2P Require Import ProfileCommands.
From S2P Require Import NetConfig.
From S2P Require Import Sys.
From S2P Require Import SysFiles.
From S2P Require Import Fs.

Definition RUN_HOSTNAME_FILE : string := RUN_MNT_DIR +:+ "/hostname".
Definition RUN_HOSTS_FILE : string := RUN_MNT_DIR +:+ "/hosts".
Definition RUN_HOSTS_FILE2 : string := RUN_MNT_DIR +:+ "/hosts2".
Definition RUN_LDPRELOAD_FILE : string := RUN_MNT_DIR +:+ "/ld.so.preload".
Definition RUN_TRACE_FILE : string := RUN_MNT_DIR +:+ "/trace".

(** ** A random name *)

Definition vowels : list string := ["a"; "e"; "i"; "o"; "u"].
Definition consonants : list string :=
  ["b"; "c"; "c"; "c"; "g"; "h"; "h"; "h"; "h"; "h"; "j"; "j"; "k"; "k"; "k"; "k"; "k"; "k"; "k"; "k"; "k"; "k";
   "m"; "m"; "m"; "m"; "n"; "n"; "n"; "n"; "n"; "r"; "r"; "s"; "s"; "s"; "s"; "s"; "s"; "s"; "s"; "t"; "t"; "t"; "t";
   "w"; "y"; "y"; "y"; "y"; "z"; "z"].
Definition ending : list string :=
  ["hiko"; "hiko"; "suke"; "suke"; "suke"; "shi"; "shi"; "ro"; "ro"; "rou"; "hito"; "hito"; "ka"].

(** ** The hosts file *)

Definition HOSTS_BUF : nat := 4096.

(** One line without its newline, and the flags done_ipv4 and done_ipv6. *)
Definition hosts_line (hostname buf : string) (st : bool * bool) : string * (bool * bool) :=
  if Text.contains "127.0.0.1" buf && negb st.1
  then (line "127.0.0.1 localhost" +:+ line ("127.0.1.1 " +:+ hostname), (true, st.2))
  else if Text.contains "::1" buf && negb st.2 then (line ("::1 localhost " +:+ hostname), (st.1, true))
  else (line buf, st).

Fixpoint hosts_lines (hostname : string) (bufs : list string) (st : bool * bool) : string :=
  match bufs with
  | [] => EmptyString
  | buf :: bufs' =>
      let buf := match strchr_split newline buf with Some (l, _) => l | None => buf end in
      let '(out, st) := hosts_line hostname buf st in
      out +:+ hosts_lines hostname bufs' st
  end.

Section HostFiles.
Context `{H : Host} `{N : NetHost} `{K : Kernel}.

(** An unsigned remainder: rand() is never negative, the sizes are of type size_t. *)
Definition pick (l : list string) : P string :=
  r <~ get_rand ;; cret (nth (Z.to_nat (r mod Z.of_nat (length l))) l EmptyString).

Definition random_hostname : P string :=
  a <~ pick consonants ;; b <~ pick vowels ;; c <~ pick consonants ;; d <~ pick vowels ;;
  r <~ get_rand ;;
  m <~ (if r mod 2 =? 0 then cret EmptyString
        else e <~ pick consonants ;; f <~ pick vowels ;; cret (e +:+ f)) ;;
  ptr <~ pick ending ;;
  cret (a +:+ b +:+ c +:+ d +:+ m +:+ ptr).

Definition fs_mount_hosts_file : P unit :=
  s <~ ask (fun l => sys_stat l "/etc/hosts") ;;
  match s with
  | None => cret tt
  | Some s =>
      exit_unless (st_uid s =? 0) ;;;
      bind_mount RUN_HOSTS_FILE "/etc/hosts" "" (flags [MS_BIND; MS_REC]) ""
  end.

Definition new_etc_hostname (hostname : string) : P unit :=
  create_empty_file_as_root RUN_HOSTNAME_FILE 420 ;;;
  write_file RUN_HOSTNAME_FILE (line hostname) ;;;
  set_perms_stream RUN_HOSTNAME_FILE 0 0 420 ;;;
  bind_mount RUN_HOSTNAME_FILE "/etc/hostname" "" (flags [MS_BIND; MS_REC]) "".

Definition new_etc_hosts (hostname : string) : P unit :=
  c <~ cget ;;
  match f_text (fs_now c) RUN_HOSTS_FILE2 with
  | None => cexit 1
  | Some s =>
      write_file RUN_HOSTS_FILE (hosts_lines hostname (map c_string (fgets HOSTS_BUF s)) (false, false)) ;;;
      set_perms_stream RUN_HOSTS_FILE 0 0 420 ;;;
      fs_mount_hosts_file
  end.

Definition fs_hostname (orig_hostname : option string) : P unit :=
  hostname <~ (match orig_hostname with
               | Some h => cret h
               | None => h <~ ask gethostname ;; match h with Some h => cret h | None => cexit 1 end
               end) ;;
  c <~ cget ;;
  (if f_stat (fs_now c) "/etc/hostname" then new_etc_hostname hostname else cret tt) ;;;
  c <~ cget ;;
  if f_stat (fs_now c) RUN_HOSTS_FILE2 then new_etc_hosts hostname else cret tt.

Definition fs_store_hosts_file : P unit :=
  f <~ get_str "hosts_file" ;;
  copy_file_from_user_to_root (default "/etc/hosts" f) RUN_HOSTS_FILE2 0 0 420.

(** ** fs_trace.c *)

Definition fs_trace_touch_preload : P unit := create_empty_file_as_root "/etc/ld.so.preload" 420.

Definition fs_trace_touch_or_store_preload : P unit :=
  c <~ cget ;;
  if negb (f_stat (fs_now c) "/etc/ld.so.preload") then fs_trace_touch_preload
  else
    size <~ ask (fun l => sys_size l "/etc/ld.so.preload") ;;
    if size =? 0 then cret tt
    else r <~ copy_file "/etc/ld.so.preload" RUN_LDPRELOAD_FILE 0 0 420 ;; or_exit r.

Definition fs_tracefile (arg_tracefile : string) : P unit :=
  EUID_USER ;;;
  r <~ do_call (Call "open" 420 [arg_tracefile; "O_CREAT|O_WRONLY|O_CLOEXEC"]) ;; or_exit r ;;;
  fd <~ ask sys_created ;;
  st <~ ask (fun l => sys_fstat l fd) ;;
  match st with
  | inr _ => cexit 1
  | inl s =>
      regular <~ ask (fun l => sys_isreg l arg_tracefile) ;;
      exit_unless regular ;;;
      r <~ do_call (Call "ftruncate" fd []) ;; or_exit r ;;;
      EUID_ROOT ;;;
      write_file RUN_TRACE_FILE EmptyString ;;;
      r <~ bind_mount_fd_to_path fd RUN_TRACE_FILE ;; or_exit r ;;;
      fs_remount RUN_TRACE_FILE MOUNT_NOEXEC false
  end.

Definition fs_trace : P unit :=
  trace <~ get_int "arg_trace" ;;
  postexec <~ get_int "arg_seccomp_postexec" ;;
  r <~ fopen RUN_LDPRELOAD_FILE "a"
         ((if trace =? 0 then EmptyString else line (RUN_FIREJAIL_LIB_DIR +:+ "/libtrace.so")) +:+
          (if postexec =? 0 then EmptyString else line (RUN_FIREJAIL_LIB_DIR +:+ "/libpostexecseccomp.so"))) ;;
  or_exit r ;;;
  set_perms_stream RUN_LDPRELOAD_FILE 0 0 420 ;;;
  bind_mount RUN_LDPRELOAD_FILE "/etc/ld.so.preload" "" (flags [MS_BIND; MS_REC]) "".
End HostFiles.
