(* ===== verification/Trace.v ===== *)
(** * Predicates on the effects of a program

    [emits Q c c']: the effects of [c'] are those of [c] and more, and each of them
    satisfies [Q], which also sees everything done before it.  [reads m]: [m] only
    looks.  [kept_at R m c]: [R] relates [c] to the state in which [m], started in
    [c], ends. *)

From S2P Require Import Prelude.
From S2P Require Import Clib.
From S2P Require Import Keeps.
From S2P Require Import ProfileState.
From S2P Require Import ProfileCommands.
From S2P Require Import Sys.
From S2P Require Import SysFiles.

Fixpoint every (Q : list effect -> effect -> Prop) (l0 l : list effect) : Prop :=
  match l with
  | [] => True
  | e :: l' => Q l0 e /\ every Q (l0 ++ [e]) l'
  end.

Lemma every_app Q l0 l1 l2 : every Q l0 (l1 ++ l2) <-> every Q l0 l1 /\ every Q (l0 ++ l1) l2.
Proof.
  revert l0. induction l1 as [|e l1 IH]; intros l0; cbn [every app]; [rewrite app_nil_r; tauto|].
  rewrite IH. rewrite <- (app_assoc l0 [e] l1). tauto.
Qed.

Lemma every_weaken (Q Q' : list effect -> effect -> Prop) l0 l :
  (forall l e, Q l e -> Q' l e) -> every Q l0 l -> every Q' l0 l.
Proof. intros HQ. revert l0. induction l as [|e l IH]; intros l0; cbn [every]; [done|]. intros [? ?]; auto. Qed.

Lemma every_in Q l0 l l1 e l2 : every Q l0 l -> l = l1 ++ e :: l2 -> Q (l0 ++ l1) e.
Proof. intros He ->. apply every_app in He as [_ [He _]]. exact He. Qed.

Definition emits (Q : list effect -> effect -> Prop) (c c' : Config) : Prop :=
  exists l, effects c' = effects c ++ l /\ every Q (effects c) l.

#[export] Instance emits_preorder Q : PreOrder (emits Q).
Proof.
  split.
  - intros c. exists []. by rewrite app_nil_r.
  - intros c1 c2 c3 (l1 & E1 & H1) (l2 & E2 & H2). exists (l1 ++ l2).
    rewrite E2, E1, app_assoc. split; [done|]. apply every_app. rewrite E1 in H2. auto.
Qed.

Lemma emits_weaken (Q Q' : list effect -> effect -> Prop) c c' :
  (forall l e, Q l e -> Q' l e) -> emits Q c c' -> emits Q' c c'.
Proof. intros HQ (l & E & Hl). exists l. split; [done|]. by eapply every_weaken. Qed.

Lemma emits_same Q c c' : effects c' = effects c -> emits Q c c'.
Proof. intros E. exists []. by rewrite app_nil_r. Qed.

Lemma emits_one (Q : list effect -> effect -> Prop) e c : Q (effects c) e -> emits Q c (emit e c).2.
Proof. intros HQ. exists [e]. by repeat split. Qed.

Lemma emits_from (Q : list effect -> effect -> Prop) c0 c c' :
  effects c0 = effects c -> emits Q c0 c' -> emits Q c c'.
Proof. unfold emits. by intros ->. Qed.

(** ** At one state *)

Section At.
Context {W : Type} (R : relation W) `{!PreOrder R}.

Definition kept_at {A} (m : CM W A) (c : W) : Prop := R c (m c).2.

Lemma kept_at_keeps {A} (m : CM W A) c : keeps R m -> kept_at m c.
Proof. intros H. apply H. Qed.

Lemma kept_at_bind {A B} (m : CM W A) (k : A -> CM W B) c :
  kept_at m c -> (forall a c', m c = (Ok a, c') -> kept_at (k a) c') -> kept_at (cbind m k) c.
Proof.
  unfold kept_at, cbind. intros Hm Hk. destruct (m c) as [[a|x| |] c1] eqn:E; cbn [snd] in *; try done.
  etrans; [exact Hm|by apply Hk].
Qed.

Lemma kept_at_fold {A B} (f : A -> B -> CM W B) l b c (I : list A -> B -> W -> Prop) :
  I [] b c ->
  (forall l1 x l2 b c, l = l1 ++ x :: l2 -> I l1 b c -> kept_at (f x b) c /\
     forall b' c', f x b c = (Ok b', c') -> I (l1 ++ [x]) b' c') ->
  kept_at (cfold f l b) c.
Proof.
  intros Hi Hf. assert (forall l2 l1 b c, l = l1 ++ l2 -> I l1 b c -> kept_at (cfold f l2 b) c) as Hg.
  - induction l2 as [|x l2 IH]; intros l1 b1 c1 El HI; cbn [cfold]; [unfold kept_at; reflexivity|].
    destruct (Hf l1 x l2 b1 c1 El HI) as [H1 H2]. apply kept_at_bind; [done|]. intros b2 c2 E.
    apply (IH (l1 ++ [x])); [by rewrite <- app_assoc|by apply H2].
  - by apply (Hg l []).
Qed.
End At.

(** ** Programs that only look *)

Definition reads {A} (m : P A) : Prop := forall c, (m c).2 = c.

Lemma reads_ret {A} (a : A) : reads (cret a).
Proof. done. Qed.
Lemma reads_exit {A} n : reads (cexit n : P A).
Proof. done. Qed.
Lemma reads_fail {A} : reads (cfail : P A).
Proof. done. Qed.
Lemma reads_get : reads cget.
Proof. done. Qed.
Lemma reads_lift {A} (o : outcome A) : reads (clift o).
Proof. done. Qed.
Lemma reads_bind {A B} (m : P A) (k : A -> P B) : reads m -> (forall a, reads (k a)) -> reads (cbind m k).
Proof.
  intros Hm Hk c. unfold cbind. specialize (Hm c). destruct (m c) as [[a|x| |] c1]; cbn [snd] in *; subst; auto.
  apply Hk.
Qed.
Lemma reads_ok {A} (m : P A) c a c' : reads m -> m c = (Ok a, c') -> c' = c.
Proof. intros Hm E. specialize (Hm c). by rewrite E in Hm. Qed.
Lemma reads_keeps {A} R `{!PreOrder R} (m : P A) : reads m -> keeps R m.
Proof. intros Hm c. by rewrite Hm. Qed.

#[export] Hint Resolve reads_ret reads_exit reads_fail reads_get reads_lift : reads.

Ltac reads_tac :=
  repeat match goal with
  | |- reads (cbind _ _) => apply reads_bind; [|intros]
  | |- reads (match ?x with _ => _ end) => destruct x
  | |- reads _ => solve [eauto with reads]
  end.

Section Reads.
Context `{H : Host} `{K : Kernel}.

Lemma reads_ask {A} (f : list effect -> A) : reads (ask f).
Proof. done. Qed.
Lemma reads_exit_unless b : reads (exit_unless b).
Proof. by destruct b. Qed.
Lemma reads_or_exit r : reads (or_exit r).
Proof. apply reads_exit_unless. Qed.
Lemma reads_assert b : reads (cassert b).
Proof. by destruct b. Qed.
Lemma reads_get_int n : reads (get_int n).
Proof. done. Qed.
Lemma reads_get_str n : reads (get_str n).
Proof. done. Qed.
#[local] Hint Resolve reads_ask reads_exit_unless reads_assert : reads.

Lemma reads_euid_assert : reads EUID_ASSERT.
Proof. unfold EUID_ASSERT. reads_tac. Qed.
Lemma reads_expand p : reads (expand p).
Proof. unfold expand. reads_tac. Qed.
Lemma reads_walk fd fl toks : reads (safer_walk fd fl toks).
Proof.
  revert fd. induction toks as [|t toks IH]; intros fd; cbn [safer_walk]; [done|].
  unfold openat. reads_tac.
Qed.
#[local] Hint Resolve reads_walk : reads.
Lemma reads_safer_openat fd p fl : reads (safer_openat fd p fl).
Proof. unfold safer_openat, openat, open. cbv zeta. reads_tac. Qed.
Lemma reads_last_mount : reads get_last_mount.
Proof. unfold get_last_mount. reads_tac. Qed.
Lemma reads_mount_id fd : reads (get_mount_id fd).
Proof. done. Qed.
Lemma reads_mount_array id p : reads (build_mount_array id p).
Proof. unfold build_mount_array. reads_tac. Qed.
End Reads.

#[export] Hint Resolve reads_ask reads_exit_unless reads_or_exit reads_assert reads_get_int reads_get_str reads_euid_assert
  reads_expand reads_safer_openat reads_last_mount reads_mount_id reads_mount_array : reads.

(** ** Steps at one state *)

Definition did (e : effect) (c : Config) : Config := with_effects (effects c ++ [e]) c.

Section Steps.
Context `{H : Host} `{K : Kernel}.
Context (R : relation Config) `{!PreOrder R}.

Lemma kept_at_ret {A} (a : A) c : kept_at R (cret a) c.
Proof. unfold kept_at. reflexivity. Qed.
Lemma kept_at_exit {A} n c : kept_at R (cexit n : P A) c.
Proof. unfold kept_at. reflexivity. Qed.
Lemma kept_at_fail {A} c : kept_at R (cfail : P A) c.
Proof. unfold kept_at. reflexivity. Qed.

Lemma kept_at_exit_bind {A B} n (k : A -> P B) c : kept_at R (cbind (cexit n) k) c.
Proof. unfold kept_at. reflexivity. Qed.
Lemma kept_at_ret_bind {A B} (a : A) (k : A -> P B) c : kept_at R (k a) c -> kept_at R (cbind (cret a) k) c.
Proof. done. Qed.

Lemma kept_at_reads {A} (m : P A) c : reads m -> kept_at R m c.
Proof. intros Hm. unfold kept_at. rewrite Hm. reflexivity. Qed.

Lemma kept_at_reads_bind {A B} (m : P A) (k : A -> P B) c :
  reads m -> (forall a, m c = (Ok a, c) -> kept_at R (k a) c) -> kept_at R (cbind m k) c.
Proof.
  intros Hm Hk. apply kept_at_bind; [exact _|by apply kept_at_reads|].
  intros a c' E. pose proof (reads_ok _ _ _ _ Hm E) as ->. by apply Hk.
Qed.

Lemma kept_at_get_bind {B} (k : Config -> P B) c : kept_at R (k c) c -> kept_at R (cbind cget k) c.
Proof. done. Qed.

Lemma keeps_by_at {A} (m : P A) : (forall c, kept_at R m c) -> keeps R m.
Proof. done. Qed.

Lemma kept_at_emit e c : R c (did e c) -> kept_at R (emit e) c.
Proof. done. Qed.

Lemma kept_at_emit_bind {B} e (k : unit -> P B) c :
  R c (did e c) -> kept_at R (k tt) (did e c) -> kept_at R (cbind (emit e) k) c.
Proof. intros He Hk. apply kept_at_bind; [exact _|done|]. by intros [] c' [= <-]. Qed.

Lemma kept_at_call_bind {B} e (k : Z -> P B) c :
  R c (did e c) -> (forall r, kept_at R (k r) (did e c)) -> kept_at R (cbind (do_call e) k) c.
Proof. intros He Hk. apply kept_at_bind; [exact _|done|]. intros a c' [= <- <-]. apply Hk. Qed.
End Steps.

#[export] Hint Resolve kept_at_ret kept_at_exit kept_at_fail : kept_at.

(** Splits [kept_at R m c] along [m]; the effects left are goals [R c (did e c)]. *)
Ltac at_step :=
  match goal with
  | |- kept_at _ (cbind (emit _) _) _ => apply kept_at_emit_bind; [exact _| |]
  | |- kept_at _ (cbind (do_call _) _) _ => apply kept_at_call_bind; [exact _| |intros]
  | |- kept_at _ (cbind cget _) _ => apply kept_at_get_bind
  | |- kept_at _ (cbind (cexit _) _) _ => apply kept_at_exit_bind, _
  | |- kept_at _ (cbind (cret _) _) _ => apply kept_at_ret_bind
  | |- kept_at _ (cbind _ _) _ => apply kept_at_reads_bind; [exact _|solve [eauto with reads]|intros ? ?]
  | |- kept_at _ (emit _) _ => apply kept_at_emit
  | |- kept_at _ (match ?x with _ => _ end) _ => destruct x eqn:?
  | |- kept_at _ _ _ => solve [eauto with kept_at typeclass_instances]
  | |- kept_at _ _ _ => apply kept_at_reads; [exact _|solve [eauto with reads]]
  end.
Ltac at_tac := repeat at_step.

(** ** Runs that return *)

Lemma cfold_split {W A B} (f : A -> B -> CM W B) l1 x l2 b w b' w' :
  cfold f (l1 ++ x :: l2) b w = (Ok b', w') ->
  exists b1 w1 b2 w2, cfold f l1 b w = (Ok b1, w1) /\ f x b1 w1 = (Ok b2, w2) /\ cfold f l2 b2 w2 = (Ok b', w').
Proof.
  rewrite cfold_app. unfold cbind at 1. destruct (cfold f l1 b w) as [[b1| | |] w1]; try done.
  cbn [cfold]. unfold cbind at 1. destruct (f x b1 w1) as [[b2| | |] w2] eqn:E2; try done.
  intros E. by exists b1, w1, b2, w2.
Qed.

Lemma cbind_inv {W A B} (m : CM W A) (k : A -> CM W B) w b w' :
  cbind m k w = (Ok b, w') -> exists a w1, m w = (Ok a, w1) /\ k a w1 = (Ok b, w').
Proof. unfold cbind. destruct (m w) as [[a| | |] w1]; try done. eauto. Qed.

(** The effects so far are a prefix of those of a later state. *)
Definition later (c c' : Config) : Prop := exists l, effects c' = effects c ++ l.

Lemma emits_later Q c c' : emits Q c c' -> later c c'.
Proof. intros (l & E & _). by exists l. Qed.

(** ** Who acts *)

Section User.
Context `{H : Host}.

(** What is done is not done as root, unless root has started firejail. *)
Definition not_root (l : list effect) : Prop := uid <> 0 -> euid_from 0 l <> 0.

Lemma euid_assert_not_root c u c' : EUID_ASSERT c = (Ok u, c') -> not_root (effects c).
Proof.
  unfold EUID_ASSERT. rewrite cget_bind. unfold cassert. destruct (unprivileged (euid c)) eqn:E; [|done]. intros _ Hu He.
  unfold unprivileged, euid in E. rewrite He, (proj2 (Z.eqb_neq _ _) Hu) in E. done.
Qed.
End User.

(** ** Files reached without links *)

Section NoLinks.
Context `{H : Host} `{K : Kernel}.

(** The bits of O_NOFOLLOW and O_DIRECTORY. *)
Definition nofollow (fl : Z) : bool := Z.testbit fl 17.
Definition directory_only (fl : Z) : bool := Z.testbit fl 16.

(** From the directory [d] along the names to [fd]: each step opens one name and
    follows no link, and only the last one may be something else than a directory. *)
Inductive walked (l : list effect) (fl : Z) : Z -> list string -> Z -> Prop :=
| walked_last d name fd : nofollow fl = true -> sys_openat l d fl name = Some fd -> walked l fl d [name] fd
| walked_down d name d' names fd fl' : nofollow fl' = true -> directory_only fl' = true ->
    sys_openat l d fl' name = Some d' -> walked l fl d' names fd -> walked l fl d (name :: names) fd.

(** No component of the path is a link: openat2 has seen to that, or each component was
    opened on its own, from / for an absolute path. *)
Definition link_free (l : list effect) (dirfd : Z) (path : string) (fl fd : Z) : Prop :=
  nofollow fl = true /\
  (sys_openat2 l dirfd fl path = Some (Some fd) \/
   sys_openat2 l dirfd fl path = None /\
   if decide (strtok "/"%char path = []) then sys_openat l dirfd fl path = Some fd
   else exists d, (if has_prefix "/" path then exists fl0, sys_open l fl0 "/" = Some d else d = dirfd) /\
          walked l fl d (strtok "/"%char path) fd).

Definition reached (l : list effect) (dirfd : Z) (path : string) (fd : Z) : Prop := exists fl, link_free l dirfd path fl fd.
Definition reached_dir (l : list effect) (dirfd : Z) (path : string) (fd : Z) : Prop :=
  exists fl, directory_only fl = true /\ link_free l dirfd path fl fd.

(** One name, opened as a directory and not through a link. *)
Definition entered (l : list effect) (dirfd : Z) (name : string) (fd : Z) : Prop :=
  exists fl, nofollow fl = true /\ directory_only fl = true /\ sys_openat l dirfd fl name = Some fd.

Lemma safer_walk_walked fl toks parentfd c fd c' : nofollow fl = true ->
  safer_walk parentfd fl toks c = (Ok (Some fd), c') -> walked (effects c) fl parentfd toks fd.
Proof.
  intros Hf. revert parentfd. induction toks as [|tok toks IH]; intros parentfd; cbn [safer_walk]; [done|].
  unfold openat at 1, ask. rewrite cbind_assoc, cget_bind, cret_bind.
  destruct (sys_openat (effects c) parentfd _ tok) as [d|] eqn:Eo; destruct toks as [|tok' toks]; try done.
  - intros [= E _]. by apply walked_last.
  - intros E%IH. by eapply walked_down; [| |exact Eo|].
  - intros [= E _]. by apply walked_last.
Qed.

Lemma nofollow_safer fl : nofollow (safer_flags fl) = true.
Proof. unfold nofollow, safer_flags. rewrite Z.lor_spec. change (Z.testbit O_NOFOLLOW 17) with true. apply orb_true_r. Qed.

Lemma safer_openat_link_free dirfd path fl c fd c' :
  safer_openat dirfd path fl c = (Ok (Some fd), c') -> link_free (effects c) dirfd path (safer_flags fl) fd.
Proof.
  unfold safer_openat. intros ([] & c1 & E1 & E)%cbind_inv. pose proof (reads_ok _ _ _ _ (reads_assert _) E1) as ->.
  split; [apply nofollow_safer|]. revert E. cbv zeta. unfold ask. rewrite cbind_assoc, cget_bind, cret_bind.
  destruct (sys_openat2 _ _ _ _) as [o|]; [intros [= -> _]; by left|]. intros E. right. split; [done|]. revert E.
  destruct (strtok _ path) as [|tok toks] eqn:Et; [rewrite decide_True by done; by intros [= E _]|]. rewrite decide_False by done.
  intros (o & c1 & E1' & E)%cbind_inv. destruct o as [d|]; [|done]. exists d.
  destruct (has_prefix "/" path); injection E1' as Ed <-; (split; [eauto|]); by eapply safer_walk_walked, E; apply nofollow_safer.
Qed.

Lemma safer_openat_reached dirfd path fl c fd c' :
  safer_openat dirfd path fl c = (Ok (Some fd), c') -> reached (effects c) dirfd path fd.
Proof. intros E%safer_openat_link_free. by eexists. Qed.
Lemma safer_openat_reached_dir dirfd path fl c fd c' : directory_only (safer_flags fl) = true ->
  safer_openat dirfd path fl c = (Ok (Some fd), c') -> reached_dir (effects c) dirfd path fd.
Proof. intros Hd E%safer_openat_link_free. by eexists. Qed.
End NoLinks.
