(* ===== verification/FsTheorems.v ===== *)
(** * What fs_blacklist does to the file system

    Every mount of fs_blacklist is one a line of the profile asked for. *)

From S2P Require Import Prelude.
From S2P Require Import Clib.
From S2P Require Import Keeps.
From S2P Require Import Env.
From S2P Require Import Text.
From S2P Require Import Common.
From S2P Require Import Mountinfo.
From S2P Require Import Util.
From S2P Require Import Checkcfg.
From S2P Require Import Caps.
From S2P Require Import Paths.
From S2P Require Import ProfileState.
From S2P Require Import ProfileCommands.
From S2P Require Import ProfileLine.
From S2P Require Import Sys.
From S2P Require Import SysFiles.
From S2P Require Import Fs.
From S2P Require Import Trace.

Section Blacklist.
Context `{H : Host} `{CH : CapHeaders} `{K : Kernel}.

(** The descriptor disable_file gets for a path: links are followed, except a link
    to /dev/null; the firejail binary is left alone. *)
Definition opened (l : list effect) (path : string) (fd : Z) : Prop :=
  match f_realpath (view l) path with
  | None => realpath_errno l path = EACCES /\ sys_open l (flags [O_PATH; O_CLOEXEC]) path = Some fd
  | Some rp =>
      rp <> bindir +:+ "/firejail" /\
      if streq rp "/dev/null" && is_link path (view l)
      then sys_open l (flags [O_PATH; O_CLOEXEC; O_NOFOLLOW]) path = Some fd
      else sys_open l (flags [O_PATH; O_CLOEXEC]) rp = Some fd
  end.

(** No change of the effective user id. *)
Definition same_euid (rest : list effect) : Prop := Forall (fun e => forall u, e <> Seteuid u) rest.

(** An empty file or directory is mounted by root on a file that was opened, not as root,
    for an operation and a path [J] accepts; the operation is to blacklist, or the path
    cannot be resolved. *)
Definition hide_ok (J : OPERATION -> string -> Prop) (l : list effect) (fd : Z) : Prop :=
  exists l0 rest op path, l = l0 ++ Seteuid 0 :: rest /\ same_euid rest /\ J op path /\ not_root l0 /\ opened l0 path fd /\
    (op = BLACKLIST_FILE \/ f_realpath (view l0) path = None).

(** A remount: the descriptor was opened without links, is the file whose owner and
    flags were looked up, and the flags are those [remount_flags] gives. *)
Definition remount_ok (l : list effect) (fd2 fl : Z) : Prop :=
  exists c0 rest path op fd s s2 f_flag nf,
    l = effects c0 ++ rest ++ [Seteuid 0] /\
    reached (effects c0) (-1) path fd /\
    sys_fstat (effects c0) fd = inl s /\ sys_statvfs (effects c0) fd = Some f_flag /\
    sys_fstat (effects c0 ++ rest) fd2 = inl s2 /\ st_dev s2 = st_dev s /\ st_ino s2 = st_ino s /\
    remount_flags op s f_flag = Ok (Some nf) /\ fl = flags [nf; MS_BIND; MS_REMOUNT] /\
    op <> MOUNT_RDWR_NOCHECK.

(** A tmpfs: a tmpfs line stands for a path whose links lead to the directory, which was
    opened without following a link; a user other than root owns it, and it lies below
    the home directory.  (A link to /dev/null is not followed.) *)
Definition tmpfs_ok (J : OPERATION -> string -> Prop) (l : list effect) (fd : Z) : Prop :=
  exists l0 path rp dir s, l = l0 ++ [Seteuid 0] /\
    J MOUNT_TMPFS path /\ f_realpath (view l0) path = Some rp /\
    (dir = rp \/ dir = path /\ rp = "/dev/null" /\ is_link path (view l0) = true) /\
    not_root l0 /\ reached_dir l0 (-1) dir fd /\ sys_fstat l0 fd = inl s /\
    (uid <> 0 -> st_uid s = uid /\ exists rel, dir = homedir +:+ "/" +:+ rel).

(** What each effect must satisfy. *)
Definition allowed (J : OPERATION -> string -> Prop) (l : list effect) (e : effect) : Prop :=
  match e with
  | Mount (At src) (Of fd) _ _ _ =>
      ((src = RUN_RO_DIR \/ src = RUN_RO_FILE) /\ hide_ok J l fd) \/ (src = "tmpfs" /\ tmpfs_ok J l fd)
  | Mount (Of fd) (Of fd') _ _ _ => fd = fd' /\ euid_from 0 l = 0
  | Mount Nowhere (Of fd) _ fl _ => remount_ok l fd fl
  | Mount (At _) (At _) _ _ _ => True     (* bind lines *)
  | Mount _ _ _ _ _ => False
  | _ => True
  end.

Section Allowed.
Context (J : OPERATION -> string -> Prop).
#[local] Notation R := (emits (allowed J)).

Lemma did_emits e c : allowed J (effects c) e -> R c (did e c).
Proof. apply (emits_one _ e c). Qed.

Lemma euid_from_app u l1 l2 : euid_from u (l1 ++ l2) = euid_from (euid_from u l1) l2.
Proof. revert u. induction l1 as [|e l1 IH]; intros u; cbn [euid_from app]; [done|]. destruct e; apply IH. Qed.

Lemma hide_file_allowed filename fname fd s path c : J BLACKLIST_FILE path -> not_root (effects c) -> opened (effects c) path fd ->
  kept_at R (hide_file filename fname fd s) c.
Proof.
  intros HJ Hu Ho. unfold hide_file, EUID_ROOT, EUID_USER, bind_mount_path_to_fd, mount. at_tac.
  - by apply did_emits.
  - apply did_emits. cbn [allowed]. left. split; [by destruct (st_isdir s); auto|].
    exists (effects c), [], BLACKLIST_FILE, path. repeat split; try done; [constructor|by left].
  - by apply did_emits.
  - apply kept_at_bind; [exact _| |intros; apply kept_at_ret, _].
    destruct (has_prefix _ _); [|apply kept_at_ret, _]. by apply emits_same.
Qed.

Lemma disable_unresolved_allowed op filename c : J op filename -> not_root (effects c) ->
  f_realpath (view (effects c)) filename = None -> realpath_errno (effects c) filename = EACCES ->
  kept_at R (disable_unresolved filename) c.
Proof.
  intros HJ Hu Hr He. unfold disable_unresolved, open, EUID_ROOT, EUID_USER, bind_mount_path_to_fd, mount.
  apply kept_at_reads_bind; [exact _|eauto with reads|]. intros [fd|] E; [|apply kept_at_ret, _].
  injection E as E. at_step; [by apply did_emits|].
  assert (opened (effects c) filename fd) as Ho by (unfold opened; by rewrite Hr).
  at_step; [|].
  { apply did_emits. cbn [allowed]. left. split; [auto|]. exists (effects c), [], op, filename.
    repeat split; try done; [constructor|by right]. }
  apply kept_at_bind; [exact _| |].
  - destruct (negb _); [|apply kept_at_ret, _]. unfold do_call. at_step; [|apply kept_at_reads; [exact _|done]].
    apply did_emits. cbn [allowed]. left. split; [auto|].
    eexists (effects c), [_], op, filename. cbn [effects did with_effects]. rewrite <- app_assoc.
    repeat split; try done; [constructor; [done|constructor]|by right].
  - intros err c' _. at_tac. by apply did_emits.
Qed.

Lemma remount_opened_allowed path op s f_flag nf fd c0 rest c :
  effects c = effects c0 ++ rest ->
  safer_openat (-1) path (flags [O_PATH; O_NOFOLLOW; O_CLOEXEC]) c0 = (Ok (Some fd), c0) ->
  sys_fstat (effects c0) fd = inl s -> sys_statvfs (effects c0) fd = Some f_flag ->
  remount_flags op s f_flag = Ok (Some nf) -> op <> MOUNT_RDWR_NOCHECK ->
  kept_at R (remount_opened path s nf) c.
Proof.
  intros El Ho Hs Hv Hf Hn. unfold remount_opened, remount_by_fd, mount, EUID_ROOT, EUID_USER.
  apply kept_at_reads_bind; [exact _|eauto with reads|]. intros [fd2|] _; [|apply kept_at_ret, _].
  apply kept_at_reads_bind; [exact _|eauto with reads|]. intros st2 E2. injection E2 as E2.
  destruct st2 as [s2|e]; [|apply kept_at_exit, _].
  unfold exit_unless at 1. destruct (_ && _) eqn:Ed; [|apply kept_at_reads; [exact _|done]].
  apply andb_true_iff in Ed as [Ed1%Z.eqb_eq Ed2%Z.eqb_eq].
  apply kept_at_reads_bind; [exact _|done|]. intros ? _. at_tac; try by apply did_emits.
  apply did_emits. cbn [allowed effects did with_effects].
  apply safer_openat_reached in Ho.
  exists c0, rest, path, op, fd, s, s2, f_flag, nf. rewrite El, <- app_assoc. repeat split; try done.
  by rewrite <- El.
Qed.

Lemma fs_remount_simple_allowed path op c : op <> MOUNT_RDWR_NOCHECK -> kept_at R (fs_remount_simple path op) c.
Proof.
  intros Hn. unfold fs_remount_simple. apply kept_at_reads_bind; [exact _|eauto with reads|]. intros ? _.
  apply kept_at_reads_bind; [exact _|eauto with reads|]. intros [fd|] Eo; [|apply kept_at_ret, _].
  apply kept_at_reads_bind; [exact _|eauto with reads|]. intros [s|e] Es; [injection Es as Es|at_tac].
  apply kept_at_reads_bind; [exact _|eauto with reads|]. intros [f_flag|] Ev; [injection Ev as Ev|at_tac].
  apply kept_at_reads_bind; [exact _|done|]. intros [nf|] Ef; [injection Ef as Ef|at_tac].
  unfold bind_mount_by_fd, mount, EUID_ROOT, EUID_USER.
  at_step; [by apply did_emits|]. at_step.
  { apply did_emits. cbn [allowed effects did with_effects]. split; [done|]. by rewrite euid_from_app. }
  at_step; [by apply did_emits|]. destruct (negb _); [apply kept_at_ret, _|].
  eapply remount_opened_allowed; [|exact Eo|exact Es|exact Ev|exact Ef|exact Hn].
  cbn [effects did with_effects]. by rewrite <- !app_assoc.
Qed.

Lemma fs_remount_rec_allowed path op c : op <> MOUNT_RDWR_NOCHECK -> kept_at R (fs_remount_rec path op) c.
Proof.
  intros Hn. unfold fs_remount_rec, open. do 2 at_step. destruct a0; [|by apply fs_remount_simple_allowed].
  at_step. destruct (_ <? 0); [by apply fs_remount_simple_allowed|].
  at_step. destruct a1; [|apply kept_at_ret, _]. apply kept_at_keeps, keeps_fold; [exact _|].
  intros p [] c'. by apply fs_remount_simple_allowed.
Qed.

Lemma contained_below top path : Mountinfo.contained top path = true -> exists rel, path = top +:+ "/" +:+ rel.
Proof.
  unfold Mountinfo.contained. destruct (strip_prefix top path) as [[|a rel]|] eqn:E; [done| |done].
  apply strip_prefix_some in E as ->. intros ->%Ascii.eqb_eq. by exists rel.
Qed.

(** What the directory is for the line that asks for it. *)
Definition tmpfs_dir (l : list effect) (dir : string) : Prop :=
  exists path rp, J MOUNT_TMPFS path /\ f_realpath (view l) path = Some rp /\
    (dir = rp \/ dir = path /\ rp = "/dev/null" /\ is_link path (view l) = true).

Lemma fs_tmpfs_allowed dir owned c : tmpfs_dir (effects c) dir ->
  (uid <> 0 -> owned = true /\ exists rel, dir = homedir +:+ "/" +:+ rel) -> kept_at R (fs_tmpfs dir owned) c.
Proof.
  intros (path & rp & HJ & Hr & Hd) Ho. unfold fs_tmpfs, mount, EUID_ROOT, EUID_USER. at_step.
  match goal with E : EUID_ASSERT c = _ |- _ => apply euid_assert_not_root in E end. at_step. destruct a0 as [fd|]; [|at_tac].
  apply kept_at_reads_bind; [exact _|eauto with reads|]. intros [s|e] Es; [injection Es as Es|at_tac].
  destruct (_ && _) eqn:Eo; [at_tac|].
  do 2 at_step. destruct a0; [|at_tac]. at_tac; try by apply did_emits.
  apply did_emits. cbn [allowed effects did with_effects]. right. split; [done|].
  exists (effects c), path, rp, dir, s. do 5 (split; [done|]). split; [by eapply safer_openat_reached_dir; [|eassumption]|].
  split; [done|]. intros Hu. destruct (Ho Hu) as [-> Hc]. split; [|done].
  cbn [andb] in Eo. by apply negb_false_iff, Z.eqb_eq in Eo.
Qed.

Lemma tmpfs_file_allowed fname s c : tmpfs_dir (effects c) fname -> kept_at R (tmpfs_file fname s) c.
Proof.
  intros Hd. unfold tmpfs_file. destruct (negb (st_isdir s)); [at_tac|].
  destruct (_ && _) eqn:E; [at_tac|]. apply kept_at_bind; [exact _| |intros ? ? _; unfold selinux_relabel_path; at_tac; by apply did_emits].
  apply fs_tmpfs_allowed; [done|]. intros Hu. rewrite (proj2 (Z.eqb_neq _ _) Hu) in *. cbn [negb andb] in *.
  apply orb_false_iff in E as [_ E%negb_false_iff]. by apply contained_below in E.
Qed.

Lemma disable_resolved_allowed op filename rpath c : J op filename -> not_root (effects c) ->
  f_realpath (view (effects c)) filename = Some rpath -> kept_at R (disable_resolved op filename rpath) c.
Proof.
  intros HJ Hu Hr. unfold disable_resolved. destruct (streq _ rpath) eqn:Eb; [at_tac|].
  apply kept_at_reads_bind; [exact _|done|]. intros c1 Ec. injection Ec as <-. cbv zeta. unfold open.
  apply kept_at_reads_bind; [exact _|eauto with reads|]. intros [fd|] Efd; [injection Efd as Efd|at_tac].
  apply kept_at_reads_bind; [exact _|eauto with reads|]. intros [s|e] _; [|at_tac].
  assert (opened (effects c) filename fd) as Ho.
  { unfold opened. rewrite Hr. split; [intros ->; unfold streq in Eb; by rewrite String.eqb_refl in Eb|].
    unfold fs_now in Efd. destruct (streq rpath "/dev/null" && is_link filename (view (effects c))); exact Efd. }
  destruct op; [by eapply hide_file_allowed| |apply tmpfs_file_allowed| | |at_tac]; cycle 1.
  { exists filename, rpath. split; [done|]. split; [done|]. unfold fs_now, streq.
    destruct (String.eqb_spec rpath "/dev/null"), (is_link filename _) eqn:El; cbn [andb negb]; auto. }
  all:
    (apply kept_at_bind; [exact _|by apply fs_remount_rec_allowed|intros; at_tac]).
Qed.

Lemma disable_file_allowed op filename c : J op filename -> kept_at R (disable_file op filename) c.
Proof.
  intros HJ. unfold disable_file. at_step. match goal with E : EUID_ASSERT c = _ |- _ => apply euid_assert_not_root in E end. apply kept_at_reads_bind; [exact _|done|]. intros c1 Ec. injection Ec as <-.
  unfold fs_now. destruct (f_realpath (view (effects c)) filename) as [rp|] eqn:Er.
  - by apply disable_resolved_allowed.
  - destruct (Z.eqb_spec (realpath_errno (effects c) filename) EACCES) as [E|]; [|at_tac].
    by eapply disable_unresolved_allowed.
Qed.
(** ** Lines *)

Lemma okay_spec noblacklist path : okay_to_blacklist noblacklist path = Ok true ->
  Forall (fun n => fnmatch n path = FNM_NOMATCH) noblacklist.
Proof.
  induction noblacklist as [|n l IH]; cbn [okay_to_blacklist]; [constructor|]. cbv zeta.
  destruct (Z.eqb_spec (fnmatch n path) FNM_NOMATCH); [constructor; auto|by destruct (_ =? 0)].
Qed.

Lemma globbed_path_allowed op noblacklist path c :
  (is_dot path = false ->
   (op = BLACKLIST_FILE -> Forall (fun n => fnmatch n path = FNM_NOMATCH) noblacklist) -> J op path) ->
  kept_at R (globbed_path op noblacklist path) c.
Proof.
  intros HJ. unfold globbed_path. destruct (is_dot path) eqn:Ed; [at_tac|].
  apply kept_at_reads_bind; [exact _|by destruct (bool_decide _)|]. intros okay Eo.
  destruct okay; [|at_tac]. apply kept_at_bind; [exact _|apply disable_file_allowed, HJ|intros; at_tac]; [done|].
  intros ->. rewrite bool_decide_eq_true_2 in Eo by done. injection Eo as Eo. by apply okay_spec.
Qed.

Lemma globbing_allowed op pattern noblacklist c :
  (forall l paths path, glob l pattern = Some paths -> In path paths -> is_dot path = false ->
   (op = BLACKLIST_FILE -> Forall (fun n => fnmatch n path = FNM_NOMATCH) noblacklist) -> J op path) ->
  kept_at R (globbing op pattern noblacklist) c.
Proof.
  intros HJ. unfold globbing. at_step. apply kept_at_reads_bind; [exact _|eauto with reads|].
  intros [paths|] E; [injection E as E|at_tac].
  apply (kept_at_fold _ _ _ _ _ (fun _ _ _ => True)); [done|]. intros l1 x l2 b c1 El _. split; [|done].
  apply globbed_path_allowed. eapply HJ; [exact E|]. rewrite El. apply in_elt.
Qed.

(** The patterns an argument stands for. *)
Definition asked (ptr pattern : string) : Prop :=
  exists c e, expand ptr c = (Ok e, c) /\
  match strip_prefix "${PATH}" e with
  | None => pattern = e
  | Some rest => exists c1 paths c2 dir, build_paths c1 = (Ok paths, c2) /\ In dir paths /\ pattern = dir +:+ rest
  end.

Lemma build_paths_allowed : keeps R build_paths.
Proof.
  unfold build_paths, get_str, set_str, in_env. cbv zeta. keeps_tac; try (apply reads_keeps; [exact _|done]).
  all: try (destruct (env_store_name_val _ _ _ _); keeps_tac); apply keeps_modify; intros; by apply emits_same.
Qed.

Lemma path_entry_allowed op ptr noblacklist c :
  (forall pattern l paths path, asked ptr pattern -> glob l pattern = Some paths -> In path paths ->
   is_dot path = false ->
   (op = BLACKLIST_FILE -> Forall (fun n => fnmatch n path = FNM_NOMATCH) noblacklist) -> J op path) ->
  kept_at R (path_entry op ptr noblacklist) c.
Proof.
  intros HJ. unfold path_entry. apply kept_at_reads_bind; [exact _|eauto with reads|]. intros e Ee.
  destruct (strip_prefix "${PATH}" e) as [fname|] eqn:Ep.
  - apply kept_at_bind; [exact _|apply build_paths_allowed|]. intros paths c1 Eb.
    apply (kept_at_fold _ _ _ _ _ (fun _ _ _ => True)); [done|]. intros l1 x l2 b c2 El _. split; [|done].
    apply globbing_allowed. intros l ps path. apply HJ. exists c, e. split; [done|]. rewrite Ep.
    exists c, paths, c1, x. split; [done|]. split; [|done]. rewrite El. apply in_elt.
  - apply globbing_allowed. intros l ps path. apply HJ. exists c, e. split; [done|]. by rewrite Ep.
Qed.

Lemma bind_entry_allowed i dname : keeps R (bind_entry i dname).
Proof.
  unfold bind_entry. destruct (split_comma dname) as [d1 d2].
  apply keeps_bind; [exact _|apply keeps_modify; intros; by apply emits_same|]. intros _.
  apply keeps_by_at. intros c. at_step. destruct d2; [|at_tac]. destruct (sys_stat _ _); [|at_tac]. destruct (sys_stat _ _); [|at_tac].
  unfold mount, set_perms, or_exit. at_step; [by apply did_emits|]. at_step.
  apply kept_at_bind; [exact _| |intros; at_tac].
  at_step; [by apply did_emits|]. destruct (negb _); [at_tac|]. at_tac. by apply did_emits.
Qed.

Lemma mk_allowed e name : (forall n, match e n with Mount _ _ _ _ _ => False | _ => True end) ->
  keeps R (clift (Macros.invalid_filename name false) ;;; expanded <~ expand name ;; check_path expanded ;;;
           c <~ cget ;; if f_stat (fs_now c) expanded then cret tt else emit (e expanded)).
Proof.
  intros He. apply keeps_by_at. intros c. apply kept_at_reads_bind; [exact _|done|]. intros ? _. apply kept_at_reads_bind; [exact _|eauto with reads|]. intros n _.
  apply kept_at_reads_bind; [exact _|unfold check_path; by destruct (supported_path n)|]. intros ? _.
  at_step. destruct (f_stat _ _); [at_tac|]. at_step. apply did_emits. specialize (He n).
  by destruct (e n).
Qed.

Lemma blacklist_entry_allowed i data noblacklist c :
  (forall op ptr pattern l paths path, path_operation data = Some (op, ptr) -> asked ptr pattern ->
   glob l pattern = Some paths -> In path paths -> is_dot path = false ->
   (op = BLACKLIST_FILE -> Forall (fun n => fnmatch n path = FNM_NOMATCH) noblacklist) -> J op path) ->
  kept_at R (blacklist_entry i data noblacklist) c.
Proof.
  intros HJ. unfold blacklist_entry. destruct (not_blacklist data); [at_tac|].
  assert (forall m : P unit, kept_at R m c -> kept_at R (m ;;; cret noblacklist) c) as Hm.
  { intros m Hk. apply kept_at_bind; [exact _|exact Hk|intros; at_tac]. }
  destruct (strip_prefix "bind " data); [apply Hm, bind_entry_allowed|].
  destruct (strip_prefix "noblacklist " data) as [name|].
  { apply kept_at_bind; [exact _| |intros; at_tac]. unfold noblacklist_names.
    destruct (strip_prefix _ name).
    - apply kept_at_bind; [exact _|apply build_paths_allowed|intros; at_tac].
    - apply kept_at_bind; [exact _|apply kept_at_reads; [exact _|eauto with reads]|intros; at_tac]. }
  destruct (path_operation data) as [[op ptr]|]; [apply Hm, path_entry_allowed; by eauto|].
  destruct (strip_prefix "mkdir " data); [apply Hm; by apply (mk_allowed Mkdir)|].
  destruct (strip_prefix "mkfile " data); [apply Hm; by apply (mk_allowed Mkfile)|]. at_tac.
Qed.
End Allowed.
(** ** The profile *)

#[local] Notation entries_run l c := (cfold (fun e noblacklist => blacklist_entry e.1 e.2 noblacklist) l [] c).

(** No noblacklist line in front of line [i] exempts the path: none of the patterns
    the line gives matches. *)
Definition not_exempt (c : Config) (i : nat) (path : string) : Prop :=
  forall j name, (j < i)%nat -> profile c !! j = Some ("noblacklist " +:+ name) ->
  exists cj names cj', noblacklist_names name cj = (Ok names, cj') /\
    Forall (fun n => fnmatch n path = FNM_NOMATCH) names.

(** A path line of the profile stands for the path, and, for a blacklist line, no
    noblacklist line in front of it exempts the path. *)
Definition wanted (c : Config) (op : OPERATION) (path : string) : Prop :=
  exists i data ptr pattern l paths,
    profile c !! i = Some data /\ path_operation data = Some (op, ptr) /\
    asked ptr pattern /\ glob l pattern = Some paths /\ In path paths /\ is_dot path = false /\
    (op = BLACKLIST_FILE -> not_exempt c i path).

Lemma imap_split {A} (l : list A) l1 x l2 : imap pair l = l1 ++ x :: l2 ->
  l !! length l1 = Some x.2 /\ l1 = take (length l1) (imap pair l).
Proof.
  intros E. split.
  - assert (imap pair l !! length l1 = Some x) as Hx by (rewrite E; by apply list_lookup_middle).
    rewrite list_lookup_imap in Hx. destruct (l !! length l1); [|done]. by injection Hx as <-.
  - rewrite E, take_app_length. done.
Qed.

Lemma not_blacklist_noblacklist name : not_blacklist ("noblacklist " +:+ name) = false.
Proof. done. Qed.

Lemma blacklist_entry_grows i data nb : results (fun r => incl nb r) (blacklist_entry i data nb).
Proof.
  unfold blacklist_entry. results_tac; try apply incl_refl. apply incl_appl, incl_refl.
Qed.

(** The array holds the patterns of every noblacklist line that was read. *)
Lemma noblacklist_read l noblacklist c ci : entries_run l c = (Ok noblacklist, ci) ->
  forall j name, In (j, "noblacklist " +:+ name) l ->
  exists cj names cj', noblacklist_names name cj = (Ok names, cj') /\ incl names noblacklist.
Proof.
  revert noblacklist ci. induction l as [|x l IH] using rev_ind; intros nb ci; [done|]. rewrite cfold_app.
  unfold cbind at 1. destruct (entries_run l c) as [[nb0| | |] c0]; try done. rewrite cfold_single.
  intros E j name Hin. apply in_app_or in Hin as [Hin|[->|[]]].
  - destruct (IH _ _ eq_refl _ _ Hin) as (cj & names & cj' & Hn & Hi). exists cj, names, cj'. split; [done|].
    intros n Hn0. apply (blacklist_entry_grows _ _ _ _ _ _ E), Hi, Hn0.
  - cbn [fst snd] in E. unfold blacklist_entry in E. rewrite not_blacklist_noblacklist in E.
    change (strip_prefix "bind " ("noblacklist " +:+ name)) with (@None string) in E.
    change (strip_prefix "noblacklist " ("noblacklist " +:+ name)) with (Some name) in E. cbn iota in E.
    unfold cbind in E. destruct (noblacklist_names name c0) as [[names| | |] c1] eqn:En; try done.
    injection E as <- <-. exists c0, names, c1. split; [done|]. intros n Hn. apply in_app_iff. by right.
Qed.

Lemma in_take_imap {A} (l : list A) i j x : l !! j = Some x -> (j < i)%nat -> In (j, x) (take i (imap pair l)).
Proof.
  intros Hx Hj. apply list_elem_of_In, list_elem_of_lookup. exists j.
  rewrite lookup_take, decide_True by done. by rewrite list_lookup_imap, Hx.
Qed.

Lemma fs_blacklist_allowed c : emits (allowed (wanted c)) c (fs_blacklist c).2.
Proof.
  change (kept_at (emits (allowed (wanted c))) fs_blacklist c). unfold fs_blacklist. at_step.
  apply kept_at_get_bind. apply kept_at_bind; [exact _| |intros; at_tac].
  apply (kept_at_fold _ _ _ _ _ (fun l1 nb c' => entries_run l1 c = (Ok nb, c'))); [done|].
  intros l1 x l2 nb c' El Er. destruct (imap_split _ _ _ _ El) as [Hx Ht]. split.
  - apply blacklist_entry_allowed. intros op ptr pattern l paths path H1 H2 H3 H4 H5 H6.
    exists (length l1), x.2, ptr, pattern, l, paths. do 6 (split; [done|]). intros Hop j name Hj Hn.
    pose proof (in_take_imap _ _ _ _ Hn Hj) as Hin. rewrite <- Ht in Hin.
    destruct (noblacklist_read _ _ _ _ Er _ _ Hin) as (cj & names & cj' & En & Hi).
    exists cj, names, cj'. split; [done|]. apply Forall_forall. intros n Hn0. specialize (H6 Hop).
    rewrite Forall_forall in H6. apply H6, list_elem_of_In, Hi. by apply list_elem_of_In.
  - intros b' c'' E. rewrite cfold_app, (cbind_ok _ _ _ _ _ Er). by rewrite cfold_single.
Qed.

Lemma blacklist_effect c l1 e l2 :
  effects (fs_blacklist c).2 = effects c ++ l1 ++ e :: l2 -> allowed (wanted c) (effects c ++ l1) e.
Proof.
  intros E. destruct (fs_blacklist_allowed c) as (l & El & Hl). rewrite El in E. apply app_inv_head in E.
  by eapply every_in.
Qed.


(** C30: fs_blacklist mounts a tmpfs only for a path a tmpfs line stands for, on the directory
    realpath has found behind that path (a link to /dev/null aside, which is not
    followed), opened as a directory, without links and not as root; for a user who is not root the
    user owns the directory and its resolved path is below the home directory. *)
Theorem tmpfs_in_home c l1 fd fs fl data l2 :
  effects (fs_blacklist c).2 = effects c ++ l1 ++ Mount (At "tmpfs") (Of fd) fs fl data :: l2 ->
  tmpfs_ok (wanted c) (effects c ++ l1) fd.
Proof.
  intros E. apply blacklist_effect in E as [[[E|E] _]|[_ E]]; [done|done|exact E].
Qed.

(** ** The flags of a remount *)

Lemma flags_bit l b : 0 <= b -> Z.testbit (flags l) b = existsb (fun x => Z.testbit x b) l.
Proof.
  intros Hb. unfold flags. induction l as [|x l IH]; cbn [foldr existsb]; [by rewrite Z.testbit_0_l|].
  by rewrite Z.lor_spec, IH.
Qed.

Lemma rdonly_bit fl : Z.testbit fl 0 = true -> Z.land fl MS_RDONLY <> 0.
Proof. intros Hb E. assert (Z.testbit (Z.land fl MS_RDONLY) 0 = true) as Ht by (by rewrite Z.land_spec, Hb). by rewrite E in Ht. Qed.

Lemma remount_flags_spec op s fl nf : remount_flags op s fl = Ok (Some nf) ->
  (forall b, 0 < b -> Z.testbit fl b = true -> Z.testbit nf b = true) /\
  (Z.testbit fl 0 = true -> Z.testbit nf 0 = false ->
   op = MOUNT_RDWR_NOCHECK \/ op = MOUNT_RDWR /\ (uid = 0 \/ st_uid s = uid)).
Proof.
  assert (forall b, 0 < b -> Z.testbit fl b = true -> Z.testbit (Z.ldiff fl MS_RDONLY) b = true) as Hd.
  { intros b Hb Ht. rewrite Z.ldiff_spec, Ht. unfold MS_RDONLY. change 1 with (2 ^ 0). by rewrite Z.pow2_bits_false by lia. }
  assert (forall x b, 0 <= b -> Z.testbit fl b = true -> Z.testbit (Z.lor fl x) b = true) as Hl
    by (intros x b Hb Ht; by rewrite Z.lor_spec, Ht).
  destruct op; cbn [remount_flags]; cbv zeta; try done.
  - destruct (_ =? _); [done|]. intros [= <-]. split; [intros b Hb; apply Hl; lia|]. intros H0 H1. by rewrite Hl in H1.
  - destruct (_ =? _); [done|]. intros [= <-]. split; [intros b Hb; apply Hl; lia|]. intros H0 H1. by rewrite Hl in H1.
  - destruct (_ =? _); [done|]. rewrite bool_decide_eq_true_2 by done. cbn [andb].
    destruct (Z.eqb_spec uid 0) as [Hu|]; cbn [negb andb]; [intros [= <-]; auto|].
    destruct (Z.eqb_spec (st_uid s) uid); cbn [negb]; [|done]. intros [= <-]. auto.
  - destruct (_ =? _); [done|]. rewrite bool_decide_eq_false_2 by (intros []; done). intros [= <-]. auto.
Qed.

(** C11: A remount fs_blacklist makes never takes nosuid, nodev or noexec away from a file
    system, and it takes read-only away only for root or for a file the user owns; the
    file that is remounted is the file that was looked at, which was opened without
    links.  (Firejail's own remount of /var/log, MOUNT_RDWR_NOCHECK, is not one of
    these.) *)
Theorem remounts_keep_flags c l1 fd t fl data l2 :
  effects (fs_blacklist c).2 = effects c ++ l1 ++ Mount Nowhere (Of fd) t fl data :: l2 ->
  exists l0 rest path fd0 s s2 f_flag, effects c ++ l1 = l0 ++ rest ++ [Seteuid 0] /\
    reached l0 (-1) path fd0 /\ sys_fstat l0 fd0 = inl s /\ sys_statvfs l0 fd0 = Some f_flag /\
    sys_fstat (l0 ++ rest) fd = inl s2 /\ st_dev s2 = st_dev s /\ st_ino s2 = st_ino s /\
    (forall b, In b [1; 2; 3] -> Z.testbit f_flag b = true -> Z.testbit fl b = true) /\
    (Z.testbit f_flag 0 = true -> Z.testbit fl 0 = false -> uid = 0 \/ st_uid s = uid).
Proof.
  intros E. apply blacklist_effect in E.
  destruct E as (c0 & rest & path & op & fd0 & s & s2 & f_flag & nf & El & Ho & Hs & Hv & Hs2 & Hd & Hi & Hf & -> & Hn).
  exists (effects c0), rest, path, fd0, s, s2, f_flag. do 7 (split; [done|]).
  destruct (remount_flags_spec _ _ _ _ Hf) as [H1 H2]. split.
  - intros b Hb Ht. assert (0 < b) by (cbn in Hb; lia). rewrite flags_bit by lia. cbn [existsb]. by rewrite H1.
  - intros Ht. rewrite flags_bit by lia. cbn [existsb]. intros Hz. apply orb_false_iff in Hz as [Hz _].
    destruct (H2 Ht Hz) as [?|[_ ?]]; done.
Qed.

(** ** Everything that is asked for is done *)






#[export] Instance later_preorder : PreOrder later.
Proof.
  split; [intros c; exists []; by rewrite app_nil_r|]. intros c1 c2 c3 [l1 E1] [l2 E2].
  exists (l1 ++ l2). by rewrite E2, E1, app_assoc.
Qed.








End Blacklist.
