(* ===== verification/FsHome.v ===== *)
(** * Private home directories (src/firejail/fs_home.c)

    A tmpfs or another directory is mounted on the home directory; the start-up
    file of the shell, .Xauthority and .asoundrc are carried over.  Copies are made
    by a child with the rights of the user. *)

From S2P Require Import Prelude.
From S2P Require Import Clib.
From S2P Require Import Text.
From S2P Require Import Common.
From S2P Require Import Mountinfo.
From S2P Require Import Util.
From S2P Require Import Checkcfg.
From S2P Require Import Caps.
From S2P Require Import ProfileState.
From S2P Require Import ProfileCommands.
From S2P Require Import Sys.
From S2P Require Import SysFiles.
From S2P Require Import Fs.

Section Home.
Context `{H : Host} `{CH : CapHeaders} `{K : Kernel}.

(** ** The files carried over *)

Definition disable_tab_completion (homedir : string) : P unit :=
  tab <~ get_int "arg_tab" ;;
  if negb (tab =? 0) then cret tt
  else
    let fname := homedir +:+ "/.inputrc" in
    c <~ cget ;;
    if f_stat (fs_now c) fname then cret tt
    else
      write_file fname ("set disable-completion on" +:+ String newline EmptyString) ;;;
      r <~ do_call (Call "chmod" 420 [fname]) ;; or_exit r.

(** One branch of skel: [touch] creates the file when /etc/skel has none. *)
Definition skel_file (homedir rc : string) (touch : bool) : P unit :=
  let fname := homedir +:+ "/" +:+ rc in
  let from := "/etc/skel/" +:+ rc in
  c <~ cget ;;
  if f_stat (fs_now c) fname then cret tt
  else
    exit_unless (negb (is_link fname (fs_now c))) ;;;
    (if bool_decide (f_access_r (fs_now c) from = None) then copy_file_as_user from fname 420
     else if touch then touch_file_as_user fname 420 else cret tt) ;;;
    selinux_relabel_path fname fname.

Definition skel (homedir : string) : P unit :=
  EUID_ASSERT ;;;
  disable_tab_completion homedir ;;;
  if streq user_shell "/usr/bin/zsh" || streq user_shell "/bin/zsh" then skel_file homedir ".zshrc" true
  else if streq user_shell "/bin/csh" then skel_file homedir ".cshrc" true
  else skel_file homedir ".bashrc" false.

(** The empty copy is made by root and given to the user. *)
Definition store_file (src dest : string) (mode : Z) : P unit :=
  EUID_ROOT ;;;
  write_file dest (String newline EmptyString) ;;;
  set_perms_stream dest uid own_gid mode ;;;
  EUID_USER ;;;
  copy_file_as_user src dest mode ;;;
  selinux_relabel_path dest src.

Definition store_xauthority : P bool :=
  EUID_ASSERT ;;;
  block <~ get_int "arg_x11_block" ;;
  if negb (block =? 0) then cret false
  else
    let src := homedir +:+ "/.Xauthority" in
    st <~ ask (fun l => sys_lstat l src) ;;
    match st with
    | None => cret false
    | Some s => if st_islnk s then cret false else store_file src RUN_XAUTHORITY_FILE 384 ;;; cret true
    end.

Definition store_asoundrc : P bool :=
  EUID_ASSERT ;;;
  nosound <~ get_int "arg_nosound" ;;
  if negb (nosound =? 0) then cret false
  else
    let src := homedir +:+ "/.asoundrc" in
    st <~ ask (fun l => sys_stat l src) ;;
    match st with
    | None => cret false
    | Some s => if negb (st_uid s =? uid) then cret false else store_file src RUN_ASOUNDRC_FILE 420 ;;; cret true
    end.

(** copy_xauthority and copy_asoundrc. *)
Definition copy_stored (src name : string) : P unit :=
  EUID_ASSERT ;;;
  let dest := homedir +:+ "/" +:+ name in
  c <~ cget ;;
  exit_unless (negb (is_link dest (fs_now c))) ;;;
  copy_file_as_user src dest 384 ;;;
  selinux_relabel_path dest dest ;;;
  EUID_ROOT ;;;
  do_call (Call "unlink" 0 [src]) ;;;
  EUID_USER.

Definition copy_xauthority : P unit := copy_stored RUN_XAUTHORITY_FILE ".Xauthority".
Definition copy_asoundrc : P unit := copy_stored RUN_ASOUNDRC_FILE ".asoundrc".

Definition restore_files (homedir : string) (xflag aflag : bool) : P unit :=
  keep <~ get_int "arg_keep_shell_rc" ;;
  (if keep =? 0 then skel homedir else cret tt) ;;;
  (if xflag then copy_xauthority else cret tt) ;;;
  if aflag then copy_asoundrc else cret tt.

(** ** --private *)

Definition mask_root : P unit :=
  mount_tmpfs "/root" (flags [MS_NOSUID; MS_NODEV; MS_NOEXEC; MS_STRICTATIME]) "mode=700,gid=0" ;;;
  selinux_relabel_path "/root" "/root".

Definition make_home : P unit :=
  EUID_ROOT ;;;
  r <~ do_call (Call "mkdir" 448 [homedir]) ;;
  (if r =? 0 then cret tt
   else p <~ mkpath_as_root homedir ;; exit_unless (negb (p =? -1)) ;;;
        r <~ do_call (Call "mkdir" 448 [homedir]) ;; or_exit r) ;;;
  r <~ do_call (Call "chown" uid [homedir; print_d own_gid]) ;; or_exit r ;;;
  EUID_USER.

Definition fs_private : P unit :=
  EUID_ASSERT ;;;
  xflag <~ store_xauthority ;;
  aflag <~ store_asoundrc ;;
  EUID_ROOT ;;;
  mask_root ;;;
  allusers <~ get_int "arg_allusers" ;;
  (if allusers =? 0
   then mount_tmpfs "/home" (flags [MS_NOSUID; MS_NODEV; MS_STRICTATIME]) "mode=755,gid=0" ;;; selinux_relabel_path "/home" "/home"
   else cret tt) ;;;
  EUID_USER ;;;
  (if uid =? 0 then cret tt
   else (if (allusers =? 0) && has_prefix "/home/" homedir then make_home else fs_tmpfs homedir true) ;;;
        selinux_relabel_path homedir homedir) ;;;
  restore_files homedir xflag aflag.

(** ** --private=directory *)

(** A directory of the user, opened without following links. *)
Definition open_own_dir (path : string) : P Z :=
  fd <~ safer_openat (-1) path (flags [O_PATH; O_DIRECTORY; O_NOFOLLOW; O_CLOEXEC]) ;;
  match fd with None => cexit 1 | Some fd => cret fd end.

Definition check_owned (fd : Z) : P unit :=
  st <~ ask (fun l => sys_fstat l fd) ;;
  match st with
  | inr _ => cexit 1
  | inl s => exit_unless (st_uid s =? uid)
  end.

Definition fs_private_homedir : P unit :=
  private_homedir <~ get_str "home_private" ;;
  match private_homedir with
  | None => cfail
  | Some private_homedir =>
      EUID_ASSERT ;;;
      xflag <~ store_xauthority ;;
      aflag <~ store_asoundrc ;;
      src <~ open_own_dir private_homedir ;;
      dst <~ open_own_dir homedir ;;
      check_owned src ;;;
      check_owned dst ;;;
      EUID_ROOT ;;;
      r <~ bind_mount_by_fd src dst ;; or_exit r ;;;
      EUID_USER ;;;
      mptr <~ get_last_mount ;;
      exit_unless (mounted_at homedir (Mountinfo.dir mptr)) ;;;
      EUID_ROOT ;;;
      (if uid =? 0 then cret tt else mask_root) ;;;
      allusers <~ get_int "arg_allusers" ;;
      (if (uid =? 0) && (allusers =? 0)
       then mount_tmpfs "/home" (flags [MS_NOSUID; MS_NODEV; MS_NOEXEC; MS_STRICTATIME]) "mode=755,gid=0" ;;;
            selinux_relabel_path "/home" "/home"
       else cret tt) ;;;
      EUID_USER ;;;
      restore_files homedir xflag aflag
  end.
End Home.
