(* ===== verification/FsWhitelist.v ===== *)
(** * Whitelists (src/firejail/fs_whitelist.c)

    The whitelist lines of the profile are resolved to files inside top level
    directories; a tmpfs is mounted on each top level directory, and the files are
    mounted back into it. *)

From S2P Require Import Prelude.
From S2P Require Import Clib.
From S2P Require Import Env.
From S2P Require Import Text.
From S2P Require Import Common.
From S2P Require Import Mountinfo.
From S2P Require Import Util.
From S2P Require Import Checkcfg.
From S2P Require Import Caps.
From S2P Require Import Macros.
From S2P Require Import ProfileState.
From S2P Require Import ProfileCommands.
From S2P Require Import Sys.
From S2P Require Import SysFiles.
From S2P Require Import Fs.
From S2P Require Import FsHome.

Definition TOP_MAX : Z := 64.

Record TopDir := mk_topdir { td_path : string; td_fd : Z }.

(** The parameters attached to an entry; the second loop visits the entries in the
    order in which the first one attached them. *)
Record wparam := mk_wparam { wp_file : string; wp_link : option string; wp_top : TopDir }.

Record wl_state := mk_wl { topdirs : list TopDir; nowhitelist : list string; wparams : list wparam }.

Definition with_topdirs l (st : wl_state) := mk_wl l (nowhitelist st) (wparams st).
Definition with_nowhitelist l (st : wl_state) := mk_wl (topdirs st) l (wparams st).
Definition with_wparams l (st : wl_state) := mk_wl (topdirs st) (nowhitelist st) l.

(** What follows [top] and a slash. *)
Definition relative (top path : string) : option string :=
  match strip_prefix top path with
  | Some (String c rest) => if Ascii.eqb c "/"%char then Some rest else None
  | _ => None
  end.

Section Whitelist.
Context `{H : Host} `{CH : CapHeaders} `{K : Kernel}.

(** The static variable, without the slash of fs_mkdir.c. *)
Definition runuser : string := "/run/user/" +:+ print_u uid.

(** ** Mount targets *)

Definition O_DIR : Z := flags [O_PATH; O_DIRECTORY; O_NOFOLLOW; O_CLOEXEC].

(** mkdirat: whether the directory is there afterwards. *)
Definition mkdirat (dirfd : Z) (name : string) : P bool :=
  r <~ do_call (Call "mkdirat" dirfd [name; "0755"]) ;; cret ((r =? 0) || (r =? EEXIST)).

Fixpoint mkpath_walk (mountid parentfd : Z) (toks : list string) : P (option Z) :=
  match toks with
  | [] => cret (Some parentfd)
  | tok :: toks' =>
      ok <~ mkdirat parentfd tok ;;
      if negb ok then cret None
      else
        fd <~ openat parentfd O_DIR tok ;;
        match fd with
        | None => cret None
        | Some fd =>
            id <~ get_mount_id fd ;;
            if negb (id =? mountid) then cret None else mkpath_walk mountid fd toks'
        end
  end.

Definition whitelist_mkpath (parentdir relpath : string) : P (option Z) :=
  parentfd <~ safer_openat (-1) parentdir O_DIR ;;
  match parentfd with
  | None => cexit 1
  | Some parentfd =>
      mountid <~ get_mount_id parentfd ;;
      if mountid <? 0 then cret None
      else match strrchr_before "/"%char relpath with
      | None => cret (Some parentfd)
      | Some dup => let toks := strtok "/"%char dup in
                    cassert (negb (bool_decide (toks = []))) ;;; mkpath_walk mountid parentfd toks
      end
  end.

(** Inside the directories of the user nothing is created as root. *)
Definition create_as_root (top : TopDir) : P unit :=
  if negb (streq (td_path top) homedir) && negb (streq (td_path top) runuser) then EUID_ROOT else cret tt.

(** The target itself: a directory may be there already, a file may not. *)
Definition mount_target (fd2 : Z) (file : string) (isdir : bool) : P (option Z) :=
  if isdir then
    ok <~ mkdirat fd2 file ;; if negb ok then cret None else openat fd2 O_DIR file
  else
    r <~ do_call (Call "openat" fd2 [file; "O_RDONLY|O_CREAT|O_EXCL|O_CLOEXEC"]) ;;
    if r =? 0 then fd <~ ask sys_created ;; cret (Some fd) else cret None.

(** The mount itself and the checks behind it; the last one: a mount on a top level
    directory, with a single slash in its name, is an error. *)
Definition whitelist_mount (path : string) (fd fd3 : Z) : P unit :=
  EUID_ROOT ;;;
  r <~ bind_mount_by_fd fd fd3 ;; or_exit r ;;;
  EUID_USER ;;;
  mptr <~ get_last_mount ;;
  exit_unless (mounted_at path (Mountinfo.dir mptr)) ;;;
  exit_unless (negb (bool_decide (strrchr_before "/"%char (Mountinfo.dir mptr) = Some EmptyString))).

Definition whitelist_file (top : TopDir) (path : string) : P unit :=
  EUID_ASSERT ;;;
  match relative (td_path top) path with
  | None => cret tt
  | Some relpath =>
      fd <~ safer_openat (td_fd top) relpath (flags [O_PATH; O_NOFOLLOW; O_CLOEXEC]) ;;
      match fd with
      | None => cret tt
      | Some fd =>
          st <~ ask (fun l => sys_fstat l fd) ;;
          match st with
          | inr _ => cexit 1
          | inl s =>
              if st_islnk s then cret tt
              else
                create_as_root top ;;;
                fd2 <~ whitelist_mkpath (td_path top) relpath ;;
                match fd2 with
                | None => EUID_USER
                | Some fd2 =>
                    fd3 <~ mount_target fd2 (gnu_basename relpath) (st_isdir s) ;;
                    match fd3 with
                    | None => EUID_USER
                    | Some fd3 => whitelist_mount path fd fd3
                    end
                end
          end
      end
  end.

Definition whitelist_symlink (top : TopDir) (link target : string) : P unit :=
  EUID_ASSERT ;;;
  match relative (td_path top) link with
  | None => cfail
  | Some relpath =>
      create_as_root top ;;;
      fd <~ whitelist_mkpath (td_path top) relpath ;;
      match fd with
      | None => EUID_USER
      | Some fd => do_call (Call "symlinkat" fd [target; gnu_basename relpath]) ;;; EUID_USER
      end
  end.

(** ** Globbing: new lines at the end of the profile *)

Definition glob_line (pattern path : string) : P unit :=
  if streq path pattern || is_dot path then cret tt else profile_add ("whitelist " +:+ path).

Definition whitelist_globbing (pattern : string) : P unit :=
  EUID_ASSERT ;;;
  r <~ ask (fun l => glob l pattern) ;;
  match r with
  | None => cexit 1
  | Some paths => cfold (fun path _ => glob_line pattern path) paths tt
  end.

(** ** Top level directories *)

Definition pam_tmpdir : P unit :=
  c <~ cget ;;
  match env_get "TMP" (environment c) with
  | None => cret tt
  | Some env =>
      let pamtmpdir1 := "/tmp/user/" +:+ print_u uid in
      let pamtmpdir2 := "/tmp/" +:+ print_u uid in
      if streq env pamtmpdir1 then
        EUID_ROOT ;;;
        mkdir_attr "/tmp/user" 493 0 0 ;;;
        selinux_relabel_path "/tmp/user" "/tmp/user" ;;;
        mkdir_attr pamtmpdir1 448 uid 0 ;;;
        selinux_relabel_path pamtmpdir1 pamtmpdir1 ;;;
        EUID_USER
      else if streq env pamtmpdir2 then
        EUID_ROOT ;;;
        mkdir_attr pamtmpdir2 448 uid 0 ;;;
        selinux_relabel_path pamtmpdir2 pamtmpdir2 ;;;
        EUID_USER
      else cret tt
  end.

(** /run/firejail is mounted back through a descriptor opened before the tmpfs. *)
Definition restore_run (top : TopDir) (fd : Z) : P unit :=
  EUID_ROOT ;;;
  mkdir_attr RUN_FIREJAIL_DIR 493 0 0 ;;;
  r <~ bind_mount_fd_to_path fd RUN_FIREJAIL_DIR ;; or_exit r ;;;
  EUID_USER ;;;
  whitelist_file top runuser.

Definition open_run (top : TopDir) : P Z :=
  if streq (td_path top) "/run" then
    fd <~ open (flags [O_PATH; O_CLOEXEC]) RUN_FIREJAIL_DIR ;;
    match fd with None => cexit 1 | Some fd => cret fd end
  else cret (-1).

Definition tmpfs_topdir (top : TopDir) : P unit :=
  fd <~ open_run top ;;
  fs_tmpfs (td_path top) false ;;;
  selinux_relabel_path (td_path top) (td_path top) ;;;
  (if streq (td_path top) "/run" then restore_run top fd
   else if streq (td_path top) "/tmp" then pam_tmpdir else cret tt) ;;;
  whitelist_file top homedir.

(** The two directories of the user are left for the end. *)
Definition nested (top : TopDir) : bool := streq (td_path top) homedir || streq (td_path top) runuser.

Definition tmpfs_topdirs (tops : list TopDir) : P unit :=
  cfold (fun top _ => if nested top then cret tt else tmpfs_topdir top) tops tt ;;;
  (if existsb (fun top => streq (td_path top) homedir) tops then fs_private else cret tt) ;;;
  if existsb (fun top => negb (streq (td_path top) homedir) && streq (td_path top) runuser) tops
  then fs_tmpfs runuser false ;;; selinux_relabel_path runuser runuser else cret tt.

Definition reject_topdir (dir : string) : bool :=
  match reject_topdirs conf with
  | None => false
  | Some l => existsb (streq dir) l
  end.

Definition have_topdir (dir : string) (tops : list TopDir) : option TopDir :=
  List.find (fun rv => streq dir (td_path rv)) tops.

(** [whitelist_error] is exit; the array with the new element, if there is one. *)
Definition add_topdir (dir : string) (tops : list TopDir) : P (option TopDir) :=
  EUID_ASSERT ;;;
  exit_unless (negb (existsb (streq dir) ["/"; "/proc"; "/sys"])) ;;;
  private <~ get_int "arg_private" ;;
  if negb (private =? 0) && streq dir homedir then cret None
  else
    st <~ ask (fun l => sys_lstat l dir) ;;
    match st with
    | None => cret None
    | Some s =>
        if negb (st_isdir s) then if st_islnk s then cret None else cexit 1
        else if reject_topdir dir then cret None
        else
          exit_unless (Z.of_nat (length tops) <? TOP_MAX) ;;;
          fd <~ safer_openat (-1) dir O_DIR ;;
          match fd with
          | None => cexit 1
          | Some fd => cret (Some (mk_topdir dir fd))
          end
    end.

(** The array afterwards, and the element for [dir]. *)
Definition find_topdir (dir : string) (st : wl_state) : P (wl_state * option TopDir) :=
  match have_topdir dir (topdirs st) with
  | Some top => cret (st, Some top)
  | None =>
      top <~ add_topdir dir (topdirs st) ;;
      match top with
      | None => cret (st, None)
      | Some top => cret (with_topdirs (topdirs st ++ [top]) st, Some top)
      end
  end.

Definition extract_topdir (path : string) : outcome string :=
  if Mountinfo.contained homedir path then Ok homedir
  else if Mountinfo.contained runuser path then Ok runuser
  else if Mountinfo.contained "/sys/module" path then Ok "/sys/module"
  else match strip_prefix "/usr/" path with
  | Some r => match strchr_split "/"%char r with Some (l, _) => Ok ("/usr/" +:+ l) | None => Exit 1 end
  | None =>
      match path with
      | String c r =>
          if Ascii.eqb c "/"%char then
            match strchr_split "/"%char r with Some (l, _) => Ok ("/" +:+ l) | None => Exit 1 end
          else AssertFail
      | EmptyString => AssertFail
      end
  end.

(** ** The lines *)

(** The paths that are not resolved. *)
Definition dev_links : list (string * string) :=
  [("/dev/fd", "/proc/self/fd"); ("/dev/stdin", "/proc/self/fd/0"); ("/dev/stdout", "/proc/self/fd/1");
   ("/dev/stderr", "/proc/self/fd/2")].

Definition resolve (new_name : string) (v : fsview) : option string :=
  match List.find (fun e => streq new_name e.1) dev_links with
  | Some e => Some e.2
  | None => f_realpath v new_name
  end.

(** [nowl] is nowhitelist_flag; the top level directory is needed for a whitelist
    line only. *)
Definition resolved_path (nowl : bool) (new_name : string) (top : option TopDir) (st : wl_state) : P wl_state :=
  if has_prefix RUN_FIREJAIL_DIR new_name then cret st
  else
    c <~ cget ;;
    match resolve new_name (fs_now c) with
    | None => (if nowl then cret tt else whitelist_globbing new_name) ;;; cret st
    | Some fname =>
        if has_prefix RUN_FIREJAIL_DIR fname then cret st
        else if nowl then cret (with_nowhitelist (nowhitelist st ++ [fname]) st)
        else if existsb (fun n => streq n fname) (nowhitelist st) then cret st
        else match top with
        | None => cfail
        | Some top =>
            let link := if is_link new_name (fs_now c) then Some new_name else None in
            cret (with_wparams (wparams st ++ [mk_wparam fname link top]) st)
        end
    end.

Definition whitelist_path (nowl : bool) (dataptr : string) (st : wl_state) : P wl_state :=
  expanded <~ expand dataptr ;;
  if is_macro expanded && bool_decide (is_Some (macro_id expanded)) then
    if nowl then cret st else r <~ find_topdir homedir st ;; cret r.1
  else
    exit_unless (has_prefix "/" expanded) ;;;
    new_name <~ clift (clean_pathname expanded) ;;
    exit_unless (negb (Text.contains ".." new_name)) ;;;
    if nowl then resolved_path true new_name None st
    else
      dir <~ clift (extract_topdir new_name) ;;
      r <~ find_topdir dir st ;;
      match r.2 with
      | None => cret r.1
      | Some top => resolved_path false new_name (Some top) r.1
      end.

Definition whitelist_entry (data : string) (st : wl_state) : P wl_state :=
  match strip_prefix "whitelist " data with
  | Some dataptr => whitelist_path false dataptr st
  | None =>
      match strip_prefix "nowhitelist " data with
      | Some dataptr => whitelist_path true dataptr st
      | None => cret st
      end
  end.

(** The first loop: lines may be added behind the one that is looked at. *)
Fixpoint whitelist_loop (fuel i : nat) (st : wl_state) : P wl_state :=
  match fuel with
  | O => cnofuel
  | S f =>
      c <~ cget ;;
      match profile c !! i with
      | None => cret st
      | Some data => st <~ whitelist_entry data st ;; whitelist_loop f (S i) st
      end
  end.

(** The second loop. *)
Definition whitelist_wparam (w : wparam) : P unit :=
  whitelist_file (wp_top w) (wp_file w) ;;;
  match wp_link w with
  | Some link => whitelist_symlink (wp_top w) link (wp_file w)
  | None => cret tt
  end.

Definition fs_whitelist (fuel : nat) : P unit :=
  EUID_ASSERT ;;;
  c <~ cget ;;
  if bool_decide (profile c = []) then cret tt
  else
    st <~ whitelist_loop fuel 0 (mk_wl [] [] []) ;;
    tmpfs_topdirs (topdirs st) ;;;
    cfold (fun w _ => whitelist_wparam w) (wparams st) tt.
End Whitelist.
