(* ===== verification/MainCommands.v ===== *)
(** * Independent commands (run_cmd_and_exit of src/firejail/main.c)

    Options that do their work and end the program.  [at_arg] is the place of an
    option on the command line: its index and the arguments behind it. *)

From S2P Require Import Prelude.
From S2P Require Import Clib.
From S2P Require Import Bpf.
From S2P Require Import Caps.
From S2P Require Import Text.
From S2P Require Import Common.
From S2P Require Import Util.
From S2P Require Import Checkcfg.
From S2P Require Import Macros.
From S2P Require Import ProfileState.
From S2P Require Import ProfileCommands.
From S2P Require Import ProfileLine.
From S2P Require Import NetConfig.

Record at_arg := mk_at { pos : Z; behind : list string }.

(** A test of argv[i] and what is done; the text is what follows the test. *)
Definition opt : Type := test * (at_arg -> string -> P unit).

(** The first option of a chain whose test holds. *)
Fixpoint find_opt (opts : list opt) (arg : string) : option (at_arg -> P unit) :=
  match opts with
  | [] => None
  | (t, f) :: opts' =>
      match matches t arg with
      | Some a => Some (fun at_i => f at_i a)
      | None => find_opt opts' arg
      end
  end.

Section Commands.
Context `{H : Host} `{CH : CapHeaders}.

(** Options inside [#ifdef]. *)
Definition when_built (n : string) (opts : list opt) : list opt := if built n then opts else [].

(** [if (checkcfg(k)) ... else exit_err_feature(argv[i], k)] *)
Definition or_exit (k : CFG) (m : P unit) : P unit := if enabled k then m else cexit 1.

Definition pid_of (nm : string) : P Z := clift (require_pid sandbox_pid nm).

(** A function that only prints, for a sandbox or not. *)
Definition show (fn : string) : at_arg -> string -> P unit := fun _ _ => emit (Call fn 0 []) ;;; cexit 0.
Definition show_with (fn : string) (args : list string) : at_arg -> string -> P unit :=
  fun _ a => pid <~ pid_of a ;; emit (Call fn pid args) ;;; cexit 0.
Definition show_of (fn : string) : at_arg -> string -> P unit := show_with fn [].

Definition only_root (m : P unit) : P unit := if uid =? 0 then m else cexit 1.

Definition x11_opts : list opt :=
  when_built "HAVE_X11" (
    (Is "--x11", fun _ _ => or_exit CFG_X11 (emit X11_start ;;; cexit 0)) ::
    when_built "HAVE_X11_LEGACY"
      [(Is "--x11=xvfb", fun _ _ => or_exit CFG_X11 (emit (Call "x11_start_xvfb" 0 []) ;;; cexit 0))]).

(** The network monitors, for the host or for a sandbox. *)
Definition trace_host (tool : string) : at_arg -> string -> P unit :=
  fun _ _ => or_exit CFG_NETWORK (only_root (emit (Call "netfilter_trace" 0 [libdir +:+ tool]))) ;;; cexit 0.

Definition trace_sandbox (tool : string) : at_arg -> string -> P unit :=
  fun _ a => or_exit CFG_NETWORK (only_root (
    pid <~ pid_of a ;; emit (Call "netfilter_trace" pid [libdir +:+ tool]))) ;;; cexit 0.

Definition trace_opts : list opt :=
  [(Is "--nettrace", trace_host "/firejail/fnettrace");
   (Starts "--nettrace=", trace_sandbox "/firejail/fnettrace");
   (Is "--dnstrace", trace_host "/firejail/fnettrace-dns");
   (Starts "--dnstrace=", trace_sandbox "/firejail/fnettrace-dns");
   (Is "--snitrace", trace_host "/firejail/fnettrace-sni");
   (Starts "--snitrace=", trace_sandbox "/firejail/fnettrace-sni");
   (Is "--icmptrace", trace_host "/firejail/fnettrace-icmp");
   (Starts "--icmptrace=", trace_sandbox "/firejail/fnettrace-icmp")].

Definition netfilter_print_opts : list opt :=
  when_built "HAVE_NETWORK"
    [(Starts "--netfilter.print=", show_with "netfilter_print" ["0"]);
     (Starts "--netfilter6.print=", show_with "netfilter_print" ["1"])].

Definition sbox_confined : Z := Z.lor (Z.lor SBOX_USER SBOX_CAPS_NONE) SBOX_SECCOMP.

(** A confined child runs fseccomp; the exit code is the child's. *)
Definition fseccomp_show (cmd : string) : P unit :=
  emit (Sbox_run sbox_confined [libdir +:+ "/firejail/fseccomp"; cmd]) ;;;
  c <~ cget ;; cexit (child_status (effects c)).

Definition debug_opts : list opt :=
  [(Is "--debug-syscalls", fun _ _ => or_exit CFG_SECCOMP (fseccomp_show "debug-syscalls"));
   (Is "--debug-syscalls32", fun _ _ => or_exit CFG_SECCOMP (fseccomp_show "debug-syscalls32"));
   (Is "--debug-syscall-groups", fun _ _ => or_exit CFG_SECCOMP (fseccomp_show "debug-syscall-groups"));
   (Starts "--debug-syscall-groups=", fun _ a =>
      or_exit CFG_SECCOMP (emit (Call "syscall_in_groups_print" 0 [a]) ;;; cexit 0));
   (Is "--debug-errnos", fun _ _ => or_exit CFG_SECCOMP (fseccomp_show "debug-errnos"));
   (Starts "--seccomp.print=", fun at_i a => or_exit CFG_SECCOMP (show_of "seccomp_print_filter" at_i a));
   (Is "--debug-protocols", fun _ _ => fseccomp_show "debug-protocols");
   (Starts "--protocol.print=", fun at_i a => or_exit CFG_SECCOMP (show_of "protocol_print_filter" at_i a))].

Definition RUN_FIREJAIL_PROFILE_DIR : string := "/run/firejail/profile".
Definition PATH_FIREMON : string := install_prefix +:+ "/bin/firemon".

Definition profile_print : at_arg -> string -> P unit :=
  fun _ a =>
    pid <~ pid_of a ;;
    c <~ cget ;;
    match f_text (fs_now c) (RUN_FIREJAIL_PROFILE_DIR +:+ "/" +:+ print_d pid) with
    | None => cexit 1
    | Some _ => emit (Call "profile.print" pid []) ;;; cexit 0
    end.

(** firemon reads /proc: as root when it is mounted with hidepid. *)
Definition firemon (stdin : bool) (cmd : string) : at_arg -> string -> P unit :=
  fun _ _ =>
    c <~ cget ;;
    let hidden := pid_hidepid (option_map (fgets (Z.to_nat BUFLEN)) (f_text (fs_now c) "/proc/mounts")) in
    let flags := if hidden then Z.lor (Z.lor SBOX_ROOT SBOX_CAPS_HIDEPID) SBOX_SECCOMP else sbox_confined in
    emit (Sbox_run (if stdin then Z.lor flags SBOX_ALLOW_STDIN else flags) [PATH_FIREMON; cmd]) ;;; cexit 0.

Definition print_opts : list opt :=
  [(Starts "--profile.print=", profile_print);
   (Starts "--cpu.print=", show_of "cpu_print_filter");
   (Starts "--apparmor.print=", fun _ a =>
      pid <~ pid_of a ;;
      emit (Sbox_run sbox_confined [PATH_FIREMON; "--apparmor"; print_u (u32 pid)]) ;;; cexit 0);
   (Starts "--caps.print=", show_of "caps_print_filter");
   (Starts "--fs.print=", show_of "fs_logger_print_log");
   (Starts "--dns.print=", show_of "net_dns_print");
   (Is "--debug-caps", show "caps_print");
   (Is "--list", firemon false "--list");
   (Is "--tree", firemon false "--tree");
   (Is "--top", firemon true "--top")].

Definition network_opts : list opt :=
  when_built "HAVE_NETWORK"
    [(Is "--netstats", fun at_i a => or_exit CFG_NETWORK (firemon true "--netstats" at_i a));
     (Starts "--net.print=", fun at_i a => or_exit CFG_NETWORK (show_of "net_print" at_i a))].

(** ** Files of another sandbox *)

Definition plain_path (path : string) : P unit :=
  clift (invalid_filename path false) ;;;
  if contains ".." path then cexit 1 else cret tt.

(** [n] paths follow, nothing else. *)
Definition transfer (op : string) (quiet : bool) (n : nat) : at_arg -> string -> P unit :=
  fun at_i a => or_exit CFG_FILE_TRANSFER (
    cwd <~ get_int "arg_private_cwd" ;;
    exit_unless (cwd =? 0) ;;;
    exit_unless (length (behind at_i) =? n)%nat ;;;
    cfold (fun path _ => plain_path path) (behind at_i) tt ;;;
    debug <~ get_int "arg_debug" ;;
    (if quiet && (debug =? 0) then set_int "arg_quiet" 1 else cret tt) ;;;
    pid <~ pid_of a ;;
    emit (Call "sandboxfs" pid (op :: behind at_i)) ;;; cexit 0).

Definition transfer_opts : list opt :=
  when_built "HAVE_FILE_TRANSFER"
    [(Starts "--get=", transfer "SANDBOX_FS_GET" false 1);
     (Starts "--put=", transfer "SANDBOX_FS_PUT" false 2);
     (Starts "--ls=", transfer "SANDBOX_FS_LS" true 1);
     (Starts "--cat=", transfer "SANDBOX_FS_CAT" true 1)].

(** ** Joining *)

Definition program_behind (at_i : at_arg) : P unit :=
  match behind at_i with [] => set_int "just_run_the_shell" 1 | _ => cret tt end ;;;
  set_int "original_program_index" (pos at_i + 1).

Definition join_found (at_i : at_arg) (pid : Z) : P unit := emit (Join pid (pos at_i + 1)) ;;; cexit 0.

Definition join_sandbox : at_arg -> string -> P unit :=
  fun at_i a => program_behind at_i ;;; pid <~ pid_of a ;; join_found at_i pid.

(** The first part of --join-or-start: when no sandbox has the name, the options
    are read on. *)
Definition try_join : at_arg -> string -> P unit :=
  fun at_i a =>
    program_behind at_i ;;;
    r <~ clift (read_pid sandbox_pid a) ;;
    match r with Some pid => join_found at_i pid | None => cret tt end.

Definition or_root (k : CFG) (m : P unit) : P unit := if enabled k || (uid =? 0) then m else cexit 1.

Definition join_opts : list opt :=
  [(Starts "--join=", fun at_i a => or_root CFG_JOIN (join_sandbox at_i a));
   (Starts "--join-or-start=", fun at_i a => or_root CFG_JOIN (try_join at_i a))] ++
  when_built "HAVE_NETWORK"
    [(Starts "--join-network=", fun at_i a =>
        or_exit CFG_NETWORK (set_int "arg_join_network" 1 ;;; only_root (join_sandbox at_i a)))] ++
  [(Starts "--join-filesystem=", fun at_i a =>
      set_int "arg_join_filesystem" 1 ;;; only_root (join_sandbox at_i a));
   (Starts "--shutdown=", show_of "shut")].

Definition independent : list opt :=
  [(Is "--help", show "usage"); (Is "-?", show "usage"); (Is "--version", show "print_version_full")] ++
  x11_opts ++ trace_opts ++ netfilter_print_opts ++ debug_opts ++ print_opts ++ network_opts ++
  transfer_opts ++ join_opts.

Definition run_cmd_and_exit (at_i : at_arg) (arg : string) : P unit :=
  match find_opt independent arg with
  | Some f => f at_i
  | None => cret tt
  end.
End Commands.
