(* ===== verification/MainOptions.v ===== *)
(** * Command line options (main of src/firejail/main.c)

    The loop over argv.  Variables local to [main] are kept with the others, by name:
    custom_profile and arg_caps_cmdline. *)

From S2P Require Import Prelude.
From S2P Require Import Clib.
From S2P Require Import Bpf.
From S2P Require Import Caps.
From S2P Require Import Install.
From S2P Require Import Env.
From S2P Require Import Text.
From S2P Require Import Common.
From S2P Require Import Util.
From S2P Require Import Checkcfg.
From S2P Require Import Dbus.
From S2P Require Import Macros.
From S2P Require Import ProfileState.
From S2P Require Import ProfileCommands.
From S2P Require Import ProfileLine.
From S2P Require Import NetConfig.
From S2P Require Import MainCommands.

Section Options.
Context `{H : Host} `{CH : CapHeaders} `{N : NetHost}.

Definition on (s n : string) : opt := (Is s, fun _ _ => set_int n 1).
Definition accepted : at_arg -> string -> P unit := fun _ _ => cret tt.
Definition do (m : string -> P unit) : at_arg -> string -> P unit := fun _ a => m a.

(** [if (arg_x) { fprintf(stderr, ...); exit(1); }] *)
Definition unless_set (n : string) (m : P unit) : P unit :=
  v <~ get_int n ;; if v =? 0 then m else cexit 1.

Definition set_debug : P unit := set_int "arg_debug" 1 ;;; set_int "arg_quiet" 0.

Definition quiet_unless_debug : P unit :=
  debug <~ get_int "arg_debug" ;; if debug =? 0 then set_int "arg_quiet" 1 else cret tt.

Definition general_options : list opt :=
  [(Is "--debug", do (fun _ => set_debug));
   on "--debug-blacklists" "arg_debug_blacklists";
   on "--debug-whitelists" "arg_debug_whitelists";
   (Is "--quiet", do (fun _ => quiet_unless_debug));
   (Is "--allow-debuggers", accepted);
   on "--allow-bwrap" "arg_allow_bwrap"] ++
  when_built "HAVE_X11"
    [(Starts "--xephyr-screen=", do (fun _ => or_exit CFG_X11 (cret tt)));
     (Starts "--xephyr-extra-p", do (fun _ => or_exit CFG_X11 (cret tt)))].

(** ** Filters *)

Definition set_apparmor (profile_name : string) : P unit :=
  set_int "arg_apparmor" 1 ;;; set_str "apparmor_profile" profile_name.

(** An option that may be given once. *)
Definition seccomp_option (flag_var : string) (m : P unit) : P unit :=
  or_exit CFG_SECCOMP (unless_set flag_var m).

Definition seccomp_list_option (flag_var list_var : string) : at_arg -> string -> P unit :=
  do (fun a => seccomp_option flag_var (set_seccomp_list flag_var list_var a)).

Definition seccomp_options : list opt :=
  when_built "HAVE_APPARMOR"
    [(Is "--apparmor", do (fun _ => set_apparmor "firejail-default"));
     (Starts "--apparmor=", do set_apparmor);
     (Starts "--apparmor-replace", do (fun _ => set_int "arg_apparmor" 1 ;;; set_int "apparmor_replace" 1))] ++
  [(Starts "--protocol=", do (fun a => or_exit CFG_SECCOMP (augment "protocol" a)));
   (Is "--seccomp", do (fun _ => seccomp_option "arg_seccomp" (set_int "arg_seccomp" 1)));
   (Starts "--seccomp=", seccomp_list_option "arg_seccomp" "seccomp_list");
   (Starts "--seccomp.32=", seccomp_list_option "arg_seccomp32" "seccomp_list32");
   (Starts "--seccomp.drop=", seccomp_list_option "arg_seccomp" "seccomp_list_drop");
   (Starts "--seccomp.32.drop=", seccomp_list_option "arg_seccomp32" "seccomp_list_drop32");
   (Starts "--seccomp.keep=", seccomp_list_option "arg_seccomp" "seccomp_list_keep");
   (Starts "--seccomp.32.keep=", seccomp_list_option "arg_seccomp32" "seccomp_list_keep32");
   (Is "--seccomp.block-secondary", do (fun _ =>
      seccomp_option "arg_seccomp32" (set_int "arg_seccomp_block_secondary" 1)))].

Definition error_action_option (arg : string) : P unit :=
  or_exit CFG_SECCOMP (
    if cfgval CFG_SECCOMP_ERROR_ACTION =? -1 then set_error_action arg else cexit 1).

Definition filter_options : list opt :=
  when_built "HAVE_LANDLOCK"
    [(Starts "--landlock.enforce", do (fun _ => set_int "arg_landlock_enforce" 1));
     (Starts "--landlock.fs.read=", do (ll_add_profile LL_FS_READ));
     (Starts "--landlock.fs.write=", do (ll_add_profile LL_FS_WRITE));
     (Starts "--landlock.fs.makeipc=", do (ll_add_profile LL_FS_MAKEIPC));
     (Starts "--landlock.fs.makedev=", do (ll_add_profile LL_FS_MAKEDEV));
     (Starts "--landlock.fs.execute=", do (ll_add_profile LL_FS_EXEC))] ++
  [(Is "--memory-deny-write-execute", do (fun _ => or_exit CFG_SECCOMP (set_int "arg_memory_deny_write_execute" 1)));
   (Is "--restrict-namespaces", do (fun _ => or_exit CFG_SECCOMP restrict_all_namespaces));
   (Starts "--restrict-namespaces=", do (fun a => or_exit CFG_SECCOMP (augment "restrict_namespaces" a)));
   (Starts "--seccomp-error-action=", do error_action_option)].

(** ** Capabilities and limits *)

(** [invalid_filename] and the check for ".." and control characters. *)
Definition trace_file (arg : string) : P unit :=
  set_int "arg_trace" 1 ;;;
  f <~ expand arg ;;
  set_str "arg_tracefile" f ;;;
  exit_unless (nonempty f) ;;;
  clift (invalid_filename f false) ;;;
  if contains ".." f || has_cntrl_chars f then cexit 1 else cret tt.

Definition limit_options : list opt :=
  [(Is "--caps", do (fun _ => set_int "arg_caps_default_filter" 1 ;;; set_int "arg_caps_cmdline" 1));
   on "--caps.drop=all" "arg_caps_drop_all";
   (Starts "--caps.drop=", do (fun a => set_caps_option "arg_caps_drop" a ;;; set_int "arg_caps_cmdline" 1));
   (Starts "--caps.keep=", do (fun a => set_caps_option "arg_caps_keep" a ;;; set_int "arg_caps_cmdline" 1));
   on "--trace" "arg_trace";
   (Starts "--trace=", do trace_file);
   (Starts "--rlimit-as=", do (set_rlimit_size "rlimit_as"));
   (Starts "--rlimit-cpu=", do (set_rlimit_number "rlimit_cpu"));
   (Starts "--rlimit-fsize=", do (set_rlimit_size "rlimit_fsize"));
   (Starts "--rlimit-nofile=", do (set_rlimit_number "rlimit_nofile"));
   (Starts "--rlimit-nproc=", do (set_rlimit_number "rlimit_nproc"));
   (Starts "--rlimit-sigpending=", do (set_rlimit_number "rlimit_sigpending"));
   (Starts "--ipc-namespace", do (fun _ => set_int "arg_ipc" 1));
   (Starts "--cpu=", do read_cpu_list);
   (Starts "--nice=", do set_nice)].

(** ** Files *)

(** The option is checked as a profile line and added, whatever the check says. *)
Definition as_line (word : string) (arg : string) : P unit :=
  profile_check_line (word +:+ " " +:+ arg) ;;; profile_add (word +:+ " " +:+ arg).

Definition by_line (word : string) : opt := (Starts ("--" +:+ word +:+ "="), do (as_line word)).

Definition file_options : list opt :=
  [on "--allusers" "arg_allusers";
   (Starts "--bind=", do (fun a => or_exit CFG_BIND (as_line "bind" a)));
   by_line "tmpfs"; by_line "blacklist"; by_line "noblacklist"; by_line "whitelist"; by_line "nowhitelist";
   by_line "mkdir"; by_line "mkfile"; by_line "read-only"; by_line "noexec"; by_line "read-write";
   on "--disable-mnt" "arg_disable_mnt"].

(** ** Profiles *)

Definition unreadable (f : string) (c : Config) : bool := bool_decide (is_Some (f_access_r (fs_now c) f)).

Definition include_option (arg : string) : P unit :=
  ppath <~ expand arg ;;
  c <~ cget ;;
  if string_mem "/"%char ppath then profile_read ppath
  else if unreadable ppath c then profile_read ppath
  else rv <~ profile_find_firejail profile_read ppath false ;;
       exit_unless rv.

(** A path, or the name of an application. *)
Definition profile_option (arg : string) : P unit :=
  unless_set "arg_noprofile" (
    ppath <~ expand arg ;;
    clift (invalid_filename ppath false) ;;;
    if has_prefix "/" ppath || has_prefix "~/" ppath || has_prefix "./" ppath || has_prefix "../" ppath then
      c <~ cget ;;
      exit_unless (negb (unreadable ppath c)) ;;;
      profile_read ppath ;;;
      set_int "custom_profile" 1
    else
      exit_unless (negb (string_mem "/"%char ppath || string_mem "."%char ppath)) ;;;
      rv <~ profile_find_firejail profile_read ppath true ;;
      exit_unless rv ;;;
      set_int "custom_profile" 1).

Definition noprofile_option : P unit :=
  unless_set "custom_profile" (set_int "arg_noprofile" 1 ;;; set_int "arg_keep_config_pulse" 1).

Definition keep_fd_option (arg : string) : P unit :=
  if streq arg "all" then set_int "arg_keep_fd_all" 1 else augment "keep_fd" arg.

Definition profile_options : list opt :=
  [(Starts "--include=", do include_option);
   (Starts "--profile=", do profile_option);
   (Is "--noprofile", do (fun _ => noprofile_option));
   (Starts "--ignore=", do (fun a => unless_set "custom_profile" (profile_add_ignore a)));
   (Starts "--keep-fd=", do keep_fd_option)].

(** ** Root and private directories *)

(** chroot.c: the directory exists and is not the root. *)
Definition fs_check_chroot_dir : P unit :=
  c <~ cget ;;
  let dir := default "" (str_of "chrootdir" c) in
  match f_realpath (fs_now c) dir with
  | None => cexit 1
  | Some rpath =>
      if negb (is_dir rpath (fs_now c)) || streq rpath "/" then cexit 1 else set_str "chrootdir" rpath
  end.

Definition chroot_option (arg : string) : P unit :=
  or_exit CFG_CHROOT (
    dir <~ expand arg ;;
    set_str "chrootdir" dir ;;;
    exit_unless (nonempty dir) ;;;
    clift (invalid_filename dir false) ;;;
    fs_check_chroot_dir).

(** The home directory of the user as private directory is a plain --private. *)
Definition private_option (arg : string) : P unit :=
  set_str "home_private" arg ;;;
  exit_unless (nonempty arg) ;;;
  fs_check_private_dir ;;;
  dir <~ get_str "home_private" ;;
  (if streq (default "" dir) homedir then set_null "home_private" else cret tt) ;;;
  set_int "arg_private" 1.

Definition private_list_option (k : CFG) (var flag_var : string) : at_arg -> string -> P unit :=
  do (fun a => or_exit k (exit_unless (nonempty a) ;;; add_private_list var flag_var a)).

Definition root_options : list opt :=
  when_built "HAVE_CHROOT" [(Starts "--chroot=", do chroot_option)] ++
  [(Is "--writable-etc", do (fun _ => set_writable_etc));
   on "--keep-config-pulse" "arg_keep_config_pulse";
   on "--keep-shell-rc" "arg_keep_shell_rc";
   on "--writable-var" "arg_writable_var";
   on "--keep-var-tmp" "arg_keep_var_tmp";
   on "--writable-run-user" "arg_writable_run_user";
   on "--writable-var-log" "arg_writable_var_log";
   on "--machine-id" "arg_machineid"].

Definition private_options : list opt :=
  [on "--private" "arg_private";
   (Starts "--private=", do private_option);
   on "--private-dev" "arg_private_dev";
   on "--keep-dev-ntsync" "arg_keep_dev_ntsync";
   on "--keep-dev-shm" "arg_keep_dev_shm";
   on "--keep-dev-tpm" "arg_keep_dev_tpm";
   (Is "--private-etc", do (fun _ => or_exit CFG_PRIVATE_ETC (not_writable_etc ;;; set_int "arg_private_etc" 1)));
   (Starts "--private-etc=", do (fun a => or_exit CFG_PRIVATE_ETC (
      not_writable_etc ;;; exit_unless (nonempty a) ;;; add_private_list "etc_private_keep" "arg_private_etc" a)));
   (Starts "--private-opt=", private_list_option CFG_PRIVATE_OPT "opt_private_keep" "arg_private_opt");
   (Starts "--private-srv=", private_list_option CFG_PRIVATE_SRV "srv_private_keep" "arg_private_srv");
   (Starts "--private-bin=", private_list_option CFG_PRIVATE_BIN "bin_private_keep" "arg_private_bin");
   on "--private-tmp" "arg_private_tmp";
   (Is "--private-cache", do (fun _ => or_exit CFG_PRIVATE_CACHE (set_int "arg_private_cache" 1)));
   (Is "--private-cwd", do (fun _ => set_null "cwd" ;;; set_int "arg_private_cwd" 1));
   (Starts "--private-cwd=", do (fun a =>
      exit_unless (nonempty a) ;;; fs_check_private_cwd a ;;; set_int "arg_private_cwd" 1))].

(** ** Names and devices *)

Definition block_dbus : P unit :=
  cmodify (with_dbus_user DBUS_POLICY_BLOCK) ;;; cmodify (with_dbus_system DBUS_POLICY_BLOCK).

Definition name_options : list opt :=
  [(Starts "--name=", do set_sandbox_name);
   (Starts "--hostname=", do set_hostname);
   (Is "--hostname-randomize", do (fun _ => randomize_hostname));
   (Is "--keep-hostname", accepted);
   on "--nogroups" "arg_nogroups"] ++
  when_built "HAVE_USERNS" [(Is "--noroot", do (fun _ => or_exit CFG_USERNS check_user_namespace))] ++
  [on "--nonewprivs" "arg_nonewprivs";
   (Starts "--env=", do (fun a => in_env (env_store a SETENV)));
   (Starts "--rmenv=", do (fun a => in_env (env_store a RMENV)));
   on "--nosound" "arg_nosound";
   on "--noautopulse" "arg_keep_config_pulse";
   on "--novideo" "arg_novideo";
   on "--no3d" "arg_no3d";
   (Is "--noprinters", do (fun _ => disable_printers));
   on "--notv" "arg_notv";
   on "--nodvd" "arg_nodvd";
   (Is "--notpm", accepted);
   on "--nou2f" "arg_nou2f";
   on "--noinput" "arg_noinput";
   (Is "--nodbus", do (fun _ => block_dbus))].

(** ** D-Bus *)

Definition dbus_log_file (arg : string) : P unit :=
  f <~ get_str "arg_dbus_log_file" ;;
  match f with Some _ => cexit 1 | None => set_str "arg_dbus_log_file" arg end.

Definition dbus_log (policy : Config -> DbusPolicy) (log : string) : P unit :=
  c <~ cget ;; if decide (policy c = DBUS_POLICY_FILTER) then set_int log 1 else cexit 1.

Definition dbus_options : list opt :=
  when_built "HAVE_DBUSPROXY"
    [(Starts "--dbus-user=", do (set_dbus_policy arg_dbus_user with_dbus_user "arg_dbus_log_user"));
     by_line "dbus-user.see"; by_line "dbus-user.talk"; by_line "dbus-user.own"; by_line "dbus-user.call";
     by_line "dbus-user.broadcast";
     (Starts "--dbus-system=", do (set_dbus_policy arg_dbus_system with_dbus_system "arg_dbus_log_system"));
     by_line "dbus-system.see"; by_line "dbus-system.talk"; by_line "dbus-system.own"; by_line "dbus-system.call";
     by_line "dbus-system.broadcast";
     (Starts "--dbus-log=", do dbus_log_file);
     (Is "--dbus-user.log", do (fun _ => dbus_log arg_dbus_user "arg_dbus_log_user"));
     (Is "--dbus-system.log", do (fun _ => dbus_log arg_dbus_system "arg_dbus_log_system"))] ++
  [on "--unhide-pid1" "arg_unhide_pid1"].

(** ** Networks *)

(** [n] is "interface0" .. "interface3". *)
Definition interface_configured (n : string) (c : Config) : bool := negb (int_of (n +:+ ".configured") c =? 0).
Definition interfaces : list string := ["interface0"; "interface1"; "interface2"; "interface3"].

Definition store_bytes (n : string) (mac : list Z) : P unit :=
  cfold (fun '(i, b) _ => set_int (n +:+ "[" +:+ print_u (Z.of_nat i) +:+ "]") b) (imap (fun i b => (i, b)) mac) tt.

Definition store_addr (n : string) (a : if_addr) : P unit :=
  set_int (n +:+ ".ip") (a_ip a) ;;;
  set_int (n +:+ ".mask") (a_mask a) ;;;
  match a_mac a with Some mac => store_bytes (n +:+ ".mac") mac | None => cret tt end ;;;
  match a_mtu a with Some mtu => set_int (n +:+ ".mtu") mtu | None => cret tt end.

Definition interface_option (arg : string) : P unit :=
  or_exit CFG_NETWORK (
    unless_set "arg_nonetwork" (
      exit_unless (negb (streq arg "lo")) ;;;
      exit_unless (0 <? if_nametoindex arg) ;;;
      c <~ cget ;;
      match List.find (fun n => negb (interface_configured n c)) interfaces with
      | None => cexit 1
      | Some n =>
          set_str (n +:+ ".dev") arg ;;;
          r <~ clift (net_get_if_addr arg) ;;
          match r with Some a => store_addr n a | None => cret tt end ;;;
          set_int (n +:+ ".configured") 1
      end)).

Definition netmask_option (arg : string) : P unit :=
  or_exit CFG_NETWORK (on_last_bridge (fun i br =>
    if negb (arg_ip_none br =? 0) || negb (mask br =? 0) then cexit 1
    else match atoip arg with Some m => upd_bridge i (with_mask m) | None => cexit 1 end)).

(** An option for [cfg.bridge0] .. [cfg.bridge3]. *)
Definition network_option (m : string -> P unit) : at_arg -> string -> P unit :=
  do (fun a => or_exit CFG_NETWORK (m a)).

Definition net_options : list opt :=
  (Is "--net=none", do (fun _ => disable_network ;;; profile_add "blacklist /run/systemd/resolve")) ::
  when_built "HAVE_NETWORK"
    [(Is "--netlock", network_option (fun _ => set_int "arg_netlock" 1));
     (Starts "--netlock=", fun _ a =>
        or_exit CFG_NETWORK (pid <~ pid_of a ;; emit (Call "netfilter_netlock" pid [])) ;;; cexit 0);
     (Starts "--interface=", do interface_option);
     (Starts "--net=", network_option (fun a => if streq a "none" then disable_network else add_network a));
     (Starts "--veth-name=", network_option set_veth_name);
     (Is "--scan", network_option (fun _ => set_int "arg_scan" 1))].

Definition address_options : list opt :=
  when_built "HAVE_NETWORK"
    [(Starts "--iprange=", network_option set_iprange);
     (Starts "--mac=", network_option set_mac);
     (Starts "--mtu=", network_option set_mtu);
     (Starts "--ip=", network_option set_ip);
     (Starts "--netmask=", do netmask_option);
     (Starts "--ip6=", network_option set_ip6);
     (Starts "--defaultgw=", network_option set_defaultgw)] ++
  [(Starts "--dns=", do add_dns);
   (Starts "--hosts-file=", do (fun a => f <~ fs_check_hosts_file a ;; set_str "hosts_file" f))] ++
  when_built "HAVE_NETWORK"
    [(Is "--netfilter", network_option (fun _ => set_int "arg_netfilter" 1));
     (Starts "--netfilter=", network_option (set_netfilter "arg_netfilter"));
     (Starts "--netfilter6=", network_option (set_netfilter "arg_netfilter6"));
     (Starts "--netns=", network_option set_netns)].

(** ** The program *)

Definition command_options : list opt :=
  [(Starts "--timeout=", do (fun a => t <~ clift (extract_timeout a) ;; set_int "timeout" t));
   (Is "--appimage", accepted);
   (Starts "--oom=", accepted);
   (Starts "--shell=", do (fun _ => cexit 1));
   (Is "-c", fun at_i _ =>
      set_int "arg_command" 1 ;;; match behind at_i with [] => cexit 1 | _ => cret tt end);
   on "--x11=none" "arg_x11_block"] ++
  when_built "HAVE_X11" (when_built "HAVE_X11_LEGACY"
    [(Is "--x11=xorg", do (fun _ => or_exit CFG_X11 (set_int "arg_x11_xorg" 1)))]) ++
  [(Starts "--join-or-start=", do set_sandbox_name);
   on "--deterministic-exit-code" "arg_deterministic_exit_code";
   on "--deterministic-shutdown" "arg_deterministic_shutdown";
   on "--tab" "arg_tab"].

Definition options : list opt :=
  general_options ++ seccomp_options ++ filter_options ++ limit_options ++ file_options ++ profile_options ++
  root_options ++ private_options ++ name_options ++ dbus_options ++ net_options ++ address_options ++
  command_options.

(** The program name ends the options: [prog_index]. *)
Definition program (i : Z) (arg : string) : P (option Z) :=
  appimage <~ get_int "arg_appimage" ;;
  (if negb (appimage =? 0) then set_str "command_name" arg
   else set_int "original_program_index" i ;;;
        name <~ clift (extract_command_name arg) ;; set_str "command_name" name) ;;;
  cret (Some i).

(** The loop over argv, from index [i]; [None] is a [prog_index] of -1. *)
Fixpoint parse_options (i : Z) (args : list string) : P (option Z) :=
  match args with
  | [] => cret None
  | arg :: args' =>
      let at_i := mk_at i args' in
      run_cmd_and_exit at_i arg ;;;
      match find_opt options arg with
      | Some f => f at_i ;;; parse_options (i + 1) args'
      | None =>
          if streq arg "--" then
            set_int "arg_doubledash" 1 ;;;
            match args' with [] => cexit 1 | prog :: _ => program (i + 1) prog end
          else if has_prefix "-" arg then cexit 1
          else program i arg
      end
  end.
End Options.
