(* ===== verification/Session.v ===== *)
(** * The session of the user (src/firejail/pulseaudio.c, x11.c, dbus.c)

    The sound servers, X11 sockets and D-Bus buses a sandbox is cut off from or
    reaches through a private file. *)

From S2P Require Import Prelude.
From S2P Require Import Clib.
From S2P Require Import Env.
From S2P Require Import Text.
From S2P Require Import Common.
From S2P Require Import Mountinfo.
From S2P Require Import Util.
From S2P Require Import Dbus.
From S2P Require Import Checkcfg.
From S2P Require Import Macros.
From S2P Require Import ProfileState.
From S2P Require Import ProfileCommands.
From S2P Require Import NetConfig.
From S2P Require Import Sys.
From S2P Require Import SysFiles.
From S2P Require Import Fs.

(** What these functions ask besides: glob(3) with GLOB_NOCHECK and GLOB_NOSORT,
    the type of an open file and of a path that is not followed, mkstemp(3), a free
    loop device. *)
Class SessionHost := {
  glob_nocheck : list effect -> string -> option (list string);
  fd_issock : list effect -> Z -> bool;
  fd_isreg : list effect -> Z -> bool;
  lstat_issock : list effect -> string -> bool;
  mkstemp : list effect -> string -> option string;
  loop_device : list effect -> Z                        (* LOOP_CTL_GET_FREE *)
}.

Definition PULSE_CLIENT_SYSCONF : string := "/etc/pulse/client.conf".
Definition RUN_PULSE_DIR : string := RUN_MNT_DIR +:+ "/pulse".
Definition RUN_XAUTH_FILE : string := RUN_MNT_DIR +:+ "/xauth".
Definition RUN_XAUTHORITY_SEC_DIR : string := RUN_MNT_DIR +:+ "/.sec.Xauthority".

Definition XDG_DBUS_PROXY_PATH : string := "/usr/bin/xdg-dbus-proxy".
Definition DBUS_SOCKET_PATH_PREFIX : string := "unix:path=".
Definition DBUS_SYSTEM_SOCKET : string := "/run/dbus/system_bus_socket".
Definition RUN_FIREJAIL_DBUS_DIR : string := RUN_FIREJAIL_DIR +:+ "/dbus".
Definition RUN_DBUS_DIR : string := RUN_MNT_DIR +:+ "/dbus".
Definition RUN_DBUS_USER_SOCKET : string := RUN_DBUS_DIR +:+ "/user".
Definition RUN_DBUS_SYSTEM_SOCKET : string := RUN_DBUS_DIR +:+ "/system".

(** The number of a display ":N" or ":N.M"; -1 for anything else. *)
Definition x11_display (p : proc) : Z :=
  match env_get "DISPLAY" p with
  | Some (String c0 (String c1 s)) =>
      if Ascii.eqb c0 ":"%char && isdigit c1 then
        let '(display, endp) := read_digits 10 0 (String c1 s) in
        let more := match endp with EmptyString => false | String c _ => negb (Ascii.eqb c "."%char) end in
        if more || (INT_MAX <? display) then -1 else display
      else -1
  | _ => -1
  end.

Definition stat_ok (st : fstat + Z) : bool := match st with inl _ => true | inr _ => false end.
Definition sticky (s : fstat) : bool := Z.testbit (st_perm s) 9.

Section Session.
Context `{H : Host} `{N : NetHost} `{K : Kernel} `{SH : SessionHost}.

Definition run_user : string := "/run/user/" +:+ print_d (s32 uid).

Definition get_env (n : string) : P (option string) := c <~ cget ;; cret (env_get n (environment c)).

(** A descriptor that nothing but the path itself leads to, or the end. *)
Definition open_path (fl : Z) (path : string) : P Z :=
  fd <~ safer_openat (-1) path fl ;; match fd with Some fd => cret fd | None => cexit 1 end.

(** A new mount is read-only when the file it hides was. *)
Definition keep_readonly (fd : Z) (dir : string) : P unit :=
  f_flag <~ ask (fun l => sys_statvfs l fd) ;;
  match f_flag with
  | None => cexit 1
  | Some f_flag => if Z.land f_flag MS_RDONLY =? MS_RDONLY then fs_remount dir MOUNT_READONLY false else cret tt
  end.

(** The last mount is a tmpfs on this directory. *)
Definition check_last_mount (dir : string) : P unit :=
  m <~ get_last_mount ;; exit_unless (streq (Mountinfo.dir m) dir && streq (fstype m) "tmpfs").

(** ** pulseaudio.c *)

Definition disable_rundir_pipewire (path : string) : P unit :=
  r <~ ask (fun l => glob_nocheck l (path +:+ "/pipewire-*")) ;;
  match r with
  | None => cexit 1
  | Some paths =>
      cfold (fun dir _ => c <~ cget ;; if is_link dir (fs_now c) then cret tt else disable_file_or_dir dir) paths tt
  end.

Definition pipewire_disable : P unit :=
  disable_file_path homedir ".config/pipewire" ;;;
  name <~ get_env "XDG_RUNTIME_DIR" ;;
  match name with Some name => disable_rundir_pipewire name | None => cret tt end ;;;
  disable_rundir_pipewire run_user.

(** opendir, tried again after two seconds. *)
Definition opendir_retry (name : string) : P (option (list string)) :=
  d <~ ask (fun l => opendir l name) ;;
  match d with
  | Some names => cret (Some names)
  | None => emit (Call "sleep" 2 []) ;;; ask (fun l => opendir l name)
  end.

Definition pulseaudio_disable : P unit :=
  disable_file_path homedir ".config/pulse" ;;;
  name <~ get_env "XDG_RUNTIME_DIR" ;;
  match name with Some name => disable_file_path name "pulse/native" | None => cret tt end ;;;
  disable_file_path run_user "pulse" ;;;
  dir <~ opendir_retry "/tmp" ;;
  cfold (fun d_name _ => if has_prefix "pulse-" d_name then disable_file_path "/tmp" d_name else cret tt)
    (default [] dir) tt.

(** A new directory for the user with a configuration that switches shared memory
    off. *)
Definition pulse_dir (homeusercfg pulsecfg : string) : P unit :=
  r <~ do_call (Call "mkdir" 448 [RUN_PULSE_DIR]) ;; or_exit r ;;;
  selinux_relabel_path RUN_PULSE_DIR homeusercfg ;;;
  fs_remount RUN_PULSE_DIR MOUNT_NOEXEC false ;;;
  e <~ copy_file PULSE_CLIENT_SYSCONF pulsecfg (-1) (-1) 420 ;; or_exit e ;;;
  r <~ fopen pulsecfg "a" (String newline EmptyString +:+ line "enable-shm = no") ;; or_exit r ;;;
  set_perms_stream pulsecfg uid own_gid 420 ;;;
  p <~ set_perms RUN_PULSE_DIR uid own_gid 448 ;; or_exit p.

Definition mount_pulse (homeusercfg : string) (fd : Z) : P unit :=
  keep_readonly fd RUN_PULSE_DIR ;;;
  r <~ bind_mount_path_to_fd RUN_PULSE_DIR fd ;; or_exit r ;;;
  check_last_mount homeusercfg ;;;
  in_env (env_store_name_val "PULSE_CLIENTCONFIG" (homeusercfg +:+ "/client.conf") SETENV) ;;;
  mount_tmpfs RUN_PULSE_DIR (flags [MS_NOSUID; MS_NODEV; MS_STRICTATIME]) "mode=755,gid=0".

Definition pulseaudio_init : P unit :=
  c <~ cget ;;
  if negb (bool_decide (f_access_r (fs_now c) PULSE_CLIENT_SYSCONF = None)) then cret tt
  else
    create_empty_dir_as_user (homedir +:+ "/.config") 448 ;;;
    let homeusercfg := homedir +:+ "/.config/pulse" in
    create_empty_dir_as_user homeusercfg 448 ;;;
    let pulsecfg := RUN_PULSE_DIR +:+ "/client.conf" in
    pulse_dir homeusercfg pulsecfg ;;;
    EUID_USER ;;;
    fd <~ safer_openat (-1) homeusercfg (flags [O_PATH; O_DIRECTORY; O_NOFOLLOW; O_CLOEXEC]) ;;
    EUID_ROOT ;;;
    match fd with
    | None => in_env (env_store_name_val "PULSE_CLIENTCONFIG" pulsecfg SETENV)
    | Some fd => mount_pulse homeusercfg fd
    end.

(** ** X11 sockets (x11.c) *)

(** The directory of the sockets gets a tmpfs with the one socket of the display. *)
Definition mask_x11 (x11file : string) (src : Z) : P unit :=
  mount_tmpfs "/tmp/.X11-unix" (flags [MS_NOSUID; MS_NOEXEC; MS_NODEV; MS_STRICTATIME]) "mode=1777,uid=0,gid=0" ;;;
  selinux_relabel_path "/tmp/.X11-unix" "/tmp/.X11-unix" ;;;
  r <~ do_call (Call "open" 384 [x11file; "O_RDONLY|O_CREAT|O_EXCL|O_CLOEXEC"]) ;; or_exit r ;;;
  dst <~ ask sys_created ;;
  r <~ bind_mount_by_fd src dst ;; or_exit r.

Definition fs_x11 : P unit :=
  c <~ cget ;;
  let display := x11_display (environment c) in
  if negb (built "HAVE_X11") || (display <=? 0) then cret tt
  else
    s1 <~ ask (fun l => sys_stat l "/tmp") ;;
    s2 <~ ask (fun l => sys_lstat l "/tmp/.X11-unix") ;;
    match s1, s2 with
    | Some s1, Some s2 =>
        if negb (sticky s1) || negb (st_uid s2 =? 0) then cret tt
        else
          let x11file := "/tmp/.X11-unix/X" +:+ print_d display in
          src <~ open (flags [O_PATH; O_NOFOLLOW; O_CLOEXEC]) x11file ;;
          match src with
          | None => cret tt
          | Some src =>
              st <~ ask (fun l => sys_fstat l src) ;;
              exit_unless (stat_ok st) ;;;
              sock <~ ask (fun l => fd_issock l src) ;;
              if sock : bool then mask_x11 x11file src else cret tt
          end
    | _, _ => cret tt
    end.

(** ** --x11=xorg *)

Definition copy_xauth : P unit :=
  s <~ ask (fun l => sys_stat l "/usr/bin/xauth") ;;
  match s with
  | None => cexit 1
  | Some s =>
      exit_unless (negb ((negb (st_uid s =? 0) && negb (st_gid s =? 0)) || Z.testbit (st_perm s) 1)) ;;;
      size <~ ask (fun l => sys_size l "/usr/bin/xauth") ;;
      exit_unless (size <=? 1024 * 1024) ;;;
      r <~ copy_file "/usr/bin/xauth" RUN_XAUTH_FILE 0 0 457 ;; or_exit r
  end.

(** A new file with a cookie for an untrusted client. *)
Definition generate_xauth (display : string) : P string :=
  mkdir_attr RUN_XAUTHORITY_SEC_DIR 448 uid own_gid ;;;
  EUID_USER ;;;
  tmp <~ ask (fun l => mkstemp l (RUN_XAUTHORITY_SEC_DIR +:+ "/.Xauth-XXXXXX")) ;;
  match tmp with
  | None => cexit 1
  | Some tmpfname =>
      debug <~ get_int "arg_debug" ;;
      sbox_run (Z.lor (Z.lor SBOX_USER SBOX_CAPS_NONE) SBOX_SECCOMP)
        ([RUN_XAUTH_FILE] ++ (if debug =? 0 then [] else ["-v"]) ++
         ["-f"; tmpfname; "generate"; display; "MIT-MAGIC-COOKIE-1"; "untrusted"]) ;;;
      cret tmpfname
  end.

Definition exists_now (path : string) : P bool := c <~ cget ;; cret (f_stat (fs_now c) path).

(** The file of the user the new one is mounted on. *)
Definition open_xauthority (dest : string) : P Z :=
  there <~ exists_now dest ;;
  (if there : bool then cret tt
   else touch_file_as_user dest 384 ;;; there <~ exists_now dest ;; exit_unless there) ;;;
  dst <~ open_path (flags [O_PATH; O_NOFOLLOW; O_CLOEXEC]) dest ;;
  s <~ ask (fun l => sys_fstat l dst) ;;
  match s with
  | inr _ => cexit 1
  | inl s => regular <~ ask (fun l => fd_isreg l dst) ;; exit_unless (regular && (st_uid s =? uid)) ;;; cret dst
  end.

Definition open_new_xauth (tmpfname : string) : P Z :=
  src <~ open_path (flags [O_PATH; O_NOFOLLOW; O_CLOEXEC]) tmpfname ;;
  s <~ ask (fun l => sys_fstat l src) ;;
  exit_unless (stat_ok s) ;;;
  regular <~ ask (fun l => fd_isreg l src) ;; exit_unless regular ;;; cret src.

(** The old file is hidden when it is another one. *)
Definition hide_xauthority (dest : string) : P unit :=
  envar <~ get_env "XAUTHORITY" ;;
  match envar with
  | None => cret tt
  | Some envar =>
      c <~ cget ;;
      match f_realpath (fs_now c) envar with
      | Some rp => if streq rp dest then cret tt else EUID_ROOT ;;; disable_file_or_dir rp ;;; EUID_USER
      | None => cret tt
      end
  end.

Definition x11_xorg : P unit :=
  if negb (built "HAVE_X11" && built "HAVE_X11_LEGACY") then cret tt
  else
    display <~ get_env "DISPLAY" ;;
    match display with
    | None => cexit 1
    | Some display =>
        copy_xauth ;;;
        tmpfname <~ generate_xauth display ;;
        let dest := homedir +:+ "/.Xauthority" in
        dst <~ open_xauthority dest ;;
        keep_readonly dst RUN_XAUTHORITY_SEC_DIR ;;;
        fs_remount RUN_XAUTHORITY_SEC_DIR MOUNT_NOEXEC false ;;;
        src <~ open_new_xauth tmpfname ;;
        EUID_ROOT ;;;
        r <~ bind_mount_by_fd src dst ;; or_exit r ;;;
        EUID_USER ;;;
        check_last_mount dest ;;;
        assert_perms dest uid own_gid 384 ;;;
        hide_xauthority dest ;;;
        in_env (env_store_name_val "XAUTHORITY" dest SETENV) ;;;
        EUID_ROOT ;;;
        mount_tmpfs RUN_XAUTHORITY_SEC_DIR (flags [MS_NOSUID; MS_NODEV; MS_STRICTATIME]) "mode=755,gid=0" ;;;
        emit (Call "unlink" 0 [RUN_XAUTH_FILE])
    end.

(** ** The D-Bus proxy (dbus.c) *)

Definition dbus_user_dir : string := RUN_FIREJAIL_DBUS_DIR +:+ "/" +:+ print_d (s32 uid).
Definition proxy_socket (bus : string) : string := dbus_user_dir +:+ "/" +:+ print_d getpid +:+ "-" +:+ bus.

(** The two places the user socket may be at. *)
Definition user_sockets : list string := [run_user +:+ "/bus"; run_user +:+ "/dbus/user_bus_socket"].

Definition dbus_create_user_dir : P unit :=
  there <~ exists_now dbus_user_dir ;;
  if there : bool then cret tt
  else
    r <~ do_call (Call "mkdir" 448 [dbus_user_dir]) ;; exit_unless ((r =? 0) || (r =? EEXIST)) ;;;
    p <~ set_perms dbus_user_dir uid own_gid 448 ;; or_exit p ;;;
    assert_perms dbus_user_dir uid own_gid 448.

Definition find_user_socket : P string :=
  found <~ ask (fun l => List.find (lstat_issock l) user_sockets) ;;
  match found with Some s => cret s | None => cexit 1 end.

(** The arguments of one bus: its address, the socket of the proxy, the filter. *)
Definition bus_args (address socket log prefix : string) (c : Config) : list string :=
  [address; socket] ++ (if int_of log c =? 0 then [] else ["--log"]) ++ ["--filter"] ++ write_profile (profile c) prefix.

Definition user_bus : P (list string) :=
  address <~ get_env "DBUS_SESSION_BUS_ADDRESS" ;;
  address <~ (match address with
              | Some a => cret a
              | None => s <~ find_user_socket ;; cret (DBUS_SOCKET_PATH_PREFIX +:+ s)
              end) ;;
  set_str "dbus_user_proxy_socket" (proxy_socket "user") ;;;
  c <~ cget ;;
  cret (bus_args address (proxy_socket "user") "arg_dbus_log_user" "dbus-user." c).

Definition system_bus : P (list string) :=
  address <~ get_env "DBUS_SYSTEM_BUS_ADDRESS" ;;
  set_str "dbus_system_proxy_socket" (proxy_socket "system") ;;;
  c <~ cget ;;
  cret (bus_args (default (DBUS_SOCKET_PATH_PREFIX +:+ DBUS_SYSTEM_SOCKET) address) (proxy_socket "system")
          "arg_dbus_log_system" "dbus-system." c).

(** The child is the confined proxy.  The call returns 0 when the proxy is ready, 1 when
    it has ended, and anything else when the pipe cannot be read. *)
Definition dbus_proxy_start : P unit :=
  dbus_create_user_dir ;;;
  EUID_USER ;;;
  c <~ cget ;;
  user <~ (if bool_decide (arg_dbus_user c = DBUS_POLICY_FILTER) then user_bus else cret []) ;;
  system <~ (if bool_decide (arg_dbus_system c = DBUS_POLICY_FILTER) then system_bus else cret []) ;;
  r <~ do_call (Call "xdg-dbus-proxy" 0 (user ++ system)) ;;
  if r =? 0 then cret tt else cexit (if r =? 1 then -1 else 1).

(** ** The buses of the sandbox *)

Definition socket_overlay (socket_path proxy_path : string) : P unit :=
  fd <~ open_path (flags [O_PATH; O_NOFOLLOW; O_CLOEXEC]) proxy_path ;;
  s <~ ask (fun l => sys_fstat l fd) ;;
  exit_unless (stat_ok s) ;;;
  sock <~ ask (fun l => fd_issock l fd) ;; exit_unless sock ;;;
  r <~ bind_mount_fd_to_path fd socket_path ;; or_exit r.

Definition get_socket_env (name : string) : P (option string) :=
  v <~ get_env name ;; cret (v <-? v ;; strip_prefix DBUS_SOCKET_PATH_PREFIX v).

Definition disable_socket_dir : P unit :=
  there <~ exists_now RUN_FIREJAIL_DBUS_DIR ;;
  if there : bool then disable_file_or_dir RUN_FIREJAIL_DBUS_DIR else cret tt.

(** The socket a variable names, unless it is one of [known]. *)
Definition disable_env_socket (name : string) (known : list string) : P unit :=
  v <~ get_socket_env name ;;
  match v with
  | Some v => if existsb (streq v) known then cret tt else disable_file_or_dir v
  | None => cret tt
  end.

(** An empty file, or the socket of the proxy, instead of the socket of the bus. *)
Definition replace_socket (policy : DbusPolicy) (socket proxy : string) : P unit :=
  create_empty_file_as_root socket 384 ;;;
  if decide (policy = DBUS_POLICY_FILTER) then
    proxy_path <~ get_str proxy ;;
    match proxy_path with Some p => socket_overlay socket p | None => cfail end
  else cret tt.

Definition dbus_set_session_bus_env : P unit :=
  in_env (env_store_name_val "DBUS_SESSION_BUS_ADDRESS" (DBUS_SOCKET_PATH_PREFIX +:+ RUN_DBUS_USER_SOCKET) SETENV).
Definition dbus_set_system_bus_env : P unit :=
  in_env (env_store_name_val "DBUS_SYSTEM_BUS_ADDRESS" (DBUS_SOCKET_PATH_PREFIX +:+ RUN_DBUS_SYSTEM_SOCKET) SETENV).

Definition dbus_user_policy (policy : DbusPolicy) : P unit :=
  replace_socket policy RUN_DBUS_USER_SOCKET "dbus_user_proxy_socket" ;;;
  cfold (fun s _ => disable_file_or_dir s) user_sockets tt ;;;
  disable_env_socket "DBUS_SESSION_BUS_ADDRESS" user_sockets ;;;
  dbus_set_session_bus_env ;;;
  disable_file_or_dir (homedir +:+ "/.dbus").

Definition dbus_system_policy (policy : DbusPolicy) : P unit :=
  replace_socket policy RUN_DBUS_SYSTEM_SOCKET "dbus_system_proxy_socket" ;;;
  disable_file_or_dir DBUS_SYSTEM_SOCKET ;;;
  disable_env_socket "DBUS_SYSTEM_BUS_ADDRESS" [DBUS_SYSTEM_SOCKET] ;;;
  dbus_set_system_bus_env.

Definition dbus_apply_policy : P unit :=
  EUID_ROOT ;;;
  c <~ cget ;;
  let user := arg_dbus_user c in
  let system := arg_dbus_system c in
  if bool_decide (user = DBUS_POLICY_ALLOW) && bool_decide (system = DBUS_POLICY_ALLOW) then disable_socket_dir
  else if negb (enabled CFG_DBUS) then disable_socket_dir
  else
    create_empty_dir_as_root RUN_DBUS_DIR 493 ;;;
    (if decide (user = DBUS_POLICY_ALLOW) then cret tt else dbus_user_policy user) ;;;
    (if decide (system = DBUS_POLICY_ALLOW) then cret tt else dbus_system_policy system) ;;;
    disable_socket_dir.
End Session.
