(* ===== verification/Chroot.v ===== *)
(** * /run/firejail and --chroot (src/firejail/preproc.c, chroot.c)

    The run-time directory with its lock, the tmpfs that holds the files of one
    sandbox, and the change into another root directory. *)

From S2P Require Import Prelude.
From S2P Require Import Clib.
From S2P Require Import Bpf.
From S2P Require Import Caps.
From S2P Require Import Env.
From S2P Require Import Text.
From S2P Require Import Common.
From S2P Require Import Install.
From S2P Require Import Util.
From S2P Require Import Checkcfg.
From S2P Require Import Macros.
From S2P Require Import ProfileState.
From S2P Require Import ProfileCommands.
From S2P Require Import NetConfig.
From S2P Require Import Sys.
From S2P Require Import SysFiles.
From S2P Require Import FsVar.
From S2P Require Import FsEtc.
From S2P Require Import RestrictUsers.
From S2P Require Import Fs.
From S2P Require Import FsHost.
From S2P Require Import FsWhitelist.
From S2P Require Import Session.

Definition RUN_FIREJAIL_BASEDIR : string := "/run".
Definition RUN_NETWORK_LOCK_FILE : string := RUN_FIREJAIL_DIR +:+ "/firejail-network.lock".
Definition RUN_DIRECTORY_LOCK_FILE : string := RUN_FIREJAIL_DIR +:+ "/firejail-run.lock".
Definition RUN_OVERLAY_ROOT : string := RUN_MNT_DIR +:+ "/oroot".

Definition LOCK_INITIAL_SLEEP_USEC : Z := 500.
Definition LOCK_MAX_SLEEP_USEC : Z := 500000.
Definition LOCK_TIMEOUT_USEC : Z := 5000000.
Definition EWOULDBLOCK : Z := 11.

(** Attempts; the twentieth comes after the timeout. *)
Definition LOCK_ROUNDS : nat := 20.

Section Preproc.
Context `{H : Host} `{CH : CapHeaders} `{N : NetHost} `{K : Kernel}.

(** ** Locks *)

Definition next_sleep (usec : Z) : Z :=
  if LOCK_MAX_SLEEP_USEC <? usec * 2 then LOCK_MAX_SLEEP_USEC else usec * 2.

Fixpoint lock_loop (fuel : nat) (path : string) (sleep_usec wait_total : Z) : P unit :=
  match fuel with
  | O => cnofuel
  | S f =>
      r <~ do_call (Call "flock" 0 [path]) ;;
      if r =? 0 then cret tt
      else if r =? EWOULDBLOCK then
        if LOCK_TIMEOUT_USEC <=? wait_total then cexit 1
        else emit (Call "usleep" sleep_usec []) ;;;
             lock_loop f path (next_sleep sleep_usec) (wait_total + sleep_usec)
      else cexit 1
  end.

(** The variable [lockfd] is 1 for an open descriptor, 0 for -1. *)
Definition preproc_lock_file (path lockfd : string) : P unit :=
  held <~ get_int lockfd ;;
  if negb (held =? 0) then cret tt
  else
    r <~ do_call (Call "open" 384 [path; "O_WRONLY|O_CREAT|O_CLOEXEC"]) ;; or_exit r ;;;
    r <~ do_call (Call "fchown" 0 [path; "0"]) ;; or_exit r ;;;
    lock_loop LOCK_ROUNDS path LOCK_INITIAL_SLEEP_USEC 0 ;;;
    set_int lockfd 1.

Definition preproc_unlock_file (path lockfd : string) : P unit :=
  held <~ get_int lockfd ;;
  if held =? 0 then cret tt
  else
    r <~ do_call (Call "funlock" 0 [path]) ;; or_exit r ;;;
    r <~ do_call (Call "close" 0 [path]) ;; or_exit r ;;;
    set_int lockfd 0.

(** SIGTSTP is ignored while a lock is held. *)
Definition preproc_lock_firejail_dir : P unit :=
  emit (Call "install_ignore_tstp_signal_handler" 0 ["directory"]) ;;;
  preproc_lock_file RUN_DIRECTORY_LOCK_FILE "lockfd_directory".
Definition preproc_unlock_firejail_dir : P unit :=
  preproc_unlock_file RUN_DIRECTORY_LOCK_FILE "lockfd_directory" ;;;
  emit (Call "uninstall_ignore_tstp_signal_handler" 0 ["directory"]).
Definition preproc_lock_firejail_network_dir : P unit :=
  emit (Call "install_ignore_tstp_signal_handler" 0 ["network"]) ;;;
  preproc_lock_file RUN_NETWORK_LOCK_FILE "lockfd_network".
Definition preproc_unlock_firejail_network_dir : P unit :=
  preproc_unlock_file RUN_NETWORK_LOCK_FILE "lockfd_network" ;;;
  emit (Call "uninstall_ignore_tstp_signal_handler" 0 ["network"]).

(** ** Directories *)

Definition preproc_build_firejail_dir_unlocked : P unit :=
  c <~ cget ;;
  (if f_stat (fs_now c) RUN_FIREJAIL_BASEDIR then cret tt else create_empty_dir_as_root RUN_FIREJAIL_BASEDIR 493) ;;;
  create_empty_dir_as_root RUN_FIREJAIL_DIR 493.

Definition run_dirs : list string :=
  [RUN_FIREJAIL_NETWORK_DIR; RUN_FIREJAIL_NAME_DIR; SysFiles.RUN_FIREJAIL_PROFILE_DIR; RUN_FIREJAIL_X11_DIR;
   RUN_FIREJAIL_APPIMAGE_DIR; RUN_FIREJAIL_LIB_DIR; RUN_MNT_DIR].

Definition preproc_build_firejail_dir_locked : P unit :=
  cfold (fun d _ => create_empty_dir_as_root d 493) run_dirs tt ;;;
  create_empty_dir_as_root RUN_FIREJAIL_SANDBOX_DIR 448 ;;;
  (if built "HAVE_DBUSPROXY" then
     create_empty_dir_as_root RUN_FIREJAIL_DBUS_DIR 493 ;;; fs_remount RUN_FIREJAIL_DBUS_DIR MOUNT_NOEXEC false
   else cret tt) ;;;
  create_empty_dir_as_root RUN_RO_DIR 256 ;;;
  fs_remount RUN_RO_DIR MOUNT_READONLY false ;;;
  create_empty_file_as_root RUN_RO_FILE 256 ;;;
  fs_remount RUN_RO_FILE MOUNT_READONLY false.

(** ** /run/firejail/mnt *)

Definition built_filter (name : string) : string := libdir +:+ "/firejail/" +:+ name.

(** The filters made when firejail was built, with their copies for the sandbox. *)
Definition copied_filters (c : Config) : list (string * string) :=
  (if set "arg_seccomp_block_secondary" c then [(built_filter "seccomp.block_secondary", RUN_SECCOMP_BLOCK_SECONDARY)]
   else [(built_filter "seccomp.32", RUN_SECCOMP_32)]) ++
  (if set "arg_allow_debuggers" c
   then [(built_filter "seccomp.debug", RUN_SECCOMP_CFG); (built_filter "seccomp.debug32", RUN_SECCOMP_32)]
   else [(built_filter "seccomp", RUN_SECCOMP_CFG)]) ++
  (if set "arg_memory_deny_write_execute" c
   then [(built_filter "seccomp.mdwx", RUN_SECCOMP_MDWX); (built_filter "seccomp.mdwx.32", RUN_SECCOMP_MDWX_32)]
   else []).

Definition copied_namespaces (c : Config) : list (string * string) :=
  if given "restrict_namespaces" c
  then [(built_filter "seccomp.namespaces", RUN_SECCOMP_NS); (built_filter "seccomp.namespaces.32", RUN_SECCOMP_NS_32)]
  else [].

Definition copy_filter (f : string * string) : P unit := copy_file f.1 f.2 uid own_gid 420 ;;; cret tt.

Definition own_empty_file (fname : string) : P unit :=
  create_empty_file_as_root fname 420 ;;; p <~ set_perms fname uid own_gid 420 ;; or_exit p.

Definition preproc_mount_mnt_dir : P unit :=
  mounted <~ get_int "tmpfs_mounted" ;;
  if negb (mounted =? 0) then cret tt
  else
    mount_tmpfs RUN_MNT_DIR (flags [MS_NOSUID; MS_STRICTATIME]) "mode=755,gid=0" ;;;
    set_int "tmpfs_mounted" 1 ;;;
    tracefile <~ get_str "arg_tracefile" ;;
    match tracefile with Some f => fs_tracefile f | None => cret tt end ;;;
    create_empty_dir_as_root RUN_SECCOMP_DIR 493 ;;;
    c <~ cget ;;
    cfold (fun f _ => copy_filter f) (copied_filters c) tt ;;;
    own_empty_file RUN_SECCOMP_PROTOCOL ;;;
    cfold (fun f _ => copy_filter f) (copied_namespaces c) tt ;;;
    own_empty_file RUN_SECCOMP_POSTEXEC ;;;
    own_empty_file RUN_SECCOMP_POSTEXEC_32.

(** ** Files of processes that are gone *)

Definition START_PID : Z := 100.

Definition max_pids (pid_max : option string) : Z :=
  match pid_max with
  | None => 32769
  | Some s =>
      if decide ((strtol 10 s).2 = s) then 32769
      else let val := Z.min (s32 (strtol 10 s).1) 4194304 in
           if 32769 <=? val then val + 1 else 32769
  end.

(** The index a directory entry stands for, [None] for a name that is no number. *)
Definition entry_pid (max : Z) (d_name : string) : option Z :=
  let '(v, rest) := strtol 10 d_name in
  let pid := Z.rem (s32 v) max in
  if bool_decide (rest = d_name) || nonempty rest || (pid <? START_PID) then None else Some pid.

Definition clean_dir (name : string) (running : list Z) (max : Z) : P unit :=
  names <~ ask (fun l => opendir l name) ;;
  match names with
  | None => cret tt
  | Some names =>
      cfold (fun d_name _ =>
        match entry_pid max d_name with
        | Some pid => if existsb (Z.eqb pid) running then cret tt else emit (Call "delete_run_files" pid [])
        | None => cret tt
        end) names tt
  end.

Definition preproc_clean_run : P unit :=
  c <~ cget ;;
  let max := max_pids (f_text (fs_now c) "/proc/sys/kernel/pid_max") in
  d <~ opendir_retry "/proc" ;;
  match d with
  | None => cexit 1
  | Some names =>
      let running := omap (entry_pid max) names in
      clean_dir SysFiles.RUN_FIREJAIL_PROFILE_DIR running max ;;;
      clean_dir RUN_FIREJAIL_NAME_DIR running max
  end.

(** ** chroot.c *)

Definition fs_check_chroot_dir : P unit :=
  EUID_ASSERT ;;;
  dir <~ get_str "chrootdir" ;;
  match dir with
  | None => cfail
  | Some dir =>
      c <~ cget ;;
      match f_realpath (fs_now c) dir with
      | Some rpath => if negb (is_dir rpath (fs_now c)) || streq rpath "/" then cexit 1 else set_str "chrootdir" rpath
      | None => cexit 1
      end
  end.

Definition relative_path (relpath : string) : P unit := cassert (nonempty relpath && negb (has_prefix "/" relpath)).

(** unlinkat, openat with O_EXCL and the copy; a file that cannot be made is left
    out. *)
Definition replace_file (parentfd fd : Z) (relpath : string) : P unit :=
  do_call (Call "unlinkat" parentfd [relpath]) ;;;
  r <~ do_call (Call "openat" parentfd [relpath; "O_WRONLY|O_CREAT|O_EXCL|O_CLOEXEC"]) ;;
  if negb (r =? 0) then cret tt
  else errors <~ do_call (Call "copy_file_by_fd" fd [relpath]) ;; or_exit errors.

Definition update_file (parentfd : Z) (relpath : string) : P unit :=
  relative_path relpath ;;;
  rootfd <~ open (flags [O_PATH; O_CLOEXEC]) "/" ;;
  match rootfd with
  | None => cexit 1
  | Some rootfd =>
      fd <~ openat rootfd (flags [O_RDONLY; O_CLOEXEC]) relpath ;;
      match fd with
      | None => cret tt
      | Some fd =>
          src <~ ask (fun l => sys_fstat l fd) ;;
          match src with
          | inr _ => cexit 1
          | inl src =>
              dst <~ ask (fun l => sys_fstatat l parentfd relpath false) ;;
              let same := match dst with
                          | Some d => (st_dev src =? st_dev d) && (st_ino src =? st_ino d)
                          | None => false
                          end in
              if same then cret tt else replace_file parentfd fd relpath
          end
      end
  end.

(** [S_IWGRP | S_IWOTH] *)
Definition writable (s : fstat) : bool := negb (Z.land 18 (st_perm s) =? 0).

Definition check_subdir (parentfd : Z) (subdir : string) (check_writable : bool) : P unit :=
  relative_path subdir ;;;
  s <~ ask (fun l => sys_fstatat l parentfd subdir true) ;;
  match s with
  | None => cexit 1
  | Some s => exit_unless (st_isdir s) ;;; exit_unless (st_uid s =? 0) ;;; exit_unless (negb (check_writable && writable s))
  end.

(** The directory is opened, and the mount goes to the descriptor. *)
Definition mount_subdir (parentfd : Z) (src subdir : string) : P unit :=
  fd <~ openat parentfd O_DIR subdir ;;
  match fd with
  | None => cexit 1
  | Some fd => r <~ bind_mount_path_to_fd src fd ;; or_exit r
  end.

Definition make_subdir (parentfd : Z) (subdir : string) : P unit :=
  ok <~ mkdirat parentfd subdir ;; exit_unless ok ;;; check_subdir parentfd subdir true.

Definition chroot_x11 (parentfd : Z) : P unit :=
  s1 <~ ask (fun l => sys_stat l "/tmp") ;;
  s2 <~ ask (fun l => sys_lstat l "/tmp/.X11-unix") ;;
  match s1, s2 with
  | Some s1, Some s2 =>
      exit_unless (sticky s1) ;;; exit_unless (st_uid s2 =? 0) ;;;
      check_subdir parentfd "tmp/.X11-unix" false ;;;
      mount_subdir parentfd "/tmp/.X11-unix" "tmp/.X11-unix"
  | _, _ => cexit 1
  end.

Definition chroot_pulse (parentfd : Z) (chrootdir : string) : P unit :=
  let orig_pulse := "/run/user/" +:+ print_d (s32 uid) +:+ "/pulse" in
  src <~ safer_openat (-1) orig_pulse O_DIR ;;
  dst <~ (match src with None => cexit 1 | Some _ => safer_openat (-1) (chrootdir +:+ orig_pulse) O_DIR end) ;;
  match src, dst with
  | Some src, Some dst => r <~ bind_mount_by_fd src dst ;; or_exit r ;;; update_file parentfd "etc/machine-id"
  | _, _ => cexit 1
  end.

(** What has to be there, owned by root. *)
Definition checked_subdirs : list (string * bool) :=
  [("dev", false); ("etc", true); ("proc", false); ("tmp", false); ("var", true); ("var/tmp", false)].

Definition open_root (rootdir : string) : P Z :=
  parentfd <~ safer_openat (-1) rootdir O_DIR ;;
  match parentfd with
  | None => cexit 1
  | Some parentfd =>
      ok <~ ask (fun l => sys_faccess_x l parentfd) ;; exit_unless ok ;;;
      s <~ ask (fun l => sys_fstat l parentfd) ;;
      match s with
      | inr _ => cexit 1
      | inl s => exit_unless (st_uid s =? 0) ;;; exit_unless (negb (writable s)) ;;; cret parentfd
      end
  end.

(** The mounts into the new root directory. *)
Definition chroot_mounts (parentfd : Z) (rootdir : string) : P unit :=
  mount_subdir parentfd "/dev" "dev" ;;;
  c <~ cget ;;
  let env n := bool_decide (is_Some (env_get n (environment c))) in
  (if built "HAVE_X11" && (env "FIREJAIL_X11" || env "FIREJAIL_CHROOT_X11") then chroot_x11 parentfd else cret tt) ;;;
  make_subdir parentfd "run" ;;;
  (if env "FIREJAIL_CHROOT_PULSE" then
     d <~ get_str "chrootdir" ;; chroot_pulse parentfd (default rootdir d)
   else cret tt) ;;;
  make_subdir parentfd "run/firejail" ;;;
  make_subdir parentfd "run/firejail/lib" ;;;
  mount_subdir parentfd RUN_FIREJAIL_LIB_DIR "run/firejail/lib" ;;;
  make_subdir parentfd "run/firejail/mnt" ;;;
  mount_subdir parentfd RUN_MNT_DIR "run/firejail/mnt" ;;;
  update_file parentfd "etc/resolv.conf".

Definition enter_root (parentfd : Z) : P unit :=
  r <~ do_call (Call "mkdir" 493 [RUN_OVERLAY_ROOT]) ;; or_exit r ;;;
  r <~ bind_mount_fd_to_path parentfd RUN_OVERLAY_ROOT ;; or_exit r ;;;
  r <~ do_call (Call "chroot" 0 [RUN_OVERLAY_ROOT]) ;; or_exit r ;;;
  r <~ do_call (Call "chdir" 0 ["/"]) ;; or_exit r ;;;
  bind_mount "proc" "/proc" "proc" (flags [MS_NOSUID; MS_NOEXEC; MS_NODEV; MS_REC]) "".

(** Inside the new root directory. *)
Definition chroot_files : P unit :=
  preproc_build_firejail_dir_unlocked ;;;
  preproc_lock_firejail_dir ;;;
  preproc_build_firejail_dir_locked ;;;
  preproc_unlock_firejail_dir ;;;
  fs_var_lock ;;;
  keep <~ get_int "arg_keep_var_tmp" ;;
  (if keep =? 0 then fs_var_tmp else cret tt) ;;;
  w <~ get_int "arg_writable_var_log" ;;
  (if w =? 0 then fs_var_log else cret tt) ;;;
  fs_var_lib ;;; fs_var_cache ;;; fs_var_utmp ;;; fs_machineid ;;;
  restrict_users ;;;
  if uid =? 0 then cret tt else disable_config.

Definition fs_chroot (rootdir : string) : P unit :=
  parentfd <~ open_root rootdir ;;
  cfold (fun d _ => check_subdir parentfd d.1 d.2) checked_subdirs tt ;;;
  chroot_mounts parentfd rootdir ;;;
  enter_root parentfd ;;;
  chroot_files.
End Preproc.
