(* ===== verification/MainSetup.v ===== *)
(** * From the options to the sandbox process (main of src/firejail/main.c)

    What [main] does between the last option and clone(2), and the id maps it writes
    for the child. *)

From S2P Require Import Prelude.
From S2P Require Import FilterFile.
From S2P Require Import Clib.
From S2P Require Import Bpf.
From S2P Require Import Caps.
From S2P Require Import SyscallTables.
From S2P Require Import SyscallGroups.
From S2P Require Import Syscall.
From S2P Require Import Fseccomp.
From S2P Require Import ProfileList.
From S2P Require Import Cmdline.
From S2P Require Import Env.
From S2P Require Import Text.
From S2P Require Import Common.
From S2P Require Import Util.
From S2P Require Import Checkcfg.
From S2P Require Import Dbus.
From S2P Require Import Macros.
From S2P Require Import ProfileState.
From S2P Require Import ProfileCommands.
From S2P Require Import ProfileLine.
From S2P Require Import NetConfig.
From S2P Require Import MainCommands.
From S2P Require Import MainOptions.
From S2P Require Import Startup.
From S2P Require Import Sys.
From S2P Require Import SysFiles.
From S2P Require Import Session.
From S2P Require Import Chroot.

(** * The size of the ELF part of an AppImage (src/firejail/appimage_size.c)

    A file is a list of bytes.  The offsets are those of Elf32_Ehdr, Elf64_Ehdr,
    Elf32_Shdr and Elf64_Shdr. *)

Definition EI_NIDENT : Z := 16.
Definition EI_CLASS : nat := 4.
Definition EI_DATA : nat := 5.
Definition ELFCLASS32 : Z := 1.
Definition ELFCLASS64 : Z := 2.
Definition ELFDATA2LSB : Z := 1.
Definition ELFDATA2MSB : Z := 2.

Definition sizeof_ehdr32 : Z := 52.
Definition sizeof_ehdr64 : Z := 64.
Definition sizeof_shdr32 : Z := 40.
Definition sizeof_shdr64 : Z := 64.

(** [pread(fd, buf, n, off)]; a negative offset is an error. *)
Definition pread (file : list Z) (n off : Z) : option (list Z) :=
  if off <? 0 then None else Some (take (Z.to_nat n) (drop (Z.to_nat off) file)).

Definition field (buf : list Z) (off n : nat) : list Z := take n (drop off buf).

Section File.
Context (data : Z) (file : list Z).

(** [file16_to_cpu], [file32_to_cpu] and [file64_to_cpu] of the bytes of a member on a
    little-endian machine; [bswap] reverses the bytes of the width it is given. *)
Definition file_to_cpu (l : list Z) : Z := le_value (if data =? ELFDATA2LSB then l else rev l).

(** [file64_to_cpu] of a 32-bit member: it is widened before the bytes are
    swapped. *)
Definition file64_to_cpu32 (l : list Z) : Z :=
  if data =? ELFDATA2LSB then le_value l else le_value (rev (l ++ [0; 0; 0; 0])).

(** The end of the section header table or of the last section. *)
Definition elf_end (shoff shentsize shnum sh_offset sh_size : Z) : Z :=
  let sht_end := u64 (shoff + shentsize * shnum) in
  let last_section_end := u64 (sh_offset + sh_size) in
  if last_section_end <? sht_end then sht_end else last_section_end.

(** A [uint64_t] sum as an [off_t]. *)
Definition off_of (z : Z) : Z := (z + 2 ^ 63) mod 2 ^ 64 - 2 ^ 63.

(** [sizeof(ehdr)] is the size of the 64-bit header in both functions. *)
Definition read_elf32 : Z :=
  match pread file sizeof_ehdr32 0 with
  | None => 0
  | Some h =>
      if negb (Z.of_nat (length h) =? sizeof_ehdr64) then 0
      else
        let shoff := file_to_cpu (field h 32 4) in
        let shentsize := file_to_cpu (field h 46 2) in
        let shnum := file_to_cpu (field h 48 2) in
        match pread file sizeof_shdr32 (off_of (shoff + shentsize * (shnum - 1))) with
        | None => 0
        | Some s =>
            if negb (Z.of_nat (length s) =? sizeof_shdr32) then 0
            else elf_end shoff shentsize shnum (file64_to_cpu32 (field s 16 4)) (file64_to_cpu32 (field s 20 4))
        end
  end.

Definition read_elf64 : Z :=
  match pread file sizeof_ehdr64 0 with
  | None => 0
  | Some h =>
      if negb (Z.of_nat (length h) =? sizeof_ehdr64) then 0
      else
        let shoff := file_to_cpu (field h 40 8) in
        let shentsize := file_to_cpu (field h 58 2) in
        let shnum := file_to_cpu (field h 60 2) in
        match pread file sizeof_shdr64 (off_of (shoff + shentsize * (shnum - 1))) with
        | None => 0
        | Some s =>
            if negb (Z.of_nat (length s) =? sizeof_shdr64) then 0
            else elf_end shoff shentsize shnum (file_to_cpu (field s 24 8)) (file_to_cpu (field s 32 8))
        end
  end.
End File.

Definition squashfs_magic : list Z := [104; 115; 113; 115].  (* "hsqs" *)

Definition appimage2_size (file : list Z) : Z :=
  match pread file EI_NIDENT 0 with
  | None => 0
  | Some e_ident =>
      if negb (Z.of_nat (length e_ident) =? EI_NIDENT) then 0
      else
        let data := nth EI_DATA e_ident 0 in
        let class := nth EI_CLASS e_ident 0 in
        if negb (data =? ELFDATA2LSB) && negb (data =? ELFDATA2MSB) then 0
        else
          let size := if class =? ELFCLASS32 then read_elf32 data file
                      else if class =? ELFCLASS64 then read_elf64 data file
                      else 0 in
          if size =? 0 then 0
          else match pread file 4 (off_of size) with
               | None => 0
               | Some buf => if bool_decide (buf = squashfs_magic) then size else 0
               end
  end.

(** * Theorems about the size of AppImages *)

(** How a file of byte order [data] stores a member of [n] bytes. *)
Definition stored (data : Z) (n : nat) (z : Z) : list Z :=
  if data =? ELFDATA2LSB then le_bytes n z else rev (le_bytes n z).

Lemma file_to_cpu_stored data n z : 0 <= z < 256 ^ Z.of_nat n -> file_to_cpu data (stored data n z) = z.
Proof.
  intros Hz. unfold file_to_cpu, stored.
  destruct (data =? ELFDATA2LSB); rewrite ?rev_involutive; by apply le_value_bytes.
Qed.

(** What of a 64-bit ELF file decides its size. *)
Record elf64 := mk_elf64 { shoff : Z; shentsize : Z; shnum : Z; sh_offset : Z; sh_size : Z }.

Definition elf64_end (e : elf64) : Z := Z.max (shoff e + shentsize e * shnum e) (sh_offset e + sh_size e).

Definition elf64_fits (e : elf64) : bool :=
  (0 <=? shoff e) && (shoff e <? 2 ^ 62) && (0 <=? shentsize e) && (shentsize e <? 2 ^ 15) &&
  (1 <=? shnum e) && (shnum e <? 2 ^ 15) && (0 <=? sh_offset e) && (sh_offset e <? 2 ^ 62) &&
  (0 <=? sh_size e) && (sh_size e <? 2 ^ 62) && (0 <? elf64_end e).

Definition bytes_at (file : list Z) (off : Z) (n : nat) : list Z := take n (drop (Z.to_nat off) file).

(** The header and the last section header are in the file. *)
Definition holds_elf64 (data : Z) (e : elf64) (file : list Z) : Prop :=
  let last := shoff e + shentsize e * (shnum e - 1) in
  (64 <= length file)%nat /\ (Z.to_nat last + 64 <= length file)%nat /\
  nth EI_DATA file 0 = data /\ nth EI_CLASS file 0 = ELFCLASS64 /\
  bytes_at file 40 8 = stored data 8 (shoff e) /\
  bytes_at file 58 2 = stored data 2 (shentsize e) /\
  bytes_at file 60 2 = stored data 2 (shnum e) /\
  bytes_at file (last + 24) 8 = stored data 8 (sh_offset e) /\
  bytes_at file (last + 32) 8 = stored data 8 (sh_size e).

Lemma pread_ok file n off : 0 <= off -> (Z.to_nat off + Z.to_nat n <= length file)%nat ->
  exists l, pread file n off = Some l /\ l = bytes_at file off (Z.to_nat n) /\ length l = Z.to_nat n.
Proof.
  intros H1 H2. unfold pread. rewrite (proj2 (Z.ltb_ge off 0)) by done.
  eexists. split; [done|]. split; [done|]. rewrite length_take, length_drop. lia.
Qed.

Lemma field_bytes_at file base n off m : 0 <= base ->
  (off + m <= n)%nat -> field (bytes_at file base n) off m = bytes_at file (base + Z.of_nat off) m.
Proof.
  intros Hb Hm. unfold field, bytes_at. rewrite skipn_firstn_comm, take_take, drop_drop.
  rewrite Nat.min_l by lia. f_equal. f_equal. lia.
Qed.

Lemma nth_bytes_at file n k : (k < n)%nat -> nth k (bytes_at file 0 n) 0 = nth k file 0.
Proof.
  intros Hk. unfold bytes_at. change (Z.to_nat 0) with 0%nat. rewrite drop_0.
  rewrite !nth_lookup. by rewrite lookup_take_lt.
Qed.

Lemma off_of_small z : 0 <= z < 2 ^ 63 -> off_of z = z.
Proof. intros Hz. unfold off_of. rewrite Z.mod_small; lia. Qed.

Lemma elf64_fits_split e : elf64_fits e = true ->
  0 <= shoff e < 2 ^ 62 /\ 0 <= shentsize e < 2 ^ 15 /\ 1 <= shnum e < 2 ^ 15 /\
  0 <= sh_offset e < 2 ^ 62 /\ 0 <= sh_size e < 2 ^ 62 /\ 0 < elf64_end e.
Proof. unfold elf64_fits. rewrite !andb_true_iff, !Z.leb_le, !Z.ltb_lt. tauto. Qed.

Lemma elf_end_max e : elf64_fits e = true ->
  elf_end (shoff e) (shentsize e) (shnum e) (sh_offset e) (sh_size e) = elf64_end e /\ elf64_end e < 2 ^ 63.
Proof.
  intros (H1 & H2 & H3 & H4 & H5 & H6)%elf64_fits_split. unfold elf_end, elf64_end in *. cbv zeta.
  assert (0 <= shentsize e * shnum e < 2 ^ 30) as Hp by nia.
  rewrite !u64_small by lia.
  set (p := shentsize e * shnum e) in *. clearbody p.
  destruct (Z.ltb_spec (sh_offset e + sh_size e) (shoff e + p)); split; lia.
Qed.

Lemma read_elf64_ok data e file : elf64_fits e = true -> holds_elf64 data e file ->
  read_elf64 data file = elf64_end e.
Proof.
  intros Hf (L1 & L2 & _ & _ & F1 & F2 & F3 & F4 & F5).
  destruct (elf_end_max e Hf) as [He _]. apply elf64_fits_split in Hf as (H1 & H2 & H3 & H4 & H5 & _).
  assert (0 <= shentsize e * (shnum e - 1) < 2 ^ 30) as Hp by nia.
  unfold read_elf64. destruct (pread_ok file sizeof_ehdr64 0) as (h & -> & Eh & Lh); [done|unfold sizeof_ehdr64; lia|].
  rewrite Lh. change (Z.of_nat (Z.to_nat sizeof_ehdr64) =? sizeof_ehdr64) with true. cbn [negb].
  change (Z.to_nat sizeof_ehdr64) with 64%nat in Eh. rewrite Eh, !field_bytes_at by lia. cbn [Z.of_nat Z.add].
  change (0 + Z.of_nat 40) with 40. change (0 + Z.of_nat 58) with 58. change (0 + Z.of_nat 60) with 60.
  rewrite F1, F2, F3, !file_to_cpu_stored by (cbn; lia).
  rewrite off_of_small by lia.
  destruct (pread_ok file sizeof_shdr64 (shoff e + shentsize e * (shnum e - 1))) as (s & -> & Es & Ls);
    [lia|unfold sizeof_shdr64; lia|].
  rewrite Ls. change (Z.of_nat (Z.to_nat sizeof_shdr64) =? sizeof_shdr64) with true. cbn [negb].
  change (Z.to_nat sizeof_shdr64) with 64%nat in Es. rewrite Es, !field_bytes_at by lia.
  change (Z.of_nat 24) with 24. change (Z.of_nat 32) with 32.
  rewrite F4, F5, !file_to_cpu_stored by (cbn; lia). exact He.
Qed.

(** A 64-bit AppImage of either byte order is recognised exactly when the squashfs
    image starts where the ELF file ends: behind the section header table or behind
    the last section, whichever ends later. *)
Theorem appimage2_size_elf64 data e file :
  data = ELFDATA2LSB \/ data = ELFDATA2MSB -> elf64_fits e = true -> holds_elf64 data e file ->
  appimage2_size file =
  if bool_decide (bytes_at file (elf64_end e) 4 = squashfs_magic) then elf64_end e else 0.
Proof.
  intros Hd Hf Hh. pose proof (read_elf64_ok _ _ _ Hf Hh) as Hr. destruct (elf_end_max e Hf) as [_ Hm].
  destruct (elf64_fits_split e Hf) as (_ & _ & _ & _ & _ & Hpos).
  destruct Hh as (L1 & _ & Ed & Ec & _). unfold appimage2_size.
  destruct (pread_ok file EI_NIDENT 0) as (i & -> & Ei & Li); [done|unfold EI_NIDENT; lia|].
  rewrite Li. change (Z.of_nat (Z.to_nat EI_NIDENT) =? EI_NIDENT) with true. cbn [negb].
  change (Z.to_nat EI_NIDENT) with 16%nat in Ei. rewrite Ei, !nth_bytes_at, Ed, Ec by (unfold EI_DATA, EI_CLASS; lia).
  replace (negb (data =? ELFDATA2LSB) && negb (data =? ELFDATA2MSB)) with false by (by destruct Hd as [-> | ->]).
  change (ELFCLASS64 =? ELFCLASS32) with false. change (ELFCLASS64 =? ELFCLASS64) with true. cbn iota.
  rewrite Hr, (proj2 (Z.eqb_neq _ _)), off_of_small by lia.
  unfold pread. rewrite (proj2 (Z.ltb_ge _ 0)) by lia. done.
Qed.

(** No 32-bit file is ever recognised: the length read is compared with the size of
    the 64-bit header. *)
Lemma appimage2_size_elf32 file : nth EI_CLASS file 0 = ELFCLASS32 -> appimage2_size file = 0.
Proof.
  intros Hc. unfold appimage2_size, pread. change (EI_NIDENT <? 0) with false. change (0 <? 0) with false. cbn iota.
  destruct (Z.eqb_spec (Z.of_nat (length (take (Z.to_nat EI_NIDENT) (drop (Z.to_nat 0) file)))) EI_NIDENT); [|done].
  cbn [negb]. destruct (_ && _); [done|].
  change (take (Z.to_nat EI_NIDENT) (drop (Z.to_nat 0) file)) with (bytes_at file 0 16).
  rewrite nth_bytes_at, Hc by (unfold EI_CLASS; lia). change (ELFCLASS32 =? ELFCLASS32) with true. cbn iota.
  replace (read_elf32 _ file) with 0; [done|]. unfold read_elf32, pread. change (0 <? 0) with false. cbn iota.
  destruct (Z.eqb_spec (Z.of_nat (length (take (Z.to_nat sizeof_ehdr32) (drop (Z.to_nat 0) file)))) sizeof_ehdr64) as [E|];
    [|done].
  rewrite length_take in E. unfold sizeof_ehdr32, sizeof_ehdr64 in E. lia.
Qed.

(** ** A file *)

Definition zeros (n : nat) : list Z := repeat 0 n.

(** A big-endian file: a header, a section header at 64, a squashfs image at 128. *)
Definition tiny_appimage : list Z :=
  [0x7f; 0x45; 0x4c; 0x46; 2; 2] ++ zeros 34 ++ stored 2 8 64 ++ zeros 10 ++ stored 2 2 64 ++ stored 2 2 1 ++ zeros 2 ++
  (zeros 24 ++ stored 2 8 64 ++ stored 2 8 10 ++ zeros 24) ++ squashfs_magic ++ zeros 8.

Lemma appimage2_size_elf64_witness : appimage2_size tiny_appimage = 128.
Proof.
  rewrite (appimage2_size_elf64 2 (mk_elf64 64 64 1 64 10)).
  - vm_compute. reflexivity.
  - right. reflexivity.
  - vm_compute. reflexivity.
  - unfold holds_elf64. repeat split; vm_compute; try reflexivity; repeat constructor.
Defined.

Definition cstrings (argv : list string) : list cstring := map String.list_ascii_of_string argv.
Definition bytes_of_text (s : string) : list Z := map (fun c => Z.of_nat (ord c)) (String.list_ascii_of_string s).

Section Setup.
Context `{H : Host} `{CH : CapHeaders} `{N : NetHost} `{SS : StartHost} `{SH : SysHeaders} `{KOS : OS}
  `{K : Kernel} `{SEH : SessionHost}.

(** ** AppImages (appimage.c) *)


(** Once more after a second. *)
Definition twice (e : effect) : P unit :=
  r <~ do_call e ;;
  if r =? 0 then cret tt else emit (Call "sleep" 1 []) ;;; r <~ do_call e ;; or_exit r.

(** The loop device of the image, which starts behind the ELF part. *)
Definition attach_loop (appimage : string) (size : Z) : P unit :=
  EUID_ROOT ;;;
  twice (Call "open" 0 ["/dev/loop-control"; "O_RDWR|O_CLOEXEC"]) ;;;
  twice (Call "ioctl" 0 ["/dev/loop-control"; "LOOP_CTL_GET_FREE"]) ;;;
  devnr <~ ask loop_device ;;
  let devloop := "/dev/loop" +:+ print_d devnr in
  set_str "devloop" devloop ;;;
  twice (Call "open" 0 [devloop; "O_RDONLY|O_CLOEXEC"]) ;;;
  twice (Call "ioctl" 0 [devloop; "LOOP_SET_FD"; appimage]) ;;;
  (if size =? 0 then cret tt else twice (Call "ioctl" size [devloop; "LOOP_SET_STATUS64"])) ;;;
  set_int "appimage_size" size ;;;
  EUID_USER.

Definition appimage_set (appimage : string) : P unit :=
  clift (invalid_filename appimage false) ;;;
  c <~ cget ;;
  let v := fs_now c in
  match f_text v appimage with
  | None => cexit 1
  | Some s =>
      exit_unless (f_lstat_reg v appimage) ;;;
      let size := appimage2_size (bytes_of_text s) in
      attach_loop appimage size ;;;
      match f_realpath v appimage with
      | None => cexit 1
      | Some abspath =>
          in_env (env_store_name_val "APPIMAGE" abspath SETENV) ;;;
          in_env (env_store_name_val "APPDIR" RUN_FIREJAIL_APPIMAGE_DIR SETENV) ;;;
          (if size =? 0 then cret tt else in_env (env_store_name_val "ARGV0" appimage SETENV)) ;;;
          d <~ get_str "cwd" ;;
          match d with Some d => in_env (env_store_name_val "OWD" d SETENV) | None => cret tt end
      end
  end.

Definition FIRECFG_MAXBUF : nat := 4096.

(** [strcasestr(arc, buf) == arc] *)
Definition names_archive (arc buf : string) : bool := has_prefix (lower_string buf) (lower_string arc).

(** The program of firecfg.config whose name the archive starts with. *)
Definition firecfg_match (arc : string) (bufs : list string) : option string :=
  List.find (names_archive arc)
    (map (fun buf => match strchr_split newline buf with Some (l, _) => l | None => buf end)
       (List.filter (fun buf => negb (has_prefix "#" buf)) bufs)).

Definition appimage_find_profile (archive : string) : P bool :=
  cassert (nonempty archive) ;;;
  c <~ cget ;;
  match f_text (fs_now c) (sysconfdir +:+ "/firecfg.config") with
  | None => cexit 1
  | Some s =>
      match firecfg_match (gnu_basename archive) (map c_string (fgets FIRECFG_MAXBUF s)) with
      | Some nm => profile_find_firejail profile_read nm true
      | None => cret false
      end
  end.

(** ** The options together *)


Definition any_dhcp (c : Config) : bool :=
  existsb (fun i => negb (arg_ip6_dhcp (bridge i c) =? 0)) [0; 1; 2; 3]%nat.

Definition check_options : P unit :=
  c <~ cget ;;
  exit_unless (negb (negb (uid =? 0) && set "arg_caps_cmdline" c && (set "arg_appimage" c || given "chrootdir" c))) ;;;
  (if set "arg_noroot" c && given "chrootdir" c then set_int "arg_noroot" 0 else cret tt) ;;;
  exit_unless (negb (set "arg_writable_etc" c && (given "dns1" c || any_dhcp c))) ;;;
  (if set "arg_seccomp_block_secondary" c then set_int "arg_seccomp" 1 else cret tt).

(** The command line of the sandboxed program. *)
Definition build_command (argv : list string) (prog_index : option Z) : P unit :=
  c <~ cget ;;
  match prog_index with
  | None =>
      set_int "just_run_the_shell" 1 ;;;
      cassert (negb (given "command_line" c)) ;;;
      exit_unless (negb (set "arg_appimage" c)) ;;;
      set_str "command_name" (default "" (str_of "usershell" c))
  | Some i =>
      cmd <~ (if set "arg_appimage" c
              then appimage_set (default "" (str_of "command_name" c)) ;;;
                   clift (build_appimage_cmdline malloc (cstrings argv) i true)
              else clift (build_cmdline malloc (cstrings argv) i true)) ;;
      set_str "command_line" (String.string_of_list_ascii cmd)
  end.

Definition DEFAULT_USER_PROFILE : string := "default".
Definition DEFAULT_ROOT_PROFILE : string := "server".

Definition default_profile : string := if uid =? 0 then DEFAULT_ROOT_PROFILE else DEFAULT_USER_PROFILE.

(** The profile of the program, else the default profile. *)
Definition load_profile : P unit :=
  c <~ cget ;;
  let name := default "" (str_of "command_name" c) in
  cassert (given "command_name" c) ;;;
  found <~ (if set "arg_noprofile" c || set "custom_profile" c then cret (set "custom_profile" c)
            else if set "arg_appimage" c then appimage_find_profile name
            else profile_find_firejail profile_read name true) ;;
  (if (found : bool) || set "arg_noprofile" c then cret tt
   else rv <~ profile_find_firejail profile_read default_profile true ;; exit_unless rv).

(** ** Filters *)

(** [syscalls_in_list] runs on a process without open files: its callbacks are empty
    functions in main.c. *)
Definition no_files : world := World 0 ∅ ∅.

Definition check_postexec (list : option string) : outcome bool :=
  match list with
  | None | Some EmptyString => Ok false
  | Some l => obind (syscalls_in_list l "@default-keep" true no_files).1 (fun r => Ok (bool_decide (is_Some r.2)))
  end.

(** firejail.config may add to the default list. *)
Definition add_config_filter : P unit :=
  match filter_add conf with
  | None => cret tt
  | Some add =>
      c <~ cget ;;
      (if set "arg_seccomp" c && negb (given "seccomp_list_keep" c) && negb (given "seccomp_list_drop" c)
       then augment "seccomp_list" add else cret tt) ;;;
      (if set "arg_seccomp32" c && negb (given "seccomp_list_keep32" c) && negb (given "seccomp_list_drop32" c)
       then augment "seccomp_list32" add else cret tt)
  end.

Definition set_postexec : P unit :=
  c <~ cget ;;
  if set "arg_seccomp" c then
    p1 <~ clift (check_postexec (str_of "seccomp_list" c)) ;;
    p2 <~ (if p1 : bool then cret true else clift (check_postexec (str_of "seccomp_list_drop" c))) ;;
    set_int "arg_seccomp_postexec" (Z.b2z p2)
  else cret tt.

(** ** X11 (x11.c) *)

(** The lines of /proc/net/unix, of any length. *)
Definition getlines (s : string) : list string := map c_string (fgets (S (S (String.length s))) s).

Fixpoint abstract_socket (lines : list string) : outcome bool :=
  match lines with
  | [] => Ok false
  | l :: lines' =>
      match strrchr_after " "%char l with
      | None => Exit 1
      | Some p => if has_prefix "@/tmp/.X11-unix/" p then Ok true else abstract_socket lines'
      end
  end.

Definition x11_abstract_sockets_present : P bool :=
  c <~ cget ;;
  match f_text (fs_now c) "/proc/net/unix" with
  | None => cexit 1
  | Some s => clift (abstract_socket (getlines s))
  end.

Definition x11_block : P unit :=
  c <~ cget ;;
  (if negb (set "arg_nonetwork" c) && negb (given "arg_netns" c) && negb (is_configured 0 c) &&
      negb (interface_configured "interface0" c)
   then found <~ x11_abstract_sockets_present ;; exit_unless (negb found)
   else cret tt) ;;;
  as_line "blacklist" "/tmp/.X11-unix" ;;;
  as_line "blacklist" "${HOME}/.Xauthority" ;;;
  c <~ cget ;;
  match env_get "XAUTHORITY" (environment c) with Some x => as_line "blacklist" x | None => cret tt end ;;;
  in_env (env_store "DISPLAY" RMENV) ;;;
  in_env (env_store "XAUTHORITY" RMENV).

(** ** Files under /run/firejail (run_files.c) *)

Definition newname (nm : string) : string :=
  if enabled CFG_NAME_CHANGE then
    match sandbox_pid nm with None => nm | Some _ => nm +:+ "-" +:+ print_d getpid end
  else nm.

Definition set_name_run_file (pid : Z) : P unit :=
  nm <~ get_str "name" ;;
  match nm with
  | None => cret tt
  | Some nm => set_str "name" (newname nm) ;;; emit (Call "name_run_file" pid [line (newname nm)])
  end.

Definition set_run_files (pid : Z) : P unit :=
  EUID_ROOT ;;;
  preproc_lock_firejail_dir ;;;
  set_name_run_file pid ;;;
  c <~ cget ;;
  let display := x11_display (environment c) in
  (if 0 <? display then emit (Call "x11_run_file" pid [line (print_d display)]) else cret tt) ;;;
  preproc_unlock_firejail_dir ;;;
  EUID_USER.

(** ** Networks and namespaces *)

Definition configure_networks (pid : Z) : P unit :=
  c <~ cget ;;
  if any_bridge_configured c then
    EUID_ROOT ;;;
    preproc_lock_firejail_network_dir ;;;
    cfold (fun i _ =>
      c <~ cget ;;
      if is_configured i c && (arg_ip_none (bridge i c) =? 0) then check_network i else cret tt) [0; 1; 2; 3]%nat tt ;;;
    network_set_run_file pid ;;;
    EUID_USER
  else cret tt.

Definition dbus_check_profile : P unit :=
  c <~ cget ;;
  let proxy := Some (f_stat (fs_now c) XDG_DBUS_PROXY_PATH) in
  user <~ clift (dbus_check_bus_profile proxy (arg_dbus_user c)) ;;
  cmodify (with_dbus_user user) ;;;
  system <~ clift (dbus_check_bus_profile proxy (arg_dbus_system c)) ;;
  cmodify (with_dbus_system system).

Definition start_dbus_proxy : P unit :=
  if built "HAVE_DBUSPROXY" && enabled CFG_DBUS then
    dbus_check_profile ;;;
    c <~ cget ;;
    if bool_decide (arg_dbus_user c = DBUS_POLICY_FILTER) || bool_decide (arg_dbus_system c = DBUS_POLICY_FILTER)
    then EUID_ROOT ;;; dbus_proxy_start ;;; EUID_USER
    else cret tt
  else cret tt.

Definition SIGCHLD : Z := 17.

(** The flags of clone(2). *)
Definition clone_flags (c : Config) : Z :=
  let flags := Z.lor (Z.lor (Z.lor CLONE_NEWNS CLONE_NEWPID) CLONE_NEWUTS) SIGCHLD in
  let flags := if (uid =? 0) || set "arg_ipc" c then Z.lor flags CLONE_NEWIPC else flags in
  if any_bridge_configured c || any_interface_configured c || set "arg_nonetwork" c
  then Z.lor flags CLONE_NEWNET else flags.

(** From the last option to clone(2); the result are the flags of the clone. *)
Definition setup (argv : list string) (prog_index : option Z) (pid : Z) : P Z :=
  check_options ;;;
  build_command argv prog_index ;;;
  load_profile ;;;
  c <~ cget ;;
  (if set "arg_x11_block" c then x11_block else cret tt) ;;;
  net_check_cfg ;;;
  add_config_filter ;;;
  set_postexec ;;;
  configure_networks pid ;;;
  c <~ cget ;;
  (if set "arg_noroot" c && given "chrootdir" c then set_int "arg_noroot" 0 else cret tt) ;;;
  set_run_files pid ;;;
  start_dbus_proxy ;;;
  c <~ cget ;;
  cret (clone_flags c).

(** [main] up to clone(2). *)
Definition main (argv envp : list string) (pid : Z) : P Z :=
  startup argv envp ;;;
  prog_index <~ parse_options 1 (tail argv) ;;
  setup argv prog_index pid.
End Setup.

(** ** Id maps *)

Section Maps.
Context (get_group_id : string -> Z).

(** [sprintf(ptr, "%d %d 1\n", g, g)]; a [gid_t] is printed as an [int]. *)
Definition map_entry (id : Z) : string :=
  print_d (s32 id) +:+ " " +:+ print_d (s32 id) +:+ " 1" +:+ String newline EmptyString.

Definition uid_map (uid : Z) : string := print_d (s32 uid) +:+ " " +:+ print_d (s32 uid) +:+ " 1".

Definition GIDMAP_SIZE : Z := 1024.

(** A write behind the text of the buffer; [None] is a write past its end. *)
Definition append_entry (buf : string) (g : Z) : option string :=
  let s := buf +:+ map_entry g in if strlen s <? GIDMAP_SIZE then Some s else None.

Fixpoint append_groups (buf : string) (names : list string) : option string :=
  match names with
  | [] => Some buf
  | n :: names' =>
      let g := get_group_id n in
      buf <-? (if g =? 0 then Some buf else append_entry buf g) ;;
      append_groups buf names'
  end.

(** The groups that are mapped, in order. *)
Definition mapped_groups (f : group_flags) (can_drop_all : bool) : list string :=
  (if arg_nogroups f && can_drop_all then []
   else (if arg_nosound f then [] else ["audio"; "pipewire"])
        ++ (if arg_novideo f then [] else ["video"])
        ++ (if arg_no3d f then [] else ["render"; "vglusers"])
        ++ (if arg_noprinters f then [] else ["lp"])
        ++ (if arg_nodvd f then [] else ["cdrom"; "optical"])
        ++ (if arg_noinput f then [] else ["input"])
        ++ (if arg_keep_dev_tpm f then ["tss"] else [])
        ++ (if arg_nou2f f then [] else ["plugdev"]))
  ++ (if arg_nogroups f then [] else ["firejail"; "tty"; "games"]).

Definition gid_map (gid : Z) (f : group_flags) (can_drop_all : bool) : option string :=
  buf <-? append_entry EmptyString gid ;;
  append_groups buf (mapped_groups f can_drop_all).
End Maps.
