(* ===== verification/StartTheorems.v ===== *)
(** * Theorems about the start of firejail *)

From S2P Require Import Prelude.
From S2P Require Import Clib.
From S2P Require Import Keeps.
From S2P Require Import Env.
From S2P Require Import Text.
From S2P Require Import Common.
From S2P Require Import Util.
From S2P Require Import Checkcfg.
From S2P Require Import Paths.
From S2P Require Import ProfileState.
From S2P Require Import ProfileCommands.
From S2P Require Import Startup.
From S2P Require Import UtilTheorems.
From S2P Require Import MainSetup.

(** ** The user database *)

Definition clean_name (n : string) : bool :=
  fgets_line USERS_MAXBUF n && negb (string_mem NUL n) && negb (has_prefix "#" n).

(** A file with one name per line. *)
Definition users (names : list string) : users_db := Users (String.concat "" (map line names)).

Lemma line_no_nul n : string_mem NUL n = false -> string_mem NUL (line n) = false.
Proof.
  unfold line. induction n as [|c n IH]; [done|]. cbn [string_mem]. intros [Hc Hn]%orb_false_iff.
  change (String c n +:+ ?s) with (String c (n +:+ s)). cbn [string_mem]. by rewrite Hc, IH.
Qed.

(** What a clean line says about a user. *)
Lemma user_line_clean nm n : clean_name n = true -> user_line nm (c_string (line n)) = streq n nm.
Proof.
  unfold clean_name. intros [[Hl Hz%negb_true_iff]%andb_true_iff Hc%negb_true_iff]%andb_true_iff.
  unfold fgets_line in Hl. apply andb_true_iff in Hl as [Hm%negb_true_iff _].
  rewrite c_string_id by (by apply line_no_nul). unfold user_line, line.
  rewrite strchr_split_app by done. replace (has_prefix "#" (n +:+ String newline EmptyString)) with (has_prefix "#" n).
  - by rewrite Hc.
  - destruct n as [|c n]; [done|]. change (String c n +:+ ?s) with (String c (n +:+ s)). unfold has_prefix.
    cbn [strip_prefix]. by destruct (Ascii.eqb _ c).
Qed.

Lemma check_users names nm : nm <> "root" -> nm <> "nobody" -> forallb clean_name names = true ->
  firejail_user_check (users names) nm = Ok (existsb (fun n => streq n nm) names).
Proof.
  intros Hr Hn Hc. unfold firejail_user_check, streq at 1 2.
  destruct (String.eqb_spec nm "root") as [|_]; [done|]. destruct (String.eqb_spec nm "nobody") as [|_]; [done|].
  unfold users. rewrite fgets_lines.
  - f_equal. clear Hr Hn. induction names as [|n names IH]; [done|]. cbn [forallb] in Hc. apply andb_true_iff in Hc as [H1 H2].
    cbn [map existsb]. by rewrite user_line_clean, IH.
  - clear Hr Hn. induction names as [|n names IH]; [done|]. cbn [forallb] in *. apply andb_true_iff in Hc as [H1 H2].
    rewrite IH by done. unfold clean_name in H1. by destruct (fgets_line USERS_MAXBUF n).
Qed.

Lemma concat_snoc_line l x : String.concat "" (l ++ [x]) = String.concat "" l +:+ x.
Proof.
  induction l as [|y l IH]; [done|]. cbn [app]. rewrite !concat_cons, IH. by rewrite append_assoc.
Qed.

(** A user that was added may run firejail, and adding a user changes nothing for the
    others, whoever was in the database before. *)
Theorem user_add_check names nm : nm <> "nobody" -> forallb clean_name (nm :: names) = true ->
  exists db, firejail_user_add true (users names) nm = Ok db /\ firejail_user_check db nm = Ok true /\
    forall other, other <> nm -> firejail_user_check db other = firejail_user_check (users names) other.
Proof.
  intros Hn Hc. pose proof Hc as Hc2. cbn [forallb] in Hc2. apply andb_true_iff in Hc2 as [Hnm Hns].
  destruct (String.eqb_spec nm "root") as [->|Hr].
  { exists (users names). repeat split. }
  unfold firejail_user_add. cbn [negb]. change (match users names with No_file => Ok false | _ => firejail_user_check (users names) nm end)
    with (firejail_user_check (users names) nm). rewrite check_users by done. cbn [obind].
  destruct (existsb _ names) eqn:E.
  - exists (users names). repeat split. by rewrite check_users, E.
  - exists (users (names ++ [nm])). split; [unfold users; rewrite map_app; cbn [map]; by rewrite concat_snoc_line|].
    assert (forallb clean_name (names ++ [nm]) = true) as Ha.
    { rewrite forallb_app, Hns. cbn [forallb]. by rewrite Hnm. }
    repeat split.
    + rewrite check_users by done. rewrite existsb_app. cbn [existsb]. unfold streq at 2.
      by rewrite String.eqb_refl, orb_true_r.
    + intros other Ho. destruct (String.eqb_spec other "root") as [->|H1]; [done|].
      destruct (String.eqb_spec other "nobody") as [->|H2]; [done|].
      rewrite !check_users by done. rewrite existsb_app. cbn [existsb]. unfold streq at 2.
      destruct (String.eqb_spec nm other); [congruence|]. by rewrite !orb_false_r.
Qed.

Lemma user_add_check_witness : exists db,
  firejail_user_add true (users ["joe"]) "ann" = Ok db /\ firejail_user_check db "ann" = Ok true /\
  firejail_user_check db "joe" = Ok true.
Proof.
  destruct (user_add_check ["joe"] "ann" ltac:(done) eq_refl) as (db & H1 & H2 & H3).
  exists db. repeat split; [exact H1|exact H2|]. rewrite H3 by done. reflexivity.
Defined.

(** When the last line of the database has no newline, the name is added to it: the
    new user is refused, and the one before loses access. *)
Lemma user_add_unterminated :
  firejail_user_add true (Users "joe") "ann" = Ok (Users (line "joeann")) /\
  firejail_user_check (Users "joe") "joe" = Ok true /\
  firejail_user_check (Users (line "joeann")) "joe" = Ok false /\
  firejail_user_check (Users (line "joeann")) "ann" = Ok false.
Proof. repeat split; vm_compute; reflexivity. Qed.

(** ** Output options *)

(** The options in front of the program. *)
Definition before_program (a : string) : bool := has_prefix "--" a && negb (streq a "--").

Lemma drop_output_app pre rest : forallb before_program pre = true ->
  drop_output false (pre ++ rest) = List.filter (fun a => negb (output_arg a)) pre ++ drop_output false rest.
Proof.
  induction pre as [|a pre IH]; [done|]. cbn [forallb app drop_output List.filter]. unfold before_program at 1.
  intros [[Hp Hs%negb_true_iff]%andb_true_iff Hpre]%andb_true_iff.
  rewrite Hp, Hs. destruct (output_arg a); cbn [negb orb app]; by rewrite IH.
Qed.

Lemma drop_output_rest args : drop_output true args = args.
Proof. induction args as [|a args IH]; [done|]. cbn [drop_output]. by rewrite IH. Qed.

Lemma find_output_app i pre rest : forallb before_program pre = true -> existsb output_arg pre = false ->
  find_output i (pre ++ rest) = find_output (i + Z.of_nat (length pre)) rest.
Proof.
  revert i. induction pre as [|a pre IH]; intros i; cbn [forallb existsb app length]; [by rewrite Z.add_0_r|].
  unfold before_program at 1. intros [[Hp Hs%negb_true_iff]%andb_true_iff Hpre]%andb_true_iff [Ha Ho]%orb_false_iff.
  cbn [find_output]. rewrite Hp, Hs. cbn [negb orb]. unfold output_arg, has_prefix in Ha.
  destruct (strip_prefix "--output=" a); [done|]. destruct (strip_prefix "--output-stderr=" a); [done|].
  rewrite IH by done. f_equal. lia.
Qed.

(** The firejail that is started with its output redirected sees the options in front of
    the program without the output options, so that it does not redirect again, and
    the program with all its arguments, output options of its own among them. *)
Theorem output_dropped i pre prog rest : forallb before_program pre = true -> before_program prog = false ->
  drop_output false (pre ++ prog :: rest) = List.filter (fun a => negb (output_arg a)) pre ++ prog :: rest /\
  find_output i (drop_output false (pre ++ prog :: rest)) = None.
Proof.
  intros Hp Hb. assert (output_arg prog = false) as Ho.
  { destruct (output_arg prog) eqn:E; [|done]. exfalso. unfold output_arg, before_program, has_prefix in *.
    destruct prog as [|c1 [|c2 prog]]; try done.
    all: cbn [strip_prefix] in *; destruct (Ascii.eqb_spec "-"%char c1) as [<-|]; try done.
    all: destruct (Ascii.eqb_spec "-"%char c2) as [<-|]; try done.
    cbn [andb negb] in Hb. apply negb_false_iff in Hb. unfold streq in Hb. apply String.eqb_eq in Hb as [= ->]. done. }
  assert (drop_output false (prog :: rest) = prog :: rest) as Hd.
  { cbn [drop_output]. rewrite Ho. unfold before_program in Hb.
    assert (negb (has_prefix "--" prog) || streq prog "--" = true) as ->.
    { destruct (has_prefix "--" prog); [|done]. cbn [andb negb orb] in *. by apply negb_false_iff. }
    by rewrite drop_output_rest. }
  rewrite drop_output_app, Hd by done. split; [done|]. rewrite find_output_app.
  - cbn [find_output]. unfold before_program in Hb.
    assert (negb (has_prefix "--" prog) || streq prog "--" = true) as ->; [|done].
    destruct (has_prefix "--" prog); [|done]. cbn [andb negb orb] in *. by apply negb_false_iff.
  - clear -Hp. induction pre as [|a pre IH]; [done|]. cbn [forallb List.filter] in *.
    apply andb_true_iff in Hp as [Ha Hp]. destruct (output_arg a); cbn [negb forallb]; [auto|]. by rewrite Ha, IH.
  - clear. induction pre as [|a pre IH]; [done|]. cbn [List.filter].
    destruct (output_arg a) eqn:E; cbn [negb existsb]; [done|]. by rewrite E, IH.
Qed.

Lemma output_dropped_witness :
  drop_output false (["--quiet"; "--output=log"] ++ "ls" :: ["--output=x"]) = ["--quiet"; "ls"; "--output=x"] /\
  find_output 1 ["--quiet"; "ls"; "--output=x"] = None.
Proof. exact (output_dropped 1 ["--quiet"; "--output=log"] "ls" ["--output=x"] eq_refl eq_refl). Defined.

(** ** Links to firejail *)

Section Links.
Context `{H : Host} `{SS : StartHost}.

Lemma find_in_dirs_found ex li program dirs f : find_in_dirs ex li program dirs = Some f ->
  ex f = true /\ li f = false /\ exists d, In d dirs /\ f = d +:+ "/" +:+ program.
Proof.
  induction dirs as [|d dirs IH]; cbn [find_in_dirs]; [done|]. cbv zeta.
  destruct (ex (d +:+ "/" +:+ program) && negb (li (d +:+ "/" +:+ program))) eqn:E.
  - apply andb_true_iff in E as [E1 E2%negb_true_iff]. intros [= E]. subst f. repeat split; try done.
    exists d. split; [by left|done].
  - intros (H1 & H2 & x & H3 & H4)%IH. repeat split; try done. exists x. split; [by right|done].
Qed.

(** Started through a link, firejail never goes on by itself: it runs what the name of
    the link stands for, in a new sandbox or, for root and for users who may not use
    firejail, as it is; what is run is found in PATH and is no link to firejail, so
    that the links cannot lead back. *)
Theorem run_symlink_runs argv run_as_is c :
  let name := default (hd "" argv) (strrchr_after "/"%char (hd "" argv)) in
  let v := fs_now c in
  name <> "firejail" ->
  (run_symlink argv run_as_is c).1 <> Ok tt /\
  (effects (run_symlink argv run_as_is c).2 = effects c \/
   exists program,
     find_in_path (f_stat v) (is_firejail_link v) (env_get "PATH" (environment c)) name = Some program /\
     f_stat v program = true /\ is_firejail_link v program = false /\
     effects (run_symlink argv run_as_is c).2 =
       effects c ++ [if (uid =? 0) || run_as_is then Exec program (program :: tail argv)
                     else Exec PATH_FIREJAIL (PATH_FIREJAIL :: program :: tail argv)]).
Proof.
  cbv zeta. intros Hn. set (nm := default _ _) in *. unfold run_symlink. cbv zeta. fold nm.
  assert (streq nm "firejail" = false) as -> by (unfold streq; by destruct (String.eqb_spec nm "firejail")).
  rewrite cget_bind. destruct (find_in_path _ _ _ _) as [program|] eqn:E; [|split; [done|by left]].
  assert (f_stat (fs_now c) program = true /\ is_firejail_link (fs_now c) program = false) as [F1 F2].
  { unfold find_in_path in E. destruct (env_get _ _); [|done]. apply find_in_dirs_found in E. tauto. }
  assert (forall path args, (exec path args c).1 <> Ok tt /\
    (effects (exec path args c).2 = effects c \/ effects (exec path args c).2 = effects c ++ [Exec path args])) as He.
  { intros path args. unfold exec, in_env. rewrite cbind_assoc, cget_bind. destruct (env_apply_all _) as [r p].
    rewrite cbind_assoc. unfold cmodify at 1, cbind at 1, clift, cbind at 1. destruct r; (split; [done|]); auto. }
  destruct (_ || _).
  - destruct (He program (program :: tail argv)) as [H1 [H2|H2]]; (split; [done|]); [by left|right]. eauto.
  - unfold no_preload, cassert. rewrite cbind_assoc, cget_bind. case_bool_decide; [|split; [done|by left]].
    rewrite cret_bind. destruct (He PATH_FIREJAIL (PATH_FIREJAIL :: program :: tail argv)) as [H1 [H2|H2]];
      (split; [done|]); [by left|right]. eauto.
Qed.
End Links.

(** ** The environment *)

(** FIREJAIL_QUIET is looked up before the environment is stashed: whatever it holds,
    only --quiet makes the start quiet. *)
Lemma quiet_env_not_read `{H : Host} argv c : envlist (environment c) = [] -> check_arg argv "--quiet" true = 0 ->
  int_of "arg_quiet" c = 0 -> int_of "arg_quiet" (early_output argv c).2 = 0.
Proof.
  intros He Hq H0. unfold early_output. rewrite cget_bind, Hq.
  assert (env_get "FIREJAIL_QUIET" (environment c) = None) as -> by (unfold env_get; by rewrite He).
  cbn [Z.eqb negb orb]. rewrite bool_decide_eq_false_2 by done. rewrite cret_bind.
  destruct (_ =? 0); [done|]. unfold cbind, set_int, cmodify. cbn [snd].
  unfold int_of. cbn [ints with_ints]. by rewrite lookup_insert_eq.
Qed.

(** * Theorems about the id maps of the sandbox process *)

Lemma print_digits_length f k z acc : 0 <= z < 10 ^ Z.of_nat k -> (1 <= k)%nat ->
  (String.length (print_digits f z acc) <= k + String.length acc)%nat.
Proof.
  revert k z acc. induction f as [|f IH]; intros k z acc Hz Hk; cbn [print_digits]; [lia|].
  destruct (Z.eqb_spec (z / 10) 0) as [|Hn]; [cbn; lia|].
  destruct k as [|[|k]]; [lia| |].
  - change (10 ^ Z.of_nat 1) with 10 in Hz. rewrite Z.div_small in Hn by lia. done.
  - etransitivity; [apply (IH (S k)); [|lia]|cbn; lia].
    rewrite (Nat2Z.inj_succ (S k)), Z.pow_succ_r in Hz by lia. split; [apply Z.div_pos; lia|].
    apply Z.div_lt_upper_bound; lia.
Qed.

(** A printed 32-bit number takes at most eleven characters. *)
Lemma print_d_length z : - 2 ^ 31 <= z < 2 ^ 31 -> (String.length (print_d z) <= 11)%nat.
Proof.
  intros Hz. unfold print_d, print_u. assert (2 ^ 31 < 10 ^ Z.of_nat 10) by reflexivity.
  destruct (Z.ltb_spec z 0).
  - cbn [String.length]. pose proof (print_digits_length 20 10 (- z) EmptyString ltac:(lia) ltac:(lia)) as Hl.
    cbn [String.length] in Hl. lia.
  - pose proof (print_digits_length 20 10 z EmptyString ltac:(lia) ltac:(lia)) as Hl.
    cbn [String.length] in Hl. lia.
Qed.

Lemma map_entry_length id : (String.length (map_entry id) <= 26)%nat.
Proof.
  unfold map_entry. rewrite !length_string_app. cbn [String.length].
  assert (- 2 ^ 31 <= s32 id < 2 ^ 31) as Hs.
  { unfold s32. pose proof (Z.mod_pos_bound (id + 2 ^ 31) (2 ^ 32) ltac:(lia)). lia. }
  pose proof (print_d_length _ Hs). lia.
Qed.

Section Map.
Context (get_group_id : string -> Z).

(** The ids of the map: the group of the user and the named groups there are. *)
Definition mapped_ids (gid : Z) (f : group_flags) (can_drop_all : bool) : list Z :=
  gid :: List.filter (fun g => negb (g =? 0)) (map get_group_id (mapped_groups f can_drop_all)).

Lemma append_nil s : s +:+ "" = s.
Proof. induction s as [|c s IH]; [done|]. change (String c s +:+ "") with (String c (s +:+ "")). by rewrite IH. Qed.

Lemma append_entry_fits buf g : strlen buf + 26 < GIDMAP_SIZE -> append_entry buf g = Some (buf +:+ map_entry g).
Proof.
  intros Hb. unfold append_entry. cbv zeta. rewrite (proj2 (Z.ltb_lt _ _)); [done|].
  unfold strlen in *. rewrite length_string_app. pose proof (map_entry_length g). lia.
Qed.

Lemma append_groups_fits buf names : strlen buf + 26 * Z.of_nat (length names) < GIDMAP_SIZE ->
  append_groups get_group_id buf names =
  Some (buf +:+ String.concat "" (map map_entry (List.filter (fun g => negb (g =? 0)) (map get_group_id names)))).
Proof.
  revert buf. induction names as [|n names IH]; intros buf Hb; cbn [append_groups map List.filter length].
  - cbn [String.concat]. by rewrite append_nil.
  - cbv zeta. cbn [length] in Hb. destruct (Z.eqb_spec (get_group_id n) 0); cbn [negb].
    + cbn [mbind option_bind]. apply IH. lia.
    + rewrite append_entry_fits by lia. cbn [mbind option_bind]. rewrite IH.
      * f_equal. cbn [map]. by rewrite concat_cons, append_assoc.
      * unfold strlen in *. rewrite length_string_app. pose proof (map_entry_length (get_group_id n)). lia.
Qed.

Lemma mapped_groups_few f b : (length (mapped_groups f b) <= 14)%nat.
Proof. destruct f as [[] [] [] [] [] [] [] [] []], b; vm_compute; lia. Qed.

(** The gid map fits its buffer of 1024 bytes whatever the ids are, and holds one line
    for the group of the user and one for every named group there is, in order. *)
Theorem gid_map_spec gid f can_drop_all :
  gid_map get_group_id gid f can_drop_all =
  Some (String.concat "" (map map_entry (mapped_ids gid f can_drop_all))).
Proof.
  unfold gid_map. rewrite append_entry_fits by (unfold strlen, GIDMAP_SIZE; cbn; lia). cbn [mbind option_bind].
  rewrite append_groups_fits.
  - unfold mapped_ids. cbn [map]. by rewrite concat_cons.
  - unfold strlen. rewrite length_string_app. pose proof (map_entry_length gid).
    pose proof (mapped_groups_few f can_drop_all). unfold GIDMAP_SIZE. cbn [String.length]. lia.
Qed.

Lemma wanted_mapped f can_drop_all n : arg_nogroups f = false -> In n (wanted_groups f) -> In n (mapped_groups f can_drop_all).
Proof.
  intros Hf. unfold wanted_groups, mapped_groups. rewrite Hf. cbn [andb]. rewrite !in_app_iff. tauto.
Qed.

(** Unless --nogroups was given, every supplementary group the sandboxed program keeps
    has an id in its user namespace. *)
Theorem kept_groups_mapped gid f can_drop_all user_groups accepts gs :
  arg_nogroups f = false ->
  clean_supplementary_groups get_group_id f can_drop_all user_groups accepts = Ok gs ->
  forall g, In g gs -> In g (mapped_ids gid f can_drop_all).
Proof.
  intros Hf E g Hg. apply clean_supplementary_groups_safe in E as [_ E].
  destruct (E g Hg) as (H0 & _ & n & Hn & <-). right. apply List.filter_In. split.
  - apply in_map. by apply wanted_mapped.
  - by apply negb_true_iff, Z.eqb_neq.
Qed.

End Map.

(** With --nogroups some kept groups are not mapped: when the groups cannot all be
    dropped, firejail, tty and games are kept, and the map leaves them out. *)
Lemma nogroups_unmapped :
  let db := fun n => if streq n "tty" then 5 else 0 in
  let f := mk_gflags true false false false false false false false false in
  clean_supplementary_groups db f false (Some [1000; 5]) (fun _ => true) = Ok [5] /\
  gid_map db 1000 f false = Some (line "1000 1000 1").
Proof. split; vm_compute; reflexivity. Qed.

Lemma kept_groups_mapped_witness :
  let db := fun n => if streq n "audio" then 29 else 0 in
  let f := mk_gflags false false false false false false false false false in
  In 29 (mapped_ids db 1000 f false).
Proof.
  apply (kept_groups_mapped _ 1000 _ false (Some [1000; 29]) (fun _ => true) [29]); [reflexivity|..].
  - vm_compute. reflexivity.
  - by left.
Defined.
