(* ===== verification/ProfileReadTheorems.v ===== *)
(** * Theorems about profile files *)

From S2P Require Import Prelude.
From S2P Require Import Clib.
From S2P Require Import Keeps.
From S2P Require Import Bpf.
From S2P Require Import Caps.
From S2P Require Import Env.
From S2P Require Import Text.
From S2P Require Import Common.
From S2P Require Import Util.
From S2P Require Import Checkcfg.
From S2P Require Import Dbus.
From S2P Require Import Macros.
From S2P Require Import ProfileState.
From S2P Require Import ProfileCommands.
From S2P Require Import ProfileLine.

(** * Theorems about profile lines *)

(** ** Stores *)

(** The variables that restrict the sandbox when they are set. *)
Definition restrictions : list string :=
  ["arg_ipc"; "arg_nonewprivs"; "arg_seccomp"; "arg_seccomp32"; "arg_seccomp_block_secondary";
   "arg_caps_default_filter"; "arg_caps_drop_all"; "arg_caps_drop"; "arg_caps_keep"; "arg_private";
   "arg_private_cwd"; "arg_private_cache"; "arg_private_dev"; "arg_private_tmp"; "arg_private_etc";
   "arg_private_opt"; "arg_private_srv"; "arg_private_bin"; "arg_nogroups"; "arg_nosound"; "arg_notv";
   "arg_nodvd"; "arg_novideo"; "arg_no3d"; "arg_noprinters"; "arg_noinput"; "arg_nou2f"; "arg_nonetwork";
   "arg_netfilter"; "arg_netfilter6"; "arg_netlock"; "arg_apparmor"; "arg_landlock_enforce";
   "arg_memory_deny_write_execute"; "arg_restrict_namespaces"; "arg_whitelist"; "arg_x11_block";
   "arg_machineid"; "arg_hostname_randomize"; "arg_disable_mnt"; "arg_rlimit_as"; "arg_rlimit_cpu";
   "arg_rlimit_fsize"; "arg_rlimit_nofile"; "arg_rlimit_nproc"; "arg_rlimit_sigpending"].

(** A store a restriction allows. *)
Definition allowed_store (n : string) (v : Z) : bool := negb (existsb (streq n) restrictions) || negb (v =? 0).

(** What some commands add to the list themselves. *)
Definition fixed_entries : list string :=
  ["blacklist /run/systemd/resolve"; "blacklist /dev/lp*"; "blacklist /run/cups/cups.sock"].

(** The stores the commands are made of keep a relation. *)
Class Primitives (R : relation Config) : Prop := {
  p_preorder :: PreOrder R;
  p_int n v : allowed_store n v = true -> keeps R (set_int n v);
  p_str n v : keeps R (set_str n v);
  p_null n : keeps R (set_null n);
  p_emit e : keeps R (emit e);
  p_bridge i f : keeps R (upd_bridge i f);
  p_fixed e : In e fixed_entries -> keeps R (profile_add e);
  p_landlock x : keeps R (cmodify (fun c => with_lprofile (lprofile c ++ [x]) c));
  p_ignore s : keeps R (profile_add_ignore s);
  p_env s o : keeps R (in_env (env_store s o));
  p_filter_user c : arg_dbus_user c <> DBUS_POLICY_BLOCK -> R c (with_dbus_user DBUS_POLICY_FILTER c);
  p_filter_system c : arg_dbus_system c <> DBUS_POLICY_BLOCK -> R c (with_dbus_system DBUS_POLICY_FILTER c);
  p_block_user : keeps R (cmodify (with_dbus_user DBUS_POLICY_BLOCK));
  p_block_system : keeps R (cmodify (with_dbus_system DBUS_POLICY_BLOCK))
}.

(** The stores of a number the program computes. *)
Lemma p_int_other `{Primitives R} n v : existsb (streq n) restrictions = false -> keeps R (set_int n v).
Proof. intros Hn. apply p_int. unfold allowed_store. by rewrite Hn. Qed.

#[export] Hint Resolve p_str p_null p_emit p_bridge p_landlock p_ignore p_env p_block_user p_block_system : keeps.
#[export] Hint Extern 1 (keeps _ (set_int _ _)) => (apply p_int; reflexivity) : keeps.
#[export] Hint Extern 2 (keeps _ (set_int _ _)) => (apply p_int_other; reflexivity) : keeps.
#[export] Hint Extern 1 (keeps _ (profile_add _)) => (apply p_fixed; cbn; tauto) : keeps.

Ltac unfold_commands :=
  unfold sets, nothing, flag, executed, if_enabled, if_network, set_sandbox_name, cmd_hostname,
    cmd_hostname_randomize, cmd_join_or_start, cmd_dbus_rule, exit_unless, cmd_net_none, cmd_net, on_last_bridge,
    cmd_veth_name, cmd_iprange, cmd_mac, cmd_mtu, cmd_netmask, cmd_ip, cmd_ip6, cmd_defaultgw, cmd_netfilter,
    cmd_netns, cmd_dns, cmd_seccomp_list, cmd_seccomp_error_action, cmd_restrict_namespaces, cmd_caps,
    scan_llu_into, rlimit_size, rlimit_number, cmd_nice, append_keep, cmd_private_list, not_writable_etc,
    cmd_private_etc_list, cmd_private_etc, cmd_writable_etc, cmd_private_dir, cmd_bind, cmd_path, cmd_noprinters,
    cmd_x11, cmd_apparmor, cmd_apparmor_replace, cmd_path, on_last_bridge, set_sandbox_name, scan_llu_into,
    set_hostname, randomize_hostname, set_dbus_policy, disable_network, add_network, set_veth_name, set_iprange, set_mac, set_mtu, set_ip,
    set_ip6, set_defaultgw, set_netfilter, set_netns, add_dns, set_seccomp_list, set_error_action, restrict_all_namespaces, set_caps_option,
    set_rlimit_size, set_rlimit_number, set_nice, add_private_list, set_writable_etc, disable_printers, on_last_bridge,
    append_keep, not_writable_etc, scan_llu_into, if_network, if_enabled, flag, executed, exit_unless.

(** The functions they call. *)
Ltac unfold_callees :=
  unfold augment, read_cpu_list, set_cpu, ll_add_profile, cassert, check_netns, check_netfilter_file, fs_mkdir,
    fs_mkfile, check_path, fs_check_private_dir, fs_check_private_cwd, fs_check_hosts_file, check_user_namespace,
    expand, get_int, get_str, executed;
  cbn [cfold]; cbv zeta.

(** Goes through a list of commands. *)
Ltac each_command :=
  repeat (apply Forall_cons; split; [intros a; cbn [snd]|]); [..|apply Forall_nil_2].

(** ** Commands *)

Section Commands.
Context `{H : Host} `{CH : CapHeaders}.

Section Keep.
Context (R : relation Config) `{HP : !Primitives R}.

Definition command_keeps (c : command) : Prop := forall a, keeps R (c.2 a).

Lemma dbus_policy_keeps log a :
  keeps R (cmd_dbus_policy arg_dbus_user with_dbus_user log a) /\
  keeps R (cmd_dbus_policy arg_dbus_system with_dbus_system log a).
Proof.
  split; unfold cmd_dbus_policy, executed; (apply keeps_bind; [exact _| |intros; keeps_tac]);
    (destruct (built _); [|apply keeps_ret, _]); apply keeps_get_bind; intros c;
    (destruct (streq "filter" a); [case_decide; [done|]|]);
    [by apply p_filter_user| |by apply p_filter_system|];
    (destruct (streq "none" a); [|done]); (destruct (negb _); [done|]).
  - apply p_block_user.
  - apply p_block_system.
Qed.

Lemma rlimit_commands_keep : Forall command_keeps rlimit_commands.
Proof. unfold rlimit_commands. each_command; unfold_commands; keeps_tac. Qed.

Lemma run_command_keeps cmds ptr : Forall command_keeps cmds -> keeps R (run_command cmds ptr).
Proof.
  induction 1 as [|[t f] cmds Hf _ IH]; simpl; [apply keeps_exit, _|].
  destruct (matches t ptr); [apply Hf|exact IH].
Qed.

Lemma commands_keep : Forall command_keeps commands.
Proof.
  unfold commands. rewrite !Forall_app. repeat split.
  - unfold commands_1, sets. each_command; unfold_commands; unfold_callees; keeps_tac.
  - unfold commands_2, sets. each_command; try apply dbus_policy_keeps; unfold_commands; unfold_callees; keeps_tac.
  - unfold commands_3, sets. each_command; try (apply run_command_keeps, rlimit_commands_keep);
      unfold_commands; unfold_callees; keeps_tac.
  - unfold path_commands. each_command; unfold_commands; keeps_tac.
Qed.
End Keep.

(** ** Lifting to lines *)

Section Lift.
Context (R : relation Config) `{!PreOrder R}.

Definition command_keeps_ok (c : command) : Prop := forall a, keeps_ok R (c.2 a).

Lemma run_command_keeps_ok cmds ptr : Forall command_keeps_ok cmds -> keeps_ok R (run_command cmds ptr).
Proof.
  induction 1 as [|[t f] cmds Hf _ IH]; simpl; [apply keeps_ok_exit|].
  destruct (matches t ptr); [apply Hf|exact IH].
Qed.

Context (Hcmds : Forall command_keeps_ok commands).
Context (Hadd : forall s, keeps_ok R (profile_add s)).

Lemma check_line_keeps_ok f ptr : keeps_ok R (check_line f ptr).
Proof.
  revert ptr. induction f as [|f IH]; intros ptr; cbn [check_line]; [apply keeps_ok_nofuel|].
  destruct (strip_prefix "?" ptr) as [rest|].
  - destruct (parse_conditional rest) as [[check p]|]; [|apply keeps_ok_exit].
    apply keeps_ok_bind; [exact _|apply keeps_ok_get, _|intros c].
    destruct (check c); [|apply keeps_ok_ret, _]. destruct (_ || _); [apply keeps_ok_exit|].
    apply keeps_ok_bind; [exact _|apply IH|intros add].
    apply keeps_ok_bind; [exact _| |intros; apply keeps_ok_ret, _].
    destruct add; [apply Hadd|apply keeps_ok_ret, _].
  - apply keeps_ok_bind; [exact _|apply keeps_ok_get, _|intros c].
    destruct (is_in_ignore_list ptr c); [apply keeps_ok_ret, _|].
    by apply run_command_keeps_ok.
Qed.
End Lift.

Lemma commands_keep_ok R `{!Primitives R} : Forall (command_keeps_ok R) commands.
Proof. eapply Forall_impl; [apply (commands_keep R)|]. intros c Hc a. apply keeps_ok_keeps, Hc. Qed.


End Commands.

(** ** What a profile cannot undo *)

Definition flags_kept (c c' : Config) : Prop :=
  Forall (fun n => int_of n c <> 0 -> int_of n c' <> 0) restrictions.

Definition lists_grow (c c' : Config) : Prop :=
  profile c `prefix_of` profile c' /\ profile_ignore c `prefix_of` profile_ignore c' /\
  lprofile c `prefix_of` lprofile c' /\ effects c `prefix_of` effects c' /\
  envlist (environment c) `prefix_of` envlist (environment c').

Definition blocks_kept (c c' : Config) : Prop :=
  (arg_dbus_user c = DBUS_POLICY_BLOCK -> arg_dbus_user c' = DBUS_POLICY_BLOCK) /\
  (arg_dbus_system c = DBUS_POLICY_BLOCK -> arg_dbus_system c' = DBUS_POLICY_BLOCK).

Definition kept (c c' : Config) : Prop := flags_kept c c' /\ blocks_kept c c' /\ lists_grow c c'.

#[export] Instance kept_preorder : PreOrder kept.
Proof.
  split.
  - intros c. repeat split; try done. by apply Forall_forall.
  - intros c1 c2 c3 (F1 & (B1 & B1') & (P1 & I1 & L1 & E1 & V1)) (F2 & (B2 & B2') & (P2 & I2 & L2 & E2 & V2)).
    repeat split; try (etrans; eassumption); auto.
    unfold flags_kept in *. rewrite Forall_forall in *. eauto.
Qed.

Lemma int_of_insert n m v c : int_of m (with_ints (<[n := v]> (ints c)) c) = if streq n m then v else int_of m c.
Proof.
  unfold int_of, streq. cbn [ints with_ints]. destruct (String.eqb_spec n m) as [->|Hn].
  - by rewrite lookup_insert_eq.
  - by rewrite lookup_insert_ne.
Qed.

Lemma set_int_kept n v : allowed_store n v = true -> keeps kept (set_int n v).
Proof.
  intros Ha. apply keeps_modify. intros c. repeat split; try done.
  apply Forall_forall. intros m Hm Hv. rewrite int_of_insert. destruct (streq n m) eqn:E; [|done].
  unfold allowed_store in Ha. apply orb_true_iff in Ha as [Ha|Ha].
  - apply negb_true_iff in Ha. apply list_elem_of_In in Hm.
    exfalso. assert (existsb (streq n) restrictions = true) by (apply List.existsb_exists; eauto). congruence.
  - apply negb_true_iff, Z.eqb_neq in Ha. done.
Qed.

Ltac kept_modify :=
  apply keeps_modify; intros c; repeat split; try done; try (by apply Forall_forall);
  try (by apply prefix_app_r).

Lemma set_str_kept n v : keeps kept (set_str n v).
Proof. kept_modify. Qed.
Lemma set_null_kept n : keeps kept (set_null n).
Proof. kept_modify. Qed.
Lemma emit_kept e : keeps kept (emit e).
Proof. kept_modify. Qed.
Lemma profile_add_kept s : keeps kept (profile_add s).
Proof. kept_modify. Qed.
Lemma upd_bridge_kept i f : keeps kept (upd_bridge i f).
Proof. kept_modify. Qed.
Lemma with_lprofile_kept x : keeps kept (cmodify (fun c => with_lprofile (lprofile c ++ [x]) c)).
Proof. kept_modify. Qed.
Lemma block_user_kept : keeps kept (cmodify (with_dbus_user DBUS_POLICY_BLOCK)).
Proof. kept_modify. Qed.
Lemma block_system_kept : keeps kept (cmodify (with_dbus_system DBUS_POLICY_BLOCK)).
Proof. kept_modify. Qed.

Lemma profile_add_ignore_kept s : keeps kept (profile_add_ignore s).
Proof.
  unfold profile_add_ignore. destruct (negb _); [apply keeps_exit, _|].
  apply keeps_get_bind. intros c. destruct (_ <=? _); [done|].
  repeat split; try done; [by apply Forall_forall|by apply prefix_app_r].
Qed.

Lemma env_store_grows s o p : envlist p `prefix_of` envlist (env_store s o p).2.
Proof.
  unfold env_store. destruct (negb _); [done|].
  destruct o, (strchr_split "="%char s) as [[]|]; cbn; try done; by apply prefix_app_r.
Qed.

Lemma env_store_kept s o : keeps kept (in_env (env_store s o)).
Proof.
  apply keeps_get_bind. intros c. pose proof (env_store_grows s o (environment c)) as Hp.
  destruct (env_store s o (environment c)) as [r p]. cbn in *.
  repeat split; try done. by apply Forall_forall.
Qed.


#[export] Instance kept_primitives : Primitives kept.
Proof.
  split; intros; auto using set_int_kept, set_str_kept, set_null_kept, emit_kept, upd_bridge_kept, profile_add_kept,
    with_lprofile_kept, profile_add_ignore_kept, env_store_kept, block_user_kept, block_system_kept; [exact _|..];
    repeat split; try done; by apply Forall_forall.
Qed.

Section Kept.
Context `{H : Host} `{CH : CapHeaders}.

Lemma profile_check_line_kept ptr : keeps_ok kept (profile_check_line ptr).
Proof.
  apply check_line_keeps_ok; [exact _|apply commands_keep_ok, _|].
  intros s. apply keeps_ok_keeps, profile_add_kept.
Qed.
End Kept.

Section Read.
Context `{H : Host} `{CH : CapHeaders}.

(** ** From lines to files *)

(** A relation that lines and the few stores of [profile_read] keep is kept by
    reading a whole file with its includes. *)
Section Lift.
Context (R : relation Config) `{!PreOrder R}.
Context (Hline : forall ptr, keeps_ok R (add_line ptr)).
Context (Hro : forall a, keeps_ok R (whitelist_ro a)).
Context (Hquiet : forall v, (v =? 0) || (v =? 1) = true -> keeps_ok R (set_int "arg_quiet" v)).
Context (Hlevel : forall d, keeps_ok R (change_level d)).
Context (Hfile : forall f, keeps_ok R (emit (Run_file f))).

#[local] Hint Resolve Hline Hro Hquiet Hlevel Hfile : keeps_ok.

Section Nested.
Context (read : string -> P unit) (Hread : forall f, keeps_ok R (read f)).
#[local] Hint Resolve Hread : keeps_ok.

Lemma include_file_keeps name : keeps_ok R (include_file read name).
Proof.
  unfold include_file, profile_find_firejail, profile_find, expand. keeps_ok_tac.
Qed.
#[local] Hint Resolve include_file_keeps : keeps_ok.

Lemma profile_buffer_keeps buf : keeps_ok R (profile_buffer read buf).
Proof. unfold profile_buffer, profile_command. cbv zeta. keeps_ok_tac. Qed.
End Nested.

Lemma profile_read_level_keeps f fname : keeps_ok R (profile_read_level f fname).
Proof.
  revert fname. induction f as [|f IH]; intros fname; cbn [profile_read_level]; [apply keeps_ok_nofuel|].
  pose proof (profile_buffer_keeps _ IH) as Hb.
  cbv zeta. keeps_ok_tac.
Qed.
End Lift.

(** ** Monotonicity *)

Lemma add_line_kept ptr : keeps_ok kept (add_line ptr).
Proof.
  unfold add_line. apply keeps_ok_bind; [exact _|apply profile_check_line_kept|intros b].
  destruct b; [apply keeps_ok_keeps, profile_add_kept|apply keeps_ok_ret, _].
Qed.

Lemma profile_read_kept fname : keeps_ok kept (profile_read fname).
Proof.
  apply profile_read_level_keeps; [exact _|apply add_line_kept|..]; intros; apply keeps_ok_keeps.
  - apply keeps_bind; [exact _|apply profile_add_kept|intros; apply profile_add_kept].
  - keeps_tac.
  - apply keeps_modify. intros w. repeat split; try done. by apply Forall_forall.
  - apply emit_kept.
Qed.

(** C7: No profile file, whatever it holds and includes, unsets a restriction that was
    in force before it was read: each of the 44 variables that switch a restriction on
    ([restrictions]) stays set, a bus that is blocked stays blocked, and commands,
    ignore entries, Landlock entries and environment settings are only added, behind
    those there were.  Values of other variables may be replaced: lists of capabilities
    and system calls, limits, the error action of the filters. *)
Theorem profile_read_monotone fname c c' :
  profile_read fname c = (Ok tt, c') -> kept c c'.
Proof. apply profile_read_kept. Qed.
End Read.
