(* ===== verification/NetTheorems.v ===== *)
(** * Theorems about the network of the sandbox *)

From S2P Require Import Prelude.
From S2P Require Import Clib.
From S2P Require Import Keeps.
From S2P Require Import Text.
From S2P Require Import Common.
From S2P Require Import Checkcfg.
From S2P Require Import ProfileState.
From S2P Require Import ProfileCommands.
From S2P Require Import ProfileReadTheorems.
From S2P Require Import NetConfig.

(** ** ARP *)

(** The reply of a host to a probe. *)
Definition arp_reply (mac their_mac : list Z) (addr : Z) : list Z :=
  mac ++ their_mac ++ be16 ETH_P_ARP ++ arp_hdr 2 their_mac addr mac 0.

(** A reply is recognised as one, whatever padding follows it, and the probe itself
    is not. *)
Lemma reply_answers mac their addr pad : length mac = 6%nat -> length their = 6%nat ->
  answers mac (arp_reply mac their addr ++ pad) = true /\
  answers mac (arp_request mac 0 addr) = false.
Proof.
  intros Hm Ht. destruct mac as [|m0 [|m1 [|m2 [|m3 [|m4 [|m5 []]]]]]]; try discriminate.
  destruct their as [|t0 [|t1 [|t2 [|t3 [|t4 [|t5 []]]]]]]; try discriminate.
  split; [|reflexivity]. unfold answers. cbn [length arp_reply arp_hdr be16 be32 app bytes_of drop take].
  rewrite !bool_decide_eq_true_2 by reflexivity. reflexivity.
Qed.

(** A reply before the first timeout marks the address as used, whatever other
    frames come before. *)
Lemma arp_wait_reply mac cnt fs f events :
  answers mac f = true -> arp_wait mac cnt true (map Frame fs ++ Frame f :: events) = true.
Proof.
  intros Hf. induction fs as [|g fs IH]; simpl; [by rewrite Hf|]. by destruct (answers mac g).
Qed.

(** After the first timeout no reply is noticed: the probes sent from then on are in
    vain. *)
Lemma arp_wait_late mac cnt events : arp_wait mac cnt true (Timeout :: events) = false.
Proof.
  cbn [arp_wait]. destruct (_ <=? 0); [done|]. generalize (cnt - 1). clear cnt.
  induction events as [|[] events IH]; intros cnt; cbn [arp_wait andb]; [done|..|apply IH|apply IH].
  destruct (_ <=? 0); [done|apply IH].
Qed.

(** ** The addresses that are tried *)

Section Range.
Context (br : Bridge) (e : Z).

(** The network has an address, a mask of [e] ones, and room for hosts; a range given
    with --iprange has two ends inside. *)
Record bridge_net : Prop := {
  bn_ip : 0 < ip br < 2 ^ 32;
  bn_len : 1 <= e <= 30;
  bn_mask : mask br = prefix e;
  bn_range : iprange_start br = 0 /\ iprange_end br = 0 \/
             0 < iprange_start br < iprange_end br /\ iprange_end br < 2 ^ 32 /\
             in_netrange (iprange_start br) (ip br) (mask br) = None /\
             in_netrange (iprange_end br) (ip br) (mask br) = None
}.

Definition size : Z := 2 ^ (32 - e).
Definition base : Z := ip br / size * size.

Context (Hn : bridge_net).

Lemma size_bounds : 4 <= size <= 2 ^ 31 /\ 2 ^ e * size = 2 ^ 32.
Proof.
  destruct Hn as [_ He _ _]. unfold size. split.
  - split; [change 4 with (2 ^ 2)|]; apply Z.pow_le_mono_r; lia.
  - rewrite <- Z.pow_add_r by lia. f_equal. lia.
Qed.

Lemma base_bounds : 0 <= base /\ base + size <= 2 ^ 32.
Proof.
  pose proof size_bounds as [Hs He]. destruct Hn as [Hi _ _ _]. unfold base.
  assert (0 <= ip br / size < 2 ^ e) as Hd.
  { split; [apply Z.div_pos; lia|apply Z.div_lt_upper_bound; lia]. }
  nia.
Qed.

Lemma land_mask : Z.land (ip br) (mask br) = base.
Proof.
  destruct Hn as [Hi He Hm _]. rewrite Hm, land_prefix by lia. unfold base, size. lia.
Qed.

Lemma mask_range : u32 (not32 (mask br) + 1) = size.
Proof.
  destruct Hn as [_ He Hm _]. pose proof size_bounds as [Hs _]. rewrite Hm.
  replace (not32 (prefix e)) with (size - 1); [rewrite Z.sub_add; apply u32_small; lia|].
  pose proof (lor_not_prefix 0 e ltac:(lia) ltac:(lia)) as Hl.
  rewrite Z.lor_0_l in Hl. rewrite Hl. unfold size.
  rewrite Z.div_0_l by (apply Z.pow_nonzero; lia). lia.
Qed.

(** Addresses of the network that hosts may have. *)
Lemma in_network x : base < x < base + size - 1 -> in_netrange x (ip br) (mask br) = None.
Proof.
  intros Hx. pose proof base_bounds. pose proof size_bounds as [Hs _]. destruct Hn as [Hi He Hm _]. rewrite Hm.
  apply in_netrange_spec; [lia|lia|lia|]. fold size.
  assert (x / size = ip br / size /\ x mod size = x - base) as [-> ->]; [|lia].
  unfold base in *. assert (x = size * (ip br / size) + (x - ip br / size * size)) as Ex by lia.
  split; [symmetry; apply (Z.div_unique x size _ (x - ip br / size * size)); lia|].
  symmetry. apply (Z.mod_unique x size (ip br / size)); lia.
Qed.

Lemma network_in x : 0 <= x < 2 ^ 32 -> in_netrange x (ip br) (mask br) = None -> base < x < base + size - 1.
Proof.
  intros Hx E. destruct Hn as [Hi He Hm _]. rewrite Hm in E. apply in_netrange_spec in E; [|lia..].
  fold size in E. destruct E as [Ed Hr]. pose proof size_bounds as [Hs _].
  pose proof (Z.div_mod x size ltac:(lia)). unfold base. rewrite Ed in *. lia.
Qed.

Lemma addresses : base < first_address br <= last_address br /\ last_address br < base + size - 1 /\
  (iprange_start br <> 0 -> first_address br = iprange_start br /\ last_address br = iprange_end br).
Proof.
  pose proof base_bounds. pose proof size_bounds as [Hs _]. unfold first_address, last_address.
  destruct (bn_range Hn) as [[E1 E2]|(H1 & H2 & N1 & N2)].
  - unfold first_address. rewrite E1, E2. cbn [Z.eqb]. rewrite land_mask, mask_range, !u32_small by lia. lia.
  - rewrite !(proj2 (Z.eqb_neq _ 0)) by lia. apply network_in in N1, N2; lia.
Qed.

(** What the random tries and the scan choose from. *)
Lemma eligible_ok x : first_address br <= x <= last_address br ->
  in_netrange x (ip br) (mask br) = None /\ x <> 0 /\
  (iprange_start br <> 0 -> iprange_start br <= x <= iprange_end br).
Proof.
  intros Hx. pose proof addresses as (A1 & A2 & A3). pose proof base_bounds.
  split; [apply in_network; lia|]. split; [lia|]. intros [E1 E2]%A3. lia.
Qed.
End Range.

(** ** Assignment *)

Section Assign.
Context `{H : Host} `{N : NetHost}.

(** An address that can be given to the sandbox. *)
Definition free (dev : string) (br : Bridge) (gw x : Z) : Prop :=
  first_address br <= x <= last_address br /\ x <> ip br /\ x <> gw /\ arp_check dev x = Ok false.

Lemma get_rand_spec c r c' : get_rand c = (Ok r, c') -> 0 <= r /\ int_of "defaultgw" c' = int_of "defaultgw" c.
Proof.
  unfold get_rand, get_int. rewrite cbind_assoc, cget_bind, cret_bind.
  destruct (rand_next _) as [v s']. intros [= <- <-]. split; [apply u32_range|].
  unfold set_int. cbn. by rewrite int_of_insert.
Qed.

Lemma random_tries_spec n start range ifip gw c r c' : 0 < range ->
  0 <= start -> start + range <= 2 ^ 32 ->
  random_tries n start range ifip gw c = (Ok r, c') ->
  int_of "defaultgw" c' = int_of "defaultgw" c /\
  forall x, r = Some x -> start <= x < start + range /\ x <> ifip /\ x <> gw.
Proof.
  intros Hr Hs Hb. revert c. induction n as [|n IH]; intros c; cbn [random_tries]; [by intros [= <- <-]|].
  unfold cbind at 1. destruct (get_rand c) as [[v| | |] c1] eqn:E; try done.
  apply get_rand_spec in E as [Hv Hg]. pose proof (Z.mod_pos_bound v range Hr).
  rewrite u32_small by lia. destruct (Z.eqb_spec (start + v mod range) ifip); cbn [orb].
  { intros E. destruct (IH _ E) as [-> Hx]. done. }
  destruct (Z.eqb_spec (start + v mod range) gw).
  { intros E. destruct (IH _ E) as [-> Hx]. done. }
  intros [= <- <-]. split; [done|]. intros x [= <-]. lia.
Qed.

(** The runs that do not end the program keep the gateway. *)
Lemma arp_random_spec dev br e c a c' : bridge_net br e ->
  arp_random dev br c = (Ok a, c') ->
  int_of "defaultgw" c' = int_of "defaultgw" c /\
  (a <> 0 -> free dev br (int_of "defaultgw" c) a).
Proof.
  intros Hn. pose proof (addresses _ _ Hn) as (A1 & A2 & A3).
  pose proof (base_bounds _ _ Hn) as [B1 B2]. pose proof (size_bounds _ _ Hn) as [S1 _].
  unfold arp_random. cbv zeta. rewrite (mask_range _ _ Hn), (land_mask _ _ Hn).
  unfold cassert. destruct (negb (ip br =? 0)); [rewrite cret_bind|done].
  destruct (negb (mask br =? 0)); [rewrite cret_bind|done].
  rewrite (proj2 (Z.ltb_ge (size e) 4)) by lia.
  set (given := _ && _). set (start := if given then iprange_start br else _).
  set (range := if given then _ else _).
  assert (first_address br = start /\ 0 < range /\ start + range <= last_address br + 1) as (F & R1 & R2).
  { unfold start, range, given, first_address, last_address.
    destruct (bn_range _ _ Hn) as [[E1 E2]|(H1 & H2 & _)].
    - unfold first_address. rewrite E1, E2. cbn [Z.eqb negb andb].
      rewrite (land_mask _ _ Hn), (mask_range _ _ Hn), !u32_small by lia. lia.
    - rewrite !(proj2 (Z.eqb_neq _ 0)) by lia. cbn [negb andb]. rewrite u32_small; lia. }
  rewrite (proj2 (Z.eqb_neq range 0)) by lia.
  unfold get_int. rewrite cbind_assoc, cget_bind, cret_bind. unfold cbind at 1.
  destruct (random_tries _ _ _ _ _ c) as [[r| | |] c1] eqn:E; try done.
  apply random_tries_spec in E as [Eg Hx]; [|lia..].
  destruct r as [x|]; [|by intros [= <- <-]]. specialize (Hx x eq_refl).
  unfold clift, cbind. destruct (arp_check dev x) as [[]| | |] eqn:Ea; try done; intros [= <- <-]; [done|].
  split; [done|]. intros _. split; [lia|]. intuition.
Qed.

Lemma sequential_spec fuel dev ifip gw dest last a :
  0 <= dest -> last < 2 ^ 32 - 1 ->
  sequential_loop fuel dev ifip gw dest last = Ok a ->
  a = 0 \/ (dest <= a <= last /\ a <> ifip /\ a <> gw /\ arp_check dev a = Ok false).
Proof.
  intros Hd Hl. revert dest Hd. induction fuel as [|f IH]; intros dest Hd; cbn [sequential_loop]; [done|].
  destruct (Z.ltb_spec last dest); [by intros [= <-]; left|].
  assert (u32 (dest + 1) = dest + 1) as Hu by (apply u32_small; lia). rewrite Hu.
  destruct (Z.eqb_spec dest ifip); cbn [orb].
  { intros [->|(? & ? & ? & ?)]%IH; [by left|right|lia]. split; [lia|auto]. }
  destruct (Z.eqb_spec dest gw).
  { intros [->|(? & ? & ? & ?)]%IH; [by left|right|lia]. split; [lia|auto]. }
  destruct (arp_check dev dest) as [[]| | |] eqn:Ea; cbn [obind]; try done.
  - intros [->|(? & ? & ? & ?)]%IH; [by left|right|lia]. split; [lia|auto].
  - intros [= <-]. right. split; [lia|auto].
Qed.

Lemma arp_sequential_spec dev br e c a c' : bridge_net br e ->
  arp_sequential dev br c = (Ok a, c') -> a <> 0 -> free dev br (int_of "defaultgw" c) a.
Proof.
  intros Hn. pose proof (addresses _ _ Hn) as (A1 & A2 & A3). pose proof (base_bounds _ _ Hn).
  unfold arp_sequential, cassert. destruct (negb (ip br =? 0)); [rewrite cret_bind|done].
  destruct (negb (mask br =? 0)); [rewrite cret_bind|done]. rewrite (mask_range _ _ Hn).
  destruct (_ <? 4); [intros [= <- <-]; done|].
  unfold get_int. rewrite cbind_assoc, cget_bind, cret_bind. cbv zeta. unfold clift. intros [= E _] Ha.
  apply sequential_spec in E as [->|E]; [done|exact E|lia..].
Qed.

(** An address the sandbox is given was tried and not in use; it is neither that of
    the interface nor that of the gateway, it lies inside the network and is not its
    first or last address, and inside the range of --iprange if there is one. *)
Theorem arp_assign_valid dev br e c a c' : bridge_net br e ->
  arp_assign dev br c = (Ok a, c') ->
  arp_check dev a = Ok false /\ a <> ip br /\ a <> int_of "defaultgw" c /\
  in_netrange a (ip br) (mask br) = None /\
  (iprange_start br <> 0 -> iprange_start br <= a <= iprange_end br).
Proof.
  intros Hn E.
  assert (free dev br (int_of "defaultgw" c) a) as (F1 & F2 & F3 & F4).
  { revert E. unfold arp_assign. unfold cbind at 1.
    destruct (arp_random dev br c) as [[a1| | |] c1] eqn:E1; try done.
    apply (arp_random_spec _ _ _ _ _ _ Hn) in E1 as [G1 X1].
    unfold cbind at 1. destruct (Z.eqb_spec a1 0) as [->|H1].
    - destruct (arp_random dev br c1) as [[a2| | |] c2] eqn:E2; try done.
      apply (arp_random_spec _ _ _ _ _ _ Hn) in E2 as [G2 X2]. unfold cbind at 1.
      destruct (Z.eqb_spec a2 0) as [->|H2].
      + destruct (arp_sequential dev br c2) as [[a3| | |] c3] eqn:E3; try done.
        destruct (Z.eqb_spec a3 0) as [->|H3]; [done|]. intros [= <- _].
        pose proof (arp_sequential_spec _ _ _ _ _ _ Hn E3 H3) as X3. by rewrite G2, G1 in X3.
      + cbn [cret]. rewrite (proj2 (Z.eqb_neq a2 0)) by done. intros [= <- _]. rewrite <- G1. auto.
    - cbn [cret]. unfold cbind. rewrite (proj2 (Z.eqb_neq a1 0)) by done. cbn [cret].
      rewrite (proj2 (Z.eqb_neq a1 0)) by done. intros [= <- _]. auto. }
  destruct (eligible_ok _ _ Hn a F1) as (E1 & _ & E3). auto.
Qed.

(** ** Enough addresses *)

Lemma arp_check_ends dev mac x : arp_source dev = Ok mac -> exists used, arp_check dev x = Ok used.
Proof. intros Hm. unfold arp_check. rewrite Hm. by eexists. Qed.

Lemma random_tries_ends n start range ifip gw c : exists r c', random_tries n start range ifip gw c = (Ok r, c').
Proof.
  revert c. induction n as [|n IH]; intros c; cbn [random_tries]; [by do 2 eexists|].
  unfold get_rand, get_int. rewrite !cbind_assoc, cget_bind, cret_bind.
  destruct (rand_next _) as [v s']. unfold set_int. rewrite cbind_assoc, cmodify_bind, cret_bind.
  destruct (_ || _); [apply IH|by do 2 eexists].
Qed.

Lemma arp_random_ends dev br e c mac : bridge_net br e -> arp_source dev = Ok mac ->
  exists a c', arp_random dev br c = (Ok a, c').
Proof.
  intros Hn Hm. unfold arp_random. cbv zeta.
  pose proof (bn_ip _ _ Hn). pose proof (size_bounds _ _ Hn) as [S1 _]. pose proof (mask_range _ _ Hn) as Hr.
  rewrite (proj2 (Z.eqb_neq (ip br) 0)) by lia. cbn [negb cassert]. rewrite cret_bind.
  destruct (Z.eqb_spec (mask br) 0) as [E|_].
  { rewrite E in Hr. cbn in Hr. change (u32 _) with 0 in Hr. lia. }
  cbn [negb cassert]. rewrite cret_bind, Hr, (proj2 (Z.ltb_ge (size e) 4)) by lia.
  set (given := negb (iprange_start br =? 0) && _). set (range := if given then u32 _ else _).
  assert (range <> 0) as Hz.
  { unfold range, given. destruct (bn_range _ _ Hn) as [[-> ->]|(H1 & H2 & _)]; [cbn [Z.eqb negb andb]; lia|].
    rewrite !(proj2 (Z.eqb_neq _ 0)) by lia. cbn [negb andb]. rewrite u32_small; lia. }
  rewrite (proj2 (Z.eqb_neq range 0)) by done.
  unfold get_int. rewrite cbind_assoc, cget_bind, cret_bind. unfold cbind at 1.
  match goal with |- context [random_tries ?n ?s ?r ?i ?g c] =>
    destruct (random_tries_ends n s r i g c) as (t & c1 & ->) end.
  destruct t as [x|]; [|by do 2 eexists].
  destruct (arp_check_ends dev mac x Hm) as [used E]. rewrite E. by do 2 eexists.
Qed.

Lemma sequential_finds fuel dev ifip gw dest last mac x :
  arp_source dev = Ok mac -> 0 < dest -> last < 2 ^ 32 - 1 -> last - dest + 2 <= Z.of_nat fuel ->
  dest <= x <= last -> x <> ifip -> x <> gw -> arp_check dev x = Ok false ->
  exists a, sequential_loop fuel dev ifip gw dest last = Ok a /\ a <> 0.
Proof.
  intros Hm Hd Hl Hf Hx Hi Hg Hc. revert dest Hd Hf Hx.
  induction fuel as [|f IH]; intros dest Hd Hf Hx; cbn [sequential_loop]; [lia|].
  rewrite (proj2 (Z.ltb_ge last dest)) by lia.
  assert (u32 (dest + 1) = dest + 1) as -> by (apply u32_small; lia).
  destruct (Z.eq_dec dest x) as [->|Hne].
  { rewrite !(proj2 (Z.eqb_neq x _)) by done. cbn [orb]. rewrite Hc. exists x. split; [done|lia]. }
  destruct (_ || _); [apply IH; lia|]. destruct (arp_check_ends dev mac dest Hm) as [[] ->]; cbn [obind].
  - apply IH; lia.
  - exists dest. split; [done|lia].
Qed.

(** C36: As long as one address of the range answers no probe, an address is found:
    whatever the random tries hit, the scan ends, and it ends at a free address. *)
Theorem arp_assign_complete dev br e c mac x : bridge_net br e -> arp_source dev = Ok mac ->
  free dev br (int_of "defaultgw" c) x ->
  exists a c', arp_assign dev br c = (Ok a, c').
Proof.
  intros Hn Hm (F1 & F2 & F3 & F4). pose proof (addresses _ _ Hn) as (A1 & A2 & _). pose proof (base_bounds _ _ Hn).
  pose proof (bn_ip _ _ Hn). pose proof (size_bounds _ _ Hn) as [S1 _]. pose proof (mask_range _ _ Hn) as Hr.
  unfold arp_assign. unfold cbind at 1. destruct (arp_random_ends dev br e c mac Hn Hm) as (a1 & c1 & E1). rewrite E1.
  apply (arp_random_spec _ _ _ _ _ _ Hn) in E1 as [G1 _].
  destruct (Z.eqb_spec a1 0) as [->|N1].
  2: { unfold cbind, cret. rewrite (proj2 (Z.eqb_neq a1 0)) by done. rewrite (proj2 (Z.eqb_neq a1 0)) by done. by do 2 eexists. }
  unfold cbind at 1. destruct (arp_random_ends dev br e c1 mac Hn Hm) as (a2 & c2 & E2). rewrite E2.
  apply (arp_random_spec _ _ _ _ _ _ Hn) in E2 as [G2 _].
  destruct (Z.eqb_spec a2 0) as [->|N2].
  2: { unfold cbind, cret. rewrite (proj2 (Z.eqb_neq a2 0)) by done. by do 2 eexists. }
  unfold cbind at 1, arp_sequential, cassert. rewrite (proj2 (Z.eqb_neq (ip br) 0)) by lia. cbn [negb]. rewrite cret_bind.
  destruct (Z.eqb_spec (mask br) 0) as [E|_].
  { rewrite E in Hr. cbn in Hr. change (u32 _) with 0 in Hr. lia. }
  cbn [negb]. rewrite cret_bind, Hr, (proj2 (Z.ltb_ge (size e) 4)) by lia.
  unfold get_int. rewrite cbind_assoc, cget_bind, cret_bind. cbv zeta.
  edestruct (sequential_finds (Z.to_nat (last_address br - first_address br + 2)) dev (ip br)
    (int_of "defaultgw" c2) (first_address br) (last_address br) mac x) as (a3 & E3 & N3); [done|lia|lia|lia|done|done|congruence|done|].
  unfold clift. rewrite E3, (proj2 (Z.eqb_neq a3 0)) by done. by do 2 eexists.
Qed.
End Assign.

(** ** The configuration *)

Section Check.
Context `{H : Host} `{N : NetHost}.

(** Variables and the bridges in use stay as they are. *)
Definition same_choice (c c' : Config) : Prop :=
  ints c' = ints c /\ forall i, configured (bridge i c') = configured (bridge i c).

#[export] Instance same_choice_preorder : PreOrder same_choice.
Proof.
  split; [done|]. intros c1 c2 c3 [I1 B1] [I2 B2]. split; [congruence|]. intros i. by rewrite B2, B1.
Qed.

Lemma upd_bridge_same i f : (forall b, configured (f b) = configured b) -> keeps same_choice (upd_bridge i f).
Proof.
  intros Hf. apply keeps_modify. intros c. split; [done|]. intros j. unfold bridge, with_bridges. cbn [bridges].
  destruct (decide (i < length (bridges c))%nat) as [Hi|Hi].
  - rewrite !nth_lookup. destruct (decide (i = j)) as [->|Hn].
    + rewrite list_lookup_insert_eq by done. cbn. by rewrite Hf.
    + by rewrite list_lookup_insert_ne.
  - by rewrite list_insert_ge by lia.
Qed.

#[local] Hint Extern 1 (keeps same_choice (upd_bridge _ _)) => (apply upd_bridge_same; reflexivity) : keeps.

Lemma store_if_addr_same a b : configured (store_if_addr a b) = configured b.
Proof. unfold store_if_addr. by destruct (a_mac a), (a_mtu a). Qed.

Lemma net_configure_bridge_same i : keeps same_choice (net_configure_bridge i).
Proof.
  pose proof (fun a => upd_bridge_same i _ (store_if_addr_same a)).
  unfold net_configure_bridge, configure_range, check_iprange, exit_unless. cbv zeta. keeps_tac; eauto.
Qed.

Lemma any_bridge_same c c' : same_choice c c' -> any_bridge_configured c' = any_bridge_configured c.
Proof. intros [_ Hb]. unfold any_bridge_configured, is_configured. by rewrite !Hb. Qed.

(** Once the network options are checked, bridges and --net=none do not occur
    together, the first bridge is in use if any is, and a gateway that was asked for
    is an address of one of the networks.  What the checks change leaves the choice
    of networks as it was. *)
Theorem net_check_cfg_consistent c c' : net_check_cfg c = (Ok tt, c') ->
  any_bridge_configured c = true ->
  int_of "arg_nonetwork" c = 0 /\ is_configured 0 c' = true /\
  (int_of "defaultgw" c <> 0 -> exists i, is_configured i c' = true /\
     in_netrange (int_of "defaultgw" c) (ip (bridge i c')) (mask (bridge i c')) = None).
Proof.
  intros E Hb. unfold net_check_cfg in E. unfold cbind at 1 in E.
  match type of E with context [cfold ?f ?l tt c] => assert (keeps same_choice (cfold f l tt)) as Hk end.
  { apply keeps_fold; [exact _|]. intros i _. apply keeps_bind; [exact _|apply keeps_get, _|intros w].
    destruct (is_configured i w); [apply net_configure_bridge_same|apply keeps_ret, _]. }
  specialize (Hk c). destruct (cfold _ _ tt c) as [[[]| | |] c1]; try done. cbn [snd] in Hk.
  rewrite cget_bind in E. cbv zeta in E. rewrite (any_bridge_same _ _ Hk), Hb in E. cbn [negb andb] in E.
  rewrite andb_false_r in E. cbn [andb] in E.
  assert (forall n, int_of n c1 = int_of n c) as Hi by (intros n; unfold int_of; by rewrite (proj1 Hk)).
  rewrite !Hi in E. unfold exit_unless at 1 in E.
  destruct (Z.eqb_spec (int_of "arg_nonetwork" c) 0) as [E0|]; [rewrite cret_bind in E|done].
  unfold cassert at 1 in E. destruct (is_configured 0 c1) eqn:E1; [rewrite cret_bind in E|done].
  split; [done|].
  destruct (Z.eqb_spec (int_of "defaultgw" c) 0) as [Eg|Eg].
  - split; [|done]. revert E. unfold assign_default_gw. rewrite cget_bind. cbv zeta.
    destruct (negb _); [by intros [= <-]|]. destruct (_ =? 0); [by intros [= <-]|].
    unfold cbind, clift. destruct network_get_defaultgw; try done. by intros [= <-].
  - unfold check_default_gw, cassert in E. rewrite (proj2 (Z.eqb_neq _ 0)) in E by done. cbn [negb] in E.
    rewrite cret_bind, cget_bind in E. unfold exit_unless in E.
    destruct (existsb _ _) eqn:Ee; [|done]. injection E as <-. split; [done|]. intros _.
    apply List.existsb_exists in Ee as (i & _ & [Hc Hr]%andb_true_iff). exists i. split; [done|].
    apply negb_true_iff, bool_decide_eq_false in Hr. by apply eq_None_not_Some.
Qed.
End Check.
