(* ===== verification/OptionTheorems.v ===== *)
(** * Theorems about command line options *)

From S2P Require Import Prelude.
From S2P Require Import Clib.
From S2P Require Import Keeps.
From S2P Require Import Caps.
From S2P Require Import Env.
From S2P Require Import Text.
From S2P Require Import Common.
From S2P Require Import Util.
From S2P Require Import Checkcfg.
From S2P Require Import Dbus.
From S2P Require Import Macros.
From S2P Require Import ProfileState.
From S2P Require Import ProfileCommands.
From S2P Require Import ProfileLine.
From S2P Require Import ProfileReadTheorems.
From S2P Require Import NetConfig.
From S2P Require Import MainCommands.
From S2P Require Import MainOptions.

Section Options.
Context `{H : Host} `{CH : CapHeaders} `{N : NetHost}.

(** ** What options keep *)

Section Keep.
Context (R : relation Config) `{HP : !Primitives R}.
Context (Hline : forall w a, keeps_ok R (as_line w a)).
Context (Hread : forall f, keeps_ok R (profile_read f)).

Definition opt_keeps (o : opt) : Prop := forall at_i a, keeps_ok R (o.2 at_i a).

Lemma when_built_keeps n opts : Forall opt_keeps opts -> Forall opt_keeps (when_built n opts).
Proof. unfold when_built. by destruct (built n). Qed.

Lemma find_opt_keeps opts arg f : Forall opt_keeps opts -> find_opt opts arg = Some f -> forall at_i, keeps_ok R (f at_i).
Proof.
  induction 1 as [|[t g] opts Hg _ IH]; cbn [find_opt]; [done|].
  destruct (matches t arg); [|done]. intros [= <-] at_i. apply Hg.
Qed.

Lemma set_dbus_policy_keeps log a :
  keeps R (set_dbus_policy arg_dbus_user with_dbus_user log a) /\
  keeps R (set_dbus_policy arg_dbus_system with_dbus_system log a).
Proof.
  split; unfold set_dbus_policy; apply keeps_get_bind; intros c;
    (destruct (streq "filter" a); [case_decide; [done|]|]);
    [by apply p_filter_user| |by apply p_filter_system|];
    (destruct (streq "none" a); [|done]); (destruct (negb _); [done|]).
  - apply p_block_user.
  - apply p_block_system.
Qed.

Lemma profile_find_firejail_keeps nm ext : keeps_ok R (profile_find_firejail profile_read nm ext).
Proof.
  unfold profile_find_firejail, profile_find. destruct (built _); cbv zeta; keeps_ok_tac; eauto.
Qed.

Ltac opt_done :=
  first [apply Hline | apply Hread | apply profile_find_firejail_keeps | apply keeps_ok_keeps; solve [keeps_tac]].

Ltac unfold_option :=
  unfold on, by_line, seccomp_list_option, private_list_option, network_option, transfer, join_sandbox, try_join, show_of,
    trace_sandbox, trace_host, do, accepted, set_debug, quiet_unless_debug, set_apparmor, seccomp_option,
    error_action_option, trace_file, include_option, profile_option, noprofile_option, keep_fd_option, chroot_option,
    fs_check_chroot_dir, private_option, block_dbus, dbus_log_file, dbus_log, netmask_option, show_with, show, only_root, fseccomp_show, profile_print, firemon, plain_path,
    program_behind, join_found, or_root, or_exit, unless_set, pid_of;
  unfold_commands; unfold_callees; cbn [snd].

Ltac opt_step :=
  match goal with
  | |- keeps_ok _ (cbind _ _) => apply keeps_ok_bind; [exact _| |intros]
  | |- keeps_ok _ (cfold _ _ _) => apply keeps_ok_fold; [exact _|intros]
  | |- keeps_ok _ (match ?x with _ => _ end) => destruct x
  | |- keeps_ok _ _ => opt_done
  end.

Ltac each_option :=
  repeat first
    [ apply when_built_keeps
    | apply Forall_app_2
    | apply Forall_cons; split; [intros at_i a; cbn [snd]|]
    | apply Forall_nil_2 ].

Ltac option_keeps := unfold_option; repeat opt_step.

Lemma general_options_keep : Forall opt_keeps general_options.
Proof. unfold general_options, on. each_option; option_keeps. Qed.

Lemma seccomp_options_keep : Forall opt_keeps seccomp_options.
Proof. unfold seccomp_options, on. each_option; option_keeps. Qed.

Lemma filter_options_keep : Forall opt_keeps filter_options.
Proof. unfold filter_options, on. each_option; option_keeps. Qed.

Lemma limit_options_keep : Forall opt_keeps limit_options.
Proof. unfold limit_options, on. each_option; option_keeps. Qed.

Lemma file_options_keep : Forall opt_keeps file_options.
Proof. unfold file_options, on, by_line. each_option; option_keeps. Qed.

Lemma profile_options_keep : Forall opt_keeps profile_options.
Proof. unfold profile_options. each_option; option_keeps. Qed.

Lemma root_options_keep : Forall opt_keeps root_options.
Proof. unfold root_options, on. each_option; option_keeps. Qed.

Lemma private_options_keep : Forall opt_keeps private_options.
Proof. unfold private_options, on. each_option; option_keeps. Qed.

Lemma name_options_keep : Forall opt_keeps name_options.
Proof. unfold name_options, on. each_option; option_keeps. Qed.

Lemma dbus_options_keep : Forall opt_keeps dbus_options.
Proof.
  unfold dbus_options, on, by_line.
  each_option; first [apply keeps_ok_keeps, set_dbus_policy_keeps | option_keeps].
Qed.

(** The fields of the interfaces do not restrict anything. *)
Lemma interface_field n v : has_prefix "interface" n = true -> keeps R (set_int n v).
Proof.
  intros Hn. apply p_int_other. destruct n as [|c n]; [done|]. unfold has_prefix in Hn. cbn [strip_prefix] in Hn.
  destruct (Ascii.eqb_spec "i"%char c) as [<-|]; [|done]. reflexivity.
Qed.

Lemma store_addr_keeps n a : In n interfaces -> keeps R (store_addr n a).
Proof.
  intros E. assert (forall m v, keeps R (set_int (n +:+ m) v)) as Hi.
  { intros m v. apply interface_field. repeat destruct E as [<-|E]; [reflexivity..|destruct E]. }
  assert (forall m k v, keeps R (set_int ((n +:+ m) +:+ k) v)) as Hi2.
  { intros m k v. apply interface_field. repeat destruct E as [<-|E]; [reflexivity..|destruct E]. }
  unfold store_addr, store_bytes. keeps_tac; try apply Hi. destruct a2 as [k w]. apply Hi2.
Qed.

Lemma interface_keeps a : keeps R (interface_option a).
Proof.
  unfold interface_option, or_exit, unless_set, get_int, exit_unless. destruct (enabled _); [|apply keeps_exit, _].
  apply keeps_bind; [exact _|keeps_tac|intros v]. destruct (v =? 0); [|apply keeps_exit, _].
  do 3 (apply keeps_bind; [exact _|keeps_tac|intros]).
  destruct (List.find _ interfaces) as [n|] eqn:E; [|apply keeps_exit, _]. apply List.find_some in E as [E _].
  assert (forall m v, keeps R (set_int (n +:+ m) v)) as Hi.
  { intros m w. apply interface_field. repeat destruct E as [<-|E]; [reflexivity..|destruct E]. }
  pose proof (store_addr_keeps n). keeps_tac; auto.
Qed.

Lemma net_options_keep : Forall opt_keeps net_options.
Proof. unfold net_options. each_option; first [apply keeps_ok_keeps, interface_keeps | option_keeps]. Qed.

Lemma address_options_keep : Forall opt_keeps address_options.
Proof. unfold address_options. each_option; option_keeps. Qed.

Lemma command_options_keep : Forall opt_keeps command_options.
Proof. unfold command_options, on. each_option; option_keeps. Qed.

Lemma independent_keep : Forall opt_keeps independent.
Proof.
  unfold independent, x11_opts, trace_opts, netfilter_print_opts, debug_opts, print_opts, network_opts, transfer_opts, join_opts.
  each_option; option_keeps.
Qed.

Lemma options_keep : Forall opt_keeps options.
Proof.
  unfold options. rewrite !Forall_app. repeat split;
    auto using general_options_keep, seccomp_options_keep, filter_options_keep, limit_options_keep, file_options_keep,
      profile_options_keep, root_options_keep, private_options_keep, name_options_keep, dbus_options_keep,
      net_options_keep, address_options_keep, command_options_keep.
Qed.

Lemma run_cmd_keeps at_i arg : keeps_ok R (run_cmd_and_exit at_i arg).
Proof.
  unfold run_cmd_and_exit. destruct (find_opt independent arg) eqn:E; [|apply keeps_ok_ret, _].
  exact (find_opt_keeps _ _ _ independent_keep E at_i).
Qed.

Lemma program_keeps i arg : keeps_ok R (program i arg).
Proof. apply keeps_ok_keeps. unfold program, get_int. keeps_tac. Qed.

Lemma parse_options_keeps i args : keeps_ok R (parse_options i args).
Proof.
  revert i. induction args as [|arg args IH]; intros i; cbn [parse_options]; [apply keeps_ok_ret, _|].
  cbv zeta. apply keeps_ok_bind; [exact _|apply run_cmd_keeps|intros _].
  destruct (find_opt options arg) as [f|] eqn:E.
  - apply keeps_ok_bind; [exact _|exact (find_opt_keeps _ _ _ options_keep E _)|intros _; apply IH].
  - destruct (streq arg "--").
    + apply keeps_ok_bind; [exact _|apply keeps_ok_keeps; keeps_tac|intros _].
      destruct args; [apply keeps_ok_exit|apply program_keeps].
    + destruct (has_prefix "-" arg); [apply keeps_ok_exit|apply program_keeps].
Qed.
End Keep.

(** ** Finding options *)

Lemma find_opt_app l1 l2 a :
  find_opt (l1 ++ l2) a = match find_opt l1 a with Some f => Some f | None => find_opt l2 a end.
Proof.
  induction l1 as [|[t f] l1 IH]; [done|]. cbn [app find_opt]. destruct (matches t a); [done|exact IH].
Qed.

Lemma find_opt_cons t f l a :
  find_opt ((t, f) :: l) a = match matches t a with Some x => Some (fun at_i => f at_i x) | None => find_opt l a end.
Proof. reflexivity. Qed.

Lemma find_opt_built n l a : find_opt (when_built n l) a = if built n then find_opt l a else None.
Proof. unfold when_built. by destruct (built n). Qed.

(** No option of the list starts like the argument. *)
Lemma find_none_cons t f l a : matches t a = None -> find_opt l a = None -> find_opt ((t, f) :: l) a = None.
Proof. intros Ht Hl. cbn [find_opt]. by rewrite Ht. Qed.
Lemma find_none_app l1 l2 a : find_opt l1 a = None -> find_opt l2 a = None -> find_opt (l1 ++ l2) a = None.
Proof. intros H1 H2. rewrite find_opt_app. by rewrite H1. Qed.
Lemma find_none_built n l a : find_opt l a = None -> find_opt (when_built n l) a = None.
Proof. intros Hl. rewrite find_opt_built. by destruct (built n). Qed.

Lemma find_some_here o l a x : matches o.1 a = Some x -> find_opt (o :: l) a = Some (fun at_i => o.2 at_i x).
Proof. destruct o. cbn [find_opt fst snd]. by intros ->. Qed.
Lemma find_some_cons t f l a o : matches t a = None -> find_opt l a = o -> find_opt ((t, f) :: l) a = o.
Proof. intros Ht Hl. cbn [find_opt]. by rewrite Ht. Qed.
Lemma find_some_app_l l1 l2 a o : find_opt l1 a = Some o -> find_opt (l1 ++ l2) a = Some o.
Proof. intros H1. rewrite find_opt_app. by rewrite H1. Qed.
Lemma find_some_app_r l1 l2 a o : find_opt l1 a = None -> find_opt l2 a = Some o -> find_opt (l1 ++ l2) a = Some o.
Proof. intros H1 H2. rewrite find_opt_app. by rewrite H1. Qed.
Lemma find_some_built n l a o : built n = true -> find_opt l a = o -> find_opt (when_built n l) a = o.
Proof. intros Hb Hl. rewrite find_opt_built. by rewrite Hb. Qed.

End Options.

(** Finds the option an argument is, when its beginning is known. *)
Ltac head_of t := match t with ?f _ => head_of f | _ => t end.

Ltac find_none :=
  match goal with
  | |- find_opt (_ ++ _) _ = None => apply find_none_app; find_none
  | |- find_opt (when_built _ _) _ = None => apply find_none_built; find_none
  | |- find_opt ((_, _) :: _) _ = None => apply find_none_cons; [reflexivity|find_none]
  | |- find_opt (on _ _ :: _) _ = None => apply find_none_cons; [reflexivity|find_none]
  | |- find_opt (by_line _ :: _) _ = None => apply find_none_cons; [reflexivity|find_none]
  | |- find_opt [] _ = None => reflexivity
  | |- find_opt ?l _ = None => let h := head_of l in unfold h; find_none
  end.

Ltac find_some :=
  match goal with
  | |- find_opt ((_, _) :: _) _ = Some _ => find_cons
  | |- find_opt (on _ _ :: _) _ = Some _ => find_cons
  | |- find_opt (by_line _ :: _) _ = Some _ => find_cons
  | |- find_opt (_ ++ _) _ = Some _ =>
      first [apply find_some_app_r; [find_none|find_some] | apply find_some_app_l; find_some]
  | |- find_opt (when_built _ _) _ = Some _ => apply find_some_built; [solve [auto]|find_some]
  | |- find_opt ?l _ = Some _ => let h := head_of l in unfold h; find_some
  end
with find_cons := first [etransitivity; [eapply find_some_here; reflexivity|reflexivity] | apply find_some_cons; [reflexivity|find_some]].


Section Reading.
Context `{H : Host} `{CH : CapHeaders} `{N : NetHost}.

(** ** Reading on *)

Definition is_option (a : string) : bool := bool_decide (is_Some (find_opt options a)).

(** One argument that is an option. *)
Definition run_option (at_i : at_arg) (a : string) : P unit :=
  run_cmd_and_exit at_i a ;;; match find_opt options a with Some f => f at_i | None => cret tt end.

Fixpoint run_options (i : Z) (pre rest : list string) : P unit :=
  match pre with
  | [] => cret tt
  | a :: pre' => run_option (mk_at i (pre' ++ rest)) a ;;; run_options (i + 1) pre' rest
  end.

Lemma parse_options_app i pre rest c : forallb is_option pre = true ->
  parse_options i (pre ++ rest) c = (run_options i pre rest ;;; parse_options (i + Z.of_nat (length pre)) rest) c.
Proof.
  revert i c. induction pre as [|a pre IH]; intros i c Hp; cbn [app run_options length].
  - rewrite cret_bind. by rewrite Z.add_0_r.
  - cbn [forallb] in Hp. apply andb_true_iff in Hp as [Ha Hp]. cbn [parse_options]. cbv zeta.
    unfold is_option in Ha. apply bool_decide_eq_true in Ha as [f Ef].
    unfold run_option. rewrite Ef, !cbind_assoc. apply cbind_ext. intros _ c1.
    rewrite ?cbind_assoc. apply cbind_ext. intros _ c2. rewrite IH by done.
    by replace (i + 1 + Z.of_nat (length pre)) with (i + Z.of_nat (S (length pre))) by lia.
Qed.

(** An option looks at nothing behind it but whether something is there. *)
Definition reads_on (o : opt) : Prop := forall i b b' a c c', b <> [] -> b' <> [] ->
  o.2 (mk_at i b) a c = (Ok tt, c') -> o.2 (mk_at i b') a c = (Ok tt, c').

Lemma when_built_reads n opts : Forall reads_on opts -> Forall reads_on (when_built n opts).
Proof. unfold when_built. by destruct (built n). Qed.

Lemma find_opt_reads opts a f i b b' c c' : Forall reads_on opts -> find_opt opts a = Some f -> b <> [] -> b' <> [] ->
  f (mk_at i b) c = (Ok tt, c') -> f (mk_at i b') c = (Ok tt, c').
Proof.
  induction 1 as [|[t g] opts Hg _ IH]; cbn [find_opt]; [done|].
  destruct (matches t a); [|done]. intros [= <-] Hb Hb'. by apply Hg.
Qed.

Ltac each_reads :=
  repeat first
    [ apply when_built_reads
    | apply Forall_app_2
    | apply Forall_cons; split; [intros i b b' a c c' Hb Hb' Hok; try exact Hok|]
    | apply Forall_nil_2 ].

Lemma options_read_on : Forall reads_on options.
Proof.
  unfold options. rewrite !Forall_app. repeat split;
    unfold general_options, seccomp_options, filter_options, limit_options, file_options, profile_options,
    root_options, private_options, name_options, dbus_options, net_options, address_options, command_options, on,
    seccomp_list_option, by_line, private_list_option, network_option; each_reads.
  by destruct b, b'.
Qed.

(** An option that ends the program. *)
Definition ends_program (o : opt) : Prop := forall at_i a, results (fun _ => False) (o.2 at_i a).

Lemma when_built_ends n opts : Forall ends_program opts -> Forall ends_program (when_built n opts).
Proof. unfold when_built. by destruct (built n). Qed.

Ltac each_ends :=
  repeat first
    [ apply when_built_ends
    | apply Forall_app_2
    | apply Forall_cons; split; [intros at_i a; cbn [snd]|]
    | apply Forall_nil_2 ].

Ltac unfold_independent :=
  unfold transfer, join_sandbox, show_of, trace_sandbox, trace_host, show_with, show, only_root, fseccomp_show,
    profile_print, firemon, plain_path, join_found, or_root, or_exit.

Definition join_or_start : opt := (Starts "--join-or-start=", fun at_i a => or_root CFG_JOIN (try_join at_i a)).

Lemma independent_end : Forall (fun o => o = join_or_start \/ ends_program o) independent.
Proof.
  assert (forall l, Forall ends_program l -> Forall (fun o : opt => o = join_or_start \/ ends_program o) l) as Hr.
  { intros l Hl. eapply Forall_impl; [exact Hl|]. auto. }
  unfold independent. rewrite !Forall_app. repeat split;
    unfold x11_opts, trace_opts, netfilter_print_opts, debug_opts, print_opts, network_opts, transfer_opts, join_opts.
  9: { apply Forall_cons; split; [right|apply Forall_cons; split; [by left|apply Hr]].
       - intros at_i a. cbn [snd]. unfold_independent. results_tac.
       - each_ends; unfold_independent; results_tac. }
  all: apply Hr; each_ends; unfold_independent; results_tac.
Qed.

Lemma independent_reads : Forall reads_on independent.
Proof.
  eapply Forall_impl; [exact independent_end|]. intros o [->|Ho] i b b' a c c' Hb Hb' E; [|by apply Ho in E].
  destruct b, b'; try done.
Qed.

Lemma run_option_reads i b b' a c c' : b <> [] -> b' <> [] ->
  run_option (mk_at i b) a c = (Ok tt, c') -> run_option (mk_at i b') a c = (Ok tt, c').
Proof.
  intros Hb Hb'. unfold run_option, run_cmd_and_exit. unfold cbind.
  destruct (find_opt independent a) as [f|] eqn:Ef.
  - destruct (f (mk_at i b) c) as [[[]| | |] c1] eqn:E1; try done.
    rewrite (find_opt_reads _ _ _ _ _ _ _ _ independent_reads Ef Hb Hb' E1).
    destruct (find_opt options a) as [g|] eqn:Eg; [|done]. by apply (find_opt_reads _ _ _ _ _ _ _ _ options_read_on Eg).
  - cbn [cret]. destruct (find_opt options a) as [g|] eqn:Eg; [|done].
    by apply (find_opt_reads _ _ _ _ _ _ _ _ options_read_on Eg).
Qed.

Lemma run_options_reads i pre rest rest' c c' : rest <> [] -> rest' <> [] ->
  run_options i pre rest c = (Ok tt, c') -> run_options i pre rest' c = (Ok tt, c').
Proof.
  intros Hr Hr'. revert i c. induction pre as [|a pre IH]; intros i c; cbn [run_options]; [done|].
  unfold cbind. destruct (run_option (mk_at i (pre ++ rest)) a c) as [[[]| | |] c1] eqn:E; try done.
  rewrite (run_option_reads i (pre ++ rest) (pre ++ rest')  a c c1); [apply IH|by destruct pre..|exact E].
Qed.

(** ** The program *)

Definition test_text (t : test) : string := match t with Is s => s | Starts s => s end.
Definition dashed (o : opt) : Prop := has_prefix "-" (test_text o.1) = true.

Lemma when_built_dashed n opts : Forall dashed opts -> Forall dashed (when_built n opts).
Proof. unfold when_built. by destruct (built n). Qed.

Ltac each_dashed :=
  repeat first
    [ apply when_built_dashed | apply Forall_app_2 | apply Forall_cons; split; [reflexivity|] | apply Forall_nil_2 ].

Lemma options_dashed : Forall dashed options.
Proof.
  unfold options. rewrite !Forall_app. repeat split;
    unfold general_options, seccomp_options, filter_options, limit_options, file_options, profile_options,
    root_options, private_options, name_options, dbus_options, net_options, address_options, command_options, on,
    seccomp_list_option, by_line, private_list_option, network_option; each_dashed.
Qed.

Lemma independent_dashed : Forall dashed independent.
Proof.
  unfold independent, x11_opts, trace_opts, netfilter_print_opts, debug_opts, print_opts, network_opts, transfer_opts,
    join_opts. each_dashed.
Qed.

Lemma strip_prefix_has p q s : has_prefix p q = true -> has_prefix p s = false -> strip_prefix q s = None.
Proof.
  unfold has_prefix. revert q s. induction p as [|x p IH]; intros [|y q] [|z s]; cbn [strip_prefix]; try done.
  destruct (Ascii.eqb_spec x y) as [->|]; [|done]. destruct (Ascii.eqb_spec y z) as [->|]; [|done]. apply IH.
Qed.

Lemma find_dashed opts a : Forall dashed opts -> has_prefix "-" a = false -> find_opt opts a = None.
Proof.
  intros Ho Ha. induction Ho as [|[t f] opts Hd _ IH]; [done|]. cbn [find_opt].
  assert (matches t a = None) as ->; [|exact IH]. unfold dashed in Hd. cbn [fst] in Hd.
  destruct t as [s|s]; cbn [matches test_text] in *; [|by apply (strip_prefix_has "-")].
  unfold streq. destruct (String.eqb_spec a s) as [->|]; [congruence|done].
Qed.

Lemma parse_program i prog rest c : has_prefix "-" prog = false ->
  parse_options i (prog :: rest) c = program i prog c.
Proof.
  intros Hp. cbn [parse_options]. cbv zeta. unfold run_cmd_and_exit.
  rewrite (find_dashed _ _ independent_dashed Hp), cret_bind, (find_dashed _ _ options_dashed Hp).
  assert (streq prog "--" = false) as ->. { unfold streq. by destruct (String.eqb_spec prog "--") as [->|]. }
  by rewrite Hp.
Qed.

(** Behind a double dash the next argument is the program, whatever it looks like. *)
Lemma parse_double_dash i prog rest c :
  parse_options i ("--" :: prog :: rest) c = (set_int "arg_doubledash" 1 ;;; program (i + 1) prog) c.
Proof.
  cbn [parse_options]. cbv zeta. unfold run_cmd_and_exit. assert (find_opt independent "--" = None) as -> by find_none.
  rewrite cret_bind. assert (find_opt options "--" = None) as -> by find_none. reflexivity.
Qed.

(** What stands between the options and the program. *)
Definition separates (sep : list string) (prog : string) : Prop :=
  sep = [] /\ has_prefix "-" prog = false \/ sep = ["--"].

Lemma program_result i arg c r c' : program i arg c = (Ok r, c') -> r = Some i.
Proof.
  unfold program, get_int. rewrite cbind_assoc, cget_bind, cret_bind. unfold cbind, clift.
  destruct (negb _); [by intros [= <- _]|]. cbn. destruct (extract_command_name arg); try done. by intros [= <- _].
Qed.

Lemma parse_separated i sep prog rest c r c' : separates sep prog -> parse_options i (sep ++ prog :: rest) c = (Ok r, c') ->
  (forall rest', parse_options i (sep ++ prog :: rest') c = (Ok r, c')) /\ r = Some (i + Z.of_nat (length sep)).
Proof.
  intros [[-> Hp]| ->]; cbn [app length].
  - rewrite parse_program by done. intros E. split; [intros rest'; by rewrite parse_program|].
    rewrite Z.add_0_r. exact (program_result _ _ _ _ _ E).
  - rewrite parse_double_dash. intros E. split; [intros rest'; by rewrite parse_double_dash|].
    unfold cbind at 1, set_int, cmodify in E. exact (program_result _ _ _ _ _ E).
Qed.

(** The arguments of the program are its own: whatever stands behind the name of the
    program, the options that are read, and what reading them leaves behind, are the
    same; the program is the argument behind the options. *)
Theorem program_arguments_ignored i pre sep prog rest rest' c r c' :
  forallb is_option pre = true -> separates sep prog ->
  parse_options i (pre ++ sep ++ prog :: rest) c = (Ok r, c') ->
  parse_options i (pre ++ sep ++ prog :: rest') c = (Ok r, c') /\
  r = Some (i + Z.of_nat (length pre) + Z.of_nat (length sep)).
Proof.
  intros Hp Hs. rewrite !parse_options_app by done. unfold cbind at 1.
  destruct (run_options i pre (sep ++ prog :: rest) c) as [[[]| | |] c1] eqn:E; try done.
  apply (run_options_reads _ _ _ (sep ++ prog :: rest')) in E; [|by destruct sep|by destruct sep].
  rewrite (cbind_ok _ _ _ _ _ E). intros E2.
  destruct (parse_separated _ _ _ _ _ _ _ Hs E2) as [Hr ->]. auto.
Qed.

(** A command line that is accepted: options, then the program, if there is one; the
    index of the program points at it. *)
Theorem prog_index_spec i args c r c' : parse_options i args c = (Ok r, c') ->
  match r with
  | None => forallb is_option args = true
  | Some k => exists pre sep prog rest, args = pre ++ sep ++ prog :: rest /\ forallb is_option pre = true /\
                separates sep prog /\ k = i + Z.of_nat (length pre) + Z.of_nat (length sep)
  end.
Proof.
  revert i c. induction args as [|a args IH]; intros i c E; cbn [parse_options] in E.
  - by injection E as <- <-.
  - cbv zeta in E. revert E. unfold cbind at 1. destruct (run_cmd_and_exit _ a c) as [[[]| | |] c1]; try done.
    destruct (find_opt options a) as [f|] eqn:Ef.
    + unfold cbind at 1. destruct (f _ c1) as [[[]| | |] c2]; try done. intros E. apply IH in E.
      assert (is_option a = true) as Ha. { unfold is_option. by rewrite Ef. }
      destruct r as [k|]; [|cbn [forallb]; by rewrite Ha].
      destruct E as (pre & sep & prog & rest & -> & Hp & Hs & ->). exists (a :: pre), sep, prog, rest.
      cbn [forallb length]. rewrite Ha. repeat split; try done. lia.
    + destruct (streq a "--") eqn:Ed.
      * unfold streq in Ed. apply String.eqb_eq in Ed as ->. destruct args as [|prog rest]; [by intros [=]|].
        unfold cbind at 1, set_int, cmodify. intros ->%program_result.
        exists [], ["--"], prog, rest. repeat split; [by right|cbn; lia].
      * destruct (has_prefix "-" a) eqn:Eh; [done|]. intros ->%program_result.
        exists [], [], a, args. repeat split; [by left|cbn; lia].
Qed.
(** ** Options without an argument *)

(** The options that only set a variable. *)
Definition plain_flags : list (string * string) :=
  [("--caps.drop=all", "arg_caps_drop_all"); ("--nonewprivs", "arg_nonewprivs");
   ("--private", "arg_private"); ("--private-dev", "arg_private_dev"); ("--private-tmp", "arg_private_tmp");
   ("--nogroups", "arg_nogroups"); ("--nosound", "arg_nosound"); ("--novideo", "arg_novideo"); ("--no3d", "arg_no3d");
   ("--notv", "arg_notv"); ("--nodvd", "arg_nodvd"); ("--nou2f", "arg_nou2f"); ("--noinput", "arg_noinput");
   ("--disable-mnt", "arg_disable_mnt"); ("--machine-id", "arg_machineid"); ("--x11=none", "arg_x11_block")].

(** The others end by setting one, or end the program. *)
Definition other_flags : list (string * string) :=
  [("--seccomp", "arg_seccomp"); ("--caps", "arg_caps_default_filter"); ("--ipc-namespace", "arg_ipc");
   ("--net=none", "arg_nonetwork"); ("--private-cache", "arg_private_cache"); ("--noprinters", "arg_noprinters");
   ("--memory-deny-write-execute", "arg_memory_deny_write_execute"); ("--hostname-randomize", "arg_hostname_randomize")].


Lemma plain_flag s n : In (s, n) plain_flags ->
  find_opt independent s = None /\ find_opt options s = Some (fun _ => set_int n 1).
Proof.
  intros Hin. repeat destruct Hin as [[= <- <-]|Hin]; try destruct Hin; (split; [find_none|find_some]).
Qed.

(** [m] leaves the variable set. *)
Definition sets_var (n : string) (m : P unit) : Prop := forall c c', m c = (Ok tt, c') -> int_of n c' <> 0.

Lemma sets_int n : sets_var n (set_int n 1).
Proof. intros c c' [= <-]. unfold int_of. cbn. by rewrite lookup_insert_eq. Qed.

Lemma sets_exit n code : sets_var n (cexit code).
Proof. intros c c' E. discriminate. Qed.

Lemma sets_then n {A} (m : P A) k : (forall a, sets_var n (k a)) -> sets_var n (a <~ m ;; k a).
Proof. intros Hk c c'. unfold cbind. destruct (m c) as [[a| | |] c1]; try done. apply Hk. Qed.

(** What follows leaves the restriction in force. *)
Lemma sets_first n m k : In n restrictions -> keeps_ok kept k -> sets_var n m -> sets_var n (m ;;; k).
Proof.
  intros Hn Hk Hm c c'. unfold cbind. destruct (m c) as [[[]| | |] c1] eqn:E; try done. intros E2.
  apply Hk in E2 as [Hf _]. unfold flags_kept in Hf. rewrite Forall_forall in Hf.
  apply Hf; [by apply list_elem_of_In|by eapply Hm].
Qed.

Lemma other_flag s n : In (s, n) other_flags ->
  find_opt independent s = None /\ exists f, find_opt options s = Some f /\ forall at_i, sets_var n (f at_i).
Proof.
  intros Hin. repeat destruct Hin as [[= <- <-]|Hin]; try destruct Hin;
    (split; [find_none|eexists; split; [find_some|intros at_i; cbn [snd]]]);
    unfold do, seccomp_option, unless_set, or_exit, disable_network, disable_printers, randomize_hostname; cbn [cfold].
  all: repeat match goal with
   | |- sets_var _ (set_int _ 1) => apply sets_int
   | |- sets_var _ (cexit _) => apply sets_exit
   | |- sets_var _ (match ?b with _ => _ end) => destruct b
   | |- sets_var _ (cbind (cbind (set_int _ 1) _) _) => apply sets_first; [cbn; tauto|apply keeps_ok_keeps; keeps_tac|]
   | |- sets_var _ (cbind (set_int _ 1) _) => apply sets_first; [cbn; tauto|apply keeps_ok_keeps; keeps_tac|]
   | |- sets_var _ (cbind _ _) => apply sets_then; intros
  end.
Qed.

(** The options that switch a restriction on. *)
Definition flag_options : list (string * string) := plain_flags ++ other_flags.

Lemma flag_option s n at_i c c' : In (s, n) flag_options -> run_option at_i s c = (Ok tt, c') -> int_of n c' <> 0.
Proof.
  unfold flag_options, run_option, run_cmd_and_exit. intros Hin. apply in_app_or in Hin as [Hin|Hin].
  - destruct (plain_flag _ _ Hin) as [-> ->]. rewrite cret_bind. apply sets_int.
  - destruct (other_flag _ _ Hin) as [-> (f & -> & Hf)]. rewrite cret_bind. apply Hf.
Qed.

Lemma flag_restricts s n : In (s, n) flag_options -> In n restrictions.
Proof. intros Hin. repeat destruct Hin as [[= <- <-]|Hin]; try destruct Hin; cbn; tauto. Qed.

(** An option on the command line is run, and what follows is read from there. *)
Lemma parse_reaches i pre s post c r c' : forallb is_option pre = true -> is_option s = true ->
  parse_options i (pre ++ s :: post) c = (Ok r, c') ->
  exists at_i j c1 c2, run_option at_i s c1 = (Ok tt, c2) /\ parse_options j post c2 = (Ok r, c').
Proof.
  intros Hp Hs. rewrite parse_options_app by done. unfold cbind at 1.
  destruct (run_options i pre (s :: post) c) as [[[]| | |] c1]; try done.
  change (s :: post) with ([s] ++ post). rewrite parse_options_app by (cbn [forallb]; by rewrite Hs).
  cbn [run_options]. unfold cbind at 1 2.
  destruct (run_option _ s c1) as [[[]| | |] c2] eqn:E; try done. cbn [cret]. eauto 6.
Qed.
End Reading.
