(* ===== verification/Sandbox.v ===== *)
(** * The sandbox process (src/firejail/sandbox.c)

    What the cloned process does from the first message of its parent to the
    program it runs, with cpu.c, rlimit.c, protocol.c, netns.c and netfilter.c.
    The state is that of the set-up ([Config]) with what the kernel holds for the
    process: filters, capabilities, groups, NO_NEW_PRIVS. *)

From S2P Require Import Prelude.
From S2P Require Import Clib.
From S2P Require Import Bpf.
From S2P Require Import Caps.
From S2P Require Import SyscallTables.
From S2P Require Import SyscallGroups.
From S2P Require Import FilterFile.
From S2P Require Import Syscall.
From S2P Require Import Fseccomp.
From S2P Require Import Install.
From S2P Require Import Env.
From S2P Require Import Text.
From S2P Require Import Common.
From S2P Require Import Util.
From S2P Require Import Dbus.
From S2P Require Import Checkcfg.
From S2P Require Import Macros.
From S2P Require Import ProfileState.
From S2P Require Import ProfileCommands.
From S2P Require Import NetConfig.
From S2P Require Import MainCommands.
From S2P Require Import MainOptions.
From S2P Require Import Startup.
From S2P Require Import Sys.
From S2P Require Import SysFiles.
From S2P Require Import FsVar.
From S2P Require Import FsEtc.
From S2P Require Import FsBin.
From S2P Require Import FsDev.
From S2P Require Import Fs.
From S2P Require Import FsHost.
From S2P Require Import FsHome.
From S2P Require Import FsWhitelist.
From S2P Require Import Session.
From S2P Require Import Chroot.
From S2P Require Import MainSetup.

(** A return of waitpid(-1, ...): the process and its status. *)
Record waited := mk_waited { w_pid : Z; w_status : Z }.

(** What the process asks besides: the messages of the parent, the files built with
    firejail, the user database, its descriptors, its limits, what waitpid returns
    and the entries of /proc after each round. *)
Class ChildHost := {
  from_parent : list effect -> option string;
  filter_file : string -> option (list Z);          (* what copy_file copies of a file of filters *)
  accepts_filter : list sock_filter -> bool;        (* seccomp(2) takes the program *)
  current_groups : list Z;
  user_groups : option (list Z);                    (* getgrouplist; [None]: too many *)
  can_drop_all : bool;                              (* check_can_drop_all_groups *)
  accepts_groups : list Z -> bool;                  (* setgroups(2) succeeds *)
  proc_fds : list effect -> option (Z * list string); (* the descriptor and names of /proc/self/fd *)
  ll_fd : Z;                                        (* of the Landlock ruleset *)
  rlim_max : string -> option Z;                    (* getrlimit(2) *)
  ibus_dir : list effect -> option (list (string * option (list string)));
  wait_events : list waited;
  proc_rounds : list (list string)
}.

(** [ch_programs]: what the kernel runs; [ch_ids]: the ids are those of the user. *)
Record child := mk_child {
  ch_cfg : Config;
  ch_sec : sandbox;
  ch_caps : caps_state;
  ch_groups : list Z;
  ch_nnp : bool;
  ch_ids : bool;
  ch_programs : list (list sock_filter)
}.

Definition C (A : Type) : Type := CM child A.

Definition with_cfg x (c : child) := mk_child x (ch_sec c) (ch_caps c) (ch_groups c) (ch_nnp c) (ch_ids c) (ch_programs c).
Definition with_sec x (c : child) := mk_child (ch_cfg c) x (ch_caps c) (ch_groups c) (ch_nnp c) (ch_ids c) (ch_programs c).
Definition with_caps x (c : child) := mk_child (ch_cfg c) (ch_sec c) x (ch_groups c) (ch_nnp c) (ch_ids c) (ch_programs c).
Definition with_groups x (c : child) := mk_child (ch_cfg c) (ch_sec c) (ch_caps c) x (ch_nnp c) (ch_ids c) (ch_programs c).
Definition with_nnp x (c : child) := mk_child (ch_cfg c) (ch_sec c) (ch_caps c) (ch_groups c) x (ch_ids c) (ch_programs c).
Definition with_ids x (c : child) := mk_child (ch_cfg c) (ch_sec c) (ch_caps c) (ch_groups c) (ch_nnp c) x (ch_programs c).
Definition with_programs x (c : child) :=
  mk_child (ch_cfg c) (ch_sec c) (ch_caps c) (ch_groups c) (ch_nnp c) (ch_ids c) x.

(** A computation on one part of the state. *)
Definition zoom {S A} (get : child -> S) (put : S -> child -> child) (m : CM S A) : C A :=
  fun s => let '(r, x) := m (get s) in (r, put x s).
Definition inP {A} (m : P A) : C A := zoom ch_cfg with_cfg m.
Definition inSB {A} (m : SB A) : C A := zoom ch_sec with_sec m.
Definition inCaps {A} (m : CM caps_state A) : C A := zoom ch_caps with_caps m.

Definition RUN_GROUPS_CFG : string := RUN_MNT_DIR +:+ "/groups".
Definition RUN_NONEWPRIVS_CFG : string := RUN_MNT_DIR +:+ "/nonewprivs".
Definition RUN_UMASK_FILE : string := RUN_MNT_DIR +:+ "/umask".
Definition RUN_JOIN_FILE : string := RUN_MNT_DIR +:+ "/join".
Definition RUN_CPU_CFG : string := RUN_MNT_DIR +:+ "/cpu".
Definition RUN_PROTOCOL_CFG : string := RUN_MNT_DIR +:+ "/protocol".
Definition RUN_ETC_DIR : string := RUN_MNT_DIR +:+ "/etc".
Definition RUN_USR_ETC_DIR : string := RUN_MNT_DIR +:+ "/usretc".
Definition RUN_OPT_DIR : string := RUN_MNT_DIR +:+ "/opt".
Definition RUN_SRV_DIR : string := RUN_MNT_DIR +:+ "/srv".
Definition PATH_FNETFILTER : string := RUN_FIREJAIL_LIB_DIR +:+ "/fnetfilter".
Definition SBOX_STDIN_FILE : string := "/run/firejail/mnt/sbox_stdin".

Definition MS_SLAVE : Z := Z.shiftl 1 19.

Section Sandbox.
Context `{H : Host} `{CH : CapHeaders} `{CK : CapKernel} `{N : NetHost} `{SS : StartHost} `{SH : SysHeaders}
  `{KOS : OS} `{K : Kernel} `{SEH : SessionHost} `{CHH : ChildHost}.

(** ** The variables the filters and capabilities depend on *)

Definition seccomp_config (c : Config) : config :=
  Install.Config (str_of "seccomp_list" c) (str_of "seccomp_list32" c) (str_of "seccomp_list_drop" c)
    (str_of "seccomp_list_drop32" c) (str_of "seccomp_list_keep" c) (str_of "seccomp_list_keep32" c)
    (str_of "restrict_namespaces" c) (str_of "protocol" c) (str_of "seccomp_error_action" c)
    (int_of "arg_seccomp_error_action" c) (int_of "arg_seccomp" c =? 1) (int_of "arg_seccomp32" c =? 1)
    (set "arg_seccomp_block_secondary" c) (set "arg_allow_debuggers" c)
    (set "arg_memory_deny_write_execute" c) (set "arg_restrict_namespaces" c).

Definition caps_config_of (c : Config) : caps_config :=
  CapsConfig (set "arg_caps_drop_all" c) (set "arg_caps_drop" c) (set "arg_caps_keep" c)
    (set "arg_caps_default_filter" c) (str_of "arg_caps_list" c) (set "arg_noprofile" c) (uid =? 0).

Definition group_flags_of (c : Config) : group_flags :=
  mk_gflags (set "arg_nogroups" c) (set "arg_nosound" c) (set "arg_novideo" c) (set "arg_no3d" c)
    (set "arg_noprinters" c) (set "arg_nodvd" c) (set "arg_noinput" c) (set "arg_keep_dev_tpm" c)
    (set "arg_nou2f" c).

Definition when_set (n : string) (m : P unit) : P unit := v <~ get_int n ;; if v =? 0 then cret tt else m.
Definition unless_set (n : string) (m : P unit) : P unit := v <~ get_int n ;; if v =? 0 then m else cret tt.

(** ** Files for joining processes *)

(** fopen with "wx": a file that is there already ends the program. *)
Definition save_file (fname text : string) (mode : Z) : P unit :=
  r <~ fopen fname "wx" text ;; or_exit r ;;; set_perms_stream fname 0 0 mode.

Definition save_nogroups : P unit := when_set "arg_nogroups" (save_file RUN_GROUPS_CFG (String newline EmptyString) 420).
Definition save_nonewprivs : P unit :=
  when_set "arg_nonewprivs" (save_file RUN_NONEWPRIVS_CFG (String newline EmptyString) 420).
Definition save_umask : P unit :=
  orig_umask <~ get_int "orig_umask" ;; save_file RUN_UMASK_FILE (line (print_o orig_umask)) 420.
Definition protocol_filter_save : P unit :=
  p <~ get_str "protocol" ;; save_file RUN_PROTOCOL_CFG (line (default EmptyString p)) 384.

(** [%x] *)
Fixpoint hex_digits (fuel : nat) (z : Z) (acc : string) : string :=
  match fuel with
  | O => acc
  | S f => let d := String (hex_char (z mod 16)) acc in if z / 16 =? 0 then d else hex_digits f (z / 16) d
  end.
Definition print_x (z : Z) : string := hex_digits 8 z EmptyString.

Definition save_cpu : P unit :=
  cpus <~ get_int "cpus" ;;
  if cpus =? 0 then cret tt else save_file RUN_CPU_CFG (line (print_x cpus)) 384.

(** open with O_EXCL, ftruncate and mmap. *)
Definition create_join_file : P unit :=
  r <~ do_call (Call "open" 420 [RUN_JOIN_FILE; "O_RDWR|O_CREAT|O_EXCL|O_CLOEXEC"]) ;; or_exit r ;;;
  r <~ do_call (Call "ftruncate" 1 [RUN_JOIN_FILE]) ;; or_exit r ;;;
  r <~ do_call (Call "mmap" 1 [RUN_JOIN_FILE]) ;; or_exit r.

(** The CPUs of the mask, in order. *)
Definition cpu_set (cpus : Z) : list Z := List.filter (Z.testbit cpus) (seqZ 0 32).
Definition set_cpu_affinity : P unit :=
  cpus <~ get_int "cpus" ;;
  if cpus =? 0 then cret tt else do_call (Call "sched_setaffinity" 0 (map print_d (cpu_set cpus))) ;;; cret tt.

(** ** Network *)

Definition netns_control_file (nsname : string) : string := "/var/run/netns/" +:+ nsname.
Definition netns_etc_dir (nsname : string) : string := "/etc/netns/" +:+ nsname.

Definition netns (nsname : string) : P unit :=
  fd <~ open (flags [O_RDONLY; O_CLOEXEC]) (netns_control_file nsname) ;;
  match fd with
  | None => cexit 1
  | Some fd => r <~ do_call (Call "setns" fd ["CLONE_NEWNET"]) ;; or_exit r
  end.

(** A mount that fails is reported only. *)
Definition netns_mounts (nsname : string) : P unit :=
  names <~ ask (fun l => opendir l (netns_etc_dir nsname)) ;;
  cfold (fun n _ =>
    if streq n "." || streq n ".." then cret tt
    else mount (At (netns_etc_dir nsname +:+ "/" +:+ n)) (At ("/etc/" +:+ n)) "none" MS_BIND "" ;;; cret tt)
    (default [] names) tt.

(** The firewall: the rules, made by fnetfilter as the user, go to the restore command
    of iptables, which may load modules. *)
Definition install_rules (args : list string) (restore : string) : P unit :=
  own_empty_file SBOX_STDIN_FILE ;;;
  SysFiles.sbox_run (Z.lor (Z.lor SBOX_USER SBOX_CAPS_NONE) SBOX_SECCOMP) ([PATH_FNETFILTER] ++ args ++ [SBOX_STDIN_FILE]) ;;;
  SysFiles.sbox_run (Z.lor SBOX_ROOT SBOX_STDIN_FROM_FILE) [restore] ;;;
  emit (Call "unlink" 0 [SBOX_STDIN_FILE]).

Definition find_iptables (name : string) : P (option string) :=
  c <~ cget ;; cret (List.find (f_stat (fs_now c)) ["/sbin/" +:+ name; "/usr/sbin/" +:+ name]).

Definition netfilter (fname : option string) : P unit :=
  iptables <~ find_iptables "iptables" ;;
  match iptables with
  | None => cret tt
  | Some iptables =>
      let args := match fname with
                  | Some f => [f]
                  | None => match Checkcfg.netfilter_default conf with Some f => [f] | None => [] end
                  end in
      install_rules args (iptables +:+ "-restore")
  end.

Definition netfilter6 (fname : option string) : P unit :=
  match fname with
  | None => cret tt
  | Some f =>
      ip6tables <~ find_iptables "ip6tables" ;;
      match ip6tables with Some t => install_rules [f] (t +:+ "-restore") | None => cret tt end
  end.

(** The address of a macvlan device is assigned again, or probed. *)
Definition sandbox_address (br : Bridge) (i : nat) : P unit :=
  if macvlan br =? 0 then
    exit_unless (negb (ipsandbox br =? ip br)) ;;; cassert (negb (ipsandbox br =? 0))
  else if ipsandbox br =? 0 then
    a <~ arp_assign (devsandbox br) br ;; upd_bridge i (with_ipsandbox a)
  else
    exit_unless (negb (ipsandbox br =? ip br)) ;;;
    gw <~ get_int "defaultgw" ;; exit_unless (negb (ipsandbox br =? gw)) ;;;
    used <~ clift (arp_check (devsandbox br) (ipsandbox br)) ;; exit_unless (negb used).

Definition sandbox_if_up (i : nat) : P unit :=
  c <~ cget ;;
  let br := bridge i c in
  if configured br =? 0 then cret tt
  else
    net_if_up (devsandbox br) ;;;
    (if (arg_ip_none br =? 0) && ((macvlan br =? 0) || (macvlan br =? 1)) then
       sandbox_address br i ;;;
       c <~ cget ;;
       let br := bridge i c in
       net_config_interface (devsandbox br) (ipsandbox br) (mask br) (mtu br) ;;;
       frame <~ clift (arp_announce (devsandbox br) br) ;; emit (Call "send" 0 (map print_d frame))
     else cret tt) ;;;
    match ip6sandbox br with Some a => net_if_ip6 (devsandbox br) a | None => cret tt end.

Definition bridge_up (i : nat) : P unit :=
  c <~ cget ;;
  let br := bridge i c in
  (if mac_not_zero (macsandbox br) then net_config_mac (devsandbox br) (macsandbox br) else cret tt) ;;;
  sandbox_if_up i.

(** An interface that was moved has lost its address. *)
Definition interface_up (n : string) : P unit :=
  c <~ cget ;;
  let v m := int_of (n +:+ m) c in
  if negb (v ".configured" =? 0) && negb (v ".ip" =? 0)
  then net_config_interface (default EmptyString (str_of (n +:+ ".dev") c)) (v ".ip") (v ".mask") (v ".mtu")
  else cret tt.

Definition interfaces : list string := ["interface0"; "interface1"; "interface2"; "interface3"].

Definition print_network : P unit :=
  c <~ cget ;;
  if negb (set "arg_quiet" c) && (any_bridge_configured c || any_interface_configured c)
  then SysFiles.sbox_run sbox_network ([PATH_FNET; "printif"] ++ if set "arg_scan" c then ["scan"] else [])
  else cret tt.

Definition configure_network : P unit :=
  c <~ cget ;;
  if set "arg_nonetwork" c then net_if_up "lo"
  else match str_of "arg_netns" c with
  | Some ns => netns ns
  | None =>
      if any_bridge_configured c || any_interface_configured c then
        net_if_up "lo" ;;;
        cfold (fun i _ => bridge_up i) [0; 1; 2; 3]%nat tt ;;;
        cfold (fun n _ => interface_up n) interfaces tt ;;;
        gw <~ get_int "defaultgw" ;;
        if gw =? 0 then cret tt else do_call (Call "net_add_route" gw []) ;;; cret tt
      else cret tt
  end.

Definition setup_network : P unit :=
  c <~ cget ;;
  (if set "arg_netfilter" c && any_bridge_configured c then netfilter (str_of "arg_netfilter_file" c) else cret tt) ;;;
  (if set "arg_netfilter6" c && any_bridge_configured c then netfilter6 (str_of "arg_netfilter6_file" c) else cret tt) ;;;
  configure_network ;;;
  print_network ;;;
  c <~ cget ;;
  if set "arg_nonetwork" c || any_bridge_configured c || any_interface_configured c then cret tt
  else EUID_USER ;;; d <~ ask ibus_dir ;; in_env (env_ibus_load d) ;;; EUID_ROOT.

(** ** The mount namespace *)

(** A chroot or a container cannot make its mounts private. *)
Definition chk_chroot : P unit :=
  c <~ cget ;;
  match env_get "container" (environment c) with
  | Some _ => cret tt
  | None =>
      s <~ ask (fun l => sys_stat l "/") ;;
      match s with
      | Some s => exit_unless (negb (st_ino s =? 2))
      | None => cexit 1
      end
  end.

(** A message of the parent; it says whether there is a user namespace. *)
Definition wait_for_parent : P unit :=
  buf <~ ask from_parent ;; v <~ clift (wait_for_other buf) ;; set_int "arg_noroot" v.

Definition mount_lib_dir : P unit :=
  r <~ mount (At (libdir +:+ "/firejail")) (At RUN_FIREJAIL_LIB_DIR) "" MS_BIND "" ;; or_exit r ;;;
  r <~ mount Nowhere (At RUN_FIREJAIL_LIB_DIR) "" (flags [MS_RDONLY; MS_NOSUID; MS_NODEV; MS_BIND; MS_REMOUNT]) "" ;;
  or_exit r.

(** The files of filters after preproc_mount_mnt_dir: copies in order, and empty files
    for the filters still to be built. *)
Definition install_file (files : gmap string (list Z)) (f : string * string) : gmap string (list Z) :=
  match filter_file f.1 with Some bytes => <[f.2 := bytes]> files | None => files end.
Definition initial_filters (c : Config) : gmap string (list Z) :=
  foldl install_file {[ RUN_SECCOMP_PROTOCOL := []; RUN_SECCOMP_POSTEXEC := []; RUN_SECCOMP_POSTEXEC_32 := [] ]}
    (copied_filters c ++ copied_namespaces c).

Definition mount_namespace : C unit :=
  inP (wait_for_parent ;;;
       r <~ mount Nowhere (At "/") "" (flags [MS_SLAVE; MS_REC]) "" ;;
       (if r =? 0 then cret tt else chk_chroot) ;;;
       preproc_mount_mnt_dir) ;;;
  s <~ cget ;;
  cmodify (with_sec (Sandbox (initial_filters (ch_cfg s)) [] [])) ;;;
  inP mount_lib_dir.

(** ** The file system *)

Definition build_protocol : C unit :=
  s <~ cget ;;
  match str_of "protocol" (ch_cfg s) with
  | Some p =>
      rv <~ inSB (fseccomp (seccomp_config (ch_cfg s)) ["protocol"; "build"; p; RUN_SECCOMP_PROTOCOL]) ;;
      inSB (check_status rv)
  | None => cret tt
  end.

Definition enforce_filters : P unit :=
  set_int "arg_nonewprivs" 1 ;;; set_int "arg_caps_drop_all" 1 ;;; set_int "arg_nogroups" 1.

Definition enforce_for_images : P unit :=
  c <~ cget ;;
  if negb (uid =? 0) && (set "arg_appimage" c || given "chrootdir" c) then enforce_filters else cret tt.

Definition need_preload (c : Config) : bool := set "arg_trace" c || set "arg_seccomp_postexec" c.
Definition if_preload (m : P unit) : P unit := c <~ cget ;; if need_preload c then m else cret tt.

(** Nothing of this kind inside a chroot. *)
Definition unless_chroot (m : P unit) : P unit := c <~ cget ;; if given "chrootdir" c then cret tt else m.

Definition as_user (m : P unit) : P unit := EUID_USER ;;; m ;;; EUID_ROOT.

Definition root_fs : P unit :=
  c <~ cget ;;
  match str_of "chrootdir" c with
  | Some dir =>
      if built "HAVE_CHROOT" then
        fs_chroot dir ;;;
        if_preload (emit (Call "unlink" 0 [RUN_LDPRELOAD_FILE]) ;;; fs_trace_touch_or_store_preload)
      else fs_basic_fs
  | None => fs_basic_fs
  end.

Definition appimage_mount : P unit :=
  devloop <~ get_str "devloop" ;;
  match devloop with
  | None => cret tt
  | Some devloop =>
      let fl := flags ([MS_MGC_VAL; MS_RDONLY] ++ if uid =? 0 then [] else [MS_NODEV; MS_NOSUID]) in
      size <~ get_int "appimage_size" ;;
      if size =? 0
      then bind_mount devloop RUN_FIREJAIL_APPIMAGE_DIR "iso9660" fl
             ("mode=700,uid=" +:+ print_d (s32 uid) +:+ ",gid=" +:+ print_d (s32 own_gid))
      else bind_mount devloop RUN_FIREJAIL_APPIMAGE_DIR "squashfs" fl ""
  end.

Definition private_home : P unit :=
  c <~ cget ;;
  match str_of "home_private" c with
  | Some _ => unless_chroot fs_private_homedir
  | None => fs_private
  end.

(** A list that is missing is an assertion that fails. *)
Definition private_list (dir run_dir list : string) : P unit :=
  unless_chroot (l <~ get_str list ;; match l with Some l => fs_private_dir_list dir run_dir l | None => cfail end).

Definition private_bin : P unit :=
  c <~ cget ;;
  if set "arg_appimage" c then cret tt
  else unless_chroot (as_user (
         (c <~ cget ;;
          if set "arg_x11_xorg" c
          then set_str "bin_private_keep" (default "(null)" (str_of "bin_private_keep" c) +:+ ",xauth") else cret tt) ;;;
         fs_private_bin_list)).

Definition private_files : P unit :=
  when_set "arg_private" (as_user private_home) ;;;
  when_set "arg_private_dev" fs_private_dev ;;;
  when_set "arg_private_opt" (private_list "/opt" RUN_OPT_DIR "opt_private_keep") ;;;
  when_set "arg_private_srv" (private_list "/srv" RUN_SRV_DIR "srv_private_keep") ;;;
  unless_set "arg_allow_bwrap" fs_bwrap ;;;
  when_set "arg_private_bin" private_bin ;;;
  when_set "arg_private_cache" (as_user (profile_add "tmpfs ${HOME}/.cache")) ;;;
  when_set "arg_private_tmp" (as_user fs_private_tmp).

Definition set_hostname : P unit :=
  c <~ cget ;;
  (if negb (given "hostname" c) && set "arg_hostname_randomize" c
   then h <~ random_hostname ;; set_str "hostname" h else cret tt) ;;;
  h <~ get_str "hostname" ;;
  match h with Some h => r <~ do_call (Call "sethostname" 0 [h]) ;; or_exit r | None => cret tt end ;;;
  fs_hostname h.

(** The filtered /etc/passwd and /etc/group are copied, unmounted, and appear again in
    the new directory; the array of fs_etc_build may not overflow. *)
Definition private_etc : P unit :=
  c <~ cget ;;
  l <~ clift (fs_etc_build (set "arg_nonetwork" c) (set "arg_nosound" c) (str_of "etc_private_keep" c)) ;;
  match l with
  | None => cfail
  | Some l =>
      set_str "etc_private_keep" l ;;;
      fs_private_dir_copy "/etc" RUN_ETC_DIR l ;;;
      emit (Call "umount2" MNT_DETACH ["/etc/group"]) ;;;
      emit (Call "umount2" MNT_DETACH ["/etc/passwd"]) ;;;
      fs_private_dir_mount "/etc" RUN_ETC_DIR ;;;
      if_preload fs_trace_touch_preload ;;;
      there <~ exists_now "/usr/etc" ;;
      if there : bool then fs_private_dir_list "/usr/etc" RUN_USR_ETC_DIR l else cret tt
  end.

Definition system_files : P unit :=
  (if built "HAVE_DBUSPROXY" then dbus_apply_policy else cret tt) ;;;
  set_hostname ;;;
  ns <~ get_str "arg_netns" ;;
  match ns with Some ns => netns_mounts ns | None => cret tt end ;;;
  fs_proc_sys_dev_boot ;;;
  (if enabled CFG_DISABLE_MNT then fs_mnt true else when_set "arg_disable_mnt" (fs_mnt false)) ;;;
  when_set "arg_private_etc" (unless_chroot private_etc).

Definition disable_media : P unit :=
  c <~ cget ;;
  (if set "arg_nosound" c then pulseaudio_disable ;;; pipewire_disable ;;; fs_dev_disable_sound
   else if set "arg_keep_config_pulse" c then cret tt else pulseaudio_init) ;;;
  when_set "arg_no3d" fs_dev_disable_3d ;;;
  when_set "arg_notv" fs_dev_disable_tv ;;;
  when_set "arg_nodvd" fs_dev_disable_dvd ;;;
  unless_set "arg_keep_dev_tpm" fs_dev_disable_tpm ;;;
  when_set "arg_nou2f" fs_dev_disable_u2f ;;;
  when_set "arg_novideo" fs_dev_disable_video ;;;
  when_set "arg_noinput" fs_dev_disable_input ;;;
  unless_set "arg_keep_dev_ntsync" fs_dev_disable_ntsync.

(** chdir, 0 for success. *)
Definition chdir (dir : string) : P Z := do_call (Call "chdir" 0 [dir]).

(** The directory asked for; whether it was entered. *)
Definition enter_cwd : P bool :=
  c <~ cget ;;
  match str_of "cwd" c with
  | None => cret false
  | Some cwd =>
      exit_unless (negb (is_link cwd (fs_now c))) ;;;
      r <~ chdir cwd ;;
      if r =? 0 then cret true else when_set "arg_private_cwd" (cexit 1) ;;; cret false
  end.

Definition enter_directory : P unit :=
  entered <~ enter_cwd ;;
  if entered : bool then cret tt
  else
    r <~ chdir "/" ;; or_exit r ;;;
    there <~ exists_now homedir ;;
    if there : bool then r <~ chdir homedir ;; or_exit r else cret tt.

(** From the file system of the host to that of the sandbox; [fuel] is for the loop of
    fs_whitelist. *)
Definition build_fs (fuel : nat) : P unit :=
  if_preload fs_trace_touch_or_store_preload ;;;
  fs_store_hosts_file ;;;
  root_fs ;;;
  when_set "arg_appimage" appimage_mount ;;;
  private_files ;;;
  system_files ;;;
  as_user (fs_whitelist fuel ;;; fs_blacklist) ;;;
  disable_media ;;;
  c <~ cget ;;
  (if given "dns1" c || any_dhcp c then fs_resolvconf else cret tt) ;;;
  as_user enter_directory ;;;
  fs_x11 ;;;
  when_set "arg_x11_xorg" x11_xorg ;;;
  save_umask.

(** Images and chroots of users come with restrictions of their own. *)
Definition configure_fs (fuel : nat) : P unit := enforce_for_images ;;; build_fs fuel.

(** ** Filters and privileges *)

Definition set_seccomp_filters : C unit :=
  inP (save_nonewprivs ;;; save_cpu) ;;;
  s <~ cget ;;
  let cfg := seccomp_config (ch_cfg s) in
  inSB (set_protocol cfg) ;;;
  (if given "protocol" (ch_cfg s) then inP protocol_filter_save else cret tt) ;;;
  inSB (set_filters cfg) ;;;
  inP (fs_remount RUN_SECCOMP_DIR MOUNT_READONLY false).

Definition set_child_caps : C unit := s <~ cget ;; inCaps (set_caps (caps_config_of (ch_cfg s))).

(** A user namespace starts with every capability in the bounding set. *)
Definition full_caps (k : caps_state) : caps_state := CapsState (Z.ones (cap_last + 1)) (Caps.filter k).

(** A user namespace that is refused is done without. *)
Definition new_user_namespace : C unit :=
  s <~ cget ;;
  if set "arg_noroot" (ch_cfg s) then
    r <~ inP (do_call (Call "unshare" CLONE_NEWUSER [])) ;;
    if r =? 0 then cmodify (fun s => with_caps (full_caps (ch_caps s)) s) else inP (set_int "arg_noroot" 0)
  else cret tt.

(** One end of a pipe to the other. *)
Definition notify_other_end : P unit :=
  noroot <~ get_int "arg_noroot" ;; emit (Call "write" 0 [notify_other noroot]).

(** The errno of prctl. *)
Definition prctl_no_new_privs : C Z :=
  r <~ inP (do_call (Call "prctl" 1 ["PR_SET_NO_NEW_PRIVS"])) ;;
  (if r =? 0 then cmodify (with_nnp true) else cret tt) ;;; cret r.

Definition set_no_new_privs : C unit :=
  s <~ cget ;;
  if set "arg_nonewprivs" (ch_cfg s) then r <~ prctl_no_new_privs ;; inP (or_exit r) else cret tt.

(** drop_privs; both setresgid and setresuid must succeed. *)
Definition drop_to_user (force_nogroups : bool) : C unit :=
  inP EUID_ROOT ;;;
  s <~ cget ;;
  let c := ch_cfg s in
  groups <~ clift (drop_privs get_group_id (group_flags_of c) (set "arg_noroot" c) force_nogroups can_drop_all own_gid
                     (ch_groups s) user_groups accepts_groups) ;;
  cmodify (with_groups groups) ;;;
  inP (r <~ do_call (Call "setresgid" own_gid []) ;; or_exit r ;;;
       r <~ do_call (Call "setresuid" uid []) ;; or_exit r ;;;
       EUID_USER) ;;;
  cmodify (with_ids true).

Definition set_security : C unit :=
  set_seccomp_filters ;;;
  inP (if_preload fs_trace) ;;;
  set_child_caps ;;;
  inP (create_join_file ;;; save_nogroups) ;;;
  new_user_namespace ;;;
  inP (notify_other_end ;;; wait_for_parent) ;;;
  s <~ cget ;;
  (if set "arg_noroot" (ch_cfg s) then set_child_caps else cret tt) ;;;
  set_no_new_privs ;;;
  drop_to_user false ;;;
  inP (emit (Call "prctl" 9 ["PR_SET_PDEATHSIG"]) ;;; set_cpu_affinity).

(** Up to fork(2). *)
Definition sandbox_setup (fuel : nat) : C unit :=
  mount_namespace ;;;
  inP setup_network ;;;
  build_protocol ;;;
  inP (configure_fs fuel) ;;;
  set_security.

(** ** The application *)

Definition set_apparmor : P unit :=
  EUID_ASSERT ;;;
  c <~ cget ;;
  if enabled CFG_APPARMOR && set "arg_apparmor" c
  then emit (Call (if set "apparmor_replace" c then "aa_change_onexec" else "aa_stack_onexec") 0
               [default EmptyString (str_of "apparmor_profile" c)])
  else cret tt.

Definition close_list (keep : list Z) : P unit :=
  d <~ ask proc_fds ;;
  d <~ (match d with Some _ => cret d | None => emit (Call "sleep" 2 []) ;;; ask proc_fds end) ;;
  match d with
  | None => cexit 1
  | Some (dirfd, names) => emit (Call "close" 0 (map print_d (close_all keep dirfd ll_fd names)))
  end.

Definition close_file_descriptors : P unit :=
  c <~ cget ;;
  if set "arg_keep_fd_all" c then cret tt
  else match str_of "keep_fd" c with
  | None => close_list []
  | Some l =>
      match str_to_int_array l with
      | Some (Some keep) => close_list keep
      | Some None => cexit 1
      | None => cfail
      end
  end.

Definition rlimits : list string := ["as"; "cpu"; "fsize"; "nofile"; "nproc"; "sigpending"].

(** Above the hard limit the value is lowered, except for root; both limits are set. *)
Definition set_rlimit (name : string) : P unit :=
  when_set ("arg_rlimit_" +:+ name) (
    match rlim_max name with
    | None => cexit 1
    | Some max =>
        v <~ get_int ("rlimit_" +:+ name) ;;
        let v := if (max <? v) && negb (uid =? 0) then max else v in
        set_int ("rlimit_" +:+ name) v ;;;
        r <~ do_call (Call "setrlimit" v [name]) ;; or_exit r
    end).

Definition set_rlimits : P unit := EUID_ASSERT ;;; cfold (fun n _ => set_rlimit n) rlimits tt.

(** The limits, descriptors and variables of the program. *)
Definition prepare_application : P unit :=
  (if built "HAVE_APPARMOR" then set_apparmor else cret tt) ;;;
  close_file_descriptors ;;;
  (nice <~ get_int "nice" ;; when_set "arg_nice" (emit (Call "nice" nice []))) ;;;
  set_rlimits ;;;
  c <~ cget ;;
  in_env (env_defaults (default EmptyString (str_of "usershell" c)) (enabled CFG_FIREJAIL_PROMPT) (set "arg_quiet" c)).

Definition enforce_landlock : P unit :=
  if built "HAVE_LANDLOCK" then when_set "arg_landlock_enforce" (r <~ do_call (Call "ll_restrict" 0 []) ;; or_exit r)
  else cret tt.

(** A name without a slash stands for the first file of the search path; another
    one does not count, even if that one cannot be executed. *)
Definition ok_to_run (program : string) (c : Config) : bool :=
  if string_mem "/"%char program then sys_access_x (effects c) program
  else match env_get "PATH" (environment c) with
  | None => false
  | Some path =>
      match List.find (f_stat (fs_now c)) (map (fun d => d +:+ "/" +:+ program) (strtok ":"%char path)) with
      | Some fname => sys_access_x (effects c) fname
      | None => false
      end
  end.

(** The program with its arguments; the user shell, alone or with a command. *)
Definition application (c : Config) : outcome (string * list string) :=
  let shell := str_of "usershell" c in
  if set "just_run_the_shell" c then
    match shell with Some sh => Ok (sh, [sh]) | None => AssertFail end
  else if negb (set "arg_appimage" c) && negb (set "arg_doubledash" c) then
    let index := int_of "original_program_index" c in
    if index =? 0 then Exit 1
    else match drop (Z.to_nat index) original_argv with
    | [] => Exit 1
    | (program :: _) as args => if ok_to_run program c then Ok (program, args) else Exit 1
    end
  else match shell with
  | None => AssertFail
  | Some sh =>
      Ok (sh, sh :: match str_of "command_line" c with
                    | Some cmd => ["-c"; cmd]
                    | None => if set "login_shell" c then ["-l"] else []
                    end)
  end.

(** seccomp_install_filters: a process with filters has NO_NEW_PRIVS, too. *)
Definition install_filters : C unit :=
  s <~ cget ;;
  match sb_filters (ch_sec s) with [] => cret tt | _ => prctl_no_new_privs ;;; cret tt end ;;;
  cmodify (fun s => with_programs (ch_programs s ++ (seccomp_install_filters accepts_filter (ch_sec s)).2) s).

(** The filters and execvp: the result is that of execvp, 0 when the process is the
    program now. *)
Definition install_and_exec (status : bool) (program : string * list string) : C Z :=
  install_filters ;;;
  inP ((if status then emit (Call "set_sandbox_status" 0 []) else cret tt) ;;; do_call (Exec program.1 program.2)).

(** [status]: there is a byte to set when the sandbox is complete. *)
Definition start_application (no_sandbox status : bool) : C unit :=
  inP ((if no_sandbox then cret tt else prepare_application) ;;;
       in_env env_apply_all ;;;
       (orig_umask <~ get_int "orig_umask" ;; emit (Call "umask" orig_umask [])) ;;;
       enforce_landlock) ;;;
  s <~ cget ;;
  program <~ clift (application (ch_cfg s)) ;;
  r <~ install_and_exec status program ;;
  if r =? 0 then cret tt else cexit 1.

(** The process that becomes the program. *)
Definition sandbox_application (fuel : nat) : C unit := sandbox_setup fuel ;;; start_application false true.

(** ** The monitor *)

(** The next process to wait for: the first but init and the two dhclient processes,
    whose ids are 0 since --ip=dhcp is disabled. *)
Definition next_pid (names : list string) : Z :=
  match omap (fun n => match read_digits 10 0 n with
                       | (pid, rest) => if bool_decide (rest = n) || (pid =? 1) || (pid =? 0) then None else Some pid
                       end) names with
  | pid :: _ => pid
  | [] => 0
  end.

Section Monitor.
Context (app_pid : Z) (deterministic_shutdown : bool).

(** [status] and [app_status] at the end; [timeout] is what --timeout left, 0 without
    the option.  The events are consumed one by one: without a further one the monitor
    waits. *)
Fixpoint monitor_loop (events : list waited) (rounds : list (list string)) (monitored timeout status app_status : Z)
    : outcome (Z * Z) :=
  match events with
  | [] => NoFuel
  | ev :: events' =>
      let round_ends (timeout status app_status : Z) :=
        if deterministic_shutdown then Ok (status, app_status)
        else match rounds with
        | [] => Exit 1
        | names :: rounds' =>
            let pid := next_pid names in
            if pid =? 0 then Ok (status, app_status)
            else monitor_loop events' rounds' pid timeout status app_status
        end in
      if w_pid ev =? -1 then round_ends timeout status app_status
      else
        let status := if w_pid ev =? 0 then status else w_status ev in
        let app_status := if w_pid ev =? app_pid then status else app_status in
        if timeout =? 1 then Exit 1
        else
          let timeout := if timeout =? 0 then 0 else timeout - 1 in
          if w_pid ev =? monitored then round_ends timeout status app_status
          else monitor_loop events' rounds monitored timeout status app_status
  end.
End Monitor.

(** The exit status of a wait status: 128 and the signal for a killed process. *)
Definition exit_status (status : Z) : Z :=
  let sig := Z.land status 127 in
  if sig =? 0 then Z.land (Z.shiftr status 8) 255
  else if sig =? 127 then -1
  else 128 + sig.

Definition monitor_application (app_pid : Z) : P Z :=
  EUID_ASSERT ;;;
  c <~ cget ;;
  r <~ clift (monitor_loop app_pid (set "arg_deterministic_shutdown" c) wait_events proc_rounds app_pid
                (int_of "timeout" c) 0 0) ;;
  cret (exit_status (if set "arg_deterministic_exit_code" c then r.2 else r.1)).

(** The process that stays: it returns the exit status of the sandbox. *)
Definition sandbox_monitor (fuel : nat) (app_pid : Z) : C Z :=
  sandbox_setup fuel ;;;
  if app_pid =? -1 then cexit 1 else inP (monitor_application app_pid).
End Sandbox.
