(* ===== verification/Parent.v ===== *)
(** * The parent of a sandbox (main of src/firejail/main.c, behind clone(2))

    The network of the sandbox, the id maps of its user namespace, the messages the
    two processes exchange, and the exit status. *)

From S2P Require Import Prelude.
From S2P Require Import Clib.
From S2P Require Import Caps.
From S2P Require Import Text.
From S2P Require Import Util.
From S2P Require Import Checkcfg.
From S2P Require Import ProfileState.
From S2P Require Import ProfileCommands.
From S2P Require Import NetConfig.
From S2P Require Import Startup.
From S2P Require Import Sys.
From S2P Require Import Session.
From S2P Require Import Chroot.
From S2P Require Import MainSetup.
From S2P Require Import Sandbox.

(** What the parent asks besides: a message of the child, and the status waitpid
    returns for it. *)
Class ParentHost := {
  from_child : list effect -> option string;
  wait_status : list effect -> Z
}.

Section Parent.
Context `{H : Host} `{CH : CapHeaders} `{N : NetHost} `{SS : StartHost} `{K : Kernel} `{CHH : ChildHost} `{PH : ParentHost}.

(** A child that ends by itself: what it does stays, its variables are lost, and how it
    ends is not looked at. *)
Definition in_fork (m : P unit) : P unit := fun c =>
  match m c with
  | (NoFuel, c') => (NoFuel, c')
  | (_, c') => (Ok tt, with_effects (effects c') c)
  end.

Definition host_network (child : Z) : P unit :=
  unless_set "arg_nonetwork" (
    EUID_ROOT ;;;
    in_fork (r <~ do_call (Call "setreuid" 0 []) ;; or_exit r ;;;
             r <~ do_call (Call "setregid" 0 []) ;; or_exit r ;;;
             network_main child) ;;;
    EUID_USER).

(** The map is opened and written with the rights of root. *)
Definition write_map (child : Z) (file mapping : string) : P unit :=
  EUID_ROOT ;;;
  r <~ do_call (Call "update_map" 0 ["/proc/" +:+ print_d child +:+ "/" +:+ file; update_map mapping]) ;; or_exit r ;;;
  EUID_USER.

Definition id_maps (child : Z) : P unit :=
  write_map child "uid_map" (uid_map uid) ;;;
  c <~ cget ;;
  match gid_map get_group_id own_gid (group_flags_of c) can_drop_all with
  | Some m => write_map child "gid_map" m
  | None => cfail
  end.

Definition wait_for_child : P unit :=
  buf <~ ask from_child ;; v <~ clift (wait_for_other buf) ;; set_int "arg_noroot" v.

(** The message of the child, its id maps, and the answer. *)
Definition answer_child (child : Z) : P unit :=
  wait_for_child ;;; when_set "arg_noroot" (id_maps child) ;;; EUID_ASSERT ;;; notify_other_end.

Definition netlock : P unit :=
  in_fork (
    close_list [] ;;;
    r <~ do_call (Call "setresgid" own_gid []) ;; or_exit r ;;;
    r <~ do_call (Call "setresuid" uid []) ;; or_exit r ;;;
    emit (Exec (bindir +:+ "/firejail") [bindir +:+ "/firejail"; "--netlock=" +:+ print_d getpid])).

(** The loop device is given back. *)
Definition appimage_clear : P unit :=
  EUID_ROOT ;;;
  devloop <~ get_str "devloop" ;;
  match devloop with
  | None => cret tt
  | Some devloop =>
      r <~ do_call (Call "open" 0 [devloop; "O_RDONLY|O_CLOEXEC"]) ;;
      if r =? 0 then emit (Call "ioctl" 0 [devloop; "LOOP_CLR_FD"]) else cret tt
  end.

Definition myexit (rv : Z) : P unit :=
  (if built "HAVE_DBUSPROXY" then emit (Call "dbus_proxy_stop" 0 []) else cret tt) ;;;
  EUID_ROOT ;;;
  emit (Call "delete_run_files" getpid []) ;;;
  appimage_clear ;;;
  cexit rv.

(** As the monitor, but for a status that is neither that of an exit nor of a signal. *)
Definition parent_status (status : Z) : Z := let rv := exit_status status in if rv =? -1 then 1 else rv.

(** The child waits until the network is there, and again for its id maps; its answer in
    between says whether it has a user namespace. *)
Definition parent (child : Z) : P unit :=
  EUID_USER ;;;
  emit (Call "set_sandbox_run_file" child []) ;;;
  host_network child ;;;
  EUID_ASSERT ;;;
  notify_other_end ;;;
  answer_child child ;;;
  EUID_ROOT ;;;
  preproc_unlock_firejail_network_dir ;;;
  EUID_USER ;;;
  when_set "arg_netlock" netlock ;;;
  status <~ ask wait_status ;;
  emit (Call "release_sandbox_lock" 0 []) ;;;
  myexit (parent_status status).
End Parent.

(** What the parent writes after it has read [msg]: its second message. *)
Definition parent_reply (msg : string) : option string :=
  match wait_for_other (Some msg) with Ok v => Some (notify_other v) | _ => None end.
