(* ===== verification/Sbox.v ===== *)
(** * Helper programs (src/firejail/sbox.c)

    What a child of firejail gives up before it becomes one of the programs of
    /run/firejail/lib: its environment, descriptors, capabilities and privileges,
    and the system calls it will not make. *)

From S2P Require Import Prelude.
From S2P Require Import Clib.
From S2P Require Import Bpf.
From S2P Require Import Caps.
From S2P Require Import SyscallGroups.
From S2P Require Import Syscall.
From S2P Require Import Env.
From S2P Require Import Text.
From S2P Require Import Checkcfg.
From S2P Require Import ProfileState.
From S2P Require Import ProfileCommands.
From S2P Require Import NetConfig.
From S2P Require Import Sys.
From S2P Require Import SysFiles.
From S2P Require Import Startup.
From S2P Require Import Session.
From S2P Require Import Sandbox.

Definition SBOX_CAPS_NET_SERVICE : Z := 256.
Definition SBOX_KEEP_FDS : Z := 512.

Definition O_RDWR : Z := 2.
Definition STDIN_FILENO : Z := 0.

(** A flag of the mask. *)
Definition flagged (filtermask flag : Z) : bool := negb (Z.land filtermask flag =? 0).

(** What the program sees of the environment. *)
Definition sbox_environment (c : Config) : list string :=
  match env_get "FIREJAIL_FILE_COPY_LIMIT" (environment c) with
  | Some cl => ["FIREJAIL_FILE_COPY_LIMIT=" +:+ cl]
  | None => []
  end ++
  (if set "arg_quiet" c then ["FIREJAIL_QUIET=yes"] else []) ++
  (if set "arg_debug" c then ["FIREJAIL_DEBUG=yes"] else []) ++
  match str_of "seccomp_error_action" c with
  | Some a => ["FIREJAIL_SECCOMP_ERROR_ACTION=" +:+ a]
  | None => []
  end ++ ["FIREJAIL_PLUGIN="].

(** The calls of the filter, those the headers know. *)
Definition sbox_blacklist : list string :=
  ["SYS_mount"; "SYS_umount"; "SYS_umount2"; "SYS_fsopen"; "SYS_fsconfig"; "SYS_fsmount"; "SYS_move_mount";
   "SYS_fspick"; "SYS_open_tree"; "SYS_ptrace"; "SYS_process_vm_readv"; "SYS_process_vm_writev";
   "SYS_kexec_file_load"; "SYS_kexec_load"; "SYS_name_to_handle_at"; "SYS_open_by_handle_at"; "SYS_init_module";
   "SYS_finit_module"; "SYS_create_module"; "SYS_delete_module"; "SYS_iopl"; "SYS_ioperm"; "SYS_ioprio_set";
   "SYS_ni_syscall"; "SYS_swapon"; "SYS_swapoff"; "SYS_syslog"; "SYS_personality"].

Definition sbox_blocked `{SysHeaders} : list Z := omap SYS sbox_blacklist.

(** [act]: the error action of the process. *)
Definition sbox_filter `{SysHeaders} (act : Z) : list sock_filter :=
  VALIDATE_ARCHITECTURE ++ EXAMINE_SYSCALL ++ HANDLE_X32 act ++
  flat_map (BLACKLIST act) sbox_blocked ++ RETURN_ALLOW.

Section Sbox.
Context `{H : Host} `{CH : CapHeaders} `{CK : CapKernel} `{N : NetHost} `{SS : StartHost} `{SH : SysHeaders}
  `{KOS : OS} `{K : Kernel} `{SEH : SessionHost} `{CHH : ChildHost}.

(** dup2 onto the standard input. *)
Definition use_as_stdin (fd : Z) : P unit :=
  r <~ do_call (Call "dup2" fd [print_d STDIN_FILENO]) ;; or_exit r ;;; emit (Call "close" fd []).

(** From the file for it, as it is, or empty; it is closed where there is no
    /dev/null. *)
Definition sbox_stdin (filtermask : Z) : P unit :=
  if flagged filtermask SBOX_STDIN_FROM_FILE then
    fd <~ open (flags [O_RDONLY]) SBOX_STDIN_FILE ;;
    match fd with Some fd => use_as_stdin fd | None => cexit 1 end
  else if flagged filtermask SBOX_ALLOW_STDIN then cret tt
  else
    fd <~ open (flags [O_RDWR]) "/dev/null" ;;
    match fd with Some fd => use_as_stdin fd | None => emit (Call "close" STDIN_FILENO []) end.

Definition cap_bit (macro : string) : Z := u64 (Z.shiftl 1 (cap_macro macro)).

(** The capabilities the flags stand for. *)
Definition sbox_caps_kept (filtermask : Z) : Z :=
  if built "HAVE_GCOV" then 0
  else
    let set_if flag a b set := if flagged filtermask flag then Z.lor (Z.lor set (cap_bit a)) (cap_bit b) else set in
    set_if SBOX_CAPS_NET_SERVICE "CAP_NET_BIND_SERVICE" "CAP_NET_BROADCAST"
      (set_if SBOX_CAPS_HIDEPID "CAP_SYS_PTRACE" "CAP_SYS_PACCT"
         (set_if SBOX_CAPS_NETWORK "CAP_NET_ADMIN" "CAP_NET_RAW" 0)).

Definition sbox_caps (filtermask : Z) : CM caps_state unit :=
  if flagged filtermask SBOX_CAPS_NONE then caps_drop_all
  else
    let set := sbox_caps_kept filtermask in
    if set =? 0 then cret tt else caps_set set.

(** Failures are reported only. *)
Definition sbox_seccomp (filtermask : Z) : C unit :=
  if flagged filtermask SBOX_SECCOMP then
    prctl_no_new_privs ;;;
    s <~ cget ;;
    let filter := sbox_filter (int_of "arg_seccomp_error_action" (ch_cfg s)) in
    if accepts_filter filter then cmodify (with_programs (ch_programs s ++ [filter])) else cret tt
  else cret tt.

Definition sbox_ids (filtermask : Z) : C unit :=
  if flagged filtermask SBOX_USER then drop_to_user true
  else if flagged filtermask SBOX_ROOT then
    inP (r <~ do_call (Call "setrlimit" 0 ["core"]) ;; or_exit r ;;;
         r <~ do_call (Call "setreuid" 0 []) ;; or_exit r ;;;
         r <~ do_call (Call "setregid" 0 []) ;; or_exit r)
  else cfail.

(** Owned by root, or of the group of root, and not writable for everybody. *)
Definition trusted (s : fstat) : bool :=
  negb (negb (st_uid s =? 0) && negb (st_gid s =? 0)) && (Z.land (st_perm s) 2 =? 0).

(** fexecve: the environment, and the program the descriptor stands for. *)
Definition sbox_start (env arg : list string) : P unit :=
  match arg with
  | [] => cfail
  | program :: _ =>
      fd <~ open (flags [O_PATH; O_CLOEXEC]) program ;;
      match fd with
      | None => cexit 1
      | Some fd =>
          s <~ ask (fun l => sys_fstat l fd) ;;
          match s with
          | inr _ => cexit 1
          | inl s =>
              exit_unless (trusted s) ;;;
              emit (Call "environ" fd env) ;;;
              r <~ do_call (Exec program arg) ;; or_exit r
          end
      end
  end.

Definition sbox_do_exec_v (filtermask : Z) (arg : list string) : C unit :=
  s <~ cget ;;
  let env := sbox_environment (ch_cfg s) in
  inP (sbox_stdin filtermask ;;;
       (if flagged filtermask SBOX_KEEP_FDS then cret tt else close_list []) ;;;
       emit (Call "umask" 23 [])) ;;;
  inCaps (sbox_caps filtermask) ;;;
  sbox_seccomp filtermask ;;;
  sbox_ids filtermask ;;;
  inP (sbox_start env arg).

Definition sbox_exec_v (filtermask : Z) (arg : list string) : C unit :=
  inP EUID_ROOT ;;; sbox_do_exec_v filtermask arg.
End Sbox.
