(* ===== verification/Join.v ===== *)
(** * Joining a sandbox (src/firejail/join.c, src/firejail/process.c)

    The process of a sandbox that a process id stands for, the settings read from
    its files, its namespaces, and the program started in them. *)

From S2P Require Import Prelude.
From S2P Require Import Clib.
From S2P Require Import Cmdline.
From S2P Require Import Caps.
From S2P Require Import SyscallGroups.
From S2P Require Import FilterFile.
From S2P Require Import Syscall.
From S2P Require Import Install.
From S2P Require Import Env.
From S2P Require Import Text.
From S2P Require Import Util.
From S2P Require Import Checkcfg.
From S2P Require Import Macros.
From S2P Require Import ProfileState.
From S2P Require Import ProfileCommands.
From S2P Require Import NetConfig.
From S2P Require Import Startup.
From S2P Require Import Sys.
From S2P Require Import SysFiles.
From S2P Require Import Session.
From S2P Require Import MainSetup.
From S2P Require Import Sandbox.
From S2P Require Import Parent.
From S2P Require Import Sbox.

(** A pinned process: its id, and a descriptor of its directory under /proc. *)
Record ProcessHandle := mk_process { process_get_pid : Z; process_get_fd : Z }.

(** What is asked of other processes and their files; [joined_files] and
    [joined_list] are the filters and the lines of RUN_SECCOMP_LIST under the root
    directory of the sandbox. *)
Class JoinHost := {
  sys_fstatat0 : list effect -> Z -> string -> fstat + Z;  (* fstatat with flags 0, or errno *)
  fd_text : list effect -> Z -> string;                    (* what reading the descriptor gives *)
  fd_isreg : list effect -> Z -> bool;
  fd_size : list effect -> Z -> Z;
  get_userns : list effect -> Z -> option Z;               (* ioctl NS_GET_USERNS *)
  lock_owner : list effect -> Z -> option (option Z);      (* F_GETLK: [None] fails, [Some None] is F_UNLCK *)
  joined_files : gmap string (list Z);
  joined_list : option (list string)
}.

Definition ENOENT : Z := 2.
Definition BUFLEN : nat := 4096.
Definition SNOOZE : Z := 10000.
Definition X11_DISPLAY_START : Z := 21.
Definition X11_DISPLAY_END : Z := 1000.
(** The byte of a sandbox that is complete, "1". *)
Definition SANDBOX_DONE : ascii := "1".

(** Two names of one file. *)
Definition same_file (s t : fstat) : bool := (st_ino s =? st_ino t) && (st_dev s =? st_dev t).

(** [%15s] *)
Fixpoint word (n : nat) (s : string) : string :=
  match n, s with
  | S n', String c s' => if isspace c then EmptyString else String c (word n' s')
  | _, _ => EmptyString
  end.
Definition scan_word (n : nat) (s : string) : option string :=
  let w := word n (skip_spaces s) in if nonempty w then Some w else None.

(** [%3o]: the width counts the sign. *)
Definition scan_3o (s : string) : option Z :=
  let '(sign, s1) := read_sign (String.substring 0 3 (skip_spaces s)) in
  match s1 with
  | String c _ => if is_digit_of 8 c then Some (u32 (to_ulong sign (read_digits 8 0 s1).1)) else None
  | EmptyString => None
  end.

(** "Uid: %u %*u %u": the numbers that are found. *)
Definition scan_uids (buf : string) : option (Z * option Z) :=
  s <-? strip_prefix "Uid:" buf ;;
  '(ruid, s1) <-? scan_u s ;;
  Some (ruid, '(_, s2) <-? scan_u s1 ;; '(suid, _) <-? scan_u s2 ;; Some suid).

(** The real and the saved user id in the lines of a status file. *)
Fixpoint status_uids (bufs : list string) (ruid suid : Z) : Z * Z :=
  match bufs with
  | [] => (ruid, suid)
  | buf :: bufs' =>
      match scan_uids buf with
      | Some (r, Some s) => (r, s)
      | Some (r, None) => status_uids bufs' r suid
      | None => status_uids bufs' ruid suid
      end
  end.

(** "PPid: %d" *)
Fixpoint status_ppid (bufs : list string) : Z :=
  match bufs with
  | [] => 0
  | buf :: bufs' =>
      match s <-? strip_prefix "PPid:" buf ;; scan_d s with
      | Some (pid, _) => pid
      | None => status_ppid bufs'
      end
  end.

(** The bounding set, the last one given, and whether NO_NEW_PRIVS is set. *)
Fixpoint status_caps (bufs : list string) (caps : option Z) (nnp : bool) : outcome (option Z * bool) :=
  match bufs with
  | [] => Ok (caps, nnp)
  | buf :: bufs' =>
      match strip_prefix "CapBnd:" buf with
      | Some s => match scan_llx s with Some v => status_caps bufs' (Some v) nnp | None => Exit 1 end
      | None =>
          match strip_prefix "NoNewPrivs:" buf with
          | Some s => match scan_d s with Some (v, _) => status_caps bufs' caps (nnp || negb (v =? 0)) | None => Exit 1 end
          | None => status_caps bufs' caps nnp
          end
      end
  end.

Section Process.
Context `{H : Host} `{N : NetHost} `{K : Kernel} `{JH : JoinHost}.

(** ** process.c *)

Definition pin_process (pid : Z) : P ProcessHandle :=
  EUID_ASSERT ;;; EUID_ROOT ;;;
  fd <~ open (flags [O_RDONLY; O_CLOEXEC]) ("/proc/" +:+ print_d pid) ;;
  EUID_USER ;;;
  match fd with Some fd => cret (mk_process pid fd) | None => cexit 1 end.

Definition unpin_process (process : ProcessHandle) : P unit := emit (Call "close" (process_get_fd process) []).

Definition as_root_in {A} (fname : string) (m : P A) : P A :=
  EUID_ASSERT ;;; cassert (negb (has_prefix "/" fname)) ;;; EUID_ROOT ;;; a <~ m ;; EUID_USER ;;; cret a.

Definition process_stat_nofail (process : ProcessHandle) (fname : string) : P (fstat + Z) :=
  as_root_in fname (ask (fun l => sys_fstatat0 l (process_get_fd process) fname)).
Definition process_stat (process : ProcessHandle) (fname : string) : P fstat :=
  s <~ process_stat_nofail process fname ;; match s with inl s => cret s | inr _ => cexit 1 end.

Definition process_open_nofail (process : ProcessHandle) (fname : string) : P (option Z) :=
  as_root_in fname (openat (process_get_fd process) (flags [O_RDONLY; O_CLOEXEC]) fname).
Definition process_open (process : ProcessHandle) (fname : string) : P Z :=
  fd <~ process_open_nofail process fname ;; match fd with Some fd => cret fd | None => cexit 1 end.

(** What a stream on the descriptor gives, until it is closed. *)
Definition read_all (fd : Z) : P string := text <~ ask (fun l => fd_text l fd) ;; emit (Call "close" fd []) ;;; cret text.
Definition process_text (process : ProcessHandle) (fname : string) : P string :=
  fd <~ process_open process fname ;; read_all fd.
Definition process_status (process : ProcessHandle) : P (list string) :=
  text <~ process_text process "status" ;; cret (map c_string (fgets BUFLEN text)).

Definition process_parent_pid (process : ProcessHandle) : P Z := bufs <~ process_status process ;; cret (status_ppid bufs).

Definition pin_process_relative_to (process : ProcessHandle) (pid : Z) : P ProcessHandle :=
  fd <~ process_open process ("../" +:+ print_d pid) ;; cret (mk_process pid fd).
Definition pin_parent_process (process : ProcessHandle) : P ProcessHandle :=
  pid <~ process_parent_pid process ;; pin_process_relative_to process pid.
Definition pin_child_process (process : ProcessHandle) (child_pid : Z) : P ProcessHandle :=
  child <~ pin_process_relative_to process child_pid ;;
  ppid <~ process_parent_pid child ;;
  exit_unless (ppid =? process_get_pid process) ;;; cret child.

Definition process_rootfs_stat (process : ProcessHandle) (fname : string) : P (fstat + Z) :=
  process_stat_nofail process ("root" +:+ fname).
Definition process_rootfs_open (process : ProcessHandle) (fname : string) : P (option Z) :=
  process_open_nofail process ("root" +:+ fname).

(** Called by root. *)
Definition process_rootfs_chroot (process : ProcessHandle) : P unit :=
  r <~ do_call (Call "fchdir" (process_get_fd process) []) ;; or_exit r ;;;
  c <~ cget ;;
  let called_as_root := euid c =? 0 in
  (if called_as_root then cret tt else EUID_ROOT) ;;;
  r <~ do_call (Call "chroot" 0 ["root"]) ;; or_exit r ;;;
  (if called_as_root then cret tt else EUID_USER) ;;;
  r <~ do_call (Call "chdir" 0 ["/"]) ;; or_exit r.

(** ** lib/common.c *)

Definition namespace_type (typestr : string) : option string :=
  option_map snd (List.find (fun t => streq typestr t.1)
    [("net", "CLONE_NEWNET"); ("mnt", "CLONE_NEWNS"); ("ipc", "CLONE_NEWIPC"); ("pid", "CLONE_NEWPID");
     ("uts", "CLONE_NEWUTS"); ("user", "CLONE_NEWUSER")]).

(** Whether a namespace belongs to another user namespace than that of the process. *)
Definition foreign_namespace (fd : Z) : P bool :=
  self <~ ask (fun l => sys_stat l "/proc/self/ns/user") ;;
  match self with
  | None => cret false
  | Some self =>
      u <~ ask (fun l => get_userns l fd) ;;
      match u with
      | None => cret false
      | Some usernsfd =>
          dest <~ ask (fun l => sys_fstat l usernsfd) ;;
          match dest with
          | inr _ => cexit 1
          | inl dest => emit (Call "close" usernsfd []) ;;; cret (negb (same_file dest self))
          end
      end
  end.

(** 0 or -1 *)
Definition join_namespace_by_fd (dirfd : Z) (typestr : string) : P Z :=
  match namespace_type typestr with
  | None => cfail
  | Some type =>
      fd <~ openat dirfd (flags [O_RDONLY; O_CLOEXEC]) ("ns/" +:+ typestr) ;;
      match fd with
      | None => cret (-1)
      | Some fd =>
          foreign <~ foreign_namespace fd ;;
          if foreign : bool then emit (Call "close" fd []) ;;; cret (-1)
          else
            r <~ do_call (Call "setns" fd [type]) ;;
            emit (Call "close" fd []) ;;; cret (if r =? 0 then 0 else -1)
      end
  end.

Definition process_join_namespace (process : ProcessHandle) (type : string) : P unit :=
  r <~ join_namespace_by_fd (process_get_fd process) type ;; or_exit r.

(** ** The process of the sandbox *)

(** One byte, set when the sandbox is complete. *)
Definition has_join_file (sandbox : ProcessHandle) : P bool :=
  fd <~ process_rootfs_open sandbox RUN_JOIN_FILE ;;
  match fd with
  | None => cret false
  | Some fd =>
      s <~ ask (fun l => sys_fstat l fd) ;;
      match s with
      | inr _ => cexit 1
      | inl s =>
          reg <~ ask (fun l => fd_isreg l fd) ;;
          size <~ ask (fun l => fd_size l fd) ;;
          text <~ ask (fun l => fd_text l fd) ;;
          emit (Call "close" fd []) ;;;
          cret (reg && (st_uid s =? 0) && (size =? 1) &&
                match text with String c _ => Ascii.eqb c SANDBOX_DONE | EmptyString => false end)
      end
  end.

(** [i]: an unsigned long. *)
Fixpoint joinable_loop (fuel : nat) (sandbox : ProcessHandle) (i : Z) : P unit :=
  match fuel with
  | O => cnofuel
  | S f =>
      ready <~ has_join_file sandbox ;;
      if ready : bool then cret tt
      else if join_timeout conf <? i then cexit 1
      else emit (Call "usleep" SNOOZE []) ;;; joinable_loop f sandbox (u64 (i + SNOOZE))
  end.
(** As many rounds as the time allows. *)
Definition check_joinable (sandbox : ProcessHandle) : P unit :=
  joinable_loop (Z.to_nat (join_timeout conf / SNOOZE) + 1) sandbox SNOOZE.

(** From a process to its parent, until one is in the pid namespace of [self]. *)
Fixpoint pidns_loop (fuel : nat) (self : fstat) (process : ProcessHandle) : P ProcessHandle :=
  match fuel with
  | O => cnofuel
  | S f =>
      dest <~ process_stat process "ns/pid" ;;
      if same_file dest self then cret process
      else next <~ pin_parent_process process ;; unpin_process process ;;; pidns_loop f self next
  end.

Definition find_pidns_parent (fuel : nat) (pid : Z) : P ProcessHandle :=
  self <~ ask (fun l => sys_stat l "/proc/self/ns/pid") ;;
  match self with
  | None => cexit 1
  | Some self => process <~ pin_process pid ;; pidns_loop fuel self process
  end.

Definition check_firejail_comm (process : ProcessHandle) : P unit :=
  text <~ process_text process "comm" ;;
  match scan_word 15 text with
  | Some comm => exit_unless (streq comm "firejail")
  | None => cexit 1
  end.

(** A privileged process of the same user. *)
Definition check_firejail_credentials (process : ProcessHandle) : P unit :=
  bufs <~ process_status process ;;
  let '(ruid, suid) := status_uids bufs (u32 (-1)) (u32 (-1)) in
  exit_unless (suid =? 0) ;;; exit_unless ((ruid =? uid) || (uid =? 0)).

(** The pid file of a sandbox is locked by its parent. *)
Definition read_sandbox_pidfile (parent : Z) : P Z :=
  EUID_ROOT ;;;
  fd <~ open (flags [O_RDWR; O_CLOEXEC]) (RUN_FIREJAIL_SANDBOX_DIR +:+ "/" +:+ print_d parent) ;;
  EUID_USER ;;;
  match fd with
  | None => cexit 1
  | Some fd =>
      lock <~ ask (fun l => lock_owner l fd) ;;
      match lock with
      | Some (Some owner) =>
          exit_unless (owner =? parent) ;;;
          text <~ read_all fd ;;
          match scan_d text with Some (sandbox, _) => cret sandbox | None => cexit 1 end
      | _ => cexit 1
      end
  end.

Definition switch_to_sandbox (parent : ProcessHandle) : P ProcessHandle :=
  pid <~ read_sandbox_pidfile (process_get_pid parent) ;; pin_child_process parent pid.

Definition pin_sandbox_process (fuel : nat) (pid : Z) : P ProcessHandle :=
  EUID_ASSERT ;;;
  parent <~ find_pidns_parent fuel pid ;;
  check_firejail_comm parent ;;;
  check_firejail_credentials parent ;;;
  sandbox <~ switch_to_sandbox parent ;;
  check_joinable sandbox ;;;
  unpin_process parent ;;; cret sandbox.

(** ** What the sandbox has saved *)

(** A number out of range is kept all the same. *)
Definition extract_x11_display (pid : Z) : P unit :=
  c <~ cget ;;
  match f_text (fs_now c) (RUN_FIREJAIL_X11_DIR +:+ "/" +:+ print_d pid) with
  | None => cret tt
  | Some text =>
      match scan_u text with
      | None => cret tt
      | Some (display, _) =>
          set_int "display" display ;;;
          if (display <? X11_DISPLAY_START) || (X11_DISPLAY_END <? display) then cret tt
          else EUID_ROOT ;;; emit (Call "x11_run_file" getpid [line (print_d display)]) ;;; EUID_USER
      end
  end.

(** A file that is there, or not; other errors end the program. *)
Definition extract_flag (sandbox : ProcessHandle) (file flag : string) : P unit :=
  s <~ process_rootfs_stat sandbox file ;;
  match s with inl _ => set_int flag 1 | inr errno => exit_unless (errno =? ENOENT) end.
Definition extract_nogroups (sandbox : ProcessHandle) : P unit := extract_flag sandbox RUN_GROUPS_CFG "arg_nogroups".
Definition extract_nonewprivs (sandbox : ProcessHandle) : P unit :=
  extract_flag sandbox RUN_NONEWPRIVS_CFG "arg_nonewprivs".

Definition extract_caps (sandbox : ProcessHandle) : P unit :=
  bufs <~ process_status sandbox ;;
  r <~ clift (status_caps bufs None false) ;;
  match r.1 with Some caps => set_int "apply_caps" 1 ;;; set_int "caps" caps | None => cret tt end ;;;
  if r.2 : bool then set_int "arg_nonewprivs" 1 else cret tt.

Definition extract_user_namespace (sandbox : ProcessHandle) : P unit :=
  self <~ ask (fun l => sys_stat l "/proc/self/ns/user") ;;
  match self with
  | None => cret tt
  | Some self => dest <~ process_stat sandbox "ns/user" ;; if same_file dest self then cret tt else set_int "arg_noroot" 1
  end.

Definition extract_cpu (sandbox : ProcessHandle) : P unit :=
  fd <~ process_rootfs_open sandbox RUN_CPU_CFG ;;
  match fd with
  | None => cret tt
  | Some fd =>
      text <~ read_all fd ;;
      match scan_x text with Some (cpus, _) => set_int "cpus" cpus | None => cret tt end
  end.

Definition extract_umask (sandbox : ProcessHandle) : P unit :=
  fd <~ process_rootfs_open sandbox RUN_UMASK_FILE ;;
  match fd with
  | None => cexit 1
  | Some fd =>
      text <~ read_all fd ;;
      match scan_3o text with Some v => set_int "orig_umask" v | None => cexit 1 end
  end.

(** Not for root. *)
Definition extract_settings (sandbox : ProcessHandle) : P unit :=
  if uid =? 0 then cret tt
  else
    extract_nonewprivs sandbox ;;;
    extract_caps sandbox ;;;
    extract_cpu sandbox ;;;
    extract_nogroups sandbox ;;;
    extract_user_namespace sandbox ;;;
    extract_umask sandbox.
End Process.

Section Join.
Context `{H : Host} `{CH : CapHeaders} `{CK : CapKernel} `{N : NetHost} `{SS : StartHost} `{SH : SysHeaders}
  `{KOS : OS} `{K : Kernel} `{SEH : SessionHost} `{CHH : ChildHost} `{PH : ParentHost} `{JH : JoinHost}.

Definition joined_namespaces (c : Config) : list string :=
  if set "arg_join_network" c then ["net"]
  else if set "arg_join_filesystem" c then ["mnt"]
  else ["ipc"; "net"; "pid"; "uts"; "mnt"].

Definition join_namespaces (sandbox : ProcessHandle) : P unit :=
  c <~ cget ;; cfold (fun t _ => process_join_namespace sandbox t) (joined_namespaces c) tt.

(** Up to fork(2). *)
Definition join_prepare (fuel : nat) (pid : Z) : P ProcessHandle :=
  EUID_ASSERT ;;;
  sandbox <~ pin_sandbox_process fuel pid ;;
  extract_x11_display pid ;;;
  extract_settings sandbox ;;;
  EUID_ROOT ;;;
  join_namespaces sandbox ;;; cret sandbox.

(** ** The child *)

(** The list may be missing; it is read under the new root directory. *)
Definition load_filters : C unit :=
  match joined_list with
  | None => cret tt
  | Some lines =>
      cmodify (fun s => with_sec (Sandbox joined_files (sb_filters (ch_sec s)) (sb_list (ch_sec s))) s) ;;;
      inSB (seccomp_load_file_list lines)
  end.

Definition join_root (sandbox : ProcessHandle) : C unit :=
  s <~ cget ;;
  if set "arg_join_network" (ch_cfg s) then cret tt
  else inP (process_rootfs_chroot sandbox) ;;; if uid =? 0 then cret tt else load_filters.

Definition apply_caps : C unit :=
  s <~ cget ;;
  if int_of "apply_caps" (ch_cfg s) =? 1 then inCaps (caps_set (int_of "caps" (ch_cfg s))) else cret tt.

(** The bounding set starts anew in a user namespace. *)
Definition join_user_namespace (sandbox : ProcessHandle) : C unit :=
  s <~ cget ;;
  if set "arg_noroot" (ch_cfg s) then
    inP (process_join_namespace sandbox "user") ;;;
    cmodify (fun s => with_caps (full_caps (ch_caps s)) s) ;;;
    apply_caps
  else cret tt.

Definition join_directory : P unit :=
  c <~ cget ;;
  entered <~ match str_of "cwd" c with Some d => r <~ chdir d ;; cret (r =? 0) | None => cret false end ;;
  if entered : bool then cret tt
  else
    r <~ chdir "/" ;; or_exit r ;;;
    there <~ exists_now homedir ;;
    if there : bool then r <~ chdir homedir ;; or_exit r else cret tt.

(** For --join and the like, from the first argument behind the option. *)
Definition extract_command (argv : list string) (index : Z) : P unit :=
  let build i := cmd <~ clift (build_cmdline malloc (cstrings argv) i true) ;;
                 set_str "command_line" (String.string_of_list_ascii cmd) in
  EUID_ASSERT ;;;
  match drop (Z.to_nat index) argv with
  | [] => cret tt
  | a :: rest =>
      if streq a "--" then
        set_int "arg_doubledash" 1 ;;; match rest with [] => cret tt | _ => build (index + 1) end
      else
        arg_doubledash <~ get_int "arg_doubledash" ;;
        exit_unless (negb ((arg_doubledash =? 0) && has_prefix "-" a)) ;;; build index
  end.

Definition join_environment : P unit :=
  display <~ get_int "display" ;;
  (if display =? 0 then cret tt
   else in_env (env_store_name_val "DISPLAY" (":" +:+ print_d (s32 display)) SETENV)) ;;;
  if built "HAVE_DBUSPROXY" then
    user <~ exists_now RUN_DBUS_USER_SOCKET ;;
    (if user : bool then dbus_set_session_bus_env else cret tt) ;;;
    system <~ exists_now RUN_DBUS_SYSTEM_SOCKET ;;
    if system : bool then dbus_set_system_bus_env else cret tt
  else cret tt.

Definition join_privileges : C unit :=
  s <~ cget ;;
  (if int_of "arg_nonewprivs" (ch_cfg s) =? 1 then r <~ prctl_no_new_privs ;; inP (or_exit r) else cret tt) ;;;
  drop_to_user (set "arg_nogroups" (ch_cfg s)) ;;;
  inP (emit (Call "prctl" 9 ["PR_SET_PDEATHSIG"])).

Definition join_child (sandbox : ProcessHandle) (argv : list string) (index : Z) : C unit :=
  s <~ cget ;;
  inCaps (caps_drop_dac_override (uid =? 0) (set "arg_noprofile" (ch_cfg s))) ;;;
  join_root sandbox ;;;
  apply_caps ;;;
  join_user_namespace sandbox ;;;
  inP (EUID_USER ;;; unpin_process sandbox ;;; join_directory) ;;;
  join_privileges ;;;
  inP (extract_command argv index ;;; set_cpu_affinity ;;; join_environment) ;;;
  start_application (set "arg_join_network" (ch_cfg s) || set "arg_join_filesystem" (ch_cfg s)) false.

(** The process that becomes the program. *)
Definition join_application (fuel : nat) (pid : Z) (argv : list string) (index : Z) : C unit :=
  sandbox <~ inP (join_prepare fuel pid) ;; join_child sandbox argv index.

(** The process that waits for it; [status] of exit_status is -1 when it has neither
    exited nor been killed. *)
Definition join (fuel : nat) (pid : Z) : P unit :=
  sandbox <~ join_prepare fuel pid ;;
  EUID_USER ;;;
  unpin_process sandbox ;;;
  status <~ ask wait_status ;;
  cexit (exit_status status).
End Join.
