(* ===== verification/MainTheorems.v ===== *)
(** * Theorems about main *)

From S2P Require Import Prelude.
From S2P Require Import Clib.
From S2P Require Import Keeps.
From S2P Require Import Bpf.
From S2P Require Import Caps.
From S2P Require Import SyscallTables.
From S2P Require Import SyscallGroups.
From S2P Require Import FilterFile.
From S2P Require Import Syscall.
From S2P Require Import DropSpec.
From S2P Require Import Fseccomp.
From S2P Require Import SyscallSpec.
From S2P Require Import Cmdline.
From S2P Require Import Env.
From S2P Require Import Text.
From S2P Require Import Common.
From S2P Require Import Util.
From S2P Require Import Checkcfg.
From S2P Require Import Dbus.
From S2P Require Import Macros.
From S2P Require Import ProfileState.
From S2P Require Import ProfileCommands.
From S2P Require Import ProfileLine.
From S2P Require Import ProfileReadTheorems.
From S2P Require Import NetConfig.
From S2P Require Import MainSetup.
From S2P Require Import MainCommands.
From S2P Require Import MainOptions.
From S2P Require Import OptionTheorems.
From S2P Require Import Startup.
From S2P Require Import Sys.
From S2P Require Import SysFiles.
From S2P Require Import Fs.
From S2P Require Import Session.
From S2P Require Import Chroot.

Section Main.
Context `{H : Host} `{CH : CapHeaders} `{N : NetHost} `{SS : StartHost} `{SH : SysHeaders} `{KOS : OS}
  `{K : Kernel} `{SEH : SessionHost}.

(** ** Restrictions stay in force *)

Lemma as_line_kept w a : keeps_ok kept (as_line w a).
Proof.
  apply keeps_ok_bind; [exact _|apply profile_check_line_kept|intros _; apply keeps_ok_keeps, profile_add_kept].
Qed.

Lemma parse_options_kept i args : keeps_ok kept (parse_options i args).
Proof.
  apply parse_options_keeps; [exact _|apply as_line_kept|apply profile_read_kept].
Qed.

Lemma env_name_val_kept n v o : keeps kept (in_env (env_store_name_val n v o)).
Proof.
  apply keeps_get_bind. intros c. unfold env_store_name_val.
  destruct (negb _); cbn; repeat split; try done; try (by apply Forall_forall). by apply prefix_app_r.
Qed.

#[local] Hint Resolve as_line_kept profile_read_kept parse_options_kept : keeps_ok.
#[local] Hint Resolve env_name_val_kept env_store_kept : keeps.

Ltac kept_step :=
  match goal with
  | |- keeps_ok _ (cbind _ _) => apply keeps_ok_bind; [exact _| |intros]
  | |- keeps_ok _ (cfold _ _ _) => apply keeps_ok_fold; [exact _|intros]
  | |- keeps_ok _ (match ?x with _ => _ end) => destruct x
  | |- keeps_ok _ _ => first [solve [eauto with keeps_ok] | apply keeps_ok_keeps; solve [keeps_tac]]
  end.
Ltac kept_tac := repeat kept_step.

Lemma attach_loop_kept a size : keeps kept (attach_loop a size).
Proof. keeps_deep. Qed.
#[local] Hint Resolve attach_loop_kept : keeps.

Lemma appimage_set_kept a : keeps_ok kept (appimage_set a).
Proof. unfold appimage_set, exit_unless, get_str. cbv zeta. kept_tac. Qed.

Lemma find_firejail_kept nm ext : keeps_ok kept (profile_find_firejail profile_read nm ext).
Proof. apply profile_find_firejail_keeps; [exact _|apply profile_read_kept]. Qed.
#[local] Hint Resolve appimage_set_kept find_firejail_kept : keeps_ok.

Lemma build_command_kept argv prog : keeps_ok kept (build_command argv prog).
Proof. unfold build_command, exit_unless, cassert. kept_tac. Qed.

Lemma load_profile_kept : keeps_ok kept load_profile.
Proof. unfold load_profile, appimage_find_profile, exit_unless, cassert. cbv zeta. kept_tac. Qed.

Lemma check_options_kept : keeps_ok kept check_options.
Proof. unfold check_options, exit_unless. kept_tac. Qed.

Lemma x11_block_kept : keeps_ok kept x11_block.
Proof. unfold x11_block, x11_abstract_sockets_present, exit_unless. kept_tac. Qed.

Lemma arp_assign_kept dev br : keeps kept (arp_assign dev br).
Proof.
  assert (forall n a b c d, keeps kept (random_tries n a b c d)) as Ht.
  { induction n; intros; cbn [random_tries]; unfold get_rand, get_int; cbv zeta; keeps_tac. }
  assert (keeps kept (arp_random dev br)) as Hr.
  { unfold arp_random, get_int, cassert. cbv zeta. keeps_tac; eauto with keeps. }
  unfold arp_assign, arp_sequential, get_int, cassert. cbv zeta. keeps_tac; exact Hr.
Qed.
#[local] Hint Resolve arp_assign_kept : keeps.

Lemma net_check_cfg_kept : keeps kept net_check_cfg.
Proof.
  unfold net_check_cfg, net_configure_bridge, configure_range, check_iprange, assign_default_gw, check_default_gw,
    exit_unless, cassert. cbv zeta. keeps_tac.
Qed.

Lemma lock_loop_kept f p s t : keeps kept (lock_loop f p s t).
Proof. revert s t. induction f; intros; cbn [lock_loop]; unfold do_call, ask; keeps_tac. Qed.
#[local] Hint Resolve lock_loop_kept : keeps.

Lemma locks_kept : keeps kept preproc_lock_firejail_dir /\ keeps kept preproc_unlock_firejail_dir /\
  keeps kept preproc_lock_firejail_network_dir /\ keeps kept EUID_ROOT /\ keeps kept EUID_USER.
Proof.
  unfold preproc_lock_firejail_dir, preproc_unlock_firejail_dir, preproc_lock_firejail_network_dir, preproc_lock_file,
    preproc_unlock_file, EUID_ROOT, EUID_USER, or_exit, exit_unless, do_call, ask, get_int.
  do 4 (split; [keeps_tac|]). keeps_tac.
Qed.

Lemma configure_networks_kept pid : keeps kept (configure_networks pid).
Proof.
  destruct locks_kept as (? & ? & ? & ? & ?).
  unfold configure_networks, check_network, net_configure_sandbox_ip, network_set_run_file, exit_unless. cbv zeta.
  keeps_tac.
Qed.

Lemma filters_kept : keeps kept add_config_filter /\ keeps kept set_postexec.
Proof. unfold add_config_filter, set_postexec, augment, get_str. split; keeps_tac. Qed.

Lemma run_files_kept pid : keeps kept (set_run_files pid).
Proof.
  destruct locks_kept as (? & ? & ? & ? & ?).
  unfold set_run_files, set_name_run_file, get_str. cbv zeta. keeps_tac. Qed.

Lemma dbus_check_kept : keeps kept dbus_check_profile.
Proof.
  unfold dbus_check_profile, dbus_check_bus_profile. apply keeps_get_bind. intros c. cbv zeta. unfold cbind, clift, cmodify.
  destruct (arg_dbus_user c) eqn:Eu, (f_stat _ _); cbn; destruct (arg_dbus_system c) eqn:Es; cbn;
    repeat split; cbn; try done; try (by apply Forall_forall); intros; congruence.
Qed.

Lemma start_dbus_kept : keeps kept start_dbus_proxy.
Proof. pose proof dbus_check_kept. keeps_deep. Qed.

#[local] Hint Resolve build_command_kept load_profile_kept check_options_kept x11_block_kept : keeps_ok.

Lemma setup_kept argv prog pid : keeps_ok kept (setup argv prog pid).
Proof.
  pose proof net_check_cfg_kept. pose proof (configure_networks_kept pid). pose proof filters_kept as [? ?].
  pose proof (run_files_kept pid). pose proof start_dbus_kept. unfold setup. kept_tac.
Qed.

(** An option cannot undo what an earlier one asked for, and neither can the profile of
    the program, the files it includes or the set-up behind them: every restriction
    in force at some option is in force when the sandbox process is created. *)
Theorem options_kept i args argv pid c flags c' :
  (prog_index <~ parse_options i args ;; setup argv prog_index pid) c = (Ok flags, c') -> kept c c'.
Proof.
  intros E. revert c flags c' E. apply keeps_ok_bind; [exact _|apply parse_options_kept|intros; apply setup_kept].
Qed.
(** ** From the options to the sandbox *)

(** What a program returns is read from the state it leaves behind. *)
Definition returns {A} (f : Config -> A) (m : P A) : Prop := forall c a c', m c = (Ok a, c') -> a = f c'.

Lemma returns_bind {A B} (f : Config -> B) (m : P A) k : (forall a, returns f (k a)) -> returns f (a <~ m ;; k a).
Proof. intros Hk c b c'. unfold cbind. destruct (m c) as [[a| | |] c1]; try done. apply Hk. Qed.

Lemma returns_last {A} (f : Config -> A) : returns f (c <~ cget ;; cret (f c)).
Proof. intros c a c'. rewrite cget_bind. by intros [= <- <-]. Qed.

Lemma setup_returns argv prog pid : returns clone_flags (setup argv prog pid).
Proof.
  unfold setup. repeat first [apply returns_last | apply returns_bind; intros].
Qed.

Lemma clone_network c : int_of "arg_nonetwork" c <> 0 -> Z.testbit (clone_flags c) 30 = true.
Proof.
  intros Hn. unfold clone_flags, set. rewrite (proj2 (Z.eqb_neq _ 0) Hn), orb_true_r. by destruct (_ || _).
Qed.

(** The restriction itself, for any of the options that switch one on. *)
Lemma restriction_reaches i pre s n post argv pid c flags c' :
  forallb is_option pre = true -> In (s, n) flag_options ->
  (prog_index <~ parse_options i (pre ++ s :: post) ;; setup argv prog_index pid) c = (Ok flags, c') ->
  int_of n c' <> 0.
Proof.
  intros Hp Hs. unfold cbind at 1.
  destruct (parse_options i (pre ++ s :: post) c) as [[r| | |] c1] eqn:E1; try done. intros E2.
  assert (is_option s = true) as Ho.
  { apply bool_decide_eq_true. unfold flag_options in Hs. apply in_app_or in Hs as [Hs|Hs].
    - destruct (plain_flag _ _ Hs) as [_ ->]. by eexists.
    - destruct (other_flag _ _ Hs) as (_ & f & -> & _). by eexists. }
  destruct (parse_reaches _ _ _ _ _ _ _ Hp Ho E1) as (at_i & j & c2 & c3 & Er & Ej).
  pose proof (flag_option _ _ _ _ _ Hs Er) as H3. apply parse_options_kept in Ej. apply setup_kept in E2 as Hk.
  assert (kept c3 c') as [Hf _] by (by etrans). unfold flags_kept in Hf. rewrite Forall_forall in Hf.
  apply Hf; [by apply list_elem_of_In, (flag_restricts s)|done].
Qed.

(** A restriction on the command line reaches the sandbox: if the options are accepted
    and the set-up succeeds, the restriction is in force when the sandbox process is
    created, whatever other options, profiles and includes were read; and for
    --net=none the process is created in a new network namespace. *)
Theorem restriction_reaches_sandbox i pre s n post argv pid c flags c' :
  forallb is_option pre = true -> In (s, n) flag_options ->
  (prog_index <~ parse_options i (pre ++ s :: post) ;; setup argv prog_index pid) c = (Ok flags, c') ->
  int_of n c' <> 0 /\ (s = "--net=none" -> Z.testbit flags 30 = true).
Proof.
  intros Hp Hs E. pose proof (restriction_reaches _ _ _ _ _ _ _ _ _ _ Hp Hs E) as Hn. split; [done|]. intros ->.
  revert E. unfold cbind at 1. destruct (parse_options i _ c) as [[r| | |] c1]; try done. intros E2.
  rewrite (setup_returns _ _ _ _ _ _ E2). apply clone_network.
  assert (n = "arg_nonetwork") as -> by (repeat destruct Hs as [[=]|Hs]; try destruct Hs; done). done.
Qed.

(** ** Filters behind execve *)

(** Main announces a post-exec filter exactly when fseccomp writes one: for a list that
    expands, the answer of check_postexec is whether the second file exists after
    seccomp.drop has run with that list. *)
Theorem check_postexec_agrees f1 f2 str dbg es w : OSLaws ->
  SyscallSpec.expand SCL_DEPTH true str = Ok es -> str <> EmptyString -> f1 <> f2 -> w_files w !! f2 = None ->
  exists b, check_postexec (Some str) = Ok b /\
    (b = true <-> is_Some (w_files (seccomp_drop f1 f2 str dbg true w).2 !! f2)).
Proof.
  intros OL He Hs Hf Hw. unfold check_postexec. destruct str as [|x str]; [done|].
  rewrite (syscalls_in_list_ok _ _ _ no_files He). cbn [obind fst snd]. eexists. split; [reflexivity|].
  rewrite bool_decide_eq_true, (seccomp_drop_ok f1 f2 _ dbg _ _ w He). cbn [snd]. unfold after_drop, joined.
  assert (forall p, w_files (saved f1 p w) !! f2 = None) as Hn.
  { intros p. unfold saved. cbn [w_files]. by rewrite lookup_insert_ne. }
  destruct (flat_map (post_call true) es).
  - rewrite Hn. split; intros [? [=]].
  - unfold saved at 1. cbn [w_files]. rewrite lookup_insert_eq. split; eauto.
Qed.
End Main.
