(* ===== verification/ProfileEntryTheorems.v ===== *)
(** * Theorems about the entries of the profile list

    What [profile_check_line] returns 1 for, and with it every entry a profile file
    adds, has an argument that was checked. *)

From S2P Require Import Prelude.
From S2P Require Import Clib.
From S2P Require Import Keeps.
From S2P Require Import Caps.
From S2P Require Import Env.
From S2P Require Import Text.
From S2P Require Import Common.
From S2P Require Import Util.
From S2P Require Import Checkcfg.
From S2P Require Import Dbus.
From S2P Require Import Macros.
From S2P Require Import ProfileState.
From S2P Require Import ProfileCommands.
From S2P Require Import ProfileLine.
From S2P Require Import ProfileReadTheorems.

(** A file name [invalid_filename] accepts. *)
Definition safe_name (globbing : bool) (fname : string) : bool :=
  match invalid_filename fname globbing with Ok _ => true | _ => false end.

Definition no_dots (fname : string) : bool := negb (contains ".." fname).

Section Entries.
Context `{H : Host} `{CH : CapHeaders}.

Definition proxy_check (check : string -> bool) (rule : string) : bool :=
  if built "HAVE_DBUSPROXY" then check rule else true.

Definition bind_ok (arg : string) : bool :=
  match split_comma arg with
  | (d1, Some d2) => (uid =? 0) && safe_name false d1 && safe_name false d2 && no_dots d1 && no_dots d2
  | (_, None) => false
  end.

Definition path_ok (arg : string) : bool := safe_name true arg && no_dots arg.

(** The commands that stay in the list and the checks of their arguments. *)
Definition entry_specs : list (string * (string -> bool)) :=
  [("mkdir ", safe_name false); ("mkfile ", safe_name false);
   ("dbus-user.see ", proxy_check dbus_check_name); ("dbus-user.talk ", proxy_check dbus_check_name);
   ("dbus-user.own ", proxy_check dbus_check_name); ("dbus-user.call ", proxy_check dbus_check_call_rule);
   ("dbus-user.broadcast ", proxy_check dbus_check_call_rule);
   ("dbus-system.see ", proxy_check dbus_check_name); ("dbus-system.talk ", proxy_check dbus_check_name);
   ("dbus-system.own ", proxy_check dbus_check_name); ("dbus-system.call ", proxy_check dbus_check_call_rule);
   ("dbus-system.broadcast ", proxy_check dbus_check_call_rule);
   ("bind ", bind_ok);
   ("blacklist ", path_ok); ("blacklist-nolog ", path_ok); ("noblacklist ", path_ok); ("whitelist ", path_ok);
   ("nowhitelist ", path_ok); ("read-only ", path_ok); ("read-write ", path_ok); ("noexec ", path_ok);
   ("tmpfs ", path_ok)].

Definition spec_holds (e : string) (s : string * (string -> bool)) : bool :=
  match strip_prefix s.1 e with Some a => s.2 a | None => false end.

Definition entry_ok (e : string) : bool := existsb (spec_holds e) entry_specs.

(** ** Lines *)

Lemma entry_ok_intro p ok e a :
  In (p, ok) entry_specs -> strip_prefix p e = Some a -> ok a = true -> entry_ok e = true.
Proof.
  intros Hin Hp Ha. apply List.existsb_exists. exists (p, ok). split; [done|].
  unfold spec_holds. cbn. by rewrite Hp.
Qed.

(** The command never asks for its line to be kept, or the line is a valid entry. *)
Definition adds_ok (c : command) : Prop :=
  forall ptr arg, matches c.1 ptr = Some arg -> results (fun b => b = true -> entry_ok ptr = true) (c.2 arg).

Lemma run_command_adds cmds ptr : Forall adds_ok cmds ->
  results (fun b => b = true -> entry_ok ptr = true) (run_command cmds ptr).
Proof.
  induction 1 as [|[t f] cmds Hf _ IH]; simpl; [apply results_exit|].
  destruct (matches t ptr) eqn:E; [exact (Hf ptr s E)|exact IH].
Qed.

Lemma never_adds t f :
  (forall arg, results (fun b => b = true -> False) (f arg)) -> adds_ok (t, f).
Proof. intros Hf ptr arg _ w b w' E Hb. destruct (Hf arg w b w' E Hb). Qed.

Lemma executed_adds (m : P unit) : results (fun b => b = true -> False) (executed m).
Proof. unfold executed. results_tac. done. Qed.

#[local] Hint Resolve executed_adds : results.

Lemma exit_unless_results b (k : P bool) (Q : bool -> Prop) :
  (b = true -> results Q k) -> results Q (exit_unless b ;;; k).
Proof.
  intros Hk. unfold exit_unless. destruct b; [|by intros w a w' [=]].
  intros w a w' E. by eapply Hk.
Qed.

Lemma invalid_filename_then (fname : string) g (k : P bool) (Q : bool -> Prop) :
  (safe_name g fname = true -> results Q k) -> results Q (clift (invalid_filename fname g) ;;; k).
Proof.
  unfold safe_name, cbind, clift. intros Hk w a w'.
  destruct (invalid_filename fname g) as [[]|c| |]; [|done..]. by apply Hk.
Qed.

(** An entry whose command checks its argument. *)
Lemma checked_adds p ok f :
  In (p, ok) entry_specs ->
  (forall arg, results (fun b => b = true -> ok arg = true) (f arg)) -> adds_ok (Starts p, f).
Proof.
  intros Hin Hf ptr arg Hm w b w' E Hb. eapply entry_ok_intro; [exact Hin|exact Hm|by eapply Hf].
Qed.

Lemma path_adds arg : results (fun b => b = true -> path_ok arg = true) (cmd_path arg).
Proof.
  unfold cmd_path, path_ok, no_dots. apply invalid_filename_then. intros ->.
  destruct (contains _ _); [apply results_exit|]. by apply results_ret.
Qed.

Lemma dbus_adds check arg :
  results (fun b => b = true -> proxy_check check arg = true) (cmd_dbus_rule check arg).
Proof.
  unfold cmd_dbus_rule, proxy_check. destruct (built _); [|by intros ? ? ? [= <- <-]].
  apply exit_unless_results. intros Hc. by apply results_ret.
Qed.

Lemma bind_adds arg : results (fun b => b = true -> bind_ok arg = true) (cmd_bind arg).
Proof.
  unfold cmd_bind, bind_ok, no_dots. destruct (enabled _); [|by apply results_ret].
  destruct (uid =? 0); [|apply results_exit]. cbn [negb andb].
  destruct (split_comma arg) as [d1 [d2|]]; [|apply results_exit].
  apply invalid_filename_then; intros ->. apply invalid_filename_then; intros ->.
  apply (results_bind _ (fun _ => True)); [apply results_true|intros c _].
  destruct (contains _ d1); [apply results_exit|]. destruct (contains _ d2); [apply results_exit|].
  cbn [orb]. destruct (_ || _); [apply results_exit|]. by apply results_ret.
Qed.

Lemma mk_adds (mk : string -> P unit) arg :
  (exists k, forall c, mk arg c = (clift (invalid_filename arg false) ;;; k) c) ->
  results (fun b => b = true -> safe_name false arg = true) (mk arg ;;; cret true).
Proof.
  intros [k Hk] w b w' E _. revert E. unfold cbind at 1. rewrite Hk. unfold cbind, clift, safe_name.
  by destruct (invalid_filename arg false) as [[]|c| |].
Qed.

(** Commands that only ever return 0. *)
Ltac adds_nothing :=
  apply never_adds; intros arg; unfold nothing, flag, if_enabled, if_network, cmd_hostname, cmd_hostname_randomize,
    cmd_join_or_start, cmd_dbus_policy, cmd_net_none, cmd_net, cmd_veth_name, cmd_iprange, cmd_mac, cmd_mtu,
    cmd_netmask, cmd_ip, cmd_ip6, cmd_defaultgw, cmd_netfilter, cmd_netns, cmd_dns, cmd_seccomp_list,
    cmd_seccomp_error_action, cmd_restrict_namespaces, cmd_caps, rlimit_size, rlimit_number, cmd_nice,
    cmd_private_list, cmd_private_etc_list, cmd_private_etc, cmd_writable_etc, cmd_private_dir, cmd_noprinters,
    cmd_x11, cmd_apparmor, cmd_apparmor_replace, if_enabled, if_network, flag;
  results_tac; done.

Ltac each_adds :=
  repeat (apply Forall_cons; split; [try adds_nothing|]); [..|apply Forall_nil_2].

Ltac in_specs := unfold entry_specs; repeat first [left; reflexivity | right].

Lemma commands_1_add : Forall adds_ok commands_1.
Proof.
  unfold commands_1, sets. each_adds.
  - apply (checked_adds _ (safe_name false)); [in_specs|]. intros arg. apply mk_adds. by eexists.
  - apply (checked_adds _ (safe_name false)); [in_specs|]. intros arg. apply mk_adds. by eexists.
Qed.

Lemma commands_2_add : Forall adds_ok commands_2.
Proof. unfold commands_2, sets. each_adds; eapply checked_adds; try apply dbus_adds; in_specs. Qed.

Lemma rlimit_commands_never arg :
  results (fun b => b = true -> False) (run_command rlimit_commands arg).
Proof.
  unfold rlimit_commands, run_command, rlimit_size, rlimit_number.
  results_tac.
Qed.

Lemma commands_3_add : Forall adds_ok commands_3.
Proof.
  unfold commands_3, sets. each_adds.
  - eapply checked_adds; [|apply bind_adds]. in_specs.
  - apply never_adds. intros arg. apply rlimit_commands_never.
Qed.

Lemma whitelist_adds arg :
  results (fun b => b = true -> path_ok arg = true) (set_int "arg_whitelist" 1 ;;; cmd_path arg).
Proof. apply (results_bind _ (fun _ => True)); [apply results_true|]. intros _ _. apply path_adds. Qed.

Lemma path_commands_add : Forall adds_ok path_commands.
Proof.
  unfold path_commands.
  repeat (apply Forall_cons; split; [eapply checked_adds; [|first [apply path_adds|apply whitelist_adds]]; in_specs|]).
  apply Forall_nil_2.
Qed.

Lemma commands_add : Forall adds_ok commands.
Proof.
  unfold commands. rewrite !Forall_app.
  auto using commands_1_add, commands_2_add, commands_3_add, path_commands_add.
Qed.

(** ** The list *)

(** What reading adds to the list: checked entries, and the pairs a whitelist-ro line
    stands for, whose argument is not checked. *)
Inductive appended : list string -> Prop :=
| appended_nil : appended []
| appended_entry l e : appended l -> entry_ok e = true -> appended (l ++ [e])
| appended_ro l a : appended l -> appended (l ++ ["whitelist " +:+ a; "read-only " +:+ a]).

Definition entries_added (c c' : Config) : Prop := exists l, profile c' = profile c ++ l /\ appended l.

Lemma appended_app l1 l2 : appended l1 -> appended l2 -> appended (l1 ++ l2).
Proof.
  intros H1. induction 1 as [|l e _ IH He|l a _ IH]; [by rewrite app_nil_r|..]; rewrite app_assoc;
    by constructor.
Qed.

#[local] Instance entries_added_preorder : PreOrder entries_added.
Proof.
  split.
  - intros c. exists []. rewrite app_nil_r. split; [done|constructor].
  - intros c1 c2 c3 (l1 & E1 & H1) (l2 & E2 & H2). exists (l1 ++ l2). rewrite E2, E1, app_assoc.
    split; [done|by apply appended_app].
Qed.

Lemma entry_added e (c : Config) : entry_ok e = true -> entries_added c (with_profile (profile c ++ [e]) c).
Proof. intros He. exists [e]. split; [done|]. apply (appended_entry []); [constructor|done]. Qed.

Lemma fixed_ok e : In e fixed_entries -> entry_ok e = true.
Proof. intros He. repeat destruct He as [<-|He]; [vm_compute; reflexivity..|destruct He]. Qed.

Lemma same_profile f : (forall c, profile (f c) = profile c) -> keeps entries_added (cmodify f).
Proof. intros Hf. apply keeps_modify. intros c. exists []. rewrite Hf, app_nil_r. split; [done|constructor]. Qed.

Lemma profile_add_fixed e : In e fixed_entries -> keeps entries_added (profile_add e).
Proof. intros He. apply keeps_modify. intros c. apply entry_added. by apply fixed_ok. Qed.

(** Nothing is added. *)
Lemma added_none (c c' : Config) : profile c' = profile c -> entries_added c c'.
Proof. intros E. exists []. rewrite E, app_nil_r. split; [done|constructor]. Qed.

#[local] Instance entries_primitives : Primitives entries_added.
Proof.
  split; intros; try (apply same_profile; reflexivity); try exact _; try (by apply added_none).
  - by apply profile_add_fixed.
  - unfold profile_add_ignore. destruct (negb _); [apply keeps_exit, _|].
    apply keeps_get_bind. intros c. destruct (_ <=? _); by apply added_none.
  - apply keeps_get_bind. intros c. destruct (env_store s o (environment c)). by apply added_none.
Qed.

Lemma check_line_adds f ptr : results (fun b => b = true -> entry_ok ptr = true) (check_line f ptr).
Proof.
  destruct f as [|f]; cbn [check_line]; [apply results_nofuel|].
  destruct (strip_prefix "?" ptr) as [rest|].
  - destruct (parse_conditional rest) as [[check p]|]; [|apply results_exit].
    results_tac; done.
  - apply (results_bind _ (fun _ => True)); [apply results_true|intros c _].
    destruct (is_in_ignore_list ptr c); [by apply results_ret|]. apply run_command_adds, commands_add.
Qed.

(** The line is added if it was found to be an entry. *)
Lemma add_if_ok ptr (m : P bool) :
  keeps_ok entries_added m -> results (fun b => b = true -> entry_ok ptr = true) m ->
  keeps_ok entries_added (add <~ m ;; if add : bool then profile_add ptr else cret tt).
Proof.
  intros Hm Hr. eapply keeps_ok_bind_results; [exact _|exact Hm|exact Hr|].
  intros [] Ha; [|apply keeps_ok_ret, _]. apply keeps_ok_modify. intros c. apply entry_added. auto.
Qed.

Lemma check_line_entries f ptr : keeps_ok entries_added (check_line f ptr).
Proof.
  revert ptr. induction f as [|f IH]; intros ptr; cbn [check_line]; [apply keeps_ok_nofuel|].
  destruct (strip_prefix "?" ptr) as [rest|].
  - destruct (parse_conditional rest) as [[check p]|]; [|apply keeps_ok_exit].
    apply keeps_ok_bind; [exact _|apply keeps_ok_get, _|intros c].
    destruct (check c); [|apply keeps_ok_ret, _]. destruct (_ || _); [apply keeps_ok_exit|].
    intros w b w' E. rewrite <- cbind_assoc in E. revert w b w' E.
    apply keeps_ok_bind; [exact _|apply add_if_ok; [apply IH|apply check_line_adds]|].
    intros. apply keeps_ok_ret, _.
  - apply keeps_ok_bind; [exact _|apply keeps_ok_get, _|intros c].
    destruct (is_in_ignore_list ptr c); [apply keeps_ok_ret, _|].
    apply run_command_keeps_ok, (commands_keep_ok entries_added).
Qed.

Lemma add_line_entries ptr : keeps_ok entries_added (add_line ptr).
Proof. apply add_if_ok; [apply check_line_entries|apply check_line_adds]. Qed.

Lemma whitelist_ro_entries a : keeps_ok entries_added (whitelist_ro a).
Proof.
  intros c u c' [= _ <-]. exists ["whitelist " +:+ a; "read-only " +:+ a]. cbn. rewrite <- app_assoc.
  split; [done|]. apply (appended_ro []). constructor.
Qed.

Lemma profile_read_keeps_entries fname : keeps_ok entries_added (profile_read fname).
Proof.
  apply profile_read_level_keeps; [exact _|apply add_line_entries|apply whitelist_ro_entries|..]; intros;
    apply keeps_ok_modify; intros w; by apply added_none.
Qed.

(** C8: Whatever a profile file and its includes hold, reading it only appends to the
    list of commands, and each entry it appends has an argument its command accepts:
    file names without control characters, shell characters or "..", names and rules
    of the D-Bus proxy.  The only exception are the two adjacent entries, whitelist and
    read-only, that a whitelist-ro line stands for: their argument is not checked. *)
Theorem profile_read_entries fname c c' :
  profile_read fname c = (Ok tt, c') -> exists l, profile c' = profile c ++ l /\ appended l.
Proof. intros E. exact (profile_read_keeps_entries _ _ _ _ E). Qed.

(** ** The D-Bus proxy *)

Definition rule_kinds : list (string * (string -> bool)) :=
  [("see", dbus_check_name); ("talk", dbus_check_name); ("own", dbus_check_name);
   ("call", dbus_check_call_rule); ("broadcast", dbus_check_call_rule)].

(** An entry: checked, or one of the two a whitelist-ro line stands for. *)
Definition listed_ok (e : string) : Prop :=
  entry_ok e = true \/ exists a, e = "whitelist " +:+ a \/ e = "read-only " +:+ a.

Lemma appended_listed l : appended l -> Forall listed_ok l.
Proof.
  induction 1 as [|l e _ IH He|l a _ IH]; [constructor|..]; apply Forall_app; (split; [done|]).
  - apply Forall_singleton. by left.
  - do 2 (apply Forall_cons; split; [right; eauto|]). constructor.
Qed.

(** An argument the proxy gets: an option and a rule that was checked. *)
Definition proxy_arg_ok (arg : string) : Prop :=
  exists kind check rule, In (kind, check) rule_kinds /\ arg = "--" +:+ kind +:+ "=" +:+ rule /\ check rule = true.

(** A prefix that differs from another within its length leaves nothing to it. *)
Lemma entry_proxy_arg pre e arg :
  pre = "dbus-user." \/ pre = "dbus-system." -> built "HAVE_DBUSPROXY" = true ->
  listed_ok e -> proxy_arg pre e = Some arg -> proxy_arg_ok arg.
Proof.
  intros Hpre Hb Hl. assert (forall q a, has_prefix pre q = false -> has_prefix q pre = false ->
    proxy_arg pre (q +:+ a) = None) as Hclash.
  { intros q a H1 H2. unfold proxy_arg. by rewrite strip_prefix_clash. }
  destruct Hl as [(s & Hs & Hok)%List.existsb_exists|(a & [-> | ->])];
    [|by rewrite Hclash by (destruct Hpre; subst pre; reflexivity)..].
  unfold spec_holds in Hok. destruct s as [p ok]. cbn in Hok.
  destruct (strip_prefix p e) as [a|] eqn:Ep; [|done]. apply strip_prefix_some in Ep as ->.
  unfold entry_specs in Hs.
  repeat destruct Hs as [[= <- <-]|Hs]; try destruct Hs;
    destruct Hpre; subst pre; try (rewrite Hclash by reflexivity; done);
    unfold proxy_check in Hok; rewrite Hb in Hok; intros [= <-]; eexists _, _, a;
    (split; [|split; [reflexivity|exact Hok]]); unfold rule_kinds; repeat first [left; reflexivity | right].
Qed.

(** Every argument written for xdg-dbus-proxy after a profile was read is one of the
    five options with a name or rule that passed the checks of dbus.c. *)
Theorem proxy_args_valid fname c c' pre :
  profile_read fname c = (Ok tt, c') -> profile c = [] -> built "HAVE_DBUSPROXY" = true ->
  pre = "dbus-user." \/ pre = "dbus-system." ->
  Forall proxy_arg_ok (write_profile (profile c') pre).
Proof.
  intros E Hc Hb Hpre. destruct (profile_read_keeps_entries _ _ _ _ E) as (l & El & Hok%appended_listed).
  rewrite Hc in El. cbn in El. rewrite El. unfold write_profile. apply Forall_forall.
  intros arg (e & He & Ha)%list_elem_of_omap. rewrite Forall_forall in Hok. eapply entry_proxy_arg; eauto.
Qed.
End Entries.
