(* ===== verification/ProfileSpecTheorems.v ===== *)
(** * What profile lines and files do

    The functional behaviour: lines of the file system, conditional lines, the
    ignore list, and a file as a whole. *)

From S2P Require Import Prelude.
From S2P Require Import Clib.
From S2P Require Import Keeps.
From S2P Require Import Caps.
From S2P Require Import ProfileList.
From S2P Require Import Install.
From S2P Require Import Env.
From S2P Require Import Text.
From S2P Require Import Common.
From S2P Require Import Util.
From S2P Require Import Checkcfg.
From S2P Require Import Dbus.
From S2P Require Import Macros.
From S2P Require Import ProfileState.
From S2P Require Import ProfileCommands.
From S2P Require Import ProfileLine.
From S2P Require Import ProfileReadTheorems.
From S2P Require Import ProfileEntryTheorems.

(** * Reading profiles ends

    No line and no file makes the model run out of its iteration budgets: every
    loop of the code ends, and includes nest at most 17 deep. *)

(** ** The functions the commands call *)

Lemma cut_text (l : list ascii) : text_at (l ++ [NUL]) 0 (cut l).
Proof.
  unfold text_at. rewrite drop_0. induction l as [|c l [Hn [t Ht]]]; [split; [constructor|by exists []]|].
  cbn [cut]. destruct (Ascii.eqb_spec c NUL) as [->|Hc].
  - split; [constructor|]. by exists (l ++ [NUL]).
  - split; [by constructor|]. exists t. cbn. by rewrite Ht.
Qed.

Lemma augment_ends l i : profile_list_augment l i <> NoFuel.
Proof.
  unfold profile_list_augment. set (s := default "" l +:+ "," +:+ default "" i).
  destruct (compress_ok (buf_of s) _ (cut_text (String.list_ascii_of_string s))) as (b & -> & _ & _).
  cbn [obind]. cbv zeta. by destruct (_ <? _).
Qed.

Lemma seccomp_check_list_ends s : seccomp_check_list s <> NoFuel.
Proof.
  unfold seccomp_check_list. destruct (_ =? _); [done|].
  induction s as [|c s IH]; [done|]. cbn [copy_list]. destruct (seccomp_char c); [|done].
  by destruct (copy_list s).
Qed.

Lemma invalid_filename_ends s g : invalid_filename s g <> NoFuel.
Proof.
  unfold invalid_filename, reject_meta_chars, reject_cntrl_chars.
  destruct (has_cntrl_chars _); [done|]. cbn [obind]. by destruct (strpbrk _ _).
Qed.

Lemma expand_macros_ends h s u f d p : expand_macros h s u f d p <> NoFuel.
Proof.
  unfold expand_macros. destruct (has_prefix _ _); [done|].
  by repeat match goal with |- match ?x with _ => _ end <> _ => destruct x; [done|] end.
Qed.

Lemma check_unsigned_ends s : check_unsigned s <> NoFuel.
Proof.
  induction s as [|c s IH]; [done|]. cbn [check_unsigned].
  destruct (is_blank c); [done|]. by destruct (isdigit c).
Qed.

Lemma extract_timeout_ends s : extract_timeout s <> NoFuel.
Proof.
  unfold extract_timeout. destruct (mbind _ _) as [t|]; [|done]. by destruct (t =? 0).
Qed.

Section Total.
Context `{H : Host} `{CH : CapHeaders}.

Lemma caps_found_total (cb : option (Z -> CM caps_state unit)) n :
  (forall f z, cb = Some f -> total (f z)) -> total (caps_found cb n).
Proof.
  intros Hcb. unfold caps_found. destruct (_ =? _); [apply total_exit|].
  destruct cb as [f|]; [by apply Hcb|apply total_ret].
Qed.

Lemma caps_check_ends l : (caps_check_list (Some l) None (CapsState 0 0)).1 <> NoFuel.
Proof.
  enough (forall start, total (caps_check_loop None start l)) as Hl by (destruct l; [done|apply Hl]).
  pose proof (fun n => caps_found_total None n ltac:(done)) as Hf.
  induction l as [|c l IH]; intros start; cbn [caps_check_loop].
  - destruct (nonempty start); [apply Hf|apply total_ret].
  - destruct (_ || _); [apply IH|]. destruct (Ascii.eqb c ","); [|apply IH].
    apply total_bind; [apply Hf|intros; apply IH].
Qed.
End Total.

#[export] Hint Extern 1 (total (clift _)) => (apply total_lift; first
  [ apply augment_ends | apply seccomp_check_list_ends | apply invalid_filename_ends | apply expand_macros_ends
  | apply check_unsigned_ends | apply extract_timeout_ends | apply caps_check_ends ]) : total.

Lemma in_env_total s o : total (in_env (env_store s o)).
Proof.
  intros c. unfold in_env. rewrite cget_bind.
  assert ((env_store s o (environment c)).1 <> NoFuel) as He.
  { unfold env_store. destruct (negb _); [done|]. by destruct o, (strchr_split "="%char s) as [[]|]. }
  destruct (env_store s o (environment c)) as [r p]. rewrite cmodify_bind. exact He.
Qed.

#[export] Hint Resolve in_env_total : total.

Ltac unfold_stores :=
  unfold get_int, get_str, set_int, set_str, set_null, emit, upd_bridge, profile_add, profile_add_ignore.

Section Lines.
Context `{H : Host} `{CH : CapHeaders}.

Definition command_total (c : command) : Prop := forall a, total (c.2 a).

Lemma rlimit_commands_total : Forall command_total rlimit_commands.
Proof. unfold rlimit_commands. each_command; unfold_commands; unfold_stores; total_tac. Qed.

Lemma run_command_total cmds ptr : Forall command_total cmds -> total (run_command cmds ptr).
Proof.
  induction 1 as [|[t f] cmds Hf _ IH]; simpl; [apply total_exit|].
  destruct (matches t ptr); [apply Hf|exact IH].
Qed.

Lemma commands_total : Forall command_total commands.
Proof.
  unfold commands. rewrite !Forall_app. repeat split.
  - unfold commands_1, sets. each_command; unfold_commands; unfold_callees; unfold_stores; total_tac.
  - unfold commands_2, sets. each_command; unfold cmd_dbus_policy; unfold_commands; unfold_callees; unfold_stores;
      total_tac.
  - unfold commands_3, sets. each_command; try (apply run_command_total, rlimit_commands_total);
      unfold_commands; unfold_callees; unfold_stores; total_tac.
  - unfold path_commands. each_command; unfold_commands; unfold_stores; total_tac.
Qed.

(** A conditional leaves a shorter line. *)
Lemma strip_prefix_shorter p s r : strip_prefix p s = Some r -> String.length s = (String.length p + String.length r)%nat.
Proof. intros ->%strip_prefix_some. apply length_string_app. Qed.

Lemma skip_space_shorter s : (String.length (skip_space s) <= String.length s)%nat.
Proof.
  unfold skip_space. destruct (strip_prefix " " s) as [r|] eqn:E; [|done].
  apply strip_prefix_shorter in E. lia.
Qed.

Lemma find_conditional_shorter conds s check r :
  find_conditional conds s = Some (check, r) -> (String.length r <= String.length s)%nat.
Proof.
  induction conds as [|[n k] conds IH]; [done|]. cbn [find_conditional].
  destruct (strip_prefix n s) as [r'|] eqn:E; [|exact IH].
  intros [= <- <-]. apply strip_prefix_shorter in E. lia.
Qed.

Lemma parse_conditional_shorter s check r :
  parse_conditional s = Some (check, r) -> (String.length r < String.length s)%nat.
Proof.
  unfold parse_conditional. destruct (find_conditional conditionals s) as [[k s1]|] eqn:E1; [|done].
  cbn [mbind option_bind]. destruct (strip_prefix ":" (skip_space s1)) as [s2|] eqn:E2; [|done].
  cbn [mbind option_bind]. destruct (nonempty s2); [|done]. intros [= <- <-].
  apply find_conditional_shorter in E1. apply strip_prefix_shorter in E2. cbn [String.length] in E2.
  pose proof (skip_space_shorter s1). pose proof (skip_space_shorter s2). lia.
Qed.

Lemma check_line_total f ptr : (String.length ptr < f)%nat -> total (check_line f ptr).
Proof.
  revert ptr. induction f as [|f IH]; intros ptr Hf; [lia|]. cbn [check_line].
  destruct (strip_prefix "?" ptr) as [rest|] eqn:Eq.
  - destruct (parse_conditional rest) as [[check p]|] eqn:Ep; [|apply total_exit].
    apply strip_prefix_shorter in Eq. apply parse_conditional_shorter in Ep. cbn [String.length] in Eq.
    apply total_bind; [apply total_get|intros c]. destruct (check c); [|apply total_ret].
    destruct (_ || _); [apply total_exit|]. apply total_bind; [apply IH; lia|intros add].
    apply total_bind; [destruct add; [apply total_modify|apply total_ret]|intros; apply total_ret].
  - apply total_bind; [apply total_get|intros c]. destruct (is_in_ignore_list ptr c); [apply total_ret|].
    apply run_command_total, commands_total.
Qed.

Lemma profile_check_line_total ptr : total (profile_check_line ptr).
Proof. apply check_line_total. lia. Qed.

Lemma add_line_total ptr : total (add_line ptr).
Proof.
  apply total_bind; [apply profile_check_line_total|intros b]. destruct b; [apply total_modify|apply total_ret].
Qed.
End Lines.

(** ** Include levels *)

Definition same_level : relation Config := fun c c' => include_level c' = include_level c.

#[export] Instance same_level_preorder : PreOrder same_level.
Proof. split; unfold same_level; [by intros c|by intros c1 c2 c3 -> ->]. Qed.

#[export] Instance same_level_primitives : Primitives same_level.
Proof.
  split; intros; try exact _; try (apply keeps_modify; done); try done.
  - unfold profile_add_ignore. destruct (negb _); [apply keeps_exit, _|].
    apply keeps_get_bind. intros c. by destruct (_ <=? _).
  - apply keeps_get_bind. intros c. by destruct (env_store s o (environment c)).
Qed.

(** From level [L] the program ends, at level [L'] if it returns. *)
Definition ends (L L' : Z) {A} (m : P A) : Prop :=
  forall w, include_level w = L -> (m w).1 <> NoFuel /\ forall a w', m w = (Ok a, w') -> include_level w' = L'.

Lemma ends_bind L M N {A B} (m : P A) (k : A -> P B) :
  ends L M m -> (forall a, ends M N (k a)) -> ends L N (cbind m k).
Proof.
  intros Hm Hk w Hw. destruct (Hm w Hw) as [H1 H2]. unfold cbind.
  destruct (m w) as [[a|c| |] w']; try done. apply Hk. by eapply H2.
Qed.

Lemma ends_level L {A} (m : P A) : total m -> keeps_ok same_level m -> ends L L m.
Proof.
  intros Ht Hk w Hw. split; [apply Ht|]. intros a w' E. specialize (Hk w a w' E). unfold same_level in Hk. congruence.
Qed.

Lemma ends_ret L {A} (a : A) : ends L L (cret a).
Proof. apply ends_level; [apply total_ret|apply keeps_ok_ret, _]. Qed.

Lemma ends_exit L L' {A} code : ends L L' (A := A) (cexit code).
Proof. by intros w Hw. Qed.

Lemma ends_get L : ends L L cget.
Proof. apply ends_level; [apply total_get|apply keeps_ok_get, _]. Qed.

Lemma ends_modify L (f : Config -> Config) : (forall c, include_level (f c) = include_level c) -> ends L L (cmodify f).
Proof. intros Hf. apply ends_level; [apply total_modify|]. apply keeps_ok_modify. exact Hf. Qed.

Lemma ends_fold L {A B} (f : A -> B -> P B) l b : (forall a b, ends L L (f a b)) -> ends L L (cfold f l b).
Proof.
  intros Hf. revert b. induction l as [|a l IH]; intros b; [apply ends_ret|].
  eapply ends_bind; [apply Hf|intros; apply IH].
Qed.

Section Levels.
Context `{H : Host} `{CH : CapHeaders}.

Lemma add_line_ends L ptr : ends L L (add_line ptr).
Proof.
  apply ends_level; [apply add_line_total|]. unfold add_line, profile_check_line.
  apply keeps_ok_bind; [exact _| |intros []; [by apply keeps_ok_modify|apply keeps_ok_ret, _]].
  apply check_line_keeps_ok; [exact _|apply (commands_keep_ok same_level)|]. intros s. by apply keeps_ok_modify.
Qed.

Lemma expand_ends L p : ends L L (expand p).
Proof.
  apply ends_level; unfold expand; [total_tac|keeps_ok_tac].
Qed.

Section Nested.
Context (L : Z) (read : string -> P unit) (Hread : forall f, ends (L + 1) (L + 1) (read f)).

Lemma profile_find_ends name dir ext : ends (L + 1) (L + 1) (profile_find read name dir ext).
Proof.
  unfold profile_find. cbv zeta. eapply ends_bind; [apply ends_get|intros c].
  destruct (existsb _ _); [|apply ends_ret]. eapply ends_bind; [apply Hread|intros; apply ends_ret].
Qed.

Lemma include_file_ends name : ends L L (include_file read name).
Proof.
  unfold include_file. apply (ends_bind L (L + 1)).
  { intros w Hw. split; [done|]. by intros a w' [= _ <-]; cbn; rewrite Hw. }
  intros _. eapply ends_bind; [apply expand_ends|intros np].
  eapply (ends_bind _ (L + 1)).
  - destruct (string_mem _ np); [apply Hread|]. unfold profile_find_firejail. destruct (built _).
    + eapply ends_bind; [apply profile_find_ends|]. intros []; [apply ends_ret|apply Hread].
    + eapply ends_bind; [eapply ends_bind; [apply profile_find_ends|]|].
      * intros []; [apply ends_ret|apply profile_find_ends].
      * intros []; [apply ends_ret|apply Hread].
  - intros _ w Hw. split; [done|]. intros a w' [= _ <-]. cbn. lia.
Qed.

Lemma profile_buffer_ends buf : ends L L (profile_buffer read buf).
Proof.
  unfold profile_buffer, profile_command, whitelist_ro. cbv zeta.
  destruct (line_remove_spaces _) as [[|x ptr]|]; [apply ends_ret| |apply ends_ret].
  set (p := String x ptr). destruct (strip_prefix "whitelist-ro " p).
  - eapply ends_bind; [by apply ends_modify|intros; by apply ends_modify].
  - eapply ends_bind; [apply ends_get|intros c]. destruct (streq p "quiet").
    + destruct (is_in_ignore_list p c); [by apply ends_modify|].
      destruct (_ =? _); [by apply ends_modify|apply ends_ret].
    + destruct (strip_prefix "include " p); [|apply add_line_ends].
      destruct (is_in_ignore_list p c); [apply add_line_ends|apply include_file_ends].
Qed.
End Nested.

Lemma profile_read_level_ends f L fname : (1 <= f)%nat -> 18 - L <= Z.of_nat f -> ends L L (profile_read_level f fname).
Proof.
  revert L fname. induction f as [|f IH]; intros L fname Hf HL; [lia|]. cbn [profile_read_level].
  intros w Hw. rewrite cget_bind.
  match goal with |- (?m w).1 <> _ /\ _ => assert (ends L L m) as He; [|exact (He w Hw)] end.
  rewrite Hw. destruct (Z.ltb_spec MAX_INCLUDE_LEVEL L) as [|HM]; [apply ends_exit|].
  unfold MAX_INCLUDE_LEVEL in HM. eapply ends_bind.
  { apply ends_level; [apply total_lift, invalid_filename_ends|apply keeps_ok_lift, _]. }
  intros _. cbv zeta. destruct (_ || _); [apply ends_exit|].
  destruct (f_access_r _ fname); [destruct (_ && _); [apply ends_ret|apply ends_exit]|].
  destruct (skipped fname w); [apply ends_ret|]. destruct (f_text _ fname) as [s|]; [|apply ends_exit].
  eapply ends_bind; [destruct (L =? 0); [by apply ends_modify|apply ends_ret]|].
  intros _. apply ends_fold. intros buf _. apply profile_buffer_ends. intros g. apply IH; lia.
Qed.

(** C27: Reading a profile ends, whatever the files hold and however they include each
    other: called at include level 0, as main does, [profile_read] never exhausts the
    iterations of its model, and when it returns the level is 0 again. *)
Theorem profile_read_terminates fname c :
  include_level c = 0 ->
  (profile_read fname c).1 <> NoFuel /\
  forall c', profile_read fname c = (Ok tt, c') -> include_level c' = 0.
Proof.
  intros Hc. destruct (profile_read_level_ends 18 0 fname ltac:(lia) ltac:(lia) c Hc) as [H1 H2].
  split; [exact H1|]. intros c' E. exact (H2 tt c' E).
Qed.
End Levels.

Section Spec.
Context `{H : Host} `{CH : CapHeaders}.

(** ** Lines of the file system *)

Definition path_words : list string :=
  ["blacklist "; "blacklist-nolog "; "noblacklist "; "whitelist "; "nowhitelist "; "read-only "; "read-write ";
   "noexec "; "tmpfs "].

(** The state such a line leaves. *)
Definition path_line_state (w : string) (c : Config) : Config :=
  if streq w "whitelist " then with_ints (<["arg_whitelist" := 1]> (ints c)) c else c.

Lemma dispatch_path w arg : In w path_words ->
  run_command commands (w +:+ arg) = run_command path_commands (w +:+ arg).
Proof. intros Hw. repeat destruct Hw as [<-|Hw]; [reflexivity..|destruct Hw]. Qed.

Lemma cmd_path_spec arg c : cmd_path arg c = (if path_ok arg then Ok true else Exit 1, c).
Proof.
  unfold cmd_path, path_ok, safe_name, no_dots, cbind, clift, invalid_filename, reject_meta_chars, reject_cntrl_chars.
  destruct (has_cntrl_chars _); [done|]. cbn [obind]. destruct (strpbrk _ _); [done|].
  by destruct (contains ".." arg).
Qed.

Lemma run_path_line w arg c : In w path_words ->
  run_command commands (w +:+ arg) c = (if path_ok arg then Ok true else Exit 1, path_line_state w c).
Proof.
  intros Hw. rewrite dispatch_path by done.
  repeat destruct Hw as [<-|Hw]; [..|destruct Hw];
    cbn [run_command path_commands matches strip_prefix String.append]; try exact (cmd_path_spec arg c).
  exact (cmd_path_spec arg (path_line_state "whitelist " c)).
Qed.

Lemma check_plain_line ptr c :
  strip_prefix "?" ptr = None -> is_in_ignore_list ptr c = false ->
  profile_check_line ptr c = run_command commands ptr c.
Proof. intros E Hi. unfold profile_check_line. cbn [check_line]. by rewrite E, cget_bind, Hi. Qed.

(** A line of the file system that is not ignored is kept exactly if its file name
    is acceptable, and else ends the program; it changes nothing, except that
    "whitelist" turns whitelisting on. *)
Theorem path_line_spec w arg c :
  In w path_words -> is_in_ignore_list (w +:+ arg) c = false ->
  profile_check_line (w +:+ arg) c = (if path_ok arg then Ok true else Exit 1, path_line_state w c).
Proof.
  intros Hw Hi. rewrite check_plain_line, run_path_line; try done.
  by repeat destruct Hw as [<-|Hw].
Qed.

(** ** The ignore list *)

(** Once a line is on the ignore list, it and every line it is the beginning of, up
    to the end of a word, has no effect. *)
Theorem ignored_line_skipped s ptr c c' :
  profile_add_ignore s c = (Ok tt, c') -> strip_prefix "?" ptr = None ->
  ptr = s \/ (exists rest, ptr = s +:+ " " +:+ rest) ->
  profile_check_line ptr c' = (Ok false, c').
Proof.
  unfold profile_add_ignore. destruct (negb (nonempty s)); [done|]. rewrite cget_bind.
  destruct (_ <=? _); [done|]. intros [= <-] Eq Hp.
  unfold profile_check_line. cbn [check_line]. rewrite Eq, cget_bind.
  assert (is_in_ignore_list ptr (with_ignore (profile_ignore c ++ [s]) c) = true) as ->; [|done].
  unfold is_in_ignore_list. cbn [profile_ignore with_ignore]. rewrite List.existsb_app. cbn [existsb].
  assert (ignored_by ptr s = true) as ->; [|by rewrite orb_true_r].
  unfold ignored_by. destruct Hp as [->|(rest & ->)].
  - assert (strip_prefix s s = Some "") as ->; [|done]. apply strip_prefix_some. by rewrite append_empty_r.
  - by rewrite (proj2 (strip_prefix_some s (s +:+ " " +:+ rest) (" " +:+ rest)) eq_refl).
Qed.

(** ** Conditional lines *)

Lemma check_line_fuel f g ptr c :
  (String.length ptr < f)%nat -> (String.length ptr < g)%nat -> check_line f ptr c = check_line g ptr c.
Proof.
  revert g ptr c. induction f as [|f IH]; intros g ptr c Hf Hg; [lia|].
  destruct g as [|g]; [lia|]. cbn [check_line].
  destruct (strip_prefix "?" ptr) as [rest|] eqn:Eq; [|done].
  destruct (parse_conditional rest) as [[check p]|] eqn:Ep; [|done].
  apply strip_prefix_shorter in Eq. apply parse_conditional_shorter in Ep. cbn [String.length] in Eq.
  rewrite !cget_bind. destruct (check c); [|done]. destruct (_ || _); [done|].
  apply cbind_same, IH; lia.
Qed.

Lemma parse_conditional_line n check rest :
  In (n, check) conditionals -> parse_conditional (n +:+ ": " +:+ rest) = Some (check, rest).
Proof.
  intros Hin. unfold parse_conditional.
  assert (find_conditional conditionals (n +:+ ": " +:+ rest) = Some (check, ": " +:+ rest)) as ->.
  { unfold conditionals in Hin. repeat destruct Hin as [[= <- <-]|Hin]; [reflexivity..|destruct Hin]. }
  done.
Qed.

(** A conditional line does nothing when its condition does not hold; when it does,
    it does what the line behind the colon does, kept entries included, except that
    "quiet" and "include" end the program. *)
Theorem conditional_line_spec n check rest c :
  In (n, check) conditionals ->
  profile_check_line ("?" +:+ n +:+ ": " +:+ rest) c =
  if check c then
    if has_prefix "quiet" rest || has_prefix "include" rest then (Exit 1, c)
    else (add_line rest ;;; cret false) c
  else (Ok false, c).
Proof.
  intros Hin. unfold profile_check_line. set (ptr := "?" +:+ n +:+ ": " +:+ rest).
  change (check_line (S (String.length ptr)) ptr c) with
    (match parse_conditional (n +:+ ": " +:+ rest) with
     | None => cexit 1
     | Some (check, ptr') =>
         c <~ cget ;;
         if check c then
           if has_prefix "quiet" ptr' || has_prefix "include" ptr' then cexit 1
           else add <~ check_line (String.length ptr) ptr' ;;
                (if (add : bool) then profile_add ptr' else cret tt) ;;; cret false
         else cret false
     end c).
  rewrite (parse_conditional_line n check) by done. rewrite cget_bind.
  destruct (check c); [|done]. destruct (_ || _); [done|].
  unfold add_line. rewrite cbind_assoc. apply cbind_same. unfold profile_check_line. apply check_line_fuel; [|lia].
  unfold ptr. rewrite !length_string_app. cbn [String.length]. lia.
Qed.

(** ** Files *)

(** [profile_read] gets at the text [s] of the file. *)
Definition file_ready (fname s : string) (c : Config) : Prop :=
  include_level c <= MAX_INCLUDE_LEVEL /\ invalid_filename fname false = Ok tt /\ nonempty fname = true /\
  is_dir fname (fs_now c) = false /\ f_access_r (fs_now c) fname = None /\ skipped fname c = false /\
  f_text (fs_now c) fname = Some s.

(** A line that is read as it is: it fits the buffer, has no comment and no blanks
    to remove. *)
Definition clean_line (l : string) : bool :=
  fgets_line MAX_READ l && negb (string_mem "#"%char l) && negb (string_mem NUL l) &&
  bool_decide (line_remove_spaces (line l) = Some l).

(** An entry of the file system, other than "whitelist". *)
Definition plain_path_line (l : string) : Prop :=
  exists w arg, l = w +:+ arg /\ In w path_words /\ w <> "whitelist " /\ path_ok arg = true.

Lemma plain_command read l c : plain_path_line l -> is_in_ignore_list l c = false ->
  profile_command read l c = (Ok tt, with_profile (profile c ++ [l]) c).
Proof.
  intros (w & arg & -> & Hw & Hn & Ha) Hi.
  assert (profile_command read (w +:+ arg) c = add_line (w +:+ arg) c) as ->.
  { unfold profile_command. repeat destruct Hw as [<-|Hw]; [reflexivity..|destruct Hw]. }
  unfold add_line. rewrite (cbind_ok _ _ c true c); [done|].
  rewrite check_plain_line by (done || by repeat destruct Hw as [<-|Hw]).
  rewrite run_path_line, Ha by done. unfold path_line_state.
  assert (streq w "whitelist " = false) as ->; [|done].
  unfold streq. by destruct (String.eqb_spec w "whitelist ").
Qed.

Lemma clean_line_buffer read l : clean_line l = true -> nonempty l = true ->
  profile_buffer read (c_string (line l)) = profile_command read l.
Proof.
  unfold clean_line. intros [[[_ Hh%negb_true_iff]%andb_true_iff Hn%negb_true_iff]%andb_true_iff
    Hs%bool_decide_eq_true]%andb_true_iff Hne.
  rewrite c_string_id by (unfold line; rewrite string_mem_app, Hn; done). unfold profile_buffer.
  assert (strchr_split "#"%char (line l) = None) as ->.
  { apply strchr_split_none. unfold line. rewrite string_mem_app, Hh. done. }
  cbv zeta. rewrite Hs. by destruct l.
Qed.

Lemma path_lines_read read ls c :
  Forall plain_path_line ls -> forallb clean_line ls = true ->
  Forall (fun l => is_in_ignore_list l c = false) ls ->
  cfold (fun buf _ => profile_buffer read buf) (map c_string (map line ls)) tt c =
  (Ok tt, with_profile (profile c ++ ls) c).
Proof.
  intros Hp Hc Hi. revert c Hi. induction Hp as [|l ls Hl _ IH]; intros c Hi.
  - rewrite app_nil_r. by destruct c.
  - cbn [forallb] in Hc. apply andb_true_iff in Hc as [Hcl Hc]. inversion Hi as [|? ? Hil Hils]; subst.
    cbn [map cfold]. rewrite clean_line_buffer; [|done|].
    + rewrite (cbind_ok _ _ _ _ _ (plain_command read l c Hl Hil)).
      rewrite IH by done. cbn. by rewrite <- app_assoc.
    + destruct Hl as (w & arg & -> & Hw & _). by repeat destruct Hw as [<-|Hw].
Qed.

(** A profile of lines of the file system adds them, all and in order, to the list,
    and changes nothing else. *)
Theorem profile_read_path_lines fname ls c :
  file_ready fname (String.concat "" (map line ls)) c ->
  Forall plain_path_line ls -> forallb clean_line ls = true ->
  Forall (fun l => is_in_ignore_list l c = false) ls ->
  profile_read fname c =
  (Ok tt, with_profile (profile c ++ ls)
            (if include_level c =? 0 then with_effects (effects c ++ [Run_file fname]) c else c)).
Proof.
  intros (H1 & H2 & H3 & H4 & H5 & H6 & H7) Hp Hc Hi. unfold profile_read. cbn [profile_read_level].
  rewrite cget_bind, (proj2 (Z.ltb_ge _ _)), H2, clift_ok_bind by done. cbv zeta. rewrite H3, H4. cbn [negb orb].
  rewrite H5, H6, H7, fgets_lines.
  - destruct (include_level c =? 0); [unfold emit; rewrite cmodify_bind|rewrite cret_bind].
    + exact (path_lines_read _ ls (with_effects (effects c ++ [Run_file fname]) c) Hp Hc Hi).
    + exact (path_lines_read _ ls c Hp Hc Hi).
  - apply List.forallb_forall. intros l Hl. rewrite List.forallb_forall in Hc. specialize (Hc l Hl).
    unfold clean_line in Hc. destruct (fgets_line MAX_READ l); done.
Qed.
End Spec.
