(* ===== verification/WhitelistTheorems.v ===== *)
(** * What fs_whitelist mounts

    The top level directories and the files that are kept satisfy an invariant, and
    every mount puts a file back to the place it was taken from. *)

From S2P Require Import Prelude.
From S2P Require Import Clib.
From S2P Require Import Keeps.
From S2P Require Import Env.
From S2P Require Import Text.
From S2P Require Import Common.
From S2P Require Import Mountinfo.
From S2P Require Import Util.
From S2P Require Import Checkcfg.
From S2P Require Import Caps.
From S2P Require Import Macros.
From S2P Require Import ProfileState.
From S2P Require Import ProfileCommands.
From S2P Require Import Sys.
From S2P Require Import SysFiles.
From S2P Require Import Fs.
From S2P Require Import Trace.
From S2P Require Import FsTheorems.
From S2P Require Import FsHome.
From S2P Require Import FsWhitelist.
From S2P Require Import UtilTheorems.
From S2P Require Import ProfileSpecTheorems.

(** ** Relative paths *)

Lemma relative_spec top path rel : relative top path = Some rel <-> path = top +:+ String "/" rel.
Proof.
  unfold relative. split.
  - destruct (strip_prefix top path) as [[|c r]|] eqn:E; try done. apply strip_prefix_some in E as ->.
    destruct (Ascii.eqb_spec c "/") as [->|]; [by intros [= ->]|done].
  - intros ->. by rewrite (proj2 (strip_prefix_some top _ _) eq_refl).
Qed.

Lemma contained_relative top path : Mountinfo.contained top path = true <-> exists rel, relative top path = Some rel.
Proof.
  unfold Mountinfo.contained, relative. destruct (strip_prefix top path) as [[|c r]|]; [by split; [|intros [? ?]]| |by split; [|intros [? ?]]].
  destruct (Ascii.eqb c "/"); split; try done; eauto. by intros [? ?].
Qed.

Lemma strchr_split_some c s l r : strchr_split c s = Some (l, r) -> s = l +:+ String c r.
Proof.
  revert l. induction s as [|a s IH]; intros l; cbn [strchr_split]; [done|].
  destruct (Ascii.eqb_spec a c) as [->|]; [by intros [= <- <-]|].
  destruct (strchr_split c s) as [[l' r']|]; [|done]. intros [= <- <-]. by rewrite (IH l' eq_refl).
Qed.

Section Whitelist.
Context `{H : Host} `{CH : CapHeaders} `{K : Kernel}.

(** What extract_topdir cuts off a path leads to the path. *)
Lemma extract_topdir_relative path dir : extract_topdir path = Ok dir -> exists rel, relative dir path = Some rel.
Proof.
  unfold extract_topdir. destruct (Mountinfo.contained homedir path) eqn:E1; [intros [= <-]; by apply contained_relative|].
  destruct (Mountinfo.contained runuser path) eqn:E2; [intros [= <-]; by apply contained_relative|].
  destruct (Mountinfo.contained "/sys/module" path) eqn:E3; [intros [= <-]; by apply contained_relative|].
  destruct (strip_prefix "/usr/" path) as [r|] eqn:E4.
  - apply strip_prefix_some in E4 as ->. destruct (strchr_split "/" r) as [[l q]|] eqn:E; [|done]. intros [= <-].
    apply strchr_split_some in E as ->. exists q. apply relative_spec. by rewrite append_assoc.
  - destruct path as [|c r]; [done|]. destruct (Ascii.eqb_spec c "/") as [->|]; [|done].
    destruct (strchr_split "/" r) as [[l q]|] eqn:E; [|done]. intros [= <-].
    apply strchr_split_some in E as ->. exists q. by apply relative_spec.
Qed.

(** ** The invariant of the first loop *)

(** A top level directory: not one of those that are never replaced, not one the
    administrator rejects, and opened without following a link. *)
Definition top_ok (t : TopDir) : Prop :=
  ~ In (td_path t) ["/"; "/proc"; "/sys"] /\ ~ In (td_path t) (default [] (reject_topdirs conf)) /\
  exists l, reached_dir l (-1) (td_path t) (td_fd t).

(** The parameters of a line: a directory of the array, a file outside
    /run/firejail, and a link, if there is one, inside the directory. *)
Definition wparam_ok (tops : list TopDir) (w : wparam) : Prop :=
  In (wp_top w) tops /\ has_prefix RUN_FIREJAIL_DIR (wp_file w) = false /\
  forall link, wp_link w = Some link -> exists rel, relative (td_path (wp_top w)) link = Some rel.

Record wl_ok (st : wl_state) : Prop := {
  wl_tops : Forall top_ok (topdirs st);
  wl_distinct : NoDup (map td_path (topdirs st));
  wl_bound : Z.of_nat (length (topdirs st)) <= TOP_MAX;
  wl_params : Forall (wparam_ok (topdirs st)) (wparams st)
}.

(** One state extends another: directories are only added. *)
Definition grows (st st' : wl_state) : Prop := incl (topdirs st) (topdirs st').

Lemma have_topdir_spec dir tops :
  match have_topdir dir tops with
  | Some t => In t tops /\ td_path t = dir
  | None => ~ In dir (map td_path tops)
  end.
Proof.
  unfold have_topdir. destruct (List.find _ tops) as [t|] eqn:E.
  - apply List.find_some in E as [Hin Ht]. split; [done|]. unfold streq in Ht. by apply String.eqb_eq in Ht.
  - intros Hin. apply in_map_iff in Hin as (t & <- & Ht). apply (List.find_none _ _ E) in Ht.
    unfold streq in Ht. by rewrite String.eqb_refl in Ht.
Qed.

Lemma reject_topdir_spec dir : reject_topdir dir = false -> ~ In dir (default [] (reject_topdirs conf)).
Proof.
  unfold reject_topdir. destruct (reject_topdirs conf) as [l|]; cbn; [|tauto]. intros E Hin.
  assert (existsb (streq dir) l = true) as Ht; [|by rewrite Ht in E].
  apply existsb_exists. exists dir. split; [done|]. unfold streq. by rewrite String.eqb_refl.
Qed.

Lemma add_topdir_ok dir tops :
  results (fun t => forall top, t = Some top ->
    td_path top = dir /\ top_ok top /\ Z.of_nat (length tops) < TOP_MAX) (add_topdir dir tops).
Proof.
  unfold add_topdir. apply (results_bind _ (fun _ => True)); [done|]. intros _ _.
  unfold exit_unless at 1. destruct (existsb (streq dir) _) eqn:Ex; [apply results_bind with (P := fun _ => False); [done|tauto]|].
  apply (results_bind _ (fun _ => True)); [done|]. intros _ _. apply (results_bind _ (fun _ => True)); [done|]. intros p _.
  destruct (_ && _); [by apply results_ret|].
  apply (results_bind _ (fun _ => True)); [done|]. intros [s|] _; [|by apply results_ret].
  destruct (negb (st_isdir s)); [destruct (st_islnk s); [by apply results_ret|apply results_exit]|].
  destruct (reject_topdir dir) eqn:Er; [by apply results_ret|].
  unfold exit_unless. destruct (Z.ltb_spec (Z.of_nat (length tops)) TOP_MAX) as [Hl|]; [|apply results_bind with (P := fun _ => False); [done|tauto]].
  apply (results_bind _ (fun _ => True)); [done|]. intros _ _ c o c'. unfold cbind.
  destruct (safer_openat (-1) dir O_DIR c) as [[[fd|]| | |] c1] eqn:E; try done. intros [= <- <-] top [= <-].
  pose proof (reads_ok _ _ _ _ (reads_safer_openat _ _ _) E) as ->. split; [done|]. split; [|done].
  split; [|split; [by apply reject_topdir_spec|]].
  2: { exists (effects c). by apply (safer_openat_reached_dir (-1) dir O_DIR c fd c). }
  cbn [td_path]. intros Hin.
  assert (existsb (streq dir) ["/"; "/proc"; "/sys"] = true) as Ht; [|by rewrite Ht in Ex].
  apply existsb_exists. exists dir. split; [done|]. unfold streq. by rewrite String.eqb_refl.
Qed.

Lemma wparam_ok_mono tops tops' w : incl tops tops' -> wparam_ok tops w -> wparam_ok tops' w.
Proof. intros Hi (H1 & H2). split; [by apply Hi|done]. Qed.

Lemma find_topdir_ok dir st : wl_ok st ->
  results (fun r => wl_ok r.1 /\ forall top, r.2 = Some top -> In top (topdirs r.1) /\ td_path top = dir) (find_topdir dir st).
Proof.
  intros [W1 W2 W3 W4]. unfold find_topdir. pose proof (have_topdir_spec dir (topdirs st)) as Hh.
  destruct (have_topdir dir (topdirs st)) as [t|].
  - apply results_ret. split; [done|]. by intros top [= <-].
  - eapply results_bind; [apply add_topdir_ok|]. intros [top|] Ht; apply results_ret; [|done].
    destruct (Ht top eq_refl) as (Hp & Hok & Hlt). cbn [fst snd topdirs with_topdirs]. split.
    + constructor; cbn [topdirs with_topdirs wparams].
      * apply Forall_app. auto.
      * rewrite map_app. apply NoDup_app. split; [done|]. split; [|repeat constructor; set_solver].
        intros x Hx Hin. cbn in Hin. apply list_elem_of_singleton in Hin as ->. apply Hh. rewrite <- Hp. by apply list_elem_of_In.
      * rewrite length_app. cbn [length]. lia.
      * eapply Forall_impl; [exact W4|]. intros w. apply wparam_ok_mono. apply incl_appl, incl_refl.
    + intros t [= <-]. split; [apply in_or_app; right; by left|done].
Qed.

Lemma resolved_path_ok nowl new_name top st : wl_ok st ->
  (forall t, top = Some t -> In t (topdirs st) /\ exists rel, relative (td_path t) new_name = Some rel) ->
  results wl_ok (resolved_path nowl new_name top st).
Proof.
  intros Hw Ht. unfold resolved_path. destruct (has_prefix _ new_name); [by apply results_ret|].
  apply (results_bind _ (fun _ => True)); [done|]. intros c _.
  destruct (resolve new_name (fs_now c)) as [fname|].
  - destruct (has_prefix _ fname) eqn:Ef; [by apply results_ret|].
    destruct Hw as [W1 W2 W3 W4].
    destruct nowl; [by apply results_ret|]. destruct (existsb _ _); [by apply results_ret|].
    destruct top as [t|]; [|apply results_fail]. apply results_ret. destruct (Ht t eq_refl) as [Hin Hr].
    constructor; try done. cbn [wparams with_wparams topdirs]. apply Forall_app. split; [done|].
    constructor; [|constructor]. split; [done|]. split; [done|]. cbn [wp_link wp_top]. intros link El.
    destruct (is_link _ _); [|done]. by injection El as <-.
  - apply (results_bind _ (fun _ => True)); [done|]. intros _ _. by apply results_ret.
Qed.

Lemma whitelist_entry_ok data st : wl_ok st -> results wl_ok (whitelist_entry data st).
Proof.
  intros Hw. assert (forall nowl ptr, results wl_ok (whitelist_path nowl ptr st)) as Hp.
  { intros nowl ptr. unfold whitelist_path. apply (results_bind _ (fun _ => True)); [done|]. intros e _.
    destruct (_ && _).
    { destruct nowl; [by apply results_ret|]. eapply results_bind; [by apply find_topdir_ok|]. intros r [Hr _]. by apply results_ret. }
    apply (results_bind _ (fun _ => True)); [done|]. intros _ _. apply (results_bind _ (fun _ => True)); [done|]. intros n _.
    apply (results_bind _ (fun _ => True)); [done|]. intros _ _. destruct nowl; [by apply resolved_path_ok|].
    eapply (results_bind _ (fun d => extract_topdir n = Ok d)); [by apply results_lift|]. intros d Hd.
    eapply results_bind; [by apply find_topdir_ok|]. intros r [Hr1 Hr2].
    destruct r.2 as [top|]; [|by apply results_ret]. apply resolved_path_ok; [done|]. intros t [= <-].
    destruct (Hr2 _ eq_refl) as [Hin Htp]. split; [done|]. rewrite Htp. by apply extract_topdir_relative. }
  unfold whitelist_entry. destruct (strip_prefix _ data); [apply Hp|]. destruct (strip_prefix _ data); [apply Hp|by apply results_ret].
Qed.

Lemma loop_keeps_ok fuel i st c st' c' : wl_ok st ->
  whitelist_loop fuel i st c = (Ok st', c') -> wl_ok st'.
Proof.
  revert i st c. induction fuel as [|f IH]; intros i st c Hw; cbn [whitelist_loop]; [done|].
  rewrite cget_bind. destruct (profile c !! i) as [data|]; [|by intros [= <- _]].
  intros E. apply cbind_inv in E as (st1 & c1 & E1 & E). eapply IH; [|exact E].
  by eapply whitelist_entry_ok.
Qed.

(** The array of top level directories never overflows and holds no directory twice;
    none of them is /, /proc, /sys or one the administrator rejects, and each was
    opened without following a link.  A file that will be mounted back is outside
    /run/firejail, and a link lies in the directory it will be made in, so that the
    assertion of whitelist_symlink holds. *)
Theorem whitelist_loop_ok fuel i st c st' c' : wl_ok st ->
  whitelist_loop fuel i st c = (Ok st', c') -> wl_ok st'.
Proof. apply loop_keeps_ok. Qed.

Lemma wl_start : wl_ok (mk_wl [] [] []).
Proof. constructor; constructor || done. Qed.

(** ** nowhitelist *)

(** What a later line can do to the state: the array of nowhitelist paths grows, and
    files are added that are not in it. *)
Definition respects (st st' : wl_state) : Prop :=
  incl (nowhitelist st) (nowhitelist st') /\
  exists new, wparams st' = wparams st ++ new /\ Forall (fun w => ~ In (wp_file w) (nowhitelist st)) new.

#[export] Instance respects_preorder : PreOrder respects.
Proof.
  split.
  - intros st. split; [apply incl_refl|]. exists []. by rewrite app_nil_r.
  - intros s1 s2 s3 [I1 (n1 & E1 & F1)] [I2 (n2 & E2 & F2)]. split; [by eapply incl_tran|].
    exists (n1 ++ n2). rewrite E2, E1, app_assoc. split; [done|]. apply Forall_app. split; [done|].
    eapply Forall_impl; [exact F2|]. intros w Hw Hin. by apply Hw, I1.
Qed.

Lemma respects_same st st' : nowhitelist st' = nowhitelist st -> wparams st' = wparams st -> respects st st'.
Proof. intros En Ew. split; [rewrite En; apply incl_refl|]. exists []. by rewrite app_nil_r. Qed.

Lemma find_topdir_respects dir st : results (fun r => respects st r.1) (find_topdir dir st).
Proof.
  unfold find_topdir. destruct (have_topdir _ _); [apply results_ret; by apply respects_same|].
  apply (results_bind _ (fun _ => True)); [done|]. intros [t|] _; apply results_ret; by apply respects_same.
Qed.

Lemma not_listed fname l : existsb (fun n => streq n fname) l = false -> ~ In fname l.
Proof.
  intros E Hin. assert (existsb (fun n => streq n fname) l = true) as Ht; [|by rewrite Ht in E].
  apply existsb_exists. exists fname. split; [done|]. unfold streq. by rewrite String.eqb_refl.
Qed.

Lemma resolved_path_respects nowl new_name top st : results (respects st) (resolved_path nowl new_name top st).
Proof.
  unfold resolved_path. destruct (has_prefix _ new_name); [by apply results_ret|].
  apply (results_bind _ (fun _ => True)); [done|]. intros c _.
  destruct (resolve new_name (fs_now c)) as [fname|].
  - destruct (has_prefix _ fname); [by apply results_ret|].
    destruct nowl; [apply results_ret; split; [by apply incl_appl, incl_refl|exists []; by rewrite app_nil_r]|].
    destruct (existsb _ _) eqn:Ex; [by apply results_ret|]. destruct top; [|apply results_fail].
    apply results_ret. split; [apply incl_refl|]. eexists [_]. split; [reflexivity|].
    constructor; [|constructor]. by apply not_listed.
  - apply (results_bind _ (fun _ => True)); [done|]. intros _ _. by apply results_ret.
Qed.

Lemma whitelist_path_respects nowl ptr st : results (respects st) (whitelist_path nowl ptr st).
Proof.
  unfold whitelist_path. apply (results_bind _ (fun _ => True)); [done|]. intros e _.
  destruct (_ && _).
  { destruct nowl; [by apply results_ret|]. eapply results_bind; [apply find_topdir_respects|].
    intros r Hr. by apply results_ret. }
  apply (results_bind _ (fun _ => True)); [done|]. intros _ _. apply (results_bind _ (fun _ => True)); [done|]. intros n _.
  apply (results_bind _ (fun _ => True)); [done|]. intros _ _. destruct nowl; [apply resolved_path_respects|].
  apply (results_bind _ (fun _ => True)); [done|]. intros d _.
  eapply results_bind; [apply find_topdir_respects|]. intros r Hr. destruct r.2 as [top|]; [|by apply results_ret].
  intros c st' c' E. etrans; [exact Hr|]. by eapply resolved_path_respects.
Qed.

Lemma whitelist_loop_respects fuel i st c st' c' : whitelist_loop fuel i st c = (Ok st', c') -> respects st st'.
Proof.
  revert i st c. induction fuel as [|f IH]; intros i st c; cbn [whitelist_loop]; [done|].
  rewrite cget_bind. destruct (profile c !! i) as [data|]; [|by intros [= <- _]].
  intros E. apply cbind_inv in E as (st1 & c1 & E1 & E). etrans; [|eapply IH, E].
  revert E1. unfold whitelist_entry. destruct (strip_prefix _ data); [apply whitelist_path_respects|].
  destruct (strip_prefix _ data); [apply whitelist_path_respects|by intros [= <- _]].
Qed.

(** A nowhitelist line takes effect for all lines behind it, those included that
    globbing adds: the file its path leads to is not mounted back. *)
Theorem nowhitelist_respected fuel i x e n f st c st' c' :
  profile c !! i = Some ("nowhitelist " +:+ x) ->
  expand x c = (Ok e, c) -> is_macro e = false -> clean_pathname e = Ok n -> Text.contains ".." n = false ->
  resolve n (fs_now c) = Some f -> has_prefix RUN_FIREJAIL_DIR n = false -> has_prefix RUN_FIREJAIL_DIR f = false ->
  whitelist_loop (S fuel) i st c = (Ok st', c') ->
  In f (nowhitelist st') /\
  exists new, wparams st' = wparams st ++ new /\ Forall (fun w => wp_file w <> f) new.
Proof.
  intros Hi He Hm Hn Hd Hr H1 H2. cbn [whitelist_loop]. rewrite cget_bind, Hi.
  unfold whitelist_entry. change (strip_prefix "whitelist " ("nowhitelist " +:+ x)) with (@None string).
  change (strip_prefix "nowhitelist " ("nowhitelist " +:+ x)) with (Some x). cbn iota.
  rewrite (cbind_ok _ _ _ (with_nowhitelist (nowhitelist st ++ [f]) st) c).
  - intros E. apply whitelist_loop_respects in E as [Hi2 (new & En & Hf)]. split.
    + apply Hi2, in_or_app. right. by left.
    + exists new. split; [exact En|]. eapply Forall_impl; [exact Hf|]. cbn beta. intros w Hw Hx. apply Hw.
      rewrite Hx. apply in_or_app. right. by left.
  - unfold whitelist_path. rewrite (cbind_ok _ _ _ _ _ He), Hm. cbn [andb].
    assert (has_prefix "/" e = true) as -> by (unfold clean_pathname in Hn; by destruct (has_prefix "/" e)).
    unfold exit_unless. rewrite cret_bind, Hn, clift_ok_bind, Hd. cbn [negb]. rewrite cret_bind.
    unfold resolved_path. rewrite H1, cget_bind, Hr, H2. done.
Qed.
End Whitelist.

(** * Where fs_whitelist mounts files

    The mounts of fs_whitelist and fs_private, and who makes the mount targets. *)

Section Mounts.
Context `{H : Host} `{CH : CapHeaders} `{K : Kernel}.

Lemma strrchr_both a s :
  match strrchr_before a s, strrchr_after a s with
  | Some dir, Some base => s = dir +:+ String a base /\ string_mem a base = false
  | None, None => string_mem a s = false
  | _, _ => False
  end.
Proof.
  induction s as [|b s IH]; [done|]. cbn [strrchr_before strrchr_after string_mem].
  destruct (strrchr_before a s) as [dir|], (strrchr_after a s) as [base|]; try done.
  - destruct IH as [-> Hb]. done.
  - destruct (Ascii.eqb_spec b a) as [->|]; [done|]. by rewrite IH.
Qed.

(** The number of the mount a descriptor belongs to. *)
Definition mount_of (l : list effect) (fd : Z) : Z := Mountinfo.get_mount_id (mount_handle l fd) (fdinfo l fd).

(** From the directory [d], with [l] done so far, along [names] to [d']: each directory is
    made if it is not there, then entered, not through a link, and it belongs to the
    mount [id]. *)
Inductive made (id : Z) : list effect -> Z -> list string -> list effect -> Z -> Prop :=
| made_here l d : made id l d [] l d
| made_below l d name fd names l' d' :
    let l1 := l ++ [Call "mkdirat" d [name; "0755"]] in
    entered l1 d name fd -> mount_of l1 fd = id -> made id l1 fd names l' d' -> made id l d (name :: names) l' d'.

(** The last name of a path, and the directories in front of it. *)
Definition path_split (path : string) (names : list string) (base : string) : Prop :=
  string_mem "/"%char base = false /\
  (path = base /\ names = [] \/ exists dir, path = dir +:+ String "/" base /\ names = strtok "/"%char dir).

(** The target of a mount: a directory, made if it is not there, or a new file. *)
Definition target (l : list effect) (d : Z) (base : string) (isdir : bool) (l' : list effect) (fd : Z) : Prop :=
  if isdir then l' = l ++ [Call "mkdirat" d [base; "0755"]] /\ entered l' d base fd
  else l' = l ++ [Call "openat" d [base; "O_RDONLY|O_CREAT|O_EXCL|O_CLOEXEC"]] /\ sys_errno l' = 0 /\ sys_created l' = fd.

(** The file at [relpath] below a top level directory, reached without links from
    the descriptor opened before the tmpfs was mounted, goes to the same [relpath]
    below the directory of that name, made component by component on one mount. *)
Definition from_top (l : list effect) (fd fd3 : Z) : Prop :=
  exists top relpath l0 s l1 d names base l2 fd2 l3,
    top_ok top /\ not_root l0 /\ reached l0 (td_fd top) relpath fd /\ sys_fstat l0 fd = inl s /\ st_islnk s = false /\
    reached_dir l1 (-1) (td_path top) d /\ 0 <= mount_of l1 d /\ path_split relpath names base /\
    made (mount_of l1 d) l1 d names l2 fd2 /\ target l2 fd2 base (st_isdir s) l3 fd3 /\ l = l3 ++ [Seteuid 0].

(** A tmpfs goes on a top level directory or a directory of the user. *)
Definition tmpfs_at (l : list effect) (fd : Z) : Prop :=
  exists l0 dir, not_root l0 /\ reached_dir l0 (-1) dir fd /\ l = l0 ++ [Seteuid 0] /\
    (dir = homedir \/ dir = runuser \/ exists top, top_ok top /\ td_path top = dir).

Definition confined (l : list effect) (e : effect) : Prop :=
  match e with
  | Mount (Of fd) (Of fd3) _ _ _ => from_top l fd fd3
  | Mount (At src) (Of fd) _ _ _ => src = "tmpfs" /\ tmpfs_at l fd
  | Mount (Of fd) (At dst) _ _ _ =>
      dst = RUN_FIREJAIL_DIR /\ exists l0, sys_open l0 (flags [O_PATH; O_CLOEXEC]) RUN_FIREJAIL_DIR = Some fd
  | Mount (At src) (At dst) _ _ _ => src = "tmpfs" /\ (dst = "/root" \/ dst = "/home")
  | Mount _ _ _ _ _ => False
  | _ => True
  end.

#[local] Notation R := (emits confined).

Lemma did_confined e c : confined (effects c) e -> R c (did e c).
Proof. apply (emits_one _ e c). Qed.

Lemma fs_tmpfs_confined dir owned c :
  (dir = homedir \/ dir = runuser \/ exists top, top_ok top /\ td_path top = dir) -> kept_at R (fs_tmpfs dir owned) c.
Proof.
  intros Hd. unfold fs_tmpfs, mount, EUID_ROOT, EUID_USER. at_step.
  match goal with E : EUID_ASSERT c = _ |- _ => apply euid_assert_not_root in E end. at_step. destruct a0 as [fd|]; [|at_tac].
  at_step. destruct a0; [|at_tac]. destruct (_ && _); [at_tac|]. do 2 at_step. destruct a0; [|at_tac].
  at_tac; try by apply did_confined. apply did_confined. cbn [confined effects did with_effects].
  split; [done|]. exists (effects c), dir. split; [done|]. split; [by eapply safer_openat_reached_dir; [|eassumption]|done].
Qed.

Ltac plain_tac := at_tac; try (apply did_confined; exact I).

Lemma relabel_confined a b c : kept_at R (selinux_relabel_path a b) c.
Proof. unfold selinux_relabel_path. plain_tac. Qed.
Lemma EUID_ROOT_confined c : kept_at R EUID_ROOT c.
Proof. unfold EUID_ROOT. plain_tac. Qed.
Lemma EUID_USER_confined c : kept_at R EUID_USER c.
Proof. unfold EUID_USER. plain_tac. Qed.
Lemma mkdir_attr_confined f m u g c : kept_at R (mkdir_attr f m u g) c.
Proof. unfold mkdir_attr. plain_tac. Qed.
Lemma call_confined f pid args c : kept_at R (do_call (Call f pid args)) c.
Proof. unfold do_call. plain_tac. Qed.
#[local] Hint Resolve relabel_confined EUID_ROOT_confined EUID_USER_confined mkdir_attr_confined call_confined
  fs_tmpfs_confined : kept_at.

(** Sequences of programs that keep [R] wherever they start. *)
Ltac seq_tac :=
  repeat match goal with
  | |- kept_at _ (cbind _ _) _ => apply kept_at_bind; [exact _| |intros ? ? _]
  | |- kept_at _ (match ?x with _ => _ end) _ => destruct x eqn:?
  | |- kept_at _ _ _ => solve [eauto with kept_at typeclass_instances]
  | |- kept_at _ _ _ => apply kept_at_reads; [exact _|solve [eauto with reads]]
  end.

Lemma mkdirat_confined dirfd name c : kept_at R (mkdirat dirfd name) c.
Proof. unfold mkdirat. seq_tac. Qed.
#[local] Hint Resolve mkdirat_confined : kept_at.

Lemma mkpath_walk_confined id fd toks c : kept_at R (mkpath_walk id fd toks) c.
Proof.
  revert fd c. induction toks as [|t toks IH]; intros fd c; cbn [mkpath_walk]; unfold openat; seq_tac.
Qed.
#[local] Hint Resolve mkpath_walk_confined : kept_at.

Lemma whitelist_mkpath_confined dir rel c : kept_at R (whitelist_mkpath dir rel) c.
Proof. unfold whitelist_mkpath. cbv zeta. seq_tac. Qed.
Lemma create_as_root_confined top c : kept_at R (create_as_root top) c.
Proof. unfold create_as_root. seq_tac. Qed.
Lemma mount_target_confined fd f d c : kept_at R (mount_target fd f d) c.
Proof. unfold mount_target, openat. seq_tac. Qed.
#[local] Hint Resolve whitelist_mkpath_confined create_as_root_confined mount_target_confined : kept_at.

Lemma mkpath_walk_made id toks d c fd c' : mkpath_walk id d toks c = (Ok (Some fd), c') ->
  made id (effects c) d toks (effects c') fd.
Proof.
  revert d c. induction toks as [|tok toks IH]; intros d c; cbn [mkpath_walk]; [intros [= -> <-]; constructor|].
  intros (ok & c1 & E1 & E)%cbind_inv. destruct ok; [|done]. cbn [negb] in E.
  unfold mkdirat in E1. apply cbind_inv in E1 as (r & c2 & [= <- <-] & E1). injection E1 as _ <-.
  apply cbind_inv in E as (o & c2 & [= Eo <-] & E). destruct o as [d'|]; [|done].
  apply cbind_inv in E as (id' & c2 & [= Eid <-] & E). destruct (Z.eqb_spec id' id) as [->|]; [|done].
  eapply made_below; [exists O_DIR; split; [|split; [|exact Eo]]; reflexivity|exact Eid|]. by apply (IH d') in E.
Qed.

Lemma whitelist_mkpath_made top relpath c fd2 c' : whitelist_mkpath top relpath c = (Ok (Some fd2), c') ->
  exists d names, reached_dir (effects c) (-1) top d /\ 0 <= mount_of (effects c) d /\
    path_split relpath names (gnu_basename relpath) /\ made (mount_of (effects c) d) (effects c) d names (effects c') fd2.
Proof.
  unfold whitelist_mkpath. intros (o & c1 & E1 & E)%cbind_inv. pose proof (reads_ok _ _ _ _ (reads_safer_openat _ _ _) E1) as ->.
  destruct o as [d|]; [|done]. apply safer_openat_reached_dir in E1; [|reflexivity].
  apply cbind_inv in E as (id & c1 & [= Eid <-] & E). change (mount_of (effects c) d = id) in Eid.
  destruct (Z.ltb_spec id 0) as [|Hid]; [done|]. exists d. pose proof (strrchr_both "/"%char relpath) as Hs.
  unfold path_split, gnu_basename. destruct (strrchr_before "/"%char relpath) as [dir|], (strrchr_after "/"%char relpath) as [b|]; try done.
  - destruct Hs as [Hr Hb]. apply cbind_inv in E as ([] & c1 & E2 & E). pose proof (reads_ok _ _ _ _ (reads_assert _) E2) as ->.
    exists (strtok "/"%char dir). rewrite Eid. split; [done|]. split; [done|]. split; [split; [done|]; right; by exists dir|].
    by apply mkpath_walk_made.
  - injection E as -> <-. exists []. rewrite Eid. split; [done|]. split; [done|]. split; [by split; [|left]|]. constructor.
Qed.

Lemma mount_target_made fd2 base isdir c fd3 c' : mount_target fd2 base isdir c = (Ok (Some fd3), c') ->
  target (effects c) fd2 base isdir (effects c') fd3.
Proof.
  unfold mount_target, target. destruct isdir.
  - intros (ok & c1 & E1 & E)%cbind_inv. destruct ok; [|done]. cbn [negb] in E. unfold openat, ask in E. rewrite cget_bind in E.
    injection E as E <-. unfold mkdirat in E1. apply cbind_inv in E1 as (r & c2 & [= <- <-] & E1). injection E1 as _ <-.
    split; [done|]. exists O_DIR. by split; [|split].
  - intros (r & c1 & [= <- <-] & E)%cbind_inv. destruct (Z.eqb_spec (sys_errno (effects c ++ [Call "openat" fd2 [base; "O_RDONLY|O_CREAT|O_EXCL|O_CLOEXEC"]])) 0) as [Hr|]; [|done].
    by injection E as <- <-.
Qed.

Lemma whitelist_file_confined top path c : top_ok top -> kept_at R (whitelist_file top path) c.
Proof.
  intros Ht. unfold whitelist_file. at_step. match goal with E : EUID_ASSERT c = _ |- _ => apply euid_assert_not_root in E end.
  destruct (relative _ path) as [relpath|] eqn:Er; [|at_tac].
  apply kept_at_reads_bind; [exact _|eauto with reads|]. intros [fd|] Eo; [|at_tac].
  apply kept_at_reads_bind; [exact _|eauto with reads|]. intros [s|e] Es; [injection Es as Es|at_tac].
  destruct (st_islnk s) eqn:El; [at_tac|].
  apply kept_at_bind; [exact _|eauto with kept_at|]. intros _ c1 _.
  apply kept_at_bind; [exact _|eauto with kept_at|]. intros [fd2|] c2 E2; [|eauto with kept_at].
  apply kept_at_bind; [exact _|eauto with kept_at|]. intros [fd3|] c3 E3; [|eauto with kept_at].
  unfold whitelist_mount, bind_mount_by_fd, mount, EUID_ROOT. at_step; [by apply did_confined|]. at_step.
  - apply did_confined. cbn [confined effects did with_effects].
    apply whitelist_mkpath_made in E2 as (d & names & Hd & Hid & Hsp & Hm). apply mount_target_made in E3.
    exists top, relpath, (effects c), s, (effects c1), d, names, (gnu_basename relpath), (effects c2), fd2, (effects c3).
    split; [done|]. split; [done|]. split; [by eapply safer_openat_reached|]. done.
  - at_step. apply kept_at_bind; [exact _|eauto with kept_at|intros; at_tac].
Qed.

Lemma whitelist_symlink_confined top link target c : kept_at R (whitelist_symlink top link target) c.
Proof. unfold whitelist_symlink. seq_tac. Qed.
#[local] Hint Resolve whitelist_file_confined whitelist_symlink_confined : kept_at.

Lemma store_file_confined src dest mode c : kept_at R (store_file src dest mode) c.
Proof. unfold store_file, write_file, set_perms_stream, copy_file_as_user, or_exit. seq_tac; plain_tac. Qed.
#[local] Hint Resolve store_file_confined : kept_at.
Lemma copy_stored_confined src name c : kept_at R (copy_stored src name) c.
Proof. unfold copy_stored, copy_file_as_user. seq_tac; plain_tac. Qed.
Lemma skel_file_confined d rc t c : kept_at R (skel_file d rc t) c.
Proof. unfold skel_file, copy_file_as_user, touch_file_as_user. seq_tac; plain_tac. Qed.
#[local] Hint Resolve copy_stored_confined skel_file_confined : kept_at.
Lemma restore_files_confined d x a c : kept_at R (restore_files d x a) c.
Proof.
  unfold restore_files, skel, disable_tab_completion, write_file, fopen, or_exit, copy_xauthority, copy_asoundrc. seq_tac.
Qed.
Lemma mkpath_loop_confined pre l c : kept_at R (mkpath_loop pre l) c.
Proof.
  revert pre c. induction l as [|x l IH]; intros pre c; [at_tac|].
  destruct l as [|y l]; [at_tac|]. remember (y :: l) as l' eqn:El. cbn [mkpath_loop]. rewrite El, <- El.
  unfold set_perms, or_exit. cbv zeta. seq_tac; apply IH.
Qed.
#[local] Hint Resolve restore_files_confined mkpath_loop_confined : kept_at.

Lemma fs_private_confined c : kept_at R fs_private c.
Proof.
  unfold fs_private, store_xauthority, store_asoundrc, mask_root, mount_tmpfs, make_home, mkpath_as_root, or_exit.
  seq_tac; unfold mount, do_call; try (at_tac; apply did_confined; cbn; auto).
Qed.
#[local] Hint Resolve fs_private_confined : kept_at.

(** ** The whole of fs_whitelist *)

Lemma pam_tmpdir_confined c : kept_at R pam_tmpdir c.
Proof. unfold pam_tmpdir. cbv zeta. seq_tac. Qed.
#[local] Hint Resolve pam_tmpdir_confined : kept_at.

Lemma tmpfs_topdir_confined top c : top_ok top -> kept_at R (tmpfs_topdir top) c.
Proof.
  intros Ht. assert (td_path top = homedir \/ td_path top = runuser \/ exists t, top_ok t /\ td_path t = td_path top) by eauto.
  unfold tmpfs_topdir. apply kept_at_reads_bind; [exact _|unfold open_run, open; reads_tac|]. intros fd Efd.
  apply kept_at_bind; [exact _|eauto with kept_at|]. intros _ c1 _.
  apply kept_at_bind; [exact _|eauto with kept_at|]. intros _ c2 _.
  apply kept_at_bind; [exact _| |intros; eauto with kept_at].
  destruct (streq (td_path top) "/run") eqn:Er; [|seq_tac].
  unfold restore_run. apply kept_at_bind; [exact _|eauto with kept_at|]. intros _ c3 _.
  apply kept_at_bind; [exact _|eauto with kept_at|]. intros _ c4 _.
  unfold bind_mount_fd_to_path, mount, or_exit. at_step.
  - apply did_confined. split; [done|]. unfold open_run in Efd. rewrite Er in Efd.
    apply cbind_inv in Efd as (o & c5 & [= <- <-] & Efd). exists (effects c).
    destruct (sys_open _ _ _); [by injection Efd as ->|done].
  - at_step. seq_tac.
Qed.

Lemma tmpfs_topdirs_confined tops c : Forall top_ok tops -> kept_at R (tmpfs_topdirs tops) c.
Proof.
  intros Ht. unfold tmpfs_topdirs. rewrite Forall_forall in Ht. apply kept_at_bind; [exact _| |].
  - apply (kept_at_fold _ _ _ _ _ (fun _ _ _ => True)); [done|]. intros l1 x l2 b c1 El _. split; [|done].
    destruct (nested x); [at_tac|]. apply tmpfs_topdir_confined, Ht. rewrite El. set_solver.
  - intros _ c1 _. apply kept_at_bind; [exact _|seq_tac|]. intros _ c2 _. destruct (existsb _ tops); [|at_tac].
    apply kept_at_bind; [exact _|apply fs_tmpfs_confined; auto|intros; eauto with kept_at].
Qed.

Lemma whitelist_loop_quiet fuel i st : keeps (fun c c' => effects c' = effects c) (whitelist_loop fuel i st).
Proof.
  assert (PreOrder (fun c c' : Config => effects c' = effects c)) as HP
    by (split; [done|intros ? ? ? E1 E2; by rewrite E2]).
  assert (forall A (m : P A), reads m -> keeps (fun c c' : Config => effects c' = effects c) m) as Hr
    by (intros A m; by apply reads_keeps).
  assert (forall d s, keeps (fun c c' : Config => effects c' = effects c) (find_topdir d s)) as Hf.
  { intros d s. apply Hr. unfold find_topdir, add_topdir. reads_tac. }
  assert (forall b n t s, keeps (fun c c' : Config => effects c' = effects c) (resolved_path b n t s)) as Hp.
  { intros b n t s. unfold resolved_path, whitelist_globbing, glob_line, profile_add.
    keeps_tac; try (apply Hr; solve [eauto with reads]). by apply keeps_modify. }
  revert i st. induction fuel as [|f IH]; intros i st; cbn [whitelist_loop]; unfold whitelist_entry, whitelist_path;
    keeps_tac; try (apply Hr; solve [eauto with reads]); auto.
Qed.

(** C10: Whatever the profile holds, every mount fs_whitelist makes is one of these: a
    tmpfs on a top level directory, on the home directory or the run-time directory of
    the user, opened as a directory and without links, on /root or on /home;
    /run/firejail back to its place; and a file below a top level directory back to the
    same name below that directory.  That file was opened not as root (unless root runs
    firejail), without links, and is none;
    its target is made from the directory of that name, which was opened without links,
    name by name, each of them a directory of the same mount and no link, and is itself
    a directory that is no link or a new file.  A top level directory is never /, /proc,
    /sys or one the administrator rejects. *)
Theorem whitelist_mounts_confined fuel c l1 src dst fs fl data l2 :
  effects (fs_whitelist fuel c).2 = effects c ++ l1 ++ Mount src dst fs fl data :: l2 ->
  confined (effects c ++ l1) (Mount src dst fs fl data).
Proof.
  assert (kept_at R (fs_whitelist fuel) c) as (l & El & Hl).
  { unfold fs_whitelist. at_step. apply kept_at_get_bind. destruct (bool_decide _); [at_tac|].
    apply kept_at_bind; [exact _|apply kept_at_keeps; intros w; apply emits_same, whitelist_loop_quiet|].
    intros st c1 E. pose proof (loop_keeps_ok _ _ _ _ _ _ wl_start E) as [W1 _ _ W4].
    apply kept_at_bind; [exact _|by apply tmpfs_topdirs_confined|]. intros _ c2 _.
    apply (kept_at_fold _ _ _ _ _ (fun _ _ _ => True)); [done|]. intros k1 w k2 b c3 Ew _. split; [|done].
    rewrite Forall_forall in W1. rewrite Forall_forall in W4. assert (wparam_ok (topdirs st) w) as [Hin _] by (apply W4; rewrite Ew; set_solver).
    apply list_elem_of_In, W1 in Hin. unfold whitelist_wparam.
    apply kept_at_bind; [exact _|eauto with kept_at|]. intros _ c4 _. seq_tac. }
  rewrite El. intros E. apply app_inv_head in E. by eapply every_in.
Qed.

(** ** Inside the directories of the user *)

(** Calls that create something are not made as root. *)
Definition made_by_user (l : list effect) (e : effect) : Prop :=
  match e with Call _ _ _ => unprivileged (euid_from 0 l) = true | _ => True end.

(** The same as long as the user id is not that of root, and it does not become it. *)
Definition by_user (c c' : Config) : Prop := unprivileged (euid c) = true -> emits made_by_user c c' /\ unprivileged (euid c') = true.

#[local] Instance by_user_preorder : PreOrder by_user.
Proof.
  split; [intros c Hc; split; [reflexivity|done]|]. intros c1 c2 c3 H1 H2 Hc.
  destruct (H1 Hc) as [E1 U1]. destruct (H2 U1) as [E2 U2]. split; [by etrans|done].
Qed.

Lemma call_by_user f pid args : keeps by_user (do_call (Call f pid args)).
Proof.
  intros c Hc. split; [by apply (emits_one _ (Call f pid args) c)|].
  unfold euid in *. cbn [do_call emit cbind cmodify ask cget cret snd effects with_effects].
  by rewrite euid_from_app.
Qed.
Lemma reads_by_user {A} (m : P A) : reads m -> keeps by_user m.
Proof. apply reads_keeps, _. Qed.
#[local] Hint Resolve call_by_user : keeps.
#[local] Hint Extern 5 (keeps by_user _) => apply reads_by_user; solve [eauto with reads] : keeps.

Lemma mkdirat_by_user fd n : keeps by_user (mkdirat fd n).
Proof. unfold mkdirat. keeps_tac. Qed.
#[local] Hint Resolve mkdirat_by_user : keeps.
Lemma mkpath_walk_by_user id toks fd : keeps by_user (mkpath_walk id fd toks).
Proof. revert fd. induction toks as [|t toks IH]; intros fd; cbn [mkpath_walk]; unfold openat; keeps_tac. Qed.
#[local] Hint Resolve mkpath_walk_by_user : keeps.
Lemma whitelist_mkpath_by_user dir rel : keeps by_user (whitelist_mkpath dir rel).
Proof. unfold whitelist_mkpath. cbv zeta. keeps_tac. Qed.
Lemma mount_target_by_user fd f d : keeps by_user (mount_target fd f d).
Proof. unfold mount_target, openat. keeps_tac. Qed.

Lemma run_by_user {A} (m : P A) c : keeps by_user m -> unprivileged (euid c) = true ->
  kept_at (emits made_by_user) m c /\ forall a c', m c = (Ok a, c') -> unprivileged (euid c') = true.
Proof.
  intros Hm Hc. destruct (Hm c Hc) as [He Hu]. split; [exact He|]. intros a c' E. by rewrite E in Hu.
Qed.

Lemma did_user e c : made_by_user (effects c) e -> emits made_by_user c (did e c).
Proof. apply (emits_one _ e c). Qed.

Lemma nested_as_user top : nested top = true -> create_as_root top = cret tt.
Proof. unfold nested, create_as_root. intros [-> | ->]%orb_true_iff; [done|]. by rewrite andb_false_r. Qed.

Lemma assert_user a c : EUID_ASSERT c = (Ok a, c) -> unprivileged (euid c) = true.
Proof. unfold EUID_ASSERT. rewrite cget_bind. by destruct (unprivileged (euid c)). Qed.

Lemma whitelist_file_by_user top path c : nested top = true -> kept_at (emits made_by_user) (whitelist_file top path) c.
Proof.
  intros Ht. unfold whitelist_file. rewrite nested_as_user by done.
  apply kept_at_reads_bind; [exact _|eauto with reads|]. intros u Eu%assert_user.
  destruct (relative _ path) as [relpath|]; [|at_tac].
  at_step. destruct a; [|at_tac]. at_step. destruct a as [s|]; [|at_tac]. destruct (st_islnk s); [at_tac|].
  at_step. destruct (run_by_user _ _ (whitelist_mkpath_by_user (td_path top) relpath) Eu) as [K1 U1].
  apply kept_at_bind; [exact _|exact K1|]. intros [fd2|] c2 E2; [|unfold EUID_USER; at_tac; by apply did_user].
  destruct (run_by_user _ _ (mount_target_by_user fd2 (gnu_basename relpath) (st_isdir s)) (U1 _ _ E2)) as [K2 U2].
  apply kept_at_bind; [exact _|exact K2|]. intros [fd3|] c3 E3; [|unfold EUID_USER; at_tac; by apply did_user].
  unfold whitelist_mount, bind_mount_by_fd, mount, EUID_ROOT, EUID_USER. at_tac; by apply did_user.
Qed.

(** C31: Below the home directory and the run-time directory of the user nothing is created
    by root: the directories on the way to a file that is mounted back, the mount
    target and the link are made with the rights of the user. *)
Theorem home_made_by_user w c : nested (wp_top w) = true -> emits made_by_user c (whitelist_wparam w c).2.
Proof.
  intros Ht. change (kept_at (emits made_by_user) (whitelist_wparam w) c). unfold whitelist_wparam.
  apply kept_at_bind; [exact _|by apply whitelist_file_by_user|]. intros _ c1 _.
  destruct (wp_link w) as [link|]; [|at_tac]. unfold whitelist_symlink. rewrite nested_as_user by done.
  apply kept_at_reads_bind; [exact _|eauto with reads|]. intros u Eu%assert_user.
  destruct (relative _ link) as [relpath|]; [|at_tac]. at_step.
  destruct (run_by_user _ _ (whitelist_mkpath_by_user (td_path (wp_top w)) relpath) Eu) as [K1 U1].
  apply kept_at_bind; [exact _|exact K1|]. intros [fd|] c2 E2; [|unfold EUID_USER; at_tac; by apply did_user].
  at_step; [apply did_user; exact (U1 _ _ E2)|]. unfold EUID_USER. at_tac. by apply did_user.
Qed.
End Mounts.

(** * The first loop of fs_whitelist ends

    The loop follows a list it adds to.  It ends when a path that globbing returned
    and that cannot be resolved is its own only match, and does not end otherwise. *)

Section Total.
Context `{H : Host} `{CH : CapHeaders} `{K : Kernel}.

(** ** Lines that add none *)

Definition quiet (data : string) : Prop :=
  forall st c st' c', whitelist_entry data st c = (Ok st', c') -> profile c' = profile c.

Lemma expand_absolute x c : has_prefix "/" x = true -> expand x c = (Ok x, c) /\ is_macro x = false.
Proof.
  destruct x as [|a x]; [done|]. unfold has_prefix. cbn [strip_prefix].
  destruct (Ascii.eqb_spec "/" a) as [<-|]; [|done]. intros _. split; [|unfold is_macro; destruct x; apply andb_false_r].
  unfold expand. by rewrite cget_bind.
Qed.

Lemma clean_absolute e n : clean_pathname e = Ok n -> has_prefix "/" n = true.
Proof. intros E%clean_pathname_idempotent. unfold clean_pathname in E. by destruct (has_prefix "/" n). Qed.

(** What is relied on: the paths glob returns for an absolute pattern are absolute,
    and one that cannot be resolved when it is looked at has no other matches. *)
Definition glob_settles : Prop :=
  forall l p ps x, has_prefix "/" p = true -> glob l p = Some ps -> In x ps -> x <> p -> is_dot x = false ->
  has_prefix "/" x = true /\
  forall n l1 l2 qs, clean_pathname x = Ok n -> resolve n (view l1) = None -> glob l2 n = Some qs ->
    Forall (fun y => y = n \/ is_dot y = true) qs.

Lemma globbing_profile n c c' : whitelist_globbing n c = (Ok tt, c') ->
  exists ps, glob (effects c) n = Some ps /\
  exists added, profile c' = profile c ++ map (fun x => "whitelist " +:+ x) added /\
    Forall (fun x => In x ps /\ x <> n /\ is_dot x = false) added.
Proof.
  unfold whitelist_globbing. intros E. apply cbind_inv in E as (u & c0 & E0 & E).
  pose proof (reads_ok _ _ _ _ reads_euid_assert E0) as ->. apply cbind_inv in E as (r & c0 & [= <- <-] & E).
  destruct (glob (effects c) n) as [ps|]; [|done]. exists ps. split; [done|].
  assert (forall l c c', incl l ps -> cfold (fun path _ => glob_line n path) l tt c = (Ok tt, c') ->
    exists added, profile c' = profile c ++ map (fun x => "whitelist " +:+ x) added /\
    Forall (fun x => In x ps /\ x <> n /\ is_dot x = false) added) as Hl; [|by apply (Hl ps); [apply incl_refl|]].
  clear. induction l as [|x l IH]; intros c c' Hi; cbn [cfold]; [intros [= <-]; exists []; by rewrite app_nil_r|].
  apply incl_cons_inv in Hi as [Hx Hi]. intros E. apply cbind_inv in E as ([] & c1 & E1 & E).
  destruct (IH _ _ Hi E) as (added & Ea & Fa). unfold glob_line in E1.
  destruct (streq x n) eqn:Es; cbn [orb] in E1; [injection E1 as <-; by exists added|].
  destruct (is_dot x) eqn:Ed; [injection E1 as <-; by exists added|]. injection E1 as <-.
  exists (x :: added). split; [rewrite Ea; cbn [profile with_profile map]; by rewrite <- app_assoc|].
  constructor; [|done]. split; [done|]. split; [|done]. intros ->. unfold streq in Es. by rewrite String.eqb_refl in Es.
Qed.

Lemma find_topdir_reads d st : reads (find_topdir d st).
Proof. unfold find_topdir, add_topdir. reads_tac. Qed.
#[local] Hint Resolve find_topdir_reads : reads.

(** Either the state stays as it is or the lines glob gives for an unresolved path
    are added. *)
Lemma whitelist_path_profile nowl ptr st c st' c' : whitelist_path nowl ptr st c = (Ok st', c') ->
  c' = c \/ exists e n, expand ptr c = (Ok e, c) /\ clean_pathname e = Ok n /\
    resolve n (fs_now c) = None /\ whitelist_globbing n c = (Ok tt, c').
Proof.
  assert (forall n top st st' c', resolved_path nowl n top st c = (Ok st', c') ->
    c' = c \/ resolve n (fs_now c) = None /\ whitelist_globbing n c = (Ok tt, c')) as Hr.
  { intros n top s s' c1. unfold resolved_path. destruct (has_prefix _ n); [by intros [= _ <-]; left|]. rewrite cget_bind.
    destruct (resolve n (fs_now c)) as [f|].
    - destruct (has_prefix _ f); [by intros [= _ <-]; left|]. destruct nowl; [by intros [= _ <-]; left|].
      destruct (existsb _ _); [by intros [= _ <-]; left|]. destruct top; [|done]. by intros [= _ <-]; left.
    - intros E. apply cbind_inv in E as ([] & c2 & E & [= _ <-]). destruct nowl; [injection E as <-; by left|]. by right. }
  unfold whitelist_path. intros E. apply cbind_inv in E as (e & c1 & E1 & E).
  pose proof (reads_ok _ _ _ _ (reads_expand ptr) E1) as ->. destruct (_ && _).
  { destruct nowl; [injection E as _ <-; by left|]. apply cbind_inv in E as (r & c1 & E2 & [= _ <-]). left.
    by apply reads_ok in E2; [|auto with reads]. }
  apply cbind_inv in E as (u & c1 & E2 & E). apply reads_ok in E2 as ->; [|eauto with reads].
  apply cbind_inv in E as (n & c1 & [= En <-] & E).
  apply cbind_inv in E as (u2 & c1 & E2 & E). apply reads_ok in E2 as ->; [|eauto with reads].
  destruct nowl.
  - apply Hr in E as [->|[R1 R2]]; [by left|right]. by exists e, n.
  - apply cbind_inv in E as (d & c1 & [= _ <-] & E). apply cbind_inv in E as (r & c1 & E2 & E).
    apply reads_ok in E2 as ->; [|auto with reads]. destruct r.2; [|injection E as _ <-; by left].
    apply Hr in E as [->|[R1 R2]]; [by left|right]. by exists e, n.
Qed.

Lemma added_quiet x : has_prefix "/" x = true ->
  (forall n l1 l2 qs, clean_pathname x = Ok n -> resolve n (view l1) = None -> glob l2 n = Some qs ->
    Forall (fun y => y = n \/ is_dot y = true) qs) -> quiet ("whitelist " +:+ x).
Proof.
  intros Ha Hs st c st' c' E. change (whitelist_path false x st c = (Ok st', c')) in E.
  destruct (whitelist_path_profile _ _ _ _ _ _ E) as [->|(e & n & E1 & E2 & E3 & E4)]; [done|].
  destruct (expand_absolute x c Ha) as [Ex _]. rewrite Ex in E1. injection E1 as <-.
  destruct (globbing_profile _ _ _ E4) as (ps & Eg & added & -> & Hf).
  specialize (Hs n _ _ ps E2 E3 Eg). rewrite Forall_forall in Hs.
  destruct added as [|y added]; [by rewrite app_nil_r|]. apply Forall_cons in Hf as [(Hy & Hn & Hd) _].
  apply list_elem_of_In, Hs in Hy as [->|Hy]; [done|]. by rewrite Hd in Hy.
Qed.

Lemma entry_adds_quiet data st c st' c' : glob_settles -> whitelist_entry data st c = (Ok st', c') ->
  exists added, profile c' = profile c ++ added /\ Forall quiet added.
Proof.
  intros Hg. assert (forall b p, whitelist_path b p st c = (Ok st', c') ->
    exists added, profile c' = profile c ++ added /\ Forall quiet added) as Hp.
  { intros b p E. destruct (whitelist_path_profile _ _ _ _ _ _ E) as [->|(e & n & E1 & E2 & E3 & E4)].
    { exists []. by rewrite app_nil_r. }
    destruct (globbing_profile _ _ _ E4) as (ps & Eg & added & -> & Hf). eexists. split; [reflexivity|].
    apply Forall_map. eapply Forall_impl; [exact Hf|]. intros x (Hx & Hn & Hd).
    destruct (Hg _ _ _ _ (clean_absolute _ _ E2) Eg Hx Hn Hd) as [Ha Hs]. by apply added_quiet. }
  unfold whitelist_entry. destruct (strip_prefix _ data); [apply Hp|]. destruct (strip_prefix _ data); [apply Hp|].
  intros [= _ <-]. exists []. by rewrite app_nil_r.
Qed.

(** ** No line runs out of fuel *)

Lemma ask_total {A} (f : list effect -> A) : total (ask f).
Proof. done. Qed.
Lemma exit_unless_total b : total (exit_unless b).
Proof. by destruct b. Qed.
Lemma cassert_total b : total (W := Config) (cassert b).
Proof. by destruct b. Qed.
#[local] Hint Resolve ask_total exit_unless_total cassert_total : total.
#[local] Hint Extern 5 (total (clift _)) => apply total_lift : total.

Lemma walk_total toks fd fl : total (safer_walk fd fl toks).
Proof. revert fd. induction toks as [|t toks IH]; intros fd; cbn [safer_walk]; unfold openat; total_tac. Qed.
#[local] Hint Resolve walk_total : total.
Lemma safer_openat_total fd p fl : total (safer_openat fd p fl).
Proof. unfold safer_openat, openat, open. cbv zeta. total_tac. Qed.
Lemma euid_assert_total : total EUID_ASSERT.
Proof. unfold EUID_ASSERT. total_tac. Qed.
#[local] Hint Resolve safer_openat_total euid_assert_total : total.

Lemma find_topdir_total d st : total (find_topdir d st).
Proof. unfold find_topdir, add_topdir, get_int. total_tac. Qed.
Lemma globbing_total n : total (whitelist_globbing n).
Proof. unfold whitelist_globbing, glob_line, profile_add. total_tac. Qed.
#[local] Hint Resolve find_topdir_total globbing_total : total.
Lemma resolved_path_total b n t st : total (resolved_path b n t st).
Proof. unfold resolved_path. total_tac. Qed.
#[local] Hint Resolve resolved_path_total : total.

Lemma clean_ends e : clean_pathname e <> NoFuel.
Proof.
  destruct e as [|a e]; [done|]. unfold clean_pathname at 1. destruct (has_prefix "/" (String a e)) eqn:E; [|done].
  unfold has_prefix in E. cbn [strip_prefix] in E. destruct (Ascii.eqb_spec "/" a) as [<-|]; [|done].
  pose proof (proj1 (clean_pathname_segments e)) as Hc. unfold clean_pathname in Hc.
  change (has_prefix "/" (String slash e)) with true in Hc. cbn iota in Hc.
  change "/"%char with slash. by rewrite Hc.
Qed.

Lemma extract_ends p : extract_topdir p <> NoFuel.
Proof.
  unfold extract_topdir. repeat match goal with |- (match ?x with _ => _ end) <> _ => destruct x end; done.
Qed.

Lemma whitelist_entry_total data st : total (whitelist_entry data st).
Proof.
  assert (forall b p, total (whitelist_path b p st)) as Hp.
  { intros b p. unfold whitelist_path, expand. total_tac; try apply total_lift;
      auto using expand_macros_ends, clean_ends, extract_ends. }
  unfold whitelist_entry. destruct (strip_prefix _ data); [apply Hp|]. destruct (strip_prefix _ data); [apply Hp|done].
Qed.

(** ** The loop *)

Definition ends_within (fuel i : nat) (st : wl_state) (c : Config) : Prop :=
  forall f, (fuel <= f)%nat -> (whitelist_loop f i st c).1 <> NoFuel.

Lemma ends_step fuel i st c :
  (forall data st1 c1, profile c !! i = Some data -> whitelist_entry data st c = (Ok st1, c1) ->
     ends_within fuel (S i) st1 c1) ->
  ends_within (S fuel) i st c.
Proof.
  intros Hs [|f] Hf; [lia|]. cbn [whitelist_loop]. rewrite cget_bind. destruct (profile c !! i) as [data|]; [|done].
  unfold cbind. pose proof (whitelist_entry_total data st c) as Ht.
  destruct (whitelist_entry data st c) as [[st1| | |] c1] eqn:E; try done.
  apply (Hs data st1 c1); [done|done|lia].
Qed.

Lemma quiet_lines_end k i st c : length (drop i (profile c)) = k -> Forall quiet (drop i (profile c)) ->
  ends_within (S k) i st c.
Proof.
  revert i st c. induction k as [|k IH]; intros i st c Hk Hq; apply ends_step; intros data st1 c1 Hi E.
  - apply length_zero_iff_nil in Hk. rewrite (drop_S _ _ _ Hi) in Hk. done.
  - rewrite (drop_S _ _ _ Hi) in Hk, Hq. cbn [length] in Hk. apply Forall_cons in Hq as [Hd Hq].
    apply IH; rewrite (Hd _ _ _ _ E); [lia|done].
Qed.

Lemma lines_end : glob_settles -> forall m i st c, Forall quiet (drop (i + m) (profile c)) ->
  exists fuel, ends_within fuel i st c.
Proof.
  intros Hg. induction m as [|m IH]; intros i st c Hq.
  - rewrite Nat.add_0_r in Hq. eexists. by eapply quiet_lines_end.
  - destruct (profile c !! i) as [data|] eqn:Ei.
    2: { exists 1%nat. apply ends_step. intros ? ? ? Hi. by rewrite Ei in Hi. }
    destruct (whitelist_entry data st c) as [r c1] eqn:E.
    destruct r as [st1|x| |].
    2-4: exists 1%nat; apply ends_step; intros data' ? ? Hi E'; rewrite Ei in Hi; injection Hi as <-; by rewrite E in E'.
    destruct (entry_adds_quiet _ _ _ _ _ Hg E) as (added & Ep & Ha).
    destruct (IH (S i) st1 c1) as [fuel Hf].
    { rewrite Ep, drop_app. apply Forall_app. split; [by replace (S i + m)%nat with (i + S m)%nat by lia|by apply Forall_drop]. }
    exists (S fuel). apply ends_step. intros data' st1' c1' Hi E'. rewrite Ei in Hi. injection Hi as <-.
    rewrite E in E'. by injection E' as <- <-.
Qed.

(** C28: The loop of fs_whitelist over the list it adds lines to ends, if a path glob
    returned that cannot be resolved later has no match but itself: each line of the
    profile then adds lines once, and those add none. *)
Theorem whitelist_loop_terminates i st c : glob_settles ->
  exists fuel, forall f, (fuel <= f)%nat -> (whitelist_loop f i st c).1 <> NoFuel.
Proof.
  intros Hg. apply (lines_end Hg (length (profile c))). rewrite drop_ge by lia. constructor.
Qed.
End Total.
