(* ===== verification/SandboxKeeps.v ===== *)
(** * What the set-up of the sandbox process leaves alone

    The programs of sandbox.c and of the files it calls are made of few stores: a
    relation that these keep is kept by all of them.  The instance [stable] says that
    the variables that decide on filters, capabilities and groups stay as they are. *)

From S2P Require Import Prelude.
From S2P Require Import Clib.
From S2P Require Import Keeps.
From S2P Require Import Caps.
From S2P Require Import Env.
From S2P Require Import Text.
From S2P Require Import Common.
From S2P Require Import Util.
From S2P Require Import Dbus.
From S2P Require Import Checkcfg.
From S2P Require Import Macros.
From S2P Require Import ProfileState.
From S2P Require Import ProfileCommands.
From S2P Require Import ProfileLine.
From S2P Require Import ProfileReadTheorems.
From S2P Require Import ProfileSpecTheorems.
From S2P Require Import NetConfig.
From S2P Require Import MainCommands.
From S2P Require Import MainOptions.
From S2P Require Import Startup.
From S2P Require Import Sys.
From S2P Require Import SysFiles.
From S2P Require Import FsVar.
From S2P Require Import FsEtc.
From S2P Require Import RestrictUsers.
From S2P Require Import FsBin.
From S2P Require Import FsDev.
From S2P Require Import Fs.
From S2P Require Import FsHost.
From S2P Require Import FsHome.
From S2P Require Import FsWhitelist.
From S2P Require Import Session.
From S2P Require Import Chroot.
From S2P Require Import MainSetup.
From S2P Require Import Sandbox.

(** The variables these programs write. *)
Definition written_ints : list string :=
  ["arg_whitelist"; "lockfd_directory"; "lockfd_network"; "tmpfs_mounted"; "rand_state";
   "rlimit_as"; "rlimit_cpu"; "rlimit_fsize"; "rlimit_nofile"; "rlimit_nproc"; "rlimit_sigpending"].
Definition written_strs : list string := ["paths"; "hostname"; "bin_private_keep"; "etc_private_keep"].

(** These are written by [sandbox] itself. *)
Definition raised_ints : list string := ["arg_nonewprivs"; "arg_caps_drop_all"; "arg_nogroups"].

Definition names (l : list string) (n : string) : bool := existsb (streq n) l.

Class SandboxPrimitives (R : relation Config) : Prop := {
  sp_preorder :: PreOrder R;
  sp_int n v : names written_ints n = true -> keeps R (set_int n v);
  sp_str n v : names written_strs n = true -> keeps R (set_str n v);
  sp_emit e : keeps R (emit e);
  sp_env m : keeps R (in_env m);
  sp_profile f : keeps R (cmodify (fun c => with_profile (f c) c));
  sp_rebuild f : keeps R (cmodify (fun c => with_rebuild_etc (f c) c));
  sp_bridge i f : keeps R (upd_bridge i f)
}.

#[export] Hint Resolve sp_emit sp_env sp_profile sp_rebuild sp_bridge : keeps.
#[export] Hint Extern 1 (keeps _ (set_int _ _)) => (apply sp_int; reflexivity) : keeps.
#[export] Hint Extern 1 (keeps _ (set_str _ _)) => (apply sp_str; reflexivity) : keeps.

Section Keeps.
Context `{H : Host} `{CH : CapHeaders} `{N : NetHost} `{SS : StartHost}
  `{K : Kernel} `{SEH : SessionHost} `{CHH : ChildHost}.
Context (R : relation Config) `{SP : !SandboxPrimitives R}.

(** ** System calls and files (Sys, SysFiles) *)

Lemma call_keeps e : keeps R (do_call e).
Proof. keeps_deep. Qed.
Lemma mount_keeps s t fs fl d : keeps R (mount s t fs fl d).
Proof. keeps_deep. Qed.
Lemma euid_keeps : keeps R EUID_ROOT /\ keeps R EUID_USER /\ keeps R EUID_ASSERT.
Proof. repeat split; keeps_deep. Qed.
Lemma euid_root_keeps : keeps R EUID_ROOT.
Proof. apply euid_keeps. Qed.
Lemma euid_user_keeps : keeps R EUID_USER.
Proof. apply euid_keeps. Qed.
Lemma euid_assert_keeps : keeps R EUID_ASSERT.
Proof. apply euid_keeps. Qed.
Lemma walk_keeps fd fl toks : keeps R (safer_walk fd fl toks).
Proof. revert fd. induction toks; intros; cbn [safer_walk]; keeps_deep. Qed.
#[local] Hint Resolve call_keeps mount_keeps euid_root_keeps euid_user_keeps euid_assert_keeps walk_keeps : keeps.
Lemma safer_openat_keeps fd p fl : keeps R (safer_openat fd p fl).
Proof. keeps_deep. Qed.
Lemma build_paths_keeps : keeps R build_paths.
Proof. keeps_deep. Qed.
Lemma mkdir_attr_keeps f m u g : keeps R (mkdir_attr f m u g).
Proof. keeps_deep. Qed.
Lemma mkpath_keeps pre rest : keeps R (mkpath_loop pre rest).
Proof.
  revert pre. induction rest as [|? [|? ?] IH]; intros; cbn [mkpath_loop] in *; [apply keeps_ret, _..|].
  cbv zeta. repeat first [apply IH | keeps_step | keeps_unfold].
Qed.
#[local] Hint Resolve safer_openat_keeps build_paths_keeps mkdir_attr_keeps mkpath_keeps : keeps.
Lemma mkpath_root_keeps p : keeps R (mkpath_as_root p).
Proof. keeps_deep. Qed.
Lemma copy_keeps s d u g m : keeps R (copy_file s d u g m).
Proof. keeps_deep. Qed.
Lemma dir_as_root_keeps d m : keeps R (create_empty_dir_as_root d m).
Proof. keeps_deep. Qed.
Lemma file_as_root_keeps d m : keeps R (create_empty_file_as_root d m).
Proof. keeps_deep. Qed.
Lemma dir_as_user_keeps d m : keeps R (create_empty_dir_as_user d m).
Proof. keeps_deep. Qed.
Lemma disable_file_or_dir_keeps f : keeps R (disable_file_or_dir f).
Proof. keeps_deep. Qed.
Lemma sbox_run_keeps fl a : keeps R (SysFiles.sbox_run fl a).
Proof. keeps_deep. Qed.
Lemma last_mount_keeps : keeps R get_last_mount.
Proof. keeps_deep. Qed.
#[local] Hint Resolve mkpath_root_keeps copy_keeps dir_as_root_keeps file_as_root_keeps dir_as_user_keeps
  disable_file_or_dir_keeps sbox_run_keeps last_mount_keeps : keeps.

(** ** Helpers *)

Lemma mount_tmpfs_keeps d fl data : keeps R (mount_tmpfs d fl data).
Proof. keeps_deep. Qed.
Lemma bind_mount_keeps s d t fl data : keeps R (bind_mount s d t fl data).
Proof. keeps_deep. Qed.
Lemma write_file_keeps f t : keeps R (write_file f t).
Proof. keeps_deep. Qed.
Lemma perms_stream_keeps f u g m : keeps R (set_perms_stream f u g m).
Proof. keeps_deep. Qed.
Lemma set_perms_keeps f u g m : keeps R (set_perms f u g m).
Proof. keeps_deep. Qed.
#[local] Hint Resolve mount_tmpfs_keeps bind_mount_keeps write_file_keeps perms_stream_keeps set_perms_keeps :
  keeps.

(** ** Users and directories (FsVar, FsEtc, RestrictUsers) *)

Lemma var_log_keeps : keeps R fs_var_log.
Proof. keeps_deep. Qed.
Lemma var_lib_keeps : keeps R fs_var_lib.
Proof. keeps_deep. Qed.
Lemma var_cache_keeps : keeps R fs_var_cache.
Proof. keeps_deep. Qed.
Lemma var_lock_keeps : keeps R fs_var_lock.
Proof. keeps_deep. Qed.
Lemma var_tmp_keeps : keeps R fs_var_tmp.
Proof. keeps_deep. Qed.
Lemma var_utmp_keeps : keeps R fs_var_utmp.
Proof. keeps_deep. Qed.
Lemma machineid_keeps : keeps R fs_machineid.
Proof. keeps_deep. Qed.
Lemma resolvconf_keeps : keeps R fs_resolvconf.
Proof. keeps_deep. Qed.
Lemma dir_copy_keeps d r l : keeps R (fs_private_dir_copy d r l).
Proof. keeps_deep. Qed.
Lemma dir_mount_keeps d r : keeps R (fs_private_dir_mount d r).
Proof. keeps_deep. Qed.
Lemma restrict_users_keeps : keeps R restrict_users.
Proof. keeps_deep. Qed.
#[local] Hint Resolve var_log_keeps var_lib_keeps var_cache_keeps var_lock_keeps var_tmp_keeps var_utmp_keeps
  machineid_keeps resolvconf_keeps dir_copy_keeps dir_mount_keeps restrict_users_keeps : keeps.

(** ** Blacklists and remounts (Fs) *)

Lemma dir_list_keeps d r l : keeps R (fs_private_dir_list d r l).
Proof. keeps_deep. Qed.
Lemma fs_tmpfs_keeps d o : keeps R (fs_tmpfs d o).
Proof. keeps_deep. Qed.
Lemma remount_simple_keeps p op : keeps R (fs_remount_simple p op).
Proof. keeps_deep. Qed.
#[local] Hint Resolve dir_list_keeps fs_tmpfs_keeps remount_simple_keeps : keeps.

Lemma remount_rec_keeps p op : keeps R (fs_remount_rec p op).
Proof. keeps_deep. Qed.
#[local] Hint Resolve remount_rec_keeps : keeps.

Lemma remount_keeps p op r : keeps R (fs_remount p op r).
Proof. keeps_deep. Qed.
Lemma hide_file_keeps f n fd s : keeps R (hide_file f n fd s).
Proof. keeps_deep. Qed.
Lemma tmpfs_file_keeps f s : keeps R (tmpfs_file f s).
Proof. keeps_deep. Qed.
Lemma disable_file_keeps op f : keeps R (disable_file op f).
Proof. keeps_deep. Qed.
#[local] Hint Resolve remount_keeps hide_file_keeps tmpfs_file_keeps disable_file_keeps : keeps.

Lemma fs_globbing_keeps op p l : keeps R (Fs.globbing op p l).
Proof. keeps_deep. Qed.
Lemma disable_files_keeps l : keeps R (disable_files l).
Proof. keeps_deep. Qed.
#[local] Hint Resolve fs_globbing_keeps disable_files_keeps : keeps.

Lemma bind_entry_keeps i d : keeps R (bind_entry i d).
Proof. keeps_deep. Qed.
Lemma fs_mkdir_keeps n : keeps R (fs_mkdir n).
Proof. keeps_deep. Qed.
Lemma fs_mkfile_keeps n : keeps R (fs_mkfile n).
Proof. keeps_deep. Qed.
#[local] Hint Resolve bind_entry_keeps fs_mkdir_keeps fs_mkfile_keeps : keeps.

Lemma fs_blacklist_keeps : keeps R fs_blacklist.
Proof. keeps_deep. Qed.
Lemma fs_mnt_keeps e : keeps R (fs_mnt e).
Proof. keeps_deep. Qed.
Lemma fs_bwrap_keeps : keeps R fs_bwrap.
Proof. keeps_deep. Qed.
Lemma proc_sys_keeps : keeps R fs_proc_sys_dev_boot.
Proof. keeps_deep. Qed.
Lemma disable_config_keeps : keeps R disable_config.
Proof. keeps_deep. Qed.
#[local] Hint Resolve fs_blacklist_keeps fs_mnt_keeps fs_bwrap_keeps proc_sys_keeps disable_config_keeps :
  keeps.

(** A whitelist line that is checked sets one variable at most. *)
Lemma check_whitelist_keeps path : keeps R (profile_check_line ("whitelist " +:+ path)).
Proof.
  intros c. destruct (is_in_ignore_list ("whitelist " +:+ path) c) eqn:Hi.
  - unfold profile_check_line. cbn [check_line]. change (strip_prefix "?" _) with (@None string). cbn [matches].
    rewrite cget_bind, Hi. reflexivity.
  - rewrite check_plain_line, run_path_line by (done || (cbn; tauto)). cbn [snd].
    apply (sp_int (R := R) "arg_whitelist" 1 eq_refl c).
Qed.
#[local] Hint Resolve check_whitelist_keeps : keeps.

Lemma basic_fs_keeps : keeps R fs_basic_fs.
Proof. keeps_deep. Qed.
Lemma private_tmp_keeps : keeps R fs_private_tmp.
Proof. keeps_deep. Qed.
#[local] Hint Resolve basic_fs_keeps private_tmp_keeps : keeps.

(** ** Private directories (FsBin, FsDev, FsHome, FsHost) *)

Lemma private_bin_list_keeps : keeps R fs_private_bin_list.
Proof. keeps_deep. Qed.
Lemma private_dev_keeps : keeps R fs_private_dev.
Proof. keeps_deep. Qed.
Lemma disable_devices_keeps t : keeps R (disable_devices t).
Proof. keeps_deep. Qed.
Lemma disable_sound_keeps : keeps R fs_dev_disable_sound.
Proof. keeps_deep. Qed.
Lemma store_hosts_keeps : keeps R fs_store_hosts_file.
Proof. keeps_deep. Qed.
Lemma fs_hostname_keeps h : keeps R (fs_hostname h).
Proof. keeps_deep. Qed.
Lemma random_hostname_keeps : keeps R random_hostname.
Proof. keeps_deep. Qed.
Lemma touch_preload_keeps : keeps R fs_trace_touch_preload.
Proof. keeps_deep. Qed.
Lemma store_preload_keeps : keeps R fs_trace_touch_or_store_preload.
Proof. keeps_deep. Qed.
Lemma tracefile_keeps f : keeps R (fs_tracefile f).
Proof. keeps_deep. Qed.
Lemma fs_trace_keeps : keeps R fs_trace.
Proof. keeps_deep. Qed.
Lemma fs_private_keeps : keeps R fs_private.
Proof. keeps_deep. Qed.
Lemma private_homedir_keeps : keeps R fs_private_homedir.
Proof. keeps_deep. Qed.
#[local] Hint Resolve private_bin_list_keeps private_dev_keeps disable_devices_keeps disable_sound_keeps
  store_hosts_keeps fs_hostname_keeps random_hostname_keeps touch_preload_keeps store_preload_keeps
  tracefile_keeps fs_trace_keeps fs_private_keeps private_homedir_keeps : keeps.

(** ** The whitelist *)

Lemma mkpath_walk_keeps id fd toks : keeps R (mkpath_walk id fd toks).
Proof. revert fd. induction toks; intros; cbn [mkpath_walk]; keeps_deep. Qed.
#[local] Hint Resolve mkpath_walk_keeps : keeps.

Lemma whitelist_file_keeps top path : keeps R (whitelist_file top path).
Proof. keeps_deep. Qed.
Lemma whitelist_entry_keeps d st : keeps R (whitelist_entry d st).
Proof. keeps_deep. Qed.
#[local] Hint Resolve whitelist_file_keeps whitelist_entry_keeps : keeps.

Lemma whitelist_loop_keeps fuel i st : keeps R (whitelist_loop fuel i st).
Proof. revert i st. induction fuel; intros; cbn [whitelist_loop]; keeps_deep. Qed.
#[local] Hint Resolve whitelist_loop_keeps : keeps.

Lemma tmpfs_topdir_keeps t : keeps R (tmpfs_topdir t).
Proof. keeps_deep. Qed.
Lemma fs_whitelist_keeps fuel : keeps R (fs_whitelist fuel).
Proof. keeps_deep. Qed.
#[local] Hint Resolve tmpfs_topdir_keeps fs_whitelist_keeps : keeps.

(** ** The session, /run/firejail, --chroot *)

Lemma lock_loop_keeps f p s t : keeps R (lock_loop f p s t).
Proof. revert s t. induction f; intros; cbn [lock_loop]; keeps_deep. Qed.
#[local] Hint Resolve lock_loop_keeps : keeps.

Lemma lock_dir_keeps : keeps R preproc_lock_firejail_dir.
Proof. keeps_deep. Qed.
Lemma unlock_dir_keeps : keeps R preproc_unlock_firejail_dir.
Proof. keeps_deep. Qed.
Lemma build_unlocked_keeps : keeps R preproc_build_firejail_dir_unlocked.
Proof. keeps_deep. Qed.
Lemma build_locked_keeps : keeps R preproc_build_firejail_dir_locked.
Proof. keeps_deep. Qed.
Lemma mount_mnt_dir_keeps : keeps R preproc_mount_mnt_dir.
Proof. keeps_deep. Qed.
Lemma pulse_disable_keeps : keeps R pulseaudio_disable.
Proof. keeps_deep. Qed.
Lemma pipewire_disable_keeps : keeps R pipewire_disable.
Proof. keeps_deep. Qed.
Lemma pulse_init_keeps : keeps R pulseaudio_init.
Proof. keeps_deep. Qed.
Lemma fs_x11_keeps : keeps R fs_x11.
Proof. keeps_deep. Qed.
Lemma x11_xorg_keeps : keeps R x11_xorg.
Proof. keeps_deep. Qed.
Lemma apply_policy_keeps : keeps R dbus_apply_policy.
Proof. keeps_deep. Qed.
#[local] Hint Resolve lock_dir_keeps unlock_dir_keeps build_unlocked_keeps build_locked_keeps
  mount_mnt_dir_keeps pulse_disable_keeps pipewire_disable_keeps pulse_init_keeps fs_x11_keeps x11_xorg_keeps
  apply_policy_keeps : keeps.

Lemma mount_subdir_keeps fd a b : keeps R (mount_subdir fd a b).
Proof. keeps_deep. Qed.
Lemma update_file_keeps fd a : keeps R (update_file fd a).
Proof. keeps_deep. Qed.
#[local] Hint Resolve mount_subdir_keeps update_file_keeps : keeps.
Lemma chroot_x11_keeps fd : keeps R (chroot_x11 fd).
Proof. keeps_deep. Qed.
Lemma chroot_pulse_keeps fd d : keeps R (chroot_pulse fd d).
Proof. keeps_deep. Qed.
#[local] Hint Resolve chroot_x11_keeps chroot_pulse_keeps : keeps.
Lemma chroot_mounts_keeps fd d : keeps R (chroot_mounts fd d).
Proof. keeps_deep. Qed.
Lemma chroot_files_keeps : keeps R chroot_files.
Proof. keeps_deep. Qed.
#[local] Hint Resolve chroot_mounts_keeps chroot_files_keeps : keeps.

Lemma fs_chroot_keeps d : keeps R (fs_chroot d).
Proof. keeps_deep. Qed.
#[local] Hint Resolve fs_chroot_keeps : keeps.

(** ** sandbox.c *)

Lemma random_tries_keeps n a b c d : keeps R (random_tries n a b c d).
Proof. induction n; intros; cbn [random_tries]; keeps_deep. Qed.
#[local] Hint Resolve random_tries_keeps : keeps.

Lemma arp_assign_keeps d b : keeps R (arp_assign d b).
Proof. keeps_deep. Qed.
Lemma install_rules_keeps a r : keeps R (install_rules a r).
Proof. keeps_deep. Qed.
Lemma if_up_keeps i : keeps R (sandbox_if_up i).
Proof. keeps_deep. Qed.
Lemma interface_up_keeps n : keeps R (interface_up n).
Proof. keeps_deep. Qed.
#[local] Hint Resolve arp_assign_keeps install_rules_keeps if_up_keeps interface_up_keeps : keeps.

Lemma setup_network_keeps : keeps R setup_network.
Proof. keeps_deep. Qed.
Lemma root_fs_keeps : keeps R root_fs.
Proof. keeps_deep. Qed.
Lemma private_files_keeps : keeps R private_files.
Proof. keeps_deep. Qed.
Lemma system_files_keeps : keeps R system_files.
Proof. keeps_deep. Qed.
Lemma disable_media_keeps : keeps R disable_media.
Proof. keeps_deep. Qed.
Lemma enter_directory_keeps : keeps R enter_directory.
Proof. keeps_deep. Qed.
Lemma appimage_mount_keeps : keeps R appimage_mount.
Proof. keeps_deep. Qed.
#[local] Hint Resolve setup_network_keeps root_fs_keeps private_files_keeps system_files_keeps
  disable_media_keeps enter_directory_keeps appimage_mount_keeps : keeps.

Lemma build_fs_keeps fuel : keeps R (build_fs fuel).
Proof. keeps_deep. Qed.
Lemma save_files_keeps : keeps R (save_nonewprivs ;;; save_cpu).
Proof. keeps_deep. Qed.
Lemma protocol_save_keeps : keeps R protocol_filter_save.
Proof. keeps_deep. Qed.
Lemma join_files_keeps : keeps R (create_join_file ;;; save_nogroups).
Proof. keeps_deep. Qed.
Lemma set_rlimits_keeps : keeps R set_rlimits.
Proof. unfold set_rlimits, rlimits. cbn [cfold]. keeps_deep. Qed.
#[local] Hint Resolve build_fs_keeps save_files_keeps protocol_save_keeps join_files_keeps set_rlimits_keeps :
  keeps.

Lemma prepare_keeps : keeps R prepare_application.
Proof. keeps_deep. Qed.
Lemma landlock_keeps : keeps R enforce_landlock.
Proof. keeps_deep. Qed.
#[local] Hint Resolve prepare_keeps landlock_keeps : keeps.
End Keeps.
