(* ===== verification/SandboxTheorems.v ===== *)
(** * Theorems about the sandbox process

    What is in force when the process becomes the program: filters, capabilities,
    groups, ids.  Then the monitor, the lock and the new root directory. *)

From S2P Require Import Prelude.
From S2P Require Import Clib.
From S2P Require Import Keeps.
From S2P Require Import Bpf.
From S2P Require Import Caps.
From S2P Require Import SyscallTables.
From S2P Require Import SyscallGroups.
From S2P Require Import FilterFile.
From S2P Require Import Syscall.
From S2P Require Import SyscallSpec.
From S2P Require Import DropSpec.
From S2P Require Import Fseccomp.
From S2P Require Import Optimizer.
From S2P Require Import Install.
From S2P Require Import DropTheorems.
From S2P Require Import OptimizerTheorems.
From S2P Require Import InstallTheorems.
From S2P Require Import Env.
From S2P Require Import Text.
From S2P Require Import Common.
From S2P Require Import Util.
From S2P Require Import UtilTheorems.
From S2P Require Import Dbus.
From S2P Require Import Checkcfg.
From S2P Require Import Macros.
From S2P Require Import ProfileState.
From S2P Require Import ProfileCommands.
From S2P Require Import ProfileReadTheorems.
From S2P Require Import NetConfig.
From S2P Require Import MainCommands.
From S2P Require Import MainOptions.
From S2P Require Import OptionTheorems.
From S2P Require Import Startup.
From S2P Require Import Sys.
From S2P Require Import SysFiles.
From S2P Require Import FsBin.
From S2P Require Import Trace.
From S2P Require Import Session.
From S2P Require Import FsWhitelist.
From S2P Require Import Chroot.
From S2P Require Import MainSetup.
From S2P Require Import Sandbox.
From S2P Require Import Parent.
From S2P Require Import MainTheorems.
From S2P Require Import SandboxKeeps.

(** ** The variables that stay *)

(** All variables but those the programs write and those of [l]. *)
Definition same_but (l : list string) (c c' : Config) : Prop :=
  (forall n, names (written_ints ++ l) n = false -> int_of n c' = int_of n c) /\
  (forall n, names written_strs n = false -> str_of n c' = str_of n c) /\
  later c c'.

Lemma later_eq c c' : effects c' = effects c -> later c c'.
Proof. intros E. exists []. by rewrite app_nil_r. Qed.
Lemma later_trans c1 c2 c3 : later c1 c2 -> later c2 c3 -> later c1 c3.
Proof. intros [l1 E1] [l2 E2]. exists (l1 ++ l2). by rewrite E2, E1, app_assoc. Qed.

#[export] Instance same_but_preorder l : PreOrder (same_but l).
Proof.
  split.
  - intros c. split; [done|split; [done|by apply later_eq]].
  - intros c1 c2 c3 (I1 & S1 & L1) (I2 & S2 & L2). split; [|split; [|by eapply later_trans]]; intros n Hn.
    + by rewrite I2, I1.
    + by rewrite S2, S1.
Qed.

Lemma names_app l l' n : names (l ++ l') n = names l n || names l' n.
Proof. apply existsb_app. Qed.

Lemma same_but_mono l l' c c' : (forall n, names l n = true -> names l' n = true) -> same_but l c c' -> same_but l' c c'.
Proof.
  intros Hl (I & S & L). split; [|done]. intros n Hn. apply I. rewrite names_app in *.
  apply orb_false_iff in Hn as [Hw Hn]. rewrite Hw. destruct (names l n) eqn:E; [|done]. by rewrite (Hl _ E) in Hn.
Qed.

Lemma same_but_weaken l c c' : same_but [] c c' -> same_but l c c'.
Proof. by apply same_but_mono. Qed.

Lemma int_of_insert_ne n m v c : streq n m = false -> int_of m (with_ints (<[n := v]> (ints c)) c) = int_of m c.
Proof.
  intros E. unfold int_of, streq in *. cbn [ints with_ints]. by rewrite lookup_insert_ne by (by apply String.eqb_neq).
Qed.

Lemma set_int_same l n v : names (written_ints ++ l) n = true -> keeps (same_but l) (set_int n v).
Proof.
  intros Hn. apply keeps_modify. intros c. split; [|split; [done|by apply later_eq]]. intros m Hm.
  apply int_of_insert_ne. destruct (streq n m) eqn:E; [|done]. apply String.eqb_eq in E. subst. congruence.
Qed.

Lemma set_str_same l n v : names written_strs n = true -> keeps (same_but l) (set_str n v).
Proof.
  intros Hn. apply keeps_modify. intros c. split; [done|split; [|by apply later_eq]]. intros m Hm.
  unfold str_of. cbn [strs with_strs]. rewrite lookup_insert_ne; [done|]. intros ->. congruence.
Qed.

#[export] Instance same_but_sandbox l : SandboxPrimitives (same_but l).
Proof.
  split.
  - exact _.
  - intros n v Hn. apply set_int_same. by rewrite names_app, Hn.
  - intros n v Hn. by apply set_str_same.
  - intros e. apply keeps_modify. intros c. split; [done|split; [done|by exists [e]]].
  - intros m c. unfold in_env. rewrite cget_bind. destruct (m (environment c)) as [r p].
    rewrite cmodify_bind. split; [done|split; [done|by apply later_eq]].
  - intros; apply keeps_modify; intros c; split; [done|split; [done|by apply later_eq]].
  - intros; apply keeps_modify; intros c; split; [done|split; [done|by apply later_eq]].
  - intros; apply keeps_modify; intros c; split; [done|split; [done|by apply later_eq]].
Qed.

(** The parent answers a message as [parent] does. *)
Class ParentLaws `{ChildHost} : Prop :=
  parent_replies l m : from_parent (l ++ [Call "write" 0 [m]]) = parent_reply m.

(** What the process may change of the variables in all. *)
Definition changeable : list string := raised_ints ++ ["arg_noroot"].

Section Child.
Context `{H : Host} `{CH : CapHeaders} `{CK : CapKernel} `{N : NetHost} `{SS : StartHost} `{SH : SysHeaders}
  `{KOS : OS} `{K : Kernel} `{SEH : SessionHost} `{CHH : ChildHost} {CL : CapLaws} {PL : ParentLaws}.

Ltac same_vars := intros (I & S & _); unfold seccomp_config, caps_config_of, group_flags_of, initial_filters, copied_filters,
  copied_namespaces, given, set; rewrite ?I, ?S by reflexivity; reflexivity.

Lemma seccomp_config_same c c' : same_but changeable c c' -> seccomp_config c' = seccomp_config c.
Proof. same_vars. Qed.
Lemma initial_filters_same c c' : same_but changeable c c' -> initial_filters c' = initial_filters c.
Proof. same_vars. Qed.
Lemma caps_config_same c c' : same_but ["arg_noroot"] c c' -> caps_config_of c' = caps_config_of c.
Proof. same_vars. Qed.
Lemma group_flags_same c c' : same_but ["arg_noroot"] c c' -> group_flags_of c' = group_flags_of c.
Proof. same_vars. Qed.

Lemma same_changeable c c' : same_but ["arg_noroot"] c c' -> same_but changeable c c'.
Proof. apply same_but_mono. intros n Hn. unfold changeable. rewrite names_app, Hn. by rewrite orb_true_r. Qed.

(** ** Runs of the parts *)

Lemma inP_inv {A} (m : P A) s a s' : inP m s = (Ok a, s') -> exists c, m (ch_cfg s) = (Ok a, c) /\ s' = with_cfg c s.
Proof. unfold inP, zoom. destruct (m (ch_cfg s)) as [r c]. intros [= -> <-]. eauto. Qed.
Lemma inSB_inv {A} (m : SB A) s a s' : inSB m s = (Ok a, s') -> exists k, m (ch_sec s) = (Ok a, k) /\ s' = with_sec k s.
Proof. unfold inSB, zoom. destruct (m (ch_sec s)) as [r c]. intros [= -> <-]. eauto. Qed.
Lemma inCaps_inv {A} (m : CM caps_state A) s a s' :
  inCaps m s = (Ok a, s') -> exists k, m (ch_caps s) = (Ok a, k) /\ s' = with_caps k s.
Proof. unfold inCaps, zoom. destruct (m (ch_caps s)) as [r c]. intros [= -> <-]. eauto. Qed.

Lemma inP_same l {A} (m : P A) s a s' : keeps (same_but l) m -> inP m s = (Ok a, s') ->
  exists c, same_but l (ch_cfg s) c /\ s' = with_cfg c s.
Proof. intros Hm (c & E & ->)%inP_inv. exists c. split; [|done]. specialize (Hm (ch_cfg s)). by rewrite E in Hm. Qed.

Lemma noroot_keeps v : keeps (same_but ["arg_noroot"]) (set_int "arg_noroot" v).
Proof. by apply set_int_same. Qed.
Lemma raised_keeps n : names raised_ints n = true -> keeps (same_but raised_ints) (set_int n 1).
Proof. intros Hn. apply set_int_same. by rewrite names_app, Hn, orb_true_r. Qed.

Lemma waiting_keeps : keeps (same_but ["arg_noroot"]) wait_for_parent.
Proof. pose proof noroot_keeps. keeps_deep. Qed.

(** The value the processes exchange. *)
Definition agreed (c : Config) : Prop := int_of "arg_noroot" c = 0 \/ int_of "arg_noroot" c = 1.

Lemma wait_agreed c u c' : wait_for_parent c = (Ok u, c') -> agreed c'.
Proof.
  unfold wait_for_parent, ask. intros (buf & c1 & [= <- <-] & E)%cbind_inv. apply cbind_inv in E as (v & c2 & [= Ev <-] & E).
  injection E as <- <-. unfold agreed. rewrite int_of_insert, streq_refl.
  unfold wait_for_other in Ev. destruct (from_parent (effects c)); [|done]. destruct (strchr_split _ _) as [[msg ?]|]; [|done].
  destruct (streq _ _); [left; congruence|]. destruct (streq _ _); [right; congruence|done].
Qed.

Lemma agreed_same c c' : same_but [] c c' -> agreed c -> agreed c'.
Proof. intros (I & _). unfold agreed. by rewrite I. Qed.

Lemma mounts_keeps : keeps (same_but [])
  (r <~ mount Nowhere (At "/") "" (flags [MS_SLAVE; MS_REC]) "" ;;
   (if r =? 0 then cret tt else chk_chroot) ;;; preproc_mount_mnt_dir).
Proof. pose proof (mount_mnt_dir_keeps (same_but [])). keeps_deep. Qed.

Lemma mount_namespace_ok s s' : mount_namespace s = (Ok tt, s') ->
  exists c, same_but ["arg_noroot"] (ch_cfg s) c /\ agreed c /\
    s' = with_cfg c (with_sec (Sandbox (initial_filters (ch_cfg s)) [] []) s).
Proof.
  unfold mount_namespace. intros ([] & s1 & (c1 & E1 & ->)%inP_inv & E)%cbind_inv.
  apply cbind_inv in E1 as ([] & c0 & E0 & E1). pose proof (waiting_keeps (ch_cfg s)) as S0. rewrite E0 in S0.
  apply wait_agreed in E0. pose proof (mounts_keeps c0) as S1. rewrite E1 in S1. cbn [snd] in S0, S1.
  rewrite cget_bind, cmodify_bind in E. apply (inP_same []) in E as (c2 & S2 & ->); [|keeps_deep]. cbn in S2 |- *.
  assert (same_but [] c0 c2) as S02 by (by etrans).
  exists c2. assert (same_but ["arg_noroot"] (ch_cfg s) c1) as S01 by (etrans; [exact S0|by apply same_but_weaken]).
  rewrite (initial_filters_same _ _ (same_changeable _ _ S01)). split; [|split; [by eapply agreed_same|done]].
  etrans; [exact S0|by apply same_but_weaken].
Qed.

(** The filter of --protocol, written before the file system changes. *)
Definition protocol_filter (cfg : config) : SB unit :=
  match protocol_list cfg with
  | Some p => rv <~ fseccomp cfg ["protocol"; "build"; p; RUN_SECCOMP_PROTOCOL] ;; check_status rv
  | None => cret tt
  end.

Lemma build_protocol_ok s s' : build_protocol s = (Ok tt, s') ->
  exists k, protocol_filter (seccomp_config (ch_cfg s)) (ch_sec s) = (Ok tt, k) /\ s' = with_sec k s.
Proof.
  unfold build_protocol. rewrite cget_bind. unfold protocol_filter. cbn [seccomp_config protocol_list].
  destruct (str_of "protocol" (ch_cfg s)).
  - intros (rv & s1 & (k1 & E1 & ->)%inSB_inv & (k2 & E2 & ->)%inSB_inv)%cbind_inv. cbn in E2 |- *.
    exists k2. by rewrite (cbind_ok _ _ _ _ _ E1).
  - intros [= <-]. exists (ch_sec s). split; [done|]. by destruct s.
Qed.

Lemma set_seccomp_filters_ok s s' : set_seccomp_filters s = (Ok tt, s') ->
  exists c k, same_but [] (ch_cfg s) c /\ set_seccomp (seccomp_config (ch_cfg s)) (ch_sec s) = (Ok tt, k) /\
    s' = with_cfg c (with_sec k s).
Proof.
  unfold set_seccomp_filters. intros ([] & s1 & E1 & E)%cbind_inv.
  apply (inP_same []) in E1 as (c1 & S1 & ->); [|apply save_files_keeps, _]. rewrite cget_bind in E. cbn [ch_cfg with_cfg] in E.
  rewrite (seccomp_config_same _ _ (same_but_weaken changeable _ _ S1)) in E.
  apply cbind_inv in E as ([] & s2 & (k1 & K1 & ->)%inSB_inv & E). cbn in K1.
  apply cbind_inv in E as ([] & s3 & E3 & E).
  assert (exists c3, same_but [] c1 c3 /\ s3 = with_cfg c3 (with_sec k1 s)) as (c3 & S3 & ->).
  { destruct (given _ _); [|injection E3 as <-; exists c1; split; [reflexivity|by destruct s]].
    apply (inP_same []) in E3 as (c3 & S3 & ->); [|apply protocol_save_keeps, _]. by exists c3. }
  apply cbind_inv in E as ([] & s4 & (k2 & K2 & ->)%inSB_inv & E). cbn in K2.
  apply (inP_same []) in E as (c4 & S4 & ->); [|apply remount_keeps, _]. cbn in S4 |- *.
  exists c4, k2. split; [etrans; [exact S1|by etrans]|]. split; [|done].
  unfold set_seccomp. by rewrite (cbind_ok _ _ _ _ _ K1).
Qed.

Lemma set_child_caps_ok s s' : set_child_caps s = (Ok tt, s') ->
  exists k, set_caps (caps_config_of (ch_cfg s)) (ch_caps s) = (Ok tt, k) /\ s' = with_caps k s.
Proof. unfold set_child_caps. rewrite cget_bind. apply inCaps_inv. Qed.

Lemma prctl_no_new_privs_ok s r s' : prctl_no_new_privs s = (Ok r, s') ->
  exists c, same_but [] (ch_cfg s) c /\ effects c = effects (ch_cfg s) ++ [Call "prctl" 1 ["PR_SET_NO_NEW_PRIVS"]] /\
    r = sys_errno (effects c) /\ s' = with_cfg c (with_nnp (ch_nnp s || (r =? 0)) s).
Proof.
  unfold prctl_no_new_privs. intros (r1 & s1 & (c & E1 & ->)%inP_inv & E)%cbind_inv.
  assert (same_but [] (ch_cfg s) c /\ effects c = effects (ch_cfg s) ++ [Call "prctl" 1 ["PR_SET_NO_NEW_PRIVS"]] /\
    r1 = sys_errno (effects c)) as (S & Ee & Er).
  { injection E1 as <- <-. split; [split; [done|split; [done|by eexists]]|by split]. }
  exists c. apply cbind_inv in E as ([] & s2 & E2 & [= <- <-]).
  split; [done|]. split; [done|]. split; [done|].
  destruct (r1 =? 0); injection E2 as <-; rewrite ?orb_true_r, ?orb_false_r; by destruct s.
Qed.

Lemma set_no_new_privs_ok s s' : set_no_new_privs s = (Ok tt, s') ->
  exists c, same_but [] (ch_cfg s) c /\ s' = with_cfg c (with_nnp (ch_nnp s || set "arg_nonewprivs" (ch_cfg s)) s).
Proof.
  unfold set_no_new_privs. rewrite cget_bind. destruct (set _ _).
  - intros (r & s1 & (c & S1 & _ & _ & ->)%prctl_no_new_privs_ok & (c2 & E2 & ->)%inP_inv)%cbind_inv.
    unfold or_exit, exit_unless in E2. cbn [ch_cfg with_cfg with_nnp] in E2. destruct (r =? 0); [|done]. injection E2 as <-.
    by exists c.
  - intros [= <-]. exists (ch_cfg s). split; [reflexivity|]. rewrite orb_false_r. by destruct s.
Qed.

(** NO_NEW_PRIVS, when the filters [ps] are installed. *)
Definition nnp_with (ps : list (list sock_filter)) (before after : bool) : Prop :=
  (before = true -> after = true) /\ (after = true -> before = true \/ ps <> []).

Lemma install_filters_ok s s' : install_filters s = (Ok tt, s') ->
  exists c l n, same_but [] (ch_cfg s) c /\ effects c = effects (ch_cfg s) ++ l /\ nnp_with (installed (ch_sec s)) (ch_nnp s) n /\
    s' = with_programs (ch_programs s ++ List.filter accepts_filter (installed (ch_sec s))) (with_nnp n (with_cfg c s)).
Proof.
  unfold install_filters. rewrite cget_bind. intros ([] & s1 & E1 & [= <-])%cbind_inv.
  assert (exists c l n, same_but [] (ch_cfg s) c /\ effects c = effects (ch_cfg s) ++ l /\
    nnp_with (installed (ch_sec s)) (ch_nnp s) n /\ s1 = with_nnp n (with_cfg c s)) as (c & l & n & HS & El & Hn & ->).
  { destruct (sb_filters (ch_sec s)) as [|f fs] eqn:Ef.
    - injection E1 as <-. exists (ch_cfg s), [], (ch_nnp s). split; [reflexivity|]. rewrite app_nil_r.
      split; [done|]. split; [split; auto|]. by destruct s.
    - apply cbind_inv in E1 as (r & s2 & (c & S1 & Ee & _ & ->)%prctl_no_new_privs_ok & [= <-]).
      exists c, [Call "prctl" 1 ["PR_SET_NO_NEW_PRIVS"]], (ch_nnp s || (r =? 0)). split; [done|]. split; [done|].
      split; [|done]. split; [by intros ->|]. intros _. right. unfold installed. by rewrite Ef. }
  exists c, l, n. split; [done|]. split; [done|]. split; [done|]. by destruct s.
Qed.

(** The groups the process has behind drop_privs. *)
Definition groups_left (force : bool) (c : Config) (current : list Z) : outcome (list Z) :=
  drop_privs get_group_id (group_flags_of c) (set "arg_noroot" c) force can_drop_all own_gid current user_groups accepts_groups.

Lemma groups_left_same force c c' g : same_but [] c c' -> groups_left force c' g = groups_left force c g.
Proof.
  intros HS. unfold groups_left. rewrite (group_flags_same _ _ (same_but_weaken _ _ _ HS)).
  destruct HS as (I & _). unfold set. by rewrite I.
Qed.

Lemma drop_to_user_ok force s s' : drop_to_user force s = (Ok tt, s') ->
  exists c g, same_but [] (ch_cfg s) c /\ groups_left force (ch_cfg s) (ch_groups s) = Ok g /\
    s' = with_cfg c (with_groups g (with_ids true s)).
Proof.
  unfold drop_to_user. intros ([] & s1 & E1 & E)%cbind_inv.
  apply (inP_same []) in E1 as (c1 & S1 & ->); [|keeps_deep]. rewrite cget_bind in E. cbn [ch_cfg ch_groups with_cfg] in E.
  apply cbind_inv in E as (g & s2 & [= Eg <-] & E). rewrite cmodify_bind in E.
  apply cbind_inv in E as ([] & s3 & E3 & [= <-]). apply (inP_same []) in E3 as (c3 & S3 & ->); [|keeps_deep].
  cbn in S3 |- *. exists c3, g. split; [by etrans|]. split; [|done].
  rewrite <- (groups_left_same _ _ _ _ S1). exact Eg.
Qed.

(** The bounding set is restricted to what the options keep. *)
Definition caps_left (cfg : caps_config) (k k' : caps_state) : Prop :=
  arg_caps_drop_all cfg = true \/ caps_config_ok cfg ->
  forall n, 0 <= n <= cap_last -> Z.testbit (bset k') n = Z.testbit (bset k) n && cap_kept cfg n.

Lemma set_caps_left cfg k k' : set_caps cfg k = (Ok tt, k') -> caps_left cfg k k'.
Proof. intros E Hc n Hn. destruct (leaves_set_caps cfg Hc k) as (k2 & E2 & H2). assert (k' = k2) as -> by congruence. by apply H2. Qed.

Lemma caps_left_again cfg k k1 k2 : caps_left cfg k k1 -> caps_left cfg k1 k2 -> caps_left cfg k k2.
Proof. intros H1 H2 Hc n Hn. rewrite H2, H1 by done. by destruct (Z.testbit (bset k) n), (cap_kept cfg n). Qed.

(** What the process starts from: a user namespace comes with all capabilities. *)
Definition caps_base (c : Config) (k : caps_state) : caps_state := if set "arg_noroot" c then full_caps k else k.

Lemma user_namespace_ok s s' : new_user_namespace s = (Ok tt, s') ->
  exists c, same_but ["arg_noroot"] (ch_cfg s) c /\ s' = with_cfg c (with_caps (caps_base c (ch_caps s)) s) /\
    (agreed (ch_cfg s) -> agreed c).
Proof.
  unfold new_user_namespace. rewrite cget_bind. unfold caps_base. destruct (set _ _) eqn:Es.
  - intros (r & s1 & E1 & E)%cbind_inv. apply (inP_same []) in E1 as (c1 & S1 & ->); [|keeps_deep].
    destruct (r =? 0).
    + injection E as <-. exists c1. split; [by apply same_but_weaken|].
      assert (set "arg_noroot" c1 = true) as -> by (destruct S1 as (I & _); unfold set in *; by rewrite I).
      split; [done|by apply agreed_same].
    + injection E as <-. exists (with_ints (<["arg_noroot" := 0]> (ints c1)) c1). split; [|split].
      * etrans; [by apply same_but_weaken|]. exact (noroot_keeps 0 c1).
      * assert (set "arg_noroot" (with_ints (<["arg_noroot" := 0]> (ints c1)) c1) = false) as ->; [|done].
        unfold set. by rewrite int_of_insert.
      * intros _. left. by rewrite int_of_insert.
  - intros [= <-]. exists (ch_cfg s). split; [reflexivity|]. rewrite Es. by destruct s.
Qed.

(** The parent repeats what it is told, so that the variable does not change. *)
Lemma exchange_ok c u c' : agreed c -> (notify_other_end ;;; wait_for_parent) c = (Ok u, c') -> same_but [] c c'.
Proof.
  intros Ha ([] & c1 & E1 & E)%cbind_inv.
  assert (same_but [] c c1 /\ from_parent (effects c1) = Some (notify_other (int_of "arg_noroot" c))) as [S1 Ef].
  { unfold notify_other_end, get_int in E1. rewrite cbind_assoc, cget_bind, cret_bind in E1. injection E1 as <-.
    split; [split; [done|split; [done|by eexists]]|]. cbn [effects with_effects]. rewrite parent_replies.
    unfold parent_reply. by rewrite wait_notify_roundtrip. }
  unfold wait_for_parent, ask in E. rewrite cbind_assoc, cget_bind, cret_bind, Ef, wait_notify_roundtrip in E by done.
  injection E as <- <-. etrans; [exact S1|]. split; [|split; [done|by apply later_eq]].
  intros n Hn. rewrite int_of_insert. destruct (streq "arg_noroot" n) eqn:En; [|done].
  apply streq_eq in En as <-. destruct S1 as (I & _). by rewrite I.
Qed.

(** The second time is for a user namespace. *)
Lemma caps_again_ok b s s' : (if b : bool then set_child_caps else cret tt) s = (Ok tt, s') ->
  exists k, s' = with_caps k s /\
    if b then caps_left (caps_config_of (ch_cfg s)) (ch_caps s) k else k = ch_caps s.
Proof.
  destruct b.
  - intros (k & E & ->)%set_child_caps_ok. exists k. split; [done|]. by apply set_caps_left.
  - intros [= <-]. exists (ch_caps s). by destruct s.
Qed.

Lemma set_security_ok s s' : agreed (ch_cfg s) -> set_security s = (Ok tt, s') ->
  exists c sb k g, same_but ["arg_noroot"] (ch_cfg s) c /\
    set_seccomp (seccomp_config (ch_cfg s)) (ch_sec s) = (Ok tt, sb) /\
    caps_left (caps_config_of (ch_cfg s)) (caps_base c (ch_caps s)) k /\ groups_left false c (ch_groups s) = Ok g /\
    s' = mk_child c sb k g (ch_nnp s || set "arg_nonewprivs" c) true (ch_programs s).
Proof.
  unfold set_security. intros Ha ([] & s1 & (c1 & sb & S1 & Esb & ->)%set_seccomp_filters_ok & E)%cbind_inv.
  apply cbind_inv in E as ([] & s2 & E2 & E). apply (inP_same []) in E2 as (c2 & S2 & ->); [|keeps_deep].
  apply cbind_inv in E as ([] & s3 & (k1 & K1 & ->)%set_child_caps_ok & E). apply set_caps_left in K1.
  apply cbind_inv in E as ([] & s4 & E4 & E). apply (inP_same []) in E4 as (c3 & S3 & ->); [|keeps_deep].
  apply cbind_inv in E as ([] & s5 & (c4 & S4 & -> & A4)%user_namespace_ok & E).
  apply cbind_inv in E as ([] & s6 & (c5 & E5 & ->)%inP_inv & E).
  rewrite cget_bind in E. apply cbind_inv in E as ([] & s7 & (k2 & -> & K2)%caps_again_ok & E).
  apply cbind_inv in E as ([] & s8 & (c6 & S6 & ->)%set_no_new_privs_ok & E).
  apply cbind_inv in E as ([] & s9 & (c7 & g & S7 & Eg & ->)%drop_to_user_ok & E).
  apply (inP_same []) in E as (c8 & S8 & ->); [|keeps_deep].
  cbn in *.
  assert (same_but [] (ch_cfg s) c2) as S02 by (by etrans).
  assert (same_but [] (ch_cfg s) c3) as S03 by (by etrans).
  assert (same_but [] c4 c5) as S45 by (by apply exchange_ok in E5; [|apply A4, (agreed_same _ _ S03)]).
  assert (same_but [] c6 c8) as S68 by (by etrans).
  assert (same_but [] c5 c8) as S58 by (by etrans).
  exists c8, sb, k2, g. split; [|split; [exact Esb|split; [|split]]].
  - etrans; [apply same_but_weaken, S03|]. etrans; [exact S4|]. apply same_but_weaken. by etrans.
  - assert (set "arg_noroot" c5 = set "arg_noroot" c4) as E54 by (destruct S45 as (I & _); unfold set; by rewrite I).
    assert (set "arg_noroot" c8 = set "arg_noroot" c4) as E84 by (destruct S58 as (I & _); unfold set in *; by rewrite I).
    assert (caps_config_of c5 = caps_config_of (ch_cfg s)) as Ec5.
    { apply caps_config_same. etrans; [apply same_but_weaken, S03|]. etrans; [exact S4|by apply same_but_weaken]. }
    rewrite E54, Ec5 in K2. unfold caps_base in *. rewrite E84. destruct (set "arg_noroot" c4); [exact K2|].
    subst k2. by rewrite <- (caps_config_same _ _ (same_but_weaken _ _ _ S02)).
  - by rewrite (groups_left_same _ _ _ _ S68).
  - do 2 f_equal. unfold set. destruct S58 as (I & _). by rewrite I.
Qed.

(** ** The whole process *)

(** Images and chroots of a user that is not root. *)
Definition enforced (c : Config) : bool := negb (uid =? 0) && (set "arg_appimage" c || given "chrootdir" c).

Lemma raised_only n : names raised_ints n = true ->
  names (written_ints ++ ["arg_noroot"]) n = false /\ names (written_ints ++ []) n = false.
Proof. intros (m & Hm & ->%String.eqb_eq)%existsb_exists. by repeat destruct Hm as [<-|Hm]. Qed.

Lemma enforce_ok c c' : enforce_for_images c = (Ok tt, c') ->
  same_but raised_ints c c' /\
  forall n, names raised_ints n = true -> int_of n c' = if enforced c then 1 else int_of n c.
Proof.
  intros E. split.
  - assert (keeps (same_but raised_ints) enforce_for_images) as Hk.
    { pose proof raised_keeps. unfold enforce_for_images, enforce_filters. keeps_tac; auto. }
    specialize (Hk c). by rewrite E in Hk.
  - revert E. unfold enforce_for_images. rewrite cget_bind. fold (enforced c).
    destruct (enforced c); [|by intros [= <-]]. unfold enforce_filters, set_int. rewrite !cmodify_bind. intros E. apply (f_equal snd) in E. cbn [snd cmodify] in E. subst c'. intros n Hn. rewrite !int_of_insert.
    apply existsb_exists in Hn as (m & Hm & ->%String.eqb_eq). by repeat destruct Hm as [<-|Hm].
Qed.

Lemma sandbox_setup_ok fuel s s' : sandbox_setup fuel s = (Ok tt, s') ->
  exists c sb k g, let c0 := ch_cfg s in let cfg := seccomp_config c0 in
    same_but changeable c0 c /\ (forall n, names raised_ints n = true -> int_of n c = if enforced c0 then 1 else int_of n c0) /\
    (protocol_filter cfg ;;; set_seccomp cfg) (Sandbox (initial_filters c0) [] []) = (Ok tt, sb) /\
    caps_left (caps_config_of c) (caps_base c (ch_caps s)) k /\ groups_left false c (ch_groups s) = Ok g /\
    s' = mk_child c sb k g (ch_nnp s || set "arg_nonewprivs" c) true (ch_programs s).
Proof.
  unfold sandbox_setup. intros ([] & s1 & (c1 & S1 & A1 & ->)%mount_namespace_ok & E)%cbind_inv.
  apply cbind_inv in E as ([] & s2 & E2 & E). apply (inP_same []) in E2 as (c2 & S2 & ->); [|apply setup_network_keeps, _].
  apply cbind_inv in E as ([] & s3 & (k3 & K3 & ->)%build_protocol_ok & E).
  apply cbind_inv in E as ([] & s4 & (c5 & E4 & ->)%inP_inv & E). unfold configure_fs in E4.
  apply cbind_inv in E4 as ([] & c4 & [S4 R4]%enforce_ok & E4).
  pose proof (build_fs_keeps (same_but []) fuel c4) as S5. rewrite E4 in S5. clear E4.
  assert (agreed c5) as A5.
  { destruct S5 as (I5 & _). destruct S4 as (I4 & _). destruct S2 as (I2 & _). unfold agreed in *. by rewrite I5, I4, I2. }
  apply set_security_ok in E as (c6 & sb & k & g & S6 & Esb & Hk & Hg & ->); [|exact A5]. cbn in *.
  assert (same_but ["arg_noroot"] (ch_cfg s) c2) as S02 by (etrans; [exact S1|by apply same_but_weaken]).
  assert (same_but changeable c2 c5) as S25.
  { etrans; [|apply same_but_weaken, S5]. eapply same_but_mono, S4. intros n Hn. unfold changeable.
    by rewrite names_app, Hn. }
  assert (same_but changeable (ch_cfg s) c5) as S05 by (etrans; [by apply same_changeable|done]).
  exists c6, sb, k, g. cbv zeta. split; [etrans; [exact S05|by apply same_changeable]|].
  assert (enforced c2 = enforced (ch_cfg s)) as Ee.
  { unfold enforced, set, given. destruct S02 as (I & St & _). by rewrite I, St. }
  split; [|split; [|split; [by rewrite (caps_config_same _ _ S6)|by split]]].
  - intros n Hn. destruct S6 as (I6 & _). destruct S5 as (I5 & _). destruct S02 as (I2 & _).
    destruct (raised_only _ Hn) as [Hn1 Hn2]. by rewrite I6, I5, R4, Ee, I2.
  - rewrite (seccomp_config_same _ _ (same_changeable _ _ S02)) in K3. rewrite (seccomp_config_same _ _ S05) in Esb.
    by rewrite (cbind_ok _ _ _ _ _ K3).
Qed.

Lemma install_and_exec_ok st program s s' : install_and_exec st program s = (Ok 0, s') ->
  exists c l n, same_but [] (ch_cfg s) c /\
    effects c = effects (ch_cfg s) ++ l ++ (if st then [Call "set_sandbox_status" 0 []] else []) ++ [Exec program.1 program.2] /\
    nnp_with (installed (ch_sec s)) (ch_nnp s) n /\
    s' = with_programs (ch_programs s ++ List.filter accepts_filter (installed (ch_sec s))) (with_nnp n (with_cfg c s)).
Proof.
  unfold install_and_exec. intros ([] & s1 & (c1 & l & n & S1 & El & Hn & ->)%install_filters_ok & E)%cbind_inv.
  apply inP_inv in E as (c & E & ->). cbn in E. exists c, l, n.
  assert (same_but [] c1 c /\ effects c = effects c1 ++ (if st then [Call "set_sandbox_status" 0 []] else []) ++ [Exec program.1 program.2])
    as [S2 Ee].
  { destruct st; injection E as _ <-; cbn; rewrite <- ?app_assoc; (split; [|done]);
      (split; [done|split; [done|]]); eexists; cbn; by rewrite <- ?app_assoc. }
  split; [by etrans|]. split; [|done]. by rewrite Ee, El, <- app_assoc.
Qed.

Lemma start_application_ok ns st s s' : start_application ns st s = (Ok tt, s') ->
  exists c1 c' program l n, same_but [] (ch_cfg s) c1 /\ same_but [] c1 c' /\ application c1 = Ok program /\
    effects c' = effects c1 ++ l ++ (if st then [Call "set_sandbox_status" 0 []] else []) ++ [Exec program.1 program.2] /\
    nnp_with (installed (ch_sec s)) (ch_nnp s) n /\
    s' = with_programs (ch_programs s ++ List.filter accepts_filter (installed (ch_sec s))) (with_nnp n (with_cfg c' s)).
Proof.
  unfold start_application. intros ([] & s1 & E1 & E)%cbind_inv.
  apply (inP_same []) in E1 as (c1 & S1 & ->).
  2:{ pose proof (prepare_keeps (same_but [])). pose proof (landlock_keeps (same_but [])). keeps_deep. }
  rewrite cget_bind in E. apply cbind_inv in E as (program & s2 & [= Ep <-] & E).
  apply cbind_inv in E as (r & s3 & E3 & E). destruct (Z.eqb_spec r 0) as [->|]; [|done]. injection E as <-.
  apply install_and_exec_ok in E3 as (c3 & l & n & S3 & Ee & Hn & ->). cbn in *. by exists c1, c3, program, l, n.
Qed.

(** What holds between the process that was cloned, in [s], and the program, in [s']. *)
Definition confined (s s' : child) : Prop :=
  let c := ch_cfg s in let c' := ch_cfg s' in let cfg := seccomp_config c in
  same_but changeable c c' /\
  (forall n, names raised_ints n = true -> int_of n c' = if enforced c then 1 else int_of n c) /\
  (protocol_filter cfg ;;; set_seccomp cfg) (Sandbox (initial_filters c) [] []) = (Ok tt, ch_sec s') /\
  ch_programs s' = ch_programs s ++ List.filter accepts_filter (installed (ch_sec s')) /\
  caps_left (caps_config_of c') (caps_base c' (ch_caps s)) (ch_caps s') /\
  groups_left false c' (ch_groups s) = Ok (ch_groups s') /\
  (ch_nnp s || set "arg_nonewprivs" c' = true -> ch_nnp s' = true) /\ ch_ids s' = true /\
  exists c1 program l, application c1 = Ok program /\ same_but [] c1 c' /\
    effects c' = effects c1 ++ l ++ [Call "set_sandbox_status" 0 []; Exec program.1 program.2].

Lemma sandbox_confined fuel s s' : sandbox_application fuel s = (Ok tt, s') -> confined s s'.
Proof.
  unfold sandbox_application, confined. intros ([] & s1 & (c1 & sb & k & g & S1 & R1 & Esb & Hk & Hg & ->)%sandbox_setup_ok & E)%cbind_inv.
  apply start_application_ok in E as (c2 & c' & program & l & b & S2 & S3 & Ep & Ee & Hb & ->). cbn in *.
  assert (same_but [] c1 c') as S4 by (by etrans).
  split; [etrans; [exact S1|by apply same_but_weaken]|].
  split; [|split; [done|split; [done|split; [|split; [|split]]]]].
  - intros n Hn. destruct S4 as (I & _). rewrite I; [by apply R1|apply (raised_only _ Hn)].
  - rewrite (caps_config_same _ _ (same_but_weaken _ _ _ S4)). destruct S4 as (I & _). unfold caps_base, set. by rewrite I.
  - by rewrite (groups_left_same _ _ _ _ S4).
  - destruct S4 as (I & _). unfold set. rewrite I by done. apply Hb.
  - split; [done|]. by exists c2, program, l.
Qed.

(** C2: The process becomes the program only with the sandbox in force: the filters the
    kernel runs are those set_seccomp builds for the configuration at clone(2), the
    capability bounding set is what the options keep, the supplementary groups are
    those of drop_privs, the ids are those of the user, and NO_NEW_PRIVS is set when
    it was asked for; images and chroots of a user enforce the last three.  Nothing
    in between changes the variables this depends on. *)
Theorem sandbox_confines fuel s s' :
  sandbox_application fuel s = (Ok tt, s') ->
  let c := ch_cfg s in let c' := ch_cfg s' in let cfg := seccomp_config c in
  same_but changeable c c' /\
  (forall n, names raised_ints n = true -> int_of n c' = if enforced c then 1 else int_of n c) /\
  (protocol_filter cfg ;;; set_seccomp cfg) (Sandbox (initial_filters c) [] []) = (Ok tt, ch_sec s') /\
  ch_programs s' = ch_programs s ++ List.filter accepts_filter (installed (ch_sec s')) /\
  caps_left (caps_config_of c') (caps_base c' (ch_caps s)) (ch_caps s') /\
  groups_left false c' (ch_groups s) = Ok (ch_groups s') /\
  (ch_nnp s || set "arg_nonewprivs" c' = true -> ch_nnp s' = true) /\ ch_ids s' = true /\
  exists c1 program l, application c1 = Ok program /\ same_but [] c1 c' /\
    effects c' = effects c1 ++ l ++ [Call "set_sandbox_status" 0 []; Exec program.1 program.2].
Proof. apply sandbox_confined. Qed.

(** ** From the command line to the program *)

Lemma groups_named c cur gs g : arg_nogroups (group_flags_of c) = true -> groups_left false c cur = Ok gs -> In g gs ->
  g <> 0 /\ (exists all, user_groups = Some all /\ In g all) /\
  exists nm, In nm (wanted_groups (group_flags_of c)) /\ get_group_id nm = g.
Proof.
  intros Hn. unfold groups_left, drop_privs. destruct (_ || _).
  - destruct (accepts_groups []); [|done]. by intros [= <-].
  - rewrite Hn, orb_true_r. intros E Hg.
    destruct (clean_supplementary_groups_safe _ _ _ _ _ _ E) as [_ Hs]. by apply Hs.
Qed.

(** C1: What a restriction on the command line means for the program in the end: with
    --nonewprivs it runs with NO_NEW_PRIVS, with --caps.drop=all without a capability
    in its bounding set, with --nogroups in no group of the user but those firejail
    keeps by name, and never as the group 0; whatever profiles, includes and other
    options were read. *)
Theorem option_confines_program i pre s n post argv pid c flags c' fuel ch ch' :
  forallb is_option pre = true -> In (s, n) flag_options ->
  (prog_index <~ parse_options i (pre ++ s :: post) ;; setup argv prog_index pid) c = (Ok flags, c') ->
  ch_cfg ch = c' -> sandbox_application fuel ch = (Ok tt, ch') ->
  (n = "arg_nonewprivs" -> ch_nnp ch' = true) /\
  (n = "arg_caps_drop_all" -> forall m, 0 <= m <= cap_last -> Z.testbit (bset (ch_caps ch')) m = false) /\
  (n = "arg_nogroups" -> forall g, In g (ch_groups ch') -> g <> 0 /\
     exists nm, In nm (wanted_groups (group_flags_of (ch_cfg ch'))) /\ get_group_id nm = g).
Proof.
  intros Hp Hs E <- Ea. pose proof (restriction_reaches _ _ _ _ _ _ _ _ _ _ Hp Hs E) as Hn.
  destruct (sandbox_confined _ _ _ Ea) as (_ & R & _ & _ & Hk & Hg & Hnnp & _).
  assert (names raised_ints n = true -> set n (ch_cfg ch') = true) as Hset.
  { intros Hr. unfold set. rewrite (R n Hr). destruct (enforced _); [done|]. by apply negb_true_iff, Z.eqb_neq. }
  split; [|split].
  - intros ->. apply Hnnp. rewrite Hset by done. apply orb_true_r.
  - intros -> m Hm. rewrite (Hk (or_introl (Hset eq_refl)) m Hm). unfold cap_kept. cbn [arg_caps_drop_all caps_config_of].
    rewrite Hset by done. apply andb_false_r.
  - intros -> g Hi. destruct (groups_named _ _ _ _ (Hset eq_refl) Hg Hi) as (H0 & _ & Hw). done.
Qed.
End Child.

(** ** Filters in force *)

Section Filters.
Context `{H : Host} `{CH : CapHeaders} `{CK : CapKernel} `{N : NetHost} `{SS : StartHost} `{SH : SysHeaders}
  `{KOS : OS} `{K : Kernel} `{SEH : SessionHost} `{CHH : ChildHost} {CL : CapLaws} {OL : OSLaws}
  `{BM : BpfMachine} {BL : BpfLaws} {PL : ParentLaws}.

(** C3: --seccomp.drop from the configuration to the kernel, for a list of fewer than 60
    entries, without a keep list and without --seccomp.block-secondary, when the files
    of the filters are written in full and the kernel takes them: through the children
    that build and optimize the filter, the filters loaded behind it and the install,
    the program runs with a filter that decides every native system call as
    [drop_action] does: an entry with an action of its own decides first; a listed call
    of the table gets the error action, unless firejail needs it itself up to execve
    (that one is left to the filter installed behind it); every other call passes,
    a listed number of no call in the table included. *)
Theorem listed_calls_blocked fuel s s' str act es :
  full_writes -> (forall p, accepts_filter p = true) -> sandbox_application fuel s = (Ok tt, s') ->
  error_action (str_of "seccomp_error_action" (ch_cfg s)) = Ok act -> int_of "arg_seccomp" (ch_cfg s) = 1 ->
  str_of "seccomp_list_keep" (ch_cfg s) = None -> str_of "seccomp_list_drop" (ch_cfg s) = Some str ->
  int_of "arg_seccomp_block_secondary" (ch_cfg s) = 0 ->
  SyscallSpec.expand SCL_DEPTH true str = Ok es -> numbers_ok es -> (length es < 60)%nat ->
  exists p, In p (ch_programs s') /\ forall d, nr_ok (sd_nr d) ->
    run_filter p d = Some (gate true (u32 act) (drop_action true (u32 act) es (sd_nr d)) d).
Proof.
  intros Hw Hacc E He Ha Hk Hd Hb Hx Hn Hl.
  destruct (sandbox_confined _ _ _ E) as (_ & _ & Esb & Ep & _).
  apply cbind_inv in Esb as ([] & s1 & _ & Esb). apply cbind_inv in Esb as ([] & s2 & _ & Esb).
  destruct (drop_installed (seccomp_config (ch_cfg s)) str act es _ _ Hw He (proj2 (Z.eqb_eq _ _) Ha) Hk Hd
              (proj2 (negb_false_iff _) (proj2 (Z.eqb_eq _ _) Hb)) Hx Hn Hl Esb) as (p & Hp & Hr).
  exists p. split; [|done]. rewrite Ep. apply in_or_app. right. apply List.filter_In. by split.
Qed.
End Filters.

(** ** The lock of /run/firejail *)

(** The microseconds slept. *)
Definition usleeps (e : effect) : Z :=
  match e with Call f usec _ => if streq f "usleep" then usec else 0 | _ => 0 end.
Fixpoint slept (l : list effect) : Z :=
  match l with [] => 0 | e :: l' => usleeps e + slept l' end.

Lemma slept_app l1 l2 : slept (l1 ++ l2) = slept l1 + slept l2.
Proof. induction l1 as [|e l1 IH]; [done|]. cbn [app slept]. rewrite IH. lia. Qed.

Section Lock.
Context `{H : Host} `{K : Kernel}.

(** The program ends by itself, and sleeps for [b] microseconds at most. *)
Definition sleeps_at_most {A} (b : Z) (m : P A) : Prop :=
  forall c, (m c).1 <> NoFuel /\ exists l, effects (m c).2 = effects c ++ l /\ slept l <= b.

Lemma lock_round f path s t b : 0 <= b ->
  (t < LOCK_TIMEOUT_USEC -> sleeps_at_most (b - s) (lock_loop f path (next_sleep s) (t + s))) ->
  sleeps_at_most b (lock_loop (S f) path s t).
Proof.
  intros Hb Hf c. set (c1 := did (Call "flock" 0 [path]) c).
  assert (exists l, effects c1 = effects c ++ l /\ slept l <= b) as Hc1 by (eexists; split; [reflexivity|cbn; lia]).
  assert (lock_loop (S f) path s t c =
    (if sys_errno (effects c1) =? 0 then cret tt
     else if sys_errno (effects c1) =? EWOULDBLOCK then
       if LOCK_TIMEOUT_USEC <=? t then cexit 1
       else emit (Call "usleep" s []) ;;; lock_loop f path (next_sleep s) (t + s)
     else cexit 1) c1) as -> by reflexivity.
  destruct (_ =? 0); [by split|]. destruct (_ =? EWOULDBLOCK); [|by split].
  destruct (Z.leb_spec LOCK_TIMEOUT_USEC t) as [Ht|Ht]; [by split|].
  unfold emit. rewrite cmodify_bind. destruct (Hf Ht (did (Call "usleep" s []) c1)) as [Hn (l & El & Hl)].
  split; [exact Hn|]. exists ([Call "flock" 0 [path]; Call "usleep" s []] ++ l). split.
  - etrans; [exact El|]. unfold c1, did. cbn [effects with_effects]. by rewrite <- !app_assoc.
  - rewrite slept_app. cbn. lia.
Qed.

(** C29: The lock is taken, or the program ends with an error: the loop gives up at the
    twentieth attempt, after 5011500 microseconds of sleep. *)
Theorem lock_loop_bounded path : sleeps_at_most 5011500 (lock_loop LOCK_ROUNDS path LOCK_INITIAL_SLEEP_USEC 0).
Proof.
  unfold LOCK_ROUNDS, LOCK_INITIAL_SLEEP_USEC.
  do 20 (apply lock_round; [by vm_compute|]; let Hx := fresh in intros Hx; first
    [ by vm_compute in Hx
    | clear Hx; match goal with |- sleeps_at_most ?b (lock_loop ?f ?p ?s ?t) =>
        let b' := eval vm_compute in b in let s' := eval vm_compute in s in let t' := eval vm_compute in t in
        change (sleeps_at_most b' (lock_loop f p s' t')) end ]).
Qed.
End Lock.

(** ** The monitor *)

(** What one return of waitpid does to the last status and that of the application. *)
Definition record_event (app_pid : Z) (st : Z * Z) (ev : waited) : Z * Z :=
  if w_pid ev =? -1 then st
  else let status := if w_pid ev =? 0 then st.1 else w_status ev in
       (status, if w_pid ev =? app_pid then status else st.2).

(** The process a name in /proc stands for: the number it starts with. *)
Definition process_of (name : string) : option Z :=
  let '(pid, rest) := read_digits 10 0 name in if bool_decide (rest = name) then None else Some pid.

(** A round of /proc in which init is the only process (0 is no process). *)
Definition nobody_left (names : list string) : Prop :=
  forall name pid, In name names -> process_of name = Some pid -> pid = 0 \/ pid = 1.

Lemma next_pid_cons n names : next_pid (n :: names) =
  match process_of n with
  | Some pid => if (pid =? 1) || (pid =? 0) then next_pid names else pid
  | None => next_pid names
  end.
Proof.
  unfold next_pid, process_of. cbn. destruct (read_digits 10 0 n) as [pid rest].
  destruct (bool_decide (rest = n)); [done|]. cbn [orb]. by destruct ((pid =? 1) || (pid =? 0)).
Qed.

Lemma nobody_left_spec names : next_pid names = 0 <-> nobody_left names.
Proof.
  unfold nobody_left. induction names as [|n names IH]; [by split; [intros _ ? ? []|]|]. rewrite next_pid_cons.
  assert (forall q, (forall pid, process_of n = Some pid -> pid = 0 \/ pid = 1) -> q = next_pid names ->
    (q = 0 <-> forall name pid, In name (n :: names) -> process_of name = Some pid -> pid = 0 \/ pid = 1)) as Hk.
  { intros q Hp ->. rewrite IH. split; [intros Hn name pid [<-|Hin]; [apply Hp|by apply Hn]|].
    intros Hn name pid Hin. apply Hn. by right. }
  destruct (process_of n) as [pid|] eqn:En; [|by apply Hk].
  destruct (Z.eqb_spec pid 1) as [->|H1]; [apply Hk; [intros ? [= <-]; auto|done]|].
  destruct (Z.eqb_spec pid 0) as [->|H0]; [apply Hk; [intros ? [= <-]; auto|done]|]. cbn [orb].
  split; [done|]. intros Hn. by destruct (Hn n pid (or_introl eq_refl) En).
Qed.

(** The events up to the one that reports the process [m], or that no process is left
    to wait for. *)
Definition up_to_report (m : Z) (seen : list waited) : Prop :=
  exists others ev, seen = others ++ [ev] /\ (w_pid ev = m \/ w_pid ev = -1) /\
    Forall (fun e => w_pid e <> m /\ w_pid e <> -1) others.

(** What is known of the /proc of a monitor that has returned. *)
Definition all_gone (rounds : list (list string)) : Prop :=
  exists before names after, rounds = before ++ names :: after /\ nobody_left names /\ Forall (fun l => ~ nobody_left l) before.

Lemma monitor_step app_pid det ev events rounds m t st ast r :
  monitor_loop app_pid det (ev :: events) rounds m t st ast = Ok r ->
  let st1 := record_event app_pid (st, ast) ev in
  (w_pid ev <> m /\ w_pid ev <> -1 /\ exists t', monitor_loop app_pid det events rounds m t' st1.1 st1.2 = Ok r) \/
  ((w_pid ev = m \/ w_pid ev = -1) /\
   if det then r = st1
   else exists names rounds', rounds = names :: rounds' /\
     (nobody_left names /\ r = st1 \/
      ~ nobody_left names /\ exists t', monitor_loop app_pid det events rounds' (next_pid names) t' st1.1 st1.2 = Ok r)).
Proof.
  cbn [monitor_loop]. cbv zeta. unfold record_event.
  assert (forall (t : Z) st1, (if det then Ok st1 else match rounds with
    | [] => Exit 1
    | names :: rounds' => if next_pid names =? 0 then Ok st1
                          else monitor_loop app_pid det events rounds' (next_pid names) t st1.1 st1.2
    end) = Ok r -> if det then r = st1 else exists names rounds', rounds = names :: rounds' /\
     (nobody_left names /\ r = st1 \/
      ~ nobody_left names /\ exists t', monitor_loop app_pid det events rounds' (next_pid names) t' st1.1 st1.2 = Ok r)) as Hround.
  { intros t1 st1. destruct det; [by intros [= ->]|]. destruct rounds as [|names rounds]; [done|].
    exists names, rounds. split; [done|]. rewrite <- nobody_left_spec.
    destruct (Z.eqb_spec (next_pid names) 0); [left; split; congruence|right; split; eauto]. }
  destruct (Z.eqb_spec (w_pid ev) (-1)) as [Em|Em].
  { intros E. right. split; [by right|]. by apply (Hround t (st, ast)). }
  destruct (t =? 1); [done|]. destruct (Z.eqb_spec (w_pid ev) m) as [Hm|Hm].
  - intros E. right. split; [by left|]. by eapply (Hround _ (_, _)).
  - intros E. left. split; [done|]. split; [done|]. by eexists.
Qed.

(** C19: The monitor of an application returns only when a look at /proc has found no process
    but init, the first such look; with --deterministic-shutdown, only when the process
    it waits for, the application, or the absence of any child was reported, the first
    such report.  What it returns are the last status waitpid reported and the last one
    of the application itself. *)
Theorem monitor_returns app_pid det events rounds m t st ast r :
  monitor_loop app_pid det events rounds m t st ast = Ok r ->
  exists seen later_events, events = seen ++ later_events /\ r = foldl (record_event app_pid) (st, ast) seen /\
    if det then up_to_report m seen else all_gone rounds.
Proof.
  revert rounds m t st ast. induction events as [|ev events IH]; [done|]. intros rounds m t st ast E.
  apply monitor_step in E as [(Hm & H1 & t' & E)|(Hm & Hr)]; cbv zeta in *.
  - apply IH in E as (seen & l & -> & Er & Hd). rewrite <- surjective_pairing in Er. exists (ev :: seen), l. split; [done|]. split; [done|].
    destruct det; [|done]. destruct Hd as (others & ev' & -> & He & Ho). exists (ev :: others), ev'. by split; [|split; [|constructor]].
  - destruct det.
    + exists [ev], events. do 2 (split; [done|]). by exists [], ev.
    + destruct Hr as (names & rounds' & -> & [[Hn Er]|(Hn & t' & E)]).
      * exists [ev], events. do 2 (split; [done|]). by exists [], names, rounds'.
      * apply IH in E as (seen & l & -> & Er & before & ns & after & -> & Hl & Hb). rewrite <- surjective_pairing in Er.
        exists (ev :: seen), l. do 2 (split; [done|]). exists (names :: before), ns, after. by split; [|split; [|constructor]].
Qed.

(** The process that is waited for is reported in the end, and then the next one, until
    nobody is left. *)
Inductive reports : Z -> list (list string) -> list waited -> Prop :=
| reports_last m others ev names rounds events :
    Forall (fun e => w_pid e <> m /\ w_pid e <> -1) others -> w_pid ev = m -> nobody_left names ->
    reports m (names :: rounds) (others ++ ev :: events)
| reports_next m others ev names rounds events :
    Forall (fun e => w_pid e <> m /\ w_pid e <> -1) others -> w_pid ev = m -> ~ nobody_left names ->
    reports (next_pid names) rounds events -> reports m (names :: rounds) (others ++ ev :: events).

Lemma monitor_skips app_pid others ev events rounds m st ast :
  Forall (fun e => w_pid e <> m /\ w_pid e <> -1) others -> w_pid ev = m ->
  exists st' ast', monitor_loop app_pid false (others ++ ev :: events) rounds m 0 st ast =
    match rounds with
    | [] => Exit 1
    | names :: rounds' => if next_pid names =? 0 then Ok (st', ast')
                          else monitor_loop app_pid false events rounds' (next_pid names) 0 st' ast'
    end.
Proof.
  intros Ho He. revert st ast. induction Ho as [|e others [Hm Hn] Ho IH]; intros st ast; cbn [app monitor_loop]; cbv zeta.
  - rewrite He, Z.eqb_refl. cbn [Z.eqb]. destruct (m =? -1); eauto.
  - rewrite (proj2 (Z.eqb_neq _ _) Hm), (proj2 (Z.eqb_neq _ _) Hn). apply IH.
Qed.

(** C20: The monitor does end when every process it waits for is reported: without --timeout
    nothing else can keep it. *)
Theorem monitor_ends app_pid rounds events m st ast :
  reports m rounds events -> exists r, monitor_loop app_pid false events rounds m 0 st ast = Ok r.
Proof.
  intros Hr. revert st ast. induction Hr as [m others ev names rounds events Ho He Hn|m others ev names rounds events Ho He Hn Hr IH];
    intros st ast; destruct (monitor_skips app_pid others ev events (names :: rounds) m st ast Ho He) as (st' & ast' & ->).
  - apply nobody_left_spec in Hn. rewrite (proj2 (Z.eqb_eq _ _) Hn). eauto.
  - rewrite <- nobody_left_spec in Hn. rewrite (proj2 (Z.eqb_neq _ _) Hn). apply IH.
Qed.

(** The status of the sandbox is one byte: the argument of exit, or 128 and the signal
    the process died of, with or without a core. *)
Theorem exit_status_spec code sig core : 0 <= code < 256 -> 0 < sig < 127 ->
  exit_status (code * 256) = code /\ exit_status (sig + 128 * Z.b2z core) = 128 + sig.
Proof.
  intros Hc Hs. unfold exit_status. split.
  - assert (Z.land (code * 256) 127 = 0) as ->.
    { change 127 with (Z.ones 7). rewrite Z.land_ones by lia. change 256 with (2 * 2 ^ 7). rewrite Z.mul_assoc. apply Z_mod_mult. }
    cbn [Z.eqb]. rewrite Z.shiftr_div_pow2 by lia. change (2 ^ 8) with 256. rewrite Z.div_mul by lia.
    change 255 with (Z.ones 8). rewrite Z.land_ones by lia. by apply Z.mod_small.
  - assert (Z.land (sig + 128 * Z.b2z core) 127 = sig) as ->.
    { change 127 with (Z.ones 7). rewrite Z.land_ones by lia. change (2 ^ 7) with 128.
      rewrite Z.mul_comm, Z_mod_plus_full. apply Z.mod_small. lia. }
    rewrite (proj2 (Z.eqb_neq sig 0)), (proj2 (Z.eqb_neq sig 127)) by lia. done.
Qed.

(** ** The new root directory *)

Section Chroot.
Context `{H : Host} `{CH : CapHeaders} `{N : NetHost} `{K : Kernel}.

(** The bits of S_IWGRP and S_IWOTH. *)
Definition roots_own (s : fstat) : Prop :=
  st_uid s = 0 /\ Z.testbit (st_perm s) 4 = false /\ Z.testbit (st_perm s) 1 = false.

(** [name], looked up from the directory [fd] and not a link, is a directory of root;
    with [strict] nobody else can write to it. *)
Definition root_dir (l : list effect) (fd : Z) (name : string) (strict : bool) : Prop :=
  exists s, sys_fstatat l fd name true = Some s /\ st_isdir s = true /\ st_uid s = 0 /\ (strict = true -> roots_own s).

(** A mount into the new root goes on a directory that was opened from [fd], not through a
    link; the directory of pulseaudio was opened by its path, which has no link. *)
Definition into_root (fd : Z) (l : list effect) (e : effect) : Prop :=
  match e with
  | Mount _ (Of t) _ _ _ =>
      (exists name, In name ["dev"; "tmp/.X11-unix"; "run/firejail/lib"; "run/firejail/mnt"] /\ entered l fd name t) \/
      exists root, reached_dir l (-1) (root +:+ "/run/user/" +:+ print_d (s32 uid) +:+ "/pulse") t
  | Mount _ _ _ _ _ => False
  | _ => True
  end.

Lemma exit_unless_inv b c u c' : exit_unless b c = (Ok u, c') -> b = true /\ c' = c.
Proof. destruct b; [by intros [= <-]|done]. Qed.

Lemma not_writable s : st_uid s = 0 -> writable s = false -> roots_own s.
Proof.
  unfold writable, roots_own. intros Hu Hw%negb_false_iff%Z.eqb_eq. split; [done|].
  assert (forall b, Z.testbit 18 b && Z.testbit (st_perm s) b = false) as Hb.
  { intros b. by rewrite <- Z.land_spec, Hw, Z.testbit_0_l. }
  split; [apply (Hb 4)|apply (Hb 1)].
Qed.

Lemma open_root_inv d c fd c' : open_root d c = (Ok fd, c') ->
  c' = c /\ reached_dir (effects c) (-1) d fd /\ exists s, sys_fstat (effects c) fd = inl s /\ roots_own s.
Proof.
  unfold open_root. intros (r & c1 & E1 & E)%cbind_inv. pose proof (reads_ok _ _ _ _ (reads_safer_openat _ _ _) E1) as ->.
  destruct r as [pfd|]; [|done]. apply safer_openat_reached_dir in E1; [|reflexivity].
  apply cbind_inv in E as (ok & c2 & [= <- <-] & E). apply cbind_inv in E as ([] & c3 & [_ ->]%exit_unless_inv & E).
  apply cbind_inv in E as (st & c4 & [= <- <-] & E). destruct (sys_fstat _ pfd) as [s|] eqn:Es; [|done].
  apply cbind_inv in E as ([] & c5 & [Hu ->]%exit_unless_inv & E).
  apply cbind_inv in E as ([] & c6 & [Hw ->]%exit_unless_inv & E). injection E as <- <-.
  split; [done|]. split; [done|]. exists s. split; [done|].
  apply not_writable; [by apply Z.eqb_eq|by apply negb_true_iff].
Qed.

Lemma check_subdir_inv fd d w c u c' : check_subdir fd d w c = (Ok u, c') -> c' = c /\ root_dir (effects c) fd d w.
Proof.
  unfold check_subdir, relative_path. intros ([] & c1 & E1 & E)%cbind_inv.
  pose proof (reads_ok _ _ _ _ (reads_assert _) E1) as ->.
  apply cbind_inv in E as (st & c4 & [= <- <-] & E). destruct (sys_fstatat _ fd d true) as [s|] eqn:Es; [|done].
  apply cbind_inv in E as ([] & c5 & [Hd ->]%exit_unless_inv & E).
  apply cbind_inv in E as ([] & c6 & [Hu ->]%exit_unless_inv & E). apply exit_unless_inv in E as [Hw ->].
  apply Z.eqb_eq in Hu. split; [done|]. exists s. split; [done|]. split; [done|]. split; [done|].
  intros ->. apply not_writable; [done|]. by apply negb_true_iff in Hw.
Qed.

Lemma check_subdirs_inv fd l c u c' : cfold (fun d _ => check_subdir fd d.1 d.2) l tt c = (Ok u, c') ->
  c' = c /\ Forall (fun d => root_dir (effects c) fd d.1 d.2) l.
Proof.
  revert c u. induction l as [|d l IH]; intros c u; cbn [cfold]; [by intros [= _ <-]|].
  intros ([] & c1 & [-> Hd]%check_subdir_inv & E)%cbind_inv. destruct (IH _ _ E) as [-> Hl]. split; [done|]. by constructor.
Qed.

Lemma call_or_exit_inv {B} e (k : P B) c b c' : (r <~ do_call e ;; or_exit r ;;; k) c = (Ok b, c') -> k (did e c) = (Ok b, c').
Proof. intros (r & c1 & [= <- <-] & E)%cbind_inv. by apply cbind_inv in E as ([] & c2 & [_ ->]%exit_unless_inv & E). Qed.

Lemma same_later {A} (m : P A) c a c' : keeps (same_but []) m -> m c = (Ok a, c') -> later c c'.
Proof. intros Hk E. specialize (Hk c). rewrite E in Hk. apply Hk. Qed.

(** At some point of the run from [c] to [c'] the directory was there as it should be. *)
Definition checked (fd : Z) (d : string) (c c' : Config) : Prop :=
  exists la lb, effects c' = effects c ++ la ++ lb /\ root_dir (effects c ++ la) fd d true.

Lemma checked_before fd d c0 c c' : later c0 c -> checked fd d c c' -> checked fd d c0 c'.
Proof. intros [l E] (la & lb & E' & Hr). exists (l ++ la), lb. rewrite E', E, <- !app_assoc. split; [done|]. by rewrite app_assoc, <- E. Qed.
Lemma checked_after fd d c c' c1 : checked fd d c c' -> later c' c1 -> checked fd d c c1.
Proof. intros (la & lb & E' & Hr) [l E]. exists la, (lb ++ l). by rewrite E, E', <- !app_assoc. Qed.

Lemma make_subdir_inv fd d c u c' : make_subdir fd d c = (Ok u, c') -> later c c' /\ checked fd d c c'.
Proof.
  unfold make_subdir, mkdirat. intros (ok & c1 & E1 & E)%cbind_inv. apply cbind_inv in E1 as (r & c2 & [= <- <-] & E1).
  injection E1 as _ <-. apply cbind_inv in E as ([] & c3 & [_ ->]%exit_unless_inv & E).
  apply check_subdir_inv in E as [-> Hr]. split; [by eexists|]. exists [Call "mkdirat" fd [d; "0755"]], []. by rewrite app_nil_r.
Qed.

(** In a run of [m] that returns the directories [ds] are looked at. *)
Definition checks {A} (fd : Z) (ds : list string) (m : P A) : Prop :=
  forall c a c', m c = (Ok a, c') -> later c c' /\ Forall (fun d => checked fd d c c') ds.

Lemma checks_keeps {A} fd (m : P A) : keeps (same_but []) m -> checks fd [] m.
Proof. intros Hm c a c' E. split; [by eapply same_later|constructor]. Qed.
Lemma checks_make fd d : checks fd [d] (make_subdir fd d).
Proof. intros c a c' [Hl Hd]%make_subdir_inv. split; [done|]. by repeat constructor. Qed.
Lemma checks_bind {A B} fd ds1 ds2 (m : P A) (k : A -> P B) :
  checks fd ds1 m -> (forall a, checks fd ds2 (k a)) -> checks fd (ds1 ++ ds2) (cbind m k).
Proof.
  intros Hm Hk c b c' (a & c1 & [L1 F1]%Hm & [L2 F2]%Hk)%cbind_inv. split; [by eapply later_trans|]. apply Forall_app. split.
  - eapply Forall_impl; [exact F1|]. intros d Hd. exact (checked_after _ _ _ _ _ Hd L2).
  - eapply Forall_impl; [exact F2|]. intros d Hd. exact (checked_before _ _ _ _ _ L1 Hd).
Qed.

Definition made_subdirs : list string := ["run"; "run/firejail"; "run/firejail/lib"; "run/firejail/mnt"].

Lemma chroot_mounts_checks fd dir : checks fd made_subdirs (chroot_mounts fd dir).
Proof.
  change made_subdirs with ([] ++ [] ++ [] ++ ["run"] ++ [] ++ ["run/firejail"] ++ ["run/firejail/lib"] ++ [] ++
    ["run/firejail/mnt"] ++ [] ++ ([] : list string)).
  unfold chroot_mounts. cbv zeta.
  repeat match goal with |- checks _ _ (cbind _ _) => apply checks_bind; intros end;
    match goal with |- checks _ [_] _ => apply checks_make | |- _ => apply checks_keeps end; keeps_tac;
    try apply mount_subdir_keeps, _; try apply update_file_keeps, _; try apply chroot_x11_keeps, _;
    try apply chroot_pulse_keeps, _; (apply reads_keeps; [exact _|done]).
Qed.

(** ** The mounts into the new root *)

#[local] Notation I fd := (emits (into_root fd)).

Lemma call_into fd f n args c : kept_at (I fd) (do_call (Call f n args)) c.
Proof. unfold do_call. at_tac. by apply (emits_one (into_root fd)). Qed.
Lemma plain_into fd e c : into_root fd (effects c) e -> I fd c (did e c).
Proof. apply (emits_one (into_root fd)). Qed.

Lemma mount_subdir_into fd src name c :
  In name ["dev"; "tmp/.X11-unix"; "run/firejail/lib"; "run/firejail/mnt"] -> kept_at (I fd) (mount_subdir fd src name) c.
Proof.
  intros Hn. unfold mount_subdir, openat, bind_mount_path_to_fd, mount, or_exit.
  apply kept_at_reads_bind; [exact _|eauto with reads|]. intros [t|] E; [injection E as E|at_tac].
  at_step; [|at_tac]. apply plain_into. left. exists name. split; [done|]. exists O_DIR. by split; [|split].
Qed.

Lemma replace_file_into fd t src name c : kept_at (I fd) (replace_file t src name) c.
Proof. unfold replace_file, or_exit. at_tac; by apply plain_into. Qed.
Lemma update_file_into fd t name c : kept_at (I fd) (update_file t name) c.
Proof.
  unfold update_file, relative_path, open, openat. at_step. at_step. destruct a0; [|at_tac].
  at_step. destruct a0; [|at_tac]. at_step. destruct a0; [|at_tac]. at_step. destruct (match _ with Some _ => _ | None => _ end); [at_tac|].
  apply replace_file_into.
Qed.
Lemma make_subdir_into fd t name c : kept_at (I fd) (make_subdir t name) c.
Proof.
  unfold make_subdir, mkdirat, check_subdir, relative_path. apply kept_at_bind; [exact _|at_step; [by apply plain_into|at_tac]|].
  intros ok c1 _. at_tac.
Qed.
#[local] Hint Resolve mount_subdir_into update_file_into make_subdir_into : kept_at.

Lemma chroot_x11_into fd c : kept_at (I fd) (chroot_x11 fd) c.
Proof.
  unfold chroot_x11, check_subdir, relative_path. do 2 at_step. destruct a as [s1|]; [|at_tac]. destruct a0 as [s2|]; [|at_tac].
  do 2 at_step. apply kept_at_bind; [exact _|at_tac|]. intros _ c1 _. apply mount_subdir_into. cbn. auto.
Qed.

Lemma chroot_pulse_into fd dir c : kept_at (I fd) (chroot_pulse fd dir) c.
Proof.
  unfold chroot_pulse. cbv zeta. at_step. destruct a as [src|]; [|at_tac]. at_step. destruct a as [dst|]; [|at_tac].
  unfold bind_mount_by_fd, mount, or_exit. at_step; [|at_step; at_tac].
  apply plain_into. right. exists dir. by eapply safer_openat_reached_dir; [|eassumption].
Qed.
#[local] Hint Resolve chroot_x11_into chroot_pulse_into : kept_at.

Lemma chroot_mounts_into fd dir c : kept_at (I fd) (chroot_mounts fd dir) c.
Proof.
  unfold chroot_mounts. cbv zeta.
  repeat match goal with |- kept_at _ (cbind _ _) _ => apply kept_at_bind; [exact _| |intros ? ? _] end;
    at_tac; apply mount_subdir_into; cbn; auto.
Qed.

(** C18: The root directory is changed only after it has been looked at: it was opened as a
    directory and without links, it belongs to root and nobody else can write to it; the
    directories the sandbox relies on are directories of root, looked up from its
    descriptor and no links, and nobody else can write to /etc, /var, /run and the
    directories below /run that firejail makes or finds there.  Every mount into the new
    root goes on a directory opened from the descriptor and not through a link (for
    pulseaudio: by a path without links), and it is the descriptor that is mounted and
    entered. *)
Theorem fs_chroot_checked rootdir c c' : fs_chroot rootdir c = (Ok tt, c') ->
  exists fd l1 l2,
    reached_dir (effects c) (-1) rootdir fd /\
    (exists s, sys_fstat (effects c) fd = inl s /\ roots_own s) /\
    Forall (fun name => root_dir (effects c) fd name false) ["dev"; "proc"; "tmp"; "var/tmp"] /\
    Forall (fun name => root_dir (effects c) fd name true) ["etc"; "var"] /\
    Forall (fun name => exists la lb, l1 = la ++ lb /\ root_dir (effects c ++ la) fd name true)
      ["run"; "run/firejail"; "run/firejail/lib"; "run/firejail/mnt"] /\
    every (into_root fd) (effects c) l1 /\
    effects c' = effects c ++ l1 ++
      [Call "mkdir" 493 [RUN_OVERLAY_ROOT]; Mount (Of fd) (At RUN_OVERLAY_ROOT) "" (flags [MS_BIND; MS_REC]) "";
       Call "chroot" 0 [RUN_OVERLAY_ROOT]; Call "chdir" 0 ["/"]] ++ l2.
Proof.
  unfold fs_chroot. intros (fd & c1 & (-> & Hf & Hs)%open_root_inv & E)%cbind_inv.
  apply cbind_inv in E as ([] & c2 & [-> Hd]%check_subdirs_inv & E).
  apply cbind_inv in E as ([] & c3 & E3 & E). destruct (chroot_mounts_checks _ _ _ _ _ E3) as [_ Hc].
  destruct (chroot_mounts_into fd rootdir c) as (l1 & El1 & Hi). rewrite E3 in El1. cbn [snd] in El1.
  apply cbind_inv in E as ([] & c4 & E4 & [l3 El3]%same_later); [|apply chroot_files_keeps, _].
  do 4 apply call_or_exit_inv in E4. apply same_later in E4 as [l2 El2]; [|apply bind_mount_keeps, _].
  unfold checked_subdirs in Hd. rewrite !Forall_cons in Hd. destruct Hd as (? & ? & ? & ? & ? & ? & _).
  exists fd, l1, (l2 ++ l3). do 2 (split; [done|]). split; [by repeat constructor|]. split; [by repeat constructor|].
  split; [|split; [done|]].
  - eapply Forall_impl; [exact Hc|]. intros d (la & lb & Ec & Hr). exists la, lb. split; [|done].
    rewrite El1 in Ec. by apply app_inv_head in Ec.
  - rewrite El3, El2. unfold did. cbn [effects with_effects]. rewrite El1. cbn. by rewrite <- !app_assoc.
Qed.
End Chroot.

(** ** --private-bin *)

Section PrivateBin.
Context `{H : Host} `{K : Kernel}.

(** The program a child of firejail copies to the new directory. *)
Definition copied (e : effect) : option string :=
  match e with
  | Sbox_run _ [cmd; path; dir] => if streq cmd PATH_FCOPY && streq dir RUN_BIN_DIR then Some path else None
  | _ => None
  end.

(** The path has no [..] in it, anywhere. *)
Definition climbs (path : string) : Prop := exists l r, path = l +:+ ".." +:+ r.

(** The file lies below one of the directories programs are found in. *)
Definition in_bins (path : string) : Prop :=
  exists dir rest, In dir bin_paths /\ path = dir +:+ "/" +:+ rest /\ ~ climbs rest.
Definition copies_bins (l : list effect) (e : effect) : Prop := forall path, copied e = Some path -> in_bins path.

Lemma other_copied e c : copied e = None -> emits copies_bins c (did e c).
Proof. intros Hn. exists [e]. split; [done|]. split; [|done]. intros p Hp. congruence. Qed.
#[local] Hint Resolve other_copied : core.

Lemma fcopy_at path c : in_bins path -> kept_at (emits copies_bins) (fcopy_bin path) c.
Proof.
  intros Hp. unfold fcopy_bin, SysFiles.sbox_run. at_step; [|at_tac]. exists [Sbox_run (Z.lor SBOX_ROOT SBOX_SECCOMP) [PATH_FCOPY; path; RUN_BIN_DIR]].
  split; [done|]. split; [|done]. by intros p [= <-].
Qed.

Lemma cret_inv {A} (a b : A) (c c' : Config) : cret a c = (Ok b, c') -> a = b.
Proof. by intros [= <-]. Qed.

Lemma reads_valid n : reads (valid_full_path_file n).
Proof. unfold valid_full_path_file. reads_tac. Qed.
Lemma reads_check_dir n : reads (FsBin.check_dir_or_file n).
Proof. unfold FsBin.check_dir_or_file. reads_tac. Qed.
#[local] Hint Resolve reads_valid reads_check_dir : reads.

Lemma contains_no_climb s : Text.contains ".." s = false -> ~ climbs s.
Proof.
  unfold Text.contains. intros E (l & r & ->). revert E. induction l as [|a l IH]; [done|].
  change (String a l +:+ ".." +:+ r) with (String a (l +:+ ".." +:+ r)). cbn [strstr_split].
  destruct (has_prefix ".." (String a (l +:+ ".." +:+ r))); [by intros E|].
  destruct (strstr_split ".." (l +:+ ".." +:+ r)) as [[? ?]|]; [by intros E|by intros ?%IH].
Qed.

Lemma climbs_below p s : climbs s -> climbs (p +:+ s).
Proof. intros (l & r & ->). exists (p +:+ l), r. by rewrite append_assoc. Qed.

Lemma valid_in_bins n c c' : valid_full_path_file n c = (Ok true, c') -> in_bins n.
Proof.
  unfold valid_full_path_file. intros ([] & c1 & _ & E)%cbind_inv. rewrite cget_bind in E. apply cret_inv in E.
  apply andb_true_iff in E as [(((_ & Hc)%andb_true_iff & _)%andb_true_iff & _)%andb_true_iff (dir & Hd & E)%existsb_exists].
  apply negb_true_iff, contains_no_climb in Hc. exists dir.
  unfold in_bin_path in E. apply andb_true_iff in E as [_ E]. destruct (strip_prefix dir n) as [[|a rest]|] eqn:Es; try done.
  apply strip_prefix_some in Es as ->. apply andb_true_iff in E as [->%Ascii.eqb_eq _]. exists rest. split; [done|]. split; [done|].
  intros Hr. apply Hc, climbs_below. change (String "/" rest) with ("/" +:+ rest). by apply climbs_below.
Qed.

Lemma copy_program_at path c : in_bins path -> kept_at (emits copies_bins) (copy_program path) c.
Proof.
  intros Hp. unfold copy_program. apply kept_at_get_bind. apply kept_at_bind; [exact _| |intros; by apply fcopy_at].
  destruct (is_link _ _); [|at_tac]. destruct (f_realpath _ _) as [actual|]; [|at_tac].
  at_step. destruct a; [|at_tac]. apply fcopy_at. by eapply valid_in_bins.
Qed.
#[local] Hint Resolve copy_program_at : kept_at.

Lemma bin_duplicate_at fname c : kept_at (emits copies_bins) (FsBin.duplicate fname) c.
Proof.
  unfold FsBin.duplicate. do 3 at_step. destruct (has_prefix "/" fname).
  - at_step. destruct a2; [|at_tac]. apply copy_program_at. by eapply valid_in_bins.
  - at_step. destruct a2 as [path|]; [|at_tac]. apply copy_program_at. exists path, fname. split; [|split; [done|]].
    2: { apply contains_no_climb. apply exit_unless_inv in H1 as [Hg _]. by apply negb_true_iff, orb_false_iff in Hg as [_ Hg]. }
    revert H3. unfold FsBin.check_dir_or_file. intros ([] & c1 & _ & E)%cbind_inv. rewrite cget_bind in E.
    apply cret_inv in E. by apply List.find_some in E as [E _].
Qed.
#[local] Hint Resolve bin_duplicate_at : kept_at.

Lemma bin_globbing_keeps fname : keeps (emits copies_bins) (FsBin.globbing fname).
Proof.
  apply keeps_by_at. intros c. unfold FsBin.globbing. at_step. destruct (negb _); [apply bin_duplicate_at|].
  apply kept_at_keeps. apply keeps_fold; [exact _|intros path []]. apply keeps_by_at. intros c1.
  destruct (skipped_path path); [at_tac|]. at_step. destruct a0 as [matches|]; [|at_tac].
  apply kept_at_keeps, keeps_fold; [exact _|intros m []]. apply keeps_by_at. intros c2. unfold bin_match. at_tac.
Qed.

Lemma other_keeps e : copied e = None -> keeps (emits copies_bins) (ProfileState.emit e).
Proof. intros Hn c. by apply other_copied. Qed.
#[local] Hint Extern 1 (keeps _ (ProfileState.emit _)) => (apply other_keeps; reflexivity) : keeps.
#[local] Hint Resolve bin_globbing_keeps : keeps.

(** C17: --private-bin, as root: whatever the list holds, and whatever the links lead to, a
    program that is copied into the sandbox has a path below one of the directories
    programs are found in, with no [..] behind that directory. *)
Theorem private_bin_confined c : emits copies_bins c (fs_private_bin_list c).2.
Proof.
  revert c. change (keeps (emits copies_bins) fs_private_bin_list). keeps_deep.
Qed.
End PrivateBin.

(** ** The buses of a sandbox without D-Bus *)

Section Bus.
Context `{H : Host} `{N : NetHost} `{K : Kernel} `{SEH : SessionHost}.

Definition same_env (c c' : Config) : Prop :=
  environment c' = environment c /\ later c c'.

#[local] Instance same_env_preorder : PreOrder same_env.
Proof.
  split; [intros c; split; [done|by apply later_eq]|].
  intros c1 c2 c3 (E1 & L1) (E2 & L2). split; [by rewrite E2|by eapply later_trans].
Qed.

Lemma emit_same_env e : keeps same_env (ProfileState.emit e).
Proof. intros c. split; [done|by exists [e]]. Qed.
#[local] Hint Resolve emit_same_env : keeps.
#[local] Hint Extern 1 (keeps _ (safer_openat _ _ _)) => (apply reads_keeps; [exact _|apply reads_safer_openat]) : keeps.

(** When the path was looked up it led nowhere, or to a file that even root may not look
    at, or a file or directory that cannot be read was mounted on what it led to. *)
Definition hidden (path : string) (c : Config) : Prop :=
  exists l1 l2, effects c = l1 ++ l2 /\
    match sys_open l1 (flags [O_PATH; O_CLOEXEC]) path with
    | None => True
    | Some fd =>
        sys_fstat (l1 ++ [Seteuid 0]) fd = inr EACCES \/
        exists d, (d = RUN_RO_DIR \/ d = RUN_RO_FILE) /\ In (Mount (At d) (Of fd) "" (flags [MS_BIND; MS_REC]) "") l2
    end.

Lemma hidden_later path c c' : later c c' -> hidden path c -> hidden path c'.
Proof.
  intros [l E] (l1 & l2 & E1 & Hm). exists l1, (l2 ++ l). split; [by rewrite E, E1, app_assoc|].
  destruct (sys_open _ _ _) as [fd|]; [|done]. destruct Hm as [Hm|(d & Hd & Hi)]; [by left|right].
  exists d. split; [done|]. apply in_or_app. by left.
Qed.

Lemma disable_inv path c u c' : disable_file_or_dir path c = (Ok u, c') -> same_env c c' /\ hidden path c'.
Proof.
  intros E. split.
  { assert (keeps same_env (disable_file_or_dir path)) as Hk by keeps_deep. specialize (Hk c). by rewrite E in Hk. }
  revert E. unfold disable_file_or_dir. rewrite cget_bind. intros ([] & c1 & E1 & E)%cbind_inv.
  pose proof (reads_ok _ _ _ _ (reads_assert _) E1) as ->. unfold EUID_USER, EUID_ROOT in E.
  unfold ProfileState.emit at 1 in E. rewrite cmodify_bind in E.
  apply cbind_inv in E as (o & c2 & [= <- <-] & E). unfold ProfileState.emit at 1 in E. rewrite cmodify_bind in E.
  exists (effects c ++ [Seteuid uid]). change (flags [O_PATH; O_CLOEXEC]) with (Z.lor O_PATH (Z.lor O_CLOEXEC 0)).
  destruct (sys_open _ _ path) as [fd|] eqn:Eo; cbn [effects with_effects] in Eo.
  2:{ injection E as _ <-. by exists [Seteuid 0]. }
  apply cbind_inv in E as (st & c3 & [= <- <-] & E). cbn [effects with_effects] in E.
  destruct (sys_fstat _ fd) as [s|e] eqn:Es.
  - apply cbind_inv in E as (r & c4 & [= <- <-] & E). apply exit_unless_inv in E as [_ ->].
    eexists [Seteuid 0; _]. split; [cbn; rewrite <- !app_assoc; reflexivity|right].
    eexists. split; [|right; left; reflexivity]. destruct (st_isdir s); auto.
  - apply exit_unless_inv in E as [->%Z.eqb_eq ->]. exists [Seteuid 0]. by split; [|left].
Qed.

(** A variable the program stores has that value, until it is stored again. *)
Lemma store_env n v c u c' : in_env (env_store_name_val n v SETENV) c = (Ok u, c') ->
  env_get n (environment c') = Some v /\ later c c' /\
  forall m, m <> n -> env_get m (environment c') = env_get m (environment c).
Proof.
  unfold in_env, env_store_name_val. rewrite cget_bind. destruct (negb (nonempty n)); [done|].
  cbn. intros [= _ <-]. unfold env_get. cbn [envlist environment with_environment set_envlist]. split; [|split; [by apply later_eq|]].
  - rewrite foldl_app. cbn [foldl]. unfold env_get_step at 1. cbn [name op]. by rewrite streq_refl.
  - intros m Hm. rewrite foldl_app. cbn [foldl]. unfold env_get_step at 1. cbn [Env.name].
    destruct (streq n m) eqn:E; [|done]. apply String.eqb_eq in E. congruence.
Qed.

Lemma hide_all l c u c' : cfold (fun s _ => disable_file_or_dir s) l tt c = (Ok u, c') ->
  same_env c c' /\ Forall (fun s => hidden s c') l.
Proof.
  revert c u. induction l as [|s l IH]; intros c u; cbn [cfold]; [intros [= _ <-]; split; [reflexivity|constructor]|].
  intros ([] & c1 & [S1 H1]%disable_inv & E)%cbind_inv. apply IH in E as [S2 H2]. split; [by etrans|].
  constructor; [|done]. eapply hidden_later, H1. apply S2.
Qed.

Lemma socket_keeps p s x : keeps same_env (replace_socket p s x).
Proof. keeps_deep. Qed.
Lemma env_socket_keeps n l : keeps same_env (disable_env_socket n l).
Proof. keeps_deep. Qed.
Lemma socket_dir_keeps : keeps same_env disable_socket_dir.
Proof. keeps_deep. Qed.

Lemma run_dir_keeps : keeps same_env (create_empty_dir_as_root RUN_DBUS_DIR 493).
Proof. keeps_deep. Qed.

Lemma same_env_run {A} (m : P A) c a c' : keeps same_env m -> m c = (Ok a, c') -> same_env c c'.
Proof. intros Hk E. specialize (Hk c). by rewrite E in Hk. Qed.

(** The socket the variable names, in the environment [c] has, and what is hidden of it:
    a variable of another form names none. *)
Definition named_socket_hidden (name : string) (c c' : Config) : Prop :=
  forall socket, env_get name (environment c) = Some (DBUS_SOCKET_PATH_PREFIX +:+ socket) -> hidden socket c'.

Lemma env_socket_inv name known c u c' : disable_env_socket name known c = (Ok u, c') ->
  Forall (fun s => hidden s c') known -> named_socket_hidden name c c'.
Proof.
  unfold disable_env_socket, get_socket_env. intros (o & c1 & E1 & E)%cbind_inv Hk socket Hs.
  apply cbind_inv in E1 as (v & c2 & [= Ev <-] & E1). rewrite Hs in Ev. subst v. injection E1 as Eo <-.
  assert (o = Some socket) as -> by by rewrite <- Eo.
  destruct (existsb (streq socket) known) eqn:Ek.
  - apply existsb_exists in Ek as (s & Hin & Es). apply String.eqb_eq in Es as ->. rewrite Forall_forall in Hk.
    by apply Hk, list_elem_of_In.
  - by apply disable_inv in E as [_ Hd].
Qed.

(** The directory of the proxies, when there is one. *)
Definition proxies_hidden (c' : Config) : Prop :=
  exists la lb, effects c' = la ++ lb /\ (f_stat (view la) RUN_FIREJAIL_DBUS_DIR = false \/ hidden RUN_FIREJAIL_DBUS_DIR c').

Lemma socket_dir_inv c u c' : disable_socket_dir c = (Ok u, c') -> same_env c c' /\ proxies_hidden c'.
Proof.
  intros E. split; [by eapply same_env_run, E; apply socket_dir_keeps|]. revert E. unfold disable_socket_dir, exists_now.
  intros (b & c1 & [= Eb <-] & E)%cbind_inv. destruct b.
  - destruct (disable_inv _ _ _ _ E) as [[_ [l El]] Hh]. exists (effects c), l. by split; [|right].
  - injection E as _ <-. exists (effects c), []. rewrite app_nil_r. split; [done|by left].
Qed.

Lemma hidden_forall_later l c c' : later c c' -> Forall (fun s => hidden s c) l -> Forall (fun s => hidden s c') l.
Proof. intros Hl Hf. eapply Forall_impl; [exact Hf|]. intros s. by apply hidden_later. Qed.
Lemma named_later name c c1 c2 : later c1 c2 -> named_socket_hidden name c c1 -> named_socket_hidden name c c2.
Proof. intros Hl Hn s Hs. by eapply hidden_later, Hn. Qed.
Lemma named_from name c0 c c' : environment c = environment c0 -> named_socket_hidden name c c' -> named_socket_hidden name c0 c'.
Proof. intros E Hn s. rewrite <- E. apply Hn. Qed.

(** What is left of a bus that is cut off: its sockets, and the one the user was told
    about, are hidden, and the program is told about another one. *)
Definition cut_off_bus (name own : string) (sockets : list string) (c c' : Config) : Prop :=
  env_get name (environment c') = Some (DBUS_SOCKET_PATH_PREFIX +:+ own) /\
  Forall (fun s => hidden s c') sockets /\ named_socket_hidden name c c'.

Lemma cut_off_later name own sockets c c1 c2 : later c1 c2 -> env_get name (environment c2) = env_get name (environment c1) ->
  cut_off_bus name own sockets c c1 -> cut_off_bus name own sockets c c2.
Proof.
  intros Hl He (Hv & Hh & Hn). split; [by rewrite He|]. split; [by eapply hidden_forall_later|by eapply named_later].
Qed.

Lemma user_policy_inv p c u c' : dbus_user_policy p c = (Ok u, c') ->
  cut_off_bus "DBUS_SESSION_BUS_ADDRESS" RUN_DBUS_USER_SOCKET (user_sockets ++ [homedir +:+ "/.dbus"]) c c' /\
  env_get "DBUS_SYSTEM_BUS_ADDRESS" (environment c') = env_get "DBUS_SYSTEM_BUS_ADDRESS" (environment c).
Proof.
  unfold dbus_user_policy. intros ([] & c1 & [E1 L1]%(same_env_run _ _ _ _ (socket_keeps _ _ _)) & E)%cbind_inv.
  apply cbind_inv in E as ([] & c2 & [[E2 L2] H2]%hide_all & E).
  apply cbind_inv in E as ([] & c3 & E3 & E). pose proof (same_env_run _ _ _ _ (env_socket_keeps _ _) E3) as [V3 L3].
  pose proof (env_socket_inv _ _ _ _ _ E3 (hidden_forall_later _ _ _ L3 H2)) as Hn.
  apply cbind_inv in E as ([] & c4 & (Hv & L4 & Ho)%store_env & [[E5 L5] Hd]%disable_inv).
  assert (later c3 c') as L35 by (by eapply later_trans). assert (later c2 c') as L25 by (by eapply later_trans).
  split; [split; [by rewrite E5|split]|].
  - apply Forall_app. split; [by eapply hidden_forall_later|by repeat constructor].
  - eapply named_from; [|exact (named_later _ _ _ _ L35 Hn)]. by rewrite E2, E1.
  - by rewrite E5, Ho, V3, E2, E1.
Qed.

Lemma system_policy_inv p c u c' : dbus_system_policy p c = (Ok u, c') ->
  later c c' /\ cut_off_bus "DBUS_SYSTEM_BUS_ADDRESS" RUN_DBUS_SYSTEM_SOCKET [DBUS_SYSTEM_SOCKET] c c' /\
  env_get "DBUS_SESSION_BUS_ADDRESS" (environment c') = env_get "DBUS_SESSION_BUS_ADDRESS" (environment c).
Proof.
  unfold dbus_system_policy. intros ([] & c1 & [E1 L1]%(same_env_run _ _ _ _ (socket_keeps _ _ _)) & E)%cbind_inv.
  apply cbind_inv in E as ([] & c2 & [[E2 L2] H2]%disable_inv & E).
  apply cbind_inv in E as ([] & c3 & E3 & (Hv & L4 & Ho)%store_env).
  pose proof (same_env_run _ _ _ _ (env_socket_keeps _ _) E3) as [V3 L3].
  assert (Forall (fun s => hidden s c3) [DBUS_SYSTEM_SOCKET]) as H3 by (constructor; [by eapply hidden_later|constructor]).
  pose proof (env_socket_inv _ _ _ _ _ E3 H3) as Hn.
  split; [eapply later_trans; [exact L1|]; eapply later_trans; [exact L2|by eapply later_trans]|].
  split; [split; [done|split; [by eapply hidden_forall_later|]]|by rewrite Ho, V3, E2, E1].
  eapply named_from; [|exact (named_later _ _ _ _ L4 Hn)]. by rewrite E2, E1.
Qed.

(** C24: With D-Bus handling enabled in firejail.config, a bus that is not left open is cut off
    behind dbus_apply_policy: the address in the environment is that of the socket of the
    sandbox; the sockets of the real bus, the socket the environment named before (in the
    form unix:path=), and ~/.dbus for the session bus are hidden; the same for both
    buses, whether they are blocked or filtered.  In any case the directory of the
    proxies is hidden if there is one. *)
Theorem dbus_apply_policy_cuts c c' : enabled CFG_DBUS = true -> dbus_apply_policy c = (Ok tt, c') ->
  (arg_dbus_user c <> DBUS_POLICY_ALLOW ->
     cut_off_bus "DBUS_SESSION_BUS_ADDRESS" RUN_DBUS_USER_SOCKET (user_sockets ++ [homedir +:+ "/.dbus"]) c c') /\
  (arg_dbus_system c <> DBUS_POLICY_ALLOW ->
     cut_off_bus "DBUS_SYSTEM_BUS_ADDRESS" RUN_DBUS_SYSTEM_SOCKET [DBUS_SYSTEM_SOCKET] c c') /\
  proxies_hidden c'.
Proof.
  intros Hd. unfold dbus_apply_policy. rewrite Hd. cbn [negb]. intros ([] & c0 & [= <-] & E)%cbind_inv.
  rewrite cget_bind in E. cbv zeta in E. cbn [arg_dbus_user arg_dbus_system with_effects] in E.
  destruct (bool_decide _ && bool_decide _) eqn:Eb.
  { apply andb_true_iff in Eb as [?%bool_decide_eq_true ?%bool_decide_eq_true]. apply socket_dir_inv in E as [_ Hp]. by split. }
  apply cbind_inv in E as ([] & c1 & [V1 _]%(same_env_run _ _ _ _ (run_dir_keeps)) & E). cbn [environment with_effects] in V1.
  apply cbind_inv in E as ([] & c2 & E2 & E).
  apply cbind_inv in E as ([] & c3 & E3 & [[V4 L4] Hp]%socket_dir_inv). split; [|split; [|done]]; intros Hn.
  - rewrite decide_False in E2 by done. apply user_policy_inv in E2 as [Hc _].
    assert (later c2 c3 /\ env_get "DBUS_SESSION_BUS_ADDRESS" (environment c3) =
      env_get "DBUS_SESSION_BUS_ADDRESS" (environment c2)) as [L3 Hsame].
    { destruct (decide _); [injection E3 as <-; by split; [apply later_eq|]|].
      apply system_policy_inv in E3 as (L3 & _ & Ho). by split. }
    assert (later c2 c') by (by eapply later_trans). eapply cut_off_later; [eassumption|by rewrite V4|].
    destruct Hc as (? & ? & Hs). split; [done|split; [done|exact (named_from _ _ _ _ V1 Hs)]].
  - rewrite decide_False in E3 by done. apply system_policy_inv in E3 as (_ & (Hv & Hh & Hs) & _).
    eapply cut_off_later; [exact L4|by rewrite V4|]. split; [done|split; [done|]].
    intros socket Hsock. apply Hs. destruct (decide _); [injection E2 as <-; by rewrite V1|].
    apply user_policy_inv in E2 as [_ Ho]. by rewrite Ho, V1.
Qed.
End Bus.
