(* ===== verification/JoinTheorems.v ===== *)
(** * Joining processes and helper programs

    What a process that joins a sandbox takes over from it, which sandboxes it
    joins, and what a helper program is confined to. *)

From S2P Require Import Prelude.
From S2P Require Import Clib.
From S2P Require Import Keeps.
From S2P Require Import Cmdline.
From S2P Require Import Bpf.
From S2P Require Import Caps.
From S2P Require Import SyscallTables.
From S2P Require Import SyscallGroups.
From S2P Require Import FilterFile.
From S2P Require Import Syscall.
From S2P Require Import SyscallSpec.
From S2P Require Import Fseccomp.
From S2P Require Import Optimizer.
From S2P Require Import Install.
From S2P Require Import Concrete.
From S2P Require Import DropTheorems.
From S2P Require Import ArgTheorems.
From S2P Require Import InstallTheorems.
From S2P Require Import Env.
From S2P Require Import Text.
From S2P Require Import Common.
From S2P Require Import Util.
From S2P Require Import UtilTheorems.
From S2P Require Import Checkcfg.
From S2P Require Import Macros.
From S2P Require Import ProfileState.
From S2P Require Import ProfileCommands.
From S2P Require Import NetConfig.
From S2P Require Import Trace.
From S2P Require Import Startup.
From S2P Require Import Sys.
From S2P Require Import SysFiles.
From S2P Require Import Session.
From S2P Require Import Chroot.
From S2P Require Import MainSetup.
From S2P Require Import Sandbox.
From S2P Require Import Parent.
From S2P Require Import Sbox.
From S2P Require Import Join.
From S2P Require Import ProfileReadTheorems.
From S2P Require Import SandboxKeeps.
From S2P Require Import SandboxTheorems.

(** ** The filter of a helper program *)

Section SboxFilter.
Context `{SH : SysHeaders} `{BM : BpfMachine} {BL : BpfLaws}.

Lemma blacklist_rules act l : flat_map (BLACKLIST act) l = rules_code (map (fun n => (n, act)) l).
Proof. induction l as [|n l IH]; [done|]. cbn [flat_map map]. by rewrite IH. Qed.

Lemma blacklist_match act l n : Forall nr_ok l ->
  first_match (map (fun m => (m, act)) l) n = if existsb (Z.eqb n) l then Some (u32 act) else None.
Proof.
  intros Hl. unfold first_match. induction Hl as [|m l Hm Hl IH]; [done|]. cbn [map List.find existsb fst].
  rewrite (u32_nr m) by done. destruct (n =? m); [done|]. exact IH.
Qed.

Lemma sbox_filter_decision act d :
  Forall nr_ok sbox_blocked -> nr_ok (sd_nr d) ->
  run_filter (sbox_filter act) d =
  Some (gate true (u32 act) (if existsb (Z.eqb (sd_nr d)) sbox_blocked then u32 act else SECCOMP_RET_ALLOW) d).
Proof.
  intros Hl Hd. unfold run_filter, sbox_filter, gate, VALIDATE_ARCHITECTURE, RETURN_ALLOW at 1.
  rewrite exec_validate_arch. change (u32 ARCH_NR) with ARCH_NR. destruct (u32 (sd_arch d) =? ARCH_NR); [|done].
  cbn [negb andb]. unfold EXAMINE_SYSCALL. cbn [app]. rewrite exec_LD_nr, (u32_nr (sd_nr d)) by done.
  rewrite exec_HANDLE_X32 by (unfold nr_ok in Hd; lia). destruct (X32_SYSCALL_BIT <=? sd_nr d); [done|].
  rewrite blacklist_rules, exec_rules, blacklist_match by done. destruct (existsb _ _); [done|].
  unfold RETURN_ALLOW. apply exec_RET.
Qed.

(** What a helper program may not do: mounts, tracing and the memory of other
    processes, another kernel, files opened by handle, kernel modules, ports, swap
    space, the log of the kernel and the personality. *)
Definition refused_calls : list string :=
  ["SYS_mount"; "SYS_umount"; "SYS_umount2"; "SYS_fsopen"; "SYS_fsconfig"; "SYS_fsmount"; "SYS_move_mount";
   "SYS_fspick"; "SYS_open_tree"] ++
  ["SYS_ptrace"; "SYS_process_vm_readv"; "SYS_process_vm_writev"] ++ ["SYS_kexec_file_load"; "SYS_kexec_load"] ++
  ["SYS_name_to_handle_at"; "SYS_open_by_handle_at"] ++
  ["SYS_init_module"; "SYS_finit_module"; "SYS_create_module"; "SYS_delete_module"] ++
  ["SYS_iopl"; "SYS_ioperm"; "SYS_ioprio_set"; "SYS_ni_syscall"] ++ ["SYS_swapon"; "SYS_swapoff"] ++
  ["SYS_syslog"; "SYS_personality"].

Definition refused_call (nr : Z) : bool := existsb (fun name => bool_decide (SYS name = Some nr)) refused_calls.

Lemma omap_refused l nr : existsb (Z.eqb nr) (omap SYS l) = existsb (fun name => bool_decide (SYS name = Some nr)) l.
Proof.
  induction l as [|name l IH]; [done|]. cbn [omap list_omap existsb]. destruct (SYS name) as [n|] eqn:E.
  - cbn [existsb]. rewrite <- IH. f_equal. case_bool_decide as Hb.
    + injection Hb as ->. apply Z.eqb_refl.
    + apply Z.eqb_neq. congruence.
  - by rewrite bool_decide_eq_false_2 by congruence.
Qed.

(** C16: Behind the filter of a helper program every system call is decided: each of the
    refused calls the headers know, and each call of the x32 interface, gets the error
    action [act] of firejail, whatever it is (the default kills the thread, an error
    refuses the call, log lets it pass); every other call, and every call of another
    architecture, passes. *)
Theorem sbox_filter_blocks act d :
  Forall nr_ok sbox_blocked -> nr_ok (sd_nr d) ->
  run_filter (sbox_filter act) d =
  Some (if negb (u32 (sd_arch d) =? ARCH_NR) then SECCOMP_RET_ALLOW
        else if X32_SYSCALL_BIT <=? sd_nr d then u32 act
        else if refused_call (sd_nr d) then u32 act else SECCOMP_RET_ALLOW).
Proof.
  intros Hl Hd. rewrite sbox_filter_decision by done. unfold sbox_blocked. rewrite omap_refused.
  change sbox_blacklist with refused_calls. unfold gate. fold (refused_call (sd_nr d)).
  by destruct (negb _), (X32_SYSCALL_BIT <=? sd_nr d).
Qed.
End SboxFilter.

(** ** The confinement of a helper program *)

Section SboxConfined.
Context `{H : Host} `{CH : CapHeaders} `{CK : CapKernel} `{N : NetHost} `{SS : StartHost} `{SH : SysHeaders}
  `{KOS : OS} `{K : Kernel} `{SEH : SessionHost} `{CHH : ChildHost} {CL : CapLaws}.

(** The capabilities each flag stands for. *)
Definition flag_caps : list (Z * list string) :=
  [(SBOX_CAPS_NETWORK, ["CAP_NET_ADMIN"; "CAP_NET_RAW"]);
   (SBOX_CAPS_HIDEPID, ["CAP_SYS_PTRACE"; "CAP_SYS_PACCT"]);
   (SBOX_CAPS_NET_SERVICE, ["CAP_NET_BIND_SERVICE"; "CAP_NET_BROADCAST"])].
Definition caps_named (filtermask : Z) : list string :=
  flat_map (fun '(flag, l) => if flagged filtermask flag then l else []) flag_caps.

(** The capabilities a helper program may still have: none, those its flags name, or
    all where its flags name none. *)
Definition sbox_cap (filtermask n : Z) : bool :=
  negb (flagged filtermask SBOX_CAPS_NONE) &&
  (built "HAVE_GCOV" || bool_decide (caps_named filtermask = []) ||
   existsb (fun m => n =? cap_macro m) (caps_named filtermask)).

Lemma cap_macro_bound m : 0 <= cap_macro m <= 40.
Proof.
  unfold cap_macro. destruct (CAP m) as [n|] eqn:E; cbn; [|lia]. by apply cap_abi, linux_cap_range in E.
Qed.

Lemma cap_bit_bits m n : 0 <= n -> Z.testbit (cap_bit m) n = (n =? cap_macro m).
Proof.
  intros Hn. pose proof (cap_macro_bound m) as Hm. unfold cap_bit. rewrite Z.shiftl_1_l, u64_small.
  - rewrite Z.pow2_bits_eqb by lia. apply Z.eqb_sym.
  - split; [lia|]. apply Z.pow_lt_mono_r; lia.
Qed.

Lemma sbox_caps_kept_bits filtermask n : built "HAVE_GCOV" = false -> 0 <= n ->
  Z.testbit (sbox_caps_kept filtermask) n = existsb (fun m => n =? cap_macro m) (caps_named filtermask).
Proof.
  intros Hb Hn. unfold sbox_caps_kept. rewrite Hb. cbv zeta. unfold caps_named, flag_caps. cbn [flat_map].
  rewrite !existsb_app, orb_false_r.
  destruct (flagged filtermask SBOX_CAPS_NETWORK), (flagged filtermask SBOX_CAPS_HIDEPID),
    (flagged filtermask SBOX_CAPS_NET_SERVICE); rewrite ?Z.lor_spec, ?cap_bit_bits, ?Z.testbit_0_l by done;
    cbn [existsb]; rewrite ?orb_false_r, ?orb_false_l, ?orb_assoc; done.
Qed.

Lemma sbox_caps_kept_none filtermask : built "HAVE_GCOV" = false ->
  (sbox_caps_kept filtermask =? 0) = bool_decide (caps_named filtermask = []).
Proof.
  intros Hb. destruct (caps_named filtermask) as [|m l] eqn:E.
  - rewrite (bool_decide_eq_true_2 _ eq_refl). apply Z.eqb_eq. apply Z.bits_inj'. intros n Hn.
    by rewrite sbox_caps_kept_bits, E, Z.testbit_0_l.
  - rewrite bool_decide_eq_false_2 by done. apply Z.eqb_neq. intros E0.
    pose proof (sbox_caps_kept_bits filtermask (cap_macro m) Hb ltac:(apply cap_macro_bound)) as Hk.
    rewrite E0, E, Z.testbit_0_l in Hk by apply cap_macro_bound. cbn in Hk. by rewrite Z.eqb_refl in Hk.
Qed.

Lemma leaves_sbox_caps filtermask : leaves (sbox_caps filtermask) (sbox_cap filtermask).
Proof.
  assert (forall p q m, (forall n, 0 <= n -> p n = q n) -> leaves m p -> leaves m q) as Hext.
  { intros p q m Hpq Hm s. destruct (Hm s) as (s' & E & Hs). exists s'. split; [done|]. intros n Hn. rewrite <- Hpq by lia. by apply Hs. }
  unfold sbox_caps, sbox_cap. destruct (flagged _ SBOX_CAPS_NONE); [apply leaves_drop_all|]. cbv zeta. cbn [negb andb].
  destruct (built "HAVE_GCOV") eqn:Hb.
  - unfold sbox_caps_kept. rewrite Hb. apply leaves_ret.
  - rewrite sbox_caps_kept_none by done. case_bool_decide; [apply leaves_ret|].
    eapply Hext; [|apply leaves_caps_set]. intros n Hn. by apply sbox_caps_kept_bits.
Qed.

Lemma inCaps_leaves (m : CM caps_state unit) p s s' : leaves m p -> inCaps m s = (Ok tt, s') ->
  exists k, s' = with_caps k s /\ forall n, 0 <= n <= cap_last -> Z.testbit (bset k) n = Z.testbit (bset (ch_caps s)) n && p n.
Proof.
  intros Hm (k & E & ->)%inCaps_inv. exists k. split; [done|]. destruct (Hm (ch_caps s)) as (k' & E' & Hk).
  assert (k = k') as -> by congruence. exact Hk.
Qed.

Lemma sbox_seccomp_ok filtermask s s' : sbox_seccomp filtermask s = (Ok tt, s') ->
  exists c n, let filter := sbox_filter (int_of "arg_seccomp_error_action" (ch_cfg s)) in
    same_but [] (ch_cfg s) c /\
    s' = with_programs (ch_programs s ++ if flagged filtermask SBOX_SECCOMP && accepts_filter filter then [filter] else [])
           (with_nnp n (with_cfg c s)).
Proof.
  unfold sbox_seccomp. destruct (flagged _ _); cbn [andb].
  - intros (r & s1 & (c & S1 & _ & _ & ->)%prctl_no_new_privs_ok & E)%cbind_inv. rewrite cget_bind in E. cbv zeta in *.
    assert (int_of "arg_seccomp_error_action" c = int_of "arg_seccomp_error_action" (ch_cfg s)) as Ea by (by destruct S1 as (I & _); apply I).
    cbn [ch_cfg with_cfg with_nnp ch_programs] in E. rewrite Ea in E.
    exists c, (ch_nnp s || (r =? 0)). split; [done|]. destruct (accepts_filter _); injection E as <-; [done|].
    by rewrite app_nil_r.
  - intros [= <-]. exists (ch_cfg s), (ch_nnp s). split; [reflexivity|]. rewrite app_nil_r. by destruct s.
Qed.

Lemma groups_forced c cur g : groups_left true c cur = Ok g -> g = [].
Proof. unfold groups_left, drop_privs. rewrite orb_true_r. destruct (accepts_groups []); [congruence|done]. Qed.

Lemma sbox_ids_ok filtermask s s' : sbox_ids filtermask s = (Ok tt, s') ->
  exists c g b, same_but [] (ch_cfg s) c /\ s' = with_cfg c (with_groups g (with_ids b s)) /\
    (flagged filtermask SBOX_USER = true -> g = [] /\ b = true).
Proof.
  unfold sbox_ids. destruct (flagged filtermask SBOX_USER).
  - intros (c & g & S1 & Eg & ->)%drop_to_user_ok. exists c, g, true. apply groups_forced in Eg as ->. by split; [|split].
  - destruct (flagged _ _); [|done]. intros (c & S1 & ->)%(inP_same []); [|keeps_deep].
    exists c, (ch_groups s), (ch_ids s). split; [done|]. by split; [destruct s|].
Qed.

(** The file of a program that may be started: of root or of its group, and not
    writable for everybody. *)
Definition roots_file (st : fstat) : Prop :=
  (st_uid st = 0 \/ st_gid st = 0) /\ Z.testbit (st_perm st) 1 = false.

Lemma trusted_spec st : trusted st = true -> roots_file st.
Proof.
  unfold trusted, roots_file. intros [Ho Hw]%andb_true_iff. split.
  - destruct (Z.eqb_spec (st_uid st) 0); [by left|]. destruct (Z.eqb_spec (st_gid st) 0); [by right|done].
  - apply Z.eqb_eq in Hw. assert (Z.testbit (Z.land (st_perm st) 2) 1 = false) as E by by rewrite Hw.
    rewrite Z.land_spec in E. by rewrite andb_true_r in E.
Qed.

Lemma sbox_environment_own c : Forall (fun v => has_prefix "FIREJAIL_" v = true) (sbox_environment c).
Proof.
  unfold sbox_environment. repeat apply Forall_app_2.
  - destruct (env_get _ _); by repeat constructor.
  - destruct (set _ _); by repeat constructor.
  - destruct (set _ _); by repeat constructor.
  - destruct (str_of _ _); by repeat constructor.
  - by repeat constructor.
Qed.

Lemma sbox_start_ok env arg c c' : sbox_start env arg c = (Ok tt, c') ->
  exists program fd st, head arg = Some program /\ sys_open (effects c) (flags [O_PATH; O_CLOEXEC]) program = Some fd /\
    sys_fstat (effects c) fd = inl st /\ roots_file st /\
    effects c' = effects c ++ [Call "environ" fd env; Exec program arg].
Proof.
  unfold sbox_start. destruct arg as [|program arg]; [done|]. unfold open, ask. rewrite cbind_assoc, cget_bind, cret_bind.
  destruct (sys_open _ _ _) as [fd|] eqn:Eo; [|done]. rewrite cbind_assoc, cget_bind, cret_bind.
  destruct (sys_fstat _ _) as [st|] eqn:Es; [|done]. unfold exit_unless at 1. destruct (trusted st) eqn:Et; [|done].
  rewrite cret_bind. unfold emit. rewrite cmodify_bind. intros (r & c1 & E1 & E)%cbind_inv.
  unfold or_exit, exit_unless in E. destruct (r =? 0); [|done]. injection E as <-. injection E1 as _ <-.
  exists program, fd, st. split; [done|]. split; [done|]. split; [done|]. split; [by apply trusted_spec|]. cbn. by rewrite <- app_assoc.
Qed.

(** C14: A helper program starts only confined as its flags say: with SBOX_USER under the ids
    of the user and in no supplementary group; with no capability (SBOX_CAPS_NONE), with
    those its flags name, or, if they name none, with those firejail has; with
    SBOX_SECCOMP behind the filter, if the kernel takes it; from a file that belongs to
    root or to the group of root and that not everybody can write to; in an environment
    of FIREJAIL_ variables only. *)
Theorem sbox_exec_confines filtermask arg s s' :
  sbox_exec_v filtermask arg s = (Ok tt, s') ->
  let filter := sbox_filter (int_of "arg_seccomp_error_action" (ch_cfg s)) in
  (flagged filtermask SBOX_USER = true -> ch_ids s' = true /\ ch_groups s' = []) /\
  (forall n, 0 <= n <= cap_last ->
     Z.testbit (bset (ch_caps s')) n = Z.testbit (bset (ch_caps s)) n && sbox_cap filtermask n) /\
  ch_programs s' = ch_programs s ++ (if flagged filtermask SBOX_SECCOMP && accepts_filter filter then [filter] else []) /\
  exists l program fd st, head arg = Some program /\ sys_open l (flags [O_PATH; O_CLOEXEC]) program = Some fd /\
    sys_fstat l fd = inl st /\ roots_file st /\
    exists env, Forall (fun v => has_prefix "FIREJAIL_" v = true) env /\
      effects (ch_cfg s') = l ++ [Call "environ" fd env; Exec program arg].
Proof.
  unfold sbox_exec_v. cbv zeta. intros ([] & s0 & (c0 & E0 & ->)%inP_inv & E)%cbind_inv.
  assert (c0 = with_effects (effects (ch_cfg s) ++ [Seteuid 0]) (ch_cfg s)) as -> by (by injection E0 as <-). clear E0.
  unfold sbox_do_exec_v in E. rewrite cget_bind in E.
  apply cbind_inv in E as ([] & s1 & E1 & E). apply (inP_same []) in E1 as (c1 & S1 & ->); [|keeps_deep].
  apply cbind_inv in E as ([] & s2 & (k & -> & Hk)%(inCaps_leaves _ _ _ _ (leaves_sbox_caps _)) & E).
  apply cbind_inv in E as ([] & s3 & (c3 & n & S3 & ->)%sbox_seccomp_ok & E).
  apply cbind_inv in E as ([] & s4 & (c4 & g & b & S4 & -> & Hu)%sbox_ids_ok & E).
  apply inP_inv in E as (c5 & E & ->). apply sbox_start_ok in E as (program & fd & st & Hp & Ho & Hs & Ht & Ee).
  cbn [ch_cfg ch_programs ch_groups ch_ids ch_caps with_cfg with_caps with_programs with_nnp with_groups with_ids] in *.
  assert (int_of "arg_seccomp_error_action" c1 = int_of "arg_seccomp_error_action" (ch_cfg s)) as ->.
  { destruct S1 as (I & _). by rewrite I. }
  split; [|split; [done|split; [done|]]].
  - intros Hf. by destruct (Hu Hf) as [-> ->].
  - exists (effects c4), program, fd, st. do 4 (split; [done|]). by eexists; split; [apply sbox_environment_own|].
Qed.
End SboxConfined.

(** ** The parent of a sandbox *)

Section ParentAnswer.
Context `{H : Host} `{K : Kernel} `{CHH : ChildHost} `{PH : ParentHost}.

Lemma id_maps_keeps child : keeps (same_but []) (id_maps child).
Proof. keeps_deep. Qed.

(** The parent answers a message of its child with what the message says, as the child
    expects it ([ParentLaws]), when the id maps are written. *)
Lemma parent_answers child c c' msg :
  from_child (effects c) = Some msg -> answer_child child c = (Ok tt, c') ->
  exists l r, parent_reply msg = Some r /\ effects c' = effects c ++ l ++ [Call "write" 0 [r]].
Proof.
  intros Em. unfold answer_child, wait_for_child, ask. rewrite !cbind_assoc, cget_bind, cret_bind, Em, cbind_assoc.
  intros (v & c1 & [= Ev <-] & E)%cbind_inv. apply cbind_inv in E as ([] & c2 & [= <-] & E).
  set (c2 := with_ints _ _) in E. assert (int_of "arg_noroot" c2 = v) as Iv by (unfold c2; rewrite int_of_insert; done).
  apply cbind_inv in E as ([] & c3 & E3 & E).
  assert (same_but [] c2 c3) as S3.
  { pose proof (id_maps_keeps child) as Hk. assert (keeps (same_but []) (when_set "arg_noroot" (id_maps child))) as Hw by keeps_deep.
    specialize (Hw c2). by rewrite E3 in Hw. }
  apply cbind_inv in E as ([] & c4 & E4 & E). unfold EUID_ASSERT in E4. rewrite cget_bind in E4.
  unfold cassert in E4. destruct (unprivileged _); [|done]. injection E4 as <-.
  unfold notify_other_end, get_int in E. rewrite cbind_assoc, cget_bind, cret_bind in E. injection E as <-.
  destruct S3 as (I & _ & l & El). exists l, (notify_other v). unfold parent_reply.
  change (wait_for_other (Some msg) = Ok v) in Ev. rewrite Ev. split; [done|].
  cbn [effects with_effects]. rewrite (I "arg_noroot"), Iv, El by done. unfold c2. cbn. by rewrite app_assoc.
Qed.
End ParentAnswer.

(** ** Which sandbox is joined *)

Section Pinned.
Context `{H : Host} `{N : NetHost} `{K : Kernel} `{JH : JoinHost}.

(** [l]: the effects at a point of the run from [c] to [c']. *)
Definition during (c c' : Config) (l : list effect) : Prop :=
  exists l1 l2, l = effects c ++ l1 /\ effects c' = l ++ l2.

Lemma during_widen c0 c c' c1 l : later c0 c -> later c' c1 -> during c c' l -> during c0 c1 l.
Proof.
  intros [k Ek] [k' Ek'] (l1 & l2 & -> & E). exists (k ++ l1), (l2 ++ k'). split; [by rewrite Ek, app_assoc|].
  by rewrite Ek', E, app_assoc.
Qed.
Lemma during_start c c' : later c c' -> during c c' (effects c).
Proof. intros [l E]. exists [], l. by rewrite app_nil_r. Qed.

Lemma runs_later {A} (m : P A) c a c' : keeps (same_but []) m -> m c = (Ok a, c') -> later c c'.
Proof. intros Hm E. specialize (Hm c). rewrite E in Hm. apply Hm. Qed.

Ltac grows := eapply runs_later; [|eassumption]; keeps_deep.

(** A file of a process was opened and read. *)
Definition reads (c c' : Config) (p : ProcessHandle) (fname text : string) : Prop :=
  exists l l' fd, during c c' l /\ during c c' l' /\
    sys_openat l (process_get_fd p) (flags [O_RDONLY; O_CLOEXEC]) fname = Some fd /\ fd_text l' fd = text.

Lemma reads_widen c0 c c' c1 p f t : later c0 c -> later c' c1 -> reads c c' p f t -> reads c0 c1 p f t.
Proof. intros L0 L1 (l & l' & fd & D & D' & E). exists l, l', fd. split; [|split; [|done]]; by eapply during_widen. Qed.

Lemma as_root_in_inv {A} f (m : P A) c a c' : as_root_in f m c = (Ok a, c') -> keeps (same_but []) m ->
  exists c1 c2, m c1 = (Ok a, c2) /\ later c c1 /\ later c1 c2 /\ later c2 c'.
Proof.
  unfold as_root_in. intros ([] & c1 & E1 & E)%cbind_inv Hm. apply cbind_inv in E as ([] & c2 & E2 & E).
  apply cbind_inv in E as ([] & c3 & E3 & E). apply cbind_inv in E as (a' & c4 & E4 & E).
  apply cbind_inv in E as ([] & c5 & E5 & [= <- <-]). exists c3, c4. split; [done|].
  split; [|split; [by eapply runs_later|grows]].
  eapply later_trans; [|grows]. eapply later_trans; [grows|]. grows.
Qed.

Lemma stat_inv p f c s c' : process_stat p f c = (Ok s, c') ->
  exists l, during c c' l /\ sys_fstatat0 l (process_get_fd p) f = inl s.
Proof.
  unfold process_stat. intros (r & c1 & E1 & E)%cbind_inv. destruct r as [s'|]; [|done]. injection E as <- <-.
  apply as_root_in_inv in E1 as (c2 & c3 & E2 & L1 & L2 & L3); [|keeps_deep]. injection E2 as E2 <-.
  exists (effects c2). split; [|done]. eapply during_widen; [exact L1|exact L3|by apply during_start].
Qed.

Lemma open_nofail_inv p f c r c' : process_open_nofail p f c = (Ok r, c') ->
  exists l, during c c' l /\ sys_openat l (process_get_fd p) (flags [O_RDONLY; O_CLOEXEC]) f = r.
Proof.
  intros (c2 & c3 & E2 & L1 & L2 & L3)%as_root_in_inv; [|keeps_deep]. injection E2 as E2 <-.
  exists (effects c2). split; [|done]. eapply during_widen; [exact L1|exact L3|by apply during_start].
Qed.

Lemma read_all_inv fd c t c' : read_all fd c = (Ok t, c') -> exists l, during c c' l /\ fd_text l fd = t.
Proof.
  intros E. assert (later c c') as L by grows. unfold read_all, ask in E. rewrite cbind_assoc, cget_bind, cret_bind in E.
  injection E as <- _. exists (effects c). by split; [apply during_start|].
Qed.

Lemma text_inv p f c t c' : process_text p f c = (Ok t, c') -> reads c c' p f t.
Proof.
  unfold process_text, process_open. intros (fd & c1 & E1 & E)%cbind_inv. apply cbind_inv in E1 as (r & c2 & E1 & E2).
  assert (later c c2) by grows. assert (later c1 c') by grows.
  destruct r as [fd'|]; [|done]. injection E2 as <- <-. apply open_nofail_inv in E1 as (l & D & Eo).
  apply read_all_inv in E as (l' & D' & Et). exists l, l', fd'. split; [|split; [|done]].
  - eapply during_widen; [by apply later_eq| |exact D]. done.
  - eapply during_widen; [|by apply later_eq|exact D']. done.
Qed.

Lemma status_inv p c bufs c' : process_status p c = (Ok bufs, c') ->
  exists t, reads c c' p "status" t /\ bufs = map c_string (fgets BUFLEN t).
Proof.
  unfold process_status. intros (t & c1 & E%text_inv & E1)%cbind_inv. exists t. by injection E1 as <- <-.
Qed.

Lemma pidns_loop_keeps fuel self p : keeps (same_but []) (pidns_loop fuel self p).
Proof.
  revert p. induction fuel as [|fuel IH]; intros p; cbn [pidns_loop]; [apply keeps_nofuel, _|].
  repeat first [apply IH | keeps_step | keeps_unfold].
Qed.
Lemma joinable_loop_keeps fuel p i : keeps (same_but []) (joinable_loop fuel p i).
Proof.
  revert i. induction fuel as [|fuel IH]; intros i; cbn [joinable_loop]; [apply keeps_nofuel, _|].
  repeat first [apply IH | keeps_step | keeps_unfold].
Qed.
#[local] Hint Resolve pidns_loop_keeps joinable_loop_keeps : keeps.

Lemma pidns_loop_inv fuel self p c q c' : pidns_loop fuel self p c = (Ok q, c') ->
  exists l s, during c c' l /\ sys_fstatat0 l (process_get_fd q) "ns/pid" = inl s /\ same_file s self = true.
Proof.
  revert p c. induction fuel as [|fuel IH]; intros p c; cbn [pidns_loop]; [done|].
  intros (s & c1 & E1 & E)%cbind_inv. destruct (same_file s self) eqn:Es.
  - injection E as <- <-. apply stat_inv in E1 as (l & D & E). by exists l, s.
  - apply cbind_inv in E as (next & c2 & E2 & E). apply cbind_inv in E as ([] & c3 & E3 & E).
    assert (later c c1) by grows. assert (later c1 c2) by grows. assert (later c2 c3) by grows.
    apply IH in E as (l & s' & D & E). exists l, s'. split; [|done].
    eapply during_widen; [|by apply later_eq|exact D]. repeat (eapply later_trans; [eassumption|]). by apply later_eq.
Qed.

Lemma comm_inv p c u c' : check_firejail_comm p c = (Ok u, c') ->
  exists t, reads c c' p "comm" t /\ scan_word 15 t = Some "firejail".
Proof.
  unfold check_firejail_comm. intros (t & c1 & E1%text_inv & E)%cbind_inv. destruct (scan_word 15 t) as [w|] eqn:Ew; [|done].
  unfold exit_unless in E. destruct (streq w "firejail") eqn:Es; [|done]. injection E as <- <-. apply streq_eq in Es as ->.
  by exists t.
Qed.

Lemma credentials_inv p c u c' : check_firejail_credentials p c = (Ok u, c') ->
  exists t ruid, reads c c' p "status" t /\
    status_uids (map c_string (fgets BUFLEN t)) (u32 (-1)) (u32 (-1)) = (ruid, 0) /\ (ruid = uid \/ uid = 0).
Proof.
  unfold check_firejail_credentials. intros (bufs & c1 & (t & R & ->)%status_inv & E)%cbind_inv.
  destruct (status_uids _ _ _) as [ruid suid] eqn:Es. unfold exit_unless in E.
  destruct (Z.eqb_spec suid 0) as [->|]; [|done]. rewrite cret_bind in E.
  destruct ((ruid =? uid) || (uid =? 0)) eqn:Eu; [|done]. injection E as <- <-.
  exists t, ruid. split; [done|]. split; [exact Es|]. apply orb_true_iff in Eu as [?%Z.eqb_eq|?%Z.eqb_eq]; auto.
Qed.

(** The pid file names [pid] and is locked by [parent]. *)
Definition pid_file (c c' : Config) (parent pid : Z) : Prop :=
  exists l l' l'' fd rest, during c c' l /\ during c c' l' /\ during c c' l'' /\
    sys_open l (flags [O_RDWR; O_CLOEXEC]) (RUN_FIREJAIL_SANDBOX_DIR +:+ "/" +:+ print_d parent) = Some fd /\
    lock_owner l' fd = Some (Some parent) /\ scan_d (fd_text l'' fd) = Some (pid, rest).

Lemma pidfile_inv parent c pid c' : read_sandbox_pidfile parent c = (Ok pid, c') -> pid_file c c' parent pid.
Proof.
  unfold read_sandbox_pidfile. intros ([] & c1 & E1 & E)%cbind_inv. apply cbind_inv in E as (r & c2 & E2 & E).
  apply cbind_inv in E as ([] & c3 & E3 & E). destruct r as [fd|]; [|done].
  unfold ask at 1 in E. rewrite cbind_assoc, cget_bind, cret_bind in E.
  destruct (lock_owner (effects c3) fd) as [[owner|]|] eqn:El; [|done..].
  unfold exit_unless in E. destruct (Z.eqb_spec owner parent) as [->|]; [|done]. rewrite cret_bind in E.
  apply cbind_inv in E as (t & c4 & E4 & E). destruct (scan_d t) as [[v rest]|] eqn:Et; [|done]. injection E as <- <-.
  assert (later c c1) by grows. injection E2 as Eo <-. assert (later c1 c3) by grows. assert (later c3 c4) by grows.
  apply read_all_inv in E4 as (l & D & <-). assert (later c c3) by (by eapply later_trans).
  exists (effects c1), (effects c3), l, fd, rest.
  split; [|split; [|split; [|by split]]].
  - apply (during_widen _ c1 c4); [done|by apply later_eq|]. apply during_start. by eapply later_trans.
  - apply (during_widen _ c3 c4); [done|by apply later_eq|]. by apply during_start.
  - by eapply during_widen; [eassumption|apply later_eq|].
Qed.

(** The byte of a sandbox that is complete. *)
Definition complete (c c' : Config) (p : ProcessHandle) : Prop :=
  exists l l' fd s rest, during c c' l /\ during c c' l' /\
    sys_openat l (process_get_fd p) (flags [O_RDONLY; O_CLOEXEC]) ("root" +:+ RUN_JOIN_FILE) = Some fd /\
    sys_fstat l' fd = inl s /\ st_uid s = 0 /\ fd_isreg l' fd = true /\ fd_size l' fd = 1 /\
    fd_text l' fd = String SANDBOX_DONE rest.

Lemma complete_widen c0 c c' c1 p : later c0 c -> later c' c1 -> complete c c' p -> complete c0 c1 p.
Proof. intros L0 L1 (l & l' & fd & s & r & D & D' & E). exists l, l', fd, s, r. split; [|split; [|done]]; by eapply during_widen. Qed.

Lemma join_file_inv p c c' : has_join_file p c = (Ok true, c') -> complete c c' p.
Proof.
  unfold has_join_file, process_rootfs_open. intros (r & c1 & E1 & E)%cbind_inv. destruct r as [fd|]; [|done].
  assert (later c c1) by grows. assert (later c1 c') by grows.
  apply open_nofail_inv in E1 as (l & D & Eo).
  unfold ask in E. rewrite !cbind_assoc, cget_bind, cret_bind in E. destruct (sys_fstat (effects c1) fd) as [s|] eqn:Es; [|done].
  rewrite !cbind_assoc, cget_bind, !cret_bind, !cbind_assoc, cget_bind, !cret_bind, !cbind_assoc, cget_bind, !cret_bind in E.
  apply cbind_inv in E as ([] & c2 & E2 & E). injection E as E <-.
  apply andb_true_iff in E as [E Et]. apply andb_true_iff in E as [E Ez%Z.eqb_eq]. apply andb_true_iff in E as [Er Eu%Z.eqb_eq].
  destruct (fd_text (effects c1) fd) as [|a rest] eqn:Ef; [done|]. apply Ascii.eqb_eq in Et as ->.
  exists l, (effects c1), fd, s, rest. split; [|split; [|by repeat split]].
  - eapply during_widen; [by apply later_eq|eassumption|exact D].
  - eapply during_widen; [eassumption|by apply later_eq|]. by apply during_start.
Qed.

Lemma joinable_inv fuel p i c u c' : joinable_loop fuel p i c = (Ok u, c') -> complete c c' p.
Proof.
  revert i c. induction fuel as [|fuel IH]; intros i c; cbn [joinable_loop]; [done|].
  intros (ready & c1 & E1 & E)%cbind_inv. destruct ready.
  - injection E as <- <-. by apply join_file_inv.
  - destruct (_ <? i); [done|]. apply cbind_inv in E as ([] & c2 & E2 & E).
    assert (later c c1) by grows. assert (later c1 c2) by grows. apply IH in E.
    eapply complete_widen; [|by apply later_eq|exact E]. by eapply later_trans.
Qed.

Lemma pidns_parent_inv fuel pid c q c' : find_pidns_parent fuel pid c = (Ok q, c') ->
  exists l self s, during c c' l /\ sys_stat (effects c) "/proc/self/ns/pid" = Some self /\
    sys_fstatat0 l (process_get_fd q) "ns/pid" = inl s /\ same_file s self = true.
Proof.
  unfold find_pidns_parent, ask. rewrite cbind_assoc, cget_bind, cret_bind. destruct (sys_stat _ _) as [self|]; [|done].
  intros (p & c1 & E1 & E)%cbind_inv. assert (later c c1) by grows. apply pidns_loop_inv in E as (l & s & D & E).
  exists l, self, s. split; [|done]. by eapply during_widen; [eassumption|apply later_eq|].
Qed.

(** What is known of the sandbox [p] and the firejail process [parent] it belongs to. *)
Definition own_sandbox (c c' : Config) (parent p : ProcessHandle) : Prop :=
  (exists l l0 self s, during c c' l /\ during c c' l0 /\ sys_stat l0 "/proc/self/ns/pid" = Some self /\
     sys_fstatat0 l (process_get_fd parent) "ns/pid" = inl s /\ same_file s self = true) /\
  (exists t, reads c c' parent "comm" t /\ scan_word 15 t = Some "firejail") /\
  (exists t ruid, reads c c' parent "status" t /\
     status_uids (map c_string (fgets BUFLEN t)) (u32 (-1)) (u32 (-1)) = (ruid, 0) /\ (ruid = uid \/ uid = 0)) /\
  pid_file c c' (process_get_pid parent) (process_get_pid p) /\
  (exists t, reads c c' p "status" t /\ status_ppid (map c_string (fgets BUFLEN t)) = process_get_pid parent) /\
  complete c c' p.

Lemma pid_file_widen c0 c c' c1 a b : later c0 c -> later c' c1 -> pid_file c c' a b -> pid_file c0 c1 a b.
Proof.
  intros L0 L1 (l & l' & l'' & fd & r & D & D' & D'' & E). exists l, l', l'', fd, r.
  split; [|split; [|split; [|done]]]; by eapply during_widen.
Qed.

Lemma pin_child_inv parent pid c p c' : pin_child_process parent pid c = (Ok p, c') ->
  process_get_pid p = pid /\
  exists t, reads c c' p "status" t /\ status_ppid (map c_string (fgets BUFLEN t)) = process_get_pid parent.
Proof.
  unfold pin_child_process, pin_process_relative_to. intros (child & c1 & E1 & E)%cbind_inv.
  assert (later c c1) as L1 by grows. apply cbind_inv in E1 as (fd & c2 & _ & [= <- <-]).
  apply cbind_inv in E as (ppid & c3 & E3 & E). unfold process_parent_pid in E3.
  apply cbind_inv in E3 as (bufs & c4 & (t & R & ->)%status_inv & [= <- <-]).
  unfold exit_unless in E. destruct (Z.eqb_spec (status_ppid (map c_string (fgets BUFLEN t))) (process_get_pid parent)) as [Ep|]; [|done].
  injection E as <- <-. split; [done|]. exists t. split; [|done]. eapply reads_widen; [exact L1|by apply later_eq|exact R].
Qed.

(** The point in a run that is asked about lies in a longer one. *)
Ltac widen lemma := eapply lemma; [| |eassumption]; assumption.

(** C13: Only a complete sandbox of the own user is joined: its process is the child a
    locked pid file names of a process called firejail, in our pid namespace, that is
    privileged and was started by the user, or the user is root; and under its root
    directory is the regular file of root that is marked once it is complete. *)
Theorem pinned_is_own_sandbox fuel pid c p c' :
  pin_sandbox_process fuel pid c = (Ok p, c') -> exists parent, own_sandbox c c' parent p.
Proof.
  unfold pin_sandbox_process, switch_to_sandbox. intros ([] & c1 & E1 & E)%cbind_inv.
  apply cbind_inv in E as (parent & c2 & E2 & E). apply cbind_inv in E as ([] & c3 & E3 & E).
  apply cbind_inv in E as ([] & c4 & E4 & E). apply cbind_inv in E as (p' & c5 & E5 & E).
  apply cbind_inv in E5 as (pid' & c6 & E6 & E5). apply cbind_inv in E as ([] & c7 & E7 & E).
  apply cbind_inv in E as ([] & c8 & E8 & [= <- <-]).
  assert (later c c1) as L1 by grows. assert (later c1 c2) as L2 by grows. assert (later c2 c3) as L3 by grows.
  assert (later c3 c4) as L4 by grows. assert (later c4 c6) as L6 by grows. assert (later c6 c5) as L5 by grows.
  assert (later c5 c7) as L7 by grows. assert (later c7 c8) as L8 by grows.
  pose proof (later_trans _ _ _ L7 L8) as L58. pose proof (later_trans _ _ _ L5 L58) as L68.
  pose proof (later_trans _ _ _ L6 L68) as L48. pose proof (later_trans _ _ _ L4 L48) as L38.
  pose proof (later_trans _ _ _ L3 L38) as L28. pose proof (later_trans _ _ _ L1 L2) as L02.
  pose proof (later_trans _ _ _ L02 L3) as L03. pose proof (later_trans _ _ _ L03 L4) as L04.
  pose proof (later_trans _ _ _ L04 L6) as L06. pose proof (later_trans _ _ _ L06 L5) as L05.
  apply pidns_parent_inv in E2 as (l & self & s & D & Es & Ef & Eq). apply comm_inv in E3 as (t & Rt & Et).
  apply credentials_inv in E4 as (t4 & ruid & Rt4 & Hu). apply pidfile_inv in E6.
  apply pin_child_inv in E5 as [<- (t5 & Rt5 & E5)]. apply joinable_inv in E7.
  exists parent. split; [|split; [|split; [|split; [|split]]]].
  - exists l, (effects c1), self, s. split; [widen during_widen|]. split; [|done].
    apply (during_widen _ c1 c2 _ _ L1 L28). by apply during_start.
  - exists t. split; [widen reads_widen|done].
  - exists t4, ruid. split; [widen reads_widen|done].
  - widen pid_file_widen.
  - exists t5. split; [widen reads_widen|done].
  - widen complete_widen.
Qed.

(** ** The wait for a sandbox *)

Lemma sleeps_bind {A B} a b (m : P A) (k : A -> P B) :
  0 <= b -> sleeps_at_most a m -> (forall x, sleeps_at_most b (k x)) -> sleeps_at_most (a + b) (cbind m k).
Proof.
  intros Hb Hm Hk c. unfold cbind. specialize (Hm c). destruct (m c) as [[x|z| |] c1]; cbn [fst snd] in *;
    destruct Hm as [Hn (l & El & Hl)]; [|by split; [|exists l; split; [|lia]]..].
  destruct (Hk x c1) as [Hn1 (l1 & El1 & Hl1)]. split; [done|]. exists (l ++ l1).
  split; [by rewrite El1, El, app_assoc|]. rewrite slept_app. lia.
Qed.

Lemma sleeps_pure {A} (m : P A) : (forall c, (m c).1 <> NoFuel /\ (m c).2 = c) -> sleeps_at_most 0 m.
Proof. intros Hm c. destruct (Hm c) as [Hn E]. split; [done|]. exists []. by rewrite E, app_nil_r. Qed.

Lemma sleeps_emit e : sleeps_at_most (usleeps e) (emit e).
Proof. intros c. split; [done|]. exists [e]. split; [done|]. cbn [slept]. lia. Qed.

Ltac sleep_step :=
  match goal with
  | |- sleeps_at_most 0 (cbind _ _) => apply (sleeps_bind 0 0); [lia| |intros]
  | |- sleeps_at_most 0 (emit ?e) => change 0 with (usleeps e); apply sleeps_emit
  | |- sleeps_at_most 0 (match ?x with _ => _ end) => destruct x
  | |- sleeps_at_most 0 _ => apply sleeps_pure; done
  end.

Lemma join_file_sleeps p : sleeps_at_most 0 (has_join_file p).
Proof.
  unfold has_join_file, process_rootfs_open, process_open_nofail, as_root_in, EUID_ASSERT, EUID_ROOT, EUID_USER, openat, ask, cassert.
  cbv zeta. repeat sleep_step.
Qed.

(** Waiting for a sandbox ends: it is complete, or the program ends after at most
    join-timeout microseconds of sleep. *)
Theorem check_joinable_bounded p :
  0 <= join_timeout conf < 2 ^ 63 -> sleeps_at_most (join_timeout conf) (check_joinable p).
Proof.
  intros Ht. unfold check_joinable. set (t := join_timeout conf) in *.
  assert (forall n i, SNOOZE <= i -> 0 <= t -> t - i < SNOOZE * Z.of_nat n -> i <= t + SNOOZE ->
    sleeps_at_most (Z.max 0 (t - i + SNOOZE)) (joinable_loop (S n) p i)) as Hw.
  { induction n as [|n IH]; intros i Hi H0 Hn Hit; cbn [joinable_loop]; fold t;
      (replace (Z.max _ _) with (0 + Z.max 0 (t - i + SNOOZE)) by lia;
       apply sleeps_bind; [lia|apply join_file_sleeps|intros ready]);
      (destruct ready; [intros c; split; [done|exists []; rewrite app_nil_r; split; [done|cbn; lia]]|]);
      (destruct (Z.ltb_spec t i) as [Hl|Hl]; [intros c; split; [done|exists []; rewrite app_nil_r; split; [done|cbn; lia]]|]).
    - unfold SNOOZE in *. lia.
    - assert (u64 (i + SNOOZE) = i + SNOOZE) as -> by (unfold u64, SNOOZE in *; apply Z.mod_small; lia).
      replace (Z.max 0 (t - i + SNOOZE)) with (SNOOZE + Z.max 0 (t - (i + SNOOZE) + SNOOZE)) by (unfold SNOOZE in *; lia).
      apply sleeps_bind; [lia|apply (sleeps_emit (Call "usleep" SNOOZE []))|intros _].
      apply IH; unfold SNOOZE in *; lia. }
  replace (Z.to_nat (t / SNOOZE) + 1)%nat with (S (Z.to_nat (t / SNOOZE))) by lia.
  pose proof (Z.div_mod t SNOOZE ltac:(done)) as Hd. pose proof (Z.mod_pos_bound t SNOOZE ltac:(done)) as Hb.
  pose proof (Z.div_pos t SNOOZE ltac:(lia) ltac:(done)) as Hp.
  specialize (Hw (Z.to_nat (t / SNOOZE)) SNOOZE). rewrite Z2Nat.id in Hw by done.
  replace (Z.max 0 (t - SNOOZE + SNOOZE)) with t in Hw by lia.
  apply Hw; unfold SNOOZE in *; lia.
Qed.
End Pinned.

(** ** What the program of a joining process is confined to *)

Section Joined.
Context `{H : Host} `{CH : CapHeaders} `{CK : CapKernel} `{N : NetHost} `{SS : StartHost} `{SH : SysHeaders}
  `{KOS : OS} `{K : Kernel} `{SEH : SessionHost} `{CHH : ChildHost} `{PH : ParentHost} `{JH : JoinHost} {CL : CapLaws}.

(** The filters of the list, as they are loaded under the root directory of the
    sandbox. *)
Definition filters_loaded (s : child) (sb : sandbox) : Prop :=
  match joined_list with
  | None => sb = ch_sec s
  | Some lines =>
      seccomp_load_file_list lines (Sandbox joined_files (sb_filters (ch_sec s)) (sb_list (ch_sec s))) = (Ok tt, sb)
  end.

Lemma load_filters_ok s s' : load_filters s = (Ok tt, s') -> exists sb, filters_loaded s sb /\ s' = with_sec sb s.
Proof.
  unfold load_filters, filters_loaded. destruct joined_list as [lines|].
  - rewrite cmodify_bind. intros (sb & E & ->)%inSB_inv. by exists sb.
  - intros [= <-]. exists (ch_sec s). split; [done|]. by destruct s.
Qed.

Lemma join_root_ok p s s' : uid <> 0 -> join_root p s = (Ok tt, s') ->
  exists c sb, same_but [] (ch_cfg s) c /\ s' = with_sec sb (with_cfg c s) /\
    (set "arg_join_network" (ch_cfg s) = false -> filters_loaded s sb).
Proof.
  intros Hu. unfold join_root. rewrite cget_bind. destruct (set _ _).
  - intros [= <-]. exists (ch_cfg s), (ch_sec s). split; [reflexivity|]. split; [by destruct s|done].
  - intros ([] & s1 & E1 & E)%cbind_inv. apply (inP_same []) in E1 as (c & S1 & ->); [|keeps_deep].
    assert (uid =? 0 = false) as Hz by (by apply Z.eqb_neq). rewrite Hz in E.
    apply load_filters_ok in E as (sb & Hl & ->). exists c, sb. by repeat split; try apply S1.
Qed.

(** What the bounding set the sandbox had leaves of one. *)
Definition caps_applied (c : Config) (k k' : caps_state) : Prop :=
  int_of "apply_caps" c = 1 -> forall n, 0 <= n <= cap_last ->
    Z.testbit (bset k') n = Z.testbit (bset k) n && Z.testbit (int_of "caps" c) n.

Lemma caps_applied_same c c' k k' : same_but [] c c' -> caps_applied c' k k' -> caps_applied c k k'.
Proof. intros (I & _). unfold caps_applied. by rewrite !I. Qed.

Lemma apply_caps_ok s s' : apply_caps s = (Ok tt, s') ->
  exists k, s' = with_caps k s /\ caps_applied (ch_cfg s) (ch_caps s) k.
Proof.
  unfold apply_caps, caps_applied. rewrite cget_bind. destruct (Z.eqb_spec (int_of "apply_caps" (ch_cfg s)) 1).
  - intros (k & -> & Hk)%(inCaps_leaves _ _ _ _ (leaves_caps_set _)). by exists k.
  - intros [= <-]. exists (ch_caps s). by split; [destruct s|].
Qed.

Lemma join_user_namespace_ok p s s' : join_user_namespace p s = (Ok tt, s') ->
  exists c k, same_but [] (ch_cfg s) c /\ s' = with_cfg c (with_caps k s) /\
    if set "arg_noroot" (ch_cfg s) then caps_applied (ch_cfg s) (full_caps (ch_caps s)) k else k = ch_caps s.
Proof.
  unfold join_user_namespace. rewrite cget_bind. destruct (set _ _).
  - intros ([] & s1 & E1 & E)%cbind_inv. apply (inP_same []) in E1 as (c & S1 & ->); [|keeps_deep].
    rewrite cmodify_bind in E. apply apply_caps_ok in E as (k & -> & Hk). exists c, k. split; [done|]. split; [done|].
    by eapply caps_applied_same.
  - intros [= <-]. exists (ch_cfg s), (ch_caps s). by split; [reflexivity|split; [destruct s|]].
Qed.

Lemma join_privileges_ok s s' : join_privileges s = (Ok tt, s') ->
  exists c g n, groups_left (set "arg_nogroups" (ch_cfg s)) (ch_cfg s) (ch_groups s) = Ok g /\
    (ch_nnp s = true \/ int_of "arg_nonewprivs" (ch_cfg s) = 1 -> n = true) /\
    s' = with_cfg c (with_groups g (with_ids true (with_nnp n s))).
Proof.
  unfold join_privileges. rewrite cget_bind. intros ([] & s1 & E1 & E)%cbind_inv.
  assert (exists c n, same_but [] (ch_cfg s) c /\ s1 = with_cfg c (with_nnp n s) /\
    (ch_nnp s = true \/ int_of "arg_nonewprivs" (ch_cfg s) = 1 -> n = true)) as (c & n & S1 & -> & Hn).
  { destruct (Z.eqb_spec (int_of "arg_nonewprivs" (ch_cfg s)) 1) as [E2|E2].
    - apply cbind_inv in E1 as (r & s2 & (c & S1 & _ & _ & ->)%prctl_no_new_privs_ok & E1).
      apply inP_inv in E1 as (c2 & E1 & ->). unfold or_exit, exit_unless in E1. cbn [ch_cfg with_cfg with_nnp] in E1.
      destruct (r =? 0); [|done]. injection E1 as <-. exists c, (ch_nnp s || true). split; [done|]. split; [done|].
      intros _. apply orb_true_r.
    - injection E1 as <-. exists (ch_cfg s), (ch_nnp s). split; [reflexivity|]. split; [by destruct s|]. by intros [?|?]. }
  apply cbind_inv in E as ([] & s2 & (c2 & g & S2 & Eg & ->)%drop_to_user_ok & E).
  apply inP_inv in E as (c3 & _ & ->). cbn in *. exists c3, g, n. split; [|by split].
  by rewrite <- (groups_left_same _ _ _ _ S1).
Qed.

Lemma no_dac_drop s s' noprofile : uid <> 0 -> inCaps (caps_drop_dac_override (uid =? 0) noprofile) s = (Ok tt, s') -> s' = s.
Proof.
  intros Hu%Z.eqb_neq (k & E & ->)%inCaps_inv. rewrite Hu in E. injection E as <-. by destruct s.
Qed.

(** What holds between the process that has joined, in [s] with the configuration [c],
    and the program it becomes, in [s']. *)
Definition join_confined (c : Config) (s s' : child) : Prop :=
  caps_applied c (caps_base c (ch_caps s)) (ch_caps s') /\
  groups_left (set "arg_nogroups" c) c (ch_groups s) = Ok (ch_groups s') /\ ch_ids s' = true /\
  (ch_nnp s = true \/ int_of "arg_nonewprivs" c = 1 -> ch_nnp s' = true) /\
  ch_programs s' = ch_programs s ++ List.filter accepts_filter (installed (ch_sec s')) /\
  (set "arg_join_network" c = false -> filters_loaded s (ch_sec s')).

Lemma join_child_confined p argv index s s' : uid <> 0 ->
  join_child p argv index s = (Ok tt, s') -> join_confined (ch_cfg s) s s'.
Proof.
  intros Hu. unfold join_child, join_confined. rewrite cget_bind. intros ([] & s0 & ->%no_dac_drop & E)%cbind_inv; [|done].
  apply cbind_inv in E as ([] & s1 & (c1 & sb & S1 & -> & Hl)%join_root_ok & E); [|done].
  apply cbind_inv in E as ([] & s2 & (k2 & -> & K2)%apply_caps_ok & E).
  apply cbind_inv in E as ([] & s3 & (c3 & k3 & S3 & -> & K3)%join_user_namespace_ok & E).
  apply cbind_inv in E as ([] & s4 & E4 & E). apply (inP_same []) in E4 as (c4 & S4 & ->); [|keeps_deep].
  apply cbind_inv in E as ([] & s5 & (c5 & g & n & Hg & Hn & ->)%join_privileges_ok & E).
  apply cbind_inv in E as ([] & s6 & (c6 & _ & ->)%inP_inv & E).
  apply start_application_ok in E as (c7 & c8 & program & l & b & _ & _ & _ & _ & Hb & ->).
  cbn [ch_cfg ch_sec ch_caps ch_groups ch_nnp ch_ids ch_programs with_cfg with_sec with_caps with_groups with_nnp with_ids with_programs] in *.
  assert (same_but [] (ch_cfg s) c4) as S04 by (etrans; [exact S1|by etrans]).
  assert (forall m, names (written_ints ++ []) m = false -> int_of m c4 = int_of m (ch_cfg s)) as I4 by (apply S04).
  split; [|split; [|split; [done|split; [|split; [done|done]]]]].
  - unfold caps_base. assert (set "arg_noroot" c1 = set "arg_noroot" (ch_cfg s)) as E1 by (destruct S1 as (I & _); unfold set; by rewrite I).
    rewrite E1 in K3. destruct (set "arg_noroot" (ch_cfg s)); [|subst k3]; by apply (caps_applied_same _ _ _ _ S1).
  - rewrite <- Hg, (groups_left_same _ _ _ _ S04). unfold set. by rewrite I4.
  - intros Hor. apply Hb, Hn. by rewrite I4.
Qed.

(** C5: A user other than root joins a sandbox: the program the process becomes is confined by
    the settings [c] that were read from the sandbox ([join_restores_settings] says what
    they are).  Its bounding set holds nothing the sandbox does not
    have, once /proc has reported the one of the sandbox; its ids are those of the user,
    it has no supplementary group if the sandbox was started with --nogroups, it has
    NO_NEW_PRIVS if the sandbox has, and, without --join-network, it runs behind every
    filter of the list under the root directory of the sandbox that the kernel takes. *)
Theorem join_application_confines fuel pid argv index s s' :
  uid <> 0 -> join_application fuel pid argv index s = (Ok tt, s') ->
  exists p c, join_prepare fuel pid (ch_cfg s) = (Ok p, c) /\
  caps_applied c (caps_base c (ch_caps s)) (ch_caps s') /\
  groups_left (set "arg_nogroups" c) c (ch_groups s) = Ok (ch_groups s') /\ ch_ids s' = true /\
  (set "arg_nogroups" c = true -> ch_groups s' = []) /\
  (ch_nnp s = true \/ int_of "arg_nonewprivs" c = 1 -> ch_nnp s' = true) /\
  ch_programs s' = ch_programs s ++ List.filter accepts_filter (installed (ch_sec s')) /\
  (set "arg_join_network" c = false -> filters_loaded s (ch_sec s')).
Proof.
  intros Hu (p & s1 & (c & Ep & ->)%inP_inv & E)%cbind_inv. exists p, c. split; [done|].
  destruct (join_child_confined p argv index (with_cfg c s) s' Hu E) as (Hc & Hg & Hi & Hr). do 3 (split; [done|]).
  split; [|done]. intros Hn. cbn [ch_cfg ch_groups with_cfg] in Hg. rewrite Hn in Hg. by apply groups_forced in Hg.
Qed.
End Joined.

(** ** The settings a sandbox has saved *)

(** The variables [join_prepare] writes. *)
Definition join_ints : list string :=
  ["display"; "apply_caps"; "caps"; "arg_nonewprivs"; "arg_nogroups"; "arg_noroot"; "cpus"; "orig_umask"].

Section Saved.
Context `{H : Host} `{CH : CapHeaders} `{CK : CapKernel} `{N : NetHost} `{SS : StartHost} `{SH : SysHeaders}
  `{KOS : OS} `{K : Kernel} `{SEH : SessionHost} `{CHH : ChildHost} `{PH : ParentHost} `{JH : JoinHost}
  {CL : CapLaws} {PL : ParentLaws}.

Lemma join_int_same n v : names join_ints n = true -> keeps (same_but join_ints) (set_int n v).
Proof. intros Hn. apply set_int_same. by rewrite names_app, Hn, orb_true_r. Qed.

Lemma join_prepare_keeps fuel pid : keeps (same_but join_ints) (join_prepare fuel pid).
Proof.
  assert (forall n v, names join_ints n = true -> keeps (same_but join_ints) (set_int n v)) as Hi by apply join_int_same.
  assert (forall A (m : P A), keeps (same_but []) m -> keeps (same_but join_ints) m) as Hw.
  { intros A m Hm c. apply same_but_weaken, Hm. }
  assert (keeps (same_but join_ints) (pin_sandbox_process fuel pid)) as Hp.
  { apply Hw. pose proof pidns_loop_keeps. pose proof joinable_loop_keeps. keeps_deep. }
  assert (forall sb file flag, names join_ints flag = true -> keeps (same_but join_ints) (extract_flag sb file flag)) as Hf.
  { intros sb file flag Hn. unfold extract_flag. keeps_deep; by apply Hi. }
  unfold join_prepare, extract_settings, extract_x11_display, extract_caps, extract_user_namespace, extract_cpu, extract_umask,
    extract_nogroups, extract_nonewprivs.
  keeps_deep; first [by apply Hi | by apply Hf].
Qed.

Lemma protocol_filter_listed cfg : keeps list_kept (protocol_filter cfg).
Proof. unfold protocol_filter. listed. Qed.

(** The list of a sandbox names the filters its program runs with. *)
Lemma sandbox_listed fuel b b' : sandbox_application fuel b = (Ok tt, b') -> list_inv (ch_sec b').
Proof.
  intros (_ & _ & E & _)%sandbox_confined.
  assert (keeps list_kept (protocol_filter (seccomp_config (ch_cfg b)) ;;; set_seccomp (seccomp_config (ch_cfg b)))) as Hk.
  { pose proof protocol_filter_listed. pose proof set_seccomp_listed. keeps_step; [done|intros; done]. }
  specialize (Hk (Sandbox (initial_filters (ch_cfg b)) [] []) eq_refl). by rewrite E in Hk.
Qed.

(** C4: A user other than root who joins a sandbox, not with --join-network, runs the program
    behind the filters of the sandbox: either program has the same ones on top of those
    it was started with, as long as the files of the filters under the root directory
    of the sandbox are those it has written, with their sizes.  (Root, and
    --join-network, load no filters.) *)
Theorem joined_runs_same_filters fuel b b' fuel' pid argv index s s' :
  sandbox_application fuel b = (Ok tt, b') ->
  joined_files = sb_files (ch_sec b') -> default [] joined_list = sb_list (ch_sec b') ->
  forallb (unchanged joined_files) (sb_filters (ch_sec b')) = true ->
  uid <> 0 -> set "arg_join_network" (ch_cfg s) = false -> sb_filters (ch_sec s) = [] ->
  join_application fuel' pid argv index s = (Ok tt, s') ->
  exists ps, ch_programs b' = ch_programs b ++ ps /\ ch_programs s' = ch_programs s ++ ps.
Proof.
  intros Hb Hf Hl Hu Huid Hnet Hs (p & s1 & (c & Ep & ->)%inP_inv & E)%cbind_inv.
  pose proof (sandbox_listed _ _ _ Hb) as Hi. unfold list_inv in Hi.
  apply sandbox_confined in Hb as (_ & _ & _ & Hb & _). exists (List.filter accepts_filter (installed (ch_sec b'))).
  split; [exact Hb|]. pose proof (join_prepare_keeps fuel' pid (ch_cfg s)) as Sc. rewrite Ep in Sc. cbn [snd] in Sc.
  assert (set "arg_join_network" c = false) as Hn by (destruct Sc as (I & _); unfold set in *; by rewrite I).
  apply (join_child_confined p argv index (with_cfg c s) s' Huid) in E as (_ & _ & _ & _ & Hp & Hload).
  specialize (Hload Hn). rewrite Hp. f_equal. f_equal. unfold filters_loaded in Hload. cbn [ch_sec with_cfg] in Hload. rewrite Hs in Hload.
  unfold installed. destruct joined_list as [lines|].
  - change (lines = sb_list (ch_sec b')) in Hl. rewrite Hl, Hi, (reload _ _ _ _ Hu) in Hload. injection Hload as <-. cbn [sb_filters]. rewrite app_nil_r.
    apply map_ext. intros fl. unfold prog. cbn [sb_files]. by rewrite Hf.
  - change ([] = sb_list (ch_sec b')) in Hl. rewrite Hload, Hs. rewrite Hi in Hl. destruct (sb_filters (ch_sec b')) as [|fl fls]; [done|].
    cbn [map rev] in Hl. by destruct (rev _).
Qed.
End Saved.

(** ** The numbers in the files *)

(** Every digit of [hex_digits] is one of a number in base 16, the first of them too. *)
Definition hex_head (s : string) : Prop :=
  match s with String c _ => exists d, 0 <= d < 16 /\ c = hex_char d | EmptyString => False end.

Lemma hex_digits_head f z s : 0 <= z -> hex_head (hex_digits (S f) z s).
Proof.
  revert z s. induction f as [|f IH]; intros z s Hz; pose proof (Z.mod_pos_bound z 16 ltac:(done)) as Hm.
  - cbn [hex_digits]. destruct (_ =? 0); by exists (z mod 16).
  - change (hex_digits (S (S f)) z s) with
      (if z / 16 =? 0 then String (hex_char (z mod 16)) s else hex_digits (S f) (z / 16) (String (hex_char (z mod 16)) s)).
    destruct (_ =? 0); [by exists (z mod 16)|]. apply IH. by apply Z.div_pos.
Qed.

Lemma hex_digits_read f z s : 0 <= z < 16 ^ Z.of_nat f -> read_digits 16 0 (hex_digits f z s) = read_digits 16 z s.
Proof.
  revert z s. induction f as [|f IH]; intros z s Hz; [cbn in Hz; assert (z = 0) as -> by lia; done|].
  cbn [hex_digits]. pose proof (Z.mod_pos_bound z 16 ltac:(done)) as Hm. pose proof (Z.div_mod z 16 ltac:(done)) as Hd.
  destruct (hex_char_props _ Hm) as (_ & Hdig & Hval).
  assert (read_digits 16 (z / 16) (String (hex_char (z mod 16)) s) = read_digits 16 z s) as Hr.
  { cbn [read_digits]. rewrite Hdig, Hval. cbn [default from_option id]. f_equal. lia. }
  destruct (Z.eqb_spec (z / 16) 0) as [E|E]; [by rewrite E in Hr|].
  rewrite IH; [exact Hr|]. split; [by apply Z.div_pos; lia|]. apply Z.div_lt_upper_bound; [done|].
  rewrite <- Z.pow_succ_r by lia. replace (Z.succ (Z.of_nat f)) with (Z.of_nat (S f)) by lia. lia.
Qed.

Definition no_x (c : ascii) : bool := negb (Ascii.eqb c "x"%char || Ascii.eqb c "X"%char).

Lemma read_base_no_x s : string_forallb no_x s = true -> read_base 16 s = (16, s).
Proof.
  destruct s as [|c0 [|cx [|ch s]]]; [done|cbn; by destruct (Ascii.eqb c0 _)..|].
  cbn [string_forallb]. intros (_ & (Hx & _)%andb_true_iff)%andb_true_iff. unfold no_x in Hx. apply negb_true_iff in Hx.
  cbn [read_base]. rewrite Hx. by destruct (Ascii.eqb c0 _).
Qed.

Lemma hex_char_no_x d : 0 <= d < 16 -> no_x (hex_char d) = true.
Proof. intros Hd. by apply (below_16 (fun d => no_x (hex_char d))); [vm_compute|]. Qed.

Lemma hex_digits_no_x f z s : string_forallb no_x s = true -> string_forallb no_x (hex_digits f z s) = true.
Proof.
  revert z s. induction f as [|f IH]; intros z s Hs; cbn [hex_digits]; [done|].
  assert (string_forallb no_x (String (hex_char (z mod 16)) s) = true) as Hc.
  { cbn [string_forallb]. by rewrite hex_char_no_x by (apply Z.mod_pos_bound; done). }
  destruct (_ =? 0); [done|]. by apply IH.
Qed.

Lemma hex_digits_app f z s t : hex_digits f z s +:+ t = hex_digits f z (s +:+ t).
Proof.
  revert z s. induction f as [|f IH]; intros z s; cbn [hex_digits]; [done|]. destruct (_ =? 0); [done|]. by rewrite IH.
Qed.

(** %x reads back what %x has printed. *)
Lemma scan_print_x z : 0 <= z < 2 ^ 32 -> scan_x (line (print_x z)) = Some (z, String newline EmptyString).
Proof.
  intros Hz. unfold line, print_x. rewrite hex_digits_app. change (EmptyString +:+ String newline EmptyString) with (String newline EmptyString).
  pose proof (hex_digits_head 7 z (String newline EmptyString) ltac:(lia)) as Hh.
  pose proof (hex_digits_no_x 8 z (String newline EmptyString) eq_refl) as Hx.
  pose proof (hex_digits_read 8 z (String newline EmptyString)) as Hr.
  destruct (hex_digits 8 z _) as [|c s]; [done|]. destruct Hh as (d & Hd & ->). destruct (hex_char_props _ Hd) as (Hs & Hg & Hv).
  unfold scan_x. cbn [skip_spaces]. rewrite Hs. unfold read_sign.
  assert (Ascii.eqb (hex_char d) "-"%char = false /\ Ascii.eqb (hex_char d) "+"%char = false) as [-> ->].
  { split; apply negb_true_iff.
    - by apply (below_16 (fun d => negb (Ascii.eqb (hex_char d) "-"%char))); [vm_compute|].
    - by apply (below_16 (fun d => negb (Ascii.eqb (hex_char d) "+"%char))); [vm_compute|]. }
  rewrite (read_base_no_x _ Hx), Hg, Hr by (split; [lia|]; change (16 ^ Z.of_nat 8) with (2 ^ 32); lia).
  change (read_digits 16 z (String newline EmptyString)) with (z, String newline EmptyString).
  unfold to_ulong. assert (ULONG_MAX <? z = false) as -> by (unfold ULONG_MAX; lia). do 2 f_equal.
  unfold u64, u32. rewrite Z.mul_1_l, (Z.mod_small z (2 ^ 64)) by lia. apply Z.mod_small. lia.
Qed.

(** %3o reads back a umask. *)
Lemma scan_print_o z : 0 <= z < 512 -> scan_3o (line (print_o z)) = Some z.
Proof.
  intros Hz. assert (forallb (fun n => bool_decide (scan_3o (line (print_o (Z.of_nat n))) = Some (Z.of_nat n))) (seq 0 512) = true) as W
    by (vm_compute; reflexivity).
  rewrite forallb_forall in W. specialize (W (Z.to_nat z)). rewrite Z2Nat.id in W by lia.
  apply (bool_decide_eq_true _), W, in_seq. lia.
Qed.

(** ** What is saved is restored *)

Section Restored.
Context `{H : Host} `{CH : CapHeaders} `{N : NetHost} `{SS : StartHost} `{K : Kernel} `{CHH : ChildHost} `{JH : JoinHost}.

(** The files of [sandbox] for processes that join. *)
Definition save_settings : P unit := save_umask ;;; save_nonewprivs ;;; save_cpu ;;; save_nogroups.

(** The text a file was made with. *)
Definition made_with (fname : string) (e : effect) : option string :=
  match e with
  | Call f _ [n; m; text] => if streq f "fopen" && streq n fname && streq m "wx" then Some text else None
  | _ => None
  end.
Definition saved_text (l : list effect) (fname : string) : option string := first_some (made_with fname) l.

Definition settings_files : list string := [RUN_UMASK_FILE; RUN_NONEWPRIVS_CFG; RUN_CPU_CFG; RUN_GROUPS_CFG].

(** The process [p] has the files made by [l], and no other of these, under its root
    directory. *)
Definition has_files (l : list effect) (p : ProcessHandle) : Prop :=
  forall fname, In fname settings_files -> forall k,
  match saved_text l fname with
  | Some text =>
      (exists fd, sys_openat k (process_get_fd p) (flags [O_RDONLY; O_CLOEXEC]) ("root" +:+ fname) = Some fd /\
         forall k', fd_text k' fd = text) /\
      exists s, sys_fstatat0 k (process_get_fd p) ("root" +:+ fname) = inl s
  | None =>
      sys_openat k (process_get_fd p) (flags [O_RDONLY; O_CLOEXEC]) ("root" +:+ fname) = None /\
      sys_fstatat0 k (process_get_fd p) ("root" +:+ fname) = inr ENOENT
  end.

(** The calls that make a file. *)
Definition makes (fname text : string) (mode : Z) : list effect :=
  [Call "fopen" 0 [fname; "wx"; text]; Call "fchmod" mode [fname]; Call "fchown" 0 [fname; print_d 0]].

Lemma call_or_exit e c u c' : (r <~ do_call e ;; or_exit r) c = (Ok u, c') -> c' = with_effects (effects c ++ [e]) c.
Proof.
  intros (r & c1 & E1 & E)%cbind_inv. unfold or_exit, exit_unless in E. destruct (r =? 0); [|done].
  injection E as _ <-. by injection E1 as _ <-.
Qed.

Lemma save_file_inv fname text mode c u c' :
  save_file fname text mode c = (Ok u, c') -> c' = with_effects (effects c ++ makes fname text mode) c.
Proof.
  unfold save_file, fopen, set_perms_stream. rewrite <- !cbind_assoc.
  intros (r & c1 & E1 & E)%cbind_inv. unfold or_exit, exit_unless in E. destruct (r =? 0); [|done]. injection E as _ <-.
  apply cbind_inv in E1 as ([] & c2 & E2 & E1). injection E1 as _ <-.
  apply cbind_inv in E2 as (r2 & c3 & E3 & E2). unfold or_exit, exit_unless in E2. destruct (r2 =? 0); [|done]. injection E2 as <-.
  apply cbind_inv in E3 as ([] & c4 & E4%call_or_exit & E3). injection E3 as _ <-. subst c4.
  unfold makes. cbn. by rewrite <- !app_assoc.
Qed.

(** What the files hold in the end. *)
Definition settings_made (c : Config) : list effect :=
  makes RUN_UMASK_FILE (line (print_o (int_of "orig_umask" c))) 420 ++
  (if set "arg_nonewprivs" c then makes RUN_NONEWPRIVS_CFG (String newline EmptyString) 420 else []) ++
  (if int_of "cpus" c =? 0 then [] else makes RUN_CPU_CFG (line (print_x (int_of "cpus" c))) 384) ++
  (if set "arg_nogroups" c then makes RUN_GROUPS_CFG (String newline EmptyString) 420 else []).

Lemma with_effects_twice l l' c : with_effects l (with_effects l' c) = with_effects l c.
Proof. done. Qed.

Lemma save_when_inv n fname text mode c u c' : when_set n (save_file fname text mode) c = (Ok u, c') ->
  c' = with_effects (effects c ++ if set n c then makes fname text mode else []) c.
Proof.
  unfold when_set, get_int, set. rewrite cbind_assoc, cget_bind, cret_bind. destruct (_ =? 0); cbn [negb].
  - intros [= _ <-]. rewrite app_nil_r. by destruct c.
  - apply save_file_inv.
Qed.

Lemma save_settings_inv c u c' : save_settings c = (Ok u, c') -> effects c' = effects c ++ settings_made c.
Proof.
  unfold save_settings, save_umask, get_int. rewrite !cbind_assoc, cget_bind, cret_bind.
  intros ([] & c1 & ->%save_file_inv & E)%cbind_inv.
  apply cbind_inv in E as ([] & c2 & ->%save_when_inv & E). apply cbind_inv in E as ([] & c3 & E3 & ->%save_when_inv).
  unfold save_cpu, get_int in E3. rewrite cbind_assoc, cget_bind, cret_bind in E3.
  assert (c3 = with_effects (effects c ++ makes RUN_UMASK_FILE (line (print_o (int_of "orig_umask" c))) 420 ++
    (if set "arg_nonewprivs" c then makes RUN_NONEWPRIVS_CFG (String newline EmptyString) 420 else []) ++
    (if int_of "cpus" c =? 0 then [] else makes RUN_CPU_CFG (line (print_x (int_of "cpus" c))) 384)) c) as ->.
  { change (int_of "cpus" (with_effects _ _)) with (int_of "cpus" c) in E3.
    change (set "arg_nonewprivs" (with_effects _ c)) with (set "arg_nonewprivs" c) in E3.
    destruct (int_of "cpus" c =? 0).
    - injection E3 as <-. rewrite with_effects_twice. cbn [effects with_effects]. by rewrite app_nil_r, <- !app_assoc.
    - apply save_file_inv in E3 as ->. rewrite !with_effects_twice. cbn [effects with_effects]. by rewrite <- !app_assoc. }
  change (set "arg_nogroups" (with_effects _ c)) with (set "arg_nogroups" c). cbn [effects with_effects].
  unfold settings_made. by rewrite <- !app_assoc.
Qed.

Lemma saved_umask c : saved_text (settings_made c) RUN_UMASK_FILE = Some (line (print_o (int_of "orig_umask" c))).
Proof. reflexivity. Qed.
Lemma saved_cpu c : saved_text (settings_made c) RUN_CPU_CFG =
  if int_of "cpus" c =? 0 then None else Some (line (print_x (int_of "cpus" c))).
Proof.
  unfold settings_made. by destruct (set "arg_nonewprivs" c), (int_of "cpus" c =? 0), (set "arg_nogroups" c).
Qed.
Lemma saved_flags c :
  (set "arg_nonewprivs" c = true -> saved_text (settings_made c) RUN_NONEWPRIVS_CFG = Some (String newline EmptyString)) /\
  (set "arg_nogroups" c = true -> saved_text (settings_made c) RUN_GROUPS_CFG = Some (String newline EmptyString)).
Proof.
  unfold settings_made. by destruct (set "arg_nonewprivs" c), (int_of "cpus" c =? 0), (set "arg_nogroups" c).
Qed.

(** *** Reading the files *)

Lemma extract_flag_ok p file flag c u c' : extract_flag p file flag c = (Ok u, c') ->
  same_but [flag] c c' /\
  ((forall k, exists s, sys_fstatat0 k (process_get_fd p) ("root" +:+ file) = inl s) -> int_of flag c' = 1).
Proof.
  intros E. split.
  - assert (keeps (same_but [flag]) (extract_flag p file flag)) as Hk.
    { unfold extract_flag. keeps_deep. apply set_int_same. rewrite names_app. cbn. by rewrite streq_refl, orb_true_r. }
    specialize (Hk c). by rewrite E in Hk.
  - intros Hs. unfold extract_flag, process_rootfs_stat, process_stat_nofail in E. apply cbind_inv in E as (r & c1 & E1 & E).
    apply as_root_in_inv in E1 as (c2 & c3 & E2 & _); [|keeps_deep]. injection E2 as <- _.
    destruct (Hs (effects c2)) as [s Es]. rewrite Es in E. injection E as _ <-. rewrite int_of_insert. by rewrite streq_refl.
Qed.

(** A file that is opened and read, or missing. *)
Lemma open_text p file c r c' : process_rootfs_open p file c = (Ok r, c') ->
  same_but [] c c' /\ exists k, sys_openat k (process_get_fd p) (flags [O_RDONLY; O_CLOEXEC]) ("root" +:+ file) = r.
Proof.
  intros E. split.
  - assert (keeps (same_but []) (process_rootfs_open p file)) as Hk by keeps_deep. specialize (Hk c). by rewrite E in Hk.
  - apply open_nofail_inv in E as (l & _ & E). by exists l.
Qed.

Lemma read_text fd c t c' : read_all fd c = (Ok t, c') -> same_but [] c c' /\ exists k, fd_text k fd = t.
Proof.
  intros E. split.
  - assert (keeps (same_but []) (read_all fd)) as Hk by keeps_deep. specialize (Hk c). by rewrite E in Hk.
  - apply read_all_inv in E as (l & _ & E). by exists l.
Qed.

Definition has_text (p : ProcessHandle) (file text : string) : Prop :=
  forall k, exists fd, sys_openat k (process_get_fd p) (flags [O_RDONLY; O_CLOEXEC]) ("root" +:+ file) = Some fd /\
    forall k', fd_text k' fd = text.
Definition missing (p : ProcessHandle) (file : string) : Prop :=
  forall k, sys_openat k (process_get_fd p) (flags [O_RDONLY; O_CLOEXEC]) ("root" +:+ file) = None.

Lemma extract_cpu_ok p c u c' : extract_cpu p c = (Ok u, c') ->
  same_but ["cpus"] c c' /\ (missing p RUN_CPU_CFG -> int_of "cpus" c' = int_of "cpus" c) /\
  (forall text v rest, has_text p RUN_CPU_CFG text -> scan_x text = Some (v, rest) -> int_of "cpus" c' = v).
Proof.
  unfold extract_cpu. intros (r & c1 & (S1 & k & Ek)%open_text & E)%cbind_inv. destruct r as [fd|].
  - apply cbind_inv in E as (t & c2 & (S2 & k2 & Et)%read_text & E). split; [|split].
    + etrans; [apply same_but_weaken, S1|]. etrans; [apply same_but_weaken, S2|].
      assert (keeps (same_but ["cpus"]) (match scan_x t with Some (cpus, _) => set_int "cpus" cpus | None => cret tt end)) as Hk.
      { keeps_tac. by apply set_int_same. }
      specialize (Hk c2). by rewrite E in Hk.
    + intros Hm. by rewrite Hm in Ek.
    + intros text v rest Ht Hv. destruct (Ht k) as (fd' & Ho & Hf). assert (fd' = fd) as -> by congruence.
      rewrite Hf in Et. subst t. rewrite Hv in E. injection E as _ <-. by rewrite int_of_insert.
  - injection E as _ <-. split; [by apply same_but_weaken|]. split; [by destruct S1 as (I & _); rewrite I|].
    intros text v rest Ht. destruct (Ht k) as (fd' & Ho & _). congruence.
Qed.

Lemma extract_umask_ok p c u c' text v : extract_umask p c = (Ok u, c') ->
  has_text p RUN_UMASK_FILE text -> scan_3o text = Some v -> same_but ["orig_umask"] c c' /\ int_of "orig_umask" c' = v.
Proof.
  unfold extract_umask. intros (r & c1 & (S1 & k & Ek)%open_text & E)%cbind_inv Ht Hv.
  destruct (Ht k) as (fd & Ho & Hf). rewrite Ho in Ek. subst r. apply cbind_inv in E as (t & c2 & (S2 & k2 & Et)%read_text & E).
  rewrite Hf in Et. subst t. rewrite Hv in E. injection E as _ <-. split; [|by rewrite int_of_insert].
  etrans; [apply same_but_weaken, S1|]. etrans; [apply same_but_weaken, S2|].
  exact (set_int_same ["orig_umask"] "orig_umask" v eq_refl c2).
Qed.

(** What /proc says of the bounding set of the process. *)
Definition bounded_by (p : ProcessHandle) (caps : Z) : Prop :=
  exists text nnp, status_caps (map c_string (fgets BUFLEN text)) None false = Ok (Some caps, nnp) /\
  forall k, exists fd, sys_openat k (process_get_fd p) (flags [O_RDONLY; O_CLOEXEC]) "status" = Some fd /\
    forall k', fd_text k' fd = text.

Lemma extract_caps_ok p c u c' caps : extract_caps p c = (Ok u, c') -> bounded_by p caps ->
  same_but ["apply_caps"; "caps"; "arg_nonewprivs"] c c' /\ int_of "apply_caps" c' = 1 /\ int_of "caps" c' = caps /\
  (int_of "arg_nonewprivs" c = 1 -> int_of "arg_nonewprivs" c' = 1).
Proof.
  intros E (text & nnp & Es & Ht). unfold extract_caps in E. apply cbind_inv in E as (bufs & c1 & E1 & E).
  assert (same_but [] c c1) as S1.
  { assert (keeps (same_but []) (process_status p)) as Hk by keeps_deep. specialize (Hk c). by rewrite E1 in Hk. }
  apply status_inv in E1 as (t & (l & l' & fd & _ & _ & Eo & Et) & ->).
  destruct (Ht l) as (fd' & Eo' & Et'). assert (fd' = fd) as -> by congruence. rewrite Et' in Et. subst t.
  apply cbind_inv in E as (r & c2 & [= Er <-] & E). rewrite Es in Er. injection Er as <-. cbn [fst snd] in E.
  unfold set_int in E. rewrite cbind_assoc, cmodify_bind, cmodify_bind in E.
  set (c2 := with_ints _ _) in E. assert (same_but ["apply_caps"; "caps"; "arg_nonewprivs"] c1 c2) as S2.
  { etrans; [exact (set_int_same ["apply_caps"; "caps"; "arg_nonewprivs"] "apply_caps" 1 eq_refl c1)|exact (set_int_same ["apply_caps"; "caps"; "arg_nonewprivs"] "caps" caps eq_refl _)]. }
  assert (int_of "apply_caps" c2 = 1 /\ int_of "caps" c2 = caps /\ int_of "arg_nonewprivs" c2 = int_of "arg_nonewprivs" c1) as (Ia & Ic & In2).
  { unfold c2. by rewrite !int_of_insert. }
  assert (int_of "arg_nonewprivs" c1 = int_of "arg_nonewprivs" c) as In1 by (destruct S1 as (I & _); by apply I).
  clearbody c2. destruct nnp.
  - injection E as _ <-. split; [|by rewrite !int_of_insert, Ia, Ic].
    etrans; [apply same_but_weaken, S1|]. etrans; [exact S2|]. exact (set_int_same ["apply_caps"; "caps"; "arg_nonewprivs"] "arg_nonewprivs" 1 eq_refl c2).
  - injection E as _ <-. split; [etrans; [apply same_but_weaken, S1|exact S2]|]. split; [done|]. split; [done|]. by rewrite In2, In1.
Qed.

Lemma extract_user_namespace_keeps p : keeps (same_but ["arg_noroot"]) (extract_user_namespace p).
Proof. unfold extract_user_namespace. keeps_deep. by apply set_int_same. Qed.

(** C15: A user other than root joins a sandbox: the process takes over what the sandbox has
    saved: its umask, its CPUs if they were restricted, --nonewprivs and --nogroups, read
    back from the texts the sandbox has written, and the bounding set the kernel
    reports.  (Root takes over none of them.) *)
Theorem join_restores_settings p c c' c0 c1 l caps :
  uid <> 0 -> 0 <= int_of "orig_umask" c < 512 -> 0 <= int_of "cpus" c < 2 ^ 32 ->
  save_settings c = (Ok tt, c') -> effects c' = effects c ++ l -> has_files l p -> bounded_by p caps ->
  extract_settings p c0 = (Ok tt, c1) ->
  int_of "orig_umask" c1 = int_of "orig_umask" c /\
  int_of "cpus" c1 = (if int_of "cpus" c =? 0 then int_of "cpus" c0 else int_of "cpus" c) /\
  (set "arg_nonewprivs" c = true -> int_of "arg_nonewprivs" c1 = 1) /\
  (set "arg_nogroups" c = true -> int_of "arg_nogroups" c1 = 1) /\
  int_of "apply_caps" c1 = 1 /\ int_of "caps" c1 = caps.
Proof.
  intros Hu Hum Hcpu Es El Hf Hb E. rewrite (save_settings_inv _ _ _ Es) in El. apply app_inv_head in El as <-.
  unfold extract_settings, extract_nonewprivs, extract_nogroups in E. destruct (Z.eqb_spec uid 0) as [|_]; [done|].
  apply cbind_inv in E as ([] & d1 & ((I1 & _) & N1)%extract_flag_ok & E).
  apply cbind_inv in E as ([] & d2 & E2 & E). apply (fun e => extract_caps_ok p _ _ _ caps e Hb) in E2 as ((I2 & _) & A2 & C2 & N2).
  apply cbind_inv in E as ([] & d3 & ((I3 & _) & M3 & T3)%extract_cpu_ok & E).
  apply cbind_inv in E as ([] & d4 & ((I4 & _) & N4)%extract_flag_ok & E).
  apply cbind_inv in E as ([] & d5 & E5 & E). pose proof (extract_user_namespace_keeps p d4) as S5. rewrite E5 in S5. destruct S5 as (I5 & _).
  assert (has_text p RUN_UMASK_FILE (line (print_o (int_of "orig_umask" c)))) as Hut.
  { intros k. specialize (Hf RUN_UMASK_FILE (or_introl eq_refl) k). rewrite saved_umask in Hf. apply Hf. }
  apply (fun e => extract_umask_ok p _ _ _ _ _ e Hut (scan_print_o _ Hum)) in E as ((I6 & _) & Hu6). cbn [snd] in I5.
  assert (forall n, names (written_ints ++ ["orig_umask"]) n = false -> names (written_ints ++ ["arg_noroot"]) n = false ->
    int_of n c1 = int_of n d4) as I46 by (intros n H1 H2; by rewrite I6, I5).
  destruct (saved_flags c) as [Hsn Hsg].
  split; [exact Hu6|]. split; [|split; [|split; [|split]]].
  - rewrite I46, I4 by reflexivity. pose proof (fun k => Hf RUN_CPU_CFG (or_intror (or_intror (or_introl eq_refl))) k) as Hc.
    rewrite saved_cpu in Hc. destruct (int_of "cpus" c =? 0).
    + rewrite M3, I2, I1 by (reflexivity || intros k; apply Hc). done.
    + apply (T3 (line (print_x (int_of "cpus" c))) _ (String newline EmptyString)); [intros k; apply Hc|by apply scan_print_x].
  - intros Hn. rewrite I46, I4, I3 by reflexivity. apply N2, N1. intros k.
    specialize (Hf RUN_NONEWPRIVS_CFG (or_intror (or_introl eq_refl)) k). rewrite (Hsn Hn) in Hf. apply Hf.
  - intros Hg. rewrite I46 by reflexivity. apply N4. intros k.
    specialize (Hf RUN_GROUPS_CFG (or_intror (or_intror (or_intror (or_introl eq_refl)))) k). rewrite (Hsg Hg) in Hf. apply Hf.
  - rewrite I46, I4, I3 by reflexivity. exact A2.
  - rewrite I46, I4, I3 by reflexivity. exact C2.
Qed.
End Restored.

(** ** Findings *)

(** The default error action of firejail's own process is the action of a thread that is
    killed: the number of the error alone has none of the bits of an action. *)
Lemma sbox_default_kills : Z.land (u32 DEFAULT_SECCOMP_ERROR_ACTION) SECCOMP_RET_ACTION = SECCOMP_RET_KILL.
Proof. reflexivity. Qed.

(** With the action of --seccomp-error-action=log the filter of a helper refuses nothing. *)
Lemma sbox_log_allows `{SysHeaders} `{BM : BpfMachine} {BL : BpfLaws} d :
  Forall nr_ok sbox_blocked -> nr_ok (sd_nr d) ->
  run_filter (sbox_filter SECCOMP_RET_LOG) d = Some SECCOMP_RET_ALLOW \/
  run_filter (sbox_filter SECCOMP_RET_LOG) d = Some SECCOMP_RET_LOG.
Proof.
  intros Hl Hd. rewrite sbox_filter_decision by done. unfold gate. change (u32 SECCOMP_RET_LOG) with SECCOMP_RET_LOG.
  destruct (negb _); [by left|]. destruct (_ && _); [by right|]. destruct (existsb _ _); auto.
Qed.

(** A program of any user passes when its group is that of root. *)
Lemma group_of_root_trusted u : trusted (mk_stat false false 493 u 0 1 2) = true.
Proof. unfold trusted. cbn. by rewrite andb_false_r. Qed.

(** A display out of range is kept. *)
Lemma bad_display_kept `{H : Host} `{N : NetHost} `{K : Kernel} pid c text v rest c' :
  f_text (fs_now c) (RUN_FIREJAIL_X11_DIR +:+ "/" +:+ print_d pid) = Some text -> scan_u text = Some (v, rest) ->
  X11_DISPLAY_END < v -> extract_x11_display pid c = (Ok tt, c') -> int_of "display" c' = v /\ effects c' = effects c.
Proof.
  intros Ht Hs Hv. unfold extract_x11_display. rewrite cget_bind, Ht, Hs. unfold set_int. rewrite cmodify_bind.
  assert ((v <? X11_DISPLAY_START) || (X11_DISPLAY_END <? v) = true) as -> by (apply orb_true_iff; right; by apply Z.ltb_lt).
  intros [= <-]. by rewrite int_of_insert.
Qed.
