(* ===== verification/AgreementTheorems.v ===== *)
(** * Options and profile lines agree

    main.c and profile.c translate the same settings twice.  For the options listed
    here an option does what the profile line of the same name does. *)

From S2P Require Import Prelude.
From S2P Require Import Clib.
From S2P Require Import Keeps.
From S2P Require Import Caps.
From S2P Require Import Env.
From S2P Require Import Text.
From S2P Require Import Common.
From S2P Require Import Util.
From S2P Require Import Checkcfg.
From S2P Require Import Dbus.
From S2P Require Import Macros.
From S2P Require Import ProfileState.
From S2P Require Import ProfileCommands.
From S2P Require Import ProfileLine.
From S2P Require Import ProfileSpecTheorems.
From S2P Require Import NetConfig.
From S2P Require Import MainCommands.
From S2P Require Import MainOptions.
From S2P Require Import OptionTheorems.

Section Agree.
Context `{H : Host} `{CH : CapHeaders} `{N : NetHost}.

(** Nothing is left out of the build; seccomp and networking are not switched off. *)
Record all_enabled : Prop := {
  ae_built n : built n = true;
  ae_seccomp : enabled CFG_SECCOMP = true;
  ae_network : enabled CFG_NETWORK = true
}.

(** With an argument: the beginnings of the option and of the line. *)
Definition shared_words : list (string * string) :=
  [("--protocol=", "protocol "); ("--restrict-namespaces=", "restrict-namespaces ");
   ("--hostname=", "hostname "); ("--name=", "name "); ("--env=", "env "); ("--rmenv=", "rmenv "); ("--dns=", "dns ");
   ("--hosts-file=", "hosts-file "); ("--cpu=", "cpu "); ("--nice=", "nice "); ("--keep-fd=", "keep-fd ");
   ("--rlimit-as=", "rlimit-as "); ("--rlimit-cpu=", "rlimit-cpu "); ("--rlimit-fsize=", "rlimit-fsize ");
   ("--rlimit-nofile=", "rlimit-nofile "); ("--rlimit-nproc=", "rlimit-nproc ");
   ("--rlimit-sigpending=", "rlimit-sigpending "); ("--timeout=", "timeout ");
   ("--veth-name=", "veth-name "); ("--iprange=", "iprange "); ("--mac=", "mac "); ("--mtu=", "mtu "); ("--ip=", "ip ");
   ("--ip6=", "ip6 "); ("--defaultgw=", "defaultgw "); ("--netfilter=", "netfilter "); ("--netfilter6=", "netfilter6 ");
   ("--netns=", "netns "); ("--landlock.fs.read=", "landlock.fs.read "); ("--landlock.fs.write=", "landlock.fs.write ");
   ("--landlock.fs.makeipc=", "landlock.fs.makeipc "); ("--landlock.fs.makedev=", "landlock.fs.makedev ");
   ("--landlock.fs.execute=", "landlock.fs.execute "); ("--dbus-user=", "dbus-user "); ("--dbus-system=", "dbus-system ")].

(** The same, kept as lines. *)
Definition shared_lines : list string :=
  ["blacklist"; "noblacklist"; "whitelist"; "nowhitelist"; "read-only"; "read-write"; "noexec"; "tmpfs"; "mkdir"; "mkfile";
   "dbus-user.see"; "dbus-user.talk"; "dbus-user.own"; "dbus-user.call"; "dbus-user.broadcast";
   "dbus-system.see"; "dbus-system.talk"; "dbus-system.own"; "dbus-system.call"; "dbus-system.broadcast"].

(** The option does [m], and so does the line, which is not kept. *)
Definition both (o l : string) (m : P unit) : Prop :=
  find_opt independent o = None /\
  (exists f, find_opt options o = Some f /\ forall at_i c, f at_i c = m c) /\
  strip_prefix "?" l = None /\ forall c, run_command commands l c = executed m c.

Lemma executed_if (b : bool) (m : P unit) : b = true -> executed (if b then m else cret tt) = executed m.
Proof. by intros ->. Qed.

Lemma both_agree o l m at_i c : both o l m -> is_in_ignore_list l c = false -> run_option at_i o c = add_line l c.
Proof.
  intros (Ei & (f & Ef & Hf) & El & Hr) Hi. unfold run_option, run_cmd_and_exit, add_line.
  rewrite Ei, Ef, cret_bind, Hf. unfold cbind. rewrite check_plain_line, Hr by done. unfold executed, cbind, cret.
  by destruct (m c) as [[[]| | |] c1].
Qed.

(** The command a line runs, when the features it asks for are there. *)
Ltac run_line Hb Hs Hn :=
  match goal with
  | |- run_command commands _ ?c = executed ?m ?c =>
      first
        [ transitivity (if_network m c); [reflexivity|unfold if_network; by rewrite executed_if by (by rewrite Hb, Hn)]
        | transitivity (if_enabled CFG_SECCOMP m c); [reflexivity|unfold if_enabled; by rewrite executed_if by exact Hs]
        | transitivity (executed (if built "HAVE_DBUSPROXY" then m else cret tt) c);
            [reflexivity|by rewrite executed_if by apply Hb]
        | reflexivity ]
  end.

Lemma shared_both o l a : all_enabled -> In (o, l) shared_words -> exists m, both (o +:+ a) (l +:+ a) m.
Proof.
  intros [Hb Hs Hn] Hin. repeat destruct Hin as [[= <- <-]|Hin]; try destruct Hin.
  all: eexists; split; [find_none|split; [eexists; split; [find_some|]|split; [reflexivity|]]].
  all: try (intros at_i c; cbn [snd]; unfold network_option, do, or_exit; rewrite ?Hs, ?Hn; reflexivity).
  all: intros c; run_line Hb Hs Hn.
Qed.

(** ** Lines that are kept *)

Lemma line_kept w a : In w shared_lines ->
  strip_prefix "?" (w +:+ " " +:+ a) = None /\ results (fun b => b = true) (run_command commands (w +:+ " " +:+ a)).
Proof.
  intros Hin. repeat destruct Hin as [<-|Hin]; try destruct Hin; (split; [reflexivity|]);
    match goal with |- results _ ?m => let m' := eval cbv [run_command commands commands_1 commands_2 commands_3
      path_commands app sets matches streq String.eqb Ascii.eqb Bool.eqb strip_prefix String.append] in m in change m with m' end;
    unfold cmd_path, cmd_dbus_rule; results_tac; reflexivity.
Qed.

Lemma as_line_agrees w a c : In w shared_lines -> is_in_ignore_list (w +:+ " " +:+ a) c = false ->
  as_line w a c = add_line (w +:+ " " +:+ a) c.
Proof.
  intros Hw Hi. destruct (line_kept w a Hw) as [Hq Hr]. unfold as_line, add_line.
  unfold cbind. rewrite check_plain_line by done.
  destruct (run_command commands (w +:+ " " +:+ a) c) as [[b| | |] c1] eqn:E; try done. by rewrite (Hr _ _ _ E).
Qed.

Lemma line_option w a : all_enabled -> In w shared_lines ->
  find_opt independent (("--" +:+ w +:+ "=") +:+ a) = None /\
  find_opt options (("--" +:+ w +:+ "=") +:+ a) = Some (fun _ => as_line w a).
Proof.
  intros [Hb _ _] Hin. repeat destruct Hin as [<-|Hin]; try destruct Hin; (split; [find_none|find_some]).
Qed.

(** ** Flags *)

Definition shared_flags : list (string * string * string) :=
  map (fun '(w, n) => ("--" +:+ w, w, n))
    [("nonewprivs", "arg_nonewprivs"); ("private", "arg_private"); ("private-dev", "arg_private_dev");
     ("private-tmp", "arg_private_tmp"); ("nogroups", "arg_nogroups"); ("nosound", "arg_nosound");
     ("novideo", "arg_novideo"); ("no3d", "arg_no3d"); ("notv", "arg_notv"); ("nodvd", "arg_nodvd");
     ("nou2f", "arg_nou2f"); ("noinput", "arg_noinput"); ("disable-mnt", "arg_disable_mnt");
     ("machine-id", "arg_machineid"); ("ipc-namespace", "arg_ipc"); ("allusers", "arg_allusers");
     ("noautopulse", "arg_keep_config_pulse"); ("keep-config-pulse", "arg_keep_config_pulse");
     ("keep-shell-rc", "arg_keep_shell_rc"); ("writable-var", "arg_writable_var"); ("keep-var-tmp", "arg_keep_var_tmp");
     ("writable-run-user", "arg_writable_run_user"); ("writable-var-log", "arg_writable_var_log");
     ("keep-dev-shm", "arg_keep_dev_shm"); ("keep-dev-tpm", "arg_keep_dev_tpm");
     ("keep-dev-ntsync", "arg_keep_dev_ntsync"); ("tab", "arg_tab"); ("allow-bwrap", "arg_allow_bwrap");
     ("deterministic-exit-code", "arg_deterministic_exit_code");
     ("deterministic-shutdown", "arg_deterministic_shutdown")] ++
  [("--caps.drop=all", "caps.drop all", "arg_caps_drop_all");
   ("--x11=none", "x11 none", "arg_x11_block")].

Lemma flag_both o l n : In (o, l, n) shared_flags -> both o l (set_int n 1).
Proof.
  intros Hin. repeat destruct Hin as [[= <- <- <-]|Hin]; try destruct Hin;
    (split; [find_none|split; [eexists; split; [find_some|reflexivity]|split; [reflexivity|reflexivity]]]).
Qed.

(** C26: With every feature built in, seccomp and networking switched on, an option of three
    fixed lists changes the state exactly as the profile line of the same name does when
    that line is not ignored, whatever the argument and the state: [shared_words] are
    options that store their argument, [shared_lines] those that are kept as lines,
    [shared_flags] the flags.  Other options, include and profile among them, are not
    covered. *)
Theorem options_agree_with_lines at_i c : all_enabled ->
  (forall o l a, In (o, l) shared_words -> is_in_ignore_list (l +:+ a) c = false ->
     run_option at_i (o +:+ a) c = add_line (l +:+ a) c) /\
  (forall w a, In w shared_lines -> is_in_ignore_list (w +:+ " " +:+ a) c = false ->
     run_option at_i (("--" +:+ w +:+ "=") +:+ a) c = add_line (w +:+ " " +:+ a) c) /\
  (forall o l n, In (o, l, n) shared_flags -> is_in_ignore_list l c = false -> run_option at_i o c = add_line l c).
Proof.
  intros He. repeat split.
  - intros o l a Hin Hi. destruct (shared_both _ _ a He Hin) as [m Hm]. by eapply both_agree.
  - intros w a Hw Hi. destruct (line_option w a He Hw) as [Ei Eo]. unfold run_option, run_cmd_and_exit.
    rewrite Ei, Eo, cret_bind. by apply as_line_agrees.
  - intros o l n Hin Hi. eapply both_agree; [by eapply flag_both|done].
Qed.

(** ** Where they differ *)

(** An option whose line is on the ignore list is added to the list all the same, and
    its argument is not looked at. *)
Lemma ignored_option_added w a c : In w shared_lines -> is_in_ignore_list (w +:+ " " +:+ a) c = true ->
  as_line w a c = (Ok tt, with_profile (profile c ++ [w +:+ " " +:+ a]) c).
Proof.
  intros Hw Hi. destruct (line_kept w a Hw) as [Hq _]. unfold as_line, profile_check_line. cbn [check_line].
  rewrite Hq. unfold cbind at 1. rewrite cget_bind, Hi. reflexivity.
Qed.
End Agree.
