(* ===== verification/ProfileTypeTheorems.v ===== *)
(** * Well-formed configurations

    What the rest of firejail relies on when the profile has been read: names are
    valid, addresses were parsed, numbers fit, and the four bridges are in order. *)

From S2P Require Import Prelude.
From S2P Require Import Clib.
From S2P Require Import Keeps.
From S2P Require Import Bpf.
From S2P Require Import Caps.
From S2P Require Import SyscallTables.
From S2P Require Import ProfileList.
From S2P Require Import Install.
From S2P Require Import Env.
From S2P Require Import Text.
From S2P Require Import Common.
From S2P Require Import Mountinfo.
From S2P Require Import Util.
From S2P Require Import Checkcfg.
From S2P Require Import Dbus.
From S2P Require Import Macros.
From S2P Require Import ProfileState.
From S2P Require Import ProfileCommands.
From S2P Require Import ProfileLine.
From S2P Require Import ProfileReadTheorems.

Definition word32 (v : Z) : bool := (0 <=? v) && (v <? 2 ^ 32).

Definition seccomp_lists : list string :=
  ["seccomp_list"; "seccomp_list32"; "seccomp_list_drop"; "seccomp_list_drop32"; "seccomp_list_keep";
   "seccomp_list_keep32"].
Definition item_lists : list string := ["keep_fd"; "protocol"; "restrict_namespaces"].
Definition number_limits : list string := ["rlimit_cpu"; "rlimit_nofile"; "rlimit_nproc"; "rlimit_sigpending"].
Definition dns_servers : list string := ["dns1"; "dns2"; "dns3"; "dns4"].

Definition error_action_ok (v : Z) : bool :=
  (v =? SECCOMP_RET_KILL) || (v =? SECCOMP_RET_LOG) || ((0 <? v) && (v <? 4096)).

Definition mac_ok (mac : list Z) : bool :=
  (length mac =? 6)%nat && forallb (fun b => (0 <=? b) && (b <? 256)) mac && (Z.land (nth 0 mac 0) 1 =? 0).

(** The value of a flag. *)
Definition flag_ok (v : Z) : bool := (v =? 0) || (v =? 1).

Definition bridge_ok (b : Bridge) : bool :=
  word32 (ipsandbox b) && word32 (masksandbox b) && word32 (mask b) && mac_ok (macsandbox b) &&
  ((mtu b =? 0) || ((576 <=? mtu b) && (mtu b <=? 9198))) &&
  (((iprange_start b =? 0) && (iprange_end b =? 0)) || (iprange_start b <? iprange_end b)) &&
  (flag_ok (arg_ip_none b) && flag_ok (arg_ip6_dhcp b) && flag_ok (macvlan b) && flag_ok (configured b)).

Section Types.
Context `{H : Host} `{CH : CapHeaders}.

Definition str_ok (n v : string) : bool :=
  if streq n "name" || streq n "hostname" then negb (invalid_name v)
  else if existsb (streq n) dns_servers then check_ip46_address v
  else if existsb (streq n) seccomp_lists then string_forallb seccomp_char v
  else if existsb (streq n) item_lists then strlen v <=? MAX_LIST
  else if streq n "arg_netns" then negb (string_mem "/"%char v) && negb (contains ".." v)
  else if streq n "cwd" then has_prefix "/" v && negb (contains ".." v)
  else true.

Definition int_ok (n : string) (v : Z) : bool :=
  if streq n "cpus" || streq n "defaultgw" then word32 v
  else if streq n "timeout" then 0 <? v
  else if streq n "rlimit_as" || streq n "rlimit_fsize" then negb (v =? 0)
  else if existsb (streq n) number_limits then (0 <=? v) && (v <=? ULLONG_MAX)
  else if streq n "nice" then (uid =? 0) || (0 <=? v)
  else if streq n "arg_seccomp_error_action" then error_action_ok v || (v =? cfgval CFG_SECCOMP_ERROR_ACTION)
  else flag_ok v.

Record config_ok (c : Config) : Prop := {
  ok_ints : map_Forall (fun n v => int_ok n v = true) (ints c);
  ok_strs : map_Forall (fun n v => str_ok n v = true) (strs c);
  ok_count : length (bridges c) = 4%nat;
  ok_bridges : Forall (fun b => bridge_ok b = true) (bridges c);
  ok_ignore : Z.of_nat (length (profile_ignore c)) <= MAX_PROFILE_IGNORE;
  ok_landlock : Forall (fun e => 0 <= e.1 < LL_MAX) (lprofile c)
}.

Notation keeps_type := (keeps_ok (preserves config_ok)).

(** ** Stores *)

Lemma set_int_type n v : int_ok n v = true -> keeps_type (set_int n v).
Proof.
  intros Hv. apply keeps_ok_modify. intros c []. split; try done. by apply map_Forall_insert_2.
Qed.

Lemma set_str_type n v : str_ok n v = true -> keeps_type (set_str n v).
Proof.
  intros Hv. apply keeps_ok_modify. intros c []. split; try done. by apply map_Forall_insert_2.
Qed.

Lemma set_null_type n : keeps_type (set_null n).
Proof. apply keeps_ok_modify. intros c []. split; try done. by apply map_Forall_delete. Qed.

(** Stores into members no condition is about. *)
Lemma other_type f :
  (forall c, ints (f c) = ints c /\ strs (f c) = strs c /\ bridges (f c) = bridges c /\
             profile_ignore (f c) = profile_ignore c /\ lprofile (f c) = lprofile c) ->
  keeps_type (cmodify f).
Proof.
  intros Hf. apply keeps_ok_modify. intros c []. destruct (Hf c) as (E1 & E2 & E3 & E4 & E5).
  split; by rewrite ?E1, ?E2, ?E3, ?E4, ?E5.
Qed.

Lemma bridge_type i c : config_ok c -> bridge_ok (bridge i c) = true.
Proof.
  intros []. unfold bridge. destruct (nth_in_or_default i (bridges c) no_bridge) as [Hin| ->]; [|reflexivity].
  rewrite List.Forall_forall in ok_bridges0. auto.
Qed.

Lemma upd_bridge_type i f : (forall b, bridge_ok b = true -> bridge_ok (f b) = true) -> keeps_type (upd_bridge i f).
Proof.
  intros Hf. apply keeps_ok_modify. intros c Hc. pose proof (bridge_type i c Hc) as Hb. destruct Hc.
  split; try done; cbn; [by rewrite length_insert|].
  apply Forall_insert; [done|]. by apply Hf.
Qed.

(** The conditions on a bridge, one by one. *)
Lemma bridge_ok_split b : bridge_ok b = true ->
  word32 (ipsandbox b) = true /\ word32 (masksandbox b) = true /\ word32 (mask b) = true /\
  mac_ok (macsandbox b) = true /\ (mtu b =? 0) || ((576 <=? mtu b) && (mtu b <=? 9198)) = true /\
  ((iprange_start b =? 0) && (iprange_end b =? 0)) || (iprange_start b <? iprange_end b) = true /\
  flag_ok (arg_ip_none b) = true /\ flag_ok (arg_ip6_dhcp b) = true /\ flag_ok (macvlan b) = true /\
  flag_ok (configured b) = true.
Proof.
  unfold bridge_ok. intros [[[[[[??]%andb_true_iff ?]%andb_true_iff ?]%andb_true_iff ?]%andb_true_iff ?]%andb_true_iff
    [[[??]%andb_true_iff ?]%andb_true_iff ?]%andb_true_iff]%andb_true_iff. done.
Qed.

Ltac bridge_store :=
  apply upd_bridge_type; intros b (B1 & B2 & B3 & B4 & B5 & B6 & B7 & B8 & B9 & B10)%bridge_ok_split;
  unfold bridge_ok, with_iprange_end, with_iprange_start, with_macsandbox, with_mtu, with_mask, with_masksandbox,
    with_ipsandbox, with_arg_ip_none, with_configured, with_dev, with_veth_name, with_ip6sandbox;
  cbn [ipsandbox masksandbox mask macsandbox mtu iprange_start iprange_end arg_ip_none arg_ip6_dhcp macvlan configured];
  rewrite ?B1, ?B2, ?B3, ?B4, ?B5, ?B6, ?B7, ?B8, ?B9, ?B10.

(** A store that is kept only if a test lets the program go on. *)
Lemma guard_type (m : P unit) (b : bool) code (k : P unit) :
  (b = false -> keeps_type (m ;;; k)) -> keeps_type (m ;;; if b then cexit code else k).
Proof.
  intros Hm. destruct b; [|auto]. intros w a w' E. exfalso. revert E. unfold cbind.
  by destruct (m w) as [[]?].
Qed.

Lemma exit_unless_type (m : P unit) (b : bool) :
  (b = true -> keeps_type m) -> keeps_type (m ;;; exit_unless b).
Proof.
  intros Hm. unfold exit_unless. destruct b.
  - apply keeps_ok_bind; [exact _|auto|intros; apply keeps_ok_ret, _].
  - intros w a w' E. exfalso. revert E. unfold cbind. by destruct (m w) as [[]?].
Qed.

(** ** Parsed values *)

Lemma atoip_word s a : atoip s = Some a -> word32 a = true.
Proof.
  unfold atoip. destruct (scan_dotted s) as [[[[[x y] z] t] r]|]; [|done]. cbn [mbind option_bind].
  destruct (_ || _); [done|]. intros [= <-]. unfold ip_of_bytes, word32.
  pose proof (u32_range (x * 0x1000000 + y * 0x10000 + z * 0x100 + t)) as [H1 H2].
  by rewrite (proj2 (Z.leb_le _ _) H1), (proj2 (Z.ltb_lt _ _) H2).
Qed.

Lemma scan_mac_length n s l : scan_mac n s = Some l -> length l = n.
Proof.
  revert s l. induction n as [|n IH]; intros s l; [by intros [= <-]|]. cbn [scan_mac].
  destruct (scan_x2 s) as [[v s1]|]; [|done]. cbn [mbind option_bind].
  destruct n as [|n]; [by intros [= <-]|].
  destruct (scan_char _ s1) as [s2|]; [|done]. cbn [mbind option_bind].
  destruct (scan_mac (S n) s2) as [vs|] eqn:E; [|done]. intros [= <-]. cbn. f_equal. by eapply IH.
Qed.

Lemma atomac_ok s mac : atomac s = Some mac -> Z.land (nth 0 mac 0) 1 =? 0 = true -> mac_ok mac = true.
Proof.
  unfold atomac. destruct (scan_mac 6 s) as [l|] eqn:E; [|done]. cbn [mbind option_bind].
  destruct (existsb _ l); [done|]. intros [= <-] Hm. unfold mac_ok. rewrite Hm, length_map.
  apply scan_mac_length in E. rewrite E. cbn [Nat.eqb andb]. rewrite andb_true_r.
  apply List.forallb_forall. intros b (x & <- & _)%in_map_iff. pose proof (u8_range x) as [H1 H2].
  by rewrite (proj2 (Z.leb_le _ _) H1), (proj2 (Z.ltb_lt _ _) H2).
Qed.

Lemma seccomp_list_chars s l : seccomp_check_list s = Ok l -> string_forallb seccomp_char l = true.
Proof.
  unfold seccomp_check_list. destruct (_ =? _); [done|]. revert l.
  induction s as [|c s IH]; intros l; cbn [copy_list]; [by intros [= <-]|].
  destruct (seccomp_char c) eqn:Ec; [|done]. destruct (copy_list s); try done.
  intros [= <-]. cbn. rewrite Ec. by apply IH.
Qed.

Lemma augment_fits l i r : profile_list_augment l i = Ok r -> strlen r <=? MAX_LIST = true.
Proof.
  unfold profile_list_augment. destruct (profile_list_compress _); try done. cbn [obind]. cbv zeta.
  destruct (Z.ltb_spec MAX_LIST (strlen (string_at a))); [done|]. intros [= <-]. by apply Z.leb_le.
Qed.

Lemma cpu_mask_word n : (n < 32)%nat -> word32 (cpu_mask n) = true.
Proof.
  intros Hn. destruct n as [|n]; [reflexivity|]. cbn [cpu_mask]. unfold word32.
  pose proof (u32_range (Z.shiftl (cpu_mask n) 1)) as [H1 H2].
  by rewrite (proj2 (Z.leb_le _ _) H1), (proj2 (Z.ltb_lt _ _) H2).
Qed.

Lemma word32_lor a b : word32 a = true -> word32 b = true -> word32 (Z.lor a b) = true.
Proof.
  unfold word32. intros [H1%Z.leb_le H2%Z.ltb_lt]%andb_true_iff [H3%Z.leb_le H4%Z.ltb_lt]%andb_true_iff.
  apply andb_true_iff. split; [apply Z.leb_le, Z.lor_nonneg; lia|]. apply Z.ltb_lt.
  destruct (Z.eq_dec (Z.lor a b) 0) as [->|Hn]; [done|].
  apply Z.log2_lt_pow2; [pose proof (proj2 (Z.lor_nonneg a b) (conj H1 H3)); lia|].
  rewrite Z.log2_lor by done. apply Z.max_lub_lt.
  - destruct (Z.eq_dec a 0) as [->|]; [done|]. apply Z.log2_lt_pow2; lia.
  - destruct (Z.eq_dec b 0) as [->|]; [done|]. apply Z.log2_lt_pow2; lia.
Qed.

Lemma extract_timeout_pos s t : extract_timeout s = Ok t -> 0 <? t = true.
Proof.
  unfold extract_timeout.
  destruct (mbind _ (scan_u2 s)) as [t'|] eqn:E; [|done].
  destruct (Z.eqb_spec t' 0) as [|Hn]; [done|]. intros [= <-]. apply Z.ltb_lt.
  assert (0 <= t') as Ht; [|lia]. revert E.
  destruct (scan_u2 s) as [[h s1]|]; [|done]. cbn [mbind option_bind].
  destruct (scan_char ":"%char s1) as [s2|]; [|done]. cbn [mbind option_bind].
  destruct (scan_u2 s2) as [[m s3]|]; [|done]. cbn [mbind option_bind].
  destruct (scan_char ":"%char s3) as [s4|]; [|done]. cbn [mbind option_bind].
  destruct (scan_u2 s4) as [[sec s5]|]; [|done]. cbn [mbind option_bind].
  intros [= <-]. apply u32_range.
Qed.

(** ** Commands *)

#[local] Hint Extern 1 (keeps_ok _ (set_int _ _)) => (apply set_int_type; reflexivity) : keeps_ok.
#[local] Hint Extern 1 (keeps_ok _ (set_str _ _)) => (apply set_str_type; reflexivity) : keeps_ok.
#[local] Hint Resolve set_null_type : keeps_ok.
#[local] Hint Extern 1 (keeps_ok _ (emit _)) => (apply other_type; done) : keeps_ok.
#[local] Hint Extern 1 (keeps_ok _ (profile_add _)) => (apply other_type; done) : keeps_ok.
#[local] Hint Extern 1 (keeps_ok _ (upd_bridge _ _)) => (bridge_store; reflexivity) : keeps_ok.
#[local] Hint Extern 2 (keeps_ok _ (cmodify _)) => (apply other_type; done) : keeps_ok.

Lemma executed_type (m : P unit) : keeps_type m -> keeps_type (executed m).
Proof. intros Hm. apply keeps_ok_bind; [exact _|exact Hm|intros; apply keeps_ok_ret, _]. Qed.

Lemma if_network_type (m : P unit) : keeps_type m -> keeps_type (if_network m).
Proof. intros Hm. apply executed_type. destruct (_ && _); [exact Hm|apply keeps_ok_ret, _]. Qed.

Lemma if_enabled_type k (m : P unit) : keeps_type m -> keeps_type (if_enabled k m).
Proof. intros Hm. apply executed_type. destruct (enabled k); [exact Hm|apply keeps_ok_ret, _]. Qed.

Lemma name_type n nm : (n = "name" \/ n = "hostname") ->
  keeps_type (set_str n nm ;;; if (strlen nm =? 0) || invalid_name nm then cexit 1 else cret tt).
Proof.
  intros Hn. apply guard_type. intros [_ Hv]%orb_false_iff.
  apply keeps_ok_bind; [exact _| |intros; apply keeps_ok_ret, _]. apply set_str_type.
  unfold str_ok. rewrite Hv. by destruct Hn as [-> | ->].
Qed.

Lemma sandbox_name_type nm : keeps_type (set_sandbox_name nm).
Proof. apply name_type. auto. Qed.

Lemma hostname_type nm : keeps_type (set_hostname nm).
Proof.
  unfold set_hostname. apply keeps_ok_bind; [exact _|unfold get_int; keeps_ok_tac|intros r].
  destruct (negb _); [apply keeps_ok_exit|]. apply name_type; auto.
Qed.

Lemma dns_type a : keeps_type (add_dns a).
Proof.
  unfold add_dns. destruct (check_ip46_address a) eqn:E; [cbn [negb]|apply keeps_ok_exit].
  apply keeps_ok_bind; [exact _|apply keeps_ok_get, _|intros c].
  destruct (List.find _ _) as [n|] eqn:Ef; [|apply keeps_ok_ret, _].
  apply List.find_some in Ef as [Hn _]. apply set_str_type. unfold str_ok. rewrite E.
  by repeat destruct Hn as [<-|Hn]; [..|destruct Hn].
Qed.

Lemma netns_type a : keeps_type (set_netns a).
Proof.
  unfold set_netns, check_netns. apply guard_type. intros [H1 H2]%orb_false_iff. apply keeps_ok_bind; [exact _| |intros; keeps_ok_tac].
  apply set_str_type. unfold str_ok. by rewrite H1, H2.
Qed.

Lemma private_cwd_type a : keeps_type (fs_check_private_cwd a).
Proof.
  unfold fs_check_private_cwd, expand. apply keeps_ok_bind; [exact _|keeps_ok_tac|intros _].
  destruct (streq a "."); [apply keeps_ok_exit|].
  apply keeps_ok_bind; [exact _|keeps_ok_tac|intros cwd].
  apply guard_type. intros [H1 H2%negb_false_iff]%orb_false_iff.
  apply keeps_ok_bind; [exact _| |intros; apply keeps_ok_ret, _].
  apply set_str_type. unfold str_ok. by rewrite H1, H2.
Qed.

Lemma seccomp_list_type f l a : In l seccomp_lists -> int_ok f 1 = true -> keeps_type (set_seccomp_list f l a).
Proof.
  intros Hl Hf. unfold set_seccomp_list.
  apply keeps_ok_bind; [exact _|by apply set_int_type|intros _].
  eapply keeps_ok_bind_results; [exact _|apply keeps_ok_lift, _|apply results_lift; intros x Hx; exact Hx|].
  intros x Hx. apply set_str_type. unfold str_ok. rewrite (seccomp_list_chars _ _ Hx).
  by repeat destruct Hl as [<-|Hl]; [..|destruct Hl].
Qed.

Lemma augment_type n a : In n item_lists -> keeps_type (augment n a).
Proof.
  intros Hn. unfold augment. apply keeps_ok_bind; [exact _|unfold get_str; keeps_ok_tac|intros s].
  eapply keeps_ok_bind_results; [exact _|apply keeps_ok_lift, _|apply results_lift; intros x Hx; exact Hx|].
  intros x Hx. apply set_str_type. unfold str_ok. rewrite (augment_fits _ _ _ Hx).
  by repeat destruct Hn as [<-|Hn]; [..|destruct Hn].
Qed.

Lemma cpu_type s : keeps_type (set_cpu s).
Proof.
  unfold set_cpu, get_int. destruct (_ =? _); [apply keeps_ok_ret, _|]. cbv zeta.
  destruct (Z.ltb_spec (atoi s) 0); [apply keeps_ok_exit|].
  destruct (Z.leb_spec 32 (atoi s)); [apply keeps_ok_exit|]. cbn [orb].
  intros c b c' E Hc. rewrite cbind_assoc, cget_bind, cret_bind in E.
  refine (set_int_type "cpus" _ _ c b c' E Hc). apply word32_lor; [|apply cpu_mask_word; lia].
  unfold int_of. destruct (ints c !! "cpus") as [v|] eqn:Ev; [|reflexivity].
  exact (map_Forall_lookup_1 _ _ _ _ (ok_ints c Hc) Ev).
Qed.

Lemma cpu_list_type s : keeps_type (read_cpu_list s).
Proof.
  unfold read_cpu_list. destruct (negb _); [apply keeps_ok_exit|].
  apply keeps_ok_fold; [exact _|]. intros x _. apply cpu_type.
Qed.

Lemma rlimit_size_type v a : int_ok ("arg_" +:+ v) 1 = true ->
  (forall z, z =? 0 = false -> int_ok v z = true) -> keeps_type (set_rlimit_size v a).
Proof.
  intros H1 Hv. unfold set_rlimit_size.
  destruct (parse_arg_size a) as [z|]; [|apply keeps_ok_fail]. apply guard_type. intros Hz.
  apply keeps_ok_bind; [exact _|by apply set_int_type, Hv|intros; by apply set_int_type].
Qed.

Lemma scan_llu_range s : (0 <=? scan_llu s) && (scan_llu s <=? ULLONG_MAX) = true.
Proof.
  unfold scan_llu. destruct (read_sign _) as [sign s1]. destruct s1 as [|c s1]; [done|].
  destruct (isdigit c); [|done]. cbv zeta. destruct (Z.ltb_spec ULLONG_MAX (read_digits 10 0 (String c s1)).1); [done|].
  pose proof (u64_range (sign * (read_digits 10 0 (String c s1)).1)). unfold ULLONG_MAX.
  apply andb_true_iff. split; apply Z.leb_le; lia.
Qed.

Lemma rlimit_number_type v a : int_ok ("arg_" +:+ v) 1 = true ->
  (forall z, (0 <=? z) && (z <=? ULLONG_MAX) = true -> int_ok v z = true) -> keeps_type (set_rlimit_number v a).
Proof.
  intros H1 Hv. unfold set_rlimit_number, scan_llu_into. apply keeps_ok_bind; [exact _|keeps_ok_tac|intros _].
  apply keeps_ok_bind; [exact _| |intros; by apply set_int_type].
  destruct (_.2) as [|c s]; [apply keeps_ok_ret, _|]. destruct (isdigit c); [|apply keeps_ok_ret, _].
  apply set_int_type, Hv, scan_llu_range.
Qed.

Lemma nice_type a : keeps_type (set_nice a).
Proof.
  unfold set_nice.
  apply keeps_ok_bind; [exact _| |intros; by apply set_int_type]. apply set_int_type.
  unfold int_ok. cbn [streq]. change (int_ok "nice" ?x) with ((uid =? 0) || (0 <=? x)).
  destruct (uid =? 0); [done|]. cbn [negb andb]. destruct (Z.ltb_spec (atoi a) 0); [done|]. by apply Z.leb_le.
Qed.

Lemma timeout_type a : keeps_type (t <~ clift (extract_timeout a) ;; set_int "timeout" t).
Proof.
  eapply keeps_ok_bind_results; [exact _|apply keeps_ok_lift, _|apply results_lift; intros x Hx; exact Hx|].
  intros t Ht. apply set_int_type. exact (extract_timeout_pos _ _ Ht).
Qed.

Lemma defaultgw_type a : keeps_type (set_defaultgw a).
Proof.
  unfold set_defaultgw. destruct (atoip a) as [z|] eqn:E; [|apply keeps_ok_exit].
  apply set_int_type. exact (atoip_word _ _ E).
Qed.

Lemma set_error_action_type a : keeps_type (set_error_action a).
Proof.
  unfold set_error_action. apply keeps_ok_bind; [exact _| |intros; by apply set_str_type].
  destruct (streq a "kill"); [by apply set_int_type|]. destruct (streq a "log"); [by apply set_int_type|].
  apply exit_unless_type. intros Hn%negb_true_iff%Z.eqb_neq. apply set_int_type.
  apply errno_find_name_bounds in Hn. change (int_ok _ ?v) with (error_action_ok v || (v =? cfgval CFG_SECCOMP_ERROR_ACTION)).
  unfold error_action_ok. rewrite (proj2 (Z.ltb_lt _ _)), (proj2 (Z.ltb_lt _ 4096)) by lia.
  by rewrite !orb_true_r.
Qed.

Lemma error_action_type a : keeps_type (cmd_seccomp_error_action a).
Proof.
  apply if_enabled_type. cbv zeta. destruct (_ =? -1); [apply set_error_action_type|].
  apply keeps_ok_bind; [exact _| |intros; by apply set_str_type]. apply set_int_type.
  change (int_ok _ ?v) with (error_action_ok v || (v =? cfgval CFG_SECCOMP_ERROR_ACTION)).
  by rewrite Z.eqb_refl, orb_true_r.
Qed.

(** ** Commands for bridges *)

Lemma on_bridge_type (f : nat -> Bridge -> P unit) :
  (forall i br, keeps_type (f i br)) -> keeps_type (on_last_bridge f).
Proof.
  intros Hf. unfold on_last_bridge.
  apply keeps_ok_bind; [exact _|apply keeps_ok_get, _|intros c].
  destruct (last_bridge_configured c); [apply Hf|apply keeps_ok_exit].
Qed.

Lemma iprange_type a : keeps_type (set_iprange a).
Proof.
  unfold set_iprange. apply on_bridge_type. intros i br. destruct (_ || _); [apply keeps_ok_exit|].
  destruct (strchr_split _ a) as [[x y]|]; [|apply keeps_ok_exit].
  destruct (atoip x) as [first|]; [|apply keeps_ok_exit]. destruct (atoip y) as [second|]; [|apply keeps_ok_exit].
  apply exit_unless_type. intros Hlt. bridge_store. by rewrite Hlt, orb_true_r.
Qed.

Lemma mac_type a : keeps_type (set_mac a).
Proof.
  unfold set_mac. apply on_bridge_type. intros i br. destruct (mac_not_zero _); [apply keeps_ok_exit|].
  destruct (atomac a) as [mac|] eqn:E; [|apply keeps_ok_exit].
  apply exit_unless_type. intros Hm. bridge_store. by rewrite (atomac_ok _ _ E Hm).
Qed.

Lemma mtu_type a : keeps_type (set_mtu a).
Proof.
  unfold set_mtu. apply on_bridge_type. intros i br. destruct (scan_d a) as [[v r]|]; [|apply keeps_ok_exit].
  apply exit_unless_type. intros [H1%Z.ltb_ge H2%Z.ltb_ge]%negb_true_iff%orb_false_iff. bridge_store.
  rewrite (proj2 (Z.leb_le _ _) H1), (proj2 (Z.leb_le _ _) H2). by rewrite orb_true_r.
Qed.

Lemma netmask_type a : keeps_type (cmd_netmask a).
Proof.
  apply if_network_type, on_bridge_type. intros i br. destruct (_ || _); [apply keeps_ok_exit|].
  destruct (atoip a) as [m|] eqn:E; [|apply keeps_ok_exit]. destruct (mask br =? 0); [|apply keeps_ok_exit].
  bridge_store. by rewrite (atoip_word _ _ E).
Qed.

Lemma ip_type a : keeps_type (set_ip a).
Proof.
  unfold set_ip. apply on_bridge_type. intros i br. destruct (_ || _); [apply keeps_ok_exit|].
  destruct (streq a "none"); [bridge_store; reflexivity|].
  destruct (atoip a) as [m|] eqn:E; [|apply keeps_ok_exit].
  bridge_store. by rewrite (atoip_word _ _ E).
Qed.

Lemma ignore_type s : keeps_type (profile_add_ignore s).
Proof.
  unfold profile_add_ignore. destruct (negb _); [apply keeps_ok_exit|].
  apply keeps_ok_get_bind. intros c b c' E []. destruct (Z.leb_spec MAX_PROFILE_IGNORE (Z.of_nat (length (profile_ignore c)))) as [|Hl]; [done|].
  injection E as _ <-. split; try done. cbn. rewrite length_app. cbn. lia.
Qed.

Lemma landlock_type t d : keeps_type (ll_add_profile t d).
Proof.
  unfold ll_add_profile, cassert. destruct (built _); [|apply keeps_ok_ret, _].
  destruct (Z.leb_spec 0 t); [|intros w a w' E; discriminate E].
  destruct (Z.ltb_spec t LL_MAX); [|intros w a w' E; discriminate E].
  apply keeps_ok_bind; [exact _|apply keeps_ok_ret, _|intros _]. apply keeps_ok_modify. intros c [].
  split; try done. cbn. apply Forall_app. split; [done|]. by apply Forall_singleton.
Qed.

Lemma env_type s o : keeps_type (in_env (env_store s o)).
Proof.
  apply keeps_ok_get_bind. intros c b c'. destruct (env_store s o (environment c)) as [r p].
  rewrite cmodify_bind. intros [= _ <-] []. by split.
Qed.

#[local] Hint Resolve sandbox_name_type hostname_type dns_type netns_type private_cwd_type cpu_list_type nice_type
  timeout_type defaultgw_type error_action_type iprange_type mac_type mtu_type netmask_type ip_type ignore_type
  landlock_type env_type executed_type if_network_type if_enabled_type set_error_action_type : keeps_ok.
#[local] Hint Extern 1 (keeps_ok _ (augment _ _)) => (apply augment_type; cbn; tauto) : keeps_ok.
#[local] Hint Extern 1 (keeps_ok _ (set_seccomp_list _ _ _)) =>
  (apply seccomp_list_type; [cbn; tauto|reflexivity]) : keeps_ok.
#[local] Hint Extern 1 (keeps_ok _ (set_rlimit_size _ _)) =>
  (apply rlimit_size_type; [reflexivity|intros z Hz; cbn; by rewrite Hz]) : keeps_ok.
#[local] Hint Extern 1 (keeps_ok _ (set_rlimit_number _ _)) =>
  (apply rlimit_number_type; [reflexivity|intros z Hz; exact Hz]) : keeps_ok.

Ltac unfold_plain :=
  unfold nothing, flag, if_enabled, if_network, cmd_hostname, cmd_hostname_randomize, randomize_hostname,
    cmd_join_or_start, cmd_dbus_policy, set_dbus_policy, cmd_dbus_rule, cmd_net_none, disable_network, cmd_net,
    add_network, cmd_veth_name, set_veth_name, cmd_iprange, cmd_mac, cmd_mtu, cmd_ip, cmd_ip6, set_ip6,
    cmd_defaultgw, cmd_netfilter, set_netfilter, cmd_netns, cmd_dns, cmd_seccomp_list, cmd_restrict_namespaces,
    restrict_all_namespaces, cmd_caps, set_caps_option, rlimit_size, rlimit_number, cmd_nice,
    cmd_private_list, add_private_list, cmd_private_etc_list, cmd_private_etc, cmd_writable_etc, set_writable_etc,
    cmd_private_dir, cmd_bind, cmd_path, cmd_noprinters, disable_printers, cmd_x11, cmd_apparmor,
    cmd_apparmor_replace, on_last_bridge, append_keep, not_writable_etc, if_network, if_enabled,
    flag, executed, exit_unless, check_netfilter_file, fs_mkdir, fs_mkfile, check_path, fs_check_private_dir,
    fs_check_hosts_file, check_user_namespace, expand, get_int, get_str;
  cbn [cfold]; cbv zeta.

Definition command_type (c : command) : Prop := forall a, keeps_type (c.2 a).

Ltac each_type := each_command; first [solve [eauto with keeps_ok] | unfold_plain; keeps_ok_tac].

Lemma rlimit_commands_type : Forall command_type rlimit_commands.
Proof. unfold rlimit_commands. each_type. Qed.

Lemma commands_1_type : Forall command_type commands_1.
Proof. unfold commands_1, sets. each_type. Qed.

Lemma commands_2_type : Forall command_type commands_2.
Proof. unfold commands_2, sets. each_type. Qed.

Lemma commands_3_type : Forall command_type commands_3.
Proof.
  unfold commands_3, sets. each_command;
    first [solve [eauto with keeps_ok] | apply run_command_keeps_ok, rlimit_commands_type | unfold_plain; keeps_ok_tac].
Qed.

Lemma path_commands_type : Forall command_type path_commands.
Proof. unfold path_commands. each_type. Qed.

Lemma add_line_type ptr : keeps_type (add_line ptr).
Proof.
  unfold add_line, profile_check_line.
  apply keeps_ok_bind; [exact _| |intros []; [by apply other_type|apply keeps_ok_ret, _]].
  apply check_line_keeps_ok; [exact _| |intros s; by apply other_type].
  unfold commands. rewrite !Forall_app.
  auto using commands_1_type, commands_2_type, commands_3_type, path_commands_type.
Qed.

(** C25: Whatever a profile file and its includes hold, the configuration it leaves is
    well formed if it was before.  Every integer variable is 0 or 1, except: the CPU mask
    and the default gateway fit 32 bits, the timeout is positive, rlimit_as and
    rlimit_fsize are not 0, the other limits lie between 0 and ULLONG_MAX, nice is not
    negative for a user who is not root, and the error action is kill, log, an error
    number or the default.  Sandbox and host name are valid names, DNS servers are
    addresses, lists of system calls have no character seccomp_check_list rejects, the
    item lists are at most MAX_LIST long, a network namespace has no slash and no [..],
    the working directory is absolute without [..]; other strings may be anything.  The
    flags of the four bridges are 0 or 1, their addresses and masks fit 32 bits, a MAC
    address is six bytes and no multicast address, MTU and address range are in order.
    At most 32 lines are ignored, and Landlock entries are of a kind there is. *)
Theorem profile_read_well_formed fname c c' :
  profile_read fname c = (Ok tt, c') -> config_ok c -> config_ok c'.
Proof.
  assert (keeps_type (profile_read fname)) as Hk; [|intros E; exact (Hk _ _ _ E)].
  apply profile_read_level_keeps; [exact _|apply add_line_type|..]; intros.
  - unfold whitelist_ro. keeps_ok_tac.
  - by apply set_int_type.
  - by apply other_type.
  - by apply other_type.
Qed.
End Types.
