(* ===== verification/ProfileDemo.v ===== *)
(** * Profiles on a concrete host

    A host with two profile files: what the theorems say about it, and some lines
    that do not do what they look like. *)

From S2P Require Import Prelude.
From S2P Require Import Clib.
From S2P Require Import Keeps.
From S2P Require Import Caps.
From S2P Require Import Concrete.
From S2P Require Import Env.
From S2P Require Import Text.
From S2P Require Import Common.
From S2P Require Import Util.
From S2P Require Import Checkcfg.
From S2P Require Import Dbus.
From S2P Require Import Macros.
From S2P Require Import ProfileState.
From S2P Require Import ProfileCommands.
From S2P Require Import ProfileLine.
From S2P Require Import ProfileReadTheorems.
From S2P Require Import ProfileEntryTheorems.
From S2P Require Import ProfileSpecTheorems.
From S2P Require Import ProfileTypeTheorems.

Definition demo_files : list (string * string) :=
  [("/etc/firejail/demo.profile", String.concat "" (map line
      ["# a comment"; "include  common.inc"; "ignore nosound"; "nosound"; "caps.drop all"; "net eth0";
       "mac 00:11:22:33:44:55"; "dbus-user filter"; "dbus-user.talk org.a.B"; "?HAS_NET: blacklist ${HOME}/.ssh";
       "whitelist-ro ${HOME}/../x"; "name demo1"]));
   ("/etc/firejail/common.inc", String.concat "" (map line ["blacklist /boot"; "noexec /tmp"]))].

Definition demo_text (fname : string) : option string :=
  match List.find (fun f => streq f.1 fname) demo_files with Some f => Some f.2 | None => None end.

Definition demo_view : fsview := mk_view
  (fun _ => true) (fun _ => false) (fun _ => false) (fun _ => true)
  (fun f => match demo_text f with Some _ => None | None => Some 2 end)
  Some demo_text
  (fun d => if streq d "/etc/firejail" then ["common.inc"; "demo.profile"] else []).

#[export] Instance demo_host : Host := {|
  built := fun n => negb (streq n "HAVE_ONLY_SYSCFG_PROFILES");
  conf := default_settings 0 [] ∅;
  uid := 1000;
  homedir := "/home/joe";
  sysconfdir := "/etc/firejail";
  libdir := "/usr/lib";
  install_prefix := "/usr";
  original_argv := ["firejail"; "--quiet"; "ls"];
  view := fun _ => demo_view;
  inet_pton6 := fun _ => false;
  sandbox_pid := fun _ => None;
  child_status := fun _ => 0
|}.

#[export] Instance demo_caps : CapHeaders := linux_cap.

Definition start : Config :=
  mk_config ∅ ∅ [no_bridge; no_bridge; no_bridge; no_bridge] DBUS_POLICY_ALLOW DBUS_POLICY_BLOCK [] [] []
    (mk_proc [] ∅ 4128 256 4128 128) 0 [] [].

Lemma ok_pair {A B} (r : outcome A * B) a : r.1 = Ok a -> r = (Ok a, r.2).
Proof. destruct r as [o b]. by intros [= ->]. Qed.

Definition demo : string := "/etc/firejail/demo.profile".
Definition after : Config := (profile_read demo start).2.

Lemma demo_reads : profile_read demo start = (Ok tt, after).
Proof. unfold after. apply (ok_pair (profile_read demo start) tt). vm_compute. reflexivity. Qed.

Lemma profile_read_monotone_witness :
  profile_read demo start = (Ok tt, after) /\ kept start after /\ arg_dbus_system after = DBUS_POLICY_BLOCK.
Proof.
  split; [exact demo_reads|]. split; [exact (profile_read_monotone demo start after demo_reads)|].
  vm_compute. reflexivity.
Defined.

Lemma profile_read_entries_witness :
  (exists l, profile after = profile start ++ l /\ appended l) /\
  profile after = ["blacklist /boot"; "noexec /tmp"; "dbus-user.talk org.a.B"; "blacklist ${HOME}/.ssh";
                   "whitelist ${HOME}/../x"; "read-only ${HOME}/../x"].
Proof. split; [exact (profile_read_entries demo start after demo_reads)|]. vm_compute. reflexivity. Defined.

Lemma proxy_args_valid_witness :
  Forall proxy_arg_ok (write_profile (profile after) "dbus-user.") /\
  write_profile (profile after) "dbus-user." = ["--talk=org.a.B"].
Proof.
  split; [|vm_compute; reflexivity].
  apply (proxy_args_valid demo start after); [exact demo_reads|reflexivity|reflexivity|left; reflexivity].
Defined.

Lemma profile_read_terminates_witness :
  include_level start = 0 /\ (profile_read demo start).1 <> NoFuel.
Proof. split; [reflexivity|]. apply (profile_read_terminates demo start). reflexivity. Defined.

Lemma path_line_spec_witness :
  profile_check_line ("blacklist " +:+ "/a;b") start = (Exit 1, start) /\
  profile_check_line ("blacklist " +:+ "/etc/*") start = (Ok true, start).
Proof.
  split.
  - rewrite (path_line_spec "blacklist " "/a;b" start); [reflexivity|left; reflexivity|reflexivity].
  - rewrite (path_line_spec "blacklist " "/etc/*" start); [reflexivity|left; reflexivity|reflexivity].
Defined.

Lemma ignored_line_skipped_witness :
  let c := with_ignore ["net"] start in
  profile_add_ignore "net" start = (Ok tt, c) /\ profile_check_line "net eth0" c = (Ok false, c).
Proof.
  split; [reflexivity|].
  apply (ignored_line_skipped "net" "net eth0" start); [reflexivity|reflexivity|right; exists "eth0"; reflexivity].
Defined.

Lemma conditional_line_spec_witness :
  let c := with_ints {["arg_nosound" := 1]} start in
  profile_check_line ("?" +:+ "HAS_NOSOUND" +:+ ": " +:+ "nodvd") start = (Ok false, start) /\
  int_of "arg_nodvd" (profile_check_line ("?" +:+ "HAS_NOSOUND" +:+ ": " +:+ "nodvd") c).2 = 1.
Proof.
  split.
  - rewrite (conditional_line_spec "HAS_NOSOUND" (fun c => negb (int_of "arg_nosound" c =? 0)));
      [reflexivity|do 3 right; left; reflexivity].
  - rewrite (conditional_line_spec "HAS_NOSOUND" (fun c => negb (int_of "arg_nosound" c =? 0)));
      [vm_compute; reflexivity|do 3 right; left; reflexivity].
Defined.

Lemma profile_read_path_lines_witness :
  profile_read "/etc/firejail/common.inc" start =
  (Ok tt, with_profile ["blacklist /boot"; "noexec /tmp"]
            (with_effects [Run_file "/etc/firejail/common.inc"] start)).
Proof.
  apply (profile_read_path_lines "/etc/firejail/common.inc" ["blacklist /boot"; "noexec /tmp"] start).
  - repeat split; vm_compute; congruence.
  - apply List.Forall_cons; [|apply List.Forall_cons; [|apply List.Forall_nil]].
    + exists "blacklist ", "/boot". split; [reflexivity|]. split; [left; reflexivity|].
      split; [discriminate|vm_compute; reflexivity].
    + exists "noexec ", "/tmp". split; [reflexivity|]. split; [do 7 right; left; reflexivity|].
      split; [discriminate|vm_compute; reflexivity].
  - vm_compute. reflexivity.
  - repeat apply List.Forall_cons; try apply List.Forall_nil; reflexivity.
Defined.

Lemma start_ok : config_ok start.
Proof. split; try done; cbn; repeat constructor. Qed.

Lemma profile_read_well_formed_witness :
  profile_read demo start = (Ok tt, after) /\ config_ok start /\ config_ok after.
Proof.
  split; [exact demo_reads|]. split; [exact start_ok|].
  exact (profile_read_well_formed demo start after demo_reads start_ok).
Defined.

(** ** Lines that do not do what they look like *)

(** "shell none" is meant to be accepted with a warning, but the test is for a line
    that ends in a blank, which no line does. *)
Lemma shell_none_rejected : (profile_check_line "shell none" start).1 = Exit 1.
Proof. vm_compute. reflexivity. Qed.

(** The path check of mkdir is a comparison of prefixes. *)
Lemma mkdir_outside : supported_path "/home/joe2/x" = true /\ supported_path "/tmpfiles" = true /\
  supported_path "/home/joe/../../etc" = true.
Proof. vm_compute. auto. Qed.

(** A "net" line after "net none" configures a bridge again. *)
Lemma net_after_net_none :
  let c := (profile_check_line "net eth0" (profile_check_line "net none" start).2).2 in
  int_of "arg_nonetwork" c = 1 /\ any_bridge_configured c = true.
Proof. vm_compute. auto. Qed.
