(* ===== verification/FsDemo.v ===== *)
(** * Runs of the file system set-up

    A small file system, a profile with the lines of [fs_blacklist] and
    [fs_whitelist], and the profile for which the loop of [fs_whitelist] does not
    end. *)

From S2P Require Import Prelude.
From S2P Require Import Clib.
From S2P Require Import Keeps.
From S2P Require Import Env.
From S2P Require Import Text.
From S2P Require Import Common.
From S2P Require Import Mountinfo.
From S2P Require Import Util.
From S2P Require Import UtilTheorems.
From S2P Require Import Checkcfg.
From S2P Require Import Caps.
From S2P Require Import Dbus.
From S2P Require Import Macros.
From S2P Require Import ProfileState.
From S2P Require Import ProfileCommands.
From S2P Require Import ProfileDemo.
From S2P Require Import Sys.
From S2P Require Import SysFiles.
From S2P Require Import FsEtc.
From S2P Require Import Fs.
From S2P Require Import Trace.
From S2P Require Import FsTheorems.
From S2P Require Import FsHome.
From S2P Require Import FsWhitelist.
From S2P Require Import WhitelistTheorems.

(** Descriptors of the directories and files that are opened. *)
Definition demo_fds : list (string * Z) :=
  [("/boot", 10); ("/home/joe/.ssh", 11); ("/home/joe/.gnupg", 12); ("/home/joe/cache", 13); ("/srv", 14);
   ("/etc", 15); ("/home/joe/bin", 16); ("/home/joe", 17); ("data", 30); ("/srv/data", 31)].

Definition demo_open (path : string) : option Z :=
  match List.find (fun e => streq e.1 path) demo_fds with Some e => Some e.2 | None => None end.
Definition demo_path (fd : Z) : string :=
  match List.find (fun e => e.2 =? fd) demo_fds with Some e => e.1 | None => "/" end.

(** /proc/self/mountinfo: the root, and the last mount. *)
Definition mount_line (e : effect) : list string :=
  match e with
  | Mount _ (Of fd) fs _ _ => [line ("2 1 0:5 / " +:+ demo_path fd +:+ " rw - " +:+ (if nonempty fs then fs else "ext4") +:+ " none rw")]
  | Mount _ (At p) fs _ _ => [line ("2 1 0:5 / " +:+ p +:+ " rw - " +:+ (if nonempty fs then fs else "ext4") +:+ " none rw")]
  | _ => []
  end.

Definition joes (path : string) : bool := has_prefix "/home/joe" path.

#[export] Instance demo_kernel : Kernel := {|
  sys_errno := fun _ => 0;
  sys_open := fun _ _ path => demo_open path;
  sys_openat := fun _ dirfd _ path => demo_open (demo_path dirfd +:+ "/" +:+ path);
  sys_openat2 := fun _ _ _ path => Some (demo_open path);
  sys_created := fun _ => 40;
  sys_fstat := fun _ fd => inl (mk_stat true false 493 (if joes (demo_path fd) then 1000 else 0) 0 1 fd);
  sys_stat := fun _ path => None;
  sys_lstat := fun _ path => if streq path "/srv" || streq path "/home/joe" then Some (mk_stat true false 493 0 0 1 2) else None;
  sys_statvfs := fun _ fd => Some 6;
  realpath_errno := fun _ _ => 2;
  mount_handle := fun _ _ => 1;
  fdinfo := fun _ _ => [];
  mountinfo := fun l => line "1 1 0:4 / / rw - ext4 none rw" :: flat_map mount_line l;
  opendir := fun _ _ => None;
  glob := fun _ pattern => Some [pattern];
  glob_matches := fun _ _ => None;
  sys_fstatat := fun _ _ _ _ => None;
  sys_faccess_x := fun _ _ => true;
  d_type_dir := fun _ _ => false;
  sys_access_x := fun _ _ => true;
  sys_size := fun _ _ => 0;
  gethostname := fun _ => Some "box";
  sys_isreg := fun _ _ => true;
  boot_record := fun _ => "";
  getpwnam := fun _ => None;
  get_group_id := fun _ => 0;
  fnmatch := fun n path => if streq n path then 0 else 1;
  bindir := "/usr/bin";
  user_shell := "/bin/bash";
  own_gid := 1000
|}.

(** As the user, with a profile. *)
Definition with_lines (l : list string) : Config := did (Seteuid 1000) (with_profile l start).

Definition fs_lines : list string :=
  ["blacklist /boot"; "noblacklist ${HOME}/.ssh"; "blacklist ${HOME}/.ssh"; "blacklist ${HOME}/.gnupg";
   "read-only /etc"; "noexec ${HOME}/bin"; "tmpfs ${HOME}/cache"; "whitelist /srv/data"].
Definition fs_start : Config := with_lines fs_lines.
#[local] Notation fs_end := (fs_blacklist fs_start).2.

Definition hide (fd : Z) : list effect :=
  [Seteuid 0; Mount (At "/run/firejail/firejail.ro.dir") (Of fd) "" 20480 ""; Seteuid 1000].
Definition remount (fd fl : Z) : list effect :=
  [Seteuid 0; Mount (Of fd) (Of fd) "" 20480 ""; Seteuid 1000; Seteuid 0; Mount Nowhere (Of fd) "" fl ""; Seteuid 1000].

(** /boot and ~/.gnupg are hidden, ~/.ssh is not. *)
Definition blacklist_run : list effect :=
  hide 10 ++ hide 12 ++ remount 15 (7 + 4128) ++ remount 16 (14 + 4128) ++
  [Seteuid 0; Mount (At "tmpfs") (Of 13) "tmpfs" 6 "mode=755,uid=1000,gid=0"; Seteuid 1000;
   Call "selinux_relabel_path" 0 ["/home/joe/cache"; "/home/joe/cache"]].

Lemma fs_runs : fs_blacklist fs_start = (Ok tt, fs_end) /\ effects fs_end = effects fs_start ++ blacklist_run.
Proof. split; [apply (ok_pair (fs_blacklist fs_start) tt); vm_compute; reflexivity|vm_compute; reflexivity]. Qed.

Lemma fs_split l1 e l2 : blacklist_run = l1 ++ e :: l2 ->
  effects (fs_blacklist fs_start).2 = effects fs_start ++ l1 ++ e :: l2.
Proof. intros <-. exact (proj2 fs_runs). Qed.


Lemma tmpfs_in_home_witness :
  exists l0 s, sys_fstat l0 13 = inl s /\ st_uid s = 1000.
Proof.
  destruct (tmpfs_in_home fs_start (take 19 blacklist_run) 13 "tmpfs" 6 "mode=755,uid=1000,gid=0"
    (drop 20 blacklist_run) (fs_split _ _ _ eq_refl)) as (l0 & p & rp & d & s & _ & _ & _ & _ & _ & _ & Hs & Hu).
  exists l0, s. split; [exact Hs|]. exact (proj1 (Hu ltac:(done))).
Defined.

Lemma remounts_keep_flags_witness :
  exists l0 fd0 f_flag, sys_statvfs l0 fd0 = Some f_flag /\
    (forall b, In b [1; 2; 3] -> Z.testbit f_flag b = true -> Z.testbit 4135 b = true).
Proof.
  destruct (remounts_keep_flags fs_start (take 10 blacklist_run) 15 "" 4135 "" (drop 11 blacklist_run) (fs_split _ _ _ eq_refl))
    as (l0 & rest & p & fd0 & s & s2 & fl & _ & _ & _ & Hv & _ & _ & _ & Hb & _).
  exists l0, fd0, fl. split; [exact Hv|exact Hb].
Defined.


(** ** fs_whitelist *)

Definition no_lines : wl_state := mk_wl [] [] [].
#[local] Notation wl_run := (whitelist_loop 20 0 no_lines fs_start).

Definition srv_state : wl_state :=
  mk_wl [mk_topdir "/srv" 14] [] [mk_wparam "/srv/data" None (mk_topdir "/srv" 14)].

Lemma wl_runs : wl_run = (Ok srv_state, wl_run.2).
Proof. apply (ok_pair wl_run srv_state). vm_compute. reflexivity. Qed.

Lemma whitelist_loop_ok_witness : wl_ok srv_state.
Proof.
  exact (whitelist_loop_ok 20 0 no_lines fs_start srv_state wl_run.2 wl_start wl_runs).
Defined.

Definition no_start : Config := with_lines ["nowhitelist /srv/data"; "whitelist /srv/./data"].

Lemma nowhitelist_respected_witness :
  profile no_start !! 0%nat = Some ("nowhitelist " +:+ "/srv/data") /\
  exists new, wparams (mk_wl [mk_topdir "/srv" 14] ["/srv/data"] []) = [] ++ new /\ Forall (fun w => wp_file w <> "/srv/data") new.
Proof.
  split; [reflexivity|].
  assert ((whitelist_loop 20 0 no_lines no_start).1 = Ok (mk_wl [mk_topdir "/srv" 14] ["/srv/data"] [])) as E
    by (vm_compute; reflexivity).
  apply (nowhitelist_respected 19 0 "/srv/data" "/srv/data" "/srv/data" "/srv/data" no_lines no_start _
    (whitelist_loop 20 0 no_lines no_start).2); [reflexivity..|exact (ok_pair _ _ E)].
Defined.

#[local] Notation srv_end := (fs_whitelist 20 fs_start).2.

Definition srv_trace : list effect :=
  [Seteuid 0; Mount (At "tmpfs") (Of 14) "tmpfs" 6 "mode=755,uid=0,gid=0"; Seteuid 1000;
   Call "selinux_relabel_path" 0 ["/srv"; "/srv"]; Seteuid 0; Call "mkdirat" 14 ["data"; "0755"]; Seteuid 0;
   Mount (Of 30) (Of 31) "" 20480 ""; Seteuid 1000].

Lemma srv_runs : effects srv_end = effects fs_start ++ srv_trace.
Proof. vm_compute. reflexivity. Qed.

Lemma whitelist_mounts_confined_witness :
  srv_trace !! 7%nat = Some (Mount (Of 30) (Of 31) "" 20480 "") /\
  from_top (effects fs_start ++ take 7 srv_trace) 30 31.
Proof.
  split; [reflexivity|].
  exact (whitelist_mounts_confined 20 fs_start (take 7 srv_trace) (Of 30) (Of 31) "" 20480 "" [Seteuid 1000] srv_runs).
Defined.

Definition home_param : wparam := mk_wparam "/home/joe/.ssh" None (mk_topdir "/home/joe" 17).

Lemma home_made_by_user_witness :
  nested (wp_top home_param) = true /\ emits made_by_user fs_start (whitelist_wparam home_param fs_start).2.
Proof. split; [reflexivity|]. exact (home_made_by_user home_param fs_start eq_refl). Defined.

Lemma demo_settles : glob_settles.
Proof. intros l p ps x _ [= <-] [<-|[]]. done. Qed.

Lemma whitelist_loop_terminates_witness :
  exists fuel, forall f, (fuel <= f)%nat -> (whitelist_loop f 0 no_lines fs_start).1 <> NoFuel.
Proof. exact (whitelist_loop_terminates 0 no_lines fs_start demo_settles). Defined.

(** ** Two links that point nowhere *)

(** /srv holds two dangling links, named "a*" and "a?". *)
Definition link_a : string := "/srv/a*".
Definition link_b : string := "/srv/a?".

Definition dangling_host : Host := {|
  built := built;
  conf := conf;
  uid := uid;
  homedir := homedir;
  sysconfdir := sysconfdir;
  libdir := libdir;
  install_prefix := install_prefix;
  original_argv := original_argv;
  view := fun _ => mk_view (f_stat demo_view) (f_dir demo_view) (f_link demo_view) (f_lstat_reg demo_view)
    (f_access_r demo_view) (fun _ => None) (f_text demo_view) (f_entries demo_view);
  inet_pton6 := inet_pton6;
  sandbox_pid := sandbox_pid;
  child_status := child_status
|}.

Definition dangling_kernel : Kernel := {|
  sys_errno := sys_errno;
  sys_open := sys_open;
  sys_openat := sys_openat;
  sys_openat2 := sys_openat2;
  sys_created := sys_created;
  sys_fstat := sys_fstat;
  sys_stat := sys_stat;
  sys_lstat := sys_lstat;
  sys_statvfs := sys_statvfs;
  realpath_errno := realpath_errno;
  mount_handle := mount_handle;
  fdinfo := fdinfo;
  mountinfo := mountinfo;
  opendir := opendir;
  glob := fun _ pattern => Some [link_a; link_b];
  glob_matches := glob_matches;
  sys_fstatat := sys_fstatat;
  sys_faccess_x := sys_faccess_x;
  d_type_dir := d_type_dir;
  sys_access_x := sys_access_x;
  sys_size := sys_size;
  gethostname := gethostname;
  sys_isreg := sys_isreg;
  boot_record := boot_record;
  getpwnam := getpwnam;
  get_group_id := get_group_id;
  fnmatch := fnmatch;
  bindir := bindir;
  user_shell := user_shell;
  own_gid := own_gid
|}.

#[local] Notation loop_entry := (whitelist_entry (H := dangling_host) (K := dangling_kernel)).
#[local] Notation loop := (whitelist_loop (H := dangling_host) (K := dangling_kernel)).

(** The state of the loop, from the second line on. *)
Definition srv_top : wl_state := mk_wl [mk_topdir "/srv" 14] [] [].

Definition line_added (c : Config) (path : string) : Config :=
  with_profile (profile c ++ ["whitelist " +:+ path]) c.

Lemma dangling_entry c : euid c = 1000 ->
  loop_entry ("whitelist " +:+ link_a) srv_top c = (Ok srv_top, line_added c link_b) /\
  loop_entry ("whitelist " +:+ link_b) srv_top c = (Ok srv_top, line_added c link_a).
Proof.
  intros Hu. unfold whitelist_entry, whitelist_path, resolved_path, whitelist_globbing, EUID_ASSERT.
  split; cbv -[euid profile with_profile effects Z.eqb]; rewrite Hu; reflexivity.
Qed.

Lemma dangling_loop f i c : euid c = 1000 -> (i < length (profile c))%nat ->
  Forall (fun l => l = "whitelist " +:+ link_a \/ l = "whitelist " +:+ link_b) (drop i (profile c)) ->
  (loop f i srv_top c).1 = NoFuel.
Proof.
  revert i c. induction f as [|f IH]; intros i c Hu Hi Hl; [done|]. cbn [whitelist_loop]. rewrite cget_bind.
  destruct (lookup_lt_is_Some_2 _ _ Hi) as [data Ed]. rewrite Ed. rewrite (drop_S _ _ _ Ed) in Hl.
  apply Forall_cons in Hl as [Hd Hl]. destruct (dangling_entry c Hu) as [Ea Eb].
  assert (exists p, loop_entry data srv_top c = (Ok srv_top, line_added c p) /\ (p = link_a \/ p = link_b)) as (p & Ep & Hp).
  { destruct Hd as [-> | ->]; eauto. }
  rewrite (cbind_ok _ _ _ _ _ Ep). apply IH; [exact Hu|cbn [line_added profile with_profile]; rewrite length_app; cbn; lia|].
  cbn [line_added profile with_profile]. rewrite drop_app. apply Forall_app. split; [done|].
  apply Forall_drop. constructor; [|constructor]. destruct Hp as [-> | ->]; auto.
Qed.

(** "whitelist /srv/a*" makes the loop run for ever: each of the two links matches the
    other, and each adds a line for it. *)
Lemma whitelist_globbing_loops fuel : (loop fuel 0 srv_top (with_lines ["whitelist " +:+ link_a])).1 = NoFuel.
Proof. apply dangling_loop; [reflexivity|cbn; lia|]. cbn. constructor; [by left|constructor]. Qed.


(** ** /etc *)

(** Eleven times @x11 are more files than the array has room for. *)
Example private_etc_overflow :
  fs_etc_build false false (Some (String.concat "," (repeat "@x11" 11))) = Ok None.
Proof. vm_compute. reflexivity. Qed.

Example group_name_added :
  fs_etc_build true true (Some "@tls-ca") =
  Ok (Some (String.concat "" (map (fun f => f +:+ ",") (etc_list ++ etc_group_tls_ca ++ ["@tls-ca"])))).
Proof. vm_compute. reflexivity. Qed.

(** The version digit of a UUID is the thirteenth, the variant digit the seventeenth. *)
Example machine_id_version : machine_id 0 0 0 0 = "00000000004000000000008000000000".
Proof. vm_compute. reflexivity. Qed.
