(* ===== verification/MainDemo.v ===== *)
(** * main on a concrete host

    A host with one bridge and one interface: command lines that are accepted, and
    what the theorems say about them. *)

From S2P Require Import Prelude.
From S2P Require Import Clib.
From S2P Require Import Keeps.
From S2P Require Import Bpf.
From S2P Require Import Caps.
From S2P Require Import SyscallTables.
From S2P Require Import SyscallGroups.
From S2P Require Import FilterFile.
From S2P Require Import Syscall.
From S2P Require Import SyscallSpec.
From S2P Require Import DropSpec.
From S2P Require Import Fseccomp.
From S2P Require Import Install.
From S2P Require Import Optimizer.
From S2P Require Import OptimizerTheorems.
From S2P Require Import Concrete.
From S2P Require Import Env.
From S2P Require Import Text.
From S2P Require Import Common.
From S2P Require Import Util.
From S2P Require Import Checkcfg.
From S2P Require Import Dbus.
From S2P Require Import Macros.
From S2P Require Import ProfileState.
From S2P Require Import ProfileCommands.
From S2P Require Import ProfileLine.
From S2P Require Import ProfileReadTheorems.
From S2P Require Import ProfileDemo.
From S2P Require Import NetConfig.
From S2P Require Import MainCommands.
From S2P Require Import MainOptions.
From S2P Require Import OptionTheorems.
From S2P Require Import AgreementTheorems.
From S2P Require Import NetTheorems.
From S2P Require Import Startup.
From S2P Require Import StartTheorems.
From S2P Require Import Sys.
From S2P Require Import SysFiles.
From S2P Require Import Session.
From S2P Require Import Chroot.
From S2P Require Import FsDemo.
From S2P Require Import MainSetup.
From S2P Require Import MainTheorems.

Definition their_mac : list Z := [2; 0; 0; 0; 0; 9].
Definition our_mac : list Z := [2; 0; 0; 0; 0; 1].

(** br0 has the address 10.0.0.1/24; 10.0.0.2 and 10.0.0.5 are in use. *)
#[export] Instance demo_net : NetHost := {|
  if_nametoindex := fun n => if streq n "br0" then 2 else if streq n "eth0" then 3 else 0;
  getifaddrs := [mk_ifaddrs "br0" (Some (0x0a000001, 0xffffff00))];
  if_hwaddr := fun n => Some our_mac;
  if_mtu := fun n => Some 1500;
  is_bridge := fun n => streq n "br0";
  route_text := None;
  arp_events := fun _ addr =>
    if (addr =? 0x0a000002) || (addr =? 0x0a000005) then [Frame (arp_reply our_mac their_mac addr)] else [Timeout; Timeout];
  rand_next := fun s => (s * 7 + 4, s + 1);
  getpid := 4242
|}.

#[export] Instance demo_session : SessionHost := {|
  glob_nocheck := fun _ pattern => Some [pattern];
  fd_issock := fun _ _ => true;
  fd_isreg := fun _ _ => true;
  lstat_issock := fun _ _ => true;
  mkstemp := fun _ _ => Some "/run/firejail/mnt/.sec.Xauthority/.Xauth-123456";
  loop_device := fun _ => 7
|}.

#[export] Instance demo_start : StartHost := {|
  login_defs := None;
  users_file := No_file;
  proc_comm := [Some (line "systemd")];
  release := "6.1.0";
  username := "joe";
  usershell := "/bin/bash";
  cwd := Some "/home/joe";
  gid := 1000;
  f_owner := fun _ _ => None;
  malloc := fun n => repeat "000"%char n
|}.

#[local] Existing Instance x86_64_headers.
#[local] Existing Instance atomic_writes.
#[local] Existing Instance atomic_writes_laws.

Definition demo_args : list string :=
  ["--private-dev"; "--net=br0"; "--defaultgw=10.0.0.1"; "--seccomp.drop=mount,execve"; "--noprofile"; "ls"; "--net=none"].

#[local] Notation run_args args c :=
  ((prog_index <~ parse_options 1 args ;; setup ("firejail" :: args) prog_index 77) c).

Definition with_devices : Config := (set_devices start).2.


Definition ran : outcome Z * Config := run_args demo_args with_devices.

Lemma demo_runs : run_args demo_args with_devices = (Ok 1677852689, ran.2).
Proof. apply (ok_pair (run_args demo_args with_devices) 1677852689). vm_compute. reflexivity. Qed.

Lemma options_kept_witness : kept with_devices ran.2 /\ int_of "arg_private_dev" ran.2 = 1.
Proof.
  split; [exact (options_kept 1 demo_args ("firejail" :: demo_args) 77 with_devices 1677852689 ran.2 demo_runs)|].
  vm_compute. reflexivity.
Defined.

(** --private-dev of [demo_args], and --net=none. *)
#[local] Notation none_args := (["--nosound"] ++ "--net=none" :: ["--noprofile"; "ls"]).

Lemma none_runs : run_args none_args with_devices = (Ok 1677852689, (run_args none_args with_devices).2).
Proof. apply (ok_pair (run_args none_args with_devices) 1677852689). vm_compute. reflexivity. Qed.

Lemma restriction_reaches_sandbox_witness :
  int_of "arg_nonetwork" (run_args none_args with_devices).2 <> 0 /\ Z.testbit 1677852689 30 = true.
Proof.
  assert (forallb is_option ["--nosound"] = true) as Hp by (vm_compute; reflexivity).
  assert (In ("--net=none", "arg_nonetwork") flag_options) as Hs by (cbn; tauto).
  destruct (restriction_reaches_sandbox 1 ["--nosound"] "--net=none" "arg_nonetwork" ["--noprofile"; "ls"]
    ("firejail" :: none_args) 77 with_devices 1677852689 _ Hp Hs none_runs) as [H1 H2].
  split; [exact H1|exact (H2 eq_refl)].
Defined.

Definition demo_options : list string := take 5 demo_args.
#[local] Notation parsed rest := (parse_options 1 (demo_options ++ [] ++ "ls" :: rest) with_devices).

Lemma program_arguments_ignored_witness :
  parsed ["--net=none"] = (Ok (Some 6), (parsed []).2).
Proof.
  assert (parsed [] = (Ok (Some 6), (parsed []).2)) as E.
  { apply (ok_pair (parsed []) (Some 6)). vm_compute. reflexivity. }
  refine (proj1 (program_arguments_ignored 1 demo_options [] "ls" [] ["--net=none"] with_devices (Some 6) (parsed []).2 _ _ E)).
  - vm_compute. reflexivity.
  - left. split; reflexivity.
Defined.

Lemma prog_index_spec_witness : exists pre sep prog rest, demo_args = pre ++ sep ++ prog :: rest /\
  forallb is_option pre = true /\ separates sep prog /\ 6 = 1 + Z.of_nat (length pre) + Z.of_nat (length sep).
Proof.
  assert (parsed ["--net=none"] = (Ok (Some 6), (parsed ["--net=none"]).2)) as E.
  { apply (ok_pair (parsed ["--net=none"]) (Some 6)). vm_compute. reflexivity. }
  exact (prog_index_spec 1 demo_args with_devices (Some 6) _ E).
Defined.

Lemma check_postexec_agrees_witness :
  is_Some (w_files (seccomp_drop "pre" "post" "mount,execve" false true no_files).2 !! "post").
Proof.
  destruct (check_postexec_agrees "pre" "post" "mount,execve" false
    [Entry false 165 (-1); Entry false 59 (-1)] no_files _ ltac:(vm_compute; reflexivity) ltac:(done) ltac:(done) eq_refl)
    as (b & E & H).
  apply H. assert (check_postexec (Some "mount,execve") = Ok true) as E2 by (vm_compute; reflexivity). congruence.
Defined.

(** ** Networks *)

Definition br0 : Bridge := bridge 0 ran.2.
Definition br0_fresh : Bridge := with_ipsandbox 0 br0.

Lemma br0_net : bridge_net br0_fresh 24.
Proof. split; [split; vm_compute; reflexivity|lia|vm_compute; reflexivity|left; split; vm_compute; reflexivity]. Qed.

Lemma arp_assign_valid_witness : arp_check "br0" 0x0a00000c = Ok false /\ in_netrange 0x0a00000c (ip br0_fresh) (mask br0_fresh) = None.
Proof.
  destruct (arp_assign_valid "br0" br0_fresh 24 with_devices 0x0a00000c (arp_assign "br0" br0_fresh with_devices).2 br0_net)
    as (H1 & _ & _ & H2 & _); [|split; assumption].
  apply (ok_pair (arp_assign "br0" br0_fresh with_devices) 0x0a00000c). vm_compute. reflexivity.
Defined.

Lemma arp_assign_complete_witness :
  exists a c', arp_assign "br0" br0_fresh with_devices = (Ok a, c').
Proof.
  apply (arp_assign_complete "br0" br0_fresh 24 with_devices our_mac 0x0a000003 br0_net).
  - reflexivity.
  - split; [split; vm_compute; done|]. split; [vm_compute; done|]. split; vm_compute; [done|reflexivity].
Defined.

Definition net_args : list string := ["--net=br0"; "--defaultgw=10.0.0.1"].
Definition net_chosen : Config := (parse_options 1 net_args with_devices).2.

Lemma net_check_cfg_consistent_witness :
  is_configured 0 (net_check_cfg net_chosen).2 = true /\
  exists i, in_netrange 0x0a000001 (ip (bridge i (net_check_cfg net_chosen).2)) (mask (bridge i (net_check_cfg net_chosen).2)) = None.
Proof.
  destruct (net_check_cfg_consistent net_chosen (net_check_cfg net_chosen).2) as (_ & H1 & H2).
  - apply (ok_pair (net_check_cfg net_chosen) tt). vm_compute. reflexivity.
  - vm_compute. reflexivity.
  - split; [exact H1|]. destruct H2 as (i & _ & Hi); [vm_compute; done|]. exists i.
    replace 0x0a000001 with (int_of "defaultgw" net_chosen) by (vm_compute; reflexivity). exact Hi.
Defined.

(** ** Options and lines *)

Definition full_host : Host := {|
  built := fun _ => true;
  conf := conf;
  uid := uid;
  homedir := homedir;
  sysconfdir := sysconfdir;
  libdir := libdir;
  install_prefix := install_prefix;
  original_argv := original_argv;
  view := view;
  inet_pton6 := inet_pton6;
  sandbox_pid := sandbox_pid;
  child_status := child_status
|}.

Lemma options_agree_with_lines_witness :
  run_option (H := full_host) (mk_at 1 ["ls"]) "--blacklist=/boot" start = add_line (H := full_host) "blacklist /boot" start /\
  run_option (H := full_host) (mk_at 1 ["ls"]) "--protocol=unix" start = add_line (H := full_host) "protocol unix" start /\
  run_option (H := full_host) (mk_at 1 ["ls"]) "--nosound" start = add_line (H := full_host) "nosound" start.
Proof.
  assert (all_enabled (H := full_host)) as He by (split; [done|vm_compute; reflexivity..]).
  destruct (options_agree_with_lines (H := full_host) (mk_at 1 ["ls"]) start He) as (A1 & A2 & A3).
  split; [exact (A2 "blacklist" "/boot" ltac:(cbn; tauto) eq_refl)|].
  split; [exact (A1 "--protocol=" "protocol " "unix" ltac:(cbn; tauto) eq_refl)|].
  exact (A3 "--nosound" "nosound" "arg_nosound" ltac:(cbn; tauto) eq_refl).
Defined.

(** --ignore=tmpfs --tmpfs=/a/../b: the line gets into the list unchecked. *)
Definition ignored_args : list string := ["--ignore=tmpfs"; "--tmpfs=/a/../b"; "ls"].

Lemma ignored_option_unchecked :
  (parse_options 1 ignored_args start).1 = Ok (Some 3) /\
  profile (parse_options 1 ignored_args start).2 = ["tmpfs /a/../b"] /\
  (parse_options 1 (tail ignored_args) start).1 = Exit 1.
Proof. repeat split; vm_compute; reflexivity. Qed.

(** --include=common.inc does not find the file an "include common.inc" line finds: the
    test for a file in the working directory is the wrong way round. *)
Lemma include_name_not_found :
  f_access_r demo_view "common.inc" = Some 2 /\ f_access_r demo_view "/etc/firejail/common.inc" = None /\
  (include_option "common.inc" start).1 = Exit 1 /\
  (profile_find_firejail profile_read "common.inc" false start).1 = Ok true.
Proof. repeat split; vm_compute; reflexivity. Qed.

(** ** A link to firejail *)

Definition with_path : Config := (in_env (env_store "PATH=/usr/local/bin:/usr/bin" SETENV) start).2.

Lemma run_symlink_runs_witness :
  "ls" <> "firejail" /\
  (run_symlink ["/home/joe/bin/ls"; "-l"] false with_path).1 <> Ok tt /\
  effects (run_symlink ["/home/joe/bin/ls"; "-l"] false with_path).2 =
    [Exec "/usr/bin/firejail" ["/usr/bin/firejail"; "/usr/local/bin/ls"; "-l"]].
Proof.
  assert ("ls" <> "firejail") as Hn by done.
  split; [exact Hn|]. split; [exact (proj1 (run_symlink_runs ["/home/joe/bin/ls"; "-l"] false with_path Hn))|].
  vm_compute. reflexivity.
Defined.
