(* ===== verification/SandboxDemo.v ===== *)
(** * Runs of the sandbox process

    A command line, the set-up of main and the cloned process up to execve on a
    small host, and the inputs of the other theorems about the process. *)

From S2P Require Import Prelude.
From S2P Require Import Clib.
From S2P Require Import Keeps.
From S2P Require Import Bpf.
From S2P Require Import Caps.
From S2P Require Import SyscallTables.
From S2P Require Import SyscallGroups.
From S2P Require Import FilterFile.
From S2P Require Import Syscall.
From S2P Require Import SyscallSpec.
From S2P Require Import DropSpec.
From S2P Require Import Fseccomp.
From S2P Require Import Install.
From S2P Require Import Optimizer.
From S2P Require Import OptimizerTheorems.
From S2P Require Import Concrete.
From S2P Require Import DropTheorems.
From S2P Require Import InstallTheorems.
From S2P Require Import ArgTheorems.
From S2P Require Import Env.
From S2P Require Import Text.
From S2P Require Import Common.
From S2P Require Import Util.
From S2P Require Import Checkcfg.
From S2P Require Import Dbus.
From S2P Require Import Macros.
From S2P Require Import ProfileState.
From S2P Require Import ProfileCommands.
From S2P Require Import ProfileLine.
From S2P Require Import ProfileReadTheorems.
From S2P Require Import ProfileDemo.
From S2P Require Import NetConfig.
From S2P Require Import MainCommands.
From S2P Require Import MainOptions.
From S2P Require Import OptionTheorems.
From S2P Require Import Startup.
From S2P Require Import Sys.
From S2P Require Import SysFiles.
From S2P Require Import FsVar.
From S2P Require Import FsEtc.
From S2P Require Import RestrictUsers.
From S2P Require Import FsBin.
From S2P Require Import FsDev.
From S2P Require Import Fs.
From S2P Require Import FsHost.
From S2P Require Import FsHome.
From S2P Require Import FsWhitelist.
From S2P Require Import Session.
From S2P Require Import Chroot.
From S2P Require Import MainSetup.
From S2P Require Import MainTheorems.
From S2P Require Import Sandbox.
From S2P Require Import Parent.
From S2P Require Import SandboxKeeps.
From S2P Require Import SandboxTheorems.
From S2P Require Import MainDemo.

(** Owner and mode as the calls so far have set them. *)
Definition perm_of (path : string) (e : effect) : option Z :=
  match e with
  | Call f mode (p :: _) =>
      if streq p path && (streq f "mkdir" || streq f "chmod" || streq f "fchmod" || streq f "open") then Some mode else None
  | _ => None
  end.
Definition owner_of (path : string) (e : effect) : option (Z * Z) :=
  match e with
  | Call f u [p; g] => if streq p path && (streq f "chown" || streq f "fchown") then Some (u, (strtol 10 g).1) else None
  | _ => None
  end.
Definition last_some {A B} (f : A -> option B) (l : list A) (d : B) : B :=
  foldl (fun acc a => default acc (f a)) d l.
Definition box_stat (l : list effect) (path : string) : fstat :=
  let '(u, g) := last_some (owner_of path) l (0, 0) in
  mk_stat true false (last_some (perm_of path) l 493) u g 1 7.

(** Nothing is there yet under /run/firejail. *)
Definition box_view : fsview := mk_view
  (fun p => negb (has_prefix RUN_FIREJAIL_DIR p)) (fun _ => false) (fun _ => false) (fun _ => true)
  (fun _ => Some 2) Some (fun _ => None) (fun _ => []).

#[local] Instance box_host : Host := {|
  built := fun n => negb (streq n "HAVE_ONLY_SYSCFG_PROFILES");
  conf := default_settings 0 [] ∅;
  uid := 1000;
  homedir := "/home/joe";
  sysconfdir := "/etc/firejail";
  libdir := "/usr/lib";
  install_prefix := "/usr";
  original_argv := ["firejail"; "--nonewprivs"; "--caps.drop=all"; "--nogroups"; "--seccomp.drop=mount,execve"; "--noprofile"; "ls"];
  view := fun _ => box_view;
  inet_pton6 := fun _ => false;
  sandbox_pid := fun _ => None;
  child_status := fun _ => 0
|}.

#[local] Instance box_kernel : Kernel := {|
  sys_errno := fun _ => 0;
  sys_open := fun _ _ _ => None;
  sys_openat := fun _ _ _ _ => None;
  sys_openat2 := fun _ _ _ _ => Some None;
  sys_created := fun _ => 40;
  sys_fstat := fun _ _ => inr 2;
  sys_stat := fun l path => Some (box_stat l path);
  sys_lstat := fun _ _ => None;
  sys_statvfs := fun _ _ => None;
  realpath_errno := fun _ _ => 2;
  mount_handle := fun _ _ => 1;
  fdinfo := fun _ _ => [];
  mountinfo := fun _ => [line "1 1 0:4 / / rw - ext4 none rw"];
  opendir := fun _ _ => Some [];
  glob := fun _ _ => Some [];
  glob_matches := fun _ _ => None;
  sys_fstatat := fun _ _ _ _ => None;
  sys_faccess_x := fun _ _ => true;
  d_type_dir := fun _ _ => false;
  sys_access_x := fun _ _ => true;
  sys_size := fun _ _ => 0;
  gethostname := fun _ => Some "box";
  sys_isreg := fun _ _ => true;
  boot_record := fun _ => "";
  getpwnam := fun _ => None;
  get_group_id := fun n => if streq n "video" then 44 else if streq n "audio" then 29 else 0;
  fnmatch := fun n path => if streq n path then 0 else 1;
  bindir := "/usr/bin";
  user_shell := "/bin/bash";
  own_gid := 1000
|}.

#[local] Instance box_child : ChildHost := {|
  from_parent := fun l => match last l with
                          | Some (Call f 0 [m]) => if streq f "write" then parent_reply m else Some (line "arg_noroot=0")
                          | _ => Some (line "arg_noroot=0")
                          end;
  filter_file := fun _ => None;
  accepts_filter := fun _ => true;
  current_groups := [1000; 29; 44; 4];
  user_groups := Some [1000; 29; 44; 4];
  can_drop_all := false;
  accepts_groups := fun _ => true;
  proc_fds := fun _ => Some (3, ["."; ".."; "0"; "1"; "2"; "3"; "9"]);
  ll_fd := -1;
  rlim_max := fun _ => Some 4096;
  ibus_dir := fun _ => None;
  wait_events := [mk_waited 77 0];
  proc_rounds := [["1"; "self"]]
|}.

#[local] Existing Instance x86_64_headers.
#[local] Existing Instance atomic_writes.
#[local] Existing Instance atomic_writes_laws.
#[local] Instance box_caps : CapKernel :=
  Build_CapKernel 40 (fun n set => if n <=? 40 then (DropOk, Z.ldiff set (2 ^ n)) else (DropEINVAL, set)).

Definition box_args : list string :=
  ["--nonewprivs"; "--caps.drop=all"; "--nogroups"; "--seccomp.drop=mount,execve"; "--noprofile"; "ls"].
#[local] Notation main_run args c :=
  ((prog_index <~ parse_options 1 args ;; setup ("firejail" :: args) prog_index 77) c).
(** What startup leaves behind. *)
Definition ready : Config := ((set_devices ;;; set_int "uid_min" 1000 ;;; set_int "gid_min" 1000 ;;; set_int "orig_umask" 18 ;;;
  in_env (env_store_name_val "PATH" "/usr/bin:/bin" SETENV)) start).2.
Definition boxed : Config := (main_run box_args ready).2.
Definition cloned (c : Config) : child := mk_child c (Sandbox ∅ [] []) (CapsState (Z.ones 41) 0) current_groups false false [].

#[local] Instance box_parent_laws : ParentLaws.
Proof. intros l m. cbn [from_parent box_child]. by rewrite last_snoc. Qed.

#[local] Instance box_cap_laws : CapLaws.
Proof.
  split.
  - cbn. lia.
  - intros n set Hn. cbn in *. assert (n <=? 40 = true) as -> by lia. done.
  - intros n set Hn. cbn in *. assert (n <=? 40 = false) as -> by lia. done.
  - done.
  - intros macro Hm.
    assert (forallb (fun m => bool_decide (is_Some (linux_cap m))) cap_required = true) as W by (vm_compute; reflexivity).
    rewrite forallb_forall in W. by apply (bool_decide_eq_true _), W.
Qed.

Lemma box_runs : main_run box_args ready = (Ok 604110865, boxed).
Proof. apply (ok_pair (main_run box_args ready) 604110865). vm_compute. reflexivity. Qed.

Definition in_the_box : child := (sandbox_application 10 (cloned boxed)).2.

Lemma sandbox_runs : sandbox_application 10 (cloned boxed) = (Ok tt, in_the_box).
Proof. apply (ok_pair (sandbox_application 10 (cloned boxed)) tt). vm_compute. reflexivity. Qed.

(** ls runs without capabilities and new privileges, in two groups. *)
Lemma sandbox_confines_witness :
  ch_nnp in_the_box = true /\ (forall n, 0 <= n <= 40 -> Z.testbit (bset (ch_caps in_the_box)) n = false) /\
  groups_left false (ch_cfg in_the_box) current_groups = Ok [29; 44] /\
  last (effects (ch_cfg in_the_box)) = Some (Exec "ls" ["ls"]).
Proof.
  destruct (sandbox_confines 10 (cloned boxed) in_the_box sandbox_runs) as (_ & _ & _ & _ & Hk & Hg & Hn & _).
  split; [apply Hn; vm_compute; reflexivity|]. split; [|split; [etrans; [exact Hg|vm_compute; reflexivity]|vm_compute; reflexivity]].
  intros n Hr. rewrite (Hk (or_introl eq_refl) n Hr). unfold cap_kept.
  assert (arg_caps_drop_all (caps_config_of (ch_cfg in_the_box)) = true) as -> by (vm_compute; reflexivity). apply andb_false_r.
Defined.

Lemma box_split pre s post : pre ++ s :: post = box_args ->
  (prog_index <~ parse_options 1 (pre ++ s :: post) ;; setup ("firejail" :: box_args) prog_index 77) ready
  = (Ok 604110865, boxed).
Proof. intros ->. exact box_runs. Qed.

Lemma option_confines_program_witness :
  ch_nnp in_the_box = true /\ (forall g, In g [29; 44] -> g <> 0).
Proof.
  assert (forallb is_option ["--nonewprivs"; "--caps.drop=all"] = true) as Hp by (vm_compute; reflexivity).
  assert (In ("--nonewprivs", "arg_nonewprivs") flag_options) as Hs1 by (cbn; tauto).
  assert (In ("--nogroups", "arg_nogroups") flag_options) as Hs2 by (cbn; tauto).
  split.
  - exact (proj1 (option_confines_program 1 [] "--nonewprivs" "arg_nonewprivs" (tail box_args) ("firejail" :: box_args) 77
      ready 604110865 boxed 10 (cloned boxed) in_the_box eq_refl Hs1 (box_split [] _ _ eq_refl) eq_refl sandbox_runs) eq_refl).
  - assert (ch_groups in_the_box = [29; 44]) as E by (vm_compute; reflexivity). rewrite <- E. intros g Hg.
    exact (proj1 (proj2 (proj2 (option_confines_program 1 ["--nonewprivs"; "--caps.drop=all"] "--nogroups" "arg_nogroups"
      (drop 3 box_args) ("firejail" :: box_args) 77 ready 604110865 boxed 10 (cloned boxed) in_the_box Hp
      Hs2 (box_split ["--nonewprivs"; "--caps.drop=all"] "--nogroups" (drop 3 box_args) eq_refl) eq_refl sandbox_runs)) eq_refl g Hg)).
Defined.

(** mount is refused by a filter of ls; read is not. *)
Lemma listed_calls_blocked_witness : exists p, In p (ch_programs in_the_box) /\
  run_filter p (call 165 []) = Some (Z.lor SECCOMP_RET_ERRNO EPERM) /\ run_filter p (call 0 []) = Some SECCOMP_RET_ALLOW.
Proof.
  assert (forall p : list sock_filter, accepts_filter p = true) as Ha by done.
  destruct (listed_calls_blocked 10 (cloned boxed) in_the_box "mount,execve" (Z.lor SECCOMP_RET_ERRNO EPERM)
    [Entry false 165 (-1); Entry false 59 (-1)] atomic_writes_full Ha sandbox_runs) as (p & Hp & Hr);
    [vm_compute; reflexivity..| |vm_compute; lia|].
  - by repeat constructor.
  - exists p. split; [exact Hp|].
    split; rewrite Hr by (split; [discriminate|reflexivity]); vm_compute; reflexivity.
Defined.

(** ** The other theorems *)

(** A new root directory: the descriptor 5, of root as all below it. *)
Section Root.
#[local] Instance root_kernel : Kernel := {|
  sys_errno := fun _ => 0;
  sys_open := fun _ _ _ => Some 6;
  sys_openat := fun _ _ _ _ => Some 7;
  sys_openat2 := fun _ _ _ path => Some (if streq path "/srv/root" then Some 5 else None);
  sys_created := fun _ => 40;
  sys_fstat := fun _ fd => inl (mk_stat true false 493 0 0 1 fd);
  sys_stat := fun l path => Some (box_stat l path);
  sys_lstat := fun _ _ => None;
  sys_statvfs := fun _ _ => None;
  realpath_errno := fun _ _ => 2;
  mount_handle := fun _ _ => 1;
  fdinfo := fun _ _ => [];
  mountinfo := fun _ => [line "1 1 0:4 / / rw - ext4 none rw"];
  opendir := fun _ _ => Some [];
  glob := fun _ _ => Some [];
  glob_matches := fun _ _ => None;
  sys_fstatat := fun _ _ path _ => Some (mk_stat true false (if streq path "tmp" then 1023 else 493) 0 0 1 9);
  sys_faccess_x := fun _ _ => true;
  d_type_dir := fun _ _ => false;
  sys_access_x := fun _ _ => true;
  sys_size := fun _ _ => 0;
  gethostname := fun _ => Some "box";
  sys_isreg := fun _ _ => true;
  boot_record := fun _ => "";
  getpwnam := fun _ => None;
  get_group_id := fun _ => 0;
  fnmatch := fun n path => if streq n path then 0 else 1;
  bindir := "/usr/bin";
  user_shell := "/bin/bash";
  own_gid := 1000
|}.

Definition rooted : Config := (fs_chroot "/srv/root" ready).2.

Lemma root_runs : fs_chroot "/srv/root" ready = (Ok tt, rooted).
Proof. apply (ok_pair (fs_chroot "/srv/root" ready) tt). vm_compute. reflexivity. Qed.

Lemma fs_chroot_checked_witness : exists fd l1 l2,
  effects rooted = l1 ++ [Mount (Of fd) (At "/run/firejail/mnt/oroot") "" 20480 ""; Call "chroot" 0 ["/run/firejail/mnt/oroot"]] ++ l2.
Proof.
  destruct (fs_chroot_checked "/srv/root" ready rooted root_runs) as (fd & l1 & l2 & _ & _ & _ & _ & _ & _ & E).
  exists fd, (effects ready ++ l1 ++ [Call "mkdir" 493 [RUN_OVERLAY_ROOT]]), (Call "chdir" 0 ["/"] :: l2).
  rewrite E. by rewrite <- !app_assoc.
Defined.
End Root.

(** Both buses blocked. *)
Definition no_buses : Config := with_dbus_user DBUS_POLICY_BLOCK (with_dbus_system DBUS_POLICY_BLOCK ready).
Definition cut_off : Config := (dbus_apply_policy no_buses).2.

Lemma dbus_runs : dbus_apply_policy no_buses = (Ok tt, cut_off).
Proof. apply (ok_pair (dbus_apply_policy no_buses) tt). vm_compute. reflexivity. Qed.

Lemma dbus_apply_policy_cuts_witness :
  env_get "DBUS_SESSION_BUS_ADDRESS" (environment cut_off) = Some "unix:path=/run/firejail/mnt/dbus/user" /\
  env_get "DBUS_SYSTEM_BUS_ADDRESS" (environment cut_off) = Some "unix:path=/run/firejail/mnt/dbus/system".
Proof.
  assert (enabled CFG_DBUS = true) as Hd by (vm_compute; reflexivity).
  destruct (dbus_apply_policy_cuts no_buses cut_off Hd dbus_runs) as (Hu & Hs & _).
  split; [exact (proj1 (Hu ltac:(discriminate)))|exact (proj1 (Hs ltac:(discriminate)))].
Defined.

(** The application, 77, starts another process and exits with 3; the other one, 80, is
    waited for. *)
Definition demo_events : list waited := [mk_waited 79 256; mk_waited 77 768; mk_waited 80 0].
Definition demo_rounds : list (list string) := [["."; "1"; "80"; "self"]; ["."; "1"; "self"]].

Lemma monitor_runs : monitor_loop 77 false demo_events demo_rounds 77 0 0 0 = Ok (0, 768).
Proof. reflexivity. Qed.

(** With --deterministic-shutdown the process that is left is not waited for. *)
Lemma monitor_shuts_down : monitor_loop 77 true demo_events [] 77 0 0 0 = Ok (768, 768).
Proof. reflexivity. Qed.

Lemma monitor_returns_witness : all_gone demo_rounds /\ exists seen, up_to_report 77 seen /\ foldl (record_event 77) (0, 0) seen = (768, 768).
Proof.
  split.
  - destruct (monitor_returns 77 false demo_events demo_rounds 77 0 0 0 (0, 768) monitor_runs) as (seen & l & _ & _ & Hg). exact Hg.
  - destruct (monitor_returns 77 true demo_events [] 77 0 0 0 (768, 768) monitor_shuts_down) as (seen & l & _ & E & Hs).
    exists seen. split; [exact Hs|rewrite E; reflexivity].
Defined.

Lemma monitor_ends_witness : exists r, monitor_loop 77 false demo_events demo_rounds 77 0 0 0 = Ok r.
Proof.
  apply (monitor_ends 77 demo_rounds demo_events 77 0 0).
  apply (reports_next 77 [mk_waited 79 256] (mk_waited 77 768) _ _ _); [|reflexivity|rewrite <- nobody_left_spec; discriminate|].
  - constructor; [split; discriminate|constructor].
  - apply (reports_last 80 [] (mk_waited 80 0) _ [] []); [constructor|reflexivity|apply nobody_left_spec; reflexivity].
Defined.

Lemma exit_status_spec_witness : exit_status 768 = 3 /\ exit_status 139 = 139.
Proof. exact (exit_status_spec 3 11 true ltac:(lia) ltac:(lia)). Defined.
