(* ===== verification/JoinDemo.v ===== *)
(** * Runs of joining processes and helper programs

    A sandbox and a shell that joins it, on the host of [SandboxDemo] with the
    files of two processes: firejail, 500, and its child 501. *)

From S2P Require Import Prelude.
From S2P Require Import Clib.
From S2P Require Import Keeps.
From S2P Require Import Cmdline.
From S2P Require Import Bpf.
From S2P Require Import Caps.
From S2P Require Import SyscallTables.
From S2P Require Import SyscallGroups.
From S2P Require Import FilterFile.
From S2P Require Import Syscall.
From S2P Require Import SyscallSpec.
From S2P Require Import Fseccomp.
From S2P Require Import Optimizer.
From S2P Require Import Install.
From S2P Require Import Concrete.
From S2P Require Import DropTheorems.
From S2P Require Import ArgTheorems.
From S2P Require Import InstallTheorems.
From S2P Require Import Env.
From S2P Require Import Text.
From S2P Require Import Common.
From S2P Require Import Util.
From S2P Require Import UtilTheorems.
From S2P Require Import Checkcfg.
From S2P Require Import Macros.
From S2P Require Import ProfileState.
From S2P Require Import ProfileCommands.
From S2P Require Import NetConfig.
From S2P Require Import Startup.
From S2P Require Import Sys.
From S2P Require Import SysFiles.
From S2P Require Import Session.
From S2P Require Import Chroot.
From S2P Require Import MainSetup.
From S2P Require Import Sandbox.
From S2P Require Import Parent.
From S2P Require Import Sbox.
From S2P Require Import Join.
From S2P Require Import SandboxKeeps.
From S2P Require Import SandboxTheorems.
From S2P Require Import OptimizerTheorems.
From S2P Require Import JoinTheorems.
From S2P Require Import ProfileDemo.
From S2P Require Import MainDemo.
From S2P Require Import SandboxDemo.

#[local] Existing Instance x86_64_headers.
#[local] Existing Instance atomic_writes.
#[local] Existing Instance atomic_writes_laws.
#[local] Existing Instance box_host.
#[local] Existing Instance box_child.
#[local] Existing Instance box_caps.
#[local] Existing Instance box_cap_laws.
#[local] Existing Instance box_parent_laws.

(** The first value of a table at a name. *)
Definition at_name {A} (l : list (string * A)) (n : string) : option A :=
  option_map snd (List.find (fun p => streq n p.1) l).

(** Descriptors: 50 and 70 are the directories of 500 and 501 under /proc. *)
Definition proc_names : list (string * Z) :=
  [("comm", 52); ("status", 51); ("../501", 70)].
Definition sandbox_names : list (string * Z) :=
  [("status", 71); ("root/run/firejail/mnt/join", 72); ("root/run/firejail/mnt/umask", 73);
   ("root/run/firejail/mnt/nonewprivs", 79); ("root/run/firejail/mnt/groups", 81);
   ("ns/ipc", 74); ("ns/net", 75); ("ns/pid", 76); ("ns/uts", 77); ("ns/mnt", 78)].
Definition opened : list (string * Z) :=
  [("/proc/500", 50); ("/run/firejail/sandbox/500", 60); ("/run/firejail/lib/fseccomp", 80)].

#[local] Instance join_kernel : Kernel := {|
  sys_errno := fun _ => 0;
  sys_open := fun _ _ path => at_name opened path;
  sys_openat := fun _ fd _ path => at_name (if fd =? 50 then proc_names else if fd =? 70 then sandbox_names else []) path;
  sys_openat2 := fun _ _ _ _ => Some None;
  sys_created := fun _ => 40;
  sys_fstat := fun _ fd => if (fd =? 72) || (fd =? 80) then inl (mk_stat false false 420 0 0 1 9) else inr 2;
  sys_stat := fun l path => Some (box_stat l path);
  sys_lstat := fun _ _ => None;
  sys_statvfs := fun _ _ => None;
  realpath_errno := fun _ _ => 2;
  mount_handle := fun _ _ => 1;
  fdinfo := fun _ _ => [];
  mountinfo := fun _ => [line "1 1 0:4 / / rw - ext4 none rw"];
  opendir := fun _ _ => Some [];
  glob := fun _ _ => Some [];
  glob_matches := fun _ _ => None;
  sys_fstatat := fun _ _ _ _ => None;
  sys_faccess_x := fun _ _ => true;
  d_type_dir := fun _ _ => false;
  sys_access_x := fun _ _ => true;
  sys_size := fun _ _ => 0;
  gethostname := fun _ => Some "box";
  sys_isreg := fun _ _ => true;
  boot_record := fun _ => "";
  getpwnam := fun _ => None;
  get_group_id := fun n => if streq n "video" then 44 else if streq n "audio" then 29 else 0;
  fnmatch := fun n path => if streq n path then 0 else 1;
  bindir := "/usr/bin";
  user_shell := "/bin/bash";
  own_gid := 1000
|}.

(** The sandbox of [SandboxDemo]. *)
Definition sandboxed : child := (sandbox_application 10 (cloned boxed)).2.

Lemma sandboxed_runs : sandbox_application 10 (cloned boxed) = (Ok tt, sandboxed).
Proof. apply (ok_pair (sandbox_application 10 (cloned boxed)) tt). vm_compute. reflexivity. Qed.

Definition tab : string := String (chr 9) EmptyString.
Definition status_500 : string := line ("Name:" +:+ tab +:+ "firejail") +:+ line ("Uid:" +:+ tab +:+ "1000" +:+ tab +:+ "0" +:+ tab +:+ "0" +:+ tab +:+ "0").
Definition status_501 : string :=
  line ("PPid:" +:+ tab +:+ "500") +:+ line ("CapBnd:" +:+ tab +:+ "0000000000000000") +:+ line ("NoNewPrivs:" +:+ tab +:+ "1").
Definition texts : list (string * string) :=
  [("51", status_500); ("52", line "firejail"); ("60", line "501"); ("71", status_501); ("72", "1"); ("73", line "22"); ("79", line ""); ("81", line "")].
Definition stats : list string :=
  ["ns/pid"; "ns/user"; "root/run/firejail/mnt/umask"; "root/run/firejail/mnt/groups"; "root/run/firejail/mnt/nonewprivs"].

#[local] Instance join_files : JoinHost := {|
  sys_fstatat0 := fun _ _ path => if existsb (streq path) stats then inl (box_stat [] "") else inr ENOENT;
  fd_text := fun _ fd => default "" (at_name texts (print_d fd));
  fd_isreg := fun _ _ => true;
  fd_size := fun _ _ => 1;
  get_userns := fun _ _ => None;
  lock_owner := fun _ _ => Some (Some 500);
  joined_files := sb_files (ch_sec sandboxed);
  joined_list := Some (sb_list (ch_sec sandboxed))
|}.

(** firejail --join=500 *)
Definition joiner : child :=
  cloned ((EUID_USER ;;; set_int "just_run_the_shell" 1 ;;; set_str "usershell" "/bin/bash") ready).2.
Definition join_argv : list string := ["firejail"; "--join=500"].

Definition pinned : ProcessHandle := mk_process 501 70.
Definition joined : child := (join_application 10 500 join_argv 2 joiner).2.

Lemma join_runs : join_application 10 500 join_argv 2 joiner = (Ok tt, joined).
Proof. apply (ok_pair (join_application 10 500 join_argv 2 joiner) tt). vm_compute. reflexivity. Qed.

(** ** The theorems at these runs *)

Lemma box_user : uid <> 0.
Proof. vm_compute. discriminate. Qed.

Lemma pin_runs : pin_sandbox_process 10 500 (ch_cfg joiner) = (Ok pinned, (pin_sandbox_process 10 500 (ch_cfg joiner)).2).
Proof. apply (ok_pair (pin_sandbox_process 10 500 (ch_cfg joiner)) pinned). vm_compute. reflexivity. Qed.

Lemma pinned_is_own_sandbox_witness :
  exists parent, complete (ch_cfg joiner) (pin_sandbox_process 10 500 (ch_cfg joiner)).2 pinned /\
    pid_file (ch_cfg joiner) (pin_sandbox_process 10 500 (ch_cfg joiner)).2 (process_get_pid parent) 501.
Proof.
  destruct (pinned_is_own_sandbox 10 500 (ch_cfg joiner) pinned _ pin_runs) as (parent & _ & _ & _ & Hp & _ & Hc).
  exists parent. split; [exact Hc|exact Hp].
Defined.

Lemma check_joinable_bounded_witness : (check_joinable pinned (ch_cfg joiner)).1 <> NoFuel.
Proof. exact (proj1 (check_joinable_bounded pinned ltac:(split; [discriminate|reflexivity]) (ch_cfg joiner))). Defined.

(** The shell that joins runs without capabilities and new privileges, in no group. *)
Lemma join_application_confines_witness :
  ch_nnp joined = true /\ (forall n, 0 <= n <= 40 -> Z.testbit (bset (ch_caps joined)) n = false) /\ Ok [] = Ok (ch_groups joined).
Proof.
  destruct (join_application_confines 10 500 join_argv 2 joiner joined box_user join_runs)
    as (p & c & E & Hk & Hg & _ & _ & Hn & _).
  assert ((join_prepare 10 500 (ch_cfg joiner)).2 = c) as <- by (rewrite E; reflexivity).
  split; [apply Hn; right; vm_compute; reflexivity|]. split.
  - intros n Hr. rewrite (Hk ltac:(vm_compute; reflexivity) n Hr).
    assert (int_of "caps" (join_prepare 10 500 (ch_cfg joiner)).2 = 0) as -> by (vm_compute; reflexivity).
    rewrite Z.bits_0. apply andb_false_r.
  - assert (groups_left (set "arg_nogroups" (join_prepare 10 500 (ch_cfg joiner)).2) (join_prepare 10 500 (ch_cfg joiner)).2
      (ch_groups joiner) = Ok []) as G by (vm_compute; reflexivity).
    rewrite G in Hg. exact Hg.
Defined.

Lemma files_joined : joined_files = sb_files (ch_sec sandboxed).
Proof. unfold joined_files, join_files. reflexivity. Qed.
Lemma list_joined : default [] joined_list = sb_list (ch_sec sandboxed).
Proof. unfold joined_list, join_files. reflexivity. Qed.
Lemma files_unchanged : forallb (unchanged joined_files) (sb_filters (ch_sec sandboxed)) = true.
Proof. vm_compute. reflexivity. Qed.
Lemma joiner_network : set "arg_join_network" (ch_cfg joiner) = false.
Proof. vm_compute. reflexivity. Qed.
Lemma joiner_fresh : sb_filters (ch_sec joiner) = [].
Proof. reflexivity. Qed.

Lemma joined_runs_same_filters_witness : exists ps,
  ch_programs sandboxed = ch_programs (cloned boxed) ++ ps /\ ch_programs joined = ch_programs joiner ++ ps.
Proof.
  exact (joined_runs_same_filters 10 (cloned boxed) sandboxed 10 500 join_argv 2 joiner joined sandboxed_runs files_joined
    list_joined files_unchanged box_user joiner_network joiner_fresh join_runs).
Defined.

(** The settings of the sandbox, as it saves them. *)
Definition saving : Config := (save_settings boxed).2.

Lemma saving_runs : save_settings boxed = (Ok tt, saving).
Proof. apply (ok_pair (save_settings boxed) tt). vm_compute. reflexivity. Qed.

Definition saved_as (fname : string) : option string := saved_text (settings_made boxed) fname.
Lemma umask_saved : saved_as RUN_UMASK_FILE = Some (line "22").
Proof. vm_compute. reflexivity. Qed.
Lemma nonewprivs_saved : saved_as RUN_NONEWPRIVS_CFG = Some (line "").
Proof. vm_compute. reflexivity. Qed.
Lemma cpu_saved : saved_as RUN_CPU_CFG = None.
Proof. vm_compute. reflexivity. Qed.
Lemma groups_saved : saved_as RUN_GROUPS_CFG = Some (line "").
Proof. vm_compute. reflexivity. Qed.

Definition extracted : Config := (extract_settings pinned (ch_cfg joiner)).2.
Lemma extract_runs : extract_settings pinned (ch_cfg joiner) = (Ok tt, extracted).
Proof. apply (ok_pair (extract_settings pinned (ch_cfg joiner)) tt). vm_compute. reflexivity. Qed.

Lemma pinned_has_files : has_files (settings_made boxed) pinned.
Proof.
  intros fname Hf k. fold (saved_as fname). destruct Hf as [<-|[<-|[<-|[<-|[]]]]].
  - rewrite umask_saved. split; [exists 73; by split|eexists; reflexivity].
  - rewrite nonewprivs_saved. split; [exists 79; by split|eexists; reflexivity].
  - rewrite cpu_saved. by split.
  - rewrite groups_saved. split; [exists 81; by split|eexists; reflexivity].
Qed.

Lemma pinned_bounded : bounded_by pinned 0.
Proof.
  exists status_501, true. split; [vm_compute; reflexivity|]. intros k. exists 71. by split.
Qed.

Lemma join_restores_settings_witness : int_of "orig_umask" extracted = 18 /\ int_of "arg_nonewprivs" extracted = 1.
Proof.
  assert (int_of "orig_umask" boxed = 18) as Hu by (vm_compute; reflexivity).
  assert (int_of "cpus" boxed = 0) as Hc by (vm_compute; reflexivity).
  destruct (join_restores_settings pinned boxed saving (ch_cfg joiner) extracted (settings_made boxed) 0 box_user
    ltac:(rewrite Hu; split; [discriminate|reflexivity]) ltac:(rewrite Hc; split; [discriminate|reflexivity])
    saving_runs (save_settings_inv _ _ _ saving_runs) pinned_has_files pinned_bounded extract_runs) as (E & _ & Hn & _).
  split; [rewrite E; exact Hu|apply Hn; vm_compute; reflexivity].
Defined.

(** fseccomp, run by firejail. *)
Definition helper_flags : Z := Z.lor (Z.lor SBOX_USER SBOX_CAPS_NONE) SBOX_SECCOMP.
Definition helper_args : list string := ["/run/firejail/lib/fseccomp"; "debug-syscalls"].
Definition helper : child := (sbox_exec_v helper_flags helper_args (cloned ready)).2.

Lemma helper_runs : sbox_exec_v helper_flags helper_args (cloned ready) = (Ok tt, helper).
Proof. apply (ok_pair (sbox_exec_v helper_flags helper_args (cloned ready)) tt). vm_compute. reflexivity. Qed.

Lemma sbox_exec_confines_witness : ch_ids helper = true /\ ch_groups helper = [] /\
  (forall n, 0 <= n <= 40 -> Z.testbit (bset (ch_caps helper)) n = false) /\ length (ch_programs helper) = 1%nat.
Proof.
  destruct (sbox_exec_confines helper_flags helper_args (cloned ready) helper helper_runs) as (Hu & Hk & Hp & _).
  destruct (Hu eq_refl) as [Hi Hg]. split; [exact Hi|]. split; [exact Hg|]. split; [|rewrite Hp; reflexivity].
  intros n Hr. rewrite (Hk n Hr). assert (sbox_cap helper_flags n = false) as -> by reflexivity. apply andb_false_r.
Defined.

Lemma call_ok n : (0 <=? n) && (n <? INT_MAX) = true -> nr_ok (sd_nr (call n [])).
Proof. intros Hn. unfold nr_ok. cbn [sd_nr call]. lia. Qed.

(** Of the calls of a helper program mount is refused, read is not. *)
Lemma sbox_filter_blocks_witness :
  run_filter (sbox_filter SECCOMP_RET_KILL) (call 165 []) = Some SECCOMP_RET_KILL /\
  run_filter (sbox_filter SECCOMP_RET_KILL) (call 0 []) = Some SECCOMP_RET_ALLOW.
Proof.
  assert (Forall nr_ok sbox_blocked) as Hl.
  { assert (forallb (fun n => (0 <=? n) && (n <? INT_MAX)) sbox_blocked = true) as W by (vm_compute; reflexivity).
    rewrite forallb_forall in W. apply List.Forall_forall. intros n Hn. specialize (W n Hn). unfold nr_ok. lia. }
  split.
  - etrans; [exact (sbox_filter_blocks SECCOMP_RET_KILL (call 165 []) Hl (call_ok 165 eq_refl))|vm_compute; reflexivity].
  - etrans; [exact (sbox_filter_blocks SECCOMP_RET_KILL (call 0 []) Hl (call_ok 0 eq_refl))|vm_compute; reflexivity].
Defined.
